(* ===== verification/_CoqProject ===== *)
-Q . S2P
Prelude.v
Prog.v
Replay.v
World.v
Consts.v
Sequence.v
Wire.v
Siphash.v
Ipv4.v
Crypto.v
Events.v
Cli.v
Peer.v
Net.v
Messages.v
Boot.v
Frame.v
Halt.v
Rely.v
Release.v
Delivery.v
ServerPeers.v
Server.v
ServerSpec.v
ServerDelivery.v
ServerThreads.v
ServerLifecycle.v
Client.v
ClientTable.v
ClientSafe.v
ClientThreads.v
ClientRegister.v
ClientSpec.v
EndToEnd.v
ClientLifecycle.v
Termination.v
Races.v
Chronicle.v
Tunnel.v
ServerMessages.v
Tui.v
Log.v
Main.v
Relaunch.v
Runner.v
RunnerSpec.v
RunnerRun.v
WinRuntime.v
Platform.v
Sitest.v
LinuxRunner.v
ForgeOptions.v
Forge.v
ForgeSpec.v
ForgeRun.v
ForgeServer.v
WinTun.v
WinTunSpec.v
WinTunRun.v
Darwin.v
