(* ===== verification/Prelude.v ===== *)
(** * TunD: a virtual LAN over UDP

    TunD connects hosts over the Internet as if they were on one LAN,
    10.9.0.0/24.  A server and its clients exchange datagrams encrypted under
    one shared key; each host has a TUN device.  Clients register with the
    server, which assigns them addresses and forwards their IPv4 packets to the
    peer that owns the destination address, to all peers for the broadcast
    address, or to its own device.  Both programs are the same executable
    ([src/src]); each runs three threads (the main loop on the socket, a
    keepalive or timeout thread, a reader of the TUN device) that share one
    structure under one lock.

    The development follows the POSIX build for Linux on a little-endian
    machine; the TUN devices of macOS and Windows and what the Windows build
    does in its own way are modelled beside it.  The repository also has a load
    generator, [tools/peerforge], that plays many clients over real sockets, a
    server without a device to run it against, and a desktop program whose
    runners for Windows and Linux open a window with a view of Flutter.

    ** How the code is modelled

    - [Prelude.v]: machine integers as [Z] with their wrap-around written out
      ([u8] ... [u64], [i64_sub]), byte arrays as lists with checked accesses
      ([buf_get], [mem_read], [mem_write], [c_str], [strncpy], [snprintf_s]);
      [None] is undefined behaviour.  Shared lemmas, tactics and hint
      databases.
    - [Prog.v]: effectful code as a finite tree of atomic actions on the state
      of a process ([prog]).  [run] executes it alone, [step] interleaves a
      pool of threads and a signal handler.  A section under the lock, an
      atomic operation and a system call are one action.  Three logics: [wp]
      (one run), [guar]/[safe] (rely-guarantee, against any interference that
      keeps the invariant), [always] (what every action does).
    - [World.v]: the process.  Its globals ([g_running], [g_crypto_key],
      [g_proto_next_sequence], ...), the trace of what the outside sees, and
      the operating system as an oracle whose [n]-th answer is an arbitrary
      function within the documented contract ([env_ok]).  [HasWorld] is the
      interface of a component to its process; [Framed], [Permits], [Quiet] and
      [Allows] say what an invariant survives.
    - [Halt.v], [Frame.v], [Messages.v], [Boot.v], [Rely.v], [Release.v] add
      the shared arguments: termination of thread pools, what is left alone
      ([steady]), which messages may leave ([grants]), accounts of descriptors
      and threads ([Accounts], [balance], [unjoined]), assertions of the main
      thread that the other threads leave stable ([rg]), and the release of
      what a process holds while its other threads still run ([Holder],
      [main_releases]).
    - [Chronicle.v]: exactly what one run issues, sends and hands to its device
      ([stage]), beside the other logics, which bound it.  [Tunnel.v] composes
      three processes with it: a network ([transmit], [offer_packet]) carries
      each datagram to the next loop.
    - [Races.v]: two conflicting accesses of a field that two threads may make
      next, in either order ([race]).  The interleavings of [step] are those of
      atomic actions, in sequentially consistent order; the one field that the
      source shares without lock or atomic is [dev->fd], and its race at the
      shutdown is proved there to be reachable.

    ** Files and sources

    - [protocol/protocol.[ch]]: [Consts.v] (constants), [Sequence.v]
      (randomness, sequence numbers), [Wire.v] (header, builders, readers),
      [Crypto.v] (encryption over the class [Monocypher]), [Replay.v] (replay
      window), [Ipv4.v] (packet validation), [Siphash.v].
    - [net/network.c]: [Net.v] (send, receive, poll), [Boot.v] (sockets, name
      resolution).  [tun/linux/tun.c], [tun/tun.h]: [Boot.v].
    - [app/tund.h]: [Peer.v], [Events.v], [Cli.v], [Main.v].  [app/events.c]:
      [Events.v].  [app/log.c]: [Log.v], and [LOG] of [World.v] as programs
      see it.  [app/cli.c]: [Cli.v].  [app/main.c], [app/platform.c]: [Main.v].
    - [core/server]: [ServerPeers.v] (peers.c), [Server.v] (handlers.c, data.c,
      keepalive.c), [ServerThreads.v] (threads.c, loop and shutdown of
      server.c), [ServerLifecycle.v] (start-up of server.c, log.c).
    - [core/client]: [Client.v] (peers.c, session.c, handlers.c),
      [ClientRegister.v] (register.c), [ClientThreads.v] (threads and shutdown
      of client.c), [ClientLifecycle.v] (start-up of client.c, log.c).
    - [ui]: [Tui.v].
    - [tun/darwin]: [Darwin.v].  [tun/windows]: [WinTun.v] (functions),
      [WinTunSpec.v] (rules for them), [WinTunRun.v] (properties, runs).
    - [app/win_runtime.c] and the Windows branch of [app/platform.c]:
      [Relaunch.v] (quoting, relaunch; also [gui/windows/runner/utils.cpp]),
      [WinRuntime.v] (rights, console, crash report).
    - [Platform.v]: both branches of the clocks, waits and error texts of
      [app/tund.h], the start of Winsock ([net/network.c]), the handlers of
      signals and console events.
    - [gui/windows/runner]: [Runner.v] (window objects in a store, messages that
      re-enter them, the program), [RunnerSpec.v] (effects and invariant, by
      [gwp], a logic on what objects and windows there are), [RunnerRun.v]
      (properties, runs).  [gui/linux/runner]: [LinuxRunner.v].
    - [tools/sitest]: [Sitest.v].
    - [tools/peerforge]: [ForgeOptions.v] (options.c), [Forge.v] (net.c,
      client.c, main.c), [ForgeSpec.v] (rules), [ForgeRun.v] (properties, a
      run), [ForgeServer.v] (server.c, around the handlers of [Server.v]).

    Definitions carry the names of the source.  A structure is a record
    ([server_t], [client_t], [peer_t], ...), a loop is a [Fixpoint] over the
    array it walks, a handler is a [prog]; where a C function is split, the
    part is named after it ([register_locked], [register_reply]).

    ** What is proved

    - Cryptography and framing: round trip of encryption, only authentic
      datagrams decrypt, encryption succeeds while the random device works;
      the IPv4 validator accepts exactly LAN packets; the replay window refines
      the set of accepted numbers; SipHash-2-4; JSON escaping.
    - Server: [ServerSpec.v] gives the effect of every handler on the table and
      all it may send (no spoofing, no replay, allocation of the smallest free
      address, peer lists), [ServerMessages.v] exactly what registration and
      disconnection do to the table and send, message by message, when the
      entropy source works, [ServerDelivery.v] that accepted packets are delivered,
      [ServerThreads.v] that no interleaving of threads and signals is
      undefined, corrupts the table or issues a sequence number twice, and that
      timeouts remove exactly the idle peers.
    - Client: [ClientTable.v] and [ClientSpec.v] refine its table to a finite
      map, bound what it sends and hands to its device under any interleaving;
      [EndToEnd.v] composes it with what the server writes.
    - The tunnel: [tunnel_delivers] of [Tunnel.v] runs the loops of a client, of
      the server and of another client one after the other and shows that a LAN
      packet read from the first device is written, once and unchanged, to the
      last.  It assumes of the processes that they run, have entropy and numbers
      left ([working]), and of their replay windows only that they have accepted
      nothing but numbers the sender issued ([follows]).
    - Life of the processes: [ServerLifecycle.v], [ClientLifecycle.v]
      (initialisation is all or nothing: it fails only when a call was
      refused, and succeeds only when every call whose result the code looks at
      was accepted; whatever happens and however the
      shutdown interleaves with the threads that still run, every descriptor is
      closed and every thread joined at the end, but for the descriptor of
      /dev/urandom, which the code opens at most once and keeps, [random_kept]),
      [Termination.v] (after a stop
      request the threads terminate under every interleaving), [Cli.v] (an
      accepted command line), [Main.v] (every exit wipes the key), [Tui.v] and
      [Log.v] (frames show the registered peers and the last seven log lines at
      or above the level, which otherwise are lines of [stderr]).
    - Other platforms: opening a Windows adapter is all or nothing, the address
      given to it takes effect with the right prefix, packets pass its ring
      whole and reading waits while the ring is empty; macOS frames round-trip and its device is configured as asked; the
      Windows program continues only with administrator rights and passes its
      command line on exactly when it asks for them; its clock, waits and error
      texts stay within their bounds.
    - Desktop program: under any sequence of operations and messages the window
      objects and the windows of the system belong to each other, so that no
      message reaches a dead object; exactly one case is undefined, a change of
      fonts for a window without engine ([font_fault]); the program hands its
      arguments to the engine once, and ends with everything given back or waits
      with its window open.
    - Load generator: options in range, registration only by an authentic
      answer of the server, exit code 0 only if every client registered and
      every echo and probe asked for came back on its socket, in order
      ([forge_steps]), all sockets closed; the test server runs the handlers
      exactly until its deadline, keeps their invariant and closes its socket.

    ** Bounds and fuel

    Loops over arrays are structural.  [random_loop] asks for [len]
    bytes of which every read delivers at least one, after at most [env_eintr]
    interruptions, so [len * S env_eintr] reads are enough; [alloc_loop] runs over the 254 host numbers, registration makes its three
    attempts, seeding the sequence counter needs one exchange that succeeds
    when no other thread seeded it first, and [stdin_control] consumes input at
    each step, so its length is enough.  The loops of the load generator run
    against a clock and sockets: their fuel is the number [n] of the contract
    [waits] (within [n] readings the clock moves on by a minute, the longest
    of their deadlines, and within [n] calls of [select] a socket is dry);
    the number of passes of the test server is at most [n] of [hourly], an hour
    being its longest run, and with fuel for fewer passes than it makes its loop
    has no result.
    Reading the Windows device has the bound of [ring_patient], within which the
    ring has a packet or an error; [prefix_loop] has 33 steps for the 32 bits of
    a mask; waiting for the configuration of an adapter has its 20 polls.
    [DestroyWindow] has depth 2: the handler of [WM_DESTROY] clears the handle
    before it destroys, so that no call nests deeper than one.  Resolutions of a
    screen are 1 to 960 dots per inch, ten times the usual one.  The loops of
    threads are unbounded: they are iterations of the step relation.

    ** Assumptions

    [MonocypherLaws] states authenticated encryption (what was locked unlocks,
    nothing else does, lengths) and is instantiated by [SampleCipher].  Clocks
    stay below 2^62.  System calls return.  Claims about uniqueness of sequence
    numbers hold up to 2^63 numbers.  The code enters its loops with [npeers]
    uninitialised; the claims about interleavings cover this when the terminal UI
    is off or no poll is interrupted by a signal ([uninterrupted]), and that the
    remaining case is undefined is a finding
    ([server_run_interrupted_poll_undefined]).
    A client relies on terminated names in PEER_JOIN; that the code does not
    check this is a finding ([client_peer_join_overread]).  The load generator's
    claims assume that the numbers of its sockets stay below [FD_SETSIZE], and
    that a socket which is drained without waiting runs dry: its loop has no
    other bound.  The peer address on macOS is another host only if the mask
    leaves two host bits free, which the code does not check.  Further findings:
    the shutdown races on [dev->fd] ([Races.v]); on Windows the name the system
    gives an adapter is ignored ([win_open_ignores_system_name]), loading the
    driver again after a failure calls through a null pointer
    ([wintun_load_retry_undefined]), and a change of fonts for a window without
    engine dereferences one ([font_fault]).

    ** Not modelled

    Monocypher's internals (third-party code; the class [Monocypher] states what
    the program relies on), [getopt_long], the fixed texts of log lines, usage
    and error messages, the attributes of the window class that have no effect
    on the logic, the Dart application (it talks to the program through its
    options, events and standard input) and the macOS runner, an unchanged
    template in Swift.  Windows, GTK and Flutter are oracles of the runners: the
    messages that Windows sends while a window is created or destroyed are
    arbitrary among those that only report ([passive]), and Flutter leaves [WM_DESTROY] to the
    window ([gui_env_ok]).  Winsock errors are those of the POSIX oracle.
    [pthread_join] is an action that may return before the thread has ended, so
    the executions of the model include those of the program, in which it
    waits.  The load generator is proved against an arbitrary server, not
    composed with the handlers of this one; the tunnel is composed for packets
    between two clients. *)
From stdpp Require Import base list numbers option.
From Stdlib Require Ascii String.
Export String.StringSyntax.

Open Scope Z_scope.

(** * Machine integers *)

Definition u8 (z : Z) : Z := z mod 2 ^ 8.
Definition u16 (z : Z) : Z := z mod 2 ^ 16.
Definition u32 (z : Z) : Z := z mod 2 ^ 32.
Definition u64 (z : Z) : Z := z mod 2 ^ 64.

Definition is_u8 (z : Z) : Prop := 0 <= z < 2 ^ 8.
Definition is_u16 (z : Z) : Prop := 0 <= z < 2 ^ 16.
Definition is_u32 (z : Z) : Prop := 0 <= z < 2 ^ 32.
Definition is_u64 (z : Z) : Prop := 0 <= z < 2 ^ 64.

(** Signed 64-bit subtraction ([time_t]); overflow is undefined behaviour. *)
Definition i64_sub (a b : Z) : option Z :=
  let r := a - b in
  if (- 2 ^ 63 <=? r) && (r <? 2 ^ 63) then Some r else None.

Ltac words := unfold u8, u16, u32, u64, is_u8, is_u16, is_u32, is_u64 in *.

(** * Byte strings *)

(** A C byte array: one element in [0, 256) per [uint8_t]. *)
Abbreviation bytes := (list Z) (only parsing).

Definition zlen {A} (l : list A) : Z := Z.of_nat (length l).

Definition bytes_ok (l : bytes) : Prop := Forall is_u8 l.

(** Little-endian value of a byte string, and its inverse. *)
Fixpoint le_combine (l : bytes) : Z :=
  match l with
  | [] => 0
  | b :: t => b + 256 * le_combine t
  end.

Fixpoint le_split (n : nat) (z : Z) : bytes :=
  match n with
  | O => []
  | S m => z mod 256 :: le_split m (z / 256)
  end.

Definition be_combine (l : bytes) : Z := le_combine (rev l).
Definition be_split (n : nat) (z : Z) : bytes := rev (le_split n z).

(** [htonl]/[ntohl] and [htons]/[ntohs] of a little-endian host: byte swaps. *)
Definition htonl (x : Z) : Z := le_combine (be_split 4 x).
Definition ntohl (x : Z) : Z := htonl x.
Definition htons (x : Z) : Z := le_combine (be_split 2 x).
Definition ntohs (x : Z) : Z := htons x.

(** The bytes of a string literal. *)
Definition str (s : String.string) : bytes :=
  map (fun c => Z.of_N (Ascii.N_of_ascii c)) (String.list_ascii_of_string s).
Arguments str s%_string_scope.

(** * Memory access with explicit bounds *)

(** Every read or write of a C array goes through these operations; [None] is
    undefined behaviour (an access outside of the array). *)
Definition buf_get (b : bytes) (i : Z) : option Z :=
  if 0 <=? i then b !! Z.to_nat i else None.

Definition mem_read (b : bytes) (off len : Z) : option bytes :=
  if (0 <=? off) && (0 <=? len) && (off + len <=? zlen b)
  then Some (take (Z.to_nat len) (drop (Z.to_nat off) b))
  else None.

Definition mem_write (b : bytes) (off : Z) (src : bytes) : option bytes :=
  if (0 <=? off) && (off + zlen src <=? zlen b)
  then Some (take (Z.to_nat off) b ++ src ++ drop (Z.to_nat off + length src) b)
  else None.

(** A NUL-terminated string stored in an array: the bytes before the first
    zero.  [None] when the array holds no zero, so that a C string function
    would run past its end. *)
Fixpoint c_str (l : bytes) : option bytes :=
  match l with
  | [] => None
  | b :: t => if b =? 0 then Some [] else s ← c_str t; Some (b :: s)
  end.

(** The C string a list of non-zero bytes stands for, stored in an array of
    size [n] the way [memset] 0 followed by a bounded copy stores it. *)
Definition pad_to (n : nat) (l : bytes) : bytes :=
  take n l ++ replicate (n - length l) 0.

(** What [strncpy(dst, src, n)] stores at [dst]: the string and zeros up to
    [n], or the first [n] bytes of a longer string.  [None] when [src] ends
    without terminator before [n] bytes. *)
Fixpoint strncpy (src : bytes) (n : nat) : option bytes :=
  match n with
  | O => Some []
  | S m =>
      match src with
      | [] => None
      | b :: t =>
          if b =? 0 then Some (replicate n 0)
          else match strncpy t m with Some r => Some (b :: r) | None => None end
      end
  end.

(** What [snprintf(dst, n, "%s", src)] stores at [dst]: at most [n - 1] bytes
    of the string and a terminator.  What follows it in [dst] is unspecified
    for a fresh array and never read as a string. *)
Definition snprintf_s (n : nat) (src : bytes) : option bytes :=
  match c_str src with Some s => Some (take (n - 1) s ++ [0]) | None => None end.

(** * Automation *)

Create HintDb tund.
Create HintDb tund_consts.

(** Splits boolean conjunctions and comparisons of the model into
    propositions and closes arithmetic. *)
Ltac bools :=
  repeat match goal with
  | H : (_ && _)%bool = true |- _ => apply andb_true_iff in H; destruct H
  | H : (_ && _)%bool = false |- _ => apply andb_false_iff in H
  | H : (_ || _)%bool = true |- _ => apply orb_true_iff in H
  | H : (_ || _)%bool = false |- _ => apply orb_false_iff in H; destruct H
  | H : negb _ = true |- _ => apply negb_true_iff in H
  | H : negb _ = false |- _ => apply negb_false_iff in H
  | H : (_ <=? _) = true |- _ => apply Z.leb_le in H
  | H : (_ <=? _) = false |- _ => apply Z.leb_gt in H
  | H : (_ <? _) = true |- _ => apply Z.ltb_lt in H
  | H : (_ <? _) = false |- _ => apply Z.ltb_ge in H
  | H : (_ =? _) = true |- _ => apply Z.eqb_eq in H
  | H : (_ =? _) = false |- _ => apply Z.eqb_neq in H
  end.

(** Case analysis on the innermost boolean test of the goal. *)
Ltac tests :=
  repeat match goal with
  | |- context [if ?b then _ else _] =>
      lazymatch b with
      | context [if _ then _ else _] => fail
      | _ => destruct b eqn:?
      end
  end; bools.

Ltac zl := unfold zlen in *; lia.

(** * Facts on byte strings *)

Lemma zlen_app {A} (l k : list A) : zlen (l ++ k) = zlen l + zlen k.
Proof. unfold zlen. rewrite length_app. lia. Qed.

Lemma zlen_cons {A} (x : A) l : zlen (x :: l) = 1 + zlen l.
Proof. unfold zlen. cbn [length]. lia. Qed.

Lemma zlen_nil {A} : zlen (@nil A) = 0.
Proof. reflexivity. Qed.

Lemma zlen_nonneg {A} (l : list A) : 0 <= zlen l.
Proof. zl. Qed.

Lemma bytes_ok_app l k : bytes_ok (l ++ k) <-> bytes_ok l /\ bytes_ok k.
Proof. apply Forall_app. Qed.

Lemma bytes_ok_cons b l : bytes_ok (b :: l) <-> is_u8 b /\ bytes_ok l.
Proof. apply List.Forall_cons_iff. Qed.

Lemma bytes_ok_nil : bytes_ok [].
Proof. constructor. Qed.

Lemma bytes_ok_take n l : bytes_ok l -> bytes_ok (take n l).
Proof. apply Forall_take. Qed.

Lemma bytes_ok_drop n l : bytes_ok l -> bytes_ok (drop n l).
Proof. apply Forall_drop. Qed.

Lemma bytes_ok_zeros n : bytes_ok (replicate n 0).
Proof. apply Forall_replicate. words; lia. Qed.

Lemma is_u8_mod z : is_u8 (z mod 256).
Proof. words. apply Z.mod_pos_bound. lia. Qed.

#[export] Hint Resolve bytes_ok_nil bytes_ok_take bytes_ok_drop bytes_ok_zeros is_u8_mod : tund.

Lemma length_le_split n z : length (le_split n z) = n.
Proof. revert z. induction n; intros; cbn [le_split length]; auto. Qed.

Lemma length_be_split n z : length (be_split n z) = n.
Proof. unfold be_split. rewrite length_rev. apply length_le_split. Qed.

Lemma le_split_ok n z : bytes_ok (le_split n z).
Proof.
  revert z. induction n; intros; cbn [le_split]; constructor; [apply is_u8_mod | apply IHn].
Qed.

Lemma be_split_ok n z : bytes_ok (be_split n z).
Proof. apply Forall_rev, le_split_ok. Qed.

#[export] Hint Resolve le_split_ok be_split_ok : tund.

Lemma pow256_succ n : 256 ^ Z.of_nat (S n) = 256 * 256 ^ Z.of_nat n.
Proof. rewrite Nat2Z.inj_succ, Z.pow_succ_r; lia. Qed.

Lemma le_combine_bound l : bytes_ok l -> 0 <= le_combine l < 256 ^ Z.of_nat (length l).
Proof.
  induction 1 as [|b t Hb _ IH]; cbn [le_combine length]; [lia|].
  rewrite pow256_succ. words. lia.
Qed.

Lemma le_combine_u32 l : bytes_ok l -> (length l <= 4)%nat -> is_u32 (le_combine l).
Proof.
  intros Hb Hl. pose proof (le_combine_bound l Hb). words.
  assert (256 ^ Z.of_nat (length l) <= 256 ^ 4) by (apply Z.pow_le_mono_r; lia). lia.
Qed.

Lemma le_combine_split n z : le_combine (le_split n z) = z mod 256 ^ Z.of_nat n.
Proof.
  revert z. induction n as [|n IH]; intros z; cbn [le_split le_combine].
  - symmetry. apply Z.mod_1_r.
  - rewrite IH, pow256_succ, Z.rem_mul_r; lia.
Qed.

Lemma le_split_combine l : bytes_ok l -> le_split (length l) (le_combine l) = l.
Proof.
  induction 1 as [|b t Hb _ IH]; cbn [le_combine length le_split]; [reflexivity|].
  words. f_equal.
  - rewrite Z.mul_comm, Z.mod_add by lia. apply Z.mod_small. lia.
  - replace ((b + 256 * le_combine t) / 256) with (le_combine t); [exact IH|].
    rewrite Z.mul_comm, Z.div_add, Z.div_small by lia. lia.
Qed.

Lemma be_combine_split n z : be_combine (be_split n z) = z mod 256 ^ Z.of_nat n.
Proof. unfold be_combine, be_split. rewrite rev_involutive. apply le_combine_split. Qed.

Lemma be_split_combine l : bytes_ok l -> be_split (length l) (be_combine l) = l.
Proof.
  intros H. unfold be_split, be_combine.
  rewrite <- (length_rev l), le_split_combine by now apply Forall_rev.
  apply rev_involutive.
Qed.

Lemma be_combine_bound l : bytes_ok l -> 0 <= be_combine l < 256 ^ Z.of_nat (length l).
Proof.
  intros H. unfold be_combine. rewrite <- (length_rev l).
  apply le_combine_bound. now apply Forall_rev.
Qed.

(** Appending one byte at the end of a big-endian string. *)
Lemma be_combine_snoc l b : be_combine (l ++ [b]) = 256 * be_combine l + b.
Proof. unfold be_combine. rewrite rev_app_distr. cbn [rev app le_combine]. lia. Qed.

Lemma htonl_is_u32 x : is_u32 (htonl x).
Proof.
  unfold htonl. pose proof (le_combine_bound _ (be_split_ok 4 x)) as H.
  rewrite length_be_split in H. exact H.
Qed.

Lemma le_combine_rev_split n z :
  0 <= z < 256 ^ Z.of_nat n ->
  le_combine (be_split n (le_combine (be_split n z))) = z.
Proof.
  intros H. unfold be_split at 1.
  rewrite <- (length_be_split n z) at 1.
  rewrite le_split_combine by apply be_split_ok.
  unfold be_split. rewrite rev_involutive, le_combine_split. now apply Z.mod_small.
Qed.

Lemma ntohl_htonl x : is_u32 x -> ntohl (htonl x) = x.
Proof. intros H. unfold ntohl, htonl. now apply le_combine_rev_split. Qed.

Lemma htonl_ntohl x : is_u32 x -> htonl (ntohl x) = x.
Proof. exact (ntohl_htonl x). Qed.

Lemma ntohs_htons x : is_u16 x -> ntohs (htons x) = x.
Proof. intros H. unfold ntohs, htons. now apply le_combine_rev_split. Qed.

Lemma htonl_inj x y : is_u32 x -> is_u32 y -> htonl x = htonl y -> x = y.
Proof. intros Hx Hy H. rewrite <- (ntohl_htonl x Hx), <- (ntohl_htonl y Hy). now f_equal. Qed.

Lemma ntohl_is_u32 x : is_u32 (ntohl x).
Proof. apply htonl_is_u32. Qed.

Lemma htons_is_u16 x : is_u16 (htons x).
Proof.
  unfold htons. pose proof (le_combine_bound _ (be_split_ok 2 x)) as H.
  rewrite length_be_split in H. exact H.
Qed.

#[export] Hint Resolve htonl_is_u32 ntohl_is_u32 : tund.

(** * Facts on memory access *)

Lemma buf_get_app_l b k i : 0 <= i < zlen b -> buf_get (b ++ k) i = buf_get b i.
Proof.
  intros H. unfold buf_get. destruct (Z.leb_spec 0 i); [|lia].
  apply lookup_app_l. zl.
Qed.

Lemma buf_get_some b i : 0 <= i < zlen b -> exists v, buf_get b i = Some v.
Proof.
  intros H. unfold buf_get. destruct (Z.leb_spec 0 i); [|lia].
  destruct (b !! Z.to_nat i) eqn:E; [eauto|].
  apply lookup_ge_None in E. zl.
Qed.

Lemma buf_get_ok b i v : bytes_ok b -> buf_get b i = Some v -> is_u8 v.
Proof.
  intros Hb. unfold buf_get. destruct (0 <=? i); [|done].
  intros E. eapply Forall_lookup_1 in Hb; eauto.
Qed.

Lemma mem_read_some b off len :
  0 <= off -> 0 <= len -> off + len <= zlen b ->
  mem_read b off len = Some (take (Z.to_nat len) (drop (Z.to_nat off) b)).
Proof. intros. unfold mem_read. tests; [done|lia]. Qed.

Lemma mem_read_app pre x post :
  mem_read (pre ++ x ++ post) (zlen pre) (zlen x) = Some x.
Proof.
  rewrite mem_read_some by (rewrite ?zlen_app; zl).
  unfold zlen. rewrite !Nat2Z.id, drop_app_length, take_app_length. done.
Qed.

(** The form used against a concrete layout [pre ++ x ++ post]. *)
Lemma mem_read_at b pre x post off len :
  b = pre ++ x ++ post -> off = zlen pre -> len = zlen x -> mem_read b off len = Some x.
Proof. intros -> -> ->. apply mem_read_app. Qed.

Lemma mem_read_length b off len r : mem_read b off len = Some r -> zlen r = len.
Proof.
  unfold mem_read. tests; [|done]. intros [= <-].
  unfold zlen in *. rewrite length_take, length_drop. lia.
Qed.

Lemma mem_read_ok b off len r : bytes_ok b -> mem_read b off len = Some r -> bytes_ok r.
Proof. intros H. unfold mem_read. tests; [|done]. intros [= <-]. auto with tund. Qed.

Lemma mem_write_some b off src :
  0 <= off -> off + zlen src <= zlen b ->
  mem_write b off src = Some (take (Z.to_nat off) b ++ src ++ drop (Z.to_nat off + length src) b).
Proof. intros. unfold mem_write. tests; [done|lia]. Qed.

Lemma mem_write_at pre old post src off b :
  b = pre ++ old ++ post -> off = zlen pre -> length old = length src ->
  mem_write b off src = Some (pre ++ src ++ post).
Proof.
  intros -> -> Hl. rewrite mem_write_some by (rewrite ?zlen_app; zl).
  unfold zlen. rewrite Nat2Z.id, take_app_length, (drop_app_add pre), <- Hl, drop_app_length. done.
Qed.

Lemma mem_write_length b off src b' : mem_write b off src = Some b' -> length b' = length b.
Proof.
  unfold mem_write. tests; [|done]. intros [= <-].
  rewrite !length_app, length_take, length_drop. zl.
Qed.

Lemma mem_write_ok b off src b' :
  bytes_ok b -> bytes_ok src -> mem_write b off src = Some b' -> bytes_ok b'.
Proof.
  intros Hb Hs. unfold mem_write. tests; [|done]. intros [= <-].
  rewrite !bytes_ok_app. auto with tund.
Qed.

(** A buffer of at least [n] bytes splits into its first [n] and the rest. *)
Lemma split_at (n : nat) (b : bytes) :
  (n <= length b)%nat -> exists x y, b = x ++ y /\ length x = n.
Proof.
  intros H. exists (take n b), (drop n b). rewrite take_drop, length_take. split; [done|lia].
Qed.

(** * Facts on C strings *)

Lemma c_str_app s t : Forall (fun b => b <> 0) s -> c_str (s ++ 0 :: t) = Some s.
Proof.
  induction 1 as [|b s Hb _ IH]; cbn [c_str app]; [done|].
  destruct (Z.eqb_spec b 0); [done|]. now rewrite IH.
Qed.

Lemma c_str_spec l s :
  c_str l = Some s <-> Forall (fun b => b <> 0) s /\ exists t, l = s ++ 0 :: t.
Proof.
  split.
  - revert s. induction l as [|b l IH]; intros s; cbn [c_str]; [done|].
    destruct (Z.eqb_spec b 0) as [->|Hb].
    + intros [= <-]. split; [constructor|]. now exists l.
    + destruct (c_str l) as [s'|]; [|done]. intros [= <-].
      destruct (IH s' eq_refl) as [HF [t ->]]. split; [now constructor|]. now exists t.
  - intros [HF [t ->]]. now apply c_str_app.
Qed.

Lemma c_str_in_range l : In 0 l -> exists s, c_str l = Some s.
Proof.
  induction l as [|b l IH]; cbn [In c_str]; [done|]. intros [->|H]; [now eexists|].
  destruct (b =? 0); [now eexists|]. destruct (IH H) as [s ->]. now eexists.
Qed.

Lemma c_str_length l s : c_str l = Some s -> (length s < length l)%nat.
Proof. intros [_ [t ->]]%c_str_spec. rewrite length_app. cbn. lia. Qed.

Lemma c_str_ok l s : bytes_ok l -> c_str l = Some s -> bytes_ok s.
Proof. intros Hl [_ [t ->]]%c_str_spec. now apply bytes_ok_app in Hl. Qed.

Lemma length_pad_to n l : length (pad_to n l) = n.
Proof. unfold pad_to. rewrite length_app, length_take, length_replicate. lia. Qed.

Lemma pad_to_ok n l : bytes_ok l -> bytes_ok (pad_to n l).
Proof. intros. unfold pad_to. rewrite bytes_ok_app. auto with tund. Qed.

#[export] Hint Resolve pad_to_ok : tund.

(** Lengths of composed byte strings. *)
#[export] Hint Rewrite @length_app @length_replicate length_le_split length_be_split length_pad_to
  : lens.
Ltac lens := cbn [length] in *; autorewrite with lens in *; cbn [length] in *.

Lemma strncpy_str src s n : c_str src = Some s -> strncpy src n = Some (pad_to n s).
Proof.
  revert s n. induction src as [|b t IH]; intros s [|n]; cbn [c_str strncpy]; try done.
  destruct (Z.eqb_spec b 0) as [->|Hb].
  - intros [= <-]. cbn. done.
  - destruct (c_str t) as [s'|]; [|done]. intros [= <-]. now rewrite (IH s' n eq_refl).
Qed.

Lemma strncpy_full src n : (n <= length src)%nat -> exists r, strncpy src n = Some r.
Proof.
  revert n. induction src as [|b t IH]; intros [|n] Hn; cbn [strncpy length] in *;
    try lia; try (now eexists).
  destruct (b =? 0); [now eexists|]. destruct (IH n ltac:(lia)) as [r ->]. now eexists.
Qed.

Lemma strncpy_length src n r : strncpy src n = Some r -> length r = n.
Proof.
  revert src r. induction n as [|n IH]; intros [|b t] r; cbn [strncpy]; intros H; simplify_eq; [done..|].
  destruct (b =? 0); [simplify_eq; cbn; now rewrite length_replicate|].
  destruct (strncpy t n) as [r'|] eqn:E; simplify_eq. cbn. now rewrite (IH _ _ E).
Qed.

Lemma strncpy_ok src n r : bytes_ok src -> strncpy src n = Some r -> bytes_ok r.
Proof.
  intros Hs. revert src r Hs. induction n as [|n IH]; intros [|b t] r Hs; cbn [strncpy]; intros H;
    simplify_eq; [apply bytes_ok_nil..|]. apply bytes_ok_cons in Hs as [Hb Ht].
  destruct (b =? 0); [simplify_eq; apply (bytes_ok_zeros (S n))|].
  destruct (strncpy t n) as [r'|] eqn:E; simplify_eq. apply bytes_ok_cons. eauto.
Qed.

Lemma c_str_take n s : Forall (fun b => b <> 0) s -> c_str (take n s ++ [0]) = Some (take n s).
Proof. intros H. apply c_str_app. now apply Forall_take. Qed.

(** A padded string reads back as its first [n - 1] bytes at most. *)
Lemma c_str_pad n s :
  Forall (fun b => b <> 0) s -> (length s < n)%nat -> c_str (pad_to n s) = Some s.
Proof.
  intros Hs Hn. unfold pad_to. rewrite take_ge by lia.
  destruct (n - length s)%nat as [|m] eqn:E; [lia|]. cbn [replicate]. now apply c_str_app.
Qed.

Lemma snprintf_terminated n src r :
  snprintf_s n src = Some r -> exists s, c_str r = Some s.
Proof.
  unfold snprintf_s. destruct (c_str src) as [s|] eqn:E; [|done]. intros [= <-].
  apply c_str_spec in E as [Hs _]. rewrite c_str_take by done. now eexists.
Qed.
