(* ===== verification/Prog.v ===== *)
(** Effectful C code as resumptions: a program is a finite tree of atomic
    actions on the shared state of its process.  Sequential execution ([run]),
    interleaved execution of a pool of threads ([step]) and the two program
    logics used by the other files ([wp] for one uninterrupted run, [guar] for
    a thread whose actions interleave with others). *)
From stdpp Require Import base list numbers option.
From S2P Require Import Prelude.

(** * Programs *)

(** [Act f k] performs [f] on the shared state without interruption and goes on
    with [k].  [f s = None] is undefined behaviour.  A critical section of a
    mutex, one atomic operation and one system call are one action each. *)
Inductive prog (S A : Type) : Type :=
| Ret (a : A)
| Act {B : Type} (f : S -> option (B * S)) (k : B -> prog S A).
Arguments Ret {S A} a.
Arguments Act {S A B} f k.

Fixpoint bind {S A B} (p : prog S A) (q : A -> prog S B) : prog S B :=
  match p with
  | Ret a => q a
  | Act f k => Act f (fun x => bind (k x) q)
  end.

Declare Scope prog_scope.
Delimit Scope prog_scope with prog.
Notation "'let*' x := p 'in' q" := (bind p (fun x => q))
  (at level 200, x name, p at level 100, q at level 200) : prog_scope.
Notation "'let*' ' x := p 'in' q" := (bind p (fun y => let 'x := y in q))
  (at level 200, x strict pattern, p at level 100, q at level 200) : prog_scope.
Notation "p ;; q" := (bind p (fun _ => q)) : prog_scope.
Open Scope prog_scope.

(** Sequencing of thread-local code that may be undefined. *)
Notation "'let?' x := p 'in' q" := (match p with Some x => q | None => None end)
  (at level 200, x name, p at level 100, q at level 200) : prog_scope.
Notation "'let?' ' x := p 'in' q" := (match p with Some x => q | None => None end)
  (at level 200, x strict pattern, p at level 100, q at level 200) : prog_scope.

(** One atomic action. *)
Definition atomic {S A} (f : S -> option (A * S)) : prog S A := Act f Ret.

(** Undefined behaviour in thread-local code. *)
Definition undef {S A} : prog S A := atomic (fun _ => None).

(** Thread-local code that may read or write out of bounds. *)
Definition local {S A} (o : option A) : prog S A :=
  match o with Some a => Ret a | None => undef end.

(** [for] over the elements of an array. *)
Fixpoint for_each {S A} (l : list A) (body : A -> prog S unit) : prog S unit :=
  match l with
  | [] => Ret tt
  | x :: l => bind (body x) (fun _ => for_each l body)
  end.

(** * Uninterrupted execution *)

Fixpoint run {S A} (p : prog S A) (s : S) : option (A * S) :=
  match p with
  | Ret a => Some (a, s)
  | Act f k => match f s with Some (x, s') => run (k x) s' | None => None end
  end.

(** [pthread_mutex_lock(&x->peers_lock)] ... [pthread_mutex_unlock]: what the
    lock guards is only touched under it, so the section is one action. *)
Definition locked {S A} (p : prog S A) : prog S A := atomic (run p).

(** [p] runs from [s] without undefined behaviour and ends in [Q]. *)
Definition wp {S A} (p : prog S A) (Q : A -> S -> Prop) (s : S) : Prop :=
  exists a s', run p s = Some (a, s') /\ Q a s'.

Section run.
Context {S : Type}.

Lemma run_bind {A B} (p : prog S A) (q : A -> prog S B) s :
  run (bind p q) s = match run p s with Some (a, s') => run (q a) s' | None => None end.
Proof.
  revert s. induction p as [a|B' f k IH]; intros s; cbn [bind run]; [done|].
  destruct (f s) as [[x s']|]; [apply IH|done].
Qed.

Lemma run_bind_inv {A B} (p : prog S A) (q : A -> prog S B) s b s2 :
  run (bind p q) s = Some (b, s2) -> exists a s1, run p s = Some (a, s1) /\ run (q a) s1 = Some (b, s2).
Proof. rewrite run_bind. destruct (run p s) as [[a s1]|]; [eauto|done]. Qed.

Lemma wp_bind {A B} (p : prog S A) (q : A -> prog S B) Q s :
  wp p (fun a => wp (q a) Q) s -> wp (bind p q) Q s.
Proof.
  intros (a & s' & Hp & b & s'' & Hq & HQ). exists b, s''.
  split; [|done]. now rewrite run_bind, Hp.
Qed.

Lemma wp_mono {A} (p : prog S A) (Q Q' : A -> S -> Prop) s :
  wp p Q s -> (forall a s', Q a s' -> Q' a s') -> wp p Q' s.
Proof. intros (a & s' & H & HQ) HI. exists a, s'. auto. Qed.

Lemma wp_ret {A} (a : A) (Q : A -> S -> Prop) s : Q a s -> wp (Ret a) Q s.
Proof. intros H. now exists a, s. Qed.

Lemma wp_act {A B} (f : S -> option (B * S)) (k : B -> prog S A) Q s b s' :
  f s = Some (b, s') -> wp (k b) Q s' -> wp (Act f k) Q s.
Proof. intros H (a & s'' & Hr & HQ). exists a, s''. cbn [run]. now rewrite H. Qed.

Lemma wp_local {A} (o : option A) (Q : A -> S -> Prop) s a :
  o = Some a -> Q a s -> wp (local o) Q s.
Proof. intros -> H. now exists a, s. Qed.

Lemma run_local {A} (o : option A) (s : S) :
  run (local o) s = match o with Some a => Some (a, s) | None => None end.
Proof. now destruct o. Qed.

Lemma bind_assoc_run {A B C} (p : prog S A) (q : A -> prog S B) (r : B -> prog S C) s :
  run (bind (bind p q) r) s = run (bind p (fun x => bind (q x) r)) s.
Proof.
  rewrite !run_bind. destruct (run p s) as [[a s']|]; [|done]. now rewrite run_bind.
Qed.

Lemma run_for_each_app {A} (l1 l2 : list A) body (s : S) :
  run (for_each (l1 ++ l2) body) s =
  match run (for_each l1 body) s with
  | Some (_, s') => run (for_each l2 body) s' | None => None end.
Proof.
  revert s. induction l1 as [|x l1 IH]; intros s; cbn [for_each app]; [done|].
  rewrite !run_bind. destruct (run (body x) s) as [[[] s']|]; [apply IH|done].
Qed.
End run.

(** * Interleaved execution *)

(** What a loop body decides: go on with the loop's local variable, or leave. *)
Inductive ctl : Type := Continue (l : Z) | Break.

Section guar.
Context {S : Type}.

(** Rely-guarantee: from any state where the shared invariant [I] holds, no
    action of [p] is undefined, every action keeps [I] and relates the states
    around it by [G], and the value returned satisfies [Q].  Between two
    actions the state is arbitrary within [I]: other threads may have run. *)
Fixpoint guar {A} (I : S -> Prop) (G : S -> S -> Prop) (p : prog S A) (Q : A -> Prop) : Prop :=
  match p with
  | Ret a => Q a
  | Act f k => forall s, I s ->
      exists b s', f s = Some (b, s') /\ I s' /\ G s s' /\ guar I G (k b) Q
  end.

Lemma guar_mono {A} I G (p : prog S A) (Q Q' : A -> Prop) :
  guar I G p Q -> (forall a, Q a -> Q' a) -> guar I G p Q'.
Proof.
  induction p as [a|B f k IH]; cbn [guar]; [auto|]. intros H HQ s Hs.
  destruct (H s Hs) as (b & s' & Hf & HI & HG & Hk). exists b, s'. eauto 6.
Qed.

Lemma guar_bind {A B} I G (p : prog S A) (q : A -> prog S B) Q :
  guar I G p (fun a => guar I G (q a) Q) -> guar I G (bind p q) Q.
Proof.
  induction p as [a|B' f k IH]; cbn [guar bind]; [auto|]. intros H s Hs.
  destruct (H s Hs) as (b & s' & Hf & HI & HG & Hk). exists b, s'. eauto 6.
Qed.

(** Sequencing with an intermediate assertion. *)
Lemma guar_seq {A B} I G (p : prog S A) (q : A -> prog S B) (P : A -> Prop) Q :
  guar I G p P -> (forall a, P a -> guar I G (q a) Q) -> guar I G (bind p q) Q.
Proof. intros Hp Hq. apply guar_bind. eapply guar_mono; eauto. Qed.

Lemma guar_atomic {A} (I : S -> Prop) G (f : S -> option (A * S)) (Q : A -> Prop) :
  (forall s, I s -> exists b s', f s = Some (b, s') /\ I s' /\ G s s' /\ Q b) ->
  guar I G (atomic f) Q.
Proof. auto. Qed.

Lemma guar_local {A} I G (o : option A) (Q : A -> Prop) a :
  o = Some a -> Q a -> guar I G (local o) Q.
Proof. intros -> H. exact H. Qed.

Lemma guar_for_each {A} I G (l : list A) body (P : A -> Prop) :
  Forall P l -> (forall x, P x -> guar I G (body x) (fun _ => True)) ->
  guar I G (for_each l body) (fun _ => True).
Proof.
  intros HF Hb. induction HF as [|x l Hx _ IH]; cbn [for_each]; [done|].
  apply guar_bind. eapply guar_mono; [now apply Hb|auto].
Qed.

(** A thread verified against interference also runs correctly alone. *)
Lemma guar_run {A} I G (p : prog S A) Q s :
  Reflexive G -> Transitive G -> guar I G p Q -> I s ->
  exists a s', run p s = Some (a, s') /\ I s' /\ G s s' /\ Q a.
Proof.
  intros HR HT. revert s. induction p as [a|B f k IH]; cbn [guar run]; intros s Hp Hs.
  - exists a, s. auto.
  - destruct (Hp s Hs) as (b & s1 & -> & HI & HG & Hk).
    destruct (IH b s1 Hk HI) as (a & s' & Hr & HI' & HG' & HQ).
    exists a, s'. eauto.
Qed.

(** The guarantee of several invariants at once is the guarantee of each. *)
Lemma guar_weaken {A} (I : S -> Prop) (G G' : S -> S -> Prop) (p : prog S A) Q :
  guar I G p Q -> (forall s s', G s s' -> G' s s') -> guar I G' p Q.
Proof.
  intros H HG. induction p as [a|B f k IH]; cbn [guar] in *; [done|]. intros s Hs.
  destruct (H s Hs) as (b & s' & Hf & HI & Hg & Hk). exists b, s'. eauto 6.
Qed.
End guar.

(** A pool: the code of each looping thread and, for each thread, what is left
    of its current iteration. *)
Section pool.
Context {S : Type}.
Variable body : nat -> Z -> prog S ctl.   (** loop body of each thread *)
Variable interrupt : S -> S.              (** asynchronous signal handler *)

Definition config : Type := list (prog S ctl) * S.

Inductive step : config -> config -> Prop :=
| step_act pool s i B (f : S -> option (B * S)) k b s' :
    pool !! i = Some (Act f k) -> f s = Some (b, s') ->
    step (pool, s) (<[i := k b]> pool, s')
| step_loop pool s i l :
    pool !! i = Some (Ret (Continue l)) ->
    step (pool, s) (<[i := body i l]> pool, s)
| step_signal pool s : step (pool, s) (pool, interrupt s).

Inductive steps : config -> config -> Prop :=
| steps_refl c : steps c c
| steps_more c c' c'' : steps c c' -> step c' c'' -> steps c c''.

Lemma steps_app c c' c'' : steps c c' -> steps c' c'' -> steps c c''.
Proof.
  intros H1 H2. induction H2 as [c'|c' d e _ IH Hde]; [exact H1|]. exact (steps_more c d e (IH H1) Hde).
Qed.

(** A thread that runs alone. *)
Lemma steps_run (p : prog S ctl) : forall pool s i a s',
  pool !! i = Some p -> run p s = Some (a, s') -> steps (pool, s) (<[i := Ret a]> pool, s').
Proof.
  induction p as [a0|B f k IH]; intros pool s i a s' Hi Hr; cbn [run] in Hr.
  - injection Hr as <- <-. rewrite list_insert_id by done. apply steps_refl.
  - destruct (f s) as [[b s1]|] eqn:Ef; [|done].
    apply (steps_app _ (<[i := k b]> pool, s1)); [eapply steps_more; [apply steps_refl|eapply step_act; eauto]|].
    rewrite <- (list_insert_insert_eq pool i (Ret a) (k b)). eapply IH; [|exact Hr].
    apply list_lookup_insert_eq. now apply lookup_lt_Some in Hi.
Qed.

(** A configuration about to perform undefined behaviour. *)
Definition wrong (c : config) : Prop :=
  exists i B (f : S -> option (B * S)) k, c.1 !! i = Some (Act f k) /\ f c.2 = None.

Context (I : S -> Prop) (G : S -> S -> Prop).
Context (L : nat -> Z -> Prop).           (** what each loop variable satisfies *)

Definition ctl_ok (i : nat) (c : ctl) : Prop :=
  match c with Continue l => L i l | Break => True end.

Hypothesis G_refl : Reflexive G.
Hypothesis G_trans : Transitive G.
Hypothesis body_guar : forall i l, L i l -> guar I G (body i l) (ctl_ok i).
Hypothesis interrupt_ok : forall s, I s -> I (interrupt s) /\ G s (interrupt s).

Definition pool_ok (c : config) : Prop :=
  I c.2 /\ forall i p, c.1 !! i = Some p -> guar I G p (ctl_ok i).

Lemma update_ok (pool : list (prog S ctl)) i p :
  (forall j q, pool !! j = Some q -> guar I G q (ctl_ok j)) -> guar I G p (ctl_ok i) ->
  forall j q, <[i := p]> pool !! j = Some q -> guar I G q (ctl_ok j).
Proof.
  intros Hp H j q Hj. apply list_lookup_insert_Some in Hj as [(-> & -> & _)|[_ Hj]]; eauto.
Qed.

Lemma step_ok c c' : pool_ok c -> step c c' -> pool_ok c' /\ G c.2 c'.2.
Proof.
  intros [HI Hp] Hstep. destruct Hstep as [pool s i B f k b s' Hi Hf|pool s i l Hi|pool s];
    cbn in *.
  - pose proof (Hp _ _ Hi) as Hg. cbn [guar] in Hg.
    destruct (Hg s HI) as (b' & s'' & Hf' & HI' & HG & Hk).
    rewrite Hf in Hf'. injection Hf' as <- <-.
    split; [split; [done|]|done]. now apply update_ok.
  - split; [split; [done|]|apply G_refl]. apply update_ok; [done|].
    apply body_guar. exact (Hp _ _ Hi).
  - destruct (interrupt_ok _ HI). now repeat split.
Qed.

Lemma steps_ok c c' : pool_ok c -> steps c c' -> pool_ok c' /\ G c.2 c'.2.
Proof.
  intros Hc. induction 1 as [|c1 c2 c3 H12 IH H23]; [split; [done|apply G_refl]|].
  destruct (IH Hc) as [H2 HG]. destruct (step_ok _ _ H2 H23) as [H3 HG'].
  split; [done|]. etransitivity; eauto.
Qed.

Lemma ok_not_wrong c : pool_ok c -> ~ wrong c.
Proof.
  intros [HI Hp] (i & B & f & k & Hi & Hf). pose proof (Hp _ _ Hi) as Hg.
  cbn [guar] in Hg. destruct (Hg _ HI) as (b & s' & Hf' & _). congruence.
Qed.
End pool.

(** * What every action of a program does *)

(** Every action of [p] relates the states around it by [R]. *)
Fixpoint always {S A} (R : S -> S -> Prop) (p : prog S A) : Prop :=
  match p with
  | Ret _ => True
  | Act g k => (forall s b s', g s = Some (b, s') -> R s s') /\ forall b, always R (k b)
  end.

Section always.
Context {S : Type} (R : S -> S -> Prop) `{HR : !Reflexive R} `{HT : !Transitive R}.

Lemma always_bind {A B} (p : prog S A) (q : A -> prog S B) :
  always R p -> (forall a, always R (q a)) -> always R (bind p q).
Proof. induction p as [a|C g k IH]; cbn; [auto|]. intros [Hg Hk] Hq. split; auto. Qed.

Lemma always_atomic {A} (g : S -> option (A * S)) :
  (forall s b s', g s = Some (b, s') -> R s s') -> always R (atomic g).
Proof. done. Qed.

Lemma always_local {A} (o : option A) : always R (local o).
Proof. now destruct o. Qed.

Lemma always_run {A} (p : prog S A) s a s' : always R p -> run p s = Some (a, s') -> R s s'.
Proof.
  revert s. induction p as [x|B g k IH]; cbn; intros s Hp Hr; [injection Hr as _ <-; apply HR|].
  destruct Hp as [Hg Hk]. destruct (g s) as [[b s1]|] eqn:E; [|done].
  etransitivity; [exact (Hg _ _ _ E)|exact (IH _ _ (Hk b) Hr)].
Qed.

Lemma always_locked {A} (p : prog S A) : always R p -> always R (locked p).
Proof. intros Hp. apply always_atomic. intros s b s' Hr. now apply (always_run p _ b). Qed.

Lemma always_for_each {A} (l : list A) body :
  (forall x, always R (body x)) -> always R (for_each l body).
Proof. intros Hb. induction l as [|x l IH]; [done|]. now apply always_bind. Qed.

(** So does any interleaving of such threads. *)
Lemma always_steps body interrupt (c c' : config) :
  (forall i l, always R (body i l)) -> (forall s, R s (interrupt s)) ->
  Forall (always R) c.1 -> steps body interrupt c c' -> Forall (always R) c'.1 /\ R c.2 c'.2.
Proof.
  intros Hb Hi Hc. induction 1 as [|c1 c2 c3 H12 IH H23]; [split; [done|apply HR]|]. destruct (IH Hc) as [HF Hf].
  destruct H23 as [pool s i B g k b s' Hp Hg|pool s i l Hp|pool s]; cbn in *.
  - pose proof (proj1 (Forall_lookup _ _) HF _ _ Hp) as [Hk1 Hk2]. split; [now apply Forall_insert|].
    etransitivity; [exact Hf|exact (Hk1 _ _ _ Hg)].
  - split; [|done]. now apply Forall_insert.
  - split; [done|]. etransitivity; [exact Hf|apply Hi].
Qed.
End always.

Create HintDb frame.
#[export] Hint Resolve always_local : frame.

(** Follows the structure of a program down to calls the database knows. *)
Ltac frame :=
  repeat first
    [ solve [eauto 3 with frame]
    | match goal with
      | |- forall _, _ => intros ?
      | |- always _ (Ret _) => exact I
      | |- always _ (bind _ _) => apply always_bind
      | |- always _ (locked _) => apply always_locked; [typeclasses eauto|typeclasses eauto|]
      | |- always _ (for_each _ _) => apply always_for_each
      | |- always _ (if ?b then _ else _) => destruct b
      | |- always _ (match ?x with _ => _ end) => destruct x
      | |- always _ (let _ := _ in _) => cbv zeta
      end ].
