(* ===== verification/Replay.v ===== *)
(** The anti-replay window of [protocol.c]: its two 64-bit words, the
    operations on them, and the set of sequence numbers they stand for. *)
From stdpp Require Import base list numbers option gmap.
From Stdlib Require Import Sorting.Sorted.
From S2P Require Import Prelude.

(** * The window *)

Record proto_replay_window_t : Type := Window { highest : Z; seen : Z }.

Definition proto_replay_reset : proto_replay_window_t := Window 0 0.

(** [proto_replay_accept]: the verdict and the updated window. *)
Definition proto_replay_accept (window : proto_replay_window_t) (sequence : Z) :
    bool * proto_replay_window_t :=
  if sequence =? 0 then (false, window)
  else if highest window =? 0 then (true, Window sequence 1)
  else if highest window <? sequence then
    let shift := sequence - highest window in
    (true, Window sequence
             (if 64 <=? shift then 1 else Z.lor (u64 (Z.shiftl (seen window) shift)) 1))
  else
    let age := highest window - sequence in
    if 64 <=? age then (false, window)
    else
      let bit := u64 (Z.shiftl 1 age) in
      if negb (Z.land (seen window) bit =? 0) then (false, window)
      else (true, Window (highest window) (Z.lor (seen window) bit)).

(** A receiver that passes every number of a stream through its window: the
    accepted ones, oldest first, and the final window. *)
Fixpoint replay_filter (window : proto_replay_window_t) (l : list Z) :
    list Z * proto_replay_window_t :=
  match l with
  | [] => ([], window)
  | x :: l =>
      let '(ok, window') := proto_replay_accept window x in
      let '(acc, final) := replay_filter window' l in
      (if ok then x :: acc else acc, final)
  end.

Definition window_ok (w : proto_replay_window_t) : Prop := is_u64 (highest w) /\ is_u64 (seen w).

(** * Specification *)

(** What the receiver is meant to know: the set of numbers it has accepted. *)
Definition fresh_in (H : gset Z) (s : Z) : Prop :=
  s <> 0 /\ s ∉ H /\ (forall h, h ∈ H -> h < s + 64).

(** [w] represents the accepted set [H]: the highest member, and one bit for
    each of the 64 numbers ending there. *)
Definition represents (w : proto_replay_window_t) (H : gset Z) : Prop :=
  window_ok w /\ (forall h, h ∈ H -> 0 < h <= highest w) /\
  (highest w = 0 -> H = ∅ /\ seen w = 0) /\
  (highest w <> 0 -> highest w ∈ H) /\
  forall i, 0 <= i < 64 -> Z.testbit (seen w) i = bool_decide (highest w - i ∈ H).

(** * Bit-level facts *)

Lemma is_u64_bits z : is_u64 z <-> 0 <= z /\ forall i, 64 <= i -> Z.testbit z i = false.
Proof.
  words. split.
  - intros H. split; [lia|]. intros i Hi. rewrite <- (Z.mod_small z (2 ^ 64)) by lia.
    apply Z.mod_pow2_bits_high. lia.
  - intros [H0 Hb]. split; [done|].
    enough (E : z = z mod 2 ^ 64) by (rewrite E; apply Z.mod_pos_bound; lia).
    apply Z.bits_inj'. intros i Hi. destruct (Z.lt_ge_cases i 64).
    + rewrite Z.mod_pow2_bits_low by lia. done.
    + rewrite Hb, Z.mod_pow2_bits_high by lia. done.
Qed.

Lemma u64_range z : is_u64 (u64 z).
Proof. words. apply Z.mod_pos_bound. lia. Qed.

Lemma u64_shiftl_bit z n i :
  0 <= n -> 0 <= i < 64 ->
  Z.testbit (u64 (Z.shiftl z n)) i = (n <=? i) && Z.testbit z (i - n).
Proof.
  intros Hn Hi. unfold u64. rewrite Z.mod_pow2_bits_low by lia.
  rewrite Z.shiftl_spec by lia. destruct (Z.leb_spec n i); [done|].
  rewrite Z.testbit_neg_r by lia. done.
Qed.

Lemma is_u64_lor a b : is_u64 a -> is_u64 b -> is_u64 (Z.lor a b).
Proof.
  rewrite !is_u64_bits. intros [Ha Hab] [Hb Hbb]. split.
  - now apply Z.lor_nonneg.
  - intros i Hi. rewrite Z.lor_spec, Hab, Hbb; done.
Qed.

Lemma one_bit i : Z.testbit 1 i = (i =? 0).
Proof.
  destruct (Z.eqb_spec i 0) as [->|]; [done|].
  destruct (Z.lt_ge_cases i 0); [now apply Z.testbit_neg_r|].
  apply Z.pow2_bits_false with (n := 0). lia.
Qed.

Lemma u64_bit age i :
  0 <= age < 64 -> 0 <= i < 64 -> Z.testbit (u64 (Z.shiftl 1 age)) i = (i =? age).
Proof.
  intros Ha Hi. rewrite u64_shiftl_bit, one_bit by lia.
  destruct (Z.leb_spec age i), (Z.eqb_spec (i - age) 0), (Z.eqb_spec i age); lia.
Qed.

(** The test [(seen & bit) != 0] reads one bit. *)
Lemma land_bit z age :
  0 <= age < 64 -> negb (Z.land z (u64 (Z.shiftl 1 age)) =? 0) = Z.testbit z age.
Proof.
  intros Ha. destruct (Z.testbit z age) eqn:E.
  - apply negb_true_iff, Z.eqb_neq. intros H0.
    assert (Hb : Z.testbit (Z.land z (u64 (Z.shiftl 1 age))) age = true).
    { rewrite Z.land_spec, E, u64_bit, Z.eqb_refl by lia. done. }
    rewrite H0, Z.testbit_0_l in Hb. done.
  - apply negb_false_iff, Z.eqb_eq. apply Z.bits_inj'. intros i Hi.
    rewrite Z.land_spec, Z.testbit_0_l.
    destruct (Z.lt_ge_cases i 64).
    + rewrite u64_bit by lia. destruct (Z.eqb_spec i age) as [->|]; [now rewrite E|].
      apply andb_false_r.
    + unfold u64. rewrite Z.mod_pow2_bits_high by lia. apply andb_false_r.
Qed.

(** * The window refines the set *)

Lemma represents_reset : represents proto_replay_reset ∅.
Proof.
  split; [split; words; cbn; lia|]. split; [set_solver|]. split; [done|]. split; [done|].
  intros i Hi. cbn. rewrite Z.testbit_0_l. symmetry. apply bool_decide_eq_false_2. set_solver.
Qed.

(** Bits of the window after a new highest number [s], shifted by [d]. *)
Lemma advanced_bits w H s i :
  represents w H -> highest w <> 0 -> highest w < s -> 0 <= i < 64 ->
  Z.testbit (if 64 <=? s - highest w then 1
             else Z.lor (u64 (Z.shiftl (seen w) (s - highest w))) 1) i =
  bool_decide (s - i ∈ {[s]} ∪ H).
Proof.
  intros (_ & Hmax & _ & _ & Hbits) H0 Hs Hi.
  assert (Hnew : s - i > highest w -> i <> 0 -> bool_decide (s - i ∈ {[s]} ∪ H) = false).
  { intros. apply bool_decide_eq_false_2. rewrite elem_of_union, elem_of_singleton.
    intros [?|Hin]; [lia|]. apply Hmax in Hin. lia. }
  assert (Hzero : bool_decide (s - 0 ∈ {[s]} ∪ H) = true).
  { apply bool_decide_eq_true_2. rewrite Z.sub_0_r. set_solver. }
  destruct (Z.leb_spec 64 (s - highest w)) as [Hd|Hd].
  - rewrite one_bit. destruct (Z.eqb_spec i 0) as [->|]; [done|]. rewrite Hnew by lia. done.
  - rewrite Z.lor_spec, u64_shiftl_bit, one_bit by lia.
    destruct (Z.eqb_spec i 0) as [->|]; [now rewrite orb_true_r|]. rewrite orb_false_r.
    destruct (Z.leb_spec (s - highest w) i) as [Hle|Hlt]; [|rewrite Hnew by lia; done].
    cbn [andb]. rewrite Hbits by lia.
    replace (highest w - (i - (s - highest w))) with (s - i) by lia.
    apply bool_decide_ext. rewrite elem_of_union, elem_of_singleton.
    split; [auto|]. intros [?|?]; [lia|done].
Qed.

Lemma represents_advance w H s :
  represents w H -> highest w <> 0 -> is_u64 s -> highest w < s ->
  represents (Window s (if 64 <=? s - highest w then 1
                        else Z.lor (u64 (Z.shiftl (seen w) (s - highest w))) 1)) ({[s]} ∪ H).
Proof.
  intros HR H0 Hu Hs. pose proof HR as ((Hw & _) & Hmax & _).
  assert (is_u64 1) by (words; lia).
  split; [split; [done|]; cbn [seen]; destruct (64 <=? _); [done|];
          apply is_u64_lor; [apply u64_range|done]|].
  cbn [highest seen]. split; [|split; [|split]].
  - intros h [->%elem_of_singleton|Hin]%elem_of_union; [words; lia|]. apply Hmax in Hin. lia.
  - words; lia.
  - set_solver.
  - intros i Hi. now apply advanced_bits.
Qed.

Lemma represents_mark w H s :
  represents w H -> 0 < s <= highest w -> highest w - s < 64 ->
  represents (Window (highest w) (Z.lor (seen w) (u64 (Z.shiftl 1 (highest w - s)))))
             ({[s]} ∪ H).
Proof.
  intros ([Hw Hs] & Hmax & _ & Hin & Hbits) H0 Hage.
  split; [split; [done|apply is_u64_lor; [done|apply u64_range]]|].
  cbn [highest seen]. split; [|split; [|split]].
  - intros h [->%elem_of_singleton|Hh]%elem_of_union; [done|]. now apply Hmax.
  - lia.
  - intros _. apply elem_of_union_r, Hin. lia.
  - intros i Hi. rewrite Z.lor_spec, Hbits, u64_bit by lia.
    destruct (Z.eqb_spec i (highest w - s)) as [->|Hne].
    + rewrite orb_true_r. symmetry. apply bool_decide_eq_true_2.
      replace (highest w - (highest w - s)) with s by lia. set_solver.
    + rewrite orb_false_r. apply bool_decide_ext.
      rewrite elem_of_union, elem_of_singleton. split; [auto|]. intros [?|?]; [lia|done].
Qed.

(** Every decision of the window is the decision of the set it represents. *)
Lemma accept_represents w H s ok w' :
  represents w H -> is_u64 s -> proto_replay_accept w s = (ok, w') ->
  (ok = true <-> fresh_in H s) /\ represents w' (if ok then {[s]} ∪ H else H).
Proof.
  intros HR Hu. pose proof HR as (Hok & Hmax & H0 & Hin & Hbits).
  unfold proto_replay_accept, fresh_in.
  destruct (Z.eqb_spec s 0) as [->|Hs]; [intros [= <- <-]; naive_solver|].
  destruct (Z.eqb_spec (highest w) 0) as [Hz|Hz].
  - intros [= <- <-]. destruct (H0 Hz) as [-> Hseen].
    split; [set_solver|]. rewrite (right_id_L ∅ (∪)).
    split; [split; words; cbn; lia|]. cbn [highest seen].
    split; [words; set_solver by lia|]. split; [done|]. split; [set_solver|].
    intros i Hi. rewrite one_bit. symmetry.
    destruct (Z.eqb_spec i 0) as [->|]; [apply bool_decide_eq_true_2; set_solver by lia|].
    apply bool_decide_eq_false_2. rewrite elem_of_singleton. lia.
  - destruct (Z.ltb_spec (highest w) s) as [Hlt|Hge].
    + intros [= <- <-]. split; [|now apply represents_advance].
      split; [|done]. intros _. repeat split; [done| |].
      * intros Hh. apply Hmax in Hh. lia.
      * intros h Hh. apply Hmax in Hh. lia.
    + destruct (Z.leb_spec 64 (highest w - s)) as [Hold|Hyoung].
      * intros [= <- <-]. split; [|done]. split; [done|]. intros (_ & _ & Hall).
        specialize (Hall _ (Hin Hz)). lia.
      * rewrite land_bit, Hbits by (words; lia).
        replace (highest w - (highest w - s)) with s by lia.
        destruct (bool_decide_reflect (s ∈ H)) as [Hm|Hm]; intros [= <- <-].
        -- split; [|done]. split; [done|]. naive_solver.
        -- split; [|apply represents_mark; [done|words; lia|done]].
           split; [|done]. intros _. repeat split; [done|done|].
           intros h Hh. apply Hmax in Hh. lia.
Qed.

Lemma accept_window_ok w s :
  window_ok w -> is_u64 s -> window_ok (proto_replay_accept w s).2.
Proof.
  intros [Hh Hs] Hu. assert (is_u64 1) by (words; lia).
  unfold proto_replay_accept. repeat case_match; cbn; try (split; done);
    split; cbn; try done; apply is_u64_lor; auto using u64_range.
Qed.

(** A rejected number leaves the window as it was. *)
Lemma rejected_same w s : (proto_replay_accept w s).1 = false -> (proto_replay_accept w s).2 = w.
Proof. unfold proto_replay_accept. repeat case_match; done. Qed.

Lemma reset_window_ok : window_ok proto_replay_reset.
Proof. split; words; cbn; lia. Qed.

#[export] Hint Resolve accept_window_ok reset_window_ok u64_range : tund.


(** * Streams *)

#[export] Instance fresh_in_dec H s : Decision (fresh_in H s).
Proof. unfold fresh_in. apply _. Defined.

(** The receiver that remembers every number it has accepted. *)
Fixpoint set_filter (H : gset Z) (l : list Z) : list Z :=
  match l with
  | [] => []
  | x :: l => if decide (fresh_in H x) then x :: set_filter ({[x]} ∪ H) l else set_filter H l
  end.

Lemma filter_set_filter l : forall w H,
  represents w H -> Forall is_u64 l ->
  (replay_filter w l).1 = set_filter H l /\
  represents (replay_filter w l).2 (list_to_set (set_filter H l) ∪ H).
Proof.
  induction l as [|x l IH]; intros w H HR Hl; cbn [replay_filter set_filter].
  - cbn. rewrite (left_id_L ∅ (∪)). done.
  - apply Forall_cons in Hl as [Hx Hl].
    destruct (proto_replay_accept w x) as [ok w1] eqn:Ea.
    destruct (accept_represents _ _ _ _ _ HR Hx Ea) as [Hok HR1].
    specialize (IH _ _ HR1 Hl). destruct (replay_filter w1 l) as [acc1 w2].
    cbn [fst snd] in *. destruct ok.
    + rewrite decide_True by now apply Hok. destruct IH as [-> HR2]. split; [done|].
      cbn [list_to_set]. replace ({[x]} ∪ list_to_set (set_filter ({[x]} ∪ H) l) ∪ H)
        with (list_to_set (set_filter ({[x]} ∪ H) l) ∪ ({[x]} ∪ H)) by set_solver.
      exact HR2.
    + rewrite decide_False; [done|]. intros Hf. apply Hok in Hf. done.
Qed.

Lemma set_filter_fresh l : forall H,
  NoDup (set_filter H l) /\ (forall x, x ∈ set_filter H l -> x ∉ H /\ x <> 0).
Proof.
  induction l as [|x l IH]; intros H; cbn [set_filter].
  - split; [constructor|]. set_solver.
  - case_decide as Hf; [|apply IH]. destruct (IH ({[x]} ∪ H)) as [Hnd Hnew].
    destruct Hf as (H0 & Hx & _). split.
    + constructor; [|done]. intros Hin. apply Hnew in Hin. set_solver.
    + intros y [->|Hy]%elem_of_cons; [done|]. apply Hnew in Hy. set_solver.
Qed.

(** In-order delivery: nothing is lost. *)
Lemma set_filter_increasing l : forall H,
  (forall x h, x ∈ l -> h ∈ H -> h < x) -> Forall (fun x => x <> 0) l -> StronglySorted Z.lt l ->
  set_filter H l = l.
Proof.
  induction l as [|x l IH]; intros H HH H0 Hs; cbn [set_filter]; [done|].
  apply Forall_cons in H0 as [Hx H0]. apply StronglySorted_inv in Hs as [Hs Hall].
  rewrite decide_True.
  - f_equal. apply IH; [|done|done]. intros y h Hy [->%elem_of_singleton|Hh]%elem_of_union.
    + rewrite Forall_forall in Hall. now apply Hall.
    + apply HH; [now constructor|done].
  - split; [done|]. split.
    + intros Hin. specialize (HH x x ltac:(constructor) Hin). lia.
    + intros h Hh. specialize (HH x h ltac:(constructor) Hh). lia.
Qed.

(** * Properties *)

(** C4: the two-word replay window decides every stream of 64-bit sequence
    numbers exactly as a receiver that remembers the set of all numbers it has
    accepted and refuses zero, members of the set and numbers 64 or more below
    its maximum; the final window represents that set. *)
Theorem replay_window_refines_set (l : list Z) (Hl : Forall is_u64 l) :
  (replay_filter proto_replay_reset l).1 = set_filter ∅ l /\
  represents (replay_filter proto_replay_reset l).2 (list_to_set (set_filter ∅ l)).
Proof.
  destruct (filter_set_filter l _ _ represents_reset Hl) as [He HR].
  rewrite (right_id_L ∅ (∪)) in HR. done.
Qed.

Example replay_window_refines_set_witness :
  (replay_filter proto_replay_reset [5; 7; 5; 6; 80; 7; 17]).1 = [5; 7; 6; 80; 17].
Proof.
  assert (Hl : Forall is_u64 [5; 7; 5; 6; 80; 7; 17]) by (repeat constructor; words; lia).
  rewrite (proj1 (replay_window_refines_set _ Hl)). vm_compute. reflexivity.
Defined.

(** No sequence number is accepted twice, and zero is never accepted,
    whatever a sender or an attacker who re-injects datagrams delivers. *)
Theorem replay_never_accepts_twice (l : list Z) (Hl : Forall is_u64 l) :
  NoDup (replay_filter proto_replay_reset l).1 /\ 0 ∉ (replay_filter proto_replay_reset l).1.
Proof.
  destruct (filter_set_filter l _ _ represents_reset Hl) as [-> _].
  destruct (set_filter_fresh l ∅) as [Hnd Hne]. split; [done|]. intros H. now apply Hne in H.
Qed.

Example replay_never_accepts_twice_witness :
  Forall is_u64 [9; 9; 0; 8] /\ NoDup (replay_filter proto_replay_reset [9; 9; 0; 8]).1.
Proof.
  assert (Hl : Forall is_u64 [9; 9; 0; 8]) by (repeat constructor; words; lia).
  split; [exact Hl|]. apply (replay_never_accepts_twice _ Hl).
Defined.

(** A stream delivered in order is accepted whole. *)
Theorem replay_accepts_in_order (l : list Z) (Hl : Forall is_u64 l)
    (H0 : Forall (fun x => x <> 0) l) (Hs : StronglySorted Z.lt l) :
  (replay_filter proto_replay_reset l).1 = l.
Proof.
  destruct (filter_set_filter l _ _ represents_reset Hl) as [-> _].
  apply set_filter_increasing; [set_solver|done|done].
Qed.

Example replay_accepts_in_order_witness :
  (replay_filter proto_replay_reset [1; 2; 90; 2 ^ 64 - 1]).1 = [1; 2; 90; 2 ^ 64 - 1].
Proof.
  apply replay_accepts_in_order; repeat constructor; words; lia.
Defined.
