(* ===== verification/World.v ===== *)
(** The process a TunD thread runs in: the globals of [main.c] and
    [protocol.c], the operating system it calls, and what the outside sees of
    it.  The operating system is an oracle: its [n]-th answer is an arbitrary
    function of [n] that respects the documented contract of the call
    ([env_ok]). *)
From stdpp Require Import base list numbers option.
From S2P Require Import Prelude Prog.

(** * Socket addresses *)

(** [struct sockaddr_in]; port and address are in network byte order. *)
Record sockaddr_in : Type := SockAddr { sin_family : Z; sin_port : Z; s_addr : Z }.

#[export] Instance sockaddr_in_eq_dec : EqDecision sockaddr_in.
Proof. solve_decision. Defined.

Definition addr_ok (a : sockaddr_in) : Prop :=
  is_u16 (sin_family a) /\ is_u16 (sin_port a) /\ is_u32 (s_addr a).

(** * The operating system *)

Inductive read_result : Type :=
| ReadData (l : bytes)   (** [read] returned [length l] bytes; none is end of file *)
| ReadEintr              (** [-1] with [errno == EINTR] *)
| ReadFail.              (** [-1] with another error *)

Inductive recv_result : Type :=
| RecvData (l : bytes) (from : sockaddr_in)
| RecvAgain              (** [EAGAIN], [EWOULDBLOCK] or [EINTR] *)
| RecvFail.

Record env : Type := Env {
  env_open : nat -> Z;                     (** [open("/dev/urandom")] *)
  env_read : nat -> Z -> read_result;      (** [read(fd, p, n)] on it *)
  env_eintr : nat;                         (** bound on consecutive [EINTR] *)
  env_time : nat -> Z;                     (** [time(NULL)] *)
  env_now_ms : nat -> Z;                   (** [now_ms()] *)
  env_sendto : nat -> Z -> Z;              (** [sendto] of [n] bytes *)
  env_recvfrom : nat -> Z -> recv_result;  (** [recvfrom] into [n] bytes *)
  env_poll : nat -> Z;                     (** [platform_poll_one] *)
  env_poll_eintr : nat -> bool;            (** whether a failed poll was [EINTR] *)
  env_tun_read : nat -> Z -> read_result;  (** [tun_read] into [n] bytes *)
  env_tun_write : nat -> Z -> Z;           (** [tun_write] of [n] bytes *)
  env_stack : nat -> Z;                    (** contents of uninitialised memory *)
  env_sys : nat -> Z;                      (** [open], [socket], [bind], [ioctl], [pthread_create] *)
  env_ifname : nat -> bytes;               (** [ifr_name] after [TUNSETIFF] *)
  env_ifflags : nat -> Z;                  (** [ifr_flags] after [SIOCGIFFLAGS] *)
  env_resolve : nat -> option sockaddr_in  (** first result of [getaddrinfo] *)
}.

(** Documented contract: reads return at most what was asked for, an
    interrupted read is eventually completed, clocks are in the range of their
    types ([time_t] far from its limits), the kernel terminates interface
    names. *)
Record env_ok (e : env) : Prop := {
  ok_read : forall t n l, 0 <= n -> env_read e t n = ReadData l -> zlen l <= n /\ bytes_ok l;
  ok_eintr : forall t n, exists k, (k <= env_eintr e)%nat /\ env_read e (t + k) n <> ReadEintr;
  ok_time : forall t, 0 <= env_time e t < 2 ^ 62;
  ok_now_ms : forall t, is_u64 (env_now_ms e t);
  ok_recv : forall t n l from, 0 <= n -> env_recvfrom e t n = RecvData l from ->
      zlen l <= n /\ bytes_ok l /\ addr_ok from;
  ok_tun_read : forall t n l, 0 <= n -> env_tun_read e t n = ReadData l -> zlen l <= n /\ bytes_ok l;
  ok_kernel_name : forall t, length (env_ifname e t) = 16%nat /\ exists s, c_str (env_ifname e t) = Some s;
  ok_resolve : forall t a, env_resolve e t = Some a -> addr_ok a;
  ok_sys : forall t, -1 <= env_sys e t
}.

(** * Observable events *)

(** Calls that configure a descriptor or create a thread. *)
Inductive syscall : Type :=
| SetReuseAddr (fd : Z)                              (** [setsockopt(SO_REUSEADDR)] *)
| Bind (fd port : Z)                                 (** [bind] to [INADDR_ANY], port in network byte order *)
| SetTunIff (fd flags : Z) (name : bytes)            (** [ioctl(TUNSETIFF)] *)
| SetIfAddr (fd : Z) (name : bytes) (ip : Z)         (** [ioctl(SIOCSIFADDR)] *)
| SetIfNetmask (fd : Z) (name : bytes) (mask : Z)    (** [ioctl(SIOCSIFNETMASK)] *)
| GetIfFlags (fd : Z) (name : bytes)                 (** [ioctl(SIOCGIFFLAGS)] *)
| SetIfFlags (fd : Z) (name : bytes) (flags : Z)     (** [ioctl(SIOCSIFFLAGS)] *)
| SetIfMtu (fd : Z) (name : bytes) (mtu : Z)         (** [ioctl(SIOCSIFMTU)] *)
| CtlInfo (fd : Z) (name : bytes)                    (** [ioctl(CTLIOCGINFO)] *)
| CtlConnect (fd id unit_no : Z)                     (** [connect] to a kernel control *)
| GetIfName (fd : Z)                                 (** [getsockopt(UTUN_OPT_IFNAME)] *)
| AliasAddr (fd : Z) (name : bytes) (ip peer mask : Z)  (** [ioctl(SIOCAIFADDR)] *)
| Fork                                               (** [fork], as the parent sees it *)
| Exec (argv : list bytes)                           (** [execl] in the child *)
| WaitPid (pid : Z)                                  (** [waitpid] *)
| ThreadCreate (i : nat)                             (** [pthread_create] of the component's thread [i] *)
| ThreadJoin (i : nat).                              (** [pthread_join] *)

Inductive event : Type :=
| EvSeq (n : Z)                                      (** a sequence number is issued *)
| EvSent (wire : bytes) (dest : sockaddr_in) (res : Z)  (** [sendto] and its result *)
| EvTunWrite (pkt : bytes)                           (** packet handed to the TUN device *)
| EvOpen (fd : Z)                                    (** a descriptor is opened *)
| EvClose (fd : Z)                                   (** [close] *)
| EvSys (c : syscall) (res : Z)                      (** a call and its result *)
| EvLog (level : Z) (args : list bytes)              (** a log line and its [%s] arguments *)
| EvStdout (text : bytes)                            (** text written to [stdout] *)
| EvRender (npeers : Z)                              (** the terminal UI is redrawn *)
| EvScreen (on : bool)                               (** [tui_init] or [tui_shutdown] *)
| EvRandom (fd : Z).                                 (** [/dev/urandom] is opened; nothing closes it *)

(** * The process *)

Record world : Type := World {
  w_env : env;
  w_tick : nat;                  (** number of answers consumed so far *)
  g_proto_next_sequence : Z;
  g_proto_random_fd : Z;
  g_running : bool;
  g_crypto_key : bytes;
  g_log_level : Z;
  g_tui_active : bool;
  g_json_events_active : bool;
  w_trace : list event           (** newest first *)
}.

Definition tick (w : world) : world :=
  World (w_env w) (S (w_tick w)) (g_proto_next_sequence w) (g_proto_random_fd w) (g_running w)
        (g_crypto_key w) (g_log_level w) (g_tui_active w) (g_json_events_active w) (w_trace w).

Definition set_sequence (n : Z) (w : world) : world :=
  World (w_env w) (w_tick w) n (g_proto_random_fd w) (g_running w)
        (g_crypto_key w) (g_log_level w) (g_tui_active w) (g_json_events_active w) (w_trace w).

Definition set_random_fd (fd : Z) (w : world) : world :=
  World (w_env w) (w_tick w) (g_proto_next_sequence w) fd (g_running w)
        (g_crypto_key w) (g_log_level w) (g_tui_active w) (g_json_events_active w) (w_trace w).

Definition set_running (b : bool) (w : world) : world :=
  World (w_env w) (w_tick w) (g_proto_next_sequence w) (g_proto_random_fd w) b
        (g_crypto_key w) (g_log_level w) (g_tui_active w) (g_json_events_active w) (w_trace w).

Definition emit (e : event) (w : world) : world :=
  World (w_env w) (w_tick w) (g_proto_next_sequence w) (g_proto_random_fd w) (g_running w)
        (g_crypto_key w) (g_log_level w) (g_tui_active w) (g_json_events_active w) (e :: w_trace w).

(** One answer of the operating system. *)
Definition ask {A} (f : env -> nat -> A) (w : world) : A * world :=
  (f (w_env w) (w_tick w), tick w).

Definition time_null (w : world) : Z * world := ask env_time w.
Definition now_ms (w : world) : Z * world := ask env_now_ms w.

(** An automatic array of [n] bytes: its contents are indeterminate. *)
Definition uninit (n : Z) (w : world) : bytes * world :=
  ask (fun e t => map (fun i => u8 (env_stack e (t + i))) (seq 0 (Z.to_nat n))) w.

(** * Interface of a component to its process *)

(** The state of a component contains the process it runs in. *)
Class HasWorld (S : Type) : Type := {
  get_world : S -> world;
  set_world : world -> S -> S;
  get_set_world : forall w s, get_world (set_world w s) = w;
  set_set_world : forall w w' s, set_world w (set_world w' s) = set_world w s;
  set_get_world : forall s, set_world (get_world s) s = s
}.

#[export] Instance world_has_world : HasWorld world :=
  {| get_world w := w; set_world w _ := w;
     get_set_world _ _ := eq_refl; set_set_world _ _ _ := eq_refl; set_get_world _ := eq_refl |}.

Section ops.
Context {S : Type} `{HW : HasWorld S}.

(** An action on the process alone. *)
Definition on_world {A} (f : world -> option (A * world)) : prog S A :=
  atomic (fun s => match f (get_world s) with
                   | Some (a, w) => Some (a, set_world w s)
                   | None => None
                   end).

Definition on_world' {A} (f : world -> A * world) : prog S A := on_world (fun w => Some (f w)).

Definition read_world {A} (f : world -> A) : prog S A := on_world' (fun w => (f w, w)).

Definition alloc (n : Z) : prog S bytes := on_world' (uninit n).

(** [tund_is_running] and [tund_request_stop]. *)
Definition tund_is_running : prog S bool := read_world g_running.
Definition tund_request_stop : prog S unit := on_world' (fun w => (tt, set_running false w)).

(** [LOG_DEBUG], [LOG_INFO], [LOG_WARN], [LOG_ERROR]: the arguments are the
    arrays printed with [%s].  [log_msg] returns before formatting when the
    level is filtered out; formatting an array without terminator reads past
    its end. *)
Definition LOG (level : Z) (args : list bytes) : prog S unit :=
  on_world (fun w =>
    if level <? g_log_level w then Some (tt, w)
    else strs ← mapM c_str args; Some (tt, emit (EvLog level strs) w)).

(** [sendto] of a whole datagram. *)
Definition sendto (wire : bytes) (dest : sockaddr_in) : prog S Z :=
  on_world' (fun w =>
    let '(res, w) := ask (fun e t => env_sendto e t (zlen wire)) w in
    (res, emit (EvSent wire dest res) w)).

Definition tun_write (pkt : bytes) : prog S Z :=
  on_world' (fun w =>
    let '(res, w) := ask (fun e t => env_tun_write e t (zlen pkt)) w in
    (res, emit (EvTunWrite pkt) w)).
End ops.

Definition LOG_LEVEL_DEBUG : Z := 0.
Definition LOG_LEVEL_INFO : Z := 1.
Definition LOG_LEVEL_WARN : Z := 2.
Definition LOG_LEVEL_ERROR : Z := 3.

(** * Invariant of a process *)

(** Sequence numbers issued so far, newest first. *)
Fixpoint issued (t : list event) : list Z :=
  match t with
  | [] => []
  | EvSeq n :: t => n :: issued t
  | _ :: t => issued t
  end.

(** While fewer than [2^63] numbers have been issued, they are consecutive,
    they start below [2^63] and the counter is the next one. *)
Definition sequence_ok (w : world) : Prop :=
  is_u64 (g_proto_next_sequence w) /\
  (zlen (issued (w_trace w)) < 2 ^ 63 ->
   (g_proto_next_sequence w = 0 /\ issued (w_trace w) = []) \/
   exists start, 1 <= start < 2 ^ 63 /\
     g_proto_next_sequence w = start + zlen (issued (w_trace w)) /\
     issued (w_trace w) = rev (seqZ start (zlen (issued (w_trace w))))).

(** Descriptors of [/dev/urandom] opened so far, newest first. *)
Fixpoint randoms (t : list event) : list Z :=
  match t with
  | [] => []
  | EvRandom fd :: t => fd :: randoms t
  | _ :: t => randoms t
  end.

(** The device is opened at most once, into [g_proto_random_fd]. *)
Definition random_kept (w : world) : Prop :=
  randoms (w_trace w) = if g_proto_random_fd w <? 0 then [] else [g_proto_random_fd w].

Definition world_ok (w : world) : Prop :=
  env_ok (w_env w) /\ sequence_ok w /\ random_kept w /\
  length (g_crypto_key w) = 32%nat /\ bytes_ok (g_crypto_key w).

(** What one action may do to the process: events are only added, the
    operating system and the key stay. *)
Record world_step (w w' : world) : Prop := {
  step_env : w_env w' = w_env w;
  step_key : g_crypto_key w' = g_crypto_key w;
  step_trace : exists new, w_trace w' = new ++ w_trace w
}.

#[export] Instance world_step_refl : Reflexive world_step.
Proof. intros w. split; [done|done|now exists []]. Qed.

#[export] Instance world_step_trans : Transitive world_step.
Proof.
  intros w1 w2 w3 [e1 k1 [n1 t1]] [e2 k2 [n2 t2]]. split; [congruence|congruence|].
  exists (n2 ++ n1). rewrite t2, t1. apply app_assoc.
Qed.

(** A step that leaves the counter, the issued numbers and the random device
    alone. *)
Lemma world_ok_quiet w w' :
  world_ok w -> w_env w' = w_env w -> g_crypto_key w' = g_crypto_key w ->
  g_proto_next_sequence w' = g_proto_next_sequence w ->
  issued (w_trace w') = issued (w_trace w) ->
  g_proto_random_fd w' = g_proto_random_fd w -> randoms (w_trace w') = randoms (w_trace w) -> world_ok w'.
Proof.
  intros (He & Hs & Hk) E1 E2 E3 E4 E5 E6. unfold world_ok, sequence_ok, random_kept. rewrite E1, E2, E3, E4, E5, E6. done.
Qed.

(** Events that leave the process: what other hosts and the kernel's tables see
    of it. *)
Definition outgoing (e : event) : bool :=
  match e with
  | EvSent _ _ _ | EvTunWrite _ | EvOpen _ | EvClose _ | EvSys _ _ => true
  | _ => false
  end.

(** Steps without outgoing events. *)
Record world_quiet (w w' : world) : Prop := {
  quiet_env : w_env w' = w_env w;
  quiet_key : g_crypto_key w' = g_crypto_key w;
  quiet_tui : g_tui_active w' = g_tui_active w;
  quiet_trace : exists new, w_trace w' = new ++ w_trace w /\ Forall (fun e => outgoing e = false) new
}.

#[export] Instance world_quiet_refl : Reflexive world_quiet.
Proof. intros w. split; [done|done|done|now exists []]. Qed.

#[export] Instance world_quiet_trans : Transitive world_quiet.
Proof.
  intros w1 w2 w3 [e1 k1 g1 (n1 & t1 & q1)] [e2 k2 g2 (n2 & t2 & q2)]. split; [congruence..|].
  exists (n2 ++ n1). rewrite t2, t1, app_assoc, Forall_app. auto.
Qed.

Lemma world_quiet_step w w' : world_quiet w w' -> world_step w w'.
Proof. intros [? ? _ (new & ? & _)]. split; eauto. Qed.

Lemma world_quiet_emit e w w' :
  outgoing e = false -> w_env w' = w_env w -> g_crypto_key w' = g_crypto_key w ->
  g_tui_active w' = g_tui_active w -> w_trace w' = e :: w_trace w -> world_quiet w w'.
Proof. intros. split; [done..|]. exists [e]. auto. Qed.

Lemma world_quiet_same w w' :
  w_env w' = w_env w -> g_crypto_key w' = g_crypto_key w -> g_tui_active w' = g_tui_active w ->
  w_trace w' = w_trace w -> world_quiet w w'.
Proof. intros. split; [done..|]. now exists []. Qed.

(** Closes the goals left by an action that only reads, asks the operating
    system or emits an event. *)
Ltac quiet :=
  match goal with
  | |- world_ok _ => eapply world_ok_quiet; [eassumption|reflexivity..]
  | |- world_quiet _ _ =>
      first [ apply world_quiet_same; reflexivity
            | (eapply world_quiet_emit; cycle 1); reflexivity ]
  end.

Section frame.
Context {S : Type} `{HW : HasWorld S}.
Variable J : S -> Prop.                    (** invariant of the component *)

(** The invariant and the guarantee of a thread of the component. *)
Definition inv (s : S) : Prop := world_ok (get_world s) /\ J s.
Definition rel (s s' : S) : Prop := world_step (get_world s) (get_world s').

(** [p] is safe whatever the other threads do. *)
Definition safe {A} (p : prog S A) (Q : A -> Prop) : Prop := guar inv rel p Q.

(** The component's invariant survives what the process does besides sending,
    and it permits the outgoing event [e]. *)
Class Framed : Prop :=
  framed : forall w s, J s -> world_quiet (get_world s) w -> J (set_world w s).
Class Permits (e : event) : Prop :=
  permits : forall w s, J s -> w_env w = w_env (get_world s) ->
    g_crypto_key w = g_crypto_key (get_world s) -> g_tui_active w = g_tui_active (get_world s) ->
    w_trace w = e :: w_trace (get_world s) -> J (set_world w s).
Context {F : Framed}.

Lemma safe_on_world {A} (f : world -> option (A * world)) (Q : A -> Prop) :
  (forall w, world_ok w -> exists a w', f w = Some (a, w') /\ world_ok w' /\ world_quiet w w' /\ Q a) ->
  safe (on_world f) Q.
Proof.
  intros H. apply guar_atomic. intros s [Hw HJ]. destruct (H _ Hw) as (a & w' & Hf & Hw' & Hst & HQ).
  exists a, (set_world w' s). rewrite Hf. unfold inv, rel. rewrite get_set_world.
  auto 6 using world_quiet_step.
Qed.

Lemma safe_on_world' {A} (f : world -> A * world) (Q : A -> Prop) :
  (forall w, world_ok w -> world_ok (f w).2 /\ world_quiet w (f w).2 /\ Q (f w).1) ->
  safe (on_world' f) Q.
Proof.
  intros H. apply safe_on_world. intros w Hw. destruct (H w Hw) as (H1 & H2 & H3).
  destruct (f w) as [a w'] eqn:E. now exists a, w'.
Qed.

Lemma safe_read_world {A} (f : world -> A) (Q : A -> Prop) :
  (forall w, world_ok w -> Q (f w)) -> safe (read_world f) Q.
Proof. intros H. apply safe_on_world'. intros w Hw. cbn. split; [done|split; [reflexivity|auto]]. Qed.

Lemma safe_bind {A B} (p : prog S A) (q : A -> prog S B) (P : A -> Prop) Q :
  safe p P -> (forall a, P a -> safe (q a) Q) -> safe (bind p q) Q.
Proof. apply guar_seq. Qed.

Lemma safe_ret {A} (a : A) (Q : A -> Prop) : Q a -> safe (Ret a) Q.
Proof. auto. Qed.

Lemma safe_mono {A} (p : prog S A) (Q Q' : A -> Prop) :
  safe p Q -> (forall a, Q a -> Q' a) -> safe p Q'.
Proof. apply guar_mono. Qed.

Lemma safe_local {A} (o : option A) (Q : A -> Prop) a : o = Some a -> Q a -> safe (local o) Q.
Proof. apply guar_local. Qed.

(** Thread-local code that computes [a]. *)
Lemma safe_then {A B} (o : option A) (q : A -> prog S B) (Q : B -> Prop) a :
  o = Some a -> safe (q a) Q -> safe (bind (local o) q) Q.
Proof. intros -> H. exact H. Qed.

Lemma safe_for_each {A} (l : list A) body (P : A -> Prop) :
  Forall P l -> (forall x, P x -> safe (body x) (fun _ => True)) ->
  safe (for_each l body) (fun _ => True).
Proof. apply guar_for_each. Qed.

#[global] Instance rel_refl : Reflexive rel.
Proof. intros s. apply world_step_refl. Qed.

#[global] Instance rel_trans : Transitive rel.
Proof. intros s1 s2 s3. apply world_step_trans. Qed.

(** A safe thread, run without interference. *)
Lemma safe_run {A} (p : prog S A) Q s :
  safe p Q -> inv s -> exists a s', run p s = Some (a, s') /\ inv s' /\ rel s s' /\ Q a.
Proof. intros Hp Hs. eapply guar_run; eauto; apply _. Qed.

Lemma safe_locked {A} (p : prog S A) Q : safe p Q -> safe (locked p) Q.
Proof. intros Hp. apply guar_atomic. intros s Hs. now apply safe_run. Qed.

Lemma safe_alloc n :
  0 <= n -> safe (alloc n) (fun b => zlen b = n /\ bytes_ok b).
Proof.
  intros Hn. apply safe_on_world'. intros w Hw. cbn. split; [quiet|split; [quiet|]].
  split.
  - unfold zlen. rewrite length_map, length_seq. lia.
  - apply Forall_map, Forall_true. intros. apply is_u8_mod.
Qed.

Lemma safe_running : safe tund_is_running (fun _ => True).
Proof. now apply safe_read_world. Qed.

Lemma safe_stop : safe tund_request_stop (fun _ => True).
Proof. apply safe_on_world'. intros w Hw. cbn. split; [quiet|split; [quiet|done]]. Qed.

(** Logging is safe when every array argument is terminated. *)
Lemma safe_LOG lvl args :
  Forall (fun a => exists s, c_str a = Some s) args -> safe (LOG lvl args) (fun _ => True).
Proof.
  intros Ha. apply safe_on_world. intros w Hw.
  destruct (lvl <? g_log_level w); [exists tt, w; split; [done|]; now split|].
  assert (exists strs, mapM c_str args = Some strs) as [strs ->].
  { induction Ha as [|a l [s Hs] _ [r Hr]]; [now exists []|]. exists (s :: r). cbn.
    now rewrite Hs, Hr. }
  eexists _, _. split; [done|]. split; [quiet|split; [quiet|done]].
Qed.

(** One outgoing event, permitted by the invariant. *)
Lemma safe_outgoing {A} (f : world -> A * world) (ev : A -> event) :
  (forall w, world_ok w -> world_ok (f w).2 /\ w_env (f w).2 = w_env w /\
     g_crypto_key (f w).2 = g_crypto_key w /\ g_tui_active (f w).2 = g_tui_active w /\
     w_trace (f w).2 = ev (f w).1 :: w_trace w) ->
  (forall a, Permits (ev a)) -> safe (on_world' f) (fun _ => True).
Proof.
  intros H HP. apply guar_atomic. intros s [Hw HJ].
  destruct (H _ Hw) as (Hw' & He & Hk & Hg & Ht).
  destruct (f (get_world s)) as [a w'] eqn:E. cbn [fst snd] in *.
  exists a, (set_world w' s). split; [done|]. unfold inv, rel. rewrite get_set_world.
  split; [split; [done|now apply (HP a)]|]. split; [|done]. split; eauto. now exists [ev a].
Qed.

Lemma safe_sendto wire dest :
  (forall res, Permits (EvSent wire dest res)) -> safe (sendto wire dest) (fun _ => True).
Proof.
  intros HP. apply (safe_outgoing _ (EvSent wire dest)); [|done]. intros w Hw. cbn.
  split; [quiet|done].
Qed.

Lemma safe_tun_write pkt :
  Permits (EvTunWrite pkt) -> safe (tun_write pkt) (fun _ => True).
Proof.
  intros HP. apply (safe_outgoing _ (fun _ => EvTunWrite pkt)); [|done]. intros w Hw. cbn.
  split; [quiet|done].
Qed.
End frame.

#[export] Instance framed_True {S} `{HasWorld S} : Framed (fun _ : S => True).
Proof. done. Qed.

#[export] Instance permits_True {S} `{HasWorld S} e : Permits (fun _ : S => True) e.
Proof. done. Qed.

#[export] Hint Resolve safe_running safe_stop : tund.

(** * Policies on what leaves the process *)

(** Since the trace was [t0], every outgoing event satisfies [ok]; the key is
    [key]. *)
Definition policy (key : bytes) (t0 : list event) (ok : event -> Prop) (w : world) : Prop :=
  g_crypto_key w = key /\
  exists new, w_trace w = new ++ t0 /\ Forall (fun e => outgoing e = true -> ok e) new.

(** A condition on the process that steps without outgoing events keep. *)
Class Quiet (W : world -> Prop) : Prop :=
  quiet_stable : forall w w', W w -> world_quiet w w' -> W w'.

(** A condition that the outgoing event [e] keeps. *)
Class Allows (W : world -> Prop) (e : event) : Prop :=
  allows : forall w w', W w -> w_env w' = w_env w -> g_crypto_key w' = g_crypto_key w ->
    g_tui_active w' = g_tui_active w -> w_trace w' = e :: w_trace w -> W w'.

(** What the outside sees of a shutdown besides messages. *)
Definition closing (e : event) : Prop :=
  (exists fd, e = EvClose fd) \/ exists i r, e = EvSys (ThreadJoin i) r.

#[export] Instance quiet_any : Quiet (fun _ => True).
Proof. done. Qed.

#[export] Instance allows_any e : Allows (fun _ => True) e.
Proof. done. Qed.

#[export] Instance quiet_policy key t0 ok : Quiet (policy key t0 ok).
Proof.
  intros w w' (Hk & new & Ht & Hf) [_ Hk' _ (new' & Ht' & Hq)]. split; [congruence|].
  exists (new' ++ new). rewrite Ht', Ht, app_assoc, Forall_app. split; [done|]. split; [|done].
  eapply Forall_impl; [|exact Hq]. cbn. congruence.
Qed.

Lemma allows_policy key t0 (ok : event -> Prop) e : ok e -> Allows (policy key t0 ok) e.
Proof.
  intros He w w' (Hk & new & Ht & Hf) _ Hk' _ Ht'. split; [congruence|].
  exists (e :: new). rewrite Ht', Ht. split; [done|]. constructor; auto.
Qed.

(** The operating system and whether the terminal UI is on, which are settled
    at start-up. *)
Definition mode (w : world) : env * bool := (w_env w, g_tui_active w).

#[export] Instance quiet_mode m : Quiet (fun w => mode w = m).
Proof. intros w w' Hw Hq. unfold mode. rewrite (quiet_env _ _ Hq), (quiet_tui _ _ Hq). exact Hw. Qed.

#[export] Instance allows_mode m e : Allows (fun w => mode w = m) e.
Proof. intros w w' Hw He _ Hg _. unfold mode in *. congruence. Qed.

(** No poll is ever interrupted by a signal. *)
Definition uninterrupted (e : env) : Prop := forall t, env_poll_eintr e t = false.

(** Conditions on the operating system and the key, which never change. *)
#[export] Instance quiet_fixed (P : env -> bytes -> Prop) : Quiet (fun w => P (w_env w) (g_crypto_key w)).
Proof. intros w w' Hw Hq. now rewrite (quiet_env _ _ Hq), (quiet_key _ _ Hq). Qed.

#[export] Instance allows_fixed (P : env -> bytes -> Prop) e :
  Allows (fun w => P (w_env w) (g_crypto_key w)) e.
Proof. intros w w' Hw He Hk _ _. now rewrite He, Hk. Qed.

#[export] Instance quiet_and W1 W2 `{Quiet W1, Quiet W2} : Quiet (fun w => W1 w /\ W2 w).
Proof. intros w w' [H1 H2] Hq. split; [now apply (quiet_stable w)|now apply (quiet_stable w)]. Qed.

#[export] Instance allows_and W1 W2 e `{Allows W1 e, Allows W2 e} : Allows (fun w => W1 w /\ W2 w) e.
Proof. intros w w' [H1 H2] ? ? ? ?. split; [now apply (allows (e := e) w)|now apply (allows (e := e) w)]. Qed.

Lemma policy_start w ok : policy (g_crypto_key w) (w_trace w) ok w.
Proof. split; [done|]. now exists []. Qed.

(** * A concrete process *)

(** An operating system in which every call succeeds at once. *)
Definition sample_env : env := {|
  env_open _ := 3;
  env_read t n := ReadData (map (fun i => Z.of_nat (t + i) mod 256) (seq 0 (Z.to_nat n)));
  env_eintr := 0;
  env_time t := 1000 + Z.of_nat t mod 1000;
  env_now_ms t := 5000000 + Z.of_nat t mod 1000;
  env_sendto _ n := n;
  env_recvfrom _ _ := RecvAgain;
  env_poll _ := 0;
  env_poll_eintr _ := false;
  env_tun_read _ _ := ReadFail;
  env_tun_write _ n := n;
  env_stack t := Z.of_nat t;
  env_sys t := Z.of_nat t;
  env_ifname _ := [116; 117; 110; 100; 48] ++ replicate 11 0;
  env_ifflags _ := 0x1002;
  env_resolve _ := Some (SockAddr 2 0 0x0101A8C0)
|}.

Definition sample_world : world :=
  World sample_env 0 0 (-1) true (replicate 32 7) LOG_LEVEL_INFO false true [].

Lemma sample_env_ok : env_ok sample_env.
Proof.
  split; cbn.
  - intros t n l Hn [= <-]. split.
    + unfold zlen. rewrite length_map, length_seq. lia.
    + apply Forall_map, Forall_true. intros. apply is_u8_mod.
  - intros t n. exists 0%nat. done.
  - intros t. pose proof (Z.mod_pos_bound (Z.of_nat t) 1000). lia.
  - intros t. pose proof (Z.mod_pos_bound (Z.of_nat t) 1000). words. lia.
  - done.
  - done.
  - intros t. split; [done|now eexists].
  - intros t a [= <-]. repeat split; cbn; words; lia.
  - intros t. lia.
Qed.

Lemma sample_world_ok : world_ok sample_world.
Proof.
  split; [apply sample_env_ok|]. split; [|split; [done|split; [done|apply Forall_replicate; words; lia]]].
  split; [words; cbn; lia|]. now left.
Qed.
