(* ===== verification/Consts.v ===== *)
(** The constants of [protocol.h] and [tund.h]. *)
From stdpp Require Import base numbers.
From S2P Require Import Prelude.

Definition TUND_MAGIC : Z := 169.
Definition TUND_PROTOCOL_VERSION : Z := 4.
Definition TUND_PORT : Z := 9909.
Definition TUND_SEQUENCE_SIZE : Z := 8.
Definition TUND_NONCE_SIZE : Z := 24.
Definition TUND_AUTH_TAG_SIZE : Z := 16.
Definition TUND_KEY_SIZE : Z := 32.
Definition TUND_SEQUENCE_OFFSET : Z := 5.
Definition TUND_NONCE_OFFSET : Z := TUND_SEQUENCE_OFFSET + TUND_SEQUENCE_SIZE.
Definition TUND_HDR_SIZE : Z := TUND_NONCE_OFFSET + TUND_NONCE_SIZE.
Definition TUND_MAX_PLAINTEXT : Z := 1600.
Definition TUND_MAX_PAYLOAD : Z := TUND_MAX_PLAINTEXT + TUND_AUTH_TAG_SIZE.
Definition TUND_MAX_PKT : Z := TUND_HDR_SIZE + TUND_MAX_PAYLOAD.
Definition TUND_NAME_LEN : Z := 32.
Definition TUND_PEER_ENTRY_SIZE : Z := 4 + TUND_NAME_LEN + 1.
Definition TUND_TUN_MTU : Z := 1400.

Definition TUND_HDR_BAD_MAGIC : Z := -1.
Definition TUND_HDR_BAD_VERSION : Z := -2.

Definition TUND_IPV4_OK : Z := 0.
Definition TUND_IPV4_TOO_SHORT : Z := -1.
Definition TUND_IPV4_BAD_VERSION : Z := -2.
Definition TUND_IPV4_BAD_IHL : Z := -3.
Definition TUND_IPV4_TRUNCATED : Z := -4.
Definition TUND_IPV4_LENGTH_MISMATCH : Z := -5.
Definition TUND_IPV4_BAD_SRC : Z := -6.
Definition TUND_IPV4_BAD_DST : Z := -7.

Definition TUND_SUBNET : Z := 0x0A090000.
Definition TUND_NETMASK : Z := 0xFFFFFF00.
Definition TUND_SERVER_IP : Z := 0x0A090001.
Definition TUND_IP_START : Z := 0x0A090002.
Definition TUND_IP_END : Z := 0x0A0900FE.

(** [TUND_SUBNET | ~TUND_NETMASK] on 32 bits. *)
Definition TUND_BROADCAST : Z := Z.lor TUND_SUBNET (u32 (Z.lnot TUND_NETMASK)).

Definition TUND_KEEPALIVE_INTERVAL : Z := 10.
Definition TUND_PEER_TIMEOUT : Z := 30.
Definition TUND_SERVER_TIMEOUT : Z := 30.
Definition TUND_REGISTER_TIMEOUT : Z := 5.
Definition TUND_REGISTER_RETRIES : nat := 3.

Definition MSG_REGISTER : Z := 1.
Definition MSG_ASSIGN : Z := 2.
Definition MSG_PEER_LIST : Z := 3.
Definition MSG_DATA : Z := 4.
Definition MSG_KEEPALIVE : Z := 5.
Definition MSG_DISCONNECT : Z := 6.
Definition MSG_PEER_JOIN : Z := 7.
Definition MSG_PEER_LEAVE : Z := 8.
Definition MSG_KEEPALIVE_ACK : Z := 9.

Definition TUND_PEER_ENTRY_IP_OFFSET : Z := 0.
Definition TUND_PEER_ENTRY_NAME_OFFSET : Z := 4.
Definition TUND_PEER_ENTRY_STATUS_OFFSET : Z := TUND_PEER_ENTRY_NAME_OFFSET + TUND_NAME_LEN.

Definition TUND_MAX_PEERS : Z := 253.
Definition TUND_RTT_SMOOTHING_WEIGHT : Z := 7.

(** Replaces the constants by their values, for [lia]. *)
Ltac consts :=
  unfold TUND_MAX_PKT, TUND_MAX_PAYLOAD, TUND_HDR_SIZE, TUND_NONCE_OFFSET, TUND_PEER_ENTRY_SIZE,
    TUND_PEER_ENTRY_STATUS_OFFSET, TUND_PEER_ENTRY_NAME_OFFSET, TUND_PEER_ENTRY_IP_OFFSET,
    TUND_SEQUENCE_OFFSET, TUND_SEQUENCE_SIZE, TUND_NONCE_SIZE, TUND_AUTH_TAG_SIZE,
    TUND_KEY_SIZE, TUND_MAX_PLAINTEXT, TUND_NAME_LEN, TUND_TUN_MTU, TUND_MAX_PEERS,
    TUND_MAGIC, TUND_PROTOCOL_VERSION, TUND_IP_START, TUND_IP_END in *.

Ltac clia := consts; unfold zlen in *; words; lia.
