(* ===== verification/Sequence.v ===== *)
(** Randomness and sequence numbers ([protocol.c], lines 58-118): the
    [/dev/urandom] reader and the process-wide atomic counter every outgoing
    datagram takes its sequence number from. *)
From stdpp Require Import base list numbers option.
From S2P Require Import Prelude Prog World.

(** * Operations *)

(** [proto_random_fd]: opened once, under its lock, and kept. *)
Definition proto_random_fd (w : world) : Z * world :=
  if g_proto_random_fd w <? 0 then
    let '(fd, w) := ask env_open w in
    let w := if fd <? 0 then w else emit (EvRandom fd) w in
    (fd, set_random_fd fd w)
  else (g_proto_random_fd w, w).

(** The loop of [proto_random_bytes]; [acc] is what has been stored so far. *)
Fixpoint random_loop (fuel : nat) (len : Z) (acc : bytes) (w : world) :
    option ((bool * bytes) * world) :=
  if zlen acc <? len then
    match fuel with
    | O => None
    | S fuel =>
        let '(got, w) := ask (fun e t => env_read e t (len - zlen acc)) w in
        match got with
        | ReadEintr => random_loop fuel len acc w
        | ReadFail => Some ((false, acc), w)
        | ReadData l =>
            if zlen l <=? 0 then Some ((false, acc), w) else random_loop fuel len (acc ++ l) w
        end
    end
  else Some ((true, acc), w).

(** [proto_random_bytes]: success, and the bytes stored from the start of the
    destination (fewer than [len] on failure). *)
Definition proto_random_bytes (len : Z) (w : world) : option ((bool * bytes) * world) :=
  let '(fd, w) := proto_random_fd w in
  if fd <? 0 then Some ((false, []), w)
  else random_loop (Z.to_nat len * S (env_eintr (w_env w))) len [] w.

Section ops.
Context {S : Type} `{HW : HasWorld S}.

(** [proto_initial_sequence]: a random number in [1, 2^63). *)
Definition proto_initial_sequence : prog S (option Z) :=
  let* '(ok, l) := on_world (proto_random_bytes 8) in
  if negb ok then Ret None
  else
    let seed := Z.land (le_combine l) (Z.shiftr (2 ^ 64 - 1) 1) in
    Ret (Some (if seed =? 0 then 1 else seed)).

(** [atomic_compare_exchange_strong] of the counter against zero. *)
Definition cas_sequence (initial : Z) : prog S (bool * Z) :=
  on_world' (fun w =>
    if g_proto_next_sequence w =? 0 then ((true, 0), set_sequence initial w)
    else ((false, g_proto_next_sequence w), w)).

(** [atomic_fetch_add] of the counter; a non-zero result is issued. *)
Definition fetch_add_sequence : prog S Z :=
  on_world' (fun w =>
    let next := g_proto_next_sequence w in
    let w := set_sequence (u64 (next + 1)) w in
    (next, if next =? 0 then w else emit (EvSeq next) w)).

(** The [while (current == 0)] loop of [proto_next_sequence]. *)
Fixpoint sequence_init (fuel : nat) (current : Z) : prog S bool :=
  if current =? 0 then
    match fuel with
    | O => undef
    | Datatypes.S fuel =>
        let* r := proto_initial_sequence in
        match r with
        | None => Ret false
        | Some initial =>
            let* '(won, expected) := cas_sequence initial in
            if won then Ret true else sequence_init fuel expected
        end
    end
  else Ret true.

Definition proto_next_sequence : prog S (option Z) :=
  let* current := read_world g_proto_next_sequence in
  let* ok := sequence_init 1 current in
  if negb ok then Ret None
  else
    let* next := fetch_add_sequence in
    if next =? 0 then Ret None else Ret (Some next).
End ops.

(** * The random reader *)

Lemma random_fd_spec w fd w' :
  proto_random_fd w = (fd, w') -> world_ok w -> world_ok w' /\ world_quiet w w'.
Proof.
  unfold proto_random_fd, ask. destruct (g_proto_random_fd w <? 0) eqn:Ew; [|now intros [= <- <-]].
  intros [= <- <-] (He & Hs & Hr & Hk). unfold random_kept in Hr. rewrite Ew in Hr.
  destruct (env_open (w_env w) (w_tick w) <? 0) eqn:Eo; (split; [|quiet]); (split; [exact He|]; split; [exact Hs|]; split; [|exact Hk]).
  - red. cbn. now rewrite Eo.
  - red. cbn. now rewrite Eo, Hr.
Qed.

(** Fuel for [r] missing bytes when the next uninterrupted read is [k] away. *)
Lemma random_loop_total fuel : forall len acc w k,
  world_ok w -> bytes_ok acc -> zlen acc <= len ->
  (zlen acc < len -> env_read (w_env w) (w_tick w + k) (len - zlen acc) <> ReadEintr) ->
  (Z.to_nat (len - zlen acc) * S (env_eintr (w_env w)) + k <= fuel + env_eintr (w_env w))%nat ->
  exists ok l w', random_loop fuel len acc w = Some ((ok, l), w') /\
    world_ok w' /\ world_quiet w w' /\ bytes_ok l /\ zlen l <= len /\ (ok = true -> zlen l = len).
Proof.
  induction fuel as [|fuel IH]; intros len acc w k Hw Hb Hl Hk Hf; cbn [random_loop];
    (destruct (Z.ltb_spec (zlen acc) len) as [Hlt|Hge];
     [|exists true, acc, w; do 4 (split; [done|]); split; [lia|intros; lia]]).
  - exfalso. nia.
  - unfold ask. set (n := len - zlen acc) in *.
    pose proof (proj1 Hw) as He.
    destruct (env_read (w_env w) (w_tick w) n) as [l| |] eqn:Er.
    + destruct (ok_read _ He _ n l ltac:(unfold n; lia) Er) as [Hn Hlb].
      destruct (Z.leb_spec (zlen l) 0) as [Hz|Hz].
      { exists false, acc, (tick w). split; [done|]. split; [quiet|]. split; [quiet|].
        split; [done|]. split; [done|discriminate]. }
      destruct (ok_eintr _ He (S (w_tick w)) (len - zlen (acc ++ l))) as (k' & Hk' & Hne).
      destruct (IH len (acc ++ l) (tick w) k') as (ok & r & w' & Hr & Hw' & Hst & HH).
      * quiet.
      * apply bytes_ok_app. done.
      * rewrite zlen_app. lia.
      * intros _. exact Hne.
      * rewrite zlen_app. cbn [w_env tick]. unfold zlen in *. nia.
      * exists ok, r, w'. split; [done|]. split; [done|]. split; [|done].
        etransitivity; [|exact Hst]. quiet.
    + destruct k as [|k].
      { exfalso. rewrite Nat.add_0_r in Hk. exact (Hk Hlt Er). }
      destruct (IH len acc (tick w) k) as (ok & r & w' & Hr & Hw' & Hst & HH); try done.
      * intros Hlt'. cbn [w_tick tick w_env]. rewrite Nat.add_succ_comm. auto.
      * cbn [w_env tick]. lia.
      * exists ok, r, w'. split; [done|]. split; [done|]. split; [|done].
        etransitivity; [|exact Hst]. quiet.
    + exists false, acc, (tick w). split; [done|]. split; [quiet|]. split; [quiet|].
      split; [done|]. split; [done|discriminate].
Qed.

Lemma random_bytes_total len w :
  0 <= len -> world_ok w ->
  exists ok l w', proto_random_bytes len w = Some ((ok, l), w') /\
    world_ok w' /\ world_quiet w w' /\ bytes_ok l /\ zlen l <= len /\ (ok = true -> zlen l = len).
Proof.
  intros Hlen Hw. unfold proto_random_bytes.
  destruct (proto_random_fd w) as [fd w1] eqn:E. apply random_fd_spec in E as [Hw1 Hst1]; [|done].
  destruct (fd <? 0).
  - exists false, [], w1. do 4 (split; [done || constructor|]). split; [done|discriminate].
  - destruct (ok_eintr _ (proj1 Hw1) (w_tick w1) (len - zlen (@nil Z))) as (k & Hk & Hne).
    destruct (random_loop_total (Z.to_nat len * S (env_eintr (w_env w1))) len [] w1 k)
      as (ok & l & w' & Hr & Hw' & Hst & HH); try done.
    + constructor.
    + rewrite zlen_nil, Z.sub_0_r. lia.
    + exists ok, l, w'. split; [done|]. split; [done|]. split; [|done]. etransitivity; eauto.
Qed.

(** * The counter *)

Lemma issued_emit n w : issued (w_trace (emit (EvSeq n) w)) = n :: issued (w_trace w).
Proof. reflexivity. Qed.

Lemma seqZ_snoc start n : 0 <= n -> seqZ start (n + 1) = seqZ start n ++ [start + n].
Proof.
  intros Hn. rewrite seqZ_app, (seqZ_cons _ 1), (seqZ_nil _ (Z.pred 1)) by lia. done.
Qed.

(** Seeding an unused counter. *)
Lemma world_ok_seed w initial :
  world_ok w -> g_proto_next_sequence w = 0 -> 1 <= initial < 2 ^ 63 ->
  world_ok (set_sequence initial w).
Proof.
  intros (He & [Hu Hs] & Hk) H0 Hi. split; [done|]. split; [|done]. split; [words; cbn; lia|].
  cbn [w_trace set_sequence g_proto_next_sequence]. intros Hlt. right.
  destruct (Hs Hlt) as [[_ ->]|(start & Hst & Hg & _)].
  - exists initial. rewrite zlen_nil, Z.add_0_r. done.
  - pose proof (zlen_nonneg (issued (w_trace w))). lia.
Qed.

(** Issuing the current value of the counter. *)
Lemma world_ok_issue w :
  world_ok w -> g_proto_next_sequence w <> 0 ->
  world_ok (emit (EvSeq (g_proto_next_sequence w))
              (set_sequence (u64 (g_proto_next_sequence w + 1)) w)).
Proof.
  intros (He & [Hu Hs] & Hk) H0. split; [done|]. split; [|done].
  split; [cbn; words; apply Z.mod_pos_bound; lia|].
  cbn [w_trace set_sequence g_proto_next_sequence emit issued]. rewrite zlen_cons.
  intros Hlt. right. destruct Hs as [[? _]|(start & Hst & Hg & Hi)]; [lia|done|].
  exists start. split; [done|]. rewrite Hg in *.
  pose proof (zlen_nonneg (issued (w_trace w))). split.
  - words. rewrite Z.mod_small; lia.
  - rewrite (Z.add_comm 1), seqZ_snoc, rev_app_distr by done. cbn [rev app]. now rewrite <- Hi.
Qed.

(** The counter has wrapped around, or was never seeded. *)
Lemma world_ok_zero w :
  world_ok w -> g_proto_next_sequence w = 0 ->
  world_ok (set_sequence (u64 (g_proto_next_sequence w + 1)) w).
Proof.
  intros (He & [Hu Hs] & Hk) H0. split; [done|]. split; [|done].
  rewrite H0. change (u64 (0 + 1)) with 1. split; [words; cbn; lia|].
  cbn [w_trace set_sequence g_proto_next_sequence emit issued]. intros Hlt. right.
  destruct (Hs Hlt) as [[_ ->]|(start & Hst & Hg & _)].
  - exists 1. rewrite zlen_nil. done.
  - pose proof (zlen_nonneg (issued (w_trace w))). lia.
Qed.

Section safe.
Context {S : Type} `{HW : HasWorld S} (J : S -> Prop) {F : Framed J}.

Lemma safe_random_bytes len :
  0 <= len ->
  safe J (on_world (proto_random_bytes len))
    (fun '(ok, l) => bytes_ok l /\ zlen l <= len /\ (ok = true -> zlen l = len)).
Proof.
  intros Hlen. apply safe_on_world; [done|]. intros w Hw.
  destruct (random_bytes_total len w Hlen Hw) as (ok & l & w' & H1 & H2 & H3 & HH).
  now exists (ok, l), w'.
Qed.

Lemma seed_range l :
  0 <= Z.land (le_combine l) (Z.shiftr (2 ^ 64 - 1) 1) < 2 ^ 63.
Proof.
  change (Z.shiftr (2 ^ 64 - 1) 1) with (Z.ones 63).
  rewrite Z.land_ones by lia. apply Z.mod_pos_bound. lia.
Qed.

Lemma safe_initial_sequence :
  safe J proto_initial_sequence
    (fun r => match r with Some n => 1 <= n < 2 ^ 63 | None => True end).
Proof.
  eapply safe_bind; [now apply safe_random_bytes|]. intros [ok l] (Hl & _ & _).
  destruct ok; cbn [negb]; apply safe_ret; [|done].
  pose proof (seed_range l). case_match; [lia|]. bools. lia.
Qed.

Lemma safe_cas initial :
  1 <= initial < 2 ^ 63 ->
  safe J (cas_sequence initial) (fun '(won, expected) => won = false -> expected <> 0).
Proof.
  intros Hi. apply safe_on_world'; [done|]. intros w Hw.
  destruct (Z.eqb_spec (g_proto_next_sequence w) 0); cbn.
  - split; [now apply world_ok_seed|]. split; [quiet|done].
  - split; [done|]. split; [reflexivity|done].
Qed.

Lemma safe_fetch_add : safe J fetch_add_sequence is_u64.
Proof.
  apply safe_on_world'; [done|]. intros w Hw. pose proof Hw as (_ & [Hu _] & _). cbn.
  destruct (Z.eqb_spec (g_proto_next_sequence w) 0).
  - split; [now apply world_ok_zero|]. split; [quiet|done].
  - split; [now apply world_ok_issue|]. split; [quiet|done].
Qed.

(** One round of the initialisation loop is enough: a compare-and-swap that
    fails reports a counter already seeded by another thread. *)
Lemma safe_sequence_init current : safe J (sequence_init 1 current) (fun _ => True).
Proof.
  cbn [sequence_init]. destruct (current =? 0); [|now apply safe_ret].
  eapply safe_bind; [apply safe_initial_sequence|]. intros [initial|] Hi; [|now apply safe_ret].
  eapply safe_bind; [now apply safe_cas|]. intros [[] expected] He; [now apply safe_ret|].
  cbn [sequence_init]. destruct (Z.eqb_spec expected 0); [now destruct (He eq_refl)|].
  now apply safe_ret.
Qed.

Lemma safe_next_sequence :
  safe J proto_next_sequence
    (fun r => match r with Some n => 1 <= n < 2 ^ 64 | None => True end).
Proof.
  eapply safe_bind; [now apply (safe_read_world _ _ (fun _ => True))|]. intros current _.
  eapply safe_bind; [apply safe_sequence_init|]. intros [] _; [|now apply safe_ret].
  eapply safe_bind; [apply safe_fetch_add|]. intros n Hn. cbn.
  destruct (Z.eqb_spec n 0); apply safe_ret; [done|]. words. lia.
Qed.
End safe.

(** Consecutive numbers below [2^63] apart are distinct. *)
Lemma issued_nodup w :
  world_ok w -> zlen (issued (w_trace w)) < 2 ^ 63 -> NoDup (issued (w_trace w)) /\ 0 ∉ issued (w_trace w).
Proof.
  intros (_ & [_ Hs] & _) Hlt. destruct (Hs Hlt) as [[_ ->]|(start & Hst & _ & ->)].
  - split; [constructor|apply not_elem_of_nil].
  - split; [apply NoDup_ListNoDup, NoDup_rev, NoDup_ListNoDup, NoDup_seqZ|].
    rewrite list_elem_of_In, <- in_rev, <- list_elem_of_In, elem_of_seqZ. lia.
Qed.
