(* ===== verification/Wire.v ===== *)
(** Datagram framing of [protocol.c]: the 37-byte header, the message builders
    and the readers. *)
From stdpp Require Import base list numbers option.
From S2P Require Import Prelude Prog World Consts Sequence.

(** * Readers and writers of fields *)

(** [for (i = 0; i < 8; i++) v |= (uint64_t)p[i] << (8 * i)]. *)
Fixpoint load_le (n : nat) (p : bytes) (i : Z) (v : Z) : option Z :=
  match n with
  | O => Some v
  | S n => let? b := buf_get p i in load_le n p (i + 1) (Z.lor v (u64 (Z.shiftl b (8 * i))))
  end.

Definition proto_load64_le (p : bytes) : option Z := load_le 8 p 0 0.

(** [for (i = 0; i < 8; i++) v = (v << 8) | p[i]]. *)
Fixpoint load_be (n : nat) (p : bytes) (i : Z) (v : Z) : option Z :=
  match n with
  | O => Some v
  | S n => let? b := buf_get p i in load_be n p (i + 1) (Z.lor (u64 (Z.shiftl v 8)) b)
  end.

Definition proto_load64_be (p : bytes) : option Z := load_be 8 p 0 0.

(** [for (i = n - 1; i >= 0; i--) { p[i] = (uint8_t)(v & 0xFF); v >>= 8; }]. *)
Fixpoint store_be (n : nat) (buf : bytes) (base v : Z) : option bytes :=
  match n with
  | O => Some buf
  | S i =>
      let? buf := mem_write buf (base + Z.of_nat i) [u8 (Z.land v 0xFF)] in
      store_be i buf base (Z.shiftr v 8)
  end.

(** [p + off] for a pointer into an array. *)
Definition ptr (b : bytes) (off : Z) : bytes := drop (Z.to_nat off) b.

Inductive hdr_result : Type :=
| HdrOk (type payload_len : Z)
| HdrErr (code : Z).

Definition proto_read_hdr (buf : bytes) : option hdr_result :=
  let? b0 := buf_get buf 0 in
  if negb (b0 =? TUND_MAGIC) then Some (HdrErr TUND_HDR_BAD_MAGIC)
  else
    let? b1 := buf_get buf 1 in
    if negb (b1 =? TUND_PROTOCOL_VERSION) then Some (HdrErr TUND_HDR_BAD_VERSION)
    else
      let? b2 := buf_get buf 2 in
      let? b3 := buf_get buf 3 in
      let? b4 := buf_get buf 4 in
      Some (HdrOk b2 (u16 (Z.lor (Z.shiftl b3 8) b4))).

(** [None] inside: the function returned [false]. *)
Definition proto_read_sequence (buf : bytes) : option (option Z) :=
  let? value := proto_load64_be (ptr buf TUND_SEQUENCE_OFFSET) in
  Some (if value =? 0 then None else Some value).

Definition proto_write_payload_len (buf : bytes) (payload_len : Z) : option bytes :=
  let? buf := mem_write buf 3 [u8 (Z.shiftr payload_len 8)] in
  mem_write buf 4 [u8 (Z.land payload_len 0xFF)].

Definition proto_read_keepalive_timestamp (payload : bytes) (payload_len : Z) : option (option Z) :=
  if payload_len <? 8 then Some None
  else let? v := load_be 8 payload 0 0 in Some (Some v).

(** [proto_write_peer_entry] at offset [off] of [buf]. *)
Definition proto_write_peer_entry (buf : bytes) (off payload_size virt_ip : Z)
    (name : option bytes) (online : bool) : option (bool * bytes) :=
  if payload_size <? TUND_PEER_ENTRY_SIZE then Some (false, buf)
  else
    let? buf := mem_write buf (off + TUND_PEER_ENTRY_IP_OFFSET) (le_split 4 virt_ip) in
    let? buf := mem_write buf (off + TUND_PEER_ENTRY_NAME_OFFSET)
                  (replicate (Z.to_nat TUND_NAME_LEN) 0) in
    let? buf :=
      match name with
      | None => Some buf
      | Some name =>
          let? s := c_str name in
          let name_len := if TUND_NAME_LEN <=? zlen s then TUND_NAME_LEN - 1 else zlen s in
          let? src := mem_read name 0 name_len in
          mem_write buf (off + TUND_PEER_ENTRY_NAME_OFFSET) src
      end in
    let? buf := mem_write buf (off + TUND_PEER_ENTRY_STATUS_OFFSET) [if online then 1 else 0] in
    Some (true, buf).

Definition proto_read_peer_entry (payload : bytes) (payload_len index : Z) :
    option (option (Z * bytes * bool)) :=
  if index <? 0 then Some None
  else
    let offset := index * TUND_PEER_ENTRY_SIZE in
    if payload_len <? offset + TUND_PEER_ENTRY_SIZE then Some None
    else
      let? ip := mem_read payload (offset + TUND_PEER_ENTRY_IP_OFFSET) 4 in
      let? name := mem_read payload (offset + TUND_PEER_ENTRY_NAME_OFFSET) TUND_NAME_LEN in
      let? name := mem_write name (TUND_NAME_LEN - 1) [0] in
      let? status := buf_get payload (offset + TUND_PEER_ENTRY_STATUS_OFFSET) in
      Some (Some (le_combine ip, name, negb (status =? 0))).

Definition proto_peer_entry_count (payload_len : Z) : Z := payload_len / TUND_PEER_ENTRY_SIZE.

(** * Builders *)

(** Each builder returns what the C function returns and the buffer after it. *)
Section ops.
Context {S : Type} `{HW : HasWorld S}.

Definition proto_write_hdr (buf : bytes) (type payload_len : Z) : prog S (Z * bytes) :=
  if TUND_MAX_PLAINTEXT <? payload_len then Ret (-1, buf)
  else
    let* buf := local (
      let? buf := mem_write buf 0 [TUND_MAGIC] in
      let? buf := mem_write buf 1 [TUND_PROTOCOL_VERSION] in
      let? buf := mem_write buf 2 [type] in
      proto_write_payload_len buf payload_len) in
    let* r := proto_next_sequence in
    match r with
    | None => Ret (-1, buf)
    | Some sequence =>
        let* buf := local (store_be 8 buf TUND_SEQUENCE_OFFSET sequence) in
        let* '(ok, nonce) := on_world (proto_random_bytes TUND_NONCE_SIZE) in
        let* buf := local (mem_write buf TUND_NONCE_OFFSET nonce) in
        if negb ok then Ret (-1, buf) else Ret (TUND_HDR_SIZE, buf)
    end.

(** A builder that writes the header, then [payload] after it. *)
Definition build (buf : bytes) (type plen : Z) (payload : bytes -> option bytes) :
    prog S (Z * bytes) :=
  let* '(r, buf) := proto_write_hdr buf type plen in
  if r <? 0 then Ret (-1, buf)
  else
    let* buf := local (payload buf) in
    Ret (TUND_HDR_SIZE + plen, buf).

Definition proto_build_register (buf name : bytes) : prog S (Z * bytes) :=
  let* s := local (c_str name) in
  let nlen := u16 (zlen s) in
  let nlen := if TUND_NAME_LEN <? nlen then TUND_NAME_LEN else nlen in
  build buf MSG_REGISTER nlen (fun buf =>
    let? src := mem_read name 0 nlen in mem_write buf TUND_HDR_SIZE src).

Definition proto_build_assign (buf : bytes) (virt_ip netmask mtu : Z) : prog S (Z * bytes) :=
  build buf MSG_ASSIGN 10 (fun buf =>
    let? buf := mem_write buf TUND_HDR_SIZE (le_split 4 virt_ip) in
    let? buf := mem_write buf (TUND_HDR_SIZE + 4) (le_split 4 netmask) in
    mem_write buf (TUND_HDR_SIZE + 8) (le_split 2 (htons mtu))).

Definition proto_build_data (buf ip_pkt : bytes) (ip_len : Z) : prog S (Z * bytes) :=
  build buf MSG_DATA ip_len (fun buf =>
    let? src := mem_read ip_pkt 0 ip_len in mem_write buf TUND_HDR_SIZE src).

Definition proto_build_timestamp_msg (buf : bytes) (type timestamp : Z) : prog S (Z * bytes) :=
  build buf type 8 (fun buf => store_be 8 buf TUND_HDR_SIZE timestamp).

Definition proto_build_keepalive (buf : bytes) (timestamp : Z) : prog S (Z * bytes) :=
  proto_build_timestamp_msg buf MSG_KEEPALIVE timestamp.

Definition proto_build_keepalive_ack (buf : bytes) (timestamp : Z) : prog S (Z * bytes) :=
  proto_build_timestamp_msg buf MSG_KEEPALIVE_ACK timestamp.

Definition proto_build_disconnect (buf : bytes) : prog S (Z * bytes) :=
  build buf MSG_DISCONNECT 0 (fun buf => Some buf).

Definition proto_build_peer_join (buf : bytes) (virt_ip : Z) (name : bytes) : prog S (Z * bytes) :=
  build buf MSG_PEER_JOIN (4 + TUND_NAME_LEN) (fun buf =>
    let? buf := mem_write buf TUND_HDR_SIZE (le_split 4 virt_ip) in
    let? buf := mem_write buf (TUND_HDR_SIZE + 4) (replicate (Z.to_nat TUND_NAME_LEN) 0) in
    let? src := strncpy name (Z.to_nat (TUND_NAME_LEN - 1)) in
    mem_write buf (TUND_HDR_SIZE + 4) src).

Definition proto_build_peer_leave (buf : bytes) (virt_ip : Z) : prog S (Z * bytes) :=
  build buf MSG_PEER_LEAVE 4 (fun buf => mem_write buf TUND_HDR_SIZE (le_split 4 virt_ip)).
End ops.

(** * Fields *)

Lemma lor_shift8 v b : 0 <= b < 256 -> Z.lor (Z.shiftl v 8) b = 256 * v + b.
Proof.
  intros Hb. rewrite Z.shiftl_mul_pow2 by lia.
  assert (Hd : Z.land (v * 2 ^ 8) b = 0).
  { apply Z.bits_inj'. intros i Hi. rewrite Z.land_spec, Z.testbit_0_l.
    destruct (Z.lt_ge_cases i 8); [rewrite Z.mul_pow2_bits_low by lia; done|].
    rewrite <- (Z.mod_small b (2 ^ 8)), Z.mod_pow2_bits_high by lia. apply andb_false_r. }
  rewrite <- Z.lxor_lor, <- Z.add_nocarry_lxor by exact Hd. lia.
Qed.

Lemma buf_get_at pre b post i : i = zlen pre -> buf_get (pre ++ b :: post) i = Some b.
Proof.
  intros ->. unfold buf_get, zlen. destruct (Z.leb_spec 0 (Z.of_nat (length pre))); [|lia].
  rewrite Nat2Z.id. now apply list_lookup_middle.
Qed.

Lemma be_split_S n v : be_split (S n) v = be_split n (v / 256) ++ [v mod 256].
Proof. reflexivity. Qed.

Lemma load_be_at x : forall pre post i v,
  bytes_ok x -> i = zlen pre -> 0 <= v -> (v + 1) * 256 ^ Z.of_nat (length x) <= 2 ^ 64 ->
  load_be (length x) (pre ++ x ++ post) i v =
  Some (v * 256 ^ Z.of_nat (length x) + be_combine x).
Proof.
  induction x as [|b x IH]; intros pre post i v Hx Hi Hv Hb.
  - cbn. do 2 f_equal. unfold be_combine. cbn. lia.
  - apply bytes_ok_cons in Hx as [Hb8 Hx]. cbn [length load_be app].
    rewrite buf_get_at by done. cbn [length] in Hb. rewrite pow256_succ in Hb |- *.
    pose proof (Z.pow_pos_nonneg 256 (Z.of_nat (length x)) ltac:(lia) ltac:(lia)) as Hp.
    words. rewrite Z.mod_small by (rewrite Z.shiftl_mul_pow2 by lia; nia).
    rewrite lor_shift8 by lia.
    replace (pre ++ b :: x ++ post) with ((pre ++ [b]) ++ x ++ post)
      by now rewrite <- app_assoc.
    rewrite IH; [|done|rewrite zlen_app, zlen_cons, zlen_nil; lia|lia|nia].
    f_equal. unfold be_combine. cbn [rev]. rewrite Z.mul_add_distr_r.
    enough (E : le_combine (rev x ++ [b]) = le_combine (rev x) + b * 256 ^ Z.of_nat (length x)) by lia.
    rewrite <- (length_rev x). clear. induction (rev x) as [|c l IHl]; cbn [app le_combine length].
    + cbn. lia.
    + rewrite IHl, pow256_succ. lia.
Qed.

(** The big-endian loader reads the value of the first eight bytes. *)
Lemma load64_be_at x post :
  bytes_ok x -> length x = 8%nat -> proto_load64_be (x ++ post) = Some (be_combine x).
Proof.
  intros Hx Hl. unfold proto_load64_be. rewrite <- Hl.
  rewrite (load_be_at x [] post); [f_equal; lia|done|done|lia|rewrite Hl; cbn; lia].
Qed.

(** The timestamp of a keepalive. *)
Lemma read_timestamp payload plen :
  bytes_ok payload -> plen <= zlen payload ->
  proto_read_keepalive_timestamp payload plen =
    Some (if plen <? 8 then None else Some (be_combine (take 8 payload))) /\
  is_u64 (be_combine (take 8 payload)).
Proof.
  intros Hb Hl. unfold proto_read_keepalive_timestamp. split.
  - destruct (Z.ltb_spec plen 8); [done|].
    destruct (split_at 8 payload) as (x & post & -> & Hx); [unfold zlen in *; lia|].
    apply bytes_ok_app in Hb as [Hxb _]. pose proof (load64_be_at x post Hxb Hx) as H8.
    unfold proto_load64_be in H8. rewrite H8. now rewrite take_app_length' by done.
  - pose proof (be_combine_bound (take 8 payload) (bytes_ok_take 8 _ Hb)) as H.
    pose proof (length_take payload 8) as Hl8.
    assert (256 ^ Z.of_nat (length (take 8 payload)) <= 256 ^ 8) by (apply Z.pow_le_mono_r; lia).
    words. change (2 ^ 64) with (256 ^ 8). lia.
Qed.

Lemma store_be_at n : forall v old pre post base,
  length old = n -> base = zlen pre ->
  store_be n (pre ++ old ++ post) base v = Some (pre ++ be_split n v ++ post).
Proof.
  induction n as [|n IH]; intros v old pre post base Hl Hb.
  - destruct old; [done|discriminate].
  - destruct (split_at n old ltac:(lia)) as (x & y & -> & Hx). rewrite length_app in Hl.
    destruct y as [|c [|? ?]]; cbn [length] in Hl; [lia| |lia].
    cbn [store_be]. erewrite (mem_write_at (pre ++ x) [c] post);
      [|now rewrite <- !app_assoc|rewrite zlen_app; zl|done].
    rewrite <- app_assoc, (IH (Z.shiftr v 8) x pre _ base Hx Hb).
    rewrite be_split_S, <- app_assoc. do 3 f_equal.
    + now rewrite Z.shiftr_div_pow2 by lia.
    + unfold u8. cbn [app]. f_equal.
      change 255 with (Z.ones 8). rewrite Z.land_ones by lia. apply Z.mod_mod. lia.
Qed.

Lemma ptr_app pre x off : off = zlen pre -> ptr (pre ++ x) off = x.
Proof. intros ->. unfold ptr, zlen. rewrite Nat2Z.id. apply drop_app_length. Qed.

(** * Datagrams *)

(** The 37 bytes of a header. *)
Definition hdr_bytes (type payload_len sequence : Z) (nonce : bytes) : bytes :=
  [TUND_MAGIC; TUND_PROTOCOL_VERSION; type; payload_len / 256; payload_len mod 256]
  ++ be_split 8 sequence ++ nonce.

(** [buf] starts with a well-formed plaintext message. *)
Definition message (type : Z) (payload buf : bytes) : Prop :=
  exists sequence nonce rest,
    1 <= sequence < 2 ^ 64 /\ length nonce = 24%nat /\ bytes_ok nonce /\
    buf = hdr_bytes type (zlen payload) sequence nonce ++ payload ++ rest.

(** What a builder delivers: an error, or a message and its length. *)
Definition built (type : Z) (payload buf : bytes) (r : Z) (buf' : bytes) : Prop :=
  length buf' = length buf /\ bytes_ok buf' /\
  (r = -1 \/ r = TUND_HDR_SIZE + zlen payload /\ zlen payload <= TUND_MAX_PLAINTEXT /\
             message type payload buf').

Lemma length_hdr type plen sequence nonce :
  length nonce = 24%nat -> length (hdr_bytes type plen sequence nonce) = 37%nat.
Proof. intros H. unfold hdr_bytes. rewrite !length_app, length_be_split, H. done. Qed.

Lemma zlen_hdr type plen sequence nonce :
  length nonce = 24%nat -> zlen (hdr_bytes type plen sequence nonce) = TUND_HDR_SIZE.
Proof. intros H. unfold zlen. rewrite length_hdr by done. done. Qed.

Lemma hdr_ok type plen sequence nonce :
  is_u8 type -> is_u16 plen -> bytes_ok nonce -> bytes_ok (hdr_bytes type plen sequence nonce).
Proof.
  intros Ht Hp Hn. unfold hdr_bytes. rewrite !bytes_ok_app. repeat split; auto with tund.
  repeat (apply bytes_ok_cons; split); auto with tund; consts; words; try lia.
  split; [apply Z.div_pos; lia|apply Z.div_lt_upper_bound; lia].
Qed.

Lemma u8_shiftr8 n : is_u16 n -> u8 (Z.shiftr n 8) = n / 256.
Proof.
  intros H. words. rewrite Z.shiftr_div_pow2 by lia. apply Z.mod_small.
  split; [apply Z.div_pos; lia|apply Z.div_lt_upper_bound; lia].
Qed.

Lemma u8_land255 n : u8 (Z.land n 0xFF) = n mod 256.
Proof.
  words. change 0xFF with (Z.ones 8). rewrite Z.land_ones by lia. apply Z.mod_mod. lia.
Qed.

Lemma write_payload_len_at b0 b1 b2 b3 b4 rest plen :
  is_u16 plen ->
  proto_write_payload_len ([b0; b1; b2; b3; b4] ++ rest) plen =
  Some ([b0; b1; b2; plen / 256; plen mod 256] ++ rest).
Proof.
  intros H. unfold proto_write_payload_len. rewrite u8_shiftr8, u8_land255 by done.
  erewrite (mem_write_at [b0; b1; b2] [b3] (b4 :: rest)) by done.
  now erewrite (mem_write_at [b0; b1; b2; plen / 256] [b4] rest).
Qed.

(** Reading back a header. *)
Lemma read_hdr_at type plen sequence nonce rest :
  is_u16 plen -> length nonce = 24%nat ->
  proto_read_hdr (hdr_bytes type plen sequence nonce ++ rest) = Some (HdrOk type plen).
Proof.
  intros Hp Hn. unfold proto_read_hdr, hdr_bytes. cbn [app buf_get Z.leb Z.compare Z.to_nat lookup].
  cbn -[u16 Z.lor Z.shiftl Z.div Z.modulo]. do 2 f_equal. words.
  rewrite lor_shift8, <- Z.div_mod by (try apply Z.mod_pos_bound; lia). now apply Z.mod_small.
Qed.

Lemma read_sequence_any type plen sequence nonce rest :
  is_u64 sequence ->
  proto_read_sequence (hdr_bytes type plen sequence nonce ++ rest) =
  Some (if sequence =? 0 then None else Some sequence).
Proof.
  intros Hs. unfold proto_read_sequence, hdr_bytes. rewrite <- !app_assoc, ptr_app by done.
  rewrite load64_be_at, be_combine_split, Z.mod_small; [done|exact Hs|apply be_split_ok|].
  apply length_be_split.
Qed.

Lemma read_sequence_at type plen sequence nonce rest :
  1 <= sequence < 2 ^ 64 ->
  proto_read_sequence (hdr_bytes type plen sequence nonce ++ rest) = Some (Some sequence).
Proof.
  intros Hs. rewrite read_sequence_any by (words; lia). destruct (Z.eqb_spec sequence 0); [lia|done].
Qed.

(** The header reader is defined on every datagram of at least five bytes. *)
Lemma read_hdr_total buf : 5 <= zlen buf -> exists h, proto_read_hdr buf = Some h.
Proof.
  intros Hl. unfold proto_read_hdr.
  destruct (buf_get_some buf 0) as [b0 ->]; [lia|]. destruct (negb _); [eauto|].
  destruct (buf_get_some buf 1) as [b1 ->]; [lia|]. destruct (negb _); [eauto|].
  destruct (buf_get_some buf 2) as [b2 ->]; [lia|].
  destruct (buf_get_some buf 3) as [b3 ->]; [lia|].
  destruct (buf_get_some buf 4) as [b4 ->]; [lia|]. eauto.
Qed.

(** A header that the reader accepts, cut along its fields. *)
Lemma parse_hdr buf type plen :
  bytes_ok buf -> TUND_HDR_SIZE <= zlen buf -> proto_read_hdr buf = Some (HdrOk type plen) ->
  exists sequence nonce rest,
    is_u64 sequence /\ length nonce = 24%nat /\ bytes_ok nonce /\ bytes_ok rest /\
    is_u8 type /\ is_u16 plen /\ buf = hdr_bytes type plen sequence nonce ++ rest.
Proof.
  intros Hb Hl Hr. destruct buf as [|b0 [|b1 [|b2 [|b3 [|b4 buf]]]]]; try (now (exfalso; apply Hl)).
  destruct (split_at 8 buf) as (sq & buf' & -> & Hsq); [unfold zlen in Hl; cbn [length] in Hl; clia|].
  destruct (split_at 24 buf') as (nonce & rest & -> & Hn); [unfold zlen in Hl; lens; clia|].
  do 5 (apply bytes_ok_cons in Hb as [? Hb]). rewrite !bytes_ok_app in Hb. destruct Hb as (Hs & Hnb & Hrb).
  unfold proto_read_hdr in Hr. set (l := sq ++ nonce ++ rest) in *.
  change (buf_get (b0 :: b1 :: b2 :: b3 :: b4 :: l) 0) with (Some b0) in Hr.
  change (buf_get (b0 :: b1 :: b2 :: b3 :: b4 :: l) 1) with (Some b1) in Hr.
  change (buf_get (b0 :: b1 :: b2 :: b3 :: b4 :: l) 2) with (Some b2) in Hr.
  change (buf_get (b0 :: b1 :: b2 :: b3 :: b4 :: l) 3) with (Some b3) in Hr.
  change (buf_get (b0 :: b1 :: b2 :: b3 :: b4 :: l) 4) with (Some b4) in Hr. cbv beta iota in Hr.
  destruct (Z.eqb_spec b0 TUND_MAGIC) as [->|]; [|discriminate].
  destruct (Z.eqb_spec b1 TUND_PROTOCOL_VERSION) as [->|]; [|discriminate].
  cbn [negb] in Hr. injection Hr as <- <-.
  assert (Hu : u16 (Z.lor (Z.shiftl b3 8) b4) = 256 * b3 + b4).
  { words. rewrite lor_shift8 by lia. apply Z.mod_small. lia. }
  rewrite Hu. exists (be_combine sq), nonce, rest.
  split; [pose proof (be_combine_bound sq Hs) as Hbd; rewrite Hsq in Hbd; exact Hbd|].
  split; [done|]. split; [done|]. split; [done|]. split; [done|]. split; [words; lia|].
  unfold hdr_bytes. rewrite <- Hsq, be_split_combine by done.
  assert (Hhi : (256 * b3 + b4) / 256 = b3)
    by (words; rewrite Z.add_comm, Z.mul_comm, Z.div_add, Z.div_small by lia; lia).
  assert (Hlo : (256 * b3 + b4) mod 256 = b4)
    by (words; rewrite Z.add_comm, Z.mul_comm, Z.mod_add by lia; apply Z.mod_small; lia).
  rewrite Hhi, Hlo. unfold l. cbn [app]. now rewrite <- !app_assoc.
Qed.

(** The five bytes before the sequence number. *)
Definition hdr_prefix (type plen : Z) : bytes :=
  [TUND_MAGIC; TUND_PROTOCOL_VERSION; type; plen / 256; plen mod 256].

Lemma hdr_prefix_ok type plen : is_u8 type -> is_u16 plen -> bytes_ok (hdr_prefix type plen).
Proof.
  intros Ht Hp. pose proof (hdr_ok type plen 0 [] Ht Hp bytes_ok_nil) as Hx.
  unfold hdr_bytes in Hx. now apply bytes_ok_app in Hx.
Qed.

Lemma length_hdr_prefix type plen : length (hdr_prefix type plen) = 5%nat.
Proof. done. Qed.

Lemma write_prefix_at five rest type plen :
  length five = 5%nat -> is_u16 plen ->
  (let? buf := mem_write (five ++ rest) 0 [TUND_MAGIC] in
   let? buf := mem_write buf 1 [TUND_PROTOCOL_VERSION] in
   let? buf := mem_write buf 2 [type] in
   proto_write_payload_len buf plen) = Some (hdr_prefix type plen ++ rest).
Proof.
  intros H5 Hp. destruct five as [|b0 [|b1 [|b2 [|b3 [|b4 [|]]]]]]; try discriminate. cbn [app].
  erewrite (mem_write_at [] [b0] _ [TUND_MAGIC]) by done. cbn [app].
  erewrite (mem_write_at [TUND_MAGIC] [b1] _ [TUND_PROTOCOL_VERSION]) by done. cbn [app].
  erewrite (mem_write_at [TUND_MAGIC; TUND_PROTOCOL_VERSION] [b2] _ [type]) by done.
  now apply (write_payload_len_at _ _ type b3 b4).
Qed.

(** A buffer with room for a header, cut along the fields. *)
Lemma split_hdr buf :
  TUND_HDR_SIZE <= zlen buf -> exists five sq nc : bytes,
    buf = five ++ sq ++ nc ++ drop 37 buf /\
    length five = 5%nat /\ length sq = 8%nat /\ length nc = 24%nat.
Proof.
  intros Hl. exists (take 5 buf), (take 8 (drop 5 buf)), (take 24 (drop 13 buf)).
  rewrite !length_take, !length_drop. split; [|clia].
  rewrite <- (take_drop 5 buf) at 1. f_equal.
  rewrite <- (take_drop 8 (drop 5 buf)) at 1. f_equal. rewrite drop_drop.
  rewrite <- (take_drop 24 (drop (5 + 8) buf)) at 1. now rewrite drop_drop.
Qed.

(** What the header writer leaves behind: also when it fails, type and length
    are stored and the payload is untouched. *)
Definition hdr_written (type plen : Z) (buf : bytes) (r : Z) (buf' : bytes) : Prop :=
  length buf' = length buf /\ bytes_ok buf' /\
  (plen <= TUND_MAX_PLAINTEXT -> take 5 buf' = hdr_prefix type plen) /\
  drop 37 buf' = drop 37 buf /\
  (r = -1 \/
   r = TUND_HDR_SIZE /\ plen <= TUND_MAX_PLAINTEXT /\
   exists sequence nonce, 1 <= sequence < 2 ^ 64 /\ length nonce = 24%nat /\ bytes_ok nonce /\
     buf' = hdr_bytes type plen sequence nonce ++ drop 37 buf).

#[export] Hint Rewrite length_hdr_prefix : lens.

Section safe.
Context {S : Type} `{HW : HasWorld S} (J : S -> Prop) {F : Framed J}.

(** Storing the nonce, complete or cut short by a failed read. *)
Lemma safe_write_nonce type plen sequence nc rest :
  is_u8 type -> is_u16 plen -> plen <= TUND_MAX_PLAINTEXT -> 1 <= sequence < 2 ^ 64 ->
  length nc = 24%nat -> bytes_ok nc -> bytes_ok rest ->
  let pre := hdr_prefix type plen ++ be_split 8 sequence in
  safe J (let* '(ok, nonce) := on_world (proto_random_bytes TUND_NONCE_SIZE) in
          let* buf := local (mem_write (pre ++ nc ++ rest) TUND_NONCE_OFFSET nonce) in
          if negb ok then Ret (-1, buf) else Ret (TUND_HDR_SIZE, buf))
    (fun '(r, buf') =>
      length buf' = (37 + length rest)%nat /\ bytes_ok buf' /\
      take 5 buf' = hdr_prefix type plen /\ drop 37 buf' = rest /\
      (r = -1 \/ r = TUND_HDR_SIZE /\ exists nonce, length nonce = 24%nat /\ bytes_ok nonce /\
         buf' = hdr_bytes type plen sequence nonce ++ rest)).
Proof.
  intros Ht Hp Hmax Hseq Hnc Hncb Hrb pre.
  assert (Hpre : bytes_ok pre) by (apply bytes_ok_app; auto using hdr_prefix_ok, be_split_ok).
  assert (Hpl : length pre = 13%nat) by (unfold pre; lens; done).
  eapply safe_bind; [apply safe_random_bytes; [done|consts; lia]|].
  intros [ok nonce] (Hnb & Hnl & Hok).
  destruct (split_at (length nonce) nc) as (n1 & n2 & -> & Hn1); [clia|].
  apply bytes_ok_app in Hncb as [_ Hn2b].
  eapply safe_then.
  { rewrite <- (app_assoc n1). apply (mem_write_at pre n1); [done|clia|done]. }
  lens.
  assert (Hall : bytes_ok (pre ++ nonce ++ n2 ++ rest)) by (rewrite !bytes_ok_app; auto).
  assert (H5 : take 5 (pre ++ nonce ++ n2 ++ rest) = hdr_prefix type plen).
  { unfold pre. rewrite <- app_assoc. apply take_app_length'. now lens. }
  assert (H37 : drop 37 (pre ++ nonce ++ n2 ++ rest) = rest).
  { rewrite !app_assoc. apply drop_app_length'. lens. lia. }
  destruct ok; cbn [negb]; apply safe_ret;
    (split; [lens; lia|split; [done|split; [done|split; [done|]]]]); [|by left].
  right. split; [done|]. specialize (Hok eq_refl). exists nonce.
  destruct n2; [|cbn in *; clia]. split; [clia|]. split; [done|].
  unfold hdr_bytes, pre, hdr_prefix. now rewrite <- !app_assoc.
Qed.

(** The header writer touches the first 37 bytes only, never writes outside
    of the buffer and, when it succeeds, has stored a complete header. *)
Lemma safe_write_hdr buf type plen :
  bytes_ok buf -> is_u8 type -> is_u16 plen -> TUND_HDR_SIZE <= zlen buf ->
  safe J (proto_write_hdr buf type plen) (fun '(r, buf') => hdr_written type plen buf r buf').
Proof.
  intros Hb Ht Hp Hl. unfold proto_write_hdr, hdr_written.
  destruct (Z.ltb_spec TUND_MAX_PLAINTEXT plen) as [Hmax|Hmax].
  { apply safe_ret. split; [done|]. split; [done|]. split; [lia|]. auto. }
  destruct (split_hdr buf Hl) as (five & sq & nc & Hbuf & H5 & H8 & H24).
  set (rest := drop 37 buf) in *. rewrite Hbuf in Hb. rewrite !bytes_ok_app in Hb.
  destruct Hb as (_ & Hsqb & Hncb & Hrb).
  assert (Hlb : length buf = (37 + length rest)%nat) by (rewrite Hbuf; lens; lia).
  eapply safe_then; [rewrite Hbuf; now apply write_prefix_at|].
  eapply safe_bind; [now apply safe_next_sequence|]. intros [sequence|] Hseq.
  2:{ apply safe_ret. rewrite Hlb, !bytes_ok_app. lens.
      split; [lia|]. split; [auto using hdr_prefix_ok|].
      split; [intros _; apply take_app_length'; now lens|]. split; [|by left].
      rewrite !app_assoc. apply drop_app_length'. lens. lia. }
  eapply safe_then; [now apply store_be_at|]. rewrite app_assoc.
  eapply safe_mono; [now apply safe_write_nonce|]. intros [r buf'] (Hl' & Hb' & H5' & H37' & HH).
  rewrite Hlb. split; [done|]. split; [done|]. split; [done|]. split; [done|]. destruct HH as [->|(-> & nonce & Hn & Hnb & ->)]; [by left|].
  right. split; [done|]. split; [done|]. now exists sequence, nonce.
Qed.

(** A builder whose payload code stores [payload] right after the header. *)
Lemma safe_build buf type payload (code : bytes -> option bytes) :
  bytes_ok buf -> bytes_ok payload -> is_u8 type -> is_u16 (zlen payload) ->
  TUND_HDR_SIZE <= zlen buf ->
  (zlen payload <= TUND_MAX_PLAINTEXT -> TUND_HDR_SIZE + zlen payload <= zlen buf) ->
  (forall hdr old rest, zlen hdr = TUND_HDR_SIZE -> length old = length payload ->
     code (hdr ++ old ++ rest) = Some (hdr ++ payload ++ rest)) ->
  safe J (build buf type (zlen payload) code) (fun '(r, buf') => built type payload buf r buf').
Proof.
  intros Hb Hpb Ht Hp Hl Hfit Hcode. unfold build, built.
  eapply safe_bind; [now apply safe_write_hdr|]. intros [r buf1] (Hl1 & Hb1 & _ & _ & HH).
  destruct HH as [->|(-> & Hmax & sequence & nonce & Hseq & Hn & Hnb & ->)].
  { apply safe_ret. split; [done|]. split; [done|by left]. }
  change (TUND_HDR_SIZE <? 0) with false. cbn iota.
  apply bytes_ok_app in Hb1 as [Hhb Hdb]. pose proof (zlen_hdr type (zlen payload) sequence nonce Hn).
  destruct (split_at (length payload) (drop 37 buf)) as (old & rest & Hd & Hold).
  { rewrite length_drop. specialize (Hfit Hmax). clia. }
  rewrite Hd in *. apply bytes_ok_app in Hdb as [_ Hrb].
  eapply safe_then; [now apply Hcode|].
  apply safe_ret. rewrite <- Hl1. lens. split; [lia|].
  split; [rewrite !bytes_ok_app; auto|]. right. split; [done|]. split; [done|].
  now exists sequence, nonce, rest.
Qed.
End safe.

(** * Payloads *)

(** A name as it travels: at most 31 bytes, zero padded to 32. *)
Definition name_field (s : bytes) : bytes := pad_to 31 s ++ [0].

Definition peer_entry_bytes (virt_ip : Z) (s : bytes) (online : bool) : bytes :=
  le_split 4 virt_ip ++ name_field s ++ [if online then 1 else 0].

Lemma length_name_field s : length (name_field s) = 32%nat.
Proof. unfold name_field. rewrite length_app, length_pad_to. done. Qed.
#[export] Hint Rewrite length_name_field : lens.

Lemma name_field_ok s : bytes_ok s -> bytes_ok (name_field s).
Proof.
  intros. unfold name_field. rewrite bytes_ok_app. split; [auto with tund|].
  apply (bytes_ok_zeros 1).
Qed.

Lemma length_peer_entry virt_ip s online :
  length (peer_entry_bytes virt_ip s online) = Z.to_nat TUND_PEER_ENTRY_SIZE.
Proof.
  unfold peer_entry_bytes. rewrite !length_app, length_le_split, length_name_field. done.
Qed.

Lemma peer_entry_ok virt_ip s online : bytes_ok s -> bytes_ok (peer_entry_bytes virt_ip s online).
Proof.
  intros. unfold peer_entry_bytes. rewrite !bytes_ok_app. split; [auto with tund|].
  split; [now apply name_field_ok|]. apply bytes_ok_cons. split; [|auto with tund].
  destruct online; words; lia.
Qed.

#[export] Hint Resolve name_field_ok peer_entry_ok : tund.

(** The string a name field holds. *)
Lemma c_str_name_field s :
  Forall (fun b => b <> 0) s -> c_str (name_field s) = Some (take 31 s).
Proof.
  intros Hs. unfold name_field, pad_to. rewrite <- app_assoc.
  destruct (31 - length s)%nat as [|n] eqn:E.
  - now apply c_str_take.
  - cbn [replicate app]. apply c_str_app. now apply Forall_take.
Qed.

Lemma mem_read_prefix s t n :
  (Z.to_nat n <= length s)%nat -> 0 <= n -> mem_read (s ++ t) 0 n = Some (take (Z.to_nat n) s).
Proof.
  intros Hn H0. rewrite mem_read_some by (rewrite ?zlen_app; unfold zlen; lia).
  change (drop (Z.to_nat 0) (s ++ t)) with (s ++ t). now rewrite take_app_le.
Qed.

(** Zeroing a name field, then storing the beginning of [s] in it. *)
Lemma zero_then_store pre s post k :
  (k <= 32)%nat -> length (take k s) = k ->
  mem_write (pre ++ replicate 32 0 ++ post) (zlen pre) (take k s) =
  Some (pre ++ (take k s ++ replicate (32 - k) 0) ++ post).
Proof.
  intros Hk Hl. replace (replicate 32 0) with (replicate k 0 ++ replicate (32 - k) 0)
    by (rewrite <- replicate_add; f_equal; lia).
  rewrite <- !app_assoc. apply (mem_write_at pre (replicate k 0)); [done|done|].
  now rewrite length_replicate.
Qed.

Lemma name_field_take s :
  name_field s = take (Nat.min 31 (length s)) s ++ replicate (32 - Nat.min 31 (length s)) 0.
Proof.
  unfold name_field, pad_to. rewrite <- app_assoc. change [0] with (replicate 1 0).
  rewrite <- replicate_add. f_equal.
  - destruct (Nat.min_spec 31 (length s)) as [[? ->]|[? ->]]; [done|].
    rewrite !take_ge by lia. done.
  - f_equal. lia.
Qed.

(** One entry of a peer list, written in place. *)
Lemma write_peer_entry_at pre old post size virt_ip name s online :
  length old = Z.to_nat TUND_PEER_ENTRY_SIZE -> TUND_PEER_ENTRY_SIZE <= size -> c_str name = Some s ->
  proto_write_peer_entry (pre ++ old ++ post) (zlen pre) size virt_ip (Some name) online =
  Some (true, pre ++ peer_entry_bytes virt_ip s online ++ post).
Proof.
  intros Hold Hsize Hs. unfold proto_write_peer_entry.
  destruct (Z.ltb_spec size TUND_PEER_ENTRY_SIZE); [lia|].
  destruct (split_at 4 old) as (o1 & o' & -> & H1); [clia|].
  destruct (split_at 32 o') as (o2 & o3 & -> & H2); [rewrite length_app in Hold; clia|].
  rewrite !length_app in Hold. rewrite <- !app_assoc.
  rewrite (mem_write_at pre o1 (o2 ++ o3 ++ post)); [|done|clia|now rewrite length_le_split].
  rewrite app_assoc, (mem_write_at (pre ++ le_split 4 virt_ip) o2 (o3 ++ post));
    [|done|rewrite zlen_app; unfold zlen; rewrite length_le_split; clia|rewrite length_replicate; clia].
  rewrite Hs. apply c_str_spec in Hs as [_ [t ->]].
  set (n := if TUND_NAME_LEN <=? zlen s then TUND_NAME_LEN - 1 else zlen s).
  assert (Hn : Z.to_nat n = Nat.min 31 (length s)).
  { unfold n. destruct (Z.leb_spec TUND_NAME_LEN (zlen s)); clia. }
  rewrite mem_read_prefix by (unfold n; case_match; bools; clia). rewrite Hn.
  replace (zlen pre + TUND_PEER_ENTRY_NAME_OFFSET) with (zlen (pre ++ le_split 4 virt_ip))
    by (rewrite zlen_app; unfold zlen; rewrite length_le_split; clia).
  rewrite zero_then_store, <- name_field_take by (rewrite ?length_take; lia).
  destruct o3 as [|c [|]]; cbn [length] in Hold; [clia| |clia].
  rewrite app_assoc, (mem_write_at ((pre ++ le_split 4 virt_ip) ++ name_field s) [c] post);
    [|done|rewrite !zlen_app; unfold zlen; rewrite length_le_split, length_name_field; clia|done].
  unfold peer_entry_bytes. now rewrite <- !app_assoc.
Qed.

Lemma name_field_terminate s : mem_write (name_field s) (TUND_NAME_LEN - 1) [0] = Some (name_field s).
Proof.
  rewrite (mem_write_at (pad_to 31 s) [0] []); [now rewrite app_nil_r|done| |done].
  unfold zlen. rewrite length_pad_to. done.
Qed.

(** Reading an entry that a writer stored. *)
Lemma read_peer_entry_at pre post virt_ip s online plen index :
  is_u32 virt_ip -> zlen pre = index * TUND_PEER_ENTRY_SIZE -> 0 <= index ->
  zlen pre + TUND_PEER_ENTRY_SIZE <= plen ->
  proto_read_peer_entry (pre ++ peer_entry_bytes virt_ip s online ++ post) plen index =
  Some (Some (virt_ip, name_field s, online)).
Proof.
  intros Hip Hpre H0 Hplen. unfold proto_read_peer_entry.
  destruct (Z.ltb_spec index 0); [lia|]. rewrite <- Hpre.
  destruct (Z.ltb_spec plen (zlen pre + TUND_PEER_ENTRY_SIZE)); [lia|].
  unfold peer_entry_bytes. rewrite <- !app_assoc.
  assert (H4 : zlen (le_split 4 virt_ip) = 4) by (unfold zlen; rewrite length_le_split; done).
  assert (H32 : zlen (name_field s) = 32) by (unfold zlen; rewrite length_name_field; done).
  erewrite (mem_read_at _ pre (le_split 4 virt_ip)); [|reflexivity|clia|clia].
  rewrite app_assoc. erewrite (mem_read_at _ (pre ++ le_split 4 virt_ip) (name_field s));
    [|reflexivity|rewrite zlen_app; clia|clia].
  rewrite name_field_terminate, (app_assoc _ (name_field s)). cbn [app].
  rewrite (buf_get_at _ (if online then 1 else 0)) by (rewrite !zlen_app; clia).
  rewrite le_combine_split, Z.mod_small by (words; cbn; lia).
  now destruct online.
Qed.

Lemma store_at_hdr hdr old rest payload :
  zlen hdr = TUND_HDR_SIZE -> length old = length payload ->
  mem_write (hdr ++ old ++ rest) TUND_HDR_SIZE payload = Some (hdr ++ payload ++ rest).
Proof. intros Hh Ho. now apply (mem_write_at hdr old). Qed.

Definition assign_payload (virt_ip netmask mtu : Z) : bytes :=
  le_split 4 virt_ip ++ le_split 4 netmask ++ le_split 2 (htons mtu).

Section builders.
Context {S : Type} `{HW : HasWorld S} (J : S -> Prop) {F : Framed J}.

(** A buffer large enough for any plaintext message. *)
Definition pkt_buf (buf : bytes) : Prop :=
  bytes_ok buf /\ TUND_HDR_SIZE + TUND_MAX_PLAINTEXT <= zlen buf.

Lemma safe_build_pkt buf type plen payload code :
  pkt_buf buf -> bytes_ok payload -> is_u8 type -> is_u16 plen -> plen = zlen payload ->
  (forall hdr old rest, zlen hdr = TUND_HDR_SIZE -> length old = length payload ->
     code (hdr ++ old ++ rest) = Some (hdr ++ payload ++ rest)) ->
  safe J (build buf type plen code) (fun '(r, buf') => built type payload buf r buf').
Proof.
  intros [Hb Hl] Hp Ht Hu -> Hc. apply safe_build; auto; clia.
Qed.

Lemma safe_build_register buf name s :
  pkt_buf buf -> bytes_ok s -> c_str name = Some s -> zlen s < 2 ^ 16 ->
  safe J (proto_build_register buf name)
    (fun '(r, buf') => built MSG_REGISTER (take 32 s) buf r buf').
Proof.
  intros Hb Hs Hn Hl. unfold proto_build_register. eapply safe_then; [exact Hn|].
  apply c_str_spec in Hn as [_ [t ->]]. pose proof (zlen_nonneg s).
  assert (Hu : u16 (zlen s) = zlen s) by (words; apply Z.mod_small; lia). rewrite Hu.
  set (n := if TUND_NAME_LEN <? zlen s then TUND_NAME_LEN else zlen s).
  assert (Hn : Z.to_nat n = Nat.min 32 (length s)).
  { unfold n. destruct (Z.ltb_spec TUND_NAME_LEN (zlen s)); clia. }
  assert (Hn0 : 0 <= n) by (unfold n; case_match; clia).
  apply safe_build_pkt; auto with tund.
  - words; unfold MSG_REGISTER; lia.
  - clia.
  - unfold zlen. rewrite length_take. lia.
  - intros hdr old rest Hh Ho. rewrite mem_read_prefix by lia.
    rewrite store_at_hdr; [|done|rewrite Ho, !length_take; lia].
    do 3 f_equal. rewrite Hn. destruct (Nat.min_spec 32 (length s)) as [[? ->]|[? ->]]; [done|].
    now rewrite !take_ge by lia.
Qed.

Lemma safe_build_assign buf virt_ip netmask mtu :
  pkt_buf buf ->
  safe J (proto_build_assign buf virt_ip netmask mtu)
    (fun '(r, buf') => built MSG_ASSIGN (assign_payload virt_ip netmask mtu) buf r buf').
Proof.
  intros Hb. unfold proto_build_assign.
  apply safe_build_pkt; [done| | | | |].
  - unfold assign_payload. rewrite !bytes_ok_app. auto with tund.
  - words; unfold MSG_ASSIGN; lia.
  - words; lia.
  - unfold assign_payload, zlen. lens. done.
  - intros hdr old rest Hh Ho. unfold assign_payload in *. lens.
    destruct (split_at 4 old) as (o1 & o' & -> & H1); [lia|].
    destruct (split_at 4 o') as (o2 & o3 & -> & H2); [lens; lia|]. lens. rewrite <- !app_assoc.
    erewrite (mem_write_at hdr o1); [|reflexivity|done|lens; lia].
    rewrite app_assoc. erewrite (mem_write_at (hdr ++ le_split 4 virt_ip) o2);
      [|reflexivity|unfold zlen in *; lens; lia|lens; lia].
    rewrite app_assoc.
    erewrite (mem_write_at ((hdr ++ le_split 4 virt_ip) ++ le_split 4 netmask) o3);
      [|reflexivity|unfold zlen in *; lens; lia|lens; lia].
    now rewrite <- !app_assoc.
Qed.

Lemma safe_build_data buf pkt n :
  pkt_buf buf -> bytes_ok pkt -> 0 <= n <= zlen pkt -> is_u16 n ->
  safe J (proto_build_data buf pkt n)
    (fun '(r, buf') => built MSG_DATA (take (Z.to_nat n) pkt) buf r buf').
Proof.
  intros Hb Hp Hn Hu. unfold proto_build_data. apply safe_build_pkt; auto with tund.
  - words; unfold MSG_DATA; lia.
  - unfold zlen in *. rewrite length_take. lia.
  - intros hdr old rest Hh Ho. rewrite mem_read_some by lia.
    now apply store_at_hdr.
Qed.

Lemma safe_build_timestamp buf type ts :
  pkt_buf buf -> is_u8 type ->
  safe J (proto_build_timestamp_msg buf type ts)
    (fun '(r, buf') => built type (be_split 8 ts) buf r buf').
Proof.
  intros Hb Ht. unfold proto_build_timestamp_msg. apply safe_build_pkt; auto with tund.
  - words; lia.
  - intros hdr old rest Hh Ho. lens. now apply store_be_at.
Qed.

Lemma safe_build_disconnect buf :
  pkt_buf buf ->
  safe J (proto_build_disconnect buf) (fun '(r, buf') => built MSG_DISCONNECT [] buf r buf').
Proof.
  intros Hb. unfold proto_build_disconnect. apply safe_build_pkt; auto with tund;
    try (words; unfold MSG_DISCONNECT; lia).
  intros hdr [|] rest _ Ho; [done|discriminate].
Qed.

Lemma safe_build_peer_leave buf vip :
  pkt_buf buf ->
  safe J (proto_build_peer_leave buf vip)
    (fun '(r, buf') => built MSG_PEER_LEAVE (le_split 4 vip) buf r buf').
Proof.
  intros Hb. unfold proto_build_peer_leave. apply safe_build_pkt; auto with tund;
    try (words; unfold MSG_PEER_LEAVE; lia).
  intros hdr old rest Hh Ho. now apply store_at_hdr.
Qed.

Lemma safe_build_peer_join buf vip name s :
  pkt_buf buf -> bytes_ok s -> c_str name = Some s ->
  safe J (proto_build_peer_join buf vip name)
    (fun '(r, buf') => built MSG_PEER_JOIN (le_split 4 vip ++ name_field s) buf r buf').
Proof.
  intros Hb Hs Hn. unfold proto_build_peer_join. apply safe_build_pkt; [done| | | | |].
  - rewrite bytes_ok_app. auto with tund.
  - words; unfold MSG_PEER_JOIN; lia.
  - clia.
  - unfold zlen. rewrite length_app, length_le_split, length_name_field. done.
  - intros hdr old rest Hh Ho. rewrite length_app, length_le_split, length_name_field in Ho.
    destruct (split_at 4 old) as (o1 & o2 & -> & H1); [lia|]. lens. rewrite <- !app_assoc.
    erewrite (mem_write_at hdr o1); [|reflexivity|done|lens; lia].
    rewrite app_assoc. erewrite (mem_write_at (hdr ++ le_split 4 vip) o2);
      [|reflexivity|unfold zlen in *; lens; lia|lens; consts; lia].
    rewrite (strncpy_str _ s) by done.
    change (replicate (Z.to_nat TUND_NAME_LEN) 0) with (replicate 31 0 ++ [0]).
    rewrite <- (app_assoc (replicate 31 0)).
    erewrite (mem_write_at (hdr ++ le_split 4 vip) (replicate 31 0));
      [|reflexivity|unfold zlen in *; lens; lia|now rewrite length_pad_to].
    unfold name_field. now rewrite <- !app_assoc.
Qed.
End builders.
