(* ===== verification/Siphash.v ===== *)
(** [proto_siphash24] of [protocol.c]: the loop over the words of the input and
    the last word assembled from what is left, against the definition of
    SipHash-2-4, which pads the message and processes it word by word. *)
From stdpp Require Import base list numbers option.
From S2P Require Import Prelude Prog World Consts Sequence Wire.

(** * Code *)

Definition proto_rotl64 (x b : Z) : Z := Z.lor (u64 (Z.shiftl x b)) (Z.shiftr x (64 - b)).

Definition lanes : Type := (Z * Z * Z * Z)%type.

(** The macro, one assignment per line of it. *)
Definition SIPROUND (v : lanes) : lanes :=
  let '(v0, v1, v2, v3) := v in
  let v0 := u64 (v0 + v1) in
  let v1 := proto_rotl64 v1 13 in
  let v1 := Z.lxor v1 v0 in
  let v0 := proto_rotl64 v0 32 in
  let v2 := u64 (v2 + v3) in
  let v3 := proto_rotl64 v3 16 in
  let v3 := Z.lxor v3 v2 in
  let v0 := u64 (v0 + v3) in
  let v3 := proto_rotl64 v3 21 in
  let v3 := Z.lxor v3 v0 in
  let v2 := u64 (v2 + v1) in
  let v1 := proto_rotl64 v1 17 in
  let v1 := Z.lxor v1 v2 in
  let v2 := proto_rotl64 v2 32 in
  (v0, v1, v2, v3).

(** [v3 ^= m; SIPROUND; SIPROUND; v0 ^= m]. *)
Definition absorb (v : lanes) (m : Z) : lanes :=
  let '(v0, v1, v2, v3) := v in
  let '(v0, v1, v2, v3) := SIPROUND (SIPROUND (v0, v1, v2, Z.lxor v3 m)) in
  (Z.lxor v0 m, v1, v2, v3).

(** [for (; in != end; in += 8)]: [n] words from [off] on. *)
Fixpoint sip_words (n : nat) (buf : bytes) (off : Z) (v : lanes) : option lanes :=
  match n with
  | O => Some v
  | S n => let? m := proto_load64_le (ptr buf off) in sip_words n buf (off + 8) (absorb v m)
  end.

Definition sip_start (k0 k1 : Z) : lanes :=
  (Z.lxor 0x736f6d6570736575 k0, Z.lxor 0x646f72616e646f6d k1,
   Z.lxor 0x6c7967656e657261 k0, Z.lxor 0x7465646279746573 k1).

Definition sip_finish (v : lanes) : Z :=
  let '(v0, v1, v2, v3) := v in
  let '(v0, v1, v2, v3) := SIPROUND (SIPROUND (SIPROUND (SIPROUND (v0, v1, Z.lxor v2 0xff, v3)))) in
  Z.lxor (Z.lxor (Z.lxor v0 v1) v2) v3.

(** [len & ~(size_t)7] is the offset of [end]. *)
Definition proto_siphash24 (buf : bytes) (len k0 k1 : Z) : option Z :=
  let end_ := Z.ldiff len 7 in
  let b := u64 (Z.shiftl len 56) in
  let? v := sip_words (Z.to_nat (end_ / 8)) buf 0 (sip_start k0 k1) in
  let? b := load_le (Z.to_nat (Z.land len 7)) (ptr buf end_) 0 b in
  Some (sip_finish (absorb v b)).

(** The repository's test vector, and the one of the SipHash paper. *)
Example siphash_empty :
  proto_siphash24 [0] 0 0x0706050403020100 0x0f0e0d0c0b0a0908 = Some 0x726fdb47dd0e0e31.
Proof. vm_compute. reflexivity. Qed.

Example siphash_paper :
  proto_siphash24 (map Z.of_nat (seq 0 15)) 15 0x0706050403020100 0x0f0e0d0c0b0a0908 = Some 0xa129ca6149be45e5.
Proof. vm_compute. reflexivity. Qed.

(** * SipHash-2-4 *)

Definition rol (x b : Z) : Z := (x * 2 ^ b) mod 2 ^ 64 + x / 2 ^ (64 - b).

(** Two half rounds in parallel, twice. *)
Definition half_round (a b c d s t : Z) : lanes :=
  let a' := (a + b) mod 2 ^ 64 in
  let c' := (c + d) mod 2 ^ 64 in
  (rol a' 32, Z.lxor (rol b s) a', c', Z.lxor (rol d t) c').

Definition sip_round (v : lanes) : lanes :=
  let '(v0, v1, v2, v3) := v in
  let '(v0, v1, v2, v3) := half_round v0 v1 v2 v3 13 16 in
  let '(v2, v1, v0, v3) := half_round v2 v1 v0 v3 17 21 in
  (v0, v1, v2, v3).

Definition compress (v : lanes) (m : Z) : lanes :=
  let '(v0, v1, v2, v3) := v in
  let '(v0, v1, v2, v3) := sip_round (sip_round (v0, v1, v2, Z.lxor v3 m)) in
  (Z.lxor v0 m, v1, v2, v3).

(** Zeros up to a multiple of eight, less the last byte, which is the length. *)
Definition sip_pad (m : bytes) : bytes :=
  m ++ replicate (7 - length m mod 8) 0 ++ [zlen m mod 256].

Fixpoint words_of (n : nat) (m : bytes) : list Z :=
  match n with
  | O => []
  | S n => le_combine (take 8 m) :: words_of n (drop 8 m)
  end.

Definition finish (v : lanes) : Z :=
  let '(v0, v1, v2, v3) := v in
  let '(v0, v1, v2, v3) := sip_round (sip_round (sip_round (sip_round (v0, v1, Z.lxor v2 0xff, v3)))) in
  Z.lxor (Z.lxor (Z.lxor v0 v1) v2) v3.

Definition siphash_2_4 (k0 k1 : Z) (m : bytes) : Z :=
  finish (fold_left compress (words_of (length (sip_pad m) / 8) (sip_pad m)) (sip_start k0 k1)).

Example siphash_2_4_paper :
  siphash_2_4 0x0706050403020100 0x0f0e0d0c0b0a0908 (map Z.of_nat (seq 0 15)) = 0xa129ca6149be45e5.
Proof. vm_compute. reflexivity. Qed.

(** * Words *)

(** Disjoint bits add up. *)
Lemma lor_add k hi lo : 0 <= k -> 0 <= lo < 2 ^ k -> Z.lor (hi * 2 ^ k) lo = hi * 2 ^ k + lo.
Proof.
  intros Hk Hl. assert (Hd : Z.land (hi * 2 ^ k) lo = 0).
  { apply Z.bits_inj'. intros i Hi. rewrite Z.land_spec, Z.testbit_0_l.
    destruct (Z.lt_ge_cases i k); [rewrite Z.mul_pow2_bits_low by lia; done|].
    rewrite <- (Z.mod_small lo (2 ^ k)), Z.mod_pow2_bits_high by lia. apply andb_false_r. }
  now rewrite <- Z.lxor_lor, <- Z.add_nocarry_lxor by exact Hd.
Qed.

Lemma lor_mid k hi b lo :
  0 <= k -> 0 <= b < 2 ^ 8 -> 0 <= lo < 2 ^ k ->
  Z.lor (hi * 2 ^ (k + 8) + lo) (b * 2 ^ k) = hi * 2 ^ (k + 8) + b * 2 ^ k + lo.
Proof.
  intros Hk Hb Hl. pose proof (Z.pow_pos_nonneg 2 k ltac:(lia) Hk).
  assert (Hlt : 0 <= b * 2 ^ k + lo < 2 ^ (k + 8)) by (rewrite Z.pow_add_r by lia; nia).
  rewrite <- (lor_add (k + 8) hi lo) by (rewrite ?Z.pow_add_r by lia; lia).
  rewrite <- Z.lor_assoc, (Z.lor_comm lo), (lor_add k b lo), lor_add by lia. lia.
Qed.

Lemma load_le_at x : forall pre post i hi lo,
  bytes_ok x -> i = zlen pre -> 0 <= hi -> 0 <= lo < 2 ^ (8 * i) ->
  (hi + 1) * 2 ^ (8 * (i + zlen x)) <= 2 ^ 64 ->
  load_le (length x) (pre ++ x ++ post) i (hi * 2 ^ (8 * (i + zlen x)) + lo) =
  Some (hi * 2 ^ (8 * (i + zlen x)) + 2 ^ (8 * i) * le_combine x + lo).
Proof.
  induction x as [|b x IH]; intros pre post i hi lo Hx Hi Hh Hl Hm; [cbn; do 2 f_equal; lia|].
  apply bytes_ok_cons in Hx as [Hb Hx]. cbn [length load_le app]. rewrite buf_get_at by done.
  pose proof (zlen_nonneg pre). pose proof (zlen_nonneg x). rewrite zlen_cons in Hm |- *. unfold is_u8 in Hb.
  replace (8 * (i + (1 + zlen x))) with (8 * zlen x + (8 * i + 8)) in * by lia.
  rewrite (Z.pow_add_r 2 (8 * zlen x)) in * by lia.
  pose proof (Z.pow_pos_nonneg 2 (8 * i) ltac:(lia) ltac:(lia)).
  pose proof (Z.pow_pos_nonneg 2 (8 * zlen x) ltac:(lia) ltac:(lia)).
  assert (Hp : 2 ^ (8 * i + 8) = 2 ^ (8 * i) * 256) by (rewrite Z.pow_add_r by lia; lia).
  rewrite Z.shiftl_mul_pow2 by lia. unfold u64. rewrite (Z.mod_small (b * 2 ^ (8 * i))) by nia.
  rewrite Z.mul_assoc, lor_mid by lia.
  replace (pre ++ b :: x ++ post) with ((pre ++ [b]) ++ x ++ post) by now rewrite <- app_assoc.
  replace (hi * 2 ^ (8 * zlen x) * 2 ^ (8 * i + 8)) with (hi * 2 ^ (8 * (i + 1 + zlen x))).
  2:{ replace (8 * (i + 1 + zlen x)) with (8 * zlen x + (8 * i + 8)) by lia. rewrite (Z.pow_add_r 2 (8 * zlen x)) by lia. lia. }
  rewrite <- Z.add_assoc, (IH (pre ++ [b]) post (i + 1) hi).
  - f_equal. cbn [le_combine]. replace (8 * (i + 1 + zlen x)) with (8 * zlen x + (8 * i + 8)) by lia.
    rewrite (Z.pow_add_r 2 (8 * zlen x)) by lia. replace (8 * (i + 1)) with (8 * i + 8) by lia. rewrite Hp. ring.
  - done.
  - rewrite zlen_app, zlen_cons, zlen_nil. lia.
  - done.
  - replace (8 * (i + 1)) with (8 * i + 8) by lia. rewrite Hp. nia.
  - replace (8 * (i + 1 + zlen x)) with (8 * zlen x + (8 * i + 8)) by lia. rewrite (Z.pow_add_r 2 (8 * zlen x)) by lia. lia.
Qed.

Lemma load64_le_at x post : bytes_ok x -> length x = 8%nat -> proto_load64_le (x ++ post) = Some (le_combine x).
Proof.
  intros Hx Hl. unfold proto_load64_le.
  pose proof (load_le_at x [] post 0 0 0 Hx eq_refl) as H. cbn [app] in H.
  assert (Hz : 0 * 2 ^ (8 * (0 + zlen x)) + 0 = 0) by lia. rewrite Hz in H. unfold zlen in H. rewrite Hl in H.
  rewrite H; [f_equal; cbn; lia|lia|cbn; lia|done].
Qed.

(** * Rounds *)

Definition lanes_ok (v : lanes) : Prop :=
  let '(v0, v1, v2, v3) := v in is_u64 v0 /\ is_u64 v1 /\ is_u64 v2 /\ is_u64 v3.

Lemma rotl_rol x b : is_u64 x -> 0 < b < 64 -> proto_rotl64 x b = rol x b /\ is_u64 (rol x b).
Proof.
  intros Hx Hb. unfold proto_rotl64, rol, u64, is_u64 in *. rewrite Z.shiftl_mul_pow2, Z.shiftr_div_pow2 by lia.
  assert (E : 2 ^ 64 = 2 ^ (64 - b) * 2 ^ b) by (rewrite <- Z.pow_add_r by lia; f_equal; lia).
  pose proof (Z.pow_pos_nonneg 2 b ltac:(lia) ltac:(lia)). pose proof (Z.pow_pos_nonneg 2 (64 - b) ltac:(lia) ltac:(lia)).
  assert (Em : (x * 2 ^ b) mod 2 ^ 64 = (x mod 2 ^ (64 - b)) * 2 ^ b) by (rewrite E; apply Z.mul_mod_distr_r; lia).
  assert (Hq : 0 <= x / 2 ^ (64 - b) < 2 ^ b).
  { split; [apply Z.div_pos; lia|]. apply Z.div_lt_upper_bound; [lia|]. lia. }
  pose proof (Z.mod_pos_bound x (2 ^ (64 - b)) ltac:(lia)). rewrite Em, lor_add by lia. split; [done|]. nia.
Qed.

Lemma is_u64_lxor a b : is_u64 a -> is_u64 b -> is_u64 (Z.lxor a b).
Proof.
  unfold is_u64. intros Ha Hb. split; [apply Z.lxor_nonneg; lia|].
  destruct (Z.eq_dec (Z.lxor a b) 0) as [->|Hn]; [lia|]. apply Z.log2_lt_pow2; [apply Z.le_neq; split; [apply Z.lxor_nonneg; lia|done]|].
  eapply Z.le_lt_trans; [apply Z.log2_lxor; lia|]. apply Z.max_lub_lt.
  - destruct (Z.eq_dec a 0) as [->|]; [done|]. apply Z.log2_lt_pow2; lia.
  - destruct (Z.eq_dec b 0) as [->|]; [done|]. apply Z.log2_lt_pow2; lia.
Qed.

Lemma is_u64_wrap z : is_u64 (z mod 2 ^ 64).
Proof. apply Z.mod_pos_bound. lia. Qed.

Lemma half_round_ok a b c d s t :
  is_u64 a -> is_u64 b -> is_u64 c -> is_u64 d -> 0 < s < 64 -> 0 < t < 64 -> lanes_ok (half_round a b c d s t).
Proof.
  intros Ha Hb Hc Hd Hs Ht. unfold half_round, lanes_ok.
  destruct (rotl_rol _ 32 (is_u64_wrap (a + b))) as [_ ?]; [lia|]. destruct (rotl_rol b s Hb Hs) as [_ ?].
  destruct (rotl_rol d t Hd Ht) as [_ ?]. auto using is_u64_lxor, is_u64_wrap.
Qed.

(** The macro is a round. *)
Lemma siproundE v : lanes_ok v -> SIPROUND v = sip_round v /\ lanes_ok (sip_round v).
Proof.
  destruct v as [[[v0 v1] v2] v3]. intros (H0 & H1 & H2 & H3). unfold SIPROUND, sip_round.
  pose proof (half_round_ok v0 v1 v2 v3 13 16 H0 H1 H2 H3 ltac:(lia) ltac:(lia)) as Hok.
  unfold half_round in *. destruct Hok as (Ha & Hb & Hc & Hd).
  rewrite (proj1 (rotl_rol v1 13 H1 ltac:(lia))), (proj1 (rotl_rol v3 16 H3 ltac:(lia))). unfold u64.
  rewrite (proj1 (rotl_rol _ 32 (is_u64_wrap (v0 + v1)) ltac:(lia))).
  set (a := rol _ 32) in *. set (b := Z.lxor (rol v1 13) _) in *. set (c := (v2 + v3) mod 2 ^ 64) in *.
  set (d := Z.lxor (rol v3 16) _) in *.
  pose proof (half_round_ok c b a d 17 21 Hc Hb Ha Hd ltac:(lia) ltac:(lia)) as (? & ? & ? & ?).
  rewrite (proj1 (rotl_rol b 17 Hb ltac:(lia))), (proj1 (rotl_rol d 21 Hd ltac:(lia))),
    (proj1 (rotl_rol _ 32 (is_u64_wrap (c + b)) ltac:(lia))).
  split; [done|]. done.
Qed.

Lemma absorbE v m : lanes_ok v -> is_u64 m -> absorb v m = compress v m /\ lanes_ok (compress v m).
Proof.
  destruct v as [[[v0 v1] v2] v3]. intros (H0 & H1 & H2 & H3) Hm. unfold absorb, compress.
  assert (Hv : lanes_ok (v0, v1, v2, Z.lxor v3 m)) by (cbn; auto using is_u64_lxor).
  destruct (siproundE _ Hv) as [-> Hv1]. destruct (siproundE _ Hv1) as [-> Hv2].
  destruct (sip_round (sip_round _)) as [[[w0 w1] w2] w3]. split; [done|]. destruct Hv2 as (? & ? & ? & ?).
  cbn. auto using is_u64_lxor.
Qed.

Lemma sip_start_ok k0 k1 : is_u64 k0 -> is_u64 k1 -> lanes_ok (sip_start k0 k1).
Proof. intros H0 H1. cbn -[Z.lxor]. repeat split; apply is_u64_lxor; try done; unfold is_u64; lia. Qed.

Lemma sip_finishE v : lanes_ok v -> sip_finish v = finish v.
Proof.
  destruct v as [[[v0 v1] v2] v3]. intros (H0 & H1 & H2 & H3). unfold sip_finish, finish.
  assert (Hv : lanes_ok (v0, v1, Z.lxor v2 255, v3)).
  { unfold lanes_ok. split; [done|]. split; [done|]. split; [|done]. apply is_u64_lxor; [done|unfold is_u64; lia]. }
  destruct (siproundE _ Hv) as [-> Ha]. destruct (siproundE _ Ha) as [-> Hb]. destruct (siproundE _ Hb) as [-> Hc].
  now destruct (siproundE _ Hc) as [-> _].
Qed.

(** * Blocks *)

Lemma le_combine_u64 x : bytes_ok x -> length x = 8%nat -> is_u64 (le_combine x).
Proof. intros Hx Hl. pose proof (le_combine_bound x Hx) as H. rewrite Hl in H. exact H. Qed.

Lemma le_combine_app x y : le_combine (x ++ y) = le_combine x + 256 ^ zlen x * le_combine y.
Proof.
  induction x as [|b x IH]; [cbn [app le_combine]; change (256 ^ zlen []) with 1; lia|]. cbn [app le_combine]. rewrite IH, zlen_cons, Z.pow_add_r by (pose proof (zlen_nonneg x); lia).
  lia.
Qed.

Lemma le_combine_zeros n : le_combine (replicate n 0) = 0.
Proof. induction n as [|n IH]; [done|]. cbn. rewrite IH. done. Qed.

Lemma words_of_app q : forall x z, length x = (8 * q)%nat -> length z = 8%nat ->
  words_of (S q) (x ++ z) = words_of q x ++ [le_combine z].
Proof.
  induction q as [|q IH]; intros x z Hx Hz.
  - apply length_zero_iff_nil in Hx as ->. cbn. now rewrite take_ge by lia.
  - destruct (split_at 8 x) as (a & y & -> & Ha); [lia|]. rewrite length_app in Hx.
    assert (E : forall w, words_of (S q) ((a ++ y) ++ w) = le_combine a :: words_of q (y ++ w)).
    { intros w. cbn [words_of]. rewrite <- app_assoc, <- Ha, take_app_length, drop_app_length. done. }
    change (words_of (S (S q)) ((a ++ y) ++ z)) with
      (le_combine (take 8 ((a ++ y) ++ z)) :: words_of (S q) (drop 8 ((a ++ y) ++ z))).
    rewrite <- app_assoc, <- Ha, take_app_length, drop_app_length, IH by lia.
    pose proof (E []) as E0. rewrite !app_nil_r in E0. now rewrite E0.
Qed.

Lemma sip_words_at q : forall pre x post v,
  bytes_ok x -> length x = (8 * q)%nat -> lanes_ok v ->
  sip_words q (pre ++ x ++ post) (zlen pre) v = Some (fold_left compress (words_of q x) v) /\
  lanes_ok (fold_left compress (words_of q x) v).
Proof.
  induction q as [|q IH]; intros pre x post v Hx Hl Hv; [done|].
  destruct (split_at 8 x) as (a & y & -> & Ha); [lia|]. rewrite length_app in Hl.
  apply bytes_ok_app in Hx as [Hxa Hxy]. cbn [sip_words words_of]. unfold ptr, zlen. rewrite Nat2Z.id, drop_app_length, <- app_assoc.
  rewrite load64_le_at by done. rewrite <- Ha, take_app_length, drop_app_length. cbn [fold_left].
  destruct (absorbE v (le_combine a) Hv (le_combine_u64 a Hxa Ha)) as [-> Hv'].
  destruct (IH (pre ++ a) y post _ Hxy ltac:(lia) Hv') as [IH1 IH2]. split; [|done].
  rewrite <- IH1. f_equal; [now rewrite <- !app_assoc|]. unfold zlen. rewrite length_app. lia.
Qed.

(** The word assembled from what is left of the input. *)
Lemma last_word y post len :
  bytes_ok y -> (length y < 8)%nat -> 0 <= len ->
  load_le (length y) (y ++ post) 0 (u64 (Z.shiftl len 56)) =
  Some (le_combine (y ++ replicate (7 - length y) 0 ++ [len mod 256])).
Proof.
  intros Hy Hl Hlen. pose proof (Z.mod_pos_bound len 256 ltac:(lia)) as Hc. set (c := len mod 256) in *.
  assert (Hr : 0 <= zlen y <= 7) by (unfold zlen; lia).
  assert (Hpw : 2 ^ 56 = 2 ^ (56 - 8 * zlen y) * 2 ^ (8 * zlen y)) by (rewrite <- Z.pow_add_r by lia; f_equal; lia).
  pose proof (Z.pow_pos_nonneg 2 (56 - 8 * zlen y) ltac:(lia) ltac:(lia)).
  pose proof (Z.pow_pos_nonneg 2 (8 * zlen y) ltac:(lia) ltac:(lia)).
  pose proof (load_le_at y [] post 0 (c * 2 ^ (56 - 8 * zlen y)) 0 Hy eq_refl) as Hat. cbn [app] in Hat.
  assert (Hv : u64 (Z.shiftl len 56) = c * 2 ^ (56 - 8 * zlen y) * 2 ^ (8 * (0 + zlen y)) + 0).
  { unfold u64. rewrite Z.shiftl_mul_pow2 by lia. change (2 ^ 64) with (256 * 2 ^ 56).
    rewrite Z.mul_mod_distr_r by lia. fold c. rewrite Z.add_0_l, <- Z.mul_assoc, <- Hpw. lia. }
  rewrite Hv, Hat; [|nia|cbn; lia|].
  - f_equal. rewrite le_combine_app, le_combine_app, le_combine_zeros. cbn [le_combine].
    rewrite Z.add_0_l, <- Z.mul_assoc, <- Hpw. change 256 with (2 ^ 8). rewrite <- !Z.pow_mul_r by (unfold zlen; lia).
    rewrite Z.mul_0_r, Z.add_0_l. change (2 ^ 0) with 1.
    assert (E : 2 ^ (8 * zlen y) * 2 ^ (8 * zlen (replicate (7 - length y) 0)) = 2 ^ 56).
    { rewrite <- Z.pow_add_r by (unfold zlen; lia). f_equal. unfold zlen. rewrite length_replicate. lia. }
    rewrite Z.mul_assoc, E. lia.
  - rewrite Z.add_0_l. change (2 ^ 64) with (2 ^ 56 * 256). rewrite Z.mul_add_distr_r, <- Z.mul_assoc, <- Hpw. nia.
Qed.

Lemma last_word_u64 y len : bytes_ok y -> (length y < 8)%nat ->
  is_u64 (le_combine (y ++ replicate (7 - length y) 0 ++ [len mod 256])).
Proof.
  intros Hy Hl. apply le_combine_u64.
  - rewrite !bytes_ok_app. split; [done|]. split; [apply bytes_ok_zeros|]. repeat constructor; apply is_u8_mod.
  - rewrite !length_app, length_replicate. cbn [length]. lia.
Qed.

(** * Properties *)

(** C21: [proto_siphash24] is SipHash-2-4: on every input of every length it
    reads exactly the bytes of the input and returns the hash that the
    definition of SipHash-2-4 (zero padding, length in the last byte, two
    rounds per word and four to finish) gives under the same key. *)
Theorem siphash_is_siphash_2_4 (m post : bytes) (k0 k1 : Z)
    (Hm : bytes_ok m) (H0 : is_u64 k0) (H1 : is_u64 k1) :
  proto_siphash24 (m ++ post) (zlen m) k0 k1 = Some (siphash_2_4 k0 k1 m).
Proof.
  unfold proto_siphash24, siphash_2_4.
  set (n := length m). set (q := (n / 8)%nat). set (r := (n mod 8)%nat).
  assert (Hn : n = (8 * q + r)%nat) by apply Nat.div_mod_eq. assert (Hr : (r < 8)%nat) by (apply Nat.mod_upper_bound; lia).
  destruct (split_at (8 * q) m) as (x & y & E & Hx); [unfold n in Hn; lia|].
  assert (Hy : length y = r) by (unfold n in Hn; rewrite E, length_app in Hn; lia).
  assert (Hland : Z.land (zlen m) 7 = Z.of_nat r).
  { change 7 with (Z.ones 3). rewrite Z.land_ones by lia. unfold zlen, r, n. now rewrite Nat2Z.inj_mod. }
  assert (Hend : Z.ldiff (zlen m) 7 = zlen x).
  { change 7 with (Z.ones 3). rewrite Z.ldiff_ones_r by lia. rewrite Z.shiftr_div_pow2, Z.shiftl_mul_pow2 by lia.
    unfold zlen. fold n. rewrite Hx. change (2 ^ 3) with (Z.of_nat 8). rewrite <- (Nat2Z.inj_div n 8). fold q. lia. }
  rewrite Hend, Hland, Nat2Z.id.
  replace (Z.to_nat (zlen x / 8)) with q by (unfold zlen; rewrite Hx; change 8 with (Z.of_nat 8); rewrite <- (Nat2Z.inj_div _ 8), Nat2Z.id, Nat.mul_comm; now rewrite Nat.div_mul).
  pose proof Hm as Hxy. rewrite E in Hxy. apply bytes_ok_app in Hxy as [Hbx Hby].
  destruct (sip_words_at q [] x (y ++ post) (sip_start k0 k1) Hbx Hx (sip_start_ok _ _ H0 H1)) as [Hw Hok].
  replace (m ++ post) with (x ++ y ++ post) by (rewrite E; now rewrite <- app_assoc). cbn [app] in Hw. change (zlen []) with 0 in Hw. rewrite Hw.
  unfold ptr, zlen at 1. rewrite Nat2Z.id, drop_app_length, <- Hy.
  rewrite last_word by (done || lia || apply zlen_nonneg).
  set (z := y ++ _). assert (Hz : length z = 8%nat).
  { unfold z. rewrite !length_app, length_replicate. cbn [length]. lia. }
  assert (Hpad : sip_pad m = x ++ z).
  { unfold sip_pad, z. fold n. fold r. rewrite <- Hy. rewrite E at 1. now rewrite <- app_assoc. }
  rewrite Hpad. replace (length (x ++ z) / 8)%nat with (S q).
  2:{ rewrite length_app, Hx, Hz. replace (8 * q + 8)%nat with (S q * 8)%nat by lia. now rewrite Nat.div_mul. }
  rewrite words_of_app, fold_left_app by done. cbn [fold_left]. f_equal.
  destruct (absorbE _ (le_combine z) Hok (last_word_u64 y (zlen m) Hby ltac:(lia))) as [-> Hv].
  now apply sip_finishE.
Qed.

Example siphash_is_siphash_2_4_witness :
  proto_siphash24 (map Z.of_nat (seq 0 15) ++ [99]) 15 0x0706050403020100 0x0f0e0d0c0b0a0908 =
  Some (siphash_2_4 0x0706050403020100 0x0f0e0d0c0b0a0908 (map Z.of_nat (seq 0 15))).
Proof.
  apply (siphash_is_siphash_2_4 (map Z.of_nat (seq 0 15)) [99]).
  - repeat constructor; words; lia.
  - unfold is_u64. lia.
  - unfold is_u64. lia.
Defined.
