(* ===== verification/Ipv4.v ===== *)
(** Validation of tunnelled IPv4 packets ([protocol.c], lines 380-458). *)
From stdpp Require Import base list numbers option.
From S2P Require Import Prelude Prog World Consts Wire.

(** * Operations *)

Definition proto_read_u16_be (p : bytes) (off : Z) : option Z :=
  let? b0 := buf_get p off in
  let? b1 := buf_get p (off + 1) in
  Some (u16 (Z.lor (Z.shiftl b0 8) b1)).

Definition proto_get_dst_ip (ip_pkt : bytes) (len : Z) : option Z :=
  if len <? 20 then Some 0
  else let? dst := mem_read ip_pkt 16 4 in Some (le_combine dst).

Definition proto_get_src_ip (ip_pkt : bytes) (len : Z) : option Z :=
  if len <? 20 then Some 0
  else let? src := mem_read ip_pkt 12 4 in Some (le_combine src).

Definition proto_validate_ipv4_packet (ip_pkt : bytes) (len : Z) : option Z :=
  if len <? 20 then Some TUND_IPV4_TOO_SHORT
  else
    let? b0 := buf_get ip_pkt 0 in
    if negb (Z.shiftr b0 4 =? 4) then Some TUND_IPV4_BAD_VERSION
    else
      let ihl := u8 (Z.land b0 0x0F * 4) in
      if ihl <? 20 then Some TUND_IPV4_BAD_IHL
      else if len <? ihl then Some TUND_IPV4_TRUNCATED
      else
        let? total_len := proto_read_u16_be ip_pkt 2 in
        if total_len <? ihl then Some TUND_IPV4_LENGTH_MISMATCH
        else if len <? total_len then Some TUND_IPV4_TRUNCATED
        else if negb (total_len =? len) then Some TUND_IPV4_LENGTH_MISMATCH
        else
          let? src := proto_get_src_ip ip_pkt len in
          let? dst := proto_get_dst_ip ip_pkt len in
          let src := ntohl src in
          let dst := ntohl dst in
          let broadcast := TUND_BROADCAST in
          if negb (Z.land src TUND_NETMASK =? TUND_SUBNET) || (src =? TUND_SUBNET)
             || (src =? broadcast)
          then Some TUND_IPV4_BAD_SRC
          else if dst =? TUND_SUBNET then Some TUND_IPV4_BAD_DST
          else if negb (dst =? broadcast) && negb (Z.land dst TUND_NETMASK =? TUND_SUBNET)
          then Some TUND_IPV4_BAD_DST
          else Some TUND_IPV4_OK.

Definition proto_ipv4_validation_error (code : Z) : bytes :=
  if code =? TUND_IPV4_OK then str "ok"
  else if code =? TUND_IPV4_TOO_SHORT then str "too short"
  else if code =? TUND_IPV4_BAD_VERSION then str "not IPv4"
  else if code =? TUND_IPV4_BAD_IHL then str "invalid IPv4 header length"
  else if code =? TUND_IPV4_TRUNCATED then str "truncated IPv4 packet"
  else if code =? TUND_IPV4_LENGTH_MISMATCH then str "IPv4 length mismatch"
  else if code =? TUND_IPV4_BAD_SRC then str "source outside TunD subnet"
  else if code =? TUND_IPV4_BAD_DST then str "destination outside TunD subnet"
  else str "invalid IPv4 packet".

(** * Specification *)

(** Fields of an IPv4 header, read off the packet as numbers. *)
Definition ip_byte (pkt : bytes) (i : nat) : Z := nth i pkt 0.
Definition ip_version (pkt : bytes) : Z := ip_byte pkt 0 / 16.
Definition ip_header_len (pkt : bytes) : Z := 4 * (ip_byte pkt 0 mod 16).
Definition ip_total_len (pkt : bytes) : Z := 256 * ip_byte pkt 2 + ip_byte pkt 3.
Definition ip_src (pkt : bytes) : Z := be_combine (take 4 (drop 12 pkt)).
Definition ip_dst (pkt : bytes) : Z := be_combine (take 4 (drop 16 pkt)).

(** A complete IPv4 packet from a host of the virtual LAN to a host of it or to
    its broadcast address. *)
Record lan_packet (pkt : bytes) (len : Z) : Prop := {
  lan_min : 20 <= len;
  lan_version : ip_version pkt = 4;
  lan_header : 20 <= ip_header_len pkt <= len;
  lan_total : ip_total_len pkt = len;
  lan_src : TUND_SUBNET < ip_src pkt < TUND_BROADCAST;
  lan_dst : TUND_SUBNET < ip_dst pkt <= TUND_BROADCAST
}.

(** * Proofs *)

Lemma buf_get_nth pkt i : 0 <= i < zlen pkt -> buf_get pkt i = Some (ip_byte pkt (Z.to_nat i)).
Proof.
  intros H. destruct (buf_get_some pkt i H) as [v Hv]. rewrite Hv. f_equal.
  unfold buf_get in Hv. destruct (0 <=? i); [|done]. unfold ip_byte.
  now rewrite (nth_lookup_Some _ _ _ _ Hv).
Qed.

Lemma ip_byte_ok pkt i : bytes_ok pkt -> is_u8 (ip_byte pkt i).
Proof.
  intros H. unfold ip_byte. rewrite nth_lookup. destruct (pkt !! i) eqn:E; cbn.
  - eapply Forall_lookup_1 in H; eauto.
  - words; lia.
Qed.

Lemma ntohl_le_combine l : bytes_ok l -> length l = 4%nat -> ntohl (le_combine l) = be_combine l.
Proof.
  intros Hl H4. unfold ntohl, htonl, be_combine, be_split. rewrite <- H4.
  now rewrite le_split_combine.
Qed.

Lemma broadcast_value : TUND_BROADCAST = TUND_SUBNET + 255.
Proof. reflexivity. Qed.

(** Membership of the /24, as the code tests it. *)
Lemma in_subnet x : is_u32 x -> (Z.land x TUND_NETMASK =? TUND_SUBNET) = (x / 256 =? TUND_SUBNET / 256).
Proof.
  intros Hx. change TUND_NETMASK with (Z.shiftl (Z.ones 24) 8).
  assert (E : Z.land x (Z.shiftl (Z.ones 24) 8) = 256 * (x / 256)).
  { rewrite <- (Z.mod_small x (2 ^ 32) Hx) at 1.
    rewrite <- Z.land_ones, <- Z.land_assoc by lia.
    change (Z.land (Z.ones 32) (Z.shiftl (Z.ones 24) 8)) with (Z.shiftl (Z.ones 24) 8).
    apply Z.bits_inj'. intros i Hi.
    rewrite Z.land_spec, Z.shiftl_spec by lia.
    change 256 with (2 ^ 8). rewrite Z.mul_comm.
    destruct (Z.lt_ge_cases i 8).
    - rewrite Z.mul_pow2_bits_low, (Z.testbit_neg_r _ (i - 8)) by lia. apply andb_false_r.
    - rewrite Z.mul_pow2_bits, Z.div_pow2_bits by lia. replace (i - 8 + 8) with i by lia.
      destruct (Z.lt_ge_cases i 32).
      + rewrite Z.ones_spec_low by lia. apply andb_true_r.
      + rewrite Z.ones_spec_high, andb_false_r by lia.
        rewrite <- (Z.mod_small x (2 ^ 32) Hx). symmetry. apply Z.mod_pow2_bits_high. lia. }
  rewrite E. change TUND_SUBNET with (256 * (TUND_SUBNET / 256)) at 1.
  destruct (Z.eqb_spec (256 * (x / 256)) (256 * (TUND_SUBNET / 256))),
    (Z.eqb_spec (x / 256) (TUND_SUBNET / 256)); lia.
Qed.

(** The subnet tests of the code, as ranges. *)
Lemma src_test x : is_u32 x ->
  negb (Z.land x TUND_NETMASK =? TUND_SUBNET) || (x =? TUND_SUBNET) || (x =? TUND_BROADCAST) = false
  <-> TUND_SUBNET < x < TUND_BROADCAST.
Proof.
  intros Hx. rewrite in_subnet by done. unfold TUND_SUBNET in *. rewrite broadcast_value.
  unfold TUND_SUBNET. rewrite !orb_false_iff, negb_false_iff, Z.eqb_eq, !Z.eqb_neq.
  change (0x0A090000 / 256) with 0x0A0900.
  pose proof (Z.div_mod x 256 ltac:(lia)). pose proof (Z.mod_pos_bound x 256 ltac:(lia)). lia.
Qed.

Lemma dst_test x : is_u32 x ->
  (x =? TUND_SUBNET) = false /\
  negb (x =? TUND_BROADCAST) && negb (Z.land x TUND_NETMASK =? TUND_SUBNET) = false
  <-> TUND_SUBNET < x <= TUND_BROADCAST.
Proof.
  intros Hx. rewrite in_subnet by done. unfold TUND_SUBNET in *. rewrite broadcast_value.
  unfold TUND_SUBNET. rewrite andb_false_iff, !negb_false_iff, !Z.eqb_eq, !Z.eqb_neq.
  change (0x0A090000 / 256) with 0x0A0900.
  pose proof (Z.div_mod x 256 ltac:(lia)). pose proof (Z.mod_pos_bound x 256 ltac:(lia)). lia.
Qed.

Lemma ip_addr_u32 pkt off : bytes_ok pkt -> is_u32 (be_combine (take 4 (drop off pkt))).
Proof.
  intros H. pose proof (be_combine_bound (take 4 (drop off pkt)) ltac:(auto with tund)) as Hb.
  words. split; [lia|]. eapply Z.lt_le_trans; [apply Hb|].
  change (2 ^ 32) with (256 ^ Z.of_nat 4). apply Z.pow_le_mono_r; [lia|].
  rewrite length_take. lia.
Qed.

Lemma get_src_spec pkt len :
  20 <= len <= zlen pkt -> exists src, proto_get_src_ip pkt len = Some src /\
    src = le_combine (take 4 (drop 12 pkt)).
Proof.
  intros H. unfold proto_get_src_ip. destruct (Z.ltb_spec len 20); [lia|].
  rewrite mem_read_some by lia. eauto.
Qed.

Lemma get_dst_spec pkt len :
  20 <= len <= zlen pkt -> exists dst, proto_get_dst_ip pkt len = Some dst /\
    dst = le_combine (take 4 (drop 16 pkt)).
Proof.
  intros H. unfold proto_get_dst_ip. destruct (Z.ltb_spec len 20); [lia|].
  rewrite mem_read_some by lia. eauto.
Qed.

Lemma ntohl_field pkt off :
  bytes_ok pkt -> Z.of_nat off + 4 <= zlen pkt ->
  ntohl (le_combine (take 4 (drop off pkt))) = be_combine (take 4 (drop off pkt)).
Proof.
  intros Hb Hl. apply ntohl_le_combine; [auto with tund|]. rewrite length_take, length_drop. zl.
Qed.

Lemma nibbles b : is_u8 b -> Z.shiftr b 4 = b / 16 /\ u8 (Z.land b 15 * 4) = 4 * (b mod 16).
Proof.
  intros H. words. rewrite Z.shiftr_div_pow2 by lia. split; [done|].
  change 15 with (Z.ones 4). rewrite Z.land_ones by lia. change (2 ^ 4) with 16.
  pose proof (Z.mod_pos_bound b 16). rewrite Z.mod_small; lia.
Qed.

Lemma read_u16_spec pkt off :
  bytes_ok pkt -> 0 <= off -> off + 2 <= zlen pkt ->
  proto_read_u16_be pkt off =
  Some (256 * ip_byte pkt (Z.to_nat off) + ip_byte pkt (Z.to_nat (off + 1))).
Proof.
  intros Hb H0 Hl. unfold proto_read_u16_be. rewrite !buf_get_nth by lia. f_equal.
  pose proof (ip_byte_ok pkt (Z.to_nat off) Hb). pose proof (ip_byte_ok pkt (Z.to_nat (off + 1)) Hb).
  words. rewrite lor_shift8 by lia. apply Z.mod_small. lia.
Qed.

(** The verdict of the validator, one condition after the other, on the fields
    as numbers. *)
Definition ipv4_verdict (pkt : bytes) (len : Z) : Z :=
  if len <? 20 then TUND_IPV4_TOO_SHORT
  else if negb (ip_version pkt =? 4) then TUND_IPV4_BAD_VERSION
  else if ip_header_len pkt <? 20 then TUND_IPV4_BAD_IHL
  else if (len <? ip_header_len pkt) ||
          ((ip_header_len pkt <=? ip_total_len pkt) && (len <? ip_total_len pkt))
       then TUND_IPV4_TRUNCATED
  else if negb (ip_total_len pkt =? len) then TUND_IPV4_LENGTH_MISMATCH
  else if negb ((TUND_SUBNET <? ip_src pkt) && (ip_src pkt <? TUND_BROADCAST))
       then TUND_IPV4_BAD_SRC
  else if negb ((TUND_SUBNET <? ip_dst pkt) && (ip_dst pkt <=? TUND_BROADCAST))
       then TUND_IPV4_BAD_DST
  else TUND_IPV4_OK.

(** The address tests at the end of the validator. *)
Lemma addr_verdict src dst :
  is_u32 src -> is_u32 dst ->
  (if negb (Z.land src TUND_NETMASK =? TUND_SUBNET) || (src =? TUND_SUBNET) || (src =? TUND_BROADCAST)
   then Some TUND_IPV4_BAD_SRC
   else if dst =? TUND_SUBNET then Some TUND_IPV4_BAD_DST
   else if negb (dst =? TUND_BROADCAST) && negb (Z.land dst TUND_NETMASK =? TUND_SUBNET)
   then Some TUND_IPV4_BAD_DST else Some TUND_IPV4_OK) =
  Some (if negb ((TUND_SUBNET <? src) && (src <? TUND_BROADCAST)) then TUND_IPV4_BAD_SRC
        else if negb ((TUND_SUBNET <? dst) && (dst <=? TUND_BROADCAST)) then TUND_IPV4_BAD_DST
        else TUND_IPV4_OK).
Proof.
  intros Hs Hd. pose proof (src_test src Hs) as [S1 S2]. pose proof (dst_test dst Hd) as [D1 D2].
  destruct ((TUND_SUBNET <? src) && (src <? TUND_BROADCAST)) eqn:Es; cbn [negb].
  - bools. rewrite S2 by done.
    destruct ((TUND_SUBNET <? dst) && (dst <=? TUND_BROADCAST)) eqn:Ed; cbn [negb].
    + bools. destruct (D2 ltac:(done)) as [-> ->]. done.
    + destruct (dst =? TUND_SUBNET); [done|].
      destruct (negb (dst =? TUND_BROADCAST) && _); [done|].
      destruct (D1 ltac:(done)) as [H1 H2]. bools. lia.
  - destruct (negb _ || _ || _); [done|]. destruct (S1 eq_refl). bools. lia.
Qed.

Lemma validate_verdict pkt len :
  bytes_ok pkt -> len <= zlen pkt ->
  proto_validate_ipv4_packet pkt len = Some (ipv4_verdict pkt len).
Proof.
  intros Hb Hl. unfold proto_validate_ipv4_packet, ipv4_verdict.
  destruct (Z.ltb_spec len 20); [done|].
  rewrite (buf_get_nth pkt 0) by lia. change (Z.to_nat 0) with 0%nat.
  destruct (nibbles _ (ip_byte_ok pkt 0 Hb)) as [-> ->].
  unfold ip_version. destruct (ip_byte pkt 0 / 16 =? 4); cbn [negb]; [|done].
  fold (ip_header_len pkt). destruct (ip_header_len pkt <? 20) eqn:?; [done|].
  destruct (len <? ip_header_len pkt) eqn:?; cbn [orb]; [done|].
  rewrite read_u16_spec by (done || lia). fold (ip_total_len pkt).
  change (Z.to_nat (2 + 1)) with 3%nat. change (Z.to_nat 2) with 2%nat. fold (ip_total_len pkt).
  destruct (Z.ltb_spec (ip_total_len pkt) (ip_header_len pkt)) as [Ht|Ht].
  { destruct (Z.leb_spec (ip_header_len pkt) (ip_total_len pkt)); [lia|]. cbn [andb]. bools.
    destruct (Z.eqb_spec (ip_total_len pkt) len); [lia|done]. }
  destruct (Z.leb_spec (ip_header_len pkt) (ip_total_len pkt)); [|lia]. cbn [andb].
  destruct (len <? ip_total_len pkt); [done|].
  destruct (Z.eqb_spec (ip_total_len pkt) len); cbn [negb]; [|done].
  destruct (get_src_spec pkt len ltac:(lia)) as (src & -> & ->).
  destruct (get_dst_spec pkt len ltac:(lia)) as (dst & -> & ->).
  rewrite !ntohl_field by (done || lia). apply addr_verdict; now apply ip_addr_u32.
Qed.

Lemma verdict_ok pkt len : ipv4_verdict pkt len = TUND_IPV4_OK <-> lan_packet pkt len.
Proof.
  unfold ipv4_verdict. split.
  - repeat (case_match; [discriminate|]). intros _. bools. constructor; lia.
  - intros [H1 H2 [H3 H3'] H4 [H5 H5'] [H6 H6']]. rewrite H4, H2.
    repeat match goal with
    | |- context [?a <? ?b] => destruct (Z.ltb_spec a b); try lia
    | |- context [?a <=? ?b] => destruct (Z.leb_spec a b); try lia
    end. cbn. now rewrite Z.eqb_refl.
Qed.

(** * Properties *)

(** C37: on every packet whose [len] bytes are in memory the validator reads
    inside the packet and returns [TUND_IPV4_OK] exactly for complete IPv4
    packets from a host of 10.9.0.0/24 to a host of it or its broadcast. *)
Theorem ipv4_accepts_exactly_lan_packets (pkt : bytes) (len : Z)
    (Hb : bytes_ok pkt) (Hl : len <= zlen pkt) :
  exists code, proto_validate_ipv4_packet pkt len = Some code /\
    (code = TUND_IPV4_OK <-> lan_packet pkt len).
Proof.
  exists (ipv4_verdict pkt len). split; [now apply validate_verdict|apply verdict_ok].
Qed.

(** A 20-byte packet from 10.9.0.2 to 10.9.0.3. *)
Definition sample_packet : bytes :=
  [0x45; 0; 0; 20; 0; 0; 0; 0; 64; 253; 0; 0; 10; 9; 0; 2; 10; 9; 0; 3].

Example ipv4_accepts_exactly_lan_packets_witness :
  exists code, proto_validate_ipv4_packet sample_packet 20 = Some code /\
    (code = TUND_IPV4_OK <-> lan_packet sample_packet 20).
Proof.
  apply ipv4_accepts_exactly_lan_packets; [repeat constructor; words; lia|reflexivity].
Defined.

(** The error codes name the first field that is wrong, as stated by
    [ipv4_verdict]; an all-lengths verdict without memory errors. *)
Theorem ipv4_error_codes (pkt : bytes) (len : Z) (Hb : bytes_ok pkt) (Hl : len <= zlen pkt) :
  proto_validate_ipv4_packet pkt len = Some (ipv4_verdict pkt len).
Proof. now apply validate_verdict. Qed.

Example ipv4_error_codes_witness :
  proto_validate_ipv4_packet sample_packet 19 = Some TUND_IPV4_TOO_SHORT.
Proof.
  rewrite (ipv4_error_codes sample_packet 19); [reflexivity|repeat constructor; words; lia|].
  vm_compute. discriminate.
Defined.
