(* ===== verification/Crypto.v ===== *)
(** Transport encryption ([proto_encrypt], [proto_decrypt] and
    [proto_key_from_passphrase] of [protocol.c]) over the interface of the
    Monocypher primitives it calls. *)
From stdpp Require Import base list numbers option.
From S2P Require Import Prelude Prog World Consts Sequence Wire.

(** * Interface of the primitives *)

(** Argument order: key, nonce, additional data, text.  [unlock] returns [None]
    when [crypto_aead_unlock] reports a failure. *)
Class Monocypher : Type := {
  aead_lock : bytes -> bytes -> bytes -> bytes -> bytes * bytes;
  aead_unlock : bytes -> bytes -> bytes -> bytes -> bytes -> option bytes;
  blake2b : Z -> bytes -> bytes
}.

(** What TunD relies on: the ciphertext is as long as the plaintext, the tag
    has 16 bytes, what was locked unlocks, and nothing else does. *)
Class MonocypherLaws (M : Monocypher) : Prop := {
  lock_length : forall key nonce ad text,
    length (aead_lock key nonce ad text).1 = length text /\
    length (aead_lock key nonce ad text).2 = 16%nat;
  lock_bytes : forall key nonce ad text, bytes_ok text ->
    bytes_ok (aead_lock key nonce ad text).1 /\ bytes_ok (aead_lock key nonce ad text).2;
  unlock_lock : forall key nonce ad text c mac,
    bytes_ok text -> aead_lock key nonce ad text = (c, mac) ->
    aead_unlock mac key nonce ad c = Some text;
  unlock_exact : forall key nonce ad c mac text,
    bytes_ok c -> bytes_ok mac -> length mac = 16%nat ->
    aead_unlock mac key nonce ad c = Some text ->
    bytes_ok text /\ aead_lock key nonce ad text = (c, mac);
  blake2b_length : forall n msg, 0 <= n <= 64 -> zlen (blake2b n msg) = n
}.

(** * Operations *)

Definition key_context : bytes := str "TunD transport key v1".

(** [proto_key_from_passphrase]: one hash over the context and the passphrase. *)
Definition proto_key_from_passphrase `{M : Monocypher} (passphrase : bytes) : option bytes :=
  let? s := c_str passphrase in Some (blake2b TUND_KEY_SIZE (key_context ++ s)).

Section ops.
Context `{M : Monocypher} {S : Type} `{HW : HasWorld S}.

(** The part of [proto_encrypt] after the header has been refreshed. *)
Definition lock_in_place (buf : bytes) (plaintext_len : Z) (key : bytes) : option (Z * bytes) :=
  let wire_payload_len := u16 (plaintext_len + TUND_AUTH_TAG_SIZE) in
  let? buf := proto_write_payload_len buf wire_payload_len in
  let? nonce := mem_read buf TUND_NONCE_OFFSET TUND_NONCE_SIZE in
  let? ad := mem_read buf 0 TUND_HDR_SIZE in
  let? text := mem_read buf TUND_HDR_SIZE plaintext_len in
  let '(ciphertext, mac) := aead_lock key nonce ad text in
  let? buf := mem_write buf TUND_HDR_SIZE ciphertext in
  let? buf := mem_write buf (TUND_HDR_SIZE + plaintext_len) mac in
  Some (TUND_HDR_SIZE + wire_payload_len, buf).

Definition proto_encrypt (buf : bytes) (len : Z) (key : bytes) : prog S (Z * bytes) :=
  if len <? TUND_HDR_SIZE then Ret (-1, buf)
  else
    let* hdr := local (proto_read_hdr buf) in
    match hdr with
    | HdrErr _ => Ret (-1, buf)
    | HdrOk type payload_len =>
        let plaintext_len := len - TUND_HDR_SIZE in
        if (plaintext_len <? 0) || (TUND_MAX_PLAINTEXT <? plaintext_len) then Ret (-1, buf)
        else if negb (payload_len =? u16 plaintext_len) then Ret (-1, buf)
        else
          let* '(r, buf) := proto_write_hdr buf type (u16 plaintext_len) in
          if r <? 0 then Ret (-1, buf)
          else local (lock_in_place buf plaintext_len key)
    end.
End ops.

Definition proto_decrypt `{M : Monocypher} (buf : bytes) (len : Z) (key : bytes) : option (Z * bytes) :=
  if len <? TUND_HDR_SIZE + TUND_AUTH_TAG_SIZE then Some (-1, buf)
  else
    let? hdr := proto_read_hdr buf in
    match hdr with
    | HdrErr _ => Some (-1, buf)
    | HdrOk _ wire_payload_len =>
        if (wire_payload_len <? TUND_AUTH_TAG_SIZE) || negb (TUND_HDR_SIZE + wire_payload_len =? len)
        then Some (-1, buf)
        else
          let plaintext_len := wire_payload_len - TUND_AUTH_TAG_SIZE in
          if TUND_MAX_PLAINTEXT <? plaintext_len then Some (-1, buf)
          else
            let? mac := mem_read buf (TUND_HDR_SIZE + plaintext_len) TUND_AUTH_TAG_SIZE in
            let? nonce := mem_read buf TUND_NONCE_OFFSET TUND_NONCE_SIZE in
            let? ad := mem_read buf 0 TUND_HDR_SIZE in
            let? text := mem_read buf TUND_HDR_SIZE plaintext_len in
            match aead_unlock mac key nonce ad text with
            | None => Some (-1, buf)
            | Some plaintext =>
                let? buf := mem_write buf TUND_HDR_SIZE plaintext in
                let? buf := proto_write_payload_len buf (u16 plaintext_len) in
                Some (TUND_HDR_SIZE + plaintext_len, buf)
            end
    end.

(** * Datagrams on the wire *)

(** The encrypted datagram for a payload. *)
Definition wire_bytes `{M : Monocypher} (key : bytes) (type : Z) (payload : bytes)
    (sequence : Z) (nonce : bytes) : bytes :=
  let ad := hdr_bytes type (zlen payload + TUND_AUTH_TAG_SIZE) sequence nonce in
  let '(c, mac) := aead_lock key nonce ad payload in ad ++ c ++ mac.

Section facts.
Context `{M : Monocypher} {ML : MonocypherLaws M}.

Lemma zlen_wire key type payload sequence nonce :
  length nonce = 24%nat ->
  zlen (wire_bytes key type payload sequence nonce) =
  TUND_HDR_SIZE + zlen payload + TUND_AUTH_TAG_SIZE.
Proof.
  intros Hn. unfold wire_bytes.
  set (ad := hdr_bytes type (zlen payload + TUND_AUTH_TAG_SIZE) sequence nonce).
  destruct (lock_length key nonce ad payload) as [H1 H2].
  destruct (aead_lock key nonce ad payload) as [c mac]. cbn [fst snd] in *.
  rewrite !zlen_app. unfold ad. rewrite zlen_hdr by done. clia.
Qed.

Lemma wire_ok key type payload sequence nonce :
  is_u8 type -> zlen payload <= TUND_MAX_PLAINTEXT -> bytes_ok nonce -> bytes_ok payload ->
  bytes_ok (wire_bytes key type payload sequence nonce).
Proof.
  intros Ht Hp Hn Hb. unfold wire_bytes.
  set (ad := hdr_bytes type (zlen payload + TUND_AUTH_TAG_SIZE) sequence nonce).
  destruct (lock_bytes key nonce ad payload Hb) as [H1 H2].
  destruct (aead_lock key nonce ad payload) as [c mac]. cbn [fst snd] in *.
  rewrite !bytes_ok_app. split; [|done]. apply hdr_ok; [done| |done]. clia.
Qed.

(** Rewriting the length field of a header. *)
Lemma relength type n m sequence nonce rest :
  is_u16 m ->
  proto_write_payload_len (hdr_bytes type n sequence nonce ++ rest) m =
  Some (hdr_bytes type m sequence nonce ++ rest).
Proof.
  intros Hm. unfold hdr_bytes. rewrite <- !app_assoc. now apply write_payload_len_at.
Qed.

(** Fields of a buffer that starts with a header. *)
Lemma read_nonce type n sequence nonce rest :
  length nonce = 24%nat ->
  mem_read (hdr_bytes type n sequence nonce ++ rest) TUND_NONCE_OFFSET TUND_NONCE_SIZE = Some nonce.
Proof.
  intros Hn. apply (mem_read_at _ (hdr_prefix type n ++ be_split 8 sequence) nonce rest); [| |clia].
  - unfold hdr_bytes. now rewrite <- !app_assoc.
  - unfold zlen. lens. done.
Qed.

Lemma read_ad type n sequence nonce rest :
  length nonce = 24%nat ->
  mem_read (hdr_bytes type n sequence nonce ++ rest) 0 TUND_HDR_SIZE =
  Some (hdr_bytes type n sequence nonce).
Proof.
  intros Hn. eapply (mem_read_at _ [] _ rest); [done|done|]. now rewrite zlen_hdr.
Qed.

Lemma read_text type n sequence nonce text rest :
  length nonce = 24%nat ->
  mem_read (hdr_bytes type n sequence nonce ++ text ++ rest) TUND_HDR_SIZE (zlen text) = Some text.
Proof. intros Hn. eapply mem_read_at; [done| |done]. now rewrite zlen_hdr. Qed.

(** Locking in place turns a plaintext message into its wire form. *)
Lemma lock_in_place_at key type payload sequence nonce room rest :
  length nonce = 24%nat -> zlen payload <= TUND_MAX_PLAINTEXT -> length room = 16%nat ->
  lock_in_place (hdr_bytes type (zlen payload) sequence nonce ++ payload ++ room ++ rest)
    (zlen payload) key =
  Some (TUND_HDR_SIZE + zlen payload + TUND_AUTH_TAG_SIZE,
        wire_bytes key type payload sequence nonce ++ rest).
Proof.
  intros Hn Hmax Hroom. unfold lock_in_place, wire_bytes. pose proof (zlen_nonneg payload).
  assert (Hu : u16 (zlen payload + TUND_AUTH_TAG_SIZE) = zlen payload + TUND_AUTH_TAG_SIZE)
    by (words; apply Z.mod_small; consts; lia).
  rewrite Hu, relength by clia. rewrite read_nonce, read_ad, read_text by done.
  set (ad := hdr_bytes type (zlen payload + TUND_AUTH_TAG_SIZE) sequence nonce).
  destruct (lock_length key nonce ad payload) as [H1 H2].
  destruct (aead_lock key nonce ad payload) as [c mac]. cbn [fst snd] in *.
  assert (Had : zlen ad = TUND_HDR_SIZE) by now apply zlen_hdr.
  rewrite (mem_write_at ad payload (room ++ rest)) by done.
  rewrite app_assoc, (mem_write_at (ad ++ c) room rest);
    [|done|rewrite zlen_app; unfold zlen in *; lia|congruence].
  rewrite <- !app_assoc. do 2 f_equal. lia.
Qed.

(** Decrypting what was encrypted under the same key. *)
Lemma decrypt_wire key type payload sequence nonce rest :
  bytes_ok payload -> length nonce = 24%nat -> zlen payload <= TUND_MAX_PLAINTEXT ->
  exists junk,
    proto_decrypt (wire_bytes key type payload sequence nonce ++ rest)
      (TUND_HDR_SIZE + zlen payload + TUND_AUTH_TAG_SIZE) key =
    Some (TUND_HDR_SIZE + zlen payload,
          hdr_bytes type (zlen payload) sequence nonce ++ payload ++ junk ++ rest) /\
    length junk = 16%nat.
Proof.
  intros Hb Hn Hmax. pose proof (zlen_nonneg payload). unfold proto_decrypt, wire_bytes.
  set (ad := hdr_bytes type (zlen payload + TUND_AUTH_TAG_SIZE) sequence nonce).
  destruct (lock_length key nonce ad payload) as [H1 H2].
  destruct (aead_lock key nonce ad payload) as [c mac] eqn:El. cbn [fst snd] in *.
  destruct (Z.ltb_spec (TUND_HDR_SIZE + zlen payload + TUND_AUTH_TAG_SIZE)
              (TUND_HDR_SIZE + TUND_AUTH_TAG_SIZE)); [clia|].
  rewrite <- !app_assoc. unfold ad at 1. rewrite read_hdr_at by (done || clia).
  destruct (Z.ltb_spec (zlen payload + TUND_AUTH_TAG_SIZE) TUND_AUTH_TAG_SIZE); [lia|].
  rewrite Z.add_assoc, Z.eqb_refl. cbn [negb orb].
  replace (zlen payload + TUND_AUTH_TAG_SIZE - TUND_AUTH_TAG_SIZE) with (zlen payload) by lia.
  destruct (Z.ltb_spec TUND_MAX_PLAINTEXT (zlen payload)); [lia|].
  assert (Had : zlen ad = TUND_HDR_SIZE) by now apply zlen_hdr.
  assert (Hc : zlen c = zlen payload) by (unfold zlen; lia).
  rewrite (mem_read_at _ (ad ++ c) mac rest);
    [|now rewrite <- !app_assoc|rewrite zlen_app; lia|clia].
  rewrite <- Hc. unfold ad at 1 2 3. rewrite read_nonce, read_ad, read_text by done. fold ad.
  rewrite (unlock_lock key nonce ad payload c mac Hb El).
  rewrite (mem_write_at ad c (mac ++ rest)) by done.
  unfold ad. rewrite relength; rewrite Hc; [|words; apply Z.mod_pos_bound; lia].
  exists mac. split; [|done]. do 3 f_equal. f_equal. words. apply Z.mod_small. consts; lia.
Qed.

(** A datagram determines the message in it. *)
Lemma wire_injective key type payload sequence nonce type' payload' sequence' nonce' :
  length nonce = 24%nat -> length nonce' = 24%nat -> is_u8 type -> is_u8 type' ->
  bytes_ok payload -> bytes_ok payload' ->
  zlen payload <= TUND_MAX_PLAINTEXT -> zlen payload' <= TUND_MAX_PLAINTEXT ->
  wire_bytes key type payload sequence nonce = wire_bytes key type' payload' sequence' nonce' ->
  type = type' /\ payload = payload'.
Proof.
  intros Hn Hn' Ht Ht' Hb Hb' Hp Hp' E.
  pose proof (zlen_wire key type payload sequence nonce Hn) as Hl.
  pose proof (zlen_wire key type' payload' sequence' nonce' Hn') as Hl'.
  destruct (decrypt_wire key type payload sequence nonce []) as (mac & Hd & _); auto.
  destruct (decrypt_wire key type' payload' sequence' nonce' []) as (mac' & Hd' & _); auto.
  rewrite E, Hl' in Hl. rewrite E in Hd. replace (zlen payload) with (zlen payload') in Hd by lia.
  rewrite Hd' in Hd. apply (f_equal (fun o => match o with Some (_, l) => l | None => [] end)) in Hd.
  cbn beta iota in Hd. clear -Hd Hn Hn' Hl.
  split.
  - apply (f_equal (fun l => nth 2 l 0)) in Hd. symmetry. exact Hd.
  - apply (f_equal (fun l => take (length payload) (drop 37 l))) in Hd.
    rewrite !drop_app_length' in Hd by now rewrite length_hdr.
    assert (length payload' = length payload) by (unfold zlen in Hl; lia).
    rewrite take_app_length, <- H, take_app_length in Hd. done.
Qed.

(** What a receiver learns from a datagram: nothing at all, or a message that
    was locked, byte for byte, under its key. *)
Definition decrypted (key buf : bytes) (len r : Z) (buf' : bytes) : Prop :=
  (r = -1 /\ buf' = buf) \/
  exists type sequence nonce payload junk rest,
    is_u8 type /\ is_u64 sequence /\ length nonce = 24%nat /\ bytes_ok nonce /\
    bytes_ok payload /\ zlen payload <= TUND_MAX_PLAINTEXT /\
    r = TUND_HDR_SIZE + zlen payload /\ len = r + TUND_AUTH_TAG_SIZE /\
    buf = wire_bytes key type payload sequence nonce ++ rest /\
    length junk = 16%nat /\ bytes_ok junk /\ bytes_ok rest /\
    buf' = hdr_bytes type (zlen payload) sequence nonce ++ payload ++ junk ++ rest.

Lemma decrypt_exact key buf len :
  bytes_ok buf -> len <= zlen buf ->
  exists r buf', proto_decrypt buf len key = Some (r, buf') /\ decrypted key buf len r buf'.
Proof.
  intros Hb Hl. unfold proto_decrypt.
  assert (Hfail : exists r buf', Some (-1, buf) = Some (r, buf') /\ decrypted key buf len r buf').
  { exists (-1), buf. split; [done|]. now left. }
  destruct (Z.ltb_spec len (TUND_HDR_SIZE + TUND_AUTH_TAG_SIZE)) as [|Hmin]; [done|].
  destruct (read_hdr_total buf) as [[type wlen|code] Hr]; [clia| |now rewrite Hr].
  rewrite Hr. destruct (parse_hdr _ _ _ Hb ltac:(clia) Hr)
    as (sequence & nonce & text & Hseq & Hn & Hnb & Htb & Ht & Hw & ->).
  destruct (Z.ltb_spec wlen TUND_AUTH_TAG_SIZE); [done|].
  destruct (Z.eqb_spec (TUND_HDR_SIZE + wlen) len) as [He|]; [|done]. cbn [negb orb].
  destruct (Z.ltb_spec TUND_MAX_PLAINTEXT (wlen - TUND_AUTH_TAG_SIZE)); [done|].
  pose proof (zlen_hdr type wlen sequence nonce Hn) as Hh. rewrite zlen_app in Hl.
  set (n := wlen - TUND_AUTH_TAG_SIZE) in *.
  destruct (split_at (Z.to_nat n) text) as (c & t & -> & Hc); [clia|]. rewrite zlen_app in Hl.
  destruct (split_at 16 t) as (mac & rest & -> & Hmac); [clia|].
  rewrite !bytes_ok_app in Htb. destruct Htb as (Hcb & Hmb & Hrb).
  assert (Hcn : zlen c = n) by clia. rewrite <- Hcn.
  rewrite (mem_read_at _ (hdr_bytes type wlen sequence nonce ++ c) mac rest);
    [|now rewrite <- !app_assoc|rewrite zlen_app; lia|clia].
  rewrite read_nonce, read_ad, read_text by done.
  destruct (aead_unlock mac key nonce (hdr_bytes type wlen sequence nonce) c) as [p|] eqn:Eu; [|done].
  destruct (unlock_exact _ _ _ _ _ _ Hcb Hmb Hmac Eu) as [Hpb El].
  pose proof (lock_length key nonce (hdr_bytes type wlen sequence nonce) p) as [HL _].
  rewrite El in HL. cbn [fst] in HL. assert (Hp : zlen p = n) by (unfold zlen; lia).
  rewrite (mem_write_at (hdr_bytes type wlen sequence nonce) c (mac ++ rest)) by done.
  rewrite Hcn, relength by apply Z.mod_pos_bound, eq_refl.
  eexists _, _. split; [reflexivity|]. right. exists type, sequence, nonce, p, mac, rest.
  assert (Hu : u16 n = n) by (words; apply Z.mod_small; clia). rewrite Hu, Hp.
  do 8 (split; [done || lia|]). split; [|done].
  unfold wire_bytes. rewrite Hp. replace (n + TUND_AUTH_TAG_SIZE) with wlen by lia.
  rewrite El. now rewrite <- !app_assoc.
Qed.
End facts.

Section safe.
Context `{M : Monocypher} {ML : MonocypherLaws M}.
Context {S : Type} `{HW : HasWorld S} (J : S -> Prop) {F : Framed J}.

(** What the encryption of the first [len] bytes of [buf] delivers. *)
Definition encrypted (key buf : bytes) (len r : Z) (buf' : bytes) : Prop :=
  length buf' = length buf /\ bytes_ok buf' /\
  (r = -1 \/
   exists type sequence nonce payload rest,
     is_u8 type /\ 1 <= sequence < 2 ^ 64 /\ length nonce = 24%nat /\ bytes_ok nonce /\
     bytes_ok payload /\ zlen payload <= TUND_MAX_PLAINTEXT /\ len = TUND_HDR_SIZE + zlen payload /\
     proto_read_hdr buf = Some (HdrOk type (zlen payload)) /\
     payload = take (Z.to_nat (len - TUND_HDR_SIZE)) (drop 37 buf) /\
     r = len + TUND_AUTH_TAG_SIZE /\
     buf' = wire_bytes key type payload sequence nonce ++ rest).

Lemma safe_encrypt key buf len :
  bytes_ok buf -> len + TUND_AUTH_TAG_SIZE <= zlen buf ->
  safe J (proto_encrypt buf len key) (fun '(r, buf') => encrypted key buf len r buf').
Proof.
  intros Hb Hl. unfold proto_encrypt, encrypted.
  assert (Hfail : safe J (Ret (-1, buf)) (fun '(r, buf') => encrypted key buf len r buf')).
  { apply safe_ret. split; [done|]. split; [done|]. by left. }
  destruct (Z.ltb_spec len TUND_HDR_SIZE) as [|Hmin]; [done|].
  destruct (read_hdr_total buf) as [h Hr]; [clia|]. eapply safe_then; [exact Hr|].
  destruct h as [type plen|]; [|done].
  destruct (_ || _) eqn:Hrange; [done|]. bools.
  destruct (Z.eqb_spec plen (u16 (len - TUND_HDR_SIZE))) as [->|]; [|done]. cbn [negb].
  assert (Hu : u16 (len - TUND_HDR_SIZE) = len - TUND_HDR_SIZE) by (words; apply Z.mod_small; clia).
  rewrite Hu in *. set (n := len - TUND_HDR_SIZE) in *.
  destruct (parse_hdr _ _ _ Hb ltac:(clia) Hr) as (_ & _ & _ & _ & _ & _ & _ & Ht & Hpl & _).
  eapply safe_bind; [apply safe_write_hdr; auto; clia|]. intros [r buf1] (Hl1 & Hb1 & _ & _ & HH).
  destruct HH as [->|(-> & _ & sequence & nonce & Hseq & Hn & Hnb & ->)].
  { apply safe_ret. split; [done|]. split; [done|]. by left. }
  change (TUND_HDR_SIZE <? 0) with false. cbn iota.
  destruct (split_at (Z.to_nat n) (drop 37 buf)) as (payload & t & Hd & Hp);
    [rewrite length_drop; clia|].
  destruct (split_at 16 t) as (room & rest & -> & Hroom);
    [apply (f_equal length) in Hd; rewrite length_app, length_drop in Hd; clia|].
  rewrite Hd in *. apply bytes_ok_app in Hb1 as [_ Hdb]. apply bytes_ok_app in Hdb as [Hpb Hrb].
  apply bytes_ok_app in Hrb as [_ Hrb]. assert (Hpn : n = zlen payload) by (unfold zlen; lia). rewrite Hpn in *.
  eapply safe_local; [now apply lock_in_place_at|].
  split.
  { rewrite <- Hl1. pose proof (zlen_wire key type payload sequence nonce Hn).
    pose proof (zlen_hdr type (zlen payload) sequence nonce Hn). unfold zlen in *. rewrite !length_app. clia. }
  split; [apply bytes_ok_app; split; [apply wire_ok; auto; lia|done]|].
  right. exists type, sequence, nonce, payload, rest.
  do 6 (split; [done || lia|]). split; [lia|]. split; [done|].
  split; [|split; [lia|done]]. rewrite <- Hp, take_app_length. done.
Qed.
End safe.

(** * The laws are satisfiable *)

(** A stand-in for the primitives, used only to exhibit concrete executions: a
    byte-wise exclusive or and a 16-byte checksum of everything that is
    authenticated. *)
Module SampleCipher.
Definition mask (text : bytes) : bytes := map (fun b => Z.lxor b 0x5A) text.
Definition tag (key nonce ad c : bytes) : bytes :=
  le_split 16 (le_combine (key ++ nonce ++ ad ++ c)).

Definition sample : Monocypher := {|
  aead_lock key nonce ad text := (mask text, tag key nonce ad (mask text));
  aead_unlock mac key nonce ad c :=
    if decide (mac = tag key nonce ad c) then Some (mask c) else None;
  blake2b n msg := pad_to (Z.to_nat n) (le_split 64 (le_combine msg))
|}.

Lemma mask_ok l : bytes_ok l -> bytes_ok (mask l).
Proof.
  intros H. apply Forall_map. eapply Forall_impl; [|exact H]. intros b Hb. cbn. words.
  assert (0 <= Z.lxor b 0x5A) by (apply Z.lxor_nonneg; lia). split; [done|].
  destruct (Z.eq_dec (Z.lxor b 0x5A) 0) as [->|Hn]; [lia|].
  apply Z.log2_lt_pow2; [lia|]. eapply Z.le_lt_trans; [apply Z.log2_lxor; lia|].
  destruct (Z.eq_dec b 0) as [->|]; [cbn; lia|].
  apply Z.max_lub_lt; [apply Z.log2_lt_pow2; lia|cbn; lia].
Qed.

Lemma mask_mask l : mask (mask l) = l.
Proof.
  induction l as [|b l IH]; [done|]. cbn. f_equal; [|exact IH].
  now rewrite Z.lxor_assoc, Z.lxor_nilpotent, Z.lxor_0_r.
Qed.

#[global] Instance sample_laws : MonocypherLaws sample.
Proof.
  split; cbn [aead_lock aead_unlock blake2b sample fst snd].
  - intros. unfold mask, tag. now rewrite length_map, length_le_split.
  - intros. split; [now apply mask_ok|apply le_split_ok].
  - intros key nonce ad text c mac Hb [= <- <-]. rewrite decide_True by done. now rewrite mask_mask.
  - intros key nonce ad c mac text Hc Hm Hl. case_decide as Ht; [|done]. intros [= <-].
    split; [now apply mask_ok|]. now rewrite mask_mask, Ht.
  - intros n msg Hn. unfold zlen. rewrite length_pad_to. lia.
Qed.
End SampleCipher.

(** * Properties *)

Section claims.
Context `{M : Monocypher} {ML : MonocypherLaws M}.

(** Encryption keeps the message: the decrypted datagram carries the same
    type and payload. *)
Definition recovers (key : bytes) (type : Z) (payload : bytes) (len : Z) (r : Z) (wire : bytes) :
    Prop :=
  r = len + TUND_AUTH_TAG_SIZE /\
  exists buf, proto_decrypt wire r key = Some (len, buf) /\ message type payload buf.

Lemma encrypted_recovers key type payload buf len r wire :
  message type payload buf -> bytes_ok payload -> is_u8 type ->
  zlen payload <= TUND_MAX_PLAINTEXT -> len = TUND_HDR_SIZE + zlen payload ->
  encrypted key buf len r wire -> r = -1 \/ recovers key type payload len r wire.
Proof.
  intros (sq & nc & rest & Hsq & Hnc & Hncb & ->) Hpb Ht Hmax Hlen (_ & _ & HH).
  destruct HH as [->|(ty & sequence & nonce & pl & rest' & Hty & Hseq & Hn & Hnb & Hplb & Hplmax
                      & Hlen' & Hhdr & Hpl & Hr & ->)]; [by left|]. right.
  pose proof (zlen_nonneg payload).
  rewrite read_hdr_at in Hhdr by (done || clia). injection Hhdr as <- Hzl.
  assert (pl = payload) as ->.
  { rewrite Hpl. rewrite <- (length_hdr type (zlen payload) sq nc Hnc) at 1.
    rewrite drop_app_length. replace (Z.to_nat (len - TUND_HDR_SIZE)) with (length payload) by clia.
    now rewrite take_app_length. }
  split; [done|]. destruct (decrypt_wire key type payload sequence nonce rest' Hpb Hn Hmax)
    as (junk & Hd & _).
  exists (hdr_bytes type (zlen payload) sequence nonce ++ payload ++ junk ++ rest').
  rewrite Hr, Hlen, Hd. split; [done|]. now exists sequence, nonce, (junk ++ rest').
Qed.
End claims.

(** C7: encrypting any plaintext message in place never leaves its buffer; it
    fails or yields a datagram 16 bytes longer that decrypts, under the same
    key, to a message with the same type and payload. *)
Theorem transport_roundtrip `{M : Monocypher} {ML : MonocypherLaws M}
    (w : world) (key buf payload : bytes) (type len : Z)
    (Hw : world_ok w) (Hm : message type payload buf) (Hb : bytes_ok buf) (Hp : bytes_ok payload)
    (Ht : is_u8 type) (Hmax : zlen payload <= TUND_MAX_PLAINTEXT)
    (Hlen : len = TUND_HDR_SIZE + zlen payload) (Hroom : len + TUND_AUTH_TAG_SIZE <= zlen buf) :
  exists r wire w', run (proto_encrypt buf len key) w = Some ((r, wire), w') /\ world_ok w' /\
    (r = -1 \/ recovers key type payload len r wire).
Proof.
  destruct (safe_run (fun _ : world => True) _ _ w (safe_encrypt _ key buf len Hb Hroom))
    as ([r wire] & w' & Hr & [Hw' _] & _ & HQ); [done|].
  exists r, wire, w'. split; [done|]. split; [done|]. eapply encrypted_recovers; eauto.
Qed.

(** A keepalive built and encrypted in a concrete process. *)
Definition sample_message : bytes :=
  hdr_bytes MSG_KEEPALIVE 8 77 (replicate 24 3) ++ be_split 8 123456 ++ replicate 1608 0.

Lemma sample_message_ok : message MSG_KEEPALIVE (be_split 8 123456) sample_message.
Proof.
  exists 77, (replicate 24 3), (replicate 1608 0). split; [lia|]. split; [done|].
  split; [apply Forall_replicate; words; lia|]. reflexivity.
Qed.

Lemma sample_message_bytes : bytes_ok sample_message.
Proof.
  unfold sample_message. rewrite !bytes_ok_app. split; [|split; [apply be_split_ok|apply bytes_ok_zeros]].
  apply hdr_ok; [words; unfold MSG_KEEPALIVE; lia|words; lia|apply Forall_replicate; words; lia].
Qed.

Example transport_roundtrip_witness :
  exists r wire w',
    run (proto_encrypt (M := SampleCipher.sample) sample_message 45 (replicate 32 7)) sample_world =
      Some ((r, wire), w') /\ world_ok w' /\
    (r = -1 \/ recovers (M := SampleCipher.sample) (replicate 32 7) MSG_KEEPALIVE (be_split 8 123456) 45 r wire).
Proof.
  apply (transport_roundtrip sample_world _ sample_message (be_split 8 123456) MSG_KEEPALIVE 45);
    [exact sample_world_ok|exact sample_message_ok|exact sample_message_bytes|apply be_split_ok
    |words; unfold MSG_KEEPALIVE; lia|vm_compute; discriminate|reflexivity|vm_compute; discriminate].
Defined.

(** C8: what the receiver accepts was locked under its key: whatever arrives,
    decryption stays inside the buffer and either leaves it untouched and
    fails, or the datagram is byte for byte the encryption, under the
    receiver's key, of the type, sequence number and payload it delivers. *)
Theorem decrypt_only_authentic `{M : Monocypher} {ML : MonocypherLaws M}
    (key buf : bytes) (len : Z) (Hb : bytes_ok buf) (Hl : len <= zlen buf) :
  exists r buf', proto_decrypt buf len key = Some (r, buf') /\ decrypted key buf len r buf'.
Proof. now apply decrypt_exact. Qed.

Example decrypt_only_authentic_witness :
  exists r buf', proto_decrypt (M := SampleCipher.sample) sample_message 1653 (replicate 32 7) =
    Some (r, buf') /\ decrypted (M := SampleCipher.sample) (replicate 32 7) sample_message 1653 r buf'.
Proof.
  apply decrypt_only_authentic; [exact sample_message_bytes|vm_compute; discriminate].
Defined.
