(* ===== verification/Events.v ===== *)
(** Machine-readable events ([events.c]): JSON escaping, the textual form of
    IPv4 addresses, and the two event lines. *)
From stdpp Require Import base list numbers option.
From S2P Require Import Prelude Prog World.

(** * Text *)

(** Decimal digits of a non-negative number, most significant first; [fuel]
    bounds their count. *)
Fixpoint dec_fuel (fuel : nat) (z : Z) : bytes :=
  match fuel with
  | O => []
  | S f => if z <? 10 then [48 + z] else dec_fuel f (z / 10) ++ [48 + z mod 10]
  end.

(** [%u]/[%d] of a number below [10^20]. *)
Definition dec (z : Z) : bytes := dec_fuel 20 z.

(** [inet_ntop] into a buffer of [INET_ADDRSTRLEN] bytes: dotted decimal, first
    byte in memory first; [ip_to_str_buf] is the array it leaves. *)
Definition ip_to_str (ip_nbo : Z) : bytes :=
  match le_split 4 ip_nbo with
  | [a; b; c; d] => dec a ++ str "." ++ dec b ++ str "." ++ dec c ++ str "." ++ dec d
  | _ => str "<invalid>"
  end.

Definition ip_to_str_buf (ip_nbo : Z) : bytes := ip_to_str ip_nbo ++ [0].

Definition hex_digit (d : Z) : Z := if d <? 10 then 48 + d else 87 + d.

(** The [switch] of [event_json_string] on one character. *)
Definition json_char (p : Z) : bytes :=
  if p =? 92 then [92; 92]
  else if p =? 34 then [92; 34]
  else if p =? 8 then [92; 98]
  else if p =? 12 then [92; 102]
  else if p =? 10 then [92; 110]
  else if p =? 13 then [92; 114]
  else if p =? 9 then [92; 116]
  else if p <? 0x20 then [92; 117; 48; 48; hex_digit (p / 16); hex_digit (p mod 16)]
  else [p].

Definition event_json_string (value : bytes) : option bytes :=
  let? s := c_str value in
  Some ([34] ++ concat (map json_char s) ++ [34]).

(** The double quote, which a string literal here cannot contain. *)
Definition q (s : bytes) : bytes := [34] ++ s ++ [34].

Section ops.
Context {S : Type} `{HW : HasWorld S}.

Definition puts (text : bytes) : prog S unit :=
  on_world' (fun w => (tt, emit (EvStdout text) w)).

(** [app_event_peer_join]; the event lock makes the line one write. *)
Definition app_event_peer_join (name : bytes) (virt_ip : Z) (endpoint : sockaddr_in) :
    prog S unit :=
  let* on := read_world g_json_events_active in
  if negb on then Ret tt
  else
    let endpoint_text := ip_to_str (s_addr endpoint) ++ str ":" ++ dec (ntohs (sin_port endpoint)) in
    let* line := local (
      let? jname := event_json_string name in
      let? jvip := event_json_string (ip_to_str_buf virt_ip) in
      let? text := snprintf_s 24 (endpoint_text ++ [0]) in
      let? jep := event_json_string text in
      Some (str "{" ++ q (str "event") ++ str ":" ++ q (str "peer_join") ++ str ","
            ++ q (str "name") ++ str ":" ++ jname ++ str "," ++ q (str "virtual_ip") ++ str ":"
            ++ jvip ++ str "," ++ q (str "endpoint") ++ str ":" ++ jep ++ str "}" ++ [10])) in
    puts line.

Definition app_event_peer_leave (virt_ip : Z) (reason : bytes) : prog S unit :=
  let* on := read_world g_json_events_active in
  if negb on then Ret tt
  else
    let* line := local (
      let? jvip := event_json_string (ip_to_str_buf virt_ip) in
      let? jreason := event_json_string (reason ++ [0]) in
      Some (str "{" ++ q (str "event") ++ str ":" ++ q (str "peer_leave") ++ str ","
            ++ q (str "virtual_ip") ++ str ":" ++ jvip ++ str "," ++ q (str "reason") ++ str ":"
            ++ jreason ++ str "}" ++ [10])) in
    puts line.
End ops.

(** * Specification of JSON strings *)

Definition hex_value (c : Z) : option Z :=
  if (48 <=? c) && (c <=? 57) then Some (c - 48)
  else if (97 <=? c) && (c <=? 102) then Some (c - 87)
  else None.

(** A reader of the body of a JSON string (RFC 8259, for characters below 256):
    unescaped control characters and quotes end or reject it. *)
Fixpoint json_body (l : bytes) : option bytes :=
  match l with
  | [] => None
  | 34 :: [] => Some []
  | 92 :: 117 :: 48 :: 48 :: a :: b :: t =>
      let? x := hex_value a in
      let? y := hex_value b in
      let? r := json_body t in Some (16 * x + y :: r)
  | 92 :: c :: t =>
      let? r := json_body t in
      if (c =? 92) || (c =? 34) then Some (c :: r)
      else if c =? 98 then Some (8 :: r)
      else if c =? 102 then Some (12 :: r)
      else if c =? 110 then Some (10 :: r)
      else if c =? 114 then Some (13 :: r)
      else if c =? 116 then Some (9 :: r)
      else None
  | c :: t =>
      if (c =? 34) || (c =? 92) || (c <? 0x20) then None
      else let? r := json_body t in Some (c :: r)
  end.

Definition json_read (l : bytes) : option bytes :=
  match l with 34 :: t => json_body t | _ => None end.

(** * Proofs *)

Lemma json_body_plain c t :
  c <> 34 -> c <> 92 -> 0x20 <= c -> json_body (c :: t) = let? r := json_body t in Some (c :: r).
Proof.
  intros H1 H2 H3.
  assert (E : (c =? 34) || (c =? 92) || (c <? 0x20) = false).
  { destruct (Z.eqb_spec c 34), (Z.eqb_spec c 92), (Z.ltb_spec c 0x20); lia || done. }
  transitivity (if (c =? 34) || (c =? 92) || (c <? 0x20) then None
                else let? r := json_body t in Some (c :: r)); [|now rewrite E].
  destruct c as [|p|p]; [done| |done]. do 7 (destruct p as [p|p|]; try done).
Qed.

Lemma json_char_read p t r :
  0 < p < 256 -> json_body t = Some r -> json_body (json_char p ++ t) = Some (p :: r).
Proof.
  intros Hp Ht. unfold json_char.
  repeat (match goal with |- context [p =? ?k] =>
            destruct (Z.eqb_spec p k) as [->|]; [cbn; now rewrite Ht|] end).
  destruct (Z.ltb_spec p 0x20).
  - assert (Hc : p ∈ seqZ 1 31) by (apply elem_of_seqZ; lia).
    apply list_elem_of_In in Hc. cbn in Hc.
    repeat (destruct Hc as [<-|Hc]; [cbn; now rewrite Ht|]). done.
  - cbn [app]. now rewrite json_body_plain, Ht by lia.
Qed.

Lemma json_string_read s :
  Forall (fun b => 0 < b < 256) s -> json_body (concat (map json_char s) ++ [34]) = Some s.
Proof.
  induction 1 as [|p s Hp _ IH]; [done|]. cbn [map concat]. rewrite <- app_assoc.
  now apply json_char_read.
Qed.

Lemma c_str_range l s : bytes_ok l -> c_str l = Some s -> Forall (fun b => 0 < b < 256) s.
Proof.
  intros Hl Hs. pose proof (c_str_ok _ _ Hl Hs) as Hb. apply c_str_spec in Hs as [Hn _].
  apply Forall_forall. intros x Hx. unfold bytes_ok in Hb. rewrite Forall_forall in Hb, Hn.
  specialize (Hb x Hx). specialize (Hn x Hx). cbn in *. words. lia.
Qed.

Lemma event_json_total value s :
  c_str value = Some s -> exists j, event_json_string value = Some j.
Proof. intros H. unfold event_json_string. rewrite H. eauto. Qed.

Lemma terminated_app l : exists s, c_str (l ++ [0]) = Some s.
Proof. apply c_str_in_range, in_app_iff. right. now left. Qed.

Lemma snprintf_total n src s : c_str src = Some s -> exists r, snprintf_s n src = Some r.
Proof. intros H. unfold snprintf_s. rewrite H. eauto. Qed.

(** The digits of a number below [10^k]: at most [k] of them. *)
Lemma dec_fuel_length k : forall fuel z,
  0 <= z < 10 ^ Z.of_nat (S k) -> (length (dec_fuel fuel z) <= S k)%nat.
Proof.
  induction k as [|k IH]; intros [|fuel] z Hz; cbn [dec_fuel]; try (cbn; lia).
  - destruct (Z.ltb_spec z 10); [cbn; lia|]. cbn in Hz. lia.
  - destruct (Z.ltb_spec z 10); [cbn; lia|]. rewrite length_app.
    enough (length (dec_fuel fuel (z / 10)) <= S k)%nat by (cbn; lia). apply IH.
    rewrite Nat2Z.inj_succ, Z.pow_succ_r in Hz by lia.
    split; [apply Z.div_pos; lia|apply Z.div_lt_upper_bound; lia].
Qed.

Lemma dec_nonzero fuel : forall z, 0 <= z -> Forall (fun b => b <> 0) (dec_fuel fuel z).
Proof.
  induction fuel as [|fuel IH]; intros z Hz; cbn [dec_fuel]; [constructor|].
  pose proof (Z.mod_pos_bound z 10 ltac:(lia)).
  destruct (Z.ltb_spec z 10); [repeat constructor; lia|].
  apply Forall_app. split; [apply IH, Z.div_pos; lia|repeat constructor; lia].
Qed.

Lemma le_split4_dec ip :
  exists a b c d, le_split 4 ip = [a; b; c; d] /\ is_u8 a /\ is_u8 b /\ is_u8 c /\ is_u8 d.
Proof.
  pose proof (le_split_ok 4 ip) as H. cbn [le_split] in *.
  repeat (apply bytes_ok_cons in H as [? H]). eauto 10.
Qed.

(** Dotted addresses fit [INET_ADDRSTRLEN] and hold no terminator. *)
Lemma ip_to_str_spec ip :
  (length (ip_to_str ip) <= 15)%nat /\ Forall (fun b => b <> 0) (ip_to_str ip).
Proof.
  unfold ip_to_str. destruct (le_split4_dec ip) as (a & b & c & d & -> & Ha & Hb & Hc & Hd).
  assert (H3 : forall x, is_u8 x -> (length (dec x) <= 3)%nat).
  { intros x Hx. apply dec_fuel_length. words. cbn. lia. }
  assert (Hz : forall x, is_u8 x -> Forall (fun b => b <> 0) (dec x)).
  { intros x Hx. apply dec_nonzero. words. lia. }
  split.
  - rewrite !length_app. pose proof (H3 a Ha). pose proof (H3 b Hb). pose proof (H3 c Hc).
    pose proof (H3 d Hd). cbn [str map String.list_ascii_of_string length]. lia.
  - rewrite !Forall_app. repeat split; auto; repeat constructor; cbn; lia.
Qed.

(** [endpoint_text] is large enough: nothing is cut. *)
Lemma endpoint_fits addr :
  let text := ip_to_str (s_addr addr) ++ str ":" ++ dec (ntohs (sin_port addr)) in
  snprintf_s 24 (text ++ [0]) = Some (text ++ [0]) /\ Forall (fun b => b <> 0) text.
Proof.
  intros text. destruct (ip_to_str_spec (s_addr addr)) as [Hl Hz].
  assert (Hp : 0 <= ntohs (sin_port addr) < 10 ^ Z.of_nat 5).
  { pose proof (le_combine_bound _ (be_split_ok 2 (sin_port addr))) as H.
    rewrite length_be_split in H. unfold ntohs, htons. cbn in *. lia. }
  pose proof (dec_fuel_length 4 20 _ Hp) as H5. fold (dec (ntohs (sin_port addr))) in H5.
  assert (Hn : Forall (fun b => b <> 0) text).
  { unfold text. rewrite !Forall_app. split; [done|].
    split; [repeat constructor; cbn; lia|apply dec_nonzero; lia]. }
  split; [|done]. unfold snprintf_s. rewrite c_str_app by done.
  rewrite take_ge; [done|]. unfold text. rewrite !length_app.
  cbn [str map String.list_ascii_of_string length]. lia.
Qed.

Lemma ip_terminated ip : exists s, c_str (ip_to_str_buf ip) = Some s.
Proof. apply terminated_app. Qed.

#[export] Hint Resolve ip_terminated terminated_app : tund.

Section safe.
Context {S : Type} `{HW : HasWorld S} (J : S -> Prop) {F : Framed J}.

Lemma safe_puts text : safe J (puts text) (fun _ => True).
Proof. apply safe_on_world'; [done|]. intros w Hw. cbn. split; [quiet|split; [quiet|done]]. Qed.

Lemma safe_event_join name s vip endpoint :
  c_str name = Some s -> safe J (app_event_peer_join name vip endpoint) (fun _ => True).
Proof.
  intros Hn. unfold app_event_peer_join.
  eapply safe_bind; [now apply (safe_read_world _ _ (fun _ => True))|]. intros [] _; [|now apply safe_ret].
  cbn [negb]. unfold ip_to_str_buf. destruct (event_json_total _ _ Hn) as [j1 ->].
  destruct (terminated_app (ip_to_str vip)) as [s2 H2]. destruct (event_json_total _ _ H2) as [j2 ->].
  destruct (endpoint_fits endpoint) as [-> Hz].
  destruct (terminated_app (ip_to_str (s_addr endpoint) ++ str ":" ++ dec (ntohs (sin_port endpoint))))
    as [s3 H3]. destruct (event_json_total _ _ H3) as [j3 ->].
  eapply safe_then; [reflexivity|]. apply safe_puts.
Qed.

Lemma safe_event_leave vip reason : safe J (app_event_peer_leave vip reason) (fun _ => True).
Proof.
  unfold app_event_peer_leave.
  eapply safe_bind; [now apply (safe_read_world _ _ (fun _ => True))|]. intros [] _; [|now apply safe_ret].
  cbn [negb]. unfold ip_to_str_buf. destruct (terminated_app (ip_to_str vip)) as [s2 H2].
  destruct (event_json_total _ _ H2) as [j2 ->].
  destruct (terminated_app reason) as [s3 H3]. destruct (event_json_total _ _ H3) as [j3 ->].
  eapply safe_then; [reflexivity|]. apply safe_puts.
Qed.
End safe.

(** * Properties *)

(** C38: every name a peer can have is emitted as a JSON string that a JSON
    reader decodes to exactly that name. *)
Theorem json_string_roundtrip (name s : bytes) (Hb : bytes_ok name) (Hs : c_str name = Some s) :
  exists j, event_json_string name = Some j /\ json_read j = Some s.
Proof.
  unfold event_json_string. rewrite Hs. eexists. split; [reflexivity|].
  apply json_string_read. now apply (c_str_range name).
Qed.

Example json_string_roundtrip_witness :
  exists j, event_json_string [34; 10; 65; 1; 92; 0; 7] = Some j /\ json_read j = Some [34; 10; 65; 1; 92].
Proof. apply json_string_roundtrip; [repeat constructor; words; lia|reflexivity]. Defined.
