(* ===== verification/Cli.v ===== *)
(** The command line ([cli.c]).  [getopt_long] is outside of the sources: its
    results, the pairs of option and argument it returns before [-1], are an
    argument, as are the files, the standard input and the host name.  The
    texts printed on [stderr] are left out. *)
From stdpp Require Import base list numbers option.
From S2P Require Import Prelude Prog World Consts Sequence Wire Events.

(** * Configuration *)

Inductive tund_mode_t : Type := MODE_SERVER | MODE_CLIENT.

Record config_t : Type := Config {
  cfg_mode : tund_mode_t;
  cfg_port : Z;
  cfg_server_ip : bytes;       (** 64 bytes *)
  cfg_client_name : bytes;     (** [TUND_NAME_LEN] bytes *)
  cfg_access_key : bytes;      (** 128 bytes *)
  cfg_log_level : Z;
  cfg_key_from_stdin : bool;
  cfg_json_events : bool;
  cfg_tui_mode : bool
}.

Definition KEY_ROOM : Z := 128.

Definition set_cfg_mode (m : tund_mode_t) (c : config_t) : config_t :=
  Config m (cfg_port c) (cfg_server_ip c) (cfg_client_name c) (cfg_access_key c) (cfg_log_level c)
         (cfg_key_from_stdin c) (cfg_json_events c) (cfg_tui_mode c).
Definition set_cfg_port (p : Z) (c : config_t) : config_t :=
  Config (cfg_mode c) p (cfg_server_ip c) (cfg_client_name c) (cfg_access_key c) (cfg_log_level c)
         (cfg_key_from_stdin c) (cfg_json_events c) (cfg_tui_mode c).
Definition set_cfg_server_ip (l : bytes) (c : config_t) : config_t :=
  Config (cfg_mode c) (cfg_port c) l (cfg_client_name c) (cfg_access_key c) (cfg_log_level c)
         (cfg_key_from_stdin c) (cfg_json_events c) (cfg_tui_mode c).
Definition set_cfg_client_name (l : bytes) (c : config_t) : config_t :=
  Config (cfg_mode c) (cfg_port c) (cfg_server_ip c) l (cfg_access_key c) (cfg_log_level c)
         (cfg_key_from_stdin c) (cfg_json_events c) (cfg_tui_mode c).
Definition set_cfg_access_key (l : bytes) (c : config_t) : config_t :=
  Config (cfg_mode c) (cfg_port c) (cfg_server_ip c) (cfg_client_name c) l (cfg_log_level c)
         (cfg_key_from_stdin c) (cfg_json_events c) (cfg_tui_mode c).
Definition set_cfg_log_level (n : Z) (c : config_t) : config_t :=
  Config (cfg_mode c) (cfg_port c) (cfg_server_ip c) (cfg_client_name c) (cfg_access_key c) n
         (cfg_key_from_stdin c) (cfg_json_events c) (cfg_tui_mode c).
Definition set_cfg_flags (from_stdin json tui : bool) (c : config_t) : config_t :=
  Config (cfg_mode c) (cfg_port c) (cfg_server_ip c) (cfg_client_name c) (cfg_access_key c)
         (cfg_log_level c) from_stdin json tui.

Inductive cli_result_t : Type := CLI_OK | CLI_EXIT_OK | CLI_EXIT_ERROR.
Inductive key_source_t : Type := KEY_SOURCE_NONE | KEY_SOURCE_ARG | KEY_SOURCE_FILE | KEY_SOURCE_STDIN.

(** * The standard library *)

Definition is_space (b : Z) : bool := (b =? 32) || ((9 <=? b) && (b <=? 13)).
Definition is_digit (b : Z) : bool := (48 <=? b) && (b <=? 57).

(** The longest prefix of bytes that satisfy [f], and the rest. *)
Fixpoint span (f : Z -> bool) (l : bytes) : bytes * bytes :=
  match l with
  | [] => ([], [])
  | b :: t => if f b then let '(p, r) := span f t in (b :: p, r) else ([], l)
  end.

Definition decimal (ds : bytes) : Z := fold_left (fun acc d => 10 * acc + (d - 48)) ds 0.

Definition LONG_MAX : Z := 2 ^ 63 - 1.
Definition LONG_MIN : Z := - 2 ^ 63.

(** [strtol(s, &end, 10)]: the value, and the rest of the string at [end];
    [None] for the rest when no number was found and [end == s]. *)
Definition strtol (s : bytes) : Z * option bytes :=
  let '(_, t) := span is_space s in
  let '(neg, t) := match t with
                   | b :: t' => if b =? 45 then (true, t') else if b =? 43 then (false, t') else (false, t)
                   | [] => (false, t)
                   end in
  let '(ds, rest) := span is_digit t in
  match ds with
  | [] => (0, None)
  | _ =>
      let v := if (neg : bool) then - decimal ds else decimal ds in
      (Z.max LONG_MIN (Z.min LONG_MAX v), Some rest)
  end.

(** An input stream: what is left to read, whether its end was met, and the
    local modes ([c_lflag]) of the terminal behind it, if it has one. *)
Record stream : Type := Stream { st_data : bytes; st_eof : bool; st_lflag : Z }.

Fixpoint fgets_loop (n : nat) (l : bytes) : bytes * bytes * bool :=
  match n, l with
  | O, _ => ([], l, false)
  | S _, [] => ([], [], true)
  | S n, b :: t =>
      if b =? 10 then ([b], t, false)
      else let '(line, rest, eof) := fgets_loop n t in (b :: line, rest, eof)
  end.

(** [fgets] into an array of [size] bytes: what it stored, or [NULL]. *)
Definition fgets (size : nat) (st : stream) : option bytes * stream :=
  let '(line, rest, eof) := fgets_loop (size - 1) (st_data st) in
  match line with
  | [] => (None, Stream rest true (st_lflag st))
  | _ => (Some (line ++ [0]), Stream rest (st_eof st || eof) (st_lflag st))
  end.

(** * Parsing *)

Definition parse_mode (mode : bytes) (cfg : config_t) : option (cli_result_t * config_t) :=
  let? m := c_str mode in
  Some (if bool_decide (m = str "server") then (CLI_OK, set_cfg_mode MODE_SERVER cfg)
        else if bool_decide (m = str "client") then (CLI_OK, set_cfg_mode MODE_CLIENT cfg)
        else if bool_decide (m = str "-h") || bool_decide (m = str "--help") then (CLI_EXIT_OK, cfg)
        else (CLI_EXIT_ERROR, cfg)).

Definition parse_port (value : bytes) (cfg : config_t) : option (cli_result_t * config_t) :=
  let? s := c_str value in
  let '(port, rest) := strtol s in
  Some (match rest with
        | Some [] =>
            if (port <? 1) || (65535 <? port) then (CLI_EXIT_ERROR, cfg)
            else (CLI_OK, set_cfg_port (u16 port) cfg)
        | _ => (CLI_EXIT_ERROR, cfg)
        end).

Definition store_access_key (cfg : config_t) (key : bytes) : option (cli_result_t * config_t) :=
  let? s := c_str key in
  if KEY_ROOM <=? zlen s then Some (CLI_EXIT_ERROR, cfg)
  else
    let? src := mem_read key 0 (zlen s + 1) in
    let? l := mem_write (cfg_access_key cfg) 0 src in
    Some (CLI_OK, set_cfg_access_key l cfg).

Definition not_line_end (b : Z) : bool := negb ((b =? 13) || (b =? 10)).

Definition trim_line_end (value : bytes) : option bytes :=
  let? s := c_str value in
  mem_write value (zlen (span not_line_end s).1) [0].

Definition read_key_line (cfg : config_t) (st : stream) : option (cli_result_t * config_t * stream) :=
  let '(r, st) := fgets (Z.to_nat (KEY_ROOM + 2)) st in
  match r with
  | None => Some (CLI_EXIT_ERROR, cfg, st)
  | Some key =>
      let? s := c_str key in
      if negb (bool_decide (10 ∈ s)) && negb (st_eof st) then Some (CLI_EXIT_ERROR, cfg, st)
      else
        let? key := trim_line_end key in
        let? '(result, cfg) := store_access_key cfg key in
        Some (result, cfg, st)
  end.

(** What the process finds outside: the contents of files that can be opened,
    the result of [gethostname] with what it stored, whether the standard input
    is a terminal, and the results of [tcgetattr] and [tcsetattr] on it. *)
Record outside : Type := Outside {
  out_files : bytes -> option bytes;
  out_hostname : Z * bytes;
  out_stdin_tty : bool;
  out_tcgetattr : Z;
  out_tcsetattr : Z -> Z       (** by the local modes it is given *)
}.

(** [termios.h] of Linux. *)
Definition ECHO : Z := 8.

Definition set_lflag (n : Z) (st : stream) : stream := Stream (st_data st) (st_eof st) n.

Section parse.
Variable o : outside.

(** [tcsetattr] with these local modes: whether it succeeded. *)
Definition tcsetattr (lflag : Z) (st : stream) : bool * stream :=
  if out_tcsetattr o lflag =? 0 then (true, set_lflag lflag st) else (false, st).

(** The echo is off while the key is read. *)
Definition read_key_from_terminal (cfg : config_t) (st : stream) : option (cli_result_t * config_t * stream) :=
  let oldt := st_lflag st in
  let '(hidden, st) :=
    if out_tcgetattr o =? 0 then tcsetattr (Z.ldiff oldt ECHO) st else (false, st) in
  let? '(result, cfg, st) := read_key_line cfg st in
  let '(_, st) := if (hidden : bool) then tcsetattr oldt st else (false, st) in
  Some (result, cfg, st).

Definition read_key_from_stream (is_stdin : bool) (cfg : config_t) (st : stream) :
    option (cli_result_t * config_t * stream) :=
  if is_stdin && out_stdin_tty o then read_key_from_terminal cfg st else read_key_line cfg st.

Definition read_key_from_file (cfg : config_t) (path : bytes) : option (cli_result_t * config_t) :=
  let? p := c_str path in
  match out_files o p with
  | None => Some (CLI_EXIT_ERROR, cfg)
  | Some contents =>
      let? '(result, cfg, _) := read_key_from_stream false cfg (Stream contents false 0) in
      Some (result, cfg)
  end.

(** [gethostname] into the name, or the fallback. *)
Definition default_name (cfg : config_t) : option config_t :=
  let '(code, stored) := out_hostname o in
  let? l := mem_write (cfg_client_name cfg) 0 stored in
  let? l := if negb (code =? 0) then
              let? src := strncpy (str "tund-client" ++ [0]) (Z.to_nat (TUND_NAME_LEN - 1)) in
              mem_write l 0 src
            else Some l in
  Some (set_cfg_client_name l cfg).

Definition validate_config (cfg : config_t) : option (cli_result_t * config_t) :=
  let client := match cfg_mode cfg with MODE_CLIENT => true | MODE_SERVER => false end in
  let? ip0 := buf_get (cfg_server_ip cfg) 0 in
  if client && (ip0 =? 0) then Some (CLI_EXIT_ERROR, cfg)
  else
    let? name0 := buf_get (cfg_client_name cfg) 0 in
    let? cfg := if client && (name0 =? 0) then default_name cfg else Some cfg in
    let? key := c_str (cfg_access_key cfg) in
    if zlen key <? 12 then Some (CLI_EXIT_ERROR, cfg) else Some (CLI_OK, cfg).

(** The loop variables: the configuration, the key source and the input. *)
Inductive cli_step : Type :=
| CliNext (cfg : config_t) (src : key_source_t) (st : stream)
| CliReturn (r : cli_result_t) (cfg : config_t).

(** An option that reads the key: refused when a key was read before. *)
Definition key_option (src src' : key_source_t) (cfg : config_t)
    (read : option (cli_result_t * config_t * stream)) : option cli_step :=
  match src with
  | KEY_SOURCE_NONE =>
      let? '(r, cfg, st) := read in
      Some (match r with CLI_OK => CliNext cfg src' st | _ => CliReturn r cfg end)
  | _ => Some (CliReturn CLI_EXIT_ERROR cfg)
  end.

(** The [switch] on one option and its argument. *)
Definition cli_option (opt : Z) (optarg : bytes) (cfg : config_t) (src : key_source_t) (st : stream) :
    option cli_step :=
  if opt =? 115 (* s *) then
    let? l := strncpy optarg (Z.to_nat 63) in
    let? l := mem_write (cfg_server_ip cfg) 0 l in
    Some (CliNext (set_cfg_server_ip l cfg) src st)
  else if opt =? 112 (* p *) then
    let? '(r, cfg) := parse_port optarg cfg in
    Some (match r with CLI_OK => CliNext cfg src st | _ => CliReturn r cfg end)
  else if opt =? 110 (* n *) then
    let? l := strncpy optarg (Z.to_nat (TUND_NAME_LEN - 1)) in
    let? l := mem_write (cfg_client_name cfg) 0 l in
    Some (CliNext (set_cfg_client_name l cfg) src st)
  else if opt =? 107 (* k *) then
    key_option src KEY_SOURCE_ARG cfg
      (let? '(r, cfg) := store_access_key cfg optarg in Some (r, cfg, st))
  else if opt =? 1000 then
    key_option src KEY_SOURCE_FILE cfg
      (let? '(r, cfg) := read_key_from_file cfg optarg in Some (r, cfg, st))
  else if opt =? 1001 then
    key_option src KEY_SOURCE_STDIN cfg
      (read_key_from_stream true (set_cfg_flags true (cfg_json_events cfg) (cfg_tui_mode cfg) cfg) st)
  else if opt =? 1002 then
    Some (CliNext (set_cfg_flags (cfg_key_from_stdin cfg) true (cfg_tui_mode cfg) cfg) src st)
  else if opt =? 116 (* t *) then
    Some (CliNext (set_cfg_flags (cfg_key_from_stdin cfg) (cfg_json_events cfg) false cfg) src st)
  else if opt =? 118 (* v *) then
    Some (CliNext (set_cfg_log_level LOG_LEVEL_DEBUG cfg) src st)
  else if opt =? 104 (* h *) then Some (CliReturn CLI_EXIT_OK cfg)
  else Some (CliReturn CLI_EXIT_ERROR cfg).

Fixpoint cli_loop (opts : list (Z * bytes)) (cfg : config_t) (src : key_source_t) (st : stream) :
    option (cli_result_t * config_t) :=
  match opts with
  | [] => validate_config cfg
  | (opt, optarg) :: opts =>
      let? r := cli_option opt optarg cfg src st in
      match r with
      | CliNext cfg src st => cli_loop opts cfg src st
      | CliReturn r cfg => Some (r, cfg)
      end
  end.

(** As left by [memset] and the three assignments. *)
Definition initial_config : config_t :=
  Config MODE_SERVER TUND_PORT (replicate 64 0) (replicate 32 0) (replicate 128 0) LOG_LEVEL_INFO
         false false true.

(** [mode] is [argv[1]], if there is one. *)
Definition cli_parse (mode : option bytes) (opts : list (Z * bytes)) (st : stream) :
    option (cli_result_t * config_t) :=
  match mode with
  | None => Some (CLI_EXIT_ERROR, initial_config)
  | Some mode =>
      let? '(r, cfg) := parse_mode mode initial_config in
      match r with
      | CLI_OK => cli_loop opts cfg KEY_SOURCE_NONE st
      | _ => Some (r, cfg)
      end
  end.
End parse.

(** * Examples: the repository's tests *)

Definition no_outside : outside := Outside (fun _ => None) (0, str "box" ++ [0]) false (-1) (fun _ => -1).
Definition arg (s : String.string) : bytes := str s ++ [0].
Arguments arg s%_string_scope.

Example server_arguments :
  option_map (fun '(r, c) => (r, cfg_mode c, cfg_port c, c_str (cfg_access_key c), cfg_tui_mode c,
                              cfg_log_level c, cfg_json_events c))
    (cli_parse no_outside (Some (arg "server"))
       [(112, arg "12345"); (107, arg "a-long-random-key"); (116, []); (118, []); (1002, [])] (Stream [] false 0)) =
  Some (CLI_OK, MODE_SERVER, 12345, Some (str "a-long-random-key"), false, LOG_LEVEL_DEBUG, true).
Proof. reflexivity. Qed.

Example key_file_trims_line_end :
  option_map (fun '(r, c) => (r, c_str (cfg_access_key c)))
    (cli_parse (Outside (fun _ => Some (str "file-random-key" ++ [10])) (0, []) false (-1) (fun _ => -1))
       (Some (arg "server")) [(1000, arg "key.txt")] (Stream [] false 0)) =
  Some (CLI_OK, Some (str "file-random-key")).
Proof. reflexivity. Qed.

Example rejections :
  map (fun opts => option_map fst (cli_parse no_outside (Some (arg "server")) opts (Stream [] false 0)))
    [ [(112, arg "0"); (107, arg "a-long-random-key")];
      [(107, arg "a-long-random-key"); (1000, arg "dist/does-not-need-to-exist")];
      [(107, replicate 128 65 ++ [0])]; [(107, arg "short")] ] =
  replicate 4 (Some CLI_EXIT_ERROR).
Proof. reflexivity. Qed.

(** * Arrays that always hold a string *)

Record array_ok (n : nat) (l : bytes) : Prop := {
  array_len : length l = n;
  array_end : list.last l = Some 0;
  array_bytes : bytes_ok l
}.

Lemma array_terminated n l : array_ok n l -> exists s, c_str l = Some s.
Proof.
  intros [_ He _]. apply c_str_in_range. apply last_Some in He as [l' ->]. apply in_app_iff. right. now left.
Qed.

Lemma array_zeros n : array_ok (S n) (replicate (S n) 0).
Proof.
  split; [apply length_replicate| |apply Forall_replicate; words; lia].
  rewrite replicate_S_end. apply last_snoc.
Qed.

(** A copy that leaves the last byte alone, or ends in a terminator. *)
Lemma array_write n l src :
  array_ok n l -> bytes_ok src -> (length src < n)%nat \/ (length src = n /\ list.last src = Some 0) ->
  exists l', mem_write l 0 src = Some l' /\ array_ok n l' /\ take (length src) l' = src.
Proof.
  intros [Hl He Hb] Hs Hn. destruct (split_at (length src) l) as (a & z & -> & Ha); [lia|].
  exists (src ++ z). rewrite (mem_write_at [] a z) by done. split; [done|].
  split; [|apply take_app_length]. rewrite length_app in Hl. apply bytes_ok_app in Hb as [_ Hz]. split.
  - rewrite length_app. lia.
  - destruct z as [|b z].
    + rewrite app_nil_r. destruct Hn as [Hn|[_ Hn]]; [cbn in Hl; lia|done].
    + rewrite last_app_cons. now rewrite last_app_cons in He.
  - now rewrite bytes_ok_app.
Qed.

Lemma array_string l s :
  take (length s + 1) l = s ++ [0] -> Forall (fun b => b <> 0) s -> c_str l = Some s.
Proof.
  intros Ht Hs. rewrite <- (take_drop (length s + 1) l), Ht, <- app_assoc. now apply c_str_app.
Qed.

(** [strncpy] of one byte less than the array. *)
Lemma array_strncpy n l a s :
  array_ok (S n) l -> c_str a = Some s -> bytes_ok a ->
  exists src l', strncpy a n = Some src /\ mem_write l 0 src = Some l' /\ array_ok (S n) l'.
Proof.
  intros Hl Hs Ha. exists (pad_to n s). rewrite (strncpy_str _ _ _ Hs).
  destruct (array_write (S n) l (pad_to n s) Hl) as (l' & Hw & Hok & _); eauto.
  - eapply strncpy_ok; [exact Ha|]. now apply strncpy_str.
  - left. rewrite length_pad_to. lia.
Qed.

(** * Reading numbers *)

Lemma span_all f l r : Forall (fun b => f b = true) l -> (forall b t, r = b :: t -> f b = false) ->
  span f (l ++ r) = (l, r).
Proof.
  intros Hl Hr. induction Hl as [|b l Hb _ IH]; cbn [app span].
  - destruct r as [|b t]; [done|]. cbn. now rewrite (Hr b t eq_refl).
  - now rewrite Hb, IH.
Qed.

Lemma span_app f l : l = (span f l).1 ++ (span f l).2.
Proof.
  induction l as [|b l IH]; [done|]. cbn [span]. destruct (f b); [|done].
  destruct (span f l) as [p r]. cbn in *. now rewrite IH at 1.
Qed.

Lemma dec_digits fuel : forall z, 0 <= z -> Forall (fun b => is_digit b = true) (dec_fuel fuel z).
Proof.
  induction fuel as [|fuel IH]; intros z Hz; cbn [dec_fuel]; [constructor|].
  assert (Hd : forall x, 0 <= x < 10 -> is_digit (48 + x) = true) by (intros; unfold is_digit; tests; done || lia).
  destruct (Z.ltb_spec z 10); [repeat constructor; apply Hd; lia|].
  apply Forall_app. split; [apply IH; apply Z.div_pos; lia|]. repeat constructor. apply Hd, Z.mod_pos_bound. lia.
Qed.

Lemma decimal_dec fuel : forall z, 0 <= z < 10 ^ Z.of_nat fuel -> decimal (dec_fuel fuel z) = z.
Proof.
  induction fuel as [|fuel IH]; intros z Hz; cbn [dec_fuel]; [cbn in *; lia|].
  destruct (Z.ltb_spec z 10); [unfold decimal; cbn; lia|].
  unfold decimal in *. rewrite fold_left_app, IH; [cbn; pose proof (Z.div_mod z 10); lia|].
  rewrite Nat2Z.inj_succ, Z.pow_succ_r in Hz by lia.
  split; [apply Z.div_pos; lia|apply Z.div_lt_upper_bound; lia].
Qed.

Lemma dec_nonempty fuel z : dec_fuel (S fuel) z <> [].
Proof. cbn [dec_fuel]. destruct (_ <? _); [done|]. now destruct (dec_fuel fuel (z / 10)). Qed.

(** A decimal number as [strtol] reads it: spaces, a plus sign, digits. *)
Definition denotes (s : bytes) (p : Z) : Prop :=
  exists sp sign ds, s = sp ++ sign ++ ds /\ Forall (fun b => is_space b = true) sp /\
    (sign = [] \/ sign = [43]) /\ ds <> [] /\ Forall (fun b => is_digit b = true) ds /\ decimal ds = p.

Lemma denotes_dec p : 0 <= p < 10 ^ 20 -> denotes (dec p) p.
Proof.
  intros Hp. exists [], [], (dec p). split; [done|]. split; [constructor|]. split; [now left|].
  split; [apply dec_nonempty|]. split; [apply dec_digits; lia|now apply decimal_dec].
Qed.

Lemma decimal_nonneg ds : Forall (fun b => is_digit b = true) ds -> 0 <= decimal ds.
Proof.
  intros Hd. unfold decimal. assert (H : forall a, 0 <= a -> 0 <= fold_left (fun acc d => 10 * acc + (d - 48)) ds a);
    [|apply H; lia].
  induction Hd as [|d ds Hd _ IH]; intros a Ha; cbn [fold_left]; [done|]. apply IH.
  unfold is_digit in Hd. bools. lia.
Qed.

Lemma span_fst f l : Forall (fun b => f b = true) (span f l).1.
Proof.
  induction l as [|b l IH]; [constructor|]. cbn [span]. destruct (f b) eqn:E; [|constructor].
  destruct (span f l). cbn in *. now constructor.
Qed.

Lemma digit_plain b : is_digit b = true -> is_space b = false /\ (b =? 45) = false /\ (b =? 43) = false.
Proof. unfold is_digit, is_space. intros H. bools. repeat split; tests; done || lia. Qed.

Lemma strtol_denotes s p : denotes s p -> p <= LONG_MAX -> strtol s = (p, Some []).
Proof.
  intros (sp & sign & ds & -> & Hsp & Hsign & Hne & Hds & <-) Hp. unfold strtol.
  pose proof (decimal_nonneg ds Hds) as H0. destruct ds as [|d ds]; [done|].
  pose proof (digit_plain d (Forall_inv Hds)) as (Hs1 & Hs2 & Hs3).
  rewrite (span_all is_space sp); [|done|].
  2:{ intros b t. destruct Hsign as [->| ->]; intros [= <- _]; done. }
  assert (Hspan : span is_digit (d :: ds) = (d :: ds, [])).
  { rewrite <- (app_nil_r (d :: ds)) at 1. now apply span_all. }
  assert (Hclamp : Z.max LONG_MIN (Z.min LONG_MAX (decimal (d :: ds))) = decimal (d :: ds)).
  { unfold LONG_MIN, LONG_MAX in *. lia. }
  destruct Hsign as [->| ->]; cbn [app].
  - rewrite Hs2, Hs3, Hspan. now rewrite Hclamp.
  - change (43 =? 45) with false. change (43 =? 43) with true. cbn iota. rewrite Hspan. now rewrite Hclamp.
Qed.

(** What is accepted as a port does denote it. *)
Lemma strtol_accepts s p : strtol s = (p, Some []) -> 1 <= p <= 65535 -> denotes s p.
Proof.
  unfold strtol. intros H Hp. pose proof (span_app is_space s) as Hs. pose proof (span_fst is_space s) as Hsp.
  destruct (span is_space s) as [sp t]. cbn [fst snd] in *.
  set (split_sign := match t with [] => _ | _ :: _ => _ end) in H.
  assert (Hsign : exists sign, t = sign ++ split_sign.2 /\
    (split_sign.1 = true \/ split_sign.1 = false /\ (sign = [] \/ sign = [43]))).
  { unfold split_sign. destruct t as [|b t]; [exists []; auto|].
    destruct (Z.eqb_spec b 45); [exists [b]; auto|]. destruct (Z.eqb_spec b 43); [subst; exists [43]; auto|].
    exists []. auto. }
  destruct split_sign as [neg t'], Hsign as (sign & -> & Hneg). cbn [fst snd] in *.
  pose proof (span_app is_digit t') as Ht. pose proof (span_fst is_digit t') as Hds.
  destruct (span is_digit t') as [ds rest]. cbn [fst snd] in *. pose proof (decimal_nonneg ds Hds) as H0.
  destruct ds as [|d ds]; [done|]. injection H as Hv ->. rewrite app_nil_r in Ht. subst t'.
  exists sp, sign, (d :: ds). unfold LONG_MIN, LONG_MAX in Hv.
  destruct Hneg as [->|[-> Hneg]]; [exfalso; lia|]. repeat split; auto; lia.
Qed.

(** [-p] is accepted exactly when its argument is a decimal number from 1
    to 65535 (spaces and a plus sign before it, nothing after it); the port is
    that number, and otherwise the configuration is unchanged. *)
Theorem parse_port_exact (value s : bytes) (cfg : config_t) (Hs : c_str value = Some s) :
  (exists p, 1 <= p <= 65535 /\ denotes s p /\ parse_port value cfg = Some (CLI_OK, set_cfg_port p cfg)) \/
  ((forall p, 1 <= p <= 65535 -> ~ denotes s p) /\ parse_port value cfg = Some (CLI_EXIT_ERROR, cfg)).
Proof.
  unfold parse_port. rewrite Hs. destruct (strtol s) as [p rest] eqn:E.
  assert (Hno : rest <> Some [] \/ ~ 1 <= p <= 65535 -> forall p, 1 <= p <= 65535 -> ~ denotes s p).
  { intros Hbad p' Hp' Hd. apply strtol_denotes in Hd; [|unfold LONG_MAX; lia]. rewrite E in Hd.
    injection Hd as -> ->. destruct Hbad; [done|lia]. }
  destruct rest as [[|b t]|]; [|right; split; [apply Hno; now left|done]..].
  destruct ((p <? 1) || (65535 <? p)) eqn:Hr.
  - right. split; [|done]. apply Hno. right. bools. destruct Hr; bools; lia.
  - left. bools. exists p. split; [lia|]. split; [apply strtol_accepts; [done|lia]|].
    do 2 f_equal. unfold u16. rewrite Z.mod_small by lia. done.
Qed.

Example parse_port_exact_witness :
  (exists p, 1 <= p <= 65535 /\ denotes (dec 12345) p /\
     parse_port (dec 12345 ++ [0]) initial_config = Some (CLI_OK, set_cfg_port p initial_config)) \/
  ((forall p, 1 <= p <= 65535 -> ~ denotes (dec 12345) p) /\
     parse_port (dec 12345 ++ [0]) initial_config = Some (CLI_EXIT_ERROR, initial_config)).
Proof. apply (parse_port_exact (dec 12345 ++ [0])). reflexivity. Defined.

(** * Keys *)

(** The part of an input before the end of its first line. *)
Definition first_line (data : bytes) : bytes := (span (fun b => negb (b =? 0) && not_line_end b) data).1.

(** A key was stored, or the configuration is as before. *)
Definition stored (cfg cfg' : config_t) (r : cli_result_t) (s : bytes) : Prop :=
  (r = CLI_EXIT_ERROR /\ cfg' = cfg) \/
  (r = CLI_OK /\ zlen s < KEY_ROOM /\ exists l, cfg' = set_cfg_access_key l cfg /\ array_ok 128 l /\ c_str l = Some s).

Lemma store_key_spec cfg key s :
  array_ok 128 (cfg_access_key cfg) -> bytes_ok key -> c_str key = Some s ->
  exists r cfg', store_access_key cfg key = Some (r, cfg') /\ stored cfg cfg' r s.
Proof.
  intros Ha Hb Hs. unfold store_access_key. rewrite Hs. pose proof (zlen_nonneg s).
  destruct (Z.leb_spec KEY_ROOM (zlen s)); [eexists _, _; split; [done|by left]|].
  apply c_str_spec in Hs as [Hn [t ->]]. rewrite mem_read_some by (rewrite ?zlen_app, ?zlen_cons; pose proof (zlen_nonneg t); lia).
  rewrite drop_0. replace (take (Z.to_nat (zlen s + 1)) (s ++ 0 :: t)) with (s ++ [0]).
  2:{ replace (s ++ 0 :: t) with ((s ++ [0]) ++ t) by now rewrite <- app_assoc.
      rewrite take_app_length'; [done|rewrite length_app; unfold zlen; cbn [length]; lia]. }
  destruct (array_write 128 (cfg_access_key cfg) (s ++ [0]) Ha) as (l & -> & Hl & Ht).
  { apply bytes_ok_app in Hb as [Hb _]. apply bytes_ok_app. split; [done|repeat constructor; words; lia]. }
  { rewrite length_app, last_snoc. unfold KEY_ROOM, zlen in *. cbn [length].
    destruct (Nat.eq_dec (length s) 127%nat); [right; split; [lia|done]|left; lia]. }
  eexists _, _. split; [done|]. right. split; [done|]. split; [done|]. exists l. split; [done|]. split; [done|].
  apply array_string; [|done]. now rewrite length_app in Ht.
Qed.

Lemma fgets_loop_spec n : forall l line rest eof, fgets_loop n l = (line, rest, eof) ->
  l = line ++ rest /\ (length line <= n)%nat /\ (eof = true -> rest = []) /\
  (n <> O -> l <> [] -> line <> []).
Proof.
  induction n as [|n IH]; intros l line rest eof; cbn [fgets_loop].
  - intros [= <- <- <-]. cbn. repeat split; try done; lia.
  - destruct l as [|b t]; [intros [= <- <- <-]; cbn; repeat split; done || lia|].
    destruct (b =? 10); [intros [= <- <- <-]; cbn; repeat split; done || lia|].
    destruct (fgets_loop n t) as [[line' rest'] eof'] eqn:E. intros [= <- <- <-].
    destruct (IH _ _ _ _ E) as (-> & Hl & He & _). cbn. repeat split; auto; lia.
Qed.

(** Trimming the C string of an array. *)
Lemma trim_spec value s :
  bytes_ok value -> c_str value = Some s ->
  exists v, trim_line_end value = Some v /\ bytes_ok v /\ c_str v = Some (span not_line_end s).1.
Proof.
  intros Hb Hs. unfold trim_line_end. rewrite Hs. pose proof (span_app not_line_end s) as Hsp.
  destruct (span not_line_end s) as [a z]. cbn [fst snd] in *. apply c_str_spec in Hs as [Hn [t ->]]. subst s.
  apply Forall_app in Hn as [Ha _]. destruct (z ++ 0 :: t) as [|x r] eqn:E; [now destruct z|].
  exists (a ++ [0] ++ r). rewrite (mem_write_at a [x] r); [|now rewrite <- app_assoc, E|done|done].
  split; [done|]. rewrite <- app_assoc, E in Hb. apply bytes_ok_app in Hb as [Hba Hbr].
  apply bytes_ok_cons in Hbr as [_ Hbr]. split; [|now apply c_str_app].
  apply bytes_ok_app. split; [done|]. apply bytes_ok_app. split; [repeat constructor; words; lia|done].
Qed.

Lemma c_str_span l : c_str (l ++ [0]) = Some (span (fun b => negb (b =? 0)) l).1.
Proof.
  induction l as [|b l IH]; [done|]. cbn [app c_str span]. destruct (b =? 0); [done|]. cbn [negb].
  rewrite IH. cbn. now destruct (span _ l).
Qed.

Lemma span_span f g l : (span g (span f l).1).1 = (span (fun b => f b && g b) l).1.
Proof.
  induction l as [|b l IH]; [done|]. cbn [span]. destruct (f b); [|done].
  destruct (span f l) as [p r]. cbn [fst snd andb] in *. cbn [span]. destruct (g b); [|done].
  destruct (span g p), (span _ l). cbn in *. congruence.
Qed.

(** A prefix that is cut determines the result. *)
Lemma span_prefix f l r : (length (span f l).1 < length l)%nat \/ r = [] -> (span f (l ++ r)).1 = (span f l).1.
Proof.
  intros [H| ->]; [|now rewrite app_nil_r]. induction l as [|b l IH]; cbn [app span length] in *; [lia|].
  destruct (f b); [|done]. destruct (span f l) as [p q], (span f (l ++ r)) as [p' q'].
  cbn [fst length] in *. f_equal. apply IH. lia.
Qed.

Lemma span_full f l : length (span f l).1 = length l -> (span f l).1 = l.
Proof.
  intros H. pose proof (span_app f l) as E. destruct (span f l) as [p [|x q]]; cbn [fst snd] in *; subst l.
  - now rewrite app_nil_r.
  - rewrite length_app in H. cbn in H. lia.
Qed.

Lemma read_key_spec cfg st :
  array_ok 128 (cfg_access_key cfg) -> bytes_ok (st_data st) -> st_eof st = false ->
  exists r cfg' st', read_key_line cfg st = Some (r, cfg', st') /\ stored cfg cfg' r (first_line (st_data st)).
Proof.
  intros Ha Hb He. unfold read_key_line, fgets. change (Z.to_nat (KEY_ROOM + 2) - 1)%nat with 129%nat.
  destruct (fgets_loop 129 (st_data st)) as [[line rest] eof] eqn:E.
  destruct (fgets_loop_spec _ _ _ _ _ E) as (Hd & Hl & Heof & _).
  destruct line as [|b line]; [eexists _, _, _; split; [done|by left]|]. set (l := b :: line) in *.
  rewrite Hd in Hb |- *. apply bytes_ok_app in Hb as [Hbl _].
  assert (Hbz : bytes_ok (l ++ [0])) by (apply bytes_ok_app; split; [done|repeat constructor; words; lia]).
  rewrite He, c_str_span. set (s := (span _ l).1). cbn [orb st_eof].
  destruct (negb _ && negb eof) eqn:Hlong; [eexists _, _, _; split; [done|by left]|].
  destruct (trim_spec (l ++ [0]) s Hbz (c_str_span l)) as (v & -> & Hbv & Hv).
  destruct (store_key_spec cfg v _ Ha Hbv Hv) as (r & cfg' & -> & Hst).
  exists r, cfg', (Stream rest eof (st_lflag st)). split; [done|]. unfold s in Hst. rewrite span_span in Hst.
  fold (first_line l) in Hst. unfold first_line. rewrite span_prefix; [done|]. fold (first_line l).
  destruct eof; [right; now apply Heof|left]. rewrite andb_true_r in Hlong. apply negb_false_iff, bool_decide_eq_true in Hlong.
  pose proof (span_app (fun b => negb (b =? 0) && not_line_end b) l) as Hs. fold (first_line l) in Hs.
  apply (f_equal length) in Hs as Hlen. rewrite length_app in Hlen.
  destruct (Nat.eq_dec (length (first_line l)) (length l)) as [Hfull|]; [|lia]. exfalso.
  apply span_full in Hfull. pose proof (span_fst (fun b => negb (b =? 0) && not_line_end b) l) as Hok.
  rewrite Hfull, Forall_forall in Hok. assert (Hin : In 10 l).
  { unfold s in Hlong. pose proof (span_app (fun b => negb (b =? 0)) l) as Hs'. rewrite Hs'. apply in_app_iff.
    left. now apply list_elem_of_In. }
  now specialize (Hok 10 Hin).
Qed.

(** * The whole command line *)

(** Options that come with an argument. *)
Definition needs_arg (opt : Z) : bool :=
  (opt =? 115) || (opt =? 112) || (opt =? 110) || (opt =? 107) || (opt =? 1000).

Definition is_key (op : Z * bytes) : bool := (op.1 =? 107) || (op.1 =? 1000) || (op.1 =? 1001).

Definition arg_ok (a : bytes) : Prop := bytes_ok a /\ exists s, c_str a = Some s.

(** What [getopt_long], the files, the input and [gethostname] provide. *)
Record inputs_ok (o : outside) (opts : list (Z * bytes)) (st : stream) : Prop := {
  ok_opts : Forall (fun op => needs_arg op.1 = true -> arg_ok op.2) opts;
  ok_files : forall p d, out_files o p = Some d -> bytes_ok d;
  ok_host : bytes_ok (out_hostname o).2 /\ zlen (out_hostname o).2 <= TUND_NAME_LEN - 1;
  ok_stdin : bytes_ok (st_data st) /\ st_eof st = false
}.

(** Every array holds a string, the port is valid. *)
Record config_ok (c : config_t) : Prop := {
  ok_cfg_port : 1 <= cfg_port c <= 65535;
  ok_cfg_ip : array_ok 64 (cfg_server_ip c);
  ok_cfg_name : array_ok 32 (cfg_client_name c);
  ok_cfg_key : array_ok 128 (cfg_access_key c)
}.

(** The key that an option provides. *)
Definition key_of (o : outside) (st : stream) (op : Z * bytes) : option bytes :=
  if op.1 =? 107 then c_str op.2
  else if op.1 =? 1000 then p ← c_str op.2; d ← out_files o p; Some (first_line d)
  else if op.1 =? 1001 then Some (first_line (st_data st))
  else None.

Section whole.
Context (o : outside) (st0 : stream).
Hypothesis files_ok : forall p d, out_files o p = Some d -> bytes_ok d.
Hypothesis host_ok : bytes_ok (out_hostname o).2 /\ zlen (out_hostname o).2 <= TUND_NAME_LEN - 1.
Hypothesis stdin_ok : bytes_ok (st_data st0) /\ st_eof st0 = false.

(** After the options [ops]: where the key came from, if any. *)
Definition keyed (ops : list (Z * bytes)) (cfg : config_t) (src : key_source_t) (st : stream) : Prop :=
  (src = KEY_SOURCE_NONE /\ List.filter is_key ops = [] /\ st = st0 /\ c_str (cfg_access_key cfg) = Some []) \/
  (src <> KEY_SOURCE_NONE /\ exists op key, List.filter is_key ops = [op] /\ key_of o st0 op = Some key /\
     c_str (cfg_access_key cfg) = Some key /\ zlen key < KEY_ROOM).

Definition step_ok (ops : list (Z * bytes)) (r : cli_step) : Prop :=
  match r with
  | CliNext cfg src st => config_ok cfg /\ keyed ops cfg src st
  | CliReturn r _ => r <> CLI_OK
  end.

(** An option that is not about the key and leaves it alone. *)
Lemma keyed_other ops op cfg cfg' src st :
  keyed ops cfg src st -> is_key op = false -> cfg_access_key cfg' = cfg_access_key cfg ->
  keyed (ops ++ [op]) cfg' src st.
Proof.
  intros Hk Ho Ha. unfold keyed. rewrite List.filter_app, Ha. cbn [List.filter]. rewrite Ho, app_nil_r. exact Hk.
Qed.

Lemma key_option_spec ops op cfg src src' st (read : option (cli_result_t * config_t * stream)) :
  config_ok cfg -> keyed ops cfg src st -> is_key op = true -> src' <> KEY_SOURCE_NONE ->
  (st = st0 -> exists r cfg' st', read = Some (r, cfg', st') /\
     ((r <> CLI_OK) \/ (r = CLI_OK /\ config_ok cfg' /\ exists key, key_of o st0 op = Some key /\
        zlen key < KEY_ROOM /\ c_str (cfg_access_key cfg') = Some key))) ->
  exists s, key_option src src' cfg read = Some s /\ step_ok (ops ++ [op]) s.
Proof.
  intros Hc Hk Ho Hsrc Hread. unfold key_option.
  destruct Hk as [(-> & Hf & -> & _)|[Hne _]]; [|destruct src; try done; now eexists].
  destruct (Hread eq_refl) as (r & cfg' & st' & -> & Hr). destruct r; [|now eexists..].
  eexists. split; [done|]. destruct Hr as [|(_ & Hok & key & H1 & H2 & H3)]; [done|]. split; [done|]. right.
  split; [done|]. exists op, key. rewrite List.filter_app, Hf. cbn. now rewrite Ho.
Qed.

(** What storing a key amounts to. *)
Lemma stored_ok cfg cfg' r s op :
  config_ok cfg -> stored cfg cfg' r s -> key_of o st0 op = Some s ->
  r <> CLI_OK \/ (r = CLI_OK /\ config_ok cfg' /\ exists key, key_of o st0 op = Some key /\
    zlen key < KEY_ROOM /\ c_str (cfg_access_key cfg') = Some key).
Proof.
  intros [H1 H2 H3 H4] [[-> _]|(-> & Hl & l & -> & Ha & Hs)] Hk; [by left|right].
  split; [done|]. split; [now split|]. eauto.
Qed.

Lemma read_key_line_lflag cfg st r cfg' st' :
  read_key_line cfg st = Some (r, cfg', st') -> st_lflag st' = st_lflag st.
Proof.
  unfold read_key_line, fgets. destruct (fgets_loop _ _) as [[line rest] eof]. destruct line as [|b line].
  - now intros [= _ _ <-].
  - destruct (c_str _); [|done]. destruct (_ && _); [now intros [= _ _ <-]|].
    destruct (trim_line_end _); [|done]. destruct (store_access_key _ _) as [[]|]; [|done]. now intros [= _ _ <-].
Qed.

(** The terminal gets its modes back, if it takes them. *)
Lemma read_stream_spec b cfg st :
  array_ok 128 (cfg_access_key cfg) -> bytes_ok (st_data st) -> st_eof st = false ->
  exists r cfg' st', read_key_from_stream o b cfg st = Some (r, cfg', st') /\
    stored cfg cfg' r (first_line (st_data st)) /\
    (out_tcsetattr o (st_lflag st) = 0 -> st_lflag st' = st_lflag st).
Proof.
  intros Ha Hb He. unfold read_key_from_stream. destruct (b && _).
  2:{ destruct (read_key_spec cfg st Ha Hb He) as (r & cfg' & st' & E & Hst). exists r, cfg', st'.
      split; [done|]. split; [done|]. intros _. exact (read_key_line_lflag _ _ _ _ _ E). }
  unfold read_key_from_terminal, tcsetattr. cbv zeta. set (lf := Z.ldiff _ _).
  assert (Hread : forall st1, st_data st1 = st_data st -> st_eof st1 = st_eof st -> exists r cfg' st',
    read_key_line cfg st1 = Some (r, cfg', st') /\ stored cfg cfg' r (first_line (st_data st)) /\
    st_lflag st' = st_lflag st1).
  { intros st1 E1 E2. destruct (read_key_spec cfg st1) as (r & cfg' & st' & E & Hst); [done|congruence..|].
    exists r, cfg', st'. rewrite <- E1. split; [done|]. split; [done|]. exact (read_key_line_lflag _ _ _ _ _ E). }
  destruct (out_tcgetattr o =? 0); [destruct (out_tcsetattr o lf =? 0)|].
  2,3: destruct (Hread st eq_refl eq_refl) as (r & cfg' & st' & -> & Hst & Hl); now exists r, cfg', st'.
  destruct (Hread (set_lflag lf st) eq_refl eq_refl) as (r & cfg' & st' & -> & Hst & Hl).
  destruct (Z.eqb_spec (out_tcsetattr o (st_lflag st)) 0); eexists _, _, _; (split; [done|]); (split; [done|]); [done|].
  intros E. now rewrite E in n.
Qed.

Lemma cli_option_spec ops opt a cfg src st :
  config_ok cfg -> keyed ops cfg src st -> (needs_arg opt = true -> arg_ok a) ->
  exists s, cli_option o opt a cfg src st = Some s /\ step_ok (ops ++ [(opt, a)]) s.
Proof.
  intros Hc Hk Harg. pose proof Hc as [Hp Hip Hn Hkey]. unfold cli_option.
  change (Z.to_nat 63) with 63%nat. change (Z.to_nat (TUND_NAME_LEN - 1)) with 31%nat.
  destruct (Z.eqb_spec opt 115) as [->|].
  { destruct Harg as [Hb [s Hs]]; [done|].
    destruct (array_strncpy 63 _ a s Hip Hs Hb) as (src' & l & -> & -> & Hl).
    eexists. split; [done|]. split; [now split|]. eapply (keyed_other _ _ cfg); done. }
  destruct (Z.eqb_spec opt 112) as [->|].
  { destruct Harg as [Hb [s Hs]]; [done|]. unfold parse_port. rewrite Hs. destruct (strtol s) as [p [[|]|]];
      [|now eexists..]. destruct (_ || _) eqn:E; [now eexists|]. bools. eexists. split; [done|].
    split; [|eapply (keyed_other _ _ cfg); done]. split; try done. cbn. unfold u16. rewrite Z.mod_small; lia. }
  destruct (Z.eqb_spec opt 110) as [->|].
  { destruct Harg as [Hb [s Hs]]; [done|].
    destruct (array_strncpy 31 _ a s Hn Hs Hb) as (src' & l & -> & -> & Hl).
    eexists. split; [done|]. split; [now split|]. eapply (keyed_other _ _ cfg); done. }
  destruct (Z.eqb_spec opt 107) as [->|].
  { destruct Harg as [Hb [s Hs]]; [done|]. eapply key_option_spec; eauto; try done. intros ->.
    destruct (store_key_spec cfg a s Hkey Hb Hs) as (r & cfg' & -> & Hst). exists r, cfg', st0.
    split; [done|]. eapply stored_ok; eauto. }
  destruct (Z.eqb_spec opt 1000) as [->|].
  { destruct Harg as [Hb [s Hs]]; [done|]. eapply key_option_spec; eauto; try done. intros ->.
    unfold read_key_from_file. rewrite Hs. destruct (out_files o s) as [d|] eqn:Hd; [|eexists _, _, _; split; [done|by left]].
    destruct (read_stream_spec false cfg (Stream d false 0) Hkey (files_ok _ _ Hd) eq_refl)
      as (r & cfg' & st' & -> & Hst & _). exists r, cfg', st0. split; [done|].
    eapply stored_ok; [done|exact Hst|]. unfold key_of. cbn. rewrite Hs. cbn. now rewrite Hd. }
  destruct (Z.eqb_spec opt 1001) as [->|].
  { eapply key_option_spec; eauto; try done. intros ->. destruct stdin_ok.
    set (cfg1 := set_cfg_flags _ _ _ _). assert (Hc1 : config_ok cfg1) by now split.
    destruct (read_stream_spec true cfg1 st0) as (r & cfg' & st' & -> & Hst & _); [done..|].
    exists r, cfg', st'. split; [done|]. eapply stored_ok; eauto. }
  assert (Hno : is_key (opt, a) = false).
  { unfold is_key. cbn. destruct (Z.eqb_spec opt 107), (Z.eqb_spec opt 1000), (Z.eqb_spec opt 1001); done. }
  destruct (opt =? 1002); [|destruct (opt =? 116); [|destruct (opt =? 118); [|now destruct (opt =? 104); eexists]]];
    (eexists; split; [done|]; split; [now split|]; eapply (keyed_other _ _ cfg); done).
Qed.

Lemma default_name_spec cfg :
  array_ok 32 (cfg_client_name cfg) ->
  exists l, default_name o cfg = Some (set_cfg_client_name l cfg) /\ array_ok 32 l.
Proof.
  intros Hn. unfold default_name. destruct (out_hostname o) as [code host]. destruct host_ok as [Hhb Hhl].
  cbn [fst snd] in *.
  destruct (array_write 32 _ host Hn Hhb) as (l & -> & Hl & _); [left; unfold zlen, TUND_NAME_LEN in Hhl; lia|].
  destruct (negb (code =? 0)); [|eauto].
  destruct (array_strncpy 31 l (str "tund-client" ++ [0]) (str "tund-client") Hl) as (src & l' & Hs & Hw & Hl');
    [done|repeat constructor; words; lia|].
  change (Z.to_nat (TUND_NAME_LEN - 1)) with 31%nat. rewrite Hs, Hw. eauto.
Qed.

Lemma validate_spec cfg :
  config_ok cfg -> exists r cfg', validate_config o cfg = Some (r, cfg') /\ config_ok cfg' /\
    cfg_access_key cfg' = cfg_access_key cfg /\ cfg_mode cfg' = cfg_mode cfg /\
    (r = CLI_OK -> (exists key, c_str (cfg_access_key cfg) = Some key /\ 12 <= zlen key) /\
       (cfg_mode cfg = MODE_CLIENT -> c_str (cfg_server_ip cfg') <> Some [])).
Proof.
  intros [Hp Hip Hn Hkey]. unfold validate_config. destruct (cfg_server_ip cfg) as [|i0 il] eqn:Ei; [now destruct Hip|].
  change (buf_get (i0 :: il) 0) with (Some i0). cbv zeta. cbn iota.
  destruct (_ && (i0 =? 0)) eqn:Eip.
  { eexists _, _. split; [done|]. split; [split; rewrite ?Ei; done|]. done. }
  destruct (cfg_client_name cfg) as [|n0 nl] eqn:En; [now destruct Hn|].
  change (buf_get (n0 :: nl) 0) with (Some n0). cbn iota. rewrite <- En in *.
  destruct (array_terminated _ _ Hkey) as [key Hk].
  assert (Hname : forall b : bool, exists l, (if b then default_name o cfg else Some cfg) =
     Some (set_cfg_client_name l cfg) /\ array_ok 32 l).
  { intros []; [now apply default_name_spec|]. exists (cfg_client_name cfg). split; [now destruct cfg|done]. }
  destruct (Hname (match cfg_mode cfg with MODE_CLIENT => true | MODE_SERVER => false end && (n0 =? 0)))
    as (l & -> & Hl).
  cbn [cfg_access_key set_cfg_client_name]. rewrite Hk.
  assert (Hok : config_ok (set_cfg_client_name l cfg)) by (split; cbn; rewrite ?Ei; done).
  destruct (Z.ltb_spec (zlen key) 12); eexists _, _; (split; [done|]); (split; [done|]); (split; [done|]);
    (split; [done|]); [done|]. intros _. split; [eauto|]. intros Hm. cbn. rewrite Ei. cbn.
  rewrite Hm in Eip. cbn in Eip. rewrite Eip. now destruct (c_str il).
Qed.
End whole.

(** An accepted command line. *)
Record accepted (o : outside) (opts : list (Z * bytes)) (st : stream) (cfg : config_t) : Prop := {
  acc_config : config_ok cfg;
  acc_server : cfg_mode cfg = MODE_CLIENT -> c_str (cfg_server_ip cfg) <> Some [];
  acc_key : exists op key, List.filter is_key opts = [op] /\ key_of o st op = Some key /\
    c_str (cfg_access_key cfg) = Some key /\ 12 <= zlen key < KEY_ROOM
}.

Lemma cli_loop_spec o opts st0 st : inputs_ok o opts st0 -> forall ops cfg src,
  config_ok cfg -> keyed o st0 ops cfg src st ->
  exists r cfg', cli_loop o opts cfg src st = Some (r, cfg') /\
    (r = CLI_OK -> accepted o (ops ++ opts) st0 cfg').
Proof.
  intros [Ho Hf Hh Hs]. revert st. induction Ho as [|[opt a] opts Harg _ IH]; intros st ops cfg src Hc Hk; cbn [cli_loop].
  - destruct (validate_spec o st0 Hh Hs cfg Hc) as (r & cfg' & -> & Hok & Hsame & Hm & Hr).
    exists r, cfg'. split; [done|]. intros ->. destruct Hr as [(key & Hkey & Hlen) Hip]; [done|].
    rewrite app_nil_r. split; [done|rewrite Hm; done|]. rewrite Hsame.
    destruct Hk as [(_ & _ & _ & Hnil)|(_ & op & key' & H1 & H2 & H3 & H4)].
    + rewrite Hkey in Hnil. injection Hnil as ->. rewrite zlen_nil in Hlen. lia.
    + rewrite Hkey in H3. injection H3 as ->. exists op, key'. auto.
  - destruct (cli_option_spec o st0 Hf Hh Hs ops opt a cfg src st Hc Hk Harg) as (s & -> & Hstep).
    destruct s as [cfg' src' st'|r cfg']; cbn in Hstep.
    + destruct Hstep as [Hc' Hk']. destruct (IH st' _ cfg' src' Hc' Hk') as (r & cfg'' & Hr & Hacc).
      exists r, cfg''. split; [done|]. now rewrite <- app_assoc in Hacc.
    + now exists r, cfg'.
Qed.

(** C20: [cli_parse] never reads or writes outside of an array, whatever the
    arguments, files and input are; a command line it accepts has exactly one
    option that provides a key, the stored key is the one that option provides
    (the argument, or the first line of the file or of the input), of 12 to 127
    bytes, the port is in range, every array holds a terminated string and a
    client has a server address. *)
Theorem cli_parse_accepted (o : outside) (mode : bytes) (opts : list (Z * bytes)) (st : stream)
    (Hi : inputs_ok o opts st) (Hm : arg_ok mode) :
  exists r cfg, cli_parse o (Some mode) opts st = Some (r, cfg) /\
    (r = CLI_OK -> accepted o opts st cfg).
Proof.
  destruct Hm as [_ [m Hm]]. unfold cli_parse, parse_mode. rewrite Hm.
  assert (Hc : forall m', config_ok (set_cfg_mode m' initial_config)).
  { intros m'. split; [cbn; unfold TUND_PORT; lia|apply (array_zeros 63)|apply (array_zeros 31)|apply (array_zeros 127)]. }
  assert (Hk : forall m', keyed o st [] (set_cfg_mode m' initial_config) KEY_SOURCE_NONE st).
  { intros m'. left. split; [done|]. split; [done|]. split; reflexivity. }
  destruct (bool_decide _); [now apply (cli_loop_spec o opts st st Hi [])|].
  destruct (bool_decide _); [now apply (cli_loop_spec o opts st st Hi [])|].
  destruct (_ || _); now eexists _, _.
Qed.

Example cli_parse_accepted_witness :
  exists r cfg, cli_parse no_outside (Some (arg "client"))
      [(115, arg "203.0.113.10"); (1001, [])] (Stream (str "a-long-random-key" ++ [10]) false 0) = Some (r, cfg) /\
    (r = CLI_OK -> accepted no_outside [(115, arg "203.0.113.10"); (1001, [])]
       (Stream (str "a-long-random-key" ++ [10]) false 0) cfg).
Proof.
  apply (cli_parse_accepted no_outside (arg "client")).
  - split.
    + repeat constructor; try done. exists (str "203.0.113.10"). reflexivity.
    + done.
    + split; [repeat constructor; words; lia|vm_compute; congruence].
    + split; [repeat constructor; words; lia|done].
  - split; [repeat constructor; words; lia|]. exists (str "client"). reflexivity.
Defined.

(** That command line is accepted. *)
Example client_arguments :
  option_map (fun '(r, c) => (r, cfg_mode c, c_str (cfg_server_ip c), c_str (cfg_client_name c)))
    (cli_parse no_outside (Some (arg "client"))
      [(115, arg "203.0.113.10"); (1001, [])] (Stream (str "a-long-random-key" ++ [10]) false 0)) =
  Some (CLI_OK, MODE_CLIENT, Some (str "203.0.113.10"), Some (str "box")).
Proof. reflexivity. Qed.
