(* ===== verification/Peer.v ===== *)
(** Peer records ([peer_t] of [tund.h], [tui_peer_t] of [tui.h]), the smoothed
    round-trip time, and the copy of the peer table shown to the user
    ([net_poll_peers] of [network.c]). *)
From stdpp Require Import base list numbers option.
From S2P Require Import Prelude Prog Replay World Consts.

(** * Data *)

Record peer_t : Type := Peer {
  active : bool;
  virt_ip : Z;                     (** network byte order *)
  name : bytes;                    (** [char name[TUND_NAME_LEN]] *)
  real_addr : sockaddr_in;
  last_seen : Z;
  bytes_in : Z;
  bytes_out : Z;
  rtt_ms : Z;
  has_rtt : bool;
  replay : proto_replay_window_t
}.

Definition set_active (b : bool) (p : peer_t) : peer_t :=
  Peer b (virt_ip p) (name p) (real_addr p) (last_seen p) (bytes_in p) (bytes_out p) (rtt_ms p)
       (has_rtt p) (replay p).

Definition set_name (n : bytes) (p : peer_t) : peer_t :=
  Peer (active p) (virt_ip p) n (real_addr p) (last_seen p) (bytes_in p) (bytes_out p) (rtt_ms p)
       (has_rtt p) (replay p).

Definition set_last_seen (t : Z) (p : peer_t) : peer_t :=
  Peer (active p) (virt_ip p) (name p) (real_addr p) t (bytes_in p) (bytes_out p) (rtt_ms p)
       (has_rtt p) (replay p).

(** [p->bytes_in += n] and [p->bytes_out += n] on [uint64_t]. *)
Definition add_bytes_in (n : Z) (p : peer_t) : peer_t :=
  Peer (active p) (virt_ip p) (name p) (real_addr p) (last_seen p) (u64 (bytes_in p + n))
       (bytes_out p) (rtt_ms p) (has_rtt p) (replay p).

Definition add_bytes_out (n : Z) (p : peer_t) : peer_t :=
  Peer (active p) (virt_ip p) (name p) (real_addr p) (last_seen p) (bytes_in p)
       (u64 (bytes_out p + n)) (rtt_ms p) (has_rtt p) (replay p).

Definition set_rtt (r : Z) (p : peer_t) : peer_t :=
  Peer (active p) (virt_ip p) (name p) (real_addr p) (last_seen p) (bytes_in p) (bytes_out p) r
       true (replay p).

Definition set_replay (w : proto_replay_window_t) (p : peer_t) : peer_t :=
  Peer (active p) (virt_ip p) (name p) (real_addr p) (last_seen p) (bytes_in p) (bytes_out p)
       (rtt_ms p) (has_rtt p) w.

(** All bytes zero, as left by [memset]. *)
Definition zero_addr : sockaddr_in := SockAddr 0 0 0.
Definition zero_peer : peer_t :=
  Peer false 0 (replicate 32 0) zero_addr 0 0 0 0 false (Window 0 0).

(** [smooth_rtt_ms], in 64-bit arithmetic. *)
Definition smooth_rtt_ms (current sample : Z) (has_current : bool) : Z :=
  if negb has_current then sample
  else u64 (u64 (u64 (current * TUND_RTT_SMOOTHING_WEIGHT) + sample) + TUND_RTT_SMOOTHING_WEIGHT / 2)
       / (TUND_RTT_SMOOTHING_WEIGHT + 1).

Record tui_peer_t : Type := TuiPeer {
  tui_virt_ip : Z;
  tui_name : bytes;
  tui_last_seen : Z;
  tui_bytes_in : Z;
  tui_bytes_out : Z;
  tui_rtt_ms : Z;
  tui_has_rtt : bool;
  tui_active : bool
}.

Definition tui_of_peer (p : peer_t) : tui_peer_t :=
  TuiPeer (virt_ip p) (name p) (last_seen p) (bytes_in p) (bytes_out p) (rtt_ms p) (has_rtt p)
          (active p).

(** The loop of [net_poll_peers]: every slot is copied to [tui_peers[npeers]],
    but only an active one advances [npeers]. *)
Fixpoint poll_copy (peers : list peer_t) (tui_peers : list tui_peer_t) (npeers : nat) :
    option (list tui_peer_t * nat) :=
  match peers with
  | [] => Some (tui_peers, npeers)
  | p :: peers =>
      match tui_peers !! npeers with
      | None => None
      | Some _ =>
          poll_copy peers (<[npeers := tui_of_peer p]> tui_peers)
                    (if active p then S npeers else npeers)
      end
  end.

(** [for (i = 0; ...) if (f(peers[i])) return i; return -1;] *)
Fixpoint find_index (f : peer_t -> bool) (l : list peer_t) (i : Z) : Z :=
  match l with
  | [] => -1
  | p :: l => if f p then i else find_index f l (i + 1)
  end.

(** * Well-formedness *)

(** A name is stored in 32 bytes, the last of which it never fills. *)
Definition name_ok (n : bytes) : Prop :=
  length n = 32%nat /\ bytes_ok n /\ exists s, c_str n = Some s.

Record peer_ok (p : peer_t) : Prop := {
  ok_name : name_ok (name p);
  ok_vip : is_u32 (virt_ip p);
  ok_real_addr : addr_ok (real_addr p);
  ok_last_seen : 0 <= last_seen p < 2 ^ 62;
  ok_bytes_in : is_u64 (bytes_in p);
  ok_bytes_out : is_u64 (bytes_out p);
  ok_rtt : is_u64 (rtt_ms p);
  ok_replay : window_ok (replay p)
}.

Lemma name_ok_zero : name_ok (replicate 32 0).
Proof. split; [done|]. split; [apply bytes_ok_zeros|]. now exists []. Qed.

Lemma zero_peer_ok : peer_ok zero_peer.
Proof.
  split; try apply name_ok_zero; try apply reset_window_ok; cbn; try (words; lia).
  repeat split; cbn; words; lia.
Qed.

Lemma peer_ok_set_active b p : peer_ok p -> peer_ok (set_active b p).
Proof. intros []. now split. Qed.

Lemma peer_ok_set_last_seen t p : 0 <= t < 2 ^ 62 -> peer_ok p -> peer_ok (set_last_seen t p).
Proof. intros ? []. now split. Qed.

Lemma peer_ok_add_in n p : peer_ok p -> peer_ok (add_bytes_in n p).
Proof. intros []. split; cbn; auto. apply u64_range. Qed.

Lemma peer_ok_add_out n p : peer_ok p -> peer_ok (add_bytes_out n p).
Proof. intros []. split; cbn; auto. apply u64_range. Qed.

Lemma smooth_range current sample has :
  is_u64 sample -> is_u64 (smooth_rtt_ms current sample has).
Proof.
  intros Hs. unfold smooth_rtt_ms. destruct has; cbn [negb]; [|done].
  match goal with |- is_u64 (u64 ?y / _) => pose proof (u64_range y) as Hx; set (x := u64 y) in * end.
  unfold is_u64 in *. change (TUND_RTT_SMOOTHING_WEIGHT + 1) with 8.
  split; [apply Z.div_pos; lia|]. apply Z.div_lt_upper_bound; lia.
Qed.

Lemma peer_ok_set_rtt sample p :
  is_u64 sample -> peer_ok p -> peer_ok (set_rtt (smooth_rtt_ms (rtt_ms p) sample (has_rtt p)) p).
Proof. intros ? []. split; cbn; auto. now apply smooth_range. Qed.

Lemma peer_ok_set_replay w p : window_ok w -> peer_ok p -> peer_ok (set_replay w p).
Proof. intros ? []. now split. Qed.

Lemma set_replay_same p : set_replay (replay p) p = p.
Proof. now destruct p. Qed.

Lemma name_ok_str n : name_ok n -> exists s, c_str n = Some s /\ bytes_ok s /\ (length s <= 31)%nat.
Proof.
  intros (Hl & Hb & s & Hs). exists s. split; [done|]. split; [now apply (c_str_ok n)|].
  apply c_str_length in Hs. lia.
Qed.

#[export] Hint Resolve zero_peer_ok peer_ok_set_active peer_ok_set_last_seen peer_ok_add_in
  peer_ok_add_out peer_ok_set_rtt peer_ok_set_replay name_ok_zero : tund.

(** * Lookups in a table *)

Lemma find_index_spec f l : forall i,
  (find_index f l i = -1 /\ Forall (fun p => f p = false) l) \/
  exists k p, find_index f l i = i + Z.of_nat k /\ l !! k = Some p /\ f p = true /\
    forall j q, (j < k)%nat -> l !! j = Some q -> f q = false.
Proof.
  induction l as [|p l IH]; intros i; cbn [find_index]; [left; auto|].
  destruct (f p) eqn:E.
  - right. exists 0%nat, p. split; [lia|]. split; [done|]. split; [done|]. intros; lia.
  - destruct (IH (i + 1)) as [[H1 H2]|(k & q & H1 & H2 & H3 & H4)]; [left; auto|].
    right. exists (S k), q. split; [rewrite H1; lia|]. split; [done|]. split; [done|].
    intros [|j] r Hj Hr; [now injection Hr as <-|]. apply (H4 j r); [lia|done].
Qed.

(** The result of a lookup in the table: [-1], or the index of a slot. *)
Lemma find_slot f l :
  (find_index f l 0 = -1 /\ Forall (fun p => f p = false) l) \/
  exists p, 0 <= find_index f l 0 < zlen l /\ l !! Z.to_nat (find_index f l 0) = Some p /\ f p = true.
Proof.
  destruct (find_index_spec f l 0) as [H|(k & p & H1 & H2 & H3 & _)]; [by left|right].
  exists p. rewrite H1, Z.add_0_l, Nat2Z.id. split; [|done].
  apply lookup_lt_Some in H2. unfold zlen. lia.
Qed.

(** * The table shown to the user *)

(** The active entries of the table, in order. *)
Definition actives (peers : list peer_t) : list peer_t := List.filter active peers.

(** The array has room for every slot: nothing is written out of bounds, and
    its first [npeers] entries are the active peers in table order. *)
Lemma poll_copy_spec peers : forall tui_peers npeers,
  (npeers + length peers <= length tui_peers)%nat ->
  exists tui', poll_copy peers tui_peers npeers = Some (tui', (npeers + length (actives peers))%nat) /\
    length tui' = length tui_peers /\
    take npeers tui' = take npeers tui_peers /\
    take (length (actives peers)) (drop npeers tui') = map tui_of_peer (actives peers).
Proof.
  induction peers as [|p peers IH]; intros tui n Hn; cbn [poll_copy].
  - exists tui. cbn. rewrite Nat.add_0_r. auto.
  - cbn [length] in Hn. destruct (lookup_lt_is_Some_2 tui n) as [old Hold]; [lia|]. rewrite Hold.
    unfold actives. cbn [List.filter]. fold (actives peers). destruct (active p) eqn:Ha; cbn [length map].
    + destruct (IH (<[n:=tui_of_peer p]> tui) (S n)) as (tui' & -> & Hl & Ht & Hd);
        [rewrite length_insert; lia|].
      rewrite length_insert in Hl. exists tui'. split; [do 2 f_equal; lia|]. split; [done|].
      assert (Hnth : tui' !! n = Some (tui_of_peer p)).
      { rewrite <- (lookup_take_lt _ (S n)) by lia. rewrite Ht, lookup_take_lt by lia.
        apply list_lookup_insert_eq. lia. }
      split.
      * apply (f_equal (take n)) in Ht. rewrite !take_take, Nat.min_l in Ht by lia.
        now rewrite Ht, take_insert_ge.
      * rewrite (drop_S _ _ _ Hnth). cbn [take]. now rewrite Hd.
    + destruct (IH (<[n:=tui_of_peer p]> tui) n) as (tui' & -> & Hl & Ht & Hd);
        [rewrite length_insert; lia|].
      rewrite length_insert in Hl. exists tui'. split; [done|]. split; [done|].
      split; [|done]. now rewrite Ht, take_insert_ge.
Qed.

(** * Properties *)

(** The smoothed round-trip time lies between the previous value and the new
    sample, and a repeated sample is a fixed point, for all values below
    [2^60] ms, where the 64-bit computation does not wrap. *)
Theorem smooth_rtt_between (current sample : Z)
    (Hc : 0 <= current < 2 ^ 60) (Hs : 0 <= sample < 2 ^ 60) :
  Z.min current sample <= smooth_rtt_ms current sample true <= Z.max current sample /\
  smooth_rtt_ms current current true = current.
Proof.
  unfold smooth_rtt_ms, TUND_RTT_SMOOTHING_WEIGHT. cbn [negb]. words.
  change (7 / 2) with 3. change (7 + 1) with 8.
  rewrite !(Z.mod_small (current * 7)), !(Z.mod_small (current * 7 + _)),
    !(Z.mod_small (current * 7 + _ + 3)) by lia.
  split; [split|].
  - apply Z.div_le_lower_bound; lia.
  - apply Z.lt_succ_r, Z.div_lt_upper_bound; lia.
  - symmetry. apply (Z.div_unique _ _ _ 3); lia.
Qed.

Example smooth_rtt_between_witness :
  Z.min 80 40 <= smooth_rtt_ms 80 40 true <= Z.max 80 40 /\ smooth_rtt_ms 80 80 true = 80.
Proof. apply smooth_rtt_between; lia. Defined.
