(* ===== verification/Net.v ===== *)
(** The datagram layer ([network.c]): sending encrypts a copy of the message,
    receiving decrypts in place, polling refreshes the displayed peer table. *)
From stdpp Require Import base list numbers option.
From S2P Require Import Prelude Prog World Consts Wire Crypto Events Replay Peer.

Definition NET_RECV_NO_DATA : Z := 0.
Definition NET_RECV_ERROR : Z := -1.
Definition NET_RECV_AUTH_FAILED : Z := -2.

Definition net_addr_equal (a b : sockaddr_in) : bool :=
  (sin_family a =? sin_family b) && (sin_port a =? sin_port b) && (s_addr a =? s_addr b).

Section ops.
Context `{M : Monocypher} {S : Type} `{HW : HasWorld S}.

Definition net_send (buf : bytes) (len : Z) (dest : sockaddr_in) : prog S Z :=
  if len <? TUND_HDR_SIZE then Ret (-1)
  else if TUND_HDR_SIZE + TUND_MAX_PLAINTEXT <? len then Ret (-1)
  else
    let* wire := alloc TUND_MAX_PKT in
    let* wire := local (let? src := mem_read buf 0 len in mem_write wire 0 src) in
    let* key := read_world g_crypto_key in
    let* '(wire_len, wire) := proto_encrypt wire len key in
    if wire_len <? 0 then
      LOG LOG_LEVEL_ERROR [] ;; Ret (-1)
    else
      let* pkt := local (mem_read wire 0 wire_len) in
      let* sent := sendto pkt dest in
      if sent <? 0 then
        LOG LOG_LEVEL_ERROR [ip_to_str_buf (s_addr dest)] ;; Ret (-1)
      else if negb (sent =? wire_len) then Ret (-1)
      else Ret 0.

(** Returns the code, the buffer and the sender's address. *)
Definition net_recv (buf : bytes) (bufsize : Z) (from : sockaddr_in) :
    prog S (Z * bytes * sockaddr_in) :=
  let* n := on_world' (ask (fun e t => env_recvfrom e t bufsize)) in
  match n with
  | RecvAgain => Ret (NET_RECV_NO_DATA, buf, from)
  | RecvFail => LOG LOG_LEVEL_ERROR [] ;; Ret (NET_RECV_ERROR, buf, from)
  | RecvData l from =>
      let* buf := local (mem_write buf 0 l) in
      let* key := read_world g_crypto_key in
      let* '(decrypted, buf) := local (proto_decrypt buf (zlen l) key) in
      if decrypted <? 0 then
        LOG LOG_LEVEL_DEBUG [ip_to_str_buf (s_addr from)] ;; Ret (NET_RECV_AUTH_FAILED, buf, from)
      else Ret (decrypted, buf, from)
  end.

(** [peers] reads the caller's table under its lock.  Returns the code, the
    array shown to the user and [*npeers], [None] while it is uninitialised. *)
Definition net_poll_peers (peers : S -> list peer_t) (tui_peers : list tui_peer_t)
    (npeers : option nat) : prog S (Z * list tui_peer_t * option nat) :=
  let* '(ret, eintr) := on_world' (ask (fun e t => (env_poll e t, env_poll_eintr e t))) in
  if ret <? 0 then
    if (eintr : bool) then Ret (0, tui_peers, npeers)
    else LOG LOG_LEVEL_ERROR [] ;; Ret (-1, tui_peers, npeers)
  else if ret =? 0 then
    let* '(tui_peers, npeers) := atomic (fun s =>
      match poll_copy (peers s) tui_peers 0 with Some r => Some (r, s) | None => None end) in
    Ret (0, tui_peers, Some npeers)
  else Ret (1, tui_peers, npeers).

(** [tui_render_server] and [tui_render_client]: drawing reads [npeers]
    entries of the array. *)
Definition render (npeers : option nat) : prog S unit :=
  match npeers with
  | Some n => on_world' (fun w => (tt, emit (EvRender (Z.of_nat n)) w))
  | None => undef
  end.

(** [if (g_tui_active) tui_init()] and [if (g_tui_active) tui_shutdown()]. *)
Definition tui_screen (on : bool) : prog S unit :=
  on_world' (fun w => (tt, if g_tui_active w then emit (EvScreen on) w else w)).
End ops.

(** [npeers] as the loop variable of a main loop: [-1] as long as it is
    uninitialised.  The array behind it is only read where the last poll wrote
    it. *)
Definition npeers_of (l : Z) : option nat := if l <? 0 then None else Some (Z.to_nat l).
Definition npeers_to (n : option nat) : Z := match n with Some n => Z.of_nat n | None => -1 end.

(** * What travels *)

Lemma name_field_name_ok s : bytes_ok s -> name_ok (name_field s).
Proof.
  intros Hs. split; [apply length_name_field|]. split; [now apply name_field_ok|].
  apply c_str_in_range. unfold name_field. rewrite in_app_iff. right. now left.
Qed.

(** [len] bytes of [buf] are a message of this type and payload. *)
Definition carries (buf : bytes) (len type : Z) (payload : bytes) : Prop :=
  proto_read_hdr buf = Some (HdrOk type (zlen payload)) /\
  payload = take (Z.to_nat (len - TUND_HDR_SIZE)) (drop 37 buf) /\ len = TUND_HDR_SIZE + zlen payload.

Lemma message_carries type payload buf len ty pl :
  message type payload buf -> is_u8 type -> zlen payload <= TUND_MAX_PLAINTEXT ->
  len = TUND_HDR_SIZE + zlen payload -> carries buf len ty pl -> ty = type /\ pl = payload.
Proof.
  intros (sq & nc & rest & Hsq & Hnc & Hncb & ->) Ht Hm Hl (Hh & Hp & _).
  pose proof (zlen_nonneg payload). rewrite read_hdr_at in Hh by (done || clia).
  injection Hh as <- _. split; [done|]. rewrite Hp.
  rewrite <- (length_hdr type (zlen payload) sq nc Hnc), drop_app_length.
  replace (Z.to_nat (len - TUND_HDR_SIZE)) with (length payload) by clia. now rewrite take_app_length.
Qed.

(** The first five bytes decide what the header says. *)
Lemma read_hdr_take n buf rest :
  (5 <= n <= length buf)%nat -> proto_read_hdr (take n buf ++ rest) = proto_read_hdr buf.
Proof.
  intros Hn. unfold proto_read_hdr.
  assert (Hg : forall i, 0 <= i < 5 -> buf_get (take n buf ++ rest) i = buf_get buf i).
  { intros i Hi. rewrite buf_get_app_l by (unfold zlen; rewrite length_take; lia).
    unfold buf_get. destruct (Z.leb_spec 0 i); [|lia]. apply lookup_take_lt. lia. }
  now rewrite !Hg by lia.
Qed.

(** A buffer whose header starts with this type and length. *)
Lemma prefix_carries type plen buf len ty pl :
  take 5 buf = hdr_prefix type plen -> is_u8 type -> is_u16 plen -> (5 <= length buf)%nat ->
  len = TUND_HDR_SIZE + plen -> carries buf len ty pl ->
  ty = type /\ pl = take (Z.to_nat plen) (drop 37 buf).
Proof.
  intros H5 Ht Hp Hl -> (Hh & -> & _). rewrite <- (read_hdr_take 5 buf [] ltac:(lia)), H5 in Hh.
  change (hdr_prefix type plen) with (take 5 (hdr_bytes type plen 0 (replicate 24 0) ++ [])) in Hh.
  rewrite read_hdr_take, read_hdr_at in Hh by (done || (cbn; lia)).
  injection Hh as <- _. split; [done|]. do 2 f_equal. lia.
Qed.

(** The copy made by [net_send]. *)
Lemma copy_to_wire buf len wire :
  0 <= len <= zlen buf -> len <= zlen wire ->
  (let? src := mem_read buf 0 len in mem_write wire 0 src) =
  Some (take (Z.to_nat len) buf ++ drop (Z.to_nat len) wire).
Proof.
  intros Hl Hw. rewrite mem_read_some by lia. rewrite drop_0.
  destruct (split_at (Z.to_nat len) wire) as (w1 & w2 & -> & H1); [unfold zlen in *; lia|].
  rewrite (mem_write_at [] w1 w2); [|done|done|rewrite length_take; unfold zlen in *; lia].
  cbn [app]. now rewrite drop_app_length' by done.
Qed.

Lemma carries_copy buf len wire type payload :
  TUND_HDR_SIZE <= len -> len <= zlen buf -> len <= zlen wire ->
  carries (take (Z.to_nat len) buf ++ drop (Z.to_nat len) wire) len type payload ->
  carries buf len type payload.
Proof.
  intros H1 H2 H3 (Hh & Hp & Hl). split; [|split; [|done]].
  - rewrite read_hdr_take in Hh; [done|]. clia.
  - rewrite Hp at 1. rewrite drop_app_le by (rewrite length_take; clia).
    rewrite take_app_le by (rewrite length_drop, length_take; clia).
    rewrite skipn_firstn_comm, take_take. f_equal. clia.
Qed.

Section safe.
Context `{M : Monocypher} {ML : MonocypherLaws M}.
Context {S : Type} `{HW : HasWorld S} (J : S -> Prop) {F : Framed J}.

(** Whatever is sent for these [len] bytes is permitted by [J]. *)
Definition may_send (buf : bytes) (len : Z) (dest : sockaddr_in) : Prop :=
  forall key type payload sequence nonce res,
    (exists s, inv J s /\ g_crypto_key (get_world s) = key) ->
    carries buf len type payload -> 1 <= sequence < 2 ^ 64 -> length nonce = 24%nat ->
    bytes_ok nonce ->
    Permits J (EvSent (wire_bytes key type payload sequence nonce) dest res).

(** A read of the process that keeps the link to the state it was read from. *)
Lemma safe_read_key :
  safe J (read_world g_crypto_key) (fun k => exists s, inv J s /\ g_crypto_key (get_world s) = k).
Proof.
  apply guar_atomic. intros s Hs. exists (g_crypto_key (get_world s)), s. cbn.
  rewrite set_get_world. split; [done|]. split; [done|]. split; [apply rel_refl|]. eauto.
Qed.

Lemma safe_net_send buf len dest :
  bytes_ok buf -> len <= zlen buf -> may_send buf len dest ->
  safe J (net_send buf len dest) (fun _ => True).
Proof.
  intros Hb Hl Hperm. unfold net_send.
  destruct (Z.ltb_spec len TUND_HDR_SIZE); [done|].
  destruct (Z.ltb_spec (TUND_HDR_SIZE + TUND_MAX_PLAINTEXT) len); [done|].
  eapply safe_bind; [now apply safe_alloc|]. intros wire0 [Hw0 Hw0b].
  eapply safe_then; [apply copy_to_wire; clia|].
  set (wire := _ ++ _).
  assert (Hwb : bytes_ok wire).
  { apply bytes_ok_app. auto using bytes_ok_take, bytes_ok_drop. }
  assert (Hwl : zlen wire = TUND_MAX_PKT).
  { unfold wire. unfold zlen in *. rewrite length_app, length_take, length_drop. clia. }
  eapply safe_bind; [apply safe_read_key|]. intros key Hkey.
  eapply safe_bind; [apply safe_encrypt; [done|done|clia]|].
  intros [r wire'] (Hl' & _ & HH).
  destruct HH as [->|(type & sequence & nonce & payload & rest & Ht & Hseq & Hn & Hnb & Hpb & Hpm
                      & Hlen & Hhdr & Hp & Hr & ->)].
  { change (-1 <? 0) with true. cbn iota.
    eapply safe_bind; [apply safe_LOG; [done|constructor]|]. done. }
  destruct (Z.ltb_spec r 0); [clia|].
  rewrite (mem_read_at _ [] (wire_bytes key type payload sequence nonce) rest);
    [|done|done|rewrite zlen_wire; [clia|done]].
  cbn [local bind]. eapply safe_bind.
  { apply safe_sendto. intros res. apply Hperm; auto.
    apply (carries_copy _ _ wire0); [lia|lia|clia|]. split; [exact Hhdr|]. split; [exact Hp|done]. }
  intros sent _. destruct (sent <? 0).
  - eapply safe_bind; [apply safe_LOG; [done|repeat constructor; apply ip_terminated]|]. done.
  - now destruct (negb _).
Qed.

(** What a receiver is given: an error code, or a decrypted message. *)
Definition received (buf : bytes) (n : Z) (buf' : bytes) (from : sockaddr_in) : Prop :=
  length buf' = length buf /\ bytes_ok buf' /\ addr_ok from /\
  (n <= 0 \/
   exists type sequence nonce payload rest,
     is_u8 type /\ is_u64 sequence /\ length nonce = 24%nat /\ bytes_ok payload /\
     zlen payload <= TUND_MAX_PLAINTEXT /\ n = TUND_HDR_SIZE + zlen payload /\
     buf' = hdr_bytes type (zlen payload) sequence nonce ++ payload ++ rest).

Lemma decrypted_received key buf len r buf' from :
  bytes_ok buf -> decrypted key buf len r buf' -> addr_ok from -> received buf r buf' from.
Proof.
  intros Hb HD Hf. unfold received.
  destruct HD as [[-> ->]|(type & sequence & nonce & payload & junk & rest & Ht & Hs & Hn & Hnb & Hp
    & Hm & Hr & Hl & -> & Hj & Hjb & Hrb & ->)]; [split; auto; split; auto; split; auto; left; lia|].
  pose proof (zlen_nonneg payload).
  split; [|split; [|split; [done|]]].
  - pose proof (zlen_wire key type payload sequence nonce Hn).
    pose proof (zlen_hdr type (zlen payload) sequence nonce Hn). unfold zlen in *. rewrite !length_app. clia.
  - rewrite !bytes_ok_app. split; [|auto]. apply hdr_ok; auto. clia.
  - right. exists type, sequence, nonce, payload, (junk ++ rest). auto 8.
Qed.

(** Every authentic datagram that can arrive satisfies [ok]. *)
Definition authentic (key : bytes) (ok : Z -> bytes -> Prop) (e : env) : Prop :=
  forall t n type payload sequence nonce from,
    is_u8 type -> bytes_ok payload -> zlen payload <= TUND_MAX_PLAINTEXT -> length nonce = 24%nat ->
    env_recvfrom e t n = RecvData (wire_bytes key type payload sequence nonce) from -> ok type payload.

Definition received_ok (ok : Z -> bytes -> Prop) (n : Z) (buf : bytes) : Prop :=
  n <= 0 \/ exists type sequence nonce payload rest,
    is_u8 type /\ is_u64 sequence /\ length nonce = 24%nat /\ zlen payload <= TUND_MAX_PLAINTEXT /\
    n = TUND_HDR_SIZE + zlen payload /\ ok type payload /\
    buf = hdr_bytes type (zlen payload) sequence nonce ++ payload ++ rest.

Lemma received_ok_mono (ok ok' : Z -> bytes -> Prop) n buf :
  (forall type payload, ok type payload -> ok' type payload) -> received_ok ok n buf -> received_ok ok' n buf.
Proof.
  intros H [Hn|(type & sequence & nonce & payload & rest & H1 & H2 & H3 & H4 & H5 & Hok & H6)]; [now left|].
  right. exists type, sequence, nonce, payload, rest. auto 8.
Qed.

(** The datagram [l] is this message under [key]. *)
Definition locked_as (key : bytes) (type : Z) (payload l : bytes) : Prop :=
  exists sequence nonce, is_u8 type /\ bytes_ok payload /\ zlen payload <= TUND_MAX_PLAINTEXT /\
    length nonce = 24%nat /\ l = wire_bytes key type payload sequence nonce.

Lemma decrypted_locked key l rest r buf' :
  decrypted key (l ++ rest) (zlen l) r buf' -> received_ok (fun type payload => locked_as key type payload l) r buf'.
Proof.
  intros [[-> _]|(type & sequence & nonce & payload & junk & rest' & Ht & Hs & Hn & Hnb & Hp
    & Hm & -> & Hl & Hw & _ & _ & _ & ->)]; [left; lia|]. right.
  exists type, sequence, nonce, payload, (junk ++ rest'). do 5 (split; [done|]). split; [|done].
  exists sequence, nonce. do 4 (split; [done|]).
  apply (f_equal (take (length l))) in Hw. rewrite take_app_length in Hw. rewrite Hw.
  apply take_app_length'. pose proof (zlen_wire key type payload sequence nonce Hn). clia.
Qed.

Lemma locked_ok key ok e t m l from type payload :
  authentic key ok e -> env_recvfrom e t m = RecvData l from -> locked_as key type payload l -> ok type payload.
Proof.
  intros HA HE (sequence & nonce & H1 & H2 & H3 & H4 & ->). exact (HA t m type payload sequence nonce from H1 H2 H3 H4 HE).
Qed.

Lemma decrypted_ok key ok e t m l from rest r buf' :
  authentic key ok e -> env_recvfrom e t m = RecvData l from ->
  decrypted key (l ++ rest) (zlen l) r buf' -> received_ok ok r buf'.
Proof.
  intros HA HE HD. eapply received_ok_mono; [|exact (decrypted_locked _ _ _ _ _ HD)].
  intros type payload. exact (locked_ok key ok e t m l from type payload HA HE).
Qed.

Lemma safe_net_recv_authentic ok buf bufsize from :
  (forall s s', inv J s -> inv J s' -> authentic (g_crypto_key (get_world s')) ok (w_env (get_world s))) ->
  bytes_ok buf -> 0 <= bufsize <= zlen buf -> addr_ok from ->
  safe J (net_recv buf bufsize from)
    (fun '(n, buf', from') => received buf n buf' from' /\ received_ok ok n buf').
Proof.
  intros HA Hb Hl Hf. unfold net_recv.
  assert (Hnone : forall n, n <= 0 -> received buf n buf from /\ received_ok ok n buf)
    by (unfold received, received_ok; auto 8).
  eapply (safe_bind _ _ _ (fun r => exists s t, inv J s /\ r = env_recvfrom (w_env (get_world s)) t bufsize)).
  { apply guar_atomic. intros s Hs. eexists _, _. split; [reflexivity|]. cbn.
    split; [|split; [|now exists s, (w_tick (get_world s))]].
    - destruct Hs as [Hw HJ]. split; rewrite ?get_set_world; [quiet|]. apply F; [done|quiet].
    - unfold rel. rewrite get_set_world. apply world_quiet_step. quiet. }
  intros r (s & t & Hs & Hr). destruct r as [l a| |].
  - destruct (ok_recv _ (proj1 (proj1 Hs)) t bufsize l a ltac:(lia) (eq_sym Hr)) as (Hll & Hlb & Ha).
    rewrite mem_write_some by (pose proof (zlen_nonneg l); lia). change (take (Z.to_nat 0) buf) with (@nil Z).
    cbn [local bind app]. set (tail := drop _ _).
    assert (Hb1 : bytes_ok (l ++ tail) /\ length (l ++ tail) = length buf).
    { unfold tail. rewrite bytes_ok_app, length_app, length_drop.
      split; [auto using bytes_ok_drop|unfold zlen in *; lia]. }
    destruct Hb1 as [Hb1 Hl1].
    eapply (safe_bind _ _ _ (fun key => exists s, inv J s /\ key = g_crypto_key (get_world s))).
    { apply guar_atomic. intros s' Hs'. eexists _, s'. cbn. rewrite set_get_world. split; [reflexivity|].
      split; [done|]. split; [apply rel_refl|eauto]. }
    intros key (s' & Hs' & ->).
    destruct (decrypt_exact (g_crypto_key (get_world s')) (l ++ tail) (zlen l) Hb1
      ltac:(unfold zlen in *; lia)) as (r & buf' & Hd & HD).
    rewrite Hd. cbn [local bind].
    pose proof (decrypted_received _ _ _ _ _ a Hb1 HD Ha) as HR.
    pose proof (decrypted_ok _ ok _ _ _ _ _ _ _ _ (HA s s' Hs Hs') (eq_sym Hr) HD) as HR'.
    unfold received in *. rewrite Hl1 in HR. destruct (Z.ltb_spec r 0); [|done].
    eapply safe_bind; [apply safe_LOG; [done|repeat constructor; apply ip_terminated]|]. intros _ _.
    destruct HR as (? & ? & ? & _). cbn. unfold received_ok, NET_RECV_AUTH_FAILED. auto 8 with lia.
  - apply safe_ret. now apply Hnone.
  - eapply safe_bind; [apply safe_LOG; [done|constructor]|]. intros _ _. now apply Hnone.
Qed.

Lemma safe_net_recv buf bufsize from :
  bytes_ok buf -> 0 <= bufsize <= zlen buf -> addr_ok from ->
  safe J (net_recv buf bufsize from) (fun '(n, buf', from') => received buf n buf' from').
Proof.
  intros Hb Hl Hf. eapply safe_mono; [now apply (safe_net_recv_authentic (fun _ _ => True))|].
  intros [[n buf'] from'] [HR _]. exact HR.
Qed.

Lemma safe_net_poll e peers tui npeers :
  (forall s, inv J s -> length (peers s) = length tui /\ w_env (get_world s) = e) ->
  safe J (net_poll_peers peers tui npeers)
    (fun '(ret, tui', n) => length tui' = length tui /\ (npeers <> None -> n <> None) /\
       (uninterrupted e -> ret = 0 -> n <> None)).
Proof.
  intros Hp. unfold net_poll_peers. eapply (safe_bind _ _ _ (fun '(_, eintr) => uninterrupted e -> eintr = false)).
  { apply guar_atomic. intros s Hs. eexists _, _. split; [reflexivity|]. destruct (Hp s Hs) as [_ He].
    split; [destruct Hs as [Hw HJ]; split; [rewrite get_set_world; quiet|apply F; [done|quiet]]|].
    split; [red; rewrite get_set_world; apply world_quiet_step; quiet|]. cbn. intros Hc. rewrite He. apply Hc. }
  intros [ret eintr] Hi. destruct (ret <? 0).
  - destruct eintr; [apply safe_ret; split; [done|]; split; [done|]; intros Hc; now discriminate (Hi Hc)|].
    eapply safe_bind; [apply safe_LOG; [done|constructor]|]. now intros _ _.
  - destruct (ret =? 0); [|now apply safe_ret].
    eapply (safe_bind _ _ _ (fun '(t, _) => length t = length tui)); [|now intros [t n] Ht].
    apply guar_atomic. intros s Hs.
    destruct (poll_copy_spec (peers s) tui 0) as (tui' & -> & Hl & _); [rewrite (proj1 (Hp s Hs)); lia|].
    eexists _, s. split; [done|]. split; [done|]. split; [apply rel_refl|done].
Qed.

Lemma safe_render n : safe J (render (Some n)) (fun _ => True).
Proof. apply safe_on_world'; [done|]. intros w Hw. cbn. split; [quiet|]. now split; [quiet|]. Qed.

Lemma safe_screen on : safe J (tui_screen on) (fun _ => True).
Proof.
  apply safe_on_world'; [done|]. intros w Hw. cbn. destruct (g_tui_active w); [|now split].
  split; [quiet|]. now split; [quiet|].
Qed.
End safe.

(** [npeers] is initialised, or the terminal UI that would read it is off, or
    the poll that initialises it is never interrupted. *)
Definition main_ok (m : env * bool) (npeers : Z) : Prop :=
  0 <= npeers \/ m.2 = false \/ uninterrupted m.1.

Lemma main_ok_poll m npeers ret np :
  main_ok m npeers -> (npeers_of npeers <> None -> np <> None) -> (uninterrupted m.1 -> ret = 0 -> np <> None) ->
  main_ok m (npeers_to np) /\ (m.2 = true -> ret = 0 -> exists n, np = Some n).
Proof.
  unfold main_ok, npeers_to, npeers_of. intros Hn Hnp Hc.
  destruct np as [n|]; [split; [left; lia|eauto]|]. destruct (Z.ltb_spec npeers 0).
  - destruct Hn as [Hp|[Hb|He]]; [lia| |].
    + split; [now right; left|congruence].
    + split; [now right; right|]. intros _ Hr. now destruct (Hc He Hr).
  - exfalso. now apply Hnp.
Qed.

(** Nothing to check where the invariant permits every event. *)
Lemma may_send_any `{M : Monocypher} {S} `{HasWorld S} (J : S -> Prop) buf len dest :
  (forall e, Permits J e) -> may_send J buf len dest.
Proof. intros HJ key ty pl sq nc res _ _ _ _ _. apply HJ. Qed.
