(* ===== verification/Messages.v ===== *)
(** Sending protocol messages from any component: which messages a condition on
    the process lets out ([grants]), and the rule for the sequence "build a
    message, hand it to [net_send]" that server and client share. *)
From stdpp Require Import base list numbers option.
From S2P Require Import Prelude Prog World Consts Sequence Wire Crypto Events Replay Peer Net.

(** Logging with terminated arguments. *)
Ltac logging := eapply safe_LOG; [typeclasses eauto|repeat constructor; eauto with tund].

(** What a component promises about its invariant [J]: it contains the condition
    [W] on the process, and an outgoing event that [W] allows keeps it. *)
Class Governs {S} `{HW : HasWorld S} (J : S -> Prop) (W : world -> Prop) : Prop := {
  governs_world : forall s, J s -> W (get_world s);
  governs_permits : forall e, Allows W e -> Permits J e
}.

(** * Clocks and buffers *)

Section common.
Context {S : Type} `{HW : HasWorld S} (J : S -> Prop) {F : Framed J}.

Lemma safe_time : safe J (on_world' time_null) (fun t => 0 <= t < 2 ^ 62).
Proof.
  apply safe_on_world'; [done|]. intros w Hw. cbn. split; [quiet|]. split; [quiet|].
  apply (ok_time _ (proj1 Hw)).
Qed.

Lemma safe_now_ms : safe J (on_world' now_ms) is_u64.
Proof.
  apply safe_on_world'; [done|]. intros w Hw. cbn. split; [quiet|]. split; [quiet|].
  apply (ok_now_ms _ (proj1 Hw)).
Qed.

Lemma alloc_pkt : safe J (alloc TUND_MAX_PKT) (fun b => pkt_buf b /\ zlen b = TUND_MAX_PKT).
Proof.
  eapply safe_mono; [now apply safe_alloc|]. intros b [Hl Hb]. repeat split; auto. clia.
Qed.

(** What [tun_read] leaves behind. *)
Lemma safe_tun_read n :
  0 <= n -> safe J (on_world' (ask (fun e t => env_tun_read e t n)))
    (fun r => match r with ReadData d => zlen d <= n /\ bytes_ok d | _ => True end).
Proof.
  intros Hn. apply safe_on_world'; [done|]. intros w Hw. cbn. split; [quiet|]. split; [quiet|].
  destruct (env_tun_read _ _ _) eqn:E; [|done|done]. now apply (ok_tun_read _ (proj1 Hw) _ _ _ Hn E).
Qed.
End common.

Lemma built_pkt type payload buf r buf' : built type payload buf r buf' -> pkt_buf buf -> pkt_buf buf'.
Proof. intros (Hl & Hb & _) [_ H]. split; [done|]. unfold zlen in *. now rewrite Hl. Qed.

Lemma built_length type payload buf r buf' :
  built type payload buf r buf' -> pkt_buf buf -> r <= zlen buf'.
Proof. intros (Hl & _ & [->|(-> & Hm & _)]) [_ Hb]; unfold zlen in *; clia. Qed.

(** * Permissions to send *)

(** [W] allows this message to be sent to [dest]. *)
Definition grants `{M : Monocypher} (W : world -> Prop) (dest : sockaddr_in) (type : Z)
    (payload : bytes) : Prop :=
  forall key sequence nonce res,
    (exists w, W w /\ g_crypto_key w = key) -> 1 <= sequence < 2 ^ 64 -> length nonce = 24%nat ->
    bytes_ok nonce -> Allows W (EvSent (wire_bytes key type payload sequence nonce) dest res).

Lemma grants_any `{M : Monocypher} W dest type payload :
  (forall e, Allows W e) -> grants W dest type payload.
Proof. intros HA key sq nc res _ _ _ _. apply HA. Qed.

(** A message is on the wire when it was encrypted under the process's key. *)
Definition sent_message `{M : Monocypher} (key : bytes) (type : Z) (payload : bytes)
    (dest : sockaddr_in) (e : event) : Prop :=
  exists sequence nonce res, 1 <= sequence < 2 ^ 64 /\ length nonce = 24%nat /\ bytes_ok nonce /\
    e = EvSent (wire_bytes key type payload sequence nonce) dest res.

Lemma grants_policy `{M : Monocypher} key t0 (ok : event -> Prop) dest type payload :
  (forall e, sent_message key type payload dest e -> ok e) ->
  grants (policy key t0 ok) dest type payload.
Proof.
  intros Hok k sq nc res (w & (Hk & _) & <-) Hsq Hn Hnb. rewrite Hk.
  apply allows_policy, Hok. now exists sq, nc, res.
Qed.

Section grants.
Context `{M : Monocypher} {ML : MonocypherLaws M}.
Context {S : Type} `{HW : HasWorld S} (J : S -> Prop) (W : world -> Prop).
Context {HG : Governs J W}.

Lemma may_send_carried buf len dest type payload :
  (forall ty pl, carries buf len ty pl -> ty = type /\ pl = payload) ->
  grants W dest type payload -> may_send J buf len dest.
Proof.
  intros Hc HGr key ty pl sq nc res (s & [_ HJ] & Hk) Hcar Hsq Hn Hnb.
  destruct (Hc _ _ Hcar) as [-> ->]. apply governs_permits. apply HGr; auto.
  exists (get_world s). split; [now apply governs_world|done].
Qed.

(** The result of a builder, failed or not. *)
Lemma may_send_built type payload buf r buf' dest :
  built type payload buf r buf' -> is_u8 type -> grants W dest type payload ->
  may_send J buf' r dest.
Proof.
  intros (_ & _ & HH) Ht. apply may_send_carried. intros ty pl Hc.
  destruct HH as [->|(-> & Hm & Hmsg)].
  - destruct Hc as (_ & _ & Hl). pose proof (zlen_nonneg pl). clia.
  - now apply (message_carries _ _ _ (TUND_HDR_SIZE + zlen payload) _ _ Hmsg).
Qed.

(** Sending what a builder left. *)
Lemma safe_send_built {F : Framed J} type payload buf r buf' dest :
  built type payload buf r buf' -> pkt_buf buf -> is_u8 type -> grants W dest type payload ->
  safe J (net_send buf' r dest) (fun _ => True).
Proof.
  intros Hbt Hp Ht HGr. apply safe_net_send; try typeclasses eauto.
  - now apply (built_pkt _ _ _ _ _ Hbt).
  - now apply (built_length _ _ _ _ _ Hbt).
  - now apply (may_send_built _ _ _ _ _ _ Hbt).
Qed.
End grants.
