(* ===== verification/Boot.v ===== *)
(** Descriptors: creation of the UDP socket and name resolution
    ([network.c]) and the Linux TUN device ([tun/linux/tun.c]).  The kernel's
    answers are the oracle of the process; every descriptor opened or closed
    and every call that configures one is an event. *)
From stdpp Require Import base list numbers option.
From S2P Require Import Prelude Prog World Consts Sequence Wire Events Peer Net Messages.

(** * System calls *)

Definition TUN_IFNAME_MAX : Z := 32.
Definition AF_INET : Z := 2.

(** [linux/if.h], [linux/if_tun.h]. *)
Definition IFNAMSIZ : Z := 16.
Definition IFF_TUN : Z := 0x0001.
Definition IFF_NO_PI : Z := 0x1000.
Definition IFF_UP : Z := 0x1.
Definition IFF_RUNNING : Z := 0x40.

(** [tun_device_t] of the POSIX builds. *)
Record tun_device_t : Type := TunDevice { tun_fd : Z; ifname : bytes; tun_mtu : Z }.

(** As left by [memset] and [tun.fd = -1]. *)
Definition no_device : tun_device_t := TunDevice (-1) (replicate 32 0) 0.

(** [version.h]. *)
Definition TUND_VERSION : bytes := str "2.1" ++ [0].

Section boot.
Context {S : Type} `{HW : HasWorld S}.

(** [open] and [socket]: a descriptor, or [-1]. *)
Definition sys_open : prog S Z :=
  on_world' (fun w =>
    let '(fd, w) := ask (fun e t => env_sys e t) w in
    (fd, if fd <? 0 then w else emit (EvOpen fd) w)).

(** [bind], [ioctl], [pthread_create]: a status. *)
Definition sys_call (c : syscall) : prog S Z :=
  on_world' (fun w =>
    let '(r, w) := ask (fun e t => env_sys e t) w in (r, emit (EvSys c r) w)).

Definition sys_close (fd : Z) : prog S unit := on_world' (fun w => (tt, emit (EvClose fd) w)).

Definition sock_valid (fd : Z) : bool := 0 <=? fd.

(** [if (started) pthread_join]; the threads of a component are numbered, 0 is
    its main thread.  Joining waits for the thread to leave its loop. *)
Definition join_if (started : bool) (i : nat) : prog S unit :=
  if started then (let* _ := sys_call (ThreadJoin i) in Ret tt) else Ret tt.

(** * Sockets *)

Definition net_create_socket (bind_port : Z) : prog S Z :=
  let* sockfd := sys_open in
  if sockfd =? -1 then
    LOG LOG_LEVEL_ERROR [] ;; Ret (-1)
  else
    let* _ := sys_call (SetReuseAddr sockfd) in
    let* r := sys_call (Bind sockfd (htons bind_port)) in
    if r <? 0 then
      LOG LOG_LEVEL_ERROR [] ;;
      sys_close sockfd ;;
      Ret (-1)
    else
      LOG LOG_LEVEL_INFO [] ;; Ret sockfd.

(** The code and [*out]. *)
Definition net_resolve (host : bytes) (port : Z) (out : sockaddr_in) : prog S (Z * sockaddr_in) :=
  let* res := on_world' (ask (fun e t => env_resolve e t)) in
  match res with
  | None => LOG LOG_LEVEL_ERROR [host] ;; Ret (-1, out)
  | Some a =>
      let out := SockAddr (sin_family a) (htons port) (s_addr a) in
      LOG LOG_LEVEL_DEBUG [host; ip_to_str_buf (s_addr out)] ;; Ret (0, out)
  end.

(** * The Linux TUN device *)

(** The kernel replaces the pattern by the name of the interface. *)
Definition tun_open (dev : tun_device_t) : prog S (Z * tun_device_t) :=
  let* fd := sys_open in
  if fd <? 0 then
    LOG LOG_LEVEL_ERROR [] ;; Ret (-1, dev)
  else
    let* pattern := local (strncpy (str "tund%d" ++ [0]) (Z.to_nat IFNAMSIZ)) in
    let* r := sys_call (SetTunIff fd (Z.lor IFF_TUN IFF_NO_PI) pattern) in
    if r <? 0 then
      LOG LOG_LEVEL_ERROR [] ;;
      sys_close fd ;;
      Ret (-1, dev)
    else
      let* ifr_name := on_world' (ask (fun e t => env_ifname e t)) in
      let* nm := local (
        let? src := strncpy ifr_name (Z.to_nat (TUN_IFNAME_MAX - 1)) in
        let? nm := mem_write (ifname dev) 0 src in
        mem_write nm (TUN_IFNAME_MAX - 1) [0]) in
      let dev := TunDevice fd nm TUND_TUN_MTU in
      LOG LOG_LEVEL_INFO [nm] ;; Ret (0, dev).

Definition tun_close (dev : tun_device_t) : prog S tun_device_t :=
  if 0 <=? tun_fd dev then
    LOG LOG_LEVEL_INFO [ifname dev] ;;
    sys_close (tun_fd dev) ;;
    Ret (TunDevice (-1) (ifname dev) (tun_mtu dev))
  else Ret dev.

(** [dev_fd] is one load of [dev->fd], which is not atomic in the source: one
    for [poll] and one for [read].  The answer covers the poll that finds
    nothing, after which the second load is not made, and is arbitrary whatever
    descriptor was loaded. *)
Definition tun_read (dev_fd : prog S Z) (bufsize : Z) : prog S read_result :=
  let* pfd_fd := dev_fd in
  let* fd := dev_fd in
  on_world' (ask (fun e t => env_tun_read e t bufsize)).

(** One [ioctl] on the configuration socket [sock]; on failure the socket is
    closed and the function returns. *)
Definition configure (sock : Z) (c : syscall) (k : prog S Z) : prog S Z :=
  let* r := sys_call c in
  if r <? 0 then
    LOG LOG_LEVEL_ERROR [] ;;
    sys_close sock ;;
    Ret (-1)
  else k.

Definition tun_set_ip (dev : tun_device_t) (ip netmask : Z) : prog S Z :=
  let* sock := sys_open in
  if sock <? 0 then
    LOG LOG_LEVEL_ERROR [] ;; Ret (-1)
  else
    let* ifr_name := local (strncpy (ifname dev) (Z.to_nat IFNAMSIZ)) in
    configure sock (SetIfAddr sock ifr_name ip) (
    configure sock (SetIfNetmask sock ifr_name netmask) (
    configure sock (GetIfFlags sock ifr_name) (
      let* ifr_flags := on_world' (ask (fun e t => env_ifflags e t)) in
      configure sock (SetIfFlags sock ifr_name (Z.lor ifr_flags (Z.lor IFF_UP IFF_RUNNING))) (
        sys_close sock ;;
        LOG LOG_LEVEL_INFO [ifname dev; ip_to_str_buf ip; ip_to_str_buf netmask] ;;
        Ret 0)))).

(** The code and the device, whose [mtu] is set. *)
Definition tun_set_mtu (dev : tun_device_t) (mtu : Z) : prog S (Z * tun_device_t) :=
  let* sock := sys_open in
  if sock <? 0 then Ret (-1, dev)
  else
    let* ifr_name := local (strncpy (ifname dev) (Z.to_nat IFNAMSIZ)) in
    let* r := configure sock (SetIfMtu sock ifr_name mtu) (sys_close sock ;; Ret 0) in
    if r <? 0 then Ret (-1, dev)
    else
      let dev := TunDevice (tun_fd dev) (ifname dev) mtu in
      LOG LOG_LEVEL_INFO [ifname dev] ;; Ret (0, dev).
End boot.

(** * Accounts of descriptors *)

(** What concerns descriptors and threads in a trace, newest first. *)
Definition device_event (e : event) : bool :=
  match e with EvOpen _ | EvClose _ | EvSys _ _ => true | _ => false end.

Definition devices (w : world) : list event := List.filter device_event (w_trace w).

(** How many times [fd] was opened and not closed. *)
Fixpoint balance (fd : Z) (t : list event) : Z :=
  match t with
  | [] => 0
  | EvOpen n :: t => balance fd t + (if n =? fd then 1 else 0)
  | EvClose n :: t => balance fd t - (if n =? fd then 1 else 0)
  | _ :: t => balance fd t
  end.

(** The same descriptors are open in both. *)
Definition same_open (t t' : list event) : Prop := forall fd, balance fd t = balance fd t'.

#[export] Instance same_open_equiv : Equivalence same_open.
Proof. split; unfold same_open; congruence. Qed.

Lemma balance_app fd new t : balance fd (new ++ t) = balance fd new + balance fd t.
Proof. induction new as [|[] new IH]; cbn [app balance]; rewrite ?IH; lia. Qed.

Lemma balance_devices fd t : balance fd (List.filter device_event t) = balance fd t.
Proof. induction t as [|[] t IH]; cbn; rewrite ?IH; reflexivity. Qed.

Lemma same_open_close fd t : same_open (EvClose fd :: EvOpen fd :: t) t.
Proof. intros x. cbn. lia. Qed.

#[export] Instance same_open_sys c r : Proper (same_open ==> same_open) (cons (EvSys c r)).
Proof. intros t t' H x. apply H. Qed.

#[export] Instance same_open_cons e : Proper (same_open ==> same_open) (cons e).
Proof. intros t t' H x. destruct e; cbn; rewrite ?(H x); done. Qed.

Lemma devices_quiet w w' : world_quiet w w' -> devices w' = devices w.
Proof.
  intros [_ _ _ (new & Ht & Hq)]. unfold devices. rewrite Ht, List.filter_app.
  replace (List.filter device_event new) with (@nil event); [done|]. clear Ht.
  induction Hq as [|e new He _ IH]; [done|]. now destruct e.
Qed.

(** An invariant that knows the device events so far, and lets those happen
    that satisfy [ok]. *)
Class Accounts {S} `{HasWorld S} (J : list event -> S -> Prop) (ok : event -> Prop) : Prop := {
  accounts_framed t : Framed (J t);
  accounts_event t e w s : J t s -> device_event e = true -> ok e ->
    w_env w = w_env (get_world s) -> g_crypto_key w = g_crypto_key (get_world s) ->
    g_tui_active w = g_tui_active (get_world s) -> w_trace w = e :: w_trace (get_world s) ->
    J (e :: t) (set_world w s);
}.
#[export] Existing Instance accounts_framed.

(** The books of a process: [W] and exactly these device events. *)
Definition books (W : world -> Prop) (t : list event) (w : world) : Prop := W w /\ devices w = t.

#[export] Instance quiet_books W t {HQ : Quiet W} : Quiet (books W t).
Proof. intros w w' [H1 H2] Hq. split; [now apply (HQ w)|]. now rewrite (devices_quiet _ _ Hq). Qed.

Lemma allows_books W t e {HA : Allows W e} : device_event e = false -> Allows (books W t) e.
Proof.
  intros He w w' [H1 H2] E1 E2 E3 E4. split; [now apply (HA w)|]. unfold devices. rewrite E4. cbn. now rewrite He.
Qed.

#[export] Instance allows_books_sent W t wire dest res {HA : Allows W (EvSent wire dest res)} :
  Allows (books W t) (EvSent wire dest res).
Proof. now apply allows_books. Qed.

Lemma books_event W t e w w' {HA : Allows W e} :
  books W t w -> device_event e = true -> w_env w' = w_env w -> g_crypto_key w' = g_crypto_key w ->
  g_tui_active w' = g_tui_active w -> w_trace w' = e :: w_trace w -> books W (e :: t) w'.
Proof.
  intros [H1 H2] He E1 E2 E3 E4. split; [now apply (HA w)|]. unfold devices. rewrite E4. cbn. rewrite He.
  now f_equal.
Qed.

Section accounts.
Context {S : Type} `{HW : HasWorld S} (J : list event -> S -> Prop) (ok : event -> Prop).
Context {AJ : Accounts J ok}.
Hypothesis ok_open : forall fd, ok (EvOpen fd).
Hypothesis ok_sys : forall c r, ok (EvSys c r).
Hypothesis ok_close : forall fd, ok (EvClose fd).

Lemma wp_quiet {A} t (p : prog S A) Q s (K : A -> S -> Prop) :
  safe (J t) p Q -> inv (J t) s -> (forall a s', inv (J t) s' -> Q a -> K a s') -> wp p K s.
Proof.
  intros Hp Hs HK. destruct (safe_run _ _ _ s Hp Hs) as (a & s' & Hr & Hi & _ & Ha). exists a, s'. auto.
Qed.

(** A line of log. *)
Lemma wp_log {A} t level args (k : prog S A) s K :
  Forall (fun a => exists z, c_str a = Some z) args -> inv (J t) s ->
  (forall s', inv (J t) s' -> wp k K s') -> wp (LOG level args ;; k) K s.
Proof.
  intros Ha Hs HK. apply wp_bind. eapply wp_quiet; [apply safe_LOG; [typeclasses eauto|exact Ha]|exact Hs|].
  intros _ s' Hs' _. auto.
Qed.

(** A device event, after asking the kernel. *)
Lemma inv_event t w s e :
  inv (J t) s -> device_event e = true -> ok e -> world_ok w -> w_env w = w_env (get_world s) ->
  g_crypto_key w = g_crypto_key (get_world s) -> g_tui_active w = g_tui_active (get_world s) ->
  w_trace w = e :: w_trace (get_world s) -> inv (J (e :: t)) (set_world w s).
Proof.
  intros [_ HJ] Hd He Hw E1 E2 E3 E4. split; [now rewrite get_set_world|]. now apply accounts_event.
Qed.

Lemma wp_sys_open t s (K : Z -> S -> Prop) :
  inv (J t) s -> (forall s', inv (J t) s' -> K (-1) s') ->
  (forall fd s', 0 <= fd -> inv (J (EvOpen fd :: t)) s' -> K fd s') -> wp sys_open K s.
Proof.
  intros Hs H1 H2. unfold sys_open, on_world', on_world. eexists _, _. split; [reflexivity|]. cbn.
  pose proof (World.ok_sys _ (proj1 (proj1 Hs)) (w_tick (get_world s))) as Hsys.
  set (fd := env_sys _ _) in *. destruct (Z.ltb_spec fd 0).
  - replace fd with (-1) by lia. apply H1. destruct Hs as [Hw HB].
    split; rewrite ?get_set_world; [quiet|]. apply accounts_framed; [done|quiet].
  - apply H2; [done|]. apply (inv_event t _ _ (EvOpen fd) Hs); try done. destruct Hs as [Hw _]. quiet.
Qed.

Lemma wp_sys_call t c s (K : Z -> S -> Prop) :
  inv (J t) s -> (forall r s', -1 <= r -> inv (J (EvSys c r :: t)) s' -> K r s') -> wp (sys_call c) K s.
Proof.
  intros Hs HK. unfold sys_call, on_world', on_world. eexists _, _. split; [reflexivity|]. cbn.
  apply HK; [apply (World.ok_sys _ (proj1 (proj1 Hs)))|].
  apply (inv_event t _ _ (EvSys c _) Hs); try done. destruct Hs as [Hw _]. quiet.
Qed.

Lemma wp_sys_close t fd s (K : unit -> S -> Prop) :
  inv (J t) s -> (forall s', inv (J (EvClose fd :: t)) s' -> K tt s') -> wp (sys_close fd) K s.
Proof.
  intros Hs HK. eexists tt, _. split; [reflexivity|]. apply HK.
  apply (inv_event t _ _ (EvClose fd) Hs); try done. destruct Hs as [Hw _]. cbn. quiet.
Qed.

(** What follows when the system refuses a call. *)
Context (refused : Prop).
Hypothesis J_refused : forall t s tk, J t s -> env_sys (w_env (get_world s)) tk < 0 -> refused.

Lemma wp_try_open t s (K : Z -> S -> Prop) :
  inv (J t) s -> (forall s', refused -> inv (J t) s' -> K (-1) s') ->
  (forall fd s', 0 <= fd -> inv (J (EvOpen fd :: t)) s' -> K fd s') -> wp sys_open K s.
Proof.
  intros Hs H1 H2. pose proof (J_refused t s (w_tick (get_world s)) (proj2 Hs)) as Hr.
  destruct (wp_sys_open t s (fun fd s' => (fd = -1 /\ inv (J t) s') \/ (0 <= fd /\ inv (J (EvOpen fd :: t)) s')) Hs) as (fd & s' & Hrun & HQ); [auto|auto|].
  exists fd, s'. split; [done|]. destruct HQ as [[-> Hs']|[Hfd Hs']]; [|auto]. apply H1; [|done].
  injection Hrun as E _. cbn in E. apply Hr. lia.
Qed.

Lemma wp_try_call t c s (K : Z -> S -> Prop) :
  inv (J t) s -> (forall r s', (r < 0 -> refused) -> inv (J (EvSys c r :: t)) s' -> K r s') -> wp (sys_call c) K s.
Proof.
  intros Hs HK. pose proof (J_refused t s (w_tick (get_world s)) (proj2 Hs)) as Hr.
  destruct (wp_sys_call t c s (fun r s' => inv (J (EvSys c r :: t)) s') Hs) as (r & s' & Hrun & HQ); [auto|].
  exists r, s'. split; [done|]. apply HK; [|done]. injection Hrun as E _. cbn in E. rewrite E in Hr. exact Hr.
Qed.

(** Either no descriptor more than before, or a bound socket. *)
Lemma wp_create_socket t port s (K : Z -> S -> Prop) :
  inv (J t) s ->
  (forall t' s', refused -> same_open t' t -> inv (J t') s' -> K (-1) s') ->
  (forall fd r r' s', 0 <= fd -> 0 <= r' ->
     inv (J (EvSys (Bind fd (htons port)) r' :: EvSys (SetReuseAddr fd) r :: EvOpen fd :: t)) s' -> K fd s') ->
  wp (net_create_socket port) K s.
Proof.
  intros Hs H1 H2. unfold net_create_socket. apply wp_bind. apply (wp_try_open t); [done| |].
  - intros s1 Hbad Hs1. cbn [Z.eqb]. apply (wp_log t); [constructor|done|]. intros s2 Hs2. apply wp_ret.
    apply (H1 t); [done|reflexivity|done].
  - intros fd s1 Hfd Hs1. destruct (Z.eqb_spec fd (-1)); [lia|].
    apply wp_bind. eapply wp_try_call; [done|]. intros r s2 _ Hs2.
    apply wp_bind. eapply wp_try_call; [done|]. intros r' s3 Hbad Hs3.
    destruct (Z.ltb_spec r' 0); (eapply wp_log; [constructor|done|]); intros s4 Hs4.
    + apply wp_bind. eapply wp_sys_close; [done|]. intros s5 Hs5. apply wp_ret. eapply H1; [auto| |done].
      intros x. cbn. lia.
    + apply wp_ret. eauto.
Qed.

Lemma wp_resolve os t host port out z s (K : Z * sockaddr_in -> S -> Prop) :
  (forall s, J t s -> w_env (get_world s) = os) ->
  c_str host = Some z -> is_u16 port -> inv (J t) s ->
  (forall tk s', env_resolve os tk = None -> inv (J t) s' -> K (-1, out) s') ->
  (forall a tk s', env_resolve os tk = Some a -> addr_ok (SockAddr (sin_family a) (htons port) (s_addr a)) ->
     inv (J t) s' -> K (0, SockAddr (sin_family a) (htons port) (s_addr a)) s') ->
  wp (net_resolve host port out) K s.
Proof.
  intros Hos Hz Hp Hs H1 H2. unfold net_resolve. apply wp_bind. pose proof (Hos s (proj2 Hs)) as He.
  pose proof (ok_resolve _ (proj1 (proj1 Hs)) (w_tick (get_world s))) as Ha. rewrite He in Ha.
  eexists _, _. split; [reflexivity|]. cbn [ask]. rewrite He.
  assert (Hs1 : inv (J t) (set_world (tick (get_world s)) s)).
  { destruct Hs as [Hw HJ]. split; [rewrite get_set_world; quiet|]. apply accounts_framed; [done|quiet]. }
  destruct (env_resolve os (w_tick (get_world s))) as [a|] eqn:Er;
    (eapply wp_log; [repeat constructor; eauto with tund|exact Hs1|]); intros s2 Hs2; apply wp_ret; [|eauto].
  destruct (Ha a eq_refl) as (H3 & _ & H4). eapply H2; [exact Er| |done]. split; [done|]. split; [apply htons_is_u16|done].
Qed.

(** A device whose name can be printed. *)
Definition dev_ok (dev : tun_device_t) : Prop :=
  length (ifname dev) = 32%nat /\ exists z, c_str (ifname dev) = Some z.

Lemma wp_tun_open t dev s (K : Z * tun_device_t -> S -> Prop) :
  dev_ok dev -> inv (J t) s ->
  (forall t' s', refused -> same_open t' t -> inv (J t') s' -> K (-1, dev) s') ->
  (forall r dev' s', 0 <= tun_fd dev' -> 0 <= r -> dev_ok dev' ->
     inv (J (EvSys (SetTunIff (tun_fd dev') 0x1001 (pad_to 16 (str "tund%d"))) r ::
             EvOpen (tun_fd dev') :: t)) s' -> K (0, dev') s') ->
  wp (tun_open dev) K s.
Proof.
  intros [Hl _] Hs H1 H2. unfold tun_open. apply wp_bind. apply (wp_try_open t); [done| |].
  - intros s1 Hbad Hs1. cbn [Z.ltb Z.compare]. apply (wp_log t); [constructor|done|]. intros s2 Hs2. apply wp_ret.
    apply (H1 t); [done|reflexivity|done].
  - intros fd s1 Hfd Hs1. destruct (Z.ltb_spec fd 0); [lia|].
    change (strncpy (str "tund%d" ++ [0]) (Z.to_nat IFNAMSIZ)) with (Some (pad_to 16 (str "tund%d"))).
    cbn [local bind]. apply wp_bind. eapply wp_try_call; [done|]. intros r s2 Hbad Hs2. destruct (Z.ltb_spec r 0).
    + eapply wp_log; [constructor|done|]. intros s3 Hs3.
      apply wp_bind. eapply wp_sys_close; [done|]. intros s4 Hs4. apply wp_ret. eapply H1; [auto| |done].
      intros x. cbn. lia.
    + apply wp_bind. eapply (wp_quiet _ _ (fun nm => exists z, c_str nm = Some z)); [|done|].
      { apply safe_on_world'; [typeclasses eauto|]. intros w Hw. cbn. split; [quiet|]. split; [quiet|].
        apply (ok_kernel_name _ (proj1 Hw)). }
      intros nm s3 Hs3 [z Hz]. change (Z.to_nat (TUN_IFNAME_MAX - 1)) with 31%nat.
      change (TUN_IFNAME_MAX - 1) with 31. rewrite (strncpy_str _ z _ Hz).
      pose proof (length_pad_to 31 z) as Hp.
      destruct (split_at 31 (ifname dev)) as (l1 & l2 & Hd & Hl1); [lia|].
      rewrite (mem_write_at [] l1 l2) by (done || now rewrite Hp). cbn [app].
      rewrite (mem_write_at (pad_to 31 z) l2 []); [|now rewrite app_nil_r|unfold zlen; lia|].
      2:{ rewrite Hd, length_app in Hl. cbn. lia. }
      cbn [local bind]. assert (Hok : dev_ok (TunDevice fd (pad_to 31 z ++ [0]) TUND_TUN_MTU)).
      { split; cbn; [rewrite length_app; cbn; lia|apply terminated_app]. }
      eapply wp_log; [repeat constructor; apply Hok|done|]. intros s4 Hs4. apply wp_ret.
      apply (H2 r (TunDevice fd (pad_to 31 z ++ [0]) TUND_TUN_MTU)); done.
Qed.

Lemma wp_tun_close t dev s (K : tun_device_t -> S -> Prop) :
  dev_ok dev -> 0 <= tun_fd dev -> inv (J t) s ->
  (forall s', inv (J (EvClose (tun_fd dev) :: t)) s' -> K (TunDevice (-1) (ifname dev) (tun_mtu dev)) s') ->
  wp (tun_close dev) K s.
Proof.
  intros [_ Hd] Hf Hs HK. unfold tun_close. destruct (Z.leb_spec 0 (tun_fd dev)); [|lia].
  eapply wp_log; [repeat constructor; exact Hd|done|]. intros s1 Hs1.
  apply wp_bind. eapply wp_sys_close; [done|]. intros s2 Hs2. apply wp_ret. auto.
Qed.

(** Calls that all succeeded, newest first. *)
Definition succeeded (cs : list syscall) (evs : list event) : Prop :=
  Forall2 (fun c e => exists r, 0 <= r /\ e = EvSys c r) cs evs.

Lemma succeeded_cons c r cs evs : 0 <= r -> succeeded cs evs -> succeeded (c :: cs) (EvSys c r :: evs).
Proof. intros. constructor; eauto. Qed.

Lemma same_open_session sock cs evs t :
  succeeded cs evs -> same_open (EvClose sock :: evs ++ EvOpen sock :: t) t.
Proof.
  intros H fd. cbn [balance]. assert (Hz : balance fd evs = 0).
  { induction H as [|c e cs evs (r & _ & ->) _ IH]; [done|exact IH]. }
  rewrite balance_app, Hz. cbn. lia.
Qed.

Lemma wp_configure sock c k evs cs t s (K : Z -> S -> Prop) :
  succeeded cs evs -> inv (J (evs ++ EvOpen sock :: t)) s ->
  (forall t' s', refused -> same_open t' t -> inv (J t') s' -> K (-1) s') ->
  (forall evs s', succeeded (c :: cs) evs -> inv (J (evs ++ EvOpen sock :: t)) s' -> wp k K s') ->
  wp (configure sock c k) K s.
Proof.
  intros Hc Hs H1 H2. unfold configure. apply wp_bind. eapply wp_try_call; [done|].
  intros r s1 Hbad Hs1. destruct (Z.ltb_spec r 0).
  - eapply wp_log; [constructor|done|]. intros s2 Hs2.
    apply wp_bind. eapply wp_sys_close; [done|]. intros s3 Hs3. apply wp_ret. eapply H1; [auto| |done].
    rewrite <- (same_open_session sock cs evs t Hc) at 2. intros x. reflexivity.
  - apply (H2 (EvSys c r :: evs)); [now apply succeeded_cons|done].
Qed.

(** Newest first. *)
Definition ip_calls (sock : Z) (nm : bytes) (ip mask flags : Z) : list syscall :=
  [SetIfFlags sock nm (Z.lor flags (Z.lor IFF_UP IFF_RUNNING)); GetIfFlags sock nm;
   SetIfNetmask sock nm mask; SetIfAddr sock nm ip].

Lemma wp_set_ip t dev ip mask s (K : Z -> S -> Prop) :
  dev_ok dev -> inv (J t) s ->
  (forall t' s', refused -> same_open t' t -> inv (J t') s' -> K (-1) s') ->
  (forall sock nm flags evs s', strncpy (ifname dev) 16 = Some nm ->
     succeeded (ip_calls sock nm ip mask flags) evs ->
     inv (J (EvClose sock :: evs ++ EvOpen sock :: t)) s' -> K 0 s') ->
  wp (tun_set_ip dev ip mask) K s.
Proof.
  intros [Hl Hd] Hs H1 H2. unfold tun_set_ip. apply wp_bind. apply (wp_try_open t); [done| |].
  { intros s1 Hbad Hs1. cbn [Z.ltb Z.compare]. apply (wp_log t); [constructor|done|]. intros s2 Hs2. apply wp_ret.
    apply (H1 t); [done|reflexivity|done]. }
  intros sock s1 Hf Hs1. destruct (Z.ltb_spec sock 0); [lia|]. change (Z.to_nat IFNAMSIZ) with 16%nat.
  destruct (strncpy_full (ifname dev) 16) as [nm Hnm]; [lia|]. rewrite Hnm. cbn [local bind].
  apply (wp_configure _ _ _ [] [] t); [constructor|done|done|]. intros e1 s2 He1 Hs2.
  eapply wp_configure; [exact He1|done|done|]. intros e2 s3 He2 Hs3.
  eapply wp_configure; [exact He2|done|done|]. intros e3 s4 He3 Hs4.
  apply wp_bind. eapply (wp_quiet _ _ (fun _ => True)); [|done|].
  { apply safe_on_world'; [typeclasses eauto|]. intros w Hw. cbn. split; [quiet|]. now split; [quiet|]. }
  intros flags s5 Hs5 _. eapply wp_configure; [exact He3|done|done|]. intros e4 s6 He4 Hs6.
  apply wp_bind. eapply wp_sys_close; [done|]. intros s7 Hs7.
  eapply wp_log; [repeat constructor; auto using ip_terminated|done|]. intros s8 Hs8. apply wp_ret. eauto.
Qed.

Lemma wp_set_mtu t dev mtu s (K : Z * tun_device_t -> S -> Prop) :
  dev_ok dev -> inv (J t) s ->
  (forall t' s', refused -> same_open t' t -> inv (J t') s' -> K (-1, dev) s') ->
  (forall sock nm evs s', strncpy (ifname dev) 16 = Some nm -> succeeded [SetIfMtu sock nm mtu] evs ->
     inv (J (EvClose sock :: evs ++ EvOpen sock :: t)) s' ->
     K (0, TunDevice (tun_fd dev) (ifname dev) mtu) s') ->
  wp (tun_set_mtu dev mtu) K s.
Proof.
  intros [Hl Hd] Hs H1 H2. unfold tun_set_mtu. apply wp_bind. apply (wp_try_open t); [done| |].
  { intros s1 Hbad Hs1. apply wp_ret. apply (H1 t); [done|reflexivity|done]. }
  intros sock s1 Hf Hs1. destruct (Z.ltb_spec sock 0); [lia|]. change (Z.to_nat IFNAMSIZ) with 16%nat.
  destruct (strncpy_full (ifname dev) 16) as [nm Hnm]; [lia|]. rewrite Hnm. cbn [local bind].
  apply wp_bind. apply (wp_configure _ _ _ [] [] t); [constructor|done| |].
  { intros t' s' Hbad Ht Hs'. apply wp_ret. eauto. }
  intros evs s2 He Hs2. apply wp_bind. eapply wp_sys_close; [done|]. intros s3 Hs3. apply wp_ret.
  cbn [Z.ltb Z.compare]. eapply wp_log; [repeat constructor; exact Hd|done|]. intros s4 Hs4. apply wp_ret. eauto.
Qed.
End accounts.

(** * Reading device events *)

Lemma safe_device_read {S} `{HasWorld S} (J : S -> Prop) {F : Framed J} (dev_fd : prog S Z) n :
  safe J dev_fd (fun _ => True) -> 0 <= n ->
  safe J (tun_read dev_fd n) (fun r => match r with ReadData d => zlen d <= n /\ bytes_ok d | _ => True end).
Proof.
  intros Hf Hn. eapply safe_bind; [exact Hf|]. intros _ _. eapply safe_bind; [exact Hf|]. intros _ _. now apply safe_tun_read.
Qed.

(** The calls of a list of events with their results, newest first. *)
Fixpoint results (t : list event) : list (syscall * Z) :=
  match t with
  | [] => []
  | EvSys c r :: t => (c, r) :: results t
  | _ :: t => results t
  end.

Lemma results_app t t' : results (t ++ t') = results t ++ results t'.
Proof. induction t as [|[] t IH]; cbn; rewrite ?IH; done. Qed.

(** The call was made and succeeded, or its result is not looked at. *)
Definition granted (c : syscall) (x : syscall * Z) : Prop :=
  x.1 = c /\ match c with SetReuseAddr _ => True | _ => 0 <= x.2 end.

(** Exactly these calls were made since [t0], newest first, and granted. *)
Definition accepted (cs : list syscall) (t0 t : list event) : Prop :=
  exists rs, results t = rs ++ results t0 /\ Forall2 granted cs rs.

Lemma accepted_refl t : accepted [] t t.
Proof. exists []. split; [done|constructor]. Qed.

Lemma accepted_call c r cs t0 t : 0 <= r -> accepted cs t0 t -> accepted (c :: cs) t0 (EvSys c r :: t).
Proof.
  intros Hr (rs & E & H). exists ((c, r) :: rs). cbn. rewrite E. split; [done|]. constructor; [|done].
  split; [done|]. now destruct c.
Qed.

Lemma accepted_reuse fd r cs t0 t : accepted cs t0 t -> accepted (SetReuseAddr fd :: cs) t0 (EvSys (SetReuseAddr fd) r :: t).
Proof. intros (rs & E & H). exists ((SetReuseAddr fd, r) :: rs). cbn. rewrite E. split; [done|]. now constructor. Qed.

Lemma accepted_open fd cs t0 t : accepted cs t0 t -> accepted cs t0 (EvOpen fd :: t).
Proof. done. Qed.

(** A session on a socket of its own. *)
Lemma accepted_session sock cs' evs cs t0 t :
  succeeded cs' evs -> accepted cs t0 t -> accepted (cs' ++ cs) t0 (EvClose sock :: evs ++ EvOpen sock :: t).
Proof.
  intros H Ha. change (accepted (cs' ++ cs) t0 (evs ++ EvOpen sock :: t)).
  induction H as [|c e cs' evs (r & Hr & ->) _ IH]; [exact Ha|]. now apply accepted_call.
Qed.

(** How many times the thread [i] was created and not joined. *)
Fixpoint unjoined (i : nat) (t : list event) : Z :=
  match t with
  | [] => 0
  | EvSys (ThreadCreate j) r :: t => unjoined i t + (if (i =? j)%nat && (r =? 0) then 1 else 0)
  | EvSys (ThreadJoin j) _ :: t => unjoined i t - (if (i =? j)%nat then 1 else 0)
  | _ :: t => unjoined i t
  end.

Lemma unjoined_app i t t' : unjoined i (t ++ t') = unjoined i t + unjoined i t'.
Proof.
  induction t as [|e t IH]; [done|]. cbn [app unjoined]. destruct e as [| | | | |[]| | | | |]; rewrite ?IH; lia.
Qed.

Definition thread_call (c : syscall) : bool :=
  match c with ThreadCreate _ | ThreadJoin _ => true | _ => false end.

Lemma unjoined_succeeded i cs evs :
  succeeded cs evs -> forallb (fun c => negb (thread_call c)) cs = true -> unjoined i evs = 0.
Proof.
  induction 1 as [|c e cs evs (r & _ & ->) _ IH]; [done|]. cbn. intros [H1 H2]%andb_true_iff.
  destruct c; try done; now apply IH.
Qed.

(** The calls that configure the interface, newest first. *)
Definition interface_calls (sock fd sock1 sock2 port flags : Z) (nm : bytes) (ip mask : Z) : list syscall :=
  [SetIfMtu sock2 nm TUND_TUN_MTU] ++ ip_calls sock1 nm ip mask flags ++
  [SetTunIff fd 0x1001 (pad_to 16 (str "tund%d")); Bind sock (htons port); SetReuseAddr sock].

(** Every array of a log line is terminated. *)
Ltac printable := repeat first [apply List.Forall_nil | apply List.Forall_cons]; auto using ip_terminated, terminated_app.

(** * What a run has done *)

Section effects.
Context {S : Type} `{HW : HasWorld S}.

(** Only the process changed, by these device events. *)
Definition only_devices (t : list event) (s s' : S) : Prop :=
  exists w, s' = set_world w s /\ devices w = t ++ devices (get_world s).

Lemma only_devices_trans t t' s1 s2 s3 :
  only_devices t s1 s2 -> only_devices t' s2 s3 -> only_devices (t' ++ t) s1 s3.
Proof.
  intros (w & -> & Hw) (w' & -> & Hw'). exists w'. rewrite set_set_world. split; [done|].
  now rewrite Hw', get_set_world, Hw, app_assoc.
Qed.

Lemma log_effect level args s u s' : run (LOG level args) s = Some (u, s') -> only_devices [] s s'.
Proof.
  unfold LOG, on_world. cbn [run atomic]. destruct (_ <? _).
  - intros [= _ <-]. now exists (get_world s).
  - destruct (mapM c_str args); [|done]. cbn. intros [= _ <-]. now eexists.
Qed.

Lemma screen_effect on s u s' : run (tui_screen on) s = Some (u, s') -> only_devices [] s s'.
Proof. intros [= _ <-]. destruct (g_tui_active (get_world s)); now eexists. Qed.

Lemma close_effect fd s u s' : run (sys_close fd) s = Some (u, s') -> only_devices [EvClose fd] s s'.
Proof. intros [= _ <-]. now eexists. Qed.

Lemma tun_close_effect dev s dev' s' :
  run (tun_close dev) s = Some (dev', s') -> 0 <= tun_fd dev -> only_devices [EvClose (tun_fd dev)] s s'.
Proof.
  intros H Hf. unfold tun_close in H. destruct (Z.leb_spec 0 (tun_fd dev)); [|lia].
  apply run_bind_inv in H as (u & s1 & H1 & H). apply run_bind_inv in H as (u2 & s2 & H2 & [= _ <-]).
  exact (only_devices_trans _ _ _ _ _ (log_effect _ _ _ _ _ H1) (close_effect _ _ _ _ H2)).
Qed.

Lemma join_effect b i s u s' :
  run (join_if b i) s = Some (u, s') -> exists t, only_devices t s s' /\
    (forall fd, balance fd t = 0) /\ (forall j, unjoined j t = if b && (j =? i)%nat then -1 else 0).
Proof.
  destruct b; cbn; intros [= _ <-].
  - eexists [_]. split; [now eexists|]. split; [done|]. intros j. cbn. destruct (j =? i)%nat; done.
  - exists []. split; [|done]. exists (get_world s). now rewrite set_get_world.
Qed.
End effects.
