(* ===== verification/Frame.v ===== *)
(** What the protocol and the datagram layer leave alone: none of their
    operations opens, closes or configures a descriptor or touches the
    component's own structure. *)
From stdpp Require Import base list numbers option.
From S2P Require Import Prelude Prog World Consts Sequence Wire Ipv4 Crypto Events Replay Peer Net Messages Boot.

(** A part of a component's state that is not in its process. *)
Class WorldFree {S T} `{HasWorld S} (h : S -> T) : Prop :=
  world_free : forall w s, h (set_world w s) = h s.

Section fixture.
Context `{M : Monocypher} {S : Type} `{HW : HasWorld S} {T : Type} (h : S -> T) {HF : WorldFree h}.

(** The part of the component's structure that [h] selects is as before, no
    descriptor was touched, and a stop request stands. *)
Record steady (s s' : S) : Prop := {
  steady_part : h s' = h s;
  steady_devices : devices (get_world s') = devices (get_world s);
  steady_stopped : g_running (get_world s) = false -> g_running (get_world s') = false
}.

#[export] Instance steady_refl : Reflexive steady.
Proof. now split. Qed.

#[export] Instance steady_trans : Transitive steady.
Proof. intros s1 s2 s3 [] []. split; [congruence|congruence|auto]. Qed.

Lemma steady_on_world {A} (g : world -> option (A * world)) :
  (forall w a w', g w = Some (a, w') -> devices w' = devices w /\ (g_running w = false -> g_running w' = false)) ->
  always steady (on_world g).
Proof.
  intros Hg. apply always_atomic. intros s b s' H. destruct (g (get_world s)) as [[a w]|] eqn:E; [|done].
  injection H as _ <-. destruct (Hg _ _ _ E) as [H1 H2]. split; rewrite ?get_set_world; auto.
Qed.

Lemma steady_on_world' {A} (g : world -> A * world) :
  (forall w, devices (g w).2 = devices w /\ (g_running w = false -> g_running (g w).2 = false)) ->
  always steady (on_world' g).
Proof.
  intros Hg. apply steady_on_world. intros w a w' [= H]. specialize (Hg w). now rewrite H in Hg.
Qed.

Lemma steady_ask {A} (g : env -> nat -> A) : always steady (on_world' (ask g)).
Proof. now apply steady_on_world'. Qed.

Lemma steady_read_world {A} (g : world -> A) : always steady (read_world g).
Proof. now apply steady_on_world'. Qed.

Lemma steady_alloc n : always steady (alloc n).
Proof. now apply steady_on_world'. Qed.

Lemma steady_running : always steady tund_is_running.
Proof. now apply steady_on_world'. Qed.

Lemma steady_stop : always steady tund_request_stop.
Proof. now apply steady_on_world'. Qed.

Lemma steady_LOG level args : always steady (LOG level args).
Proof.
  apply steady_on_world. intros w a w'. destruct (_ <? _); [now intros [= _ <-]|].
  destruct (mapM c_str args); [|done]. intros H. injection H as _ <-. done.
Qed.

Lemma steady_sendto wire dest : always steady (sendto wire dest).
Proof. now apply steady_on_world'. Qed.

Lemma steady_tun_write pkt : always steady (tun_write pkt).
Proof. now apply steady_on_world'. Qed.

Lemma steady_puts text : always steady (puts text).
Proof. now apply steady_on_world'. Qed.

Lemma random_loop_devices fuel : forall len acc w r w',
  random_loop fuel len acc w = Some (r, w') ->
  devices w' = devices w /\ (g_running w = false -> g_running w' = false).
Proof.
  induction fuel as [|fuel IH]; intros len acc w r w'; cbn [random_loop]; destruct (_ <? _);
    try done; try (now intros [= _ <-]).
  cbn. destruct (env_read _ _ _); [destruct (_ <=? _)| |]; intros H; try (now apply IH in H); now simplify_eq.
Qed.

Lemma steady_random len : always steady (on_world (proto_random_bytes len)).
Proof.
  apply steady_on_world. intros w a w' H. unfold proto_random_bytes, proto_random_fd in H.
  destruct (g_proto_random_fd w <? 0); cbn [ask] in H; (destruct (_ <? 0); [now simplify_eq|]);
    now apply random_loop_devices in H.
Qed.

Lemma steady_cas n : always steady (cas_sequence n).
Proof. apply steady_on_world'. intros w. now destruct (_ =? 0). Qed.

Lemma steady_fetch_add : always steady fetch_add_sequence.
Proof. apply steady_on_world'. intros w. cbn. now destruct (_ =? 0). Qed.

#[local] Hint Resolve steady_ask steady_read_world steady_alloc steady_LOG steady_sendto
  steady_puts steady_random steady_cas steady_fetch_add : frame.

Lemma steady_sequence_init fuel : forall current, always steady (sequence_init fuel current).
Proof.
  induction fuel as [|fuel IH]; intros current; cbn [sequence_init]; (destruct (_ =? 0); [|done]).
  - now apply always_atomic.
  - unfold proto_initial_sequence. frame.
Qed.

Lemma steady_next_sequence : always steady proto_next_sequence.
Proof. pose proof steady_sequence_init. unfold proto_next_sequence. frame. Qed.

#[local] Hint Resolve steady_next_sequence : frame.

Lemma steady_write_hdr buf type len : always steady (proto_write_hdr buf type len).
Proof. unfold proto_write_hdr. frame. Qed.

#[local] Hint Resolve steady_write_hdr : frame.

Lemma steady_build buf type len f : always steady (build buf type len f).
Proof. unfold build. frame. Qed.

#[local] Hint Resolve steady_build : frame.

Lemma steady_build_register buf name : always steady (proto_build_register buf name).
Proof. unfold proto_build_register. frame. Qed.

Lemma steady_event_join name ip ep : always steady (app_event_peer_join name ip ep).
Proof. unfold app_event_peer_join. frame. Qed.

Lemma steady_event_leave ip reason : always steady (app_event_peer_leave ip reason).
Proof. unfold app_event_peer_leave. frame. Qed.

Lemma steady_encrypt buf len key : always steady (proto_encrypt buf len key).
Proof. unfold proto_encrypt. frame. Qed.

#[local] Hint Resolve steady_encrypt : frame.

Lemma steady_net_send buf len dest : always steady (net_send buf len dest).
Proof. unfold net_send. frame. Qed.

Lemma steady_net_recv buf size from : always steady (net_recv buf size from).
Proof. unfold net_recv. frame. Qed.

Lemma steady_net_poll peers tui_peers n : always steady (net_poll_peers peers tui_peers n).
Proof.
  unfold net_poll_peers. frame. apply always_atomic. intros s r s'.
  destruct (poll_copy _ _ _); [|done]. intros [= _ <-]. reflexivity.
Qed.

Lemma steady_screen on : always steady (tui_screen on).
Proof. apply steady_on_world'. intros w. now destruct (g_tui_active w). Qed.

Lemma steady_render n : always steady (render n).
Proof. destruct n; [now apply steady_on_world'|now apply always_atomic]. Qed.
End fixture.

#[export] Hint Resolve steady_ask steady_read_world steady_alloc steady_running steady_stop
  steady_LOG steady_sendto steady_tun_write steady_build steady_build_register
  steady_event_join steady_event_leave steady_net_send steady_net_recv steady_net_poll
  steady_render steady_screen : frame.
#[export] Hint Extern 0 (WorldFree _) => typeclasses eauto : frame.
