(* ===== verification/Halt.v ===== *)
(** Termination of a pool of looping threads once a stop has been requested:
    however their actions interleave, only finitely many are left, and the
    threads that are not undefined all leave their loops. *)
From stdpp Require Import base list numbers option.
From S2P Require Import Prelude Prog.

(** * Products of well-founded relations *)

(** One component of the list makes a step of its relation. *)
Definition one_of {A} (T : nat -> A -> A -> Prop) (l' l : list A) : Prop :=
  exists i x x', l !! i = Some x /\ T i x' x /\ l' = <[i := x']> l.

Lemma one_of_acc {A} (l : list A) : forall T : nat -> A -> A -> Prop,
  (forall i x, l !! i = Some x -> Acc (T i) x) -> Acc (one_of T) l.
Proof.
  induction l as [|x l IH]; intros T Hl; [constructor; intros l' (i & y & y' & Hi & _); done|].
  pose proof (Hl 0%nat x eq_refl) as Hx. assert (Ht : Acc (one_of (fun i => T (S i))) l).
  { apply IH. intros i y Hi. exact (Hl (S i) y Hi). }
  clear IH Hl. revert l Ht. induction Hx as [x _ IHx]. intros l Ht. induction Ht as [l Ht IHl].
  constructor. intros l' ([|i] & y & y' & Hi & HT & ->); cbn in Hi |- *.
  - injection Hi as ->. apply IHx; [exact HT|]. now constructor.
  - apply IHl. now exists i, y, y'.
Qed.

(** * Threads *)

Section halt.
Context {S : Type} (body : nat -> Z -> prog S ctl) (interrupt : S -> S) (stopped : S -> Prop).

(** A turn of the pool: any number of signals, then an action of one of the
    threads or the start of its next iteration. *)
Inductive turn : config -> config -> Prop :=
| turn_act (pool : list (prog S ctl)) s n i B (f : S -> option (B * S)) k b s' :
    pool !! i = Some (Act f k) -> f (Nat.iter n interrupt s) = Some (b, s') ->
    turn (pool, s) (<[i := k b]> pool, s')
| turn_loop (pool : list (prog S ctl)) s n i l :
    pool !! i = Some (Ret (Continue l)) ->
    turn (pool, s) (<[i := body i l]> pool, Nat.iter n interrupt s).

Lemma signals_steps pool s n : steps body interrupt (pool, s) (pool, Nat.iter n interrupt s).
Proof. induction n as [|n IH]; [apply steps_refl|]. exact (steps_more _ _ _ _ _ IH (step_signal _ _ _ _)). Qed.

(** Turns are executions of the pool. *)
Lemma turn_steps c c' : turn c c' -> steps body interrupt c c'.
Proof.
  intros [pool s n i B f k b s' Hi Hf|pool s n i l Hi];
    (eapply steps_more; [apply (signals_steps pool s n)|]); [eapply step_act|eapply step_loop]; eauto.
Qed.

(** An action of one thread after the stop request. *)
Definition winds_down (i : nat) (p' p : prog S ctl) : Prop :=
  match p with
  | Ret (Continue l) => p' = body i l
  | Ret Break => False
  | Act f k => exists b s s', stopped s /\ f s = Some (b, s') /\ p' = k b
  end.

Lemma winds_down_ret i l : Acc (winds_down i) (body i l) -> Acc (winds_down i) (Ret (Continue l)).
Proof. intros H. constructor. now intros p' ->. Qed.

Lemma winds_down_break i : Acc (winds_down i) (Ret Break).
Proof. now constructor. Qed.

(** Enough that a new iteration winds down: what is left of the current one is
    finite. *)
Lemma winds_down_acc i :
  (forall l, Acc (winds_down i) (body i l)) -> forall p, Acc (winds_down i) p.
Proof.
  intros Hb p. induction p as [[l|]|B f k IH]; [now apply winds_down_ret|apply winds_down_break|].
  constructor. intros p' (b & s & s' & _ & _ & ->). apply IH.
Qed.

Hypothesis bodies : forall i l, Acc (winds_down i) (body i l).
Hypothesis bodies_keep : forall i l, always (fun s s' => stopped s -> stopped s') (body i l).
Hypothesis signals_keep : forall s, stopped s -> stopped (interrupt s).

(** Every interleaving of the threads is finite once the stop is requested. *)
Lemma turns_finite pool s :
  Forall (always (fun s s' => stopped s -> stopped s')) pool -> stopped s ->
  Acc (fun c' c => turn c c') (pool, s).
Proof.
  assert (Hpool : Acc (one_of winds_down) pool) by (apply one_of_acc; intros; now apply winds_down_acc).
  revert s. induction Hpool as [pool _ IH]. intros s Hp Hs. constructor. intros c' Hc.
  assert (Hn : forall n, stopped (Nat.iter n interrupt s)) by (induction n; cbn; auto).
  inversion Hc as [pool0 s0 n i B f k b s' Hi Hf E1 E2|pool0 s0 n i l Hi E1 E2]; subst pool0 s0 c'.
  - pose proof (proj1 (Forall_lookup _ _) Hp _ _ Hi) as [H1 H2]. apply IH.
    + exists i, (Act f k), (k b). repeat split; [done|]. exists b, (Nat.iter n interrupt s), s'. auto.
    + now apply Forall_insert.
    + exact (H1 _ _ _ Hf (Hn n)).
  - apply IH; [|now apply Forall_insert|apply Hn]. exists i, (Ret (Continue l)), (body i l). done.
Qed.

Definition left_loop (p : prog S ctl) : bool := match p with Ret Break => true | _ => false end.

(** A pool that is not undefined either makes a turn or has left all its loops. *)
Lemma turn_or_done pool s :
  ~ wrong (pool, s) -> (exists c, turn (pool, s) c) \/ Forall (fun p => p = Ret Break) pool.
Proof.
  intros Hw. destruct (decide (Forall left_loop pool)) as [H|H].
  { right. revert H. apply Forall_impl. now intros [[]|]. }
  left. apply not_Forall_Exists in H; [|apply _].
  apply Exists_exists in H as (p & Hin & Hp). apply list_elem_of_In, list_elem_of_lookup in Hin as [i Hi].
  destruct p as [[l|]|B f k]; [|now destruct Hp|].
  - eexists. now apply (turn_loop pool s 0 i l).
  - destruct (f s) as [[b s']|] eqn:E; [|destruct Hw; now exists i, B, f, k].
    eexists. now apply (turn_act pool s 0 i B f k b s').
Qed.

(** Hence every way of going on ends with every loop left. *)
Lemma turns_end pool s :
  Acc (fun c' c => turn c c') (pool, s) ->
  (forall c, steps body interrupt (pool, s) c -> ~ wrong c) ->
  exists pool' s', steps body interrupt (pool, s) (pool', s') /\ Forall (fun p => p = Ret Break) pool'.
Proof.
  intros Hacc. remember (pool, s) as c eqn:E. revert pool s E. induction Hacc as [c _ IH]. intros pool s -> Hw.
  destruct (turn_or_done pool s) as [[[pool1 s1] Ht]|Hd]; [apply Hw, steps_refl| |exists pool, s; split; [apply steps_refl|done]].
  pose proof (turn_steps _ _ Ht) as Hs.
  destruct (IH _ Ht _ _ eq_refl) as (pool' & s' & H1 & H2).
  - intros c Hc. apply Hw. now apply (steps_app body interrupt _ (pool1, s1)).
  - exists pool', s'. split; [|done]. now apply (steps_app body interrupt _ (pool1, s1)).
Qed.
End halt.
