(* ===== verification/Rely.v ===== *)
(** Interference with memory: the main thread of a pool is verified with
    assertions about the shared state that the other threads leave stable.
    [rg] is the weakest precondition of a program between whose actions the
    state may change by the rely [R] within the invariant [I]; [main_steps]
    carries it through every interleaving of a pool. *)
From stdpp Require Import base list numbers option.
From S2P Require Import Prelude Prog.

Section rg.
Context {S : Type} (I : S -> Prop) (R : S -> S -> Prop) `{HR : !Reflexive R} `{HT : !Transitive R}.

Fixpoint rg {A} (p : prog S A) (Q : A -> S -> Prop) (s : S) : Prop :=
  match p with
  | Ret a => Q a s
  | Act f k => forall s1, I s1 -> R s s1 -> exists b s2, f s1 = Some (b, s2) /\ I s2 /\ rg (k b) Q s2
  end.

Lemma rg_bind {A B} (p : prog S A) (q : A -> prog S B) Q s :
  rg p (fun a => rg (q a) Q) s -> rg (bind p q) Q s.
Proof.
  revert s. induction p as [a|C f k IH]; intros s; cbn [rg bind]; [done|]. intros H s1 H1 H2.
  destruct (H s1 H1 H2) as (b & s2 & Hf & HI & Hk). exists b, s2. auto.
Qed.

Lemma rg_mono {A} (p : prog S A) (Q Q' : A -> S -> Prop) s :
  rg p Q s -> (forall a s', Q a s' -> Q' a s') -> rg p Q' s.
Proof.
  intros H HQ. revert s H. induction p as [a|C f k IH]; intros s; cbn [rg]; [auto|]. intros H s1 H1 H2.
  destruct (H s1 H1 H2) as (b & s2 & Hf & HI & Hk). exists b, s2. auto.
Qed.

(** Assertions that the other threads leave alone. *)
Definition stable (P : S -> Prop) : Prop := forall s s', I s' -> R s s' -> P s -> P s'.

Lemma rg_interfere {A} (p : prog S A) Q s s' :
  (forall a, stable (Q a)) -> I s' -> R s s' -> rg p Q s -> rg p Q s'.
Proof.
  intros HQ HI HRs. destruct p as [a|C f k]; cbn [rg]; [now apply HQ|]. intros H s1 H1 H2.
  apply H; [done|]. now transitivity s'.
Qed.

(** One action: safe by [guar], with its effect on the assertion. *)
Lemma rg_atomic {A} G (f : S -> option (A * S)) (Qr : A -> Prop) (P : S -> Prop) (Q : A -> S -> Prop) s :
  guar I G (atomic f) Qr -> stable P -> P s ->
  (forall s1 b s2, I s2 -> P s1 -> f s1 = Some (b, s2) -> Qr b -> Q b s2) -> rg (atomic f) Q s.
Proof.
  intros Hg HP Hs HQ s1 H1 H2. destruct (Hg s1 H1) as (b & s2 & Hf & HI & _ & Hr).
  exists b, s2. split; [done|]. split; [done|]. apply (HQ s1 b s2); auto. exact (HP s s1 H1 H2 Hs).
Qed.

(** A part whose own actions are within the rely. *)
Lemma rg_within {A} G (p : prog S A) (Qr : A -> Prop) s0 s :
  I s -> guar I G p Qr -> always R p -> R s0 s -> rg p (fun a s' => I s' /\ R s0 s' /\ Qr a) s.
Proof.
  revert s. induction p as [a|C f k IH]; intros s HI0 Hg Ha Hs; [done|]. intros s1 H1 H2.
  destruct (Hg s1 H1) as (b & s2 & Hf & HI & _ & Hk). exists b, s2. split; [done|]. split; [done|].
  destruct Ha as [Ha1 Ha2]. apply IH; [done|done|apply Ha2|]. transitivity s; [done|]. transitivity s1; [done|]. exact (Ha1 _ _ _ Hf).
Qed.

(** Without interference. *)
Lemma rg_run {A} (p : prog S A) Q s : I s -> rg p Q s -> exists a s', run p s = Some (a, s') /\ I s' /\ Q a s'.
Proof.
  revert s. induction p as [a|C f k IH]; intros s HI H; [now exists a, s|].
  destruct (H s HI) as (b & s2 & Hf & HI2 & Hk); [reflexivity|]. cbn [run]. rewrite Hf. exact (IH _ _ HI2 Hk).
Qed.

(** * Pools *)

Section pool.
Context (body : nat -> Z -> prog S ctl) (interrupt : S -> S) (G : S -> S -> Prop).
Context (L : nat -> Z -> Prop) (Q : ctl -> S -> Prop).

Hypothesis main_body : forall l s, I s -> Q (Continue l) s -> rg (body 0%nat l) Q s.
Hypothesis main_stable : forall c, stable (Q c).
Hypothesis other_bodies : forall i l, i <> 0%nat -> L i l -> guar I G (body i l) (ctl_ok L i) /\ always R (body i l).
Hypothesis interrupt_within : forall s, I s -> I (interrupt s) /\ R s (interrupt s).

Definition main_inv (c : config) : Prop :=
  I c.2 /\ (exists p, c.1 !! 0%nat = Some p /\ rg p Q c.2) /\
  forall i p, i <> 0%nat -> c.1 !! i = Some p -> guar I G p (ctl_ok L i) /\ always R p.

Lemma main_others (pool : list (prog S ctl)) i p :
  (forall i p, i <> 0%nat -> pool !! i = Some p -> guar I G p (ctl_ok L i) /\ always R p) ->
  (i <> 0%nat -> guar I G p (ctl_ok L i) /\ always R p) ->
  forall j q, j <> 0%nat -> <[i := p]> pool !! j = Some q -> guar I G q (ctl_ok L j) /\ always R q.
Proof.
  intros Hp H j q Hj0 Hj. apply list_lookup_insert_Some in Hj as [(-> & -> & _)|[_ Hj]]; eauto.
Qed.

Lemma main_lookup (pool : list (prog S ctl)) i p p0 :
  pool !! 0%nat = Some p0 -> i <> 0%nat -> <[i := p]> pool !! 0%nat = Some p0.
Proof. intros H Hi. now rewrite list_lookup_insert_ne. Qed.

Lemma main_step c c' : main_inv c -> step body interrupt c c' -> main_inv c'.
Proof.
  intros (HI & (p0 & H0 & Hrg) & Hp) Hstep.
  destruct Hstep as [pool s i B f k b s' Hi Hf|pool s i l Hi|pool s]; cbn [fst snd] in *.
  - destruct (decide (i = 0%nat)) as [->|Hn].
    + rewrite H0 in Hi. injection Hi as ->. destruct (Hrg s HI) as (b' & s2 & Hf' & HI' & Hk); [reflexivity|].
      rewrite Hf in Hf'. injection Hf' as <- <-. split; [done|]. split; [|now apply main_others].
      exists (k b). split; [|done]. apply list_lookup_insert_eq. now apply lookup_lt_Some in H0.
    + destruct (Hp _ _ Hn Hi) as [Hg [Ha1 Ha2]]. destruct (Hg s HI) as (b' & s2 & Hf' & HI' & _ & Hk).
      rewrite Hf in Hf'. injection Hf' as <- <-. split; [done|]. split; [|apply main_others; [done|now intros _]].
      exists p0. split; [now apply main_lookup|]. apply (rg_interfere p0 Q s); auto. exact (Ha1 _ _ _ Hf).
  - split; [done|]. destruct (decide (i = 0%nat)) as [->|Hn].
    + rewrite H0 in Hi. injection Hi as ->. split; [|now apply main_others].
      exists (body 0%nat l). split; [|now apply main_body]. apply list_lookup_insert_eq. now apply lookup_lt_Some in H0.
    + destruct (Hp _ _ Hn Hi) as [Hg _]. split; [exists p0; split; [now apply main_lookup|done]|].
      apply main_others; [done|]. intros _. now apply other_bodies.
  - destruct (interrupt_within s HI) as [HI' HRi]. split; [done|]. split; [|done]. exists p0. split; [done|].
    apply (rg_interfere p0 Q s); auto.
Qed.

Lemma main_steps c c' : main_inv c -> steps body interrupt c c' -> main_inv c'.
Proof. intros Hc. induction 1 as [|c1 c2 c3 _ IH H23]; [done|]. exact (main_step _ _ (IH Hc) H23). Qed.

Lemma main_not_wrong c : main_inv c -> ~ wrong c.
Proof.
  intros (HI & (p0 & H0 & Hrg) & Hp) (i & B & f & k & Hi & Hf). destruct (decide (i = 0%nat)) as [->|Hn].
  - rewrite H0 in Hi. injection Hi as ->. destruct (Hrg c.2 HI) as (b & s2 & Hf' & _); [reflexivity|congruence].
  - destruct (Hp _ _ Hn Hi) as [Hg _]. destruct (Hg c.2 HI) as (b & s2 & Hf' & _). congruence.
Qed.
End pool.
End rg.
