(* ===== verification/Release.v ===== *)
(** The end of a process, for the server and the client alike: the main thread
    leaves its loop, tells its peers, and releases the device, the threads and
    the socket, all while the other threads still run.  A component states
    which part of its structure holds them ([Holder]); the effect of the
    release on the descriptors and threads, under any interleaving, follows. *)
From stdpp Require Import base list numbers option.
From S2P Require Import Prelude Prog World Consts Events Peer Net Boot Frame Rely.

(** The socket, the device, and which of the two helper threads were started. *)
Notation held := (Z * tun_device_t * bool * bool)%type.

(** A component whose structure holds them, and that stores to two of them. *)
Class Holder (S : Type) `{HasWorld S} (parts : S -> held) : Type := {
  put_tun : tun_device_t -> S -> S;
  put_sockfd : Z -> S -> S;
  put_tun_parts : forall dev s, parts (put_tun dev s) = ((parts s).1.1.1, dev, (parts s).1.2, (parts s).2);
  put_sockfd_parts : forall fd s, parts (put_sockfd fd s) = (fd, (parts s).1.1.2, (parts s).1.2, (parts s).2);
  put_tun_world : forall dev s, get_world (put_tun dev s) = get_world s;
  put_sockfd_world : forall fd s, get_world (put_sockfd fd s) = get_world s
}.

Create HintDb calm.

Section release.
Context {S : Type} `{HW : HasWorld S} (parts : S -> held) {WF : WorldFree parts} {HH : Holder S parts}.

Definition peek {A} (f : S -> A) : prog S A := atomic (fun s => Some (f s, s)).
Definition poke (f : S -> S) : prog S unit := atomic (fun s => Some (tt, f s)).

(** What both components do, in terms of what they hold. *)
Definition release : prog S unit :=
  let* dev := peek (fun s => (parts s).1.1.2) in
  let* dev := tun_close dev in
  poke (put_tun dev) ;;
  let* b := peek (fun s => (parts s).1.2) in
  join_if b 1 ;;
  let* b := peek (fun s => (parts s).2) in
  join_if b 2 ;;
  tui_screen false ;;
  let* fd := peek (fun s => (parts s).1.1.1) in
  (if sock_valid fd then sys_close fd ;; poke (put_sockfd (-1)) else Ret tt) ;;
  LOG LOG_LEVEL_INFO [].

(** * Beside the other threads *)

Section beside.
Context (J : S -> Prop) {F : Framed J}.
Notation Inv := (inv J).
Notation Rg := (rg Inv (steady parts)).
Hypothesis may_close : forall e, closing e -> Permits J e.
Hypothesis named : forall s, Inv s -> exists z, c_str (ifname (parts s).1.1.2) = Some z.
Hypothesis put_tun_inv : forall dev s, Inv s -> ifname dev = ifname (parts s).1.1.2 -> Inv (put_tun dev s).
Hypothesis put_sockfd_inv : forall fd s, Inv s -> Inv (put_sockfd fd s).

(** These are held, and exactly these device events happened. *)
Definition holds_at (h : held) (t : list event) (s : S) : Prop := parts s = h /\ devices (get_world s) = t.

Lemma stable_at h t : stable Inv (steady parts) (holds_at h t).
Proof. intros s s' _ [H1 H2 _] [H3 H4]. split; congruence. Qed.

Lemma at_peek {A B} (f : S -> A) (g : held -> A) (K : A -> prog S B) h t Q s :
  (forall s, f s = g (parts s)) -> holds_at h t s ->
  (forall s1, Inv s1 -> holds_at h t s1 -> Rg (K (g h)) Q s1) -> Rg (bind (peek f) K) Q s.
Proof.
  intros Hf Hs HK s1 HI HR. pose proof (stable_at _ _ s s1 HI HR Hs) as H1.
  exists (f s1), s1. split; [done|]. split; [done|]. rewrite Hf, (proj1 H1). auto.
Qed.

Lemma at_poke {B} (f : S -> S) (K : unit -> prog S B) h h' t Q s :
  (forall s, Inv s -> holds_at h t s -> Inv (f s) /\ holds_at h' t (f s)) -> holds_at h t s ->
  (forall s1, Inv s1 -> holds_at h' t s1 -> Rg (K tt) Q s1) -> Rg (bind (poke f) K) Q s.
Proof.
  intros Hf Hs HK s1 HI HR. pose proof (stable_at _ _ s s1 HI HR Hs) as H1. destruct (Hf _ HI H1) as [HI' H1'].
  exists tt, (f s1). auto.
Qed.

Lemma at_world {A B} (g : world -> option (A * world)) (new : A -> list event) (Qr : A -> Prop) (K : A -> prog S B) h t Q s :
  safe J (on_world g) Qr -> (forall w a w', g w = Some (a, w') -> devices w' = new a ++ devices w) ->
  holds_at h t s -> (forall a s1, Inv s1 -> Qr a -> holds_at h (new a ++ t) s1 -> Rg (K a) Q s1) ->
  Rg (bind (on_world g) K) Q s.
Proof.
  intros Hg Hnew Hs HK. apply rg_bind. eapply (rg_atomic _ _ rel); [exact Hg|apply stable_at|exact Hs|].
  intros s1 a s2 HI [H1 H2] E Hq. cbn in E. destruct (g (get_world s1)) as [[a' w']|] eqn:Eg; [|done].
  injection E as <- <-. apply HK; [done|done|]. split; [now rewrite world_free|]. now rewrite get_set_world, (Hnew _ _ _ Eg), H2.
Qed.

Lemma at_event {A B} (f : world -> A * world) (ev : A -> event) (K : A -> prog S B) h t Q s :
  (forall w, world_ok w -> world_ok (f w).2 /\ w_env (f w).2 = w_env w /\
     g_crypto_key (f w).2 = g_crypto_key w /\ g_tui_active (f w).2 = g_tui_active w /\
     w_trace (f w).2 = ev (f w).1 :: w_trace w) ->
  (forall w a w', f w = (a, w') -> devices w' = ev a :: devices w) -> (forall a, closing (ev a)) -> holds_at h t s ->
  (forall a s1, Inv s1 -> holds_at h (ev a :: t) s1 -> Rg (K a) Q s1) -> Rg (bind (on_world' f) K) Q s.
Proof.
  intros Hf Hev Hc Hs HK. apply (at_world _ (fun a => [ev a]) (fun _ => True) _ h t);
    [apply (safe_outgoing _ _ ev); [done|intros a; apply may_close, Hc]| |done|].
  - intros w a w' [= E]. exact (Hev _ _ _ E).
  - intros a s1 H1 _ H2. exact (HK a s1 H1 H2).
Qed.

Lemma at_close {B} n (K : unit -> prog S B) h t Q s :
  holds_at h t s -> (forall s1, Inv s1 -> holds_at h (EvClose n :: t) s1 -> Rg (K tt) Q s1) -> Rg (bind (sys_close n) K) Q s.
Proof.
  intros Hs HK. apply (at_event _ (fun _ => EvClose n) _ h t); [|now intros w a w' [= _ <-]|left; eauto|done|].
  - intros w Hw. cbn. split; [quiet|done].
  - intros []. apply HK.
Qed.

Definition join_events (started : bool) (i : nat) (r : Z) : list event :=
  if started then [EvSys (ThreadJoin i) r] else [].

Lemma at_join {B} started i (K : unit -> prog S B) h t Q s :
  Inv s -> holds_at h t s ->
  (forall r s1, Inv s1 -> holds_at h (join_events started i r ++ t) s1 -> Rg (K tt) Q s1) -> Rg (bind (join_if started i) K) Q s.
Proof.
  intros HI Hs HK. destruct started; [|now apply (HK 0)]. cbn [join_if bind].
  apply (at_event _ (EvSys (ThreadJoin i)) _ h t); [|now intros w a w' [= <- <-]|right; eauto|done|].
  - intros w Hw. cbn. split; [quiet|done].
  - intros r. apply HK.
Qed.

Lemma at_log {B} level args (K : unit -> prog S B) h t Q s :
  Forall (fun a => exists z, c_str a = Some z) args -> holds_at h t s ->
  (forall s1, Inv s1 -> holds_at h t s1 -> Rg (K tt) Q s1) -> Rg (bind (LOG level args) K) Q s.
Proof.
  intros Ha Hs HK. apply (at_world _ (fun _ => []) (fun _ => True) _ h t); [now apply safe_LOG| |done|].
  - intros w u w'. destruct (_ <? _); [now intros [= _ <-]|]. destruct (mapM c_str args); [|done]. now intros [= _ <-].
  - intros [] s1 H1 _ H2. exact (HK s1 H1 H2).
Qed.

Lemma at_screen {B} on (K : unit -> prog S B) h t Q s :
  holds_at h t s -> (forall s1, Inv s1 -> holds_at h t s1 -> Rg (K tt) Q s1) -> Rg (bind (tui_screen on) K) Q s.
Proof.
  intros Hs HK. apply (at_world _ (fun _ => []) (fun _ => True) _ h t); [apply safe_screen; typeclasses eauto| |done|].
  - intros w u w' [= _ <-]. now destruct (g_tui_active w).
  - intros [] s1 H1 _ H2. exact (HK s1 H1 H2).
Qed.

(** What releasing [h] does, from the device events [t]. *)
Definition released (h : held) (t : list event) (s : S) : Prop :=
  let '(fd, dev, b1, b2) := h in
  same_open (EvOpen (tun_fd dev) :: EvOpen fd :: devices (get_world s)) t /\
  forall i, unjoined i (devices (get_world s)) = unjoined i t -
    (if b1 && (i =? 1)%nat then 1 else 0) - (if b2 && (i =? 2)%nat then 1 else 0).

Lemma rg_release fd dev b1 b2 t s :
  0 <= fd -> 0 <= tun_fd dev -> Inv s -> holds_at (fd, dev, b1, b2) t s ->
  Rg release (fun _ => released (fd, dev, b1, b2) t) s.
Proof.
  intros Hfd Hdf HI Hs. unfold release.
  eapply (at_peek _ (fun h => h.1.1.2)); [done|exact Hs|]. intros s1 HI1 H1. cbn [fst snd].
  assert (Hz : exists z, c_str (ifname dev) = Some z) by (destruct (named _ HI1) as [z Hz]; rewrite (proj1 H1) in Hz; eauto).
  unfold tun_close. destruct (Z.leb_spec 0 (tun_fd dev)); [|lia]. apply rg_bind.
  eapply at_log; [by repeat constructor|exact H1|]. intros s2 _ H2.
  eapply at_close; [exact H2|]. intros s3 _ H3. cbn [rg].
  set (dev' := TunDevice (-1) (ifname dev) (tun_mtu dev)).
  eapply (at_poke _ _ _ (fd, dev', b1, b2)); [|exact H3|].
  { intros s' HI' [E1 E2]. split; [apply put_tun_inv; [done|now rewrite E1]|]. unfold holds_at.
    now rewrite put_tun_parts, put_tun_world, E1. }
  intros s4 _ H4. eapply (at_peek _ (fun h => h.1.2)); [done|exact H4|]. intros s5 HI5 H5. cbn [fst snd].
  eapply at_join; [exact HI5|exact H5|]. intros r1 s6 _ H6.
  eapply (at_peek _ (fun h => h.2)); [done|exact H6|]. intros s7 HI7 H7. cbn [fst snd].
  eapply at_join; [exact HI7|exact H7|]. intros r2 s8 _ H8.
  eapply at_screen; [exact H8|]. intros s9 _ H9.
  eapply (at_peek _ (fun h => h.1.1.1)); [done|exact H9|]. intros s10 _ H10. cbn [fst snd].
  unfold sock_valid. destruct (Z.leb_spec 0 fd); [|lia]. apply rg_bind.
  eapply at_close; [exact H10|]. intros s11 _ H11.
  change (poke (put_sockfd (-1))) with (bind (poke (put_sockfd (-1))) Ret).
  eapply (at_poke _ _ _ (-1, dev', b1, b2)); [|exact H11|].
  { intros s' HI' [E1 E2]. split; [now apply put_sockfd_inv|]. unfold holds_at.
    now rewrite put_sockfd_parts, put_sockfd_world, E1. }
  intros s12 _ H12. cbn [rg]. change (LOG LOG_LEVEL_INFO []) with (bind (LOG (S := S) LOG_LEVEL_INFO []) Ret).
  eapply at_log; [constructor|exact H12|].
  intros s13 _ [_ H13]. cbn [rg]. unfold released. rewrite H13. split.
  - intros x. cbn [app]. cbn. rewrite !balance_app. destruct b1, b2; cbn; lia.
  - intros i. cbn [app unjoined]. rewrite !unjoined_app. cbn [unjoined app].
    destruct b1, b2; cbn; destruct (i =? 1)%nat, (i =? 2)%nat; lia.
Qed.

(** * The main thread *)

(** A pool whose main thread runs [loop] until it breaks, then [notify] and
    [release]. *)
Section main.
Context (body : nat -> Z -> prog S ctl) (loop : Z -> prog S ctl) (notify : prog S unit) (interrupt : S -> S).
Context (L : Z -> Prop) (h : held) (t : list event).

Hypothesis body_main : forall l, body 0%nat l =
  (let* c := loop l in
   match c with
   | Continue l => Ret (Continue l)
   | Break => (notify ;; release) ;; Ret Break
   end).
Hypothesis loop_safe : forall l, L l -> safe J (loop l) (fun c => match c with Continue l => L l | Break => True end).
Hypothesis notify_safe : safe J notify (fun _ => True).
Hypothesis others_safe : forall i l, i <> 0%nat -> safe J (body i l) (fun _ => True).
Hypothesis loop_steady : forall l, always (steady parts) (loop l).
Hypothesis notify_steady : always (steady parts) notify.
Hypothesis others_steady : forall i l, i <> 0%nat -> always (steady parts) (body i l).
Hypothesis interrupt_steady : forall s, Inv s -> Inv (interrupt s) /\ steady parts s (interrupt s).
Hypothesis fd_open : 0 <= h.1.1.1.
Hypothesis dev_open : 0 <= tun_fd h.1.1.2.

Lemma rg_shutdown s : Inv s -> holds_at h t s -> Rg (notify ;; release) (fun _ => released h t) s.
Proof.
  intros HI Hs. apply rg_bind. eapply rg_mono.
  - apply (rg_within _ _ rel _ (fun _ => True) s s); [done|exact notify_safe|exact notify_steady|reflexivity].
  - intros u s1 (HI1 & HR & _). pose proof (stable_at _ _ s s1 HI1 HR Hs) as H1. destruct h as [[[fd dev] b1] b2].
    now apply rg_release.
Qed.

Definition main_at (c : ctl) (s : S) : Prop :=
  match c with
  | Continue l => L l /\ holds_at h t s
  | Break => released h t s
  end.

Lemma main_at_stable c : stable Inv (steady parts) (main_at c).
Proof.
  destruct c as [l|]; intros s s' HI HR H.
  - destruct H as [H1 H2]. split; [done|]. exact (stable_at _ _ s s' HI HR H2).
  - destruct HR as [_ HR _]. unfold main_at, released in *. now rewrite HR.
Qed.

Lemma rg_main l s : Inv s -> main_at (Continue l) s -> Rg (body 0%nat l) main_at s.
Proof.
  intros HI [Hl Hs]. rewrite body_main. apply rg_bind. eapply rg_mono.
  - apply (rg_within _ _ rel _ (fun c => match c with Continue l => L l | Break => True end) s s);
      [done|now apply loop_safe|apply loop_steady|reflexivity].
  - intros [l'|] s1 (HI1 & HR & Hc); pose proof (stable_at _ _ s s1 HI1 HR Hs) as H1; [done|].
    apply rg_bind. eapply rg_mono; [exact (rg_shutdown s1 HI1 H1)|]. auto.
Qed.

Lemma main_releases l0 l1 l2 s pool s' :
  Inv s -> L l0 -> holds_at h t s ->
  steps body interrupt ([Ret (Continue l0); Ret (Continue l1); Ret (Continue l2)], s) (pool, s') ->
  ~ wrong (pool, s') /\ (pool !! 0%nat = Some (Ret Break) -> released h t s').
Proof.
  intros HI Hn Hs Hsteps. set (any := fun (_ : nat) (_ : Z) => True).
  assert (Hend : main_inv Inv (steady parts) rel any main_at (pool, s')).
  { apply (main_steps Inv (steady parts) body interrupt rel any main_at)
      with (c := ([Ret (Continue l0); Ret (Continue l1); Ret (Continue l2)], s)); auto.
    - exact rg_main.
    - exact main_at_stable.
    - intros i l Hi _. split; [|now apply others_steady]. eapply safe_mono; [now apply others_safe|]. now intros [].
    - split; [done|]. split; [exists (Ret (Continue l0)); split; [done|now split]|].
      intros [|[|[|]]] p Hi Hp; [done|injection Hp as <-..|done]; done. }
  split; [exact (main_not_wrong _ _ _ _ _ _ Hend)|]. intros H0. destruct Hend as (_ & (p & Hp & Hrg) & _).
  cbn in Hp. rewrite H0 in Hp. injection Hp as <-. exact Hrg.
Qed.
End main.
End beside.

(** * A stop request stands *)

Notation calm := (always (fun s s' : S => g_running (get_world s) = false -> g_running (get_world s') = false)).

Lemma calm_on_world' {A} (g : world -> A * world) :
  (forall w, g_running (g w).2 = g_running w) -> calm (on_world' g).
Proof.
  intros Hg. apply always_atomic. intros s b s' H. cbn in H. specialize (Hg (get_world s)).
  destruct (g (get_world s)) as [a w]. injection H as _ <-. rewrite get_set_world. cbn in Hg. congruence.
Qed.

Lemma calm_log level args : calm (LOG level args).
Proof.
  apply always_atomic. intros s b s' H. unfold on_world in H. cbn in H. destruct (_ <? _); [injection H as _ <-; now rewrite get_set_world|].
  destruct (mapM c_str args); [|done]. injection H as _ <-. now rewrite get_set_world.
Qed.

Lemma calm_peek {A} (f : S -> A) : calm (peek f).
Proof. apply always_atomic. now intros s b s' [= _ <-]. Qed.

Lemma calm_poke f : (forall s, get_world (f s) = get_world s) -> calm (poke f).
Proof. intros Hf. apply always_atomic. intros s b s' [= _ <-]. now rewrite Hf. Qed.

Lemma calm_close fd : calm (sys_close fd).
Proof. now apply calm_on_world'. Qed.

Lemma calm_join b i : calm (join_if b i).
Proof. destruct b; [|done]. apply always_bind; [now apply calm_on_world'|done]. Qed.

Lemma calm_screen on : calm (tui_screen on).
Proof. apply calm_on_world'. intros w. cbn. now destruct (g_tui_active w). Qed.

#[local] Hint Resolve calm_close calm_screen calm_log calm_join calm_peek : calm.
#[local] Hint Extern 1 (always _ (poke _)) => apply calm_poke; intros; first [apply put_tun_world|apply put_sockfd_world] : calm.

Lemma release_calm : calm release.
Proof.
  unfold release, tun_close.
  repeat first [ solve [auto with calm] | match goal with
    | |- forall _, _ => intros ?
    | |- always _ (Ret _) => exact I
    | |- always _ (bind _ _) => apply always_bind
    | |- always _ (if ?b then _ else _) => destruct b
    end ].
Qed.
End release.
