(* ===== verification/Delivery.v ===== *)
(** Delivery: while the system's entropy source works and the sequence counter
    is far from its end, headers are written, messages are encrypted and every
    [net_send] hands exactly one datagram to the network. *)
From stdpp Require Import base list numbers option.
From S2P Require Import Prelude Prog World Consts Sequence Wire Crypto Events Net.

(** Destinations of the datagrams sent so far, newest first. *)
Definition dests (t : list event) : list sockaddr_in :=
  omap (fun e => match e with EvSent _ d _ => Some d | _ => None end) t.

(** [/dev/urandom] can be opened and its reads deliver. *)
Definition entropy_ok (e : env) : Prop :=
  (forall t, 0 <= env_open e t) /\
  forall t n, 0 < n -> env_read e t n = ReadEintr \/ exists b l, env_read e t n = ReadData (b :: l).

(** At least [k] more numbers can be issued. *)
Definition live (k : Z) (w : world) : Prop :=
  entropy_ok (w_env w) /\ 0 <= g_proto_next_sequence w /\ g_proto_next_sequence w + k < 2 ^ 64 /\ k <= 2 ^ 62.

Lemma live_weaken k m w : live k w -> m <= k -> live m w.
Proof. intros (H1 & H2 & H3 & H4) Hm. split; [done|]. lia. Qed.

Lemma live_start k w :
  world_ok w -> entropy_ok (w_env w) -> 0 <= k -> zlen (issued (w_trace w)) + k < 2 ^ 62 -> live k w.
Proof.
  intros (_ & [Hu Hs] & _) He H0 Hk. pose proof (zlen_nonneg (issued (w_trace w))).
  split; [done|]. words. destruct Hs as [[-> _]|(start & Hst & -> & _)]; lia.
Qed.

(** [w'] keeps what delivery depends on. *)
Definition same_supply (w w' : world) : Prop :=
  w_env w' = w_env w /\ g_proto_next_sequence w' = g_proto_next_sequence w /\
  dests (w_trace w') = dests (w_trace w).

Lemma same_live k w w' : same_supply w w' -> live k w -> live k w'.
Proof. intros (H1 & H2 & _) HL. unfold live. now rewrite H1, H2. Qed.

(** * The entropy source *)

Lemma random_loop_live fuel : forall len acc w ok l w',
  entropy_ok (w_env w) -> random_loop fuel len acc w = Some ((ok, l), w') ->
  ok = true /\ same_supply w w'.
Proof.
  induction fuel as [|fuel IH]; intros len acc w ok l w' He Hr; cbn [random_loop] in Hr;
    destruct (Z.ltb_spec (zlen acc) len); try done; try (injection Hr as <- _ <-; now repeat split).
  cbn [ask] in Hr. destruct (proj2 He (w_tick w) (len - zlen acc)) as [E|(b & d & E)]; [lia| |];
    rewrite E in Hr.
  - apply (IH len acc (tick w)) in Hr as [-> HS]; [now split|done].
  - destruct (Z.leb_spec (zlen (b :: d)) 0) as [Hz|]; [rewrite zlen_cons in Hz; pose proof (zlen_nonneg d); lia|].
    apply (IH _ _ (tick w)) in Hr as [-> HS]; [now split|done].
Qed.

Lemma random_bytes_live len w ok l w' :
  entropy_ok (w_env w) -> proto_random_bytes len w = Some ((ok, l), w') -> ok = true /\ same_supply w w'.
Proof.
  intros He. unfold proto_random_bytes, proto_random_fd. destruct (Z.ltb_spec (g_proto_random_fd w) 0).
  - cbn. pose proof (proj1 He (w_tick w)). destruct (Z.ltb_spec (env_open (w_env w) (w_tick w)) 0); [lia|].
    intros Hr. now apply random_loop_live in Hr.
  - destruct (Z.ltb_spec (g_proto_random_fd w) 0); [lia|]. intros Hr. now apply random_loop_live in Hr.
Qed.

(** * Accounting of a run *)

Section acct.
Context {S : Type} `{HW : HasWorld S}.

(** A run of [p] issues at most [k] numbers, sends to exactly [l], in this
    order, and ends with a result in [R]. *)
Definition acct {A} (p : prog S A) (k : Z) (l : list sockaddr_in) (R : A -> Prop) : Prop :=
  forall s a s' m, 0 <= m -> live (k + m) (get_world s) -> run p s = Some (a, s') ->
    R a /\ live m (get_world s') /\ dests (w_trace (get_world s')) = rev l ++ dests (w_trace (get_world s)).

Lemma acct_ret {A} (a : A) (R : A -> Prop) : R a -> acct (Ret a) 0 [] R.
Proof. intros HR s a' s' m Hm HL [= <- <-]. auto. Qed.

Lemma acct_local {A} (o : option A) : acct (local o) 0 [] (fun a => o = Some a).
Proof. intros s a s' m Hm HL Hr. rewrite run_local in Hr. destruct o; [|done]. injection Hr as -> ->. auto. Qed.

Lemma acct_bind {A B} (p : prog S A) (q : A -> prog S B) k1 k2 l1 l2 R1 R2 :
  0 <= k2 -> acct p k1 l1 R1 -> (forall a, R1 a -> acct (q a) k2 l2 R2) ->
  acct (bind p q) (k1 + k2) (l1 ++ l2) R2.
Proof.
  intros H2 Hp Hq s a s' m Hm HL Hr. rewrite run_bind in Hr.
  destruct (run p s) as [[b s1]|] eqn:E; [|done].
  destruct (Hp s b s1 (k2 + m)) as (HR1 & HL1 & HD1); [lia|now rewrite Z.add_assoc|done|].
  destruct (Hq b HR1 s1 a s' m Hm HL1 Hr) as (HR2 & HL2 & HD2).
  split; [done|]. split; [done|]. now rewrite HD2, HD1, rev_app_distr, app_assoc.
Qed.

(** Code that issues and sends nothing, followed by [q]. *)
Lemma acct_then {A B} (p : prog S A) (q : A -> prog S B) k l R1 R2 :
  0 <= k -> acct p 0 [] R1 -> (forall a, R1 a -> acct (q a) k l R2) -> acct (bind p q) k l R2.
Proof. intros Hk Hp Hq. apply (acct_bind p q 0 k [] l R1 R2 Hk Hp Hq). Qed.

Lemma acct_mono {A} (p : prog S A) k k' l (R R' : A -> Prop) :
  acct p k l R -> k <= k' -> (forall a, R a -> R' a) -> acct p k' l R'.
Proof.
  intros Hp Hk HR s a s' m Hm HL Hr. destruct (Hp s a s' m Hm) as (H1 & H2 & H3); auto.
  eapply live_weaken; [exact HL|lia].
Qed.

Lemma acct_on_world {A} (f : world -> option (A * world)) (R : A -> Prop) :
  (forall w a w', entropy_ok (w_env w) -> f w = Some (a, w') -> R a /\ same_supply w w') ->
  acct (on_world f) 0 [] R.
Proof.
  intros Hf s a s' m Hm HL. cbn. destruct (f (get_world s)) as [[b w']|] eqn:E; [|done].
  intros [= <- <-]. destruct (Hf _ _ _ (proj1 HL) E) as [HR HS]. rewrite get_set_world.
  split; [done|]. split; [now apply (same_live m (get_world s))|apply HS].
Qed.

Lemma acct_on_world' {A} (f : world -> A * world) :
  (forall w, same_supply w (f w).2) -> acct (on_world' f) 0 [] (fun _ => True).
Proof. intros Hf. apply acct_on_world. intros w a w' _ [= E]. specialize (Hf w). now rewrite E in Hf. Qed.

Lemma acct_alloc n : acct (alloc n) 0 [] (fun _ => True).
Proof. apply acct_on_world'. now intros w. Qed.

Lemma acct_LOG level args : acct (LOG level args) 0 [] (fun _ => True).
Proof.
  apply acct_on_world. intros w a w' _. destruct (_ <? _); [now intros [= <- <-]|].
  destruct (mapM c_str args); cbn; [|done]. now intros [= <- <-].
Qed.

Lemma acct_read {A} (f : world -> A) : acct (read_world f) 0 [] (fun _ => True).
Proof. apply acct_on_world'. now intros w. Qed.

Lemma acct_random n : acct (on_world (proto_random_bytes n)) 0 [] (fun '(ok, _) => ok = true).
Proof. apply acct_on_world. intros w [ok l] w' He Hr. now apply random_bytes_live in Hr. Qed.

Lemma acct_sendto wire dest : acct (sendto wire dest) 0 [dest] (fun _ => True).
Proof.
  intros s a s' m Hm HL. cbn. intros [= <- <-]. rewrite get_set_world. split; [done|].
  split; [exact HL|done].
Qed.

Lemma acct_tun_write pkt : acct (tun_write pkt) 0 [] (fun _ => True).
Proof. apply acct_on_world'. now intros w. Qed.

(** A sequence number is issued whenever one is asked for. *)
Lemma acct_next_sequence : acct proto_next_sequence 1 [] (fun o => o <> None).
Proof.
  assert (Hfa : forall s o s' m, 0 <= m -> 1 <= g_proto_next_sequence (get_world s) ->
    live (1 + m) (get_world s) ->
    run (let* next := fetch_add_sequence in if next =? 0 then Ret None else Ret (Some next)) s = Some (o, s') ->
    o <> None /\ live m (get_world s') /\ dests (w_trace (get_world s')) = dests (w_trace (get_world s))).
  { intros s o s' m Hm Hpos (He & Hn & Hk & Hc). rewrite run_bind. cbn.
    destruct (Z.eqb_spec (g_proto_next_sequence (get_world s)) 0); [lia|].
    intros [= <- <-]. rewrite get_set_world. split; [done|]. split; [|done].
    split; [exact He|]. cbn. words. rewrite Z.mod_small; lia. }
  intros s o s' m Hm HL. unfold proto_next_sequence. rewrite run_bind. cbn [read_world on_world' on_world atomic run].
  rewrite set_get_world. cbn [sequence_init]. destruct (Z.eqb_spec (g_proto_next_sequence (get_world s)) 0) as [Hz|Hz].
  2:{ cbn [bind negb]. apply Hfa; [done| |done]. destruct HL as (_ & ? & _). lia. }
  unfold proto_initial_sequence. rewrite !run_bind. cbn [on_world atomic run].
  destruct (proto_random_bytes 8 (get_world s)) as [[[ok l] w1]|] eqn:E; [|done].
  destruct (random_bytes_live _ _ _ _ _ (proj1 HL) E) as [-> HS]. cbn [negb run bind].
  set (seed := if _ =? 0 then 1 else _).
  cbn [cas_sequence on_world' on_world atomic run bind]. rewrite !get_set_world.
  rewrite (proj1 (proj2 HS)), Hz. cbn [Z.eqb run bind negb]. rewrite set_set_world.
  assert (Hseed : 1 <= seed < 2 ^ 63).
  { pose proof (seed_range l). unfold seed. case_match; bools; lia. }
  intros Hr. apply (Hfa _ _ _ m) in Hr; rewrite ?get_set_world in *; [|done|cbn; lia|].
  - destruct Hr as (H1 & H2 & H3). split; [done|]. split; [done|]. rewrite H3. cbn. apply HS.
  - destruct HL as (He & _ & _ & Hc). split; [cbn; now rewrite (proj1 HS)|]. cbn. lia.
Qed.
End acct.

(** * Messages *)

Section messages.
Context `{M : Monocypher} {S : Type} `{HW : HasWorld S}.

Lemma acct_write_hdr buf type plen :
  plen <= TUND_MAX_PLAINTEXT ->
  acct (S := S) (proto_write_hdr buf type plen) 1 [] (fun '(r, _) => r = TUND_HDR_SIZE).
Proof.
  intros Hp. unfold proto_write_hdr. destruct (Z.ltb_spec TUND_MAX_PLAINTEXT plen); [lia|].
  eapply acct_then; [lia|apply acct_local|]. intros buf1 _.
  apply (acct_bind _ _ 1 0 [] [] _ _ ltac:(lia) acct_next_sequence). intros [sequence|] Hs; [|done].
  eapply acct_then; [lia|apply acct_local|]. intros buf2 _.
  eapply acct_then; [lia|apply acct_random|]. intros [ok nonce] ->.
  eapply acct_then; [lia|apply acct_local|]. intros buf3 _. now apply acct_ret.
Qed.

(** A builder succeeds. *)
Lemma acct_build buf type plen code :
  plen <= TUND_MAX_PLAINTEXT ->
  acct (S := S) (build buf type plen code) 1 [] (fun '(r, _) => r = TUND_HDR_SIZE + plen).
Proof.
  intros Hp. unfold build.
  apply (acct_bind _ _ 1 0 [] [] _ _ ltac:(lia) (acct_write_hdr buf type plen Hp)).
  intros [r buf1] ->. change (TUND_HDR_SIZE <? 0) with false. cbn iota.
  eapply acct_then; [lia|apply acct_local|]. intros buf2 _. now apply acct_ret.
Qed.

Lemma lock_in_place_length buf plen key r buf' :
  0 <= plen <= TUND_MAX_PLAINTEXT -> lock_in_place buf plen key = Some (r, buf') ->
  r = TUND_HDR_SIZE + plen + TUND_AUTH_TAG_SIZE.
Proof.
  intros Hp. unfold lock_in_place. repeat case_match; try done. intros [= <- _].
  words. rewrite Z.mod_small; clia.
Qed.

(** Encryption of a well-formed message succeeds. *)
Lemma acct_encrypt buf len key type :
  TUND_HDR_SIZE <= len <= TUND_HDR_SIZE + TUND_MAX_PLAINTEXT ->
  proto_read_hdr buf = Some (HdrOk type (len - TUND_HDR_SIZE)) ->
  acct (S := S) (proto_encrypt buf len key) 1 [] (fun '(r, _) => r = len + TUND_AUTH_TAG_SIZE).
Proof.
  intros Hl Hh. unfold proto_encrypt. destruct (Z.ltb_spec len TUND_HDR_SIZE); [lia|].
  rewrite Hh. cbn [local bind]. set (n := len - TUND_HDR_SIZE) in *.
  destruct (Z.ltb_spec n 0); [lia|]. destruct (Z.ltb_spec TUND_MAX_PLAINTEXT n); [lia|]. cbn [orb].
  assert (Hu : u16 n = n) by (words; apply Z.mod_small; clia). rewrite Hu, Z.eqb_refl. cbn [negb].
  apply (acct_bind _ _ 1 0 [] [] _ _ ltac:(lia) (acct_write_hdr buf type n ltac:(lia))).
  intros [r buf1] ->. change (TUND_HDR_SIZE <? 0) with false. cbn iota.
  eapply acct_mono; [apply acct_local|lia|]. intros [r' buf2] Hr.
  apply lock_in_place_length in Hr; lia.
Qed.

(** Every well-formed message that is sent reaches the network once. *)
Lemma acct_net_send buf len dest type payload :
  carries buf len type payload -> zlen payload <= TUND_MAX_PLAINTEXT -> len <= zlen buf ->
  acct (S := S) (net_send buf len dest) 1 [dest] (fun _ => True).
Proof.
  intros (Hh & _ & Hl) Hm Hb. pose proof (zlen_nonneg payload). assert (0 <= len) by clia.
  unfold net_send.
  destruct (Z.ltb_spec len TUND_HDR_SIZE); [lia|].
  destruct (Z.ltb_spec (TUND_HDR_SIZE + TUND_MAX_PLAINTEXT) len); [lia|].
  eapply acct_then; [lia|apply acct_alloc|]. intros wire0 _.
  eapply acct_then; [lia|apply acct_local|]. intros wire Hw.
  eapply acct_then; [lia|apply acct_read|]. intros key _.
  assert (Hh' : proto_read_hdr wire = Some (HdrOk type (len - TUND_HDR_SIZE))).
  { destruct (Z.leb_spec len (zlen wire0)).
    - rewrite copy_to_wire in Hw by lia. injection Hw as <-.
      rewrite read_hdr_take, Hh by clia. do 2 f_equal. lia.
    - rewrite mem_read_some in Hw by lia. exfalso. unfold mem_write in Hw. rewrite drop_0 in Hw.
      case_match; [|done]. bools. unfold zlen in *. rewrite length_take in *. lia. }
  apply (acct_bind _ _ 1 0 [] [dest] (fun '(r, _) => r = len + TUND_AUTH_TAG_SIZE)); [lia| |].
  { now apply (acct_encrypt _ _ _ type). }
  intros [r wire'] ->. destruct (Z.ltb_spec (len + TUND_AUTH_TAG_SIZE) 0); [clia|].
  eapply acct_then; [lia|apply acct_local|]. intros pkt _.
  apply (acct_bind _ _ 0 0 [dest] [] (fun _ => True)); [lia|apply acct_sendto|]. intros sent _.
  destruct (sent <? 0); [|destruct (negb _); now apply acct_ret].
  eapply acct_then; [lia|apply acct_LOG|]. intros _ _. now apply acct_ret.
Qed.
End messages.

Section delivers.
Context {S : Type} `{HW : HasWorld S} (J : S -> Prop).

(** From any state of the invariant with enough numbers left, [p] ends in [R]
    having sent to exactly [l]. *)
Definition delivers {A} (p : prog S A) (k : Z) (l : list sockaddr_in) (R : A -> Prop) : Prop :=
  forall s m, inv J s -> 0 <= m -> live (k + m) (get_world s) ->
    exists a s', run p s = Some (a, s') /\ inv J s' /\ R a /\ live m (get_world s') /\
      dests (w_trace (get_world s')) = rev l ++ dests (w_trace (get_world s)).

Lemma delivers_from {A} (p : prog S A) k l (Q R : A -> Prop) :
  safe J p Q -> acct p k l R -> delivers p k l (fun a => Q a /\ R a).
Proof.
  intros Hs Ha s m HI Hm HL. destruct (safe_run _ _ _ s Hs HI) as (a & s' & Hr & HI' & _ & HQ).
  destruct (Ha s a s' m Hm HL Hr) as (HR & HL' & HD). exists a, s'. auto 6.
Qed.

Lemma delivers_bind {A B} (p : prog S A) (q : A -> prog S B) k1 k2 l1 l2 R1 R2 :
  0 <= k2 -> delivers p k1 l1 R1 -> (forall a, R1 a -> delivers (q a) k2 l2 R2) ->
  delivers (bind p q) (k1 + k2) (l1 ++ l2) R2.
Proof.
  intros H2 Hp Hq s m HI Hm HL.
  destruct (Hp s (k2 + m) HI) as (a & s1 & Hr & HI1 & HR1 & HL1 & HD1); [lia|now rewrite Z.add_assoc|].
  destruct (Hq a HR1 s1 m HI1 Hm HL1) as (b & s2 & Hr2 & HI2 & HR2 & HL2 & HD2).
  exists b, s2. rewrite run_bind, Hr. split; [done|]. split; [done|]. split; [done|]. split; [done|].
  now rewrite HD2, HD1, rev_app_distr, app_assoc.
Qed.

Lemma delivers_done {A} (p : prog S A) k l :
  safe J p (fun _ => True) -> acct p k l (fun _ => True) -> delivers p k l (fun _ => True).
Proof.
  intros Hs Ha s m HI Hm HL.
  destruct (delivers_from p k l _ _ Hs Ha s m HI Hm HL) as (a & s' & H1 & H2 & _ & H3). exists a, s'. auto.
Qed.

Lemma delivers_more {A} (p : prog S A) k k' l R : delivers p k l R -> k <= k' -> delivers p k' l R.
Proof. intros Hp Hk s m HI Hm HL. apply Hp; auto. eapply live_weaken; [exact HL|lia]. Qed.
End delivers.

(** A loop that sends once per element. *)
Lemma acct_for_each {S} `{HW : HasWorld S} {B} (l : list B) (body : B -> prog S unit) (d : B -> sockaddr_in) :
  (forall x, acct (body x) 1 [d x] (fun _ => True)) ->
  acct (for_each l body) (zlen l) (map d l) (fun _ => True).
Proof.
  intros Hb. induction l as [|x l IH]; [now apply acct_ret|]. cbn [for_each map]. rewrite zlen_cons.
  apply (acct_bind _ _ 1 (zlen l) [d x] (map d l) (fun _ => True)); [apply zlen_nonneg|apply Hb|]. auto.
Qed.

(** * Property *)

(** With a working entropy source, encrypting a well-formed message always
    succeeds, for as long as fewer than [2^62] sequence numbers were issued. *)
Theorem encrypt_succeeds `{M : Monocypher} {ML : MonocypherLaws M}
    (w : world) (key buf payload : bytes) (type len : Z)
    (Hw : world_ok w) (He : entropy_ok (w_env w)) (Hi : zlen (issued (w_trace w)) + 1 < 2 ^ 62)
    (Hm : message type payload buf) (Hb : bytes_ok buf) (Ht : is_u8 type)
    (Hmax : zlen payload <= TUND_MAX_PLAINTEXT) (Hlen : len = TUND_HDR_SIZE + zlen payload)
    (Hroom : len + TUND_AUTH_TAG_SIZE <= zlen buf) :
  exists wire w', run (proto_encrypt buf len key) w = Some ((len + TUND_AUTH_TAG_SIZE, wire), w').
Proof.
  destruct (safe_run (fun _ : world => True) _ _ w (safe_encrypt _ key buf len Hb Hroom))
    as ([r wire] & w' & Hr & _); [done|].
  exists wire, w'. rewrite Hr. do 3 f_equal.
  destruct Hm as (sq & nc & rest & _ & Hnc & _ & ->). pose proof (zlen_nonneg payload).
  assert (Hh : proto_read_hdr (hdr_bytes type (zlen payload) sq nc ++ payload ++ rest) =
    Some (HdrOk type (len - TUND_HDR_SIZE))).
  { rewrite read_hdr_at by (done || clia). do 2 f_equal. lia. }
  assert (HL : live (1 + 0) (get_world w)) by (now apply live_start).
  now destruct (acct_encrypt (S := world) _ len key type ltac:(lia) Hh w (r, wire) w' 0 ltac:(lia) HL Hr) as [HR _].
Qed.

Lemma sample_entropy_ok : entropy_ok sample_env.
Proof.
  split; [cbn; lia|]. intros t n Hn. right. cbn.
  destruct (Z.to_nat n) eqn:E; [lia|]. cbn. eauto.
Qed.

Example encrypt_succeeds_witness :
  exists wire w', run (proto_encrypt (M := SampleCipher.sample) sample_message 45 (replicate 32 7)) sample_world =
    Some ((45 + TUND_AUTH_TAG_SIZE, wire), w').
Proof.
  apply (encrypt_succeeds sample_world _ sample_message (be_split 8 123456) MSG_KEEPALIVE 45);
    [exact sample_world_ok|exact sample_entropy_ok|reflexivity|exact sample_message_ok|exact sample_message_bytes
    |words; unfold MSG_KEEPALIVE; lia|vm_compute; discriminate|reflexivity|vm_compute; discriminate].
Defined.
