(* ===== verification/ServerPeers.v ===== *)
(** The server's peer table ([core/server/server.h], [internal.h], [peers.c]):
    lookups, address allocation, snapshots taken under the table lock and the
    sends made from them once it is released. *)
From stdpp Require Import base list numbers option.
From S2P Require Import Prelude Prog World Consts Sequence Wire Crypto Events Replay Peer Net Messages Boot.

(** * Data *)

(** [server_t]; socket, TUN descriptor and thread handles belong to the
    operating system, the lock is the atomicity of [locked] below. *)
Record server_t : Type := Server {
  sockfd : Z;
  tun : tun_device_t;
  peers : list peer_t;
  peer_count : Z;
  port : Z;
  timeout_started : bool;
  tun_started : bool;
  timeout_quit : bool;
  tun_quit : bool
}.

Definition set_peers (l : list peer_t) (n : Z) (v : server_t) : server_t :=
  Server (sockfd v) (tun v) l n (port v) (timeout_started v) (tun_started v)
         (timeout_quit v) (tun_quit v).

Record server_peer_snapshot_t : Type := Snapshot {
  snap_idx : Z;
  snap_virt_ip : Z;
  snap_name : bytes;
  snap_real_addr : sockaddr_in
}.

(** The server inside its process. *)
Record srv_state : Type := SrvState { srv_world : world; srv : server_t }.

#[export] Instance srv_has_world : HasWorld srv_state.
Proof.
  refine {| get_world := srv_world; set_world w s := SrvState w (srv s) |}; try done.
  now intros [].
Defined.

(** * Critical sections *)

Definition gets {A} (f : server_t -> A) : prog srv_state A := atomic (fun s => Some (f (srv s), s)).

(** [srv->peers[i]]. *)
Definition peer_at (i : Z) : prog srv_state peer_t :=
  atomic (fun s => if 0 <=? i then p ← peers (srv s) !! Z.to_nat i; Some (p, s) else None).

(** Stores to [srv->peers[i]] and [srv->peer_count += d]. *)
Definition put_peer (i : Z) (p : peer_t) (d : Z) : prog srv_state unit :=
  atomic (fun s =>
    if (0 <=? i) && (i <? zlen (peers (srv s))) then
      Some (tt, SrvState (srv_world s)
                  (set_peers (<[Z.to_nat i := p]> (peers (srv s))) (peer_count (srv s) + d) (srv s)))
    else None).

(** * Lookups *)

Definition taken (l : list peer_t) (ip_n : Z) : bool :=
  existsb (fun p => active p && (virt_ip p =? ip_n)) l.

(** The address loop; [n] counts the iterations left. *)
Fixpoint alloc_loop (n : nat) (ip_h : Z) (l : list peer_t) : Z :=
  match n with
  | O => 0
  | S n =>
      if ip_h <=? TUND_IP_END then
        if negb (taken l (htonl ip_h)) then htonl ip_h else alloc_loop n (ip_h + 1) l
      else 0
  end.

Definition server_alloc_ip (v : server_t) : Z := alloc_loop 254 TUND_IP_START (peers v).

Definition server_find_peer_by_vip (ip : Z) (v : server_t) : Z :=
  find_index (fun p => active p && (virt_ip p =? ip)) (peers v) 0.

Definition server_find_peer_by_addr (addr : sockaddr_in) (v : server_t) : Z :=
  find_index (fun p => active p && (s_addr (real_addr p) =? s_addr addr)
                       && (sin_port (real_addr p) =? sin_port addr)) (peers v) 0.

Definition server_find_free_slot (v : server_t) : Z :=
  find_index (fun p => negb (active p)) (peers v) 0.

(** * Snapshots *)

Definition server_snapshot_peer_locked (p : peer_t) (idx : Z) : option server_peer_snapshot_t :=
  let? nm := snprintf_s 32 (name p) in Some (Snapshot idx (virt_ip p) nm (real_addr p)).

(** [out] holds the snapshots stored so far; the loop stops when it is full. *)
Fixpoint snapshot_loop (l : list peer_t) (i max_peers exclude_idx : Z)
    (out : list server_peer_snapshot_t) : option (list server_peer_snapshot_t) :=
  match l with
  | [] => Some out
  | p :: l =>
      if negb (zlen out <? max_peers) then Some out
      else if active p && negb (i =? exclude_idx) then
        let? sn := server_snapshot_peer_locked p i in
        snapshot_loop l (i + 1) max_peers exclude_idx (out ++ [sn])
      else snapshot_loop l (i + 1) max_peers exclude_idx out
  end.

Definition server_snapshot_broadcast_locked (v : server_t) (max_peers exclude_idx : Z) :
    option (list server_peer_snapshot_t) :=
  snapshot_loop (peers v) 0 max_peers exclude_idx [].

(** [None] inside: no active peer has this address ([-1]). *)
Definition server_snapshot_peer_by_vip_locked (v : server_t) (ip : Z) :
    option (option server_peer_snapshot_t) :=
  let idx := server_find_peer_by_vip ip v in
  if 0 <=? idx then
    let? p := peers v !! Z.to_nat idx in
    let? sn := server_snapshot_peer_locked p idx in Some (Some sn)
  else Some None.

(** One element appended to an array of [TUND_MAX_PEERS]. *)
Definition push {A} (out : list A) (x : A) : option (list A) :=
  if zlen out <? TUND_MAX_PEERS then Some (out ++ [x]) else None.

(** * Sends *)

(** The loop that stores one entry per peer after the header, until the buffer
    is full: buffer, [offset] and [count]. *)
Fixpoint write_entries (l : list (Z * bytes)) (buf : bytes) (offset count : Z) :
    option (bytes * Z * Z) :=
  match l with
  | [] => Some (buf, offset, count)
  | (ip, nm) :: l =>
      let? '(ok, buf) := proto_write_peer_entry buf (TUND_HDR_SIZE + offset)
                           (u64 (TUND_MAX_PLAINTEXT - offset)) ip (Some nm) true in
      if (ok : bool) then write_entries l buf (offset + TUND_PEER_ENTRY_SIZE) (count + 1)
      else Some (buf, offset, count)
  end.

(** The peers of [server_send_peer_list]: all active ones but [peer_idx]. *)
Fixpoint list_others (l : list peer_t) (i peer_idx : Z) : list (Z * bytes) :=
  match l with
  | [] => []
  | p :: l =>
      if active p && negb (i =? peer_idx)
      then (virt_ip p, name p) :: list_others l (i + 1) peer_idx
      else list_others l (i + 1) peer_idx
  end.

Section ops.
Context `{M : Monocypher}.

Definition server_add_peer_bytes_out (sn : server_peer_snapshot_t) (n : Z) : prog srv_state unit :=
  if n =? 0 then Ret tt
  else locked (
    if (0 <=? snap_idx sn) && (snap_idx sn <? TUND_MAX_PEERS) then
      let* current := peer_at (snap_idx sn) in
      if active current && (virt_ip current =? snap_virt_ip sn)
         && (s_addr (real_addr current) =? s_addr (snap_real_addr sn))
         && (sin_port (real_addr current) =? sin_port (snap_real_addr sn))
      then put_peer (snap_idx sn) (add_bytes_out n current) 0
      else Ret tt
    else Ret tt).

Definition server_send_peer_snapshots (l : list server_peer_snapshot_t) (buf : bytes) (len n : Z) :
    prog srv_state unit :=
  for_each l (fun sn =>
    let* r := net_send buf len (snap_real_addr sn) in
    if r <? 0 then LOG LOG_LEVEL_WARN [snap_name sn; ip_to_str_buf (snap_virt_ip sn)]
    else server_add_peer_bytes_out sn n).

Definition server_broadcast (buf : bytes) (len exclude_idx n : Z) : prog srv_state unit :=
  let* l := locked (
    let* v := gets (fun v => v) in
    local (server_snapshot_broadcast_locked v TUND_MAX_PEERS exclude_idx)) in
  for_each l (fun sn =>
    let* r := net_send buf len (snap_real_addr sn) in
    if r <? 0 then LOG LOG_LEVEL_WARN [snap_name sn; ip_to_str_buf (snap_virt_ip sn)]
    else server_add_peer_bytes_out sn n).

Definition server_send_peer_list (peer_idx : Z) : prog srv_state unit :=
  let* buf := alloc TUND_MAX_PKT in
  let* '(target, (buf, offset, _)) := locked (
    let* v := gets (fun v => v) in
    let* target :=
      if (0 <=? peer_idx) && (peer_idx <? TUND_MAX_PEERS) then
        let* p := peer_at peer_idx in
        if active p then let* sn := local (server_snapshot_peer_locked p peer_idx) in Ret (Some sn)
        else Ret None
      else Ret None in
    let* r := local (write_entries (list_others (peers v) 0 peer_idx) buf 0 0) in
    Ret (target, r)) in
  match target with
  | None => Ret tt
  | Some target =>
      let* '(_, buf) := proto_write_hdr buf MSG_PEER_LIST (u16 offset) in
      let* r := net_send buf (TUND_HDR_SIZE + offset) (snap_real_addr target) in
      if r <? 0 then LOG LOG_LEVEL_WARN [snap_name target]
      else LOG LOG_LEVEL_DEBUG [snap_name target]
  end.
End ops.

(** * Invariant of the table *)

(** What a slot says about routing: nothing when free, else the virtual
    address and the endpoint it leads to. *)
Definition route (p : peer_t) : option (Z * sockaddr_in) :=
  if active p then Some (virt_ip p, real_addr p) else None.

Definition routing (v : server_t) : list (option (Z * sockaddr_in)) := map route (peers v).

Definition endpoint (a : sockaddr_in) : Z * Z := (s_addr a, sin_port a).

(** No two used slots agree on [f]. *)
Definition unique {B} (f : Z * sockaddr_in -> B) (R : list (option (Z * sockaddr_in))) : Prop :=
  forall i j x y, R !! i = Some (Some x) -> R !! j = Some (Some y) -> f x = f y -> i = j.

Definition used (R : list (option (Z * sockaddr_in))) : list (Z * sockaddr_in) := omap id R.

(** Virtual addresses that the server hands out. *)
Definition client_vip (ip : Z) : Prop := exists h, TUND_IP_START <= h <= TUND_IP_END /\ ip = htonl h.

Record routes_ok (R : list (option (Z * sockaddr_in))) : Prop := {
  ok_slots : length R = 253%nat;
  ok_vips : unique fst R;
  ok_addrs : unique (fun x => endpoint x.2) R;
  ok_range : Forall (fun x => client_vip x.1) (used R)
}.

Record srv_ok (v : server_t) : Prop := {
  ok_peers : Forall peer_ok (peers v);
  ok_count : peer_count v = zlen (used (routing v));
  ok_routes : routes_ok (routing v);
  ok_ifname : exists s, c_str (ifname (tun v)) = Some s
}.

(** * Facts on lookups *)

Lemma routing_lookup v i p : peers v !! i = Some p -> routing v !! i = Some (route p).
Proof. intros H. unfold routing. now rewrite list_lookup_fmap, H. Qed.

Lemma routing_lookup_inv v i x :
  routing v !! i = Some (Some x) ->
  exists p, peers v !! i = Some p /\ active p = true /\ x = (virt_ip p, real_addr p).
Proof.
  unfold routing. rewrite list_lookup_fmap. intros H.
  destruct (peers v !! i) as [p|]; [|done]. cbn in H. injection H as H.
  exists p. split; [done|]. unfold route in H. destruct (active p); [|done]. now injection H as <-.
Qed.

Lemma used_in R x : In x (used R) <-> exists i, R !! i = Some (Some x).
Proof.
  unfold used. rewrite <- list_elem_of_In, list_elem_of_omap. split.
  - intros ([y|] & Hin & Hy); [|done]. injection Hy as ->. apply list_elem_of_lookup in Hin. done.
  - intros [i Hi]. exists (Some x). split; [|done]. now apply list_elem_of_lookup_2 in Hi.
Qed.

Lemma zlen_peers v : srv_ok v -> zlen (peers v) = 253.
Proof.
  intros Hv. pose proof (ok_slots _ (ok_routes _ Hv)) as H. unfold routing in H.
  rewrite length_map in H. zl.
Qed.

(** The endpoint of a registered peer identifies its slot. *)
Lemma find_by_addr_spec v from :
  srv_ok v ->
  (server_find_peer_by_addr from v = -1 /\
   forall i x, routing v !! i = Some (Some x) -> endpoint x.2 <> endpoint from) \/
  exists p, 0 <= server_find_peer_by_addr from v < 253 /\
    peers v !! Z.to_nat (server_find_peer_by_addr from v) = Some p /\ active p = true /\
    endpoint (real_addr p) = endpoint from /\ peer_ok p.
Proof.
  intros Hv. unfold server_find_peer_by_addr.
  pose proof (zlen_peers v Hv) as Hlen.
  destruct (find_slot (fun p => active p && (s_addr (real_addr p) =? s_addr from)
      && (sin_port (real_addr p) =? sin_port from)) (peers v)) as [[-> HF]|(p & Hr & Hp & Hf)].
  - left. split; [done|]. intros i x Hx He.
    destruct (routing_lookup_inv _ _ _ Hx) as (p & Hp & Ha & ->). cbn in He. injection He as H1 H2.
    rewrite Forall_lookup in HF. specialize (HF _ _ Hp). cbn in HF.
    rewrite Ha, H1, H2, !Z.eqb_refl in HF. done.
  - right. exists p. rewrite Hlen in Hr. bools. split; [done|]. split; [done|].
    split; [done|]. split; [unfold endpoint; congruence|].
    pose proof (ok_peers _ Hv) as HP. rewrite Forall_lookup in HP. eauto.
Qed.

Lemma free_slot_spec v :
  srv_ok v ->
  (server_find_free_slot v = -1 /\ Forall (fun r => r <> None) (routing v)) \/
  exists p, 0 <= server_find_free_slot v < 253 /\
    peers v !! Z.to_nat (server_find_free_slot v) = Some p /\ active p = false /\ peer_ok p.
Proof.
  intros Hv. unfold server_find_free_slot.
  pose proof (zlen_peers v Hv) as Hlen.
  destruct (find_slot (fun p => negb (active p)) (peers v)) as [[-> HF]|(p & Hr & Hp & Hf)].
  - left. split; [done|]. apply Forall_map. eapply Forall_impl; [|exact HF].
    intros p Hp. cbn in *. apply negb_false_iff in Hp. unfold route. now rewrite Hp.
  - right. exists p. rewrite Hlen in Hr. apply negb_true_iff in Hf. split; [done|].
    split; [done|]. split; [done|]. pose proof (ok_peers _ Hv) as HP. rewrite Forall_lookup in HP. eauto.
Qed.

Lemma find_by_vip_spec v ip :
  srv_ok v ->
  (server_find_peer_by_vip ip v = -1 /\
   forall i x, routing v !! i = Some (Some x) -> x.1 <> ip) \/
  exists p, 0 <= server_find_peer_by_vip ip v < 253 /\
    peers v !! Z.to_nat (server_find_peer_by_vip ip v) = Some p /\ active p = true /\
    virt_ip p = ip /\ peer_ok p.
Proof.
  intros Hv. unfold server_find_peer_by_vip.
  pose proof (zlen_peers v Hv) as Hlen.
  destruct (find_slot (fun p => active p && (virt_ip p =? ip)) (peers v)) as [[-> HF]|(p & Hr & Hp & Hf)].
  - left. split; [done|]. intros i x Hx He.
    destruct (routing_lookup_inv _ _ _ Hx) as (p & Hp & Ha & ->). cbn in He.
    rewrite Forall_lookup in HF. specialize (HF _ _ Hp). cbn in HF. now rewrite Ha, He, Z.eqb_refl in HF.
  - right. exists p. rewrite Hlen in Hr. bools. split; [done|]. split; [done|].
    split; [done|]. split; [done|]. pose proof (ok_peers _ Hv) as HP. rewrite Forall_lookup in HP. eauto.
Qed.

(** * Address allocation *)

Lemma taken_spec v ip : taken (peers v) ip = true <-> In ip (map fst (used (routing v))).
Proof.
  unfold taken. rewrite existsb_exists, in_map_iff. split.
  - intros (p & Hin & Hp). bools. apply list_elem_of_In, list_elem_of_lookup in Hin as [i Hi].
    exists (virt_ip p, real_addr p). split; [done|]. apply used_in. exists i.
    rewrite (routing_lookup _ _ _ Hi). unfold route. now rewrite H.
  - intros (x & <- & Hx). apply used_in in Hx as [i Hi].
    destruct (routing_lookup_inv _ _ _ Hi) as (p & Hp & Ha & ->). exists p.
    split; [now apply list_elem_of_In, (list_elem_of_lookup_2 _ i)|]. rewrite Ha. cbn. apply Z.eqb_refl.
Qed.

(** The loop returns the first address that is not taken, or zero. *)
Lemma alloc_loop_spec n : forall ip l,
  TUND_IP_END - ip < Z.of_nat n ->
  (exists h, ip <= h <= TUND_IP_END /\ alloc_loop n ip l = htonl h /\ taken l (htonl h) = false /\
     forall h', ip <= h' < h -> taken l (htonl h') = true) \/
  (alloc_loop n ip l = 0 /\ forall h', ip <= h' <= TUND_IP_END -> taken l (htonl h') = true).
Proof.
  induction n as [|n IH]; intros ip l Hn; cbn [alloc_loop]; [right; split; [done|]; lia|].
  destruct (Z.leb_spec ip TUND_IP_END); [|right; split; [done|]; lia].
  destruct (taken l (htonl ip)) eqn:E; cbn [negb].
  - destruct (IH (ip + 1) l ltac:(lia)) as [(h & Hh & H1 & H2 & H3)|[H1 H2]].
    + left. exists h. split; [lia|]. split; [done|]. split; [done|]. intros h' Hh'.
      destruct (Z.eq_dec h' ip) as [->|]; [done|]. apply H3. lia.
    + right. split; [done|]. intros h' Hh'. destruct (Z.eq_dec h' ip) as [->|]; [done|]. apply H2. lia.
  - left. exists ip. split; [lia|]. split; [done|]. split; [done|]. lia.
Qed.

Lemma htonl_client h : TUND_IP_START <= h <= TUND_IP_END -> is_u32 h /\ htonl h <> 0.
Proof.
  intros Hh. assert (is_u32 h) by clia. split; [done|]. intros E. change 0 with (htonl 0) in E.
  apply htonl_inj in E; [clia|done|]. words. lia.
Qed.

Lemma used_le R : (length (used R) <= length R)%nat.
Proof. induction R as [|[x|] R IH]; unfold used in *; cbn in *; lia. Qed.

(** A table with a free slot uses fewer than 253 addresses. *)
Lemma used_length R i : R !! i = Some None -> (length (used R) < length R)%nat.
Proof.
  revert i. induction R as [|[x|] R IH]; intros [|i] Hi; cbn in *; try done.
  - specialize (IH _ Hi). unfold used in IH. lia.
  - pose proof (used_le R). unfold used in *. lia.
  - specialize (IH _ Hi). unfold used in IH. lia.
Qed.

(** Pigeonhole: as long as a slot is free the pool is not exhausted. *)
Lemma alloc_total v i :
  srv_ok v -> routing v !! i = Some None ->
  exists h, TUND_IP_START <= h <= TUND_IP_END /\ server_alloc_ip v = htonl h /\
    ~ In (htonl h) (map fst (used (routing v))) /\
    forall h', TUND_IP_START <= h' < h -> In (htonl h') (map fst (used (routing v))).
Proof.
  intros Hv Hi. unfold server_alloc_ip.
  destruct (alloc_loop_spec 254 TUND_IP_START (peers v)) as [(h & Hh & H1 & H2 & H3)|[_ Hall]]; [clia| |].
  - exists h. split; [done|]. split; [done|]. split.
    + intros Hin. apply taken_spec in Hin. congruence.
    + intros h' Hh'. now apply taken_spec, H3.
  - exfalso. apply used_length in Hi. rewrite (ok_slots _ (ok_routes _ Hv)) in Hi.
    pose proof (NoDup_incl_length (l := map htonl (seqZ TUND_IP_START 253))
      (l' := map fst (used (routing v)))) as HL.
    rewrite !length_map, length_seqZ in HL. apply Nat.lt_nge in Hi. apply Hi.
    change 253%nat with (Z.to_nat 253). apply HL.
    + apply NoDup_ListNoDup, NoDup_fmap_2_strong; [|apply NoDup_seqZ].
      intros x y Hx Hy E. apply elem_of_seqZ in Hx, Hy. apply htonl_inj in E; [done|clia|clia].
    + intros ip Hip. apply in_map_iff in Hip as (h & <- & Hh). apply list_elem_of_In, elem_of_seqZ in Hh.
      apply taken_spec, Hall. clia.
Qed.

(** * Updates of the table *)

Definition weight (r : option (Z * sockaddr_in)) : nat := if r then 1 else 0.

Lemma used_insert R i x y :
  R !! i = Some x -> (length (used (<[i := y]> R)) + weight x = length (used R) + weight y)%nat.
Proof.
  revert i. induction R as [|r R IH]; intros [|i] Hi; cbn [lookup list_lookup insert list_insert] in *;
    try done.
  - injection Hi as ->. unfold used, weight. destruct x, y; cbn; lia.
  - specialize (IH _ Hi). unfold used, weight in *. destruct r; cbn in *; [f_equal|]; exact IH.
Qed.

Lemma used_insert_in R i y x : In x (used (<[i := y]> R)) -> y = Some x \/ In x (used R).
Proof.
  rewrite !used_in. intros [j Hj].
  apply list_lookup_insert_Some in Hj as [(_ & -> & _)|[_ Hj]]; [by left|right; eauto].
Qed.

Lemma unique_insert {B} (f : Z * sockaddr_in -> B) R i y :
  unique f R -> (forall x, y = Some x -> forall z, In z (used R) -> f z <> f x) ->
  unique f (<[i := y]> R).
Proof.
  intros HU Hy j k a b Ha Hb E.
  apply list_lookup_insert_Some in Ha as [(-> & Hya & _)|[Hj Ha]];
  apply list_lookup_insert_Some in Hb as [(-> & Hyb & _)|[Hk Hb]]; [done| | |now apply (HU j k a b)].
  - exfalso. apply (Hy a Hya b); [apply used_in; eauto|done].
  - exfalso. apply (Hy b Hyb a); [apply used_in; eauto|done].
Qed.

Lemma routes_insert R i y :
  routes_ok R ->
  (forall x, y = Some x -> client_vip x.1 /\
     forall z, In z (used R) -> z.1 <> x.1 /\ endpoint z.2 <> endpoint x.2) ->
  routes_ok (<[i := y]> R).
Proof.
  intros [H1 H2 H3 H4] Hy. split.
  - now rewrite length_insert.
  - apply unique_insert; [done|]. intros x Hx z Hz. now apply (proj2 (Hy x Hx)).
  - apply unique_insert; [done|]. intros x Hx z Hz. now apply (proj2 (Hy x Hx)).
  - apply Forall_forall. intros x Hx. apply used_insert_in in Hx as [->|Hx].
    + now apply (Hy x).
    + rewrite Forall_forall in H4. now apply H4.
Qed.

Lemma routing_put v i p n :
  routing (set_peers (<[i := p]> (peers v)) n v) = <[i := route p]> (routing v).
Proof. apply (list_fmap_insert route). Qed.

(** Storing a well-formed record in slot [i]. *)
Lemma put_ok v i old new d :
  srv_ok v -> peers v !! i = Some old -> peer_ok new ->
  d = Z.of_nat (weight (route new)) - Z.of_nat (weight (route old)) ->
  routes_ok (<[i := route new]> (routing v)) ->
  srv_ok (set_peers (<[i := new]> (peers v)) (peer_count v + d) v).
Proof.
  intros Hv Hi Hn -> HR. split.
  - cbn. apply Forall_insert; [apply Hv|done].
  - rewrite routing_put. cbn [peer_count set_peers]. rewrite (ok_count _ Hv).
    pose proof (used_insert _ i _ (route new) (routing_lookup _ _ _ Hi)). unfold zlen. lia.
  - now rewrite routing_put.
  - apply Hv.
Qed.

(** An update that leaves routing alone. *)
Lemma put_same v i old new :
  srv_ok v -> peers v !! i = Some old -> peer_ok new -> route new = route old ->
  let v' := set_peers (<[i := new]> (peers v)) (peer_count v + 0) v in
  srv_ok v' /\ routing v' = routing v.
Proof.
  intros Hv Hi Hn Hr v'.
  assert (Hid : <[i := route new]> (routing v) = routing v).
  { rewrite Hr. apply list_insert_id. now apply routing_lookup. }
  split; [|unfold v'; now rewrite routing_put].
  apply (put_ok v i old); auto; [rewrite Hr; lia|]. rewrite Hid. apply Hv.
Qed.

(** Storing what is already there. *)
Lemma put_identity v i p :
  peers v !! i = Some p -> set_peers (<[i := p]> (peers v)) (peer_count v + 0) v = v.
Proof.
  intros Hp. rewrite list_insert_id, Z.add_0_r by done. now destruct v.
Qed.

(** A peer leaves. *)
Lemma put_inactive v i old :
  srv_ok v -> peers v !! i = Some old -> active old = true ->
  let v' := set_peers (<[i := set_active false old]> (peers v)) (peer_count v + -1) v in
  srv_ok v' /\ routing v' = <[i := None]> (routing v).
Proof.
  intros Hv Hi Ha v'. split; [|apply routing_put].
  pose proof (ok_peers _ Hv) as HP. rewrite Forall_lookup in HP.
  apply (put_ok v i old); eauto with tund.
  - unfold route. cbn. now rewrite Ha.
  - apply routes_insert; [apply Hv|]. done.
Qed.

(** A peer joins a free slot. *)
Lemma put_active v i old new :
  srv_ok v -> peers v !! i = Some old -> active old = false -> peer_ok new -> active new = true ->
  client_vip (virt_ip new) -> ~ In (virt_ip new) (map fst (used (routing v))) ->
  (forall j x, routing v !! j = Some (Some x) -> endpoint x.2 <> endpoint (real_addr new)) ->
  let v' := set_peers (<[i := new]> (peers v)) (peer_count v + 1) v in
  srv_ok v' /\ routing v' = <[i := Some (virt_ip new, real_addr new)]> (routing v).
Proof.
  intros Hv Hi Ho Hn Ha Hc Hvip Haddr v'.
  assert (Hr : route new = Some (virt_ip new, real_addr new)) by (unfold route; now rewrite Ha).
  split; [|unfold v'; now rewrite routing_put, Hr].
  apply (put_ok v i old); auto.
  - rewrite Hr. unfold route. now rewrite Ho.
  - rewrite Hr. apply routes_insert; [apply Hv|]. intros x [= <-]. split; [done|].
    intros z Hz. split.
    + intros E. apply Hvip. cbn in E. rewrite <- E. now apply in_map.
    + apply used_in in Hz as [j Hj]. now apply (Haddr j).
Qed.

(** * Facts on snapshots *)

Definition snap_ok (sn : server_peer_snapshot_t) : Prop :=
  exists s, c_str (snap_name sn) = Some s /\ bytes_ok s.

(** Snapshot of the slot [i], which says [x] about routing. *)
Definition snap_of (x : Z * sockaddr_in) (sn : server_peer_snapshot_t) : Prop :=
  snap_virt_ip sn = x.1 /\ snap_real_addr sn = x.2.

Lemma snapshot_peer p i :
  peer_ok p -> exists sn, server_snapshot_peer_locked p i = Some sn /\ snap_ok sn /\
    snap_of (virt_ip p, real_addr p) sn /\ snap_idx sn = i /\
    exists s, c_str (name p) = Some s /\ c_str (snap_name sn) = Some s.
Proof.
  intros Hp. destruct (name_ok_str _ (ok_name _ Hp)) as (s & Hs & Hb & Hl).
  unfold server_snapshot_peer_locked, snprintf_s. rewrite Hs. eexists. split; [reflexivity|].
  assert (Hc : c_str (take (32 - 1) s ++ [0]) = Some s).
  { rewrite take_ge by lia. apply c_str_app. now apply c_str_spec in Hs as [? _]. }
  split; [exists s; cbn; auto|]. split; [now split|]. split; [done|]. exists s. auto.
Qed.

(** The slots other than [exclude], as routing data, in table order. *)
Fixpoint others (R : list (option (Z * sockaddr_in))) (i exclude : Z) : list (Z * sockaddr_in) :=
  match R with
  | [] => []
  | Some x :: R => if i =? exclude then others R (i + 1) exclude else x :: others R (i + 1) exclude
  | None :: R => others R (i + 1) exclude
  end.

Lemma snapshot_loop_spec l : forall i max exclude out,
  Forall peer_ok l -> zlen out + zlen l <= max ->
  exists new, snapshot_loop l i max exclude out = Some (out ++ new) /\ Forall snap_ok new /\
    Forall2 snap_of (others (map route l) i exclude) new.
Proof.
  induction l as [|p l IH]; intros i max exclude out HF Hmax; cbn [snapshot_loop map others].
  - exists []. rewrite app_nil_r. auto.
  - apply Forall_cons_iff in HF as [Hp HF]. rewrite zlen_cons in Hmax. pose proof (zlen_nonneg l).
    destruct (Z.ltb_spec (zlen out) max); [|lia]. cbn [negb]. unfold route at 1.
    destruct (active p); cbn [andb].
    2:{ apply IH; [done|lia]. }
    destruct (i =? exclude); cbn [negb]; [apply IH; [done|lia]|].
    destruct (snapshot_peer p i Hp) as (sn & -> & Hok & Hof & _).
    destruct (IH (i + 1) max exclude (out ++ [sn]) HF) as (new & -> & Hn1 & Hn2).
    { rewrite zlen_app, zlen_cons, zlen_nil. lia. }
    exists (sn :: new). rewrite <- app_assoc. auto.
Qed.

(** A broadcast snapshot holds every active peer but the excluded one. *)
Lemma snapshot_broadcast v exclude :
  srv_ok v -> exists l, server_snapshot_broadcast_locked v TUND_MAX_PEERS exclude = Some l /\
    Forall snap_ok l /\ Forall2 snap_of (others (routing v) 0 exclude) l.
Proof.
  intros Hv. destruct (snapshot_loop_spec (peers v) 0 TUND_MAX_PEERS exclude []) as (l & H & Hl);
    [apply Hv|rewrite (zlen_peers _ Hv); done|]. exists l. auto.
Qed.

Lemma snapshot_by_vip v ip :
  srv_ok v ->
  (server_snapshot_peer_by_vip_locked v ip = Some None /\
   forall i x, routing v !! i = Some (Some x) -> x.1 <> ip) \/
  exists sn i x, server_snapshot_peer_by_vip_locked v ip = Some (Some sn) /\ snap_ok sn /\
    routing v !! i = Some (Some x) /\ x.1 = ip /\ snap_of x sn.
Proof.
  intros Hv. unfold server_snapshot_peer_by_vip_locked.
  destruct (find_by_vip_spec v ip Hv) as [[-> Hno]|(p & Hr & Hp & Ha & Hip & Hok)]; [by left|right].
  destruct (Z.leb_spec 0 (server_find_peer_by_vip ip v)); [|lia]. rewrite Hp.
  destruct (snapshot_peer p (server_find_peer_by_vip ip v) Hok) as (sn & -> & Hs & Hof & _).
  exists sn, (Z.to_nat (server_find_peer_by_vip ip v)), (virt_ip p, real_addr p).
  split; [done|]. split; [done|]. rewrite (routing_lookup _ _ _ Hp). unfold route. rewrite Ha. auto.
Qed.

(** * The server's invariant under its lock *)

(** The table is well formed, routing satisfies [X], the process [W]. *)
Definition served (X : list (option (Z * sockaddr_in)) -> Prop) (W : world -> Prop) (s : srv_state) :
    Prop :=
  srv_ok (srv s) /\ X (routing (srv s)) /\ W (srv_world s).

#[export] Instance served_framed X W {HQ : Quiet W} : Framed (served X W).
Proof. intros w s (H1 & H2 & H3) Hq. split; [done|]. split; [done|]. now apply (HQ _ _ H3). Qed.

#[export] Instance served_permits X W e {HA : Allows W e} : Permits (served X W) e.
Proof. intros w s (H1 & H2 & H3) He Hk Hg Ht. split; [done|]. split; [done|]. now apply (HA _ _ H3). Qed.

#[export] Instance served_governs X W : Governs (served X W) W.
Proof. split; [now intros s (_ & _ & ?)|]. intros e He. now apply served_permits. Qed.

(** A critical section that leaves the process alone. *)
Lemma inv_put X W s v' :
  inv (served X W) s -> srv_ok v' -> X (routing v') ->
  inv (served X W) (SrvState (srv_world s) v') /\ rel s (SrvState (srv_world s) v').
Proof. intros [Hw (_ & _ & HW)] Hv HX. split; [now split|]. apply world_step_refl. Qed.

Lemma run_peer_at i p s :
  0 <= i -> peers (srv s) !! Z.to_nat i = Some p -> run (peer_at i) s = Some (p, s).
Proof. intros Hi Hp. cbn. destruct (Z.leb_spec 0 i); [|lia]. now rewrite Hp. Qed.

Lemma run_put_peer i p d s :
  0 <= i < zlen (peers (srv s)) ->
  run (put_peer i p d) s =
  Some (tt, SrvState (srv_world s)
              (set_peers (<[Z.to_nat i := p]> (peers (srv s))) (peer_count (srv s) + d) (srv s))).
Proof.
  intros Hi. cbn. destruct (Z.leb_spec 0 i); [|lia].
  destruct (Z.ltb_spec i (zlen (peers (srv s)))); [done|lia].
Qed.

Lemma safe_gets X W {A} (f : server_t -> A) (Q : A -> Prop) :
  (forall s, inv (served X W) s -> Q (f (srv s))) -> safe (served X W) (gets f) Q.
Proof.
  intros HQ. apply guar_atomic. intros s Hs. exists (f (srv s)), s. split; [done|]. split; [done|].
  split; [apply rel_refl|auto].
Qed.

Lemma safe_peer_at X W i : 0 <= i < TUND_MAX_PEERS -> safe (served X W) (peer_at i) peer_ok.
Proof.
  intros Hi. apply guar_atomic. intros s Hs. destruct (proj2 Hs) as (Hv & _).
  pose proof (zlen_peers _ Hv) as Hlen. unfold TUND_MAX_PEERS in *.
  destruct (lookup_lt_is_Some_2 (peers (srv s)) (Z.to_nat i)) as [p Hp]; [zl|].
  exists p, s. destruct (Z.leb_spec 0 i); [|lia]. rewrite Hp. split; [done|]. split; [done|].
  split; [apply rel_refl|]. pose proof (ok_peers _ Hv) as HP. rewrite Forall_lookup in HP. eauto.
Qed.

Section sends.
Context `{M : Monocypher} {ML : MonocypherLaws M}.
Context (X : list (option (Z * sockaddr_in)) -> Prop) (W : world -> Prop) {HQ : Quiet W}.
Notation J := (served X W).

Lemma safe_add_bytes_out sn n : safe J (server_add_peer_bytes_out sn n) (fun _ => True).
Proof.
  unfold server_add_peer_bytes_out. destruct (n =? 0); [done|].
  apply guar_atomic. intros s Hs. destruct (proj2 Hs) as (Hv & HX & _).
  assert (Hsame : exists b s', Some (tt, s) = Some (b, s') /\ inv J s' /\ rel s s' /\ True).
  { exists tt, s. split; [done|]. split; [done|]. split; [apply rel_refl|done]. }
  destruct (_ && _) eqn:Hi; [|done]. bools. rewrite run_bind.
  pose proof (zlen_peers _ Hv) as Hlen. unfold TUND_MAX_PEERS in *.
  destruct (lookup_lt_is_Some_2 (peers (srv s)) (Z.to_nat (snap_idx sn))) as [p Hp]; [zl|].
  rewrite (run_peer_at _ p) by done. destruct (_ && _) eqn:Hc; [|done].
  rewrite run_put_peer by lia. eexists tt, _. split; [reflexivity|].
  pose proof (ok_peers _ Hv) as HP. rewrite Forall_lookup in HP.
  destruct (put_same (srv s) _ p (add_bytes_out n p) Hv Hp) as [Hv' HR]; eauto with tund.
  destruct (inv_put X W s _ Hs Hv') as [HI Hrel]; [now rewrite HR|]. auto.
Qed.

(** Sends to a list of snapshots, each of them permitted. *)
Lemma safe_send_snapshots l buf len n :
  bytes_ok buf -> len <= zlen buf -> Forall snap_ok l ->
  Forall (fun sn => may_send J buf len (snap_real_addr sn)) l ->
  safe J (server_send_peer_snapshots l buf len n) (fun _ => True).
Proof.
  intros Hb Hl Hs Hm. unfold server_send_peer_snapshots.
  apply (safe_for_each _ _ _ (fun sn => snap_ok sn /\ may_send J buf len (snap_real_addr sn))).
  { now apply Forall_and. }
  intros sn [(s & Hsn & _) Hms]. eapply safe_bind; [now apply safe_net_send; try typeclasses eauto|].
  intros r _. destruct (r <? 0); [|apply safe_add_bytes_out]. logging.
Qed.

Lemma safe_snapshot_broadcast exclude :
  safe J (locked (let* v := gets (fun v => v) in
                  local (server_snapshot_broadcast_locked v TUND_MAX_PEERS exclude)))
    (fun l => Forall snap_ok l /\
       exists s, inv J s /\ Forall2 snap_of (others (routing (srv s)) 0 exclude) l).
Proof.
  apply guar_atomic. intros s Hs. destruct (proj2 Hs) as (Hv & _).
  destruct (snapshot_broadcast (srv s) exclude Hv) as (l & Hl & Hok & Hof). cbn. rewrite Hl. cbn.
  exists l, s. split; [done|]. split; [done|]. split; [apply rel_refl|]. eauto.
Qed.
End sends.

(** * Peer lists *)

(** The payload of a PEER_LIST message. *)
Definition entries_bytes (l : list (Z * bytes)) : bytes :=
  concat (map (fun '(ip, s) => peer_entry_bytes ip s true) l).

(** [l] holds names as arrays, [l'] the same names as strings. *)
Definition named (e : Z * bytes) (e' : Z * bytes) : Prop :=
  e.1 = e'.1 /\ c_str e.2 = Some e'.2 /\ bytes_ok e'.2.

Lemma zlen_entries l : zlen (entries_bytes l) = TUND_PEER_ENTRY_SIZE * zlen l.
Proof.
  unfold entries_bytes. induction l as [|[ip s] l IH]; [done|]. cbn [map concat].
  rewrite zlen_app, IH, zlen_cons. unfold zlen at 1. rewrite length_peer_entry. clia.
Qed.

Lemma entries_ok l : Forall (fun e => bytes_ok e.2) l -> bytes_ok (entries_bytes l).
Proof.
  unfold entries_bytes. induction 1 as [|[ip s] l Hs _ IH]; cbn [map concat]; [apply bytes_ok_nil|].
  apply bytes_ok_app. split; [now apply peer_entry_ok|done].
Qed.

(** The loop stores entries one after the other and stops before the first
    that does not fit in [TUND_MAX_PLAINTEXT] bytes. *)
Lemma write_entries_spec l l' : Forall2 named l l' -> forall hdr ahead tail k c,
  zlen hdr = TUND_HDR_SIZE -> zlen ahead = TUND_PEER_ENTRY_SIZE * k -> 0 <= k <= 43 ->
  TUND_MAX_PLAINTEXT <= zlen ahead + zlen tail ->
  exists tail', let n := Nat.min (length l) (Z.to_nat (43 - k)) in
    write_entries l (hdr ++ ahead ++ tail) (zlen ahead) c =
    Some (hdr ++ ahead ++ entries_bytes (take n l') ++ tail',
          zlen ahead + TUND_PEER_ENTRY_SIZE * Z.of_nat n, c + Z.of_nat n) /\
    (bytes_ok tail -> bytes_ok tail') /\
    zlen tail = TUND_PEER_ENTRY_SIZE * Z.of_nat n + zlen tail'.
Proof.
  induction 1 as [|[ip nm] [ip' s] l l' [Hip [Hs Hsb]] _ IH]; intros hdr ahead tail k c Hh Hd Hk Ht.
  - exists tail. cbn. rewrite !Z.add_0_r. auto.
  - cbn [write_entries fst snd length] in *. subst ip'. pose proof (zlen_nonneg tail).
    assert (Hu : u64 (TUND_MAX_PLAINTEXT - zlen ahead) = TUND_MAX_PLAINTEXT - zlen ahead)
      by (words; apply Z.mod_small; clia). rewrite Hu.
    destruct (Z.eq_dec k 43) as [->|Hne].
    { exists tail. rewrite Nat.min_0_r. cbn [take entries_bytes map concat app].
      unfold proto_write_peer_entry.
      destruct (Z.ltb_spec (TUND_MAX_PLAINTEXT - zlen ahead) TUND_PEER_ENTRY_SIZE); [|clia].
      cbn [Nat.min Z.of_nat]. rewrite Z.mul_0_r, !Z.add_0_r. auto. }
    destruct (split_at (Z.to_nat TUND_PEER_ENTRY_SIZE) tail) as (old & post & -> & Hold); [clia|].
    rewrite app_assoc. replace (TUND_HDR_SIZE + zlen ahead) with (zlen (hdr ++ ahead))
      by (rewrite zlen_app; lia).
    rewrite (write_peer_entry_at _ old post _ ip nm s) by (done || clia).
    set (e := peer_entry_bytes ip s true).
    assert (He : zlen e = TUND_PEER_ENTRY_SIZE) by (unfold zlen, e; rewrite length_peer_entry; clia).
    rewrite zlen_app in Ht.
    destruct (IH hdr (ahead ++ e) post (k + 1) (c + 1)) as (tail' & Hw & Hb & Hl);
      [done|rewrite zlen_app; clia|lia|rewrite zlen_app; clia|].
    exists tail'. rewrite <- !app_assoc in *. rewrite zlen_app, He in Hw. rewrite Hw.
    replace (Z.to_nat (43 - k)) with (S (Z.to_nat (43 - (k + 1)))) by lia. cbn [Nat.min take].
    set (n := Nat.min _ _) in *. rewrite Nat2Z.inj_succ. rewrite zlen_app.
    split; [|split; [|clia]].
    + unfold entries_bytes. cbn [map concat]. fold e. rewrite <- app_assoc. do 2 f_equal; [f_equal|]; lia.
    + rewrite !bytes_ok_app. tauto.
Qed.

(** Reading entry [i] of a list that was written. *)
Lemma read_entry_at l : forall i ip s rest,
  Forall (fun e => is_u32 e.1) l -> l !! i = Some (ip, s) ->
  proto_read_peer_entry (entries_bytes l ++ rest) (zlen (entries_bytes l)) (Z.of_nat i) =
  Some (Some (ip, name_field s, true)).
Proof.
  intros i ip s rest Hu Hi.
  pose proof Hi as Hi'. apply take_drop_middle in Hi. rewrite <- Hi at 1 2.
  unfold entries_bytes. rewrite map_app, concat_app. cbn [map concat].
  fold (entries_bytes (take i l)) (entries_bytes (drop (S i) l)).
  rewrite <- !app_assoc. rewrite (read_peer_entry_at _ _ ip s true).
  - done.
  - rewrite Forall_lookup in Hu. now apply (Hu _ _ Hi').
  - rewrite zlen_entries. apply lookup_lt_Some in Hi'. unfold zlen. rewrite length_take. lia.
  - lia.
  - rewrite !zlen_app. unfold zlen at 3. rewrite length_peer_entry.
    pose proof (zlen_nonneg (entries_bytes (drop (S i) l))). clia.
Qed.

(** The same on a whole datagram buffer. *)
Lemma entries_written l l' buf :
  Forall2 named l l' -> bytes_ok buf -> zlen buf = TUND_MAX_PKT ->
  exists buf', let n := Nat.min (length l) 43 in
    write_entries l buf 0 0 = Some (buf', TUND_PEER_ENTRY_SIZE * Z.of_nat n, Z.of_nat n) /\
    bytes_ok buf' /\ zlen buf' = TUND_MAX_PKT /\
    take (Z.to_nat (TUND_PEER_ENTRY_SIZE * Z.of_nat n)) (drop 37 buf') = entries_bytes (take n l').
Proof.
  intros HF Hb Hl. destruct (split_at 37 buf) as (hdr & tail & -> & Hh); [clia|].
  apply bytes_ok_app in Hb as [Hhb Htb]. rewrite zlen_app in Hl.
  destruct (write_entries_spec l l' HF hdr [] tail 0 0) as (tail' & Hw & Htb' & Ht);
    [clia|done|lia|rewrite zlen_nil; clia|].
  cbn [app] in Hw. change (Z.to_nat (43 - 0)) with 43%nat in *.
  set (n := Nat.min (length l) 43) in *. rewrite zlen_nil, !Z.add_0_l in Hw.
  pose proof (Forall2_length HF) as Hll.
  assert (Hz : zlen (entries_bytes (take n l')) = TUND_PEER_ENTRY_SIZE * Z.of_nat n).
  { rewrite zlen_entries. f_equal. unfold zlen. rewrite length_take. lia. }
  exists (hdr ++ entries_bytes (take n l') ++ tail'). split; [done|].
  split; [|split].
  - rewrite !bytes_ok_app. split; [done|]. split; [|auto]. apply entries_ok, Forall_take.
    clear -HF. induction HF as [|? ? ? ? (_ & _ & H)]; auto.
  - rewrite !zlen_app. lia.
  - rewrite drop_app_length' by done. apply take_app_length'. unfold zlen in Hz. lia.
Qed.

Lemma list_others_named l : forall i exclude, Forall peer_ok l ->
  exists l', Forall2 named (list_others l i exclude) l' /\
    map fst l' = map fst (others (map route l) i exclude).
Proof.
  induction l as [|p l IH]; intros i exclude HF; cbn [list_others map others]; [exists []; auto|].
  apply Forall_cons_iff in HF as [Hp HF]. destruct (IH (i + 1) exclude HF) as (l' & H1 & H2).
  unfold route at 1. destruct (active p); cbn [andb]; [|eauto].
  destruct (i =? exclude); cbn [negb]; [eauto|].
  destruct (name_ok_str _ (ok_name _ Hp)) as (s & Hs & Hb & _).
  exists ((virt_ip p, s) :: l'). cbn. rewrite H2. split; [|done]. constructor; [now split|done].
Qed.

Section peer_list.
Context `{M : Monocypher} {ML : MonocypherLaws M}.
Context (X : list (option (Z * sockaddr_in)) -> Prop) (W : world -> Prop) {HQ : Quiet W}.
Context {HA : forall e, Allows W e}.
Notation J := (served X W).

Lemma safe_broadcast buf len exclude n :
  bytes_ok buf -> len <= zlen buf -> safe J (server_broadcast buf len exclude n) (fun _ => True).
Proof.
  intros Hb Hl. unfold server_broadcast.
  eapply safe_bind; [now apply safe_snapshot_broadcast|]. intros l [Hok _].
  apply safe_send_snapshots; auto. apply Forall_true. intros. apply may_send_any. apply _.
Qed.

Lemma safe_send_peer_list idx : safe J (server_send_peer_list idx) (fun _ => True).
Proof.
  unfold server_send_peer_list.
  eapply safe_bind; [now apply safe_alloc; try typeclasses eauto|]. intros buf [Hl Hb].
  eapply (safe_bind _ _ _ (fun '(target, (buf', offset, _)) =>
    (forall sn, target = Some sn -> snap_ok sn) /\ bytes_ok buf' /\ zlen buf' = TUND_MAX_PKT /\
    0 <= offset <= TUND_MAX_PLAINTEXT)).
  - apply safe_locked. eapply (safe_bind _ _ _ srv_ok).
    { apply safe_gets. intros s [_ (Hv & _)]. exact Hv. }
    intros v Hv. eapply (safe_bind _ _ _ (fun target => forall sn, target = Some sn -> snap_ok sn)).
    { destruct (_ && _) eqn:Hi; [|now apply safe_ret]. bools.
      eapply safe_bind; [now apply safe_peer_at|]. intros p Hp.
      destruct (active p); [|now apply safe_ret].
      destruct (snapshot_peer p idx Hp) as (sn & -> & Hsn & _). apply safe_ret. now intros ? [= <-]. }
    intros target Ht. destruct (list_others_named (peers v) 0 idx (ok_peers _ Hv)) as (l' & Hn & _).
    destruct (entries_written _ _ buf Hn Hb Hl) as (buf' & -> & Hb' & Hl' & _).
    apply safe_ret. split; [done|]. split; [done|]. split; [done|]. clia.
  - intros [target [[buf' offset] c]] (Hsn & Hb' & Hl' & Hoff). destruct target as [sn|]; [|done].
    destruct (Hsn sn eq_refl) as (nm & Hnm & _).
    eapply safe_bind.
    { apply safe_write_hdr; [typeclasses eauto|done|words; unfold MSG_PEER_LIST; lia
        |words; apply Z.mod_pos_bound; lia|clia]. }
    intros [r buf''] (Hl'' & Hb'' & _).
    eapply safe_bind.
    { apply safe_net_send; try typeclasses eauto; [done|clia|]. apply may_send_any. apply _. }
    intros r' _. destruct (r' <? 0); logging.
Qed.
End peer_list.

(** * Reasoning inside a critical section *)

(** The table is [v], the process satisfies [W]. *)
Definition still (v : server_t) (W : world -> Prop) (s : srv_state) : Prop :=
  srv s = v /\ W (srv_world s).

#[export] Instance still_framed v W {HQ : Quiet W} : Framed (still v W).
Proof. intros w s [H1 H2] Hq. split; [done|]. now apply (HQ _ _ H2). Qed.

(** Reached from [s0] inside the section, with table [v]. *)
Definition inside (W : world -> Prop) (s0 : srv_state) (v : server_t) (s : srv_state) : Prop :=
  inv (still v W) s /\ rel s0 s.

Section inside.
Context (W : world -> Prop) {HQ : Quiet W} (s0 : srv_state).

Lemma inside_start X : inv (served X W) s0 -> inside W s0 (srv s0) s0.
Proof. intros [Hw (_ & _ & HW)]. split; [now split|apply rel_refl]. Qed.

Lemma inside_end X v s : inside W s0 v s -> srv_ok v -> X (routing v) -> inv (served X W) s /\ rel s0 s.
Proof. intros [[Hw [<- HW]] Hr] Hv HX. split; [now split|done]. Qed.

(** Code that does not touch the table. *)
Lemma wp_still {A} (p : prog srv_state A) Q v s (K : A -> srv_state -> Prop) :
  safe (still v W) p Q -> inside W s0 v s ->
  (forall a s', inside W s0 v s' -> Q a -> K a s') -> wp p K s.
Proof.
  intros Hp [Hi Hr] HK. destruct (safe_run _ _ _ s Hp Hi) as (a & s' & Hrun & Hi' & Hr' & Ha).
  exists a, s'. split; [done|]. apply HK; [|done]. split; [done|]. now transitivity s.
Qed.

Lemma wp_gets {A} (f : server_t -> A) v s K : inside W s0 v s -> K (f v) s -> wp (gets f) K s.
Proof. intros [[_ [<- _]] _] HK. now exists (f (srv s)), s. Qed.

Lemma wp_peer_at i p v s K :
  inside W s0 v s -> 0 <= i -> peers v !! Z.to_nat i = Some p -> K p s -> wp (peer_at i) K s.
Proof.
  intros [[_ [<- _]] _] Hi Hp HK. exists p, s. split; [|done]. now apply run_peer_at.
Qed.

Lemma wp_put i p d v s (K : unit -> srv_state -> Prop) :
  inside W s0 v s -> 0 <= i < zlen (peers v) ->
  (forall s', inside W s0 (set_peers (<[Z.to_nat i := p]> (peers v)) (peer_count v + d) v) s' -> K tt s') ->
  wp (put_peer i p d) K s.
Proof.
  intros [[Hw [<- HW]] Hr] Hi HK. eexists tt, _. split; [now apply run_put_peer|].
  apply HK. split; [now split|done].
Qed.

(** The same, for what depends on the process: it does not change. *)
Lemma wp_put_world i p d v s (K : unit -> srv_state -> Prop) :
  inside W s0 v s -> 0 <= i < zlen (peers v) ->
  (forall s', inside W s0 (set_peers (<[Z.to_nat i := p]> (peers v)) (peer_count v + d) v) s' ->
     srv_world s' = srv_world s -> K tt s') ->
  wp (put_peer i p d) K s.
Proof.
  intros [[Hw [<- HW]] Hr] Hi HK. eexists tt, _. split; [now apply run_put_peer|].
  apply HK; [|done]. split; [now split|done].
Qed.

(** A reading of the clock. *)
Lemma wp_now v s (K : Z -> srv_state -> Prop) :
  inside W s0 v s ->
  (forall now s', now = env_time (w_env (srv_world s)) (w_tick (srv_world s)) -> 0 <= now < 2 ^ 62 ->
     inside W s0 v s' -> K now s') ->
  wp (on_world' time_null) K s.
Proof.
  intros Hs HK. destruct (wp_still _ _ _ s _ (safe_time (still v W)) Hs (fun a s' H1 H2 => conj H1 H2)) as (a & s' & Hr & Hi & Ha).
  exists a, s'. split; [done|]. apply HK; auto. cbn in Hr. now injection Hr as <- _.
Qed.
End inside.

(** A critical section proved from each state it can start in. *)
Lemma safe_section X W {A} (p : prog srv_state A) Q :
  (forall s, inv (served X W) s -> wp p (fun a s' => inv (served X W) s' /\ rel s s' /\ Q a) s) ->
  safe (served X W) (locked p) Q.
Proof.
  intros Hp. apply guar_atomic. intros s Hs. destruct (Hp s Hs) as (a & s' & Hr & HI & Hrel & HQ).
  now exists a, s'.
Qed.
