(* ===== verification/Server.v ===== *)
(** The server's message handlers ([handlers.c], [data.c], [keepalive.c] of
    [core/server]). *)
From stdpp Require Import base list numbers option.
From S2P Require Import Prelude Prog World Consts Sequence Wire Ipv4 Crypto Events Replay Peer Net Messages Boot ServerPeers.

(** * Registration *)

(** How the critical section of [server_handle_register] ends. *)
Inductive register_result : Type :=
| RegReplayed (peer_name : bytes)
| RegRejected (table_full : bool)
| RegAccepted (vip : Z) (peer_name : bytes) (peer_addr : sockaddr_in)
    (peer_entries : list server_peer_snapshot_t) (join_dests : list sockaddr_in) (reconnect : bool).

(** Snapshots and endpoints of the active slots other than [idx]. *)
Fixpoint register_others (l : list peer_t) (i idx : Z)
    (peer_entries : list server_peer_snapshot_t) (join_dests : list sockaddr_in) :
    option (list server_peer_snapshot_t * list sockaddr_in) :=
  match l with
  | [] => Some (peer_entries, join_dests)
  | p :: l =>
      if negb (active p) || (i =? idx) then register_others l (i + 1) idx peer_entries join_dests
      else
        let? sn := server_snapshot_peer_locked p i in
        let? peer_entries := push peer_entries sn in
        let? join_dests := push join_dests (real_addr p) in
        register_others l (i + 1) idx peer_entries join_dests
  end.

(** The name stored for a new peer. *)
Definition register_name (payload : bytes) (plen idx : Z) : option bytes :=
  let nm := replicate (Z.to_nat TUND_NAME_LEN) 0 in
  if 0 <? plen then
    let? src := mem_read payload 0 (if plen <? TUND_NAME_LEN - 1 then plen else TUND_NAME_LEN - 1) in
    mem_write nm 0 src
  else
    let? text := snprintf_s (Z.to_nat TUND_NAME_LEN) (str "peer-" ++ dec idx ++ [0]) in
    mem_write nm 0 text.

Section handlers.
Context `{M : Monocypher}.

Definition build_peer_list_from_snapshot (buf : bytes) (entries : list server_peer_snapshot_t) :
    prog srv_state (Z * bytes * Z) :=
  let* '(buf, offset, count) :=
    local (write_entries (map (fun sn => (snap_virt_ip sn, snap_name sn)) entries) buf 0 0) in
  let* '(_, buf) := proto_write_hdr buf MSG_PEER_LIST (u16 offset) in
  Ret (TUND_HDR_SIZE + offset, buf, count).

Definition register_locked (payload : bytes) (plen : Z) (from : sockaddr_in) (sequence : Z) :
    prog srv_state register_result :=
  let* idx := gets (server_find_peer_by_addr from) in
  if 0 <=? idx then
    let* p := peer_at idx in
    let '(accepted, window) := proto_replay_accept (replay p) sequence in
    let p := set_replay window p in
    put_peer idx p 0 ;;
    if negb accepted then
      let* peer_name := local (snprintf_s 32 (name p)) in
      Ret (RegReplayed peer_name)
    else
      let* now := on_world' time_null in
      put_peer idx (set_last_seen now p) 0 ;;
      let* peer_name := local (snprintf_s 32 (name p)) in
      Ret (RegAccepted (virt_ip p) peer_name (real_addr p) [] [] true)
  else
    let* idx := gets server_find_free_slot in
    let* vip := if 0 <=? idx then gets server_alloc_ip else Ret 0 in
    if (idx <? 0) || (vip =? 0) then Ret (RegRejected (idx <? 0))
    else
      let* nm := local (register_name payload plen idx) in
      let* now := on_world' time_null in
      let window := (proto_replay_accept proto_replay_reset sequence).2 in
      let p := Peer true vip nm from now 0 0 0 false window in
      put_peer idx p 1 ;;
      let* peer_name := local (snprintf_s 32 (name p)) in
      let* l := gets peers in
      let* '(peer_entries, join_dests) := local (register_others l 0 idx [] []) in
      Ret (RegAccepted vip peer_name (real_addr p) peer_entries join_dests false).

(** What follows the critical section when the peer is accepted. *)
Definition register_reply (from : sockaddr_in) (vip : Z) (peer_name : bytes)
    (peer_addr : sockaddr_in) (peer_entries : list server_peer_snapshot_t)
    (join_dests : list sockaddr_in) (reconnect : bool) : prog srv_state unit :=
  let* buf := alloc TUND_MAX_PKT in
  let* '(len, buf) := proto_build_assign buf vip (htonl TUND_NETMASK) TUND_TUN_MTU in
  let* r := net_send buf len peer_addr in
  (if r <? 0
   then LOG LOG_LEVEL_WARN [(if reconnect then str "reconnecting" else str "new") ++ [0]; peer_name]
   else Ret tt) ;;
  if reconnect then LOG LOG_LEVEL_INFO [peer_name]
  else
    LOG LOG_LEVEL_INFO [peer_name; ip_to_str_buf vip; ip_to_str_buf (s_addr from)] ;;
    app_event_peer_join peer_name vip peer_addr ;;
    let* '(len, buf, _) := build_peer_list_from_snapshot buf peer_entries in
    let* r := net_send buf len peer_addr in
    (if r <? 0 then LOG LOG_LEVEL_WARN [peer_name] else LOG LOG_LEVEL_DEBUG [peer_name]) ;;
    let* '(len, buf) := proto_build_peer_join buf vip peer_name in
    for_each join_dests (fun dest =>
      let* r := net_send buf len dest in
      if r <? 0 then LOG LOG_LEVEL_WARN [peer_name] else Ret tt).

Definition server_handle_register (payload : bytes) (plen : Z) (from : sockaddr_in) (sequence : Z) :
    prog srv_state unit :=
  let* res := locked (register_locked payload plen from sequence) in
  match res with
  | RegReplayed peer_name => LOG LOG_LEVEL_DEBUG [peer_name]
  | RegRejected _ => LOG LOG_LEVEL_WARN []
  | RegAccepted vip peer_name peer_addr peer_entries join_dests reconnect =>
      register_reply from vip peer_name peer_addr peer_entries join_dests reconnect
  end.

(** * Replay protection and departure *)

Definition server_accept_registered_sequence (from : sockaddr_in) (sequence : Z) :
    prog srv_state bool :=
  let* '(known, accepted, peer_name) := locked (
    let* idx := gets (server_find_peer_by_addr from) in
    if 0 <=? idx then
      let* p := peer_at idx in
      let '(accepted, window) := proto_replay_accept (replay p) sequence in
      put_peer idx (set_replay window p) 0 ;;
      let* peer_name := local (snprintf_s 32 (name p)) in
      Ret (true, accepted, peer_name)
    else Ret (false, true, [0])) in
  (if known && negb accepted then LOG LOG_LEVEL_DEBUG [peer_name] else Ret tt) ;;
  Ret accepted.

(** [None]: the endpoint is not registered. *)
Definition disconnect_locked (from : sockaddr_in) :
    prog srv_state (option (Z * list server_peer_snapshot_t)) :=
  let* idx := gets (server_find_peer_by_addr from) in
  if idx <? 0 then Ret None
  else
    let* p := peer_at idx in
    LOG LOG_LEVEL_INFO [name p; ip_to_str_buf (virt_ip p)] ;;
    let vip := virt_ip p in
    put_peer idx (set_active false p) (-1) ;;
    let* v := gets (fun v => v) in
    let* leave_peers := local (server_snapshot_broadcast_locked v TUND_MAX_PEERS (-1)) in
    Ret (Some (vip, leave_peers)).

(** What follows the critical section. *)
Definition disconnect_notify (res : option (Z * list server_peer_snapshot_t)) : prog srv_state unit :=
  match res with
  | None => Ret tt
  | Some (vip, leave_peers) =>
      let* buf := alloc TUND_MAX_PKT in
      let* '(len, buf) := proto_build_peer_leave buf vip in
      server_send_peer_snapshots leave_peers buf len 0 ;;
      app_event_peer_leave vip (str "disconnect")
  end.

Definition server_handle_disconnect (from : sockaddr_in) : prog srv_state unit :=
  let* res := locked (disconnect_locked from) in disconnect_notify res.

(** * Forwarding *)

(** How the critical section of [server_handle_data] ends. *)
Inductive data_route : Type :=
| RouteUnknown                                        (** endpoint not registered *)
| RouteSpoofed                                        (** source is not the sender's *)
| RouteTun                                            (** for the server itself *)
| RouteBroadcast (l : list server_peer_snapshot_t)
| RouteNobody                                         (** no peer has the address *)
| RouteUnicast (sn : server_peer_snapshot_t).

Definition data_locked (src_ip dst_ip plen : Z) (from : sockaddr_in) : prog srv_state data_route :=
  let* sender_idx := gets (server_find_peer_by_addr from) in
  if sender_idx <? 0 then Ret RouteUnknown
  else
    let* p := peer_at sender_idx in
    if negb (src_ip =? virt_ip p) then
      LOG LOG_LEVEL_WARN [ip_to_str_buf src_ip; name p; ip_to_str_buf (virt_ip p)] ;;
      Ret RouteSpoofed
    else
      put_peer sender_idx (add_bytes_in plen p) 0 ;;
      if dst_ip =? htonl TUND_SERVER_IP then Ret RouteTun
      else
        let* v := gets (fun v => v) in
        if dst_ip =? htonl TUND_BROADCAST then
          let* l := local (server_snapshot_broadcast_locked v TUND_MAX_PEERS sender_idx) in
          Ret (RouteBroadcast l)
        else
          let* sn := local (server_snapshot_peer_by_vip_locked v dst_ip) in
          match sn with
          | None => Ret RouteNobody
          | Some sn => Ret (RouteUnicast sn)
          end.

(** What follows the critical section. *)
Definition data_forward (route : data_route) (payload : bytes) (plen dst_ip : Z) :
    prog srv_state unit :=
  match route with
  | RouteUnknown => LOG LOG_LEVEL_WARN []
  | RouteSpoofed => Ret tt
  | RouteTun =>
      let* pkt := local (mem_read payload 0 plen) in
      let* _ := tun_write pkt in Ret tt
  | RouteNobody => LOG LOG_LEVEL_DEBUG [ip_to_str_buf dst_ip]
  | RouteBroadcast l =>
      let* buf := alloc TUND_MAX_PKT in
      let* '(len, buf) := proto_build_data buf payload plen in
      for_each l (fun sn =>
        let* r := net_send buf len (snap_real_addr sn) in
        if r <? 0 then LOG LOG_LEVEL_WARN [snap_name sn; ip_to_str_buf (snap_virt_ip sn)]
        else server_add_peer_bytes_out sn plen) ;;
      let* pkt := local (mem_read payload 0 plen) in
      let* _ := tun_write pkt in Ret tt
  | RouteUnicast sn =>
      let* buf := alloc TUND_MAX_PKT in
      let* '(len, buf) := proto_build_data buf payload plen in
      let* r := net_send buf len (snap_real_addr sn) in
      if r <? 0 then LOG LOG_LEVEL_WARN [snap_name sn]
      else server_add_peer_bytes_out sn plen
  end.

Definition server_handle_data (payload : bytes) (plen : Z) (from : sockaddr_in) :
    prog srv_state unit :=
  let* validation := local (proto_validate_ipv4_packet payload plen) in
  if negb (validation =? TUND_IPV4_OK) then
    LOG LOG_LEVEL_DEBUG [proto_ipv4_validation_error validation ++ [0]]
  else
    let* src_ip := local (proto_get_src_ip payload plen) in
    let* dst_ip := local (proto_get_dst_ip payload plen) in
    let* route := locked (data_locked src_ip dst_ip plen from) in
    data_forward route payload plen dst_ip.

(** * Keepalives *)

Definition server_handle_keepalive (payload : bytes) (plen : Z) (from : sockaddr_in) :
    prog srv_state unit :=
  let* ts := local (proto_read_keepalive_timestamp payload plen) in
  match ts with
  | None => LOG LOG_LEVEL_DEBUG []
  | Some sent_at =>
      let* '(idx, peer_name) := locked (
        let* idx := gets (server_find_peer_by_addr from) in
        if 0 <=? idx then
          let* now := on_world' time_null in
          let* p := peer_at idx in
          put_peer idx (set_last_seen now p) 0 ;;
          let* peer_name := local (snprintf_s 32 (name p)) in
          Ret (idx, peer_name)
        else Ret (idx, [0])) in
      if idx <? 0 then Ret tt
      else
        let* buf := alloc TUND_MAX_PKT in
        let* '(len, buf) := proto_build_keepalive_ack buf sent_at in
        let* r := net_send buf len from in
        if r <? 0 then LOG LOG_LEVEL_WARN [peer_name] else Ret tt
  end.

Definition server_handle_keepalive_ack (payload : bytes) (plen : Z) (from : sockaddr_in) :
    prog srv_state unit :=
  let* ts := local (proto_read_keepalive_timestamp payload plen) in
  match ts with
  | None => Ret tt
  | Some sent_at =>
      let* now := on_world' now_ms in
      if now <? sent_at then Ret tt
      else locked (
        let* idx := gets (server_find_peer_by_addr from) in
        if 0 <=? idx then
          let sample := u64 (now - sent_at) in
          let* t := on_world' time_null in
          let* p := peer_at idx in
          put_peer idx (set_rtt (smooth_rtt_ms (rtt_ms p) sample (has_rtt p)) (set_last_seen t p)) 0 ;;
          Ret tt
        else Ret tt)
  end.

(** * Dispatch *)

Definition server_handle_packet (buf : bytes) (len : Z) (from : sockaddr_in) : prog srv_state unit :=
  let invalid := LOG LOG_LEVEL_DEBUG [ip_to_str_buf (s_addr from)] in
  let* hdr := local (proto_read_hdr buf) in
  match hdr with
  | HdrErr _ => invalid
  | HdrOk type payload_len =>
      if len <? TUND_HDR_SIZE + payload_len then invalid
      else
        let* sq := local (proto_read_sequence buf) in
        match sq with
        | None => invalid
        | Some sequence =>
            let* accepted :=
              if negb (type =? MSG_REGISTER) then server_accept_registered_sequence from sequence
              else Ret true in
            if negb accepted then Ret tt
            else
              let payload := ptr buf TUND_HDR_SIZE in
              if type =? MSG_REGISTER then server_handle_register payload payload_len from sequence
              else if type =? MSG_DATA then server_handle_data payload payload_len from
              else if type =? MSG_KEEPALIVE then server_handle_keepalive payload payload_len from
              else if type =? MSG_KEEPALIVE_ACK then
                server_handle_keepalive_ack payload payload_len from
              else if type =? MSG_DISCONNECT then server_handle_disconnect from
              else LOG LOG_LEVEL_DEBUG []
        end
  end.
End handlers.

(** * Names of new peers *)

Lemma dec_bytes fuel : forall z, 0 <= z -> bytes_ok (dec_fuel fuel z).
Proof.
  induction fuel as [|fuel IH]; intros z Hz; cbn [dec_fuel]; [apply bytes_ok_nil|].
  pose proof (Z.mod_pos_bound z 10 ltac:(lia)).
  destruct (Z.ltb_spec z 10); [repeat constructor; words; lia|].
  apply bytes_ok_app. split; [apply IH, Z.div_pos; lia|repeat constructor; words; lia].
Qed.

(** Storing [k] bytes in a zeroed name. *)
Lemma store_zeroed s k :
  (k <= 32)%nat -> length (take k s) = k ->
  mem_write (replicate 32 0) 0 (take k s) = Some (take k s ++ replicate (32 - k) 0).
Proof.
  intros Hk Hl. pose proof (zero_then_store [] s [] k Hk Hl) as H. cbn [app] in H.
  rewrite !app_nil_r in H. exact H.
Qed.

(** A new peer is called what it asked for, cut to 31 bytes, or [peer-idx]. *)
Lemma register_name_spec payload plen idx :
  bytes_ok payload -> 0 <= plen <= zlen payload -> 0 <= idx < TUND_MAX_PEERS ->
  exists s, register_name payload plen idx = Some (name_field s) /\ bytes_ok s /\
    s = if 0 <? plen then take (Z.to_nat plen) payload else str "peer-" ++ dec idx.
Proof.
  intros Hb Hp Hi. unfold register_name. change (Z.to_nat TUND_NAME_LEN) with 32%nat.
  destruct (Z.ltb_spec 0 plen).
  - exists (take (Z.to_nat plen) payload). split; [|split; [now apply bytes_ok_take|done]].
    set (n := if plen <? TUND_NAME_LEN - 1 then plen else TUND_NAME_LEN - 1).
    assert (Hn : Z.to_nat n = Nat.min 31 (Z.to_nat plen) /\ 0 <= n <= plen).
    { unfold n. destruct (Z.ltb_spec plen (TUND_NAME_LEN - 1)); clia. }
    destruct Hn as [Hn Hn0]. rewrite mem_read_some by lia. rewrite drop_0.
    rewrite store_zeroed; [|lia|rewrite length_take; unfold zlen in *; lia].
    rewrite name_field_take, length_take, take_take.
    do 2 f_equal; [f_equal|f_equal]; unfold zlen in *; lia.
  - set (s := str "peer-" ++ dec idx).
    assert (Hs0 : Forall (fun b => b <> 0) s).
    { apply Forall_app. split; [repeat constructor; cbn; lia|]. apply dec_nonzero. lia. }
    assert (Hsl : (length s <= 8)%nat).
    { unfold s. rewrite length_app. pose proof (dec_fuel_length 2 20 idx) as H3.
      specialize (H3 ltac:(clia)). fold (dec idx) in H3. cbn [str map String.list_ascii_of_string length]. lia. }
    exists s. split; [|split; [|done]].
    + unfold snprintf_s. rewrite app_assoc, c_str_app by done. fold s.
      rewrite take_ge by lia.
      replace (s ++ [0]) with (take (length s + 1) (s ++ [0])) by (apply take_ge; rewrite length_app; cbn; lia).
      rewrite store_zeroed; [|lia|rewrite length_take, length_app; cbn; lia].
      rewrite name_field_take. rewrite take_ge by (rewrite length_app; cbn; lia).
      rewrite Nat.min_r, take_ge by lia. rewrite <- app_assoc. do 2 f_equal.
      replace (32 - length s)%nat with (S (32 - (length s + 1))) by lia. done.
    + unfold s. apply bytes_ok_app. split; [repeat constructor; words; cbn; lia|]. apply dec_bytes. lia.
Qed.

Lemma str_ok_name p : peer_ok p -> exists s, c_str (name p) = Some s /\ bytes_ok s /\
  snprintf_s 32 (name p) = Some (s ++ [0]).
Proof.
  intros Hp. destruct (name_ok_str _ (ok_name _ Hp)) as (s & Hs & Hb & Hl). exists s.
  split; [done|]. split; [done|]. unfold snprintf_s. rewrite Hs, take_ge; [done|lia].
Qed.

(** A name that can be printed. *)
Definition printable (nm : bytes) : Prop := exists s, c_str nm = Some s /\ bytes_ok s.

Lemma printable_snprintf p :
  peer_ok p -> exists nm, snprintf_s 32 (name p) = Some nm /\ printable nm /\ c_str nm = c_str (name p).
Proof.
  intros Hp. destruct (str_ok_name p Hp) as (s & Hs & Hb & ->). eexists. split; [reflexivity|].
  assert (c_str (s ++ [0]) = Some s) by (apply c_str_app; now apply c_str_spec in Hs as [? _]).
  split; [now exists s|congruence].
Qed.

(** The loop over the other peers fills both arrays without overrunning them. *)
Lemma register_others_spec l : forall i idx es ds,
  Forall peer_ok l -> zlen es + zlen l <= TUND_MAX_PEERS -> zlen ds + zlen l <= TUND_MAX_PEERS ->
  exists new, register_others l i idx es ds =
      Some (es ++ new, ds ++ map snd (others (map route l) i idx)) /\
    Forall snap_ok new /\ Forall2 snap_of (others (map route l) i idx) new.
Proof.
  induction l as [|p l IH]; intros i idx es ds HF He Hd; cbn [register_others map others].
  - exists []. rewrite !app_nil_r. auto.
  - apply Forall_cons_iff in HF as [Hp HF]. rewrite zlen_cons in *. pose proof (zlen_nonneg l).
    change (route p) with (if active p then Some (virt_ip p, real_addr p) else None).
    destruct (active p); cbn [negb orb]; [|apply IH; auto; lia].
    destruct (i =? idx); [apply IH; auto; lia|].
    destruct (snapshot_peer p i Hp) as (sn & -> & Hok & Hof & _). unfold push.
    destruct (Z.ltb_spec (zlen es) TUND_MAX_PEERS); [|lia].
    destruct (Z.ltb_spec (zlen ds) TUND_MAX_PEERS); [|lia].
    destruct (IH (i + 1) idx (es ++ [sn]) (ds ++ [real_addr p]) HF) as (new & -> & Hn1 & Hn2);
      [rewrite zlen_app, zlen_cons, zlen_nil; lia..|].
    exists (sn :: new). rewrite <- !app_assoc. auto.
Qed.

(** * Registration under the lock *)

(** [from] is the endpoint of slot [i]. *)
Definition registered (v : server_t) (from : sockaddr_in) (i : nat) (p : peer_t) : Prop :=
  peers v !! i = Some p /\ active p = true /\ endpoint (real_addr p) = endpoint from.

Definition unregistered (v : server_t) (from : sockaddr_in) : Prop :=
  forall i x, routing v !! i = Some (Some x) -> endpoint x.2 <> endpoint from.

(** [h] is the smallest address that no active peer has. *)
Definition smallest_free (R : list (option (Z * sockaddr_in))) (h : Z) : Prop :=
  TUND_IP_START <= h <= TUND_IP_END /\ ~ In (htonl h) (map fst (used R)) /\
  forall h', TUND_IP_START <= h' < h -> In (htonl h') (map fst (used R)).

(** What a registration at time [now] does to the table [v], leaving [v']. *)
Inductive register_outcome (v v' : server_t) (from : sockaddr_in) (payload : bytes) (plen sequence now : Z) :
    register_result -> Prop :=
| OutReplayed i p nm :
    registered v from i p -> (proto_replay_accept (replay p) sequence).1 = false ->
    v' = v -> printable nm ->
    register_outcome v v' from payload plen sequence now (RegReplayed nm)
| OutRefreshed i p nm :
    registered v from i p -> (proto_replay_accept (replay p) sequence).1 = true ->
    v' = set_peers (<[i := set_last_seen now (set_replay (proto_replay_accept (replay p) sequence).2 p)]> (peers v))
           (peer_count v) v ->
    routing v' = routing v -> printable nm -> c_str nm = c_str (name p) ->
    register_outcome v v' from payload plen sequence now
      (RegAccepted (virt_ip p) nm (real_addr p) [] [] true)
| OutFull :
    unregistered v from -> Forall (fun r => r <> None) (routing v) -> v' = v ->
    register_outcome v v' from payload plen sequence now (RegRejected true)
| OutJoined i h given nm es :
    unregistered v from -> routing v !! i = Some None -> smallest_free (routing v) h ->
    register_name payload plen (Z.of_nat i) = Some given ->
    v' = set_peers (<[i := Peer true (htonl h) given from now 0 0 0 false
                             (proto_replay_accept proto_replay_reset sequence).2]> (peers v))
           (peer_count v + 1) v ->
    routing v' = <[i := Some (htonl h, from)]> (routing v) -> printable nm -> c_str nm = c_str given ->
    Forall snap_ok es -> Forall2 snap_of (others (routing v') 0 (Z.of_nat i)) es ->
    register_outcome v v' from payload plen sequence now
      (RegAccepted (htonl h) nm from es (map snd (others (routing v') 0 (Z.of_nat i))) false).

(** The clock a critical section that starts in [s] reads first. *)
Definition clock (s : srv_state) : Z := env_time (w_env (srv_world s)) (w_tick (srv_world s)).

Lemma put_twice v i p q :
  set_peers (<[i := q]> (peers (set_peers (<[i := p]> (peers v)) (peer_count v + 0) v)))
    (peer_count (set_peers (<[i := p]> (peers v)) (peer_count v + 0) v) + 0) (set_peers (<[i := p]> (peers v)) (peer_count v + 0) v)
  = set_peers (<[i := q]> (peers v)) (peer_count v) v.
Proof. unfold set_peers. cbn. now rewrite list_insert_insert_eq, !Z.add_0_r. Qed.

Section register.
Context (X : list (option (Z * sockaddr_in)) -> Prop) (W : world -> Prop) {HQ : Quiet W}.

Lemma register_known s payload plen from sequence i p :
  inv (served X W) s -> is_u64 sequence -> 0 <= i < 253 ->
  registered (srv s) from (Z.to_nat i) p -> peer_ok p ->
  wp (let* p := peer_at i in
      let '(accepted, window) := proto_replay_accept (replay p) sequence in
      let p := set_replay window p in
      put_peer i p 0 ;;
      if negb accepted then
        let* peer_name := local (snprintf_s 32 (name p)) in
        Ret (RegReplayed peer_name)
      else
        let* now := on_world' time_null in
        put_peer i (set_last_seen now p) 0 ;;
        let* peer_name := local (snprintf_s 32 (name p)) in
        Ret (RegAccepted (virt_ip p) peer_name (real_addr p) [] [] true))
    (fun res s' => exists v', inside W s v' s' /\ srv_ok v' /\
       register_outcome (srv s) v' from payload plen sequence (clock s) res) s.
Proof.
  intros Hs Hsq Hi Hreg Hp. destruct (proj2 Hs) as (Hv & _). pose proof Hreg as (Hl & Ha & He).
  pose proof (zlen_peers _ Hv) as Hlen.
  apply wp_bind, (wp_peer_at W s _ p (srv s)); [now apply (inside_start _ _ X)|lia|done|].
  destruct (proto_replay_accept (replay p) sequence) as [ok win] eqn:E.
  assert (Hp1 : peer_ok (set_replay win p)).
  { apply peer_ok_set_replay; [|done]. pose proof (accept_window_ok _ sequence (ok_replay _ Hp) Hsq) as H.
    now rewrite E in H. }
  destruct (put_same (srv s) _ p (set_replay win p) Hv Hl Hp1 eq_refl) as [Hv1 HR1].
  apply wp_bind, (wp_put_world W s _ _ _ (srv s)); [now apply (inside_start _ _ X)|lia|].
  intros s1 H1 Ew. destruct (printable_snprintf _ Hp1) as (nm & Hnm & Hpr & Hcs).
  destruct ok; cbn [negb].
  - apply wp_bind. eapply wp_now; [typeclasses eauto|exact H1|]. rewrite Ew. fold (clock s). intros now s2 Hclk Hnow H2.
    eapply wp_bind, wp_put; [exact H2|cbn; rewrite Hlen || idtac; unfold zlen in *; rewrite length_insert; lia|].
    intros s3 H3. apply wp_bind. eapply wp_local; [exact Hnm|].
    apply wp_ret. eexists. split; [exact H3|].
    edestruct (put_same _ (Z.to_nat i) (set_replay win p) (set_last_seen now (set_replay win p)) Hv1)
      as [Hv2 HR2]; [|auto with tund|done|].
    { cbn. apply list_lookup_insert_eq. now apply lookup_lt_Some in Hl. }
    split; [exact Hv2|]. apply OutRefreshed with (i := Z.to_nat i) (p := p); auto; [now rewrite E| |congruence].
    rewrite E, <- Hclk. apply put_twice.
  - apply wp_bind. eapply wp_local; [exact Hnm|]. apply wp_ret. eexists. split; [exact H1|].
    split; [done|]. apply OutReplayed with (i := Z.to_nat i) (p := p); auto; [now rewrite E|].
    pose proof (rejected_same (replay p) sequence) as Hsame. rewrite E in Hsame. cbn in Hsame.
    rewrite Hsame, set_replay_same by done. now apply put_identity.
Qed.

Lemma register_new s payload plen from sequence :
  inv (served X W) s -> is_u64 sequence -> addr_ok from -> bytes_ok payload ->
  0 <= plen <= zlen payload -> unregistered (srv s) from ->
  wp (let* idx := gets server_find_free_slot in
      let* vip := if 0 <=? idx then gets server_alloc_ip else Ret 0 in
      if (idx <? 0) || (vip =? 0) then Ret (RegRejected (idx <? 0))
      else
        let* nm := local (register_name payload plen idx) in
        let* now := on_world' time_null in
        let window := (proto_replay_accept proto_replay_reset sequence).2 in
        let p := Peer true vip nm from now 0 0 0 false window in
        put_peer idx p 1 ;;
        let* peer_name := local (snprintf_s 32 (name p)) in
        let* l := gets peers in
        let* '(peer_entries, join_dests) := local (register_others l 0 idx [] []) in
        Ret (RegAccepted vip peer_name (real_addr p) peer_entries join_dests false))
    (fun res s' => exists v', inside W s v' s' /\ srv_ok v' /\
       register_outcome (srv s) v' from payload plen sequence (clock s) res) s.
Proof.
  intros Hs Hsq Hfrom Hpb Hpl Hun. destruct (proj2 Hs) as (Hv & _).
  pose proof (inside_start W s X Hs) as H0. pose proof (zlen_peers _ Hv) as Hlen.
  apply wp_bind, (wp_gets W s _ (srv s)); [done|].
  destruct (free_slot_spec _ Hv) as [[-> Hfull]|(old & Hi & Hold & Ha & _)].
  { cbn. apply wp_ret. exists (srv s). split; [done|]. split; [done|]. now apply OutFull. }
  set (i := server_find_free_slot (srv s)) in *.
  assert (Hfree : routing (srv s) !! Z.to_nat i = Some None).
  { rewrite (routing_lookup _ _ _ Hold). unfold route. now rewrite Ha. }
  destruct (alloc_total _ _ Hv Hfree) as (h & Hh & Hip & Hnew & Hmin).
  destruct (htonl_client h Hh) as [Hu Hnz].
  destruct (Z.leb_spec 0 i); [|lia].
  apply wp_bind, (wp_gets W s _ (srv s)); [done|]. rewrite Hip.
  destruct (Z.ltb_spec i 0); [lia|]. destruct (Z.eqb_spec (htonl h) 0); [done|]. cbn [orb].
  destruct (register_name_spec payload plen i Hpb Hpl Hi) as (nm & Hgiven & Hnmb & _). rewrite Hgiven.
  cbn [local bind].
  apply wp_bind. eapply wp_now; [typeclasses eauto|exact H0|]. fold (clock s). intros now s1 Hclk Hnow Hs1.
  set (p := Peer true (htonl h) (name_field nm) from now 0 0 0 false _).
  assert (Hp : peer_ok p).
  { split; cbn [p name virt_ip real_addr last_seen bytes_in bytes_out rtt_ms replay];
      auto using name_field_name_ok, htonl_is_u32; try (words; lia).
    apply accept_window_ok; [apply reset_window_ok|done]. }
  destruct (put_active (srv s) (Z.to_nat i) old p Hv Hold Ha Hp eq_refl) as [Hv' HR'];
    [now exists h|exact Hnew|exact Hun|].
  apply wp_bind, (wp_put W s _ _ _ (srv s)); [done|lia|]. intros s2 H2.
  destruct (printable_snprintf _ Hp) as (pn & -> & Hpr & Hcs). cbn [local bind].
  eapply wp_bind, wp_gets; [exact H2|].
  destruct (register_others_spec (peers (set_peers (<[Z.to_nat i:=p]> (peers (srv s))) (peer_count (srv s) + 1) (srv s)))
    0 i [] [] (ok_peers _ Hv')) as (es & -> & Hes & Hof);
    [rewrite (zlen_peers _ Hv'), zlen_nil; unfold TUND_MAX_PEERS; lia..|].
  cbn [local bind app]. apply wp_ret. eexists. split; [exact H2|]. split; [done|].
  rewrite <- Hclk.
  pose proof (OutJoined (srv s) (set_peers (<[Z.to_nat i := p]> (peers (srv s))) (peer_count (srv s) + 1) (srv s)) from payload plen sequence now (Z.to_nat i) h (name_field nm) pn es Hun Hfree
    (conj Hh (conj Hnew Hmin))) as HO.
  rewrite Z2Nat.id in HO by lia. now apply HO.
Qed.

Lemma register_section s payload plen from sequence :
  inv (served X W) s -> is_u64 sequence -> addr_ok from -> bytes_ok payload ->
  0 <= plen <= zlen payload ->
  wp (register_locked payload plen from sequence)
    (fun res s' => exists v', inside W s v' s' /\ srv_ok v' /\
       register_outcome (srv s) v' from payload plen sequence (clock s) res) s.
Proof.
  intros Hs Hsq Hfrom Hpb Hpl. destruct (proj2 Hs) as (Hv & _). unfold register_locked.
  apply wp_bind, (wp_gets W s _ (srv s)); [now apply (inside_start _ _ X)|].
  destruct (find_by_addr_spec _ from Hv) as [[-> Hun]|(p & Hi & Hp & Ha & He & Hok)].
  - now apply register_new.
  - destruct (Z.leb_spec 0 (server_find_peer_by_addr from (srv s))); [|lia].
    apply register_known with (p := p); auto; now split.
Qed.
End register.

(** * Replies, outside of the lock *)

(** The payload of the peer list sent for these snapshots: at most 43 entries
    fit in a datagram. *)
Definition peer_list_of (es : list server_peer_snapshot_t) (payload : bytes) : Prop :=
  exists l', Forall2 named (map (fun sn => (snap_virt_ip sn, snap_name sn)) es) l' /\
    payload = entries_bytes (take 43 l').

Lemma snaps_named es : Forall snap_ok es ->
  exists l', Forall2 named (map (fun sn => (snap_virt_ip sn, snap_name sn)) es) l'.
Proof.
  induction 1 as [|sn es (s & Hs & Hb) _ [l' IH]]; [exists []; constructor|].
  exists ((snap_virt_ip sn, s) :: l'). constructor; [now split|done].
Qed.

Section replies.
Context `{M : Monocypher} {ML : MonocypherLaws M}.
Context (X : list (option (Z * sockaddr_in)) -> Prop) (W : world -> Prop) {HQ : Quiet W}.
Notation J := (served X W).

Lemma safe_build_peer_list buf es :
  pkt_buf buf -> zlen buf = TUND_MAX_PKT -> Forall snap_ok es ->
  safe J (build_peer_list_from_snapshot buf es)
    (fun '(len, buf', _) => pkt_buf buf' /\ len <= zlen buf' /\
       exists payload, peer_list_of es payload /\
         forall ty pl, carries buf' len ty pl -> ty = MSG_PEER_LIST /\ pl = payload).
Proof.
  intros [Hb _] Hl Hes. unfold build_peer_list_from_snapshot.
  destruct (snaps_named es Hes) as [l' Hn].
  destruct (entries_written _ _ buf Hn Hb Hl) as (buf1 & -> & Hb1 & Hl1 & Hpay).
  rewrite length_map in *. set (n := Nat.min (length es) 43) in *. cbn [local bind].
  pose proof (Forall2_length Hn) as Hlen. rewrite length_map in Hlen.
  assert (Hu : u16 (TUND_PEER_ENTRY_SIZE * Z.of_nat n) = TUND_PEER_ENTRY_SIZE * Z.of_nat n)
    by (words; apply Z.mod_small; clia). rewrite Hu.
  eapply safe_bind.
  { apply safe_write_hdr; [typeclasses eauto|done|words; unfold MSG_PEER_LIST; lia|clia|clia]. }
  intros [r buf2] (Hl2 & Hb2 & H5 & H37 & _). apply safe_ret.
  assert (zlen buf2 = TUND_MAX_PKT) by (unfold zlen in *; lia).
  split; [split; [done|clia]|]. split; [clia|].
  exists (entries_bytes (take 43 l')). split; [now exists l'|]. intros ty pl Hc.
  eapply prefix_carries in Hc as [-> ->];
    [|apply H5; clia|words; unfold MSG_PEER_LIST; lia|clia|clia|done].
  split; [done|]. rewrite H37, Hpay. f_equal.
  destruct (Nat.min_spec (length es) 43) as [[? Hm]|[? Hm]]; unfold n; rewrite Hm; [|done].
  rewrite !take_ge by lia. done.
Qed.

Lemma safe_register_reply from vip nm s addr es dests rc :
  c_str nm = Some s -> bytes_ok s -> Forall snap_ok es ->
  grants W addr MSG_ASSIGN (assign_payload vip (htonl TUND_NETMASK) TUND_TUN_MTU) ->
  (forall payload, rc = false -> peer_list_of es payload -> grants W addr MSG_PEER_LIST payload) ->
  Forall (fun d => rc = false -> grants W d MSG_PEER_JOIN (le_split 4 vip ++ name_field s)) dests ->
  safe J (register_reply from vip nm addr es dests rc) (fun _ => True).
Proof.
  intros Hnm Hs Hes H1 H2 H3. unfold register_reply.
  eapply safe_bind; [apply alloc_pkt; typeclasses eauto|]. intros buf [Hp Hpl].
  eapply safe_bind; [apply safe_build_assign; [typeclasses eauto|done]|]. intros [len buf1] Hb1.
  pose proof (built_pkt _ _ _ _ _ Hb1 Hp) as Hp1.
  eapply safe_bind; [apply (safe_send_built _ _ _ _ _ _ _ _ Hb1); auto; words; unfold MSG_ASSIGN; lia|].
  intros r _. eapply (safe_bind _ _ _ (fun _ => True)).
  { destruct (r <? 0); [|done]. logging. }
  intros _ _. destruct rc; [logging|].
  eapply safe_bind; [logging|]. intros _ _.
  eapply safe_bind; [now apply (safe_event_join _ _ s)|]. intros _ _.
  eapply safe_bind; [apply safe_build_peer_list; auto|].
  { destruct Hb1 as (Hl1 & _). unfold zlen in *. lia. }
  intros [[len2 buf2] c] (Hp2 & Hl2 & payload & Hof & Hcar).
  eapply safe_bind.
  { apply safe_net_send; try typeclasses eauto; [apply Hp2|done|].
    apply (may_send_carried _ W _ _ _ _ _ Hcar); auto. }
  intros r2 _. eapply (safe_bind _ _ _ (fun _ => True)).
  { destruct (r2 <? 0); logging. }
  intros _ _. eapply safe_bind; [now apply (safe_build_peer_join _ _ _ _ s)|].
  intros [len3 buf3] Hb3. eapply safe_for_each; [exact H3|]. cbn. intros d Hd.
  eapply safe_bind; [apply (safe_send_built _ _ _ _ _ _ _ _ Hb3); auto; words; unfold MSG_PEER_JOIN; lia|].
  intros r3 _. destruct (r3 <? 0); [logging|done].
Qed.
End replies.

(** * Forwarding *)

(** The decision taken for a valid packet from [from]. *)
Inductive data_outcome (v : server_t) (from : sockaddr_in) (src_ip dst_ip : Z) : data_route -> Prop :=
| DataUnknown : unregistered v from -> data_outcome v from src_ip dst_ip RouteUnknown
| DataSpoofed i p : registered v from i p -> src_ip <> virt_ip p ->
    data_outcome v from src_ip dst_ip RouteSpoofed
| DataTun i p : registered v from i p -> src_ip = virt_ip p -> dst_ip = htonl TUND_SERVER_IP ->
    data_outcome v from src_ip dst_ip RouteTun
| DataBroadcast i p l : registered v from i p -> src_ip = virt_ip p -> dst_ip = htonl TUND_BROADCAST ->
    Forall snap_ok l -> Forall2 snap_of (others (routing v) 0 (Z.of_nat i)) l ->
    data_outcome v from src_ip dst_ip (RouteBroadcast l)
| DataNobody i p : registered v from i p -> src_ip = virt_ip p ->
    dst_ip <> htonl TUND_SERVER_IP -> dst_ip <> htonl TUND_BROADCAST ->
    (forall j x, routing v !! j = Some (Some x) -> x.1 <> dst_ip) ->
    data_outcome v from src_ip dst_ip RouteNobody
| DataUnicast i p j x sn : registered v from i p -> src_ip = virt_ip p ->
    routing v !! j = Some (Some x) -> x.1 = dst_ip -> snap_ok sn -> snap_of x sn ->
    data_outcome v from src_ip dst_ip (RouteUnicast sn).

Lemma registered_at v from p :
  peers v !! Z.to_nat (server_find_peer_by_addr from v) = Some p -> active p = true ->
  endpoint (real_addr p) = endpoint from ->
  registered v from (Z.to_nat (server_find_peer_by_addr from v)) p.
Proof. now split. Qed.

Lemma put_bytes_in v i p n :
  srv_ok v -> peers v !! i = Some p -> peer_ok p ->
  let v' := set_peers (<[i := add_bytes_in n p]> (peers v)) (peer_count v + 0) v in
  srv_ok v' /\ routing v' = routing v.
Proof. intros. apply (put_same v i p); auto with tund. Qed.

Section data.
Context `{M : Monocypher} {ML : MonocypherLaws M}.
Context (X : list (option (Z * sockaddr_in)) -> Prop) (W : world -> Prop) {HQ : Quiet W}.
Notation J := (served X W).

Lemma data_section s src_ip dst_ip plen from :
  inv J s ->
  wp (data_locked src_ip dst_ip plen from)
    (fun route s' => exists v', inside W s v' s' /\ srv_ok v' /\ routing v' = routing (srv s) /\
       data_outcome (srv s) from src_ip dst_ip route) s.
Proof.
  intros Hs. destruct (proj2 Hs) as (Hv & _). pose proof (inside_start W s X Hs) as H0.
  pose proof (zlen_peers _ Hv) as Hlen. unfold data_locked.
  apply wp_bind, (wp_gets W s _ (srv s)); [done|].
  destruct (find_by_addr_spec _ from Hv) as [[-> Hun]|(p & Hi & Hp & Ha & He & Hok)].
  { apply wp_ret. exists (srv s). do 3 (split; [done|]). now constructor. }
  pose proof (registered_at _ _ _ Hp Ha He) as Hreg.
  set (i := server_find_peer_by_addr from (srv s)) in *. destruct (Z.ltb_spec i 0); [lia|].
  apply wp_bind, (wp_peer_at W s _ p (srv s)); [done|lia|done|].
  destruct (name_ok_str _ (ok_name _ Hok)) as (nm & Hnm & _).
  destruct (Z.eqb_spec src_ip (virt_ip p)) as [Hsrc|Hsrc]; cbn [negb].
  2:{ apply wp_bind. eapply wp_still; [logging|exact H0|]. intros _ s1 Hs1 _.
      apply wp_ret. exists (srv s). do 3 (split; [done|]). now apply (DataSpoofed _ _ _ _ (Z.to_nat i) p). }
  destruct (put_bytes_in (srv s) _ p plen Hv Hp Hok) as [Hv' HR].
  apply wp_bind, (wp_put W s _ _ _ (srv s)); [done|lia|]. intros s1 Hs1.
  set (v' := set_peers _ _ _) in *.
  destruct (Z.eqb_spec dst_ip (htonl TUND_SERVER_IP)).
  { apply wp_ret. exists v'. do 3 (split; [done|]). now apply (DataTun _ _ _ _ (Z.to_nat i) p). }
  apply wp_bind, (wp_gets W s _ v'); [done|].
  destruct (Z.eqb_spec dst_ip (htonl TUND_BROADCAST)).
  - destruct (snapshot_broadcast v' i Hv') as (l & -> & Hl & Hof). cbn [local bind].
    apply wp_ret. exists v'. do 3 (split; [done|]). rewrite HR in Hof.
    apply (DataBroadcast _ _ _ _ (Z.to_nat i) p); auto. now rewrite Z2Nat.id.
  - destruct (snapshot_by_vip v' dst_ip Hv') as [[-> Hno]|(sn & j & x & -> & Hsn & Hj & Hx & Hof)];
      cbn [local bind]; apply wp_ret; exists v'; (do 3 (split; [done|])); rewrite HR in *.
    + now apply (DataNobody _ _ _ _ (Z.to_nat i) p).
    + now apply (DataUnicast _ _ _ _ (Z.to_nat i) p j x).
Qed.

(** What a decision may put on the wire. *)
Definition route_grants (pkt : bytes) (route : data_route) : Prop :=
  match route with
  | RouteTun => Allows W (EvTunWrite pkt)
  | RouteBroadcast l => Allows W (EvTunWrite pkt) /\ Forall snap_ok l /\
      Forall (fun sn => grants W (snap_real_addr sn) MSG_DATA pkt) l
  | RouteUnicast sn => snap_ok sn /\ grants W (snap_real_addr sn) MSG_DATA pkt
  | _ => True
  end.

Lemma safe_data_forward route payload plen dst_ip :
  bytes_ok payload -> 0 <= plen <= zlen payload -> is_u16 plen ->
  route_grants (take (Z.to_nat plen) payload) route ->
  safe J (data_forward route payload plen dst_ip) (fun _ => True).
Proof.
  intros Hb Hp Hu HG. unfold data_forward. rewrite mem_read_some by lia. rewrite drop_0.
  set (pkt := take _ _) in *. cbn [local bind].
  assert (Htun : Allows W (EvTunWrite pkt) ->
    safe J (bind (tun_write pkt) (fun _ => Ret tt)) (fun _ => True)).
  { intros HA. eapply safe_bind; [apply safe_tun_write; typeclasses eauto|]. done. }
  destruct route as [| | |l| |sn]; cbn [route_grants] in HG; try done; try logging; auto.
  - destruct HG as (HA & Hl & HG).
    eapply safe_bind; [apply alloc_pkt; typeclasses eauto|]. intros buf [Hbuf _].
    eapply safe_bind; [now apply safe_build_data; try typeclasses eauto|]. intros [len buf1] Hb1.
    eapply safe_bind; [|auto].
    apply (safe_send_snapshots X W l buf1 len plen);
      [apply (built_pkt _ _ _ _ _ Hb1 Hbuf)|now apply (built_length _ _ _ _ _ Hb1)|done|].
    eapply Forall_impl; [|exact HG]. cbn. intros sn Hsn.
    apply (may_send_built _ _ _ _ _ _ _ _ Hb1); [words; unfold MSG_DATA; lia|done].
  - destruct HG as ((nm & Hnm & _) & HG).
    eapply safe_bind; [apply alloc_pkt; typeclasses eauto|]. intros buf [Hbuf _].
    eapply safe_bind; [now apply safe_build_data; try typeclasses eauto|]. intros [len buf1] Hb1.
    eapply safe_bind; [apply (safe_send_built _ W _ _ _ _ _ _ Hb1); auto; words; unfold MSG_DATA; lia|].
    intros r _. destruct (r <? 0); [logging|now apply safe_add_bytes_out].
Qed.
End data.

(** * Departure, replay protection, keepalives *)

Section sections.
Context (X : list (option (Z * sockaddr_in)) -> Prop) (W : world -> Prop) {HQ : Quiet W}.
Notation J := (served X W).

(** The peer at [from] leaves; the others are to be told. *)
Definition disconnect_outcome (v v' : server_t) (from : sockaddr_in)
    (res : option (Z * list server_peer_snapshot_t)) : Prop :=
  (res = None /\ unregistered v from /\ v' = v) \/
  exists i p l, registered v from i p /\ res = Some (virt_ip p, l) /\
    v' = set_peers (<[i := set_active false p]> (peers v)) (peer_count v - 1) v /\
    routing v' = <[i := None]> (routing v) /\ Forall snap_ok l /\
    Forall2 snap_of (others (routing v') 0 (-1)) l.

Lemma disconnect_section s from :
  inv J s ->
  wp (disconnect_locked from)
    (fun res s' => exists v', inside W s v' s' /\ srv_ok v' /\
       disconnect_outcome (srv s) v' from res) s.
Proof.
  intros Hs. destruct (proj2 Hs) as (Hv & _). pose proof (inside_start W s X Hs) as H0.
  pose proof (zlen_peers _ Hv) as Hlen. unfold disconnect_locked.
  apply wp_bind, (wp_gets W s _ (srv s)); [done|].
  destruct (find_by_addr_spec _ from Hv) as [[-> Hun]|(p & Hi & Hp & Ha & He & Hok)].
  { apply wp_ret. exists (srv s). do 2 (split; [done|]). by left. }
  pose proof (registered_at _ _ _ Hp Ha He) as Hreg.
  set (i := server_find_peer_by_addr from (srv s)) in *. destruct (Z.ltb_spec i 0); [lia|].
  apply wp_bind, (wp_peer_at W s _ p (srv s)); [done|lia|done|].
  destruct (name_ok_str _ (ok_name _ Hok)) as (nm & Hnm & _).
  apply wp_bind. eapply wp_still; [logging|exact H0|]. intros _ s1 Hs1 _.
  destruct (put_inactive (srv s) _ p Hv Hp Ha) as [Hv' HR].
  apply wp_bind, (wp_put W s _ _ _ (srv s)); [done|lia|]. intros s2 Hs2.
  set (v' := set_peers _ _ _) in *. apply wp_bind, (wp_gets W s _ v'); [done|].
  destruct (snapshot_broadcast v' (-1) Hv') as (l & -> & Hl & Hof). cbn [local bind].
  apply wp_ret. exists v'. do 2 (split; [done|]). right. exists (Z.to_nat i), p, l. auto 7.
Qed.

(** A stored update that leaves routing alone. *)
Lemma wp_put_same s0 v s i p q (K : unit -> srv_state -> Prop) :
  inside W s0 v s -> srv_ok v -> 0 <= i < 253 -> peers v !! Z.to_nat i = Some p -> peer_ok q ->
  route q = route p ->
  (forall v' s', inside W s0 v' s' -> srv_ok v' -> routing v' = routing v ->
     v' = set_peers (<[Z.to_nat i := q]> (peers v)) (peer_count v + 0) v -> K tt s') ->
  wp (put_peer i q 0) K s.
Proof.
  intros H0 Hv Hi Hp Hq Hr HK. apply (wp_put W s0 _ _ _ v); [done|now rewrite (zlen_peers _ Hv)|].
  intros s' Hs'. destruct (put_same v _ p q Hv Hp Hq Hr) as [Hv' HR]. now apply (HK _ _ Hs').
Qed.

Definition replay_result (v v' : server_t) (from : sockaddr_in) (sequence : Z) (accepted : bool) : Prop :=
  routing v' = routing v /\
  ((unregistered v from /\ v' = v /\ accepted = true) \/
   exists i p, registered v from i p /\
     accepted = (proto_replay_accept (replay p) sequence).1 /\
     v' = set_peers (<[i := set_replay (proto_replay_accept (replay p) sequence).2 p]> (peers v))
            (peer_count v + 0) v).

Lemma accept_section s from sequence :
  inv J s -> is_u64 sequence ->
  wp (let* idx := gets (server_find_peer_by_addr from) in
      if 0 <=? idx then
        let* p := peer_at idx in
        let '(accepted, window) := proto_replay_accept (replay p) sequence in
        put_peer idx (set_replay window p) 0 ;;
        let* peer_name := local (snprintf_s 32 (name p)) in
        Ret (true, accepted, peer_name)
      else Ret (false, true, [0]))
    (fun '(known, accepted, nm) s' => exists v', inside W s v' s' /\ srv_ok v' /\ printable nm /\
       replay_result (srv s) v' from sequence accepted) s.
Proof.
  intros Hs Hsq. destruct (proj2 Hs) as (Hv & _). pose proof (inside_start W s X Hs) as H0.
  apply wp_bind, (wp_gets W s _ (srv s)); [done|].
  destruct (find_by_addr_spec _ from Hv) as [[-> Hun]|(p & Hi & Hp & Ha & He & Hok)].
  { apply wp_ret. exists (srv s). do 2 (split; [done|]). split; [exists []; split; [done|constructor]|].
    split; [done|]. left. auto. }
  pose proof (registered_at _ _ _ Hp Ha He) as Hreg.
  set (i := server_find_peer_by_addr from (srv s)) in *. destruct (Z.leb_spec 0 i); [|lia].
  apply wp_bind, (wp_peer_at W s _ p (srv s)); [done|lia|done|].
  pose proof (accept_window_ok _ sequence (ok_replay _ Hok) Hsq) as Hw.
  destruct (proto_replay_accept (replay p) sequence) as [ok win] eqn:E. cbn [snd] in Hw.
  eapply wp_bind, wp_put_same; eauto with tund. intros v' s1 Hs1 Hv' HR Hpeers.
  destruct (printable_snprintf _ Hok) as (nm & -> & Hpr & _). cbn [local bind]. apply wp_ret.
  exists v'. do 3 (split; [done|]). split; [done|]. right. exists (Z.to_nat i), p. rewrite E. auto.
Qed.
End sections.

Section safe.
Context `{M : Monocypher} {ML : MonocypherLaws M}.
Context (W : world -> Prop) {HQ : Quiet W} {HA : forall e, Allows W e}.
Notation J := (served (fun _ => True) W).

(** A critical section whose table stays well formed. *)
Lemma safe_from_section {A} (p : prog srv_state A) (Q : A -> Prop) (P : srv_state -> server_t -> A -> Prop) :
  (forall s, inv J s -> wp p (fun a s' => exists v', inside W s v' s' /\ srv_ok v' /\ P s v' a) s) ->
  (forall s v' a, inv J s -> P s v' a -> Q a) -> safe J (locked p) Q.
Proof.
  intros Hp HPQ. apply safe_section. intros s Hs. eapply wp_mono; [now apply Hp|].
  intros a s' (v' & Hin & Hv' & HP). destruct (inside_end W s (fun _ => True) v' s' Hin Hv' I). eauto.
Qed.

Lemma safe_handle_register payload plen from sequence :
  is_u64 sequence -> addr_ok from -> bytes_ok payload -> 0 <= plen <= zlen payload ->
  safe J (server_handle_register payload plen from sequence) (fun _ => True).
Proof.
  intros Hsq Hf Hb Hp. unfold server_handle_register.
  eapply (safe_bind _ _ _ (fun res => match res with
    | RegReplayed nm => printable nm | RegRejected _ => True
    | RegAccepted _ nm _ es _ _ => printable nm /\ Forall snap_ok es end)).
  - eapply safe_from_section; [intros s Hs; now apply (register_section (fun _ => True) W)|].
    intros s v' res _ HO. destruct HO; auto.
  - intros [nm|b|vip nm addr es ds rc]; [intros (s & Hs & _); logging|intros _; logging|].
    intros [(s & Hs & Hsb) Hes]. apply (safe_register_reply _ _ _ _ _ s); auto.
    + now apply grants_any.
    + intros. now apply grants_any.
    + apply Forall_true. intros. now apply grants_any.
Qed.

Lemma safe_accept_sequence from sequence :
  is_u64 sequence -> safe J (server_accept_registered_sequence from sequence) (fun _ => True).
Proof.
  intros Hsq. unfold server_accept_registered_sequence.
  eapply (safe_bind _ _ _ (fun '(_, _, nm) => printable nm)).
  - eapply (safe_from_section _ _ (fun s v' '(_, ok, nm) =>
      printable nm /\ replay_result (srv s) v' from sequence ok)).
    + intros s Hs. eapply wp_mono; [now apply (accept_section (fun _ => True) W)|].
      intros [[known ok] nm] s' HH. exact HH.
    + intros s v' [[known ok] nm] _ [HP _]. exact HP.
  - intros [[known ok] nm] (s & Hs & _). eapply (safe_bind _ _ _ (fun _ => True)); [|done].
    destruct (known && negb ok); [logging|done].
Qed.

Lemma safe_handle_disconnect from : safe J (server_handle_disconnect from) (fun _ => True).
Proof.
  unfold server_handle_disconnect, disconnect_notify.
  eapply (safe_bind _ _ _ (fun res => match res with Some (_, l) => Forall snap_ok l | None => True end)).
  - eapply safe_from_section; [intros s Hs; now apply (disconnect_section (fun _ => True) W)|].
    intros s v' res _ [(-> & _)|(i & p & l & _ & -> & _ & _ & Hl & _)]; done.
  - intros [[vip l]|] Hl; [|done].
    eapply safe_bind; [apply alloc_pkt; typeclasses eauto|]. intros buf [Hbuf _].
    eapply safe_bind; [apply safe_build_peer_leave; [typeclasses eauto|done]|]. intros [len buf1] Hb1.
    eapply safe_bind.
    { apply safe_send_snapshots; [typeclasses eauto|apply (built_pkt _ _ _ _ _ Hb1 Hbuf)
        |now apply (built_length _ _ _ _ _ Hb1)|done|].
      apply Forall_true. intros. apply may_send_any. apply _. }
    intros _ _. now apply safe_event_leave; try typeclasses eauto.
Qed.

Lemma safe_handle_data payload plen from :
  bytes_ok payload -> 0 <= plen <= zlen payload -> is_u16 plen ->
  safe J (server_handle_data payload plen from) (fun _ => True).
Proof.
  intros Hb Hp Hu. unfold server_handle_data.
  rewrite validate_verdict by (done || lia). cbn [local bind].
  destruct (Z.eqb_spec (ipv4_verdict payload plen) TUND_IPV4_OK) as [Hok|]; cbn [negb]; [|logging].
  apply verdict_ok in Hok. assert (20 <= plen) by apply Hok.
  destruct (get_src_spec payload plen) as (src & -> & _); [lia|].
  destruct (get_dst_spec payload plen) as (dst & -> & _); [lia|]. cbn [local bind].
  eapply (safe_bind _ _ _ (route_grants W (take (Z.to_nat plen) payload)));
    [|intros route HG; now apply safe_data_forward].
  eapply safe_from_section; [intros s Hs; now apply (data_section (fun _ => True) W)|].
  intros s v' route _ [_ HO]. destruct HO; cbn; auto.
  - split; [apply HA|]. split; [done|]. apply Forall_true. intros. now apply grants_any.
  - split; [done|]. now apply grants_any.
Qed.
End safe.

Section dispatch.
Context `{M : Monocypher} {ML : MonocypherLaws M}.
Context (W : world -> Prop) {HQ : Quiet W} {HA : forall e, Allows W e}.
Notation J := (served (fun _ => True) W).

(** Refreshing the sender's record under the lock. *)
Lemma touch_section {A} (f : Z -> peer_t -> peer_t) (g : Z -> peer_t -> prog srv_state A) (d : A) s from
    (Q : A -> Prop) :
  inv J s ->
  (forall t p, 0 <= t < 2 ^ 62 -> peer_ok p -> peer_ok (f t p) /\ route (f t p) = route p) ->
  (forall i p s' v', 0 <= i -> peer_ok p -> inside W s v' s' ->
     wp (g i p) (fun a s'' => inside W s v' s'' /\ Q a) s') -> Q d ->
  wp (let* idx := gets (server_find_peer_by_addr from) in
      if 0 <=? idx then
        let* now := on_world' time_null in
        let* p := peer_at idx in
        put_peer idx (f now p) 0 ;; g idx p
      else Ret d)
    (fun a s' => exists v', inside W s v' s' /\ srv_ok v' /\ Q a) s.
Proof.
  intros Hs Hf Hg Hd. destruct (proj2 Hs) as (Hv & _). pose proof (inside_start W s _ Hs) as H0.
  apply wp_bind, (wp_gets W s _ (srv s)); [done|].
  destruct (find_by_addr_spec _ from Hv) as [[-> Hun]|(p & Hi & Hp & Ha & He & Hok)].
  { apply wp_ret. now exists (srv s). }
  set (i := server_find_peer_by_addr from (srv s)) in *. destruct (Z.leb_spec 0 i); [|lia].
  apply wp_bind. eapply wp_still; [apply safe_time; typeclasses eauto|exact H0|]. intros t s1 Hs1 Ht.
  apply wp_bind, (wp_peer_at W s _ p (srv s)); [done|lia|done|].
  destruct (Hf t p Ht Hok) as [Hok' Hr].
  eapply wp_bind, wp_put_same; eauto. intros v' s2 Hs2 Hv' _ _.
  eapply wp_mono; [now apply (Hg i p s2 v')|]. intros a s3 [Hs3 HQa]. now exists v'.
Qed.

Lemma safe_handle_keepalive payload plen from :
  bytes_ok payload -> plen <= zlen payload ->
  safe J (server_handle_keepalive payload plen from) (fun _ => True).
Proof.
  intros Hb Hp. unfold server_handle_keepalive.
  destruct (read_timestamp payload plen Hb Hp) as [-> Hts]. cbn [local bind].
  destruct (plen <? 8); [logging|].
  eapply (safe_bind _ _ _ (fun '(_, nm) => printable nm)).
  - apply (safe_from_section W _ _ (fun _ _ a => let '(_, nm) := a in printable nm)); [|done].
    intros s Hs. apply (touch_section set_last_seen
      (fun idx p => let* peer_name := local (snprintf_s 32 (name p)) in Ret (idx, peer_name)));
      [done|auto with tund| |].
    + intros i p s' v' Hi Hok Hs'. destruct (printable_snprintf _ Hok) as (nm & -> & Hpr & _).
      now apply wp_ret.
    + exists []. split; [done|constructor].
  - intros [idx nm] (s & Hs & _). destruct (idx <? 0); [done|].
    eapply safe_bind; [apply alloc_pkt; typeclasses eauto|]. intros buf [Hbuf _].
    eapply safe_bind.
    { apply safe_build_timestamp; [typeclasses eauto|done|words; unfold MSG_KEEPALIVE_ACK; lia]. }
    intros [len buf1] Hb1. eapply safe_bind.
    { apply (safe_send_built _ _ _ _ _ _ _ _ Hb1); auto; [words; unfold MSG_KEEPALIVE_ACK; lia|].
      now apply grants_any. }
    intros r _. destruct (r <? 0); [logging|done].
Qed.

Lemma safe_handle_keepalive_ack payload plen from :
  bytes_ok payload -> plen <= zlen payload ->
  safe J (server_handle_keepalive_ack payload plen from) (fun _ => True).
Proof.
  intros Hb Hp. unfold server_handle_keepalive_ack.
  destruct (read_timestamp payload plen Hb Hp) as [-> Hts]. cbn [local bind].
  destruct (plen <? 8); [done|].
  eapply safe_bind; [apply safe_now_ms; typeclasses eauto|]. intros now Hnow.
  destruct (_ <? _); [done|].
  apply (safe_from_section W _ _ (fun _ _ _ => True)); [|done]. intros s Hs.
  set (sample := u64 _).
  apply (touch_section (fun t p => set_rtt (smooth_rtt_ms (rtt_ms p) sample (has_rtt p)) (set_last_seen t p))
    (fun _ _ => Ret tt) tt s from (fun _ => True)); [done| | |done].
  - intros t p Ht Hok. split; [|done].
    apply (peer_ok_set_rtt sample (set_last_seen t p)); [apply u64_range|auto with tund].
  - intros. now apply wp_ret.
Qed.

(** Any datagram that was received is handled. *)
Lemma safe_handle_packet buf0 buf n from :
  received buf0 n buf from -> 0 < n ->
  safe J (server_handle_packet buf n from) (fun _ => True).
Proof.
  intros (Hl & Hb & Hf & [Hn|HR]) H0; [lia|].
  destruct HR as (type & sequence & nonce & payload & rest & Ht & Hsq & Hnl & Hpb & Hpm & -> & ->).
  pose proof (zlen_nonneg payload). unfold server_handle_packet.
  rewrite read_hdr_at by (done || clia). cbn [local bind].
  destruct (Z.ltb_spec (TUND_HDR_SIZE + zlen payload) (TUND_HDR_SIZE + zlen payload)); [lia|].
  rewrite read_sequence_any by done. cbn [local bind].
  destruct (sequence =? 0); [logging|].
  assert (Hpay : ptr (hdr_bytes type (zlen payload) sequence nonce ++ payload ++ rest) TUND_HDR_SIZE =
    payload ++ rest) by (apply ptr_app; now rewrite zlen_hdr). rewrite Hpay.
  assert (Hall : bytes_ok (payload ++ rest)) by (now apply bytes_ok_app in Hb as [_ ?]).
  assert (Hlen : 0 <= zlen payload <= zlen (payload ++ rest)).
  { rewrite zlen_app. pose proof (zlen_nonneg rest). lia. }
  assert (Hu16 : is_u16 (zlen payload)) by clia.
  eapply (safe_bind _ _ _ (fun _ => True)).
  { destruct (type =? MSG_REGISTER); cbn [negb]; [done|now apply safe_accept_sequence]. }
  intros [] _; cbn [negb]; [|done].
  repeat match goal with |- safe _ (if ?b then _ else _) _ => destruct b end;
    [now apply safe_handle_register|now apply safe_handle_data|apply safe_handle_keepalive; [done|lia]
    |apply safe_handle_keepalive_ack; [done|lia]|now apply safe_handle_disconnect|logging].
Qed.
End dispatch.
