(* ===== verification/ServerSpec.v ===== *)
(** What the server's handlers do, from any well-formed state: their effect on
    the peer table and everything they may put on the wire. *)
From stdpp Require Import base list numbers option.
From S2P Require Import Prelude Prog World Consts Sequence Wire Ipv4 Crypto Events Replay Peer Net Messages Boot ServerPeers Server.

(** * States before and after a handler *)

Definition ready (s : srv_state) : Prop := world_ok (srv_world s) /\ srv_ok (srv s).

(** After a handler started in [s]: the table is well formed with routing [R],
    and every outgoing event since then satisfies [ok]. *)
Record after (s : srv_state) (ok : event -> Prop) (R : list (option (Z * sockaddr_in)))
    (s' : srv_state) : Prop := {
  after_world : world_ok (srv_world s');
  after_table : srv_ok (srv s');
  after_routing : routing (srv s') = R;
  after_events : policy (g_crypto_key (srv_world s)) (w_trace (srv_world s)) ok (srv_world s')
}.

Notation server_policy s ok := (policy (g_crypto_key (srv_world s)) (w_trace (srv_world s)) ok).

Lemma ready_start s ok : ready s -> inv (served (fun _ => True) (server_policy s ok)) s.
Proof. intros [Hw Hv]. split; [done|]. split; [done|]. split; [done|]. apply policy_start. Qed.

Lemma served_after s ok R s' :
  inv (served (fun R' => R' = R) (server_policy s ok)) s' -> after s ok R s'.
Proof. intros [Hw (Hv & HR & HP)]. now split. Qed.

(** A critical section sends nothing; what follows sends what it decided. *)
Lemma policy_weaken key t0 (ok : event -> Prop) w : policy key t0 (fun _ => False) w -> policy key t0 ok w.
Proof.
  intros (Hk & new & Ht & Hf). split; [done|]. exists new. split; [done|].
  eapply Forall_impl; [|exact Hf]. cbn. tauto.
Qed.

Lemma run_section_at {A} (p : prog srv_state A) (q : A -> prog srv_state unit) s
    (P : server_t -> A -> Prop) (ok : A -> server_t -> event -> Prop) :
  ready s ->
  wp p (fun a s' => exists v', inside (server_policy s (fun _ => False)) s v' s' /\ srv_ok v' /\ P v' a) s ->
  (forall a v', P v' a ->
     safe (served (fun R' => R' = routing v') (server_policy s (ok a v'))) (q a) (fun _ => True)) ->
  exists a s1 s', run p s = Some (a, s1) /\ run (q a) s1 = Some (tt, s') /\ ready s1 /\ rel s s1 /\ P (srv s1) a /\
    after s (ok a (srv s1)) (routing (srv s1)) s'.
Proof.
  intros Hs (a & s1 & Hrun & v' & [[Hw [Hv HW]] Hrel] & Hv' & HP) Hq.
  destruct (safe_run _ _ _ s1 (Hq a v' HP)) as ([] & s2 & Hr2 & Hs2 & _).
  { split; [done|]. unfold served. rewrite Hv. auto using policy_weaken. }
  rewrite <- Hv in *. exists a, s1, s2. do 2 (split; [done|]). split; [now split|]. do 2 (split; [done|]). now apply served_after.
Qed.

Lemma run_section {A} (p : prog srv_state A) (q : A -> prog srv_state unit) s
    (P : server_t -> A -> Prop) (ok : A -> server_t -> event -> Prop) :
  ready s ->
  wp p (fun a s' => exists v', inside (server_policy s (fun _ => False)) s v' s' /\ srv_ok v' /\ P v' a) s ->
  (forall a v', P v' a ->
     safe (served (fun R' => R' = routing v') (server_policy s (ok a v'))) (q a) (fun _ => True)) ->
  exists a v' s', run (bind (locked p) q) s = Some (tt, s') /\ P v' a /\ after s (ok a v') (routing v') s'.
Proof.
  intros Hs Hp Hq. destruct (run_section_at p q s P ok Hs Hp Hq) as (a & s1 & s' & Hr & Hr2 & _ & _ & HP & Ha).
  exists a, (srv s1), s'. split; [|done]. unfold locked. cbn. now rewrite Hr.
Qed.

(** A handler that needs no critical section. *)
Lemma run_after (p : prog srv_state unit) s ok :
  ready s -> safe (served (fun R' => R' = routing (srv s)) (server_policy s ok)) p (fun _ => True) ->
  exists s', run p s = Some (tt, s') /\ after s ok (routing (srv s)) s'.
Proof.
  intros [Hw Hv] Hp.
  destruct (safe_run _ _ _ s Hp) as ([] & s' & Hr & Hs' & _).
  { split; [done|]. split; [done|]. split; [done|]. apply policy_start. }
  exists s'. split; [done|]. now apply served_after.
Qed.

Lemma others_in R : forall i exclude x,
  In x (others R i exclude) -> exists j, R !! j = Some (Some x) /\ i + Z.of_nat j <> exclude.
Proof.
  induction R as [|r R IH]; intros i exclude x Hx; [done|]. cbn [others] in Hx.
  assert (Hrec : In x (others R (i + 1) exclude) ->
    exists j, (r :: R) !! j = Some (Some x) /\ i + Z.of_nat j <> exclude).
  { intros Hin. destruct (IH _ _ _ Hin) as (j & Hj & Hne). exists (S j). split; [done|]. lia. }
  destruct r as [y|]; [|auto]. destruct (Z.eqb_spec i exclude); [auto|].
  destruct Hx as [<-|Hx]; [|auto]. exists 0%nat. split; [done|]. lia.
Qed.

(** The recipients recorded in a list of snapshots. *)
Lemma snaps_in l sns sn :
  Forall2 snap_of l sns -> In sn sns -> exists x, In x l /\ snap_real_addr sn = x.2.
Proof.
  induction 1 as [|x y l sns [_ Hxy] _ IH]; [intros []|]. intros [<-|Hin].
  - exists x. split; [by left|done].
  - destruct IH as (z & ? & ?); [done|]. exists z. split; [by right|done].
Qed.

Lemma le_field_htonl pkt off :
  bytes_ok pkt -> (off + 4 <= length pkt)%nat ->
  le_combine (take 4 (drop off pkt)) = htonl (be_combine (take 4 (drop off pkt))).
Proof.
  intros Hb Hl. assert (Hl4 : length (take 4 (drop off pkt)) = 4%nat)
    by (rewrite length_take, length_drop; lia).
  assert (Hb4 : bytes_ok (take 4 (drop off pkt))) by auto using bytes_ok_take, bytes_ok_drop.
  rewrite <- (ntohl_le_combine _ Hb4 Hl4), htonl_ntohl; [done|].
  pose proof (le_combine_bound _ Hb4) as H. rewrite Hl4 in H. exact H.
Qed.

(** * A concrete server with two peers *)

Definition empty_server : server_t :=
  Server 5 (TunDevice 6 (str "tund0" ++ replicate 27 0) TUND_TUN_MTU) (replicate 253 zero_peer) 0 TUND_PORT true true false false.

Lemma empty_server_ok : srv_ok empty_server.
Proof.
  assert (HR : routing empty_server = replicate 253 None) by reflexivity.
  assert (Hno : forall i x, routing empty_server !! i <> Some (Some x)).
  { intros i x. rewrite HR. intros H. apply lookup_replicate_1 in H as [H _]. done. }
  split.
  - apply Forall_replicate, zero_peer_ok.
  - reflexivity.
  - split; [reflexivity| | |constructor]; intros i j x y Hi; now apply Hno in Hi.
  - exists (str "tund0"). reflexivity.
Qed.

Definition alice_addr : sockaddr_in := SockAddr 2 (htons 4001) (htonl 0xC0A80102).
Definition bob_addr : sockaddr_in := SockAddr 2 (htons 4002) (htonl 0xC0A80103).

Definition alice : peer_t :=
  Peer true (htonl TUND_IP_START) (name_field (str "alice")) alice_addr 1000 0 0 0 false (Window 70 1).
Definition bob : peer_t :=
  Peer true (htonl (TUND_IP_START + 1)) (name_field (str "bob")) bob_addr 1000 0 0 0 false (Window 9 1).

Definition add_peer (i : nat) (p : peer_t) (v : server_t) : server_t :=
  set_peers (<[i := p]> (peers v)) (peer_count v + 1) v.

Definition sample_server : server_t := add_peer 1 bob (add_peer 0 alice empty_server).
Definition sample_state : srv_state := SrvState sample_world sample_server.

Lemma addr_alice : addr_ok alice_addr.
Proof. repeat split; vm_compute; congruence. Qed.

Lemma addr_bob : addr_ok bob_addr.
Proof. repeat split; vm_compute; congruence. Qed.

Lemma sample_peer_ok ip nm a h :
  is_u32 ip -> bytes_ok nm -> addr_ok a -> is_u64 h ->
  peer_ok (Peer true ip (name_field nm) a 1000 0 0 0 false (Window h 1)).
Proof.
  intros Hi Hn Ha Hh. split; cbn [name virt_ip real_addr last_seen bytes_in bytes_out rtt_ms replay];
    auto using name_field_name_ok; try (words; lia). split; cbn; [done|words; lia].
Qed.

Lemma sample_server_ok : srv_ok sample_server.
Proof.
  assert (H1 : srv_ok (add_peer 0 alice empty_server)).
  { refine (proj1 (put_active empty_server 0 zero_peer alice empty_server_ok eq_refl eq_refl _ eq_refl _ _ _)).
    - apply sample_peer_ok; [apply htonl_is_u32|repeat constructor; words; lia|apply addr_alice|words; lia].
    - exists TUND_IP_START. split; [clia|done].
    - vm_compute. tauto.
    - intros j x Hj. exfalso. change (routing empty_server) with (replicate 253 (@None (Z * sockaddr_in))) in Hj.
      apply lookup_replicate_1 in Hj as [Hj _]. done. }
  refine (proj1 (put_active _ 1 zero_peer bob H1 eq_refl eq_refl _ eq_refl _ _ _)).
  - apply sample_peer_ok; [apply htonl_is_u32|repeat constructor; words; lia|apply addr_bob|words; lia].
  - exists (TUND_IP_START + 1). split; [clia|done].
  - vm_compute. intros [H|[]]. discriminate.
  - intros j x Hj.
    assert (Hin : In x (used (routing (add_peer 0 alice empty_server)))) by (apply used_in; eauto).
    revert Hin. vm_compute. intros [<-|[]] H. discriminate.
Qed.

Lemma sample_ready : ready sample_state.
Proof. split; [exact sample_world_ok|exact sample_server_ok]. Qed.

(** * Forwarding *)

(** Everything a DATA datagram with packet [pkt] from [from] may cause: the
    packet is valid, its source is the address assigned to the sender, and it
    goes unchanged to the server's TUN device or to the peers it is for. *)
Definition data_allowed `{M : Monocypher} (s : srv_state) (payload : bytes) (plen : Z)
    (from : sockaddr_in) (e : event) : Prop :=
  let pkt := take (Z.to_nat plen) payload in
  lan_packet payload plen /\
  exists i p, registered (srv s) from i p /\ virt_ip p = htonl (ip_src payload) /\
    ((e = EvTunWrite pkt /\
      (htonl (ip_dst payload) = htonl TUND_SERVER_IP \/ htonl (ip_dst payload) = htonl TUND_BROADCAST)) \/
     exists j x, routing (srv s) !! j = Some (Some x) /\
       sent_message (g_crypto_key (srv_world s)) MSG_DATA pkt x.2 e /\
       (x.1 = htonl (ip_dst payload) \/ htonl (ip_dst payload) = htonl TUND_BROADCAST /\ j <> i)).

Lemma data_outcome_grants `{M : Monocypher} s payload plen from route :
  lan_packet payload plen -> 0 <= plen <= zlen payload ->
  data_outcome (srv s) from (htonl (ip_src payload)) (htonl (ip_dst payload)) route ->
  route_grants (server_policy s (data_allowed s payload plen from)) (take (Z.to_nat plen) payload) route.
Proof.
  intros Hlan Hp HO. set (pkt := take _ _).
  destruct HO as [| |i p Hr Hs Hd|i p l Hr Hs Hd Hl Hof| |i p j x sn Hr Hs Hj Hx Hsn [_ Hof]];
    cbn [route_grants]; auto.
  - apply allows_policy. split; [done|]. exists i, p. auto 6.
  - split; [|split; [done|]].
    + apply allows_policy. split; [done|]. exists i, p. auto 6.
    + apply Forall_forall. intros sn Hsn. apply grants_policy. intros e He.
      destruct (snaps_in _ _ _ Hof Hsn) as (x & Hx & Ha).
      destruct (others_in _ _ _ _ Hx) as (j & Hj & Hne).
      split; [done|]. exists i, p. split; [done|]. split; [done|]. right. exists j, x.
      rewrite <- Ha. split; [done|]. split; [done|]. right. split; [done|]. lia.
  - split; [done|]. apply grants_policy. intros e He. rewrite Hof in He.
    split; [done|]. exists i, p. split; [done|]. split; [done|]. right. exists j, x. auto.
Qed.

(** C1: the server forwards a DATA datagram only if it is a valid packet of the
    virtual network whose source is the address assigned to the registered
    sender, and then unchanged and only to its destination; whatever the
    payload, the handler ends without undefined behaviour, keeps the table
    well formed and its routing unchanged. *)
Theorem server_forwards_only_authentic `{M : Monocypher} {ML : MonocypherLaws M}
    (s : srv_state) (payload : bytes) (plen : Z) (from : sockaddr_in)
    (Hs : ready s) (Hb : bytes_ok payload) (Hp : 0 <= plen <= zlen payload) (Hu : is_u16 plen) :
  exists s', run (server_handle_data payload plen from) s = Some (tt, s') /\
    after s (data_allowed s payload plen from) (routing (srv s)) s'.
Proof.
  unfold server_handle_data. rewrite validate_verdict by (done || lia). cbn [local bind].
  destruct (Z.eqb_spec (ipv4_verdict payload plen) TUND_IPV4_OK) as [Hok|]; cbn [negb].
  2:{ apply run_after; [done|]. logging. }
  apply verdict_ok in Hok. pose proof (lan_min _ _ Hok).
  destruct (get_src_spec payload plen) as (src & -> & Hsrc); [lia|].
  destruct (get_dst_spec payload plen) as (dst & -> & Hdst); [lia|]. cbn [local bind].
  rewrite le_field_htonl in Hsrc, Hdst by (done || zl).
  destruct (run_section (data_locked src dst plen from) (fun route => data_forward route payload plen dst)
    s (fun v' route => routing v' = routing (srv s) /\ data_outcome (srv s) from src dst route)
    (fun _ _ => data_allowed s payload plen from) Hs)
    as (route & v' & s' & Hr & [HR _] & Ha).
  - apply (data_section (fun _ => True)); [typeclasses eauto|]. now apply ready_start.
  - intros route v' [HR HO]. apply safe_data_forward; auto; [typeclasses eauto|].
    apply data_outcome_grants; auto. unfold ip_src, ip_dst. congruence.
  - exists s'. split; [done|]. now rewrite <- HR.
Qed.

Example server_forwards_only_authentic_witness :
  exists s', run (server_handle_data (M := SampleCipher.sample) sample_packet 20 alice_addr) sample_state =
      Some (tt, s') /\
    after sample_state (data_allowed (M := SampleCipher.sample) sample_state sample_packet 20 alice_addr)
      (routing sample_server) s'.
Proof.
  apply (server_forwards_only_authentic (M := SampleCipher.sample) sample_state);
    [exact sample_ready|repeat constructor; words; lia|vm_compute; split; discriminate|words; lia].
Defined.

(** The sample packet does reach the peer it is for. *)
Example sample_packet_forwarded :
  match run (server_handle_data (M := SampleCipher.sample) sample_packet 20 alice_addr) sample_state with
  | Some (_, s') => match w_trace (srv_world s') with EvSent _ d _ :: _ => d = bob_addr | _ => False end
  | None => False
  end.
Proof. vm_compute. reflexivity. Qed.

(** * Registration *)

(** What the server sends for the result of a registration: the assignment,
    and for a new peer the list of the others and its name to each of them. *)
Definition register_messages `{M : Monocypher} (key : bytes) (res : register_result) (e : event) : Prop :=
  match res with
  | RegAccepted vip nm addr es dests reconnect =>
      sent_message key MSG_ASSIGN (assign_payload vip (htonl TUND_NETMASK) TUND_TUN_MTU) addr e \/
      reconnect = false /\
      ((exists payload, peer_list_of es payload /\ sent_message key MSG_PEER_LIST payload addr e) \/
       exists s d, c_str nm = Some s /\ In d dests /\
         sent_message key MSG_PEER_JOIN (le_split 4 vip ++ name_field s) d e)
  | _ => False
  end.

Lemma safe_register_result `{M : Monocypher} {ML : MonocypherLaws M} s v' from payload plen sequence res :
  register_outcome (srv s) v' from payload plen sequence (clock s) res ->
  safe (served (fun R' => R' = routing v')
          (server_policy s (register_messages (g_crypto_key (srv_world s)) res)))
    match res with
    | RegReplayed peer_name => LOG LOG_LEVEL_DEBUG [peer_name]
    | RegRejected _ => LOG LOG_LEVEL_WARN []
    | RegAccepted vip peer_name peer_addr peer_entries join_dests reconnect =>
        register_reply from vip peer_name peer_addr peer_entries join_dests reconnect
    end (fun _ => True).
Proof.
  intros HO.
  assert (Hok : match res with RegReplayed nm => printable nm | RegRejected _ => True
    | RegAccepted _ nm _ es _ _ => printable nm /\ Forall snap_ok es end) by (destruct HO; auto).
  destruct res as [nm|b|vip nm addr es ds rc].
  - destruct Hok as (str & Hstr & _). logging.
  - logging.
  - destruct Hok as [(str & Hstr & Hb) Hes].
    apply (safe_register_reply _ _ _ _ _ str); auto.
    + apply grants_policy. intros e He. now left.
    + intros pl -> Hpl. apply grants_policy. intros e He. right. split; [done|]. left. eauto.
    + apply Forall_forall. intros d Hd ->. apply grants_policy. intros e He. right. split; [done|].
      right. eauto.
Qed.

Lemma register_runs `{M : Monocypher} {ML : MonocypherLaws M}
    (s : srv_state) (payload : bytes) (plen sequence : Z) (from : sockaddr_in)
    (Hs : ready s) (Hsq : is_u64 sequence) (Hf : addr_ok from) (Hb : bytes_ok payload)
    (Hp : 0 <= plen <= zlen payload) :
  exists res s1 s', run (register_locked payload plen from sequence) s = Some (res, s1) /\
    run (match res with
         | RegReplayed peer_name => LOG LOG_LEVEL_DEBUG [peer_name]
         | RegRejected _ => LOG LOG_LEVEL_WARN []
         | RegAccepted vip peer_name peer_addr peer_entries join_dests reconnect =>
             register_reply from vip peer_name peer_addr peer_entries join_dests reconnect
         end) s1 = Some (tt, s') /\ ready s1 /\ rel s s1 /\
    register_outcome (srv s) (srv s1) from payload plen sequence (clock s) res /\
    after s (register_messages (g_crypto_key (srv_world s)) res) (routing (srv s1)) s'.
Proof.
  apply (run_section_at _ _ s (fun v' res => register_outcome (srv s) v' from payload plen sequence (clock s) res)
    (fun res _ => register_messages (g_crypto_key (srv_world s)) res) Hs).
  - apply (register_section (fun _ => True)); auto; [typeclasses eauto|]. now apply ready_start.
  - intros res v' HO. eapply safe_register_result, HO.
Qed.

Definition carol_addr : sockaddr_in := SockAddr 2 (htons 4003) (htonl 0xC0A80104).

(** * Departure *)

(** The departure of [vip] is told to the peers of the table [R]. *)
Definition leave_messages `{M : Monocypher} (key : bytes) (R : list (option (Z * sockaddr_in)))
    (vip : Z) (e : event) : Prop :=
  exists x, In x (used R) /\ sent_message key MSG_PEER_LEAVE (le_split 4 vip) x.2 e.

Lemma snaps_used R exclude l sn :
  Forall2 snap_of (others R 0 exclude) l -> In sn l -> exists x, In x (used R) /\ snap_real_addr sn = x.2.
Proof.
  intros Hof Hsn. destruct (snaps_in _ _ _ Hof Hsn) as (x & Hx & Hd).
  destruct (others_in _ _ _ _ Hx) as (j & Hj & _). exists x. split; [|done]. apply used_in. eauto.
Qed.

Lemma safe_leave `{M : Monocypher} {ML : MonocypherLaws M} X W {HQ : Quiet W} vip l reason :
  Forall snap_ok l ->
  Forall (fun sn => grants W (snap_real_addr sn) MSG_PEER_LEAVE (le_split 4 vip)) l ->
  safe (served X W)
    (let* buf := alloc TUND_MAX_PKT in
     let* '(len, buf) := proto_build_peer_leave buf vip in
     server_send_peer_snapshots l buf len 0 ;;
     app_event_peer_leave vip reason) (fun _ => True).
Proof.
  intros Hl HG.
  eapply safe_bind; [apply alloc_pkt; typeclasses eauto|]. intros buf [Hbuf _].
  eapply safe_bind; [apply safe_build_peer_leave; [typeclasses eauto|done]|]. intros [len buf1] Hb1.
  eapply safe_bind.
  { apply safe_send_snapshots; [typeclasses eauto|apply (built_pkt _ _ _ _ _ Hb1 Hbuf)
      |now apply (built_length _ _ _ _ _ Hb1)|done|].
    eapply Forall_impl; [|exact HG]. cbn. intros sn Hsn.
    apply (may_send_built _ _ _ _ _ _ _ _ Hb1); [words; unfold MSG_PEER_LEAVE; lia|done]. }
  intros _ _. now apply safe_event_leave; try typeclasses eauto.
Qed.

Lemma disconnect_runs `{M : Monocypher} {ML : MonocypherLaws M}
    (s : srv_state) (from : sockaddr_in) (Hs : ready s) :
  exists res s1 s', run (disconnect_locked from) s = Some (res, s1) /\ run (disconnect_notify res) s1 = Some (tt, s') /\ ready s1 /\ rel s s1 /\
    disconnect_outcome (srv s) (srv s1) from res /\
    after s (match res with
             | None => fun _ => False
             | Some (vip, _) => leave_messages (g_crypto_key (srv_world s)) (routing (srv s1)) vip
             end) (routing (srv s1)) s'.
Proof.
  apply (run_section_at (disconnect_locked from) disconnect_notify s
    (fun v' res => disconnect_outcome (srv s) v' from res)
    (fun res v' => match res with
       | None => fun _ => False
       | Some (vip, _) => leave_messages (g_crypto_key (srv_world s)) (routing v') vip
       end) Hs).
  - apply (disconnect_section (fun _ => True)); [typeclasses eauto|]. now apply ready_start.
  - intros res v' [(-> & _)|(i & p & l & Hreg & -> & _ & HR & Hl & Hof)]; [now apply safe_ret|].
    apply safe_leave; [typeclasses eauto|done|]. apply Forall_forall. intros sn Hsn.
    apply grants_policy. intros e He. destruct (snaps_used _ _ _ _ Hof Hsn) as (x & Hx & Hd).
    exists x. now rewrite <- Hd.
Qed.

(** * Replays *)

(** An endpoint has one slot. *)
Lemma registered_unique v from i j p q :
  srv_ok v -> registered v from i p -> registered v from j q -> i = j /\ p = q.
Proof.
  intros Hv (Hp & Ha & He) (Hq & Hb & Hf).
  assert (i = j) as <-; [|split; [done|congruence]].
  apply (ok_addrs _ (ok_routes _ Hv) i j (virt_ip p, real_addr p) (virt_ip q, real_addr q)).
  - rewrite (routing_lookup _ _ _ Hp). unfold route. now rewrite Ha.
  - rewrite (routing_lookup _ _ _ Hq). unfold route. now rewrite Hb.
  - cbn. congruence.
Qed.

Lemma registered_known v from i p : registered v from i p -> ~ unregistered v from.
Proof.
  intros (Hp & Ha & He) Hun. apply (Hun i (virt_ip p, real_addr p)); [|done].
  rewrite (routing_lookup _ _ _ Hp). unfold route. now rewrite Ha.
Qed.

(** The state after a datagram that was dropped. *)
Definition inert (s s' : srv_state) : Prop :=
  world_ok (srv_world s') /\ srv s' = srv s /\
  policy (g_crypto_key (srv_world s)) (w_trace (srv_world s)) (fun _ => False) (srv_world s').

(** Code that leaves the table alone, run after a critical section that did. *)
Lemma run_inert {A} (p : prog srv_state A) s s1 a :
  inside (server_policy s (fun _ => False)) s (srv s) s1 ->
  safe (still (srv s) (server_policy s (fun _ => False))) p (fun b => b = a) ->
  exists s', run p s1 = Some (a, s') /\ inert s s'.
Proof.
  intros [Hi _] Hp. destruct (safe_run _ _ _ s1 Hp Hi) as (b & s' & Hr & [Hw [Hv HW]] & _ & ->).
  exists s'. split; [done|]. now split.
Qed.

(** A log line that leaves the state alone. *)
Lemma log_inert s s1 level args :
  inside (server_policy s (fun _ => False)) s (srv s) s1 ->
  Forall (fun a => exists str, c_str a = Some str) args ->
  exists s', run (LOG level args) s1 = Some (tt, s') /\ inert s s'.
Proof.
  intros Hin Ha. apply run_inert; [done|].
  eapply safe_mono; [apply safe_LOG; [typeclasses eauto|done]|]. now intros [].
Qed.

Lemma register_replay_inert `{M : Monocypher} s payload plen sequence from i p :
  ready s -> is_u64 sequence -> addr_ok from -> bytes_ok payload -> 0 <= plen <= zlen payload ->
  registered (srv s) from i p -> (proto_replay_accept (replay p) sequence).1 = false ->
  exists s', run (server_handle_register payload plen from sequence) s = Some (tt, s') /\ inert s s'.
Proof.
  intros Hs Hsq Hf Hb Hp Hreg Hrej. pose proof (proj2 Hs) as Hv.
  destruct (register_section (fun _ => True) (server_policy s (fun _ => False)) s payload plen from sequence)
    as (res & s1 & Hr & v' & Hin & Hv' & HO); auto; [now apply ready_start|].
  unfold server_handle_register, locked. cbn [bind atomic run]. rewrite Hr.
  destruct HO as [j q nm Hreg' _ -> (txt & Htxt & _)|j q nm Hreg' Hacc|Hun|? ? ? ? Hun].
  - apply log_inert; [done|]. repeat constructor. eauto.
  - destruct (registered_unique _ _ _ _ _ _ Hv Hreg Hreg') as [_ <-]. congruence.
  - now apply registered_known in Hreg.
  - now apply registered_known in Hreg.
Qed.

Lemma accept_replay_inert `{M : Monocypher} s sequence from i p :
  ready s -> is_u64 sequence ->
  registered (srv s) from i p -> (proto_replay_accept (replay p) sequence).1 = false ->
  exists s', run (server_accept_registered_sequence from sequence) s = Some (false, s') /\ inert s s'.
Proof.
  intros Hs Hsq Hreg Hrej. pose proof (proj2 Hs) as Hv.
  destruct (accept_section (fun _ => True) (server_policy s (fun _ => False)) s from sequence)
    as ([[known ok] nm] & s1 & Hr & v' & Hin & Hv' & (txt & Htxt & _) & HR & HO); auto;
    [now apply ready_start|].
  destruct HO as [(Hun & _)|(j & q & Hreg' & -> & Hv2)]; [now apply registered_known in Hreg|].
  destruct (registered_unique _ _ _ _ _ _ Hv Hreg Hreg') as [<- <-].
  rewrite rejected_same, set_replay_same, put_identity in Hv2 by (done || apply Hreg). subst v'.
  rewrite Hrej in *. unfold server_accept_registered_sequence, locked. cbn [bind atomic run]. rewrite Hr.
  apply run_inert; [done|].
  eapply (safe_bind _ _ _ (fun _ => True)); [|done]. destruct (known && negb false); [logging|done].
Qed.

(** C5: a datagram whose sequence number the sender's window rejects, of any
    type, REGISTER included, has no effect: the table stays exactly as it was
    and nothing is sent. *)
Theorem server_drops_replays `{M : Monocypher} {ML : MonocypherLaws M}
    (s : srv_state) (type sequence : Z) (nonce payload rest : bytes) (from : sockaddr_in)
    (i : nat) (p : peer_t)
    (Hs : ready s) (Ht : is_u8 type) (Hsq : is_u64 sequence) (Hn : length nonce = 24%nat)
    (Hb : bytes_ok (payload ++ rest)) (Hm : zlen payload <= TUND_MAX_PLAINTEXT) (Hf : addr_ok from)
    (Hreg : registered (srv s) from i p) (Hrej : (proto_replay_accept (replay p) sequence).1 = false) :
  let buf := hdr_bytes type (zlen payload) sequence nonce ++ payload ++ rest in
  exists s', run (server_handle_packet buf (TUND_HDR_SIZE + zlen payload) from) s = Some (tt, s') /\
    inert s s'.
Proof.
  intros buf. unfold buf, server_handle_packet. pose proof (zlen_nonneg payload).
  rewrite read_hdr_at by (done || clia). cbn [local bind].
  destruct (Z.ltb_spec (TUND_HDR_SIZE + zlen payload) (TUND_HDR_SIZE + zlen payload)); [lia|].
  rewrite read_sequence_any by done. cbn [local bind].
  rewrite ptr_app by now rewrite zlen_hdr.
  destruct (Z.eqb_spec sequence 0) as [->|].
  { apply log_inert; [now apply (inside_start _ _ (fun _ => True)), ready_start|].
    repeat constructor. apply ip_terminated. }
  destruct (Z.eqb_spec type MSG_REGISTER); cbn [negb bind].
  - apply (register_replay_inert _ _ _ _ _ i p); auto. rewrite zlen_app.
    pose proof (zlen_nonneg rest). lia.
  - destruct (accept_replay_inert s sequence from i p) as (s' & Hr & Hi); auto.
    exists s'. rewrite run_bind, Hr. auto.
Qed.

Example server_drops_replays_witness :
  let buf := hdr_bytes MSG_DATA 3 70 (replicate 24 1) ++ [1; 2; 3] ++ [] in
  exists s', run (server_handle_packet (M := SampleCipher.sample) buf (TUND_HDR_SIZE + 3) alice_addr)
      sample_state = Some (tt, s') /\ inert sample_state s'.
Proof.
  apply (server_drops_replays (M := SampleCipher.sample) sample_state MSG_DATA 70 (replicate 24 1)
    [1; 2; 3] [] alice_addr 0 alice);
    [exact sample_ready|words; unfold MSG_DATA; lia|words; lia|reflexivity|repeat constructor; words; lia
    |vm_compute; discriminate|exact addr_alice|repeat split|reflexivity].
Defined.

(** * Address allocation *)

(** Whenever the table has a free slot, an address can be allocated; it is
    the smallest of 10.9.0.2 .. 10.9.0.254 that no active peer has. *)
Theorem server_alloc_smallest_free (v : server_t) (i : nat)
    (Hv : srv_ok v) (Hfree : routing v !! i = Some None) :
  exists h, server_alloc_ip v = htonl h /\ smallest_free (routing v) h.
Proof.
  destruct (alloc_total v i Hv Hfree) as (h & H1 & H2 & H3 & H4). exists h. now repeat split.
Qed.

Example server_alloc_smallest_free_witness :
  exists h, server_alloc_ip sample_server = htonl h /\ smallest_free (routing sample_server) h.
Proof. apply (server_alloc_smallest_free sample_server 2); [exact sample_server_ok|reflexivity]. Defined.

(** * Peer lists *)

(** The entries a server writes into a PEER_LIST message are read back, in
    order and with the same addresses and names (cut to 31 bytes); a datagram
    holds the first 43 of them, and the reader's entry count is exact. *)
Theorem peer_list_roundtrip (l l' : list (Z * bytes)) (buf : bytes)
    (Hn : Forall2 named l l') (Hu : Forall (fun e => is_u32 e.1) l')
    (Hb : bytes_ok buf) (Hl : zlen buf = TUND_MAX_PKT) :
  exists buf' offset count, write_entries l buf 0 0 = Some (buf', offset, count) /\
    count = Z.min (zlen l) 43 /\ proto_peer_entry_count offset = count /\
    forall i ip s, Z.of_nat i < count -> l' !! i = Some (ip, s) ->
      proto_read_peer_entry (ptr buf' TUND_HDR_SIZE) offset (Z.of_nat i) =
      Some (Some (ip, name_field s, true)).
Proof.
  destruct (entries_written l l' buf Hn Hb Hl) as (buf' & Hw & _ & Hl' & Ht).
  set (n := Nat.min (length l) 43) in *. pose proof (Forall2_length Hn) as Hll.
  eexists _, _, _. split; [exact Hw|]. split; [unfold n, zlen; lia|].
  split; [unfold proto_peer_entry_count; rewrite Z.mul_comm; apply Z.div_mul; done|].
  intros i ip s Hi Hs. unfold ptr. change (Z.to_nat TUND_HDR_SIZE) with 37%nat.
  rewrite <- (take_drop (Z.to_nat (TUND_PEER_ENTRY_SIZE * Z.of_nat n)) (drop 37 buf')), Ht.
  assert (Hz : zlen (entries_bytes (take n l')) = TUND_PEER_ENTRY_SIZE * Z.of_nat n).
  { rewrite zlen_entries. f_equal. unfold zlen. rewrite length_take. lia. }
  rewrite <- Hz. apply read_entry_at; [now apply Forall_take|].
  rewrite lookup_take_lt by lia. done.
Qed.

Example peer_list_roundtrip_witness :
  exists buf' offset count,
    write_entries [(7, str "ann" ++ [0]); (9, str "ben" ++ [0; 5])] (replicate 1653 0) 0 0 =
      Some (buf', offset, count) /\
    count = Z.min 2 43 /\ proto_peer_entry_count offset = count /\
    forall i ip s, Z.of_nat i < count -> [(7, str "ann"); (9, str "ben")] !! i = Some (ip, s) ->
      proto_read_peer_entry (ptr buf' TUND_HDR_SIZE) offset (Z.of_nat i) =
      Some (Some (ip, name_field s, true)).
Proof.
  apply (peer_list_roundtrip [(7, str "ann" ++ [0]); (9, str "ben" ++ [0; 5])]);
    [repeat constructor; cbn; words; lia|repeat constructor; cbn; words; lia|apply bytes_ok_zeros|reflexivity].
Defined.
