(* ===== verification/ServerDelivery.v ===== *)
(** The server delivers what it accepts: a valid packet from a registered peer
    reaches the peer that owns its destination address, or every other peer
    when it is a broadcast. *)
From stdpp Require Import base list numbers option.
From S2P Require Import Prelude Prog World Consts Sequence Wire Ipv4 Crypto Events Replay Peer Net Messages Boot Delivery ServerPeers Server ServerSpec.

(** * The table operations send nothing *)

Lemma acct_table {A} (f : srv_state -> option (A * srv_state)) :
  (forall s a s', f s = Some (a, s') -> srv_world s' = srv_world s) ->
  acct (atomic f) 0 [] (fun _ => True).
Proof.
  intros Hf s a s' m Hm HL. cbn. destruct (f s) as [[b s1]|] eqn:E; [|done]. intros [= <- <-].
  apply Hf in E. cbn. rewrite E. auto.
Qed.

Lemma acct_gets {A} (f : server_t -> A) : acct (gets f) 0 [] (fun _ => True).
Proof. apply acct_table. now intros s a s' [= _ <-]. Qed.

Lemma acct_peer_at i : acct (peer_at i) 0 [] (fun _ => True).
Proof.
  apply acct_table. intros s a s'. destruct (_ <=? _); [|done].
  destruct (peers (srv s) !! Z.to_nat i); [|done]. now intros [= _ <-].
Qed.

Lemma acct_put_peer i p d : acct (put_peer i p d) 0 [] (fun _ => True).
Proof. apply acct_table. intros s a s'. destruct (_ && _); [|done]. now intros [= _ <-]. Qed.

Lemma acct_locked {A} (p : prog srv_state A) k l R : acct p k l R -> acct (locked p) k l R.
Proof.
  intros Hp s a s' m Hm HL. cbn. destruct (run p s) as [[b s1]|] eqn:E; [|done]. intros [= <- <-].
  now apply (Hp s b s1 m).
Qed.

(** Consumes the first statement of a program that sends nothing. *)
Ltac acct_step :=
  first [ eapply acct_then; [lia
            |first [apply acct_gets|apply acct_peer_at|apply acct_put_peer|apply acct_LOG|apply acct_local]|]
        | apply acct_ret; done ].

Section forward.
Context `{M : Monocypher} {ML : MonocypherLaws M}.

Lemma acct_add_bytes_out sn n : acct (server_add_peer_bytes_out sn n) 0 [] (fun _ => True).
Proof.
  unfold server_add_peer_bytes_out. destruct (n =? 0); [now apply acct_ret|]. apply acct_locked.
  destruct (_ && _); [|now apply acct_ret]. acct_step. intros p _.
  destruct (_ && _); [apply acct_put_peer|now apply acct_ret].
Qed.

Lemma acct_data_locked src_ip dst_ip plen from :
  acct (data_locked src_ip dst_ip plen from) 0 [] (fun _ => True).
Proof.
  unfold data_locked. acct_step. intros idx _. destruct (_ <? _); [now apply acct_ret|].
  acct_step. intros p _. destruct (negb _); [acct_step; intros _ _; now apply acct_ret|].
  acct_step. intros _ _. destruct (_ =? _); [now apply acct_ret|]. acct_step. intros v _.
  destruct (_ =? _); acct_step; intros [] _; now apply acct_ret.
Qed.

(** One send to a snapshot. *)
Lemma acct_send_one buf len n type payload level args sn :
  carries buf len type payload -> zlen payload <= TUND_MAX_PLAINTEXT -> len <= zlen buf ->
  acct (let* r := net_send buf len (snap_real_addr sn) in
        if r <? 0 then LOG level args else server_add_peer_bytes_out sn n)
    1 [snap_real_addr sn] (fun _ => True).
Proof.
  intros Hc Hm Hl. apply (acct_bind _ _ 1 0 [snap_real_addr sn] [] (fun _ => True)); [lia| |].
  - now apply (acct_net_send _ _ _ type payload).
  - intros r _. destruct (r <? 0); [apply acct_LOG|apply acct_add_bytes_out].
Qed.

(** Where a decision sends a packet. *)
Definition route_dests (route : data_route) : list sockaddr_in :=
  match route with
  | RouteBroadcast l => map snap_real_addr l
  | RouteUnicast sn => [snap_real_addr sn]
  | _ => []
  end.

Context (X : list (option (Z * sockaddr_in)) -> Prop).
Notation J := (served X (fun _ => True)).

Lemma delivers_alloc : delivers J (alloc TUND_MAX_PKT) 0 [] pkt_buf.
Proof.
  intros s m HI Hm HL.
  destruct (delivers_from J _ _ _ _ _ (alloc_pkt J) (acct_alloc TUND_MAX_PKT) s m HI Hm HL)
    as (a & s' & H1 & H2 & [[H3 _] _] & H4). exists a, s'. auto.
Qed.

(** A DATA message that was built can be sent. *)
Definition sendable (pkt : bytes) (r : Z * bytes) : Prop :=
  carries r.2 r.1 MSG_DATA pkt /\ r.1 <= zlen r.2 /\ bytes_ok r.2.

Lemma built_sendable pkt buf r buf1 :
  built MSG_DATA pkt buf r buf1 -> pkt_buf buf -> r = TUND_HDR_SIZE + zlen pkt -> zlen pkt <= TUND_MAX_PLAINTEXT ->
  sendable pkt (r, buf1).
Proof.
  intros HB Hbuf Hr Hm. unfold sendable. cbn [fst snd].
  split; [|split; [now apply (built_length _ _ _ _ _ HB)|apply HB]].
  pose proof (zlen_nonneg pkt).
  destruct HB as (_ & _ & [E|(_ & Hz & sq & nc & rest & _ & Hnc & _ & ->)]); [clia|].
  split; [|split; [|lia]].
  - apply read_hdr_at; [clia|done].
  - rewrite <- (length_hdr MSG_DATA (zlen pkt) sq nc Hnc), drop_app_length.
    replace (Z.to_nat (r - TUND_HDR_SIZE)) with (length pkt) by (rewrite Hr; zl).
    now rewrite take_app_length.
Qed.

Lemma zlen_packet (payload : bytes) plen :
  0 <= plen <= zlen payload -> zlen (take (Z.to_nat plen) payload) = plen.
Proof. intros Hp. unfold zlen in *. rewrite length_take. lia. Qed.

Lemma delivers_build_data buf payload plen :
  pkt_buf buf -> bytes_ok payload -> 0 <= plen <= zlen payload -> plen <= TUND_MAX_PLAINTEXT ->
  delivers J (proto_build_data buf payload plen) 1 [] (sendable (take (Z.to_nat plen) payload)).
Proof.
  intros Hbuf Hb Hp Hm s m HI Hm' HL. assert (Hu : is_u16 plen) by clia.
  destruct (delivers_from J _ _ _ _ _ (safe_build_data J buf payload plen Hbuf Hb Hp Hu)
    (acct_build buf MSG_DATA plen _ Hm) s m HI Hm' HL) as ([r buf1] & s' & H1 & H2 & [HB HR] & H4).
  exists (r, buf1), s'. split; [done|]. split; [done|]. split; [|done].
  apply (built_sendable _ _ _ _ HB Hbuf); now rewrite zlen_packet by done.
Qed.

Lemma delivers_unicast sn payload plen dst_ip :
  bytes_ok payload -> 0 <= plen <= zlen payload -> plen <= TUND_MAX_PLAINTEXT -> snap_ok sn ->
  delivers J (data_forward (RouteUnicast sn) payload plen dst_ip) 2 [snap_real_addr sn] (fun _ => True).
Proof.
  intros Hb Hp Hm (nm & Hnm & _). unfold data_forward.
  apply (delivers_bind J _ _ 0 2 [] _ _ _ ltac:(lia) delivers_alloc). intros buf Hbuf.
  apply (delivers_bind J _ _ 1 1 [] _ _ _ ltac:(lia) (delivers_build_data buf payload plen Hbuf Hb Hp Hm)).
  intros [len buf1] (Hc & Hl & Hb1). cbn [fst snd] in *.
  apply delivers_done.
  - eapply safe_bind.
    { apply safe_net_send; try typeclasses eauto; [done|done|]. apply may_send_any. apply _. }
    intros r _. destruct (r <? 0); [logging|apply safe_add_bytes_out].
  - eapply acct_send_one; [exact Hc|rewrite zlen_packet by done; exact Hm|exact Hl].
Qed.

Lemma delivers_broadcast l payload plen dst_ip :
  bytes_ok payload -> 0 <= plen <= zlen payload -> plen <= TUND_MAX_PLAINTEXT -> Forall snap_ok l ->
  delivers J (data_forward (RouteBroadcast l) payload plen dst_ip) (1 + zlen l) (map snap_real_addr l)
    (fun _ => True).
Proof.
  intros Hb Hp Hm Hok. unfold data_forward. pose proof (zlen_nonneg l).
  apply (delivers_bind J _ _ 0 (1 + zlen l) [] (map snap_real_addr l) _ _ ltac:(lia) delivers_alloc). intros buf Hbuf.
  apply (delivers_bind J _ _ 1 (zlen l) [] (map snap_real_addr l) _ _ ltac:(lia)
    (delivers_build_data buf payload plen Hbuf Hb Hp Hm)).
  intros [len buf1] (Hc & Hl & Hb1). cbn [fst snd] in *.
  rewrite <- (app_nil_r (map _ l)), <- (Z.add_0_r (zlen l)).
  apply (delivers_bind J _ _ (zlen l) 0 _ [] (fun _ => True)); [lia| |].
  - apply delivers_done.
    + apply (safe_send_snapshots X (fun _ => True) l buf1 len plen); auto.
      apply Forall_true. intros. apply may_send_any. apply _.
    + apply acct_for_each. intros sn.
      eapply acct_send_one; [exact Hc|rewrite zlen_packet by done; exact Hm|exact Hl].
  - intros _ _. rewrite mem_read_some by lia. cbn [local bind]. apply delivers_done.
    + eapply safe_bind; [apply safe_tun_write; typeclasses eauto|]. done.
    + eapply acct_then; [lia|apply acct_tun_write|]. intros _ _. now apply acct_ret.
Qed.
End forward.

Lemma others_length R : forall i exclude, (length (others R i exclude) <= length R)%nat.
Proof.
  induction R as [|[x|] R IH]; intros i exclude; cbn [others length]; [done| |].
  - specialize (IH (i + 1) exclude). destruct (_ =? _); cbn [length]; lia.
  - specialize (IH (i + 1) exclude). lia.
Qed.

(** * Properties *)

(** A valid packet goes through the lookup under the lock to the forwarding of
    the decision taken there. *)
Lemma handle_valid_data `{M : Monocypher} {ML : MonocypherLaws M} s payload plen from k l :
  ready s -> entropy_ok (w_env (srv_world s)) -> 0 <= k ->
  zlen (issued (w_trace (srv_world s))) + k < 2 ^ 62 ->
  bytes_ok payload -> 0 <= plen <= zlen payload -> lan_packet payload plen ->
  (forall route, data_outcome (srv s) from (htonl (ip_src payload)) (htonl (ip_dst payload)) route ->
     delivers (served (fun _ => True) (fun _ => True)) (data_forward route payload plen (htonl (ip_dst payload)))
       k l (fun _ => True)) ->
  exists s', run (server_handle_data payload plen from) s = Some (tt, s') /\
    dests (w_trace (srv_world s')) = rev l ++ dests (w_trace (srv_world s)).
Proof.
  intros Hs He Hk0 Hk Hb Hp Hlan Hdel. pose proof (lan_min _ _ Hlan). unfold server_handle_data.
  rewrite validate_verdict by (done || lia). cbn [local bind].
  rewrite (proj2 (verdict_ok payload plen) Hlan). cbn [negb TUND_IPV4_OK Z.eqb].
  destruct (get_src_spec payload plen) as (src & -> & Hsrc); [lia|].
  destruct (get_dst_spec payload plen) as (dst & -> & Hdst); [lia|]. cbn [local bind].
  rewrite le_field_htonl in Hsrc, Hdst by (done || zl). subst src dst.
  fold (ip_src payload) (ip_dst payload).
  assert (HI : inv (served (fun _ => True) (fun _ => True)) s) by (destruct Hs as [Hw Hv]; split; [done|now split]).
  destruct (data_section (fun _ => True) (fun _ => True) s (htonl (ip_src payload)) (htonl (ip_dst payload)) plen from HI)
    as (route & s1 & Hr & v' & Hin & Hv' & _ & HO).
  destruct (inside_end _ s (fun _ => True) v' s1 Hin Hv' I) as [HI1 _].
  pose proof (live_start k _ (proj1 Hs) He Hk0 Hk) as HL. rewrite <- (Z.add_0_l k) in HL.
  destruct (acct_data_locked _ _ _ _ s route s1 k Hk0 HL Hr) as (_ & HL1 & HD1).
  rewrite <- (Z.add_0_r k) in HL1.
  destruct (Hdel route HO s1 0 HI1 ltac:(lia) HL1) as ([] & s' & Hr' & _ & _ & _ & HD).
  exists s'. rewrite run_bind. unfold locked. cbn [atomic run]. rewrite Hr. split; [exact Hr'|].
  cbn in HD, HD1. now rewrite HD, HD1.
Qed.

Lemma client_not_special h ip :
  client_vip ip -> ip = htonl h -> is_u32 h -> h <= TUND_SERVER_IP \/ TUND_BROADCAST <= h -> False.
Proof.
  intros (h' & Hh' & ->) E Hu Hor. apply htonl_inj in E; [|clia|done]. subst h'.
  rewrite broadcast_value in Hor. unfold TUND_SUBNET, TUND_SERVER_IP in *. clia.
Qed.

(** A packet between two registered peers is routed to its destination. *)
Lemma unicast_route v from i p j x payload route :
  srv_ok v -> registered v from i p -> virt_ip p = htonl (ip_src payload) ->
  routing v !! j = Some (Some x) -> x.1 = htonl (ip_dst payload) ->
  data_outcome v from (htonl (ip_src payload)) (htonl (ip_dst payload)) route ->
  exists sn, route = RouteUnicast sn /\ snap_ok sn /\ snap_of x sn.
Proof.
  intros Hv Hreg Hsrc Hj Hx HO. pose proof (ok_range _ (ok_routes _ Hv)) as Hrange.
  rewrite Forall_forall in Hrange. specialize (Hrange x ltac:(apply used_in; eauto)).
  destruct HO as [Hun|i' p' Hr' Hne|i' p' Hr' _ Hd|i' p' l Hr' _ Hd|i' p' Hr' _ _ _ Hno|i' p' j' x' sn Hr' _ Hj' Hx' Hsn Hof].
  - now apply registered_known in Hreg.
  - destruct (registered_unique _ _ _ _ _ _ Hv Hreg Hr') as [_ <-]. congruence.
  - exfalso. rewrite Hd in Hx. eapply (client_not_special TUND_SERVER_IP); [exact Hrange|done|by vm_compute|by left].
  - exfalso. rewrite Hd in Hx. eapply (client_not_special TUND_BROADCAST); [exact Hrange|done|by vm_compute|by right].
  - exfalso. now apply (Hno j x).
  - assert (j = j') as <- by (apply (ok_vips _ (ok_routes _ Hv) j j' x x'); auto; congruence).
    assert (x' = x) as -> by congruence. eauto.
Qed.

(** With a working entropy source, a valid packet from a registered peer,
    sent from its own address to the address of a registered peer, is sent
    exactly once, to that peer's endpoint. *)
Theorem server_delivers_unicast `{M : Monocypher} {ML : MonocypherLaws M}
    (s : srv_state) (payload : bytes) (plen : Z) (from : sockaddr_in) (i j : nat) (p : peer_t)
    (x : Z * sockaddr_in)
    (Hs : ready s) (He : entropy_ok (w_env (srv_world s)))
    (Hi : zlen (issued (w_trace (srv_world s))) + 2 < 2 ^ 62)
    (Hb : bytes_ok payload) (Hp : 0 <= plen <= zlen payload) (Hm : plen <= TUND_MAX_PLAINTEXT)
    (Hlan : lan_packet payload plen) (Hreg : registered (srv s) from i p)
    (Hsrc : virt_ip p = htonl (ip_src payload))
    (Hj : routing (srv s) !! j = Some (Some x)) (Hx : x.1 = htonl (ip_dst payload)) :
  exists s', run (server_handle_data payload plen from) s = Some (tt, s') /\
    dests (w_trace (srv_world s')) = x.2 :: dests (w_trace (srv_world s)).
Proof.
  apply (handle_valid_data s payload plen from 2 [x.2]); auto; [lia|]. intros route HO.
  destruct (unicast_route (srv s) from i p j x payload route (proj2 Hs) Hreg Hsrc Hj Hx HO) as (sn & -> & Hsn & Hof).
  destruct Hof as [_ <-]. now apply delivers_unicast.
Qed.

Example server_delivers_unicast_witness :
  exists s', run (server_handle_data (M := SampleCipher.sample) sample_packet 20 alice_addr) sample_state =
      Some (tt, s') /\
    dests (w_trace (srv_world s')) = [bob_addr].
Proof.
  apply (server_delivers_unicast (M := SampleCipher.sample) sample_state sample_packet 20 alice_addr 0 1 alice
    (virt_ip bob, bob_addr));
    [exact sample_ready|exact sample_entropy_ok|reflexivity|repeat constructor; words; lia
    |vm_compute; split; discriminate|vm_compute; discriminate
    |split; vm_compute; (reflexivity || (split; congruence) || congruence)
    |repeat split|reflexivity|reflexivity|reflexivity].
Defined.

(** With a working entropy source, a valid broadcast packet from a
    registered peer is sent exactly once to every other registered peer, in
    table order, and never back to its sender. *)
Theorem server_delivers_broadcast `{M : Monocypher} {ML : MonocypherLaws M}
    (s : srv_state) (payload : bytes) (plen : Z) (from : sockaddr_in) (i : nat) (p : peer_t)
    (Hs : ready s) (He : entropy_ok (w_env (srv_world s)))
    (Hi : zlen (issued (w_trace (srv_world s))) + 254 < 2 ^ 62)
    (Hb : bytes_ok payload) (Hp : 0 <= plen <= zlen payload) (Hm : plen <= TUND_MAX_PLAINTEXT)
    (Hlan : lan_packet payload plen) (Hreg : registered (srv s) from i p)
    (Hsrc : virt_ip p = htonl (ip_src payload)) (Hd : ip_dst payload = TUND_BROADCAST) :
  exists s', run (server_handle_data payload plen from) s = Some (tt, s') /\
    dests (w_trace (srv_world s')) =
    rev (map snd (others (routing (srv s)) 0 (Z.of_nat i))) ++ dests (w_trace (srv_world s)).
Proof.
  apply (handle_valid_data s payload plen from 254); auto; [lia|]. intros route HO.
  pose proof (proj2 Hs) as Hv. rewrite Hd in HO.
  destruct HO as [Hun|i' p' Hr' Hne|i' p' Hr' _ Hd'|i' p' l Hr' _ _ Hl Hof|i' p' Hr' _ _ Hnb _|i' p' j' x' sn Hr' _ Hj' Hx'].
  - now apply registered_known in Hreg.
  - destruct (registered_unique _ _ _ _ _ _ Hv Hreg Hr') as [_ <-]. congruence.
  - vm_compute in Hd'. discriminate.
  - destruct (registered_unique _ _ _ _ _ _ Hv Hreg Hr') as [<- _].
    assert (Hmap : map snd (others (routing (srv s)) 0 (Z.of_nat i)) = map snap_real_addr l).
    { clear -Hof. induction Hof as [|x sn ? ? [_ H] _ IH]; cbn; congruence. }
    rewrite Hmap. eapply delivers_more; [now apply delivers_broadcast|].
    pose proof (others_length (routing (srv s)) 0 (Z.of_nat i)) as Hlen.
    rewrite (ok_slots _ (ok_routes _ Hv)) in Hlen. pose proof (Forall2_length Hof). zl.
  - done.
  - exfalso. pose proof (ok_range _ (ok_routes _ Hv)) as Hrange. rewrite Forall_forall in Hrange.
    specialize (Hrange x' ltac:(apply used_in; eauto)).
    eapply (client_not_special TUND_BROADCAST); [exact Hrange|done|by vm_compute|by right].
Qed.

(** A packet from 10.9.0.2 to 10.9.0.255. *)
Definition broadcast_packet : bytes :=
  [0x45; 0; 0; 20; 0; 0; 0; 0; 64; 253; 0; 0; 10; 9; 0; 2; 10; 9; 0; 255].

Example server_delivers_broadcast_witness :
  exists s', run (server_handle_data (M := SampleCipher.sample) broadcast_packet 20 alice_addr) sample_state =
      Some (tt, s') /\
    dests (w_trace (srv_world s')) =
    rev (map snd (others (routing sample_server) 0 0)) ++ [].
Proof.
  apply (server_delivers_broadcast (M := SampleCipher.sample) sample_state broadcast_packet 20 alice_addr 0 alice);
    [exact sample_ready|exact sample_entropy_ok|reflexivity|repeat constructor; words; lia
    |vm_compute; split; discriminate|vm_compute; discriminate
    |split; vm_compute; (reflexivity || (split; congruence) || congruence)
    |repeat split|reflexivity|reflexivity].
Defined.
