(* ===== verification/ServerThreads.v ===== *)
(** The server's threads ([threads.c], [server.c] of [core/server]): the loop
    bodies of the main thread, the timeout thread and the TUN thread, start-up
    and shutdown, and the execution of the three threads with their actions
    interleaved in any order. *)
From stdpp Require Import base list numbers option.
From S2P Require Import Prelude Prog World Consts Sequence Wire Ipv4 Crypto Events Replay Peer Net Messages Boot ServerPeers Server ServerSpec.

(** * The timeout thread *)

(** [now - last_seen > TUND_PEER_TIMEOUT] for an active peer, on [time_t]. *)
Definition peer_expired (now : Z) (p : peer_t) : option bool :=
  if active p then
    let? idle := i64_sub now (last_seen p) in Some (TUND_PEER_TIMEOUT <? idle)
  else Some false.

(** The loop over the slots: the new table, the change of [peer_count] and the
    two arrays of snapshots. *)
Fixpoint timeout_loop (l : list peer_t) (i now : Z) (timed_out keepalive : list server_peer_snapshot_t) :
    option (list peer_t * Z * list server_peer_snapshot_t * list server_peer_snapshot_t) :=
  match l with
  | [] => Some ([], 0, timed_out, keepalive)
  | p :: l =>
      let? expired := peer_expired now p in
      if (expired : bool) then
        let? sn := server_snapshot_peer_locked p i in
        let? timed_out := push timed_out sn in
        let? '(l, d, timed_out, keepalive) := timeout_loop l (i + 1) now timed_out keepalive in
        Some (set_active false p :: l, d - 1, timed_out, keepalive)
      else if active p then
        let? sn := server_snapshot_peer_locked p i in
        let? keepalive := push keepalive sn in
        let? '(l, d, timed_out, keepalive) := timeout_loop l (i + 1) now timed_out keepalive in
        Some (p :: l, d, timed_out, keepalive)
      else
        let? '(l, d, timed_out, keepalive) := timeout_loop l (i + 1) now timed_out keepalive in
        Some (p :: l, d, timed_out, keepalive)
  end.

(** The whole table stored at once, with [peer_count += d]. *)
Definition put_table (l : list peer_t) (d : Z) : prog srv_state unit :=
  atomic (fun s => Some (tt, SrvState (srv_world s) (set_peers l (peer_count (srv s) + d) (srv s)))).

Definition timeout_locked (now : Z) :
    prog srv_state (list server_peer_snapshot_t * list server_peer_snapshot_t * list server_peer_snapshot_t) :=
  let* l := gets peers in
  let* '(l, d, timed_out, keepalive) := local (timeout_loop l 0 now [] []) in
  put_table l d ;;
  let* v := gets (fun v => v) in
  let* leave := if 0 <? zlen timed_out
                then local (server_snapshot_broadcast_locked v TUND_MAX_PEERS (-1)) else Ret [] in
  Ret (timed_out, leave, keepalive).

Section threads.
Context `{M : Monocypher}.

(** Work of one tick of the timeout thread. *)
Definition timeout_tick : prog srv_state unit :=
  let* now := on_world' time_null in
  let* keepalive_buf := alloc TUND_MAX_PKT in
  let* ms := on_world' now_ms in
  let* '(keepalive_len, keepalive_buf) := proto_build_keepalive keepalive_buf ms in
  let* '(timed_out, leave, keepalive) := locked (timeout_locked now) in
  for_each timed_out (fun sn =>
    LOG LOG_LEVEL_WARN [snap_name sn; ip_to_str_buf (snap_virt_ip sn)] ;;
    app_event_peer_leave (snap_virt_ip sn) (str "timeout") ;;
    let* buf := alloc TUND_MAX_PKT in
    let* '(len, buf) := proto_build_peer_leave buf (snap_virt_ip sn) in
    server_send_peer_snapshots leave buf len 0) ;;
  for_each keepalive (fun sn =>
    let* r := net_send keepalive_buf keepalive_len (snap_real_addr sn) in
    if r <? 0 then LOG LOG_LEVEL_WARN [snap_name sn] else Ret tt).

(** One iteration of [server_timeout_thread]; the loop variable is [slept]. *)
Definition server_timeout_thread (slept : Z) : prog srv_state ctl :=
  let* running := tund_is_running in
  let* quit := if running then gets timeout_quit else Ret true in
  if negb running || quit then Ret Break
  else
    let slept := u32 (slept + 1) in
    if slept <? TUND_KEEPALIVE_INTERVAL then Ret (Continue slept)
    else
      let* running := tund_is_running in
      let* quit := if running then gets timeout_quit else Ret true in
      if negb running || quit then Ret Break
      else timeout_tick ;; Ret (Continue 0).

(** * The TUN thread *)

(** A packet of [n] bytes read from the TUN device. *)
Definition tun_forward (pkt_buf : bytes) (n : Z) : prog srv_state unit :=
  let* msg_buf := alloc TUND_MAX_PKT in
  let* validation := local (proto_validate_ipv4_packet pkt_buf (u16 n)) in
  if negb (validation =? TUND_IPV4_OK) then
    LOG LOG_LEVEL_DEBUG [proto_ipv4_validation_error validation ++ [0]]
  else
    let* dst_ip := local (proto_get_dst_ip pkt_buf (u16 n)) in
    let* '(msg_len, msg_buf) := proto_build_data msg_buf pkt_buf (u16 n) in
    let* '(l, dst) := locked (
      let* v := gets (fun v => v) in
      if dst_ip =? htonl TUND_BROADCAST then
        let* l := local (server_snapshot_broadcast_locked v TUND_MAX_PEERS (-1)) in
        Ret (Some l, None)
      else
        let* sn := local (server_snapshot_peer_by_vip_locked v dst_ip) in
        Ret (None, sn)) in
    match l, dst with
    | Some l, _ => server_send_peer_snapshots l msg_buf msg_len n
    | None, Some sn =>
        let* r := net_send msg_buf msg_len (snap_real_addr sn) in
        if r <? 0 then LOG LOG_LEVEL_WARN [snap_name sn]
        else server_add_peer_bytes_out sn n
    | None, None => Ret tt
    end.

(** One iteration of [server_tun_thread]. *)
Definition server_tun_thread (l : Z) : prog srv_state ctl :=
  let* running := tund_is_running in
  let* quit := if running then gets tun_quit else Ret true in
  if negb running || quit then Ret Break
  else
    let* pkt_buf := alloc TUND_MAX_PLAINTEXT in
    let* r := tun_read (gets (fun v => tun_fd (tun v))) TUND_MAX_PLAINTEXT in
    match r with
    | ReadData ((_ :: _) as data) =>
        let* pkt_buf := local (mem_write pkt_buf 0 data) in
        tun_forward pkt_buf (zlen data) ;; Ret (Continue l)
    | _ =>
        let* running := tund_is_running in
        let* quit := if running then gets tun_quit else Ret true in
        if negb running || quit then Ret Break else Ret (Continue l)
    end.

(** * The main thread *)

(** One iteration of the loop of [server_run]. *)
Definition server_run (npeers : Z) : prog srv_state ctl :=
  let* running := tund_is_running in
  if negb running then Ret Break
  else
    let tui_peers := replicate (Z.to_nat TUND_MAX_PEERS) (tui_of_peer zero_peer) in
    let* '(ret, _, npeers) := net_poll_peers (fun s => peers (srv s)) tui_peers (npeers_of npeers) in
    if ret <? 0 then Ret Break
    else if ret =? 0 then
      let* tui := read_world g_tui_active in
      (if (tui : bool) then render npeers else Ret tt) ;;
      Ret (Continue (npeers_to npeers))
    else
      let* buf := alloc TUND_MAX_PKT in
      let* '(n, buf, from) := net_recv buf TUND_MAX_PKT zero_addr in
      (if 0 <? n then server_handle_packet buf n from else Ret tt) ;;
      Ret (Continue (npeers_to npeers)).

(** * Shutdown *)

Definition set_timeout_quit (v : server_t) : server_t :=
  Server (sockfd v) (tun v) (peers v) (peer_count v) (port v) (timeout_started v)
         (tun_started v) true (tun_quit v).

Definition set_tun_quit (v : server_t) : server_t :=
  Server (sockfd v) (tun v) (peers v) (peer_count v) (port v) (timeout_started v)
         (tun_started v) (timeout_quit v) true.

Definition set_sockfd (fd : Z) (v : server_t) : server_t :=
  Server fd (tun v) (peers v) (peer_count v) (port v) (timeout_started v)
         (tun_started v) (timeout_quit v) (tun_quit v).

Definition set_tun (dev : tun_device_t) (v : server_t) : server_t :=
  Server (sockfd v) dev (peers v) (peer_count v) (port v) (timeout_started v)
         (tun_started v) (timeout_quit v) (tun_quit v).

Definition store (f : server_t -> server_t) : prog srv_state unit :=
  atomic (fun s => Some (tt, SrvState (srv_world s) (f (srv s)))).

(** The first part of [server_shutdown]: the threads are told to stop and the
    peers that the server leaves. *)
Definition shutdown_notify : prog srv_state unit :=
  LOG LOG_LEVEL_INFO [] ;;
  store set_timeout_quit ;;
  store set_tun_quit ;;
  let* l := locked (
    let* v := gets (fun v => v) in
    local (server_snapshot_broadcast_locked v TUND_MAX_PEERS (-1))) in
  let* buf := alloc TUND_MAX_PKT in
  let* '(len, buf) := proto_build_disconnect buf in
  server_send_peer_snapshots l buf len 0.

(** The second part: the device is closed, the threads are joined, the socket
    is closed. *)
Definition shutdown_release : prog srv_state unit :=
  let* dev := gets tun in
  let* dev := tun_close dev in
  store (set_tun dev) ;;
  let* b := gets timeout_started in
  join_if b 1 ;;
  let* b := gets tun_started in
  join_if b 2 ;;
  tui_screen false ;;
  let* fd := gets sockfd in
  (if sock_valid fd then sys_close fd ;; store (set_sockfd (-1)) else Ret tt) ;;
  LOG LOG_LEVEL_INFO [].

Definition server_shutdown : prog srv_state unit := shutdown_notify ;; shutdown_release.
End threads.

(** * Timeouts *)

Definition expired (now : Z) (p : peer_t) : bool := active p && (TUND_PEER_TIMEOUT <? now - last_seen p).
Definition expire (now : Z) (p : peer_t) : peer_t := if expired now p then set_active false p else p.

(** Snapshots of these peers, in order. *)
Definition snaps_of (l : list peer_t) (sns : list server_peer_snapshot_t) : Prop :=
  Forall snap_ok sns /\ Forall2 (fun p sn => snap_of (virt_ip p, real_addr p) sn) l sns.

Lemma snaps_of_cons p sn l sns :
  snap_ok sn -> snap_of (virt_ip p, real_addr p) sn -> snaps_of l sns -> snaps_of (p :: l) (sn :: sns).
Proof. intros H1 H2 [H3 H4]. split; constructor; auto. Qed.

Lemma peer_expired_spec now p :
  0 <= now < 2 ^ 62 -> peer_ok p -> peer_expired now p = Some (expired now p).
Proof.
  intros Hn Hp. unfold peer_expired, expired. destruct (active p); [|done]. cbn [andb].
  pose proof (ok_last_seen _ Hp). unfold i64_sub. tests; try done; lia.
Qed.

Lemma timeout_loop_spec l : forall i now ts ks,
  0 <= now < 2 ^ 62 -> Forall peer_ok l ->
  zlen ts + zlen l <= TUND_MAX_PEERS -> zlen ks + zlen l <= TUND_MAX_PEERS ->
  exists ts' ks',
    timeout_loop l i now ts ks =
      Some (map (expire now) l, - zlen (List.filter (expired now) l), ts ++ ts', ks ++ ks') /\
    snaps_of (List.filter (expired now) l) ts' /\
    snaps_of (List.filter active (map (expire now) l)) ks'.
Proof.
  induction l as [|p l IH]; intros i now ts ks Hn HF Ht Hk; cbn [timeout_loop map List.filter].
  - exists [], []. rewrite !app_nil_r. repeat split; constructor.
  - apply Forall_cons_iff in HF as [Hp HF]. rewrite zlen_cons in *. pose proof (zlen_nonneg l).
    rewrite peer_expired_spec by done.
    assert (Hx : expire now p = if expired now p then set_active false p else p) by done. rewrite Hx. clear Hx.
    destruct (snapshot_peer p i Hp) as (sn & Hsn & Hok & Hof & _).
    destruct (expired now p) eqn:E; cbn iota.
    + cbn [active set_active]. rewrite Hsn. unfold push. destruct (Z.ltb_spec (zlen ts) TUND_MAX_PEERS); [|lia].
      destruct (IH (i + 1) now (ts ++ [sn]) ks Hn HF) as (ts' & ks' & -> & Hts & Hks);
        [rewrite zlen_app, zlen_cons, zlen_nil; lia|lia|].
      exists (sn :: ts'), ks'. rewrite <- app_assoc, zlen_cons, Z.opp_add_distr, Z.add_comm. split; [done|].
      split; [now apply snaps_of_cons|done].
    + destruct (active p) eqn:Ea.
      * rewrite Hsn. unfold push. destruct (Z.ltb_spec (zlen ks) TUND_MAX_PEERS); [|lia].
        destruct (IH (i + 1) now ts (ks ++ [sn]) Hn HF) as (ts' & ks' & -> & Hts & Hks);
          [lia|rewrite zlen_app, zlen_cons, zlen_nil; lia|].
        exists ts', (sn :: ks'). rewrite <- app_assoc. split; [done|]. split; [done|now apply snaps_of_cons].
      * destruct (IH (i + 1) now ts ks Hn HF) as (ts' & ks' & -> & Hts & Hks); [lia|lia|].
        exists ts', ks'. auto.
Qed.

(** Freeing slots keeps a routing table well formed. *)
Lemma routes_sub R R' :
  routes_ok R -> length R' = length R ->
  (forall i x, R' !! i = Some (Some x) -> R !! i = Some (Some x)) -> routes_ok R'.
Proof.
  intros [H1 H2 H3 H4] Hl Hsub. split.
  - congruence.
  - intros i j x y Hi Hj E. apply (H2 i j x y); auto.
  - intros i j x y Hi Hj E. apply (H3 i j x y); auto.
  - apply Forall_forall. intros x Hx. rewrite Forall_forall in H4. apply H4.
    apply used_in in Hx as [i Hi]. apply used_in. eauto.
Qed.

Lemma expire_routing now l i x :
  map route (map (expire now) l) !! i = Some (Some x) ->
  map route l !! i = Some (Some x) /\ exists p, l !! i = Some p /\ expired now p = false.
Proof.
  rewrite map_map, !list_lookup_fmap. destruct (l !! i) as [p|]; [|done]. cbn. intros H.
  unfold expire in H. destruct (expired now p) eqn:E; [done|]. eauto.
Qed.

Lemma used_expire now l :
  zlen (used (map route (map (expire now) l))) =
  zlen (used (map route l)) - zlen (List.filter (expired now) l).
Proof.
  assert (Hcons : forall r R, zlen (used (r :: R)) = Z.of_nat (weight r) + zlen (used R)).
  { intros [x|] R; unfold used, zlen; cbn; lia. }
  induction l as [|p l IH]; [done|]. cbn [map List.filter]. rewrite !Hcons, IH.
  assert (Hw : Z.of_nat (weight (route (expire now p))) =
    Z.of_nat (weight (route p)) - if expired now p then 1 else 0).
  { unfold expire, route, expired. destruct (active p) eqn:Ea; cbn [andb]; [|now rewrite Ea].
    destruct (_ <? _); cbn; [done|now rewrite Ea]. }
  rewrite Hw. destruct (expired now p); rewrite ?zlen_cons; lia.
Qed.

Lemma timeout_table v now :
  srv_ok v ->
  let v' := set_peers (map (expire now) (peers v)) (peer_count v + - zlen (List.filter (expired now) (peers v))) v in
  srv_ok v'.
Proof.
  intros Hv v'. split.
  - cbn. apply Forall_map. eapply Forall_impl; [|apply Hv]. intros p Hp. unfold expire.
    destruct (expired now p); auto with tund.
  - unfold v', routing. cbn [peer_count set_peers peers]. rewrite used_expire.
    pose proof (ok_count _ Hv) as H. unfold routing in H. lia.
  - apply (routes_sub (routing v)); [apply Hv|unfold routing; cbn; now rewrite !length_map|].
    intros i x Hx. now apply expire_routing in Hx as [Hx _].
  - apply Hv.
Qed.

Section timeout.
Context (X : list (option (Z * sockaddr_in)) -> Prop) (W : world -> Prop) {HQ : Quiet W}.
Notation J := (served X W).

(** The section drops exactly the expired peers; it returns them, the peers to
    notify of their departure and the peers to probe. *)
Definition timeout_outcome (now : Z) (v v' : server_t)
    (res : list server_peer_snapshot_t * list server_peer_snapshot_t * list server_peer_snapshot_t) : Prop :=
  let '(ts, ls, ks) := res in
  peers v' = map (expire now) (peers v) /\
  snaps_of (List.filter (expired now) (peers v)) ts /\
  Forall snap_ok ls /\ ((ts = [] /\ ls = []) \/ Forall2 snap_of (others (routing v') 0 (-1)) ls) /\
  snaps_of (List.filter active (peers v')) ks.

Lemma timeout_section s now :
  inv J s -> 0 <= now < 2 ^ 62 ->
  wp (timeout_locked now) (fun res s' => exists v', inside W s v' s' /\ srv_ok v' /\
       timeout_outcome now (srv s) v' res) s.
Proof.
  intros Hs Hn. destruct (proj2 Hs) as (Hv & _). pose proof (inside_start W s X Hs) as H0.
  unfold timeout_locked. apply wp_bind, (wp_gets W s _ (srv s)); [done|].
  destruct (timeout_loop_spec (peers (srv s)) 0 now [] [] Hn (ok_peers _ Hv)) as (ts & ks & -> & Hts & Hks);
    [rewrite (zlen_peers _ Hv), zlen_nil; unfold TUND_MAX_PEERS; lia..|].
  cbn [local bind app]. pose proof (timeout_table (srv s) now Hv) as Hv'. set (v' := set_peers _ _ _) in *.
  apply wp_bind. eexists tt, _. split; [reflexivity|].
  set (s1 := SrvState _ _). assert (H1 : inside W s v' s1).
  { destruct H0 as [[Hw [_ HW]] Hr]. split; [now split|done]. }
  apply wp_bind, (wp_gets W s _ v'); [done|].
  destruct (Z.ltb_spec 0 (zlen ts)).
  - destruct (snapshot_broadcast v' (-1) Hv') as (ls & -> & Hls & Hof). cbn [local bind].
    apply wp_ret. exists v'. do 2 (split; [done|]). split; [done|]. split; [done|].
    split; [done|]. split; [by right|done].
  - cbn [bind]. apply wp_ret. exists v'. do 2 (split; [done|]). split; [done|]. split; [done|].
    split; [constructor|]. split; [left|done]. destruct ts; [done|]. rewrite zlen_cons in *.
    pose proof (zlen_nonneg ts). lia.
Qed.
End timeout.

(** * Every thread is safe against the others *)

Section safe.
Context `{M : Monocypher} {ML : MonocypherLaws M}.
Variable b : env * bool.    (** the operating system, and whether the terminal UI is on *)
Notation W := (fun w => mode w = b).
Notation J := (served (fun _ => True) W).

Lemma safe_flag {B} (f : server_t -> B) : safe J (gets f) (fun _ => True).
Proof. now apply safe_gets. Qed.

(** The test at the head of the two helper loops. *)
Lemma safe_head {A} (f : server_t -> bool) (q : prog srv_state A) (c : A) (Q : A -> Prop) :
  Q c -> safe J q Q ->
  safe J (let* running := tund_is_running in
          let* quit := if running then gets f else Ret true in
          if negb running || quit then Ret c else q) Q.
Proof.
  intros Hc Hq. eapply safe_bind; [apply safe_running; typeclasses eauto|]. intros running _.
  eapply (safe_bind _ _ _ (fun _ => True)); [destruct running; [apply safe_flag|done]|].
  intros quit _. now destruct (negb running || quit).
Qed.

Lemma safe_timeout_tick : safe J timeout_tick (fun _ => True).
Proof.
  unfold timeout_tick.
  eapply safe_bind; [apply safe_time; typeclasses eauto|]. intros now Hnow.
  eapply safe_bind; [apply alloc_pkt; typeclasses eauto|]. intros kbuf [Hk _].
  eapply safe_bind; [apply safe_now_ms; typeclasses eauto|]. intros ms _.
  eapply safe_bind.
  { apply safe_build_timestamp; [typeclasses eauto|done|words; unfold MSG_KEEPALIVE; lia]. }
  intros [klen kbuf'] Hkb.
  eapply (safe_bind _ _ _ (fun '(ts, ls, ks) => Forall snap_ok ts /\ Forall snap_ok ls /\ Forall snap_ok ks)).
  { eapply safe_from_section; [intros s Hs; now apply (timeout_section (fun _ => True))|].
    intros s v' [[ts ls] ks] _ (_ & [Hts _] & Hls & _ & [Hks _]). auto. }
  intros [[ts ls] ks] (Hts & Hls & Hks).
  eapply (safe_bind _ _ _ (fun _ => True)).
  - eapply safe_for_each; [exact Hts|]. intros sn (nm & Hnm & _).
    eapply safe_bind; [logging|]. intros _ _.
    eapply safe_bind; [apply safe_event_leave; typeclasses eauto|]. intros _ _.
    eapply safe_bind; [apply alloc_pkt; typeclasses eauto|]. intros buf [Hbuf _].
    eapply safe_bind; [apply safe_build_peer_leave; [typeclasses eauto|done]|]. intros [len buf1] Hb1.
    apply safe_send_snapshots; [typeclasses eauto|apply (built_pkt _ _ _ _ _ Hb1 Hbuf)
      |now apply (built_length _ _ _ _ _ Hb1)|done|].
    apply Forall_true. intros. apply may_send_any. apply _.
  - intros _ _. eapply safe_for_each; [exact Hks|]. intros sn (nm & Hnm & _).
    eapply safe_bind.
    { apply (safe_send_built _ _ _ _ _ _ _ _ Hkb); [done|words; unfold MSG_KEEPALIVE; lia|].
      apply grants_any. apply _. }
    intros r _. destruct (r <? 0); [logging|done].
Qed.

Lemma safe_timeout_thread slept : safe J (server_timeout_thread slept) (fun _ => True).
Proof.
  unfold server_timeout_thread. apply safe_head; [done|].
  destruct (_ <? _); [done|]. apply safe_head; [done|].
  eapply safe_bind; [apply safe_timeout_tick|]. done.
Qed.

(** Who a packet from the TUN device goes to. *)
Lemma tun_section dst_ip :
  safe J (locked (
      let* v := gets (fun v => v) in
      if dst_ip =? htonl TUND_BROADCAST then
        let* l := local (server_snapshot_broadcast_locked v TUND_MAX_PEERS (-1)) in
        Ret (Some l, None)
      else
        let* sn := local (server_snapshot_peer_by_vip_locked v dst_ip) in
        Ret (None, sn)))
    (fun '(l, sn) => (forall l', l = Some l' -> Forall snap_ok l') /\ (forall sn', sn = Some sn' -> snap_ok sn')).
Proof.
  apply safe_locked. eapply (safe_bind _ _ _ srv_ok); [apply safe_gets; now intros s [_ [Hv _]]|].
  intros v Hv. destruct (_ =? _).
  - destruct (snapshot_broadcast v (-1) Hv) as (l & -> & Hl & _). split; [now intros ? [= <-]|done].
  - destruct (snapshot_by_vip v dst_ip Hv) as [[-> _]|(sn & i & x & -> & Hsn & _)];
      (split; [done|]); [done|now intros ? [= <-]].
Qed.

Lemma safe_tun_forward pkt n :
  bytes_ok pkt -> 0 <= n <= zlen pkt -> n <= TUND_MAX_PLAINTEXT ->
  safe J (tun_forward pkt n) (fun _ => True).
Proof.
  intros Hb Hn Hm. unfold tun_forward.
  assert (Hu : u16 n = n) by (words; apply Z.mod_small; clia). rewrite Hu.
  eapply safe_bind; [apply alloc_pkt; typeclasses eauto|]. intros buf [Hbuf _].
  rewrite validate_verdict by (done || lia). cbn [local bind].
  destruct (Z.eqb_spec (ipv4_verdict pkt n) TUND_IPV4_OK) as [Hok|]; cbn [negb]; [|logging].
  apply verdict_ok in Hok. pose proof (lan_min _ _ Hok).
  destruct (get_dst_spec pkt n) as (dst & -> & _); [lia|]. cbn [local bind].
  eapply safe_bind; [apply safe_build_data; [typeclasses eauto|done|done|done|clia]|]. intros [len buf1] Hb1.
  eapply safe_bind; [apply tun_section|]. intros [[l|] [sn|]] [Hl Hsn]; try done.
  1,2: apply safe_send_snapshots; [typeclasses eauto|apply (built_pkt _ _ _ _ _ Hb1 Hbuf)
      |now apply (built_length _ _ _ _ _ Hb1)|now apply Hl|];
    apply Forall_true; intros; apply may_send_any; apply _.
  destruct (Hsn sn eq_refl) as (nm & Hnm & _).
  eapply safe_bind.
  { apply (safe_send_built _ _ _ _ _ _ _ _ Hb1); [done|words; unfold MSG_DATA; lia|].
    apply grants_any. apply _. }
  intros r _. destruct (r <? 0); [logging|apply safe_add_bytes_out].
Qed.

Lemma safe_tun_thread l : safe J (server_tun_thread l) (fun _ => True).
Proof.
  unfold server_tun_thread. apply safe_head; [done|].
  eapply safe_bind; [apply safe_alloc; [typeclasses eauto|consts; lia]|]. intros pkt [Hl Hb].
  eapply safe_bind; [apply safe_device_read; [typeclasses eauto|apply safe_flag|consts; lia]|].
  intros [[|x d]| |] Hr; try (apply safe_head; done).
  destruct Hr as [Hd Hdb]. pose proof (zlen_nonneg (x :: d)).
  rewrite mem_write_some by lia. cbn [local bind].
  eapply safe_bind; [|done]. apply safe_tun_forward.
  - rewrite !bytes_ok_app. auto using bytes_ok_take, bytes_ok_drop.
  - rewrite !zlen_app. pose proof (zlen_nonneg (drop (Z.to_nat 0 + length (x :: d)) pkt)).
    pose proof (zlen_nonneg (take (Z.to_nat 0) pkt)). lia.
  - done.
Qed.

Lemma safe_server_run npeers :
  main_ok b npeers ->
  safe J (server_run npeers) (fun c => match c with Continue l => main_ok b l | Break => True end).
Proof.
  intros Hn. unfold server_run.
  eapply safe_bind; [apply safe_running; typeclasses eauto|]. intros [] _; cbn [negb]; [|done].
  eapply safe_bind.
  { apply safe_net_poll with (e := b.1); [typeclasses eauto|]. intros s [_ (Hv & _ & Hm)]. rewrite length_replicate.
    pose proof (zlen_peers _ Hv). split; [unfold TUND_MAX_PEERS; zl|exact (f_equal fst Hm)]. }
  intros [[ret tui] np] (_ & Hnp & Hcalm).
  destruct (main_ok_poll b npeers ret np Hn Hnp Hcalm) as [Hok Hset]. destruct (ret <? 0); [done|]. destruct (Z.eqb_spec ret 0) as [Er|Er].
  - eapply (safe_bind _ _ _ (fun t => t = b.2)).
    { apply guar_atomic. intros s Hs. exists (g_tui_active (srv_world s)), s. cbn.
      split; [now destruct s|]. split; [done|]. split; [apply rel_refl|]. exact (f_equal snd (proj2 (proj2 (proj2 Hs)))). }
    intros tui' ->. eapply (safe_bind _ _ _ (fun _ => True)); [|done].
    destruct b as [os []]; [|done]. destruct Hset as [k ->]; [done|done|]. apply safe_render. typeclasses eauto.
  - eapply safe_bind; [apply alloc_pkt; typeclasses eauto|]. intros buf [[Hb _] Hl].
    eapply safe_bind.
    { apply safe_net_recv; try typeclasses eauto; [done|clia|repeat split; cbn; words; lia]. }
    intros [[n buf'] from] HR. eapply (safe_bind _ _ _ (fun _ => True)); [|done].
    destruct (Z.ltb_spec 0 n); [|done]. apply (safe_handle_packet _ buf); auto; apply _.
Qed.
End safe.

Section shutdown.
Context `{M : Monocypher} {ML : MonocypherLaws M}.
Context (X : list (option (Z * sockaddr_in)) -> Prop) (W : world -> Prop) {HQ : Quiet W}.
Notation J := (served X W).

Lemma safe_store f :
  (forall v, srv_ok v -> srv_ok (f v) /\ routing (f v) = routing v) -> safe J (store f) (fun _ => True).
Proof.
  intros Hf. apply guar_atomic. intros s [Hw (Hv & HX & HW)]. destruct (Hf _ Hv) as [Hv' HR].
  eexists tt, _. split; [reflexivity|]. split; [|split; [apply world_step_refl|done]].
  split; [done|]. split; [done|]. cbn. now rewrite HR.
Qed.

Lemma flags_ok v v' :
  srv_ok v -> peers v' = peers v -> peer_count v' = peer_count v -> ifname (tun v') = ifname (tun v) ->
  srv_ok v' /\ routing v' = routing v.
Proof.
  intros [H1 H2 H3 H4] E1 E2 E3. assert (HR : routing v' = routing v) by (unfold routing; now rewrite E1).
  split; [|done]. split; rewrite ?E1, ?E2, ?E3, ?HR; done.
Qed.

Hypothesis may_close : forall e, closing e -> Allows W e.

Lemma safe_close_fd fd : safe J (sys_close fd) (fun _ => True).
Proof.
  apply (safe_outgoing _ _ (fun _ => EvClose fd)).
  - intros w Hw. cbn. split; [quiet|done].
  - intros _. apply served_permits, may_close. left. eauto.
Qed.

Lemma safe_tun_close dev z : c_str (ifname dev) = Some z ->
  safe J (tun_close dev) (fun dev' => ifname dev' = ifname dev).
Proof.
  intros Hz. unfold tun_close. destruct (0 <=? _); [|done].
  eapply safe_bind; [logging|]. intros _ _. eapply safe_bind; [apply safe_close_fd|]. done.
Qed.

Lemma safe_join b i : safe J (join_if b i) (fun _ => True).
Proof.
  destruct b; [|done]. eapply safe_bind; [|done].
  apply (safe_outgoing _ _ (fun r => EvSys (ThreadJoin i) r)).
  - intros w Hw. cbn. split; [quiet|done].
  - intros r. apply served_permits, may_close. right. eauto.
Qed.

Lemma safe_store_tun dev z : c_str (ifname dev) = Some z -> safe J (store (set_tun dev)) (fun _ => True).
Proof.
  intros Hz. apply safe_store. intros v [H1 H2 H3 _]. split; [|done]. split; eauto.
Qed.

Lemma safe_notify :
  (forall R x, X R -> In x (used R) -> grants W x.2 MSG_DISCONNECT []) ->
  safe J shutdown_notify (fun _ => True).
Proof.
  intros HG. unfold shutdown_notify. eapply safe_bind; [logging|]. intros _ _.
  eapply safe_bind; [apply safe_store; intros v Hv; now apply flags_ok|]. intros _ _.
  eapply safe_bind; [apply safe_store; intros v Hv; now apply flags_ok|]. intros _ _.
  eapply safe_bind; [now apply safe_snapshot_broadcast|]. intros l (Hl & s & [_ (_ & HX & _)] & Hof).
  eapply safe_bind; [apply alloc_pkt; typeclasses eauto|]. intros buf [Hbuf _].
  eapply safe_bind; [apply safe_build_disconnect; [typeclasses eauto|done]|]. intros [len buf1] Hb1.
  apply safe_send_snapshots; [typeclasses eauto|apply (built_pkt _ _ _ _ _ Hb1 Hbuf)
    |now apply (built_length _ _ _ _ _ Hb1)|done|].
  apply Forall_forall. intros sn Hsn. destruct (snaps_used _ _ _ _ Hof Hsn) as (x & Hx & ->).
  apply (may_send_built _ _ _ _ _ _ _ _ Hb1); [words; unfold MSG_DISCONNECT; lia|eauto].
Qed.

Lemma safe_release : safe J shutdown_release (fun _ => True).
Proof.
  unfold shutdown_release. eapply (safe_bind _ _ _ (fun dev => exists z, c_str (ifname dev) = Some z)).
  { apply safe_gets. intros s1 [_ (Hv & _)]. apply Hv. }
  intros dev [z Hz]. eapply safe_bind; [eapply safe_tun_close; eauto|]. intros dev' Hd. rewrite <- Hd in Hz.
  eapply safe_bind; [eapply safe_store_tun; eauto|]. intros _ _.
  eapply (safe_bind _ _ _ (fun _ => True)); [now apply safe_gets|]. intros b1 _.
  eapply safe_bind; [apply safe_join|]. intros _ _.
  eapply (safe_bind _ _ _ (fun _ => True)); [now apply safe_gets|]. intros b2 _.
  eapply safe_bind; [apply safe_join|]. intros _ _.
  eapply safe_bind; [apply safe_screen; typeclasses eauto|]. intros _ _.
  eapply (safe_bind _ _ _ (fun _ => True)); [now apply safe_gets|]. intros fd _.
  eapply (safe_bind _ _ _ (fun _ => True)); [|intros _ _; logging].
  destruct (sock_valid fd); [|done]. eapply safe_bind; [apply safe_close_fd|]. intros _ _.
  apply safe_store. intros v Hv. now apply flags_ok.
Qed.

Lemma safe_shutdown :
  (forall R x, X R -> In x (used R) -> grants W x.2 MSG_DISCONNECT []) ->
  safe J server_shutdown (fun _ => True).
Proof. intros HG. eapply safe_bind; [now apply safe_notify|]. intros _ _. apply safe_release. Qed.
End shutdown.

(** * Properties *)

(** C35: the timeout section removes exactly the active peers that have been
    silent for more than [TUND_PEER_TIMEOUT] seconds, keeps every other slot
    as it is, and returns snapshots of exactly the removed peers, of the peers
    to notify (all remaining ones, if any was removed) and of the peers to
    probe (all remaining ones); no clock difference overflows. *)
Theorem server_timeout_drops_exactly_idle (s : srv_state) (now : Z)
    (Hs : ready s) (Hn : 0 <= now < 2 ^ 62) :
  exists res s', run (timeout_locked now) s = Some (res, s') /\ ready s' /\
    timeout_outcome now (srv s) (srv s') res.
Proof.
  destruct (timeout_section (fun _ => True) (server_policy s (fun _ => False)) s now)
    as (res & s' & Hr & v' & [[Hw [Hv _]] _] & Hv' & HO); [now apply ready_start|done|].
  subst v'. exists res, s'. split; [done|]. split; [now split|done].
Qed.

Example server_timeout_drops_exactly_idle_witness :
  exists res s', run (timeout_locked 1031) sample_state = Some (res, s') /\ ready s' /\
    timeout_outcome 1031 sample_server (srv s') res.
Proof.
  apply (server_timeout_drops_exactly_idle sample_state 1031); [exact sample_ready|lia].
Defined.

(** The main thread as [main] calls it: [server_run], then [server_shutdown]
    while the other threads still run. *)
Definition server_main `{M : Monocypher} (npeers : Z) : prog srv_state ctl :=
  let* c := server_run npeers in
  match c with
  | Continue l => Ret (Continue l)
  | Break => server_shutdown ;; Ret Break
  end.

(** The three threads, and the signal handler. *)
Definition server_process `{M : Monocypher} (i : nat) (l : Z) : prog srv_state ctl :=
  match i with
  | 0%nat => server_main l
  | 1%nat => server_timeout_thread l
  | 2%nat => server_tun_thread l
  | _ => Ret Break
  end.

Definition server_signal (s : srv_state) : srv_state := SrvState (set_running false (srv_world s)) (srv s).

Definition server_start (npeers : Z) : list (prog srv_state ctl) :=
  [Ret (Continue npeers); Ret (Continue 0); Ret (Continue 0)].

Lemma safe_server_main `{M : Monocypher} {ML : MonocypherLaws M} b npeers :
  main_ok b npeers ->
  safe (served (fun _ => True) (fun w => mode w = b)) (server_main npeers)
    (fun c => match c with Continue l => main_ok b l | Break => True end).
Proof.
  intros Hn. eapply safe_bind; [now apply safe_server_run|]. intros [l'|] Hc; [done|].
  eapply safe_bind; [|done]. apply safe_shutdown; [apply _|intros; apply _|].
  intros R x _ _. apply grants_any. intros e. apply _.
Qed.

Lemma server_process_safe `{M : Monocypher} {ML : MonocypherLaws M}
    (s s' : srv_state) (npeers : Z) (pool : list (prog srv_state ctl))
    (Hs : ready s) (Hn : 0 <= npeers \/ g_tui_active (srv_world s) = false \/ uninterrupted (w_env (srv_world s)))
    (Hsteps : steps server_process server_signal (server_start npeers, s) (pool, s')) :
  ~ wrong (pool, s') /\ ready s' /\
  (zlen (issued (w_trace (srv_world s'))) < 2 ^ 63 -> NoDup (issued (w_trace (srv_world s')))).
Proof.
  set (b := mode (srv_world s)).
  set (J := served (fun _ => True) (fun w => mode w = b)).
  set (L := fun (i : nat) l => i = 0%nat -> main_ok b l).
  destruct (steps_ok server_process server_signal (inv J) rel L) with (c := (server_start npeers, s))
    (c' := (pool, s')) as [Hok _]; auto; try apply _.
  - intros i l Hl. unfold server_process. destruct i as [|[|[|]]].
    + eapply safe_mono; [apply safe_server_main; now apply Hl|]. intros [l'|] H; [|done]. now intros _.
    + eapply safe_mono; [apply safe_timeout_thread|]. now intros [].
    + eapply safe_mono; [apply safe_tun_thread|]. now intros [].
    + done.
  - intros [w v] [Hw (H1 & H2 & H3)]. cbn in *. split; [split; [quiet|now split]|]. split; [done|done|now exists []].
  - destruct Hs as [Hw Hv]. split; [split; [done|now split]|]. intros i p Hi.
    destruct i as [|[|[|]]]; [| | |done]; injection Hi as <-; [intros _; exact Hn|done|done].
  - split; [now apply (ok_not_wrong (inv J) rel L)|]. destruct Hok as [[Hw (Hv & _)] _].
    split; [now split|]. intros Hlt. now apply issued_nodup.
Qed.

(** C2: from a well-formed server state, under every interleaving of the
    atomic actions of the main, timeout and TUN threads and of signals, in
    sequentially consistent order, from the creation of the threads to the end
    of the shutdown, which the main thread performs while the others still run,
    no action of a thread is undefined, the peer table stays well formed (in
    particular no two peers share a virtual address or an endpoint, and
    [peer_count] is exact), and no sequence number is issued twice as long as
    fewer than [2^63] were issued.  [npeers], which the code leaves
    uninitialised ([-1]), may be so if the terminal UI is off or no poll is
    interrupted by a signal; in the remaining case the loop draws with it (shown
    below).  Left aside is the shutdown's data race on [dev->fd]
    (the file on races): a pair of accesses, not one action. *)
Theorem server_threads_safe `{M : Monocypher} {ML : MonocypherLaws M}
    (s s' : srv_state) (npeers : Z) (pool : list (prog srv_state ctl))
    (Hs : ready s) (Hn : 0 <= npeers \/ g_tui_active (srv_world s) = false \/ uninterrupted (w_env (srv_world s)))
    (Hsteps : steps server_process server_signal (server_start npeers, s) (pool, s')) :
  ~ wrong (pool, s') /\ ready s' /\
  (zlen (issued (w_trace (srv_world s'))) < 2 ^ 63 -> NoDup (issued (w_trace (srv_world s')))).
Proof. now apply (server_process_safe s s' npeers). Qed.

(** A server that draws its terminal UI. *)
Definition drawing_state : srv_state :=
  SrvState (World sample_env 0 0 (-1) true (replicate 32 7) LOG_LEVEL_INFO true false []) sample_server.

Example server_threads_safe_witness :
  let pool := <[0%nat := server_process (M := SampleCipher.sample) 0%nat (-1)]> (server_start (-1)) in
  ~ wrong (pool, server_signal drawing_state) /\ ready (server_signal drawing_state) /\
  (zlen (issued (w_trace (srv_world (server_signal drawing_state)))) < 2 ^ 63 ->
   NoDup (issued (w_trace (srv_world (server_signal drawing_state))))).
Proof.
  apply (server_threads_safe (M := SampleCipher.sample) drawing_state _ (-1));
    [split; [exact sample_world_ok|exact sample_server_ok]|right; right; intros t; reflexivity|].
  eapply steps_more; [eapply steps_more; [apply steps_refl|apply step_signal]|].
  apply (step_loop (server_process (M := SampleCipher.sample)) server_signal (server_start (-1)) (server_signal drawing_state) 0%nat (-1)).
  reflexivity.
Defined.

(** C39: when the terminal UI is on and the very first poll is interrupted by a
    signal, the main loop draws the peer table with a count that was never
    initialised. *)
Theorem server_run_interrupted_poll_undefined `{M : Monocypher} (s : srv_state)
    (Hrun : g_running (srv_world s) = true) (Htui : g_tui_active (srv_world s) = true)
    (Hpoll : env_poll (w_env (srv_world s)) (w_tick (srv_world s)) < 0)
    (Heintr : env_poll_eintr (w_env (srv_world s)) (w_tick (srv_world s)) = true) :
  run (server_run (-1)) s = None.
Proof.
  unfold server_run, net_poll_peers. cbn -[replicate Z.ltb]. rewrite Hrun. cbn -[replicate Z.ltb].
  destruct (Z.ltb_spec (env_poll (w_env (srv_world s)) (w_tick (srv_world s))) 0); [|lia].
  rewrite Heintr. cbn -[replicate]. now rewrite Htui.
Qed.

(** A process whose first poll is interrupted. *)
Definition interrupted_state : srv_state :=
  SrvState (World (Env (env_open sample_env) (env_read sample_env) 0 (env_time sample_env)
      (env_now_ms sample_env) (env_sendto sample_env) (env_recvfrom sample_env) (fun _ => -1)
      (fun _ => true) (env_tun_read sample_env) (env_tun_write sample_env) (env_stack sample_env)
      (env_sys sample_env) (env_ifname sample_env) (env_ifflags sample_env) (env_resolve sample_env))
    0 0 (-1) true (replicate 32 7) LOG_LEVEL_INFO true false []) sample_server.

Example server_run_interrupted_poll_undefined_witness :
  run (server_run (M := SampleCipher.sample) (-1)) interrupted_state = None.
Proof. apply server_run_interrupted_poll_undefined; reflexivity. Defined.

(** Shutting the server down sends DISCONNECT to registered peers and to
    nobody else, and does nothing further to the outside but close descriptors
    and join its threads; the table stays as it is. *)
Theorem server_shutdown_notifies_peers `{M : Monocypher} {ML : MonocypherLaws M}
    (s : srv_state) (Hs : ready s) :
  exists s', run server_shutdown s = Some (tt, s') /\
    after s (fun e => closing e \/ exists x, In x (used (routing (srv s))) /\
      sent_message (g_crypto_key (srv_world s)) MSG_DISCONNECT [] x.2 e) (routing (srv s)) s'.
Proof.
  apply run_after; [done|]. apply safe_shutdown; [typeclasses eauto|intros e He; apply allows_policy; by left|].
  intros R x -> Hx. apply grants_policy. intros e He. right. eauto.
Qed.

Example server_shutdown_notifies_peers_witness :
  exists s', run (server_shutdown (M := SampleCipher.sample)) sample_state = Some (tt, s') /\
    after sample_state (fun e => closing e \/ exists x, In x (used (routing sample_server)) /\
      sent_message (M := SampleCipher.sample) (replicate 32 7) MSG_DISCONNECT [] x.2 e)
      (routing sample_server) s'.
Proof. apply (server_shutdown_notifies_peers (M := SampleCipher.sample) sample_state), sample_ready. Defined.
