(* ===== verification/ServerLifecycle.v ===== *)
(** Life of the server process ([server.c], [log.c] of [core/server]): start-up
    with its error paths, creation of the threads, shutdown; which descriptors
    are open and which threads run at each point. *)
From stdpp Require Import base list numbers option.
From S2P Require Import Prelude Prog World Consts Sequence Wire Ipv4 Crypto Events Cli Replay Peer Net Messages Boot Frame Halt Rely Release ServerPeers Server ServerSpec ServerThreads.

(** * Code *)

Definition server_log_banner : prog srv_state unit :=
  let* dev := gets tun in
  LOG LOG_LEVEL_INFO [TUND_VERSION] ;;
  LOG LOG_LEVEL_INFO [] ;;
  LOG LOG_LEVEL_INFO [ip_to_str_buf (htonl TUND_SERVER_IP)] ;;
  LOG LOG_LEVEL_INFO [] ;;
  LOG LOG_LEVEL_INFO [ifname dev].

Definition server_log_startup_checklist : prog srv_state unit :=
  let* dev := gets tun in
  LOG LOG_LEVEL_INFO [] ;;
  LOG LOG_LEVEL_INFO [ip_to_str_buf (htonl TUND_SERVER_IP); ifname dev] ;;
  LOG LOG_LEVEL_INFO [] ;;
  LOG LOG_LEVEL_INFO [] ;;
  LOG LOG_LEVEL_INFO [] ;;
  LOG LOG_LEVEL_INFO [].

(** The assignments at the head of [server_init]. *)
Definition fresh_server (port : Z) : server_t :=
  Server (-1) no_device (replicate 253 zero_peer) 0 port false false false false.

(** The common error path. *)
Definition server_init_fail (dev : tun_device_t) (fd : Z) : prog srv_state Z :=
  let* dev := tun_close dev in
  store (set_tun dev) ;;
  sys_close fd ;;
  Ret (-1).

(** Once the device is open. *)
Definition server_init_interface (dev : tun_device_t) (fd : Z) : prog srv_state Z :=
  let* r := tun_set_ip dev (htonl TUND_SERVER_IP) (htonl TUND_NETMASK) in
  if r <? 0 then server_init_fail dev fd
  else
    let* '(r, dev) := tun_set_mtu dev TUND_TUN_MTU in
    store (set_tun dev) ;;
    if r <? 0 then server_init_fail dev fd else Ret 0.

Definition server_init (cfg : config_t) : prog srv_state Z :=
  store (fun _ => fresh_server (cfg_port cfg)) ;;
  let* fd := net_create_socket (cfg_port cfg) in
  store (set_sockfd fd) ;;
  if negb (sock_valid fd) then Ret (-1)
  else
    let* dev := gets tun in
    let* '(r, dev) := tun_open dev in
    store (set_tun dev) ;;
    if r <? 0 then sys_close fd ;; Ret (-1) else server_init_interface dev fd.

Definition set_quits (timeout tun_q : bool) (v : server_t) : server_t :=
  Server (sockfd v) (tun v) (peers v) (peer_count v) (port v) (timeout_started v) (tun_started v) timeout tun_q.

Definition set_started (timeout tun_s : bool) (v : server_t) : server_t :=
  Server (sockfd v) (tun v) (peers v) (peer_count v) (port v) timeout tun_s (timeout_quit v) (tun_quit v).

(** [server_run] before its loop: whether the loop is entered. *)
Definition server_run_start : prog srv_state bool :=
  server_log_banner ;;
  store (fun v => set_quits false (tun_quit v) v) ;;
  store (fun v => set_quits (timeout_quit v) false v) ;;
  let* r := sys_call (ThreadCreate 1) in
  if negb (r =? 0) then
    LOG LOG_LEVEL_ERROR [] ;;
    tund_request_stop ;;
    Ret false
  else
    store (fun v => set_started true (tun_started v) v) ;;
    let* r := sys_call (ThreadCreate 2) in
    if negb (r =? 0) then
      LOG LOG_LEVEL_ERROR [] ;;
      store set_timeout_quit ;;
      let* _ := sys_call (ThreadJoin 1) in
      store (fun v => set_started false (tun_started v) v) ;;
      tund_request_stop ;;
      Ret false
    else
      store (fun v => set_started (timeout_started v) true v) ;;
      tui_screen true ;;
      server_log_startup_checklist ;;
      Ret true.

(** * Start-up *)

(** The server's structure satisfies [D], the process [W]; exactly these device
    events. *)
Definition boots_in (W : world -> Prop) (D : server_t -> Prop) (t : list event) (s : srv_state) : Prop :=
  D (srv s) /\ books W t (srv_world s).

Notation boots := (boots_in (fun _ => True)).

#[export] Instance boots_accounts W D {HQ : Quiet W} {HA : forall e, Allows W e} : Accounts (boots_in W D) (fun _ => True).
Proof.
  split.
  - intros t w s [H1 H2] Hq. split; [done|]. exact (quiet_books W t (srv_world s) w H2 Hq).
  - intros t e w s [H1 H2] He _ E1 E2 E3 E4. split; [done|]. exact (books_event W t e (srv_world s) w H2 He E1 E2 E3 E4).
Qed.

Lemma wp_store W D D' t f s (K : unit -> srv_state -> Prop) :
  inv (boots_in W D t) s -> (forall v, D v -> D' (f v)) ->
  (forall s', inv (boots_in W D' t) s' -> K tt s') -> wp (store f) K s.
Proof.
  intros [Hw [H1 H2]] Hf HK. eexists tt, _. split; [reflexivity|]. apply HK. split; [done|]. split; [now apply Hf|done].
Qed.

Lemma wp_gets_tun W D dev t s (K : tun_device_t -> srv_state -> Prop) :
  inv (boots_in W D t) s -> (forall v, D v -> tun v = dev) -> K dev s -> wp (gets tun) K s.
Proof. intros [_ [H1 _]] HD HK. exists (tun (srv s)), s. split; [done|]. now rewrite (HD _ H1). Qed.

(** What a successful start-up leaves, from the device events [t0]. *)
Record started (v : server_t) (pt : Z) (t0 t : list event) : Prop := {
  started_table : peers v = replicate 253 zero_peer /\ peer_count v = 0;
  started_port : port v = pt;
  started_flags : timeout_started v = false /\ tun_started v = false;
  started_fds : 0 <= sockfd v /\ 0 <= tun_fd (tun v) /\ dev_ok (tun v) /\ tun_mtu (tun v) = TUND_TUN_MTU;
  started_open : same_open t (EvOpen (tun_fd (tun v)) :: EvOpen (sockfd v) :: t0);
  started_threads : forall i, unjoined i t = unjoined i t0;
  started_calls : exists sock1 sock2 flags nm, strncpy (ifname (tun v)) 16 = Some nm /\
    accepted (interface_calls (sockfd v) (tun_fd (tun v)) sock1 sock2 pt flags nm
                (htonl TUND_SERVER_IP) (htonl TUND_NETMASK)) t0 t
}.

Section init.
Context (cfg : config_t) (os : env) (t0 : list event).
Notation yes := (fun _ => I).

(** The system refuses some call. *)
Definition refuses : Prop := exists tk, env_sys os tk < 0.

Notation here := (fun w => w_env w = os).

#[local] Instance quiet_here : Quiet here.
Proof. exact (quiet_fixed (fun e _ => e = os)). Qed.

#[local] Instance allows_here e : Allows here e.
Proof. exact (allows_fixed (fun e' _ => e' = os) e). Qed.

Lemma boots_refused D t s tk : boots_in here D t s -> env_sys (w_env (get_world s)) tk < 0 -> refuses.
Proof. intros (_ & E & _) H. cbn in H. rewrite E in H. now exists tk. Qed.

Definition init_post (r : Z) (s : srv_state) : Prop :=
  world_ok (srv_world s) /\
  ((r = -1 /\ refuses /\ same_open (devices (srv_world s)) t0) \/
   (r = 0 /\ started (srv s) (cfg_port cfg) t0 (devices (srv_world s)))).

(** The structure once the socket and the device are known. *)
Definition holding (fd : Z) (dev : tun_device_t) (v : server_t) : Prop :=
  v = set_tun dev (set_sockfd fd (fresh_server (cfg_port cfg))).

Lemma wp_init_fail fd dev t s :
  refuses -> dev_ok dev -> 0 <= tun_fd dev -> inv (boots_in here (holding fd dev) t) s ->
  same_open t (EvOpen (tun_fd dev) :: EvOpen fd :: t0) -> wp (server_init_fail dev fd) init_post s.
Proof.
  intros Hno Hd Hf Hs Ht. unfold server_init_fail. apply wp_bind.
  eapply (wp_tun_close (boots_in here (holding fd dev)) (fun _ => True)); eauto. intros s1 Hs1.
  eapply wp_bind, (wp_store _ _ (fun _ => True)); [done|done|]. intros s2 Hs2.
  apply wp_bind. eapply (wp_sys_close (boots_in here (fun _ => True)) (fun _ => True)); eauto. intros s3 [Hw [_ [_ Hs3]]].
  apply wp_ret. split; [done|]. left. split; [done|]. split; [done|]. rewrite Hs3, Ht. intros x. cbn. lia.
Qed.

Lemma wp_init_interface fd dev t2 s :
  0 <= fd -> 0 <= tun_fd dev -> dev_ok dev -> inv (boots_in here (holding fd dev) t2) s ->
  same_open t2 (EvOpen (tun_fd dev) :: EvOpen fd :: t0) ->
  accepted [SetTunIff (tun_fd dev) 0x1001 (pad_to 16 (str "tund%d")); Bind fd (htons (cfg_port cfg));
            SetReuseAddr fd] t0 t2 ->
  (forall i, unjoined i t2 = unjoined i t0) -> wp (server_init_interface dev fd) init_post s.
Proof.
  intros Hfd Hdf Hdev Hs5 Ht2 Hc Hj. unfold server_init_interface.
  apply wp_bind. apply (wp_set_ip (boots_in here (holding fd dev)) (fun _ => True) yes (fun _ => yes) yes refuses (boots_refused _) t2); [done|done| |].
  { intros t' s6 Hno Ht' Hs6. cbn [Z.ltb Z.compare]. apply (wp_init_fail _ _ t'); [done..|]. now rewrite Ht'. }
  intros sock1 nm flags evs s6 Hnm Hevs Hs6. cbn [Z.ltb Z.compare].
  set (t3 := EvClose sock1 :: _) in *. assert (Ht3 : same_open t3 t2) by exact (same_open_session sock1 _ evs t2 Hevs).
  apply wp_bind. apply (wp_set_mtu (boots_in here (holding fd dev)) (fun _ => True) yes (fun _ => yes) yes refuses (boots_refused _) t3); [done|done| |].
  { intros t' s7 Hno Ht' Hs7. eapply wp_bind, (wp_store _ _ (holding fd dev)); [done|now intros v ->|]. intros s8 Hs8.
    cbn [Z.ltb Z.compare]. apply (wp_init_fail _ _ t'); [done..|]. now rewrite Ht', Ht3. }
  intros sock2 nm' evs' s7 Hnm' Hevs' Hs7. rewrite Hnm in Hnm'. injection Hnm' as <-.
  eapply wp_bind, (wp_store _ _ (holding fd (TunDevice (tun_fd dev) (ifname dev) TUND_TUN_MTU)));
    [done|now intros v ->|]. intros s8 [Hw8 [Hv8 [_ Hs8]]].
  cbn [Z.ltb Z.compare]. apply wp_ret. split; [done|]. right. split; [done|]. rewrite Hv8, Hs8.
  split; try done.
  - now rewrite (same_open_session sock2 _ evs' t3 Hevs'), Ht3.
  - intros i. unfold t3. cbn [unjoined]. rewrite unjoined_app, (unjoined_succeeded i _ _ Hevs') by done.
    cbn [unjoined]. rewrite unjoined_app, (unjoined_succeeded i _ _ Hevs) by done. apply Hj.
  - exists sock1, sock2, flags, nm. split; [done|]. now apply accepted_session, accepted_session.
Qed.

Lemma wp_server_init s :
  world_ok (srv_world s) -> w_env (srv_world s) = os -> devices (srv_world s) = t0 -> wp (server_init cfg) init_post s.
Proof.
  intros Hw Hos Ht0. assert (H0 : inv (boots_in here (fun _ => True) t0) s) by (split; [done|now split]).
  unfold server_init. eapply wp_bind, (wp_store _ _ (fun v => v = fresh_server (cfg_port cfg))); [done|done|]. intros s1 Hs1.
  apply wp_bind. apply (wp_create_socket (boots_in here (fun v => v = fresh_server (cfg_port cfg))) (fun _ => True) yes (fun _ => yes) yes refuses (boots_refused _) t0); [done| |].
  { intros t' s2 Hno Ht' Hs2. eapply wp_bind, (wp_store _ _ (fun _ => True)); [done|done|]. intros s3 [Hw3 [_ [_ Hs3]]].
    apply wp_ret. split; [done|]. left. rewrite Hs3. auto. }
  intros fd r r' s2 Hfd Hr' Hs2.
  eapply wp_bind, (wp_store _ _ (fun v => v = set_sockfd fd (fresh_server (cfg_port cfg)))); [done|now intros v ->|].
  intros s3 Hs3. unfold sock_valid. destruct (Z.leb_spec 0 fd); [|lia]. cbn [negb].
  eapply wp_bind, (wp_gets_tun _ _ no_device); [done|now intros v ->|].
  set (t1 := EvSys _ r' :: _) in *. assert (Ht1 : same_open t1 (EvOpen fd :: t0)) by (intros x; done).
  apply wp_bind. apply (wp_tun_open (boots_in here (fun v => v = set_sockfd fd (fresh_server (cfg_port cfg)))) (fun _ => True) yes (fun _ => yes) yes refuses (boots_refused _) t1); [|done| |].
  { split; [done|]. now exists []. }
  { intros t' s4 Hno Ht' Hs4. eapply wp_bind, (wp_store _ _ (fun _ => True)); [done|done|]. intros s5 Hs5.
    cbn [Z.ltb Z.compare]. apply wp_bind. eapply (wp_sys_close (boots_in here (fun _ => True)) (fun _ => True)); eauto.
    intros s6 [Hw6 [_ [_ Hs6]]]. apply wp_ret. split; [done|]. left. split; [done|]. split; [done|]. rewrite Hs6, Ht', Ht1.
    apply same_open_close. }
  intros r2 dev s4 Hdf Hr2 Hdev Hs4.
  eapply wp_bind, (wp_store _ _ (holding fd dev)); [done|now intros v ->|]. intros s5 Hs5. cbn [Z.ltb Z.compare].
  eapply wp_init_interface; [done|done|done|exact Hs5|intros x; done| |reflexivity].
  apply accepted_call, accepted_open, accepted_call, accepted_reuse, accepted_open, accepted_refl; done.
Qed.
End init.

(** * What the threads leave alone *)

(** The descriptors and which threads were started. *)
Definition srv_parts (s : srv_state) : Z * tun_device_t * bool * bool :=
  (sockfd (srv s), tun (srv s), timeout_started (srv s), tun_started (srv s)).

#[export] Instance srv_parts_free : WorldFree srv_parts.
Proof. done. Qed.

Notation kept := (always (steady srv_parts)).

Section kept.
Context `{M : Monocypher}.

Lemma kept_gets {A} (f : server_t -> A) : kept (gets f).
Proof. apply always_atomic. intros s b s' [= _ <-]. reflexivity. Qed.

Lemma kept_peer_at i : kept (peer_at i).
Proof.
  apply always_atomic. intros s b s'. destruct (0 <=? i); [|done]. destruct (peers (srv s) !! _); [|done]. cbn.
  intros [= _ <-]. reflexivity.
Qed.

Lemma kept_store f :
  (forall v w, srv_parts (SrvState w (f v)) = srv_parts (SrvState w v)) -> kept (store f).
Proof.
  intros Hf. apply always_atomic. intros [w v] b s' [= _ <-]. split; [apply Hf|done|done].
Qed.

Lemma kept_put_peer i p d : kept (put_peer i p d).
Proof. apply always_atomic. intros s b s'. destruct (_ && _); [|done]. intros [= _ <-]. now split. Qed.

Lemma kept_put_table l d : kept (put_table l d).
Proof. apply always_atomic. intros s b s' [= _ <-]. now split. Qed.

#[local] Hint Resolve kept_gets kept_peer_at kept_put_peer kept_put_table steady_write_hdr : frame.
#[local] Hint Extern 1 (kept (on_world' time_null)) => apply (steady_ask srv_parts) : frame.
#[local] Hint Extern 1 (kept (on_world' now_ms)) => apply (steady_ask srv_parts) : frame.

Lemma kept_add_bytes_out sn n : kept (server_add_peer_bytes_out sn n).
Proof. unfold server_add_peer_bytes_out. frame. Qed.

#[local] Hint Resolve kept_add_bytes_out : frame.

Lemma kept_send_snapshots l buf len n : kept (server_send_peer_snapshots l buf len n).
Proof. unfold server_send_peer_snapshots. frame. Qed.

#[local] Hint Resolve kept_send_snapshots : frame.

Lemma kept_notify : kept shutdown_notify.
Proof. unfold shutdown_notify, proto_build_disconnect. frame; now apply kept_store. Qed.

Lemma kept_handle_packet buf len from : kept (server_handle_packet buf len from).
Proof.
  unfold server_handle_packet, server_accept_registered_sequence, server_handle_register, register_locked,
    register_reply, build_peer_list_from_snapshot, server_handle_data, data_locked, data_forward,
    server_handle_keepalive, server_handle_keepalive_ack, server_handle_disconnect, disconnect_locked,
    disconnect_notify, proto_build_assign, proto_build_data, proto_build_keepalive_ack,
    proto_build_timestamp_msg, proto_build_peer_leave, proto_build_peer_join.
  frame.
Qed.

#[local] Hint Resolve kept_handle_packet : frame.

Lemma kept_server_run npeers : kept (server_run npeers).
Proof. unfold server_run. frame. Qed.

Lemma kept_helpers i l : i <> 0%nat -> kept (server_process i l).
Proof.
  destruct i as [|[|[|]]]; cbn [server_process]; [done| | |done]; intros _.
  - unfold server_timeout_thread, timeout_tick, timeout_locked, proto_build_keepalive, proto_build_timestamp_msg,
      proto_build_peer_leave. frame.
  - unfold server_tun_thread, tun_read, tun_forward, proto_build_data. frame.
Qed.
End kept.

(** * Shutdown *)

#[export] Instance server_holder : Holder srv_state srv_parts.
Proof.
  refine {| put_tun := fun dev s => SrvState (srv_world s) (set_tun dev (srv s));
            put_sockfd := fun fd s => SrvState (srv_world s) (set_sockfd fd (srv s)) |}; done.
Defined.

Section shutdown.
Context `{M : Monocypher} {ML : MonocypherLaws M} (b : env * bool).
Notation J := (served (fun _ => True) (fun w => mode w = b)).
Notation Inv := (inv J).

Lemma server_release_inv :
  (forall s, Inv s -> exists z, c_str (ifname (srv_parts s).1.1.2) = Some z) /\
  (forall dev s, Inv s -> ifname dev = ifname (srv_parts s).1.1.2 -> Inv (put_tun dev s)) /\
  (forall fd s, Inv s -> Inv (put_sockfd fd s)).
Proof.
  assert (Hput : forall w v v', Inv (SrvState w v) -> srv_ok v' -> Inv (SrvState w v')) by (intros w v v' [Hw (_ & _ & HW)] Hv; now split).
  split; [intros s [_ (Hv & _)]; apply Hv|]. split.
  - intros dev s HI Hd. apply (Hput _ (srv s)); [now destruct s|]. destruct HI as [_ (Hv & _)].
    now apply (flags_ok (srv s)).
  - intros fd s HI. apply (Hput _ (srv s)); [now destruct s|]. destruct HI as [_ (Hv & _)]. now apply (flags_ok (srv s)).
Qed.

Lemma server_notify_safe : safe J shutdown_notify (fun _ => True).
Proof. apply safe_notify; [apply _|]. intros R x _ _. apply grants_any. intros e. apply _. Qed.

Context (h : Z * tun_device_t * bool * bool) (t : list event).
Hypothesis fd_open : 0 <= h.1.1.1.
Hypothesis dev_open : 0 <= tun_fd h.1.1.2.

(** On its own. *)
Lemma server_shutdown_releases s :
  Inv s -> holds_at srv_parts h t s -> exists s', run server_shutdown s = Some (tt, s') /\ world_ok (srv_world s') /\ released h t s'.
Proof.
  intros HI Hs. destruct server_release_inv as (H1 & H2 & H3).
  destruct (rg_run _ _ _ _ s HI (rg_shutdown srv_parts J (fun e _ => _) H1 H2 H3 shutdown_notify h t
    server_notify_safe kept_notify fd_open dev_open s HI Hs)) as ([] & s' & Hr & HI' & Hq). exists s'. split; [done|]. split; [apply HI'|done].
Qed.

(** Beside the other threads. *)
Lemma server_main_releases npeers s pool s' :
  Inv s -> main_ok b npeers -> holds_at srv_parts h t s ->
  steps server_process server_signal (server_start npeers, s) (pool, s') ->
  ~ wrong (pool, s') /\ (pool !! 0%nat = Some (Ret Break) -> released h t s').
Proof.
  intros HI Hn Hs. destruct server_release_inv as (H1 & H2 & H3).
  apply (main_releases srv_parts J (fun e _ => _) H1 H2 H3 server_process server_run shutdown_notify server_signal (main_ok b));
    auto using server_notify_safe, kept_notify, kept_server_run, kept_helpers.
  - intros l. now apply safe_server_run.
  - intros [|[|[|]]] l Hi; cbn [server_process]; [done|apply safe_timeout_thread|apply safe_tun_thread|done].
  - intros [w v] [Hw (E1 & E2 & E3)]. cbn in *. split; [split; [quiet|now split]|]. now split.
Qed.
End shutdown.

Section start.
Context (v0 : server_t) (t0 : list event).
Hypothesis dev_printable : exists z, c_str (ifname (tun v0)) = Some z.
Hypothesis not_started : timeout_started v0 = false /\ tun_started v0 = false.

(** The structure but for its flags. *)
Definition flagged (b1 b2 : bool) (v : server_t) : Prop :=
  exists q1 q2, v = set_quits q1 q2 (set_started b1 b2 v0).

Definition start_post (b : bool) (s : srv_state) : Prop :=
  world_ok (srv_world s) /\ exists b1, flagged b1 b (srv s) /\ same_open (devices (srv_world s)) t0 /\
    forall i, unjoined i (devices (srv_world s)) =
      unjoined i t0 + (if b1 && (i =? 1)%nat then 1 else 0) + (if b && (i =? 2)%nat then 1 else 0).

Lemma wp_quiet_log D t level args s (K : unit -> srv_state -> Prop) :
  Forall (fun a => exists z, c_str a = Some z) args -> inv (boots D t) s ->
  (forall s', inv (boots D t) s' -> K tt s') -> wp (LOG level args) K s.
Proof.
  intros Ha Hs HK. eapply (wp_quiet (boots D)); [apply safe_LOG; [typeclasses eauto|exact Ha]|exact Hs|].
  intros [] s' Hs' _. auto.
Qed.

Lemma wp_screen D t on s (K : unit -> srv_state -> Prop) :
  inv (boots D t) s -> (forall s', inv (boots D t) s' -> K tt s') -> wp (tui_screen on) K s.
Proof.
  intros Hs HK. eapply (wp_quiet (boots D)); [apply safe_screen; typeclasses eauto|exact Hs|].
  intros [] s' Hs' _. auto.
Qed.

Ltac say := eapply wp_bind, wp_quiet_log; [printable|eassumption|]; intros ? ?.

Lemma wp_banner b1 b2 t s (K : unit -> srv_state -> Prop) :
  inv (boots (flagged b1 b2) t) s -> (forall s', inv (boots (flagged b1 b2) t) s' -> K tt s') ->
  wp server_log_banner K s.
Proof.
  intros Hs HK. unfold server_log_banner, TUND_VERSION.
  eapply wp_bind, (wp_gets_tun _ _ (tun v0)); [exact Hs|now intros v (q1 & q2 & ->)|].
  do 4 say. eapply wp_quiet_log; [printable|eassumption|done].
Qed.

Lemma wp_checklist b1 b2 t s (K : unit -> srv_state -> Prop) :
  inv (boots (flagged b1 b2) t) s -> (forall s', inv (boots (flagged b1 b2) t) s' -> K tt s') ->
  wp server_log_startup_checklist K s.
Proof.
  intros Hs HK. unfold server_log_startup_checklist.
  eapply wp_bind, (wp_gets_tun _ _ (tun v0)); [exact Hs|now intros v (q1 & q2 & ->)|].
  do 5 say. eapply wp_quiet_log; [printable|eassumption|done].
Qed.

(** Giving up leaves no thread behind. *)
Lemma wp_stop_start b1 t s :
  inv (boots (flagged b1 false) t) s -> same_open t t0 ->
  (forall i, unjoined i t = unjoined i t0 + (if b1 && (i =? 1)%nat then 1 else 0)) ->
  wp (tund_request_stop ;; Ret false) start_post s.
Proof.
  intros Hs Ho Hj. eapply wp_bind, (wp_quiet (boots (flagged b1 false)));
    [apply safe_stop; typeclasses eauto|exact Hs|]. intros _ s1 [Hw [Hv [_ Ht]]] _. apply wp_ret. split; [done|].
  exists b1. rewrite Ht. split; [done|]. split; [done|]. intros i. rewrite Hj. cbn. lia.
Qed.

Lemma wp_server_run_start s :
  world_ok (srv_world s) -> srv s = v0 -> devices (srv_world s) = t0 -> wp server_run_start start_post s.
Proof.
  intros Hw Hv Ht. destruct not_started as [Hn1 Hn2].
  assert (H0 : inv (boots (flagged false false) t0) s).
  { split; [done|]. split; [|done]. exists (timeout_quit v0), (tun_quit v0). rewrite Hv, <- Hn1 at 1. rewrite <- Hn2.
    now destruct v0. }
  assert (Hsame : forall b1 b2 f b1' b2', (forall q1 q2, exists q1' q2',
      f (set_quits q1 q2 (set_started b1 b2 v0)) = set_quits q1' q2' (set_started b1' b2' v0)) ->
      forall v, flagged b1 b2 v -> flagged b1' b2' (f v)).
  { intros b1 b2 f b1' b2' Hf v (q1 & q2 & ->). destruct (Hf q1 q2) as (q1' & q2' & ->). now exists q1', q2'. }
  unfold server_run_start. eapply wp_bind, wp_banner; [exact H0|]. intros s1 Hs1.
  eapply wp_bind, (wp_store _ _ (flagged false false)); [exact Hs1|apply Hsame; intros; now eexists _, _|]. intros s2 Hs2.
  eapply wp_bind, (wp_store _ _ (flagged false false)); [exact Hs2|apply Hsame; intros; now eexists _, _|]. intros s3 Hs3.
  eapply wp_bind, (wp_sys_call (boots _) (fun _ => True)); [done|exact Hs3|]. intros r s4 _ Hs4.
  destruct (Z.eqb_spec r 0) as [->|Hr]; cbn [negb].
  2:{ say. eapply wp_stop_start; [eassumption|intros x; done|]. intros i. cbn.
      destruct (Z.eqb_spec r 0); [done|]. rewrite andb_false_r. lia. }
  eapply wp_bind, (wp_store _ _ (flagged true false)); [exact Hs4|apply Hsame; intros; now eexists _, _|]. intros s5 Hs5.
  eapply wp_bind, (wp_sys_call (boots _) (fun _ => True)); [done|exact Hs5|]. intros r s6 _ Hs6.
  destruct (Z.eqb_spec r 0) as [->|Hr]; cbn [negb].
  - eapply wp_bind, (wp_store _ _ (flagged true true)); [exact Hs6|apply Hsame; intros; now eexists _, _|]. intros s7 Hs7.
    eapply wp_bind, wp_screen; [exact Hs7|]. intros s7' Hs7'.
    eapply wp_bind, wp_checklist; [exact Hs7'|]. intros s8 [Hw8 [Hv8 [_ Ht8]]]. apply wp_ret. split; [done|].
    exists true. rewrite Ht8. split; [done|]. split; [intros x; done|]. intros i. cbn.
    destruct i as [|[|[|]]]; cbn; lia.
  - say. eapply wp_bind, (wp_store _ _ (flagged true false)); [eassumption|apply Hsame; intros; now eexists _, _|]. intros s7 Hs7.
    eapply wp_bind, (wp_sys_call (boots _) (fun _ => True)); [done|exact Hs7|]. intros r' s8 _ Hs8.
    eapply wp_bind, (wp_store _ _ (flagged false false)); [exact Hs8|apply Hsame; intros; now eexists _, _|]. intros s9 Hs9.
    eapply wp_stop_start; [exact Hs9|intros x; done|]. intros i. cbn. destruct (Z.eqb_spec r 0); [done|].
    destruct i as [|[|[|]]]; cbn; lia.
Qed.
End start.

Lemma started_ok v pt t0 t : started v pt t0 t -> srv_ok v.
Proof.
  intros [[Hp Hc] _ _ (_ & _ & [_ Hd] & _) _ _ _]. pose proof empty_server_ok as [H1 H2 H3 _].
  assert (HR : routing v = routing empty_server) by (unfold routing; now rewrite Hp).
  split; rewrite ?HR; [now rewrite Hp|now rewrite Hc|done|done].
Qed.

(** * Properties *)

(** C18: [server_init] is all or nothing, whatever the kernel answers to each
    call: either it returns [-1], because the system refused some call, and
    every descriptor it opened is closed again; or it returns [0] with exactly
    the UDP socket and the TUN device open, an empty well-formed peer table,
    and the calls that bind the socket to the configured port and configure
    the interface named by the kernel, in this order, with the server's
    address, the netmask, the up flags and the MTU, made exactly so and every
    one of them accepted by the kernel (but for SO_REUSEADDR, whose result the
    code does not look at). *)
Theorem server_init_all_or_nothing (cfg : config_t) (s : srv_state) (Hw : world_ok (srv_world s)) :
  exists r s', run (server_init cfg) s = Some (r, s') /\ init_post cfg (w_env (srv_world s)) (devices (srv_world s)) r s'.
Proof. now apply wp_server_init. Qed.

(** A process in which every call succeeds, with the lowest descriptor. *)
Definition calm_world : world :=
  World (Env (env_open sample_env) (env_read sample_env) 0 (env_time sample_env) (env_now_ms sample_env)
           (env_sendto sample_env) (env_recvfrom sample_env) (env_poll sample_env) (env_poll_eintr sample_env)
           (env_tun_read sample_env) (env_tun_write sample_env) (env_stack sample_env) (fun _ => 0)
           (env_ifname sample_env) (env_ifflags sample_env) (env_resolve sample_env))
    0 0 (-1) true (replicate 32 7) LOG_LEVEL_INFO false true [].

Lemma calm_world_ok : world_ok calm_world.
Proof.
  destruct sample_world_ok as [He Hs]. split; [|exact Hs]. destruct He. split; done.
Qed.

Definition unborn : srv_state := SrvState calm_world (fresh_server 0).

Example server_init_all_or_nothing_witness :
  exists r s', run (server_init initial_config) unborn = Some (r, s') /\
    init_post initial_config (w_env calm_world) (devices calm_world) r s'.
Proof. apply (server_init_all_or_nothing initial_config unborn). exact calm_world_ok. Defined.

(** The same descriptors are open as in [s] but that of [/dev/urandom], which
    is opened at most once and never closed, and the same threads unjoined. *)
Definition settled (s s' : srv_state) : Prop :=
  same_open (devices (srv_world s')) (devices (srv_world s)) /\ random_kept (srv_world s') /\
  forall i, unjoined i (devices (srv_world s')) = unjoined i (devices (srv_world s)).

(** C11: over the whole life of a server, whatever the kernel and the network
    answer and however the atomic actions of its threads are interleaved with
    each other and with signals, in sequentially consistent order, no action
    of a thread is undefined, and when the main thread has left its loop and
    finished the shutdown, which it performs while the other threads still
    run, every descriptor that was opened since start-up has been closed, but
    that of /dev/urandom, which the process opens at most once and keeps in
    [g_proto_random_fd], and every thread that was created has been joined. If
    a thread cannot be created, the shutdown follows at once, with the same
    effect. [npeers], which the code leaves uninitialised ([-1]), may be so if
    the terminal UI is off or no poll is interrupted by a signal. Left aside
    is the shutdown's data race on [dev->fd] (the file on races). *)
Theorem server_lifecycle_balanced `{M : Monocypher} {ML : MonocypherLaws M} (cfg : config_t)
    (s s1 s2 : srv_state) (entered : bool) (npeers : Z)
    (Hw : world_ok (srv_world s))
    (Hinit : run (server_init cfg) s = Some (0, s1))
    (Hstart : run server_run_start s1 = Some (entered, s2))
    (Hn : 0 <= npeers \/ g_tui_active (srv_world s2) = false \/ uninterrupted (w_env (srv_world s2))) :
  if entered then
    forall pool s3, steps server_process server_signal (server_start npeers, s2) (pool, s3) ->
      ~ wrong (pool, s3) /\ (pool !! 0%nat = Some (Ret Break) -> settled s s3)
  else exists s3, run server_shutdown s2 = Some (tt, s3) /\ settled s s3.
Proof.
  destruct (wp_server_init cfg _ _ s Hw eq_refl eq_refl) as (r & s1' & Hr & Hpost). rewrite Hinit in Hr. injection Hr as <- <-.
  destruct Hpost as [Hw1 [[] |[_ Hst]]]; [done|]. pose proof (started_ok _ _ _ _ Hst) as Hok1.
  destruct Hst as [_ _ Hfl (Hf1 & Hf2 & [_ Hd] & _) Hopen Hthr _].
  destruct (wp_server_run_start (srv s1) _ Hd Hfl s1 Hw1 eq_refl eq_refl) as (b' & s2' & Hr & Hpost).
  rewrite Hstart in Hr. injection Hr as <- <-. destruct Hpost as (Hw2 & b1 & (q1 & q2 & Hv2) & Ho2 & Hj2).
  assert (Hok2 : srv_ok (srv s2)) by (rewrite Hv2; now destruct (flags_ok (srv s1) (set_quits q1 q2 (set_started b1 entered (srv s1))) Hok1)).
  set (b := mode (srv_world s2)). set (t := devices (srv_world s2)).
  set (h := (sockfd (srv s1), tun (srv s1), b1, entered)).
  assert (Hs2 : holds_at srv_parts h t s2) by (unfold holds_at, srv_parts; now rewrite Hv2).
  assert (HI : inv (served (fun _ => True) (fun w => mode w = b)) s2) by (split; [done|now split]).
  assert (Hset : forall s3, world_ok (srv_world s3) -> released h t s3 -> settled s s3).
  { intros s3 Hw3 [He Hj]. change (get_world s3) with (srv_world s3) in *. split; [|split; [apply Hw3|]].
    - intros x. specialize (He x). specialize (Ho2 x). specialize (Hopen x). unfold t in He. cbn in *. lia.
    - intros i. rewrite Hj. unfold t. rewrite Hj2, Hthr. lia. }
  destruct entered.
  - intros pool s3 Hsteps.
    destruct (server_main_releases b h t Hf1 Hf2 npeers s2 pool s3 HI Hn Hs2 Hsteps) as [Hwr Hend].
    destruct (server_process_safe s2 s3 npeers pool (conj Hw2 Hok2) Hn Hsteps) as (_ & [Hw3 _] & _). auto.
  - destruct (server_shutdown_releases b h t Hf1 Hf2 s2 HI Hs2) as (s3 & Hr & Hw3 & Hq). eauto.
Qed.

Definition outcome {A} (d : srv_state) (r : option (A * srv_state)) : srv_state :=
  match r with Some (_, s) => s | None => d end.

Lemma run_outcome {A} (p : prog srv_state A) s a d :
  option_map fst (run p s) = Some a -> run p s = Some (a, outcome d (run p s)).
Proof. destruct (run p s) as [[x s']|]; cbn; congruence. Qed.

Definition booted : srv_state := outcome unborn (run (server_init initial_config) unborn).
Definition serving : srv_state := outcome unborn (run server_run_start booted).

(** Stopped by a signal before any packet arrives, the main thread first. *)
Definition stopped_server : srv_state :=
  outcome unborn (run (server_main (M := SampleCipher.sample) (-1)) (server_signal serving)).

Example server_lifecycle_balanced_witness :
  ~ wrong ([Ret Break; Ret (Continue 0); Ret (Continue 0)], stopped_server) /\ settled unborn stopped_server.
Proof.
  destruct (server_lifecycle_balanced (M := SampleCipher.sample) initial_config unborn booted serving true (-1) calm_world_ok
    ltac:(apply run_outcome; vm_compute; reflexivity) ltac:(apply run_outcome; vm_compute; reflexivity)
    ltac:(right; left; vm_compute; reflexivity) [Ret Break; Ret (Continue 0); Ret (Continue 0)] stopped_server) as [Hw Hs].
  - eapply steps_app; [eapply steps_more; [apply steps_refl|apply step_signal]|].
    eapply steps_app; [eapply steps_more; [apply steps_refl|now apply (step_loop _ _ _ _ 0%nat (-1))]|].
    refine (steps_run _ _ (server_main (M := SampleCipher.sample) (-1))
      [server_main (M := SampleCipher.sample) (-1); Ret (Continue 0); Ret (Continue 0)] _ 0%nat Break _ eq_refl _).
    unfold stopped_server. apply run_outcome. vm_compute. reflexivity.
  - split; [exact Hw|]. now apply Hs.
Defined.
