(* ===== verification/Client.v ===== *)
(** The client ([core/client]): its state, the table of known peers
    ([peers.c]), the session with the server ([session.c]) and the handlers of
    the server's messages ([handlers.c]). *)
From stdpp Require Import base list numbers option.
From S2P Require Import Prelude Prog World Consts Sequence Wire Ipv4 Crypto Events Replay Peer Net Messages Boot.

(** * Data *)

(** [client_t]; socket, TUN descriptor, lock and thread handles belong to the
    operating system.  Fields of the same name as a field of [peer_t] make the
    prefix necessary. *)
Record client_t : Type := Client {
  cli_sockfd : Z;
  cli_tun : tun_device_t;
  cli_server_addr : sockaddr_in;
  cli_virt_ip : Z;                 (** network byte order *)
  cli_netmask : Z;                 (** network byte order *)
  cli_server_rtt_ms : Z;
  cli_has_server_rtt : bool;
  cli_last_server_seen : Z;        (** [atomic_uint_fast64_t] *)
  cli_server_replay : proto_replay_window_t;
  cli_name : bytes;
  cli_peers : list peer_t;
  cli_peer_count : Z;
  cli_ka_started : bool;
  cli_tun_started : bool;
  cli_ka_quit : bool;
  cli_tun_quit : bool
}.

Definition set_table (l : list peer_t) (n : Z) (c : client_t) : client_t :=
  Client (cli_sockfd c) (cli_tun c) (cli_server_addr c) (cli_virt_ip c) (cli_netmask c)
    (cli_server_rtt_ms c) (cli_has_server_rtt c) (cli_last_server_seen c) (cli_server_replay c)
    (cli_name c) l n (cli_ka_started c) (cli_tun_started c) (cli_ka_quit c) (cli_tun_quit c).

Definition set_server_rtt (r : Z) (c : client_t) : client_t :=
  Client (cli_sockfd c) (cli_tun c) (cli_server_addr c) (cli_virt_ip c) (cli_netmask c)
    r true (cli_last_server_seen c) (cli_server_replay c)
    (cli_name c) (cli_peers c) (cli_peer_count c) (cli_ka_started c) (cli_tun_started c)
    (cli_ka_quit c) (cli_tun_quit c).

Definition set_server_seen (t : Z) (c : client_t) : client_t :=
  Client (cli_sockfd c) (cli_tun c) (cli_server_addr c) (cli_virt_ip c) (cli_netmask c)
    (cli_server_rtt_ms c) (cli_has_server_rtt c) t (cli_server_replay c)
    (cli_name c) (cli_peers c) (cli_peer_count c) (cli_ka_started c) (cli_tun_started c)
    (cli_ka_quit c) (cli_tun_quit c).

Definition set_server_replay (w : proto_replay_window_t) (c : client_t) : client_t :=
  Client (cli_sockfd c) (cli_tun c) (cli_server_addr c) (cli_virt_ip c) (cli_netmask c)
    (cli_server_rtt_ms c) (cli_has_server_rtt c) (cli_last_server_seen c) w
    (cli_name c) (cli_peers c) (cli_peer_count c) (cli_ka_started c) (cli_tun_started c)
    (cli_ka_quit c) (cli_tun_quit c).

Definition set_virt_ip (ip : Z) (c : client_t) : client_t :=
  Client (cli_sockfd c) (cli_tun c) (cli_server_addr c) ip (cli_netmask c)
    (cli_server_rtt_ms c) (cli_has_server_rtt c) (cli_last_server_seen c) (cli_server_replay c)
    (cli_name c) (cli_peers c) (cli_peer_count c) (cli_ka_started c) (cli_tun_started c)
    (cli_ka_quit c) (cli_tun_quit c).

Definition set_netmask (mask : Z) (c : client_t) : client_t :=
  Client (cli_sockfd c) (cli_tun c) (cli_server_addr c) (cli_virt_ip c) mask
    (cli_server_rtt_ms c) (cli_has_server_rtt c) (cli_last_server_seen c) (cli_server_replay c)
    (cli_name c) (cli_peers c) (cli_peer_count c) (cli_ka_started c) (cli_tun_started c)
    (cli_ka_quit c) (cli_tun_quit c).

Definition set_ka_quit (b : bool) (c : client_t) : client_t :=
  Client (cli_sockfd c) (cli_tun c) (cli_server_addr c) (cli_virt_ip c) (cli_netmask c)
    (cli_server_rtt_ms c) (cli_has_server_rtt c) (cli_last_server_seen c) (cli_server_replay c)
    (cli_name c) (cli_peers c) (cli_peer_count c) (cli_ka_started c) (cli_tun_started c)
    b (cli_tun_quit c).

Definition set_cli_tun_quit (b : bool) (c : client_t) : client_t :=
  Client (cli_sockfd c) (cli_tun c) (cli_server_addr c) (cli_virt_ip c) (cli_netmask c)
    (cli_server_rtt_ms c) (cli_has_server_rtt c) (cli_last_server_seen c) (cli_server_replay c)
    (cli_name c) (cli_peers c) (cli_peer_count c) (cli_ka_started c) (cli_tun_started c)
    (cli_ka_quit c) b.

Definition set_cli_tun (dev : tun_device_t) (c : client_t) : client_t :=
  Client (cli_sockfd c) dev (cli_server_addr c) (cli_virt_ip c) (cli_netmask c)
    (cli_server_rtt_ms c) (cli_has_server_rtt c) (cli_last_server_seen c) (cli_server_replay c)
    (cli_name c) (cli_peers c) (cli_peer_count c) (cli_ka_started c) (cli_tun_started c) (cli_ka_quit c) (cli_tun_quit c).

Definition set_cli_sockfd (fd : Z) (c : client_t) : client_t :=
  Client fd (cli_tun c) (cli_server_addr c) (cli_virt_ip c) (cli_netmask c)
    (cli_server_rtt_ms c) (cli_has_server_rtt c) (cli_last_server_seen c) (cli_server_replay c)
    (cli_name c) (cli_peers c) (cli_peer_count c) (cli_ka_started c) (cli_tun_started c)
    (cli_ka_quit c) (cli_tun_quit c).

(** The client inside its process. *)
Record cli_state : Type := CliState { cli_world : world; cli : client_t }.

#[export] Instance cli_has_world : HasWorld cli_state.
Proof.
  refine {| get_world := cli_world; set_world w s := CliState w (cli s) |}; try done.
  now intros [].
Defined.

(** * Access to the shared structure *)

Definition load {A} (f : client_t -> A) : prog cli_state A := atomic (fun s => Some (f (cli s), s)).

Definition save (f : client_t -> client_t) : prog cli_state unit :=
  atomic (fun s => Some (tt, CliState (cli_world s) (f (cli s)))).

(** [cli->peers[i]]. *)
Definition load_peer (i : Z) : prog cli_state peer_t :=
  atomic (fun s => if 0 <=? i then p ← cli_peers (cli s) !! Z.to_nat i; Some (p, s) else None).

(** Stores to [cli->peers[i]] and [cli->peer_count += d]. *)
Definition save_peer (i : Z) (p : peer_t) (d : Z) : prog cli_state unit :=
  atomic (fun s =>
    if (0 <=? i) && (i <? zlen (cli_peers (cli s))) then
      Some (tt, CliState (cli_world s)
        (set_table (<[Z.to_nat i := p]> (cli_peers (cli s))) (cli_peer_count (cli s) + d) (cli s)))
    else None).

(** * The table of peers ([peers.c]) *)

(** The loop of [client_update_peer]: [idx] and [free_idx]. *)
Fixpoint update_scan (l : list peer_t) (i vip free_idx : Z) : Z * Z :=
  match l with
  | [] => (-1, free_idx)
  | p :: l =>
      if active p && (virt_ip p =? vip) then (i, free_idx)
      else update_scan l (i + 1) vip (if negb (active p) && (free_idx <? 0) then i else free_idx)
  end.

Definition reset_traffic (p : peer_t) : peer_t :=
  Peer (active p) (virt_ip p) (name p) (real_addr p) (last_seen p) 0 0 (rtt_ms p) (has_rtt p) (replay p).

(** [active], [virt_ip], [name] and [last_seen] of slot [idx] are stored. *)
Definition fill_slot (idx vip : Z) (nm : option bytes) : prog cli_state unit :=
  let* p := load_peer idx in
  let* field := local (
    let zeros := replicate (Z.to_nat TUND_NAME_LEN) 0 in
    match nm with
    | None => Some zeros
    | Some nm => let? src := strncpy nm (Z.to_nat (TUND_NAME_LEN - 1)) in mem_write zeros 0 src
    end) in
  let* now := on_world' time_null in
  save_peer idx (Peer true vip field (real_addr p) now (bytes_in p) (bytes_out p) (rtt_ms p)
                   (has_rtt p) (replay p)) 0.

Definition client_update_peer (vip : Z) (nm : option bytes) (online : bool) : prog cli_state unit :=
  locked (
    let* l := load cli_peers in
    let '(idx, free_idx) := update_scan l 0 vip (-1) in
    if online then
      if idx <? 0 then
        if free_idx <? 0 then Ret tt
        else
          let* p := load_peer free_idx in
          save_peer free_idx (reset_traffic p) 1 ;;
          fill_slot free_idx vip nm
      else fill_slot idx vip nm
    else if 0 <=? idx then
      let* p := load_peer idx in
      save_peer idx (set_active false p) (-1)
    else Ret tt).

Definition client_add_peer_traffic (vip n_in n_out : Z) : prog cli_state unit :=
  locked (
    let* l := load cli_peers in
    let i := find_index (fun p => active p && (virt_ip p =? vip)) l 0 in
    if 0 <=? i then
      let* p := load_peer i in
      save_peer i (add_bytes_out n_out (add_bytes_in n_in p)) 0
    else Ret tt).

Definition client_add_broadcast_traffic (n_out : Z) : prog cli_state unit :=
  locked (save (fun c =>
    set_table (map (fun p => if active p then add_bytes_out n_out p else p) (cli_peers c))
              (cli_peer_count c) c)).

Definition client_log_peers : prog cli_state unit :=
  locked (
    LOG LOG_LEVEL_INFO [] ;;
    LOG LOG_LEVEL_INFO [] ;;
    LOG LOG_LEVEL_INFO [] ;;
    let* l := load cli_peers in
    for_each l (fun p =>
      if active p then LOG LOG_LEVEL_INFO [ip_to_str_buf (virt_ip p); name p] else Ret tt) ;;
    LOG LOG_LEVEL_INFO []).

(** * The session ([session.c]) *)

Definition client_mark_server_seen : prog cli_state unit :=
  let* now := on_world' time_null in
  if 0 <? now then save (set_server_seen (u64 now)) else Ret tt.

Definition server_timed_out (last now : Z) : bool :=
  if (last =? 0) || (now <=? 0) then false
  else
    let current := u64 now in
    (last <? current) && (TUND_SERVER_TIMEOUT <? u64 (current - last)).

Definition client_server_timed_out (now : Z) : prog cli_state bool :=
  let* last := load cli_last_server_seen in Ret (server_timed_out last now).

(** * Handlers of the server's messages ([handlers.c]) *)

(** The name reported when a peer leaves that the table does not hold. *)
Definition unknown_name : bytes := pad_to 32 (str "unknown").

(** [if (!g_tui_active) log]. *)
Definition report_peers (log : prog cli_state unit) : prog cli_state unit :=
  let* tui := read_world g_tui_active in
  if (tui : bool) then Ret tt else log.

Section handlers.
Context `{M : Monocypher}.

Definition client_handle_keepalive (payload : bytes) (plen : Z) : prog cli_state unit :=
  let* ts := local (proto_read_keepalive_timestamp payload plen) in
  match ts with
  | None => Ret tt
  | Some sent_at =>
      let* buf := alloc TUND_MAX_PKT in
      let* '(len, buf) := proto_build_keepalive_ack buf sent_at in
      let* dest := load cli_server_addr in
      let* r := net_send buf len dest in
      if r <? 0 then LOG LOG_LEVEL_WARN [] else Ret tt
  end.

Definition client_handle_keepalive_ack (payload : bytes) (plen : Z) : prog cli_state unit :=
  let* ts := local (proto_read_keepalive_timestamp payload plen) in
  match ts with
  | None => Ret tt
  | Some sent_at =>
      let* now := on_world' now_ms in
      if now <? sent_at then Ret tt
      else
        let sample := u64 (now - sent_at) in
        save (fun c => set_server_rtt
          (smooth_rtt_ms (cli_server_rtt_ms c) sample (cli_has_server_rtt c)) c) ;;
        LOG LOG_LEVEL_DEBUG []
  end.

(** The loop of [client_handle_peer_list] from entry [i]; [n] entries are left. *)
Fixpoint peer_list_loop (n : nat) (payload : bytes) (plen i : Z) : prog cli_state unit :=
  match n with
  | O => Ret tt
  | S n =>
      let* e := local (proto_read_peer_entry payload plen i) in
      match e with
      | None => Ret tt
      | Some (vip, nm, online) =>
          client_update_peer vip (Some nm) online ;;
          peer_list_loop n payload plen (i + 1)
      end
  end.

Definition client_handle_peer_list (payload : bytes) (plen : Z) : prog cli_state unit :=
  let count := proto_peer_entry_count plen in
  report_peers (LOG LOG_LEVEL_INFO []) ;;
  peer_list_loop (Z.to_nat count) payload plen 0 ;;
  report_peers (if 0 <? count then client_log_peers else Ret tt).

Definition client_handle_peer_join (payload : bytes) (plen : Z) : prog cli_state unit :=
  if plen <? 4 + TUND_NAME_LEN then Ret tt
  else
    let* vip := local (mem_read payload 0 4) in
    let vip := le_combine vip in
    let* nm := local (mem_read payload 4 TUND_NAME_LEN) in
    LOG LOG_LEVEL_INFO [nm; ip_to_str_buf vip] ;;
    client_update_peer vip (Some nm) true ;;
    report_peers client_log_peers.

(** The critical section: the name of the peer and [peer_count] after it. *)
Definition leave_locked (vip : Z) : prog cli_state (bytes * Z) :=
  let* l := load cli_peers in
  let i := find_index (fun p => active p && (virt_ip p =? vip)) l 0 in
  let* nm :=
    if 0 <=? i then
      let* p := load_peer i in
      let* nm := local (let? src := strncpy (name p) (Z.to_nat (TUND_NAME_LEN - 1)) in
                        mem_write unknown_name 0 src) in
      save_peer i (set_active false p) (-1) ;;
      Ret nm
    else Ret unknown_name in
  let* remaining := load cli_peer_count in
  Ret (nm, remaining).

Definition client_handle_peer_leave (payload : bytes) (plen : Z) : prog cli_state unit :=
  if plen <? 4 then Ret tt
  else
    let* vip := local (mem_read payload 0 4) in
    let vip := le_combine vip in
    let* '(nm, remaining) := locked (leave_locked vip) in
    LOG LOG_LEVEL_INFO [nm; ip_to_str_buf vip] ;;
    report_peers (if 0 <? remaining then client_log_peers else LOG LOG_LEVEL_INFO []).

(** The body of [switch (type)] for MSG_DATA. *)
Definition client_handle_data (payload : bytes) (plen : Z) : prog cli_state unit :=
  let* validation := local (proto_validate_ipv4_packet payload plen) in
  if negb (validation =? TUND_IPV4_OK) then LOG LOG_LEVEL_DEBUG []
  else
    let* src_ip := local (proto_get_src_ip payload plen) in
    client_add_peer_traffic src_ip plen 0 ;;
    let* pkt := local (mem_read payload 0 plen) in
    let* _ := tun_write pkt in
    Ret tt.

(** [proto_replay_accept(&cli->server_replay, sequence)]; only the thread that
    receives uses the window. *)
Definition accept_from_server (sequence : Z) : prog cli_state bool :=
  let* w := load cli_server_replay in
  let '(ok, w) := proto_replay_accept w sequence in
  save (set_server_replay w) ;; Ret ok.

Definition client_handle_server_packet (buf : bytes) (len : Z) : prog cli_state unit :=
  let* hdr := local (proto_read_hdr buf) in
  match hdr with
  | HdrErr code => if code =? TUND_HDR_BAD_VERSION then LOG LOG_LEVEL_DEBUG [] else Ret tt
  | HdrOk type payload_len =>
      if len <? TUND_HDR_SIZE + payload_len then Ret tt
      else
        let* sq := local (proto_read_sequence buf) in
        let* fresh := match sq with Some sequence => accept_from_server sequence | None => Ret false end in
        if negb fresh then LOG LOG_LEVEL_DEBUG []
        else
          client_mark_server_seen ;;
          let payload := ptr buf TUND_HDR_SIZE in
          if type =? MSG_DATA then client_handle_data payload payload_len
          else if type =? MSG_PEER_LIST then client_handle_peer_list payload payload_len
          else if type =? MSG_PEER_JOIN then client_handle_peer_join payload payload_len
          else if type =? MSG_PEER_LEAVE then client_handle_peer_leave payload payload_len
          else if type =? MSG_KEEPALIVE then client_handle_keepalive payload payload_len
          else if type =? MSG_KEEPALIVE_ACK then client_handle_keepalive_ack payload payload_len
          else if type =? MSG_DISCONNECT then LOG LOG_LEVEL_WARN [] ;; tund_request_stop
          else LOG LOG_LEVEL_DEBUG []
  end.
End handlers.
