(* ===== verification/ClientTable.v ===== *)
(** The client's invariant, and its table of peers as a finite map from virtual
    addresses to names. *)
From stdpp Require Import base list numbers option gmap.
From S2P Require Import Prelude Prog World Consts Sequence Wire Ipv4 Crypto Events Replay Peer Net Messages Boot Client.

(** * Well-formedness *)

Definition unique_vips (l : list peer_t) : Prop :=
  forall i j p q, l !! i = Some p -> l !! j = Some q -> active p = true -> active q = true ->
    virt_ip p = virt_ip q -> i = j.

Record cli_ok (c : client_t) : Prop := {
  ok_cli_peers : Forall peer_ok (cli_peers c);
  ok_cli_slots : length (cli_peers c) = 253%nat;
  ok_cli_vips : unique_vips (cli_peers c);
  ok_cli_count : cli_peer_count c = zlen (actives (cli_peers c));
  ok_cli_name : name_ok (cli_name c);
  ok_cli_ifname : exists s, c_str (ifname (cli_tun c)) = Some s;
  ok_cli_addr : addr_ok (cli_server_addr c);
  ok_cli_replay : window_ok (cli_server_replay c);
  ok_cli_rtt : is_u64 (cli_server_rtt_ms c);
  ok_cli_seen : is_u64 (cli_last_server_seen c);
  ok_cli_ip : is_u32 (cli_virt_ip c) /\ is_u32 (cli_netmask c)
}.

(** * The table as a map *)

Definition matches (vip : Z) (p : peer_t) : bool := active p && (virt_ip p =? vip).

Definition roster (l : list peer_t) : gmap Z bytes :=
  foldr (fun p m => if active p then <[virt_ip p := name p]> m else m) ∅ l.

Lemma roster_lookup l vip : roster l !! vip = option_map name (List.find (matches vip) l).
Proof.
  induction l as [|p l IH]; [done|]. cbn [roster foldr List.find]. fold (roster l).
  unfold matches at 1. destruct (active p); cbn [andb]; [|done].
  destruct (Z.eqb_spec (virt_ip p) vip) as [<-|Hne].
  - now rewrite lookup_insert_eq.
  - now rewrite lookup_insert_ne.
Qed.

Lemma matches_true vip p : matches vip p = true <-> active p = true /\ virt_ip p = vip.
Proof. unfold matches. now rewrite andb_true_iff, Z.eqb_eq. Qed.

Lemma find_at l i p vip :
  unique_vips l -> l !! i = Some p -> active p = true -> virt_ip p = vip ->
  List.find (matches vip) l = Some p.
Proof.
  intros HU Hi Ha Hv. destruct (List.find (matches vip) l) as [q|] eqn:E.
  - apply List.find_some in E as [Hin Hq]. apply matches_true in Hq as [Hqa Hqv].
    apply list_elem_of_In, list_elem_of_lookup in Hin as [j Hj].
    assert (i = j) by (apply (HU i j p q); congruence). congruence.
  - apply (List.find_none _ _) with (x := p) in E; [|now apply list_elem_of_In, (list_elem_of_lookup_2 _ i)].
    assert (matches vip p = true) by now apply matches_true. congruence.
Qed.

Lemma find_absent l vip : Forall (fun p => matches vip p = false) l -> List.find (matches vip) l = None.
Proof. induction 1 as [|p l Hp _ IH]; [done|]. cbn. now rewrite Hp. Qed.

Lemma find_insert_other l i old new vip :
  l !! i = Some old -> matches vip old = false -> matches vip new = false ->
  List.find (matches vip) (<[i := new]> l) = List.find (matches vip) l.
Proof.
  revert i. induction l as [|p l IH]; intros [|i] Hi Ho Hn; try done; cbn in *.
  - injection Hi as ->. now rewrite Ho, Hn.
  - destruct (matches vip p); [done|]. now apply IH.
Qed.

(** The slot of [vip] if it has one, or a free slot. *)
Definition slot_for (l : list peer_t) (i : nat) (vip : Z) : Prop :=
  exists old, l !! i = Some old /\
    ((active old = true /\ virt_ip old = vip) \/
     (active old = false /\ Forall (fun p => matches vip p = false) l)).

Lemma slot_other l i vip j q :
  unique_vips l -> slot_for l i vip -> l !! j = Some q -> j <> i -> matches vip q = false.
Proof.
  intros HU (old & Hi & [[Ha Hv]|[_ HF]]) Hj Hne.
  - apply not_true_is_false. intros Hq. apply matches_true in Hq as [Hqa Hqv].
    apply Hne. apply (HU j i q old); congruence.
  - rewrite Forall_lookup in HF. eauto.
Qed.

Lemma unique_vips_insert l i new :
  unique_vips l -> (active new = true -> slot_for l i (virt_ip new)) -> unique_vips (<[i := new]> l).
Proof.
  intros HU Hn.
  assert (Hother : active new = true -> forall k q, l !! k = Some q -> k <> i -> active q = true ->
    virt_ip q = virt_ip new -> False).
  { intros Ha k q Hk Hne Hqa Hqv. pose proof (slot_other _ _ _ _ _ HU (Hn Ha) Hk Hne) as Hm.
    assert (matches (virt_ip new) q = true) by now apply matches_true. congruence. }
  intros j k p q Hj Hk Hp Hq E.
  apply list_lookup_insert_Some in Hj as [(-> & -> & _)|[Hj1 Hj2]];
  apply list_lookup_insert_Some in Hk as [(-> & -> & _)|[Hk1 Hk2]].
  - done.
  - exfalso. apply (Hother Hp k q); auto.
  - exfalso. apply (Hother Hq j p); auto.
  - now apply (HU j k p q).
Qed.

(** Filling the right slot is insertion into the map. *)
Lemma roster_insert l i new :
  unique_vips l -> active new = true -> slot_for l i (virt_ip new) ->
  roster (<[i := new]> l) = <[virt_ip new := name new]> (roster l).
Proof.
  intros HU Ha Hs. apply map_eq. intros vip. rewrite roster_lookup.
  destruct Hs as (old & Hi & Hold).
  destruct (Z.eq_dec vip (virt_ip new)) as [->|Hne].
  - rewrite lookup_insert_eq, (find_at _ i new); [done| |apply list_lookup_insert_eq|done|done].
    + apply unique_vips_insert; [done|]. intros _. now exists old.
    + now apply lookup_lt_Some in Hi.
  - rewrite lookup_insert_ne, roster_lookup by congruence.
    rewrite (find_insert_other _ _ old); [done|done| |].
    + apply not_true_is_false. intros Hm. apply matches_true in Hm as [Hoa Hov].
      destruct Hold as [[_ E]|[E _]]; congruence.
    + apply not_true_is_false. intros Hm. apply matches_true in Hm as [_ E]. congruence.
Qed.

(** Freeing a slot is deletion. *)
Lemma roster_delete l i old :
  unique_vips l -> l !! i = Some old -> active old = true ->
  roster (<[i := set_active false old]> l) = delete (virt_ip old) (roster l).
Proof.
  intros HU Hi Ha. apply map_eq. intros vip. rewrite roster_lookup.
  destruct (Z.eq_dec vip (virt_ip old)) as [->|Hne].
  - rewrite lookup_delete_eq, find_absent; [done|]. apply Forall_lookup. intros j q Hj.
    apply list_lookup_insert_Some in Hj as [(_ & <- & _)|[Hj Hq]]; [done|].
    apply (slot_other l i (virt_ip old) j q); auto. exists old. auto.
  - rewrite lookup_delete_ne, roster_lookup by congruence.
    rewrite (find_insert_other _ _ old); [done|done| |done].
    apply not_true_is_false. intros Hm. apply matches_true in Hm as [_ E]. congruence.
Qed.

(** Changing nothing that the map shows. *)
Lemma roster_same l i old new :
  l !! i = Some old -> active new = active old -> virt_ip new = virt_ip old -> name new = name old ->
  roster (<[i := new]> l) = roster l.
Proof.
  intros Hi Ha Hv Hn. revert i Hi. induction l as [|p l IH]; intros [|i] Hi; try done; cbn in *.
  - injection Hi as ->. now rewrite Ha, Hv, Hn.
  - specialize (IH i Hi). unfold roster, insert in *. now rewrite IH.
Qed.

Lemma actives_cons p l : zlen (actives (p :: l)) = (if active p then 1 else 0) + zlen (actives l).
Proof. unfold actives. cbn [List.filter]. destruct (active p); rewrite ?zlen_cons; lia. Qed.

Lemma actives_insert l i old new :
  l !! i = Some old ->
  zlen (actives (<[i := new]> l)) =
  zlen (actives l) + (if active new then 1 else 0) - (if active old then 1 else 0).
Proof.
  revert i. induction l as [|p l IH]; intros [|i] Hi; try done.
  - injection Hi as ->. change (<[0%nat := new]> (old :: l)) with (new :: l).
    rewrite !actives_cons. lia.
  - change (<[S i := new]> (p :: l)) with (p :: <[i := new]> l). rewrite !actives_cons, (IH _ Hi). lia.
Qed.

(** Storing a record in a slot that it may take. *)
Lemma save_ok c i old new d :
  cli_ok c -> cli_peers c !! i = Some old -> peer_ok new ->
  (active new = true -> slot_for (cli_peers c) i (virt_ip new)) ->
  d = (if active new then 1 else 0) - (if active old then 1 else 0) ->
  cli_ok (set_table (<[i := new]> (cli_peers c)) (cli_peer_count c + d) c).
Proof.
  intros [] Hi Hn Hs ->. split; cbn; auto.
  - now apply Forall_insert.
  - now rewrite length_insert.
  - now apply unique_vips_insert.
  - rewrite (actives_insert _ _ old) by done. lia.
Qed.

Lemma slot_self l i p : l !! i = Some p -> active p = true -> slot_for l i (virt_ip p).
Proof. intros Hi Ha. exists p. auto. Qed.

(** * The scan of [client_update_peer] *)

Lemma update_scan_spec l : forall i vip free,
  0 <= i -> -1 <= free ->
  let '(idx, free') := update_scan l i vip free in
  (idx = -1 /\ Forall (fun p => matches vip p = false) l /\
     ((free' = free /\ (0 <= free \/ Forall (fun p => active p = true) l)) \/
      (free < 0 /\ exists k p, free' = i + Z.of_nat k /\ l !! k = Some p /\ active p = false))) \/
  exists k p, idx = i + Z.of_nat k /\ l !! k = Some p /\ active p = true /\ virt_ip p = vip.
Proof.
  induction l as [|p l IH]; intros i vip free Hi Hf; cbn [update_scan].
  - left. split; [done|]. split; [constructor|]. left. auto.
  - fold (matches vip p). destruct (matches vip p) eqn:Em.
    { right. apply matches_true in Em as [Ha Hv]. exists 0%nat, p. rewrite Z.add_0_r. auto. }
    set (free1 := if _ && _ then i else free).
    assert (Hf1 : -1 <= free1) by (unfold free1; destruct (_ && _); lia).
    specialize (IH (i + 1) vip free1 ltac:(lia) Hf1).
    destruct (update_scan l (i + 1) vip free1) as [idx free'].
    destruct IH as [(-> & HF & Hfree)|(k & q & -> & Hk & Hq)].
    2:{ right. exists (S k), q. split; [lia|auto]. }
    left. split; [done|]. split; [now constructor|]. unfold free1 in *. clear free1.
    destruct (active p) eqn:Ea; cbn [negb andb] in Hfree.
    + destruct Hfree as [[-> [H|H]]|(H & k & q & -> & Hk & Hq)]; [left; auto|left; split; auto|].
      right. split; [done|]. exists (S k), q. split; [lia|auto].
    + destruct (Z.ltb_spec free 0).
      * right. split; [done|]. destruct Hfree as [[-> _]|(H' & _)]; [|lia].
        exists 0%nat, p. split; [lia|auto].
      * left. destruct Hfree as [[-> _]|(H' & _)]; [|lia]. auto.
Qed.

(** * Updates of the table *)

(** The bytes of [nm] that a name field keeps. *)
Definition stored_name (nm : bytes) (field : bytes) : Prop :=
  exists src, strncpy nm 31 = Some src /\ field = src ++ [0].

(** [c'] is [c] but for its table. *)
Definition same_but_table (c c' : client_t) : Prop :=
  c' = set_table (cli_peers c') (cli_peer_count c') c.

(** Whether a message about [vip] finds a slot. *)
Definition has_room (c : client_t) (vip : Z) : bool :=
  match roster (cli_peers c) !! vip with
  | Some _ => true
  | None => cli_peer_count c <? TUND_MAX_PEERS
  end.

(** The map after an update. *)
Definition update_roster (room : bool) (vip : Z) (field : bytes) (online : bool) (m : gmap Z bytes) :
    gmap Z bytes :=
  if online then if room then <[vip := field]> m else m else delete vip m.

Lemma stored_name_ok nm field :
  bytes_ok nm -> stored_name nm field -> name_ok field /\ mem_write (replicate 32 0) 0 (take 31 field) = Some field.
Proof.
  intros Hb (src & Hs & ->). pose proof (strncpy_length _ _ _ Hs) as Hl.
  pose proof (strncpy_ok _ _ _ Hb Hs) as Hsb. split.
  - split; [rewrite length_app; cbn; lia|]. split; [|apply terminated_app].
    apply bytes_ok_app. split; [done|]. repeat constructor; words; lia.
  - rewrite take_app_length' by done. change (replicate 32 0) with (replicate 31 0 ++ [0]).
    now apply (mem_write_at [] (replicate 31 0) [0]).
Qed.

Lemma stored_total nm : (31 <= length nm)%nat -> exists field, stored_name nm field.
Proof. intros Hl. destruct (strncpy_full nm 31 Hl) as [src Hs]. now exists (src ++ [0]), src. Qed.

Lemma stored_unique nm f1 f2 : stored_name nm f1 -> stored_name nm f2 -> f1 = f2.
Proof. intros (s1 & H1 & ->) (s2 & H2 & ->). congruence. Qed.

Section table.
Variable s : cli_state.
Hypothesis Hw : world_ok (cli_world s).
Hypothesis Hc : cli_ok (cli s).

Lemma slot_lookup i :
  0 <= i < 253 -> exists p, cli_peers (cli s) !! Z.to_nat i = Some p /\ peer_ok p.
Proof.
  intros Hi. destruct (lookup_lt_is_Some_2 (cli_peers (cli s)) (Z.to_nat i)) as [p Hp].
  { rewrite (ok_cli_slots _ Hc). lia. }
  exists p. split; [done|]. pose proof (ok_cli_peers _ Hc) as H. rewrite Forall_lookup in H. eauto.
Qed.

Lemma slot_range i (p : peer_t) : cli_peers (cli s) !! i = Some p -> peer_ok p /\ 0 <= Z.of_nat i < 253.
Proof.
  intros Hi. pose proof (ok_cli_peers _ Hc) as H. rewrite Forall_lookup in H. split; [eauto|].
  apply lookup_lt_Some in Hi. rewrite (ok_cli_slots _ Hc) in Hi. lia.
Qed.
End table.

Lemma run_load_peer s (i : nat) p :
  cli_peers (cli s) !! i = Some p -> run (load_peer (Z.of_nat i)) s = Some (p, s).
Proof. intros Hp. cbn. destruct (Z.leb_spec 0 (Z.of_nat i)); [|lia]. now rewrite Nat2Z.id, Hp. Qed.

Lemma run_save_peer s (i : nat) p d old :
  cli_peers (cli s) !! i = Some old ->
  run (save_peer (Z.of_nat i) p d) s =
  Some (tt, CliState (cli_world s)
    (set_table (<[i := p]> (cli_peers (cli s))) (cli_peer_count (cli s) + d) (cli s))).
Proof.
  intros Hp. apply lookup_lt_Some in Hp. cbn. destruct (Z.leb_spec 0 (Z.of_nat i)); [|lia].
  destruct (Z.ltb_spec (Z.of_nat i) (zlen (cli_peers (cli s)))); [|unfold zlen in *; lia].
  now rewrite Nat2Z.id.
Qed.

(** Storing the announced address and name. *)
Definition announced (vip : Z) (field : bytes) (now : Z) (p : peer_t) : peer_t :=
  Peer true vip field (real_addr p) now (bytes_in p) (bytes_out p) (rtt_ms p) (has_rtt p) (replay p).

Lemma run_fill_slot s (i : nat) vip nm field old :
  cli_peers (cli s) !! i = Some old -> bytes_ok nm -> stored_name nm field ->
  run (fill_slot (Z.of_nat i) vip (Some nm)) s =
  Some (tt, CliState (tick (cli_world s))
    (set_table (<[i := announced vip field (env_time (w_env (cli_world s)) (w_tick (cli_world s))) old]>
       (cli_peers (cli s))) (cli_peer_count (cli s) + 0) (cli s))).
Proof.
  intros Hp Hb Hs. unfold fill_slot. rewrite run_bind, (run_load_peer _ _ _ Hp), run_bind.
  destruct (stored_name_ok _ _ Hb Hs) as [_ Hf]. destruct Hs as (src & Hsrc & ->).
  change (Z.to_nat (TUND_NAME_LEN - 1)) with 31%nat. change (Z.to_nat TUND_NAME_LEN) with 32%nat.
  rewrite Hsrc. rewrite take_app_length' in Hf by now apply strncpy_length in Hsrc.
  rewrite Hf. cbn [local run]. rewrite run_bind. cbn -[save_peer].
  rewrite (run_save_peer _ _ _ _ old) by done. done.
Qed.

Lemma announced_ok vip field now p :
  peer_ok p -> is_u32 vip -> name_ok field -> 0 <= now < 2 ^ 62 -> peer_ok (announced vip field now p).
Proof. intros []. now split. Qed.

Lemma reset_ok p : peer_ok p -> peer_ok (reset_traffic p).
Proof. intros []. split; cbn; auto; words; lia. Qed.

Lemma set_table_twice l1 n1 l2 n2 c : set_table l2 n2 (set_table l1 n1 c) = set_table l2 n2 c.
Proof. done. Qed.

(** Outcome of a table operation: the process moved on quietly, the client is
    well formed and only its table changed, to [m]. *)
Definition table_step (s : cli_state) (m : gmap Z bytes) (s' : cli_state) : Prop :=
  world_ok (cli_world s') /\ world_quiet (cli_world s) (cli_world s') /\
  cli_ok (cli s') /\ same_but_table (cli s) (cli s') /\ roster (cli_peers (cli s')) = m.

Lemma table_step_same s :
  world_ok (cli_world s) -> cli_ok (cli s) -> table_step s (roster (cli_peers (cli s))) s.
Proof. intros Hw Hc. split; [done|]. split; [reflexivity|]. split; [done|]. split; [now destruct (cli s) as []|done]. Qed.

Lemma actives_le l : zlen (actives l) <= zlen l.
Proof. induction l as [|p l IH]; [done|]. rewrite actives_cons, zlen_cons. destruct (active p); lia. Qed.

Lemma actives_lt l i p : l !! i = Some p -> active p = false -> zlen (actives l) < zlen l.
Proof.
  intros Hi Ha. pose proof (actives_insert l i p (set_active true p) Hi) as H. rewrite Ha in H. cbn in H.
  pose proof (actives_le (<[i := set_active true p]> l)) as Hle. unfold zlen at 2 in Hle.
  rewrite length_insert in Hle. unfold zlen in *. lia.
Qed.

Lemma actives_all l : Forall (fun p => active p = true) l -> zlen (actives l) = zlen l.
Proof. induction 1 as [|p l Hp _ IH]; [done|]. rewrite actives_cons, zlen_cons, Hp. lia. Qed.

Lemma roster_absent l vip : Forall (fun p => matches vip p = false) l -> roster l !! vip = None.
Proof. intros H. now rewrite roster_lookup, find_absent. Qed.

Lemma roster_present l i p vip :
  unique_vips l -> l !! i = Some p -> active p = true -> virt_ip p = vip -> roster l !! vip = Some (name p).
Proof. intros HU Hi Ha Hv. now rewrite roster_lookup, (find_at l i p vip). Qed.

(** One record stored, nothing else. *)
Lemma table_step_save s w i old new d m :
  cli_ok (cli s) -> world_ok w -> world_quiet (cli_world s) w ->
  cli_peers (cli s) !! i = Some old -> peer_ok new ->
  (active new = true -> slot_for (cli_peers (cli s)) i (virt_ip new)) ->
  d = (if active new then 1 else 0) - (if active old then 1 else 0) ->
  roster (<[i := new]> (cli_peers (cli s))) = m ->
  table_step s m (CliState w
    (set_table (<[i := new]> (cli_peers (cli s))) (cli_peer_count (cli s) + d) (cli s))).
Proof.
  intros Hc Hw Hq Hi Hn Hs Hd Hm. split; [done|]. split; [done|].
  split; [now apply (save_ok _ _ old)|]. split; [done|]. exact Hm.
Qed.

Lemma tick_ok w : world_ok w -> world_ok (tick w) /\ world_quiet w (tick w).
Proof. intros Hw. split; quiet. Qed.

(** A known peer is announced again. *)
Lemma run_fill_known s k p vip nm field :
  world_ok (cli_world s) -> cli_ok (cli s) -> is_u32 vip -> bytes_ok nm -> stored_name nm field ->
  cli_peers (cli s) !! k = Some p -> active p = true -> virt_ip p = vip ->
  exists s', run (fill_slot (Z.of_nat k) vip (Some nm)) s = Some (tt, s') /\
    table_step s (<[vip := field]> (roster (cli_peers (cli s)))) s'.
Proof.
  intros Hw Hc Hv Hb Hs Hk Ha <-. destruct (slot_range s Hc k p Hk) as [Hpo _].
  destruct (stored_name_ok _ _ Hb Hs) as [Hf _]. destruct (tick_ok _ Hw) as [Hw1 Hq1].
  pose proof (slot_self _ _ _ Hk Ha) as Hself.
  rewrite (run_fill_slot _ k _ _ field p) by done. eexists. split; [reflexivity|].
  apply (table_step_save s _ k p); auto.
  - apply announced_ok; auto. apply (ok_time _ (proj1 Hw)).
  - cbn. now rewrite Ha.
  - apply roster_insert; [apply Hc|done|done].
Qed.

(** A new peer takes a free slot. *)
Lemma run_fill_free s k p vip nm field :
  world_ok (cli_world s) -> cli_ok (cli s) -> is_u32 vip -> bytes_ok nm -> stored_name nm field ->
  cli_peers (cli s) !! k = Some p -> active p = false ->
  Forall (fun p => matches vip p = false) (cli_peers (cli s)) ->
  exists s', run (let* p := load_peer (Z.of_nat k) in
                  save_peer (Z.of_nat k) (reset_traffic p) 1 ;; fill_slot (Z.of_nat k) vip (Some nm)) s =
      Some (tt, s') /\
    table_step s (<[vip := field]> (roster (cli_peers (cli s)))) s'.
Proof.
  intros Hw Hc Hv Hb Hs Hk Ha HF. destruct (slot_range s Hc k p Hk) as [Hpo _].
  destruct (stored_name_ok _ _ Hb Hs) as [Hf _]. destruct (tick_ok _ Hw) as [Hw1 Hq1].
  assert (Hslot : slot_for (cli_peers (cli s)) k vip) by (exists p; auto).
  rewrite run_bind, (run_load_peer _ _ _ Hk), run_bind, (run_save_peer _ _ _ _ p) by done.
  erewrite (run_fill_slot _ k) with (field := field) (old := reset_traffic p);
    [|cbn; apply list_lookup_insert_eq; now apply lookup_lt_Some in Hk|done|done].
  cbn [cli cli_world cli_peers cli_peer_count set_table]. rewrite set_table_twice, list_insert_insert_eq.
  rewrite Z.add_0_r. eexists. split; [reflexivity|].
  apply (table_step_save s _ k p); auto.
  - apply announced_ok; auto using reset_ok. apply (ok_time _ (proj1 Hw)).
  - cbn. now rewrite Ha.
  - apply roster_insert; [apply Hc|done|done].
Qed.

(** A known peer is dropped. *)
Lemma run_drop_peer s k p :
  world_ok (cli_world s) -> cli_ok (cli s) -> cli_peers (cli s) !! k = Some p -> active p = true ->
  exists s', run (save_peer (Z.of_nat k) (set_active false p) (-1)) s = Some (tt, s') /\
    table_step s (delete (virt_ip p) (roster (cli_peers (cli s)))) s'.
Proof.
  intros Hw Hc Hk Ha. destruct (slot_range s Hc k p Hk) as [Hpo _].
  rewrite (run_save_peer _ _ _ _ p) by done. eexists. split; [reflexivity|].
  apply (table_step_save s _ k p); auto with tund.
  - reflexivity.
  - done.
  - cbn. now rewrite Ha.
  - apply roster_delete; [apply Hc|done|done].
Qed.

(** [client_update_peer] is insertion into, or deletion from, the map. *)
Lemma run_update_peer s vip nm field online :
  world_ok (cli_world s) -> cli_ok (cli s) -> is_u32 vip -> bytes_ok nm -> stored_name nm field ->
  exists s', run (client_update_peer vip (Some nm) online) s = Some (tt, s') /\
    table_step s (update_roster (has_room (cli s) vip) vip field online (roster (cli_peers (cli s)))) s'.
Proof.
  intros Hw Hc Hv Hb Hs. unfold client_update_peer, update_roster, has_room.
  set (l := cli_peers (cli s)). rewrite (ok_cli_count _ Hc). fold l. cbn [run locked atomic load bind].
  fold l. pose proof (update_scan_spec l 0 vip (-1) ltac:(lia) ltac:(lia)) as HS.
  assert (Hl : zlen l = TUND_MAX_PEERS) by (unfold zlen, l; now rewrite (ok_cli_slots _ Hc)).
  assert (Hsame := table_step_same s Hw Hc). fold l in Hsame.
  destruct (update_scan l 0 vip (-1)) as [idx free].
  destruct HS as [(-> & HF & Hfree)|(k & p & -> & Hk & Ha & Hp)].
  - rewrite (roster_absent l vip HF). destruct online.
    2:{ exists s. split; [done|]. rewrite delete_id by now apply roster_absent. done. }
    change (-1 <? 0) with true. cbn iota.
    destruct Hfree as [[-> [Hbad|Hall]]|(_ & k & p & -> & Hk & Ha)]; [lia| |].
    { exists s. split; [done|]. rewrite (actives_all _ Hall), Hl, Z.ltb_irrefl. done. }
    rewrite Z.add_0_l. destruct (Z.ltb_spec (Z.of_nat k) 0); [lia|].
    pose proof (actives_lt l k p Hk Ha) as Hlt. rewrite Hl in Hlt. apply Z.ltb_lt in Hlt. rewrite Hlt.
    destruct (run_fill_free s k p vip nm field) as (s' & -> & Hs'); auto. eauto.
  - rewrite Z.add_0_l, (roster_present l k p vip) by (done || apply Hc). destruct online.
    + destruct (Z.ltb_spec (Z.of_nat k) 0); [lia|].
      destruct (run_fill_known s k p vip nm field) as (s' & -> & Hs'); eauto.
    + destruct (Z.leb_spec 0 (Z.of_nat k)); [|lia].
      rewrite run_bind, (run_load_peer _ _ _ Hk). subst vip.
      destruct (run_drop_peer s k p) as (s' & -> & Hs'); eauto.
Qed.

(** * Departures and traffic *)

Lemma unknown_name_ok : name_ok unknown_name.
Proof.
  split; [apply length_pad_to|]. split; [|now eexists].
  apply pad_to_ok. repeat constructor; words; cbn; lia.
Qed.

(** A name cut to 31 bytes over a terminated array stays terminated. *)
Lemma copy_name p :
  peer_ok p -> exists nm, (let? src := strncpy (name p) (Z.to_nat (TUND_NAME_LEN - 1)) in
    mem_write unknown_name 0 src) = Some nm /\ exists z, c_str nm = Some z.
Proof.
  intros Hp. destruct (ok_name _ Hp) as (Hl & Hb & _).
  change (Z.to_nat (TUND_NAME_LEN - 1)) with 31%nat.
  destruct (strncpy_full (name p) 31 ltac:(lia)) as [src Hs]. rewrite Hs.
  pose proof (strncpy_length _ _ _ Hs) as Hls. exists (src ++ [0]). split; [|apply terminated_app].
  change unknown_name with (pad_to 31 (str "unknown") ++ [0]).
  now apply (mem_write_at [] (pad_to 31 (str "unknown")) [0]).
Qed.

Lemma find_match l vip :
  (find_index (matches vip) l 0 = -1 /\ Forall (fun p => matches vip p = false) l) \/
  exists k p, find_index (matches vip) l 0 = Z.of_nat k /\ l !! k = Some p /\ active p = true /\
    virt_ip p = vip.
Proof.
  destruct (find_index_spec (matches vip) l 0) as [H|(k & p & H1 & H2 & H3 & _)]; [by left|right].
  apply matches_true in H3 as [Ha Hv]. exists k, p. rewrite H1. auto.
Qed.

Lemma run_leave s vip :
  world_ok (cli_world s) -> cli_ok (cli s) ->
  exists nm s', run (leave_locked vip) s = Some ((nm, cli_peer_count (cli s')), s') /\
    (exists z, c_str nm = Some z) /\ table_step s (delete vip (roster (cli_peers (cli s)))) s'.
Proof.
  intros Hw Hc. unfold leave_locked. fold (matches vip). cbn [run atomic load bind]. rewrite run_bind.
  destruct (find_match (cli_peers (cli s)) vip) as [[-> HF]|(k & p & -> & Hk & Ha & Hv)].
  - cbn -[unknown_name]. exists unknown_name, s. split; [done|]. split; [apply unknown_name_ok|].
    rewrite delete_id by now apply roster_absent. now apply table_step_same.
  - destruct (Z.leb_spec 0 (Z.of_nat k)); [|lia]. destruct (slot_range s Hc k p Hk) as [Hpo _].
    rewrite run_bind, (run_load_peer _ _ _ Hk), run_bind. fold (matches vip).
    destruct (copy_name p Hpo) as (nm & -> & Hnm). cbn [local run]. rewrite run_bind.
    destruct (run_drop_peer s k p) as (s' & -> & Hs'); auto. subst vip. exists nm, s'. auto.
Qed.

Lemma run_add_peer_traffic s vip a b :
  world_ok (cli_world s) -> cli_ok (cli s) ->
  exists s', run (client_add_peer_traffic vip a b) s = Some (tt, s') /\
    table_step s (roster (cli_peers (cli s))) s'.
Proof.
  intros Hw Hc. unfold client_add_peer_traffic. cbn [run atomic locked load bind]. fold (matches vip).
  destruct (find_match (cli_peers (cli s)) vip) as [[-> HF]|(k & p & -> & Hk & Ha & Hv)].
  - exists s. split; [done|]. now apply table_step_same.
  - destruct (Z.leb_spec 0 (Z.of_nat k)); [|lia]. destruct (slot_range s Hc k p Hk) as [Hpo _].
    rewrite run_bind, (run_load_peer _ _ _ Hk), (run_save_peer _ _ _ _ p) by done.
    eexists. split; [reflexivity|]. apply (table_step_save s _ k p); auto with tund.
    + reflexivity.
    + intros _. exact (slot_self _ _ _ Hk Ha).
    + cbn. now rewrite Ha.
    + now apply (roster_same _ _ p).
Qed.

Lemma roster_map l (f : peer_t -> peer_t) :
  (forall p, active (f p) = active p /\ virt_ip (f p) = virt_ip p /\ name (f p) = name p) ->
  roster (map f l) = roster l /\ zlen (actives (map f l)) = zlen (actives l) /\
  (unique_vips l -> unique_vips (map f l)).
Proof.
  intros Hf. split; [|split].
  - induction l as [|p l IH]; [done|]. destruct (Hf p) as (Ha & Hv & Hn). unfold roster in *. cbn.
    now rewrite Ha, Hv, Hn, IH.
  - induction l as [|p l IH]; [done|]. cbn [map]. destruct (Hf p) as (Ha & _).
    rewrite !actives_cons, Ha, IH. done.
  - intros HU i j p q Hi Hj Hp Hq E. rewrite list_lookup_fmap in Hi, Hj.
    destruct (l !! i) as [p0|] eqn:Hi0; [|done]. destruct (l !! j) as [q0|] eqn:Hj0; [|done].
    cbn in Hi, Hj. injection Hi as <-. injection Hj as <-.
    destruct (Hf p0) as (Ha & Hv & _), (Hf q0) as (Ha' & Hv' & _).
    apply (HU i j p0 q0); congruence.
Qed.

Lemma run_add_broadcast_traffic s b :
  world_ok (cli_world s) -> cli_ok (cli s) ->
  exists s', run (client_add_broadcast_traffic b) s = Some (tt, s') /\
    table_step s (roster (cli_peers (cli s))) s'.
Proof.
  intros Hw Hc. eexists. split; [reflexivity|]. set (f := fun p => if active p then _ else p).
  destruct (roster_map (cli_peers (cli s)) f) as (HR & HA & HU).
  { intros p. unfold f. destruct (active p) eqn:E; cbn; auto. }
  split; [done|]. split; [reflexivity|]. split; [|split; [done|exact HR]].
  pose proof (ok_cli_peers _ Hc) as HP. destruct Hc. split; cbn; auto.
  - apply Forall_map. eapply Forall_impl; [exact HP|]. intros p Hp. unfold f.
    destruct (active p); auto with tund.
  - now rewrite length_map.
  - change (cli_peer_count (cli s) = zlen (actives (map f (cli_peers (cli s))))). now rewrite HA.
Qed.

(** * The size of the map is [peer_count] *)

Lemma unique_vips_tail p l : unique_vips (p :: l) -> unique_vips l.
Proof. intros HU i j q r Hi Hj Hq Hr E. specialize (HU (S i) (S j) q r Hi Hj Hq Hr E). lia. Qed.

Lemma roster_size l : unique_vips l -> Z.of_nat (size (roster l)) = zlen (actives l).
Proof.
  induction l as [|p l IH]; intros HU; [done|]. rewrite actives_cons. specialize (IH (unique_vips_tail _ _ HU)).
  cbn [roster foldr]. fold (roster l). destruct (active p) eqn:Ha; [|lia].
  rewrite map_size_insert_None; [lia|]. apply roster_absent, Forall_lookup. intros i q Hi.
  apply not_true_is_false. intros Hm. apply matches_true in Hm as [Hq Hv].
  specialize (HU (S i) 0%nat q p Hi eq_refl Hq Ha Hv). lia.
Qed.

(** Whether an announcement of [vip] finds a slot, read off the map. *)
Definition room (m : gmap Z bytes) (vip : Z) : bool :=
  match m !! vip with Some _ => true | None => Z.of_nat (size m) <? TUND_MAX_PEERS end.

(** One announcement: address, name field, and whether the peer is online. *)
Definition announce (m : gmap Z bytes) (e : Z * bytes * bool) : gmap Z bytes :=
  let '(vip, field, online) := e in
  if online then if room m vip then <[vip := field]> m else m else delete vip m.

Lemma has_room_map c vip : cli_ok c -> has_room c vip = room (roster (cli_peers c)) vip.
Proof.
  intros Hc. unfold has_room, room. rewrite (roster_size _ (ok_cli_vips _ Hc)), (ok_cli_count _ Hc). done.
Qed.

Lemma run_announce s vip nm field online :
  world_ok (cli_world s) -> cli_ok (cli s) -> is_u32 vip -> bytes_ok nm -> stored_name nm field ->
  exists s', run (client_update_peer vip (Some nm) online) s = Some (tt, s') /\
    table_step s (announce (roster (cli_peers (cli s))) (vip, field, online)) s'.
Proof.
  intros Hw Hc Hv Hb Hs. destruct (run_update_peer s vip nm field online) as (s' & Hr & Ht); auto.
  exists s'. split; [done|]. unfold update_roster in Ht. now rewrite has_room_map in Ht.
Qed.

Lemma same_but_table_trans c1 c2 c3 :
  same_but_table c1 c2 -> same_but_table c2 c3 -> same_but_table c1 c3.
Proof. unfold same_but_table. intros H1 H2. rewrite H2 at 1. now rewrite H1. Qed.

Lemma table_step_trans s1 m1 s2 m2 s3 : table_step s1 m1 s2 -> table_step s2 m2 s3 -> table_step s1 m2 s3.
Proof.
  intros (Hw1 & Hq1 & Hc1 & Hs1 & _) (Hw2 & Hq2 & Hc2 & Hs2 & Hm).
  split; [done|]. split; [now transitivity (cli_world s2)|]. split; [done|].
  split; [now apply (same_but_table_trans _ (cli s2))|done].
Qed.
