(* ===== verification/ClientSafe.v ===== *)
(** The client's handlers are safe: no datagram that decrypts under the shared
    key makes them undefined, as long as names announced by PEER_JOIN are
    terminated; what they send goes to the server. *)
From stdpp Require Import base list numbers option gmap.
From S2P Require Import Prelude Prog World Consts Sequence Wire Ipv4 Crypto Events Replay Peer Net Messages Boot Client ClientTable.

(** * The client's invariant *)

(** The client is well formed, talks to [addr], and the process satisfies [W]. *)
Definition attached (addr : sockaddr_in) (W : world -> Prop) (s : cli_state) : Prop :=
  cli_ok (cli s) /\ cli_server_addr (cli s) = addr /\ W (cli_world s).

#[export] Instance attached_framed addr W {HQ : Quiet W} : Framed (attached addr W).
Proof. intros w s (H1 & H2 & H3) Hq. split; [done|]. split; [done|]. now apply (HQ _ _ H3). Qed.

#[export] Instance attached_permits addr W e {HA : Allows W e} : Permits (attached addr W) e.
Proof. intros w s (H1 & H2 & H3) He Hk Hg Ht. split; [done|]. split; [done|]. now apply (HA _ _ H3). Qed.

#[export] Instance attached_governs addr W : Governs (attached addr W) W.
Proof. split; [now intros s (_ & _ & ?)|]. intros e He. now apply attached_permits. Qed.

(** * Messages that a client can use *)

(** The name in a PEER_JOIN is terminated. *)
Definition joinable (payload : bytes) : Prop :=
  36 <= zlen payload -> exists z, c_str (take 32 (drop 4 payload)) = Some z.

(** The fields of a packet do not depend on what follows it in the buffer. *)
Lemma head_fields pkt rest : 20 <= zlen pkt ->
  ip_version (pkt ++ rest) = ip_version pkt /\ ip_header_len (pkt ++ rest) = ip_header_len pkt /\
  ip_total_len (pkt ++ rest) = ip_total_len pkt /\ ip_src (pkt ++ rest) = ip_src pkt /\
  ip_dst (pkt ++ rest) = ip_dst pkt.
Proof.
  unfold zlen. intros Hl.
  assert (Hb : forall i, (i < 20)%nat -> ip_byte (pkt ++ rest) i = ip_byte pkt i).
  { intros i Hi. unfold ip_byte. apply app_nth1. lia. }
  assert (Hf : forall o, (o + 4 <= 20)%nat -> take 4 (drop o (pkt ++ rest)) = take 4 (drop o pkt)).
  { intros o Ho. rewrite drop_app_le by lia. apply take_app_le. rewrite length_drop. lia. }
  unfold ip_version, ip_header_len, ip_total_len, ip_src, ip_dst. now rewrite ?Hb, ?Hf by lia.
Qed.

Lemma lan_packet_app pkt rest n : 20 <= zlen pkt -> lan_packet (pkt ++ rest) n <-> lan_packet pkt n.
Proof.
  intros Hl. destruct (head_fields pkt rest Hl) as (E1 & E2 & E3 & E4 & E5).
  split; intros []; split; try congruence; now rewrite <- ?E2, <- ?E4, <- ?E5 || rewrite ?E2, ?E4, ?E5.
Qed.

(** A packet of the virtual LAN is one whatever follows it in the buffer. *)
Lemma lan_packet_take pkt n :
  0 <= n <= zlen pkt -> lan_packet pkt n -> lan_packet (take (Z.to_nat n) pkt) n.
Proof.
  intros Hn Hlan. pose proof (lan_min _ _ Hlan). rewrite <- (take_drop (Z.to_nat n) pkt) in Hlan.
  refine (proj1 (lan_packet_app _ _ n _) Hlan). unfold zlen in *. rewrite length_take. lia.
Qed.

Lemma read_entry_total payload plen i :
  bytes_ok payload -> plen <= zlen payload ->
  exists r, proto_read_peer_entry payload plen i = Some r /\
    forall vip nm online, r = Some (vip, nm, online) ->
      is_u32 vip /\ length nm = 32%nat /\ bytes_ok nm.
Proof.
  intros Hb Hl. unfold proto_read_peer_entry. destruct (Z.ltb_spec i 0); [now exists None|].
  destruct (Z.ltb_spec plen (i * TUND_PEER_ENTRY_SIZE + TUND_PEER_ENTRY_SIZE)); [now exists None|].
  set (o := i * TUND_PEER_ENTRY_SIZE) in *. assert (0 <= o) by (unfold o; apply Z.mul_nonneg_nonneg; [lia|done]).
  destruct (mem_read payload (o + TUND_PEER_ENTRY_IP_OFFSET) 4) as [ip|] eqn:Eip;
    [|rewrite mem_read_some in Eip by (consts; lia); done].
  destruct (mem_read payload (o + TUND_PEER_ENTRY_NAME_OFFSET) TUND_NAME_LEN) as [nm|] eqn:Enm;
    [|rewrite mem_read_some in Enm by (consts; lia); done].
  pose proof (mem_read_length _ _ _ _ Enm) as Hnl. pose proof (mem_read_length _ _ _ _ Eip) as Hil.
  destruct (mem_write nm (TUND_NAME_LEN - 1) [0]) as [nm'|] eqn:Ew;
    [|rewrite mem_write_some in Ew by (rewrite ?zlen_cons, ?zlen_nil; consts; lia); done].
  destruct (buf_get_some payload (o + TUND_PEER_ENTRY_STATUS_OFFSET)) as [st ->]; [consts; lia|].
  eexists. split; [reflexivity|]. intros vip nm0 online [= <- <- _].
  pose proof (le_combine_bound ip (mem_read_ok _ _ _ _ Hb Eip)) as Hi.
  split; [|split].
  - replace (length ip) with 4%nat in Hi by (unfold zlen in Hil; lia). exact Hi.
  - rewrite (mem_write_length _ _ _ _ Ew). clia.
  - apply (mem_write_ok _ _ _ _ (mem_read_ok _ _ _ _ Hb Enm)) in Ew; [done|].
    repeat constructor; words; lia.
Qed.

Lemma run_locked {S A} (p : prog S A) s : run (locked p) s = run p s.
Proof. cbn. now destruct (run p s) as [[]|]. Qed.

(** * Reports *)

Section reports.
Context (J : cli_state -> Prop) {F : Framed J}.

Lemma safe_log_peers :
  (forall s, J s -> cli_ok (cli s)) -> safe J client_log_peers (fun _ => True).
Proof.
  intros HJ. unfold client_log_peers. apply safe_locked.
  do 3 (eapply safe_bind; [logging|]; intros _ _).
  eapply (safe_bind _ _ _ (Forall peer_ok)).
  { apply guar_atomic. intros s Hs. exists (cli_peers (cli s)), s. split; [done|]. split; [done|].
    split; [apply rel_refl|]. apply HJ, Hs. }
  intros l Hl. eapply (safe_bind _ _ _ (fun _ => True)); [|intros _ _; logging].
  eapply safe_for_each; [exact Hl|]. intros p Hp. destruct (active p); [|done].
  destruct (name_ok_str _ (ok_name _ Hp)) as (z & Hz & _). eapply safe_LOG; [typeclasses eauto|].
  repeat constructor; [apply ip_terminated|eauto].
Qed.

Lemma safe_report p : safe J p (fun _ => True) -> safe J (report_peers p) (fun _ => True).
Proof.
  intros Hp. unfold report_peers. eapply safe_bind.
  - apply (safe_read_world _ _ (fun _ => True)). done.
  - intros [] _; done.
Qed.
End reports.

(** * Operations under the lock *)

Section ops.
Context (addr : sockaddr_in) (W : world -> Prop) {HQ : Quiet W}.
Notation J := (attached addr W).

Lemma attached_step s m s' : inv J s -> table_step s m s' -> inv J s' /\ rel s s'.
Proof.
  intros [Hw (Hc & Ha & HW)] (Hw' & Hq & Hc' & Hs & _). split; [|now apply world_quiet_step].
  split; [done|]. split; [done|]. split; [|now apply (HQ _ _ HW)]. rewrite Hs. exact Ha.
Qed.

Lemma safe_table_op {A} (p : prog cli_state A) (Q : A -> Prop) :
  (forall s, world_ok (cli_world s) -> cli_ok (cli s) ->
     exists a s' m, run p s = Some (a, s') /\ table_step s m s' /\ Q a) ->
  safe J (locked p) Q.
Proof.
  intros Hp. apply guar_atomic. intros s Hs. destruct (Hp s) as (a & s' & m & Hr & Ht & HQa).
  - apply Hs.
  - apply Hs.
  - exists a, s'. destruct (attached_step _ _ _ Hs Ht). auto.
Qed.

Lemma safe_update_peer vip nm online :
  is_u32 vip -> bytes_ok nm -> length nm = 32%nat ->
  safe J (client_update_peer vip (Some nm) online) (fun _ => True).
Proof.
  intros Hv Hb Hl. destruct (stored_total nm) as [field Hf]; [lia|]. unfold client_update_peer.
  apply safe_table_op. intros s Hw Hc.
  destruct (run_update_peer s vip nm field online Hw Hc Hv Hb Hf) as (s' & Hr & Ht).
  unfold client_update_peer in Hr. rewrite run_locked in Hr. eauto 6.
Qed.

Lemma safe_add_peer_traffic vip a b : safe J (client_add_peer_traffic vip a b) (fun _ => True).
Proof.
  unfold client_add_peer_traffic. apply safe_table_op. intros s Hw Hc.
  destruct (run_add_peer_traffic s vip a b Hw Hc) as (s' & Hr & Ht).
  unfold client_add_peer_traffic in Hr. rewrite run_locked in Hr. eauto 6.
Qed.

Lemma safe_add_broadcast_traffic b : safe J (client_add_broadcast_traffic b) (fun _ => True).
Proof.
  unfold client_add_broadcast_traffic. apply safe_table_op. intros s Hw Hc.
  destruct (run_add_broadcast_traffic s b Hw Hc) as (s' & Hr & Ht).
  unfold client_add_broadcast_traffic in Hr. rewrite run_locked in Hr. eauto 6.
Qed.

Lemma safe_leave_section vip :
  safe J (locked (leave_locked vip)) (fun '(nm, _) => exists z, c_str nm = Some z).
Proof.
  apply safe_table_op. intros s Hw Hc. destruct (run_leave s vip Hw Hc) as (nm & s' & Hr & Hn & Ht).
  eauto 6.
Qed.

Lemma safe_load {A} (f : client_t -> A) (Q : A -> Prop) :
  (forall c, cli_ok c -> cli_server_addr c = addr -> Q (f c)) -> safe J (load f) Q.
Proof.
  intros Hf. apply guar_atomic. intros s Hs. exists (f (cli s)), s. split; [done|]. split; [done|].
  split; [apply rel_refl|]. apply Hf; apply Hs.
Qed.

(** A field outside of the table is stored. *)
Lemma safe_save f :
  (forall c, cli_ok c -> cli_ok (f c) /\ cli_server_addr (f c) = cli_server_addr c) ->
  safe J (save f) (fun _ => True).
Proof.
  intros Hf. apply guar_atomic. intros s [Hw (Hc & Ha & HW)]. destruct (Hf _ Hc) as [Hc' Ha'].
  eexists tt, _. split; [reflexivity|]. split; [|split; [apply world_step_refl|done]].
  split; [done|]. split; [done|]. split; [|done]. cbn. congruence.
Qed.

Lemma safe_mark_seen : safe J client_mark_server_seen (fun _ => True).
Proof.
  unfold client_mark_server_seen. eapply safe_bind; [apply safe_time; typeclasses eauto|]. intros now _.
  destruct (0 <? now); [|done]. apply safe_save. intros c []. split; [|done]. split; cbn; auto. apply u64_range.
Qed.
End ops.

(** * Handlers *)

Section handlers.
Context `{M : Monocypher} {ML : MonocypherLaws M}.
Context (addr : sockaddr_in) (W : world -> Prop) {HQ : Quiet W}.
Notation J := (attached addr W).

Lemma safe_load_addr : safe J (load cli_server_addr) (fun a => a = addr).
Proof. now apply safe_load. Qed.

(** The reply to the server carries the timestamp that was received. *)
Lemma safe_client_keepalive payload plen :
  bytes_ok payload -> plen <= zlen payload ->
  (8 <= plen -> grants W addr MSG_KEEPALIVE_ACK (be_split 8 (be_combine (take 8 payload)))) ->
  safe J (client_handle_keepalive payload plen) (fun _ => True).
Proof.
  intros Hb Hp HG. unfold client_handle_keepalive.
  destruct (read_timestamp payload plen Hb Hp) as [-> _]. cbn [local bind].
  destruct (Z.ltb_spec plen 8); [done|].
  eapply safe_bind; [apply alloc_pkt; typeclasses eauto|]. intros buf [Hbuf _].
  eapply safe_bind.
  { apply safe_build_timestamp; [typeclasses eauto|done|words; unfold MSG_KEEPALIVE_ACK; lia]. }
  intros [len buf1] Hb1. eapply safe_bind; [apply safe_load_addr|]. intros dest ->.
  eapply safe_bind.
  { apply (safe_send_built _ W _ _ _ _ _ _ Hb1); auto. words; unfold MSG_KEEPALIVE_ACK; lia. }
  intros r _. destruct (r <? 0); [logging|done].
Qed.

Lemma safe_client_keepalive_ack payload plen :
  bytes_ok payload -> plen <= zlen payload ->
  safe J (client_handle_keepalive_ack payload plen) (fun _ => True).
Proof.
  intros Hb Hp. unfold client_handle_keepalive_ack.
  destruct (read_timestamp payload plen Hb Hp) as [-> Hts]. cbn [local bind].
  destruct (plen <? 8); [done|].
  eapply safe_bind; [apply safe_now_ms; typeclasses eauto|]. intros now Hnow.
  destruct (_ <? _); [done|].
  eapply (safe_bind _ _ _ (fun _ => True)); [|intros _ _; logging].
  apply safe_save. intros c []. split; [|done]. split; cbn; auto. apply smooth_range, u64_range.
Qed.

Lemma safe_peer_list_loop n : forall payload plen i,
  bytes_ok payload -> plen <= zlen payload ->
  safe J (peer_list_loop n payload plen i) (fun _ => True).
Proof.
  induction n as [|n IH]; intros payload plen i Hb Hp; cbn [peer_list_loop]; [done|].
  destruct (read_entry_total payload plen i Hb Hp) as (r & -> & Hr). cbn [local bind].
  destruct r as [[[vip nm] online]|]; [|done]. destruct (Hr vip nm online eq_refl) as (Hv & Hl & Hnb).
  eapply safe_bind; [now apply safe_update_peer|]. intros _ _. now apply IH.
Qed.

Lemma safe_client_peer_list payload plen :
  bytes_ok payload -> plen <= zlen payload ->
  safe J (client_handle_peer_list payload plen) (fun _ => True).
Proof.
  intros Hb Hp. unfold client_handle_peer_list.
  eapply safe_bind; [apply safe_report; [typeclasses eauto|logging]|]. intros _ _.
  eapply safe_bind; [now apply safe_peer_list_loop|]. intros _ _.
  apply safe_report; [typeclasses eauto|]. destruct (_ <? _); [apply safe_log_peers; [typeclasses eauto|now intros ? []]|done].
Qed.

Lemma read_vip payload :
  bytes_ok payload -> 4 <= zlen payload ->
  mem_read payload 0 4 = Some (take 4 payload) /\ is_u32 (le_combine (take 4 payload)).
Proof.
  intros Hb Hl. split; [now rewrite mem_read_some by lia|].
  pose proof (le_combine_bound (take 4 payload) (bytes_ok_take 4 _ Hb)) as H.
  rewrite length_take, Nat.min_l in H by (unfold zlen in *; lia). exact H.
Qed.

Lemma safe_client_peer_join payload plen :
  bytes_ok payload -> plen <= zlen payload ->
  (36 <= plen -> exists z, c_str (take 32 (drop 4 payload)) = Some z) ->
  safe J (client_handle_peer_join payload plen) (fun _ => True).
Proof.
  intros Hb Hp Hj. unfold client_handle_peer_join.
  destruct (Z.ltb_spec plen (4 + TUND_NAME_LEN)) as [|H]; [done|]. consts.
  destruct (read_vip payload Hb ltac:(lia)) as [-> Hv]. cbn [local bind].
  rewrite mem_read_some by lia. cbn [local bind].
  change (Z.to_nat 4) with 4%nat. change (Z.to_nat 32) with 32%nat.
  destruct Hj as [z Hz]; [lia|].
  eapply (safe_bind _ _ _ (fun _ => True)).
  { eapply safe_LOG; [typeclasses eauto|]. repeat constructor; [eauto|apply ip_terminated]. }
  intros _ _. eapply safe_bind.
  { apply safe_update_peer; [done|done|auto using bytes_ok_take, bytes_ok_drop|].
    rewrite length_take, length_drop. unfold zlen in *. lia. }
  intros _ _. apply safe_report; [typeclasses eauto|]. apply safe_log_peers; [typeclasses eauto|now intros ? []].
Qed.

Lemma safe_client_peer_leave payload plen :
  bytes_ok payload -> plen <= zlen payload ->
  safe J (client_handle_peer_leave payload plen) (fun _ => True).
Proof.
  intros Hb Hp. unfold client_handle_peer_leave. destruct (Z.ltb_spec plen 4); [done|].
  destruct (read_vip payload Hb ltac:(lia)) as [-> Hv]. cbn [local bind].
  eapply safe_bind; [now apply safe_leave_section|]. intros [nm remaining] [z Hz].
  eapply (safe_bind _ _ _ (fun _ => True)).
  { eapply safe_LOG; [typeclasses eauto|]. repeat constructor; [eauto|apply ip_terminated]. }
  intros _ _. apply safe_report; [typeclasses eauto|]. destruct (_ <? _); [apply safe_log_peers; [typeclasses eauto|now intros ? []]|logging].
Qed.

(** Only packets of the virtual LAN reach the TUN device. *)
Lemma safe_client_data payload plen :
  bytes_ok payload -> 0 <= plen <= zlen payload -> is_u16 plen ->
  (lan_packet (take (Z.to_nat plen) payload) plen -> Allows W (EvTunWrite (take (Z.to_nat plen) payload))) ->
  safe J (client_handle_data payload plen) (fun _ => True).
Proof.
  intros Hb Hp Hu HA. unfold client_handle_data.
  rewrite validate_verdict by (done || lia). cbn [local bind].
  destruct (Z.eqb_spec (ipv4_verdict payload plen) TUND_IPV4_OK) as [Hok|]; cbn [negb]; [|logging].
  apply verdict_ok in Hok. pose proof (lan_min _ _ Hok).
  destruct (get_src_spec payload plen) as (src & -> & _); [lia|]. cbn [local bind].
  eapply safe_bind; [now apply safe_add_peer_traffic|]. intros _ _.
  rewrite mem_read_some by lia. cbn [local bind]. rewrite drop_0.
  eapply safe_bind; [|done]. apply safe_tun_write.
  pose proof (HA (lan_packet_take _ _ Hp Hok)). typeclasses eauto.
Qed.

Lemma safe_accept sequence :
  is_u64 sequence -> safe J (accept_from_server sequence) (fun _ => True).
Proof.
  intros Hs. unfold accept_from_server.
  eapply (safe_bind _ _ _ window_ok); [apply safe_load; intros c Hc _; apply Hc|]. intros w Hw.
  destruct (proto_replay_accept w sequence) as [ok w'] eqn:E.
  eapply (safe_bind _ _ _ (fun _ => True)); [|done]. apply safe_save. intros c []. split; [|done].
  split; cbn; auto. pose proof (accept_window_ok w sequence Hw Hs) as H. now rewrite E in H.
Qed.
End handlers.

(** * Dispatch *)

Section dispatch.
Context `{M : Monocypher} {ML : MonocypherLaws M}.
Context (addr : sockaddr_in) (W : world -> Prop) {HQ : Quiet W} (ok : Z -> bytes -> Prop).
Notation J := (attached addr W).
Hypothesis may_ack : forall ts, grants W addr MSG_KEEPALIVE_ACK (be_split 8 ts).
Hypothesis may_write : forall pkt, lan_packet pkt (zlen pkt) -> ok MSG_DATA pkt -> Allows W (EvTunWrite pkt).
Hypothesis may_join : forall payload, ok MSG_PEER_JOIN payload -> joinable payload.

(** Every message that decrypts is handled. *)
Lemma safe_dispatch type payload rest :
  bytes_ok (payload ++ rest) -> zlen payload <= TUND_MAX_PLAINTEXT -> ok type payload ->
  let all := payload ++ rest in let n := zlen payload in
  safe J (if type =? MSG_DATA then client_handle_data all n
          else if type =? MSG_PEER_LIST then client_handle_peer_list all n
          else if type =? MSG_PEER_JOIN then client_handle_peer_join all n
          else if type =? MSG_PEER_LEAVE then client_handle_peer_leave all n
          else if type =? MSG_KEEPALIVE then client_handle_keepalive all n
          else if type =? MSG_KEEPALIVE_ACK then client_handle_keepalive_ack all n
          else if type =? MSG_DISCONNECT then LOG LOG_LEVEL_WARN [] ;; tund_request_stop
          else LOG LOG_LEVEL_DEBUG []) (fun _ => True).
Proof.
  intros Hall Hm Hok all n. pose proof (zlen_nonneg payload).
  assert (Hlen : 0 <= n <= zlen all).
  { unfold n, all. rewrite zlen_app. pose proof (zlen_nonneg rest). lia. }
  assert (Htake : take (Z.to_nat n) all = payload).
  { unfold n, all, zlen. rewrite Nat2Z.id. apply take_app_length. }
  destruct (Z.eqb_spec type MSG_DATA) as [->|].
  { apply safe_client_data; [done|done|done|unfold n; clia|]. rewrite Htake. intros Hlan.
    now apply may_write. }
  destruct (type =? MSG_PEER_LIST); [apply safe_client_peer_list; [done|done|lia]|].
  destruct (Z.eqb_spec type MSG_PEER_JOIN) as [->|].
  { apply safe_client_peer_join; [done|done|lia|]. intros H36.
    destruct (may_join _ Hok H36) as [z Hz]. exists z. rewrite <- Hz. f_equal.
    unfold all, zlen in *. rewrite drop_app_le by lia. apply take_app_le. rewrite length_drop. lia. }
  destruct (type =? MSG_PEER_LEAVE); [apply safe_client_peer_leave; [done|done|lia]|].
  destruct (type =? MSG_KEEPALIVE); [apply safe_client_keepalive; auto; lia|].
  destruct (type =? MSG_KEEPALIVE_ACK); [apply safe_client_keepalive_ack; [done|done|lia]|].
  destruct (type =? MSG_DISCONNECT); [|logging].
  eapply safe_bind; [logging|]. intros _ _. apply safe_stop; typeclasses eauto.
Qed.

Lemma safe_server_packet buf0 buf n from :
  received buf0 n buf from -> received_ok ok n buf -> 0 < n ->
  safe J (client_handle_server_packet buf n) (fun _ => True).
Proof.
  intros (Hl & Hb & Hf & _) [Hn|HR] H0; [lia|].
  destruct HR as (type & sequence & nonce & payload & rest & Ht & Hsq & Hnl & Hpm & -> & Hok & ->).
  pose proof (zlen_nonneg payload). unfold client_handle_server_packet.
  rewrite read_hdr_at by (done || clia). cbn [local bind].
  destruct (Z.ltb_spec (TUND_HDR_SIZE + zlen payload) (TUND_HDR_SIZE + zlen payload)); [lia|].
  rewrite read_sequence_any by done. cbn [local bind].
  eapply (safe_bind _ _ _ (fun _ => True)).
  { destruct (sequence =? 0); [done|now apply safe_accept]. }
  intros [] _; cbn [negb]; [|logging].
  eapply safe_bind; [now apply safe_mark_seen|]. intros _ _.
  assert (Hpay : ptr (hdr_bytes type (zlen payload) sequence nonce ++ payload ++ rest) TUND_HDR_SIZE =
    payload ++ rest) by (apply ptr_app; now rewrite zlen_hdr). rewrite Hpay.
  apply safe_dispatch; [now apply bytes_ok_app in Hb as [_ ?]|done|done].
Qed.
End dispatch.

(** * Invariants on the whole client structure *)

Definition holds (P : client_t -> Prop) (W : world -> Prop) (s : cli_state) : Prop :=
  P (cli s) /\ W (cli_world s).

#[export] Instance holds_framed P W {HQ : Quiet W} : Framed (holds P W).
Proof. intros w s [H1 H2] Hq. split; [done|]. now apply (HQ _ _ H2). Qed.

#[export] Instance holds_governs P W : Governs (holds P W) W.
Proof.
  split; [now intros s []|]. intros e HA w s [H1 H2] He Hk Hg Ht. split; [done|]. now apply (HA _ _ H2).
Qed.

(** Steps from [w0] without outgoing events. *)
#[export] Instance quiet_since w0 : Quiet (world_quiet w0).
Proof. intros w w' H1 H2. now transitivity w. Qed.

(** Code that leaves the client alone. *)
Definition unchanged (s s' : cli_state) : Prop :=
  world_ok (cli_world s') /\ world_quiet (cli_world s) (cli_world s') /\ cli s' = cli s.

Lemma run_unchanged {A} (p : prog cli_state A) Q s :
  world_ok (cli_world s) -> safe (holds (fun c => c = cli s) (world_quiet (cli_world s))) p Q ->
  exists a s', run p s = Some (a, s') /\ Q a /\ unchanged s s'.
Proof.
  intros Hw Hp. destruct (safe_run _ _ _ s Hp) as (a & s' & Hr & [Hw' [Hc Hq]] & _ & Ha).
  { split; [done|]. split; [done|]. reflexivity. }
  exists a, s'. split; [done|]. split; [done|]. now split.
Qed.

Lemma table_step_unchanged s m s1 s2 : table_step s m s1 -> unchanged s1 s2 -> table_step s m s2.
Proof.
  intros Ht (Hw & Hq & Hc). apply (table_step_trans _ _ _ _ _ Ht).
  destruct Ht as (_ & _ & Hc1 & _ & Hm). split; [done|]. split; [done|]. rewrite Hc.
  split; [done|]. split; [now destruct (cli s1)|done].
Qed.

(** A report, which prints the table or a line. *)
Lemma run_report (p : prog cli_state unit) s :
  world_ok (cli_world s) ->
  safe (holds (fun c => c = cli s) (world_quiet (cli_world s))) p (fun _ => True) ->
  exists s', run (report_peers p) s = Some (tt, s') /\ unchanged s s'.
Proof.
  intros Hw Hp. destruct (run_unchanged (report_peers p) (fun _ => True) s Hw) as ([] & s' & Hr & _ & Hu).
  { apply safe_report; [typeclasses eauto|done]. }
  eauto.
Qed.

Lemma run_log level args s :
  world_ok (cli_world s) -> Forall (fun a => exists z, c_str a = Some z) args ->
  exists s', run (LOG level args) s = Some (tt, s') /\ unchanged s s'.
Proof.
  intros Hw Ha. destruct (run_unchanged (LOG level args) (fun _ => True) s Hw) as ([] & s' & Hr & _ & Hu).
  { apply safe_LOG; [typeclasses eauto|done]. }
  eauto.
Qed.

Lemma run_report_table s :
  world_ok (cli_world s) -> cli_ok (cli s) ->
  exists s', run (report_peers client_log_peers) s = Some (tt, s') /\ unchanged s s'.
Proof.
  intros Hw Hc. apply run_report; [done|]. apply safe_log_peers; [typeclasses eauto|].
  intros s' [-> _]. exact Hc.
Qed.
