(* ===== verification/ClientThreads.v ===== *)
(** The client's threads ([client.c] of [core/client]): the loop bodies of the
    main, keepalive and TUN threads, shutdown, and the execution of the three
    threads with their actions interleaved in any order. *)
From stdpp Require Import base list numbers option gmap.
From S2P Require Import Prelude Prog World Consts Sequence Wire Ipv4 Crypto Events Replay Peer Net Messages Boot Client ClientTable ClientSafe.

Section threads.
Context `{M : Monocypher}.

(** One iteration of [client_keepalive_thread]; the loop variable is [slept]. *)
Definition client_keepalive_thread (slept : Z) : prog cli_state ctl :=
  let* running := tund_is_running in
  let* quit := if running then load cli_ka_quit else Ret true in
  if negb running || quit then Ret Break
  else
    let slept := u32 (slept + 1) in
    if slept <? TUND_KEEPALIVE_INTERVAL then Ret (Continue slept)
    else
      let* running := tund_is_running in
      let* quit := if running then load cli_ka_quit else Ret true in
      if negb running || quit then Ret Break
      else
        let* now := on_world' time_null in
        let* timed_out := client_server_timed_out now in
        if (timed_out : bool) then
          LOG LOG_LEVEL_WARN [] ;;
          tund_request_stop ;;
          Ret Break
        else
          let* buf := alloc TUND_MAX_PKT in
          let* ms := on_world' now_ms in
          let* '(len, buf) := proto_build_keepalive buf ms in
          let* dest := load cli_server_addr in
          let* r := net_send buf len dest in
          (if r <? 0 then LOG LOG_LEVEL_WARN [] else Ret tt) ;;
          Ret (Continue 0).

(** A packet of [n] bytes read from the TUN device. *)
Definition client_tun_forward (pkt_buf : bytes) (n : Z) : prog cli_state unit :=
  let* validation := local (proto_validate_ipv4_packet pkt_buf (u16 n)) in
  if negb (validation =? TUND_IPV4_OK) then
    LOG LOG_LEVEL_DEBUG [proto_ipv4_validation_error validation ++ [0]]
  else
    let* msg_buf := alloc TUND_MAX_PKT in
    let* '(msg_len, msg_buf) := proto_build_data msg_buf pkt_buf (u16 n) in
    let* dest := load cli_server_addr in
    let* r := net_send msg_buf msg_len dest in
    if r <? 0 then LOG LOG_LEVEL_WARN []
    else
      let* dst_ip := local (proto_get_dst_ip pkt_buf (u16 n)) in
      if dst_ip =? htonl TUND_BROADCAST then client_add_broadcast_traffic (u64 n)
      else client_add_peer_traffic dst_ip 0 (u64 n).

(** One iteration of [client_tun_thread]. *)
Definition client_tun_thread (l : Z) : prog cli_state ctl :=
  let* running := tund_is_running in
  let* quit := if running then load cli_tun_quit else Ret true in
  if negb running || quit then Ret Break
  else
    let* pkt_buf := alloc TUND_MAX_PLAINTEXT in
    let* r := tun_read (load (fun c => tun_fd (cli_tun c))) TUND_MAX_PLAINTEXT in
    match r with
    | ReadData ((_ :: _) as data) =>
        let* pkt_buf := local (mem_write pkt_buf 0 data) in
        client_tun_forward pkt_buf (zlen data) ;; Ret (Continue l)
    | _ =>
        let* running := tund_is_running in
        let* quit := if running then load cli_tun_quit else Ret true in
        if negb running || quit then Ret Break else Ret (Continue l)
    end.

(** One iteration of the loop of [client_run]; the loop variable is [npeers]. *)
Definition client_run (npeers : Z) : prog cli_state ctl :=
  let* running := tund_is_running in
  if negb running then Ret Break
  else
    let tui_peers := replicate (Z.to_nat TUND_MAX_PEERS) (tui_of_peer zero_peer) in
    let* '(ret, _, npeers) := net_poll_peers (fun s => cli_peers (cli s)) tui_peers (npeers_of npeers) in
    if ret <? 0 then Ret Break
    else if ret =? 0 then
      let* tui := read_world g_tui_active in
      (if (tui : bool) then render npeers else Ret tt) ;;
      Ret (Continue (npeers_to npeers))
    else
      let* buf := alloc TUND_MAX_PKT in
      let* '(n, buf, from) := net_recv buf TUND_MAX_PKT zero_addr in
      let* server := load cli_server_addr in
      (if (n <=? 0) || negb (net_addr_equal from server) then Ret tt
       else client_handle_server_packet buf n) ;;
      Ret (Continue (npeers_to npeers)).

(** [client_shutdown]: the threads are told to quit and the server is told,
    then everything is released. *)
Definition client_shutdown_notify : prog cli_state unit :=
  LOG LOG_LEVEL_INFO [] ;;
  save (set_ka_quit true) ;;
  save (set_cli_tun_quit true) ;;
  let* buf := alloc TUND_MAX_PKT in
  let* '(len, buf) := proto_build_disconnect buf in
  let* dest := load cli_server_addr in
  let* _ := net_send buf len dest in
  Ret tt.

Definition client_shutdown_release : prog cli_state unit :=
  let* dev := load cli_tun in
  let* dev := tun_close dev in
  save (set_cli_tun dev) ;;
  let* b := load cli_ka_started in
  join_if b 1 ;;
  let* b := load cli_tun_started in
  join_if b 2 ;;
  tui_screen false ;;
  let* fd := load cli_sockfd in
  (if sock_valid fd then sys_close fd ;; save (set_cli_sockfd (-1)) else Ret tt) ;;
  LOG LOG_LEVEL_INFO [].

Definition client_shutdown : prog cli_state unit := client_shutdown_notify ;; client_shutdown_release.

(** The main thread as [main] calls it: [client_run], then [client_shutdown]
    while the other threads still run. *)
Definition client_main (npeers : Z) : prog cli_state ctl :=
  let* c := client_run npeers in
  match c with
  | Continue l => Ret (Continue l)
  | Break => client_shutdown ;; Ret Break
  end.
End threads.

(** The three threads and the signal handler. *)
Definition client_process `{M : Monocypher} (i : nat) (l : Z) : prog cli_state ctl :=
  match i with
  | 0%nat => client_main l
  | 1%nat => client_keepalive_thread l
  | 2%nat => client_tun_thread l
  | _ => Ret Break
  end.

Definition client_signal (s : cli_state) : cli_state :=
  CliState (set_running false (cli_world s)) (cli s).

Definition client_start (npeers : Z) : list (prog cli_state ctl) :=
  [Ret (Continue npeers); Ret (Continue 0); Ret (Continue 0)].

(** * Every thread is safe against the others *)

Section safe.
Context `{M : Monocypher} {ML : MonocypherLaws M}.
Context (addr : sockaddr_in) (W : world -> Prop) {HQ : Quiet W}.
Variable b : env * bool.                  (** the operating system, and whether the terminal UI is on *)
Variable ok : Z -> bytes -> Prop.         (** what authentic messages satisfy *)
Notation J := (attached addr W).
Hypothesis W_mode : forall w, W w -> mode w = b.
Hypothesis W_heard : forall w w', W w -> W w' -> authentic (g_crypto_key w') ok (w_env w).
Hypothesis may_ack : forall ts, grants W addr MSG_KEEPALIVE_ACK (be_split 8 ts).
Hypothesis may_probe : forall ts, grants W addr MSG_KEEPALIVE (be_split 8 ts).
Hypothesis may_data : forall pkt, lan_packet pkt (zlen pkt) -> grants W addr MSG_DATA pkt.
Hypothesis may_write : forall pkt, lan_packet pkt (zlen pkt) -> ok MSG_DATA pkt -> Allows W (EvTunWrite pkt).
Hypothesis may_join : forall payload, ok MSG_PEER_JOIN payload -> joinable payload.

(** The test at the head of the two helper loops. *)
Lemma safe_client_head {A} (f : client_t -> bool) (q : prog cli_state A) (c : A) (Q : A -> Prop) :
  Q c -> safe J q Q ->
  safe J (let* running := tund_is_running in
          let* quit := if running then load f else Ret true in
          if negb running || quit then Ret c else q) Q.
Proof.
  intros Hc Hq. eapply safe_bind; [apply safe_running; typeclasses eauto|]. intros running _.
  eapply (safe_bind _ _ _ (fun _ => True)); [destruct running; [now apply safe_load|done]|].
  intros quit _. now destruct (negb running || quit).
Qed.

Lemma safe_keepalive_thread slept : safe J (client_keepalive_thread slept) (fun _ => True).
Proof.
  unfold client_keepalive_thread. apply safe_client_head; [done|].
  destruct (_ <? _); [done|]. apply safe_client_head; [done|].
  eapply safe_bind; [apply safe_time; typeclasses eauto|]. intros now _.
  eapply (safe_bind _ _ _ (fun _ => True)).
  { unfold client_server_timed_out. eapply (safe_bind _ _ _ (fun _ => True)); [now apply safe_load|done]. }
  intros [] _.
  { eapply safe_bind; [logging|]. intros _ _.
    eapply safe_bind; [apply safe_stop; typeclasses eauto|]. done. }
  eapply safe_bind; [apply alloc_pkt; typeclasses eauto|]. intros buf [Hbuf _].
  eapply safe_bind; [apply safe_now_ms; typeclasses eauto|]. intros ms _.
  eapply safe_bind.
  { apply safe_build_timestamp; [typeclasses eauto|done|words; unfold MSG_KEEPALIVE; lia]. }
  intros [len buf1] Hb1. eapply safe_bind; [apply safe_load_addr|]. intros dest ->.
  eapply safe_bind.
  { apply (safe_send_built _ W _ _ _ _ _ _ Hb1); auto. words; unfold MSG_KEEPALIVE; lia. }
  intros r _. eapply (safe_bind _ _ _ (fun _ => True)); [|done]. destruct (r <? 0); [logging|done].
Qed.

Lemma safe_client_tun_forward pkt n :
  bytes_ok pkt -> 0 <= n <= zlen pkt -> n <= TUND_MAX_PLAINTEXT ->
  safe J (client_tun_forward pkt n) (fun _ => True).
Proof.
  intros Hb Hn Hm. unfold client_tun_forward.
  assert (Hu : u16 n = n) by (words; apply Z.mod_small; clia). rewrite Hu.
  rewrite validate_verdict by (done || lia). cbn [local bind].
  destruct (Z.eqb_spec (ipv4_verdict pkt n) TUND_IPV4_OK) as [Hok|]; cbn [negb]; [|logging].
  apply verdict_ok in Hok. pose proof (lan_min _ _ Hok).
  eapply safe_bind; [apply alloc_pkt; typeclasses eauto|]. intros buf [Hbuf _].
  eapply safe_bind; [apply safe_build_data; [typeclasses eauto|done|done|done|clia]|]. intros [len buf1] Hb1.
  eapply safe_bind; [apply safe_load_addr|]. intros dest ->.
  eapply safe_bind.
  { apply (safe_send_built _ W _ _ _ _ _ _ Hb1); [done|words; unfold MSG_DATA; lia|]. apply may_data.
    replace (zlen (take (Z.to_nat n) pkt)) with n by (unfold zlen in *; rewrite length_take; lia).
    now apply lan_packet_take. }
  intros r _. destruct (r <? 0); [logging|].
  destruct (get_dst_spec pkt n) as (dst & -> & _); [lia|]. cbn [local bind].
  destruct (_ =? _); [now apply safe_add_broadcast_traffic|now apply safe_add_peer_traffic].
Qed.

Lemma safe_client_tun_thread l : safe J (client_tun_thread l) (fun _ => True).
Proof.
  unfold client_tun_thread. apply safe_client_head; [done|].
  eapply safe_bind; [apply safe_alloc; [typeclasses eauto|consts; lia]|]. intros pkt [Hl Hb].
  eapply safe_bind; [apply safe_device_read; [typeclasses eauto|now apply safe_load|consts; lia]|].
  intros [[|x d]| |] Hr; try (apply safe_client_head; done).
  destruct Hr as [Hd Hdb]. pose proof (zlen_nonneg (x :: d)).
  rewrite mem_write_some by lia. cbn [local bind].
  eapply safe_bind; [|done]. apply safe_client_tun_forward.
  - rewrite !bytes_ok_app. auto using bytes_ok_take, bytes_ok_drop.
  - rewrite !zlen_app. pose proof (zlen_nonneg (drop (Z.to_nat 0 + length (x :: d)) pkt)).
    pose proof (zlen_nonneg (take (Z.to_nat 0) pkt)). lia.
  - done.
Qed.

Lemma safe_client_run npeers :
  main_ok b npeers ->
  safe J (client_run npeers) (fun c => match c with Continue l => main_ok b l | Break => True end).
Proof.
  intros Hn. unfold client_run.
  eapply safe_bind; [apply safe_running; typeclasses eauto|]. intros [] _; cbn [negb]; [|done].
  eapply safe_bind.
  { apply safe_net_poll with (e := b.1); [typeclasses eauto|]. intros s [_ (Hc & _ & HW)]. rewrite length_replicate.
    rewrite (ok_cli_slots _ Hc). split; [done|exact (f_equal fst (W_mode _ HW))]. }
  intros [[ret tui] np] (_ & Hnp & Hcalm).
  destruct (main_ok_poll b npeers ret np Hn Hnp Hcalm) as [Hok Hset]. destruct (ret <? 0); [done|].
  destruct (Z.eqb_spec ret 0) as [Er|Er].
  - eapply (safe_bind _ _ _ (fun t => t = b.2)).
    { apply guar_atomic. intros s Hs. exists (g_tui_active (cli_world s)), s. cbn.
      split; [now destruct s|]. split; [done|]. split; [apply rel_refl|]. exact (f_equal snd (W_mode _ (proj2 (proj2 (proj2 Hs))))). }
    intros tui' ->. eapply (safe_bind _ _ _ (fun _ => True)); [|done].
    destruct b as [os []]; [|done]. destruct Hset as [k ->]; [done|done|]. apply safe_render. typeclasses eauto.
  - eapply safe_bind; [apply alloc_pkt; typeclasses eauto|]. intros buf [[Hb _] Hl].
    eapply safe_bind.
    { apply (safe_net_recv_authentic _ ok); try typeclasses eauto;
        [|done|clia|repeat split; cbn; words; lia].
      intros s s' [_ (_ & _ & HW1)] [_ (_ & _ & HW2)]. now apply W_heard. }
    intros [[n buf'] from] [HR HA]. eapply safe_bind; [apply safe_load_addr|]. intros server ->.
    eapply (safe_bind _ _ _ (fun _ => True)); [|done].
    destruct (Z.leb_spec n 0); [done|]. cbn [orb]. destruct (negb _); [done|].
    now apply (safe_server_packet _ _ ok may_ack may_write may_join buf _ _ from).
Qed.

(** * Shutdown *)

Hypothesis may_close : forall e, closing e -> Allows W e.
Hypothesis may_leave : grants W addr MSG_DISCONNECT [].

Lemma safe_close_client fd : safe J (sys_close fd) (fun _ => True).
Proof.
  apply (safe_outgoing _ _ (fun _ => EvClose fd)); [intros w Hw; cbn; split; [quiet|done]|].
  intros _. apply attached_permits, may_close. left. eauto.
Qed.

Lemma safe_join_client started i : safe J (join_if started i) (fun _ => True).
Proof.
  destruct started; [|done]. eapply safe_bind; [|done].
  apply (safe_outgoing _ _ (EvSys (ThreadJoin i))); [intros w Hw; cbn; split; [quiet|done]|].
  intros r. apply attached_permits, may_close. right. eauto.
Qed.

Lemma safe_client_notify : safe J client_shutdown_notify (fun _ => True).
Proof.
  unfold client_shutdown_notify. eapply safe_bind; [logging|]. intros _ _.
  eapply safe_bind; [apply safe_save; intros c []; split; [now split|done]|]. intros _ _.
  eapply safe_bind; [apply safe_save; intros c []; split; [now split|done]|]. intros _ _.
  eapply safe_bind; [apply alloc_pkt; typeclasses eauto|]. intros buf [Hbuf _].
  eapply safe_bind; [apply safe_build_disconnect; [typeclasses eauto|done]|]. intros [len buf1] Hb1.
  eapply safe_bind; [apply safe_load_addr|]. intros dest ->.
  eapply safe_bind; [|done].
  apply (safe_send_built _ W _ _ _ _ _ _ Hb1); auto. words; unfold MSG_DISCONNECT; lia.
Qed.

Lemma safe_client_release : safe J client_shutdown_release (fun _ => True).
Proof.
  unfold client_shutdown_release. eapply (safe_bind _ _ _ (fun dev => exists z, c_str (ifname dev) = Some z)).
  { apply safe_load. intros c Hc _. apply Hc. }
  intros dev Hz. eapply (safe_bind _ _ _ (fun dev' => ifname dev' = ifname dev)).
  { unfold tun_close. destruct (0 <=? _); [|done]. eapply safe_bind; [logging|]. intros _ _.
    eapply safe_bind; [apply safe_close_client|]. done. }
  intros dev' Hd. rewrite <- Hd in Hz.
  eapply safe_bind; [apply safe_save; intros c []; split; [now split|done]|]. intros _ _.
  eapply safe_bind; [apply (safe_load _ _ _ (fun _ => True)); auto|]. intros b1 _.
  eapply safe_bind; [apply safe_join_client|]. intros _ _.
  eapply safe_bind; [apply (safe_load _ _ _ (fun _ => True)); auto|]. intros b2 _.
  eapply safe_bind; [apply safe_join_client|]. intros _ _.
  eapply safe_bind; [apply safe_screen; typeclasses eauto|]. intros _ _.
  eapply safe_bind; [apply (safe_load _ _ _ (fun _ => True)); auto|]. intros fd _.
  eapply (safe_bind _ _ _ (fun _ => True)); [|intros _ _; logging].
  destruct (sock_valid fd); [|done]. eapply safe_bind; [apply safe_close_client|]. intros _ _.
  apply safe_save. intros c []. split; [now split|done].
Qed.

Lemma safe_client_main npeers :
  main_ok b npeers ->
  safe J (client_main npeers) (fun c => match c with Continue l => main_ok b l | Break => True end).
Proof.
  intros Hn. eapply safe_bind; [now apply safe_client_run|]. intros [l|] Hc; [done|].
  eapply safe_bind; [|done]. eapply safe_bind; [apply safe_client_notify|]. intros _ _. apply safe_client_release.
Qed.
End safe.
