(* ===== verification/ClientRegister.v ===== *)
(** Registration of the client with its server ([register.c] of
    [core/client]): up to three attempts, the reply checked before the address
    it assigns is taken over. *)
From stdpp Require Import base list numbers option gmap.
From S2P Require Import Prelude Prog World Consts Sequence Wire Ipv4 Crypto Events Replay Peer Net Messages Boot Client ClientTable ClientSafe.

(** * Code *)

(** [1] when the assignment was taken over, else [0]. *)
Definition handle_assign (payload : bytes) (len : Z) : prog cli_state Z :=
  if len <? 10 then Ret 0
  else
    let* ip := local (mem_read payload 0 4) in
    save (set_virt_ip (le_combine ip)) ;;
    let* mask := local (mem_read payload 4 4) in
    save (set_netmask (le_combine mask)) ;;
    let* _ := local (mem_read payload 8 2) in
    let* virt_ip := load cli_virt_ip in
    LOG LOG_LEVEL_INFO [ip_to_str_buf virt_ip] ;;
    Ret 1.

Definition log_registration_failure (auth mismatch bad reply : bool) : prog cli_state unit :=
  if mismatch then LOG LOG_LEVEL_ERROR []
  else if auth then LOG LOG_LEVEL_ERROR []
  else if bad then LOG LOG_LEVEL_ERROR []
  else if negb reply then LOG LOG_LEVEL_ERROR []
  else LOG LOG_LEVEL_ERROR [].

(** The flags that the attempts leave for the final report. *)
Record attempts : Type := Attempts { at_auth : bool; at_mismatch : bool; at_bad : bool; at_reply : bool }.

(** How one attempt ends: the function returns, or the loop goes on. *)
Inductive attempt_result : Type := Returned (code : Z) | Retry (f : attempts).

Section register.
Context `{M : Monocypher}.

(** The reply in [buf], from the server. *)
Definition register_check (buf : bytes) (n : Z) (f : attempts) : prog cli_state attempt_result :=
  let f := Attempts (at_auth f) (at_mismatch f) (at_bad f) true in
  let bad := Attempts (at_auth f) (at_mismatch f) true (at_reply f) in
  let* hdr := local (proto_read_hdr buf) in
  match hdr with
  | HdrErr code =>
      if code =? TUND_HDR_BAD_VERSION then
        LOG LOG_LEVEL_WARN [] ;;
        Ret (Retry (Attempts (at_auth bad) true (at_bad bad) (at_reply bad)))
      else
        LOG LOG_LEVEL_WARN [] ;;
        Ret (Retry bad)
  | HdrOk type payload_len =>
      if n <? TUND_HDR_SIZE + payload_len then
        LOG LOG_LEVEL_WARN [] ;; Ret (Retry bad)
      else
        let* sq := local (proto_read_sequence buf) in
        let* fresh := match sq with Some sequence => accept_from_server sequence | None => Ret false end in
        if negb fresh then
          LOG LOG_LEVEL_WARN [] ;; Ret (Retry bad)
        else
          let* assigned :=
            if type =? MSG_ASSIGN then handle_assign (ptr buf TUND_HDR_SIZE) payload_len else Ret 0 in
          if negb (assigned =? 0) then Ret (Returned 0)
          else LOG LOG_LEVEL_WARN [] ;; Ret (Retry bad)
  end.

(** One iteration of the loop; [buf] is the buffer shared by all of them. *)
Definition register_attempt (buf : bytes) (f : attempts) : prog cli_state (attempt_result * bytes) :=
  LOG LOG_LEVEL_INFO [] ;;
  let* nm := load cli_name in
  let* '(len, buf) := proto_build_register buf nm in
  let* dest := load cli_server_addr in
  let* r := net_send buf len dest in
  if r <? 0 then Ret (Returned (-1), buf)
  else
    let* ret := on_world' (ask (fun e t => env_poll e t)) in
    if ret <? 0 then
      LOG LOG_LEVEL_ERROR [] ;; Ret (Returned (-1), buf)
    else if ret =? 0 then
      LOG LOG_LEVEL_WARN [] ;; Ret (Retry f, buf)
    else
      let* '(n, buf, from) := net_recv buf TUND_MAX_PKT zero_addr in
      let* server := load cli_server_addr in
      if (n =? NET_RECV_AUTH_FAILED) && net_addr_equal from server then
        LOG LOG_LEVEL_WARN [] ;;
        Ret (Retry (Attempts true (at_mismatch f) (at_bad f) true), buf)
      else if (n <=? 0) || negb (net_addr_equal from server) then Ret (Retry f, buf)
      else let* r := register_check buf n f in Ret (r, buf).

Fixpoint register_loop (n : nat) (buf : bytes) (f : attempts) : prog cli_state Z :=
  match n with
  | O =>
      log_registration_failure (at_auth f) (at_mismatch f) (at_bad f) (at_reply f) ;; Ret (-1)
  | S n =>
      let* '(r, buf) := register_attempt buf f in
      match r with
      | Returned code => Ret code
      | Retry f => register_loop n buf f
      end
  end.

Definition client_register : prog cli_state Z :=
  let* buf := alloc TUND_MAX_PKT in
  register_loop TUND_REGISTER_RETRIES buf (Attempts false false false false).
End register.

(** * States during registration *)

(** [c] is [c0] but for the replay window. *)
Definition session_of (c0 c : client_t) : Prop :=
  exists w, window_ok w /\ c = set_server_replay w c0.

(** What an ASSIGN payload makes of the client. *)
Definition assign (payload : bytes) (c : client_t) : client_t :=
  set_netmask (le_combine (take 4 (drop 4 payload))) (set_virt_ip (le_combine (take 4 payload)) c).

Section holds.
Context (W : world -> Prop) {HQ : Quiet W}.

Lemma wp_safe {A} P (p : prog cli_state A) Q s (K : A -> cli_state -> Prop) :
  safe (holds P W) p Q -> inv (holds P W) s ->
  (forall a s', inv (holds P W) s' -> Q a -> K a s') -> wp p K s.
Proof.
  intros Hp Hs HK. destruct (safe_run _ _ _ s Hp Hs) as (a & s' & Hr & Hi & _ & Ha). exists a, s'. auto.
Qed.

Lemma safe_load_of P {A} (f : client_t -> A) (Q : A -> Prop) :
  (forall c, P c -> Q (f c)) -> safe (holds P W) (load f) Q.
Proof.
  intros Hf. apply guar_atomic. intros s Hs. exists (f (cli s)), s. split; [done|]. split; [done|].
  split; [apply rel_refl|]. apply Hf, Hs.
Qed.

Lemma wp_save P P' f s (K : unit -> cli_state -> Prop) :
  inv (holds P W) s -> (forall c, P c -> P' (f c)) ->
  (forall s', inv (holds P' W) s' -> K tt s') -> wp (save f) K s.
Proof.
  intros [Hw [HP HWs]] Hf HK. eexists tt, _. split; [reflexivity|]. apply HK. split; [done|]. split; [|done].
  cbn. now apply Hf.
Qed.

Lemma safe_accept_session c0 sequence :
  is_u64 sequence -> safe (holds (session_of c0) W) (accept_from_server sequence) (fun _ => True).
Proof.
  intros Hs. unfold accept_from_server. eapply (safe_bind _ _ _ window_ok).
  { apply safe_load_of. intros c (w & Hw & ->). exact Hw. }
  intros w Hw. pose proof (accept_window_ok w sequence Hw Hs) as Hw'.
  destruct (proto_replay_accept w sequence) as [okay w']. cbn [fst snd] in Hw'.
  eapply (safe_bind _ _ _ (fun _ => True)); [|done].
  apply guar_atomic. intros s [Hok [(w0 & _ & Hc) HWs]]. eexists tt, _. split; [reflexivity|].
  split; [|split; [apply world_step_refl|done]]. split; [done|]. split; [|done].
  exists w'. split; [done|]. cbn. now rewrite Hc.
Qed.

(** The assignment is taken over, unless it is too short. *)
Lemma wp_handle_assign c0 payload rest s (K : Z -> cli_state -> Prop) :
  bytes_ok (payload ++ rest) -> inv (holds (session_of c0) W) s ->
  (forall s', zlen payload < 10 -> inv (holds (session_of c0) W) s' -> K 0 s') ->
  (forall s', 10 <= zlen payload -> inv (holds (session_of (assign payload c0)) W) s' -> K 1 s') ->
  wp (handle_assign (payload ++ rest) (zlen payload)) K s.
Proof.
  intros Hb Hs H0 H1. unfold handle_assign. destruct (Z.ltb_spec (zlen payload) 10); [apply wp_ret; auto|].
  destruct (split_at 4 payload) as (x & y & -> & Hx); [unfold zlen in *; lia|]. rewrite zlen_app in *.
  destruct (split_at 4 y) as (m & z & -> & Hm); [unfold zlen in *; lia|]. rewrite zlen_app in *.
  destruct (split_at 2 z) as (u & v & -> & Hu); [unfold zlen in *; lia|]. rewrite <- !app_assoc.
  rewrite (mem_read_at _ [] x (m ++ u ++ v ++ rest)); [|done|done|unfold zlen; lia]. cbn [local bind].
  apply wp_bind. eapply (wp_save _ (session_of (set_virt_ip (le_combine x) c0))); [exact Hs| |].
  { intros c (w & Hw & ->). now exists w. }
  intros s1 Hs1. rewrite (mem_read_at _ x m (u ++ v ++ rest)) by (done || unfold zlen; lia). cbn [local bind].
  apply wp_bind.
  eapply (wp_save _ (session_of (set_netmask (le_combine m) (set_virt_ip (le_combine x) c0)))); [exact Hs1| |].
  { intros c (w & Hw & ->). now exists w. }
  intros s2 Hs2. rewrite (mem_read_at _ (x ++ m) u (v ++ rest));
    [|now rewrite <- !app_assoc|rewrite zlen_app; unfold zlen; lia|unfold zlen; lia]. cbn [local bind].
  apply wp_bind. eapply wp_safe; [now apply (safe_load_of _ _ (fun _ => True))|exact Hs2|].
  intros vip s3 Hs3 _. apply wp_bind. eapply wp_safe.
  { eapply safe_LOG; [typeclasses eauto|]. repeat constructor. apply ip_terminated. }
  { exact Hs3. }
  intros _ s4 Hs4 _. apply wp_ret. apply H1; [done|]. unfold assign.
  rewrite take_app_length', drop_app_length', take_app_length' by done. exact Hs4.
Qed.
End holds.

(** * What registration does *)

Section outcome.
Context `{M : Monocypher} {ML : MonocypherLaws M}.
Context (W : world -> Prop) {HQ : Quiet W} (ok : Z -> bytes -> Prop) (c0 : client_t).
Hypothesis Hc0 : cli_ok c0.
Hypothesis W_heard : forall w w', W w -> W w' -> authentic (g_crypto_key w') ok (w_env w).
Hypothesis may_register : forall s, c_str (cli_name c0) = Some s ->
  grants W (cli_server_addr c0) MSG_REGISTER s.
Notation pending := (holds (session_of c0) W).

(** The function failed and nothing changed, or it took over an assignment. *)
Definition register_done (r : Z) (s' : cli_state) : Prop :=
  (r = -1 /\ inv pending s') \/
  (r = 0 /\ exists payload, ok MSG_ASSIGN payload /\ 10 <= zlen payload /\
     inv (holds (session_of (assign payload c0)) W) s').

Definition attempt_done (r : attempt_result) (s' : cli_state) : Prop :=
  match r with Returned code => register_done code s' | Retry _ => inv pending s' end.

(** A line of log, then another attempt. *)
Lemma wp_log_retry level f s : inv pending s -> wp (LOG level [] ;; Ret (Retry f)) attempt_done s.
Proof.
  intros Hs. apply wp_bind. eapply wp_safe; [logging|exact Hs|]. intros _ s' Hs' _. now apply wp_ret.
Qed.

Lemma wp_register_check buf0 buf n from f s :
  received buf0 n buf from -> received_ok ok n buf -> 0 < n -> inv pending s ->
  wp (register_check buf n f) attempt_done s.
Proof.
  intros (_ & Hb & _) [Hn|HR] H0 Hs; [lia|].
  destruct HR as (type & sequence & nonce & payload & rest & Ht & Hsq & Hnl & Hpm & -> & Hok & ->).
  pose proof (zlen_nonneg payload). unfold register_check.
  rewrite read_hdr_at by (done || clia). cbn [local bind].
  destruct (Z.ltb_spec (TUND_HDR_SIZE + zlen payload) (TUND_HDR_SIZE + zlen payload)); [lia|].
  rewrite read_sequence_any by done. cbn [local bind].
  apply wp_bind. eapply (wp_safe W (session_of c0) _ (fun _ => True)); [|exact Hs|].
  { destruct (sequence =? 0); [done|now apply safe_accept_session]. }
  intros fresh s1 Hs1 _. destruct fresh; cbn [negb]; [|now apply wp_log_retry].
  rewrite ptr_app by now rewrite zlen_hdr. apply wp_bind.
  destruct (Z.eqb_spec type MSG_ASSIGN) as [->|].
  - apply (wp_handle_assign W c0); [now apply bytes_ok_app in Hb as [_ ?]|done| |].
    + intros s' _ Hs'. now apply wp_log_retry.
    + intros s' H10 Hs'. apply wp_ret. right. split; [done|]. eauto.
  - apply wp_ret. now apply wp_log_retry.
Qed.

Lemma safe_pending_load {A} (g : client_t -> A) :
  (forall w c, g (set_server_replay w c) = g c) -> safe pending (load g) (fun a => a = g c0).
Proof. intros Hg. apply safe_load_of. intros c (w & _ & ->). apply Hg. Qed.

(** Sending REGISTER with the client's name. *)
Lemma wp_send_register {B} buf s (q : Z -> bytes -> prog cli_state B) K :
  pkt_buf buf -> zlen buf = TUND_MAX_PKT -> inv pending s ->
  (forall r buf' s', pkt_buf buf' -> zlen buf' = TUND_MAX_PKT -> inv pending s' -> wp (q r buf') K s') ->
  wp (LOG LOG_LEVEL_INFO [] ;;
      let* nm := load cli_name in
      let* '(len, buf) := proto_build_register buf nm in
      let* dest := load cli_server_addr in
      let* r := net_send buf len dest in q r buf) K s.
Proof.
  intros Hbuf Hl Hs HK. destruct (name_ok_str _ (ok_cli_name _ Hc0)) as (z & Hz & Hzb & Hzl).
  apply wp_bind. eapply wp_safe; [logging|exact Hs|]. intros _ s1 Hs1 _.
  apply wp_bind. eapply wp_safe; [now apply safe_pending_load|exact Hs1|]. intros nm s2 Hs2 ->.
  apply wp_bind. eapply wp_safe; [|exact Hs2|].
  { apply (safe_build_register _ _ _ z); [done|done|done|unfold zlen; lia]. }
  rewrite take_ge by lia. intros [len buf1] s3 Hs3 Hb1.
  apply wp_bind. eapply wp_safe; [now apply safe_pending_load|exact Hs3|]. intros dest s4 Hs4 ->.
  apply wp_bind. eapply wp_safe; [|exact Hs4|].
  { apply (safe_send_built _ W _ _ _ _ _ _ Hb1); auto. words; unfold MSG_REGISTER; lia. }
  intros r s5 Hs5 _. apply HK; [now apply (built_pkt _ _ _ _ _ Hb1)| |done].
  destruct Hb1 as (Hlen & _). unfold zlen in *. now rewrite Hlen.
Qed.

(** What an attempt leaves: its result, and the buffer for the next one. *)
Definition attempt_post (r : attempt_result * bytes) (s' : cli_state) : Prop :=
  attempt_done r.1 s' /\ pkt_buf r.2 /\ zlen r.2 = TUND_MAX_PKT.

Lemma wp_log_post level r buf s :
  inv pending s -> pkt_buf buf -> zlen buf = TUND_MAX_PKT ->
  (forall s', inv pending s' -> attempt_done r s') ->
  wp (LOG level [] ;; Ret (r, buf)) attempt_post s.
Proof.
  intros Hs Hb Hl Hr. apply wp_bind. eapply wp_safe; [logging|exact Hs|]. intros _ s' Hs' _.
  apply wp_ret. split; [now apply Hr|done].
Qed.

Lemma wp_register_attempt buf f s :
  pkt_buf buf -> zlen buf = TUND_MAX_PKT -> inv pending s -> wp (register_attempt buf f) attempt_post s.
Proof.
  intros Hbuf Hl Hs. unfold register_attempt. apply wp_send_register; auto.
  clear s buf Hbuf Hl Hs. intros r buf s Hbuf Hl Hs.
  destruct (r <? 0); [apply wp_ret; split; [by left|done]|].
  apply wp_bind. eapply (wp_safe W (session_of c0) _ (fun _ => True)); [|exact Hs|].
  { apply safe_on_world'; [typeclasses eauto|]. intros w Hw. cbn. split; [quiet|]. now split; [quiet|]. }
  clear s Hs. intros ret s Hs _. destruct (ret <? 0); [apply wp_log_post; auto; by left|].
  destruct (ret =? 0); [now apply wp_log_post|].
  apply wp_bind. eapply wp_safe; [|exact Hs|].
  { apply (safe_net_recv_authentic _ ok); [|apply Hbuf|clia|repeat split; cbn; words; lia].
    intros s1 s2 [_ [_ HW1]] [_ [_ HW2]]. now apply W_heard. }
  intros [[n buf'] from] s1 Hs1 [HR HA].
  assert (Hbuf' : pkt_buf buf' /\ zlen buf' = TUND_MAX_PKT).
  { destruct HR as (Hlen & Hb & _). assert (zlen buf' = zlen buf) by (unfold zlen; congruence).
    split; [split; [done|]|]; clia. }
  destruct Hbuf' as [Hp' Hl']. apply wp_bind.
  eapply wp_safe; [now apply safe_pending_load|exact Hs1|]. intros server s2 Hs2 ->.
  destruct (_ && _); [now apply wp_log_post|].
  destruct (Z.leb_spec n 0); cbn [orb]; [apply wp_ret; now split|].
  destruct (negb _); [apply wp_ret; now split|].
  apply wp_bind. eapply wp_mono; [now apply (wp_register_check buf _ _ from)|].
  intros res s3 H3. apply wp_ret. now split.
Qed.

Lemma wp_register_loop n : forall buf f s,
  pkt_buf buf -> zlen buf = TUND_MAX_PKT -> inv pending s -> wp (register_loop n buf f) register_done s.
Proof.
  induction n as [|n IH]; intros buf f s Hb Hl Hs; cbn [register_loop].
  - apply wp_bind. eapply (wp_safe W (session_of c0) _ (fun _ => True)); [|exact Hs|].
    + unfold log_registration_failure. repeat case_match; logging.
    + intros _ s' Hs' _. apply wp_ret. by left.
  - apply wp_bind. eapply wp_mono; [now apply wp_register_attempt|].
    intros [[code|f'] buf'] s' (Hd & Hb' & Hl').
    + now apply wp_ret.
    + now apply IH.
Qed.
End outcome.
