(* ===== verification/ClientSpec.v ===== *)
(** What the client does, from any well-formed state: its table as a finite
    map, its registration, its replay protection, and its three threads run
    together. *)
From stdpp Require Import base list numbers option gmap.
From S2P Require Import Prelude Prog World Consts Sequence Wire Ipv4 Crypto Events Replay Peer Net Messages Boot Client ClientTable ClientSafe ClientThreads ClientRegister.

(** * States and policies *)

Definition client_ready (s : cli_state) : Prop := world_ok (cli_world s) /\ cli_ok (cli s).

(** Everything a client lets out, from the creation of its threads to the end of
    its shutdown: keepalives, their acknowledgements, LAN packets and
    DISCONNECT to the server [addr], LAN packets that arrived in an authentic
    DATA message to the TUN device, and the closing of its descriptors and
    joining of its threads. *)
Definition client_out `{M : Monocypher} (key : bytes) (addr : sockaddr_in) (ok : Z -> bytes -> Prop)
    (e : event) : Prop :=
  (exists ts, sent_message key MSG_KEEPALIVE (be_split 8 ts) addr e) \/
  (exists ts, sent_message key MSG_KEEPALIVE_ACK (be_split 8 ts) addr e) \/
  (exists pkt, lan_packet pkt (zlen pkt) /\ sent_message key MSG_DATA pkt addr e) \/
  (exists pkt, lan_packet pkt (zlen pkt) /\ ok MSG_DATA pkt /\ e = EvTunWrite pkt) \/
  sent_message key MSG_DISCONNECT [] addr e \/ closing e.

(** The process of a client: the terminal UI, the key and the operating system
    are settled, everything let out since [t0] satisfies [allowed]. *)
Definition client_world `{M : Monocypher} (b : env * bool) (key : bytes) (ok : Z -> bytes -> Prop)
    (t0 : list event) (allowed : event -> Prop) (w : world) : Prop :=
  mode w = b /\
  ((authentic key ok (w_env w) /\ g_crypto_key w = key) /\ policy key t0 allowed w).

#[export] Instance client_world_quiet `{M : Monocypher} b key ok t0 allowed :
  Quiet (client_world b key ok t0 allowed).
Proof.
  apply quiet_and; [apply _|]. apply quiet_and; [|apply _].
  apply (quiet_fixed (fun e k => authentic key ok e /\ k = key)).
Qed.

Lemma client_world_allows `{M : Monocypher} b key ok t0 (allowed : event -> Prop) e :
  allowed e -> Allows (client_world b key ok t0 allowed) e.
Proof.
  intros He. apply allows_and; [apply _|]. apply allows_and; [|now apply allows_policy].
  apply (allows_fixed (fun e k => authentic key ok e /\ k = key)).
Qed.

Lemma client_world_grants `{M : Monocypher} b key ok t0 (allowed : event -> Prop) dest type payload :
  (forall e, sent_message key type payload dest e -> allowed e) ->
  grants (client_world b key ok t0 allowed) dest type payload.
Proof.
  intros Hok k sq nc res (w & (_ & (_ & Hk) & _) & <-) Hsq Hn Hnb. rewrite Hk.
  apply client_world_allows, Hok. now exists sq, nc, res.
Qed.

Lemma client_world_heard `{M : Monocypher} b key ok t0 allowed w w' :
  client_world b key ok t0 allowed w -> client_world b key ok t0 allowed w' ->
  authentic (g_crypto_key w') ok (w_env w).
Proof. intros (_ & (HA & _) & _) (_ & (_ & ->) & _). exact HA. Qed.

Lemma client_world_start `{M : Monocypher} s ok allowed :
  authentic (g_crypto_key (cli_world s)) ok (w_env (cli_world s)) ->
  client_world (mode (cli_world s)) (g_crypto_key (cli_world s)) ok (w_trace (cli_world s))
    allowed (cli_world s).
Proof. intros HA. split; [done|]. split; [done|]. apply policy_start. Qed.

(** * A concrete client *)

Definition server_endpoint : sockaddr_in := SockAddr 2 (htons TUND_PORT) (htonl 0xC0A80101).

Definition known_bob : peer_t :=
  Peer true (htonl (TUND_IP_START + 1)) (name_field (str "bob")) zero_addr 1000 0 0 0 false (Window 0 0).

Definition fresh_client : client_t :=
  Client 5 (TunDevice 6 (str "tund0" ++ replicate 27 0) TUND_TUN_MTU) server_endpoint 0 0 0 false 0 proto_replay_reset
    (name_field (str "alice")) (replicate 253 zero_peer) 0 true true false false.

Definition sample_client : client_t :=
  set_table (<[0%nat := known_bob]> (cli_peers fresh_client)) (cli_peer_count fresh_client + 1) fresh_client.

(** One message of the server, and a process to which it arrives. *)
Definition server_wire (type : Z) (payload : bytes) : bytes :=
  wire_bytes (M := SampleCipher.sample) (replicate 32 7) type payload 5 (replicate 24 1).

Definition client_env (wire : bytes) : env :=
  Env (env_open sample_env) (env_read sample_env) 0 (env_time sample_env) (env_now_ms sample_env)
      (env_sendto sample_env)
      (fun _ n => if zlen wire <=? n then RecvData wire server_endpoint else RecvAgain)
      (fun _ => 1) (fun _ => false) (env_tun_read sample_env) (env_tun_write sample_env)
      (env_stack sample_env) (env_sys sample_env) (env_ifname sample_env) (env_ifflags sample_env) (env_resolve sample_env).

Definition hearing (type : Z) (payload : bytes) : cli_state :=
  CliState (World (client_env (server_wire type payload)) 0 0 (-1) true (replicate 32 7)
              LOG_LEVEL_INFO false false []) sample_client.

Definition only (type : Z) (payload : bytes) (ty : Z) (pl : bytes) : Prop := ty = type /\ pl = payload.

(** It announces carol. *)
Definition join_payload : bytes := le_split 4 (htonl (TUND_IP_START + 2)) ++ name_field (str "carol").
Definition sample_cli : cli_state := hearing MSG_PEER_JOIN join_payload.

Lemma endpoint_ok : addr_ok server_endpoint.
Proof. repeat split; vm_compute; congruence. Qed.

Lemma fresh_client_ok : cli_ok fresh_client.
Proof.
  split; cbn -[replicate name_field str htonl]; try (words; lia).
  - apply Forall_replicate, zero_peer_ok.
  - apply length_replicate.
  - intros i j p q Hi _ Hp. apply lookup_replicate_1 in Hi as [-> _]. done.
  - reflexivity.
  - apply name_field_name_ok. repeat constructor; words; cbn; lia.
  - now exists (str "tund0").
  - apply endpoint_ok.
  - apply reset_window_ok.
Qed.

Lemma known_bob_ok : peer_ok known_bob.
Proof.
  split; cbn -[name_field htonl]; try (words; lia).
  - apply name_field_name_ok. repeat constructor; words; cbn; lia.
  - apply htonl_is_u32.
  - repeat split; cbn; words; lia.
  - split; cbn; words; lia.
Qed.

Lemma sample_client_ok : cli_ok sample_client.
Proof.
  apply (save_ok fresh_client 0 zero_peer known_bob); [exact fresh_client_ok|done|exact known_bob_ok| |done].
  intros _. exists zero_peer. split; [done|]. right. split; [done|]. now apply Forall_replicate.
Qed.

Lemma join_payload_ok : bytes_ok join_payload.
Proof. unfold join_payload. apply bytes_ok_app. split; [apply le_split_ok|]. apply name_field_ok. repeat constructor; words; cbn; lia. Qed.

(** A message that fits. *)
Definition plain (type : Z) (payload : bytes) : Prop :=
  is_u8 type /\ bytes_ok payload /\ zlen payload <= TUND_MAX_PLAINTEXT.

Lemma client_env_ok type payload : plain type payload -> env_ok (client_env (server_wire type payload)).
Proof.
  intros (Ht & Hb & Hp). destruct sample_env_ok as [H1 H2 H3 H4 H5 H6 H7 H8 H9]. split; cbn -[server_wire]; auto.
  intros t n l from Hn. destruct (Z.leb_spec (zlen (server_wire type payload)) n); [|done]. intros [= <- <-].
  split; [done|]. split; [|exact endpoint_ok]. apply wire_ok; auto. apply Forall_replicate. words; lia.
Qed.

Lemma hearing_ready type payload : plain type payload -> client_ready (hearing type payload).
Proof.
  intros Hp. split; [|exact sample_client_ok]. split; [now apply client_env_ok|].
  split; [|split; [reflexivity|split; [reflexivity|apply Forall_replicate; words; lia]]]. split; [words; cbn; lia|]. now left.
Qed.

Lemma hearing_authentic type payload : plain type payload ->
  authentic (M := SampleCipher.sample) (replicate 32 7) (only type payload) (client_env (server_wire type payload)).
Proof.
  intros (Ht & Hb & Hp) t n ty pl sequence nonce from Hty Hpb Hpl Hn. unfold client_env. cbn [env_recvfrom].
  destruct (Z.leb_spec (zlen (server_wire type payload)) n); [|done]. intros E.
  assert (Hw : server_wire type payload =
    wire_bytes (M := SampleCipher.sample) (replicate 32 7) ty pl sequence nonce) by congruence.
  apply wire_injective in Hw as [<- <-]; auto. now split.
Qed.

Lemma join_plain : plain MSG_PEER_JOIN join_payload.
Proof.
  split; [words; unfold MSG_PEER_JOIN; lia|]. split; [exact join_payload_ok|vm_compute; congruence].
Qed.

Lemma sample_cli_ready : client_ready sample_cli.
Proof. apply hearing_ready, join_plain. Qed.

Lemma sample_joinable payload : only MSG_PEER_JOIN join_payload MSG_PEER_JOIN payload -> joinable payload.
Proof. intros [_ ->] _. exists (str "carol"). reflexivity. Qed.

(** * The three threads together *)

Lemma client_steps_safe `{M : Monocypher} {ML : MonocypherLaws M}
    (ok : Z -> bytes -> Prop) (s s' : cli_state) (npeers : Z) (pool : list (prog cli_state ctl))
    (Hs : client_ready s)
    (Hok : authentic (g_crypto_key (cli_world s)) ok (w_env (cli_world s)))
    (Hjoin : forall payload, ok MSG_PEER_JOIN payload -> joinable payload)
    (Hn : 0 <= npeers \/ g_tui_active (cli_world s) = false \/ uninterrupted (w_env (cli_world s)))
    (Hsteps : steps client_process client_signal (client_start npeers, s) (pool, s')) :
  ~ wrong (pool, s') /\ client_ready s' /\
  policy (g_crypto_key (cli_world s)) (w_trace (cli_world s))
    (client_out (g_crypto_key (cli_world s)) (cli_server_addr (cli s)) ok) (cli_world s') /\
  (zlen (issued (w_trace (cli_world s'))) < 2 ^ 63 -> NoDup (issued (w_trace (cli_world s')))).
Proof.
  set (b := mode (cli_world s)). set (key := g_crypto_key (cli_world s)) in *.
  set (addr := cli_server_addr (cli s)). set (out := client_out key addr ok).
  set (W := client_world b key ok (w_trace (cli_world s)) out).
  assert (Hack : forall ts, grants W addr MSG_KEEPALIVE_ACK (be_split 8 ts))
    by (intros; apply client_world_grants; unfold out, client_out; eauto).
  assert (Hprobe : forall ts, grants W addr MSG_KEEPALIVE (be_split 8 ts))
    by (intros; apply client_world_grants; unfold out, client_out; eauto).
  assert (Hdata : forall pkt, lan_packet pkt (zlen pkt) -> grants W addr MSG_DATA pkt)
    by (intros; apply client_world_grants; unfold out, client_out; eauto 6).
  assert (Hwrite : forall pkt, lan_packet pkt (zlen pkt) -> ok MSG_DATA pkt -> Allows W (EvTunWrite pkt))
    by (intros; apply client_world_allows; unfold out, client_out; eauto 8).
  assert (Hleave : grants W addr MSG_DISCONNECT []) by (apply client_world_grants; unfold out, client_out; auto 8).
  assert (Hclose : forall e, closing e -> Allows W e) by (intros; apply client_world_allows; unfold out, client_out; auto 8).
  set (L := fun (i : nat) l => i = 0%nat -> main_ok b l).
  destruct (steps_ok client_process client_signal (inv (attached addr W)) rel L)
    with (c := (client_start npeers, s)) (c' := (pool, s')) as [Hpool _]; auto; try apply _.
  - intros i l Hl. unfold client_process. destruct i as [|[|[|]]].
    + eapply safe_mono.
      { apply (safe_client_main addr W b ok); auto; [now intros w [] |apply client_world_heard]. }
      intros [l'|] H; [|done]. now intros _.
    + eapply safe_mono; [apply (safe_keepalive_thread addr W Hprobe)|]. now intros [].
    + eapply safe_mono; [apply (safe_client_tun_thread addr W Hdata)|]. now intros [].
    + done.
  - intros [w c] [Hw (H1 & H2 & H3)]. cbn in *.
    split; [|split; [done|done|now exists []]]. split; [quiet|]. now split.
  - destruct Hs as [Hw Hc]. split; [split; [done|split; [done|split; [done|now apply client_world_start]]]|].
    intros i p Hi. destruct i as [|[|[|]]]; [| | |done]; injection Hi as <-; [intros _; exact Hn|done|done].
  - split; [now apply (ok_not_wrong (inv (attached addr W)) rel L)|].
    destruct Hpool as [[Hw (Hc & _ & _ & _ & HP)] _]. split; [now split|]. split; [exact HP|].
    intros Hlt. now apply issued_nodup.
Qed.

(** C3: from a well-formed client state, under every interleaving of the
    atomic actions of the main, keepalive and TUN threads and of signals, in
    sequentially consistent order, from the creation of the threads to the end
    of the shutdown, which the main thread performs while the others still
    run, no action of a thread is undefined, the client's structures stay well
    formed (the peer table holds no address twice and [peer_count] is exact),
    no sequence number is issued twice as long as fewer than [2^63] were, and
    all that leaves the process is keepalives, acknowledgements, LAN packets
    and DISCONNECT sent to the server it registered with, LAN packets from
    authentic DATA messages handed to the TUN device, and the closing of
    descriptors and joining of threads. [ok] is any property of the authentic
    messages that can arrive. Two defects of the code are assumed not to be
    met, and shown elsewhere: the names announced by PEER_JOIN are terminated
    (the client overreads them otherwise, below), and [npeers], which the code
    leaves uninitialised ([-1]), is so only if the terminal UI is off or no
    poll is interrupted by a signal. Left aside is the shutdown's data race on
    [dev->fd] (the file on races): a pair of accesses, not one action. *)
Theorem client_threads_safe `{M : Monocypher} {ML : MonocypherLaws M}
    (ok : Z -> bytes -> Prop) (s s' : cli_state) (npeers : Z) (pool : list (prog cli_state ctl))
    (Hs : client_ready s)
    (Hok : authentic (g_crypto_key (cli_world s)) ok (w_env (cli_world s)))
    (Hjoin : forall payload, ok MSG_PEER_JOIN payload -> joinable payload)
    (Hn : 0 <= npeers \/ g_tui_active (cli_world s) = false \/ uninterrupted (w_env (cli_world s)))
    (Hsteps : steps client_process client_signal (client_start npeers, s) (pool, s')) :
  ~ wrong (pool, s') /\ client_ready s' /\
  policy (g_crypto_key (cli_world s)) (w_trace (cli_world s))
    (client_out (g_crypto_key (cli_world s)) (cli_server_addr (cli s)) ok) (cli_world s') /\
  (zlen (issued (w_trace (cli_world s'))) < 2 ^ 63 -> NoDup (issued (w_trace (cli_world s')))).
Proof. now apply (client_steps_safe ok s s' npeers). Qed.

Example client_threads_safe_witness :
  let pool := <[0%nat := client_process (M := SampleCipher.sample) 0%nat (-1)]> (client_start (-1)) in
  ~ wrong (pool, sample_cli) /\ client_ready sample_cli /\
  policy (replicate 32 7) []
    (client_out (M := SampleCipher.sample) (replicate 32 7) server_endpoint (only MSG_PEER_JOIN join_payload))
    (cli_world sample_cli) /\
  (zlen (issued (w_trace (cli_world sample_cli))) < 2 ^ 63 -> NoDup (issued (w_trace (cli_world sample_cli)))).
Proof.
  apply (client_threads_safe (M := SampleCipher.sample) (only MSG_PEER_JOIN join_payload) sample_cli sample_cli (-1));
    [exact sample_cli_ready|exact (hearing_authentic _ _ join_plain)|exact sample_joinable|right; left; reflexivity|].
  eapply steps_more; [apply steps_refl|].
  apply (step_loop (client_process (M := SampleCipher.sample)) client_signal (client_start (-1)) sample_cli 0%nat (-1)).
  reflexivity.
Defined.

(** C40: a PEER_JOIN whose 32 name bytes contain no zero makes the client read
    past the end of its local name array as soon as INFO lines are logged. *)
Theorem client_peer_join_overread `{M : Monocypher} (s : cli_state) (payload : bytes) (plen : Z)
    (Hp : 36 <= plen <= zlen payload) (Hl : g_log_level (cli_world s) <= LOG_LEVEL_INFO)
    (Hname : c_str (take 32 (drop 4 payload)) = None) :
  run (client_handle_peer_join payload plen) s = None.
Proof.
  unfold client_handle_peer_join. destruct (Z.ltb_spec plen (4 + TUND_NAME_LEN)); [clia|].
  rewrite !mem_read_some by clia. cbn [local bind].
  change (Z.to_nat TUND_NAME_LEN) with 32%nat. change (Z.to_nat 4) with 4%nat.
  rewrite run_bind. unfold LOG, on_world. cbn [run atomic].
  destruct (Z.ltb_spec LOG_LEVEL_INFO (g_log_level (get_world s))) as [H1|H1]; [cbn in H1; lia|].
  cbn. now rewrite Hname.
Qed.

Example client_peer_join_overread_witness :
  run (client_handle_peer_join (le_split 4 (htonl (TUND_IP_START + 2)) ++ replicate 32 65) 36) sample_cli = None.
Proof.
  apply (client_peer_join_overread (M := SampleCipher.sample));
    [vm_compute; split; congruence|vm_compute; congruence|reflexivity].
Defined.

(** * Single handlers *)

Lemma accept_rejected s sequence :
  (proto_replay_accept (cli_server_replay (cli s)) sequence).1 = false ->
  run (accept_from_server sequence) s = Some (false, s).
Proof.
  intros Hrej. unfold accept_from_server. cbn [run load atomic bind].
  pose proof (rejected_same _ _ Hrej) as Hsame.
  destruct (proto_replay_accept (cli_server_replay (cli s)) sequence) as [okay w].
  cbn [fst snd] in *. subst. cbn. now destruct s as [w []].
Qed.

(** C17: a datagram of any type whose sequence number the client's window
    rejects has no effect: nothing of the client changes, not even the time the
    server was last seen, and nothing is sent. *)
Theorem client_drops_replays `{M : Monocypher} (s : cli_state) (type sequence : Z)
    (nonce payload rest : bytes)
    (Hs : client_ready s) (Ht : is_u8 type) (Hsq : is_u64 sequence) (Hn : length nonce = 24%nat)
    (Hm : zlen payload <= TUND_MAX_PLAINTEXT)
    (Hrej : (proto_replay_accept (cli_server_replay (cli s)) sequence).1 = false) :
  let buf := hdr_bytes type (zlen payload) sequence nonce ++ payload ++ rest in
  exists s', run (client_handle_server_packet buf (TUND_HDR_SIZE + zlen payload)) s = Some (tt, s') /\
    unchanged s s'.
Proof.
  intros buf. unfold buf, client_handle_server_packet. pose proof (zlen_nonneg payload).
  rewrite read_hdr_at by (done || clia). cbn [local bind].
  destruct (Z.ltb_spec (TUND_HDR_SIZE + zlen payload) (TUND_HDR_SIZE + zlen payload)); [lia|].
  rewrite read_sequence_any by done. cbn [local bind]. rewrite run_bind.
  destruct (sequence =? 0); [|rewrite accept_rejected by done]; cbn [run negb]; apply run_log;
    try apply Hs; constructor.
Qed.

Example client_drops_replays_witness :
  let buf := hdr_bytes MSG_DISCONNECT 0 0 (replicate 24 1) ++ [] ++ [] in
  exists s', run (client_handle_server_packet (M := SampleCipher.sample) buf TUND_HDR_SIZE) sample_cli = Some (tt, s') /\
    unchanged sample_cli s'.
Proof.
  apply (client_drops_replays (M := SampleCipher.sample) sample_cli MSG_DISCONNECT 0 (replicate 24 1) [] []);
    [exact sample_cli_ready|words; unfold MSG_DISCONNECT; lia|words; lia|reflexivity|vm_compute; congruence
    |reflexivity].
Defined.

(** C10: updating the client's table refines a finite map from virtual addresses
    to names of at most [TUND_MAX_PEERS] entries: an online peer is inserted
    (or renamed) if it is known or a slot is free, an offline one is deleted,
    nothing else of the client changes, and [peer_count] is the size of the
    map. *)
Theorem client_update_peer_refines_map (s : cli_state) (vip : Z) (nm field : bytes) (online : bool)
    (Hs : client_ready s) (Hv : is_u32 vip) (Hb : bytes_ok nm) (Hf : stored_name nm field) :
  exists s', run (client_update_peer vip (Some nm) online) s = Some (tt, s') /\
    client_ready s' /\ same_but_table (cli s) (cli s') /\
    roster (cli_peers (cli s')) = announce (roster (cli_peers (cli s))) (vip, field, online) /\
    cli_peer_count (cli s') = Z.of_nat (size (roster (cli_peers (cli s')))).
Proof.
  destruct Hs as [Hw Hc]. destruct (run_announce s vip nm field online) as (s' & Hr & Ht); auto.
  destruct Ht as (Hw' & _ & Hc' & Hsame & Hm). exists s'. split; [done|]. split; [done|].
  split; [done|]. split; [done|]. rewrite (roster_size _ (ok_cli_vips _ Hc')). apply Hc'.
Qed.

Example client_update_peer_refines_map_witness :
  exists s', run (client_update_peer (htonl (TUND_IP_START + 4)) (Some (name_field (str "eve"))) true) sample_cli
      = Some (tt, s') /\
    client_ready s' /\ same_but_table sample_client (cli s') /\
    roster (cli_peers (cli s')) =
      announce (roster (cli_peers sample_client)) (htonl (TUND_IP_START + 4), name_field (str "eve"), true) /\
    cli_peer_count (cli s') = Z.of_nat (size (roster (cli_peers (cli s')))).
Proof.
  apply (client_update_peer_refines_map sample_cli _ _ (name_field (str "eve")) true);
    [exact sample_cli_ready|apply htonl_is_u32| |now exists (pad_to 31 (str "eve"))].
  apply name_field_ok. repeat constructor; words; cbn; lia.
Defined.

(** The client gives the server up exactly when it has heard from it before
    and more than [TUND_SERVER_TIMEOUT] seconds ago; a clock that went backwards
    never counts as a timeout, in unsigned arithmetic either. *)
Theorem client_timeout_exact (last now : Z) (Hl : is_u64 last) (Hn : 0 <= now < 2 ^ 62) :
  server_timed_out last now = true <-> last <> 0 /\ TUND_SERVER_TIMEOUT < now - last.
Proof.
  unfold server_timed_out.
  assert (Hu : u64 now = now) by (words; apply Z.mod_small; lia). rewrite Hu.
  destruct (Z.eqb_spec last 0), (Z.leb_spec now 0); cbn [orb].
  1-3: split; [done|]; intros [H0 H1]; exfalso; words; unfold TUND_SERVER_TIMEOUT in *; lia.
  destruct (Z.ltb_spec last now); cbn [andb].
  - assert (Hs : u64 (now - last) = now - last) by (words; apply Z.mod_small; lia).
    rewrite Hs, Z.ltb_lt. tauto.
  - split; [done|]. intros [Hx Hy]. exfalso. unfold TUND_SERVER_TIMEOUT in *. lia.
Qed.

Example client_timeout_exact_witness :
  server_timed_out 1000 1031 = true <-> 1000 <> 0 /\ TUND_SERVER_TIMEOUT < 1031 - 1000.
Proof. apply client_timeout_exact; [words; lia|lia]. Defined.

(** A keepalive of the server is answered with an acknowledgement that
    carries the very same eight bytes, sent to the server and to nobody else;
    a shorter one is ignored. *)
Theorem client_keepalive_echo `{M : Monocypher} {ML : MonocypherLaws M}
    (s : cli_state) (payload : bytes) (plen : Z)
    (Hs : client_ready s) (Hb : bytes_ok payload) (Hp : plen <= zlen payload) :
  exists s', run (client_handle_keepalive payload plen) s = Some (tt, s') /\ client_ready s' /\
    policy (g_crypto_key (cli_world s)) (w_trace (cli_world s))
      (fun e => 8 <= plen /\
         sent_message (g_crypto_key (cli_world s)) MSG_KEEPALIVE_ACK (take 8 payload)
           (cli_server_addr (cli s)) e) (cli_world s').
Proof.
  destruct Hs as [Hw Hc]. set (ok := fun e => 8 <= plen /\ _).
  destruct (safe_run (attached (cli_server_addr (cli s))
      (policy (g_crypto_key (cli_world s)) (w_trace (cli_world s)) ok)) (client_handle_keepalive payload plen)
      (fun _ => True) s) as ([] & s' & Hr & [Hw' (Hc' & _ & HP)] & _).
  - apply safe_client_keepalive; [typeclasses eauto|done|done|]. intros H8. apply grants_policy. intros e He.
    split; [done|]. rewrite <- (be_split_combine (take 8 payload)); [|now apply bytes_ok_take].
    replace (length (take 8 payload)) with 8%nat by (rewrite length_take; unfold zlen in *; lia). exact He.
  - split; [done|]. split; [done|]. split; [done|]. apply policy_start.
  - exists s'. split; [done|]. split; [now split|exact HP].
Qed.

Example client_keepalive_echo_witness :
  exists s', run (client_handle_keepalive (M := SampleCipher.sample) (be_split 8 123456) 8) sample_cli = Some (tt, s') /\
    client_ready s' /\
    policy (replicate 32 7) []
      (fun e => 8 <= 8 /\
         sent_message (M := SampleCipher.sample) (replicate 32 7) MSG_KEEPALIVE_ACK (take 8 (be_split 8 123456))
           server_endpoint e) (cli_world s').
Proof.
  apply (client_keepalive_echo (M := SampleCipher.sample) sample_cli (be_split 8 123456) 8);
    [exact sample_cli_ready|apply be_split_ok|vm_compute; congruence].
Defined.
