(* ===== verification/EndToEnd.v ===== *)
(** Server and client together: what the server's messages do to a client that
    receives them. *)
From stdpp Require Import base list numbers option gmap.
From S2P Require Import Prelude Prog World Consts Sequence Wire Ipv4 Crypto Events Replay Peer Net Messages Boot ServerPeers Client ClientTable ClientSafe ClientRegister ClientSpec.

(** * Names *)

(** The field that the client stores for a name the server sends is the field
    that was sent. *)
Lemma stored_field s : Forall (fun b => b <> 0) s -> stored_name (name_field s) (name_field s).
Proof.
  intros Hs. exists (pad_to 31 s). split; [|done].
  rewrite (strncpy_str _ (take 31 s)) by now apply c_str_name_field.
  f_equal. unfold pad_to. rewrite take_take, length_take.
  now replace (31 - Nat.min 31 (length s))%nat with (31 - length s)%nat by lia.
Qed.

(** Names as the server's table holds them. *)
Definition entry_ok (e : Z * bytes) : Prop :=
  is_u32 e.1 /\ bytes_ok e.2 /\ Forall (fun b => b <> 0) e.2.

Definition online_entry (e : Z * bytes) : Z * bytes * bool := (e.1, name_field e.2, true).

(** * Peer lists *)

Lemma run_peer_list_loop l rest : forall n i s,
  (i + n = length l)%nat -> Forall entry_ok l -> world_ok (cli_world s) -> cli_ok (cli s) ->
  exists s', run (peer_list_loop n (entries_bytes l ++ rest) (zlen (entries_bytes l)) (Z.of_nat i)) s =
      Some (tt, s') /\
    table_step s (foldl announce (roster (cli_peers (cli s))) (map online_entry (drop i l))) s'.
Proof.
  induction n as [|n IH]; intros i s Hi HF Hw Hc; cbn [peer_list_loop].
  - exists s. split; [done|]. rewrite drop_ge by lia. now apply table_step_same.
  - destruct (lookup_lt_is_Some_2 l i) as [[ip nm] Hl]; [lia|].
    rewrite Forall_lookup in HF. destruct (HF _ _ Hl) as (Hip & Hnb & Hn0). cbn [fst snd] in *.
    rewrite (read_entry_at l i ip nm rest);
      [|apply Forall_lookup; intros j e Hj; now destruct (HF _ _ Hj)|done].
    cbn [local bind]. rewrite run_bind.
    destruct (run_announce s ip (name_field nm) (name_field nm) true) as (s1 & -> & Ht);
      auto using name_field_ok, stored_field.
    replace (Z.of_nat i + 1) with (Z.of_nat (S i)) by lia.
    destruct (IH (S i) s1) as (s2 & Hr & Ht2); [lia|now apply Forall_lookup|apply Ht|apply Ht|].
    exists s2. split; [done|]. rewrite (drop_S l (ip, nm) i) by done. cbn [map foldl].
    destruct Ht as (Hw1 & Hq1 & Hc1 & Hs1 & Hm1). rewrite Hm1 in Ht2.
    apply (table_step_trans _ (announce (roster (cli_peers (cli s))) (ip, name_field nm, true)) s1);
      [exact (conj Hw1 (conj Hq1 (conj Hc1 (conj Hs1 Hm1))))|exact Ht2].
Qed.

(** The state in which a handler leaves a client: well formed, nothing sent,
    only the table changed, to [m]. *)
Definition client_after (s : cli_state) (m : gmap Z bytes) (s' : cli_state) : Prop :=
  client_ready s' /\ world_quiet (cli_world s) (cli_world s') /\
  same_but_table (cli s) (cli s') /\ roster (cli_peers (cli s')) = m.

Lemma client_after_step s m s' : table_step s m s' -> client_after s m s'.
Proof. intros (H1 & H2 & H3 & H4 & H5). now repeat (split; [done|]). Qed.

(** C15: a client that receives a peer list as the server writes it ends up
    with exactly the announced peers added to its table, under the announced
    names, one after the other as slots allow; nothing is sent. *)
Theorem client_learns_peer_list (s : cli_state) (l : list (Z * bytes)) (rest : bytes)
    (Hs : client_ready s) (Hl : Forall entry_ok l) :
  exists s', run (client_handle_peer_list (entries_bytes l ++ rest) (zlen (entries_bytes l))) s = Some (tt, s') /\
    client_after s (foldl announce (roster (cli_peers (cli s))) (map online_entry l)) s'.
Proof.
  destruct Hs as [Hw Hc]. unfold client_handle_peer_list.
  assert (Hcount : proto_peer_entry_count (zlen (entries_bytes l)) = zlen l).
  { unfold proto_peer_entry_count. rewrite zlen_entries, Z.mul_comm. now apply Z.div_mul. }
  rewrite Hcount, run_bind.
  destruct (run_report (LOG LOG_LEVEL_INFO []) s Hw) as (s1 & -> & Hw1 & Hq1 & Hc1); [logging|].
  rewrite run_bind. assert (Hn : Z.to_nat (zlen l) = length l) by (unfold zlen; lia). rewrite Hn.
  destruct (run_peer_list_loop l rest (length l) 0 s1) as (s2 & Hr2 & Ht); auto; [congruence|].
  change (Z.of_nat 0) with 0 in Hr2. rewrite Hr2. rewrite drop_0, Hc1 in Ht.
  assert (Hstep : exists s', run (report_peers (if 0 <? zlen l then client_log_peers else Ret tt)) s2 =
    Some (tt, s') /\ unchanged s2 s').
  { destruct Ht as (Hw2 & _ & Hc2 & _). apply run_report; [done|]. destruct (_ <? _); [|done].
    apply safe_log_peers; [typeclasses eauto|]. intros s' [-> _]. exact Hc2. }
  destruct Hstep as (s3 & Hr & Hu). exists s3. split; [exact Hr|]. apply client_after_step.
  apply (table_step_trans s (roster (cli_peers (cli s))) s1).
  - split; [done|]. split; [done|]. rewrite Hc1. split; [done|]. split; [now destruct (cli s)|done].
  - now apply (table_step_unchanged _ _ s2).
Qed.

Example client_learns_peer_list_witness :
  let l := [(htonl (TUND_IP_START + 2), str "carol"); (htonl (TUND_IP_START + 1), str "robert")] in
  exists s', run (client_handle_peer_list (entries_bytes l ++ []) (zlen (entries_bytes l))) sample_cli = Some (tt, s') /\
    client_after sample_cli (foldl announce (roster (cli_peers sample_client)) (map online_entry l)) s'.
Proof.
  intros l. apply (client_learns_peer_list sample_cli l []); [exact sample_cli_ready|].
  repeat constructor; cbn; words; try lia; try (vm_compute; congruence).
Defined.

(** * Arrivals and departures *)

Lemma le_vip vip rest : is_u32 vip ->
  mem_read (le_split 4 vip ++ rest) 0 4 = Some (le_split 4 vip) /\ le_combine (le_split 4 vip) = vip.
Proof.
  intros Hv. split; [now apply (mem_read_at _ [] (le_split 4 vip) rest)|].
  rewrite le_combine_split. now apply Z.mod_small.
Qed.

(** A client that receives the announcement the server builds for a new
    peer (address and name as [proto_build_peer_join] writes them) handles it
    without reading past the name, stores the peer under that address and that
    name if it has a slot for it, and sends nothing. *)
Theorem client_learns_peer_join `{M : Monocypher} (s : cli_state) (vip : Z) (nm rest : bytes)
    (Hs : client_ready s) (He : entry_ok (vip, nm)) :
  exists s', run (client_handle_peer_join (le_split 4 vip ++ name_field nm ++ rest) 36) s = Some (tt, s') /\
    client_after s (announce (roster (cli_peers (cli s))) (vip, name_field nm, true)) s'.
Proof.
  destruct Hs as [Hw Hc], He as (Hv & Hb & Hn). cbn [fst snd] in *. unfold client_handle_peer_join.
  change (36 <? 4 + TUND_NAME_LEN) with false. cbn iota.
  destruct (le_vip vip (name_field nm ++ rest) Hv) as [-> Hvip]. cbn [local bind]. rewrite Hvip.
  rewrite (mem_read_at _ (le_split 4 vip) (name_field nm) rest);
    [|done|done|unfold zlen; now rewrite length_name_field]. cbn [local bind]. rewrite run_bind.
  destruct (run_log LOG_LEVEL_INFO [name_field nm; ip_to_str_buf vip] s Hw) as (s1 & -> & Hw1 & Hq1 & Hc1).
  { repeat constructor; [|apply ip_terminated]. exists (take 31 nm). now apply c_str_name_field. }
  rewrite run_bind.
  destruct (run_announce s1 vip (name_field nm) (name_field nm) true) as (s2 & -> & Ht);
    auto using name_field_ok, stored_field; [congruence|]. rewrite Hc1 in Ht.
  destruct (run_report_table s2) as (s3 & Hr & Hu); [apply Ht|apply Ht|].
  exists s3. split; [exact Hr|]. apply client_after_step.
  apply (table_step_trans s (roster (cli_peers (cli s))) s1).
  - split; [done|]. split; [done|]. rewrite Hc1. split; [done|]. split; [now destruct (cli s)|done].
  - now apply (table_step_unchanged _ _ s2).
Qed.

Example client_learns_peer_join_witness :
  exists s', run (client_handle_peer_join
      (le_split 4 (htonl (TUND_IP_START + 2)) ++ name_field (str "carol") ++ []) 36) sample_cli = Some (tt, s') /\
    client_after sample_cli (announce (roster (cli_peers sample_client))
      (htonl (TUND_IP_START + 2), name_field (str "carol"), true)) s'.
Proof.
  apply (client_learns_peer_join (M := SampleCipher.sample) sample_cli); [exact sample_cli_ready|].
  repeat constructor; cbn; words; try lia; try (vm_compute; congruence).
Defined.

(** A client told that the peer at [vip] left removes it from its table, if
    it is there, keeps every other peer, and sends nothing. *)
Theorem client_learns_peer_leave `{M : Monocypher} (s : cli_state) (vip : Z) (rest : bytes)
    (Hs : client_ready s) (Hv : is_u32 vip) :
  exists s', run (client_handle_peer_leave (le_split 4 vip ++ rest) 4) s = Some (tt, s') /\
    client_after s (delete vip (roster (cli_peers (cli s)))) s'.
Proof.
  destruct Hs as [Hw Hc]. unfold client_handle_peer_leave. change (4 <? 4) with false. cbn iota.
  destruct (le_vip vip rest Hv) as [-> Hvip]. cbn [local bind]. rewrite Hvip, run_bind, run_locked.
  destruct (run_leave s vip Hw Hc) as (nm & s1 & -> & Hnm & Ht). rewrite run_bind.
  destruct (run_log LOG_LEVEL_INFO [nm; ip_to_str_buf vip] s1) as (s2 & -> & Hu); [apply Ht| |].
  { repeat constructor; [done|apply ip_terminated]. }
  pose proof (table_step_unchanged _ _ _ _ Ht Hu) as Ht2.
  assert (Hstep : exists s', run (report_peers (if 0 <? cli_peer_count (cli s1) then client_log_peers
      else LOG LOG_LEVEL_INFO [])) s2 = Some (tt, s') /\ unchanged s2 s').
  { destruct Ht2 as (Hw2 & _ & Hc2 & _). apply run_report; [done|]. destruct (_ <? _); [|logging].
    apply safe_log_peers; [typeclasses eauto|]. intros s' [-> _]. exact Hc2. }
  destruct Hstep as (s3 & Hr & Hu3). exists s3. split; [exact Hr|]. apply client_after_step.
  now apply (table_step_unchanged _ _ s2).
Qed.

Example client_learns_peer_leave_witness :
  exists s', run (client_handle_peer_leave (le_split 4 (htonl (TUND_IP_START + 1)) ++ []) 4) sample_cli = Some (tt, s') /\
    client_after sample_cli (delete (htonl (TUND_IP_START + 1)) (roster (cli_peers sample_client))) s'.
Proof.
  apply (client_learns_peer_leave (M := SampleCipher.sample) sample_cli); [exact sample_cli_ready|].
  vm_compute. split; congruence.
Defined.

(** * Registration *)

(** The only thing a registering client sends: REGISTER with its own name, to
    its server. *)
Definition register_out `{M : Monocypher} (key : bytes) (c : client_t) (e : event) : Prop :=
  exists nm, c_str (cli_name c) = Some nm /\ sent_message key MSG_REGISTER nm (cli_server_addr c) e.

(** C16: registration ends, without undefined behaviour, in one of two ways.
    Either it fails and nothing of the client changed but its replay window, or
    an authentic ASSIGN message of at least ten bytes arrived from the network
    and the client's address and netmask are exactly the two fields of it.  In
    both cases all that was sent is REGISTER messages with the client's name to
    its server. *)
Theorem client_register_outcomes `{M : Monocypher} {ML : MonocypherLaws M}
    (ok : Z -> bytes -> Prop) (s : cli_state)
    (Hs : client_ready s) (Hok : authentic (g_crypto_key (cli_world s)) ok (w_env (cli_world s))) :
  exists r s', run client_register s = Some (r, s') /\ world_ok (cli_world s') /\
    policy (g_crypto_key (cli_world s)) (w_trace (cli_world s))
      (register_out (g_crypto_key (cli_world s)) (cli s)) (cli_world s') /\
    ((r = -1 /\ session_of (cli s) (cli s')) \/
     (r = 0 /\ exists payload, ok MSG_ASSIGN payload /\ 10 <= zlen payload /\
        session_of (assign payload (cli s)) (cli s'))).
Proof.
  destruct Hs as [Hw Hc]. set (key := g_crypto_key (cli_world s)) in *.
  set (W := client_world (mode (cli_world s)) key ok (w_trace (cli_world s)) (register_out key (cli s))).
  assert (Hstart : inv (holds (session_of (cli s)) W) s).
  { split; [done|]. split; [|now apply client_world_start]. exists (cli_server_replay (cli s)).
    split; [apply Hc|now destruct (cli s)]. }
  assert (Hreg : wp client_register (register_done W ok (cli s)) s).
  { unfold client_register. apply wp_bind.
    eapply wp_safe; [apply alloc_pkt; typeclasses eauto|exact Hstart|]. intros buf s1 Hs1 [Hb Hl].
    apply (wp_register_loop W ok (cli s) Hc); auto.
    - intros w w'. apply client_world_heard.
    - intros nm Hnm. apply client_world_grants. intros e He. now exists nm. }
  destruct Hreg as (r & s' & Hr & HD). exists r, s'. split; [exact Hr|].
  destruct HD as [[-> [Hw' [Hses (_ & _ & HP)]]]|(-> & payload & Hpay & H10 & [Hw' [Hses (_ & _ & HP)]])];
    (split; [done|split; [exact HP|]]); [by left|right; eauto].
Qed.

(** The server hands out the address after bob's. *)
Definition offer : bytes := assign_payload (htonl (TUND_IP_START + 2)) (htonl TUND_NETMASK) TUND_TUN_MTU.

Lemma offer_plain : plain MSG_ASSIGN offer.
Proof.
  split; [words; unfold MSG_ASSIGN; lia|]. split; [|vm_compute; congruence].
  unfold offer, assign_payload. rewrite !bytes_ok_app. auto using le_split_ok.
Qed.

Example client_register_outcomes_witness :
  exists r s', run (client_register (M := SampleCipher.sample)) (hearing MSG_ASSIGN offer) = Some (r, s') /\
    world_ok (cli_world s') /\
    policy (replicate 32 7) []
      (register_out (M := SampleCipher.sample) (replicate 32 7) sample_client) (cli_world s') /\
    ((r = -1 /\ session_of sample_client (cli s')) \/
     (r = 0 /\ exists payload, only MSG_ASSIGN offer MSG_ASSIGN payload /\ 10 <= zlen payload /\
        session_of (assign payload sample_client) (cli s'))).
Proof.
  apply (client_register_outcomes (M := SampleCipher.sample) (only MSG_ASSIGN offer) (hearing MSG_ASSIGN offer));
    [exact (hearing_ready _ _ offer_plain)|exact (hearing_authentic _ _ offer_plain)].
Defined.

(** The same registration, evaluated: it succeeds and takes over the offer. *)
Example sample_registration :
  match run (client_register (M := SampleCipher.sample)) (hearing MSG_ASSIGN offer) with
  | Some (r, s') => (r, cli_virt_ip (cli s'), cli_netmask (cli s'))
  | None => (1, 0, 0)
  end = (0, htonl (TUND_IP_START + 2), htonl TUND_NETMASK).
Proof. vm_compute. reflexivity. Qed.
