(* ===== verification/ClientLifecycle.v ===== *)
(** Life of the client process ([client.c], [log.c] of [core/client]): name
    resolution, registration and configuration of the interface with their
    error paths, creation of the threads, shutdown; which descriptors are open
    and which threads run at each point. *)
From stdpp Require Import base list numbers option gmap.
From S2P Require Import Prelude Prog World Consts Sequence Wire Ipv4 Crypto Events Cli Replay Peer Net Messages Boot Frame Rely Release Client ClientTable ClientSafe ClientThreads ClientRegister ClientSpec EndToEnd.

(** * Code *)

Definition client_log_banner : prog cli_state unit :=
  let* c := load (fun c => c) in
  LOG LOG_LEVEL_INFO [TUND_VERSION] ;;
  LOG LOG_LEVEL_INFO [ip_to_str_buf (cli_virt_ip c)] ;;
  LOG LOG_LEVEL_INFO [ip_to_str_buf (s_addr (cli_server_addr c))] ;;
  LOG LOG_LEVEL_INFO [ifname (cli_tun c)] ;;
  LOG LOG_LEVEL_INFO [cli_name c] ;;
  LOG LOG_LEVEL_INFO [].

Definition client_log_startup_checklist : prog cli_state unit :=
  let* c := load (fun c => c) in
  LOG LOG_LEVEL_INFO [] ;;
  LOG LOG_LEVEL_INFO [ip_to_str_buf (s_addr (cli_server_addr c))] ;;
  LOG LOG_LEVEL_INFO [ip_to_str_buf (cli_virt_ip c); ifname (cli_tun c)] ;;
  LOG LOG_LEVEL_INFO [] ;;
  LOG LOG_LEVEL_INFO [].

(** The assignments at the head of [client_init], up to the name. *)
Definition blank_client : client_t :=
  Client (-1) no_device zero_addr 0 0 0 false 0 proto_replay_reset (replicate 32 0)
    (replicate 253 zero_peer) 0 false false false false.

Definition set_cli_name (nm : bytes) (c : client_t) : client_t :=
  Client (cli_sockfd c) (cli_tun c) (cli_server_addr c) (cli_virt_ip c) (cli_netmask c)
    (cli_server_rtt_ms c) (cli_has_server_rtt c) (cli_last_server_seen c) (cli_server_replay c)
    nm (cli_peers c) (cli_peer_count c) (cli_ka_started c) (cli_tun_started c) (cli_ka_quit c) (cli_tun_quit c).

Definition set_server_addr (a : sockaddr_in) (c : client_t) : client_t :=
  Client (cli_sockfd c) (cli_tun c) a (cli_virt_ip c) (cli_netmask c)
    (cli_server_rtt_ms c) (cli_has_server_rtt c) (cli_last_server_seen c) (cli_server_replay c)
    (cli_name c) (cli_peers c) (cli_peer_count c) (cli_ka_started c) (cli_tun_started c) (cli_ka_quit c) (cli_tun_quit c).

Definition set_cli_flags (ka_s tun_s ka_q tun_q : bool) (c : client_t) : client_t :=
  Client (cli_sockfd c) (cli_tun c) (cli_server_addr c) (cli_virt_ip c) (cli_netmask c)
    (cli_server_rtt_ms c) (cli_has_server_rtt c) (cli_last_server_seen c) (cli_server_replay c)
    (cli_name c) (cli_peers c) (cli_peer_count c) ka_s tun_s ka_q tun_q.

Section code.
Context `{M : Monocypher}.

(** The common error path. *)
Definition client_init_fail (dev : tun_device_t) (fd : Z) : prog cli_state Z :=
  let* dev := tun_close dev in
  save (set_cli_tun dev) ;;
  sys_close fd ;;
  Ret (-1).

(** Once the client is registered. *)
Definition client_init_interface (fd : Z) : prog cli_state Z :=
  let* dev := load cli_tun in
  let* '(r, dev) := tun_open dev in
  save (set_cli_tun dev) ;;
  if r <? 0 then sys_close fd ;; Ret (-1)
  else
    let* ip := load cli_virt_ip in
    let* mask := load cli_netmask in
    let* r := tun_set_ip dev ip mask in
    if r <? 0 then client_init_fail dev fd
    else
      let* '(r, dev) := tun_set_mtu dev TUND_TUN_MTU in
      save (set_cli_tun dev) ;;
      if r <? 0 then client_init_fail dev fd else Ret 0.

Definition client_init (cfg : config_t) : prog cli_state Z :=
  save (fun _ => blank_client) ;;
  let* nm := local (
    let? text := snprintf_s (Z.to_nat TUND_NAME_LEN) (cfg_client_name cfg) in
    mem_write (replicate 32 0) 0 text) in
  save (set_cli_name nm) ;;
  let* '(r, addr) := net_resolve (cfg_server_ip cfg) (cfg_port cfg) zero_addr in
  save (set_server_addr addr) ;;
  if r <? 0 then Ret (-1)
  else
    let* fd := net_create_socket 0 in
    save (set_cli_sockfd fd) ;;
    if negb (sock_valid fd) then Ret (-1)
    else
      let* r := client_register in
      if r <? 0 then sys_close fd ;; Ret (-1)
      else
        client_mark_server_seen ;;
        client_init_interface fd.

(** [client_run] before its loop: whether the loop is entered. *)
Definition client_run_start : prog cli_state bool :=
  client_log_banner ;;
  save (fun c => set_cli_flags (cli_ka_started c) (cli_tun_started c) false (cli_tun_quit c) c) ;;
  save (fun c => set_cli_flags (cli_ka_started c) (cli_tun_started c) (cli_ka_quit c) false c) ;;
  let* r := sys_call (ThreadCreate 1) in
  if negb (r =? 0) then
    LOG LOG_LEVEL_ERROR [] ;;
    tund_request_stop ;;
    Ret false
  else
    save (fun c => set_cli_flags true (cli_tun_started c) (cli_ka_quit c) (cli_tun_quit c) c) ;;
    let* r := sys_call (ThreadCreate 2) in
    if negb (r =? 0) then
      LOG LOG_LEVEL_ERROR [] ;;
      save (set_ka_quit true) ;;
      let* _ := sys_call (ThreadJoin 1) in
      save (fun c => set_cli_flags false (cli_tun_started c) (cli_ka_quit c) (cli_tun_quit c) c) ;;
      tund_request_stop ;;
      Ret false
    else
      save (fun c => set_cli_flags (cli_ka_started c) true (cli_ka_quit c) (cli_tun_quit c) c) ;;
      tui_screen true ;;
      client_log_startup_checklist ;;
      Ret true.
End code.

(** * Start-up *)

Section init.
Context `{M : Monocypher} {ML : MonocypherLaws M}.
Context (key : bytes) (ok : Z -> bytes -> Prop) (os : env).

(** The process: its key, what the authentic messages that can arrive satisfy,
    and its operating system. *)
Definition hears (w : world) : Prop := (fun e k => k = key /\ authentic key ok e /\ e = os) (w_env w) (g_crypto_key w).

#[export] Instance quiet_hears : Quiet hears.
Proof. exact (quiet_fixed (fun e k => k = key /\ authentic key ok e /\ e = os)). Qed.

#[export] Instance allows_hears e : Allows hears e.
Proof. exact (allows_fixed (fun e k => k = key /\ authentic key ok e /\ e = os) e). Qed.

(** The client's structure satisfies [D]; exactly these device events. *)
Definition cli_boots (D : client_t -> Prop) (t : list event) : cli_state -> Prop := holds D (books hears t).

#[export] Instance cli_boots_accounts D : Accounts (cli_boots D) (fun _ => True).
Proof.
  split; [intros t; apply holds_framed; apply _|].
  intros t e w s [H1 H2] He _ E1 E2 E3 E4. split; [done|].
  apply (books_event hears t e (cli_world s)); try done. apply _.
Qed.

Lemma wp_cli_store D D' t f s (K : unit -> cli_state -> Prop) :
  inv (cli_boots D t) s -> (forall c, D c -> D' (f c)) ->
  (forall s', inv (cli_boots D' t) s' -> K tt s') -> wp (save f) K s.
Proof. intros Hs Hf HK. eapply (wp_save (books hears t)); eauto. Qed.

Lemma wp_load {A} D (f : client_t -> A) t s (K : A -> cli_state -> Prop) :
  inv (cli_boots D t) s -> (D (cli s) -> K (f (cli s)) s) -> wp (load f) K s.
Proof. intros [_ [H1 _]] HK. exists (f (cli s)), s. split; [done|]. auto. Qed.

(** What such a message carries is bytes. *)
Definition heard (type : Z) (payload : bytes) : Prop := ok type payload /\ bytes_ok payload.

(** Registration opens and closes nothing. *)
Lemma wp_boot_register D c0 t s :
  cli_ok c0 -> (forall c, D c -> c = c0) -> inv (cli_boots D t) s ->
  wp client_register (register_done (books hears t) heard c0) s.
Proof.
  intros Hc HD [Hw [Hs HB]]. apply HD in Hs.
  assert (Hstart : inv (holds (session_of c0) (books hears t)) s).
  { split; [done|]. split; [|done]. rewrite Hs. exists (cli_server_replay c0). split; [apply Hc|now destruct c0]. }
  unfold client_register. apply wp_bind.
  eapply wp_safe; [apply alloc_pkt; typeclasses eauto|exact Hstart|]. intros buf s1 Hs1 [Hb Hl].
  apply (wp_register_loop (books hears t) heard c0 Hc); auto.
  - intros w w' [(_ & H1 & _) _] [(-> & _) _] ? ? ? ? ? ? ? ? ? ? ? ?. split; [|done]. eapply H1; eauto.
  - intros nm _ k sq nc res _ _ _ _. apply _.
Qed.

(** What the start-up has to go by: the name and the resolved address. *)
Context (cfg : config_t) (t0 : list event).
Hypothesis Hcfg : config_ok cfg.

Definition named_client (nm : bytes) (addr : sockaddr_in) (fd : Z) : client_t :=
  set_cli_sockfd fd (set_server_addr addr (set_cli_name nm blank_client)).

Lemma named_client_ok nm addr fd : name_ok nm -> addr_ok addr -> cli_ok (named_client nm addr fd).
Proof.
  intros Hn Ha. split; cbn -[replicate]; try done.
  - apply Forall_replicate, zero_peer_ok.
  - intros i j p q Hi. apply lookup_replicate_1 in Hi as [-> _]. done.
  - now exists [].
Qed.

(** Registered with this ASSIGN payload, with this device. *)
Definition enlisted (nm : bytes) (addr : sockaddr_in) (fd : Z) (payload : bytes) (dev : tun_device_t)
    (c : client_t) : Prop :=
  exists w seen, window_ok w /\ is_u64 seen /\
    c = set_cli_tun dev (set_server_seen seen (set_server_replay w (assign payload (named_client nm addr fd)))).

Lemma enlisted_ok nm addr fd payload dev c :
  name_ok nm -> addr_ok addr -> bytes_ok payload -> dev_ok dev -> enlisted nm addr fd payload dev c -> cli_ok c.
Proof.
  intros Hn Ha Hb [_ Hd] (w & seen & Hw & Hs & ->). destruct (named_client_ok nm addr fd Hn Ha).
  split; try done. cbn. split; (eapply le_combine_u32; [|rewrite length_take; lia]).
  - now apply bytes_ok_take.
  - now apply bytes_ok_take, bytes_ok_drop.
Qed.

(** What a successful start-up leaves, from the device events [t0]. *)
Record joined (c : client_t) (t : list event) : Prop := {
  joined_ok : cli_ok c;
  joined_name : c_str (cli_name c) = option_map (take 31) (c_str (cfg_client_name cfg));
  joined_server : exists a tk, env_resolve os tk = Some a /\
    cli_server_addr c = SockAddr (sin_family a) (htons (cfg_port cfg)) (s_addr a);
  joined_flags : cli_ka_started c = false /\ cli_tun_started c = false;
  joined_address : exists payload, ok MSG_ASSIGN payload /\ 10 <= zlen payload /\
    cli_virt_ip c = le_combine (take 4 payload) /\ cli_netmask c = le_combine (take 4 (drop 4 payload));
  joined_fds : 0 <= cli_sockfd c /\ 0 <= tun_fd (cli_tun c) /\ dev_ok (cli_tun c) /\
    tun_mtu (cli_tun c) = TUND_TUN_MTU;
  joined_open : same_open t (EvOpen (tun_fd (cli_tun c)) :: EvOpen (cli_sockfd c) :: t0);
  joined_threads : forall i, unjoined i t = unjoined i t0;
  joined_calls : exists sock1 sock2 flags nm, strncpy (ifname (cli_tun c)) 16 = Some nm /\
    accepted (interface_calls (cli_sockfd c) (tun_fd (cli_tun c)) sock1 sock2 0 flags nm
                (cli_virt_ip c) (cli_netmask c)) t0 t
}.

(** The system refuses some call, the server's name is not resolved, or no
    assignment of an address was received. *)
Definition cli_refuses : Prop :=
  (exists tk, env_sys os tk < 0) \/ (exists tk, env_resolve os tk = None) \/
  (exists s s', w_env (cli_world s) = os /\ run client_register s = Some (-1, s')).

Lemma cli_boots_refused D t s tk : cli_boots D t s -> env_sys (w_env (get_world s)) tk < 0 -> cli_refuses.
Proof. intros (_ & (_ & _ & E) & _) H. cbn in H. rewrite E in H. left. now exists tk. Qed.

Definition cli_init_post (r : Z) (s : cli_state) : Prop :=
  world_ok (cli_world s) /\ random_kept (cli_world s) /\
  ((r = -1 /\ cli_refuses /\ same_open (devices (cli_world s)) t0) \/
   (r = 0 /\ hears (cli_world s) /\ joined (cli s) (devices (cli_world s)))).

Lemma fail_post D t s : cli_refuses -> inv (cli_boots D t) s -> same_open t t0 -> cli_init_post (-1) s.
Proof. intros Hno [Hw [_ [_ Hd]]] Ht. split; [done|]. split; [apply Hw|]. left. now rewrite Hd. Qed.

Section enlist.
Context (nm : bytes) (addr : sockaddr_in) (fd : Z) (payload : bytes).
Hypothesis Hnm : name_ok nm.
Hypothesis Hstr : c_str nm = option_map (take 31) (c_str (cfg_client_name cfg)).
Hypothesis Haddr : addr_ok addr.
Hypothesis Hresolved : exists a tk, env_resolve os tk = Some a /\ addr = SockAddr (sin_family a) (htons (cfg_port cfg)) (s_addr a).
Hypothesis Hfd : 0 <= fd.
Hypothesis Hpay : heard MSG_ASSIGN payload /\ 10 <= zlen payload.
Notation with_device := (enlisted nm addr fd payload).
Notation yes := (fun _ => I).

Lemma wp_cli_init_fail dev t s :
  cli_refuses -> dev_ok dev -> 0 <= tun_fd dev -> inv (cli_boots (with_device dev) t) s ->
  same_open t (EvOpen (tun_fd dev) :: EvOpen fd :: t0) -> wp (client_init_fail dev fd) cli_init_post s.
Proof.
  intros Hno Hd Hf Hs Ht. unfold client_init_fail. apply wp_bind.
  eapply (wp_tun_close (cli_boots (with_device dev)) (fun _ => True)); eauto. intros s1 Hs1.
  eapply wp_bind, (wp_cli_store _ (fun _ => True)); [done|done|]. intros s2 Hs2.
  apply wp_bind. eapply (wp_sys_close (cli_boots (fun _ => True)) (fun _ => True)); eauto. intros s3 Hs3.
  apply wp_ret. eapply fail_post; [done|exact Hs3|]. rewrite Ht. intros x. cbn. lia.
Qed.

Lemma wp_configure_interface dev t2 s :
  0 <= tun_fd dev -> dev_ok dev -> inv (cli_boots (with_device dev) t2) s ->
  same_open t2 (EvOpen (tun_fd dev) :: EvOpen fd :: t0) ->
  accepted [SetTunIff (tun_fd dev) 0x1001 (pad_to 16 (str "tund%d")); Bind fd (htons 0); SetReuseAddr fd] t0 t2 ->
  (forall i, unjoined i t2 = unjoined i t0) ->
  wp (let* ip := load cli_virt_ip in
      let* mask := load cli_netmask in
      let* r := tun_set_ip dev ip mask in
      if r <? 0 then client_init_fail dev fd
      else
        let* '(r, dev) := tun_set_mtu dev TUND_TUN_MTU in
        save (set_cli_tun dev) ;;
        if r <? 0 then client_init_fail dev fd else Ret 0) cli_init_post s.
Proof.
  intros Hdf Hdev Hs5 Ht2 Hc Hj.
  eapply wp_bind, (wp_load (with_device dev)); [exact Hs5|]. intros (w0 & seen0 & _ & _ & ->). cbn [cli_virt_ip assign set_cli_tun set_server_seen set_server_replay set_netmask set_virt_ip].
  eapply wp_bind, (wp_load (with_device dev)); [exact Hs5|]. intros (w1 & seen1 & _ & _ & ->). cbn [cli_netmask assign set_cli_tun set_server_seen set_server_replay set_netmask].
  set (ip := le_combine (take 4 payload)). set (mask := le_combine (take 4 (drop 4 payload))).
  apply wp_bind. apply (wp_set_ip (cli_boots (with_device dev)) (fun _ => True) yes (fun _ => yes) yes cli_refuses (cli_boots_refused _) t2); [done|done| |].
  { intros t' s6 Hno Ht' Hs6. cbn [Z.ltb Z.compare]. apply (wp_cli_init_fail _ t'); [done..|]. now rewrite Ht'. }
  intros sock1 ifn flags evs s6 Hifn Hevs Hs6. cbn [Z.ltb Z.compare].
  set (t3 := EvClose sock1 :: _) in *. assert (Ht3 : same_open t3 t2) by exact (same_open_session sock1 _ evs t2 Hevs).
  apply wp_bind. apply (wp_set_mtu (cli_boots (with_device dev)) (fun _ => True) yes (fun _ => yes) yes cli_refuses (cli_boots_refused _) t3); [done|done| |].
  { intros t' s7 Hno Ht' Hs7. eapply wp_bind, (wp_cli_store _ (with_device dev)); [done|intros c (w & seen & ? & ? & ->); now exists w, seen|].
    intros s8 Hs8. cbn [Z.ltb Z.compare]. apply (wp_cli_init_fail _ t'); [done..|]. now rewrite Ht', Ht3. }
  intros sock2 nm' evs' s7 Hnm' Hevs' Hs7. rewrite Hifn in Hnm'. injection Hnm' as <-.
  set (dev2 := TunDevice (tun_fd dev) (ifname dev) TUND_TUN_MTU). assert (Hdev2 : dev_ok dev2) by done.
  eapply wp_bind, (wp_cli_store _ (with_device dev2)); [done|intros c (w & seen & ? & ? & ->); now exists w, seen|].
  intros s8 [Hw8 [Hv8 [HW8 Hs8]]]. cbn [Z.ltb Z.compare]. apply wp_ret. split; [done|]. split; [apply Hw8|]. right. split; [done|].
  split; [done|]. rewrite Hs8. pose proof (enlisted_ok _ _ _ _ _ _ Hnm Haddr (proj2 (proj1 Hpay)) Hdev2 Hv8) as Hok8.
  destruct Hv8 as (w8 & seen8 & _ & _ & E8). split; try done; rewrite ?E8; try done.
  - exists payload. destruct Hpay as [[? _] ?]. done.
  - cbn [cli_sockfd cli_tun tun_fd]. now rewrite (same_open_session sock2 _ evs' t3 Hevs'), Ht3.
  - intros i. unfold t3. cbn [unjoined]. rewrite unjoined_app, (unjoined_succeeded i _ _ Hevs') by done.
    cbn [unjoined]. rewrite unjoined_app, (unjoined_succeeded i _ _ Hevs) by done. apply Hj.
  - exists sock1, sock2, flags, ifn. split; [done|].
    exact (accepted_session _ _ _ _ _ _ Hevs' (accepted_session _ _ _ _ _ _ Hevs Hc)).
Qed.

Lemma wp_client_interface t1 s :
  inv (cli_boots (with_device no_device) t1) s -> same_open t1 (EvOpen fd :: t0) ->
  accepted [Bind fd (htons 0); SetReuseAddr fd] t0 t1 -> (forall i, unjoined i t1 = unjoined i t0) ->
  wp (client_init_interface fd) cli_init_post s.
Proof.
  intros Hs Ht1 Hc Hj. unfold client_init_interface.
  eapply wp_bind, (wp_load (with_device no_device)); [exact Hs|]. intros (w0 & seen0 & _ & _ & ->).
  cbn [cli_tun set_cli_tun]. apply wp_bind.
  apply (wp_tun_open (cli_boots (with_device no_device)) (fun _ => True) yes (fun _ => yes) yes cli_refuses (cli_boots_refused _) t1); [|done| |].
  { split; [done|]. now exists []. }
  { intros t' s1 Hno Ht' Hs1. eapply wp_bind, (wp_cli_store _ (fun _ => True)); [done|done|]. intros s2 Hs2.
    cbn [Z.ltb Z.compare]. apply wp_bind. eapply (wp_sys_close (cli_boots (fun _ => True)) (fun _ => True)); eauto.
    intros s3 Hs3. apply wp_ret. eapply fail_post; [done|exact Hs3|]. rewrite Ht', Ht1. apply same_open_close. }
  intros r dev s1 Hdf Hr Hdev Hs1.
  eapply wp_bind, (wp_cli_store _ (with_device dev)); [done|intros c (w & seen & ? & ? & ->); now exists w, seen|].
  intros s2 Hs2. cbn [Z.ltb Z.compare]. eapply wp_configure_interface; [done|done|exact Hs2| |now apply accepted_call, accepted_open|done].
  intros x. specialize (Ht1 x). cbn in *. lia.
Qed.

Lemma wp_mark_seen t s (K : unit -> cli_state -> Prop) :
  inv (holds (session_of (assign payload (named_client nm addr fd))) (books hears t)) s ->
  (forall s', inv (cli_boots (with_device no_device) t) s' -> K tt s') -> wp client_mark_server_seen K s.
Proof.
  intros Hs HK. unfold client_mark_server_seen. apply wp_bind.
  eapply wp_safe; [apply safe_time; typeclasses eauto|exact Hs|]. intros now s1 Hs1 Hnow.
  destruct (0 <? now).
  - eapply (wp_save (books hears t)); [exact Hs1| |exact HK]. intros c (w & Hw & ->).
    exists w, (u64 now). split; [done|]. split; [words; apply Z.mod_pos_bound; lia|done].
  - apply wp_ret, HK. destruct Hs1 as [Hw [(w & Hwin & Hc) HB]]. split; [done|]. split; [|done].
    exists w, 0. split; [done|]. split; [words; lia|]. rewrite Hc. reflexivity.
Qed.
End enlist.

(** The name the client goes by. *)
Lemma client_name_spec : exists nm,
  (let? text := snprintf_s (Z.to_nat TUND_NAME_LEN) (cfg_client_name cfg) in mem_write (replicate 32 0) 0 text) = Some nm /\
  name_ok nm /\ c_str nm = option_map (take 31) (c_str (cfg_client_name cfg)).
Proof.
  destruct (array_terminated _ _ (ok_cfg_name _ Hcfg)) as [z Hz]. unfold snprintf_s. rewrite Hz. cbn [option_map].
  pose proof (c_str_ok _ _ (array_bytes _ _ (ok_cfg_name _ Hcfg)) Hz) as Hzb. apply c_str_spec in Hz as [Hn _].
  change (Z.to_nat TUND_NAME_LEN - 1)%nat with 31%nat. set (text := take 31 z ++ [0]).
  assert (Hl : (length text <= 32)%nat) by (unfold text; rewrite length_app, length_take; cbn [length]; lia).
  assert (Hb : bytes_ok text) by (apply bytes_ok_app; split; [now apply bytes_ok_take|repeat constructor; words; lia]).
  destruct (array_write 32 (replicate 32 0) text (array_zeros 31) Hb) as (nm & Hw & Ha & Ht).
  { destruct (Nat.eq_dec (length text) 32%nat); [right; split; [done|apply last_snoc]|left; lia]. }
  exists nm. split; [done|]. split; [split; [apply Ha|]; split; [apply Ha|now apply (array_terminated 32)]|].
  apply array_string; [|now apply Forall_take]. unfold text in Ht. now rewrite length_app in Ht.
Qed.

Notation yes := (fun _ => I).

Lemma wp_client_init s :
  world_ok (cli_world s) -> hears (cli_world s) -> devices (cli_world s) = t0 ->
  wp (client_init cfg) cli_init_post s.
Proof.
  intros Hw Hh Ht0. assert (H0 : inv (cli_boots (fun _ => True) t0) s) by (split; [done|now split]).
  unfold client_init. eapply wp_bind, (wp_cli_store _ (fun c => c = blank_client)); [done|done|]. intros s1 Hs1.
  destruct client_name_spec as (nm & -> & Hnm & Hstr). cbn [local bind].
  eapply wp_bind, (wp_cli_store _ (fun c => c = set_cli_name nm blank_client)); [done|now intros c ->|]. intros s2 Hs2.
  destruct (array_terminated _ _ (ok_cfg_ip _ Hcfg)) as [z Hz]. pose proof (ok_cfg_port _ Hcfg) as Hp. apply wp_bind.
  apply (wp_resolve (cli_boots (fun c => c = set_cli_name nm blank_client)) (fun _ => True) os t0 _ _ _ z); [|done|words; lia|done| |].
  { now intros s3 (_ & (_ & _ & ?) & _). }
  { intros tk s3 Hnone Hs3. assert (Hno : cli_refuses) by (right; left; now exists tk).
    eapply wp_bind, (wp_cli_store _ (fun _ => True)); [done|done|]. intros s4 Hs4.
    apply wp_ret. eapply fail_post; [done|exact Hs4|reflexivity]. }
  intros a tk s3 Ha Haddr Hs3. set (addr := SockAddr _ _ _) in *.
  assert (Hres : exists a tk, env_resolve os tk = Some a /\ addr = SockAddr (sin_family a) (htons (cfg_port cfg)) (s_addr a)) by (now exists a, tk).
  eapply wp_bind, (wp_cli_store _ (fun c => c = named_client nm addr (-1))); [done|now intros c ->|]. intros s4 Hs4.
  cbn [Z.ltb Z.compare]. apply wp_bind.
  apply (wp_create_socket (cli_boots (fun c => c = named_client nm addr (-1))) (fun _ => True) yes (fun _ => yes) yes cli_refuses (cli_boots_refused _) t0); [done| |].
  { intros t' s5 Hno Ht' Hs5. eapply wp_bind, (wp_cli_store _ (fun _ => True)); [done|done|]. intros s6 Hs6.
    apply wp_ret. eapply fail_post; [done|exact Hs6|done]. }
  intros fd r r' s5 Hfd Hr' Hs5.
  eapply wp_bind, (wp_cli_store _ (fun c => c = named_client nm addr fd)); [done|now intros c ->|]. intros s6 Hs6.
  unfold sock_valid. destruct (Z.leb_spec 0 fd); [|lia]. cbn [negb]. set (t1 := EvSys _ r' :: _) in *.
  apply wp_bind. destruct (wp_boot_register (fun c => c = named_client nm addr fd) (named_client nm addr fd) t1 s6) as (res & s7 & Hreg & Hdone);
    [now apply named_client_ok|auto|exact Hs6|]. exists res, s7. split; [exact Hreg|].
  destruct Hdone as [[-> Hs7]|(-> & payload & Hpay & H10 & Hs7)]; cbn [Z.ltb Z.compare].
  - assert (Hno : cli_refuses) by (right; right; exists s6, s7; split; [apply Hs6|exact Hreg]). apply wp_bind. eapply (wp_sys_close (cli_boots (session_of (named_client nm addr fd))) (fun _ => True)); [done|exact Hs7|]. intros s8 Hs8.
    apply wp_ret. eapply fail_post; [done|exact Hs8|]. intros x. cbn. lia.
  - eapply wp_bind, wp_mark_seen; [exact Hs7|]. intros s8 Hs8.
    eapply wp_client_interface; eauto; try reflexivity; [intros x; done|].
    apply accepted_call, accepted_reuse, accepted_open, accepted_refl; done.
Qed.
End init.

(** * What the threads leave alone *)

(** The descriptors and which threads were started. *)
Definition cli_parts (s : cli_state) : Z * tun_device_t * bool * bool :=
  (cli_sockfd (cli s), cli_tun (cli s), cli_ka_started (cli s), cli_tun_started (cli s)).

#[export] Instance cli_parts_free : WorldFree cli_parts.
Proof. done. Qed.

Notation kept := (always (steady cli_parts)).

Section kept.
Context `{M : Monocypher}.

Lemma kept_load {A} (f : client_t -> A) : kept (load f).
Proof. apply always_atomic. intros s b s' [= _ <-]. reflexivity. Qed.

Lemma kept_save f :
  (forall c w, cli_parts (CliState w (f c)) = cli_parts (CliState w c)) -> kept (save f).
Proof.
  intros Hf. apply always_atomic. intros [w c] b s' [= _ <-]. split; [apply Hf|done|done].
Qed.

Lemma kept_load_peer i : kept (load_peer i).
Proof.
  apply always_atomic. intros s b s'. destruct (0 <=? i); [|done]. destruct (cli_peers (cli s) !! _); [|done]. cbn.
  intros [= _ <-]. reflexivity.
Qed.

Lemma kept_save_peer i p d : kept (save_peer i p d).
Proof. apply always_atomic. intros s b s'. destruct (_ && _); [|done]. intros [= _ <-]. now split. Qed.

#[local] Hint Resolve kept_load kept_load_peer kept_save_peer : frame.
#[local] Hint Extern 1 (kept (save _)) => now apply kept_save : frame.
#[local] Hint Extern 1 (kept (on_world' time_null)) => apply (steady_ask cli_parts) : frame.
#[local] Hint Extern 1 (kept (on_world' now_ms)) => apply (steady_ask cli_parts) : frame.

Lemma kept_update_peer vip nm online : kept (client_update_peer vip nm online).
Proof. unfold client_update_peer, fill_slot. frame. Qed.

Lemma kept_log_peers : kept client_log_peers.
Proof. unfold client_log_peers. frame. Qed.

Lemma kept_add_traffic vip n_in n_out : kept (client_add_peer_traffic vip n_in n_out).
Proof. unfold client_add_peer_traffic. frame. Qed.

Lemma kept_add_broadcast n : kept (client_add_broadcast_traffic n).
Proof. unfold client_add_broadcast_traffic. frame. Qed.

#[local] Hint Resolve kept_update_peer kept_log_peers kept_add_traffic kept_add_broadcast : frame.

Lemma kept_peer_list n : forall payload plen i, kept (peer_list_loop n payload plen i).
Proof. induction n as [|n IH]; intros payload plen i; cbn [peer_list_loop]; frame. Qed.

#[local] Hint Resolve kept_peer_list : frame.

Lemma kept_server_packet buf len : kept (client_handle_server_packet buf len).
Proof.
  unfold client_handle_server_packet, accept_from_server, client_mark_server_seen, client_handle_data,
    client_handle_peer_list, client_handle_peer_join, client_handle_peer_leave, leave_locked,
    client_handle_keepalive, client_handle_keepalive_ack, report_peers, proto_build_keepalive_ack,
    proto_build_timestamp_msg.
  frame.
Qed.

#[local] Hint Resolve kept_server_packet : frame.

Lemma kept_client_run npeers : kept (client_run npeers).
Proof. unfold client_run. frame. Qed.

Lemma kept_client_helpers i l : i <> 0%nat -> kept (client_process i l).
Proof.
  destruct i as [|[|[|]]]; cbn [client_process]; [done| | |done]; intros _.
  - unfold client_keepalive_thread, client_server_timed_out, proto_build_keepalive, proto_build_timestamp_msg. frame.
  - unfold client_tun_thread, tun_read, client_tun_forward, proto_build_data. frame.
Qed.

Lemma kept_client_notify : kept client_shutdown_notify.
Proof. unfold client_shutdown_notify, proto_build_disconnect. frame. Qed.
End kept.

(** * Shutdown *)

#[export] Instance client_holder : Holder cli_state cli_parts.
Proof.
  refine {| put_tun := fun dev s => CliState (cli_world s) (set_cli_tun dev (cli s));
            put_sockfd := fun fd s => CliState (cli_world s) (set_cli_sockfd fd (cli s)) |}; done.
Defined.

Section shutdown.
Context `{M : Monocypher} {ML : MonocypherLaws M}.
Context (addr : sockaddr_in) (key : bytes) (ok : Z -> bytes -> Prop) (b : env * bool).
Hypothesis may_join : forall payload, ok MSG_PEER_JOIN payload -> joinable payload.
Notation W := (client_world b key ok [] (fun _ => True)).
Notation J := (attached addr W).
Notation Inv := (inv J).

Lemma client_release_inv :
  (forall s, Inv s -> exists z, c_str (ifname (cli_parts s).1.1.2) = Some z) /\
  (forall dev s, Inv s -> ifname dev = ifname (cli_parts s).1.1.2 -> Inv (put_tun dev s)) /\
  (forall fd s, Inv s -> Inv (put_sockfd fd s)).
Proof.
  split; [intros s [_ (Hc & _)]; apply Hc|]. split.
  - intros dev s [Hw (Hc & Ha & HW)] Hd. split; [done|]. split; [|now split]. destruct Hc. split; try done. cbn in *. now rewrite Hd.
  - intros fd s [Hw (Hc & Ha & HW)]. split; [done|]. split; [|now split]. now destruct Hc.
Qed.

Lemma client_may e : Allows W e.
Proof. now apply client_world_allows. Qed.

Lemma client_grants dest type payload : grants W dest type payload.
Proof. now apply client_world_grants. Qed.

Context (h : Z * tun_device_t * bool * bool) (t : list event).
Hypothesis fd_open : 0 <= h.1.1.1.
Hypothesis dev_open : 0 <= tun_fd h.1.1.2.

(** On its own. *)
Lemma client_shutdown_releases s :
  Inv s -> holds_at cli_parts h t s -> exists s', run client_shutdown s = Some (tt, s') /\ world_ok (cli_world s') /\ released h t s'.
Proof.
  intros HI Hs. destruct client_release_inv as (H1 & H2 & H3).
  destruct (rg_run _ _ _ _ s HI (rg_shutdown cli_parts J (fun e _ => attached_permits addr W e (HA := client_may e)) H1 H2 H3
    client_shutdown_notify h t (safe_client_notify addr W (client_grants _ _ _)) kept_client_notify fd_open dev_open s HI Hs))
    as ([] & s' & Hr & HI' & Hq). exists s'. split; [done|]. split; [apply HI'|done].
Qed.

(** Beside the other threads. *)
Lemma client_main_releases npeers s pool s' :
  Inv s -> main_ok b npeers -> holds_at cli_parts h t s ->
  steps client_process client_signal (client_start npeers, s) (pool, s') ->
  ~ wrong (pool, s') /\ (pool !! 0%nat = Some (Ret Break) -> released h t s').
Proof.
  intros HI Hn Hs. destruct client_release_inv as (H1 & H2 & H3).
  apply (main_releases cli_parts J (fun e _ => attached_permits addr W e (HA := client_may e)) H1 H2 H3
    client_process client_run client_shutdown_notify client_signal (main_ok b));
    auto using kept_client_notify, kept_client_run, kept_client_helpers.
  - intros l Hl. apply (safe_client_run addr W b ok); auto;
      [now intros w []|apply client_world_heard|intros; apply client_grants|intros; apply client_may].
  - exact (safe_client_notify addr W (client_grants _ _ _)).
  - intros [|[|[|]]] l Hi; cbn [client_process]; [done| | |done].
    + exact (safe_keepalive_thread addr W (fun ts => client_grants _ _ _) l).
    + exact (safe_client_tun_thread addr W (fun pkt _ => client_grants _ _ _) l).
  - intros [w c] [Hw (E1 & E2 & E3)]. cbn in *. split; [split; [quiet|now split]|]. now split.
Qed.
End shutdown.

(** * Creation of the threads *)

Section start.
Context `{M : Monocypher} (key : bytes) (ok : Z -> bytes -> Prop) (os : env) (c0 : client_t) (t0 : list event).
Hypothesis c0_ok : cli_ok c0.
Hypothesis not_started : cli_ka_started c0 = false /\ cli_tun_started c0 = false.
Notation J D := (cli_boots key ok os D).

(** The structure but for its flags. *)
Definition cli_flagged (b1 b2 : bool) (c : client_t) : Prop := exists q1 q2, c = set_cli_flags b1 b2 q1 q2 c0.

Definition cli_start_post (b : bool) (s : cli_state) : Prop :=
  world_ok (cli_world s) /\ hears key ok os (cli_world s) /\ exists b1, cli_flagged b1 b (cli s) /\
    same_open (devices (cli_world s)) t0 /\
    forall i, unjoined i (devices (cli_world s)) =
      unjoined i t0 + (if b1 && (i =? 1)%nat then 1 else 0) + (if b && (i =? 2)%nat then 1 else 0).

Lemma wp_cli_log D t level args s (K : unit -> cli_state -> Prop) :
  Forall (fun a => exists z, c_str a = Some z) args -> inv (J D t) s ->
  (forall s', inv (J D t) s' -> K tt s') -> wp (LOG level args) K s.
Proof.
  intros Ha Hs HK. eapply (wp_quiet (J D)); [apply safe_LOG; [typeclasses eauto|exact Ha]|exact Hs|].
  intros [] s' Hs' _. auto.
Qed.

Lemma wp_cli_screen D t on s (K : unit -> cli_state -> Prop) :
  inv (J D t) s -> (forall s', inv (J D t) s' -> K tt s') -> wp (tui_screen on) K s.
Proof.
  intros Hs HK. eapply (wp_quiet (J D)); [apply safe_screen; typeclasses eauto|exact Hs|].
  intros [] s' Hs' _. auto.
Qed.

Ltac say := eapply wp_bind, wp_cli_log; [printable|eassumption|]; intros ? ?.

Lemma flagged_printable b1 b2 c : cli_flagged b1 b2 c ->
  (exists z, c_str (ifname (cli_tun c)) = Some z) /\ (exists z, c_str (cli_name c) = Some z).
Proof. intros (q1 & q2 & ->). split; apply c0_ok. Qed.

Lemma wp_cli_banner b1 b2 t s (K : unit -> cli_state -> Prop) :
  inv (J (cli_flagged b1 b2) t) s -> (forall s', inv (J (cli_flagged b1 b2) t) s' -> K tt s') -> wp client_log_banner K s.
Proof.
  intros Hs HK. unfold client_log_banner, TUND_VERSION.
  eapply wp_bind, wp_load; [exact Hs|]. intros [Hd Hn]%flagged_printable.
  do 5 say. eapply wp_cli_log; [printable|eassumption|done].
Qed.

Lemma wp_cli_checklist b1 b2 t s (K : unit -> cli_state -> Prop) :
  inv (J (cli_flagged b1 b2) t) s -> (forall s', inv (J (cli_flagged b1 b2) t) s' -> K tt s') ->
  wp client_log_startup_checklist K s.
Proof.
  intros Hs HK. unfold client_log_startup_checklist.
  eapply wp_bind, wp_load; [exact Hs|]. intros [Hd Hn]%flagged_printable.
  do 4 say. eapply wp_cli_log; [printable|eassumption|done].
Qed.

Lemma wp_cli_stop b1 t s :
  inv (J (cli_flagged b1 false) t) s -> same_open t t0 ->
  (forall i, unjoined i t = unjoined i t0 + (if b1 && (i =? 1)%nat then 1 else 0)) ->
  wp (tund_request_stop ;; Ret false) cli_start_post s.
Proof.
  intros Hs Ho Hj. eapply wp_bind, (wp_quiet (J (cli_flagged b1 false)));
    [apply safe_stop; typeclasses eauto|exact Hs|]. intros _ s1 [Hw [Hv [HW Ht]]] _. apply wp_ret. split; [done|].
  split; [done|]. exists b1. rewrite Ht. split; [done|]. split; [done|]. intros i. rewrite Hj. cbn. lia.
Qed.

(** A store to a flag. *)
Lemma wp_flag b1 b2 b1' b2' t f s (K : unit -> cli_state -> Prop) :
  inv (J (cli_flagged b1 b2) t) s ->
  (forall q1 q2, exists q1' q2', f (set_cli_flags b1 b2 q1 q2 c0) = set_cli_flags b1' b2' q1' q2' c0) ->
  (forall s', inv (J (cli_flagged b1' b2') t) s' -> K tt s') -> wp (save f) K s.
Proof.
  intros Hs Hf HK. eapply (wp_cli_store _ _ _ _ (cli_flagged b1' b2')); [exact Hs| |exact HK].
  intros c (q1 & q2 & ->). destruct (Hf q1 q2) as (q1' & q2' & ->). now exists q1', q2'.
Qed.

Ltac flag b1 b2 := eapply wp_bind, (wp_flag _ _ b1 b2); [eassumption|intros; now eexists _, _|].

Lemma wp_client_run_start s :
  world_ok (cli_world s) -> hears key ok os (cli_world s) -> cli s = c0 -> devices (cli_world s) = t0 ->
  wp client_run_start cli_start_post s.
Proof.
  intros Hw Hh Hc Ht. destruct not_started as [Hn1 Hn2].
  assert (H0 : inv (J (cli_flagged false false) t0) s).
  { split; [done|]. split; [|now split]. exists (cli_ka_quit c0), (cli_tun_quit c0). rewrite Hc, <- Hn1 at 1.
    rewrite <- Hn2. now destruct c0. }
  unfold client_run_start. eapply wp_bind, wp_cli_banner; [exact H0|]. intros s1 Hs1.
  flag false false. intros s2 Hs2. flag false false. intros s3 Hs3.
  eapply wp_bind, (wp_sys_call (J _) (fun _ => True)); [done|exact Hs3|]. intros r s4 _ Hs4.
  destruct (Z.eqb_spec r 0) as [->|Hr]; cbn [negb].
  2:{ say. eapply wp_cli_stop; [eassumption|intros x; done|]. intros i. cbn.
      destruct (Z.eqb_spec r 0); [done|]. rewrite andb_false_r. lia. }
  flag true false. intros s5 Hs5.
  eapply wp_bind, (wp_sys_call (J _) (fun _ => True)); [done|exact Hs5|]. intros r s6 _ Hs6.
  destruct (Z.eqb_spec r 0) as [->|Hr]; cbn [negb].
  - flag true true. intros s7 Hs7.
    eapply wp_bind, wp_cli_screen; [exact Hs7|]. intros s7' Hs7'. eapply wp_bind, wp_cli_checklist; [exact Hs7'|].
    intros s8 [Hw8 [Hv8 [HW8 Ht8]]]. apply wp_ret. split; [done|]. split; [done|].
    exists true. rewrite Ht8. split; [done|]. split; [intros x; done|]. intros i. cbn.
    destruct i as [|[|[|]]]; cbn; lia.
  - say. flag true false. intros s7 Hs7.
    eapply wp_bind, (wp_sys_call (J _) (fun _ => True)); [done|exact Hs7|]. intros r' s8 _ Hs8.
    flag false false. intros s9 Hs9.
    eapply wp_cli_stop; [exact Hs9|intros x; done|]. intros i. cbn. destruct (Z.eqb_spec r 0); [done|].
    destruct i as [|[|[|]]]; cbn; lia.
Qed.
End start.

(** * Properties *)


(** A process that a server assigns an address to, and in which every call
    succeeds. *)
Definition assigned_env : env :=
  let e := client_env (server_wire MSG_ASSIGN offer) in
  Env (env_open e) (env_read e) 0 (env_time e) (env_now_ms e) (env_sendto e) (env_recvfrom e)
    (env_poll e) (env_poll_eintr e) (env_tun_read e) (env_tun_write e) (env_stack e) (fun _ => 0)
    (env_ifname e) (env_ifflags e) (fun _ => Some server_endpoint).

Definition home : cli_state :=
  CliState (World assigned_env 0 0 (-1) true (replicate 32 7) LOG_LEVEL_INFO false false []) blank_client.

Definition alice_config : config_t :=
  set_cfg_client_name (pad_to 32 (str "alice")) (set_cfg_server_ip (pad_to 64 (str "192.168.1.1")) initial_config).

Lemma home_ok : world_ok (cli_world home).
Proof.
  split; [|split; [split; [words; cbn; lia|by left]|split; [done|split; [done|apply Forall_replicate; words; lia]]]].
  destruct (client_env_ok _ _ offer_plain) as [H1 H2 H3 H4 H5 H6 H7 H8 H9]. split; auto.
  - intros t a [= <-]. exact endpoint_ok.
  - intros t. cbn. lia.
Qed.

Lemma alice_config_ok : config_ok alice_config.
Proof.
  split; [cbn; unfold TUND_PORT; lia|..|apply (array_zeros 127)];
    (split; [reflexivity|reflexivity|repeat constructor; words; cbn; lia]).
Qed.


(** The same descriptors are open as in [s] but that of [/dev/urandom], which
    is opened at most once and never closed, and the same threads unjoined. *)
Definition cli_settled (s s' : cli_state) : Prop :=
  same_open (devices (cli_world s')) (devices (cli_world s)) /\ random_kept (cli_world s') /\
  forall i, unjoined i (devices (cli_world s')) = unjoined i (devices (cli_world s)).

(** C12: over the whole life of a client, whatever the kernel and the network
    answer and however the atomic actions of its threads are interleaved with
    each other and with signals, in sequentially consistent order, no action
    of a thread is undefined, and when the main thread has left its loop and
    finished the shutdown, which it performs while the other threads still
    run, every descriptor that was opened since start-up has been closed, but
    that of /dev/urandom, which the process opens at most once and keeps in
    [g_proto_random_fd], and every thread that was created has been joined. If
    a thread cannot be created, the shutdown follows at once, with the same
    effect. The names announced by PEER_JOIN are assumed to be terminated;
    [npeers], which the code leaves uninitialised ([-1]), may be so if the
    terminal UI is off or no poll is interrupted by a signal. Left aside is
    the shutdown's data race on [dev->fd] (the file on races). *)
Theorem client_lifecycle_balanced `{M : Monocypher} {ML : MonocypherLaws M} (ok : Z -> bytes -> Prop)
    (cfg : config_t) (s s1 s2 : cli_state) (entered : bool) (npeers : Z)
    (Hw : world_ok (cli_world s)) (Hcfg : config_ok cfg)
    (Hok : authentic (g_crypto_key (cli_world s)) ok (w_env (cli_world s)))
    (Hjoin : forall payload, ok MSG_PEER_JOIN payload -> joinable payload)
    (Hinit : run (client_init cfg) s = Some (0, s1))
    (Hstart : run client_run_start s1 = Some (entered, s2))
    (Hn : 0 <= npeers \/ g_tui_active (cli_world s2) = false \/ uninterrupted (w_env (cli_world s2))) :
  if entered then
    forall pool s3, steps client_process client_signal (client_start npeers, s2) (pool, s3) ->
      ~ wrong (pool, s3) /\ (pool !! 0%nat = Some (Ret Break) -> cli_settled s s3)
  else exists s3, run client_shutdown s2 = Some (tt, s3) /\ cli_settled s s3.
Proof.
  destruct (wp_client_init _ ok _ cfg _ Hcfg s Hw (conj eq_refl (conj Hok eq_refl)) eq_refl) as (r & s1' & Hr & Hpost).
  rewrite Hinit in Hr. injection Hr as <- <-. destruct Hpost as (Hw1 & _ & [[] |(_ & Hh1 & Hj1)]); [done|].
  destruct Hj1 as [Hok1 _ _ Hfl _ (Hf1 & Hf2 & _) Hopen Hthr _].
  destruct (wp_client_run_start _ ok _ (cli s1) _ Hok1 Hfl s1 Hw1 Hh1 eq_refl eq_refl) as (b' & s2' & Hr & Hpost).
  rewrite Hstart in Hr. injection Hr as <- <-. destruct Hpost as (Hw2 & (Hk2 & Ha2 & _) & b1 & (q1 & q2 & Hv2) & Ho2 & Hj2).
  assert (Hok2 : cli_ok (cli s2)) by (rewrite Hv2; destruct Hok1; now split).
  set (b := mode (cli_world s2)). set (key := g_crypto_key (cli_world s)) in *.
  set (addr := cli_server_addr (cli s2)). set (t := devices (cli_world s2)).
  set (h := (cli_sockfd (cli s1), cli_tun (cli s1), b1, entered)).
  assert (Hs2 : holds_at cli_parts h t s2) by (unfold holds_at, cli_parts; now rewrite Hv2).
  assert (HI : inv (attached addr (client_world b key ok [] (fun _ => True))) s2).
  { split; [done|]. split; [done|]. split; [done|]. split; [done|]. split; [done|].
    split; [done|]. exists (w_trace (cli_world s2)). rewrite app_nil_r. split; [done|]. now apply Forall_true. }
  assert (Hset : forall s3, world_ok (cli_world s3) -> released h t s3 -> cli_settled s s3).
  { intros s3 Hw3 [He Hj]. change (get_world s3) with (cli_world s3) in *. split; [|split; [apply Hw3|]].
    - intros x. specialize (He x). specialize (Ho2 x). specialize (Hopen x). unfold t in He. cbn in *. lia.
    - intros i. rewrite Hj. unfold t. rewrite Hj2, Hthr. lia. }
  destruct entered.
  - intros pool s3 Hsteps.
    destruct (client_main_releases addr key ok b Hjoin h t Hf1 Hf2 npeers s2 pool s3 HI Hn Hs2 Hsteps) as [Hwr Hend].
    destruct (client_steps_safe ok s2 s3 npeers pool (conj Hw2 Hok2)) as (_ & [Hw3 _] & _); auto. now rewrite Hk2.
  - destruct (client_shutdown_releases addr key ok b h t Hf1 Hf2 s2 HI Hs2) as (s3 & Hr & Hw3 & Hq). eauto.
Qed.

Definition reached {A} (r : option (A * cli_state)) : cli_state :=
  match r with Some (_, s) => s | None => home end.

Lemma run_reached {A} (p : prog cli_state A) s a :
  option_map fst (run p s) = Some a -> run p s = Some (a, reached (run p s)).
Proof. destruct (run p s) as [[x s']|]; cbn; congruence. Qed.

Definition online : cli_state := reached (run (client_init (M := SampleCipher.sample) alice_config) home).
Definition talking : cli_state := reached (run client_run_start online).

(** Stopped by a signal before any packet arrives, the main thread first. *)
Definition stopped_client : cli_state :=
  reached (run (client_main (M := SampleCipher.sample) (-1)) (client_signal talking)).

Example client_lifecycle_balanced_witness :
  ~ wrong ([Ret Break; Ret (Continue 0); Ret (Continue 0)], stopped_client) /\ cli_settled home stopped_client.
Proof.
  destruct (client_lifecycle_balanced (M := SampleCipher.sample) (only MSG_ASSIGN offer) alice_config home online talking true (-1)
    home_ok alice_config_ok (hearing_authentic _ _ offer_plain) ltac:(intros payload [E _]; discriminate E)
    ltac:(unfold online; apply run_reached; vm_compute; reflexivity)
    ltac:(unfold talking; apply run_reached; vm_compute; reflexivity)
    ltac:(right; left; vm_compute; reflexivity) [Ret Break; Ret (Continue 0); Ret (Continue 0)] stopped_client) as [Hw Hs].
  - eapply steps_app; [eapply steps_more; [apply steps_refl|apply step_signal]|].
    eapply steps_app; [eapply steps_more; [apply steps_refl|now apply (step_loop _ _ _ _ 0%nat (-1))]|].
    refine (steps_run _ _ (client_main (M := SampleCipher.sample) (-1))
      [client_main (M := SampleCipher.sample) (-1); Ret (Continue 0); Ret (Continue 0)] _ 0%nat Break _ eq_refl _).
    unfold stopped_client. apply run_reached. vm_compute. reflexivity.
  - split; [exact Hw|]. now apply Hs.
Defined.
