(* ===== verification/Termination.v ===== *)
(** The threads of both programs stop: once a stop has been requested, by a
    signal or by one of the threads, every interleaving of the three threads is
    finite and ends with the helper threads out of their loops, which is what
    the joins of the shutdown wait for, and the main thread at the end of the
    shutdown.  System calls are actions, so they return; the loops, the
    critical sections and the handlers are the code's. *)
From stdpp Require Import base list numbers option.
From S2P Require Import Prelude Prog World Consts Crypto Net Boot Frame Halt Rely Release ServerPeers Server ServerSpec ServerThreads ServerLifecycle Client ClientTable ClientSafe ClientThreads ClientSpec ClientLifecycle.

(** The pool stops: its executions from here are finite, one that cannot go on
    has left every loop, and there is one that has. *)
Record pool_stops {S} (body : nat -> Z -> prog S ctl) (interrupt : S -> S) (c : config) : Prop := {
  stops_finite : Acc (fun c' c => turn body interrupt c c') c;
  stops_end : forall c', steps body interrupt c c' ->
    (exists c'', turn body interrupt c' c'') \/ Forall (fun p => p = Ret Break) c'.1;
  stops_reached : exists pool s, steps body interrupt c (pool, s) /\ Forall (fun p => p = Ret Break) pool
}.

Lemma pool_stops_from {S} (body : nat -> Z -> prog S ctl) interrupt (stopped : S -> Prop) c0 pool s :
  (forall i l, Acc (winds_down body stopped i) (body i l)) ->
  (forall i l, always (fun s s' => stopped s -> stopped s') (body i l)) ->
  (forall s, stopped s -> stopped (interrupt s)) ->
  (forall c, steps body interrupt c0 c -> ~ wrong c) ->
  Forall (always (fun s s' => stopped s -> stopped s')) c0.1 ->
  steps body interrupt c0 (pool, s) -> stopped s -> pool_stops body interrupt (pool, s).
Proof.
  intros Hb Hk Hi Hw Hp Hs Hst.
  assert (Hacc : Acc (fun c' c => turn body interrupt c c') (pool, s)).
  { apply (turns_finite body interrupt stopped); auto.
    refine (proj1 (always_steps (fun s s' => stopped s -> stopped s') body interrupt c0 (pool, s) Hk _ Hp Hs)); auto. }
  assert (Hw' : forall c, steps body interrupt (pool, s) c -> ~ wrong c)
    by (intros c Hc; apply Hw; exact (steps_app _ _ _ _ _ Hs Hc)).
  split; [done| |now apply turns_end].
  intros [pool' s'] Hc. apply turn_or_done. now apply Hw'.
Qed.

Lemma steady_keeps {S T} `{HasWorld S} (h : S -> T) {A} (p : prog S A) :
  always (steady h) p -> always (fun s s' => g_running (get_world s) = false -> g_running (get_world s') = false) p.
Proof.
  induction p as [a|B g k IH]; [done|]. intros [H1 H2]. split; [|auto].
  intros s b s' Hg. exact (steady_stopped _ _ _ (H1 _ _ _ Hg)).
Qed.

(** An iteration that starts after the stop request leaves its loop. *)
Lemma reads_stop {S} `{HW : HasWorld S} body i (k : bool -> prog S ctl) :
  k false = Ret Break ->
  Acc (winds_down body (fun s => g_running (get_world s) = false) i) (bind tund_is_running k).
Proof.
  intros Hk. constructor. intros p' (b & s & s' & Hs & Hf & ->). cbn in Hf. injection Hf as <- _.
  rewrite Hs. cbn [bind]. rewrite Hk. apply winds_down_break.
Qed.

(** A program that is followed by nothing. *)
Lemma winds_down_last {S A} (body : nat -> Z -> prog S ctl) stopped i (p : prog S A) :
  Acc (winds_down body stopped i) (bind p (fun _ => Ret Break)).
Proof.
  induction p as [a|B f k IH]; [apply winds_down_break|]. constructor. intros p' (b & s & s' & _ & _ & ->). apply IH.
Qed.

(** So does one that goes on with such a program. *)
Lemma reads_stop_then {S A} `{HW : HasWorld S} body i (k : bool -> prog S ctl) (q : ctl -> prog S ctl) (p : prog S A) :
  k false = Ret Break -> q Break = bind p (fun _ => Ret Break) ->
  Acc (winds_down body (fun s => g_running (get_world s) = false) i) (bind (bind tund_is_running k) q).
Proof.
  intros Hk Hq. constructor. intros p' (b & s & s' & Hs & Hf & ->). cbn in Hf. injection Hf as <- _.
  rewrite Hs. cbn [bind]. rewrite Hk. cbn [bind]. rewrite Hq. apply winds_down_last.
Qed.

Section server.
Context `{M : Monocypher} {ML : MonocypherLaws M}.

Lemma server_winds_down i l :
  Acc (winds_down server_process (fun s => g_running (srv_world s) = false) i) (server_process i l).
Proof.
  destruct i as [|[|[|]]]; cbn [server_process]; unfold server_main, server_run, server_timeout_thread, server_tun_thread;
    [now eapply (reads_stop_then (HW := srv_has_world))|now apply (reads_stop (HW := srv_has_world))..|apply winds_down_break].
Qed.

Lemma server_process_calm i l :
  always (fun s s' => g_running (srv_world s) = false -> g_running (srv_world s') = false) (server_process i l).
Proof.
  destruct (decide (i = 0%nat)) as [->|Hi]; [|exact (steady_keeps srv_parts _ (kept_helpers i l Hi))].
  apply always_bind; [exact (steady_keeps srv_parts _ (kept_server_run l))|]. intros [l'|]; [done|].
  apply always_bind; [|done]. apply always_bind; [exact (steady_keeps srv_parts _ kept_notify)|]. intros _.
  exact (release_calm srv_parts).
Qed.

(** C13: once a stop is requested, however the server's three threads are
    interleaved from any state they can reach, and whatever the network and
    the device deliver, only finitely many actions are left: every maximal
    execution ends with the timeout thread and the TUN thread out of their
    loops and the main thread at the end of its shutdown, and such an end is
    reached. [npeers], which the code leaves uninitialised ([-1]), may be so
    if the terminal UI is off or no poll is interrupted by a signal; in the
    remaining case the main loop is undefined. *)
Theorem server_threads_terminate (s s' : srv_state) (npeers : Z) (pool : list (prog srv_state ctl))
    (Hs : ready s) (Hn : 0 <= npeers \/ g_tui_active (srv_world s) = false \/ uninterrupted (w_env (srv_world s)))
    (Hsteps : steps server_process server_signal (server_start npeers, s) (pool, s'))
    (Hstop : g_running (srv_world s') = false) :
  pool_stops server_process server_signal (pool, s').
Proof.
  apply (pool_stops_from _ _ (fun s => g_running (srv_world s) = false) (server_start npeers, s));
    [| | | | |exact Hsteps|exact Hstop].
  - apply server_winds_down.
  - intros i l. apply server_process_calm.
  - intros t _. reflexivity.
  - intros [p t] Hc. now apply (server_process_safe s t npeers p).
  - repeat constructor.
Qed.
End server.

Example server_threads_terminate_witness :
  pool_stops (server_process (M := SampleCipher.sample)) server_signal
    (server_start (-1), server_signal sample_state).
Proof.
  apply (server_threads_terminate (M := SampleCipher.sample) sample_state (server_signal sample_state) (-1));
    [exact sample_ready|right; left; reflexivity| |reflexivity].
  eapply steps_more; [apply steps_refl|apply step_signal].
Defined.

Section client.
Context `{M : Monocypher} {ML : MonocypherLaws M}.

Lemma client_winds_down i l :
  Acc (winds_down client_process (fun s => g_running (cli_world s) = false) i) (client_process i l).
Proof.
  destruct i as [|[|[|]]]; cbn [client_process]; unfold client_main, client_run, client_keepalive_thread, client_tun_thread;
    [now eapply (reads_stop_then (HW := cli_has_world))|now apply (reads_stop (HW := cli_has_world))..|apply winds_down_break].
Qed.

Lemma client_process_calm i l :
  always (fun s s' => g_running (cli_world s) = false -> g_running (cli_world s') = false) (client_process i l).
Proof.
  destruct (decide (i = 0%nat)) as [->|Hi]; [|exact (steady_keeps cli_parts _ (kept_client_helpers i l Hi))].
  apply always_bind; [exact (steady_keeps cli_parts _ (kept_client_run l))|]. intros [l'|]; [done|].
  apply always_bind; [|done]. apply always_bind; [exact (steady_keeps cli_parts _ kept_client_notify)|]. intros _.
  exact (release_calm cli_parts).
Qed.

(** The same of the client, whose keepalive thread also requests the stop
    by itself when the server has been silent for too long: after the request
    every interleaving of the main, keepalive and TUN threads is finite and
    ends with the helper threads out of their loops and the main thread at the
    end of its shutdown. *)
Theorem client_threads_terminate (ok : Z -> bytes -> Prop) (s s' : cli_state) (npeers : Z)
    (pool : list (prog cli_state ctl)) (Hs : client_ready s)
    (Hok : authentic (g_crypto_key (cli_world s)) ok (w_env (cli_world s)))
    (Hjoin : forall payload, ok MSG_PEER_JOIN payload -> joinable payload)
    (Hn : 0 <= npeers \/ g_tui_active (cli_world s) = false \/ uninterrupted (w_env (cli_world s)))
    (Hsteps : steps client_process client_signal (client_start npeers, s) (pool, s'))
    (Hstop : g_running (cli_world s') = false) :
  pool_stops client_process client_signal (pool, s').
Proof.
  apply (pool_stops_from _ _ (fun s => g_running (cli_world s) = false) (client_start npeers, s));
    [| | | | |exact Hsteps|exact Hstop].
  - apply client_winds_down.
  - intros i l. apply client_process_calm.
  - intros t _. reflexivity.
  - intros [p t] Hc. now apply (client_steps_safe ok s t npeers p).
  - repeat constructor.
Qed.
End client.

Example client_threads_terminate_witness :
  pool_stops (client_process (M := SampleCipher.sample)) client_signal
    (client_start (-1), client_signal sample_cli).
Proof.
  apply (client_threads_terminate (M := SampleCipher.sample) (only MSG_PEER_JOIN join_payload) sample_cli
    (client_signal sample_cli) (-1));
    [exact sample_cli_ready|exact (hearing_authentic _ _ join_plain)|exact sample_joinable|right; left; reflexivity| |reflexivity].
  eapply steps_more; [apply steps_refl|apply step_signal].
Defined.
