(* ===== verification/Races.v ===== *)
(** The data race of the shutdown.  [server_shutdown] and [client_shutdown]
    close the TUN device before they join the TUN thread: [tun_close] stores
    [dev->fd = -1] while [tun_read] loads [dev->fd], and the field is neither
    atomic nor guarded by a lock ([tun/linux/tun.c], lines 49 and 132-138).
    The interleavings of the other files are those of the model's atomic
    actions; here the racing configuration is shown to be reachable. *)
From stdpp Require Import base list numbers option.
From S2P Require Import Prelude Prog World Consts Sequence Events Replay Peer Net Messages Crypto Boot Frame Release ServerPeers Server ServerSpec ServerThreads ServerLifecycle Client ClientTable ClientSafe ClientThreads ClientSpec ClientLifecycle.

(** * Conflicting accesses *)

Section race.
Context {S X : Type}.
Variable get : S -> X.               (** a field of the shared state *)
Variable put : X -> S -> S.

(** The next action of the thread stores another value to the field. *)
Definition writes (p : prog S ctl) (s : S) : Prop :=
  exists B (f : S -> option (B * S)) k b s', p = Act f k /\ f s = Some (b, s') /\ get s' <> get s.

(** What the next action of the thread returns depends on the field. *)
Definition reads (p : prog S ctl) (s : S) : Prop :=
  exists B (f : S -> option (B * S)) k x b s1 b' s2,
    p = Act f k /\ f s = Some (b, s1) /\ f (put x s) = Some (b', s2) /\ b <> b'.

(** Two threads may access the field next, in either order, one storing. *)
Definition race (c : config) : Prop :=
  exists i j p q, i <> j /\ c.1 !! i = Some p /\ c.1 !! j = Some q /\ writes p c.2 /\ reads q c.2.
End race.

(** * Part of a thread *)

Section advance.
Context {S : Type}.

(** Some actions of a program, without interference. *)
Inductive advance {A} : prog S A -> S -> prog S A -> S -> Prop :=
| advance_refl p s : advance p s p s
| advance_act B (f : S -> option (B * S)) k s b s' p s'' :
    f s = Some (b, s') -> advance (k b) s' p s'' -> advance (Act f k) s p s''.

Lemma advance_trans {A} (p q r : prog S A) s s' s'' : advance p s q s' -> advance q s' r s'' -> advance p s r s''.
Proof. induction 1; [done|]. intros H2. econstructor; eauto. Qed.

Lemma advance_bind {A B} (p p' : prog S A) (q : A -> prog S B) s s' :
  advance p s p' s' -> advance (bind p q) s (bind p' q) s'.
Proof. induction 1; cbn [bind]; [constructor|econstructor; eauto]. Qed.

Lemma advance_run {A} (p : prog S A) : forall s a s', run p s = Some (a, s') -> advance p s (Ret a) s'.
Proof.
  induction p as [x|B f k IH]; intros s a s'; cbn [run]; [intros [= <- <-]; constructor|].
  destruct (f s) as [[b s1]|] eqn:E; [|done]. intros Hr. econstructor; eauto.
Qed.

Lemma advance_prefix {A B} (p : prog S A) (q : A -> prog S B) s a s' :
  run p s = Some (a, s') -> advance (bind p q) s (q a) s'.
Proof. intros H. exact (advance_bind _ _ q _ _ (advance_run _ _ _ _ H)). Qed.

Lemma steps_advance body interrupt (p p' : prog S ctl) s s' :
  advance p s p' s' -> forall pool i, pool !! i = Some p -> steps body interrupt (pool, s) (<[i := p']> pool, s').
Proof.
  induction 1 as [p s|B f k s b s1 p s2 Hf _ IH]; intros pool i Hi; [rewrite list_insert_id by done; apply steps_refl|].
  apply (steps_app _ _ _ (<[i := k b]> pool, s1)); [eapply steps_more; [apply steps_refl|eapply step_act; eauto]|].
  rewrite <- (list_insert_insert_eq pool i p (k b)). apply IH. apply list_lookup_insert_eq. now apply lookup_lt_Some in Hi.
Qed.
End advance.

(** * The shutdown *)

Section component.
Context {S : Type} `{HW : HasWorld S} (parts : S -> held) {WF : WorldFree parts} {HH : Holder S parts}.

(** Up to the store of the closed device. *)
Lemma release_advances s dev z :
  (parts s).1.1.2 = dev -> 0 <= tun_fd dev -> c_str (ifname dev) = Some z ->
  exists K s', advance (release parts) s (bind (poke (put_tun (TunDevice (-1) (ifname dev) (tun_mtu dev)))) K) s' /\ parts s' = parts s.
Proof.
  intros Hd Hf Hz. unfold release.
  assert (Hclose : exists s', run (tun_close dev) s = Some (TunDevice (-1) (ifname dev) (tun_mtu dev), s') /\ parts s' = parts s).
  { unfold tun_close. destruct (Z.leb_spec 0 (tun_fd dev)); [|lia]. rewrite run_bind. unfold LOG, on_world. cbn [run atomic].
    cbn [mapM]. rewrite Hz. cbn. destruct (LOG_LEVEL_INFO <? _); cbn; eexists; (split; [reflexivity|]); now rewrite ?set_set_world, world_free. }
  destruct Hclose as (s' & Hr & Hp). eexists _, s'. split; [|exact Hp].
  eapply advance_trans; [apply (advance_prefix (peek _) _ s dev s); cbn; now rewrite Hd|].
  exact (advance_prefix (tun_close dev) _ _ _ _ Hr).
Qed.

Context (process : nat -> Z -> prog S ctl) (signal : S -> S) (loop : Z -> prog S ctl) (notify : prog S unit).
Hypothesis main_thread : forall l, process 0%nat l =
  let* c := loop l in match c with Continue l => Ret (Continue l) | Break => (notify ;; release parts) ;; Ret Break end.
Hypothesis signal_stops : forall s, get_world (signal s) = set_running false (get_world s) /\ parts (signal s) = parts s.
Hypothesis loop_stops : forall l s, g_running (get_world s) = false -> run (loop l) s = Some (Break, s).

(** The TUN thread waits at [tun] while the main thread is stopped by a signal
    and goes on to the store. *)
Lemma main_advances pool s dev z npeers s1 :
  pool !! 0%nat = Some (Ret (Continue npeers)) -> (parts s).1.1.2 = dev -> 0 <= tun_fd dev -> c_str (ifname dev) = Some z ->
  run notify (signal s) = Some (tt, s1) -> parts s1 = parts (signal s) ->
  exists (K : unit -> prog S unit) s', steps process signal (pool, s)
    (<[0%nat := bind (bind (poke (put_tun (TunDevice (-1) (ifname dev) (tun_mtu dev)))) K) (fun _ => Ret Break)]> pool, s') /\
    parts s' = parts s.
Proof.
  intros H0 Hd Hf Hz Hn Hp. destruct (signal_stops s) as [Hw Hs]. rewrite Hs in Hp.
  destruct (release_advances s1 dev z) as (K & s' & Ha & Hp'); [congruence|done|done|].
  exists K, s'. split; [|congruence].
  eapply steps_app; [eapply steps_more; [apply steps_refl|apply step_signal]|].
  eapply steps_app; [eapply steps_more; [apply steps_refl|now apply (step_loop process signal pool (signal s) 0%nat npeers)]|].
  rewrite <- (list_insert_insert_eq pool 0%nat (bind (bind (poke _) K) _) (process 0%nat npeers)).
  eapply steps_advance; [|apply list_lookup_insert_eq; now apply lookup_lt_Some in H0].
  rewrite main_thread. eapply advance_trans; [apply advance_prefix, loop_stops; now rewrite Hw|]. cbn beta iota.
  apply (advance_bind _ _ (fun _ => Ret Break)). eapply advance_trans; [apply (advance_prefix notify _ _ _ _ Hn)|exact Ha].
Qed.

(** The field, and the TUN thread up to its first load of it. *)
Context (get : S -> Z) (put : Z -> S -> S).
Hypothesis get_parts : forall s, get s = tun_fd (parts s).1.1.2.
Hypothesis get_put : forall x s, get (put x s) = x.

Lemma component_races s s0 s1 z npeers (K : Z -> prog S ctl) :
  advance (process 2%nat 0) s (bind (peek get) K) s0 -> parts s0 = parts s ->
  0 <= get s -> c_str (ifname (parts s).1.1.2) = Some z ->
  run notify (signal s0) = Some (tt, s1) -> parts s1 = parts (signal s0) ->
  exists pool s', steps process signal ([Ret (Continue npeers); Ret (Continue 0); Ret (Continue 0)], s) (pool, s') /\
    race get put (pool, s').
Proof.
  intros Ht Hp0 Hfd Hz Hn Hp1. set (start := [_; _; _] : list (prog S ctl)).
  set (pool := <[2%nat := bind (peek get) K]> start).
  destruct (main_advances pool s0 (parts s0).1.1.2 z npeers s1) as (K0 & s' & Hsteps & Hp');
    [reflexivity|reflexivity|rewrite Hp0, <- get_parts; exact Hfd|rewrite Hp0; exact Hz|exact Hn|exact Hp1|].
  eexists _, s'. split.
  - eapply steps_app; [eapply steps_more; [apply steps_refl|now apply (step_loop process signal start s 2%nat 0)]|].
    eapply steps_app; [|exact Hsteps]. unfold pool. rewrite <- (list_insert_insert_eq start 2%nat (bind (peek get) K) (process 2%nat 0)).
    eapply steps_advance; [exact Ht|reflexivity].
  - exists 0%nat, 2%nat. eexists _, _. split; [done|]. split; [reflexivity|]. split; [reflexivity|]. split.
    + eexists _, _, _, _, _. split; [reflexivity|]. split; [reflexivity|].
      cbn [snd fst]. rewrite !get_parts, put_tun_parts, Hp', Hp0, <- get_parts. cbn [snd fst tun_fd]. lia.
    + eexists _, _, _, (get s' + 1), _, _, _, _. split; [reflexivity|]. split; [reflexivity|]. split; [reflexivity|].
      cbn [snd]. rewrite get_put. lia.
Qed.
End component.

(** * The server and the client *)

Definition srv_tun_fd (s : srv_state) : Z := tun_fd (tun (srv s)).
Definition put_srv_tun_fd (fd : Z) (s : srv_state) : srv_state :=
  SrvState (srv_world s) (set_tun (TunDevice fd (ifname (tun (srv s))) (tun_mtu (tun (srv s)))) (srv s)).

Definition cli_tun_fd (s : cli_state) : Z := tun_fd (cli_tun (cli s)).
Definition put_cli_tun_fd (fd : Z) (s : cli_state) : cli_state :=
  CliState (cli_world s) (set_cli_tun (TunDevice fd (ifname (cli_tun (cli s))) (tun_mtu (cli_tun (cli s)))) (cli s)).

Section races.
Context `{M : Monocypher} {ML : MonocypherLaws M}.

Lemma server_races (s : srv_state) (npeers : Z) :
  ready s -> g_running (srv_world s) = true -> tun_quit (srv s) = false -> 0 <= srv_tun_fd s ->
  exists pool s', steps server_process server_signal (server_start npeers, s) (pool, s') /\
    race srv_tun_fd put_srv_tun_fd (pool, s').
Proof.
  intros [Hw Hv] Hrun Hquit Hfd. set (s0 := SrvState (tick (srv_world s)) (srv s)). destruct (ok_ifname _ Hv) as [z Hz].
  assert (Hi : inv (served (fun _ => True) (fun w => mode w = mode (srv_world (server_signal s0)))) (server_signal s0))
    by (split; [cbn; quiet|now split]).
  destruct (safe_run _ _ _ _ (server_notify_safe (mode (srv_world (server_signal s0)))) Hi) as ([] & s1 & Hn & _).
  pose proof (always_run _ _ _ _ _ kept_notify Hn) as [Hp _ _].
  eapply (component_races srv_parts server_process server_signal server_run shutdown_notify) with (s0 := s0); try done.
  - now intros l [w v] E; cbn in E |- *; rewrite E.
  - unfold server_process, server_tun_thread.
    eapply advance_act; [reflexivity|]. cbn. rewrite Hrun. eapply advance_act; [reflexivity|]. cbn. rewrite Hquit. cbn.
    eapply advance_act; [reflexivity|]. apply advance_refl.
Qed.

Lemma client_races (s : cli_state) (npeers : Z) :
  client_ready s -> g_running (cli_world s) = true -> cli_tun_quit (cli s) = false -> 0 <= cli_tun_fd s ->
  exists pool s', steps client_process client_signal (client_start npeers, s) (pool, s') /\
    race cli_tun_fd put_cli_tun_fd (pool, s').
Proof.
  intros [Hw Hc] Hrun Hquit Hfd. set (s0 := CliState (tick (cli_world s)) (cli s)). destruct (ok_cli_ifname _ Hc) as [z Hz].
  set (addr := cli_server_addr (cli s)). set (W := fun w => mode w = mode (cli_world (client_signal s0))).
  assert (Hi : inv (attached addr W) (client_signal s0)) by (split; [cbn; quiet|now split]).
  destruct (safe_run _ _ _ _ (safe_client_notify addr W ltac:(apply grants_any; intros e; apply _)) Hi) as ([] & s1 & Hn & _).
  pose proof (always_run _ _ _ _ _ kept_client_notify Hn) as [Hp _ _].
  eapply (component_races cli_parts client_process client_signal client_run client_shutdown_notify) with (s0 := s0); try done.
  - now intros l [w c] E; cbn in E |- *; rewrite E.
  - unfold client_process, client_tun_thread.
    eapply advance_act; [reflexivity|]. cbn. rewrite Hrun. eapply advance_act; [reflexivity|]. cbn. rewrite Hquit. cbn.
    eapply advance_act; [reflexivity|]. apply advance_refl.
Qed.
End races.

(** * Properties *)

(** Whenever a running server or client with an open device is told to stop,
    some interleaving of its threads reaches a configuration in which the main
    thread is about to store [dev->fd = -1] in [tun_close] while the TUN thread
    is about to load [dev->fd] in [tun_read], in either order: a data race,
    which C leaves undefined.  It is the one pair of conflicting accesses the
    other theorems on interleavings leave aside. *)
Theorem shutdown_races_on_device `{M : Monocypher} {ML : MonocypherLaws M} (s : srv_state) (c : cli_state) (npeers : Z)
    (Hs : ready s) (Hsr : g_running (srv_world s) = true) (Hsq : tun_quit (srv s) = false) (Hsf : 0 <= srv_tun_fd s)
    (Hc : client_ready c) (Hcr : g_running (cli_world c) = true) (Hcq : cli_tun_quit (cli c) = false) (Hcf : 0 <= cli_tun_fd c) :
  (exists pool s', steps server_process server_signal (server_start npeers, s) (pool, s') /\
     race srv_tun_fd put_srv_tun_fd (pool, s')) /\
  (exists pool c', steps client_process client_signal (client_start npeers, c) (pool, c') /\
     race cli_tun_fd put_cli_tun_fd (pool, c')).
Proof. split; [now apply server_races|now apply client_races]. Qed.

Example shutdown_races_on_device_witness :
  let s := put_srv_tun_fd 4 sample_state in
  (exists pool s', steps (server_process (M := SampleCipher.sample)) server_signal (server_start (-1), s) (pool, s') /\
     race srv_tun_fd put_srv_tun_fd (pool, s')) /\
  (exists pool c', steps (client_process (M := SampleCipher.sample)) client_signal (client_start (-1), sample_cli) (pool, c') /\
     race cli_tun_fd put_cli_tun_fd (pool, c')).
Proof.
  intros s. apply (shutdown_races_on_device (M := SampleCipher.sample) s sample_cli (-1));
    [|reflexivity|reflexivity|cbn; lia|exact sample_cli_ready|reflexivity|reflexivity|cbn; lia].
  split; [exact sample_world_ok|]. exact (proj1 (flags_ok sample_server (srv s) sample_server_ok eq_refl eq_refl eq_refl)).
Defined.
