(* ===== verification/Chronicle.v ===== *)
(** What one uninterrupted run leaves on the wire and on the TUN device,
    together with the sequence numbers it takes: the logic in which the hosts
    of a tunnel are composed. *)
From stdpp Require Import base list numbers option.
From S2P Require Import Prelude Prog World Consts Sequence Wire Crypto Events Peer Net Messages Delivery.

(** * Marks *)

Inductive mark : Type :=
| MSeq (n : Z)                                  (** a sequence number is issued *)
| MSent (wire : bytes) (dest : sockaddr_in)     (** a datagram is handed to the network *)
| MTun (pkt : bytes).                           (** a packet is handed to the TUN device *)

Definition mark_of (e : event) : option mark :=
  match e with
  | EvSeq n => Some (MSeq n)
  | EvSent wire dest _ => Some (MSent wire dest)
  | EvTunWrite pkt => Some (MTun pkt)
  | _ => None
  end.

(** Newest first, like the trace. *)
Definition marks (w : world) : list mark := omap mark_of (w_trace w).

(** The numbers, the datagrams and the packets among them, oldest first. *)
Definition numbers (m : list mark) : list Z := omap (fun x => match x with MSeq n => Some n | _ => None end) m.
Definition datagrams (m : list mark) : list (bytes * sockaddr_in) :=
  rev (omap (fun x => match x with MSent w d => Some (w, d) | _ => None end) m).
Definition packets (m : list mark) : list bytes :=
  rev (omap (fun x => match x with MTun p => Some p | _ => None end) m).

Lemma issued_marks t : issued t = numbers (omap mark_of t).
Proof. unfold numbers. induction t as [|[] t IH]; cbn; congruence. Qed.

Lemma dests_marks t : dests t = rev (map snd (datagrams (omap mark_of t))).
Proof.
  unfold dests, datagrams. rewrite map_rev, rev_involutive. induction t as [|[] t IH]; cbn; congruence.
Qed.

Lemma numbers_app m1 m2 : numbers (m1 ++ m2) = numbers m1 ++ numbers m2.
Proof. apply omap_app. Qed.

Lemma datagrams_app m1 m2 : datagrams (m1 ++ m2) = datagrams m2 ++ datagrams m1.
Proof. unfold datagrams. now rewrite omap_app, rev_app_distr. Qed.

Lemma packets_app m1 m2 : packets (m1 ++ m2) = packets m2 ++ packets m1.
Proof. unfold packets. now rewrite omap_app, rev_app_distr. Qed.

(** Numbers only. *)
Definition silent (m : list mark) : Prop := Forall (fun x => match x with MSeq _ => True | _ => False end) m.

Lemma silent_nothing m : silent m -> datagrams m = [] /\ packets m = [].
Proof.
  unfold datagrams, packets. induction 1 as [|[] m Hx _ [IH1 IH2]]; [done| |done|done].
  cbn. auto.
Qed.

Lemma silent_app m1 m2 : silent m1 -> silent m2 -> silent (m1 ++ m2).
Proof. apply Forall_app_2. Qed.

(** * Programs that leave no mark *)

Section mute.
Context {S : Type} `{HW : HasWorld S}.

(** A run keeps the marks and everything that sending depends on. *)
Definition mute {A} (p : prog S A) : Prop :=
  forall s a s', run p s = Some (a, s') ->
    marks (get_world s') = marks (get_world s) /\ w_env (get_world s') = w_env (get_world s) /\
    g_proto_next_sequence (get_world s') = g_proto_next_sequence (get_world s).

Lemma mute_ret {A} (a : A) : mute (Ret a).
Proof. now intros s a' s' [= _ <-]. Qed.

Lemma mute_local {A} (o : option A) : mute (local o).
Proof. intros s a s'. rewrite run_local. destruct o; [|done]. now intros [= _ <-]. Qed.

Lemma mute_bind {A B} (p : prog S A) (q : A -> prog S B) : mute p -> (forall a, mute (q a)) -> mute (bind p q).
Proof.
  intros Hp Hq s b s2 H. apply run_bind_inv in H as (a & s1 & H1 & H2).
  destruct (Hp _ _ _ H1) as (A1 & A2 & A3), (Hq a _ _ _ H2) as (B1 & B2 & B3). split; [congruence|]. split; congruence.
Qed.

Lemma mute_locked {A} (p : prog S A) : mute p -> mute (locked p).
Proof. intros Hp s a s'. cbn. destruct (run p s) as [[b s1]|] eqn:E; [|done]. intros [= <- <-]. now apply (Hp s b). Qed.

Lemma mute_for_each {A} (l : list A) (body : A -> prog S unit) :
  (forall x, mute (body x)) -> mute (for_each l body).
Proof. intros Hb. induction l as [|x l IH]; cbn; [apply mute_ret|]. now apply mute_bind. Qed.

(** An action on the component's own data. *)
Lemma mute_data {A} (f : S -> option (A * S)) :
  (forall s a s', f s = Some (a, s') -> get_world s' = get_world s) -> mute (atomic f).
Proof.
  intros Hf s a s'. cbn. destruct (f s) as [[b s1]|] eqn:E; [|done]. intros [= <- <-].
  now rewrite (Hf _ _ _ E).
Qed.

Lemma mute_on_world {A} (f : world -> option (A * world)) :
  (forall w a w', f w = Some (a, w') -> marks w' = marks w /\ w_env w' = w_env w /\
     g_proto_next_sequence w' = g_proto_next_sequence w) -> mute (on_world f).
Proof.
  intros Hf s a s'. cbn. destruct (f (get_world s)) as [[b w']|] eqn:E; [|done]. intros [= <- <-].
  rewrite get_set_world. exact (Hf _ _ _ E).
Qed.

Lemma mute_on_world' {A} (f : world -> A * world) :
  (forall w, marks (f w).2 = marks w /\ w_env (f w).2 = w_env w /\
     g_proto_next_sequence (f w).2 = g_proto_next_sequence w) -> mute (on_world' f).
Proof. intros Hf. apply mute_on_world. intros w a w' [= E]. specialize (Hf w). now rewrite E in Hf. Qed.

Lemma mute_LOG level args : mute (LOG level args).
Proof.
  apply mute_on_world. intros w a w'. destruct (_ <? _); [now intros [= _ <-]|].
  destruct (mapM c_str args); cbn; [|done]. now intros [= _ <-].
Qed.
End mute.

Create HintDb mute.
#[export] Hint Resolve mute_ret mute_local mute_LOG : mute.

(** Consumes a program statement by statement. *)
Ltac mute :=
  repeat first
    [ progress (auto with mute)
    | apply mute_bind; [|intros ?]
    | apply mute_locked
    | apply mute_for_each; intros ?
    | apply mute_on_world'; now intros ?
    | match goal with
      | |- mute (match ?x with _ => _ end) => destruct x
      | |- mute (let '(_, _) := ?x in _) => destruct x
      end ].

(** * Headers *)

(** The bytes of the sequence number in a header. *)
Definition sequence_field (b : bytes) : bytes := take 8 (drop 5 b).

Lemma mem_write_parts b off src b' :
  mem_write b off src = Some b' ->
  0 <= off /\ off + zlen src <= zlen b /\ b' = take (Z.to_nat off) b ++ src ++ drop (Z.to_nat off + length src) b.
Proof.
  unfold mem_write. destruct (_ && _) eqn:E; [|done]. intros [= <-]. bools. auto.
Qed.

(** Writing elsewhere leaves a field alone. *)
Lemma mem_write_frame b off src b' (o n : nat) :
  mem_write b off src = Some b' -> (Z.to_nat off + length src <= o \/ o + n <= Z.to_nat off)%nat ->
  take n (drop o b') = take n (drop o b).
Proof.
  intros (H0 & Hl & ->)%mem_write_parts Hor. unfold zlen in Hl.
  assert (Ht : length (take (Z.to_nat off) b) = Z.to_nat off) by (rewrite length_take; lia).
  destruct Hor as [Hor|Hor].
  - rewrite app_assoc, drop_app_ge by (rewrite length_app, Ht; lia). rewrite length_app, Ht, drop_drop.
    do 2 f_equal. lia.
  - rewrite drop_app_le by (rewrite Ht; lia). rewrite take_app_le by (rewrite length_drop, Ht; lia).
    rewrite skipn_firstn_comm, take_take. f_equal. lia.
Qed.

Lemma payload_len_frame b n b' : proto_write_payload_len b n = Some b' -> sequence_field b' = sequence_field b.
Proof.
  unfold proto_write_payload_len, sequence_field. destruct (mem_write b 3 _) as [b1|] eqn:E1; [|done]. intros E2.
  rewrite (mem_write_frame _ _ _ _ 5 8 E2), (mem_write_frame _ _ _ _ 5 8 E1); [done|left; cbn; lia..].
Qed.

Lemma sequence_stored b n b' :
  store_be 8 b TUND_SEQUENCE_OFFSET n = Some b' -> 13 <= zlen b -> sequence_field b' = be_split 8 n.
Proof.
  intros H Hl. unfold zlen in Hl.
  destruct (split_at 5 b) as (pre & t & -> & Hp); [lia|]. rewrite length_app in Hl.
  destruct (split_at 8 t) as (old & post & -> & Ho); [lia|].
  rewrite (store_be_at 8 n old pre post) in H; [|done|unfold zlen; now rewrite Hp].
  assert (b' = pre ++ be_split 8 n ++ post) as -> by congruence.
  unfold sequence_field. rewrite drop_app_length' by done. apply take_app_length'. now rewrite length_be_split.
Qed.

Lemma sequence_of_wire `{M : Monocypher} key type payload n nonce rest :
  sequence_field (wire_bytes key type payload n nonce ++ rest) = be_split 8 n.
Proof.
  unfold wire_bytes. destruct (aead_lock _ _ _ _) as [c mac]. unfold sequence_field, hdr_bytes.
  rewrite <- !app_assoc. rewrite (drop_app_length' (hdr_prefix type (zlen payload + TUND_AUTH_TAG_SIZE))) by now rewrite length_hdr_prefix.
  apply take_app_length'. now rewrite length_be_split.
Qed.

Lemma be_split_u64 n m : is_u64 n -> be_split 8 n = be_split 8 m -> n = u64 m.
Proof.
  intros Hn E. apply (f_equal be_combine) in E. rewrite !be_combine_split in E.
  change (256 ^ Z.of_nat 8) with (2 ^ 64) in E. words. rewrite Z.mod_small in E by lia. done.
Qed.

(** * Numbers *)

Section numbers.
Context {S : Type} `{HW : HasWorld S}.

(** A run takes numbers, which [L] relates to the result, and does nothing
    else that can be seen. *)
Definition counts {A} (p : prog S A) (L : A -> list Z -> Prop) : Prop :=
  forall s a s', run p s = Some (a, s') ->
    exists ns, marks (get_world s') = map MSeq ns ++ marks (get_world s) /\ L a ns.

Lemma counts_mute {A} (p : prog S A) (L : A -> list Z -> Prop) : mute p -> (forall a, L a []) -> counts p L.
Proof. intros Hp HL s a s' H. exists []. split; [now apply Hp in H as [-> _]|auto]. Qed.

Lemma counts_ret {A} (a : A) (L : A -> list Z -> Prop) : L a [] -> counts (Ret a) L.
Proof. intros HL s a' s' [= <- <-]. now exists []. Qed.

Lemma counts_bind {A B} (p : prog S A) (q : A -> prog S B) L1 (L : B -> list Z -> Prop) :
  counts p L1 -> (forall a ns, L1 a ns -> counts (q a) (fun b ms => L b (ms ++ ns))) -> counts (bind p q) L.
Proof.
  intros Hp Hq s b s2 H. apply run_bind_inv in H as (a & s1 & H1 & H2).
  destruct (Hp _ _ _ H1) as (ns & E1 & HL1), (Hq a ns HL1 _ _ _ H2) as (ms & E2 & HL).
  exists (ms ++ ns). split; [|done]. now rewrite E2, E1, map_app, app_assoc.
Qed.

(** Code without marks, followed by [q]. *)
Lemma counts_then {A B} (p : prog S A) (q : A -> prog S B) (L : B -> list Z -> Prop) :
  mute p -> (forall a, counts (q a) L) -> counts (bind p q) L.
Proof.
  intros Hp Hq. apply (counts_bind p q (fun _ ns => ns = [])); [now apply counts_mute|].
  intros a ns -> s b s' H. destruct (Hq a s b s' H) as (ms & E & HL). exists ms. now rewrite app_nil_r.
Qed.

Lemma counts_local {A B} (o : option A) (q : A -> prog S B) (L : B -> list Z -> Prop) :
  (forall a, o = Some a -> counts (q a) L) -> counts (bind (local o) q) L.
Proof. intros Hq s b s'. rewrite run_bind, run_local. destruct o as [a|]; [|done]. now apply Hq. Qed.

Lemma random_marks fuel : forall len acc w r w', random_loop fuel len acc w = Some (r, w') -> marks w' = marks w.
Proof.
  induction fuel as [|fuel IH]; intros len acc w r w'; cbn [random_loop]; destruct (_ <? _); try done;
    try (now intros [= _ <-]).
  destruct (ask _ w) as [res w1] eqn:E. injection E as Er Ew. subst res w1.
  destruct (env_read _ _ _) as [l| |]; [destruct (_ <=? _); [now intros [= _ <-]|]|..];
    [exact (IH _ _ (tick w) _ _)|exact (IH _ _ (tick w) _ _)|now intros [= _ <-]].
Qed.

Lemma random_bytes_marks len w r w' : proto_random_bytes len w = Some (r, w') -> marks w' = marks w.
Proof.
  unfold proto_random_bytes. destruct (proto_random_fd w) as [fd w1] eqn:E.
  assert (marks w1 = marks w) as <- by (revert E; unfold proto_random_fd, ask; destruct (g_proto_random_fd w <? 0); [destruct (env_open _ _ <? 0)|]; intros [= _ <-]; done).
  destruct (fd <? 0); [now intros [= _ <-]|]. apply random_marks.
Qed.

Lemma counts_random len : counts (on_world (proto_random_bytes len)) (fun _ ns => ns = []).
Proof.
  intros s a s'. cbn. destruct (proto_random_bytes len (get_world s)) as [[r w]|] eqn:E; [|done]. intros [= <- <-].
  exists []. rewrite get_set_world. split; [exact (random_bytes_marks _ _ _ _ E)|done].
Qed.

Lemma counts_init fuel : forall current, counts (sequence_init fuel current) (fun _ ns => ns = []).
Proof.
  induction fuel as [|fuel IH]; intros current; cbn [sequence_init]; (destruct (current =? 0); [|now apply counts_ret]).
  - now intros s a s'.
  - eapply (counts_bind _ _ (fun _ ns => ns = [])).
    + unfold proto_initial_sequence. eapply counts_bind; [apply counts_random|]. intros [ok l] ns ->.
      destruct (negb ok); now apply counts_ret.
    + intros [initial|] ns ->; [|now apply counts_ret]. eapply (counts_bind _ _ (fun _ ns => ns = [])).
      * intros s a s'. cbn. destruct (_ =? 0); intros [= _ <-]; exists []; now rewrite get_set_world.
      * intros [won expected] ns ->. destruct won; [now apply counts_ret|].
        intros s a s' H. destruct (IH expected s a s' H) as (ms & E & ->). now exists [].
Qed.

(** The number returned is the one taken. *)
Definition numbers_taken (o : option Z) (ns : list Z) : Prop :=
  match o with Some n => ns = [n] | None => ns = [] end.

Lemma counts_next : counts proto_next_sequence numbers_taken.
Proof.
  unfold proto_next_sequence. apply counts_then; [mute|]. intros current.
  eapply counts_bind; [apply counts_init|]. intros ok ns ->. destruct (negb ok); [now apply counts_ret|].
  intros s o s'. rewrite run_bind. cbn. destruct (Z.eqb_spec (g_proto_next_sequence (get_world s)) 0);
    intros [= <- <-]; [exists []|eexists [_]]; rewrite get_set_world; split; (reflexivity || done).
Qed.

(** A header holds the number that was taken for it. *)
Definition numbered (r : Z * bytes) (ns : list Z) : Prop :=
  (length ns <= 1)%nat /\ (0 <= r.1 -> exists n, ns = [n] /\ sequence_field r.2 = be_split 8 n).

Lemma numbered_failed r ns : r.1 < 0 -> (length ns <= 1)%nat -> numbered r ns.
Proof. intros Hr Hl. split; [done|lia]. Qed.

Lemma counts_write_hdr buf type plen :
  TUND_HDR_SIZE <= zlen buf -> counts (proto_write_hdr buf type plen) numbered.
Proof.
  intros Hl. unfold proto_write_hdr. destruct (_ <? _); [now apply counts_ret, numbered_failed; cbn; [|lia]|].
  apply counts_local. intros buf1 E1.
  assert (Hl1 : zlen buf1 = zlen buf).
  { revert E1. unfold proto_write_payload_len. repeat (case_match; [|done]). intros E.
    repeat match goal with H : mem_write _ _ _ = Some _ |- _ => apply mem_write_length in H end. unfold zlen. lia. }
  eapply counts_bind; [apply counts_next|]. intros [n|] ns Hn; cbn in Hn; subst ns.
  2:{ now apply counts_ret, numbered_failed; cbn; [|lia]. }
  apply counts_local. intros buf2 E2. apply sequence_stored in E2; [|clia].
  eapply counts_bind; [apply counts_random|]. intros [ok nonce] ns ->. apply counts_local.
  intros buf3 E3. assert (H3 : sequence_field buf3 = be_split 8 n).
  { rewrite <- E2. apply (mem_write_frame _ _ _ _ 5 8 E3). right. done. }
  destruct (negb ok); apply counts_ret; [now apply numbered_failed; cbn; [|lia]|].
  split; [done|]. intros _. now exists n.
Qed.

Lemma counts_build buf type plen code :
  TUND_HDR_SIZE <= zlen buf -> counts (build buf type plen code) (fun _ ns => (length ns <= 1)%nat).
Proof.
  intros Hl. unfold build. eapply counts_bind; [now apply counts_write_hdr|]. intros [r buf1] ns [Hn _].
  destruct (r <? 0); [now apply counts_ret|]. apply counts_local. intros buf2 _. now apply counts_ret.
Qed.

Lemma lock_frame `{M : Monocypher} buf n key r buf' :
  lock_in_place buf n key = Some (r, buf') -> 0 <= n -> sequence_field buf' = sequence_field buf.
Proof.
  unfold lock_in_place. destruct (proto_write_payload_len _ _) as [b1|] eqn:E1; [|done].
  repeat (case_match; [|done]). case_match. destruct (mem_write b1 _ _) as [b2|] eqn:E2; [|done].
  destruct (mem_write b2 _ _) as [b3|] eqn:E3; [|done]. intros [= _ <-] Hn.
  unfold sequence_field. rewrite (mem_write_frame _ _ _ _ 5 8 E3), (mem_write_frame _ _ _ _ 5 8 E2) by (right; clia).
  exact (payload_len_frame _ _ _ E1).
Qed.

Lemma counts_encrypt `{M : Monocypher} buf len key :
  TUND_HDR_SIZE <= zlen buf -> counts (proto_encrypt buf len key) numbered.
Proof.
  intros Hl. assert (Hf : forall b, counts (Ret (-1, b)) numbered) by (intros; now apply counts_ret, numbered_failed; cbn; [|lia]).
  unfold proto_encrypt. destruct (len <? TUND_HDR_SIZE); [apply Hf|]. apply counts_local. intros [type plen|] _; [|apply Hf].
  destruct (_ || _) eqn:Hr; [apply Hf|]. bools. destruct (negb _); [apply Hf|].
  eapply counts_bind; [now apply counts_write_hdr|]. intros [r buf1] ns Hn.
  destruct (Z.ltb_spec r 0).
  { now apply counts_ret, numbered_failed; cbn; [|apply Hn]. }
  destruct (proj2 Hn ltac:(done)) as (n & -> & Hs). intros s [r' buf2] s'. rewrite run_local.
  destruct (lock_in_place _ _ _) as [[r1 b1]|] eqn:E; [|done]. intros [= <- <- <-]. exists []. split; [done|].
  split; [done|]. intros _. exists n. split; [done|]. cbn [snd]. rewrite <- Hs. eapply lock_frame; [exact E|lia].
Qed.
End numbers.

(** * Stages of a run *)

Section stage.
Context `{M : Monocypher} {ML : MonocypherLaws M}.
Context {S : Type} `{HW : HasWorld S} (J : S -> Prop) {F : Framed J}.
Hypothesis J_free : forall e, Permits J e.

(** The process, which was [w0] at the start, has left the marks [m] since
    then and can still take [k] numbers. *)
Definition stage (w0 : world) (k : Z) (m : list mark) (s : S) : Prop :=
  inv J s /\ live k (get_world s) /\ g_crypto_key (get_world s) = g_crypto_key w0 /\
  w_env (get_world s) = w_env w0 /\ marks (get_world s) = m ++ marks w0.

Lemma stage_start k s :
  inv J s -> entropy_ok (w_env (get_world s)) -> 0 <= k ->
  zlen (issued (w_trace (get_world s))) + k < 2 ^ 62 -> stage (get_world s) k [] s.
Proof. intros HI He H0 Hk. split; [done|]. split; [now apply live_start; [apply HI|..]|done]. Qed.

(** Code without marks. *)
Lemma wp_mute {A} (p : prog S A) Q w0 k m s (K : A -> S -> Prop) :
  safe J p Q -> mute p -> stage w0 k m s ->
  (forall a s', stage w0 k m s' -> Q a -> K a s') -> wp p K s.
Proof.
  intros Hp Hm (HI & HL & Hk & He & Ht) HK. destruct (safe_run _ _ _ s Hp HI) as (a & s' & Hr & HI' & Hrel & HQ).
  destruct (Hm _ _ _ Hr) as (E1 & E2 & E3). exists a, s'. split; [done|]. apply HK; [|done].
  split; [done|]. split; [|rewrite (step_key _ _ Hrel), E2, E1; done].
  unfold live. rewrite E2, E3. exact HL.
Qed.

(** Code that takes [k1] numbers at most. *)
Lemma wp_counts {A} (p : prog S A) Q k1 R L w0 k m s (K : A -> S -> Prop) :
  safe J p Q -> acct p k1 [] R -> counts p L -> 0 <= k -> stage w0 (k1 + k) m s ->
  (forall a s' ns, stage w0 k (map MSeq ns ++ m) s' -> Q a -> R a -> L a ns -> K a s') -> wp p K s.
Proof.
  intros Hp Ha Hc H0 (HI & HL & Hk & He & Ht) HK. destruct (safe_run _ _ _ s Hp HI) as (a & s' & Hr & HI' & Hrel & HQ).
  destruct (Ha s a s' k H0 HL Hr) as (HR & HL' & _), (Hc s a s' Hr) as (ns & E & HLa).
  exists a, s'. split; [done|]. apply (HK a s' ns); auto. split; [done|]. split; [done|].
  rewrite (step_key _ _ Hrel), (step_env _ _ Hrel), E, Ht, app_assoc. done.
Qed.

(** An event that leaves a mark. *)
Lemma wp_emit {A} (f : world -> A * world) (ev : A -> event) x w0 k m s (K : A -> S -> Prop) :
  (forall w, world_ok w -> world_ok (f w).2 /\ w_env (f w).2 = w_env w /\
     g_crypto_key (f w).2 = g_crypto_key w /\ g_tui_active (f w).2 = g_tui_active w /\
     g_proto_next_sequence (f w).2 = g_proto_next_sequence w /\ w_trace (f w).2 = ev (f w).1 :: w_trace w) ->
  (forall a, mark_of (ev a) = Some x) -> stage w0 k m s ->
  (forall a s', stage w0 k (x :: m) s' -> K a s') -> wp (on_world' f) K s.
Proof.
  intros Hf Hx ([Hw HJ] & HL & Hk & He & Ht) HK. destruct (Hf _ Hw) as (Hw' & E1 & E2 & E3 & E4 & E5).
  destruct (f (get_world s)) as [a w'] eqn:E. cbn [fst snd] in *. exists a, (set_world w' s).
  split; [cbn; now rewrite E|]. apply HK. unfold stage, inv. rewrite get_set_world. split.
  - split; [done|]. now apply (J_free (ev a)).
  - split; [unfold live; rewrite E1, E4; exact HL|]. split; [congruence|]. split; [congruence|].
    unfold marks in *. rewrite E5. cbn. now rewrite Hx, Ht.
Qed.

Lemma wp_tun_write pkt w0 k m s (K : Z -> S -> Prop) :
  stage w0 k m s -> (forall r s', stage w0 k (MTun pkt :: m) s' -> K r s') -> wp (tun_write pkt) K s.
Proof.
  apply (wp_emit _ (fun _ => EvTunWrite pkt)); [|done]. intros w Hw. cbn. split; [quiet|done].
Qed.

Lemma wp_sendto wire dest w0 k m s (K : Z -> S -> Prop) :
  stage w0 k m s -> (forall r s', stage w0 k (MSent wire dest :: m) s' -> K r s') -> wp (sendto wire dest) K s.
Proof.
  apply (wp_emit _ (EvSent wire dest)); [|done]. intros w Hw. cbn. split; [quiet|done].
Qed.

Lemma wp_key w0 k m s (K : bytes -> S -> Prop) :
  stage w0 k m s -> K (g_crypto_key w0) s -> wp (read_world g_crypto_key) K s.
Proof.
  intros (_ & _ & Hk & _) HK. exists (g_crypto_key (get_world s)), s. cbn. rewrite set_get_world, Hk. done.
Qed.

(** A message that is sent leaves one datagram, encrypted under the number
    taken for it. *)
Lemma wp_net_send_datagram buf len dest type payload w0 k m s (K : Z -> S -> Prop) :
  carries buf len type payload -> zlen payload <= TUND_MAX_PLAINTEXT -> len <= zlen buf -> bytes_ok buf ->
  0 <= k -> stage w0 (1 + k) m s ->
  (forall r s' n nonce, u64 n <> 0 -> length nonce = 24%nat -> bytes_ok payload ->
     is_u8 type -> bytes_ok nonce ->
     stage w0 k (MSent (wire_bytes (g_crypto_key w0) type payload (u64 n) nonce) dest :: MSeq n :: m) s' -> K r s') ->
  wp (net_send buf len dest) K s.
Proof.
  intros Hc Hm Hl Hb H0 Hs HK. pose proof Hc as (Hh & Hpl & Hlen). pose proof (zlen_nonneg payload). unfold net_send.
  destruct (Z.ltb_spec len TUND_HDR_SIZE); [lia|].
  destruct (Z.ltb_spec (TUND_HDR_SIZE + TUND_MAX_PLAINTEXT) len); [lia|].
  apply wp_bind. eapply wp_mute; [now apply (safe_alloc J TUND_MAX_PKT)|apply mute_on_world'; now intros w|exact Hs|].
  intros wire0 s1 Hs1 [Hw0 Hw0b]. rewrite copy_to_wire by clia. cbn [local bind]. set (wire := _ ++ _).
  assert (Hwb : bytes_ok wire) by (apply bytes_ok_app; auto using bytes_ok_take, bytes_ok_drop).
  assert (Hwl : zlen wire = TUND_MAX_PKT).
  { unfold wire. unfold zlen in *. rewrite length_app, length_take, length_drop. clia. }
  assert (Hh' : proto_read_hdr wire = Some (HdrOk type (len - TUND_HDR_SIZE))).
  { unfold wire. rewrite read_hdr_take, Hh by clia. do 2 f_equal. lia. }
  assert (Hp' : take (Z.to_nat (len - TUND_HDR_SIZE)) (drop 37 wire) = payload).
  { rewrite Hpl. unfold wire. rewrite drop_app_le by (rewrite length_take; clia).
    rewrite take_app_le by (rewrite length_drop, length_take; clia). rewrite skipn_firstn_comm, take_take. f_equal. clia. }
  apply wp_bind. eapply wp_key; [exact Hs1|]. apply wp_bind.
  eapply (wp_counts _ _ 1 _ _ _ k); [apply safe_encrypt; [typeclasses eauto|done|clia]
    |apply (acct_encrypt wire len _ type); [lia|done]|apply counts_encrypt; clia|done|exact Hs1|].
  intros [r wire'] s2 ns Hs2 (_ & _ & HE) -> HN.
  destruct (Z.ltb_spec (len + TUND_AUTH_TAG_SIZE) 0); [clia|].
  destruct HE as [?|(ty & n & nonce & pl & rest & Hty & Hn & Hnl & Hnb & Hpb & Hpm & Hln & Hhd & Hpp & _ & ->)]; [clia|].
  rewrite Hh' in Hhd. injection Hhd as <- _. rewrite Hp' in Hpp. subst pl.
  destruct (proj2 HN)  as (n' & -> & Hf); [cbn; clia|]. cbn [snd] in Hf. rewrite sequence_of_wire in Hf.
  apply be_split_u64 in Hf; [|words; lia]. rewrite Hf in *.
  assert (Hz : u64 n' <> 0) by lia. clear Hf Hn n.
  rewrite (mem_read_at _ [] (wire_bytes (g_crypto_key w0) type payload (u64 n') nonce) rest);
    [|done|done|rewrite zlen_wire; [clia|done]].
  cbn [local bind]. apply wp_bind. eapply wp_sendto; [exact Hs2|]. intros sent s3 Hs3.
  assert (HK' : forall r s', stage w0 k (MSent (wire_bytes (g_crypto_key w0) type payload (u64 n') nonce) dest :: MSeq n' :: m) s' -> K r s')
    by (intros r s' Hs'; now apply (HK r s' n' nonce)).
  destruct (sent <? 0).
  - apply wp_bind. eapply wp_mute; [apply safe_LOG; [typeclasses eauto|repeat constructor; apply ip_terminated]|apply mute_LOG|exact Hs3|].
    intros _ s4 Hs4 _. apply wp_ret. now apply HK'.
  - destruct (negb _); apply wp_ret; now apply HK'.
Qed.
End stage.
