(* ===== verification/Tunnel.v ===== *)
(** The tunnel end to end: a packet that one client reads from its TUN device
    travels through the server to the TUN device of another client.  The three
    processes run the iterations of their loops one after the other; the network
    between them carries each datagram to the socket it was sent to. *)
From stdpp Require Import base list numbers option.
From S2P Require Import Prelude Prog World Consts Sequence Wire Ipv4 Crypto Events Replay Peer Net Messages Boot Delivery ServerPeers Server ServerSpec ServerDelivery ServerThreads Client ClientTable ClientSafe ClientThreads ClientSpec Chronicle.

(** * The network *)

Definition set_env (e : env) (w : world) : world :=
  World e (w_tick w) (g_proto_next_sequence w) (g_proto_random_fd w) (g_running w)
        (g_crypto_key w) (g_log_level w) (g_tui_active w) (g_json_events_active w) (w_trace w).

(** The next poll of the process reports the datagram, which its [recvfrom]
    then delivers. *)
Definition transmit (wire : bytes) (from : sockaddr_in) (w : world) : world :=
  let e := w_env w in
  set_env {|
    env_open := env_open e; env_read := env_read e; env_eintr := env_eintr e; env_time := env_time e;
    env_now_ms := env_now_ms e; env_sendto := env_sendto e;
    env_recvfrom t n := if (t =? S (S (w_tick w)))%nat && (zlen wire <=? n) then RecvData wire from else env_recvfrom e t n;
    env_poll t := if (t =? w_tick w)%nat then 1 else env_poll e t;
    env_poll_eintr := env_poll_eintr e; env_tun_read := env_tun_read e; env_tun_write := env_tun_write e;
    env_stack := env_stack e; env_sys := env_sys e; env_ifname := env_ifname e; env_ifflags := env_ifflags e;
    env_resolve := env_resolve e
  |} w.

(** The next read of the TUN device returns the packet. *)
Definition offer_packet (pkt : bytes) (w : world) : world :=
  let e := w_env w in
  set_env {|
    env_open := env_open e; env_read := env_read e; env_eintr := env_eintr e; env_time := env_time e;
    env_now_ms := env_now_ms e; env_sendto := env_sendto e; env_recvfrom := env_recvfrom e; env_poll := env_poll e;
    env_poll_eintr := env_poll_eintr e;
    env_tun_read t n := if (t =? S (w_tick w))%nat && (zlen pkt <=? n) then ReadData pkt else env_tun_read e t n;
    env_tun_write := env_tun_write e; env_stack := env_stack e; env_sys := env_sys e; env_ifname := env_ifname e;
    env_ifflags := env_ifflags e; env_resolve := env_resolve e
  |} w.

Definition in_client (f : world -> world) (s : cli_state) : cli_state := CliState (f (cli_world s)) (cli s).
Definition in_server (f : world -> world) (s : srv_state) : srv_state := SrvState (f (srv_world s)) (srv s).

(** What a process left since it was [w]. *)
Definition since (w w' : world) : list mark := take (length (marks w') - length (marks w)) (marks w').

Section tunnel.
Context `{M : Monocypher}.

(** One packet from [a], whose datagrams the server sees coming from
    [addr], to [b]: an iteration of the sender's TUN thread, of the server's main
    loop and of the receiver's main loop.  [None] where a step sends anything
    but one datagram. *)
Definition tunnel (a : cli_state) (addr : sockaddr_in) (v : srv_state) (b : cli_state) (pkt : bytes) :
    option (cli_state * srv_state * cli_state) :=
  let? '(_, a') := run (client_tun_thread 0) (in_client (offer_packet pkt) a) in
  match datagrams (since (cli_world a) (cli_world a')) with
  | [(wire, _)] =>
      let? '(_, v') := run (server_run 0) (in_server (transmit wire addr) v) in
      match datagrams (since (srv_world v) (srv_world v')) with
      | [(wire', _)] =>
          let? '(_, b') := run (client_run 0) (in_client (transmit wire' (cli_server_addr (cli b))) b) in
          Some (a', v', b')
      | _ => None
      end
  | _ => None
  end.
End tunnel.

Lemma since_app w w' m : marks w' = m ++ marks w -> since w w' = m.
Proof.
  intros E. unfold since. rewrite E, length_app. replace (length m + length (marks w) - length (marks w))%nat with (length m) by lia.
  apply take_app_length.
Qed.

(** * The steps of the network keep the contract of the system *)

Lemma set_env_ok e w : env_ok e -> world_ok w -> world_ok (set_env e w).
Proof. intros He (_ & Hs & Hk). now split. Qed.

Lemma transmit_ok wire from w : bytes_ok wire -> addr_ok from -> world_ok w -> world_ok (transmit wire from w).
Proof.
  intros Hb Ha Hw. apply set_env_ok; [|done]. destruct Hw as ([] & _). split; cbn; auto.
  intros t n l a Hn. destruct (_ && _) eqn:E; [|now apply ok_recv]. bools. intros [= <- <-]. auto.
Qed.

Lemma offer_ok pkt w : bytes_ok pkt -> world_ok w -> world_ok (offer_packet pkt w).
Proof.
  intros Hb Hw. apply set_env_ok; [|done]. destruct Hw as ([] & _). split; cbn; auto.
  intros t n l Hn. destruct (_ && _) eqn:E; [|now apply ok_tun_read]. bools. intros [= <-]. auto.
Qed.

Lemma transmit_entropy wire from w : entropy_ok (w_env w) -> entropy_ok (w_env (transmit wire from w)).
Proof. done. Qed.

(** * Receiving *)

Section receive.
Context `{M : Monocypher} {ML : MonocypherLaws M} {S : Type} `{HW : HasWorld S}.
Context (J : S -> Prop) {F : Framed J}.

(** The loop body of a process to which a datagram was transmitted. *)
Definition arrived (wire : bytes) (from : sockaddr_in) (s : S) : Prop :=
  env_recvfrom (w_env (get_world s)) (w_tick (get_world s)) TUND_MAX_PKT = RecvData wire from.

Lemma wp_net_recv_datagram wire from type payload n nonce buf w0 k m s (K : Z * bytes * sockaddr_in -> S -> Prop) :
  wire = wire_bytes (g_crypto_key w0) type payload n nonce ->
  is_u8 type -> length nonce = 24%nat -> bytes_ok nonce -> bytes_ok payload -> zlen payload <= TUND_MAX_PLAINTEXT -> is_u64 n ->
  bytes_ok buf -> zlen buf = TUND_MAX_PKT -> arrived wire from s -> stage J w0 k m s ->
  (forall rest s', stage J w0 k m s' -> bytes_ok rest ->
     K (TUND_HDR_SIZE + zlen payload, hdr_bytes type (zlen payload) n nonce ++ payload ++ rest, from) s') ->
  wp (net_recv buf TUND_MAX_PKT zero_addr) K s.
Proof.
  intros -> Ht Hn Hnb Hp Hm Hsq Hb Hl Ha Hs HK. pose proof (zlen_nonneg payload). unfold net_recv.
  set (wire := wire_bytes _ _ _ _ _) in *.
  assert (Hwl : zlen wire = TUND_HDR_SIZE + zlen payload + TUND_AUTH_TAG_SIZE) by now apply zlen_wire.
  assert (Hwb : bytes_ok wire) by now apply wire_ok.
  apply wp_bind. exists (RecvData wire from), (set_world (tick (get_world s)) s).
  split; [cbn; now rewrite Ha|]. set (s1 := set_world _ s).
  assert (Hs1 : stage J w0 k m s1).
  { destruct Hs as ([Hw HJ] & HL & Hk & He & Hmk). unfold s1, stage, inv. rewrite get_set_world.
    split; [split; [quiet|apply F; [done|quiet]]|]. split; [exact HL|]. done. }
  rewrite mem_write_some by clia. change (take (Z.to_nat 0) buf) with (@nil Z). cbn [local bind app].
  set (tail := drop _ buf). apply wp_bind. eapply wp_key; [exact Hs1|].
  destruct (decrypt_wire (g_crypto_key w0) type payload n nonce tail Hp Hn Hm) as (junk & Hd & Hj).
  rewrite Hwl. fold wire in Hd. rewrite Hd. cbn [local bind].
  destruct (Z.ltb_spec (TUND_HDR_SIZE + zlen payload) 0); [clia|]. apply wp_ret. apply HK; [done|].
  assert (Hwt : bytes_ok (wire ++ tail)) by (apply bytes_ok_app; split; [done|now apply bytes_ok_drop]).
  destruct (decrypt_exact (g_crypto_key w0) (wire ++ tail) (zlen wire) Hwt) as (r & buf' & Hd' & HD).
  { rewrite zlen_app. pose proof (zlen_nonneg tail). lia. }
  rewrite Hwl, Hd in Hd'. injection Hd' as <- <-.
  assert (Hall : bytes_ok (hdr_bytes type (zlen payload) n nonce ++ payload ++ junk ++ tail)).
  { eapply (decrypted_received _ _ _ _ _ zero_addr Hwt HD). repeat split; cbn; words; lia. }
  rewrite !bytes_ok_app in Hall. apply bytes_ok_app. tauto.
Qed.
End receive.

(** * The sender *)

Lemma mute_alloc {S} `{HW : HasWorld S} n : mute (S := S) (alloc n).
Proof. apply mute_on_world'. now intros w. Qed.

Lemma mute_time {S} `{HW : HasWorld S} : mute (S := S) (on_world' time_null).
Proof. apply mute_on_world'. now intros w. Qed.

Lemma mute_load {A} (f : client_t -> A) : mute (load f).
Proof. apply mute_data. now intros s a s' [= _ <-]. Qed.

Lemma mute_save f : mute (save f).
Proof. apply mute_data. now intros s a s' [= _ <-]. Qed.

Lemma mute_load_peer i : mute (load_peer i).
Proof. apply mute_data. intros s a s'. destruct (_ <=? _); [|done]. destruct (_ !! _); [|done]. now intros [= _ <-]. Qed.

Lemma mute_save_peer i p d : mute (save_peer i p d).
Proof. apply mute_data. intros s a s'. destruct (_ && _); [|done]. now intros [= _ <-]. Qed.

#[export] Hint Resolve mute_alloc mute_time mute_load mute_save mute_load_peer mute_save_peer : mute.

Lemma mute_peer_traffic vip a b : mute (client_add_peer_traffic vip a b).
Proof. unfold client_add_peer_traffic. mute. Qed.

Lemma mute_broadcast_traffic b : mute (client_add_broadcast_traffic b).
Proof. unfold client_add_broadcast_traffic. mute. Qed.

Notation at_client addr := (attached addr (fun _ => True)).

Lemma client_free addr e : Permits (at_client addr) e.
Proof. apply _. Qed.

Section sender.
Context `{M : Monocypher} {ML : MonocypherLaws M} (addr : sockaddr_in).
Notation J := (at_client addr).

(** A valid packet leaves as one datagram to the server. *)
Lemma wp_client_tun_forward pkt rest w0 k m s (K : unit -> cli_state -> Prop) :
  bytes_ok (pkt ++ rest) -> lan_packet pkt (zlen pkt) -> zlen pkt <= TUND_MAX_PLAINTEXT ->
  0 <= k -> stage J w0 (2 + k) m s ->
  (forall s' n nonce ns, (length ns <= 1)%nat -> u64 n <> 0 -> length nonce = 24%nat -> bytes_ok nonce ->
     stage J w0 k (MSent (wire_bytes (g_crypto_key w0) MSG_DATA pkt (u64 n) nonce) addr :: MSeq n :: map MSeq ns ++ m) s' -> K tt s') ->
  wp (client_tun_forward (pkt ++ rest) (zlen pkt)) K s.
Proof.
  intros Hb Hlan Hm H0 Hs HK. pose proof (zlen_nonneg pkt). pose proof (zlen_nonneg rest). unfold client_tun_forward.
  assert (Hu : u16 (zlen pkt) = zlen pkt) by (words; apply Z.mod_small; clia). rewrite Hu.
  assert (Hlan' : lan_packet (pkt ++ rest) (zlen pkt)) by (apply lan_packet_app; [apply (lan_min _ _ Hlan)|done]).
  pose proof (lan_min _ _ Hlan'). rewrite validate_verdict by (done || rewrite zlen_app; lia). cbn [local bind].
  rewrite (proj2 (verdict_ok (pkt ++ rest) (zlen pkt)) Hlan'). cbn [negb TUND_IPV4_OK Z.eqb].
  apply wp_bind. eapply (wp_mute J); [apply alloc_pkt; typeclasses eauto|apply mute_alloc|exact Hs|].
  intros buf s1 Hs1 [Hbuf _]. apply wp_bind.
  eapply (wp_counts J _ _ 1 _ _ _ (1 + k)); [apply safe_build_data; [typeclasses eauto|done|done|rewrite zlen_app; lia|clia]
    |now apply acct_build|apply counts_build; destruct Hbuf; clia|lia|replace (1 + (1 + k)) with (2 + k) by lia; exact Hs1|].
  intros [len buf1] s2 ns Hs2 HB Hlen Hns. unfold zlen in HB at 1. rewrite Nat2Z.id, take_app_length in HB.
  destruct (built_sendable _ _ _ _ HB Hbuf Hlen Hm) as (Hc & Hl & Hb1). cbn [fst snd] in *.
  apply wp_bind. eapply (wp_mute J); [apply safe_load_addr; typeclasses eauto|apply mute_load|exact Hs2|]. intros dest s3 Hs3 ->.
  apply wp_bind. eapply (wp_net_send_datagram J); [apply client_free|exact Hc|exact Hm|exact Hl|exact Hb1|exact H0|exact Hs3|].
  intros r s4 n nonce Hn Hnl _ _ Hnb Hs4.
  assert (HK' : forall s', stage J w0 k (MSent (wire_bytes (g_crypto_key w0) MSG_DATA pkt (u64 n) nonce) addr :: MSeq n :: map MSeq ns ++ m) s' -> K tt s')
    by (intros s' Hs'; now apply (HK s' n nonce ns)).
  destruct (r <? 0).
  { eapply (wp_mute J); [logging|apply mute_LOG|exact Hs4|]. intros [] s' Hs' _. now apply HK'. }
  destruct (get_dst_spec (pkt ++ rest) (zlen pkt)) as (dst & -> & _); [rewrite zlen_app; lia|]. cbn [local bind].
  destruct (_ =? _); eapply (wp_mute J); [apply safe_add_broadcast_traffic; typeclasses eauto|apply mute_broadcast_traffic|exact Hs4|
    |apply safe_add_peer_traffic; typeclasses eauto|apply mute_peer_traffic|exact Hs4|]; intros [] s' Hs' _; now apply HK'.
Qed.
End sender.

(** * Numbers and windows *)

(** The newest number is the largest. *)
Lemma newest_number w n l :
  world_ok w -> issued (w_trace w) = n :: l -> zlen (n :: l) < 2 ^ 63 -> 1 <= n < 2 ^ 64 /\ Forall (fun x => x < n) l.
Proof.
  intros (_ & [_ Hs] & _) E Hl. rewrite E in Hs. destruct (Hs Hl) as [[_ H]|(start & Hst & _ & Hseq)]; [done|].
  rewrite zlen_cons in *. pose proof (zlen_nonneg l).
  rewrite (Z.add_comm 1), seqZ_snoc, rev_app_distr in Hseq by done. cbn [rev app] in Hseq. injection Hseq as -> Hr.
  split; [lia|]. apply Forall_forall. intros x Hx. rewrite Hr in Hx. apply in_rev, list_elem_of_In, elem_of_seqZ in Hx. lia.
Qed.

(** The window has seen nothing, or up to a number that the process issued. *)
Definition follows (win : proto_replay_window_t) (w : world) : Prop :=
  highest win = 0 \/ In (highest win) (issued (w_trace w)).

Lemma follows_accepts win n : n <> 0 -> highest win = 0 \/ highest win < n -> (proto_replay_accept win n).1 = true.
Proof.
  intros Hn Hw. unfold proto_replay_accept. destruct (Z.eqb_spec n 0); [done|].
  destruct (Z.eqb_spec (highest win) 0); [done|]. destruct (Z.ltb_spec (highest win) n); [done|lia].
Qed.

(** A datagram that [w'] has just sent, when the process was [w] before it
    started: its number is new to every window that follows [w]. *)
Definition just_sent `{M : Monocypher} (w w' : world) (type : Z) (payload : bytes) (dest : sockaddr_in) (wire : bytes) : Prop :=
  exists n nonce, wire = wire_bytes (g_crypto_key w) type payload n nonce /\ 1 <= n < 2 ^ 64 /\
    length nonce = 24%nat /\ bytes_ok nonce /\
    datagrams (since w w') = [(wire, dest)] /\ packets (since w w') = [] /\
    forall win, follows win w -> (proto_replay_accept win n).1 = true.

Lemma stage_just_sent `{M : Monocypher} {S} `{HW : HasWorld S} (J : S -> Prop) w k s n nonce ns type payload dest :
  stage J w k (MSent (wire_bytes (g_crypto_key w) type payload (u64 n) nonce) dest :: MSeq n :: map MSeq ns) s ->
  zlen (issued (w_trace w)) + 2 < 2 ^ 62 -> (length ns <= 1)%nat -> length nonce = 24%nat -> bytes_ok nonce ->
  exists wire, just_sent w (get_world s) type payload dest wire.
Proof.
  intros ([Hw _] & _ & _ & _ & Hm) Hi Hl Hnl Hnb.
  assert (E : issued (w_trace (get_world s)) = n :: ns ++ issued (w_trace w)).
  { rewrite !issued_marks. fold (marks (get_world s)) (marks w). rewrite Hm. cbn. f_equal.
    rewrite numbers_app. f_equal. unfold numbers. clear. induction ns; cbn; congruence. }
  destruct (newest_number _ _ _ Hw E) as [Hn Hall].
  { rewrite zlen_cons, zlen_app. unfold zlen at 1. lia. }
  assert (Hu : u64 n = n) by (words; apply Z.mod_small; lia). rewrite Hu in Hm.
  assert (Hsil : silent (MSeq n :: map MSeq ns)).
  { constructor; [done|]. clear. induction ns; constructor; auto. }
  eexists. exists n, nonce. split; [reflexivity|]. do 3 (split; [done|]).
  rewrite (since_app _ _ _ Hm). destruct (silent_nothing _ Hsil) as [Hd Hp].
  split; [|split].
  - change (?x :: ?l) with ([x] ++ l). rewrite datagrams_app, Hd. reflexivity.
  - change (?x :: ?l) with ([x] ++ l). rewrite packets_app, Hp. reflexivity.
  - intros win Hf. apply follows_accepts; [lia|]. destruct Hf as [?|Hin]; [by left|right].
    rewrite Forall_forall in Hall. apply Hall, in_app_iff. by right.
Qed.

(** * One step of each host *)

Lemma client_sends_packet `{M : Monocypher} {ML : MonocypherLaws M} (s : cli_state) (pkt : bytes) :
  client_ready s -> entropy_ok (w_env (cli_world s)) -> zlen (issued (w_trace (cli_world s))) + 2 < 2 ^ 62 ->
  g_running (cli_world s) = true -> cli_tun_quit (cli s) = false ->
  bytes_ok pkt -> lan_packet pkt (zlen pkt) -> zlen pkt <= TUND_MAX_PLAINTEXT ->
  exists wire s', run (client_tun_thread 0) (in_client (offer_packet pkt) s) = Some (Continue 0, s') /\
    just_sent (cli_world s) (cli_world s') MSG_DATA pkt (cli_server_addr (cli s)) wire.
Proof.
  intros [Hw Hc] He Hi Hrun Hq Hb Hlan Hm. set (s0 := in_client _ s). set (J := at_client (cli_server_addr (cli s))).
  assert (H0 : stage J (get_world s0) (2 + 0) [] s0).
  { apply stage_start; [|done|lia|done]. split; [now apply offer_ok|done]. }
  assert (Hwp : wp (client_tun_thread 0) (fun c s' => c = Continue 0 /\
      exists wire, just_sent (get_world s0) (get_world s') MSG_DATA pkt (cli_server_addr (cli s)) wire) s0).
  { unfold client_tun_thread. apply wp_bind. exists true, s0. split; [cbn; rewrite Hrun; now destruct s|].
    apply wp_bind. exists false, s0. split; [cbn; now rewrite Hq|]. cbn [negb orb].
    apply wp_bind.
    exists (map (fun i => u8 (env_stack (w_env (cli_world s0)) (w_tick (cli_world s0) + i))) (seq 0 (Z.to_nat TUND_MAX_PLAINTEXT))),
      (in_client tick s0). split; [reflexivity|]. set (buf := map _ _).
    apply wp_bind. exists (ReadData pkt), (in_client tick (in_client tick s0)). split.
    { cbn -[TUND_MAX_PLAINTEXT]. rewrite Nat.eqb_refl. destruct (Z.leb_spec (zlen pkt) TUND_MAX_PLAINTEXT); [done|lia]. }
    assert (H2 : stage J (get_world s0) (2 + 0) [] (in_client tick (in_client tick s0))).
    { destruct H0 as ([Hw0 HJ0] & HL0 & H0). split; [split; [quiet|exact HJ0]|]. split; [exact HL0|exact H0]. }
    assert (Hbuf : zlen buf = TUND_MAX_PLAINTEXT /\ bytes_ok buf).
    { unfold buf, zlen. rewrite length_map, length_seq. split; [clia|]. apply Forall_map, Forall_true. intros. apply is_u8_mod. }
    destruct Hbuf as [Hbl Hbb]. destruct pkt as [|x pkt']; [pose proof (lan_min _ _ Hlan); unfold zlen in *; cbn in *; lia|].
    set (p := x :: pkt') in *. rewrite mem_write_some by (pose proof (zlen_nonneg p); lia).
    change (take (Z.to_nat 0) buf) with (@nil Z). cbn [local bind app]. apply wp_bind.
    eapply (wp_client_tun_forward (cli_server_addr (cli s))); [apply bytes_ok_app; auto using bytes_ok_drop|done|done| |exact H2|]; [lia|].
    intros s' n nonce ns Hns Hn Hnl Hnb Hs'. apply wp_ret. split; [done|].
    rewrite app_nil_r in Hs'. now apply (stage_just_sent _ _ _ _ _ _ _ _ _ _ Hs'). }
  destruct Hwp as (c & s' & Hr & -> & wire & Hjs). exists wire, s'. split; [exact Hr|exact Hjs].
Qed.

(** * The server *)

Lemma mute_gets {A} (f : server_t -> A) : mute (gets f).
Proof. apply mute_data. now intros s a s' [= _ <-]. Qed.

Lemma mute_peer_at i : mute (peer_at i).
Proof. apply mute_data. intros s a s'. destruct (_ <=? _); [|done]. destruct (_ !! _); [|done]. now intros [= _ <-]. Qed.

Lemma mute_put_peer i p d : mute (put_peer i p d).
Proof. apply mute_data. intros s a s'. destruct (_ && _); [|done]. now intros [= _ <-]. Qed.

#[export] Hint Resolve mute_gets mute_peer_at mute_put_peer : mute.

Lemma mute_data_locked src_ip dst_ip plen from : mute (data_locked src_ip dst_ip plen from).
Proof. unfold data_locked. mute. Qed.

Lemma mute_bytes_out sn n : mute (server_add_peer_bytes_out sn n).
Proof. unfold server_add_peer_bytes_out. mute. Qed.

Notation at_server := (served (fun _ => True) (fun _ => True)).

Lemma server_free e : Permits at_server e.
Proof. apply _. Qed.

(** A critical section, as one step of a run. *)
Lemma wp_section {A} (p : prog srv_state A) (P : server_t -> server_t -> A -> Prop) w0 k m s (K : A -> srv_state -> Prop) :
  (inv at_server s -> wp p (fun a s' => exists v', inside (fun _ => True) s v' s' /\ srv_ok v' /\ P (srv s) v' a) s) ->
  mute p -> stage at_server w0 k m s ->
  (forall a s', stage at_server w0 k m s' -> srv_ok (srv s') -> P (srv s) (srv s') a -> K a s') -> wp (locked p) K s.
Proof.
  intros Hp Hm (HI & HL & Hk & He & Hmk) HK. destruct (Hp HI) as (a & s' & Hr & v' & Hin & Hv' & HP).
  destruct (inside_end _ s (fun _ => True) v' s' Hin Hv' I) as [HI' Hrel]. destruct Hin as [[_ [<- _]] _].
  destruct (Hm _ _ _ Hr) as (E1 & E2 & E3). exists a, s'. split; [cbn; now rewrite Hr|]. apply HK; [|done|done].
  split; [done|]. split; [unfold live; rewrite E2, E3; exact HL|].
  rewrite (step_key _ _ Hrel), E2, E1. done.
Qed.

Section server.
Context `{M : Monocypher} {ML : MonocypherLaws M}.
Notation J := at_server.

Lemma wp_unicast sn pkt rest dst_ip w0 k m s (K : unit -> srv_state -> Prop) :
  bytes_ok (pkt ++ rest) -> zlen pkt <= TUND_MAX_PLAINTEXT -> snap_ok sn -> 0 <= k -> stage J w0 (2 + k) m s ->
  (forall s' n nonce ns, (length ns <= 1)%nat -> u64 n <> 0 -> length nonce = 24%nat -> bytes_ok nonce ->
     stage J w0 k (MSent (wire_bytes (g_crypto_key w0) MSG_DATA pkt (u64 n) nonce) (snap_real_addr sn) ::
                   MSeq n :: map MSeq ns ++ m) s' -> K tt s') ->
  wp (data_forward (RouteUnicast sn) (pkt ++ rest) (zlen pkt) dst_ip) K s.
Proof.
  intros Hb Hm (nm & Hnm & _) H0 Hs HK. pose proof (zlen_nonneg pkt). pose proof (zlen_nonneg rest). unfold data_forward.
  apply wp_bind. eapply (wp_mute J); [apply alloc_pkt; typeclasses eauto|apply mute_alloc|exact Hs|].
  intros buf s1 Hs1 [Hbuf _]. apply wp_bind.
  eapply (wp_counts J _ _ 1 _ _ _ (1 + k)); [apply safe_build_data; [typeclasses eauto|done|done|rewrite zlen_app; lia|clia]
    |now apply acct_build|apply counts_build; destruct Hbuf; clia|lia|replace (1 + (1 + k)) with (2 + k) by lia; exact Hs1|].
  intros [len buf1] s2 ns Hs2 HB Hlen Hns. unfold zlen in HB at 1. rewrite Nat2Z.id, take_app_length in HB.
  destruct (built_sendable _ _ _ _ HB Hbuf Hlen Hm) as (Hc & Hl & Hb1). cbn [fst snd] in *.
  apply wp_bind. eapply (wp_net_send_datagram J); [apply server_free|exact Hc|exact Hm|exact Hl|exact Hb1|exact H0|exact Hs2|].
  intros r s4 n nonce Hn Hnl _ _ Hnb Hs4. destruct (r <? 0); eapply (wp_mute J);
    [logging|apply mute_LOG|exact Hs4| |apply safe_add_bytes_out|apply mute_bytes_out|exact Hs4|];
    intros [] s' Hs' _; now apply (HK s' n nonce ns).
Qed.

(** A packet of a registered peer to a registered peer. *)
Lemma wp_handle_unicast pkt rest from i p j x w0 k m s (K : unit -> srv_state -> Prop) :
  bytes_ok (pkt ++ rest) -> lan_packet pkt (zlen pkt) -> zlen pkt <= TUND_MAX_PLAINTEXT ->
  registered (srv s) from i p -> virt_ip p = htonl (ip_src pkt) ->
  routing (srv s) !! j = Some (Some x) -> x.1 = htonl (ip_dst pkt) -> 0 <= k -> stage J w0 (2 + k) m s ->
  (forall s' n nonce ns, (length ns <= 1)%nat -> u64 n <> 0 -> length nonce = 24%nat -> bytes_ok nonce ->
     stage J w0 k (MSent (wire_bytes (g_crypto_key w0) MSG_DATA pkt (u64 n) nonce) x.2 :: MSeq n :: map MSeq ns ++ m) s' ->
     K tt s') ->
  wp (server_handle_data (pkt ++ rest) (zlen pkt) from) K s.
Proof.
  intros Hb Hlan Hm Hreg Hsrc Hj Hx H0 Hs HK. pose proof (lan_min _ _ Hlan) as H20. pose proof (zlen_nonneg rest).
  destruct (head_fields pkt rest H20) as (_ & _ & _ & E4 & E5).
  assert (Hlan' : lan_packet (pkt ++ rest) (zlen pkt)) by now apply lan_packet_app.
  unfold server_handle_data. rewrite validate_verdict by (done || rewrite zlen_app; lia). cbn [local bind].
  rewrite (proj2 (verdict_ok (pkt ++ rest) (zlen pkt)) Hlan'). cbn [negb TUND_IPV4_OK Z.eqb].
  destruct (get_src_spec (pkt ++ rest) (zlen pkt)) as (src & -> & Hs'); [rewrite zlen_app; lia|].
  destruct (get_dst_spec (pkt ++ rest) (zlen pkt)) as (dst & -> & Hd'); [rewrite zlen_app; lia|]. cbn [local bind].
  rewrite le_field_htonl in Hs', Hd' by (done || rewrite length_app; unfold zlen in *; lia). subst src dst.
  fold (ip_src (pkt ++ rest)) (ip_dst (pkt ++ rest)). rewrite E4, E5. apply wp_bind.
  eapply (wp_section _ (fun v v' route => data_outcome v from (htonl (ip_src pkt)) (htonl (ip_dst pkt)) route));
    [|apply mute_data_locked|exact Hs|].
  { intros HI. eapply wp_mono; [now apply (data_section (fun _ => True) (fun _ => True))|].
    intros route s1 (v' & Hin & Hv' & _ & HO). eauto. }
  intros route s1 Hs1 _ HO.
  destruct (unicast_route (srv s) from i p j x pkt route) as (sn & -> & Hsn & [_ Hof]); auto; [apply Hs|].
  eapply wp_unicast; [exact Hb|exact Hm|exact Hsn|exact H0|exact Hs1|]. now rewrite Hof.
Qed.
End server.

(** * Loops that hear of a datagram *)

Section hear.
Context `{M : Monocypher} {ML : MonocypherLaws M} {S : Type} `{HW : HasWorld S}.
Context (J : S -> Prop) {F : Framed J}.

(** The loop is about to poll, with [n] answers of the system before
    [recvfrom]. *)
Definition due (n : nat) (wire : bytes) (from : sockaddr_in) (s : S) : Prop :=
  env_recvfrom (w_env (get_world s)) (n + w_tick (get_world s)) TUND_MAX_PKT = RecvData wire from.

Lemma stage_tick w0 k m s : stage J w0 k m s -> stage J w0 k m (set_world (tick (get_world s)) s).
Proof.
  intros ([Hw HJ] & HL & Hk & He & Hm). unfold stage, inv. rewrite get_set_world.
  split; [split; [quiet|apply F; [done|quiet]]|]. split; [exact HL|done].
Qed.

Lemma due_tick n wire from s : due (Datatypes.S n) wire from s -> due n wire from (set_world (tick (get_world s)) s).
Proof.
  unfold due. rewrite get_set_world. cbn. now rewrite Nat.add_succ_r.
Qed.

Lemma wp_poll_ready peers tui np n wire from w0 k m s (K : Z * list tui_peer_t * option nat -> S -> Prop) :
  env_poll (w_env (get_world s)) (w_tick (get_world s)) = 1 ->
  due (Datatypes.S n) wire from s -> stage J w0 k m s ->
  (forall s', due n wire from s' -> stage J w0 k m s' -> K (1, tui, np) s') -> wp (net_poll_peers peers tui np) K s.
Proof.
  intros Hp Hd Hs HK. exists (1, tui, np), (set_world (tick (get_world s)) s).
  split; [|apply HK; [now apply due_tick|now apply stage_tick]].
  unfold net_poll_peers. rewrite run_bind. cbn. now rewrite Hp.
Qed.

Lemma wp_alloc_due n wire from w0 k m s (K : bytes -> S -> Prop) :
  due (Datatypes.S n) wire from s -> stage J w0 k m s ->
  (forall buf s', zlen buf = TUND_MAX_PKT -> bytes_ok buf -> due n wire from s' -> stage J w0 k m s' -> K buf s') ->
  wp (alloc TUND_MAX_PKT) K s.
Proof.
  intros Hd Hs HK. eexists _, (set_world (tick (get_world s)) s). split; [reflexivity|].
  apply HK; [| |now apply due_tick|now apply stage_tick].
  - unfold zlen. rewrite length_map, length_seq. clia.
  - apply Forall_map, Forall_true. intros. apply is_u8_mod.
Qed.
End hear.

Lemma transmitted_due {S} `{HW : HasWorld S} wire from w (s : S) :
  get_world s = transmit wire from w -> zlen wire <= TUND_MAX_PKT ->
  due 2 wire from s /\ env_poll (w_env (get_world s)) (w_tick (get_world s)) = 1.
Proof.
  intros E Hl. unfold due. rewrite E. cbn -[TUND_MAX_PKT]. rewrite Nat.eqb_refl.
  destruct (Z.leb_spec (zlen wire) TUND_MAX_PKT); [done|lia].
Qed.

(** From a table that is known to one that is well formed. *)
Lemma stage_still v w0 k m s :
  srv_ok v -> stage (still v (fun _ => True)) w0 k m s -> srv s = v /\ stage at_server w0 k m s.
Proof. intros Hv ([Hw [E _]] & Hs). split; [done|]. split; [|done]. split; [done|]. split; [now rewrite E|done]. Qed.

Section server_step.
Context `{M : Monocypher} {ML : MonocypherLaws M}.
Notation J := at_server.

Lemma registered_window v i p win from :
  registered v from i p -> registered (set_peers (<[i := set_replay win p]> (peers v)) (peer_count v + 0) v) from i (set_replay win p).
Proof.
  intros (Hp & Ha & He). split; [|done]. cbn. apply list_lookup_insert_eq. now apply lookup_lt_Some in Hp.
Qed.

(** A fresh DATA message of a registered peer. *)
Lemma wp_server_data pkt rest n nonce from i p j x w0 k m s (K : unit -> srv_state -> Prop) :
  bytes_ok (pkt ++ rest) -> lan_packet pkt (zlen pkt) -> zlen pkt <= TUND_MAX_PLAINTEXT ->
  1 <= n < 2 ^ 64 -> length nonce = 24%nat -> (proto_replay_accept (replay p) n).1 = true ->
  registered (srv s) from i p -> virt_ip p = htonl (ip_src pkt) ->
  routing (srv s) !! j = Some (Some x) -> x.1 = htonl (ip_dst pkt) -> 0 <= k -> stage J w0 (2 + k) m s ->
  (forall s' n nonce ns, (length ns <= 1)%nat -> u64 n <> 0 -> length nonce = 24%nat -> bytes_ok nonce ->
     stage J w0 k (MSent (wire_bytes (g_crypto_key w0) MSG_DATA pkt (u64 n) nonce) x.2 :: MSeq n :: map MSeq ns ++ m) s' ->
     K tt s') ->
  wp (server_handle_packet (hdr_bytes MSG_DATA (zlen pkt) n nonce ++ pkt ++ rest) (TUND_HDR_SIZE + zlen pkt) from) K s.
Proof.
  intros Hb Hlan Hm Hn Hnl Hacc Hreg Hsrc Hj Hx H0 Hs HK. pose proof (zlen_nonneg pkt). unfold server_handle_packet.
  rewrite read_hdr_at by (done || clia). cbn [local bind].
  destruct (Z.ltb_spec (TUND_HDR_SIZE + zlen pkt) (TUND_HDR_SIZE + zlen pkt)); [lia|].
  rewrite read_sequence_at by done. cbn [local bind]. change (MSG_DATA =? MSG_REGISTER) with false. cbn [negb].
  rewrite ptr_app by (now rewrite zlen_hdr). apply wp_bind. unfold server_accept_registered_sequence. apply wp_bind.
  eapply (wp_section _ (fun v v' '(_, ok, nm) => printable nm /\ replay_result v v' from n ok)); [| |exact Hs|].
  { intros HI. eapply wp_mono; [now apply (accept_section (fun _ => True) (fun _ => True) s from n HI); words; lia|].
    intros [[known ok] nm] s1 HH. exact HH. }
  { mute. }
  intros [[known ok] nm] s1 Hs1 Hv1 (_ & HR & Hcase).
  destruct Hcase as [(Hun & _)|(i' & p' & Hreg' & -> & Ev)]; [now apply registered_known in Hreg|].
  destruct (registered_unique _ _ _ _ _ _ (proj1 (proj2 (proj1 Hs))) Hreg Hreg') as [<- <-]. rewrite Hacc.
  rewrite andb_false_r. cbn [bind]. apply wp_ret.
  eapply wp_handle_unicast with (p := set_replay (proto_replay_accept (replay p) n).2 p);
    [exact Hb|exact Hlan|exact Hm|rewrite Ev; now apply registered_window|exact Hsrc|rewrite HR; exact Hj|exact Hx|exact H0|exact Hs1|exact HK].
Qed.

(** One iteration of the server's loop. *)
Lemma server_forwards_datagram (s : srv_state) (pkt wire : bytes) (w : world) (from d : sockaddr_in) (i j : nat) (p : peer_t)
    (x : Z * sockaddr_in) (w' : world) :
  ready s -> entropy_ok (w_env (srv_world s)) -> zlen (issued (w_trace (srv_world s))) + 2 < 2 ^ 62 ->
  g_running (srv_world s) = true -> g_crypto_key (srv_world s) = g_crypto_key w -> addr_ok from ->
  bytes_ok pkt -> lan_packet pkt (zlen pkt) -> zlen pkt <= TUND_MAX_PLAINTEXT ->
  just_sent w w' MSG_DATA pkt d wire -> follows (replay p) w ->
  registered (srv s) from i p -> virt_ip p = htonl (ip_src pkt) ->
  routing (srv s) !! j = Some (Some x) -> x.1 = htonl (ip_dst pkt) ->
  exists wire' s', run (server_run 0) (in_server (transmit wire from) s) = Some (Continue 0, s') /\
    just_sent (srv_world s) (srv_world s') MSG_DATA pkt x.2 wire'.
Proof.
  intros [Hw Hv] He Hi Hrun Hkey Ha Hb Hlan Hm (n & nonce & -> & Hn & Hnl & Hnb & _ & _ & Hwin) Hf Hreg Hsrc Hj Hx.
  rewrite <- Hkey. set (wire := wire_bytes _ _ _ _ _). set (s0 := in_server _ s). pose proof (zlen_nonneg pkt).
  assert (Hwl : zlen wire = TUND_HDR_SIZE + zlen pkt + TUND_AUTH_TAG_SIZE) by now apply zlen_wire.
  assert (Ht : is_u8 MSG_DATA) by (words; unfold MSG_DATA; lia).
  assert (Hwb : bytes_ok wire) by now apply wire_ok.
  destruct (transmitted_due wire from (srv_world s) s0) as [Hdue Hpoll]; [reflexivity|clia|].
  assert (H0 : stage (still (srv s) (fun _ => True)) (get_world s0) (2 + 0) [] s0).
  { apply stage_start; [|done|lia|done]. split; [now apply transmit_ok|done]. }
  assert (Hwp : wp (server_run 0) (fun c s' => c = Continue 0 /\
      exists wire', just_sent (get_world s0) (get_world s') MSG_DATA pkt x.2 wire') s0).
  { unfold server_run. apply wp_bind. exists true, s0. split; [cbn; rewrite Hrun; now destruct s|]. cbn [negb].
    apply wp_bind. eapply wp_poll_ready; [typeclasses eauto|exact Hpoll|exact Hdue|exact H0|]. intros s1 Hd1 Hs1.
    change (1 <? 0) with false. change (1 =? 0) with false. cbn iota.
    apply wp_bind. eapply wp_alloc_due; [typeclasses eauto|exact Hd1|exact Hs1|]. intros buf s2 Hbl Hbb Hd2 Hs2.
    apply wp_bind. eapply wp_net_recv_datagram with (n := n) (nonce := nonce) (wire := wire) (w0 := get_world s0);
      [typeclasses eauto|reflexivity|exact Ht|exact Hnl|exact Hnb|exact Hb|exact Hm|words; lia|exact Hbb|exact Hbl|exact Hd2|exact Hs2|].
    intros rest s3 Hs3 Hrb. destruct (Z.ltb_spec 0 (TUND_HDR_SIZE + zlen pkt)); [|clia]. apply wp_bind.
    destruct (stage_still _ _ _ _ _ Hv Hs3) as [Es Hs3'].
    eapply (wp_server_data pkt rest n nonce from i p j x); rewrite ?Es;
      [apply bytes_ok_app; auto|exact Hlan|exact Hm|exact Hn|exact Hnl|now apply Hwin|exact Hreg|exact Hsrc|exact Hj|exact Hx| |exact Hs3'|]; [lia|].
    intros s' n' nonce' ns Hns Hn' Hnl' Hnb' Hs'. apply wp_ret. split; [done|].
    rewrite app_nil_r in Hs'. now apply (stage_just_sent _ _ _ _ _ _ _ _ _ _ Hs'). }
  destruct Hwp as (c & s' & Hr & -> & wire' & Hjs). exists wire', s'. split; [exact Hr|exact Hjs].
Qed.
End server_step.

(** * The receiver *)

Lemma mute_mark_seen : mute client_mark_server_seen.
Proof. unfold client_mark_server_seen. mute. Qed.

Lemma mute_accept n : mute (accept_from_server n).
Proof. unfold accept_from_server. mute. Qed.

Lemma stage_holds c w0 k m s :
  cli_ok c -> stage (holds (fun c' => c' = c) (fun _ => True)) w0 k m s ->
  cli s = c /\ stage (at_client (cli_server_addr c)) w0 k m s.
Proof.
  intros Hc ([Hw [E _]] & Hs). split; [done|]. split; [|done]. split; [done|]. split; [now rewrite E|]. now rewrite E.
Qed.

Section receiver.
Context `{M : Monocypher} {ML : MonocypherLaws M} (addr : sockaddr_in).
Notation J := (at_client addr).

(** A valid packet is handed to the device. *)
Lemma wp_client_data pkt rest w0 k m s (K : unit -> cli_state -> Prop) :
  bytes_ok (pkt ++ rest) -> lan_packet pkt (zlen pkt) -> stage J w0 k m s ->
  (forall s', stage J w0 k (MTun pkt :: m) s' -> K tt s') -> wp (client_handle_data (pkt ++ rest) (zlen pkt)) K s.
Proof.
  intros Hb Hlan Hs HK. pose proof (lan_min _ _ Hlan) as H20. pose proof (zlen_nonneg rest). unfold client_handle_data.
  assert (Hlan' : lan_packet (pkt ++ rest) (zlen pkt)) by now apply lan_packet_app.
  rewrite validate_verdict by (done || rewrite zlen_app; lia). cbn [local bind].
  rewrite (proj2 (verdict_ok (pkt ++ rest) (zlen pkt)) Hlan'). cbn [negb TUND_IPV4_OK Z.eqb].
  destruct (get_src_spec (pkt ++ rest) (zlen pkt)) as (src & -> & _); [rewrite zlen_app; lia|]. cbn [local bind].
  apply wp_bind. eapply (wp_mute J); [apply safe_add_peer_traffic; typeclasses eauto|apply mute_peer_traffic|exact Hs|].
  intros _ s1 Hs1 _. rewrite (mem_read_at _ [] pkt rest) by done. cbn [local bind].
  apply wp_bind. eapply (wp_tun_write J); [apply client_free|exact Hs1|]. intros r s2 Hs2. apply wp_ret. now apply HK.
Qed.

Lemma wp_server_message pkt rest n nonce w0 k m s (K : unit -> cli_state -> Prop) :
  bytes_ok (pkt ++ rest) -> lan_packet pkt (zlen pkt) -> zlen pkt <= TUND_MAX_PLAINTEXT ->
  1 <= n < 2 ^ 64 -> length nonce = 24%nat -> (proto_replay_accept (cli_server_replay (cli s)) n).1 = true ->
  stage J w0 k m s -> (forall s', stage J w0 k (MTun pkt :: m) s' -> K tt s') ->
  wp (client_handle_server_packet (hdr_bytes MSG_DATA (zlen pkt) n nonce ++ pkt ++ rest) (TUND_HDR_SIZE + zlen pkt)) K s.
Proof.
  intros Hb Hlan Hm Hn Hnl Hacc Hs HK. pose proof (zlen_nonneg pkt). unfold client_handle_server_packet.
  rewrite read_hdr_at by (done || clia). cbn [local bind].
  destruct (Z.ltb_spec (TUND_HDR_SIZE + zlen pkt) (TUND_HDR_SIZE + zlen pkt)); [lia|].
  rewrite read_sequence_at by done. cbn [local bind]. rewrite ptr_app by (now rewrite zlen_hdr).
  apply wp_bind. destruct (safe_run _ _ _ s (safe_accept addr (fun _ => True) n ltac:(words; lia)) (proj1 Hs))
    as (ok & s1 & Hr & HI1 & Hrel & _).
  assert (ok = true) as ->.
  { unfold accept_from_server in Hr. rewrite run_bind in Hr. cbn in Hr.
    destruct (proto_replay_accept _ n) as [ok' win]. cbn in Hr, Hacc. injection Hr as <- _. exact Hacc. }
  destruct (mute_accept n s true s1 Hr) as (E1 & E2 & E3). exists true, s1. split; [exact Hr|]. cbn [negb].
  assert (Hs1 : stage J w0 k m s1).
  { destruct Hs as (_ & HL & Hk & He & Hmk). split; [done|]. split; [unfold live; rewrite E2, E3; exact HL|].
    rewrite (step_key _ _ Hrel), E2, E1. done. }
  apply wp_bind. eapply (wp_mute J); [apply safe_mark_seen; typeclasses eauto|apply mute_mark_seen|exact Hs1|].
  intros _ s2 Hs2 _. change (MSG_DATA =? MSG_DATA) with true. cbn iota.
  eapply wp_client_data; [exact Hb|exact Hlan|exact Hs2|exact HK].
Qed.
End receiver.

(** One iteration of the client's loop. *)
Lemma client_takes_datagram `{M : Monocypher} {ML : MonocypherLaws M} (s : cli_state) (pkt wire : bytes) (w w' : world) (d : sockaddr_in) :
  client_ready s -> entropy_ok (w_env (cli_world s)) -> zlen (issued (w_trace (cli_world s))) + 2 < 2 ^ 62 ->
  g_running (cli_world s) = true -> g_crypto_key (cli_world s) = g_crypto_key w ->
  bytes_ok pkt -> lan_packet pkt (zlen pkt) -> zlen pkt <= TUND_MAX_PLAINTEXT ->
  just_sent w w' MSG_DATA pkt d wire -> follows (cli_server_replay (cli s)) w ->
  exists s', run (client_run 0) (in_client (transmit wire (cli_server_addr (cli s))) s) = Some (Continue 0, s') /\
    since (cli_world s) (cli_world s') = [MTun pkt].
Proof.
  intros [Hw Hc] He Hi Hrun Hkey Hb Hlan Hm (n & nonce & -> & Hn & Hnl & Hnb & _ & _ & Hwin) Hf.
  rewrite <- Hkey. set (wire := wire_bytes _ _ _ _ _). set (s0 := in_client _ s). pose proof (zlen_nonneg pkt). pose proof (ok_cli_addr _ Hc) as Ha.
  set (addr := cli_server_addr (cli s)) in *.
  assert (Hwl : zlen wire = TUND_HDR_SIZE + zlen pkt + TUND_AUTH_TAG_SIZE) by now apply zlen_wire.
  assert (Ht : is_u8 MSG_DATA) by (words; unfold MSG_DATA; lia).
  assert (Hwb : bytes_ok wire) by now apply wire_ok.
  destruct (transmitted_due wire addr (cli_world s) s0) as [Hdue Hpoll]; [reflexivity|clia|].
  assert (H0 : stage (holds (fun c => c = cli s) (fun _ => True)) (get_world s0) 0 [] s0).
  { apply stage_start; [|done|lia|cbn; lia]. split; [now apply transmit_ok|done]. }
  assert (Hwp : wp (client_run 0) (fun c s' => c = Continue 0 /\ since (get_world s0) (get_world s') = [MTun pkt]) s0).
  { unfold client_run. apply wp_bind. exists true, s0. split; [cbn; rewrite Hrun; now destruct s|]. cbn [negb].
    apply wp_bind. eapply wp_poll_ready; [typeclasses eauto|exact Hpoll|exact Hdue|exact H0|]. intros s1 Hd1 Hs1.
    change (1 <? 0) with false. change (1 =? 0) with false. cbn iota.
    apply wp_bind. eapply wp_alloc_due; [typeclasses eauto|exact Hd1|exact Hs1|]. intros buf s2 Hbl Hbb Hd2 Hs2.
    apply wp_bind. eapply wp_net_recv_datagram with (n := n) (nonce := nonce) (wire := wire) (w0 := get_world s0);
      [typeclasses eauto|reflexivity|exact Ht|exact Hnl|exact Hnb|exact Hb|exact Hm|words; lia|exact Hbb|exact Hbl|exact Hd2|exact Hs2|].
    intros rest s3 Hs3 Hrb. destruct (stage_holds _ _ _ _ _ Hc Hs3) as [Es Hs3']. fold addr in Hs3'.
    apply wp_bind. exists addr, s3. split; [cbn; now rewrite Es|].
    destruct (Z.leb_spec (TUND_HDR_SIZE + zlen pkt) 0); [clia|]. unfold net_addr_equal. rewrite !Z.eqb_refl. cbn [andb orb negb].
    apply wp_bind. eapply (wp_server_message addr pkt rest n nonce);
      [apply bytes_ok_app; auto|exact Hlan|exact Hm|exact Hn|exact Hnl|rewrite Es; now apply Hwin|exact Hs3'|].
    intros s' Hs'. apply wp_ret. split; [done|]. apply since_app. apply Hs'. }
  destruct Hwp as (c & s' & Hr & -> & Hsi). exists s'. split; [exact Hr|exact Hsi].
Qed.

(** * The tunnel *)

(** A process that runs, with a working entropy source and numbers left. *)
Record working (w : world) : Prop := {
  work_running : g_running w = true;
  work_entropy : entropy_ok (w_env w);
  work_numbers : zlen (issued (w_trace w)) + 2 < 2 ^ 62
}.

(** The client is known to the server under [addr], shares its key, and has
    been heard only with numbers it issued. *)
Record enrolled_at (a : cli_state) (addr : sockaddr_in) (v : srv_state) (i : nat) (p : peer_t) : Prop := {
  enr_key : g_crypto_key (srv_world v) = g_crypto_key (cli_world a);
  enr_slot : registered (srv v) addr i p;
  enr_window : follows (replay p) (cli_world a)
}.

(** C9: the tunnel works end to end.  When a client that is registered with the
    server reads from its TUN device a LAN packet from its own address to the
    address of another registered peer, and the network carries the datagrams,
    then it sends the server exactly one datagram, the server sends exactly one
    datagram, to that peer's endpoint, writing nothing to its own device, and
    the peer hands exactly this packet, byte for byte, to its TUN device and
    sends nothing.  Nothing is required of the sequence numbers but that each
    receiver has heard only numbers that the sender issued. *)
Theorem tunnel_delivers `{M : Monocypher} {ML : MonocypherLaws M} (a b : cli_state) (v : srv_state) (addr : sockaddr_in)
    (pkt : bytes) (i j : nat) (p : peer_t) (x : Z * sockaddr_in)
    (Ha : client_ready a) (Hv : ready v) (Hb : client_ready b)
    (Wa : working (cli_world a)) (Wv : working (srv_world v)) (Wb : working (cli_world b))
    (Hq : cli_tun_quit (cli a) = false) (Haddr : addr_ok addr)
    (Hpkt : bytes_ok pkt) (Hlan : lan_packet pkt (zlen pkt)) (Hmax : zlen pkt <= TUND_MAX_PLAINTEXT)
    (Henr : enrolled_at a addr v i p) (Hsrc : virt_ip p = htonl (ip_src pkt))
    (Hj : routing (srv v) !! j = Some (Some x)) (Hx : x.1 = htonl (ip_dst pkt))
    (Hkey : g_crypto_key (cli_world b) = g_crypto_key (srv_world v))
    (Hwin : follows (cli_server_replay (cli b)) (srv_world v)) :
  exists a' v' b', tunnel a addr v b pkt = Some (a', v', b') /\
    map snd (datagrams (since (cli_world a) (cli_world a'))) = [cli_server_addr (cli a)] /\
    map snd (datagrams (since (srv_world v) (srv_world v'))) = [x.2] /\
    packets (since (srv_world v) (srv_world v')) = [] /\
    since (cli_world b) (cli_world b') = [MTun pkt].
Proof.
  destruct Henr as [Hk Hreg Hf], Wa as [Ra Ea Na], Wv as [Rv Ev Nv], Wb as [Rb Eb Nb].
  destruct (client_sends_packet a pkt) as (wire & a' & Hr1 & Hj1); auto.
  destruct (server_forwards_datagram v pkt wire (cli_world a) addr (cli_server_addr (cli a)) i j p x (cli_world a'))
    as (wire' & v' & Hr2 & Hj2); auto.
  destruct (client_takes_datagram b pkt wire' (srv_world v) (srv_world v') x.2) as (b' & Hr3 & Hs3); auto.
  destruct Hj1 as (n1 & c1 & _ & _ & _ & _ & D1 & _ & _), Hj2 as (n2 & c2 & _ & _ & _ & _ & D2 & P2 & _).
  exists a', v', b'. unfold tunnel. rewrite Hr1, D1, Hr2, D2, Hr3. auto.
Qed.

(** Bob of [ServerSpec.v] as a client, and Alice, whom the server last heard
    with the number 70. *)
Definition bob_client : cli_state := CliState sample_world sample_client.

Definition alice_world : world :=
  World sample_env 0 71 (-1) true (replicate 32 7) LOG_LEVEL_INFO false true [EvSeq 70].

Definition alice_client : cli_state := CliState alice_world sample_client.

Lemma bob_client_ready : client_ready bob_client.
Proof. split; [exact sample_world_ok|exact sample_client_ok]. Qed.

Lemma alice_client_ready : client_ready alice_client.
Proof.
  split; [|exact sample_client_ok]. destruct sample_world_ok as (He & _ & Hk). split; [exact He|]. split; [|exact Hk].
  split; [words; cbn; lia|]. intros _. right. exists 70. repeat split; lia.
Qed.

Lemma alice_working : working alice_world.
Proof. split; [done|exact sample_entropy_ok|reflexivity]. Qed.

Lemma bob_working : working sample_world.
Proof. split; [done|exact sample_entropy_ok|reflexivity]. Qed.

Lemma sample_packet_bytes : bytes_ok sample_packet.
Proof. unfold sample_packet, bytes_ok. repeat (constructor; [words; lia|]). constructor. Qed.

Example tunnel_delivers_witness :
  exists a' v' b',
    tunnel (M := SampleCipher.sample) alice_client alice_addr sample_state bob_client sample_packet = Some (a', v', b') /\
    map snd (datagrams (since alice_world (cli_world a'))) = [cli_server_addr sample_client] /\
    map snd (datagrams (since sample_world (srv_world v'))) = [bob_addr] /\
    packets (since sample_world (srv_world v')) = [] /\
    since sample_world (cli_world b') = [MTun sample_packet].
Proof.
  apply (tunnel_delivers (M := SampleCipher.sample) alice_client bob_client sample_state alice_addr sample_packet 0 1 alice
    (virt_ip bob, bob_addr));
    [exact alice_client_ready|exact sample_ready|exact bob_client_ready|exact alice_working|exact bob_working|exact bob_working|reflexivity|exact addr_alice|exact sample_packet_bytes
    |split; vm_compute; (reflexivity || (split; congruence) || congruence)|vm_compute; discriminate
    |split; [reflexivity|repeat split|right; now left]|reflexivity|reflexivity|reflexivity|reflexivity|now left].
Defined.

(** The same run, evaluated. *)
Example tunnel_runs :
  match tunnel (M := SampleCipher.sample) alice_client alice_addr sample_state bob_client sample_packet with
  | Some (_, _, b') => since sample_world (cli_world b') = [MTun sample_packet]
  | None => False
  end.
Proof. vm_compute. reflexivity. Qed.
