(* ===== verification/ServerMessages.v ===== *)
(** The answers of the server, exactly: which messages a registration and a
    departure put on the wire, to whom and in which order, and the table they
    leave. *)
From stdpp Require Import base list numbers option.
From S2P Require Import Prelude Prog World Consts Sequence Wire Ipv4 Crypto Events Replay Peer Net Messages Boot Frame Delivery Chronicle Client ClientTable Tunnel ServerPeers Server ServerSpec.

(** * Sequences of messages *)

(** A message before encryption. *)
Record message_to : Type := To { to_type : Z; to_payload : bytes; to_dest : sockaddr_in }.

(** A datagram that carries the message. *)
Definition encrypts `{M : Monocypher} (key : bytes) (x : message_to) (d : bytes * sockaddr_in) : Prop :=
  d.2 = to_dest x /\ exists n nonce, 1 <= n < 2 ^ 64 /\ length nonce = 24%nat /\ bytes_ok nonce /\
    d.1 = wire_bytes key (to_type x) (to_payload x) n nonce.

(** These marks are exactly these messages, oldest first, and their numbers. *)
Definition told `{M : Monocypher} (key : bytes) (msgs : list message_to) (m : list mark) : Prop :=
  packets m = [] /\ Forall2 (encrypts key) msgs (datagrams m).

(** Between [w] and [w'] exactly these messages were sent, oldest first, and
    nothing was handed to the TUN device. *)
Definition sends `{M : Monocypher} (w w' : world) (msgs : list message_to) : Prop :=
  exists m, marks w' = m ++ marks w /\ told (g_crypto_key w) msgs m.

Lemma told_nil `{M : Monocypher} key : told key [] [].
Proof. split; [done|constructor]. Qed.

Lemma told_numbers `{M : Monocypher} key msgs ns m : told key msgs m -> told key msgs (map MSeq ns ++ m).
Proof.
  intros [Hp Hd]. assert (Hs : silent (map MSeq ns)) by (clear; induction ns; constructor; auto).
  apply silent_nothing in Hs as [H1 H2]. split; [now rewrite packets_app, H2, Hp|]. now rewrite datagrams_app, H1, app_nil_r.
Qed.

Lemma told_sent `{M : Monocypher} key msgs m n nonce type payload dest :
  told key msgs m -> u64 n <> 0 -> length nonce = 24%nat -> bytes_ok nonce ->
  told key (msgs ++ [To type payload dest]) (MSent (wire_bytes key type payload (u64 n) nonce) dest :: MSeq n :: m).
Proof.
  intros [Hp Hd] Hn Hl Hb. change (?a :: ?b :: m) with ([a; b] ++ m). split; [now rewrite packets_app, Hp|].
  rewrite datagrams_app. apply Forall2_app; [done|]. constructor; [|constructor]. split; [done|].
  exists (u64 n), nonce. split; [|done]. pose proof (Z.mod_pos_bound n (2 ^ 64)). words. lia.
Qed.

(** * Sending them *)

Section say.
Context `{M : Monocypher} {ML : MonocypherLaws M} (v : server_t) (w0 : world).
Notation J := (fun s => srv s = v).

#[local] Instance same_table_framed : Framed J.
Proof. now intros w s H _. Qed.

#[local] Instance same_table_free e : Permits J e.
Proof. now intros w s H _. Qed.

(** The messages so far, with room for [k] more numbers. *)
Definition saying (k : Z) (msgs : list message_to) (s : srv_state) : Prop :=
  exists m, stage J w0 k m s /\ told (g_crypto_key w0) msgs m.

Lemma saying_weaken k k' msgs s : k' <= k -> saying k msgs s -> saying k' msgs s.
Proof.
  intros Hk (m & (HI & HL & H1) & Ht). exists m. split; [|done]. split; [done|]. split; [|done]. now apply (live_weaken k).
Qed.

Lemma wp_saying_mute {A} (p : prog srv_state A) Q k msgs s (K : A -> srv_state -> Prop) :
  safe J p Q -> mute p -> saying k msgs s -> (forall a s', saying k msgs s' -> Q a -> K a s') -> wp p K s.
Proof.
  intros Hp Hm (m & Hs & Ht) HK. eapply (wp_mute J); [exact Hp|exact Hm|exact Hs|]. intros a s' Hs' HQ.
  apply HK; [now exists m|done].
Qed.

Lemma wp_saying_log level args k msgs s (K : unit -> srv_state -> Prop) :
  Forall (fun a => exists z, c_str a = Some z) args -> saying k msgs s ->
  (forall s', saying k msgs s' -> K tt s') -> wp (LOG level args) K s.
Proof.
  intros Ha Hs HK. eapply wp_saying_mute; [apply safe_LOG; [apply _|exact Ha]|apply mute_LOG|exact Hs|]. intros [] s' Hs' _. auto.
Qed.

(** What a builder leaves. *)
Definition letter (type : Z) (payload : bytes) (len : Z) (buf : bytes) : Prop :=
  carries buf len type payload /\ zlen payload <= TUND_MAX_PLAINTEXT /\ len <= zlen buf /\ bytes_ok buf.

Lemma built_letter type payload buf len buf1 :
  built type payload buf len buf1 -> pkt_buf buf -> len = TUND_HDR_SIZE + zlen payload -> zlen payload <= TUND_MAX_PLAINTEXT ->
  letter type payload len buf1.
Proof.
  intros HB Hbuf Hr Hm. split; [|split; [done|split; [now apply (built_length _ _ _ _ _ HB)|apply HB]]].
  pose proof (zlen_nonneg payload).
  destruct HB as (_ & _ & [E|(_ & Hz & sq & nc & rest & _ & Hnc & _ & ->)]); [clia|].
  split; [apply read_hdr_at; [clia|done]|]. split; [|lia].
  rewrite <- (length_hdr type (zlen payload) sq nc Hnc), drop_app_length.
  replace (Z.to_nat (len - TUND_HDR_SIZE)) with (length payload) by (rewrite Hr; zl). now rewrite take_app_length.
Qed.

Lemma wp_saying_build buf type plen payload code k msgs s (K : Z * bytes -> srv_state -> Prop) :
  pkt_buf buf -> zlen payload = plen -> plen <= TUND_MAX_PLAINTEXT -> 0 <= k ->
  safe J (build buf type plen code) (fun '(r, buf') => built type payload buf r buf') -> saying (1 + k) msgs s ->
  (forall len buf' s', pkt_buf buf' -> length buf' = length buf -> letter type payload len buf' -> saying k msgs s' -> K (len, buf') s') ->
  wp (build buf type plen code) K s.
Proof.
  intros Hbuf Hl Hm Hk Hsafe (m & Hs & Ht) HK.
  eapply (wp_counts J _ _ 1 _ _ _ k); [exact Hsafe|now apply acct_build|apply counts_build; destruct Hbuf; clia|done|exact Hs|].
  intros [len buf1] s1 ns Hs1 HB Hlen _. apply HK; [exact (built_pkt _ _ _ _ _ HB Hbuf)|apply HB| |].
  - subst plen. now apply (built_letter _ _ buf).
  - eexists. split; [exact Hs1|now apply told_numbers].
Qed.

Lemma wp_saying_send buf len dest type payload k msgs s (K : Z -> srv_state -> Prop) :
  letter type payload len buf -> 0 <= k -> saying (1 + k) msgs s ->
  (forall r s', saying k (msgs ++ [To type payload dest]) s' -> K r s') -> wp (net_send buf len dest) K s.
Proof.
  intros (Hc & Hm & Hl & Hb) Hk (m & Hs & Ht) HK.
  eapply (wp_net_send_datagram J); [apply _|exact Hc|exact Hm|exact Hl|exact Hb|exact Hk|exact Hs|].
  intros r s' n nonce Hn Hnl _ _ Hnb Hs'. apply HK. eexists. split; [exact Hs'|now apply told_sent].
Qed.

(** The same message to several destinations. *)
Lemma wp_saying_all {B} (dst : B -> sockaddr_in) (args : B -> list bytes) level buf len type payload k (l : list B) : forall msgs s (K : unit -> srv_state -> Prop),
  letter type payload len buf -> 0 <= k -> Forall (fun x => Forall (fun a => exists z, c_str a = Some z) (args x)) l ->
  saying (zlen l + k) msgs s ->
  (forall s', saying k (msgs ++ map (fun x => To type payload (dst x)) l) s' -> K tt s') ->
  wp (for_each l (fun x => let* r := net_send buf len (dst x) in if r <? 0 then LOG level (args x) else Ret tt)) K s.
Proof.
  induction l as [|x l IH]; intros msgs s K Hlet Hk HF Hs HK; cbn [for_each map] in *.
  - apply wp_ret, HK. now rewrite app_nil_r.
  - apply Forall_cons_iff in HF as [Hx HF]. rewrite zlen_cons in Hs. pose proof (zlen_nonneg l).
    assert (Hrest : forall s1, saying (zlen l + k) (msgs ++ [To type payload (dst x)]) s1 ->
      wp (for_each l (fun x => let* r := net_send buf len (dst x) in if r <? 0 then LOG level (args x) else Ret tt)) K s1).
    { intros s1 Hs1. eapply IH; [exact Hlet|exact Hk|exact HF|exact Hs1|]. intros s' Hs'. apply HK. now rewrite <- app_assoc in Hs'. }
    apply wp_bind, wp_bind. eapply wp_saying_send; [exact Hlet| |rewrite <- Z.add_assoc in Hs; exact Hs|]; [lia|].
    intros r s1 Hs1. destruct (r <? 0); [|now apply wp_ret, Hrest].
    eapply wp_saying_log; [exact Hx|exact Hs1|]. exact Hrest.
Qed.

(** * The peer list *)

Lemma prefix_letter type plen buf :
  take 5 buf = hdr_prefix type plen -> is_u8 type -> 0 <= plen <= TUND_MAX_PLAINTEXT ->
  TUND_HDR_SIZE + plen <= zlen buf -> bytes_ok buf ->
  letter type (take (Z.to_nat plen) (drop 37 buf)) (TUND_HDR_SIZE + plen) buf.
Proof.
  intros H5 Ht Hp Hl Hb. assert (Hz : zlen (take (Z.to_nat plen) (drop 37 buf)) = plen)
    by (unfold zlen in *; rewrite length_take, length_drop; clia).
  split; [|split; [lia|split; [done|done]]]. split; [|split; [|lia]].
  - rewrite Hz, <- (read_hdr_take 5 buf []) by clia. rewrite H5.
    change (hdr_prefix type plen) with (take 5 (hdr_bytes type plen 0 (replicate 24 0) ++ [])).
    rewrite read_hdr_take by (cbn; lia). apply read_hdr_at; [clia|done].
  - do 2 f_equal. lia.
Qed.

Lemma wp_saying_list buf es k msgs s (K : Z * bytes * Z -> srv_state -> Prop) :
  pkt_buf buf -> zlen buf = TUND_MAX_PKT -> Forall snap_ok es -> 0 <= k -> saying (1 + k) msgs s ->
  (forall len buf' count payload s', pkt_buf buf' -> peer_list_of es payload -> letter MSG_PEER_LIST payload len buf' ->
     saying k msgs s' -> K (len, buf', count) s') ->
  wp (build_peer_list_from_snapshot buf es) K s.
Proof.
  intros [Hb _] Hl Hes Hk (m & Hs & Ht) HK. unfold build_peer_list_from_snapshot.
  destruct (snaps_named es Hes) as [l' Hn].
  destruct (entries_written _ _ buf Hn Hb Hl) as (buf1 & -> & Hb1 & Hl1 & Hpay).
  rewrite length_map in *. set (n := Nat.min (length es) 43) in *. cbn [local bind].
  pose proof (Forall2_length Hn) as Hlen. rewrite length_map in Hlen.
  assert (Hu : u16 (TUND_PEER_ENTRY_SIZE * Z.of_nat n) = TUND_PEER_ENTRY_SIZE * Z.of_nat n)
    by (words; apply Z.mod_small; clia). rewrite Hu. apply wp_bind.
  eapply (wp_counts J _ _ 1 _ _ _ k);
    [apply safe_write_hdr; [apply _|done|words; unfold MSG_PEER_LIST; lia|clia|clia]|apply acct_write_hdr; clia
    |apply counts_write_hdr; clia|done|exact Hs|].
  intros [r buf2] s1 ns Hs1 (Hl2 & Hb2 & H5 & H37 & _) _ _. apply wp_ret.
  assert (Hz2 : zlen buf2 = TUND_MAX_PKT) by (unfold zlen in *; lia).
  assert (Hlet : letter MSG_PEER_LIST (entries_bytes (take 43 l')) (TUND_HDR_SIZE + TUND_PEER_ENTRY_SIZE * Z.of_nat n) buf2).
  { replace (entries_bytes (take 43 l')) with (take (Z.to_nat (TUND_PEER_ENTRY_SIZE * Z.of_nat n)) (drop 37 buf2)).
    - apply prefix_letter; [apply H5; clia|words; unfold MSG_PEER_LIST; lia|clia|clia|done].
    - rewrite H37, Hpay. f_equal. destruct (Nat.min_spec (length es) 43) as [[? Hm]|[? Hm]]; unfold n; rewrite Hm; [|done].
      rewrite !take_ge by lia. done. }
  apply (HK _ _ _ (entries_bytes (take 43 l'))); [split; [done|clia]|now exists l'|exact Hlet|].
  eexists. split; [exact Hs1|now apply told_numbers].
Qed.

(** * Registration *)

(** The answers to the result of a registration, in order: the assignment, and
    for a new peer the list of the others and its name to each of them. *)
Definition register_answers (res : register_result) (msgs : list message_to) : Prop :=
  match res with
  | RegAccepted vip nm addr es dests reconnect =>
      exists str payload, c_str nm = Some str /\ peer_list_of es payload /\
        msgs = To MSG_ASSIGN (assign_payload vip (htonl TUND_NETMASK) TUND_TUN_MTU) addr ::
          if reconnect then []
          else To MSG_PEER_LIST payload addr :: map (To MSG_PEER_JOIN (le_split 4 vip ++ name_field str)) dests
  | _ => msgs = []
  end.

Lemma mute_event_join nm vip endpoint : mute (S := srv_state) (app_event_peer_join nm vip endpoint).
Proof. unfold app_event_peer_join, puts. mute. Qed.

Lemma mute_event_leave vip reason : mute (S := srv_state) (app_event_peer_leave vip reason).
Proof. unfold app_event_peer_leave, puts. mute. Qed.

Lemma wp_register_reply from vip nm str addr es dests reconnect s :
  c_str nm = Some str -> bytes_ok str -> Forall snap_ok es -> saying (5 + zlen dests) [] s ->
  wp (register_reply from vip nm addr es dests reconnect)
    (fun _ s' => exists msgs, register_answers (RegAccepted vip nm addr es dests reconnect) msgs /\ saying 0 msgs s') s.
Proof.
  intros Hnm Hstr Hes Hs. pose proof (zlen_nonneg dests). unfold register_reply.
  destruct (snaps_named es Hes) as [l' Hl'].
  apply wp_bind. eapply wp_saying_mute; [apply alloc_pkt; apply _|apply mute_alloc|exact Hs|]. clear s Hs. intros buf s Hs [Hp Hpl].
  apply wp_bind. eapply (wp_saying_build buf MSG_ASSIGN 10 (assign_payload vip (htonl TUND_NETMASK) TUND_TUN_MTU) _ (4 + zlen dests));
    [exact Hp|reflexivity|clia|lia|apply safe_build_assign; [apply _|done]|replace (1 + (4 + zlen dests)) with (5 + zlen dests) by lia; exact Hs|].
  clear s Hs. intros len buf1 s Hp1 Hl1 Hlet Hs.
  apply wp_bind. eapply (wp_saying_send _ _ _ _ _ (3 + zlen dests)); [exact Hlet|lia|replace (1 + (3 + zlen dests)) with (4 + zlen dests) by lia; exact Hs|].
  clear s Hs. intros r s Hs. cbn [app] in Hs. set (assign := To _ _ addr) in Hs.
  apply wp_bind. eapply (wp_saying_mute _ (fun _ => True)); [|destruct (r <? 0); mute|exact Hs|].
  { destruct (r <? 0); [apply safe_LOG; [apply _|]|done]. repeat constructor; [|eauto]. destruct reconnect; apply terminated_app. }
  clear s Hs. intros _ s Hs _. destruct reconnect.
  { eapply wp_saying_log; [repeat constructor; eauto|exact Hs|]. intros s' Hs'. exists [assign].
    split; [|apply (saying_weaken (3 + zlen dests)); [lia|done]]. exists str, (entries_bytes (take 43 l')). split; [done|]. split; [now exists l'|done]. }
  apply wp_bind. eapply wp_saying_log; [repeat constructor; eauto using ip_terminated|exact Hs|]. clear s Hs. intros s Hs.
  apply wp_bind. eapply wp_saying_mute; [now apply (safe_event_join _ _ str)|apply mute_event_join|exact Hs|]. clear s Hs. intros _ s Hs _.
  apply wp_bind. eapply (wp_saying_list _ _ (2 + zlen dests)); [exact Hp1|unfold zlen in *; lia|exact Hes|lia|replace (1 + (2 + zlen dests)) with (3 + zlen dests) by lia; exact Hs|].
  clear s Hs. intros len2 buf2 count payload s Hp2 Hof Hlet2 Hs.
  apply wp_bind. eapply (wp_saying_send _ _ _ _ _ (1 + zlen dests)); [exact Hlet2|lia|replace (1 + (1 + zlen dests)) with (2 + zlen dests) by lia; exact Hs|].
  clear s Hs. intros r2 s Hs. cbn [app] in Hs.
  apply wp_bind. eapply (wp_saying_mute _ (fun _ => True)); [|destruct (r2 <? 0); mute|exact Hs|].
  { destruct (r2 <? 0); (apply safe_LOG; [apply _|repeat constructor; eauto]). }
  clear s Hs. intros _ s Hs _.
  apply wp_bind. eapply (wp_saying_build buf2 MSG_PEER_JOIN (4 + TUND_NAME_LEN) (le_split 4 vip ++ name_field str) _ (zlen dests));
    [exact Hp2|rewrite zlen_app; unfold zlen; now rewrite length_name_field|clia|lia|now apply safe_build_peer_join; [apply _|..]|exact Hs|].
  clear s Hs. intros len3 buf3 s Hp3 _ Hlet3 Hs.
  eapply (wp_saying_all (fun d => d) (fun _ => [nm]) _ _ _ _ _ 0); [exact Hlet3|lia|apply Forall_true; intros d; printable; eauto|rewrite Z.add_0_r; exact Hs|].
  intros s' Hs'. eexists. split; [|exact Hs']. exists str, payload. do 2 (split; [done|]). reflexivity.
Qed.

(** * Departure *)

Lemma wp_disconnect_notify vip l s :
  Forall snap_ok l -> saying (1 + zlen l) [] s ->
  wp (disconnect_notify (Some (vip, l)))
    (fun _ s' => saying 0 (map (fun sn => To MSG_PEER_LEAVE (le_split 4 vip) (snap_real_addr sn)) l) s') s.
Proof.
  intros Hl Hs. pose proof (zlen_nonneg l). unfold disconnect_notify.
  apply wp_bind. eapply wp_saying_mute; [apply alloc_pkt; apply _|apply mute_alloc|exact Hs|]. clear s Hs. intros buf s Hs [Hp _].
  apply wp_bind. eapply (wp_saying_build buf MSG_PEER_LEAVE 4 (le_split 4 vip) _ (zlen l));
    [exact Hp|reflexivity|clia|lia|apply safe_build_peer_leave; [apply _|done]|exact Hs|].
  clear s Hs. intros len buf1 s _ _ Hlet Hs. apply wp_bind.
  eapply (wp_saying_all snap_real_addr (fun sn => [snap_name sn; ip_to_str_buf (snap_virt_ip sn)]) _ _ _ _ _ 0);
    [exact Hlet|lia| |rewrite Z.add_0_r; exact Hs|].
  { eapply Forall_impl; [|exact Hl]. intros sn (nm & Hnm & _). printable; eauto. }
  clear s Hs. intros s Hs. eapply wp_saying_mute; [apply safe_event_leave; apply _|apply mute_event_leave|exact Hs|]. now intros _ s' Hs' _.
Qed.
End say.

(** * The table stays as the critical section left it *)

#[export] Instance srv_free : WorldFree srv.
Proof. done. Qed.

Section keeps.
Context `{M : Monocypher}.
#[local] Hint Resolve steady_write_hdr : frame.

Lemma keeps_reply from vip nm addr es dests reconnect :
  always (steady srv) (register_reply from vip nm addr es dests reconnect).
Proof. unfold register_reply, build_peer_list_from_snapshot, proto_build_assign, proto_build_peer_join. frame. Qed.

Lemma keeps_leave res : always (steady srv) (disconnect_notify res).
Proof.
  unfold disconnect_notify, server_send_peer_snapshots, server_add_peer_bytes_out, proto_build_peer_leave. cbn [Z.eqb]. frame.
Qed.
End keeps.

Lemma others_counted R : forall i exclude, (length (others R i exclude) <= length R)%nat.
Proof.
  induction R as [|[x|] R IH]; intros i exclude; cbn [others length]; [lia|destruct (_ =? _)|]; cbn [length];
    specialize (IH (i + 1) exclude); lia.
Qed.

Lemma mute_register_locked payload plen from sequence : mute (register_locked payload plen from sequence).
Proof. unfold register_locked. mute. Qed.

Lemma mute_disconnect_locked from : mute (disconnect_locked from).
Proof. unfold disconnect_locked. mute. Qed.

(** After a critical section without marks, nothing has been said. *)
Lemma saying_start `{M : Monocypher} {ML : MonocypherLaws M} {A} (p : prog srv_state A) s a s1 k :
  ready s -> mute p -> run p s = Some (a, s1) -> ready s1 -> rel s s1 ->
  entropy_ok (w_env (srv_world s)) -> 0 <= k -> zlen (issued (w_trace (srv_world s))) + k < 2 ^ 62 ->
  saying (srv s1) (srv_world s) k [] s1.
Proof.
  intros [Hw _] Hm Hr [Hw1 _] Hk He H0 Hi. destruct (Hm _ _ _ Hr) as (E1 & E2 & E3). cbn in E1, E2, E3.
  exists []. split; [|apply told_nil]. split; [now split|]. split.
  - pose proof (live_start k _ Hw He H0 Hi) as HL. unfold live. cbn. rewrite E2, E3. exact HL.
  - cbn. rewrite E1, E2. split; [exact (step_key _ _ Hk)|done].
Qed.

Lemma saying_sends `{M : Monocypher} v w k msgs s : saying v w k msgs s -> sends w (srv_world s) msgs.
Proof. intros (m & (_ & _ & _ & _ & Hm) & Ht). now exists m. Qed.

(** * Properties *)

(** C6: a REGISTER datagram has exactly one of four outcomes, which determine
    the whole table: replayed ones from a known endpoint change nothing; fresh
    ones from a known endpoint refresh that peer's replay window and last
    contact and nothing else; a new endpoint gets a free slot, the smallest
    free address, the name it asked for, the current time and a replay window
    that has seen this very sequence number, and the count grows by one; it is
    turned away only when all 253 slots are taken.  Nothing is sent but the
    assignment and, for a new peer, the peer list and the announcements to the
    peers already there; and when the entropy source works and sequence numbers
    are left, exactly these are sent, in this order: ASSIGN to the peer, then
    for a new one PEER_LIST to it and one PEER_JOIN to each other peer. *)
Theorem server_register_outcomes `{M : Monocypher} {ML : MonocypherLaws M}
    (s : srv_state) (payload : bytes) (plen sequence : Z) (from : sockaddr_in)
    (Hs : ready s) (Hsq : is_u64 sequence) (Hf : addr_ok from) (Hb : bytes_ok payload)
    (Hp : 0 <= plen <= zlen payload) :
  exists res s', run (server_handle_register payload plen from sequence) s = Some (tt, s') /\
    register_outcome (srv s) (srv s') from payload plen sequence (clock s) res /\
    after s (register_messages (g_crypto_key (srv_world s)) res) (routing (srv s')) s' /\
    (entropy_ok (w_env (srv_world s)) -> zlen (issued (w_trace (srv_world s))) + 258 < 2 ^ 62 ->
     exists msgs, register_answers res msgs /\ sends (srv_world s) (srv_world s') msgs).
Proof.
  destruct (register_runs s payload plen sequence from Hs Hsq Hf Hb Hp) as (res & s1 & s' & Hr & Hr' & Hs1 & Hrel & HO & Ha).
  assert (Ev : srv s' = srv s1).
  { destruct res as [nm|full|vip nm addr es dests rc].
    1,2: exact (steady_part _ _ _ (always_run _ _ _ _ _ (steady_LOG srv _ _) Hr')).
    exact (steady_part _ _ _ (always_run _ _ _ _ _ (keeps_reply _ _ _ _ _ _ _) Hr')). }
  exists res, s'. rewrite Ev. split; [unfold server_handle_register, locked; rewrite run_bind; cbn [run atomic]; now rewrite Hr|].
  split; [done|]. split; [done|]. intros He Hi.
  assert (Hquiet : forall level args, run (LOG level args) s1 = Some (tt, s') -> sends (srv_world s) (srv_world s') []).
  { intros level args Hl. exists []. split; [|apply told_nil].
    destruct (mute_LOG _ _ _ _ _ Hl) as [E1 _], (mute_register_locked _ _ _ _ _ _ _ Hr) as [E2 _]. exact (eq_trans E1 E2). }
  destruct res as [nm|full|vip nm addr es dests rc]; [exists []; split; [done|]; eapply Hquiet; exact Hr'..|].
  assert (Hacc : (printable nm /\ Forall snap_ok es) /\ zlen dests <= 253).
  { pose proof (ok_slots _ (ok_routes _ (proj2 Hs1))) as HR. inversion HO; subst; [split; [done|rewrite zlen_nil; lia]|].
    split; [done|]. unfold zlen. rewrite length_map. pose proof (others_counted (routing (srv s1)) 0 (Z.of_nat i)). lia. }
  destruct Hacc as [[(str & Hstr & Hsb) Hes] Hd].
  destruct (wp_register_reply (srv s1) (srv_world s) from vip nm str addr es dests rc s1) as ([] & s2 & Hr2 & msgs & Hans & Hsay); auto.
  { apply (saying_start (register_locked payload plen from sequence) s (RegAccepted vip nm addr es dests rc));
      auto using mute_register_locked; pose proof (zlen_nonneg dests); lia. }
  rewrite Hr' in Hr2. injection Hr2 as <-. exists msgs. split; [done|]. exact (saying_sends _ _ _ _ _ Hsay).
Qed.

Example server_register_outcomes_witness :
  option_map (fun x => (peer_count (srv x.2), map snd (datagrams (since sample_world (srv_world x.2)))))
    (run (server_handle_register (M := SampleCipher.sample) (str "carol") 5 carol_addr 12) sample_state) =
    Some (3, [carol_addr; carol_addr; alice_addr; bob_addr]) /\
  exists res s',
    run (server_handle_register (M := SampleCipher.sample) (str "carol") 5 carol_addr 12) sample_state = Some (tt, s') /\
    register_outcome sample_server (srv s') carol_addr (str "carol") 5 12 (clock sample_state) res /\
    after sample_state (register_messages (M := SampleCipher.sample) (replicate 32 7) res) (routing (srv s')) s' /\
    (entropy_ok sample_env -> 0 + 258 < 2 ^ 62 ->
     exists msgs, register_answers res msgs /\ sends (M := SampleCipher.sample) sample_world (srv_world s') msgs).
Proof.
  split; [vm_compute; reflexivity|].
  apply (server_register_outcomes (M := SampleCipher.sample) sample_state (str "carol") 5 12 carol_addr);
    [exact sample_ready|words; lia|repeat split; vm_compute; congruence|repeat constructor; words; cbn; lia
    |vm_compute; split; discriminate].
Defined.

(** C36: DISCONNECT from an endpoint that is not registered changes nothing and
    sends nothing; from a registered one it marks exactly that peer's slot free
    and takes one off the count, and sends nothing but PEER_LEAVE with its
    address to remaining peers; when the entropy source works and sequence
    numbers are left, it sends exactly one PEER_LEAVE to each remaining peer, in
    the order of their slots. *)
Theorem server_disconnect_frees_slot `{M : Monocypher} {ML : MonocypherLaws M}
    (s : srv_state) (from : sockaddr_in) (Hs : ready s) :
  exists s', run (server_handle_disconnect from) s = Some (tt, s') /\
    ((unregistered (srv s) from /\ srv s' = srv s /\ after s (fun _ => False) (routing (srv s)) s' /\
      sends (srv_world s) (srv_world s') []) \/
     exists i p, registered (srv s) from i p /\
       srv s' = set_peers (<[i := set_active false p]> (peers (srv s))) (peer_count (srv s) - 1) (srv s) /\
       let R' := <[i := None]> (routing (srv s)) in
       after s (leave_messages (g_crypto_key (srv_world s)) R' (virt_ip p)) R' s' /\
       (entropy_ok (w_env (srv_world s)) -> zlen (issued (w_trace (srv_world s))) + 254 < 2 ^ 62 ->
        sends (srv_world s) (srv_world s')
          (map (fun x => To MSG_PEER_LEAVE (le_split 4 (virt_ip p)) x.2) (others R' 0 (-1))))).
Proof.
  destruct (disconnect_runs s from Hs) as (res & s1 & s' & Hr & Hr' & Hs1 & Hrel & HO & Ha).
  pose proof (steady_part _ _ _ (always_run _ _ _ _ _ (keeps_leave res) Hr')) as Ev.
  exists s'. split; [unfold server_handle_disconnect, locked; rewrite run_bind; cbn [run atomic]; now rewrite Hr|].
  destruct HO as [(-> & Hun & E1)|(i & p & l & Hreg & -> & E1 & HR & Hl & Hof)].
  - left. injection Hr' as <-. rewrite E1 in *. split; [done|]. split; [done|]. split; [done|]. exists []. split; [|apply told_nil].
    exact (proj1 (mute_disconnect_locked _ _ _ _ Hr)).
  - right. exists i, p. split; [done|]. split; [congruence|]. cbn zeta. rewrite <- HR. split; [done|]. intros He Hi.
    assert (Hn : zlen l <= 253).
    { unfold zlen. rewrite <- (Forall2_length Hof). pose proof (others_counted (routing (srv s1)) 0 (-1)).
      pose proof (ok_slots _ (ok_routes _ (proj2 Hs1))). lia. }
    destruct (wp_disconnect_notify (srv s1) (srv_world s) (virt_ip p) l s1 Hl) as ([] & s2 & Hr2 & Hsay).
    { apply (saying_start (disconnect_locked from) s (Some (virt_ip p, l))); auto using mute_disconnect_locked;
        pose proof (zlen_nonneg l); lia. }
    rewrite Hr' in Hr2. injection Hr2 as <-. apply saying_sends in Hsay.
    replace (map (fun x => To MSG_PEER_LEAVE (le_split 4 (virt_ip p)) x.2) (others (routing (srv s1)) 0 (-1)))
      with (map (fun sn => To MSG_PEER_LEAVE (le_split 4 (virt_ip p)) (snap_real_addr sn)) l); [done|].
    clear -Hof. induction Hof as [|x sn R l [_ Hx] _ IH]; [done|]. cbn [map]. now rewrite IH, Hx.
Qed.

Example server_disconnect_frees_slot_witness :
  option_map (fun x => (peer_count (srv x.2), map snd (datagrams (since sample_world (srv_world x.2)))))
    (run (server_handle_disconnect (M := SampleCipher.sample) bob_addr) sample_state) = Some (1, [alice_addr]) /\
  exists s', run (server_handle_disconnect (M := SampleCipher.sample) bob_addr) sample_state = Some (tt, s') /\
    ((unregistered sample_server bob_addr /\ srv s' = sample_server /\ after sample_state (fun _ => False) (routing sample_server) s' /\
      sends (M := SampleCipher.sample) sample_world (srv_world s') []) \/
     exists i p, registered sample_server bob_addr i p /\
       srv s' = set_peers (<[i := set_active false p]> (peers sample_server)) (peer_count sample_server - 1) sample_server /\
       let R' := <[i := None]> (routing sample_server) in
       after sample_state (leave_messages (M := SampleCipher.sample) (replicate 32 7) R' (virt_ip p)) R' s' /\
       (entropy_ok sample_env -> 0 + 254 < 2 ^ 62 ->
        sends (M := SampleCipher.sample) sample_world (srv_world s')
          (map (fun x => To MSG_PEER_LEAVE (le_split 4 (virt_ip p)) x.2) (others R' 0 (-1))))).
Proof. split; [vm_compute; reflexivity|]. apply (server_disconnect_frees_slot (M := SampleCipher.sample) sample_state), sample_ready. Defined.
