(* ===== verification/Tui.v ===== *)
(** The terminal UI ([ui/events.c], [ui/render.c], [ui/tui.c]): the ring of
    recent events that threads write to under its lock, and the text of a
    frame.  The clock's readings and the conversion to local time are
    arguments; a frame is the list of bytes written to [stderr]. *)
From stdpp Require Import base list numbers option.
From S2P Require Import Prelude Prog World Consts Sequence Wire Events Replay Peer Boot.

(** * The ring of events *)

Definition TUI_MAX_EVENTS : Z := 7.
Definition TUI_EVENT_MESSAGE_LEN : Z := 128.
Definition TUI_EVENT_DISPLAY_LEN : Z := 57.

Record tui_event_t : Type := TuiEvent { ev_ts : Z; ev_level : Z; ev_message : bytes }.

(** The static variables of [events.c]. *)
Record tui_ring : Type := TuiRing {
  tui_events : list tui_event_t;
  tui_event_start : Z;
  tui_event_count : Z;
  ring_active : bool
}.

(** As the program is loaded. *)
Definition initial_ring : tui_ring :=
  TuiRing (replicate (Z.to_nat TUI_MAX_EVENTS) (TuiEvent 0 0 (replicate (Z.to_nat TUI_EVENT_MESSAGE_LEN) 0))) 0 0 false.

Definition tui_events_active (t : tui_ring) : bool := ring_active t.

Definition tui_events_start (t : tui_ring) : tui_ring := TuiRing (tui_events t) 0 0 true.

Definition tui_events_stop (t : tui_ring) : tui_ring :=
  TuiRing (tui_events t) (tui_event_start t) (tui_event_count t) false.

(** One slot: [None] outside of the array. *)
Definition slot (l : list tui_event_t) (idx : Z) : option tui_event_t :=
  if 0 <=? idx then l !! Z.to_nat idx else None.

(** The critical section of [tui_add_event]; [now] is what [time] returns. *)
Definition tui_add_event (now level : Z) (message : bytes) (t : tui_ring) : option tui_ring :=
  let idx := Z.rem (tui_event_start t + tui_event_count t) TUI_MAX_EVENTS in
  let '(idx, start, count) :=
    if tui_event_count t =? TUI_MAX_EVENTS
    then (tui_event_start t, Z.rem (tui_event_start t + 1) TUI_MAX_EVENTS, tui_event_count t)
    else (idx, tui_event_start t, tui_event_count t + 1) in
  let? e := slot (tui_events t) idx in
  let? text := snprintf_s (Z.to_nat TUI_EVENT_MESSAGE_LEN) message in
  let? msg := mem_write (ev_message e) 0 text in
  Some (TuiRing (<[Z.to_nat idx := TuiEvent now level msg]> (tui_events t)) start count (ring_active t)).

(** The copy that [tui_render_events] makes under the lock. *)
Fixpoint copy_events (n : nat) (t : tui_ring) (i : Z) : option (list tui_event_t) :=
  match n with
  | O => Some []
  | S n =>
      let? e := slot (tui_events t) (Z.rem (tui_event_start t + i) TUI_MAX_EVENTS) in
      let? l := copy_events n t (i + 1) in
      Some (e :: l)
  end.

Definition recent_events (t : tui_ring) : option (list tui_event_t) :=
  copy_events (Z.to_nat (tui_event_count t)) t 0.

(** What the copy into [buf] of [len] bytes leaves in it. *)
Definition tui_truncate_event (message buf : bytes) (len : Z) : option bytes :=
  let? s := c_str message in
  if zlen s <? len then
    let? text := snprintf_s (Z.to_nat len) message in mem_write buf 0 text
  else if len <? 4 then
    if 0 <? len then mem_write buf 0 [0] else Some buf
  else
    let? head := mem_read message 0 (len - 4) in
    let? buf := mem_write buf 0 head in
    mem_write buf (len - 4) (str "..." ++ [0]).

(** * Text *)

Definition esc (s : bytes) : bytes := 27 :: s.

Definition TUI_CLEAR : bytes := esc (str "[2J") ++ esc (str "[H").
Definition TUI_HOME : bytes := esc (str "[H").
Definition TUI_CLEAR_REST : bytes := esc (str "[J").
Definition TUI_HIDE_CURSOR : bytes := esc (str "[?25l").
Definition TUI_SHOW_CURSOR : bytes := esc (str "[?25h").
Definition TUI_ALT_BUF : bytes := esc (str "[?1049h").
Definition TUI_MAIN_BUF : bytes := esc (str "[?1049l").
Definition TUI_BOLD : bytes := esc (str "[1m").
Definition TUI_CYAN : bytes := esc (str "[36m").
Definition TUI_YELLOW : bytes := esc (str "[33m").
Definition TUI_GREEN : bytes := esc (str "[32m").
Definition TUI_RED : bytes := esc (str "[31m").
Definition TUI_GRAY : bytes := esc (str "[90m").
Definition TUI_RESET : bytes := esc (str "[0m").
Definition TUI_WIDTH : nat := 76.

(** [%-<n>s], [%<n>s]. *)
Definition pad_right (n : nat) (s : bytes) : bytes := s ++ replicate (n - length s) 32.
Definition pad_left (n : nat) (s : bytes) : bytes := replicate (n - length s) 32 ++ s.

(** [%d]. *)
Definition sdec (z : Z) : bytes := if z <? 0 then str "-" ++ dec (- z) else dec z.

(** [%02d]. *)
Definition two (z : Z) : bytes :=
  if z <? 0 then str "-" ++ dec (- z) else if z <? 10 then str "0" ++ dec z else dec z.

(** Conversion of a difference of times to [int]. *)
Definition i32 (z : Z) : Z := (z + 2 ^ 31) mod 2 ^ 32 - 2 ^ 31.

(** [snprintf] of a text into a local array of [n] bytes: the string there. *)
Definition fit (n : nat) (text : bytes) : bytes := take (n - 1) text.

Definition tui_rule : bytes :=
  str " " ++ TUI_GRAY ++ concat (replicate TUI_WIDTH (str "─")) ++ TUI_RESET ++ [10].

Definition tui_render_header (version mode : bytes) : bytes :=
  str " " ++ TUI_BOLD ++ TUI_CYAN ++ str "◆ TunD" ++ TUI_RESET ++ str " " ++ TUI_YELLOW ++ str "v" ++ version ++
  TUI_RESET ++ str " " ++ TUI_GRAY ++ str "— " ++ mode ++ TUI_RESET ++ [10] ++ tui_rule.

Definition tui_section (title : bytes) : bytes :=
  str " " ++ TUI_BOLD ++ TUI_CYAN ++ title ++ TUI_RESET ++ [10].

Definition tui_kv (label value : bytes) : bytes :=
  str " " ++ TUI_GRAY ++ pad_right 10 label ++ TUI_RESET ++ str " " ++ value ++ [10].

(** [HH:MM:SS]. *)
Definition clock_text (h m s : Z) : bytes := two h ++ str ":" ++ two m ++ str ":" ++ two s.

Definition tui_uptime (now start : Z) : option bytes :=
  let? d := i64_sub now start in
  let secs := i32 d in
  Some (fit 16 (clock_text (Z.quot secs 3600) (Z.quot (Z.rem secs 3600) 60) (Z.rem secs 60))).

Definition tui_timeago (now ts : Z) : option bytes :=
  let? d := i64_sub now ts in
  let ago := i32 d in
  Some (fit 32 (if ago <? 2 then str "just now"
                else if ago <? 60 then sdec ago ++ str "s ago"
                else if ago <? 3600 then sdec (Z.quot ago 60) ++ str "m " ++ sdec (Z.rem ago 60) ++ str "s ago"
                else sdec (Z.quot ago 3600) ++ str "h " ++ sdec (Z.quot (Z.rem ago 3600) 60) ++ str "m ago")).

(** Division rounded to nearest, ties to even. *)
Definition round_div (a b : Z) : Z :=
  let q := a / b in
  let r := 2 * (a mod b) in
  if r <? b then q else if b <? r then q + 1 else if Z.even q then q else q + 1.

(** [(double)bytes]: 53 significant bits. *)
Definition to_double (n : Z) : Z :=
  let e := Z.max 0 (Z.log2 n - 52) in round_div n (2 ^ e) * 2 ^ e.

(** The loop of [tui_format_bytes]: the unit; [value] is [v / 1024^unit],
    which division by 1024 represents exactly. *)
Fixpoint byte_unit (fuel : nat) (v unit : Z) : Z :=
  match fuel with
  | O => unit
  | S fuel => if (1024 ^ (unit + 1) <=? v) && (unit <? 3) then byte_unit fuel v (unit + 1) else unit
  end.

Definition tui_format_bytes (n : Z) : bytes :=
  let v := to_double n in
  let unit := byte_unit 4 v 0 in
  if unit =? 0 then fit 16 (dec n ++ str "B")
  else
    let tenths := round_div (10 * v) (1024 ^ unit) in
    fit 16 (dec (tenths / 10) ++ str "." ++ dec (tenths mod 10) ++
            (if unit =? 1 then str "KB" else if unit =? 2 then str "MB" else str "GB")).

Definition tui_format_rtt (has : bool) (rtt : Z) : bytes :=
  fit 16 (if negb has then str "-" else if 9999 <? rtt then str ">9999ms" else dec rtt ++ str "ms").

(** [%.18s] of an array: up to its terminator, and no more than 18 bytes. *)
Fixpoint bounded_str (n : nat) (l : bytes) : option bytes :=
  match n, l with
  | O, _ => Some []
  | S _, [] => None
  | S n, b :: l => if b =? 0 then Some [] else let? s := bounded_str n l in Some (b :: s)
  end.

Definition dot (age : Z) : bytes :=
  (if age <? 10 then TUI_GREEN else if age <? 30 then TUI_YELLOW else TUI_RED) ++ str "●" ++ TUI_RESET.

Definition status_text (age : Z) : bytes :=
  if age <? 10 then str "online" else if age <? 30 then str "stale" else str "timeout".

(** The line of an active peer; [now] and [now'] are the two readings of the
    clock that it takes. *)
Definition peer_line (now now' : Z) (p : tui_peer_t) : option bytes :=
  let? ago := tui_timeago now (tui_last_seen p) in
  let? d := i64_sub now' (tui_last_seen p) in
  let age := i32 d in
  let? nm := bounded_str 18 (tui_name p) in
  Some (str " " ++ dot age ++ str " " ++ pad_right 7 (status_text age) ++ str " " ++
        pad_right 15 (ip_to_str (tui_virt_ip p)) ++ str " " ++ pad_right 18 nm ++ str " " ++
        pad_left 7 (tui_format_rtt (tui_has_rtt p) (tui_rtt_ms p)) ++ str " " ++
        pad_left 7 (tui_format_bytes (tui_bytes_in p)) ++ str " " ++
        pad_left 7 (tui_format_bytes (tui_bytes_out p)) ++ str " " ++ ago ++ [10]).

(** The clock's readings while a frame is drawn, by row, and [localtime_r]. *)
Section frame.
Variable clock : nat -> Z * Z.
Variable localtime : Z -> Z * Z * Z.

(** The loop over the first [npeers] entries: the lines, and whether any. *)
Fixpoint peer_rows (l : list tui_peer_t) (i npeers : nat) {struct npeers} : option (bytes * bool) :=
  match npeers with
  | O => Some ([], false)
  | S npeers =>
      match l with
      | [] => None
      | p :: l =>
          if tui_active p then
            let? line := peer_line (clock i).1 (clock i).2 p in
            let? '(rest, _) := peer_rows l (S i) npeers in
            Some (line ++ rest, true)
          else peer_rows l (S i) npeers
      end
  end.

Definition table_head : bytes :=
  str " " ++ TUI_GRAY ++ pad_right 8 (str "Status") ++ str " " ++ pad_right 15 (str "Virtual IP") ++ str " " ++
  pad_right 18 (str "Name") ++ str " " ++ pad_left 7 (str "KA RTT") ++ str " " ++ pad_left 7 (str "In") ++ str " " ++
  pad_left 7 (str "Out") ++ str " " ++ str "Last" ++ TUI_RESET ++ [10].

Definition tui_render_peer_table (peer_count : Z) (peers : list tui_peer_t) (npeers : nat) : option bytes :=
  let title := fit 32 (str "Peers (" ++ sdec peer_count ++ str ")") in
  let? '(rows, any) := peer_rows peers 0 npeers in
  Some (tui_section title ++ table_head ++ rows ++
        (if any then [] else str " " ++ TUI_GRAY ++ str "(no peers yet)" ++ TUI_RESET ++ [10])).

Definition tui_render_footer (hint : bytes) : bytes :=
  tui_rule ++ str " " ++ TUI_YELLOW ++ hint ++ TUI_RESET ++ [10].

Definition tui_event_level_color (level : Z) : bytes :=
  if level =? LOG_LEVEL_DEBUG then TUI_CYAN
  else if level =? LOG_LEVEL_INFO then TUI_GREEN
  else if level =? LOG_LEVEL_WARN then TUI_YELLOW
  else if level =? LOG_LEVEL_ERROR then TUI_RED
  else TUI_GRAY.

Definition tui_event_level_label (level : Z) : bytes :=
  if level =? LOG_LEVEL_DEBUG then str "DEBUG"
  else if level =? LOG_LEVEL_INFO then str "INFO "
  else if level =? LOG_LEVEL_WARN then str "WARN "
  else if level =? LOG_LEVEL_ERROR then str "ERROR"
  else str "LOG  ".

(** The line of an event; [buf] is what the array for its text holds before. *)
Definition event_line (buf : bytes) (e : tui_event_t) : option bytes :=
  let '(h, m, s) := localtime (ev_ts e) in
  let? buf := tui_truncate_event (ev_message e) buf TUI_EVENT_DISPLAY_LEN in
  let? message := c_str buf in
  Some (str " " ++ fit 9 (clock_text h m s) ++ str " " ++ tui_event_level_color (ev_level e) ++
        tui_event_level_label (ev_level e) ++ TUI_RESET ++ str " " ++ message ++ [10]).

Fixpoint event_lines (buf : bytes) (l : list tui_event_t) : option bytes :=
  match l with
  | [] => Some []
  | e :: l =>
      let? line := event_line buf e in
      let? rest := event_lines buf l in
      Some (line ++ rest)
  end.

Definition tui_render_events (buf : bytes) (t : tui_ring) : option bytes :=
  let? events := recent_events t in
  let? lines := match events with
                | [] => Some (str " " ++ TUI_GRAY ++ str "(no recent events)" ++ TUI_RESET ++ [10])
                | _ => event_lines buf events
                end in
  Some (tui_section (str "Events") ++ lines).

(** [value] of [tui_render_server], [line] and [value] of
    [tui_render_client] have 128, 192 and 160 bytes. *)
Definition tui_render_server (port : Z) (tun_name : bytes) (vip netmask : Z) (now start_time : Z)
    (peer_count : Z) (peers : list tui_peer_t) (npeers : nat) (buf : bytes) (t : tui_ring) : option bytes :=
  let? version := c_str TUND_VERSION in
  let? uptime := tui_uptime now start_time in
  let? tun_name := c_str tun_name in
  let? table := tui_render_peer_table peer_count peers npeers in
  let? events := tui_render_events buf t in
  Some (TUI_HOME ++ tui_render_header version (str "Server") ++
        tui_section (str "Connection") ++
        tui_kv (str "UDP") (fit 128 (dec port)) ++
        tui_kv (str "TUN") tun_name ++
        tui_kv (str "Virtual") (fit 128 (ip_to_str vip ++ str "/" ++ ip_to_str netmask)) ++
        tui_kv (str "Uptime") uptime ++
        tui_rule ++ table ++ tui_rule ++ events ++
        tui_render_footer (fit 128 (str "Ctrl+C quit · UDP " ++ dec port ++
          str " · subnet 10.9.0.0/24 · encrypted in transit")) ++
        TUI_CLEAR_REST).

Definition tui_render_client (server_addr : bytes) (port : Z) (tun_name : bytes) (vip netmask : Z)
    (has_server_rtt : bool) (server_rtt_ms : Z) (now start_time : Z)
    (peer_count : Z) (peers : list tui_peer_t) (npeers : nat) (buf : bytes) (t : tui_ring) : option bytes :=
  let? version := c_str TUND_VERSION in
  let? uptime := tui_uptime now start_time in
  let? server_addr := c_str server_addr in
  let? tun_name := c_str tun_name in
  let? table := tui_render_peer_table peer_count peers npeers in
  let? events := tui_render_events buf t in
  Some (TUI_HOME ++ tui_render_header version (str "Client") ++
        tui_section (str "Connection") ++
        tui_kv (str "Server") (fit 192 (server_addr ++ str ":" ++ dec port)) ++
        tui_kv (str "Keepalive") (tui_format_rtt has_server_rtt server_rtt_ms) ++
        tui_kv (str "TUN") tun_name ++
        tui_kv (str "Virtual") (fit 192 (ip_to_str vip ++ str "/" ++ ip_to_str netmask)) ++
        tui_kv (str "Uptime") uptime ++
        tui_rule ++ table ++ tui_rule ++ events ++
        tui_render_footer (fit 160 (str "Ctrl+C quit · server " ++ server_addr ++ str ":" ++ dec port ++
          str " · encrypted in transit")) ++
        TUI_CLEAR_REST).
End frame.

(** What they write, and the ring they leave. *)
Definition tui_init (t : tui_ring) : bytes * tui_ring :=
  (TUI_ALT_BUF ++ TUI_CLEAR ++ TUI_HIDE_CURSOR, tui_events_start t).

Definition tui_shutdown (t : tui_ring) : bytes * tui_ring :=
  (TUI_SHOW_CURSOR ++ TUI_MAIN_BUF, tui_events_stop t).

(** * Examples *)

Example bytes_texts :
  map tui_format_bytes [0; 1023; 1024; 1536; 1048575; 1048576; 5 * 2 ^ 30; 2 ^ 64 - 1] =
  [str "0B"; str "1023B"; str "1.0KB"; str "1.5KB"; str "1024.0KB"; str "1.0MB"; str "5.0GB"; str "17179869184.0GB"].
Proof. vm_compute. reflexivity. Qed.

Example ago_texts :
  map (tui_timeago 10000) [10000; 9999; 9998; 9930; 1; 10005] =
  map Some [str "just now"; str "just now"; str "2s ago"; str "1m 10s ago"; str "2h 46m ago"; str "just now"].
Proof. vm_compute. reflexivity. Qed.

Example uptime_texts :
  map (tui_uptime 100000) [100000; 99941; 0; 100005] =
  map Some [str "00:00:00"; str "00:00:59"; str "27:46:40"; str "00:00:-5"].
Proof. vm_compute. reflexivity. Qed.

(** * The ring holds the last events *)

Definition terminated (l : bytes) : Prop := exists s, c_str l = Some s.

Record ring_ok (t : tui_ring) : Prop := {
  ring_slots : length (tui_events t) = 7%nat;
  ring_messages : Forall (fun e => length (ev_message e) = 128%nat /\ terminated (ev_message e)) (tui_events t);
  ring_start : 0 <= tui_event_start t < 7;
  ring_count : 0 <= tui_event_count t <= 7
}.

(** What a reader sees of an event. *)
Definition view (e : tui_event_t) : Z * Z * option bytes := (ev_ts e, ev_level e, c_str (ev_message e)).

(** Abstract state: the events noted since the start, of which the last seven
    are shown. *)
Definition last_n {A} (n : nat) (l : list A) : list A := drop (length l - n) l.

Lemma length_last_n {A} n (l : list A) : (length l <= n)%nat -> last_n n l = l.
Proof. intros H. unfold last_n. now replace (length l - n)%nat with 0%nat by lia. Qed.

Lemma last_n_app {A} n (l k : list A) : last_n n (last_n n l ++ k) = last_n n (l ++ k).
Proof.
  destruct (decide (length l <= n)%nat) as [Hle|Hgt]; [now rewrite (length_last_n n l)|].
  unfold last_n. rewrite <- (drop_app_le l k) by lia. rewrite drop_drop, length_drop, !length_app. f_equal. lia.
Qed.

Lemma initial_ring_ok : ring_ok initial_ring.
Proof.
  split; [done| |cbn; lia|cbn; lia]. apply Forall_replicate. split; [done|]. now exists [].
Qed.

Lemma ring_start_ok t : ring_ok t -> ring_ok (tui_events_start t).
Proof. intros [H1 H2 H3 H4]. split; cbn; auto; lia. Qed.

Lemma ring_stop_ok t : ring_ok t -> ring_ok (tui_events_stop t).
Proof. now intros []. Qed.

(** Position of the [i]-th oldest event. *)
Definition place (t : tui_ring) (i : nat) : nat := Z.to_nat (Z.rem (tui_event_start t + Z.of_nat i) 7).

Lemma place_lt t i : ring_ok t -> (place t i < 7)%nat.
Proof. intros [_ _ Hs _]. unfold place. Z.to_euclidean_division_equations. lia. Qed.

Lemma slot_place t i : ring_ok t -> slot (tui_events t) (Z.rem (tui_event_start t + Z.of_nat i) TUI_MAX_EVENTS) =
  tui_events t !! place t i.
Proof.
  intros [_ _ Hs _]. unfold slot, place, TUI_MAX_EVENTS. destruct (Z.leb_spec 0 (Z.rem (tui_event_start t + Z.of_nat i) 7)); [done|].
  exfalso. Z.to_euclidean_division_equations. lia.
Qed.

Lemma copy_events_spec t n : ring_ok t -> forall i, exists l, copy_events n t (Z.of_nat i) = Some l /\
  length l = n /\ forall j, (j < n)%nat -> l !! j = tui_events t !! place t (i + j).
Proof.
  intros Ht. induction n as [|n IH]; intros i; [exists []; split; [done|]; split; [done|lia]|]. cbn [copy_events].
  rewrite slot_place by done. destruct (lookup_lt_is_Some_2 (tui_events t) (place t i)) as [e He].
  { rewrite (ring_slots _ Ht). now apply place_lt. }
  rewrite He. replace (Z.of_nat i + 1) with (Z.of_nat (S i)) by lia.
  destruct (IH (S i)) as (l & -> & Hl & Hn). exists (e :: l). split; [done|]. split; [cbn; lia|].
  intros [|j] Hj; cbn [lookup list_lookup]; [now rewrite Nat.add_0_r|].
  change (l !! j = tui_events t !! place t (i + S j)). rewrite Hn by lia. do 2 f_equal. lia.
Qed.

Lemma recent_events_spec t : ring_ok t -> exists l, recent_events t = Some l /\
  length l = Z.to_nat (tui_event_count t) /\
  forall j, (j < length l)%nat -> l !! j = tui_events t !! place t j.
Proof.
  intros Ht. destruct (copy_events_spec t (Z.to_nat (tui_event_count t)) Ht 0) as (l & Hl & Hn & Hj).
  exists l. split; [exact Hl|]. split; [done|]. intros j H. apply Hj. lia.
Qed.

Lemma event_stored e now level message s :
  length (ev_message e) = 128%nat -> c_str message = Some s ->
  exists msg, (let? text := snprintf_s (Z.to_nat TUI_EVENT_MESSAGE_LEN) message in mem_write (ev_message e) 0 text) = Some msg /\
    length msg = 128%nat /\ view (TuiEvent now level msg) = (now, level, Some (take 127 s)).
Proof.
  intros Hl Hs. unfold snprintf_s. rewrite Hs. change (Z.to_nat TUI_EVENT_MESSAGE_LEN - 1)%nat with 127%nat.
  set (text := take 127 s ++ [0]). assert (Ht : (length text <= 128)%nat) by (unfold text; rewrite length_app, length_take; cbn [length]; lia).
  destruct (split_at (length text) (ev_message e)) as (a & z & E & Ha); [lia|].
  exists (text ++ z). rewrite (mem_write_at [] a z) by (done || lia). split; [done|].
  rewrite E, length_app in Hl. split; [rewrite length_app; lia|]. unfold view. cbn [ev_ts ev_level ev_message].
  f_equal. unfold text. rewrite <- app_assoc. apply c_str_app. apply c_str_spec in Hs as [Hn _]. now apply Forall_take.
Qed.

Lemma place_inj t i j : ring_ok t -> (i < 7)%nat -> (j < 7)%nat -> i <> j -> place t i <> place t j.
Proof. intros [_ _ Hs _]. unfold place. Z.to_euclidean_division_equations. lia. Qed.

(** A free slot is filled. *)
Lemma ring_push t l e :
  ring_ok t -> recent_events t = Some l -> tui_event_count t <> 7 ->
  length (ev_message e) = 128%nat -> terminated (ev_message e) ->
  let t' := TuiRing (<[place t (length l) := e]> (tui_events t)) (tui_event_start t) (tui_event_count t + 1) (ring_active t) in
  ring_ok t' /\ recent_events t' = Some (l ++ [e]).
Proof.
  intros Ht Hl Hc He1 He2 t'. destruct (recent_events_spec t Ht) as (l0 & Hl0 & Hlen & Hlook).
  rewrite Hl in Hl0. injection Hl0 as <-. pose proof Ht as [H1 H2 H3 H4].
  assert (Ht' : ring_ok t') by (split; cbn; [now rewrite length_insert|now apply Forall_insert|done|lia]).
  split; [done|]. destruct (recent_events_spec t' Ht') as (l' & -> & Hlen' & Hlook'). cbn in Hlen'. f_equal.
  assert (Hlens : length l' = S (length l)) by lia.
  apply list_eq_same_length with (S (length l)); [rewrite length_app; cbn; lia|done|].
  intros j x y Hj Hx Hy. rewrite Hlook' in Hx by lia. change (place t' j) with (place t j) in Hx. cbn in Hx.
  destruct (decide (j = length l)) as [->|].
  - rewrite list_lookup_insert_eq in Hx by (rewrite H1; now apply place_lt).
    rewrite lookup_app_r, Nat.sub_diag in Hy by lia. cbn in Hy. congruence.
  - rewrite list_lookup_insert_ne in Hx by (apply place_inj; [done|lia..]).
    rewrite lookup_app_l, Hlook in Hy by lia. congruence.
Qed.

(** The oldest event is replaced. *)
Lemma ring_replace t l e :
  ring_ok t -> recent_events t = Some l -> tui_event_count t = 7 ->
  length (ev_message e) = 128%nat -> terminated (ev_message e) ->
  let t' := TuiRing (<[place t 0 := e]> (tui_events t)) (Z.rem (tui_event_start t + 1) 7) 7 (ring_active t) in
  ring_ok t' /\ recent_events t' = Some (drop 1 l ++ [e]).
Proof.
  intros Ht Hl Hc He1 He2 t'. destruct (recent_events_spec t Ht) as (l0 & Hl0 & Hlen & Hlook).
  rewrite Hl in Hl0. injection Hl0 as <-. pose proof Ht as [H1 H2 H3 H4].
  assert (Ht' : ring_ok t').
  { split; cbn; [now rewrite length_insert|now apply Forall_insert|Z.to_euclidean_division_equations; lia|lia]. }
  split; [done|]. destruct (recent_events_spec t' Ht') as (l' & -> & Hlen' & Hlook'). cbn in Hlen'. f_equal.
  assert (Hpl : forall j, place t' j = place t (S j)).
  { intros j. unfold place. cbn. f_equal. Z.to_euclidean_division_equations. lia. }
  rewrite Hc in Hlen. change (Z.to_nat 7) with 7%nat in Hlen.
  apply list_eq_same_length with 7%nat; [rewrite length_app, length_drop; cbn; lia|done|].
  intros j x y Hj Hx Hy. rewrite Hlook' in Hx by lia. rewrite Hpl in Hx. cbn in Hx.
  destruct (decide (j = 6%nat)) as [->|].
  - assert (Hp : place t 7 = place t 0) by (unfold place; f_equal; Z.to_euclidean_division_equations; lia).
    rewrite Hp, list_lookup_insert_eq in Hx by (rewrite H1; now apply place_lt).
    rewrite lookup_app_r in Hy by (rewrite length_drop; lia). rewrite length_drop, Hlen in Hy. cbn in Hy. congruence.
  - rewrite list_lookup_insert_ne in Hx by (apply place_inj; [done|lia..]).
    rewrite lookup_app_l, lookup_drop in Hy by (rewrite length_drop; lia).
    change (1 + j)%nat with (S j) in Hy. rewrite Hlook in Hy by lia. congruence.
Qed.

(** One event more. *)
Lemma tui_add_event_spec now level message s t l :
  ring_ok t -> c_str message = Some s -> recent_events t = Some l ->
  exists t' l', tui_add_event now level message t = Some t' /\ ring_ok t' /\
    recent_events t' = Some l' /\ map view l' = last_n 7 (map view l ++ [(now, level, Some (take 127 s))]).
Proof.
  intros Ht Hs Hl. destruct (recent_events_spec t Ht) as (l0 & Hl0 & Hlen & _). rewrite Hl in Hl0. injection Hl0 as <-.
  pose proof Ht as [H1 H2 H3 H4].
  assert (Hgo : forall i, (i < 8)%nat -> exists e, tui_events t !! place t i = Some e /\ length (ev_message e) = 128%nat).
  { intros i _. destruct (lookup_lt_is_Some_2 (tui_events t) (place t i)) as [e He]; [rewrite H1; now apply place_lt|].
    exists e. split; [done|]. exact (proj1 (proj1 (Forall_lookup _ _) H2 _ _ He)). }
  assert (Hn : forall e', view e' = (now, level, Some (take 127 s)) -> terminated (ev_message e')).
  { intros e' [= _ _ Hv]. now exists (take 127 s). }
  assert (Hz : Z.of_nat (length l) = tui_event_count t) by lia.
  unfold tui_add_event. change TUI_MAX_EVENTS with 7 in *. destruct (Z.eqb_spec (tui_event_count t) 7) as [Hc|Hc].
  - destruct (Hgo 0%nat ltac:(lia)) as (e & He & Hlm). destruct (event_stored e now level message s Hlm Hs) as (msg & Hmsg & Hml & Hv).
    destruct (ring_replace t l (TuiEvent now level msg) Ht Hl Hc Hml (Hn _ Hv)) as [Hok Hr].
    assert (Hp : Z.to_nat (tui_event_start t) = place t 0) by (unfold place; f_equal; Z.to_euclidean_division_equations; lia).
    eexists _, _. split; [|split; [exact Hok|split; [exact Hr|]]].
    + unfold slot. destruct (Z.leb_spec 0 (tui_event_start t)); [|lia]. rewrite Hp, He.
      destruct (snprintf_s _ message); [|done]. now rewrite Hmsg, Hc.
    + rewrite map_app, <- skipn_map. cbn [map]. rewrite Hv. unfold last_n. rewrite length_app, length_map. cbn [length].
      replace (length l + 1 - 7)%nat with 1%nat by lia. now rewrite drop_app_le by (rewrite length_map; lia).
  - destruct (Hgo (length l) ltac:(lia)) as (e & He & Hlm). destruct (event_stored e now level message s Hlm Hs) as (msg & Hmsg & Hml & Hv).
    destruct (ring_push t l (TuiEvent now level msg) Ht Hl Hc Hml (Hn _ Hv)) as [Hok Hr].
    eexists _, _. split; [|split; [exact Hok|split; [exact Hr|]]].
    + rewrite <- Hz at 1. pose proof (slot_place t (length l) Ht) as Hsl. change TUI_MAX_EVENTS with 7 in Hsl. rewrite Hsl, He.
      destruct (snprintf_s _ message); [|done]. rewrite Hmsg. unfold place. now rewrite Hz.
    + rewrite map_app. cbn [map]. rewrite Hv, length_last_n; [done|]. rewrite length_app, length_map. cbn. lia.
Qed.

(** * What is shown *)

(** A message on the screen: whole if it has less than 57 bytes. *)
Definition shorten (s : bytes) : bytes := if zlen s <? 57 then s else take 53 s ++ str "...".

Lemma shorten_kept s : shorten (take 127 s) = shorten s.
Proof.
  unfold shorten, zlen. rewrite length_take.
  destruct (Z.ltb_spec (Z.of_nat (length s)) 57), (Z.ltb_spec (Z.of_nat (Nat.min 127 (length s))) 57); try lia.
  - now rewrite take_ge by lia.
  - now rewrite take_take.
Qed.

Lemma truncate_spec message buf s :
  length buf = 57%nat -> c_str message = Some s ->
  exists buf', tui_truncate_event message buf TUI_EVENT_DISPLAY_LEN = Some buf' /\ c_str buf' = Some (shorten s).
Proof.
  intros Hb Hs. unfold tui_truncate_event, shorten. change TUI_EVENT_DISPLAY_LEN with 57. rewrite Hs.
  pose proof Hs as [Hn [t E]]%c_str_spec.
  destruct (Z.ltb_spec (zlen s) 57) as [Hlt|Hge].
  - unfold snprintf_s. rewrite Hs. unfold zlen in Hlt. rewrite take_ge by (change (Z.to_nat 57 - 1)%nat with 56%nat; lia).
    destruct (split_at (length (s ++ [0])) buf) as (a & z & Eb & Ha); [rewrite length_app; cbn [length]; lia|].
    exists ((s ++ [0]) ++ z). rewrite (mem_write_at [] a z) by (done || lia). split; [done|].
    rewrite <- app_assoc. now apply c_str_app.
  - unfold zlen in Hge. cbn [Z.ltb Z.compare Pos.compare Pos.compare_cont].
    assert (Hm : length (take 53 s) = 53%nat) by (rewrite length_take; lia).
    destruct (split_at 53 buf) as (a & z & Eb & Ha); [lia|].
    rewrite (mem_read_at message [] (take 53 s) (drop 53 s ++ 0 :: t)).
    2:{ cbn [app]. now rewrite app_assoc, take_drop. }
    2:{ done. }
    2:{ unfold zlen. rewrite Hm. done. }
    rewrite (mem_write_at [] a z) by (done || lia).
    assert (Hz : length z = 4%nat) by (rewrite Eb, length_app in Hb; lia).
    exists (take 53 s ++ str "..." ++ [0]). split.
    + rewrite (mem_write_at (take 53 s) z [] (str "..." ++ [0])); [now rewrite app_nil_r|now rewrite app_nil_r| |done].
      unfold zlen. rewrite Hm. done.
    + rewrite app_assoc. apply c_str_app. apply Forall_app. split; [now apply Forall_take|]. repeat constructor; done.
Qed.

(** [tui_add_event] for each of these times, levels and messages. *)
Fixpoint add_events (evs : list (Z * Z * bytes)) (t : tui_ring) : option tui_ring :=
  match evs with
  | [] => Some t
  | (now, level, message) :: evs => let? t := tui_add_event now level message t in add_events evs t
  end.

(** The line of an event in full. *)
Definition shown_line (localtime : Z -> Z * Z * Z) (e : Z * Z * option bytes) : bytes :=
  let '(ts, level, message) := e in
  let '(h, m, s) := localtime ts in
  str " " ++ fit 9 (clock_text h m s) ++ str " " ++ tui_event_level_color level ++
  tui_event_level_label level ++ TUI_RESET ++ str " " ++ shorten (default [] message) ++ [10].

(** An event as noted. *)
Definition noted (e : Z * Z * bytes) : Z * Z * option bytes := (e.1, c_str e.2).

Lemma event_line_spec localtime buf e :
  length buf = 57%nat -> terminated (ev_message e) -> event_line localtime buf e = Some (shown_line localtime (view e)).
Proof.
  intros Hb [s Hs]. unfold event_line, shown_line, view. destruct (localtime (ev_ts e)) as [[h m] sec].
  destruct (truncate_spec _ _ _ Hb Hs) as (buf' & -> & Hc). now rewrite Hc, Hs.
Qed.

Lemma event_lines_spec localtime buf l :
  length buf = 57%nat -> Forall (fun e => terminated (ev_message e)) l ->
  event_lines localtime buf l = Some (concat (map (shown_line localtime) (map view l))).
Proof.
  intros Hb. induction 1 as [|e l He _ IH]; [done|]. cbn [event_lines map]. now rewrite event_line_spec, IH.
Qed.

Lemma recent_terminated t l : ring_ok t -> recent_events t = Some l -> Forall (fun e => terminated (ev_message e)) l.
Proof.
  intros Ht Hl. destruct (recent_events_spec t Ht) as (l0 & Hl0 & _ & Hlook). rewrite Hl in Hl0. injection Hl0 as <-.
  apply Forall_lookup. intros j e Hj. rewrite Hlook in Hj by (now apply lookup_lt_Some in Hj).
  exact (proj2 (proj1 (Forall_lookup _ _) (ring_messages _ Ht) _ _ Hj)).
Qed.

(** The abstract view: what is kept of each event. *)
Definition kept (e : Z * Z * bytes) : Z * Z * option bytes := (e.1, take 127 <$> c_str e.2).

Lemma shown_kept localtime e : terminated e.2 -> shown_line localtime (kept e) = shown_line localtime (noted e).
Proof.
  destruct e as [[ts level] m]. intros [s Hs]. unfold shown_line, kept, noted. cbn in *. rewrite Hs. cbn.
  now rewrite shorten_kept.
Qed.

Lemma add_events_spec evs : Forall (fun e => terminated e.2) evs -> forall t l,
  ring_ok t -> recent_events t = Some l ->
  exists t' l', add_events evs t = Some t' /\ ring_ok t' /\ recent_events t' = Some l' /\
    map view l' = last_n 7 (map view l ++ map kept evs).
Proof.
  induction 1 as [|[[now level] m] evs [s Hs] _ IH]; intros t l Ht Hl.
  { exists t, l. split; [done|]. split; [done|]. split; [done|]. cbn. rewrite app_nil_r, length_last_n; [done|].
    rewrite length_map. destruct (recent_events_spec t Ht) as (l0 & Hl0 & Hlen & _), Ht. rewrite Hl in Hl0.
    injection Hl0 as <-. lia. }
  cbn [add_events]. cbn in Hs.
  destruct (tui_add_event_spec now level m s t l Ht Hs Hl) as (t1 & l1 & -> & Ht1 & Hl1 & Hv1).
  destruct (IH t1 l1 Ht1 Hl1) as (t' & l' & Ha & Ht' & Hl' & Hv'). exists t', l'. split; [done|]. split; [done|].
  split; [done|]. cbn [map]. replace (kept (now, level, m)) with (now, level, Some (take 127 s)) by (unfold kept; cbn; now rewrite Hs).
  now rewrite Hv', Hv1, last_n_app, <- app_assoc.
Qed.

Lemma last_n_map {A B} (f : A -> B) n l : last_n n (map f l) = map f (last_n n l).
Proof. unfold last_n. now rewrite length_map, skipn_map. Qed.

Lemma last_n_Forall {A} (P : A -> Prop) n l : Forall P l -> Forall P (last_n n l).
Proof. apply Forall_drop. Qed.

Lemma last_n_nil {A} n (l : list A) : (0 < n)%nat -> last_n n l = [] -> l = [].
Proof.
  intros Hn H. apply (f_equal length) in H. unfold last_n in H. rewrite length_drop in H. cbn in H.
  apply length_zero_iff_nil. lia.
Qed.

(** The text of the section of events after these events. *)
Definition events_text (localtime : Z -> Z * Z * Z) (evs : list (Z * Z * bytes)) : bytes :=
  tui_section (str "Events") ++
  match evs with
  | [] => str " " ++ TUI_GRAY ++ str "(no recent events)" ++ TUI_RESET ++ [10]
  | _ => concat (map (shown_line localtime) (map noted (last_n 7 evs)))
  end.

(** The ring of seven slots shows exactly the last seven of the events
    noted since the terminal UI was started, oldest first: however many events
    of whatever length threads note, no slot and no array is accessed out of
    bounds, the ring stays well formed, and the frame contains one line for
    each of the last seven, with its time, its level and its message, cut to
    53 bytes and an ellipsis if it has more than 56. *)
Theorem tui_shows_last_events (localtime : Z -> Z * Z * Z) (t : tui_ring) (evs : list (Z * Z * bytes)) (buf : bytes)
    (Ht : ring_ok t) (He : Forall (fun e => terminated e.2) evs) (Hb : length buf = 57%nat) :
  exists t', add_events evs (tui_init t).2 = Some t' /\ ring_ok t' /\
    tui_render_events localtime buf t' = Some (events_text localtime evs).
Proof.
  destruct (add_events_spec evs He (tui_init t).2 []) as (t' & l & Ha & Ht' & Hl & Hv); [now apply ring_start_ok|done|].
  exists t'. split; [done|]. split; [done|]. unfold tui_render_events, events_text. rewrite Hl.
  pose proof (event_lines_spec localtime buf l Hb (recent_terminated _ _ Ht' Hl)) as Hlines.
  cbn [map app] in Hv. rewrite last_n_map in Hv. destruct evs as [|e evs].
  { destruct l; [done|now rewrite last_n_map in Hv || discriminate]. }
  assert (Hne : l <> []). { intros ->. symmetry in Hv. apply map_eq_nil, last_n_nil in Hv; [done|lia]. }
  destruct l as [|x l]; [done|]. rewrite Hlines, Hv, !map_map. do 3 f_equal.
  apply map_ext_Forall. generalize (last_n_Forall _ 7 _ He). apply Forall_impl. intros a Hta. now apply shown_kept.
Qed.

Example tui_shows_last_events_witness :
  exists t', add_events [(5, LOG_LEVEL_INFO, str "hello" ++ [0])] (tui_init initial_ring).2 = Some t' /\ ring_ok t' /\
    tui_render_events (fun _ => (1, 2, 3)) (replicate 57 0) t' =
    Some (events_text (fun _ => (1, 2, 3)) [(5, LOG_LEVEL_INFO, str "hello" ++ [0])]).
Proof.
  apply (tui_shows_last_events (fun _ => (1, 2, 3)) initial_ring); [exact initial_ring_ok| |reflexivity].
  repeat constructor. now exists (str "hello").
Defined.

(** * The table of peers *)

(** What drawing relies on: readings of the clock in range. *)
Definition clock_ok (clock : nat -> Z * Z) : Prop :=
  forall i, 0 <= (clock i).1 < 2 ^ 62 /\ 0 <= (clock i).2 < 2 ^ 62.

Lemma times_differ a b : 0 <= a < 2 ^ 62 -> 0 <= b < 2 ^ 62 -> exists d, i64_sub a b = Some d.
Proof.
  intros Ha Hb. unfold i64_sub. destruct (_ && _) eqn:E; [eauto|]. exfalso.
  change (2 ^ 63) with 9223372036854775808 in *. change (2 ^ 62) with 4611686018427387904 in *. bools; lia.
Qed.

Lemma bounded_str_total n : forall l, (n <= length l)%nat -> exists s, bounded_str n l = Some s /\ (length s <= n)%nat.
Proof.
  induction n as [|n IH]; intros [|b l] Hl; cbn [bounded_str length] in *; try lia; try now exists [].
  destruct (b =? 0); [exists []; split; [done|cbn; lia]|]. destruct (IH l) as (s & -> & Hs); [lia|].
  exists (b :: s). split; [done|cbn; lia].
Qed.

Lemma peer_line_total now now' p :
  peer_ok p -> 0 <= now < 2 ^ 62 -> 0 <= now' < 2 ^ 62 -> exists line, peer_line now now' (tui_of_peer p) = Some line.
Proof.
  intros [[Hn _] _ _ Hl _ _ _ _] H1 H2. unfold peer_line, tui_timeago. cbn [tui_of_peer tui_last_seen tui_name].
  destruct (times_differ now (last_seen p)) as [d1 ->]; [done..|].
  destruct (times_differ now' (last_seen p)) as [d2 ->]; [done..|].
  destruct (bounded_str_total 18 (name p)) as (s & -> & _); [lia|]. eauto.
Qed.

(** The rows of active peers. *)
Lemma peer_rows_spec clock l : clock_ok clock -> Forall peer_ok l -> Forall (fun p => active p = true) l ->
  forall i rest, exists lines, length lines = length l /\
    (forall j p, l !! j = Some p -> peer_line (clock (i + j)%nat).1 (clock (i + j)%nat).2 (tui_of_peer p) = lines !! j) /\
    peer_rows clock (map tui_of_peer l ++ rest) i (length l) =
      Some (concat lines, match l with [] => false | _ => true end).
Proof.
  intros Hc Hok Ha. induction l as [|p l IH]; intros i rest; [now exists []|].
  inversion_clear Hok as [|? ? Hp Hok']. inversion_clear Ha as [|? ? Hpa Ha'].  rename Hok' into Hok, Ha' into Ha.
  destruct (Hc i) as [Hc1 Hc2]. destruct (peer_line_total _ _ p Hp Hc1 Hc2) as [line Hline].
  destruct (IH Hok Ha (S i) rest) as (lines & Hlen & Hlook & Hrows). exists (line :: lines).
  split; [cbn; lia|]. split.
  - intros [|j] q Hq; cbn in Hq |- *; [injection Hq as <-; now rewrite Nat.add_0_r|].
    replace (i + S j)%nat with (S i + j)%nat by lia. now apply Hlook.
  - cbn [map app peer_rows length tui_of_peer tui_active]. rewrite Hpa, Hline. fold (tui_of_peer p). rewrite Hrows. done.
Qed.

(** A frame can always be drawn, and its table shows exactly the peers
    that are registered: from any well-formed table of peers, the copy that
    [net_poll_peers] makes under the lock yields as many rows as there are
    active peers, the rows are the lines of the active peers in table order,
    and the frame around them is written without an access out of bounds and
    without an overflow of a difference of times. *)
Theorem tui_frame_lists_active_peers (clock : nat -> Z * Z) (localtime : Z -> Z * Z * Z) (l : list peer_t)
    (t : tui_ring) (port vip mask now start : Z) (tun_name buf : bytes)
    (Hl : Forall peer_ok l) (Hn : length l = 253%nat) (Hc : clock_ok clock) (Ht : ring_ok t)
    (Hname : terminated tun_name) (Hb : length buf = 57%nat)
    (Hnow : 0 <= now < 2 ^ 62) (Hstart : 0 <= start < 2 ^ 62) :
  exists copy lines, length lines = length (actives l) /\
    poll_copy l (replicate 253 (tui_of_peer zero_peer)) 0 = Some (copy, length lines) /\
    (forall j p, actives l !! j = Some p ->
       peer_line (clock j).1 (clock j).2 (tui_of_peer p) = lines !! j) /\
    tui_render_peer_table clock (zlen lines) copy (length lines) =
      Some (tui_section (fit 32 (str "Peers (" ++ sdec (zlen lines) ++ str ")")) ++ table_head ++ concat lines ++
            match lines with [] => str " " ++ TUI_GRAY ++ str "(no peers yet)" ++ TUI_RESET ++ [10] | _ => [] end) /\
    exists frame, tui_render_server clock localtime port tun_name vip mask now start (zlen lines) copy
      (length lines) buf t = Some frame.
Proof.
  destruct (poll_copy_spec l (replicate 253 (tui_of_peer zero_peer)) 0) as (copy & Hcopy & Hlen & _ & Htake).
  { rewrite length_replicate. lia. }
  cbn [plus] in Hcopy. rewrite drop_0 in Htake.
  assert (Hact : Forall peer_ok (actives l) /\ Forall (fun p => active p = true) (actives l)).
  { split; apply Forall_forall; intros p Hp; apply filter_In in Hp as [Hp Ha]; [|done].
    now apply (proj1 (Forall_forall _ _) Hl). }
  destruct Hact as [Hok Hact].
  destruct (peer_rows_spec clock (actives l) Hc Hok Hact 0 (drop (length (actives l)) copy)) as (lines & Hll & Hlook & Hrows).
  rewrite <- Htake, take_drop in Hrows. exists copy, lines. split; [done|]. rewrite Hll at 1. split; [done|]. split; [done|].
  assert (Htable : tui_render_peer_table clock (zlen lines) copy (length lines) =
      Some (tui_section (fit 32 (str "Peers (" ++ sdec (zlen lines) ++ str ")")) ++ table_head ++ concat lines ++
            match lines with [] => str " " ++ TUI_GRAY ++ str "(no peers yet)" ++ TUI_RESET ++ [10] | _ => [] end)).
  { unfold tui_render_peer_table. rewrite Hll, Hrows.
    destruct (actives l), lines; done. }
  split; [exact Htable|]. unfold tui_render_server, tui_uptime. rewrite Htable.
  destruct (times_differ now start) as [d ->]; [done..|]. destruct Hname as [nm ->].
  destruct (recent_events_spec t Ht) as (evs & Hevs & _). unfold tui_render_events. rewrite Hevs.
  pose proof (event_lines_spec localtime buf evs Hb (recent_terminated _ _ Ht Hevs)) as Hlines.
  change (c_str TUND_VERSION) with (Some (str "2.1")). cbv iota zeta. destruct evs as [|e evs]; [eauto|]. rewrite Hlines. eauto.
Qed.

Example tui_frame_lists_active_peers_witness :
  exists copy lines, length lines = length (actives (replicate 253 zero_peer)) /\
    poll_copy (replicate 253 zero_peer) (replicate 253 (tui_of_peer zero_peer)) 0 = Some (copy, length lines) /\
    (forall j p, actives (replicate 253 zero_peer) !! j = Some p ->
       peer_line 100 100 (tui_of_peer p) = lines !! j) /\
    tui_render_peer_table (fun _ => (100, 100)) (zlen lines) copy (length lines) =
      Some (tui_section (fit 32 (str "Peers (" ++ sdec (zlen lines) ++ str ")")) ++ table_head ++ concat lines ++
            match lines with [] => str " " ++ TUI_GRAY ++ str "(no peers yet)" ++ TUI_RESET ++ [10] | _ => [] end) /\
    exists frame, tui_render_server (fun _ => (100, 100)) (fun _ => (1, 2, 3)) 7777 (str "tund0" ++ [0]) 0 0 100 5
      (zlen lines) copy (length lines) (replicate 57 0) initial_ring = Some frame.
Proof.
  apply (tui_frame_lists_active_peers (fun _ => (100, 100)) (fun _ => (1, 2, 3)) (replicate 253 zero_peer) initial_ring
    7777 0 0 100 5 (str "tund0" ++ [0]) (replicate 57 0)).
  - apply Forall_replicate, zero_peer_ok.
  - reflexivity.
  - intros i. cbn. lia.
  - exact initial_ring_ok.
  - now exists (str "tund0").
  - reflexivity.
  - lia.
  - lia.
Defined.
