(* ===== verification/Log.v ===== *)
(** Log lines ([app/log.c]): the level filter, the bounded message and the two
    places a line can go to, the ring of the terminal UI ([Tui.v]) and
    [stderr].  Programs that log ([LOG] of [World.v]) see the filter and the
    string arguments only; here is the whole of [log_msg], with the formatted
    text as an argument. *)
From stdpp Require Import base list numbers option.
From S2P Require Import Prelude Prog World Consts Sequence Wire Events Replay Peer Boot Tui.

Definition LOG_LEVEL_COUNT : Z := 4.

Definition LOG_RESET : bytes := esc (str "[0m").

Definition log_level_str : list bytes := [str "DEBUG"; str "INFO "; str "WARN "; str "ERROR"].

Definition log_level_color : list bytes := map esc [str "[36m"; str "[32m"; str "[33m"; str "[31m"].

(** An access to one of these tables. *)
Definition log_table (l : list bytes) (idx : Z) : option bytes :=
  if 0 <=? idx then l !! Z.to_nat idx else None.

(** What the process shares: the ring, and what was written to [stderr]. *)
Record log_sinks : Type := LogSinks { sink_ring : tui_ring; sink_stderr : bytes }.

(** What one call finds outside: the clock, and whether [stderr] is a terminal. *)
Record log_call : Type := LogCall { call_time : Z; call_isatty : bool; call_level : Z; call_text : bytes }.

Section log.
Context (localtime : Z -> Z * Z * Z) (g_log_level : Z) (g_tui_active : bool).

Definition log_stderr_supports_color (c : log_call) : bool := call_isatty c.

(** The enumeration is unsigned, [(int)level] converts it.  [call_text] is the
    text that the format and its arguments denote, without terminator. *)
Definition log_msg (c : log_call) (k : log_sinks) : option log_sinks :=
  let level := call_level c in
  if i32 level <? g_log_level then Some k
  else
    let idx := if (0 <=? level) && (level <? LOG_LEVEL_COUNT) then i32 level else LOG_LEVEL_ERROR in
    let msg := fit 8192 (call_text c) ++ [0] in
    if g_tui_active && tui_events_active (sink_ring k) then
      let? t := tui_add_event (call_time c) idx msg (sink_ring k) in
      Some (LogSinks t (sink_stderr k))
    else
      let '(h, m, s) := localtime (call_time c) in
      let color := log_stderr_supports_color c in
      let? on := (if color then log_table log_level_color idx else Some []) in
      let? lvl := log_table log_level_str idx in
      let? text := c_str msg in
      Some (LogSinks (sink_ring k)
              (sink_stderr k ++ on ++ str "[" ++ clock_text h m s ++ str "] [" ++ lvl ++ str "] " ++ text ++
               (if color then LOG_RESET else []) ++ [10])).

(** The calls of a run, in the order in which they take the lock. *)
Fixpoint log_msgs (cs : list log_call) (k : log_sinks) : option log_sinks :=
  match cs with
  | [] => Some k
  | c :: cs => let? k := log_msg c k in log_msgs cs k
  end.

(** * Specification *)

(** A call as the macros make it, with a text that formatting can produce. *)
Definition call_ok (c : log_call) : Prop :=
  0 <= call_level c < LOG_LEVEL_COUNT /\ Forall (fun b => b <> 0) (call_text c).

(** The calls that pass the filter. *)
Definition heard (cs : list log_call) : list log_call := filter (fun c => g_log_level <= call_level c) cs.

(** An event of the terminal UI for a call. *)
Definition log_event (c : log_call) : Z * Z * bytes := (call_time c, call_level c, call_text c ++ [0]).

Definition level_name (level : Z) : bytes := default [] (log_level_str !! Z.to_nat level).
Definition level_paint (level : Z) : bytes := default [] (log_level_color !! Z.to_nat level).

(** A line on [stderr] for a call: painted on a terminal only, and the text
    whole if it has less than 8192 bytes. *)
Definition log_line (c : log_call) : bytes :=
  let '(h, m, s) := localtime (call_time c) in
  let line := str "[" ++ clock_text h m s ++ str "] [" ++ level_name (call_level c) ++ str "] " ++
              take 8191 (call_text c) in
  (if call_isatty c then level_paint (call_level c) ++ line ++ LOG_RESET else line) ++ [10].

(** * Proofs *)

Lemma i32_small z : 0 <= z < 2 ^ 31 -> i32 z = z.
Proof. intros Hz. unfold i32. rewrite Z.mod_small; lia. Qed.

Lemma call_index c : call_ok c ->
  (if (0 <=? call_level c) && (call_level c <? LOG_LEVEL_COUNT) then i32 (call_level c) else LOG_LEVEL_ERROR) = call_level c.
Proof.
  intros [Hl _]. rewrite i32_small by (change LOG_LEVEL_COUNT with 4 in Hl; lia).
  destruct (Z.leb_spec 0 (call_level c)); [|lia]. now destruct (Z.ltb_spec (call_level c) LOG_LEVEL_COUNT); [|lia].
Qed.

Lemma log_table_total l level :
  length l = 4%nat -> 0 <= level < LOG_LEVEL_COUNT -> log_table l level = Some (default [] (l !! Z.to_nat level)).
Proof.
  intros Hl Hr. change LOG_LEVEL_COUNT with 4 in Hr. unfold log_table. destruct (Z.leb_spec 0 level); [|lia].
  destruct (lookup_lt_is_Some_2 l (Z.to_nat level)) as [x ->]; [lia|done].
Qed.

Lemma heard_cons c cs : call_ok c ->
  heard (c :: cs) = if i32 (call_level c) <? g_log_level then heard cs else c :: heard cs.
Proof.
  intros [Hl _]. change LOG_LEVEL_COUNT with 4 in Hl. unfold heard. rewrite i32_small, filter_cons by lia.
  destruct (Z.ltb_spec (call_level c) g_log_level), (decide (g_log_level <= call_level c)); done || lia.
Qed.

Lemma heard_ok cs : Forall call_ok cs -> Forall call_ok (heard cs).
Proof.
  induction 1 as [|c cs Hc _ IH]; [constructor|]. rewrite heard_cons by done.
  destruct (_ <? _); [done|now constructor].
Qed.

Lemma message_stored text : Forall (fun b => b <> 0) text -> c_str (fit 8192 text ++ [0]) = Some (take 8191 text).
Proof. intros H. apply c_str_app. now apply Forall_take. Qed.

(** An event as the ring is given it. *)
Definition ring_event (c : log_call) : Z * Z * bytes := (call_time c, call_level c, fit 8192 (call_text c) ++ [0]).

Lemma ring_keeps_active now level message t t' :
  tui_add_event now level message t = Some t' -> ring_active t' = ring_active t.
Proof.
  unfold tui_add_event. destruct (if tui_event_count t =? _ then _ else _) as [[i st] n].
  destruct (slot _ _); [|done]. destruct (snprintf_s _ _); [|done]. destruct (mem_write _ _ _); [|done]. now intros [= <-].
Qed.

(** While the terminal UI is on, the calls that pass are events of the ring. *)
Lemma log_msgs_ring cs : g_tui_active = true -> Forall call_ok cs -> forall t err,
  ring_active t = true -> log_msgs cs (LogSinks t err) = option_map (fun t => LogSinks t err) (add_events (map ring_event (heard cs)) t).
Proof.
  intros Hg. induction 1 as [|c cs Hc _ IH]; intros t err Ht; [done|].
  cbn [log_msgs]. unfold log_msg. rewrite heard_cons, call_index by done. destruct (_ <? _); [now apply IH|].
  cbn [sink_ring sink_stderr map add_events]. unfold tui_events_active. rewrite Hg, Ht. cbn [andb]. unfold ring_event at 1.
  destruct (tui_add_event _ _ _ t) as [t'|] eqn:E; [|done]. apply IH. now rewrite (ring_keeps_active _ _ _ _ _ E).
Qed.

(** Otherwise each of them is a line of [stderr]. *)
Lemma log_msgs_stderr cs : Forall call_ok cs -> forall t err,
  g_tui_active && ring_active t = false ->
  log_msgs cs (LogSinks t err) = Some (LogSinks t (err ++ concat (map log_line (heard cs)))).
Proof.
  induction 1 as [|c cs Hc _ IH]; intros t err Ht; [now rewrite app_nil_r|].
  cbn [log_msgs]. unfold log_msg. rewrite heard_cons, call_index by done. destruct (_ <? _); [now apply IH|].
  cbn [sink_ring sink_stderr]. unfold tui_events_active. rewrite Ht, message_stored by apply Hc.
  cbn [map concat]. unfold log_line at 1, log_stderr_supports_color, level_name, level_paint.
  destruct (localtime (call_time c)) as [[h m] s]. destruct Hc as [Hl _].
  rewrite !log_table_total by done. destruct (call_isatty c); cbn [app]; rewrite IH by done; now rewrite <- ?app_assoc.
Qed.

(** The ring never shows the end that [msg] cuts off. *)
Lemma ring_event_shown c : call_ok c -> shown_line localtime (noted (ring_event c)) = shown_line localtime (noted (log_event c)).
Proof.
  intros [_ Ht]. unfold shown_line, noted, ring_event, log_event. cbn [fst snd].
  rewrite message_stored, (c_str_app (call_text c) []) by done. destruct (localtime (call_time c)) as [[h m] s].
  unfold from_option, id.
  rewrite <- (shorten_kept (take 8191 _)), take_take, shorten_kept. done.
Qed.

Lemma events_text_ring cs : Forall call_ok cs ->
  events_text localtime (map ring_event cs) = events_text localtime (map log_event cs).
Proof.
  intros Hc. unfold events_text. f_equal. destruct cs as [|c cs]; [done|]. cbn [map].
  change (ring_event c :: map ring_event cs) with (map ring_event (c :: cs)).
  change (log_event c :: map log_event cs) with (map log_event (c :: cs)).
  rewrite !last_n_map, !map_map. f_equal. apply map_ext_Forall. generalize (last_n_Forall _ 7 _ Hc).
  apply Forall_impl. apply ring_event_shown.
Qed.
End log.

(** * Lines go to one place *)

(** C22: log lines reach their reader.  After [tui_init], with the terminal UI
    selected, calls of [log_msg] write nothing to [stderr], where they would
    spoil the screen: the next frame shows exactly the last seven of those at
    or above the log level, oldest first, each with its time, level and text,
    cut to the display length, whatever their number and length, and no slot
    or array is accessed out of bounds.  Without the terminal UI, or after
    [tui_shutdown], the ring is left alone and [stderr] receives one line per
    call at or above the level, in order, painted only on a terminal. *)
Theorem log_msg_routed (localtime : Z -> Z * Z * Z) (level : Z) (tui : bool) (cs : list log_call) (t : tui_ring)
    (err buf : bytes) (Ht : ring_ok t) (Hc : Forall call_ok cs) (Hb : length buf = 57%nat) :
  (exists t', log_msgs localtime level true cs (LogSinks (tui_init t).2 err) = Some (LogSinks t' err) /\ ring_ok t' /\
     tui_render_events localtime buf t' = Some (events_text localtime (map log_event (heard level cs)))) /\
  log_msgs localtime level tui cs (LogSinks (tui_shutdown t).2 err) =
    Some (LogSinks (tui_shutdown t).2 (err ++ concat (map (log_line localtime) (heard level cs)))) /\
  log_msgs localtime level false cs (LogSinks t err) =
    Some (LogSinks t (err ++ concat (map (log_line localtime) (heard level cs)))).
Proof.
  assert (Hh : Forall call_ok (heard level cs)) by now apply heard_ok.
  split; [|split; apply log_msgs_stderr; [done| |done|done]; now rewrite andb_comm].
  destruct (tui_shows_last_events localtime t (map ring_event (heard level cs)) buf) as (t' & Ha & Hok & Hr); [done| |done|].
  { apply Forall_map. revert Hh. apply Forall_impl. intros c [_ Hn]. eexists. now apply message_stored. }
  exists t'. rewrite log_msgs_ring, Ha by done. split; [done|]. split; [done|]. now rewrite Hr, events_text_ring.
Qed.

Definition sample_calls : list log_call :=
  [LogCall 5 true LOG_LEVEL_INFO (str "up"); LogCall 6 true LOG_LEVEL_DEBUG (str "noise"); LogCall 7 false LOG_LEVEL_ERROR (str "lost")].

Lemma sample_calls_ok : Forall call_ok sample_calls.
Proof. repeat constructor; done. Qed.

Example log_msg_routed_witness :
  (exists t', log_msgs (fun _ => (1, 2, 3)) LOG_LEVEL_INFO true sample_calls (LogSinks (tui_init initial_ring).2 []) =
      Some (LogSinks t' []) /\ ring_ok t' /\
      tui_render_events (fun _ => (1, 2, 3)) (replicate 57 0) t' =
      Some (events_text (fun _ => (1, 2, 3)) (map log_event (heard LOG_LEVEL_INFO sample_calls)))) /\
  concat (map (log_line (fun _ => (1, 2, 3))) (heard LOG_LEVEL_INFO sample_calls)) =
    esc (str "[32m") ++ str "[01:02:03] [INFO ] up" ++ esc (str "[0m") ++ [10] ++ str "[01:02:03] [ERROR] lost" ++ [10].
Proof.
  split; [|vm_compute; reflexivity].
  refine (proj1 (log_msg_routed (fun _ => (1, 2, 3)) LOG_LEVEL_INFO false sample_calls initial_ring [] (replicate 57 0) _ _ _));
    [exact initial_ring_ok|exact sample_calls_ok|reflexivity].
Defined.
