(* ===== verification/Main.v ===== *)
(** The program as a whole ([main.c], [platform.c] of the POSIX build): start-up
    from the command line, the threads that request a stop from outside of the
    protocol, the run of the server or the client, and the exit. *)
From stdpp Require Import base list numbers option.
From S2P Require Import Prelude Prog World Consts Sequence Wire Ipv4 Crypto Events Cli Replay Peer Net Messages Boot Frame ServerPeers Server ServerSpec ServerThreads ServerLifecycle Client ClientTable ClientSafe ClientThreads ClientSpec ClientLifecycle.

(** * Globals *)

Definition set_key (k : bytes) (w : world) : world :=
  World (w_env w) (w_tick w) (g_proto_next_sequence w) (g_proto_random_fd w) (g_running w)
        k (g_log_level w) (g_tui_active w) (g_json_events_active w) (w_trace w).

Definition set_modes (level : Z) (tui json : bool) (w : world) : world :=
  World (w_env w) (w_tick w) (g_proto_next_sequence w) (g_proto_random_fd w) (g_running w)
        (g_crypto_key w) level tui json (w_trace w).

(** [while (len-- > 0) *p++ = 0]: the array from [off] on. *)
Fixpoint wipe_loop (len : nat) (data : bytes) (off : Z) : option bytes :=
  match len with
  | O => Some data
  | S len => let? data := mem_write data off [0] in wipe_loop len data (off + 1)
  end.

Definition tund_wipe_secret (data : bytes) (len : Z) : option bytes := wipe_loop (Z.to_nat len) data 0.

(** * The platform *)

Inductive app_startup_result_t : Type := APP_STARTUP_OK | APP_STARTUP_EXIT_OK | APP_STARTUP_EXIT_ERROR.

Definition app_prepare_runtime (euid : Z) : app_startup_result_t :=
  if euid =? 0 then APP_STARTUP_OK else APP_STARTUP_EXIT_ERROR.

(** [strcmp] with the three commands. *)
Definition is_stop_command (line : bytes) : bool :=
  bool_decide (line = str "stop") || bool_decide (line = str "quit") || bool_decide (line = str "exit").

(** One iteration of the loop of [stdin_control_thread]: [None] inside ends the
    loop, with whether a stop was requested. *)
Definition stdin_control_step (st : stream) : option (option stream * bool) :=
  let '(r, st) := fgets 32 st in
  match r with
  | None => Some (None, false)
  | Some line =>
      let? line := trim_line_end line in
      let? s := c_str line in
      Some (if is_stop_command s then (None, true) else (Some st, false))
  end.

(** The loop: whether it requests a stop.  Every call of [fgets] that returns a
    line consumes input, so the length of the input is fuel enough. *)
Fixpoint stdin_control (fuel : nat) (st : stream) : option bool :=
  match fuel with
  | O => None
  | S fuel =>
      let? '(next, stop) := stdin_control_step st in
      match next with
      | None => Some stop
      | Some st => stdin_control fuel st
      end
  end.

Definition stdin_control_thread (st : stream) : option bool := stdin_control (S (length (st_data st))) st.

(** * Start-up *)

Section setup.
Context `{M : Monocypher} {S : Type} `{HW : HasWorld S}.

Definition wipe_key : prog S unit :=
  on_world (fun w => let? k := tund_wipe_secret (g_crypto_key w) TUND_KEY_SIZE in Some (tt, set_key k w)).

(** The thread is detached; it has the number 3. *)
Definition app_setup_stdin_control (stdin_tty : bool) : prog S unit :=
  if stdin_tty then Ret tt else let* _ := sys_call (ThreadCreate 3) in Ret tt.

(** [main] up to the choice of the mode: the exit code, or the configuration to
    run with.  [app_setup_signals] installs the handler that is the signal of
    the thread pools. *)
Definition main_setup (o : outside) (mode : option bytes) (opts : list (Z * bytes)) (st : stream)
    (stderr_tty : bool) (euid : Z) : prog S (Z + config_t) :=
  let* '(r, cfg) := local (cli_parse o mode opts st) in
  match r with
  | CLI_EXIT_OK => Ret (inl 0)
  | CLI_EXIT_ERROR => Ret (inl 1)
  | CLI_OK =>
      on_world' (fun w => (tt, set_modes (cfg_log_level cfg) (cfg_tui_mode cfg) (cfg_json_events cfg) w)) ;;
      let* _ := on_world' time_null in
      let* key := local (proto_key_from_passphrase (cfg_access_key cfg)) in
      on_world' (fun w => (tt, set_key key w)) ;;
      let* wiped := local (tund_wipe_secret (cfg_access_key cfg) KEY_ROOM) in
      let cfg := set_cfg_access_key wiped cfg in
      let* cfg := if cfg_tui_mode cfg && negb stderr_tty then
                    on_world' (fun w => (tt, set_modes (g_log_level w) false (g_json_events_active w) w)) ;;
                    LOG LOG_LEVEL_INFO [] ;;
                    Ret (set_cfg_flags (cfg_key_from_stdin cfg) (cfg_json_events cfg) false cfg)
                  else Ret cfg in
      match app_prepare_runtime euid with
      | APP_STARTUP_EXIT_OK => wipe_key ;; Ret (inl 0)
      | APP_STARTUP_EXIT_ERROR => wipe_key ;; Ret (inl 1)
      | APP_STARTUP_OK => app_setup_stdin_control (out_stdin_tty o) ;; Ret (inr cfg)
      end
  end.

(** The exits of [main] after start-up. *)
Definition exit_failed : prog S unit := LOG LOG_LEVEL_ERROR [] ;; wipe_key.
Definition exit_done : prog S unit := wipe_key ;; LOG LOG_LEVEL_INFO [].
End setup.

(** * Runs *)

Section main.
Context `{M : Monocypher}.

(** [server_init], [server_run] and [server_shutdown] on the global server, and
    the exit: the main loop is entered with [npeers] uninitialised, the threads
    interleave until the main thread has left its loop and finished the
    shutdown. *)
Inductive server_session (cfg : config_t) : srv_state -> Z -> srv_state -> Prop :=
| server_not_initialized s s1 s2 r :
    run (server_init cfg) s = Some (r, s1) -> r < 0 ->
    run exit_failed s1 = Some (tt, s2) -> server_session cfg s 1 s2
| server_not_entered s s1 s2 s3 r :
    run (server_init cfg) s = Some (r, s1) -> 0 <= r ->
    run server_run_start s1 = Some (false, s2) ->
    run (server_shutdown ;; exit_done) s2 = Some (tt, s3) -> server_session cfg s 0 s3
| server_served s s1 s2 s3 s4 r pool :
    run (server_init cfg) s = Some (r, s1) -> 0 <= r ->
    run server_run_start s1 = Some (true, s2) ->
    steps server_process server_signal (server_start (-1), s2) (pool, s3) -> pool !! 0%nat = Some (Ret Break) ->
    run exit_done s3 = Some (tt, s4) -> server_session cfg s 0 s4.

Inductive client_session (cfg : config_t) : cli_state -> Z -> cli_state -> Prop :=
| client_not_initialized s s1 s2 r :
    run (client_init cfg) s = Some (r, s1) -> r < 0 ->
    run exit_failed s1 = Some (tt, s2) -> client_session cfg s 1 s2
| client_not_entered s s1 s2 s3 r :
    run (client_init cfg) s = Some (r, s1) -> 0 <= r ->
    run client_run_start s1 = Some (false, s2) ->
    run (client_shutdown ;; exit_done) s2 = Some (tt, s3) -> client_session cfg s 0 s3
| client_served s s1 s2 s3 s4 r pool :
    run (client_init cfg) s = Some (r, s1) -> 0 <= r ->
    run client_run_start s1 = Some (true, s2) ->
    steps client_process client_signal (client_start (-1), s2) (pool, s3) -> pool !! 0%nat = Some (Ret Break) ->
    run exit_done s3 = Some (tt, s4) -> client_session cfg s 0 s4.

(** [main] from the process [w]: its exit code and the process it leaves. *)
Inductive main (o : outside) (mode : option bytes) (opts : list (Z * bytes)) (st : stream) (stderr_tty : bool)
    (euid : Z) (w : world) : Z -> world -> Prop :=
| main_no_start code w' :
    run (main_setup (S := world) o mode opts st stderr_tty euid) w = Some (inl code, w') ->
    main o mode opts st stderr_tty euid w code w'
| main_server cfg w1 code s' :
    run (main_setup (S := world) o mode opts st stderr_tty euid) w = Some (inr cfg, w1) ->
    cfg_mode cfg = MODE_SERVER -> server_session cfg (SrvState w1 (fresh_server 0)) code s' ->
    main o mode opts st stderr_tty euid w code (srv_world s')
| main_client cfg w1 code s' :
    run (main_setup (S := world) o mode opts st stderr_tty euid) w = Some (inr cfg, w1) ->
    cfg_mode cfg = MODE_CLIENT -> client_session cfg (CliState w1 blank_client) code s' ->
    main o mode opts st stderr_tty euid w code (cli_world s').
End main.

(** * Wiping *)

Lemma wipe_at old : forall pre post,
  wipe_loop (length old) (pre ++ old ++ post) (zlen pre) = Some (pre ++ replicate (length old) 0 ++ post).
Proof.
  induction old as [|b old IH]; intros pre post; [done|]. cbn [length wipe_loop].
  rewrite (mem_write_at pre [b] (old ++ post)) by done.
  replace (pre ++ [0] ++ old ++ post) with ((pre ++ [0]) ++ old ++ post) by now rewrite <- app_assoc.
  replace (zlen pre + 1) with (zlen (pre ++ [0])) by (rewrite zlen_app; done). rewrite IH, <- app_assoc. done.
Qed.

Lemma wipe_fits n : forall data off data',
  0 <= off -> wipe_loop n data off = Some data' -> n = O \/ off + Z.of_nat n <= zlen data.
Proof.
  induction n as [|n IH]; intros data off data' Ho; [by left|]. cbn [wipe_loop]. unfold mem_write at 1.
  destruct (_ && _) eqn:E; [|done]. bools. intros Hrec. right. apply IH in Hrec; [|lia].
  rewrite zlen_cons, zlen_nil in *. unfold zlen in *. rewrite !length_app, length_take, length_drop in Hrec. cbn [length] in Hrec. lia.
Qed.

(** Wiping succeeds only within the array, and leaves zeros. *)
Lemma wipe_zeros data len data' :
  0 <= len -> tund_wipe_secret data len = Some data' -> take (Z.to_nat len) data' = replicate (Z.to_nat len) 0.
Proof.
  intros Hl H. pose proof (wipe_fits _ _ 0 _ ltac:(lia) H) as Hf.
  destruct (split_at (Z.to_nat len) data) as (old & post & -> & Ho); [unfold zlen in Hf; lia|].
  unfold tund_wipe_secret in H. rewrite <- Ho in H |- *.
  pose proof (wipe_at old [] post) as Hw. cbn [app] in Hw. change (zlen []) with 0 in Hw. rewrite Hw in H.
  injection H as <-. apply take_app_length'. now rewrite length_replicate.
Qed.

Lemma wipe_whole data : tund_wipe_secret data (zlen data) = Some (replicate (length data) 0).
Proof.
  unfold tund_wipe_secret, zlen. rewrite Nat2Z.id. pose proof (wipe_at data [] []) as H.
  cbn [app] in H. now rewrite !app_nil_r in H.
Qed.

(** The key is gone. *)
Definition key_wiped (w : world) : Prop := take 32 (g_crypto_key w) = replicate 32 0.

Section exits.
Context {S : Type} `{HW : HasWorld S}.

Lemma wipe_key_effect (s s' : S) u : run wipe_key s = Some (u, s') -> key_wiped (get_world s').
Proof.
  unfold wipe_key, on_world. cbn [run atomic]. destruct (tund_wipe_secret _ _) as [k|] eqn:E; [|done].
  intros [= _ <-]. unfold key_wiped. rewrite get_set_world. cbn. exact (wipe_zeros _ 32 _ ltac:(lia) E).
Qed.

Lemma log_keeps_key level args (s s' : S) u :
  run (LOG level args) s = Some (u, s') -> g_crypto_key (get_world s') = g_crypto_key (get_world s).
Proof.
  unfold LOG, on_world. cbn [run atomic]. destruct (_ <? _); [intros [= _ <-]; now rewrite get_set_world|].
  destruct (mapM c_str args); [|done]. cbn. intros [= _ <-]. now rewrite get_set_world.
Qed.

Lemma exit_failed_effect (s s' : S) u : run exit_failed s = Some (u, s') -> key_wiped (get_world s').
Proof. intros (u1 & s1 & _ & H)%run_bind_inv. exact (wipe_key_effect _ _ _ H). Qed.

Lemma exit_done_effect (s s' : S) u : run exit_done s = Some (u, s') -> key_wiped (get_world s').
Proof.
  intros (u1 & s1 & H1 & H)%run_bind_inv. unfold key_wiped. rewrite (log_keeps_key _ _ _ _ _ H).
  exact (wipe_key_effect _ _ _ H1).
Qed.
End exits.

Section wiped.
Context `{M : Monocypher}.

Lemma server_session_wiped cfg s code s' : server_session cfg s code s' ->
  (code = 0 \/ code = 1) /\ key_wiped (srv_world s').
Proof.
  intros [? ? ? ? _ _ H|? ? ? ? ? _ _ _ (u & s5 & _ & H)%run_bind_inv|? ? ? ? ? ? ? _ _ _ _ _ H].
  - split; [by right|]. exact (exit_failed_effect _ _ _ H).
  - split; [by left|]. exact (exit_done_effect _ _ _ H).
  - split; [by left|]. exact (exit_done_effect _ _ _ H).
Qed.

Lemma client_session_wiped cfg s code s' : client_session cfg s code s' ->
  (code = 0 \/ code = 1) /\ key_wiped (cli_world s').
Proof.
  intros [? ? ? ? _ _ H|? ? ? ? ? _ _ _ (u & s5 & _ & H)%run_bind_inv|? ? ? ? ? ? ? _ _ _ _ _ H].
  - split; [by right|]. exact (exit_failed_effect _ _ _ H).
  - split; [by left|]. exact (exit_done_effect _ _ _ H).
  - split; [by left|]. exact (exit_done_effect _ _ _ H).
Qed.

(** Start-up that ends the program. *)
Lemma main_setup_exit o mode opts st tty euid (w w' : world) code :
  run (main_setup (S := world) o mode opts st tty euid) w = Some (inl code, w') -> key_wiped w ->
  (code = 0 \/ code = 1) /\ key_wiped w'.
Proof.
  intros H Hw. unfold main_setup in H. apply run_bind_inv in H as ([r cfg] & w1 & H1 & H).
  rewrite run_local in H1. destruct (cli_parse o mode opts st); [|done]. injection H1 as -> <-.
  destruct r; [|injection H as <- <-; auto..].
  do 2 apply run_bind_inv in H as (? & ? & _ & H). apply run_bind_inv in H as (key & w2 & _ & H).
  apply run_bind_inv in H as (? & w3 & _ & H). apply run_bind_inv in H as (k & w4 & _ & H).
  apply run_bind_inv in H as (cfg' & w5 & _ & H). destruct (app_prepare_runtime euid).
  - apply run_bind_inv in H as (? & ? & _ & H). discriminate H.
  - apply run_bind_inv in H as (u & w6 & H6 & [= <- <-]). split; [by left|]. exact (wipe_key_effect _ _ _ H6).
  - apply run_bind_inv in H as (u & w6 & H6 & [= <- <-]). split; [by right|]. exact (wipe_key_effect _ _ _ H6).
Qed.

(** C14: whatever the command line, the platform, the network and the kernel
    do, in either mode and on every path (a refused command line, missing
    privileges, failed initialisation, a thread that cannot be created, a
    regular run under any interleaving), a program that exits does so with code
    0 or 1 and with the transport key overwritten with zeros. *)
Theorem main_wipes_key (o : outside) (mode : option bytes) (opts : list (Z * bytes)) (st : stream) (tty : bool)
    (euid : Z) (w w' : world) (code : Z)
    (Hkey : g_crypto_key w = replicate 32 0) (Hmain : main o mode opts st tty euid w code w') :
  (code = 0 \/ code = 1) /\ take 32 (g_crypto_key w') = replicate 32 0.
Proof.
  destruct Hmain as [code w' H|cfg w1 code s' _ _ H|cfg w1 code s' _ _ H].
  - apply (main_setup_exit _ _ _ _ _ _ _ _ _ H). unfold key_wiped. now rewrite Hkey.
  - exact (server_session_wiped _ _ _ _ H).
  - exact (client_session_wiped _ _ _ _ H).
Qed.
End wiped.

(** A process that was just loaded; an ordinary user starts the server in it. *)
Definition loaded : world := set_key (replicate 32 0) calm_world.

Definition left_by {A} (r : option (A * world)) : world :=
  match r with Some (_, w) => w | None => loaded end.

Lemma run_left {A} (p : prog world A) w a :
  option_map fst (run p w) = Some a -> run p w = Some (a, left_by (run p w)).
Proof. destruct (run p w) as [[x w']|]; cbn; congruence. Qed.

Definition refused : prog world (Z + config_t) :=
  main_setup (M := SampleCipher.sample) no_outside (Some (arg "server")) [(107, arg "a-long-random-key")]
    (Stream [] false 0) false 1000.

Example main_wipes_key_witness :
  (1 = 0 \/ 1 = 1) /\ take 32 (g_crypto_key (left_by (run refused loaded))) = replicate 32 0.
Proof.
  apply (main_wipes_key (M := SampleCipher.sample) no_outside (Some (arg "server"))
    [(107, arg "a-long-random-key")] (Stream [] false 0) false 1000 loaded (left_by (run refused loaded)) 1); [reflexivity|].
  apply main_no_start, run_left. vm_compute. reflexivity.
Defined.

(** * Commands on the standard input *)

(** A line that fits the array of [stdin_control_thread] with its end. *)
Definition short_line (l : bytes) : Prop :=
  (length l <= 30)%nat /\ Forall (fun b => b <> 0 /\ b <> 10 /\ b <> 13) l.

Lemma fgets_line n : forall l rest, (length l < n)%nat -> Forall (fun b => b <> 10) l ->
  fgets_loop n (l ++ 10 :: rest) = (l ++ [10], rest, false).
Proof.
  induction n as [|n IH]; intros [|b l] rest Hn Hl; cbn [length] in Hn; try lia; cbn [fgets_loop app]; [done|].
  inversion_clear Hl as [|? ? Hb Hl']. destruct (Z.eqb_spec b 10); [done|]. rewrite IH by (done || lia). done.
Qed.

Lemma span_line l rest : Forall (fun b => b <> 0 /\ b <> 10 /\ b <> 13) l -> (span not_line_end (l ++ 10 :: rest)).1 = l.
Proof.
  induction 1 as [|b l (_ & Hb1 & Hb2) _ IH]; [done|]. cbn [app span]. unfold not_line_end at 1.
  destruct (Z.eqb_spec b 13), (Z.eqb_spec b 10); try done. cbn [orb negb].
  destruct (span not_line_end (l ++ 10 :: rest)). cbn in *. congruence.
Qed.

Lemma control_line l rest lf : short_line l ->
  stdin_control_step (Stream (l ++ 10 :: rest) false lf) =
  Some (if is_stop_command l then (None, true) else (Some (Stream rest false lf), false)).
Proof.
  intros [Hlen Hl]. unfold stdin_control_step, fgets. cbn [st_data]. rewrite fgets_line; [|cbn; lia|].
  2:{ revert Hl. apply Forall_impl. now intros b (_ & ? & _). }
  destruct (l ++ [10]) as [|b t] eqn:E; [now destruct l|]. rewrite <- E. clear E b t. cbn [st_eof orb].
  assert (Hz : Forall (fun b => b <> 0) (l ++ [10])).
  { apply Forall_app. split; [|by repeat constructor]. revert Hl. apply Forall_impl. now intros b (? & _). }
  unfold trim_line_end. rewrite c_str_app by done. rewrite (span_line l []) by done.
  rewrite (mem_write_at l [10] [0] [0]) by (done || now rewrite <- app_assoc).
  change ([0] ++ [0]) with (0 :: [0]). rewrite c_str_app by (apply Forall_app in Hz; apply Hz). done.
Qed.

(** On an input made of lines that fit, the thread ends, and it requests a stop
    exactly if one of them is a command. *)
Lemma stdin_control_stops (lines : list bytes) (lf : Z) :
  Forall short_line lines ->
  stdin_control_thread (Stream (concat (map (fun l => l ++ [10]) lines)) false lf) = Some (existsb is_stop_command lines).
Proof.
  intros Hl. unfold stdin_control_thread. cbn [st_data].
  assert (Hf : (length lines < S (length (concat (map (fun l => l ++ [10%Z]) lines))))%nat).
  { clear. induction lines as [|l lines IH]; [cbn; lia|]. cbn [map concat length]. rewrite !length_app. cbn [length]. lia. }
  revert Hf. generalize (S (length (concat (map (fun l => l ++ [10]) lines)))) as fuel.
  induction Hl as [|l lines Hline _ IH]; intros [|fuel] Hf; cbn [length] in Hf; try lia; [done|].
  cbn [stdin_control map concat existsb]. rewrite <- app_assoc. cbn [app]. rewrite control_line by done.
  destruct (is_stop_command l); [done|]. cbn [orb]. apply IH. lia.
Qed.

(** A line of 35 bytes is read in two parts, and the second is a command. *)
Example stdin_long_line_stops :
  stdin_control_thread (Stream (replicate 31 120 ++ str "stop" ++ [10]) false 0) = Some true.
Proof. reflexivity. Qed.
