(* ===== verification/Relaunch.v ===== *)
(** The command line of an elevated relaunch on Windows: the quoting of
    [app/win_runtime.c] into a bounded array, and that of the desktop program
    ([gui/windows/runner/utils.cpp]), which builds a string of its own.  Both
    are read back by the convention the Windows documentation gives for
    command lines. *)
From stdpp Require Import base list numbers option.
From S2P Require Import Prelude Prog.

(** * The bounded array ([win_runtime.c]) *)

(** What an append leaves: whether it fitted, the array and [*pos]. *)
Definition appended : Type := bool * bytes * Z.

Definition append_text (buf : bytes) (bufsize pos : Z) (text : bytes) : option appended :=
  let? t := c_str text in
  let len := zlen t in
  if bufsize <=? pos + len then Some (false, buf, pos)
  else
    let? buf := mem_write buf pos t in
    let pos := pos + len in
    let? buf := mem_write buf pos [0] in
    Some (true, buf, pos).

(** [if (!append) return false;] *)
Definition and_then (a : option appended) (k : bytes -> Z -> option appended) : option appended :=
  let? '(ok, buf, pos) := a in
  if (ok : bool) then k buf pos else Some (false, buf, pos).

(** [for (i = 0; i < n; i++) if (!append_text(...)) return false;] *)
Fixpoint append_times (n : nat) (buf : bytes) (bufsize pos : Z) (text : bytes) : option appended :=
  match n with
  | O => Some (true, buf, pos)
  | S n => and_then (append_text buf bufsize pos text) (fun buf pos => append_times n buf bufsize pos text)
  end.

(** The loop over the argument, up to and including its terminator. *)
Fixpoint quote_loop (p : bytes) (slashes : nat) (buf : bytes) (bufsize pos : Z) : option appended :=
  match p with
  | [] => None
  | c :: p =>
      if c =? 92 then quote_loop p (S slashes) buf bufsize pos
      else if (c =? 34) || (c =? 0) then
        and_then (append_times (slashes * 2) buf bufsize pos [92; 0]) (fun buf pos =>
          if c =? 34 then
            and_then (append_text buf bufsize pos [92; 34; 0]) (fun buf pos => quote_loop p 0 buf bufsize pos)
          else append_text buf bufsize pos [34; 0])
      else
        and_then (append_times slashes buf bufsize pos [92; 0]) (fun buf pos =>
          and_then (append_text buf bufsize pos [c; 0]) (fun buf pos => quote_loop p 0 buf bufsize pos))
  end.

Definition append_quoted_arg (buf : bytes) (bufsize pos : Z) (arg : bytes) : option appended :=
  and_then (append_text buf bufsize pos [34; 0]) (fun buf pos => quote_loop arg 0 buf bufsize pos).

(** [argv] without the program's name; [first] is [i == 1]. *)
Fixpoint relaunch_loop (first : bool) (argv : list bytes) (buf : bytes) (bufsize pos : Z) : option appended :=
  match argv with
  | [] => Some (true, buf, pos)
  | arg :: argv =>
      and_then (if first then Some (true, buf, pos) else append_text buf bufsize pos [32; 0]) (fun buf pos =>
        and_then (append_quoted_arg buf bufsize pos arg) (fun buf pos => relaunch_loop false argv buf bufsize pos))
  end.

Definition build_relaunch_params (argv : list bytes) (buf : bytes) (bufsize : Z) : option (bool * bytes) :=
  let? buf := mem_write buf 0 [0] in
  let? '(ok, buf, _) := relaunch_loop true argv buf bufsize 0 in
  Some (ok, buf).

Definition MAX_PATH : Z := 260.

(** The result and the parameters with which the program was started again.
    [module] is the answer of [GetModuleFileNameA], [shell] that of
    [ShellExecuteA] to the parameters, which are left out when there are none. *)
Definition win_runtime_relaunch_as_admin (module : Z) (shell : option bytes -> Z) (argv : list bytes) (params : bytes) :
    option (bool * option (option bytes)) :=
  if (module =? 0) || (MAX_PATH <=? module) then Some (false, None)
  else
    let? '(ok, params) := build_relaunch_params argv params 8192 in
    if negb ok then Some (false, None)
    else
      let? c := buf_get params 0 in
      let? given := if c =? 0 then Some None else option_map Some (c_str params) in
      Some (negb (shell given <=? 32), Some given).

(** * The desktop program ([utils.cpp]) *)

(** The loop of [QuoteArgument]; its argument ends at its terminator. *)
Fixpoint quote_chars (ch : list Z) (slashes : nat) (quoted : list Z) : option (list Z) :=
  match ch with
  | [] => None
  | c :: ch =>
      if c =? 92 then quote_chars ch (S slashes) quoted
      else if (c =? 34) || (c =? 0) then
        let quoted := quoted ++ replicate (slashes * 2) 92 in
        if c =? 34 then quote_chars ch 0 (quoted ++ [92; 34]) else Some quoted
      else quote_chars ch 0 ((quoted ++ replicate slashes 92) ++ [c])
  end.

Definition QuoteArgument (argument : list Z) : option (list Z) :=
  let? quoted := quote_chars argument 0 [34] in Some (quoted ++ [34]).

Fixpoint parameters_loop (argv : list (list Z)) (parameters : list Z) : option (list Z) :=
  match argv with
  | [] => Some parameters
  | arg :: argv =>
      let parameters := match parameters with [] => [] | _ => parameters ++ [32] end in
      let? q := QuoteArgument arg in
      parameters_loop argv (parameters ++ q)
  end.

(** As above; [argv] is [CommandLineToArgvW] without the program's name, [None]
    when the call fails. *)
Definition RelaunchAsAdministrator (module : Z) (shell : option (list Z) -> Z) (argv : option (list (list Z))) :
    option (bool * option (option (list Z))) :=
  if (module =? 0) || (MAX_PATH <=? module) then Some (false, None)
  else match argv with
  | None => Some (false, None)
  | Some argv =>
      let? parameters := parameters_loop argv [] in
      let given := match parameters with [] => None | _ => Some parameters end in
      Some (32 <? shell given, Some given)
  end.

(** * What is written *)

(** The text of an argument [s] after the opening quote, [n] backslashes being
    pending. *)
Fixpoint quote_text (n : nat) (s : bytes) : bytes :=
  match s with
  | [] => replicate (n * 2) 92
  | c :: s =>
      if c =? 92 then quote_text (S n) s
      else if c =? 34 then replicate (n * 2) 92 ++ [92; 34] ++ quote_text 0 s
      else replicate n 92 ++ c :: quote_text 0 s
  end.

Definition quoted (s : bytes) : bytes := 34 :: quote_text 0 s ++ [34].

Fixpoint command_line (args : list bytes) : bytes :=
  match args with
  | [] => []
  | [a] => quoted a
  | a :: args => quoted a ++ 32 :: command_line args
  end.

(** * Writing into the array *)

(** The array holds [text], terminated, with room for it. *)
Definition holding (buf : bytes) (size : Z) (text : bytes) : Prop :=
  (exists tail, buf = text ++ 0 :: tail) /\ zlen text < size <= zlen buf.

(** The operation refuses exactly what does not fit. *)
Definition writes (o : option appended) (size : Z) (text : bytes) : Prop :=
  exists ok buf pos, o = Some (ok, buf, pos) /\
    if size <=? zlen text then ok = false else ok = true /\ pos = zlen text /\ holding buf size text.

Lemma writes_ret buf size text : holding buf size text -> writes (Some (true, buf, zlen text)) size text.
Proof.
  intros H. exists true, buf, (zlen text). split; [done|]. destruct H as [H1 H2].
  destruct (Z.leb_spec size (zlen text)); [lia|]. done.
Qed.

Lemma writes_then a k size text more :
  writes a size text -> (forall buf, holding buf size text -> writes (k buf (zlen text)) size (text ++ more)) ->
  writes (and_then a k) size (text ++ more).
Proof.
  intros (ok & buf & pos & -> & H) Hk. cbn [and_then]. destruct (Z.leb_spec size (zlen text)).
  - subst ok. exists false, buf, pos. split; [done|]. rewrite zlen_app. pose proof (zlen_nonneg more).
    destruct (Z.leb_spec size (zlen text + zlen more)); [done|lia].
  - destruct H as (-> & -> & Hh). now apply Hk.
Qed.

Lemma append_text_writes buf size text arr t :
  c_str arr = Some t -> holding buf size text -> writes (append_text buf size (zlen text) arr) size (text ++ t).
Proof.
  intros Hc [[tail ->] Hs]. unfold append_text, writes. rewrite Hc.
  assert (Hz : zlen (text ++ t) = zlen text + zlen t) by apply zlen_app. rewrite Hz.
  destruct (Z.leb_spec size (zlen text + zlen t)); [now eexists _, _, _|].
  rewrite zlen_app, zlen_cons in Hs. pose proof (zlen_nonneg t).
  destruct (split_at (length t) (0 :: tail)) as (old & rest & Ht & Ho); [rewrite length_cons; zl|].
  rewrite Ht. destruct rest as [|x rest].
  { exfalso. apply (f_equal length) in Ht. rewrite app_nil_r in Ht. cbn [length] in Ht. zl. }
  rewrite (mem_write_at text old (x :: rest)) by (done || zl).
  replace (text ++ t ++ x :: rest) with ((text ++ t) ++ [x] ++ rest) by now rewrite <- app_assoc.
  rewrite (mem_write_at (text ++ t) [x] rest) by first [done|now rewrite Hz|zl].
  eexists _, _, _. split; [reflexivity|]. split; [done|]. split; [done|]. split.
  - exists rest. reflexivity.
  - rewrite !zlen_app. cbn [app]. rewrite zlen_cons. apply (f_equal length) in Ht. rewrite length_app in Ht.
    cbn [length] in Ht. zl.
Qed.

Lemma append_char_writes c buf size text :
  c <> 0 -> holding buf size text -> writes (append_text buf size (zlen text) [c; 0]) size (text ++ [c]).
Proof. intros Hc. apply append_text_writes. cbn. now destruct (Z.eqb_spec c 0). Qed.

Lemma append_times_writes n : forall buf size text,
  holding buf size text -> writes (append_times n buf size (zlen text) [92; 0]) size (text ++ replicate n 92).
Proof.
  induction n as [|n IH]; intros buf size text H; cbn [append_times replicate].
  - rewrite app_nil_r. now apply writes_ret.
  - change (92 :: replicate n 92) with ([92] ++ replicate n 92). rewrite app_assoc.
    apply writes_then; [now apply append_char_writes|]. intros buf' H'. now apply IH.
Qed.

Lemma quote_loop_writes s t : Forall (fun c => c <> 0) s -> forall n buf size text,
  holding buf size text -> writes (quote_loop (s ++ 0 :: t) n buf size (zlen text)) size (text ++ quote_text n s ++ [34]).
Proof.
  induction 1 as [|c s Hc _ IH]; intros n buf size text H; cbn [app quote_loop quote_text].
  - change (0 =? 92) with false. change ((0 =? 34) || (0 =? 0)) with true. cbn iota. rewrite app_assoc.
    apply writes_then; [now apply append_times_writes|]. intros buf' H'. now apply append_char_writes.
  - destruct (Z.eqb_spec c 92) as [->|H92]; [now apply IH|].
    destruct (Z.eqb_spec c 34) as [->|H34]; cbn [orb].
    + rewrite <- !app_assoc, app_assoc. apply writes_then; [now apply append_times_writes|]. intros buf' H'.
      change ((92 :: 34 :: quote_text 0 s) ++ [34]) with ([92; 34] ++ quote_text 0 s ++ [34]). rewrite app_assoc. apply writes_then; [now apply append_text_writes|]. intros buf2 H2. now apply IH.
    + destruct (Z.eqb_spec c 0); [done|]. rewrite <- app_assoc, app_assoc.
      apply writes_then; [now apply append_times_writes|]. intros buf' H'.
      change ((c :: quote_text 0 s) ++ [34]) with ([c] ++ quote_text 0 s ++ [34]). rewrite app_assoc.
      apply writes_then; [now apply append_char_writes|]. intros buf2 H2. now apply IH.
Qed.

Lemma quoted_arg_writes arg s buf size text :
  c_str arg = Some s -> holding buf size text -> writes (append_quoted_arg buf size (zlen text) arg) size (text ++ quoted s).
Proof.
  intros Hs H. apply c_str_spec in Hs as [Hs [t ->]]. unfold append_quoted_arg, quoted.
  change (34 :: quote_text 0 s ++ [34]) with ([34] ++ quote_text 0 s ++ [34]). rewrite app_assoc.
  apply writes_then; [now apply append_char_writes|]. intros buf' H'. now apply quote_loop_writes.
Qed.

(** What the arguments add to a line, in front of which a space stands unless
    it is the first. *)
Definition line_of (first : bool) (args : list bytes) : bytes :=
  match args with [] => [] | _ => (if first then [] else [32]) ++ command_line args end.

Lemma line_of_cons first a args : line_of first (a :: args) = (if first then [] else [32]) ++ quoted a ++ line_of false args.
Proof. unfold line_of. cbn [command_line]. destruct args; [now rewrite app_nil_r|]. reflexivity. Qed.

Lemma relaunch_loop_writes argv args : Forall2 (fun arg s => c_str arg = Some s) argv args -> forall first buf size text,
  holding buf size text -> writes (relaunch_loop first argv buf size (zlen text)) size (text ++ line_of first args).
Proof.
  induction 1 as [|arg a argv args Ha _ IH]; intros first buf size text H; cbn [relaunch_loop].
  - cbn [line_of]. rewrite app_nil_r. now apply writes_ret.
  - rewrite line_of_cons, app_assoc. apply writes_then.
    + destruct first; [rewrite app_nil_r; now apply writes_ret|now apply append_char_writes].
    + intros buf' H'. rewrite app_assoc. apply writes_then; [now apply quoted_arg_writes|]. intros buf2 H2. now apply IH.
Qed.

Lemma relaunch_params_spec argv args buf size :
  Forall2 (fun arg s => c_str arg = Some s) argv args -> 1 <= size <= zlen buf ->
  exists ok buf', build_relaunch_params argv buf size = Some (ok, buf') /\
    if size <=? zlen (command_line args) then ok = false else ok = true /\ holding buf' size (command_line args).
Proof.
  intros Ha Hs. unfold build_relaunch_params. destruct buf as [|x buf]; [rewrite zlen_nil in Hs; lia|].
  rewrite (mem_write_at [] [x] buf) by done. cbn [app].
  assert (Hh : holding (0 :: buf) size []) by (split; [now exists buf|rewrite zlen_nil, zlen_cons in *; lia]).
  destruct (relaunch_loop_writes argv args Ha true _ size [] Hh) as (ok & buf' & pos & Hr & HH).
  change (relaunch_loop true argv (0 :: buf) size 0 = Some (ok, buf', pos)) in Hr. rewrite Hr. exists ok, buf'. split; [done|]. cbn [app] in HH.
  replace (line_of true args) with (command_line args) in HH by now destruct args.
  destruct (size <=? _); [done|]. destruct HH as (-> & _ & HH). done.
Qed.

(** * The desktop program writes the same *)

Lemma quote_chars_spec s t : Forall (fun c => c <> 0) s -> forall n acc,
  quote_chars (s ++ 0 :: t) n acc = Some (acc ++ quote_text n s).
Proof.
  induction 1 as [|c s Hc _ IH]; intros n acc; cbn [app quote_chars quote_text].
  - reflexivity.
  - destruct (Z.eqb_spec c 92) as [->|H92]; [apply IH|].
    destruct (Z.eqb_spec c 34) as [->|H34]; cbn [orb]; [rewrite IH; now rewrite <- !app_assoc|].
    destruct (Z.eqb_spec c 0); [done|]. rewrite IH. now rewrite <- !app_assoc.
Qed.

Lemma QuoteArgument_spec arg s : c_str arg = Some s -> QuoteArgument arg = Some (quoted s).
Proof.
  intros [Hs [t ->]]%c_str_spec. unfold QuoteArgument. rewrite quote_chars_spec by done. reflexivity.
Qed.

Lemma parameters_loop_spec argv args : Forall2 (fun arg s => c_str arg = Some s) argv args -> forall acc,
  parameters_loop argv acc = Some (acc ++ line_of (bool_decide (acc = [])) args).
Proof.
  induction 1 as [|arg a argv args Ha _ IH]; intros acc; cbn [parameters_loop].
  - now rewrite app_nil_r.
  - rewrite (QuoteArgument_spec _ _ Ha), IH, line_of_cons. destruct acc as [|x acc]; [done|].
    rewrite bool_decide_eq_false_2 by (destruct acc; done). rewrite bool_decide_eq_false_2 by done.
    now rewrite <- !app_assoc.
Qed.

(** * Reading it back *)

(** The documented convention for command lines, as far as quoted arguments
    go: [quoted_part input text rest] when, after an opening quote, [input] is
    read as [text] up to the closing quote, after which [rest] is left.
    Backslashes are literal unless a quote follows: [2 n] of them and a quote
    are [n] backslashes and the end of the quoted part, [2 n + 1] of them and a
    quote are [n] backslashes and a quote. *)
Inductive quoted_part : bytes -> bytes -> bytes -> Prop :=
| part_close n rest :
    head rest <> Some 34 -> quoted_part (replicate (n * 2) 92 ++ 34 :: rest) (replicate n 92) rest
| part_escaped n input text rest :
    quoted_part input text rest ->
    quoted_part (replicate (n * 2) 92 ++ 92 :: 34 :: input) (replicate n 92 ++ 34 :: text) rest
| part_char n c input text rest :
    c <> 34 -> c <> 92 -> quoted_part input text rest ->
    quoted_part (replicate n 92 ++ c :: input) (replicate n 92 ++ c :: text) rest.

(** Arguments are separated by spaces. *)
Inductive splits : bytes -> list bytes -> Prop :=
| splits_none : splits [] []
| splits_last input a : quoted_part input a [] -> splits (34 :: input) [a]
| splits_more input a rest args :
    quoted_part input a (32 :: rest) -> splits rest args -> splits (34 :: input) (a :: args).

(** A reader of command lines that follows the convention. *)
Definition conforms (parse : bytes -> list bytes) : Prop := forall line args, splits line args -> parse line = args.

Lemma quote_text_part rest s : head rest <> Some 34 -> forall n,
  quoted_part (quote_text n s ++ 34 :: rest) (replicate n 92 ++ s) rest.
Proof.
  intros Hr. induction s as [|c s IH]; intros n; cbn [quote_text].
  - rewrite app_nil_r. now apply part_close.
  - destruct (Z.eqb_spec c 92) as [->|H92].
    + replace (replicate n 92 ++ 92 :: s) with (replicate (S n) 92 ++ s); [apply IH|].
      rewrite <- (Nat.add_1_r n), replicate_add, <- app_assoc. reflexivity.
    + destruct (Z.eqb_spec c 34) as [->|H34]; rewrite <- app_assoc; [apply part_escaped|apply part_char]; auto; apply (IH 0%nat).
Qed.

Lemma command_line_splits args : splits (command_line args) args.
Proof.
  induction args as [|a args IH]; [constructor|]. cbn [command_line]. destruct args as [|b args].
  - apply splits_last. apply (quote_text_part [] a ltac:(done) 0).
  - unfold quoted at 1. cbn [app]. rewrite <- app_assoc. eapply splits_more; [|exact IH].
    now apply (quote_text_part (32 :: command_line (b :: args)) a ltac:(done) 0).
Qed.

Lemma command_line_nil args : command_line args = [] <-> args = [].
Proof. destruct args as [|a [|b args]]; split; try done. Qed.

Lemma quote_text_nonzero s : Forall (fun c => c <> 0) s -> forall n, Forall (fun c => c <> 0) (quote_text n s).
Proof.
  assert (Hr : forall n, Forall (fun c => c <> 0) (replicate n 92)) by (intros n; now apply Forall_replicate).
  induction 1 as [|c s Hc _ IH]; intros n; cbn [quote_text]; [done|].
  repeat case_match; rewrite ?Forall_app, ?Forall_cons; auto 6.
Qed.

Lemma command_line_nonzero args : Forall (Forall (fun c => c <> 0)) args -> Forall (fun c => c <> 0) (command_line args).
Proof.
  assert (Hq : forall a, Forall (fun c => c <> 0) a -> Forall (fun c => c <> 0) (quoted a)).
  { intros a Ha. constructor; [done|]. apply Forall_app. split; [now apply quote_text_nonzero|by repeat constructor]. }
  induction 1 as [|a args Ha Hs IH]; [constructor|]. cbn [command_line]. destruct args as [|b args]; [auto|].
  apply Forall_app. split; [auto|]. now constructor.
Qed.

(** A reader, character by character: whether it is between quotes, the
    backslashes that are pending, the argument so far. *)
Fixpoint scan (inside : bool) (slashes : nat) (cur : option bytes) (input : bytes) : list bytes :=
  let so_far := from_option id [] cur in
  match input with
  | [] => match cur, slashes with None, O => [] | _, _ => [so_far ++ replicate slashes 92] end
  | c :: t =>
      if c =? 92 then scan inside (S slashes) cur t
      else if c =? 34 then
        if Nat.odd slashes then scan inside 0 (Some (so_far ++ replicate (Nat.div2 slashes) 92 ++ [34])) t
        else scan (negb inside) 0 (Some (so_far ++ replicate (Nat.div2 slashes) 92)) t
      else if ((c =? 32) || (c =? 9)) && negb inside then
        match cur, slashes with
        | None, O => scan inside 0 None t
        | _, _ => (so_far ++ replicate slashes 92) :: scan inside 0 None t
        end
      else scan inside 0 (Some (so_far ++ replicate slashes 92 ++ [c])) t
  end.

Definition read_line (line : bytes) : list bytes := scan false 0 None line.

Lemma scan_slashes inside cur t n : forall k,
  scan inside k cur (replicate n 92 ++ t) = scan inside (n + k) cur t.
Proof.
  induction n as [|n IH]; intros k; [done|]. cbn [replicate app scan]. change (92 =? 92) with true. cbn iota.
  rewrite IH. f_equal. lia.
Qed.

Lemma scan_part input text rest : quoted_part input text rest -> forall cur,
  scan true 0 (Some cur) input = scan false 0 (Some (cur ++ text)) rest.
Proof.
  induction 1 as [n rest Hr|n input text rest _ IH|n c input text rest H34 H92 _ IH]; intros cur; rewrite scan_slashes, Nat.add_0_r.
  - cbn [scan]. change (34 =? 92) with false. change (34 =? 34) with true. cbn iota.
    rewrite Nat.mul_comm, Nat.odd_mul, Nat.div2_double. reflexivity.
  - cbn [scan]. change (92 =? 92) with true. change (34 =? 92) with false. change (34 =? 34) with true. cbn iota.
    rewrite (Nat.mul_comm n 2). replace (Nat.odd (S (2 * n))) with true by now rewrite Nat.odd_succ, Nat.even_mul.
    rewrite Nat.div2_succ_double, IH. cbn [from_option id]. now rewrite <- !app_assoc.
  - cbn [scan]. destruct (Z.eqb_spec c 92); [done|]. destruct (Z.eqb_spec c 34); [done|].
    rewrite andb_false_r, IH. cbn [from_option id]. now rewrite <- !app_assoc.
Qed.

Lemma read_line_conforms : conforms read_line.
Proof.
  intros line args. unfold read_line. induction 1 as [|input a Hp|input a rest args Hp _ IH]; [done|..];
    cbn [scan]; change (34 =? 92) with false; change (34 =? 34) with true; cbn;
    rewrite (scan_part _ _ _ Hp); cbn; rewrite app_nil_r; [done|]. now rewrite IH.
Qed.

(** * Properties *)

(** The arguments a program started with these parameters sees. *)
Definition arguments (parse : bytes -> list bytes) (given : option bytes) : list bytes :=
  match given with Some line => parse line | None => [] end.

Definition terminated (arg s : bytes) : Prop := c_str arg = Some s.

Lemma given_arguments parse args :
  conforms parse -> arguments parse (match command_line args with [] => None | _ => Some (command_line args) end) = args.
Proof.
  intros Hp. destruct (command_line args) as [|c line] eqn:E; cbn [arguments].
  - symmetry. now apply command_line_nil.
  - rewrite <- E. apply Hp, command_line_splits.
Qed.

(** The parameters both programs pass. *)
Definition given_for (args : list bytes) : option bytes :=
  match command_line args with [] => None | _ => Some (command_line args) end.

Lemma relaunch_fits module shell argv args params :
  Forall2 terminated argv args -> zlen params = 8192 -> module <> 0 -> module < MAX_PATH ->
  zlen (command_line args) < 8192 ->
  win_runtime_relaunch_as_admin module shell argv params =
    Some (negb (shell (given_for args) <=? 32), Some (given_for args)).
Proof.
  intros Hargs Hroom H0 HM Hfit. unfold win_runtime_relaunch_as_admin, given_for.
  destruct (Z.eqb_spec module 0); [done|]. destruct (Z.leb_spec MAX_PATH module); [lia|]. cbn [orb].
  destruct (relaunch_params_spec argv args params 8192 Hargs ltac:(lia)) as (ok & buf & -> & HH).
  destruct (Z.leb_spec 8192 (zlen (command_line args))); [lia|]. destruct HH as [-> [[tail ->] _]]. cbn [negb].
  assert (Hn : Forall (fun c => c <> 0) (command_line args)).
  { apply command_line_nonzero. clear -Hargs. induction Hargs as [|? ? ? ? H]; constructor; auto. now apply c_str_spec in H. }
  destruct (command_line args) as [|c line] eqn:E; [reflexivity|].
  cbn [app]. change (buf_get (c :: line ++ 0 :: tail) 0) with (Some c). inversion Hn as [|? ? Hc]; subst.
  destruct (Z.eqb_spec c 0); [done|]. rewrite app_comm_cons, c_str_app by done. reflexivity.
Qed.

(** The elevated relaunch of the command line program is exact and bounded:
    for every list of arguments it either starts nothing and reports failure,
    exactly when the path of the executable is unknown or the quoted command
    line does not fit into the 8192 bytes reserved for it, or it starts the
    program with parameters that any reader which follows the documented
    convention splits into the same arguments, and reports whether that
    succeeded.  No access is out of bounds. *)
Theorem relaunch_passes_arguments (parse : bytes -> list bytes) (module : Z) (shell : option bytes -> Z)
    (argv args : list bytes) (params : bytes)
    (Hparse : conforms parse) (Hargs : Forall2 terminated argv args) (Hroom : zlen params = 8192) :
  exists ok given, win_runtime_relaunch_as_admin module shell argv params = Some (ok, given) /\
    match given with
    | None => ok = false /\ (module = 0 \/ MAX_PATH <= module \/ 8192 <= zlen (command_line args))
    | Some g => module <> 0 /\ module < MAX_PATH /\ zlen (command_line args) < 8192 /\
        arguments parse g = args /\ ok = negb (shell g <=? 32)
    end.
Proof.
  destruct (Z.eqb_spec module 0) as [->|H0]; [exists false, None; auto|].
  destruct (Z.leb_spec MAX_PATH module) as [HM|HM].
  { exists false, None. unfold win_runtime_relaunch_as_admin. destruct (Z.leb_spec MAX_PATH module); [|lia].
    rewrite orb_true_r. auto. }
  destruct (Z.leb_spec 8192 (zlen (command_line args))) as [Hlong|Hfit].
  - exists false, None. unfold win_runtime_relaunch_as_admin.
    destruct (Z.eqb_spec module 0); [done|]. destruct (Z.leb_spec MAX_PATH module); [lia|]. cbn [orb].
    destruct (relaunch_params_spec argv args params 8192 Hargs ltac:(lia)) as (ok & buf & -> & HH).
    destruct (Z.leb_spec 8192 (zlen (command_line args))); [|lia]. subst ok. auto.
  - eexists _, _. split; [apply (relaunch_fits module shell argv args); assumption|]. cbn iota.
    pose proof (given_arguments parse args Hparse). auto 6.
Qed.

(** A command line with a space, quotes and backslashes in it. *)
Definition sample_argv : list bytes :=
  [str "client" ++ [0]; str "-k" ++ [0]; str "a b" ++ [34; 92; 0]; [0]].

Definition sample_args : list bytes := [str "client"; str "-k"; str "a b" ++ [34; 92]; []].

Example sample_line : command_line sample_args =
  [34] ++ str "client" ++ [34; 32; 34] ++ str "-k" ++ [34; 32; 34] ++ str "a b" ++ [92; 34; 92; 92; 34; 32; 34; 34].
Proof. reflexivity. Qed.

Example sample_read : read_line (command_line sample_args) = sample_args.
Proof. reflexivity. Qed.

Lemma sample_terminated : Forall2 terminated sample_argv sample_args.
Proof. repeat constructor. Qed.

Example relaunch_passes_arguments_witness :
  exists ok given, win_runtime_relaunch_as_admin 40 (fun _ => 42) sample_argv (replicate 8192 7) = Some (ok, given) /\
    match given with
    | None => ok = false /\ (40 = 0 \/ MAX_PATH <= 40 \/ 8192 <= zlen (command_line sample_args))
    | Some g => 40 <> 0 /\ 40 < MAX_PATH /\ zlen (command_line sample_args) < 8192 /\
        arguments read_line g = sample_args /\ ok = negb (42 <=? 32)
    end.
Proof.
  apply (relaunch_passes_arguments read_line 40 (fun _ => 42) sample_argv sample_args (replicate 8192 7));
    [exact read_line_conforms|exact sample_terminated|vm_compute; reflexivity].
Defined.

(** The desktop program builds its command line in a string that grows, the
    command line program in a bounded array, from arguments of the same
    shape: whenever the array is large enough they start the elevated program
    with the same parameters, which are read back as the arguments. *)
Theorem relaunch_programs_agree (parse : bytes -> list bytes) (module : Z) (shell : option bytes -> Z)
    (argv args : list bytes) (params : bytes)
    (Hparse : conforms parse) (Hargs : Forall2 terminated argv args) (Hroom : zlen params = 8192)
    (Hmodule : 0 < module < MAX_PATH) :
  exists given, arguments parse given = args /\
    RelaunchAsAdministrator module shell (Some argv) = Some (32 <? shell given, Some given) /\
    (zlen (command_line args) < 8192 ->
     win_runtime_relaunch_as_admin module shell argv params = RelaunchAsAdministrator module shell (Some argv)).
Proof.
  assert (HR : RelaunchAsAdministrator module shell (Some argv) = Some (32 <? shell (given_for args), Some (given_for args))).
  { unfold RelaunchAsAdministrator. destruct (Z.eqb_spec module 0); [lia|]. destruct (Z.leb_spec MAX_PATH module); [lia|].
    cbn [orb]. rewrite (parameters_loop_spec argv args Hargs), bool_decide_eq_true_2 by done. cbn [app].
    replace (line_of true args) with (command_line args) by now destruct args. reflexivity. }
  exists (given_for args). split; [now apply given_arguments|]. split; [done|]. intros Hfit.
  rewrite HR, (relaunch_fits module shell argv args params) by (done || lia). now rewrite <- Z.ltb_antisym.
Qed.

Example relaunch_programs_agree_witness :
  exists given, arguments read_line given = sample_args /\
    RelaunchAsAdministrator 40 (fun _ => 42) (Some sample_argv) = Some (32 <? 42, Some given) /\
    (zlen (command_line sample_args) < 8192 ->
     win_runtime_relaunch_as_admin 40 (fun _ => 42) sample_argv (replicate 8192 7) =
       RelaunchAsAdministrator 40 (fun _ => 42) (Some sample_argv)).
Proof.
  apply (relaunch_programs_agree read_line 40 (fun _ => 42) sample_argv sample_args (replicate 8192 7));
    [exact read_line_conforms|exact sample_terminated|vm_compute; reflexivity|unfold MAX_PATH; lia].
Defined.
