(* ===== verification/Runner.v ===== *)
(** The runner of the desktop program on Windows ([gui/windows/runner]:
    [win32_window.cpp], [flutter_window.cpp], [main.cpp], the console of
    [utils.cpp]).  A window object owns a window of the system; the system calls
    [WndProc] back, also while a call of the object to the system is under way
    ([CreateWindow], [DestroyWindow]).  Objects live in a store by address, so
    that a message to an object that is gone is undefined.  Windows and Flutter
    are an oracle.  Every call of [DefWindowProc] is the last thing its caller
    does, so that the messages it sends in turn are messages of their own. *)
From stdpp Require Import base gmap list numbers option.
From Stdlib Require Import Floats.SpecFloat.
From S2P Require Import Prelude Prog Relaunch.

(** * Objects *)

Inductive dynamic_type : Set := TWin32Window | TFlutterWindow.

(** A view controller of Flutter: whether [engine()] and [view()] are there, and
    the native window of the view. *)
Record controller : Set := Controller { fc_engine : bool; fc_view : bool; fc_native : Z }.

(** [Win32Window] and, in its last field, [FlutterWindow].  0 is [nullptr]. *)
Record window_obj : Set := WindowObj {
  w_type : dynamic_type;
  quit_on_close_ : bool;
  window_handle_ : Z;
  child_content_ : Z;
  flutter_controller_ : option controller
}.

Definition set_quit (b : bool) (o : window_obj) : window_obj :=
  WindowObj (w_type o) b (window_handle_ o) (child_content_ o) (flutter_controller_ o).
Definition set_handle (h : Z) (o : window_obj) : window_obj :=
  WindowObj (w_type o) (quit_on_close_ o) h (child_content_ o) (flutter_controller_ o).
Definition set_child (h : Z) (o : window_obj) : window_obj :=
  WindowObj (w_type o) (quit_on_close_ o) (window_handle_ o) h (flutter_controller_ o).
Definition set_controller (f : option controller) (o : window_obj) : window_obj :=
  WindowObj (w_type o) (quit_on_close_ o) (window_handle_ o) (child_content_ o) f.
Definition set_type (t : dynamic_type) (o : window_obj) : window_obj :=
  WindowObj t (quit_on_close_ o) (window_handle_ o) (child_content_ o) (flutter_controller_ o).

(** * Messages *)

Record RECT : Set := Rect { r_left : Z; r_top : Z; r_right : Z; r_bottom : Z }.

Inductive message : Set :=
| WM_NCCREATE (lpCreateParams : Z)
| WM_DESTROY
| WM_CLOSE
| WM_DPICHANGED (r : RECT)
| WM_SIZE
| WM_ACTIVATE
| WM_DWMCOLORIZATIONCOLORCHANGED
| WM_FONTCHANGE
| WM_OTHER (id : Z).

Definition WM_NCDESTROY : message := WM_OTHER 0x0082.

(** * The process and the system *)

(** Calls with an effect outside of the objects. *)
Inductive gui_event : Set :=
| GRegister (ok : bool)
| GUnregister (ok : bool)
| GCreate (x y width height : Z) (h : Z)
| GDestroyed (h : Z)
| GSetPos (h x y width height : Z)
| GMove (child x y width height : Z) (repaint : bool)
| GFocus (h : Z)
| GParent (child parent : Z)
| GShow (h : Z)
| GTheme (h : Z) (dark : bool)
| GDpiSupport (h : Z)
| GController (width height : Z)
| GControllerFreed
| GPlugins
| GNextFrame
| GRedraw
| GReloadFonts
| GQuit
| GConsole
| GRedirect (stream : Z)
| GResync
| GMessageBox
| GCoInitialize
| GArguments (l : list (list Z))
| GCoUninitialize.

(** Answers of the system and of Flutter, each by the number of the question. *)
Record gui_env : Type := GuiEnv {
  ge_register : nat -> bool;                     (* RegisterClass *)
  ge_handle : nat -> Z;                          (* the handle CreateWindow gives, 0 for none *)
  ge_sends : nat -> list message;                (* sent to a window while it is created or destroyed *)
  ge_dpi : nat -> Z;                             (* FlutterDesktopGetDpiForMonitor *)
  ge_client : nat -> RECT;                       (* GetClientRect of a window *)
  ge_controller : nat -> controller;             (* a new FlutterViewController *)
  ge_toplevel : nat -> Z -> message -> option Z; (* HandleTopLevelWindowProc *)
  ge_default : nat -> Z;                         (* the result of DefWindowProc *)
  ge_light : nat -> option Z;                    (* RegGetValue of AppsUseLightTheme *)
  ge_user32 : nat -> option bool;                (* LoadLibraryA, and whether GetProcAddress succeeds *)
  ge_shown : nat -> bool;                        (* ShowWindow *)
  ge_console : nat -> bool                       (* AttachConsole, IsDebuggerPresent, AllocConsole, freopen_s *)
}.

(** Globals of the process and the windows of the system: [instance_] is the
    registrar with its [class_registered_], [os_windows] maps the windows of the
    class to their [GWLP_USERDATA]. *)
Record core : Type := Core {
  objs : gmap Z window_obj;
  g_active_window_count : Z;
  instance_ : option bool;
  os_class : bool;
  os_windows : gmap Z Z;
  os_quit : bool
}.

Record gui : Type := Gui { g_env : gui_env; g_tick : nat; g_events : list gui_event; g_core : core }.

Definition with_core (c : core) (s : gui) : gui := Gui (g_env s) (g_tick s) (g_events s) c.

Definition with_objs (m : gmap Z window_obj) (c : core) : core :=
  Core m (g_active_window_count c) (instance_ c) (os_class c) (os_windows c) (os_quit c).
Definition with_count (n : Z) (c : core) : core :=
  Core (objs c) n (instance_ c) (os_class c) (os_windows c) (os_quit c).
Definition with_class (i : option bool) (b : bool) (c : core) : core :=
  Core (objs c) (g_active_window_count c) i b (os_windows c) (os_quit c).
Definition with_windows (m : gmap Z Z) (c : core) : core :=
  Core (objs c) (g_active_window_count c) (instance_ c) (os_class c) m (os_quit c).
Definition with_quit (b : bool) (c : core) : core :=
  Core (objs c) (g_active_window_count c) (instance_ c) (os_class c) (os_windows c) b.

Definition view {A} (f : core -> A) : prog gui A := atomic (fun s => Some (f (g_core s), s)).
Definition change (f : core -> core) : prog gui unit := atomic (fun s => Some (tt, with_core (f (g_core s)) s)).
Definition note (e : gui_event) : prog gui unit :=
  atomic (fun s => Some (tt, Gui (g_env s) (g_tick s) (e :: g_events s) (g_core s))).
Definition ask {A} (f : gui_env -> nat -> A) : prog gui A :=
  atomic (fun s => Some (f (g_env s) (g_tick s), Gui (g_env s) (S (g_tick s)) (g_events s) (g_core s))).

(** A member access through [this]; undefined when the object does not exist. *)
Definition member {A} (this : Z) (f : window_obj -> A) : prog gui A :=
  atomic (fun s => match objs (g_core s) !! this with Some o => Some (f o, s) | None => None end).
Definition assign (this : Z) (f : window_obj -> window_obj) : prog gui unit :=
  atomic (fun s => match objs (g_core s) !! this with
                   | Some o => Some (tt, with_core (with_objs (<[this := f o]> (objs (g_core s))) (g_core s)) s)
                   | None => None
                   end).

(** * Scaling *)

Definition double_of (z : Z) : spec_float := binary_normalize 53 1024 z 0 false.

(** [static_cast<int>] of a double; undefined out of the range of [int]. *)
Definition int_of_double (f : spec_float) : option Z :=
  match f with
  | S754_zero _ => Some 0
  | S754_finite s m e =>
      let z := if e <? 0 then Z.pos m / 2 ^ (- e) else Z.pos m * 2 ^ e in
      let z := if s then - z else z in
      if (- 2 ^ 31 <=? z) && (z <? 2 ^ 31) then Some z else None
  | _ => None
  end.

(** An [unsigned] given to an [int] parameter, as two's complement. *)
Definition int_of_unsigned (n : Z) : Z := if n <? 2 ^ 31 then n else n - 2 ^ 32.

Definition Scale (source : Z) (scale_factor : spec_float) : option Z :=
  int_of_double (SFmul 53 1024 (double_of source) scale_factor).

Definition scale_factor (dpi : Z) : spec_float := SFdiv 53 1024 (double_of dpi) (double_of 96).

(** Subtraction of [LONG]s; overflow is undefined. *)
Definition i32_sub (a b : Z) : option Z :=
  let r := a - b in if (- 2 ^ 31 <=? r) && (r <? 2 ^ 31) then Some r else None.

(** * Registration of the class ([WindowClassRegistrar]) *)

Definition GetInstance : prog gui bool :=
  let* i := view instance_ in
  match i with
  | Some registered => Ret registered
  | None => change (fun c => with_class (Some false) (os_class c) c) ;; Ret false
  end.

Definition GetWindowClass : prog gui unit :=
  let* class_registered_ := GetInstance in
  if negb class_registered_ then
    let* ok := ask ge_register in
    note (GRegister ok) ;;
    change (fun c => with_class (instance_ c) (ok || os_class c) c) ;;
    change (fun c => with_class (Some true) (os_class c) c)
  else Ret tt.

(** [UnregisterClass] fails while the class has windows. *)
Definition UnregisterClass : prog gui unit :=
  let* b := view os_class in
  let* w := view os_windows in
  let ok := b && bool_decide (w = ∅) in
  note (GUnregister ok) ;;
  if ok then change (fun c => with_class (instance_ c) false c) else Ret tt.

Definition UnregisterWindowClass : prog gui unit :=
  let* _ := GetInstance in
  UnregisterClass ;;
  change (fun c => with_class (Some false) (os_class c) c).

(** * Methods that do not destroy *)

Definition EnableFullDpiSupportIfAvailable (hwnd : Z) : prog gui unit :=
  let* m := ask ge_user32 in
  match m with
  | None => Ret tt
  | Some found => if found then note (GDpiSupport hwnd) else Ret tt
  end.

(** [GetClientRect] leaves the rectangle as it was, uninitialised, when the
    handle is not that of a window. *)
Definition Win32Window_GetClientArea (this : Z) : prog gui (option RECT) :=
  let* h := member this window_handle_ in
  let* r := ask ge_client in
  let* w := view os_windows in
  Ret (match w !! h with Some _ => Some r | None => None end).

Definition MoveWindow (child : Z) (r : option RECT) : prog gui unit :=
  let* r := local r in
  let* w := local (i32_sub (r_right r) (r_left r)) in
  let* h := local (i32_sub (r_bottom r) (r_top r)) in
  note (GMove child (r_left r) (r_top r) w h true).

Definition Win32Window_SetChildContent (this content : Z) : prog gui unit :=
  assign this (set_child content) ;;
  let* h := member this window_handle_ in
  note (GParent content h) ;;
  let* frame := Win32Window_GetClientArea this in
  MoveWindow content frame ;;
  let* child := member this child_content_ in
  note (GFocus child).

Definition Win32Window_GetHandle (this : Z) : prog gui Z := member this window_handle_.

Definition Win32Window_SetQuitOnClose (this : Z) (quit_on_close : bool) : prog gui unit :=
  assign this (set_quit quit_on_close).

Definition Win32Window_Show (this : Z) : prog gui bool :=
  let* h := member this window_handle_ in
  note (GShow h) ;;
  ask ge_shown.

Definition UpdateTheme (window : Z) : prog gui unit :=
  let* r := ask ge_light in
  match r with
  | Some light_mode => note (GTheme window (light_mode =? 0))
  | None => Ret tt
  end.

Definition FlutterWindow_OnDestroy (this : Z) : prog gui unit :=
  let* f := member this flutter_controller_ in
  match f with
  | Some _ => assign this (set_controller None) ;; note GControllerFreed
  | None => Ret tt
  end.

(** The virtual call; [Win32Window::OnDestroy] does nothing. *)
Definition OnDestroy (this : Z) : prog gui unit :=
  let* t := member this w_type in
  match t with TWin32Window => Ret tt | TFlutterWindow => FlutterWindow_OnDestroy this end.

(** * Messages and destruction, which call each other *)

Section handlers.
(** [DestroyWindow] of the system, which sends [WM_DESTROY]. *)
Variable destroy_window : Z -> prog gui unit.

Definition Win32Window_Destroy (this : Z) : prog gui unit :=
  OnDestroy this ;;
  let* h := member this window_handle_ in
  (if negb (h =? 0) then destroy_window h ;; assign this (set_handle 0) else Ret tt) ;;
  let* n := view g_active_window_count in
  if n =? 0 then UnregisterWindowClass else Ret tt.

(** [DefWindowProc] destroys the window on [WM_CLOSE]. *)
Definition DefWindowProc (window : Z) (m : message) : prog gui Z :=
  (match m with WM_CLOSE => destroy_window window | _ => Ret tt end) ;;
  ask ge_default.

Definition Win32Window_MessageHandler (this hwnd : Z) (m : message) : prog gui Z :=
  match m with
  | WM_DESTROY =>
      assign this (set_handle 0) ;;
      Win32Window_Destroy this ;;
      let* q := member this quit_on_close_ in
      (if (q : bool) then change (with_quit true) ;; note GQuit else Ret tt) ;;
      Ret 0
  | WM_DPICHANGED r =>
      let* w := local (i32_sub (r_right r) (r_left r)) in
      let* h := local (i32_sub (r_bottom r) (r_top r)) in
      note (GSetPos hwnd (r_left r) (r_top r) w h) ;;
      Ret 0
  | WM_SIZE =>
      let* rect := Win32Window_GetClientArea this in
      let* child := member this child_content_ in
      (if negb (child =? 0) then MoveWindow child rect else Ret tt) ;;
      Ret 0
  | WM_ACTIVATE =>
      let* child := member this child_content_ in
      (if negb (child =? 0) then note (GFocus child) else Ret tt) ;;
      Ret 0
  | WM_DWMCOLORIZATIONCOLORCHANGED => UpdateTheme hwnd ;; Ret 0
  | _ => let* h := member this window_handle_ in DefWindowProc h m
  end.

Definition FlutterWindow_MessageHandler (this hwnd : Z) (m : message) : prog gui Z :=
  let* f := member this flutter_controller_ in
  let* result := match f with Some _ => ask (fun e n => ge_toplevel e n hwnd m) | None => Ret None end in
  match result with
  | Some r => Ret r
  | None =>
      (match m with
       | WM_FONTCHANGE =>
           let* f := member this flutter_controller_ in
           match f with
           | Some f => if fc_engine f then note GReloadFonts else undef
           | None => undef
           end
       | _ => Ret tt
       end) ;;
      Win32Window_MessageHandler this hwnd m
  end.

(** The virtual call. *)
Definition MessageHandler (this hwnd : Z) (m : message) : prog gui Z :=
  let* t := member this w_type in
  match t with
  | TWin32Window => Win32Window_MessageHandler this hwnd m
  | TFlutterWindow => FlutterWindow_MessageHandler this hwnd m
  end.

Definition GetThisFromHandle (window : Z) : prog gui Z :=
  view (fun c => default 0 (os_windows c !! window)).

Definition WndProc (window : Z) (m : message) : prog gui Z :=
  match m with
  | WM_NCCREATE that =>
      change (fun c => with_windows (<[window := that]> (os_windows c)) c) ;;
      EnableFullDpiSupportIfAvailable window ;;
      assign that (set_handle window) ;;
      DefWindowProc window m
  | _ =>
      let* that := GetThisFromHandle window in
      if negb (that =? 0) then MessageHandler that window m else DefWindowProc window m
  end.

(** The system sends a message to a window of the class. *)
Definition send_message (window : Z) (m : message) : prog gui unit :=
  let* w := view os_windows in
  match w !! window with
  | Some _ => let* _ := WndProc window m in Ret tt
  | None => Ret tt
  end.
End handlers.

(** [DestroyWindow]: the window still gets messages, [WM_DESTROY] among them,
    then it is gone.  [depth] bounds the calls that are under way at a time. *)
Fixpoint DestroyWindow_at (depth : nat) (window : Z) : prog gui unit :=
  match depth with
  | O => undef
  | S depth =>
      let* w := view os_windows in
      match w !! window with
      | None => Ret tt
      | Some _ =>
          let* sent := ask ge_sends in
          for_each (sent ++ [WM_DESTROY; WM_NCDESTROY]) (send_message (DestroyWindow_at depth) window) ;;
          change (fun c => with_windows (delete window (os_windows c)) c) ;;
          note (GDestroyed window)
      end
  end.

Definition DestroyWindow : Z -> prog gui unit := DestroyWindow_at 2.

Definition Destroy (this : Z) : prog gui unit := Win32Window_Destroy DestroyWindow this.

(** * Creation *)

(** [CreateWindow]: without the class there is no window; a handle that is in
    use is not given again.  The messages that the creation sends begin with
    [WM_NCCREATE], which carries the pointer to the object. *)
Definition CreateWindow (x y width height this : Z) : prog gui Z :=
  let* b := view os_class in
  let* h := ask ge_handle in
  let* w := view os_windows in
  if negb b || (h =? 0) || bool_decide (is_Some (w !! h)) then note (GCreate x y width height 0) ;; Ret 0
  else
    change (fun c => with_windows (<[h := 0]> (os_windows c)) c) ;;
    note (GCreate x y width height h) ;;
    let* sent := ask ge_sends in
    for_each (WM_NCCREATE this :: sent) (send_message DestroyWindow h) ;;
    Ret h.

Definition FlutterWindow_OnCreate (this : Z) : prog gui bool :=
  let* frame := Win32Window_GetClientArea this in
  let* r := local frame in
  let* width := local (i32_sub (r_right r) (r_left r)) in
  let* height := local (i32_sub (r_bottom r) (r_top r)) in
  let* fc := ask ge_controller in
  note (GController width height) ;;
  let* old := member this flutter_controller_ in
  (match old with Some _ => note GControllerFreed | None => Ret tt end) ;;
  assign this (set_controller (Some fc)) ;;
  if negb (fc_engine fc) || negb (fc_view fc) then Ret false
  else
    note GPlugins ;;
    Win32Window_SetChildContent this (fc_native fc) ;;
    note GNextFrame ;;
    note GRedraw ;;
    Ret true.

(** The virtual call; [Win32Window::OnCreate] returns true. *)
Definition OnCreate (this : Z) : prog gui bool :=
  let* t := member this w_type in
  match t with TWin32Window => Ret true | TFlutterWindow => FlutterWindow_OnCreate this end.

Definition Win32Window_Create (this x y width height : Z) : prog gui bool :=
  Destroy this ;;
  GetWindowClass ;;
  let* dpi := ask ge_dpi in
  let f := scale_factor dpi in
  let* sx := local (Scale (int_of_unsigned x) f) in
  let* sy := local (Scale (int_of_unsigned y) f) in
  let* sw := local (Scale (int_of_unsigned width) f) in
  let* sh := local (Scale (int_of_unsigned height) f) in
  let* window := CreateWindow sx sy sw sh this in
  if window =? 0 then Ret false
  else
    UpdateTheme window ;;
    OnCreate this.

(** * Constructors and destructors *)

(** A new object at the address [this]. *)
Definition new_window (t : dynamic_type) (this : Z) : prog gui unit :=
  change (fun c => with_objs (<[this := WindowObj t false 0 0 None]> (objs c)) c) ;;
  change (fun c => with_count (g_active_window_count c + 1) c).

Definition Win32Window_dtor (this : Z) : prog gui unit :=
  change (fun c => with_count (g_active_window_count c - 1) c) ;;
  Destroy this.

(** The members of [FlutterWindow] go first; in the destructor of its base the
    object is a [Win32Window]. *)
Definition FlutterWindow_dtor (this : Z) : prog gui unit :=
  let* f := member this flutter_controller_ in
  (match f with Some _ => note GControllerFreed | None => Ret tt end) ;;
  assign this (fun o => set_type TWin32Window (set_controller None o)) ;;
  Win32Window_dtor this.

(** The end of an object's life. *)
Definition delete_window (this : Z) : prog gui unit :=
  let* t := member this w_type in
  (match t with TWin32Window => Win32Window_dtor this | TFlutterWindow => FlutterWindow_dtor this end) ;;
  change (fun c => with_objs (delete this (objs c)) c).

(** * The program ([main.cpp], [utils.cpp]) *)

Definition CreateAndAttachConsole : prog gui unit :=
  let* alloc := ask ge_console in
  if (alloc : bool) then
    note GConsole ;;
    let* err := ask ge_console in
    (if (err : bool) then note (GRedirect 1) else Ret tt) ;;
    let* err := ask ge_console in
    (if (err : bool) then note (GRedirect 2) else Ret tt) ;;
    note GResync
  else Ret tt.

(** [CheckTokenMembership] leaves its answer in [is_admin], [None] when it
    leaves the variable alone. *)
Definition IsRunningAsAdministrator (sid : bool) (member : option Z) : bool :=
  let is_admin := if sid then default 0 member else 0 in
  negb (is_admin =? 0).

(** What the program gets: a message for a window, or the next frame of the
    engine, which calls back as long as the controller exists. *)
Inductive pumped : Set :=
| Msg (h : Z) (m : message)
| NextFrame.

Definition dispatch (this : Z) (x : pumped) : prog gui unit :=
  match x with
  | Msg h m => send_message DestroyWindow h m
  | NextFrame =>
      let* f := member this flutter_controller_ in
      match f with
      | Some _ => let* _ := Win32Window_Show this in Ret tt
      | None => Ret tt
      end
  end.

(** The loop over the messages that [GetMessage] delivers; true when it ends
    with [WM_QUIT], false when the program waits for more. *)
Fixpoint message_loop (this : Z) (inbox : list pumped) : prog gui bool :=
  match inbox with
  | [] => view os_quit
  | x :: inbox => dispatch this x ;; message_loop this inbox
  end.

Definition EXIT_SUCCESS : Z := 0.
Definition EXIT_FAILURE : Z := 1.

(** The part of [wWinMain] that has a window, from the object's construction to
    its destruction; [None] while the program waits. *)
Definition run_window (this : Z) (inbox : list pumped) : prog gui (option Z) :=
  new_window TFlutterWindow this ;;
  let* ok := Win32Window_Create this 10 10 1280 720 in
  if negb ok then delete_window this ;; Ret (Some EXIT_FAILURE)
  else
    Win32Window_SetQuitOnClose this true ;;
    let* quit := message_loop this inbox in
    if negb quit then Ret None
    else
      note GCoUninitialize ;;
      delete_window this ;;
      Ret (Some EXIT_SUCCESS).

(** Answers to the questions about rights and the command line: [la_argv] is
    [CommandLineToArgvW] without the program's name, each argument with its
    terminator; [la_wide] is [WideCharToMultiByte] on a text and the room for its
    result, 0 asking for the size. *)
Record launch : Type := Launch {
  la_sid : bool;
  la_member : option Z;
  la_module : Z;
  la_shell : option (list Z) -> Z;
  la_argv : option (list (list Z));
  la_wide : list Z -> Z -> Z * list Z
}.

Definition UNICODE_STRING_MAX_CHARS : nat := 32767.

Fixpoint wcsnlen (s : list Z) (max : nat) : option nat :=
  match max with
  | O => Some O
  | S max =>
      match s with
      | [] => None
      | c :: s => if c =? 0 then Some O else option_map S (wcsnlen s max)
      end
  end.

(** [None] is [nullptr].  [resize] fills with zeros; the conversion writes over
    them. *)
Definition Utf8FromUtf16 (wide : list Z -> Z -> Z * list Z) (utf16_string : option (list Z)) : option (list Z) :=
  match utf16_string with
  | None => Some []
  | Some utf16_string =>
      let? input_length := wcsnlen utf16_string UNICODE_STRING_MAX_CHARS in
      let input := take input_length utf16_string in
      let '(target_length, _) := wide input 0 in
      if (target_length =? 0) || (2 ^ 63 - 1 <? u64 target_length) then Some []
      else
        let '(converted_length, written) := wide input target_length in
        if converted_length =? 0 then Some []
        else Some (take (Z.to_nat target_length) (written ++ replicate (Z.to_nat target_length - length written) 0))
  end.

Fixpoint utf8_all (wide : list Z -> Z -> Z * list Z) (argv : list (list Z)) : option (list (list Z)) :=
  match argv with
  | [] => Some []
  | arg :: argv =>
      let? text := Utf8FromUtf16 wide (Some arg) in
      let? texts := utf8_all wide argv in
      Some (text :: texts)
  end.

Definition GetCommandLineArguments (la : launch) : option (list (list Z)) :=
  match la_argv la with
  | None => Some []
  | Some argv => utf8_all (la_wide la) argv
  end.

Definition wWinMain (la : launch) (this : Z) (inbox : list pumped) : prog gui (option Z) :=
  if negb (IsRunningAsAdministrator (la_sid la) (la_member la)) then
    let* '(relaunched, _) := local (RelaunchAsAdministrator (la_module la) (la_shell la) (la_argv la)) in
    if (relaunched : bool) then Ret (Some EXIT_SUCCESS)
    else note GMessageBox ;; Ret (Some EXIT_FAILURE)
  else
    let* attached := ask ge_console in
    (if negb attached then
       let* debugged := ask ge_console in
       if (debugged : bool) then CreateAndAttachConsole else Ret tt
     else Ret tt) ;;
    note GCoInitialize ;;
    let* command_line_arguments := local (GetCommandLineArguments la) in
    note (GArguments command_line_arguments) ;;
    run_window this inbox.
