(* ===== verification/RunnerSpec.v ===== *)
(** The windows of the runner: what destruction, creation and messages do to the
    objects and to the windows of the system, the invariant that ties the two
    together, and the runs of the program. *)
From stdpp Require Import base gmap list numbers option.
From Stdlib Require Import Floats.SpecFloat.
From S2P Require Import Prelude Prog Runner.

(** * What the runner relies on *)

Definition rect_ok (r : RECT) : Prop :=
  let near z := - 2 ^ 30 <= z < 2 ^ 30 in near (r_left r) /\ near (r_top r) /\ near (r_right r) /\ near (r_bottom r).

(** The messages that the system sends by itself while a window is created or
    destroyed. *)
Definition passive (m : message) : Prop :=
  match m with
  | WM_DPICHANGED r => rect_ok r
  | WM_SIZE | WM_ACTIVATE | WM_DWMCOLORIZATIONCOLORCHANGED | WM_OTHER _ => True
  | _ => False
  end.

(** Flutter never takes [WM_DESTROY] for itself; resolutions are between 1 and
    1000 percent of the usual one. *)
Record gui_env_ok (e : gui_env) : Prop := {
  sends_ok n : Forall passive (ge_sends e n);
  client_ok n : rect_ok (ge_client e n);
  toplevel_ok n h : ge_toplevel e n h WM_DESTROY = None;
  dpi_ok n : 1 <= ge_dpi e n <= 960
}.

(** * Programs by what they do to the core *)

(** Whatever was asked and noted before. *)
Definition gwp {A} (e : gui_env) (p : prog gui A) (c : core) (Q : A -> core -> Prop) : Prop :=
  forall s, g_env s = e -> g_core s = c -> wp p (fun a s' => g_env s' = e /\ Q a (g_core s')) s.

Section rules.
Context {e : gui_env}.

Lemma gwp_mono {A} (p : prog gui A) c (Q Q' : A -> core -> Prop) :
  gwp e p c Q -> (forall a c', Q a c' -> Q' a c') -> gwp e p c Q'.
Proof. intros H HQ s Hs Hc. eapply wp_mono; [exact (H s Hs Hc)|]. intros a s' [He Ha]. auto. Qed.

Lemma gwp_ret {A} (a : A) c (Q : A -> core -> Prop) : Q a c -> gwp e (Ret a) c Q.
Proof. intros H s Hs <-. now apply wp_ret. Qed.

Lemma gwp_bind {A B} (p : prog gui A) (q : A -> prog gui B) c Q :
  gwp e p c (fun a c' => gwp e (q a) c' Q) -> gwp e (bind p q) c Q.
Proof.
  intros H s Hs Hc. apply wp_bind. eapply wp_mono; [exact (H s Hs Hc)|]. intros a s' [He Ha]. now apply Ha.
Qed.

Lemma gwp_seq {A B} (p : prog gui A) (q : A -> prog gui B) c c' Q :
  gwp e p c (fun _ c1 => c1 = c') -> (forall a, gwp e (q a) c' Q) -> gwp e (bind p q) c Q.
Proof. intros H Hq. apply gwp_bind. eapply gwp_mono; [exact H|]. intros a c1 ->. apply Hq. Qed.

Lemma gwp_atomic {A} (f : gui -> option (A * gui)) c (Q : A -> core -> Prop) :
  (forall s, g_env s = e -> g_core s = c -> exists a s', f s = Some (a, s') /\ g_env s' = e /\ Q a (g_core s')) ->
  gwp e (atomic f) c Q.
Proof. intros H s Hs Hc. destruct (H s Hs Hc) as (a & s' & Hf & HQ). eapply wp_act; [exact Hf|]. now apply wp_ret. Qed.

Lemma gwp_view {A} (f : core -> A) c (Q : A -> core -> Prop) : Q (f c) c -> gwp e (view f) c Q.
Proof. intros H. apply gwp_atomic. intros s Hs <-. eauto. Qed.

Lemma gwp_change f c (Q : unit -> core -> Prop) : Q tt (f c) -> gwp e (change f) c Q.
Proof. intros H. apply gwp_atomic. intros s Hs <-. eexists _, _. split; [reflexivity|]. done. Qed.

Lemma gwp_note ev c (Q : unit -> core -> Prop) : Q tt c -> gwp e (note ev) c Q.
Proof. intros H. apply gwp_atomic. intros s Hs <-. eexists _, _. split; [reflexivity|]. done. Qed.

Lemma gwp_ask {A} (f : gui_env -> nat -> A) c (Q : A -> core -> Prop) : (forall n, Q (f e n) c) -> gwp e (ask f) c Q.
Proof. intros H. apply gwp_atomic. intros s <- <-. eexists _, _. split; [reflexivity|]. cbn. auto. Qed.

Lemma gwp_member {A} a (f : window_obj -> A) o c (Q : A -> core -> Prop) :
  objs c !! a = Some o -> Q (f o) c -> gwp e (member a f) c Q.
Proof. intros Ho H. apply gwp_atomic. intros s Hs Hc. rewrite Hc, Ho. subst c. eauto. Qed.

Lemma gwp_assign a f o c (Q : unit -> core -> Prop) :
  objs c !! a = Some o -> Q tt (with_objs (<[a := f o]> (objs c)) c) -> gwp e (assign a f) c Q.
Proof. intros Ho H. apply gwp_atomic. intros s Hs Hc. rewrite Hc, Ho. eexists _, _. split; [reflexivity|]. done. Qed.

Lemma gwp_local {A} (o : option A) a c (Q : A -> core -> Prop) : o = Some a -> Q a c -> gwp e (local o) c Q.
Proof. intros -> H s Hs <-. now apply wp_local with (a := a). Qed.

(** A loop whose first rounds leave the core alone. *)
Lemma gwp_each {A} (l l' : list A) body c (Q : unit -> core -> Prop) :
  Forall (fun x => gwp e (body x) c (fun _ c' => c' = c)) l -> gwp e (for_each l' body) c Q ->
  gwp e (for_each (l ++ l') body) c Q.
Proof.
  induction 1 as [|x l Hx _ IH]; intros HQ; cbn [for_each app]; [done|]. eapply gwp_seq; [exact Hx|]. auto.
Qed.

Lemma gwp_run {A} (p : prog gui A) (Q : A -> core -> Prop) s :
  gwp e p (g_core s) Q -> g_env s = e -> exists a s', run p s = Some (a, s') /\ g_env s' = e /\ Q a (g_core s').
Proof. intros H Hs. exact (H s Hs eq_refl). Qed.
End rules.

(** One step of a program whose accesses are to objects that exist. *)
Ltac gstep :=
  lazymatch goal with
  | |- gwp _ (bind _ _) _ _ => apply gwp_bind
  | |- gwp _ (Ret _) _ _ => apply gwp_ret
  | |- gwp _ (view _) _ _ => apply gwp_view
  | |- gwp _ (change _) _ _ => apply gwp_change
  | |- gwp _ (note _) _ _ => apply gwp_note
  | |- gwp _ (ask _) _ _ => apply gwp_ask; intros ?
  | |- gwp _ (member _ _) _ _ => eapply gwp_member; [eassumption|]
  | |- gwp _ (assign _ _) _ _ => eapply gwp_assign; [eassumption|]
  | |- gwp _ (match ?x with _ => _ end) _ _ => destruct x eqn:?
  end; cbn beta iota delta [negb].
Ltac gsteps := repeat gstep.

(** * Messages that change nothing *)

Lemma i32_fits z : - 2 ^ 31 <= z < 2 ^ 31 -> (if (- 2 ^ 31 <=? z) && (z <? 2 ^ 31) then Some z else None) = Some z.
Proof. intros H. destruct (Z.leb_spec (- 2 ^ 31) z), (Z.ltb_spec z (2 ^ 31)); done || lia. Qed.

Lemma i32_sub_rect r : rect_ok r -> exists w h,
  i32_sub (r_right r) (r_left r) = Some w /\ i32_sub (r_bottom r) (r_top r) = Some h.
Proof.
  intros (H1 & H2 & H3 & H4). cbn beta in *. exists (r_right r - r_left r), (r_bottom r - r_top r).
  unfold i32_sub. split; apply i32_fits; lia.
Qed.

Section effects.
Context {e : gui_env} (He : gui_env_ok e).

Lemma gwp_move child r c (Q : unit -> core -> Prop) : rect_ok r -> Q tt c -> gwp e (MoveWindow child (Some r)) c Q.
Proof.
  intros Hr HQ. destruct (i32_sub_rect r Hr) as (w & h & Hw & Hh). unfold MoveWindow.
  apply gwp_bind. eapply gwp_local; [done|]. apply gwp_bind. eapply gwp_local; [exact Hw|].
  apply gwp_bind. eapply gwp_local; [exact Hh|]. now apply gwp_note.
Qed.

Lemma gwp_client_area a o c (Q : option RECT -> core -> Prop) :
  objs c !! a = Some o -> is_Some (os_windows c !! window_handle_ o) -> (forall r, rect_ok r -> Q (Some r) c) ->
  gwp e (Win32Window_GetClientArea a) c Q.
Proof.
  intros Ho [x Hx] HQ. unfold Win32Window_GetClientArea. gsteps. rewrite Hx. apply HQ, client_ok, He.
Qed.

Lemma gwp_theme h c (Q : unit -> core -> Prop) : Q tt c -> gwp e (UpdateTheme h) c Q.
Proof. intros HQ. unfold UpdateTheme. gsteps; done. Qed.

Lemma gwp_handler_passive dw a o h m c (Q : Z -> core -> Prop) :
  passive m -> objs c !! a = Some o -> (m = WM_SIZE -> is_Some (os_windows c !! window_handle_ o)) ->
  (forall r, Q r c) -> gwp e (Win32Window_MessageHandler dw a h m) c Q.
Proof.
  intros Hm Ho Hs HQ. destruct m; try done; unfold Win32Window_MessageHandler, DefWindowProc.
  - destruct (i32_sub_rect _ Hm) as (w & h' & Hw & Hh). apply gwp_bind. eapply gwp_local; [exact Hw|].
    apply gwp_bind. eapply gwp_local; [exact Hh|]. gsteps. apply HQ.
  - apply gwp_bind. eapply gwp_client_area; [exact Ho|auto|]. intros r Hr. gstep. gstep. gstep.
    destruct (negb _); [|gsteps; apply HQ]. apply gwp_move; [done|]. gsteps. apply HQ.
  - gsteps; apply HQ.
  - apply gwp_bind. apply gwp_theme. gsteps. apply HQ.
  - gsteps. apply HQ.
Qed.

Lemma gwp_passive dw h a o m c (Q : unit -> core -> Prop) :
  passive m -> os_windows c !! h = Some a -> a <> 0 -> objs c !! a = Some o ->
  (m = WM_SIZE -> is_Some (os_windows c !! window_handle_ o)) -> Q tt c -> gwp e (send_message dw h m) c Q.
Proof.
  intros Hm Hh Ha Ho Hs HQ. unfold send_message, WndProc, GetThisFromHandle. gstep. gstep. rewrite Hh. gstep.
  assert (Hb : gwp e (MessageHandler dw a h m) c (fun _ c' => gwp e (Ret tt) c' Q)).
  { unfold MessageHandler, FlutterWindow_MessageHandler. gstep. gstep. destruct (w_type o).
    - apply gwp_handler_passive with (o := o); auto. intros ?. now apply gwp_ret.
    - gstep. gstep. gstep. destruct (flutter_controller_ o).
      + gstep. destruct (ge_toplevel _ _ _ _); [gsteps; done|]. gstep. destruct m; try done; gsteps.
        all: apply gwp_handler_passive with (o := o); auto; intros ?; now apply gwp_ret.
      + gstep. gstep. destruct m; try done; gsteps.
        all: apply gwp_handler_passive with (o := o); auto; intros ?; now apply gwp_ret. }
  destruct m; try done; gstep; gstep; rewrite Hh; cbn; destruct (Z.eqb_spec a 0); done.
Qed.

(** * Destruction *)

(** The object after [OnDestroy]. *)
Definition released (o : window_obj) : window_obj :=
  match w_type o with TWin32Window => o | TFlutterWindow => set_controller None o end.

(** The object after [WM_DESTROY]. *)
Definition closed (o : window_obj) : window_obj := set_handle 0 (released o).

(** [if (g_active_window_count == 0) UnregisterWindowClass();] *)
Definition retired (c : core) : core :=
  if g_active_window_count c =? 0
  then with_class (Some false) (os_class c && negb (bool_decide (os_windows c = ∅))) c else c.

(** What [WM_DESTROY] leaves. *)
Definition left_window (a : Z) (o : window_obj) (c : core) : core :=
  let c := retired (with_objs (<[a := closed o]> (objs c)) c) in
  with_quit (quit_on_close_ o || os_quit c) c.

(** What [DestroyWindow] leaves. *)
Definition lost_window (h a : Z) (o : window_obj) (c : core) : core :=
  let c := left_window a o c in with_windows (delete h (os_windows c)) c.

(** What [Destroy] leaves. *)
Definition destroyed (a : Z) (o : window_obj) (c : core) : core :=
  if window_handle_ o =? 0 then retired (with_objs (<[a := closed o]> (objs c)) c)
  else retired (lost_window (window_handle_ o) a o c).

Lemma retired_objs c : objs (retired c) = objs c.
Proof. unfold retired. now destruct (_ =? 0). Qed.

Lemma retired_windows c : os_windows (retired c) = os_windows c.
Proof. unfold retired. now destruct (_ =? 0). Qed.

Lemma retired_live c : g_active_window_count c <> 0 -> retired c = c.
Proof. unfold retired. destruct (Z.eqb_spec (g_active_window_count c) 0); done. Qed.

Lemma retired_last c : g_active_window_count c = 0 ->
  retired c = with_class (Some false) (os_class c && negb (bool_decide (os_windows c = ∅))) c.
Proof. unfold retired. now intros ->. Qed.

Lemma left_windows a o c : os_windows (left_window a o c) = os_windows c.
Proof. unfold left_window, retired. cbn. now destruct (_ =? 0). Qed.

Lemma left_objs a o c : objs (left_window a o c) = <[a := closed o]> (objs c).
Proof. unfold left_window, retired. cbn. now destruct (_ =? 0). Qed.

(** Assigning an object the value it has. *)
Lemma with_same a o c : objs c !! a = Some o -> with_objs (<[a := o]> (objs c)) c = c.
Proof. intros H. unfold with_objs. rewrite insert_id by done. now destruct c. Qed.

Lemma with_twice a o o' c :
  with_objs (<[a := o']> (objs (with_objs (<[a := o]> (objs c)) c))) (with_objs (<[a := o]> (objs c)) c) =
  with_objs (<[a := o']> (objs c)) c.
Proof. unfold with_objs. cbn. now rewrite insert_insert_eq. Qed.

Lemma destroyed_objs a o c : objs (destroyed a o c) = <[a := closed o]> (objs c).
Proof. unfold destroyed. destruct (_ =? 0); rewrite retired_objs; [done|]. apply left_objs. Qed.

Lemma gwp_unregister c (Q : unit -> core -> Prop) :
  Q tt (retired c) ->
  gwp e (let* n := view g_active_window_count in if n =? 0 then UnregisterWindowClass else Ret tt) c Q.
Proof.
  unfold retired, UnregisterWindowClass, UnregisterClass, GetInstance. intros HQ. gstep. gstep.
  destruct (_ =? 0); [|gsteps; exact HQ].
  repeat (gstep || (progress cbn [with_class os_class os_windows instance_])).
  all: destruct c as [m n i cl w q]; cbn in *; destruct cl, (bool_decide (w = ∅)); subst; done.
Qed.

Lemma gwp_on_destroy a o c (Q : unit -> core -> Prop) :
  objs c !! a = Some o ->
  Q tt (with_objs (<[a := released o]> (objs c)) c) -> gwp e (OnDestroy a) c Q.
Proof.
  unfold released. intros Ho HQ. unfold OnDestroy, FlutterWindow_OnDestroy. gstep. gstep. destruct (w_type o) eqn:Et.
  - rewrite insert_id in HQ by done. gsteps. now destruct c.
  - gstep. gstep. destruct (flutter_controller_ o) eqn:Ef; gsteps; [done|].
    rewrite insert_id in HQ; [now destruct c|]. rewrite Ho. f_equal. destruct o; cbn in *. now subst.
Qed.

Lemma gwp_wm_destroy dw h a o c (Q : unit -> core -> Prop) :
  os_windows c !! h = Some a -> a <> 0 -> objs c !! a = Some o ->
  Q tt (left_window a o c) -> gwp e (send_message dw h WM_DESTROY) c Q.
Proof.
  intros Hh Ha Ho HQ. unfold send_message. gstep. gstep. rewrite Hh. unfold WndProc, GetThisFromHandle.
  gstep. gstep. gstep. rewrite Hh. change (default 0 (Some a)) with a. destruct (Z.eqb_spec a 0); [done|]. cbn [negb].
  assert (Hb : gwp e (Win32Window_MessageHandler dw a h WM_DESTROY) c (fun _ c' => gwp e (Ret tt) c' Q)).
  { unfold Win32Window_MessageHandler, Win32Window_Destroy. gstep. gstep.
    set (c1 := with_objs _ c). assert (Ho1 : objs c1 !! a = Some (set_handle 0 o)) by apply lookup_insert_eq.
    gstep. gstep. eapply gwp_on_destroy; [exact Ho1|].
    match goal with |- context [with_objs ?m c1] => replace (with_objs m c1) with (with_objs (<[a := closed o]> (objs c)) c) end.
    2: { unfold c1, with_objs. cbn. rewrite insert_insert_eq. now destruct o as [[] ? ? ? ?]. }
    set (c2 := with_objs _ c). assert (Ho2 : objs c2 !! a = Some (closed o)) by apply lookup_insert_eq.
    gstep. gstep. cbn [closed set_handle window_handle_ Z.eqb negb]. gstep. gstep. apply gwp_unregister.
    assert (Ho3 : objs (retired c2) !! a = Some (closed o)) by (unfold retired; now destruct (_ =? 0)).
    gstep. gstep. replace (quit_on_close_ (closed o)) with (quit_on_close_ o) by now destruct o as [[] ? ? ? ?].
    unfold left_window in HQ. fold c2 in HQ. destruct (quit_on_close_ o); gsteps; [exact HQ|]. now destruct (retired c2). }
  unfold MessageHandler, FlutterWindow_MessageHandler. gstep. gstep. destruct (w_type o); [exact Hb|].
  gstep. gstep. gstep. destruct (flutter_controller_ o); gstep; [rewrite (toplevel_ok e He)|]; gstep; gstep; exact Hb.
Qed.

Lemma gwp_destroy_window d h a o c (Q : unit -> core -> Prop) :
  os_windows c !! h = Some a -> a <> 0 -> objs c !! a = Some o -> window_handle_ o = h ->
  Q tt (lost_window h a o c) -> gwp e (DestroyWindow_at (S d) h) c Q.
Proof.
  intros Hh Ha Ho Ho' HQ. cbn [DestroyWindow_at]. gstep. gstep. rewrite Hh. gstep. gstep. gstep.
  apply gwp_each.
  - eapply Forall_impl; [|apply (sends_ok e He)]. intros m Hm. cbn beta. eapply gwp_passive; eauto. rewrite Ho'. eauto.
  - cbn [for_each]. gstep. eapply gwp_wm_destroy; eauto. gstep.
    eapply gwp_passive with (a := a) (o := closed o); [done|now rewrite left_windows|done|rewrite left_objs; apply lookup_insert_eq|done|].
    gsteps. exact HQ.
Qed.

Lemma gwp_Destroy d a o c (Q : unit -> core -> Prop) :
  a <> 0 -> objs c !! a = Some o -> (window_handle_ o <> 0 -> os_windows c !! window_handle_ o = Some a) ->
  Q tt (destroyed a o c) -> gwp e (Win32Window_Destroy (DestroyWindow_at (S d)) a) c Q.
Proof.
  intros Ha Ho Hh HQ. unfold Win32Window_Destroy, destroyed in *. gstep. eapply gwp_on_destroy; [done|].
  set (o1 := released o). set (c1 := with_objs _ c).
  assert (Ho1 : objs c1 !! a = Some o1) by apply lookup_insert_eq.
  assert (Eh : window_handle_ o1 = window_handle_ o) by (unfold o1, released; now destruct (w_type o)).
  assert (Ec : closed o1 = closed o) by (unfold o1; now destruct o as [[] ? ? ? ?]).
  gstep. gstep. gstep. rewrite Eh. destruct (Z.eqb_spec (window_handle_ o) 0) as [E|E]; cbn [negb].
  - gstep. apply gwp_unregister. replace c1 with (with_objs (<[a := closed o]> (objs c)) c); [done|].
    unfold c1. rewrite <- Ec. do 2 f_equal. unfold closed, o1. destruct o as [[] ? ? ? ?]; cbn in *; now subst.
  - gstep. eapply gwp_destroy_window; [exact (Hh E)|done|exact Ho1|done|].
    assert (El : lost_window (window_handle_ o) a o1 c1 = lost_window (window_handle_ o) a o c).
    { unfold lost_window, left_window, c1, retired. rewrite Ec. cbn. rewrite insert_insert_eq.
      unfold o1, released. now destruct (w_type o). }
    rewrite El. assert (Ho2 : objs (lost_window (window_handle_ o) a o c) !! a = Some (closed o)).
    { change (objs (left_window a o c) !! a = Some (closed o)). rewrite left_objs. apply lookup_insert_eq. }
    eapply gwp_assign; [exact Ho2|]. change (set_handle 0 (closed o)) with (closed o). rewrite with_same by done.
    now apply gwp_unregister.
Qed.

(** * Creation *)

Lemma gwp_window_class c (Q : unit -> core -> Prop) :
  (forall b, (os_class c = true -> b = true) -> Q tt (with_class (Some true) b c)) -> gwp e GetWindowClass c Q.
Proof.
  intros HQ. unfold GetWindowClass, GetInstance. gstep. gstep. gstep. destruct (instance_ c) as [[]|] eqn:Ei.
  - gsteps. replace c with (with_class (Some true) (os_class c) c) by (destruct c; cbn in *; now subst). now apply HQ.
  - gsteps. apply (HQ (_ || os_class c)). intros ->. now destruct (ge_register e _).
  - gsteps. apply (HQ (_ || os_class c)). intros ->. now destruct (ge_register e _).
Qed.

(** The object has a new window. *)
Definition opened (h a : Z) (o : window_obj) (c : core) : core :=
  with_objs (<[a := o]> (objs c)) (with_windows (<[h := a]> (os_windows c)) c).

Lemma gwp_create_window x y w h a o c (Q : Z -> core -> Prop) :
  a <> 0 -> objs c !! a = Some o -> Q 0 c ->
  (forall h, h <> 0 -> os_class c = true -> os_windows c !! h = None -> Q h (opened h a (set_handle h o) c)) ->
  gwp e (CreateWindow x y w h a) c Q.
Proof.
  intros Ha Ho HQ0 HQ. unfold CreateWindow. gstep. gstep. gstep. gstep. gstep. gstep.
  destruct (os_class c) eqn:Eb; cbn [negb orb]; [|gsteps; done].
  set (hd := ge_handle e _). clearbody hd. destruct (Z.eqb_spec hd 0) as [|Hz]; cbn [orb]; [gsteps; done|].
  case_bool_decide as Hd; [gsteps; done|]. apply eq_None_not_Some in Hd. gstep. gstep. gstep. gstep. gstep. gstep. gstep.
  set (c1 := with_windows _ c). assert (Ho1 : objs c1 !! a = Some o) by done.
  cbn [for_each]. gstep. unfold send_message at 1. gstep. gstep.
  change (os_windows c1) with (<[hd := 0]> (os_windows c)). rewrite lookup_insert_eq. unfold WndProc, EnableFullDpiSupportIfAvailable, DefWindowProc.
  assert (Ec : with_objs (<[a := set_handle hd o]> (objs c)) (with_windows (<[hd := a]> (os_windows c1)) c1) = opened hd a (set_handle hd o) c).
  { unfold opened, c1. cbn. now rewrite insert_insert_eq. }
  assert (Hrest : gwp e (for_each (ge_sends e n0) (send_message DestroyWindow hd)) (opened hd a (set_handle hd o) c) (fun _ c' => Q hd c')).
  { rewrite <- (app_nil_r (ge_sends e n0)). apply gwp_each; [|apply gwp_ret; now apply HQ].
    eapply Forall_impl; [|apply (sends_ok e He)]. intros m Hm. cbn beta.
    eapply gwp_passive with (a := a) (o := set_handle hd o); [done|apply lookup_insert_eq|done|apply lookup_insert_eq| |done].
    intros _. exists a. apply lookup_insert_eq. }
  rewrite <- Ec in Hrest. repeat gstep.
  all: eapply gwp_mono; [exact Hrest|]; intros ? c' H'; now apply gwp_ret.
Qed.

Lemma gwp_child a o h c (Q : unit -> core -> Prop) :
  objs c !! a = Some o -> is_Some (os_windows c !! window_handle_ o) ->
  Q tt (with_objs (<[a := set_child h o]> (objs c)) c) -> gwp e (Win32Window_SetChildContent a h) c Q.
Proof.
  intros Ho Hw HQ. unfold Win32Window_SetChildContent. gstep. gstep. set (c1 := with_objs _ c) in *.
  assert (Ho1 : objs c1 !! a = Some (set_child h o)) by apply lookup_insert_eq.
  gstep. gstep. gstep. gstep. gstep. eapply gwp_client_area; [exact Ho1|exact Hw|]. intros r Hr.
  gstep. apply gwp_move; [done|]. gsteps. done.
Qed.

(** The view controller of a [FlutterWindow], and its view as the child, after
    [OnCreate]; true means that the engine is there. *)
Definition hosts (ok : bool) (o o' : window_obj) : Prop :=
  window_handle_ o' = window_handle_ o /\ w_type o' = w_type o /\ quit_on_close_ o' = quit_on_close_ o /\
  match w_type o with
  | TWin32Window => ok = true /\ o' = o
  | TFlutterWindow => exists f, flutter_controller_ o' = Some f /\ (ok = true -> fc_engine f = true /\ child_content_ o' = fc_native f)
  end.

Lemma gwp_on_create a o c (Q : bool -> core -> Prop) :
  objs c !! a = Some o -> is_Some (os_windows c !! window_handle_ o) ->
  (forall ok o', hosts ok o o' -> Q ok (with_objs (<[a := o']> (objs c)) c)) -> gwp e (OnCreate a) c Q.
Proof.
  intros Ho Hw HQ. unfold OnCreate. gstep. gstep. destruct (w_type o) eqn:Et.
  - gstep. rewrite <- (with_same a o c) by done. apply HQ. unfold hosts. now rewrite Et.
  - unfold FlutterWindow_OnCreate. gstep. eapply gwp_client_area; [done..|]. intros r Hr.
    destruct (i32_sub_rect r Hr) as (w & h & Ew & Eh). gstep. eapply gwp_local; [done|].
    gstep. eapply gwp_local; [exact Ew|]. gstep. eapply gwp_local; [exact Eh|]. do 7 gstep.
    set (fc := ge_controller e _).
    assert (Hrest : forall c', c' = c -> gwp e (assign a (set_controller (Some fc)) ;;
      if negb (fc_engine fc) || negb (fc_view fc) then Ret false
      else note GPlugins ;; Win32Window_SetChildContent a (fc_native fc) ;; note GNextFrame ;; note GRedraw ;; Ret true) c' Q).
    { intros ? ->. gstep. gstep. destruct (fc_engine fc) eqn:Ee; cbn [negb orb].
      - destruct (fc_view fc) eqn:Ev; cbn [negb].
        + gstep. gstep. gstep. eapply gwp_child; [apply lookup_insert_eq|done|]. rewrite with_twice. gsteps.
          apply HQ. unfold hosts. rewrite Et. split; [done|]. split; [done|]. split; [done|]. now exists fc.
        + gstep. apply HQ. unfold hosts. rewrite Et. split; [done|]. split; [done|]. split; [done|]. now exists fc.
      - gstep. apply HQ. unfold hosts. rewrite Et. split; [done|]. split; [done|]. split; [done|]. now exists fc. }
    gstep; gstep; now apply Hrest.
Qed.

(** A length that scales to an [int] at every resolution. *)
Definition scalable (n : Z) : Prop :=
  forall dpi, 1 <= dpi <= 960 -> is_Some (Scale (int_of_unsigned n) (scale_factor dpi)).

(** What [Create] leaves of an object without a window: the class may have been
    registered, the object may have a window. *)
Definition created (a : Z) (o : window_obj) (c : core) (ok : bool) (c' : core) : Prop :=
  exists b, (os_class c = true -> b = true) /\
    let c1 := with_class (Some true) b c in
    (ok = false /\ c' = c1) \/
    (exists h o', h <> 0 /\ b = true /\ os_windows c !! h = None /\ hosts ok (set_handle h o) o' /\ c' = opened h a o' c1).

Lemma gwp_Create a o x y w h c (Q : bool -> core -> Prop) :
  Forall scalable [x; y; w; h] -> a <> 0 -> objs c !! a = Some o ->
  (window_handle_ o <> 0 -> os_windows c !! window_handle_ o = Some a) ->
  (forall ok c', created a (closed o) (destroyed a o c) ok c' -> Q ok c') -> gwp e (Win32Window_Create a x y w h) c Q.
Proof.
  intros Hs Ha Ho Hh HQ. unfold Win32Window_Create. gstep. eapply gwp_Destroy; [done..|].
  assert (Hd : objs (destroyed a o c) !! a = Some (closed o)) by (rewrite destroyed_objs; apply lookup_insert_eq).
  gstep. apply gwp_window_class. intros b Hb. set (c1 := with_class _ _ _). gstep. gstep.
  assert (Hscale : forall n z, In z [x; y; w; h] -> exists v, Scale (int_of_unsigned z) (scale_factor (ge_dpi e n)) = Some v).
  { intros k z Hz. rewrite List.Forall_forall in Hs. apply (Hs z Hz), He. }
  do 4 (gstep; match goal with |- gwp _ (local (Scale (int_of_unsigned ?z) _)) _ _ =>
    destruct (Hscale n z) as [? Ev]; [cbn; tauto|]; eapply gwp_local; [exact Ev|]; clear Ev end).
  gstep. eapply gwp_create_window; [exact Ha|exact Hd| |].
  - cbn [Z.eqb]. gstep. apply HQ. exists b. split; [done|]. now left.
  - intros hd Hz Hcl Hnone. destruct (Z.eqb_spec hd 0) as [|_]; [done|]. gstep. apply gwp_theme.
    eapply gwp_on_create; [apply lookup_insert_eq|exists a; apply lookup_insert_eq|]. intros ok o' Hosts.
    apply HQ. exists b. split; [done|]. right. exists hd, o'. repeat split; auto; try apply Hosts.
    unfold opened, with_objs. cbn. now rewrite insert_insert_eq.
Qed.
End effects.

(** * The invariant between two operations *)

(** Windows of the system and window objects belong to each other, both ways, so
    that no message reaches an object that is gone and no handle is stale; the
    counter counts the objects; the class is registered while a window exists
    and not after the last object; a view controller lives only in an object
    with a window. *)
Record core_ok (c : core) : Prop := {
  ok_null : objs c !! 0 = None;
  ok_count : g_active_window_count c = Z.of_nat (size (objs c));
  ok_windows h a : os_windows c !! h = Some a -> h <> 0 /\ exists o, objs c !! a = Some o /\ window_handle_ o = h;
  ok_handles a o : objs c !! a = Some o -> window_handle_ o <> 0 -> os_windows c !! window_handle_ o = Some a;
  ok_class : os_windows c <> ∅ -> os_class c = true;
  ok_flag : os_class c = true -> instance_ c = Some true;
  ok_last : objs c = ∅ -> os_class c = false;
  ok_controllers a o : objs c !! a = Some o -> is_Some (flutter_controller_ o) ->
    w_type o = TFlutterWindow /\ window_handle_ o <> 0
}.

Section invariant.
Context (c : core) (Hc : core_ok c).

Lemma core_addr a o : objs c !! a = Some o -> a <> 0.
Proof. intros Ho ->. now rewrite (ok_null _ Hc) in Ho. Qed.

Lemma core_counted a o : objs c !! a = Some o -> 0 < g_active_window_count c.
Proof.
  intros Ho. rewrite (ok_count _ Hc). assert (size (objs c) <> 0%nat); [|lia].
  intros E. apply map_size_empty_inv in E. now rewrite E in Ho.
Qed.

(** The object loses its window. *)
Lemma core_ok_closed a o o' q :
  objs c !! a = Some o -> window_handle_ o' = 0 -> flutter_controller_ o' = None ->
  core_ok (Core (<[a := o']> (objs c)) (g_active_window_count c) (instance_ c) (os_class c)
             (delete (window_handle_ o) (os_windows c)) q).
Proof.
  intros Ho Eh Ef. pose proof (core_addr a o Ho) as Ha. split; cbn.
  - rewrite lookup_insert_ne by done. apply Hc.
  - rewrite (ok_count _ Hc). f_equal. symmetry. now rewrite map_size_insert_Some by eauto.
  - intros h a' Hw. apply lookup_delete_Some in Hw as [Hne Hw]. destruct (ok_windows _ Hc h a' Hw) as (Hz & x & Hx & Ex).
    split; [done|]. exists x. rewrite lookup_insert_ne; [done|]. intros ->. rewrite Ho in Hx. injection Hx as ->. done.
  - intros a' x Hx Hz. apply lookup_insert_Some in Hx as [[<- <-]|[Hne Hx]]; [done|].
    rewrite lookup_delete_ne; [now apply Hc|]. intros E. pose proof (ok_handles _ Hc a' x Hx Hz) as H1.
    assert (Hz' : window_handle_ o <> 0) by now rewrite E.
    pose proof (ok_handles _ Hc a o Ho Hz') as H2. rewrite E, H1 in H2. injection H2 as ->. done.
  - intros Hne. apply Hc. intros E. apply Hne. rewrite E. apply delete_empty.
  - apply Hc.
  - intros E. exfalso. revert E. apply insert_non_empty.
  - intros a' x Hx Hf. apply lookup_insert_Some in Hx as [[<- <-]|[Hne Hx]]; [rewrite Ef in Hf; now destruct Hf|].
    now apply (ok_controllers _ Hc a').
Qed.

Lemma delete_null a o : objs c !! a = Some o -> window_handle_ o = 0 -> delete (window_handle_ o) (os_windows c) = os_windows c.
Proof.
  intros Ho E. apply delete_id. destruct (os_windows c !! window_handle_ o) eqn:Ew; [|done].
  now destruct (ok_windows _ Hc _ _ Ew).
Qed.

Lemma closed_controller a o : objs c !! a = Some o -> flutter_controller_ (closed o) = None.
Proof.
  intros Ho. unfold closed, released. destruct (w_type o) eqn:Et; [|done]. cbn.
  destruct (flutter_controller_ o) eqn:Ef; [|done]. destruct (ok_controllers _ Hc a o Ho); [now rewrite Ef|]. congruence.
Qed.

Lemma lost_ok a o : objs c !! a = Some o -> core_ok (lost_window (window_handle_ o) a o c).
Proof.
  intros Ho. unfold lost_window, left_window, retired. cbn. pose proof (core_counted a o Ho).
  destruct (Z.eqb_spec (g_active_window_count c) 0); [lia|]. cbn.
  apply core_ok_closed; [done|done|]. now apply closed_controller with a.
Qed.

Lemma destroyed_ok a o : objs c !! a = Some o -> core_ok (destroyed a o c).
Proof.
  intros Ho. unfold destroyed. pose proof (core_counted a o Ho). destruct (Z.eqb_spec (window_handle_ o) 0) as [E|E].
  - unfold retired. cbn. destruct (Z.eqb_spec (g_active_window_count c) 0); [lia|].
    pose proof (core_ok_closed a o (closed o) (os_quit c) Ho eq_refl (closed_controller a o Ho)) as Hk.
    now rewrite delete_null with (a := a) in Hk.
  - pose proof (lost_ok a o Ho) as Hl. unfold retired.
    rewrite (ok_count _ Hl). destruct (Z.eqb_spec (Z.of_nat (size (objs (lost_window (window_handle_ o) a o c)))) 0) as [E0|]; [|done].
    exfalso. assert (E1 : size (objs (lost_window (window_handle_ o) a o c)) = 0%nat) by lia.
    apply map_size_empty_inv in E1. change (objs (left_window a o c) = ∅) in E1. rewrite left_objs in E1. now apply insert_non_empty in E1.
Qed.

Lemma registered_ok b : objs c <> ∅ -> (os_class c = true -> b = true) -> core_ok (with_class (Some true) b c).
Proof.
  intros Hne Hb. destruct Hc as [H0 Hn Hw Hh Hcl Hf Hl Hct]. split; cbn; auto. done.
Qed.

Lemma opened_ok h a o o' :
  objs c !! a = Some o -> window_handle_ o = 0 -> h <> 0 -> os_windows c !! h = None -> os_class c = true ->
  window_handle_ o' = h -> (is_Some (flutter_controller_ o') -> w_type o' = TFlutterWindow) -> core_ok (opened h a o' c).
Proof.
  intros Ho Eo Hz Hn Hcl Eh Hf. pose proof (core_addr a o Ho) as Ha. split; cbn.
  - rewrite lookup_insert_ne by done. apply Hc.
  - rewrite (ok_count _ Hc). f_equal. symmetry. now rewrite map_size_insert_Some by eauto.
  - intros h' a' Hw. apply lookup_insert_Some in Hw as [[<- <-]|[Hne Hw]].
    + split; [done|]. exists o'. split; [apply lookup_insert_eq|done].
    + destruct (ok_windows _ Hc h' a' Hw) as (Hz' & x & Hx & Ex). split; [done|]. exists x.
      rewrite lookup_insert_ne; [done|]. intros ->. rewrite Ho in Hx. injection Hx as ->. congruence.
  - intros a' x Hx Hz'. apply lookup_insert_Some in Hx as [[<- <-]|[Hne Hx]]; [rewrite Eh; apply lookup_insert_eq|].
    rewrite lookup_insert_ne; [now apply Hc|]. intros E. pose proof (ok_handles _ Hc a' x Hx Hz') as H1. rewrite <- E, Hn in H1. done.
  - done.
  - apply Hc.
  - intros E. exfalso. revert E. apply insert_non_empty.
  - intros a' x Hx Hf'. apply lookup_insert_Some in Hx as [[<- <-]|[Hne Hx]]; [rewrite Eh; auto|].
    now apply (ok_controllers _ Hc a').
Qed.
End invariant.

(** * The end of an object *)

(** What the destructor leaves. *)
Definition deleted (a : Z) (o : window_obj) (c : core) : core :=
  let c := destroyed a (set_type TWin32Window (set_controller None o)) (with_count (g_active_window_count c - 1) c) in
  with_objs (delete a (objs c)) c.

Lemma gwp_delete {e} (He : gui_env_ok e) a o c (Q : unit -> core -> Prop) :
  core_ok c -> objs c !! a = Some o -> Q tt (deleted a o c) -> gwp e (delete_window a) c Q.
Proof.
  intros Hc Ho HQ. unfold delete_window, FlutterWindow_dtor, Win32Window_dtor. gstep. gstep.
  set (o1 := set_type TWin32Window (set_controller None o)).
  assert (Hbase : forall c', c' = with_objs (<[a := o1]> (objs c)) c ->
    gwp e (Destroy a) (with_count (g_active_window_count c' - 1) c')
      (fun _ c' => gwp e (change (fun c => with_objs (delete a (objs c)) c)) c' Q)).
  { intros ? ->. unfold Destroy, DestroyWindow. eapply gwp_Destroy; [done|exact (core_addr c Hc a o Ho)|apply lookup_insert_eq| |].
    - intros Hz. exact (ok_handles _ Hc a o Ho Hz).
    - gstep. match goal with |- Q tt (with_objs _ ?d) =>
        replace d with (destroyed a o1 (with_count (g_active_window_count c - 1) c)); [exact HQ|] end.
      unfold destroyed, lost_window, left_window, with_count, with_objs. cbn. now rewrite insert_insert_eq. }
  repeat gstep; apply Hbase; [|done..]. rewrite <- (with_same a o c Ho) at 1. do 2 f_equal. unfold o1.
  destruct (flutter_controller_ o) eqn:Ef.
  - destruct (ok_controllers _ Hc a o Ho); [now rewrite Ef|]. congruence.
  - destruct o; cbn in *. now subst.
Qed.

Lemma removed_ok c (Hc : core_ok c) a o i b q :
  objs c !! a = Some o -> let n := g_active_window_count c - 1 in
  (n <> 0 -> i = instance_ c /\ b = os_class c) -> (n = 0 -> b = false) ->
  core_ok (Core (delete a (objs c)) n i b (delete (window_handle_ o) (os_windows c)) q).
Proof.
  intros Ho n Hn0 Hn1. assert (En : n = Z.of_nat (size (delete a (objs c)))).
  { unfold n. rewrite (ok_count _ Hc), map_size_delete_Some by eauto.
    pose proof (core_counted c Hc a o Ho) as H0. rewrite (ok_count _ Hc) in H0. lia. }
  assert (Hother : forall h a', delete (window_handle_ o) (os_windows c) !! h = Some a' ->
    h <> 0 /\ exists x, delete a (objs c) !! a' = Some x /\ window_handle_ x = h).
  { intros h a' Hw. apply lookup_delete_Some in Hw as [Hne Hw]. destruct (ok_windows _ Hc h a' Hw) as (Hz & x & Hx & Ex).
    split; [done|]. exists x. rewrite lookup_delete_ne; [done|]. intros ->. rewrite Ho in Hx. injection Hx as ->. done. }
  assert (Hempty : n = 0 -> delete a (objs c) = ∅) by (intros E; apply map_size_empty_inv; lia).
  split; cbn; try done.
  - rewrite lookup_delete_ne; [apply Hc|]. exact (core_addr c Hc a o Ho).
  - intros a' x Hx Hz. apply lookup_delete_Some in Hx as [Hne Hx]. pose proof (ok_handles _ Hc a' x Hx Hz) as H1.
    rewrite lookup_delete_ne; [done|]. intros E. assert (Hz' : window_handle_ o <> 0) by now rewrite E.
    pose proof (ok_handles _ Hc a o Ho Hz') as H2. rewrite E, H1 in H2. injection H2 as ->. done.
  - intros Hne. apply map_choose in Hne as (h & a' & Hw). destruct (Hother h a' Hw) as (_ & x & Hx & _).
    destruct (decide (n = 0)) as [E|E]; [rewrite Hempty in Hx by done; done|]. destruct (Hn0 E) as [_ ->]. apply Hc.
    intros Ew. now rewrite Ew, delete_empty in Hw.
  - intros Eb. destruct (decide (n = 0)) as [E|E]; [rewrite Hn1 in Eb by done; done|].
    destruct (Hn0 E) as [-> ->]. now apply Hc.
  - intros E. apply Hn1. now rewrite En, E, map_size_empty.
  - intros a' x Hx. apply lookup_delete_Some in Hx as [_ Hx]. now apply (ok_controllers _ Hc a').
Qed.

Lemma deleted_ok c (Hc : core_ok c) a o : objs c !! a = Some o -> core_ok (deleted a o c).
Proof.
  intros Ho. set (n := g_active_window_count c - 1). set (w := delete (window_handle_ o) (os_windows c)).
  assert (Hw : n = 0 -> w = ∅).
  { intros E. pose proof (removed_ok c Hc a o None false false Ho) as Hr. fold n w in Hr.
    destruct (decide (w = ∅)) as [|Hne]; [done|]. exfalso.
    assert (Hk : core_ok (Core (delete a (objs c)) n None false w false)) by (apply Hr; [intros Hn; now destruct Hn|done]).
    discriminate (ok_class _ Hk Hne). }
  assert (E : exists i b q, (n <> 0 -> i = instance_ c /\ b = os_class c) /\ (n = 0 -> b = false) /\
    deleted a o c = Core (delete a (objs c)) n i b w q).
  { unfold deleted, destroyed, lost_window, left_window. pose proof (delete_null c Hc a o Ho) as Hd. fold w in Hd.
    set (o1 := set_type TWin32Window (set_controller None o)). change (window_handle_ o1) with (window_handle_ o).
    destruct (decide (n = 0)) as [En|En].
    - rewrite !(retired_last (with_objs _ _)) by done. specialize (Hw En).
      destruct (Z.eqb_spec (window_handle_ o) 0) as [Eh|Eh]; rewrite ?retired_last by done; eexists _, _, _;
        (split; [|split; [|cbn; rewrite delete_insert_eq, ?Hd by done; reflexivity]]); [done| |done|]; intros _; cbn.
      + rewrite <- Hd, Hw by done. now rewrite bool_decide_true, andb_false_r.
      + fold w. rewrite Hw. now rewrite (bool_decide_true (∅ = ∅)), andb_false_r.
    - rewrite !(retired_live (with_objs _ _)) by done.
      destruct (Z.eqb_spec (window_handle_ o) 0) as [Eh|Eh]; rewrite ?retired_live by done; eexists _, _, _;
        (split; [|split; [|cbn; rewrite delete_insert_eq, ?Hd by done; reflexivity]]); done. }
  destruct E as (i & b & q & H1 & H2 & ->). now apply removed_ok.
Qed.
