(* ===== verification/RunnerRun.v ===== *)
(** Properties of the runner: any sequence of operations on window objects and of
    messages keeps objects and windows together; the program as a whole. *)
From stdpp Require Import base gmap list numbers option relations.
From Stdlib Require Import Floats.SpecFloat.
From S2P Require Import Prelude Prog Relaunch Runner RunnerSpec.

(** * Operations and messages in any order *)

Inductive gui_op : Set :=
| OpNew (t : dynamic_type) (a : Z)
| OpDelete (a : Z)
| OpCreate (a x y w h : Z)
| OpDestroy (a : Z)
| OpQuitOnClose (a : Z) (b : bool)
| OpShow (a : Z)
| OpMessage (h : Z) (m : message).

Definition perform (op : gui_op) : prog gui unit :=
  match op with
  | OpNew t a => new_window t a
  | OpDelete a => delete_window a
  | OpCreate a x y w h => let* _ := Win32Window_Create a x y w h in Ret tt
  | OpDestroy a => Destroy a
  | OpQuitOnClose a b => Win32Window_SetQuitOnClose a b
  | OpShow a => let* _ := Win32Window_Show a in Ret tt
  | OpMessage h m => send_message DestroyWindow h m
  end.

(** The engine of the window's object is there. *)
Definition engine_up (c : core) (h : Z) : Prop :=
  forall a o, os_windows c !! h = Some a -> objs c !! a = Some o ->
    match w_type o with
    | TWin32Window => True
    | TFlutterWindow => exists f, flutter_controller_ o = Some f /\ fc_engine f = true
    end.

(** Objects are constructed at free addresses and used while they exist; the
    system delivers what it sends by itself, requests to close and changes of
    fonts, to any window. *)
Definition allowed (c : core) (op : gui_op) : Prop :=
  match op with
  | OpNew _ a => a <> 0 /\ objs c !! a = None
  | OpCreate a x y w h => is_Some (objs c !! a) /\ Forall scalable [x; y; w; h]
  | OpDelete a | OpDestroy a | OpQuitOnClose a _ | OpShow a => is_Some (objs c !! a)
  | OpMessage h m => passive m \/ m = WM_CLOSE \/ m = WM_FONTCHANGE
  end.

(** The operation is a change of fonts for the window of a [FlutterWindow]
    without controller, or without engine when Flutter does not take the
    message. *)
Definition font_fault (s : gui) (op : gui_op) : bool :=
  match op with
  | OpMessage h WM_FONTCHANGE =>
      match os_windows (g_core s) !! h with
      | Some a =>
          match objs (g_core s) !! a with
          | Some o =>
              match w_type o, flutter_controller_ o with
              | TWin32Window, _ => false
              | TFlutterWindow, None => true
              | TFlutterWindow, Some f =>
                  negb (fc_engine f) && match ge_toplevel (g_env s) (g_tick s) h WM_FONTCHANGE with None => true | Some _ => false end
              end
          | None => false
          end
      | None => false
      end
  | _ => false
  end.

Inductive gui_step : gui -> gui -> Prop :=
| gui_does op s s' : allowed (g_core s) op -> run (perform op) s = Some (tt, s') -> gui_step s s'.

Definition gui_start (e : gui_env) : gui := Gui e 0 [] (Core ∅ 0 None false ∅ false).

Section operations.
Context {e : gui_env} (He : gui_env_ok e).

(** An update of an object that keeps what the invariant is about. *)
Lemma core_ok_update c a o o' : core_ok c -> objs c !! a = Some o -> window_handle_ o' = window_handle_ o ->
  w_type o' = w_type o -> flutter_controller_ o' = flutter_controller_ o -> core_ok (with_objs (<[a := o']> (objs c)) c).
Proof.
  intros Hc Ho Eh Et Ef. destruct Hc as [H0 Hn Hw Hh Hcl Hf Hl Hct]. split; cbn; auto.
  - rewrite lookup_insert_ne; [done|]. intros ->. congruence.
  - rewrite Hn. f_equal. symmetry. now rewrite map_size_insert_Some by eauto.
  - intros h a' Hx. destruct (Hw h a' Hx) as (Hz & x & Hx' & Ex). split; [done|].
    destruct (decide (a' = a)) as [->|Hne]; [exists o'; rewrite lookup_insert_eq; split; [done|congruence]|].
    exists x. now rewrite lookup_insert_ne.
  - intros a' x Hx Hz. apply lookup_insert_Some in Hx as [[<- <-]|[Hne Hx]]; [rewrite Eh in *|]; auto.
  - intros E. exfalso. revert E. apply insert_non_empty.
  - intros a' x Hx Hf'. apply lookup_insert_Some in Hx as [[<- <-]|[Hne Hx]]; [rewrite Eh, Et, Ef in *|]; eauto.
Qed.

Lemma core_ok_new c t a : core_ok c -> a <> 0 -> objs c !! a = None ->
  core_ok (with_count (g_active_window_count c + 1) (with_objs (<[a := WindowObj t false 0 0 None]> (objs c)) c)).
Proof.
  intros Hc Ha Hn. destruct Hc as [H0 Hn' Hw Hh Hcl Hf Hl Hct]. split; cbn; auto.
  - now rewrite lookup_insert_ne.
  - rewrite Hn', map_size_insert_None by done. lia.
  - intros h a' Hx. destruct (Hw h a' Hx) as (Hz & x & Hx' & Ex). split; [done|]. exists x.
    rewrite lookup_insert_ne; [done|]. intros ->. congruence.
  - intros a' x Hx Hz. apply lookup_insert_Some in Hx as [[<- <-]|[Hne Hx]]; [done|auto].
  - intros E. exfalso. revert E. apply insert_non_empty.
  - intros a' x Hx [f Hf']. apply lookup_insert_Some in Hx as [[<- <-]|[Hne Hx]]; [done|eauto].
Qed.

Lemma created_ok c a o ok c' : core_ok c -> objs c !! a = Some o -> created a (closed o) (destroyed a o c) ok c' -> core_ok c'.
Proof.
  intros Hc Ho (b & Hb & H). pose proof (destroyed_ok c Hc a o Ho) as Hd.
  assert (Ho1 : objs (destroyed a o c) !! a = Some (closed o)) by (rewrite destroyed_objs; apply lookup_insert_eq).
  assert (Hr : core_ok (with_class (Some true) b (destroyed a o c))).
  { apply registered_ok; [done| |done]. intros E. now rewrite E in Ho1. }
  destruct H as [[_ ->]|(h & o' & Hz & -> & Hnone & (Eh & Et & _ & Hm) & ->)]; [done|].
  eapply opened_ok; [exact Hr|exact Ho1|done|done|exact Hnone|done|done|].
  intros Hf. rewrite Et. destruct (w_type (set_handle h (closed o))) eqn:E; [|done]. destruct Hm as [_ ->].
  change (is_Some (flutter_controller_ (closed o))) in Hf. rewrite (closed_controller c Hc a o Ho) in Hf. now destruct Hf.
Qed.

(** The object of a window. *)
Lemma window_object c h a : core_ok c -> os_windows c !! h = Some a ->
  exists o, objs c !! a = Some o /\ window_handle_ o = h /\ a <> 0.
Proof.
  intros Hc Hw. destruct (ok_windows _ Hc h a Hw) as (_ & o & Ho & E). exists o. split; [done|]. split; [done|].
  exact (core_addr c Hc a o Ho).
Qed.

(** A message reaches the base class, or Flutter takes it. *)
Lemma gwp_message dw h a o m c (Q : unit -> core -> Prop) :
  os_windows c !! h = Some a -> a <> 0 -> objs c !! a = Some o -> m = WM_CLOSE \/ (m = WM_FONTCHANGE /\ engine_up c h) ->
  ((exists n r, ge_toplevel e n h m = Some r) -> Q tt c) ->
  gwp e (Win32Window_MessageHandler dw a h m) c (fun _ c' => Q tt c') -> gwp e (send_message dw h m) c Q.
Proof.
  intros Hh Ha Ho Hm HQ Hb. unfold send_message, WndProc, GetThisFromHandle. gstep. gstep. rewrite Hh. gstep.
  assert (Hb' : gwp e (MessageHandler dw a h m) c (fun _ c' => gwp e (Ret tt) c' Q)).
  { assert (Hk : gwp e (Win32Window_MessageHandler dw a h m) c (fun _ c' => gwp e (Ret tt) c' Q)).
    { eapply gwp_mono; [exact Hb|]. intros ? c' H. now apply gwp_ret. }
    unfold MessageHandler, FlutterWindow_MessageHandler. gstep. gstep. destruct (w_type o) eqn:Et; [exact Hk|].
    destruct Hm as [->|[-> Hup]].
    - repeat gstep; try exact Hk. apply HQ. eauto.
    - pose proof (Hup a o Hh Ho) as Hf. rewrite Et in Hf. destruct Hf as (f & Hf & Hen).
      do 3 gstep. rewrite Hf. gstep. gstep; [gsteps; apply HQ; eauto|]. do 3 gstep. rewrite Hf, Hen. gsteps. exact Hk. }
  destruct Hm as [->|[-> _]]; gstep; gstep; rewrite Hh; change (default 0 (Some a)) with a; destruct (Z.eqb_spec a 0); done.
Qed.

Lemma gwp_close h a o c (Q : unit -> core -> Prop) :
  core_ok c -> os_windows c !! h = Some a -> objs c !! a = Some o ->
  ((exists n r, ge_toplevel e n h WM_CLOSE = Some r) -> Q tt c) -> Q tt (lost_window h a o c) ->
  gwp e (send_message DestroyWindow h WM_CLOSE) c Q.
Proof.
  intros Hc Hw Ho HQ HQ'. destruct (window_object c h a Hc Hw) as (o' & Ho' & Eh & Ha). rewrite Ho in Ho'. injection Ho' as <-.
  eapply gwp_message; [done..|now left|done|]. unfold Win32Window_MessageHandler, DefWindowProc. do 3 gstep. rewrite Eh.
  eapply gwp_destroy_window; [done..|]. gsteps. done.
Qed.

Lemma gwp_fonts h a o c (Q : unit -> core -> Prop) :
  core_ok c -> os_windows c !! h = Some a -> objs c !! a = Some o -> engine_up c h -> Q tt c ->
  gwp e (send_message DestroyWindow h WM_FONTCHANGE) c Q.
Proof.
  intros Hc Hw Ho Hup HQ. destruct (window_object c h a Hc Hw) as (o' & Ho' & Eh & Ha). rewrite Ho in Ho'. injection Ho' as <-.
  eapply gwp_message; [done..|now right|done|]. unfold Win32Window_MessageHandler, DefWindowProc. gsteps. done.
Qed.

(** A message to a handle that is not a window is dropped. *)
Lemma gwp_no_window dw h m c (Q : unit -> core -> Prop) :
  os_windows c !! h = None -> Q tt c -> gwp e (send_message dw h m) c Q.
Proof. intros Hw HQ. unfold send_message. gstep. gstep. rewrite Hw. now gstep. Qed.

(** Operations but for changes of fonts. *)
Lemma gwp_perform c op : core_ok c -> allowed c op -> (forall h, op = OpMessage h WM_FONTCHANGE -> engine_up c h) ->
  gwp e (perform op) c (fun _ c' => core_ok c').
Proof.
  intros Hc Ha Hfont. destruct op as [t a|a|a x y w h|a|a b|a|h m]; cbn [perform allowed] in *.
  - destruct Ha as [Ha Hn]. unfold new_window. gstep. gstep. gstep. exact (core_ok_new c t a Hc Ha Hn).
  - destruct Ha as [o Ho]. eapply gwp_delete; [done..|]. now apply deleted_ok.
  - destruct Ha as [[o Ho] Hs]. gstep. eapply gwp_Create; [done|exact Hs|exact (core_addr c Hc a o Ho)|done|now apply (ok_handles _ Hc)|].
    intros ok c' Hcr. gstep. now apply created_ok with c a o ok.
  - destruct Ha as [o Ho]. eapply gwp_Destroy; [done|exact (core_addr c Hc a o Ho)|done|now apply (ok_handles _ Hc)|].
    now apply destroyed_ok.
  - destruct Ha as [o Ho]. unfold Win32Window_SetQuitOnClose. gstep. now apply core_ok_update with o.
  - destruct Ha as [o Ho]. unfold Win32Window_Show. gsteps. done.
  - destruct (os_windows c !! h) as [a|] eqn:Hw; [|now apply gwp_no_window].
    destruct (window_object c h a Hc Hw) as (o & Ho & Eh & Hz). destruct Ha as [Hp|[->| ->]].
    + eapply gwp_passive; [done..|rewrite Eh; eauto|done].
    + eapply gwp_close; [done..|]. rewrite <- Eh. now apply lost_ok.
    + eapply gwp_fonts; [done..| |done]. now apply Hfont.
Qed.

(** A change of fonts for a [FlutterWindow] without engine. *)
Lemma font_change_runs s h a o : os_windows (g_core s) !! h = Some a -> a <> 0 -> objs (g_core s) !! a = Some o ->
  w_type o = TFlutterWindow -> (forall f, flutter_controller_ o = Some f -> fc_engine f = false) ->
  if font_fault s (OpMessage h WM_FONTCHANGE) then run (perform (OpMessage h WM_FONTCHANGE)) s = None
  else exists s', run (perform (OpMessage h WM_FONTCHANGE)) s = Some (tt, s') /\ g_env s' = g_env s /\ g_core s' = g_core s.
Proof.
  intros Hw Hz Ho Ht Hf. unfold font_fault, perform, send_message. rewrite Hw, Ho, Ht, run_bind. cbn [view atomic run]. rewrite Hw, run_bind.
  unfold WndProc, GetThisFromHandle. rewrite run_bind. cbn [view atomic run]. rewrite Hw. change (default 0 (Some a)) with a.
  destruct (Z.eqb_spec a 0); [done|]. cbn [negb]. unfold MessageHandler. rewrite run_bind. cbn [member atomic run]. rewrite Ho, Ht.
  unfold FlutterWindow_MessageHandler. rewrite run_bind. cbn [member atomic run]. rewrite Ho, run_bind.
  destruct (flutter_controller_ o) as [f|] eqn:Ef.
  - rewrite (Hf f eq_refl). cbn [negb andb ask atomic run]. destruct (ge_toplevel _ _ _ _) as [r|].
    + eexists. split; [reflexivity|]. done.
    + rewrite !run_bind. cbn [member atomic run g_core]. rewrite Ho, Ef, (Hf f eq_refl). reflexivity.
  - cbn [run]. rewrite !run_bind. cbn [member atomic run]. rewrite Ho, Ef. reflexivity.
Qed.

(** Every operation that is allowed: undefined exactly on a font fault. *)
Lemma perform_runs s op : core_ok (g_core s) -> g_env s = e -> allowed (g_core s) op ->
  if font_fault s op then run (perform op) s = None
  else exists s', run (perform op) s = Some (tt, s') /\ g_env s' = e /\ core_ok (g_core s').
Proof.
  intros Hc Ee Ha.
  assert (Hrun : (forall h, op = OpMessage h WM_FONTCHANGE -> engine_up (g_core s) h) ->
    exists s', run (perform op) s = Some (tt, s') /\ g_env s' = e /\ core_ok (g_core s')).
  { intros Hup. destruct (gwp_run (perform op) _ s (gwp_perform _ op Hc Ha Hup) Ee) as ([] & s' & H). eauto. }
  destruct op as [t a|a|a x y w h|a|a b|a|h m]; try (apply Hrun; discriminate).
  destruct m; try (apply Hrun; discriminate).
  destruct (os_windows (g_core s) !! h) as [a|] eqn:Hw.
  2: { cbn [font_fault]. rewrite Hw. apply Hrun. intros h' [= <-] a' o' Hw'. congruence. }
  destruct (window_object _ h a Hc Hw) as (o & Ho & Eh & Hz).
  assert (Hup : forall f, w_type o = TWin32Window \/ (flutter_controller_ o = Some f /\ fc_engine f = true) ->
    forall h', OpMessage h WM_FONTCHANGE = OpMessage h' WM_FONTCHANGE -> engine_up (g_core s) h').
  { intros f H h' [= <-] a' o' Hw' Ho'. rewrite Hw in Hw'. injection Hw' as <-. rewrite Ho in Ho'. injection Ho' as <-.
    destruct H as [->|H]; [done|]. destruct (w_type o); [done|]. eauto. }
  destruct (w_type o) eqn:Et.
  { cbn [font_fault]. rewrite Hw, Ho, Et. apply Hrun, (Hup (Controller true true 0)). now left. }
  destruct (flutter_controller_ o) as [f|] eqn:Ef; [destruct (fc_engine f) eqn:Een|].
  - cbn [font_fault]. rewrite Hw, Ho, Et, Ef, Een. apply Hrun, (Hup f). now right.
  - pose proof (font_change_runs s h a o Hw Hz Ho Et) as H. destruct (font_fault _ _); [apply H; congruence|].
    destruct H as (s' & H1 & H2 & H3); [congruence|]. exists s'. split; [done|]. split; congruence.
  - pose proof (font_change_runs s h a o Hw Hz Ho Et) as H. destruct (font_fault _ _); [apply H; congruence|].
    destruct H as (s' & H1 & H2 & H3); [congruence|]. exists s'. split; [done|]. split; congruence.
Qed.

(** * The program *)

(** What [GetMessage] delivers. *)
Definition pumped_ok (x : pumped) : Prop :=
  match x with Msg _ m => passive m \/ m = WM_CLOSE \/ m = WM_FONTCHANGE | NextFrame => True end.

(** The window of the program is open, with its view. *)
Definition hosting (a h : Z) (c : core) : Prop :=
  core_ok c /\ os_quit c = false /\ exists o f, objs c = {[a := o]} /\ window_handle_ o = h /\ h <> 0 /\
    w_type o = TFlutterWindow /\ quit_on_close_ o = true /\ flutter_controller_ o = Some f /\ fc_engine f = true.

(** It was closed. *)
Definition finished (a : Z) (c : core) : Prop :=
  core_ok c /\ os_quit c = true /\ exists o, objs c = {[a := o]} /\ window_handle_ o = 0 /\ flutter_controller_ o = None.

Lemma finished_no_window a c h : finished a c -> os_windows c !! h = None.
Proof.
  intros (Hc & _ & o & Eo & Ez & _). destruct (os_windows c !! h) as [a'|] eqn:Hw; [|done].
  destruct (ok_windows _ Hc h a' Hw) as (Hz & x & Hx & Ex). rewrite Eo in Hx. apply lookup_singleton_Some in Hx as [-> ->]. congruence.
Qed.

Lemma gwp_dispatch_finished a x c : finished a c -> gwp e (dispatch a x) c (fun _ c' => c' = c).
Proof.
  intros Hf. destruct x as [h m|]; cbn [dispatch].
  - apply gwp_no_window; [|done]. now apply finished_no_window with a.
  - destruct Hf as (_ & _ & o & Eo & _ & Ec). gstep. eapply gwp_member; [rewrite Eo; apply lookup_singleton_eq|]. rewrite Ec. now gstep.
Qed.

Lemma hosting_window a h c : hosting a h c -> os_windows c !! h = Some a /\ forall h', h' <> h -> os_windows c !! h' = None.
Proof.
  intros (Hc & _ & o & f & Eo & Eh & Hz & _). split.
  - rewrite <- Eh. apply (ok_handles _ Hc); [rewrite Eo; apply lookup_singleton_eq|congruence].
  - intros h' Hne. destruct (os_windows c !! h') as [a'|] eqn:Hw; [|done].
    destruct (ok_windows _ Hc h' a' Hw) as (_ & x & Hx & Ex). rewrite Eo in Hx. apply lookup_singleton_Some in Hx as [-> ->]. congruence.
Qed.

Lemma hosting_closed a h o c : hosting a h c -> objs c = {[a := o]} -> finished a (lost_window h a o c).
Proof.
  intros (Hc & Hq & o' & f & Eo & Eh & Hz & Et & Eq & _) E. rewrite Eo in E. apply map_singleton_inj in E as [_ ->].
  assert (Ho : objs c !! a = Some o) by (rewrite Eo; apply lookup_singleton_eq).
  split; [rewrite <- Eh; now apply lost_ok|]. split; [unfold lost_window, left_window; cbn; now rewrite Eq|].
  exists (closed o). split; [|split; [done|now apply closed_controller with c a]].
  change (objs (left_window a o c) = {[a := closed o]}). rewrite left_objs, Eo. apply insert_singleton_eq.
Qed.

(** A message leaves the window open, or closes it; the request to close closes
    it unless Flutter takes it. *)
Lemma gwp_dispatch_hosting a h x c : hosting a h c -> pumped_ok x ->
  gwp e (dispatch a x) c (fun _ c' => finished a c' \/
    (c' = c /\ ((forall n h, ge_toplevel e n h WM_CLOSE = None) -> x <> Msg h WM_CLOSE))).
Proof.
  intros Hh Hx. pose proof (hosting_window a h c Hh) as [Hw Hno]. pose proof Hh as (Hc & Hq & o & f & Eo & Eh & Hz & Et & Eq & Ef & Een).
  assert (Ho : objs c !! a = Some o) by (rewrite Eo; apply lookup_singleton_eq).
  destruct x as [h' m|]; cbn [dispatch].
  - destruct (decide (h' = h)) as [->|Hne]; [|apply gwp_no_window; [now apply Hno|]; right; split; [done|congruence]].
    destruct Hx as [Hp|[->| ->]].
    + eapply gwp_passive; [done|exact Hp|exact Hw|exact (core_addr c Hc a o Ho)|exact Ho|rewrite Eh; eauto|].
      right. split; [done|]. intros _ [= ->]. done.
    + eapply gwp_close; [done..| |left; now apply hosting_closed].
      intros (n & r & Ht). right. split; [done|]. intros Hpass. rewrite Hpass in Ht. done.
    + eapply gwp_fonts; [done..| |]; [|right; split; [done|congruence]].
      intros a' o' Hw' Ho'. rewrite Hw in Hw'. injection Hw' as <-. rewrite Ho in Ho'. injection Ho' as <-. rewrite Et. eauto.
  - unfold Win32Window_Show. gsteps; (right; split; [done|congruence]).
Qed.

Lemma gwp_loop_finished a inbox c : finished a c -> gwp e (message_loop a inbox) c (fun quit c' => quit = true /\ c' = c).
Proof.
  intros Hf. induction inbox as [|x inbox IH]; cbn [message_loop].
  - gstep. split; [apply Hf|done].
  - eapply gwp_seq; [now apply gwp_dispatch_finished|done].
Qed.

Lemma gwp_loop a h inbox c : hosting a h c -> Forall pumped_ok inbox ->
  gwp e (message_loop a inbox) c (fun quit c' =>
    (quit = true /\ finished a c') \/
    (quit = false /\ hosting a h c' /\ ((forall n h, ge_toplevel e n h WM_CLOSE = None) -> Msg h WM_CLOSE ∉ inbox))).
Proof.
  intros H Hin. induction Hin as [|x inbox Hx _ IH]; cbn [message_loop].
  - gstep. right. split; [apply H|]. split; [done|]. intros _. apply not_elem_of_nil.
  - gstep. eapply gwp_mono; [apply gwp_dispatch_hosting; [exact H|exact Hx]|]. intros ? c' [Hf|[-> Hne]].
    + eapply gwp_mono; [now apply gwp_loop_finished|]. intros q c2 [-> ->]. now left.
    + eapply gwp_mono; [exact IH|]. intros q c2 [H2|(-> & H2 & Hn)]; [now left|]. right. split; [done|].
      split; [done|]. intros Hp. apply not_elem_of_cons. split; [|auto]. intros E. now apply (Hne Hp).
Qed.

(** What is left of a program that has ended. *)
Definition gone (quit : bool) (c : core) : Prop :=
  objs c = ∅ /\ os_windows c = ∅ /\ os_class c = false /\ g_active_window_count c = 0 /\ os_quit c = quit.

Lemma destroyed_quit a o c : os_quit (destroyed a o c) = negb (window_handle_ o =? 0) && quit_on_close_ o || os_quit c.
Proof. unfold destroyed, lost_window, left_window, retired. cbn. destruct (_ =? 0), (_ =? 0); cbn; try done; now destruct (_ =? 0). Qed.

Lemma deleted_gone a o c : core_ok c -> objs c = {[a := o]} ->
  gone (negb (window_handle_ o =? 0) && quit_on_close_ o || os_quit c) (deleted a o c).
Proof.
  intros Hc Eo. assert (Ho : objs c !! a = Some o) by (rewrite Eo; apply lookup_singleton_eq).
  pose proof (deleted_ok c Hc a o Ho) as Hd. assert (E : objs (deleted a o c) = ∅).
  { unfold deleted. cbn. rewrite destroyed_objs. cbn. rewrite delete_insert_eq, Eo. apply delete_singleton_eq. }
  split; [done|]. split; [|split; [now apply Hd|split]].
  - apply map_empty. intros h. destruct (os_windows _ !! h) eqn:Hw; [|done].
    destruct (ok_windows _ Hd _ _ Hw) as (_ & x & Hx & _). now rewrite E in Hx.
  - rewrite (ok_count _ Hd), E. reflexivity.
  - unfold deleted. cbn. now rewrite destroyed_quit.
Qed.

(** The window of [main.cpp] at a resolution. *)
Definition window_lengths : list Z := [10; 1280; 720].

Definition scales_exactly (z dpi : Z) : bool :=
  match Scale (int_of_unsigned z) (scale_factor dpi) with Some v => v =? z * dpi / 96 | None => false end.

Lemma scale_table : forallb (fun d => forallb (fun z => scales_exactly z (Z.of_nat d)) window_lengths) (seq 1 960) = true.
Proof. vm_compute. reflexivity. Qed.

Lemma scale_lengths z dpi : In z window_lengths -> 1 <= dpi <= 960 -> Scale (int_of_unsigned z) (scale_factor dpi) = Some (z * dpi / 96).
Proof.
  intros Hz Hd. pose proof scale_table as H. rewrite forallb_forall in H.
  specialize (H (Z.to_nat dpi) ltac:(apply in_seq; lia)). rewrite forallb_forall in H. specialize (H z Hz).
  rewrite Z2Nat.id in H by lia. unfold scales_exactly in H. destruct (Scale _ _); [|done]. apply Z.eqb_eq in H. now subst.
Qed.

Lemma scalable_lengths : Forall scalable [10; 10; 1280; 720].
Proof. repeat (constructor; [intros dpi Hd; rewrite scale_lengths by (cbn; tauto || done); now eexists|]). constructor. Qed.

(** The program from the construction of its window. *)
Definition window_outcome (a : Z) (inbox : list pumped) (r : option Z) (c : core) : Prop :=
  match r with
  | Some code => (code = EXIT_SUCCESS /\ gone true c) \/ (code = EXIT_FAILURE /\ gone false c)
  | None => exists h, hosting a h c /\ ((forall n h, ge_toplevel e n h WM_CLOSE = None) -> Msg h WM_CLOSE ∉ inbox)
  end.

(** The first creation. *)
Lemma created_first a o c ok c' :
  objs c = {[a := o]} -> window_handle_ o = 0 -> quit_on_close_ o = false -> os_quit c = false ->
  created a (closed o) (destroyed a o c) ok c' ->
  exists o', objs c' = {[a := o']} /\ quit_on_close_ o' = false /\ os_quit c' = false /\
    (ok = true -> w_type o = TFlutterWindow -> w_type o' = TFlutterWindow /\ window_handle_ o' <> 0 /\
       exists f, flutter_controller_ o' = Some f /\ fc_engine f = true).
Proof.
  intros Eo Ez Eq Es (b & _ & H). pose proof (destroyed_objs a o c) as Ed. rewrite Eo, insert_singleton_eq in Ed.
  pose proof (destroyed_quit a o c) as Hq. rewrite Ez, Es in Hq. cbn in Hq.
  assert (Hq' : quit_on_close_ (closed o) = false) by (unfold closed, released; now destruct (w_type o)).
  destruct H as [[-> ->]|(h & o' & Hz & _ & _ & (Eh & Et & Eq' & Hm) & ->)].
  - exists (closed o). done.
  - exists o'. split; [cbn; now rewrite Ed, insert_singleton_eq|]. split; [rewrite Eq'; exact Hq'|]. split; [done|].
    intros -> Ht. assert (Et' : w_type (set_handle h (closed o)) = TFlutterWindow) by (unfold closed, released; now rewrite Ht).
    rewrite Et' in *. destruct Hm as (f & Hf & He'). split; [done|]. split; [now rewrite Eh|]. exists f. split; [done|]. now apply He'.
Qed.

Lemma gwp_run_window a inbox : a <> 0 -> Forall pumped_ok inbox ->
  gwp e (run_window a inbox) (g_core (gui_start e)) (window_outcome a inbox).
Proof.
  intros Ha Hin. set (c0 := g_core _). set (o0 := WindowObj TFlutterWindow false 0 0 None).
  set (c1 := with_count 1 (with_objs (<[a := o0]> ∅) c0)).
  assert (Hc1 : core_ok c1).
  { apply (core_ok_new c0 TFlutterWindow a); [|done|done]. split; cbn; try done. }
  assert (Ho1 : objs c1 !! a = Some o0) by apply lookup_insert_eq.
  unfold run_window, new_window. gstep. gstep. gstep. gstep. gstep. fold c1.
  change (with_count _ _) with c1.
  eapply gwp_Create; [done|exact scalable_lengths|done|exact Ho1|done|]. intros ok c2 Hcr.
  assert (Hc2 : core_ok c2) by now apply created_ok with c1 a o0 ok.
  destruct (created_first a o0 c1 ok c2) as (o2 & E2 & Eq2 & Es2 & Hok); [apply insert_empty|done..|].
  assert (Ho2 : objs c2 !! a = Some o2) by (rewrite E2; apply lookup_singleton_eq). destruct ok; cbn [negb].
  - destruct (Hok eq_refl eq_refl) as (Et & Ez & f & Ef & Een). unfold Win32Window_SetQuitOnClose. gstep. gstep. gstep.
    eapply gwp_mono; [apply (gwp_loop a (window_handle_ o2)); [|exact Hin]|].
    { split; [now apply core_ok_update with o2|]. split; [done|]. exists (set_quit true o2), f.
      split; [cbn; now rewrite E2, insert_singleton_eq|]. done. }
    intros quit c3 [[-> (Hc3 & Hq3 & o3 & E3 & Ez3 & _)]|(-> & Hh & Hn)]; cbn [negb].
    + gstep. gstep. gstep. eapply gwp_delete; [done|exact Hc3|rewrite E3; apply lookup_singleton_eq|]. gstep. left. split; [done|].
      pose proof (deleted_gone a o3 c3 Hc3 E3) as Hg. now rewrite Hq3, orb_true_r in Hg.
    + gstep. exists (window_handle_ o2). done.
  - gstep. eapply gwp_delete; [done|exact Hc2|exact Ho2|]. gstep. right. split; [done|].
    pose proof (deleted_gone a o2 c2 Hc2 E2) as Hg. now rewrite Eq2, Es2, andb_false_r in Hg.
Qed.
End operations.

(** * The command line *)

(** [WideCharToMultiByte] with [WC_ERR_INVALID_CHARS]: the size of the encoding,
    the encoding where there is room, and 0 for a text that is not valid. *)
Definition encodes (enc : list Z -> option (list Z)) (wide : list Z -> Z -> Z * list Z) : Prop :=
  forall s, match enc s with
            | Some t => zlen t < 2 ^ 31 /\ (wide s 0).1 = zlen t /\ (0 < zlen t -> wide s (zlen t) = (zlen t, t))
            | None => (wide s 0).1 = 0
            end.

Lemma wcsnlen_spec s t n : Forall (fun c => c <> 0) s -> wcsnlen (s ++ 0 :: t) n = Some (n `min` length s)%nat.
Proof.
  intros Hs. revert n. induction Hs as [|c s Hc _ IH]; intros [|n]; cbn [wcsnlen app length]; try done.
  destruct (Z.eqb_spec c 0); [done|]. now rewrite IH.
Qed.

Lemma utf8_spec enc wide arg s :
  encodes enc wide -> c_str arg = Some s -> Utf8FromUtf16 wide (Some arg) = Some (default [] (enc (take UNICODE_STRING_MAX_CHARS s))).
Proof.
  intros He [Hs [t ->]]%c_str_spec. unfold Utf8FromUtf16. rewrite wcsnlen_spec by done.
  set (n := UNICODE_STRING_MAX_CHARS). assert (Et : take (n `min` length s) (s ++ 0 :: t) = take n s).
  { rewrite take_app_le by lia. rewrite <- take_take. now rewrite (firstn_all s). }
  rewrite Et. specialize (He (take n s)). destruct (wide (take n s) 0) as [len w0]. cbn [fst] in He.
  destruct (enc (take n s)) as [u|]; [|now subst].
  destruct He as (Hmax & -> & Hw). pose proof (zlen_nonneg u). destruct (Z.eqb_spec (zlen u) 0) as [E|E]; cbn [orb default].
  - unfold zlen in E. now destruct u.
  - destruct (Z.ltb_spec (2 ^ 63 - 1) (u64 (zlen u))) as [Hl|_].
    { unfold u64 in Hl. rewrite Z.mod_small in Hl by lia. lia. }
    rewrite Hw by lia. destruct (Z.eqb_spec (zlen u) 0); [done|]. unfold zlen. rewrite Nat2Z.id, Nat.sub_diag.
    cbn [replicate]. now rewrite app_nil_r, firstn_all.
Qed.

(** The engine gets the arguments of the program in UTF-8, an empty string for
    one that is not valid. *)
Lemma arguments_spec enc la argv args :
  encodes enc (la_wide la) -> la_argv la = Some argv -> Forall2 (fun arg s => c_str arg = Some s) argv args ->
  GetCommandLineArguments la = Some (map (fun s => default [] (enc (take UNICODE_STRING_MAX_CHARS s))) args).
Proof.
  intros He Ea Hargs. unfold GetCommandLineArguments. rewrite Ea. clear Ea.
  induction Hargs as [|arg s argv args Hs _ IH]; cbn [utf8_all map]; [done|]. now rewrite (utf8_spec enc _ arg s He Hs), IH.
Qed.

(** * Claims *)

Lemma start_ok e : core_ok (g_core (gui_start e)).
Proof. split; cbn; try done. Qed.

(** C32: whatever the order in which window objects are constructed, created,
    destroyed and deleted and messages are delivered, between two operations
    every window of the system belongs to a live object that holds its handle,
    every handle is that of a window, the counter counts the objects, the class
    is registered while a window exists and unregistered after the last object,
    and view controllers exist only in open windows.  No operation touches an
    object that does not exist, dereferences a null pointer or reads an
    uninitialised rectangle, but for one case, in which it always does:
    [WM_FONTCHANGE] for the window of a [FlutterWindow] that has no controller,
    or whose engine did not start and does not take the message.  The messages
    that arrive while an operation is under way are those that the system sends
    by itself ([passive]): sizes, activation, themes, resolutions and others
    without a case of their own. *)
Theorem runner_windows_safe (e : gui_env) (s : gui) (He : gui_env_ok e) (Hr : rtc gui_step (gui_start e) s) :
  core_ok (g_core s) /\ forall op, allowed (g_core s) op ->
    if font_fault s op then run (perform op) s = None else exists s', run (perform op) s = Some (tt, s').
Proof.
  assert (H : core_ok (g_core s) /\ g_env s = e).
  { revert s Hr. apply rtc_ind_r; [split; [apply start_ok|done]|]. intros s1 s2 _ [op s s' Ha Hs] [Hc Ee].
    pose proof (perform_runs He s op Hc Ee Ha) as H. destruct (font_fault s op); [congruence|].
    destruct H as (s3 & Hs3 & Ee3 & Hc3). rewrite Hs in Hs3. injection Hs3 as <-. done. }
  destruct H as [Hc Ee]. split; [done|]. intros op Ha.
  pose proof (perform_runs He s op Hc Ee Ha) as H. destruct (font_fault s op); [exact H|]. destruct H as (s' & Hs & _). eauto.
Qed.

(** A machine at 150 percent, with a dark theme. *)
Definition sample_gui : gui_env := {|
  ge_register _ := true; ge_handle n := 77 + Z.of_nat n; ge_sends _ := [WM_OTHER 0x24; WM_SIZE; WM_ACTIVATE]; ge_dpi _ := 144;
  ge_client _ := Rect 0 0 1920 1080; ge_controller _ := Controller true true 99; ge_toplevel _ _ _ := None;
  ge_default _ := 0; ge_light _ := Some 0; ge_user32 _ := Some true; ge_shown _ := true; ge_console _ := false
|}.

Lemma sample_gui_ok : gui_env_ok sample_gui.
Proof. split; intros; cbn; try lia; try done. repeat constructor. Qed.

(** Two windows, one of which the user closes while the other lives on. *)
Definition sample_ops : list gui_op :=
  [OpNew TFlutterWindow 1; OpNew TWin32Window 2; OpCreate 1 10 10 1280 720; OpCreate 2 10 10 1280 720; OpQuitOnClose 1 true;
   OpMessage 79 WM_SIZE; OpMessage 79 WM_CLOSE].

Fixpoint allowed_along (ops : list gui_op) (s : gui) : Prop :=
  match ops with
  | [] => True
  | op :: ops => allowed (g_core s) op /\ match run (perform op) s with Some (_, s) => allowed_along ops s | None => False end
  end.

Fixpoint perform_all (ops : list gui_op) (s : gui) : option gui :=
  match ops with
  | [] => Some s
  | op :: ops => let? '(_, s) := run (perform op) s in perform_all ops s
  end.

Lemma allowed_along_reaches ops : forall s s',
  allowed_along ops s -> perform_all ops s = Some s' -> rtc gui_step s s'.
Proof.
  induction ops as [|op ops IH]; intros s s'; cbn [allowed_along perform_all]; [intros _ [= ->]; apply rtc_refl|].
  intros [Ha H]. destruct (run (perform op) s) as [[[] s1]|] eqn:Hr; [|done]. intros Hs.
  eapply rtc_l; [exact (gui_does op s s1 Ha Hr)|]. now apply IH.
Qed.

Definition sample_end : gui := default (gui_start sample_gui) (perform_all sample_ops (gui_start sample_gui)).

Lemma along_cons op ops s s' :
  allowed (g_core s) op -> run (perform op) s = Some (tt, s') -> allowed_along ops s' -> allowed_along (op :: ops) s.
Proof. intros Ha Hr H. cbn [allowed_along]. now rewrite Hr. Qed.

Lemma sample_allowed : allowed_along sample_ops (gui_start sample_gui).
Proof.
  eapply along_cons; [now split|vm_compute; reflexivity|]. eapply along_cons; [now split|vm_compute; reflexivity|].
  do 2 (eapply along_cons; [split; [eexists; reflexivity|exact scalable_lengths]|vm_compute; reflexivity|]).
  eapply along_cons; [eexists; reflexivity|vm_compute; reflexivity|].
  eapply along_cons; [now left|vm_compute; reflexivity|]. eapply along_cons; [right; now left|vm_compute; reflexivity|]. exact I.
Qed.

(** A machine on which the engine does not start: the window of the program
    stays, and a change of fonts is a null dereference. *)
Definition broken_gui : gui_env := {|
  ge_register := ge_register sample_gui; ge_handle := ge_handle sample_gui; ge_sends := ge_sends sample_gui; ge_dpi := ge_dpi sample_gui;
  ge_client := ge_client sample_gui; ge_controller _ := Controller false false 0; ge_toplevel := ge_toplevel sample_gui;
  ge_default := ge_default sample_gui; ge_light := ge_light sample_gui; ge_user32 := ge_user32 sample_gui; ge_shown := ge_shown sample_gui;
  ge_console := ge_console sample_gui
|}.

Lemma broken_gui_ok : gui_env_ok broken_gui.
Proof. split; intros; cbn; try lia; try done. repeat constructor. Qed.

Definition broken_ops : list gui_op := [OpNew TFlutterWindow 1; OpCreate 1 10 10 1280 720].

Definition broken_end : gui := default (gui_start broken_gui) (perform_all broken_ops (gui_start broken_gui)).

Lemma broken_allowed : allowed_along broken_ops (gui_start broken_gui).
Proof.
  eapply along_cons; [now split|vm_compute; reflexivity|].
  eapply along_cons; [split; [eexists; reflexivity|exact scalable_lengths]|vm_compute; reflexivity|]. exact I.
Qed.

(** Both machines: on the first the message is handled, on the second it is
    undefined. *)
Example runner_windows_safe_witness :
  (os_quit (g_core sample_end) = true /\ os_windows (g_core sample_end) = {[90 := 2]} /\ core_ok (g_core sample_end) /\
   exists s', run (perform (OpMessage 90 WM_FONTCHANGE)) sample_end = Some (tt, s')) /\
  os_windows (g_core broken_end) = {[79 := 1]} /\ run (perform (OpMessage 79 WM_FONTCHANGE)) broken_end = None.
Proof.
  pose proof (runner_windows_safe sample_gui sample_end sample_gui_ok
    (allowed_along_reaches sample_ops (gui_start sample_gui) sample_end sample_allowed ltac:(vm_compute; reflexivity))) as [Hc H].
  pose proof (runner_windows_safe broken_gui broken_end broken_gui_ok
    (allowed_along_reaches broken_ops (gui_start broken_gui) broken_end broken_allowed ltac:(vm_compute; reflexivity))) as [_ H'].
  split; [split; [vm_compute; reflexivity|split; [vm_compute; reflexivity|split; [exact Hc|]]]|split; [vm_compute; reflexivity|]].
  - exact (H (OpMessage 90 WM_FONTCHANGE) (or_intror (or_intror eq_refl))).
  - exact (H' (OpMessage 79 WM_FONTCHANGE) (or_intror (or_intror eq_refl))).
Defined.

(** * Events *)

(** From [s] to [s'], only events in [P] were noted. *)
Definition logs (P : gui_event -> Prop) (s s' : gui) : Prop :=
  exists new, g_events s' = new ++ g_events s /\ Forall P new.

#[export] Instance logs_refl P : Reflexive (logs P).
Proof. intros s. now exists []. Qed.

#[export] Instance logs_trans P : Transitive (logs P).
Proof.
  intros s1 s2 s3 (n1 & E1 & F1) (n2 & E2 & F2). exists (n2 ++ n1). rewrite E2, E1, app_assoc, Forall_app. auto.
Qed.

(** Anything but arguments for the engine. *)
Definition no_arguments (ev : gui_event) : Prop := match ev with GArguments _ => False | _ => True end.

Notation mute := (always (logs no_arguments)).

Lemma logs_view P {A} (f : core -> A) : always (logs P) (view f).
Proof. apply always_atomic. intros s b s' [= _ <-]. reflexivity. Qed.

Lemma logs_change P f : always (logs P) (change f).
Proof. apply always_atomic. intros s b s' [= _ <-]. now exists []. Qed.

Lemma logs_ask P {A} (f : gui_env -> nat -> A) : always (logs P) (ask f).
Proof. apply always_atomic. intros s b s' [= _ <-]. now exists []. Qed.

Lemma logs_member P {A} a (f : window_obj -> A) : always (logs P) (member a f).
Proof. apply always_atomic. intros s b s'. destruct (objs _ !! a); [|done]. intros [= _ <-]. reflexivity. Qed.

Lemma logs_assign P a f : always (logs P) (assign a f).
Proof. apply always_atomic. intros s b s'. destruct (objs _ !! a); [|done]. intros [= _ <-]. now exists []. Qed.

Lemma logs_note (P : gui_event -> Prop) ev : P ev -> always (logs P) (note ev).
Proof. intros H. apply always_atomic. intros s b s' [= _ <-]. exists [ev]. split; [done|]. now constructor. Qed.

Lemma logs_undef P {A} : always (logs P) (undef : prog gui A).
Proof. apply always_atomic. done. Qed.

#[local] Hint Resolve logs_undef logs_view logs_change logs_ask logs_member logs_assign : frame.
#[local] Hint Extern 1 (always (logs _) (note _)) => apply logs_note; exact I : frame.

Lemma mute_client_area a : mute (Win32Window_GetClientArea a).
Proof. unfold Win32Window_GetClientArea. frame. Qed.
#[local] Hint Resolve mute_client_area : frame.

Lemma mute_move child r : mute (MoveWindow child r).
Proof. unfold MoveWindow. frame. Qed.
#[local] Hint Resolve mute_move : frame.

Lemma mute_theme h : mute (UpdateTheme h).
Proof. unfold UpdateTheme. frame. Qed.
#[local] Hint Resolve mute_theme : frame.

Lemma mute_unregister : mute UnregisterWindowClass.
Proof. unfold UnregisterWindowClass, GetInstance, UnregisterClass. frame. Qed.
#[local] Hint Resolve mute_unregister : frame.

(** Whatever destruction of the system does, if it is mute, so are messages. *)
Lemma mute_send dw h m : (forall h, mute (dw h)) -> mute (send_message dw h m).
Proof.
  intros Hd. unfold send_message, WndProc, GetThisFromHandle, MessageHandler, FlutterWindow_MessageHandler, Win32Window_MessageHandler,
    DefWindowProc, Win32Window_Destroy, OnDestroy, FlutterWindow_OnDestroy, EnableFullDpiSupportIfAvailable. frame.
Qed.

Lemma mute_destroy_at depth : forall h, mute (DestroyWindow_at depth h).
Proof.
  induction depth as [|depth IH]; intros h; cbn [DestroyWindow_at]; [apply always_atomic; done|].
  apply always_bind; [frame|]. intros w. destruct (w !! h); [|exact I]. apply always_bind; [frame|]. intros sent.
  apply always_bind; [apply always_for_each; intros m; now apply mute_send|]. frame.
Qed.

Lemma mute_destroy_window h : mute (DestroyWindow h).
Proof. apply mute_destroy_at. Qed.

Lemma mute_message h m : mute (send_message DestroyWindow h m).
Proof. apply mute_send, mute_destroy_window. Qed.
#[local] Hint Resolve mute_destroy_window mute_message : frame.

Lemma mute_destroy a : mute (Destroy a).
Proof. unfold Destroy, Win32Window_Destroy, OnDestroy, FlutterWindow_OnDestroy. frame. Qed.
#[local] Hint Resolve mute_destroy : frame.

Lemma mute_create a x y w h : mute (Win32Window_Create a x y w h).
Proof.
  unfold Win32Window_Create, GetWindowClass, GetInstance, CreateWindow, OnCreate, FlutterWindow_OnCreate, Win32Window_SetChildContent. frame.
Qed.

Lemma mute_delete a : mute (delete_window a).
Proof. unfold delete_window, FlutterWindow_dtor, Win32Window_dtor. frame. Qed.
#[local] Hint Resolve mute_create mute_delete : frame.

Lemma mute_loop a inbox : mute (message_loop a inbox).
Proof. induction inbox as [|x inbox IH]; cbn [message_loop]; [frame|]. unfold dispatch, Win32Window_Show. frame. Qed.
#[local] Hint Resolve mute_loop : frame.

Lemma mute_run_window a inbox : mute (run_window a inbox).
Proof. unfold run_window, new_window, Win32Window_SetQuitOnClose. frame. Qed.

(** * The program as a whole *)

(** Events of attaching to a console. *)
Definition console_event (ev : gui_event) : Prop := match ev with GConsole | GRedirect _ | GResync => True | _ => False end.

(** The first lines of [wWinMain] with administrator rights. *)
Definition attach_console : prog gui unit :=
  let* attached := ask ge_console in
  if negb attached then let* debugged := ask ge_console in if (debugged : bool) then CreateAndAttachConsole else Ret tt else Ret tt.

Lemma attach_runs s : exists s', run attach_console s = Some (tt, s') /\ g_env s' = g_env s /\ g_core s' = g_core s /\ logs console_event s s'.
Proof.
  assert (H : gwp (g_env s) attach_console (g_core s) (fun _ c => c = g_core s)).
  { unfold attach_console, CreateAndAttachConsole. gsteps; done. }
  destruct (gwp_run _ _ s H eq_refl) as ([] & s' & Hr & He & Hc). exists s'. split; [done|]. split; [done|]. split; [done|].
  refine (always_run _ _ _ _ _ _ Hr). unfold attach_console, CreateAndAttachConsole. frame.
Qed.

Lemma relaunch_defined module shell argv args :
  match argv with Some argv => Forall2 terminated argv args | None => args = [] end ->
  exists ok given, RelaunchAsAdministrator module shell argv = Some (ok, given).
Proof.
  intros Hargs. unfold RelaunchAsAdministrator. destruct (_ || _); [eauto|]. destruct argv as [argv|]; [|eauto].
  rewrite (parameters_loop_spec argv args Hargs). eauto.
Qed.

(** What the engine is given: the arguments in UTF-8, an empty string for one
    that is not valid. *)
Definition utf8_arguments (enc : list Z -> option (list Z)) (args : list (list Z)) : list (list Z) :=
  map (fun s => default [] (enc (take UNICODE_STRING_MAX_CHARS s))) args.

Lemma arguments_given enc la args : encodes enc (la_wide la) ->
  match la_argv la with Some argv => Forall2 terminated argv args | None => args = [] end ->
  GetCommandLineArguments la = Some (utf8_arguments enc args).
Proof.
  intros Henc Hargs. destruct (la_argv la) as [argv|] eqn:E; [exact (arguments_spec enc la argv args Henc E Hargs)|].
  unfold GetCommandLineArguments. now rewrite E, Hargs.
Qed.

(** C33: the program without administrator rights opens no window and returns
    the outcome of its relaunch, with a message box when that failed.  With them
    it has one of three fates, whatever messages arrive: the window could not be
    created (exit code 1) or was closed by the user (exit code 0), and then no
    object, window or view controller is left and the class is unregistered; or
    it still waits, its window open with its engine, and then no request to close
    the window has reached it unless Flutter took it.  In the whole run the
    engine is given arguments once, before anything is done with a window: those
    of the program, in UTF-8, in their order, an empty string in the place of one
    that is not valid, and no arguments at all when [CommandLineToArgvW] fails.
    No path is undefined. *)
Theorem wWinMain_sound (e : gui_env) (la : launch) (enc : list Z -> option (list Z)) (args : list (list Z)) (a : Z)
    (inbox : list pumped) (He : gui_env_ok e) (Henc : encodes enc (la_wide la))
    (Hargs : match la_argv la with Some argv => Forall2 terminated argv args | None => args = [] end)
    (Ha : a <> 0) (Hin : Forall pumped_ok inbox) :
  exists r s', run (wWinMain la a inbox) (gui_start e) = Some (r, s') /\
    if IsRunningAsAdministrator (la_sid la) (la_member la) then
      window_outcome (e := e) a inbox r (g_core s') /\
      exists later console, g_events s' = later ++ GArguments (utf8_arguments enc args) :: GCoInitialize :: console /\
        Forall console_event console /\ Forall no_arguments later
    else
      exists ok given, RelaunchAsAdministrator (la_module la) (la_shell la) (la_argv la) = Some (ok, given) /\
        r = Some (if ok then EXIT_SUCCESS else EXIT_FAILURE) /\ g_core s' = g_core (gui_start e) /\
        g_events s' = if ok then [] else [GMessageBox].
Proof.
  unfold wWinMain. destruct (IsRunningAsAdministrator _ _); cbn [negb].
  - change (let* attached := ask ge_console in
      (if negb attached then let* debugged := ask ge_console in if (debugged : bool) then CreateAndAttachConsole else Ret tt else Ret tt) ;;
      note GCoInitialize ;; let* args := local (GetCommandLineArguments la) in note (GArguments args) ;; run_window a inbox)
      with (attach_console ;; note GCoInitialize ;; let* args := local (GetCommandLineArguments la) in note (GArguments args) ;; run_window a inbox).
    destruct (attach_runs (gui_start e)) as (s1 & Hr1 & He1 & Hc1 & console & Econ & Hcon).
    set (s2 := Gui e (g_tick s1) (GArguments (utf8_arguments enc args) :: GCoInitialize :: console) (g_core (gui_start e))).
    destruct (gwp_run (run_window a inbox) _ s2 (gwp_run_window He a inbox Ha Hin) eq_refl) as (r & s' & Hr & _ & HQ).
    exists r, s'. split.
    + rewrite run_bind, Hr1, run_bind. cbn [note atomic run]. rewrite (arguments_given enc la args Henc Hargs), run_bind. cbn [local run].
      rewrite run_bind. cbn [note atomic run g_env g_tick g_events g_core]. rewrite He1, Hc1, Econ. cbn [gui_start g_env g_events].
      rewrite app_nil_r. exact Hr.
    + split; [exact HQ|]. destruct (always_run _ _ _ _ _ (mute_run_window a inbox) Hr) as (later & El & Hl). now exists later, console.
  - destruct (relaunch_defined (la_module la) (la_shell la) (la_argv la) args Hargs) as (ok & given & Hr).
    rewrite run_bind, Hr. cbn [local run]. destruct ok; eexists _, _; (split; [reflexivity|]); eexists _, _; split; done.
Qed.

(** An encoding that leaves short texts as they are. *)
Definition sample_encoding (s : list Z) : option (list Z) := if zlen s <? 2 ^ 31 then Some s else None.

Lemma sample_encodes : encodes sample_encoding (fun s _ => if zlen s <? 2 ^ 31 then (zlen s, s) else (0, [])).
Proof. intros s. unfold sample_encoding. destruct (Z.ltb_spec (zlen s) (2 ^ 31)); done. Qed.

Definition sample_launch (sid : bool) : launch := {|
  la_sid := sid; la_member := Some 1; la_module := 40; la_shell _ := 42; la_argv := Some [[116; 0]; [0]];
  la_wide s _ := if zlen s <? 2 ^ 31 then (zlen s, s) else (0, [])
|}.

Definition sample_inbox : list pumped :=
  [NextFrame; Msg 77 WM_SIZE; Msg 81 WM_FONTCHANGE; Msg 81 (WM_DPICHANGED (Rect 0 0 800 600)); Msg 81 WM_CLOSE; Msg 81 WM_SIZE].

Lemma sample_inbox_ok : Forall pumped_ok sample_inbox.
Proof. unfold sample_inbox. repeat (constructor; [cbn; first [tauto | left; repeat split; cbn; lia]|]). constructor. Qed.

Example wWinMain_sound_witness :
  exists r s', run (wWinMain (sample_launch true) 5 sample_inbox) (gui_start sample_gui) = Some (r, s') /\
    window_outcome (e := sample_gui) 5 sample_inbox r (g_core s') /\
    exists later console, g_events s' = later ++ GArguments [[116]; []] :: GCoInitialize :: console /\
      Forall console_event console /\ Forall no_arguments later.
Proof.
  apply (wWinMain_sound sample_gui (sample_launch true) sample_encoding [[116]; []] 5 sample_inbox sample_gui_ok);
    [exact sample_encodes|repeat constructor|lia|exact sample_inbox_ok].
Defined.

(** The same run, evaluated: the user closes the window and the program ends. *)
Example wWinMain_runs :
  match run (wWinMain (sample_launch true) 5 sample_inbox) (gui_start sample_gui) with
  | Some (r, s') => r = Some EXIT_SUCCESS /\ g_core s' = Core ∅ 0 (Some false) false ∅ true
  | None => False
  end.
Proof. vm_compute. done. Qed.
