(* ===== verification/WinRuntime.v ===== *)
(** Start-up of the Windows build ([app/win_runtime.c] and the Windows branch of
    [app/platform.c]): administrator rights, the relaunch that asks for them
    ([Relaunch.v]), the console, and the file that a crash leaves.  Answers of
    the Windows API are arguments. *)
From stdpp Require Import base list numbers option.
From S2P Require Import Prelude Prog World Cli Main Relaunch.

(** * Answers of the system *)

Record win_answers : Type := WinAnswers {
  wa_sid : bool;                       (* AllocateAndInitializeSid *)
  wa_member : Z;                       (* what CheckTokenMembership leaves in [is_admin] *)
  wa_module : Z;                       (* GetModuleFileNameA *)
  wa_shell : option bytes -> Z;        (* ShellExecuteA *)
  wa_stderr : option Z;                (* GetStdHandle of stderr, [None] for INVALID_HANDLE_VALUE *)
  wa_stdin : option Z;
  wa_console : option Z -> option Z    (* GetConsoleMode *)
}.

Definition ENABLE_VIRTUAL_TERMINAL_PROCESSING : Z := 4.

(** * Rights and console *)

Definition win_runtime_is_admin (a : win_answers) : bool :=
  let is_admin := if wa_sid a then wa_member a else 0 in
  negb (is_admin =? 0).

Definition is_console (a : win_answers) (h : option Z) : bool :=
  match h with
  | None => false
  | Some _ => match wa_console a h with Some _ => true | None => false end
  end.

Definition win_runtime_stderr_is_tty (a : win_answers) : bool := is_console a (wa_stderr a).
Definition win_runtime_stdin_is_tty (a : win_answers) : bool := is_console a (wa_stdin a).

(** The mode given to [SetConsoleMode], if it is called. *)
Definition win_runtime_enable_tui_console (a : win_answers) : option Z :=
  match wa_console a (wa_stderr a) with
  | Some mode => Some (Z.lor mode ENABLE_VIRTUAL_TERMINAL_PROCESSING)
  | None => None
  end.

(** [app_prepare_runtime] under [_WIN32]: its result, the parameters with which
    the program was started again, the console mode that was set.  [argv] is
    without the program's name, [params] the array of the relaunch. *)
Definition app_prepare_runtime_windows (a : win_answers) (argv : list bytes) (params : bytes) (cfg : config_t) :
    option (app_startup_result_t * option (option bytes) * option Z) :=
  if negb (win_runtime_is_admin a) then
    if cfg_key_from_stdin cfg then Some (APP_STARTUP_EXIT_ERROR, None, None)
    else
      let? '(ok, started) := win_runtime_relaunch_as_admin (wa_module a) (wa_shell a) argv params in
      Some (if ok then APP_STARTUP_EXIT_OK else APP_STARTUP_EXIT_ERROR, started, None)
  else Some (APP_STARTUP_OK, None, if cfg_tui_mode cfg then win_runtime_enable_tui_console a else None).

(** * The file of a crash *)

(** The last place of a byte in a string. *)
Fixpoint strrchr (s : bytes) (c : Z) : option Z :=
  match s with
  | [] => None
  | b :: s =>
      match strrchr s c with
      | Some i => Some (i + 1)
      | None => if b =? c then Some 0 else None
      end
  end.

(** [strncat]: at most [n] bytes and a terminator at the end of the string. *)
Definition strncat (dst src : bytes) (n : nat) : option bytes :=
  let? d := c_str dst in
  let? s := c_str src in
  mem_write dst (zlen d) (take n s ++ [0]).

(** The file opened for writing and what is written to it.  [module] is the
    answer of [GetModuleFileNameA] and what it leaves in [logpath]. *)
Definition log_to_exe_dir (module : bytes -> Z * bytes) (opens : bytes -> bool) (filename msg : bytes) :
    option (bytes * option bytes) :=
  let '(len, logpath) := module (replicate (Z.to_nat MAX_PATH) 0) in
  let? logpath :=
    if (0 <? len) && (len <? MAX_PATH) then
      let? s := c_str logpath in
      match strrchr s 92 with
      | Some p =>
          let? logpath := mem_write logpath (p + 1) [0] in
          let? d := c_str logpath in
          strncat logpath filename (Z.to_nat (MAX_PATH - zlen d - 1))
      | None => Some logpath
      end
    else
      let? copy := strncpy filename (Z.to_nat (MAX_PATH - 1)) in
      mem_write logpath 0 copy in
  let? path := c_str logpath in
  let? text := c_str msg in
  Some (path, if opens path then Some (text ++ [10]) else None).

Definition crash_handler (module : bytes -> Z * bytes) (opens : bytes -> bool) : option (bytes * option bytes) :=
  log_to_exe_dir module opens (str "tund_crash.log" ++ [0]) (str "TunD - Fatal error (access violation)" ++ [0]).

(** What [GetModuleFileNameA] documents for an array of [MAX_PATH] bytes: the
    path with its terminator when it fits, and otherwise 0 or the size. *)
Definition module_ok (path : bytes) (module : bytes -> Z * bytes) : Prop :=
  Forall (fun b => b <> 0) path /\ forall buf, zlen buf = MAX_PATH ->
    zlen (module buf).2 = MAX_PATH /\
    ((module buf).1 = 0 \/ (module buf).1 = MAX_PATH \/
     ((module buf).1 = zlen path /\ 0 < zlen path < MAX_PATH /\ exists tail, (module buf).2 = path ++ 0 :: tail)).

Lemma strrchr_none s c : Forall (fun b => b <> c) s -> strrchr s c = None.
Proof.
  induction 1 as [|b s Hb _ IH]; [done|]. cbn [strrchr]. rewrite IH. destruct (Z.eqb_spec b c); done.
Qed.

Lemma strrchr_last pre post c : Forall (fun b => b <> c) post -> strrchr (pre ++ c :: post) c = Some (zlen pre).
Proof.
  intros Hp. induction pre as [|b pre IH]; cbn [app strrchr].
  - now rewrite strrchr_none, Z.eqb_refl.
  - rewrite IH. unfold zlen. cbn [length]. f_equal. lia.
Qed.

Lemma strncat_spec (d t src s : bytes) (n : nat) :
  Forall (fun b => b <> 0) d -> c_str src = Some s -> (length d + n < length (d ++ 0%Z :: t))%nat ->
  exists t', strncat (d ++ 0 :: t) src n = Some (d ++ take n s ++ 0 :: t').
Proof.
  intros Hd Hs Hn. unfold strncat. rewrite c_str_app, Hs by done. rewrite length_app in Hn.
  destruct (split_at (length (take n s ++ [0])) (0 :: t)) as (old & t' & E & Hl).
  { rewrite length_app, length_take. cbn [length] in *. lia. }
  exists t'. rewrite (mem_write_at d old t') by (done || now rewrite E). now rewrite <- app_assoc.
Qed.

(** The report of a crash is written beside the executable, or to the current
    directory when its path is unknown; the name is cut where the array of
    [MAX_PATH] bytes ends, and no access is out of bounds. *)
Theorem log_to_exe_dir_beside (dir base : bytes) (module : bytes -> Z * bytes) (opens : bytes -> bool)
    (filename msg f m : bytes) :
  module_ok (dir ++ 92 :: base) module -> Forall (fun b => b <> 92) base ->
  c_str filename = Some f -> c_str msg = Some m -> zlen f < MAX_PATH - 1 ->
  let len := (module (replicate 260 0)).1 in
  exists path, path = (if (0 <? len) && (len <? MAX_PATH) then take 259 (dir ++ 92 :: f) else f) /\
    log_to_exe_dir module opens filename msg = Some (path, if opens path then Some (m ++ [10]) else None).
Proof.
  intros [Hp Hm] Hbase Hf Hmsg Hlf len0. subst len0. unfold log_to_exe_dir. change (Z.to_nat MAX_PATH) with 260%nat.
  destruct (Hm (replicate 260 0) ltac:(reflexivity)) as [Hlen Hans]. clear Hm.
  destruct (module (replicate 260 0)) as [len logpath]. cbn [fst snd] in *. change MAX_PATH with 260 in *.
  assert (Hnf : Forall (fun b => b <> 0) f) by now apply c_str_spec in Hf.
  destruct (decide (0 < len < 260)) as [Hr|Hr].
  - destruct Hans as [|[|(-> & Hz & tail & ->)]]; [lia..|].
    destruct (Z.ltb_spec 0 (zlen (dir ++ 92 :: base))); [|lia].
    destruct (Z.ltb_spec (zlen (dir ++ 92 :: base)) 260); [|lia]. cbn [andb].
    rewrite c_str_app, strrchr_last by done.
    assert (Hd : Forall (fun b => b <> 0) (dir ++ [92])).
    { apply Forall_app in Hp as [Hp1 Hp2]. apply Forall_app. split; [done|now repeat constructor]. }
    assert (exists c t, (dir ++ 92 :: base) ++ 0 :: tail = (dir ++ [92]) ++ [c] ++ t) as (c & t & E).
    { destruct base as [|b base]; [exists 0, tail|exists b, (base ++ 0 :: tail)]; now rewrite <- !app_assoc. }
    rewrite (mem_write_at (dir ++ [92]) [c] t) by (done || unfold zlen; rewrite ?length_app; cbn; lia).
    rewrite E in Hlen. unfold zlen in *. rewrite !length_app in Hlen. cbn [length] in Hlen.
    change ([0] ++ t) with (0 :: t). rewrite c_str_app by done.
    destruct (strncat_spec (dir ++ [92]) t filename f (Z.to_nat (260 - Z.of_nat (length (dir ++ [92])) - 1)) Hd Hf) as [t' ->].
    { rewrite !length_app. cbn [length]. lia. }
    rewrite app_assoc, c_str_app, Hmsg by (apply Forall_app; split; [done|now apply Forall_take]).
    eexists. split; [|reflexivity]. change (dir ++ 92 :: f) with (dir ++ [92] ++ f). rewrite (app_assoc dir).
    rewrite (take_app_ge (dir ++ [92])) by (rewrite length_app; cbn [length]; lia). do 2 f_equal. lia.
  - assert (Hb : (0 <? len) && (len <? 260) = false).
    { destruct (Z.ltb_spec 0 len), (Z.ltb_spec len 260); try done; lia. }
    rewrite Hb, (strncpy_str _ _ _ Hf). clear Hb. unfold zlen in Hlf, Hlen.
    destruct (split_at 259 logpath) as (a & z & -> & Ha); [lia|].
    assert (Hpad : pad_to (Z.to_nat (260 - 1)) f = f ++ 0 :: replicate (258 - length f) 0).
    { unfold pad_to. rewrite take_ge by lia. f_equal. change (0 :: ?l) with ([0] ++ l).
      change [0] with (replicate 1 0). rewrite <- replicate_add. f_equal. lia. }
    rewrite Hpad, (mem_write_at [] a z) by (done || rewrite length_app; cbn [length]; rewrite length_replicate; lia).
    cbn [app]. rewrite <- app_assoc. cbn [app]. rewrite c_str_app, Hmsg by done. eauto.
Qed.

Example crash_report_sample :
  crash_handler (fun buf => (14, str "C:\t\tund-cli.x" ++ replicate 246 0)) (fun _ => true) =
  Some (str "C:\t\tund_crash.log", Some (str "TunD - Fatal error (access violation)" ++ [10])).
Proof. vm_compute. reflexivity. Qed.

(** * Start-up *)

(** C31: the Windows program runs with administrator rights or not at all, and
    asks for them without losing its command line.  It continues exactly when
    the process has the rights.  Otherwise it starts nothing if its key comes
    from the standard input, which a new process would not share, if the path
    of the executable is unknown, or if the quoted command line does not fit
    into the 8192 bytes reserved for it; in every other case it starts itself
    with parameters that any reader which follows the documented convention
    splits into the same arguments, and its exit status says whether that
    succeeded.  No access is out of bounds. *)
Theorem windows_startup (parse : bytes -> list bytes) (a : win_answers) (argv args : list bytes) (params : bytes)
    (cfg : config_t) (Hparse : conforms parse) (Hargs : Forall2 terminated argv args) (Hroom : zlen params = 8192) :
  exists res started console, app_prepare_runtime_windows a argv params cfg = Some (res, started, console) /\
    (res = APP_STARTUP_OK <-> wa_sid a = true /\ wa_member a <> 0) /\
    match started with
    | None => res = APP_STARTUP_OK \/ res = APP_STARTUP_EXIT_ERROR /\
        (cfg_key_from_stdin cfg = true \/ wa_module a = 0 \/ MAX_PATH <= wa_module a \/ 8192 <= zlen (command_line args))
    | Some g => cfg_key_from_stdin cfg = false /\ 0 <> wa_module a /\ wa_module a < MAX_PATH /\
        zlen (command_line args) < 8192 /\ arguments parse g = args /\
        res = if wa_shell a g <=? 32 then APP_STARTUP_EXIT_ERROR else APP_STARTUP_EXIT_OK
    end.
Proof.
  assert (Hadm : win_runtime_is_admin a = true <-> wa_sid a = true /\ wa_member a <> 0).
  { unfold win_runtime_is_admin. destruct (wa_sid a); [|split; [done|now intros []]].
    destruct (Z.eqb_spec (wa_member a) 0); split; (done || now intros []). }
  unfold app_prepare_runtime_windows. destruct (win_runtime_is_admin a).
  { eexists _, _, _. split; [reflexivity|]. split; [split; [now rewrite <- Hadm|done]|auto]. }
  assert (Hno : forall res : app_startup_result_t, res <> APP_STARTUP_OK -> res = APP_STARTUP_OK <-> wa_sid a = true /\ wa_member a <> 0).
  { intros res Hres. split; [done|]. now rewrite <- Hadm. }
  cbn [negb]. destruct (cfg_key_from_stdin cfg).
  { eexists _, _, _. split; [reflexivity|]. split; [now apply Hno|auto]. }
  destruct (relaunch_passes_arguments parse (wa_module a) (wa_shell a) argv args params Hparse Hargs Hroom)
    as (ok & given & -> & Hg). eexists _, _, _. split; [reflexivity|].
  split; [apply Hno; now destruct ok|]. destruct given as [g|].
  - destruct Hg as (H0 & HM & Hfit & Ha & ->). repeat (split; [done || lia|]). now destruct (_ <=? _).
  - destruct Hg as [-> Hg]. auto.
Qed.

Definition sample_answers : win_answers :=
  WinAnswers true 0 40 (fun _ => 42) (Some 7) None (fun _ => Some 3).

Example windows_startup_witness :
  exists res started console,
    app_prepare_runtime_windows sample_answers sample_argv (replicate 8192 7) initial_config = Some (res, started, console) /\
    (res = APP_STARTUP_OK <-> wa_sid sample_answers = true /\ wa_member sample_answers <> 0) /\
    match started with
    | None => res = APP_STARTUP_OK \/ res = APP_STARTUP_EXIT_ERROR /\
        (cfg_key_from_stdin initial_config = true \/ wa_module sample_answers = 0 \/ MAX_PATH <= wa_module sample_answers \/
         8192 <= zlen (command_line sample_args))
    | Some g => cfg_key_from_stdin initial_config = false /\ 0 <> wa_module sample_answers /\
        wa_module sample_answers < MAX_PATH /\ zlen (command_line sample_args) < 8192 /\
        arguments read_line g = sample_args /\
        res = if wa_shell sample_answers g <=? 32 then APP_STARTUP_EXIT_ERROR else APP_STARTUP_EXIT_OK
    end.
Proof.
  apply (windows_startup read_line); [exact read_line_conforms|exact sample_terminated|vm_compute; reflexivity].
Defined.
