(* ===== verification/Platform.v ===== *)
(** Clocks, waits and error texts of both builds ([app/tund.h]), the start of
    Winsock ([net/network.c]) and the handlers of signals and of console events
    ([app/platform.c], [app/win_runtime.c]).  The programs of the development read the clock
    through the oracle of [World.v]; here is what the code computes from the
    answers of the system. *)
From stdpp Require Import base list numbers option.
From S2P Require Import Prelude Prog World Events Cli ServerPeers Server ServerThreads Client ClientThreads.

(** * Clocks *)

(** [struct timespec] of [CLOCK_MONOTONIC], in milliseconds. *)
Definition now_ms_posix (tv_sec tv_nsec : Z) : Z :=
  u64 (u64 (u64 tv_sec * 1000) + u64 tv_nsec / 1000000).

(** The performance counter and its frequency; the product is one of [LONGLONG]s,
    whose overflow is undefined, as is a division by zero. *)
Definition now_ms_windows (cnt freq : Z) : option Z :=
  let p := cnt * 1000 in
  if (- 2 ^ 63 <=? p) && (p <? 2 ^ 63) then
    if freq =? 0 then None
    else
      let q := Z.quot p freq in
      if q =? 2 ^ 63 then None else Some (u64 q)
  else None.

(** * Waits *)

(** The argument of [Sleep], in milliseconds. *)
Definition platform_sleep_windows (sec : Z) : Z := u32 (sec * 1000).

(** The [struct timeval] given to [select]; [int] and [long] have 32 bits. *)
Record timeval : Set := Timeval { tv_sec : Z; tv_usec : Z }.

Definition platform_poll_one_windows (timeout_ms : Z) : timeval :=
  Timeval (Z.quot timeout_ms 1000) (Z.rem timeout_ms 1000 * 1000).

(** The [timeout] given to [poll]. *)
Definition platform_poll_one_posix (timeout_ms : Z) : Z := timeout_ms.

(** * Error texts *)

Definition trimmed_char (c : Z) : bool := (c =? 10) || (c =? 13) || (c =? 46).

(** [while (n > 0 && ...) buf[--n] = 0;] *)
Fixpoint trim_loop (n : nat) (buf : bytes) : option bytes :=
  match n with
  | O => Some buf
  | S n =>
      let? c := buf_get buf (Z.of_nat n) in
      if trimmed_char c then
        let? buf := mem_write buf (Z.of_nat n) [0] in
        trim_loop n buf
      else Some buf
  end.

(** [%d] of an [int]. *)
Definition dec_int (z : Z) : bytes := if z <? 0 then 45 :: dec (- z) else dec z.

(** The array that [sock_errstr] leaves.  [format] is what [FormatMessageA] does
    to it. *)
Definition sock_errstr_windows (format : Z -> bytes -> bytes) (err : Z) (buf : bytes) : option bytes :=
  let? buf := mem_write buf 0 [0] in
  let buf := format err buf in
  let? c := buf_get buf 0 in
  let? buf :=
    if c =? 0 then
      let? text := snprintf_s 256 (str "WSA error " ++ dec_int err ++ [0]) in
      mem_write buf 0 text
    else Some buf in
  let? s := c_str buf in
  trim_loop (length s) buf.

(** * Winsock *)

(** The result, the static [initialized], and whether [WSAStartup] was called;
    [startup] is its answer. *)
Definition ensure_winsock (startup : Z) (initialized : bool) : Z * bool * bool :=
  if initialized then (0, true, false)
  else if negb (startup =? 0) then (-1, false, true)
  else (0, true, true).

(** The calls of [WSAStartup] of a process that asks for Winsock several times,
    with the results it gets. *)
Fixpoint winsock_calls (startup : list Z) (initialized : bool) : list (Z * bool) :=
  match startup with
  | [] => []
  | a :: startup =>
      let '(r, initialized, called) := ensure_winsock a initialized in
      (r, called) :: winsock_calls startup initialized
  end.

(** * Handlers *)

Section handlers.
Context {S : Type} `{HasWorld S}.

Definition signal_handler (sig : Z) : prog S unit := tund_request_stop.

(** The result says that the event was handled. *)
Definition console_handler (dwCtrlType : Z) : prog S bool := tund_request_stop ;; Ret true.
End handlers.

(** Both are the asynchronous step of the interleavings. *)
Lemma handlers_are_signals (sig ctrl : Z) :
  (forall s, run (signal_handler sig) s = Some (tt, server_signal s) /\ run (console_handler ctrl) s = Some (true, server_signal s)) /\
  (forall s, run (signal_handler sig) s = Some (tt, client_signal s) /\ run (console_handler ctrl) s = Some (true, client_signal s)).
Proof. split; intros []; split; reflexivity. Qed.

(** * Properties *)

Lemma now_ms_posix_spec sec nsec :
  0 <= sec < 2 ^ 62 / 1000 -> 0 <= nsec < 10 ^ 9 -> now_ms_posix sec nsec = sec * 1000 + nsec / 1000000.
Proof.
  intros Hs Hn. assert (0 <= nsec / 1000000 < 1000) by (split; [apply Z.div_pos|apply Z.div_lt_upper_bound]; lia).
  change (2 ^ 62 / 1000) with 4611686018427387 in Hs. unfold now_ms_posix, u64. rewrite (Z.mod_small sec) by lia.
  rewrite (Z.mod_small nsec) by lia. rewrite (Z.mod_small (sec * 1000)) by lia. now rewrite Z.mod_small by lia.
Qed.

Lemma now_ms_windows_spec cnt freq :
  0 <= cnt -> 0 < freq -> now_ms_windows cnt freq = if cnt * 1000 <? 2 ^ 63 then Some (cnt * 1000 / freq) else None.
Proof.
  intros Hc Hf. unfold now_ms_windows. destruct (Z.leb_spec (- 2 ^ 63) (cnt * 1000)); [|lia]. cbn [andb].
  destruct (Z.ltb_spec (cnt * 1000) (2 ^ 63)) as [Hl|]; [|done]. destruct (Z.eqb_spec freq 0); [lia|].
  rewrite Z.quot_div_nonneg by lia. assert (0 <= cnt * 1000 / freq <= cnt * 1000).
  { split; [apply Z.div_pos; lia|]. apply Z.div_le_upper_bound; nia. }
  destruct (Z.eqb_spec (cnt * 1000 / freq) (2 ^ 63)); [lia|]. unfold u64. now rewrite Z.mod_small by lia.
Qed.

(** Whole milliseconds of two counts differ by the time between them, up to one. *)
Lemma elapsed_div a b f : 0 < f -> 0 <= a <= b -> 0 <= b / f - a / f - (b - a) / f <= 1.
Proof.
  intros Hf H. pose proof (Z.div_mod a f ltac:(lia)). pose proof (Z.div_mod b f ltac:(lia)). pose proof (Z.div_mod (b - a) f ltac:(lia)).
  pose proof (Z.mod_pos_bound a f Hf). pose proof (Z.mod_pos_bound b f Hf). pose proof (Z.mod_pos_bound (b - a) f Hf).
  split; nia.
Qed.

(** C34: bounds of the clocks and waits.  The Windows clock is defined as long as
    a thousand times the counter fits in 63 bits (with the usual 10 MHz for 29
    years), counts whole milliseconds, never runs backwards, and an interval
    measured with it is at most one millisecond too long and never too short;
    the POSIX clock counts whole milliseconds far beyond the life of a machine.
    Both satisfy what the programs assume of their clock.  The [timeval] of a
    wait is normalised and denotes exactly the timeout that POSIX gives to
    [poll], and a sleep is exact up to 49 days. *)
Theorem clocks_and_waits_bounded (cnt cnt' freq sec nsec timeout_ms secs : Z)
    (Hcnt : 0 <= cnt <= cnt') (Hfreq : 0 < freq) (Hfit : cnt' * 1000 < 2 ^ 63)
    (Hsec : 0 <= sec < 2 ^ 62 / 1000) (Hnsec : 0 <= nsec < 10 ^ 9)
    (Htimeout : 0 <= timeout_ms < 2 ^ 31) (Hsecs : 0 <= secs <= 4294967) :
  (exists t t', now_ms_windows cnt freq = Some t /\ now_ms_windows cnt' freq = Some t' /\ is_u64 t' /\
     t * freq <= cnt * 1000 < (t + 1) * freq /\ t <= t' /\ 0 <= (t' - t) - (cnt' - cnt) * 1000 / freq <= 1) /\
  (freq <= 10 ^ 7 -> forall s, 0 <= s <= 29 * 365 * 86400 -> is_Some (now_ms_windows (s * freq) freq)) /\
  (forall c, c * 1000 >= 2 ^ 63 -> now_ms_windows c freq = None) /\
  (is_u64 (now_ms_posix sec nsec) /\ now_ms_posix sec nsec * 1000000 <= sec * 10 ^ 9 + nsec < (now_ms_posix sec nsec + 1) * 1000000) /\
  (let tv := platform_poll_one_windows timeout_ms in
   0 <= tv_usec tv < 1000000 /\ tv_sec tv * 1000000 + tv_usec tv = platform_poll_one_posix timeout_ms * 1000) /\
  platform_sleep_windows secs = secs * 1000.
Proof.
  split; [|split; [|split; [|split; [|split]]]].
  - exists (cnt * 1000 / freq), (cnt' * 1000 / freq). rewrite !now_ms_windows_spec by lia.
    destruct (Z.ltb_spec (cnt * 1000) (2 ^ 63)); [|lia]. destruct (Z.ltb_spec (cnt' * 1000) (2 ^ 63)); [|lia].
    pose proof (Z.div_mod (cnt * 1000) freq ltac:(lia)). pose proof (Z.mod_pos_bound (cnt * 1000) freq Hfreq).
    pose proof (elapsed_div (cnt * 1000) (cnt' * 1000) freq Hfreq ltac:(lia)) as Hel. rewrite <- Z.mul_sub_distr_r in Hel.
    split; [done|]. split; [done|]. split; [|split; [nia|split; [apply Z.div_le_mono; lia|lia]]].
    split; [apply Z.div_pos; lia|]. apply Z.div_lt_upper_bound; nia.
  - intros Hf s Hs. rewrite now_ms_windows_spec by nia. destruct (Z.ltb_spec (s * freq * 1000) (2 ^ 63)); [eauto|nia].
  - intros c Hc. rewrite now_ms_windows_spec by lia. destruct (Z.ltb_spec (c * 1000) (2 ^ 63)); [lia|done].
  - rewrite now_ms_posix_spec by done. change (2 ^ 62 / 1000) with 4611686018427387 in Hsec.
    pose proof (Z.div_mod nsec 1000000 ltac:(lia)). pose proof (Z.mod_pos_bound nsec 1000000 ltac:(lia)). words. lia.
  - unfold platform_poll_one_posix. cbn [platform_poll_one_windows tv_sec tv_usec].
    rewrite Z.quot_div_nonneg, Z.rem_mod_nonneg by lia.
    pose proof (Z.div_mod timeout_ms 1000 ltac:(lia)). pose proof (Z.mod_pos_bound timeout_ms 1000 ltac:(lia)). lia.
  - unfold platform_sleep_windows, u32. rewrite Z.mod_small; lia.
Qed.

Example clocks_and_waits_bounded_witness :
  (exists t t', now_ms_windows 123456789 10000000 = Some t /\ now_ms_windows 123466789 10000000 = Some t' /\ is_u64 t' /\
     t * 10000000 <= 123456789 * 1000 < (t + 1) * 10000000 /\ t <= t' /\
     0 <= (t' - t) - (123466789 - 123456789) * 1000 / 10000000 <= 1) /\
  (10000000 <= 10 ^ 7 -> forall s, 0 <= s <= 29 * 365 * 86400 -> is_Some (now_ms_windows (s * 10000000) 10000000)) /\
  (forall c, c * 1000 >= 2 ^ 63 -> now_ms_windows c 10000000 = None) /\
  (is_u64 (now_ms_posix 77 5000000) /\
   now_ms_posix 77 5000000 * 1000000 <= 77 * 10 ^ 9 + 5000000 < (now_ms_posix 77 5000000 + 1) * 1000000) /\
  (let tv := platform_poll_one_windows 1500 in
   0 <= tv_usec tv < 1000000 /\ tv_sec tv * 1000000 + tv_usec tv = platform_poll_one_posix 1500 * 1000) /\
  platform_sleep_windows 5 = 5 * 1000.
Proof. apply (clocks_and_waits_bounded 123456789 123466789 10000000 77 5000000 1500 5); try lia. split; [lia|reflexivity]. Defined.

(** * Error texts *)

(** The text without what is trimmed at its end. *)
Fixpoint rtrim (s : bytes) : bytes :=
  match s with
  | [] => []
  | c :: s => match rtrim s with [] => if trimmed_char c then [] else [c] | t => c :: t end
  end.

Lemma rtrim_snoc s c : rtrim (s ++ [c]) = if trimmed_char c then rtrim s else s ++ [c].
Proof.
  induction s as [|x s IH]; cbn [rtrim app]; [done|]. rewrite IH. destruct (trimmed_char c); [done|]. now destruct s.
Qed.

Lemma trim_loop_spec s : forall t, Forall (fun c => c <> 0) s -> exists t',
  trim_loop (length s) (s ++ 0 :: t) = Some (rtrim s ++ 0 :: t') /\ length (rtrim s ++ 0 :: t') = length (s ++ 0 :: t).
Proof.
  induction s as [|c s IH] using rev_ind; intros t Hs; [now exists t|]. apply Forall_app in Hs as [Hs Hc].
  rewrite length_app, Nat.add_comm. cbn [length Nat.add trim_loop]. rewrite <- app_assoc. cbn [app].
  replace (buf_get (s ++ c :: 0 :: t) (Z.of_nat (length s))) with (Some c).
  2: { unfold buf_get. destruct (Z.leb_spec 0 (Z.of_nat (length s))); [|lia]. now rewrite Nat2Z.id, list_lookup_middle. }
  rewrite rtrim_snoc. destruct (trimmed_char c).
  - rewrite (mem_write_at s [c] (0 :: t)) by done. cbn [app]. destruct (IH (0 :: t) Hs) as (t' & -> & Hl). exists t'. split; [done|].
    rewrite Hl, !length_app. cbn. lia.
  - exists t. rewrite <- app_assoc. done.
Qed.

(** What [FormatMessageA] documents for an array of 256 bytes: a text with its
    terminator, or nothing. *)
Definition formats (format : Z -> bytes -> bytes) : Prop :=
  forall err buf, zlen buf = 256 -> zlen (format err buf) = 256 /\
    (format err buf = buf \/ exists s, c_str (format err buf) = Some s).

Lemma dec_int_shape z : - 2 ^ 31 <= z < 2 ^ 31 ->
  Forall (fun c => c <> 0) (dec_int z) /\ (length (dec_int z) <= 21)%nat /\ exists pre d, dec_int z = pre ++ [d] /\ trimmed_char d = false.
Proof.
  intros Hz. assert (Hdec : forall n, 0 <= n -> Forall (fun c => c <> 0) (dec n) /\ (length (dec n) <= 20)%nat /\
    exists pre d, dec n = pre ++ [d] /\ trimmed_char d = false).
  { intros n Hn. split; [exact (dec_nonzero 20 n Hn)|]. split.
    - unfold dec. generalize 20%nat. intros k. revert n Hn. induction k as [|k IH]; intros n Hn; cbn [dec_fuel length]; [lia|].
      destruct (n <? 10); [cbn; lia|]. rewrite length_app. cbn [length]. specialize (IH (n / 10) ltac:(apply Z.div_pos; lia)). lia.
    - pose proof (dec_digits 20 n Hn) as Hd. destruct (exists_last (dec_nonempty 19 n)) as (pre & d & E). exists pre, d.
      unfold dec. split; [done|]. rewrite E in Hd. apply Forall_app in Hd as [_ Hd]. inversion Hd as [|? ? Hdig _]; subst.
      unfold trimmed_char. unfold is_digit in Hdig. lia. }
  unfold dec_int. destruct (Z.ltb_spec z 0).
  - destruct (Hdec (- z) ltac:(lia)) as (H1 & H2 & pre & d & E & Hd). split; [now constructor|].
    split; [cbn [length]; lia|]. exists (45 :: pre), d. now rewrite E.
  - destruct (Hdec z ltac:(lia)) as (H1 & H2 & H3). split; [done|]. split; [lia|done].
Qed.

Lemma err_text_shape err : - 2 ^ 31 <= err < 2 ^ 31 -> let text := str "WSA error " ++ dec_int err in
  Forall (fun c => c <> 0) text /\ (length text <= 31)%nat /\ exists pre d, text = pre ++ [d] /\ trimmed_char d = false.
Proof.
  intros He. destruct (dec_int_shape err He) as (H1 & H2 & pre & d & E & Hd). cbn zeta. split; [|split].
  - apply Forall_app. split; [|done]. repeat (constructor; [done|]). constructor.
  - rewrite length_app. cbn [length str]. change (length (str "WSA error ")) with 10%nat. lia.
  - exists (str "WSA error " ++ pre), d. now rewrite E, app_assoc.
Qed.

Lemma rtrim_nonzero s : Forall (fun c => c <> 0) s -> Forall (fun c => c <> 0) (rtrim s).
Proof.
  induction 1 as [|c s Hc _ IH]; cbn [rtrim]; [constructor|]. destruct (rtrim s); [destruct (trimmed_char c)|]; auto.
Qed.

(** The array holds a terminated text: that of the system without the line end
    and the full stop, or the number of the error when the system has none. *)
Theorem sock_errstr_text (format : Z -> bytes -> bytes) (err : Z) (buf : bytes) :
  formats format -> - 2 ^ 31 <= err < 2 ^ 31 -> zlen buf = 256 ->
  exists buf' s, sock_errstr_windows format err buf = Some buf' /\ zlen buf' = 256 /\
    c_str (format err (0 :: drop 1 buf)) = Some s /\
    c_str buf' = Some (match s with [] => str "WSA error " ++ dec_int err | _ => rtrim s end).
Proof.
  intros Hf He Hl. unfold sock_errstr_windows. rewrite (mem_write_at [] (take 1 buf) (drop 1 buf)).
  2: now rewrite take_drop. 2: done. 2: { unfold zlen in Hl. rewrite length_take. change (length [0]) with 1%nat. lia. }
  cbn [app]. set (b0 := 0 :: drop 1 buf). assert (H0 : zlen b0 = 256) by (unfold zlen in *; change (length b0) with (S (length (drop 1 buf))); rewrite length_drop; lia).
  destruct (Hf err b0 H0) as [Hlb Hb].
  assert (Hs : exists s, c_str (format err b0) = Some s) by (destruct Hb as [->|[s Hs]]; [now exists []|eauto]).
  destruct Hs as [s Hs]. rewrite Hs. pose proof Hs as [Hnz [tail Et]]%c_str_spec. rewrite Et in *. clear Hb Et.
  destruct s as [|c s]; cbn [app buf_get].
  - destruct (err_text_shape err He) as (Hn & Hle & pre & d & Ed & Hd).
    set (text := str "WSA error " ++ dec_int err) in *. change (buf_get (0 :: tail) 0) with (Some 0). cbn [Z.eqb].
    replace (str "WSA error " ++ dec_int err ++ [0]) with (text ++ [0]) by (unfold text; now rewrite <- app_assoc).
    unfold snprintf_s. rewrite c_str_app by done. rewrite take_ge by (change (256 - 1)%nat with 255%nat; lia).
    destruct (split_at (length (text ++ [0])) (0 :: tail)) as (old & rest & E & Hlo).
    { rewrite length_app. cbn [app] in Hlb. unfold zlen in Hlb. cbn [length] in *. lia. }
    rewrite E, (mem_write_at [] old rest) by done. cbn [app]. rewrite <- app_assoc. cbn [app].
    rewrite c_str_app by done. destruct (trim_loop_spec text rest Hn) as (t' & -> & Hlen).
    assert (Er : rtrim text = text) by now rewrite Ed, rtrim_snoc, Hd.
    exists (rtrim text ++ 0 :: t'), []. rewrite Er in *. split; [done|]. split; [|split; [done|now apply c_str_app]].
    unfold zlen in *. rewrite Hlen. cbn [app] in Hlb. rewrite E, length_app in Hlb.
    rewrite !length_app in *. cbn [length] in *. lia.
  - rewrite (Forall_cons_iff) in Hnz. destruct Hnz as [Hc Hnz]. change (buf_get (c :: s ++ 0 :: tail) 0) with (Some c).
    cbn beta iota. destruct (Z.eqb_spec c 0); [done|]. change (c :: s ++ 0 :: tail) with ((c :: s) ++ 0 :: tail). rewrite c_str_app by auto.
    destruct (trim_loop_spec (c :: s) tail ltac:(auto)) as (t' & -> & Hlen). exists (rtrim (c :: s) ++ 0 :: t'), (c :: s).
    split; [done|]. split; [unfold zlen in *; now rewrite Hlen|]. split; [done|]. apply c_str_app. now apply rtrim_nonzero; auto.
Qed.

(** A process initialises Winsock once: calls of [WSAStartup] end with the first
    that succeeds, and only they fail. *)
Theorem winsock_started_once (startup : list Z) :
  exists k, (k <= length startup)%nat /\ Forall (fun a => a <> 0) (take k startup) /\
    (forall a, startup !! k = Some a -> a = 0) /\
    winsock_calls startup false =
      replicate k (-1, true) ++ match drop k startup with [] => [] | _ :: l => (0, true) :: replicate (length l) (0, false) end.
Proof.
  assert (Hdone : forall l, winsock_calls l true = replicate (length l) (0, false)).
  { induction l as [|a l IH]; cbn; [done|]. now rewrite IH. }
  induction startup as [|a l (k & Hk & Hf & Hz & E)]; [now exists 0%nat|].
  cbn [winsock_calls]. unfold ensure_winsock. destruct (Z.eqb_spec a 0) as [->|Ha]; cbn [negb].
  - exists 0%nat. split; [lia|]. split; [constructor|]. split; [now intros ? [= ->]|]. cbn. now rewrite Hdone.
  - exists (S k). split; [cbn; lia|]. split; [now constructor|]. split; [done|]. cbn. now rewrite E.
Qed.
