(* ===== verification/Sitest.v ===== *)
(** The counter of failed checks that the unit tests share
    ([tools/sitest/sitest.c]). *)
From stdpp Require Import base list numbers option.
From S2P Require Import Prelude Prog Events Cli Platform.

(** [sitest_failures] and what was printed, the last line first. *)
Record sitest : Type := Sitest { sitest_failures : Z; sitest_stderr : list bytes; sitest_stdout : list bytes }.

(** [sitest_failures++]; overflow of an [int] is undefined. *)
Definition sitest_check (ok : bool) (file : bytes) (line : Z) (expr : bytes) (t : sitest) : option sitest :=
  if negb ok then
    let? f := c_str file in
    let? e := c_str expr in
    if sitest_failures t + 1 <? 2 ^ 31 then
      Some (Sitest (sitest_failures t + 1)
              ((f ++ str ":" ++ dec_int line ++ str ": check failed: " ++ e ++ [10]) :: sitest_stderr t) (sitest_stdout t))
    else None
  else Some t.

Definition sitest_finish (suite_name : bytes) (t : sitest) : option (Z * sitest) :=
  let? s := c_str suite_name in
  if negb (sitest_failures t =? 0) then
    Some (1, Sitest (sitest_failures t)
               ((dec_int (sitest_failures t) ++ str " " ++ s ++ str " failed" ++ [10]) :: sitest_stderr t) (sitest_stdout t))
  else Some (0, Sitest (sitest_failures t) (sitest_stderr t) ((s ++ str " passed" ++ [10]) :: sitest_stdout t)).

(** A suite: its checks one after the other. *)
Record check : Type := MkCheck { ck_ok : bool; ck_file : bytes; ck_line : Z; ck_expr : bytes }.

Fixpoint sitest_run (cs : list check) (t : sitest) : option sitest :=
  match cs with
  | [] => Some t
  | c :: cs => let? t := sitest_check (ck_ok c) (ck_file c) (ck_line c) (ck_expr c) t in sitest_run cs t
  end.

Definition failures (cs : list check) : list check := List.filter (fun c => negb (ck_ok c)) cs.

Definition check_terminated (c : check) : Prop := is_Some (c_str (ck_file c)) /\ is_Some (c_str (ck_expr c)).

Lemma sitest_run_counts cs : forall t, Forall check_terminated cs -> sitest_failures t + zlen (failures cs) < 2 ^ 31 ->
  exists t', sitest_run cs t = Some t' /\ sitest_failures t' = sitest_failures t + zlen (failures cs) /\
    zlen (sitest_stderr t') = zlen (sitest_stderr t) + zlen (failures cs) /\ sitest_stdout t' = sitest_stdout t.
Proof.
  induction cs as [|c cs IH]; intros t Hc Hn; cbn [sitest_run]; [exists t; unfold zlen; cbn; repeat split; lia|].
  inversion Hc as [|? ? [[f Hf] [e He]] Hcs]; subst. unfold sitest_check. unfold failures in *. cbn [List.filter] in *.
  destruct (ck_ok c) eqn:Eo; cbn [negb] in *; [now apply IH|]. rewrite Hf, He. unfold zlen in *. cbn [length] in *.
  destruct (Z.ltb_spec (sitest_failures t + 1) (2 ^ 31)); [|lia].
  destruct (IH (Sitest (sitest_failures t + 1) ((f ++ str ":" ++ dec_int (ck_line c) ++ str ": check failed: " ++ e ++ [10]) :: sitest_stderr t)
    (sitest_stdout t)) Hcs) as (t' & -> & H1 & H2 & H3); [cbn [sitest_failures]; lia|].
  exists t'. cbn [sitest_failures sitest_stderr sitest_stdout length] in *. repeat split; [lia|lia|done].
Qed.

(** A suite fails, with one line for each failed check, exactly when a check
    failed. *)
Theorem sitest_reports (cs : list check) (suite s : bytes) :
  Forall check_terminated cs -> zlen (failures cs) < 2 ^ 31 -> c_str suite = Some s ->
  exists t code t', sitest_run cs (Sitest 0 [] []) = Some t /\ sitest_finish suite t = Some (code, t') /\
    zlen (sitest_stderr t) = zlen (failures cs) /\ (code = 0 <-> Forall (fun c => ck_ok c = true) cs) /\ (code = 0 \/ code = 1).
Proof.
  intros Hc Hn Hs. destruct (sitest_run_counts cs (Sitest 0 [] []) Hc) as (t & Ht & Hf & He & _); [cbn; lia|].
  exists t. unfold sitest_finish. rewrite Hs, Hf. cbn [sitest_failures sitest_stderr] in *.
  assert (Hall : zlen (failures cs) = 0 <-> Forall (fun c => ck_ok c = true) cs).
  { clear. unfold failures, zlen. induction cs as [|c cs IH]; cbn [List.filter length]; [split; [constructor|done]|].
    destruct (ck_ok c) eqn:E; cbn [negb length].
    - rewrite IH. split; [now constructor|]. inversion 1; now subst.
    - split; [lia|]. inversion 1; congruence. }
  destruct (Z.eqb_spec (0 + zlen (failures cs)) 0) as [E|E]; cbn [negb]; eexists _, _;
    (split; [done|]); (split; [reflexivity|]); (split; [exact He|]); rewrite <- Hall; (split; [lia|auto]).
Qed.
