(* ===== verification/LinuxRunner.v ===== *)
(** The runner of the desktop program on Linux ([gui/linux/runner]): an
    application of GTK that opens one window with a view of Flutter.  GTK and
    Flutter are what it calls, in order; [g_application_run] calls back
    [local_command_line] once, and the last reference disposes of the object. *)
From stdpp Require Import base list numbers option.
From S2P Require Import Prelude Prog.

(** * State *)

Inductive gtk_event : Type :=
| KWindow                       (* gtk_application_window_new *)
| KHeaderBar (title : bytes)    (* gtk_header_bar_new ... gtk_window_set_titlebar *)
| KTitle (title : bytes)        (* gtk_window_set_title *)
| KDefaultSize (width height : Z)
| KArguments (args : option (list bytes))
| KView                         (* fl_view_new *)
| KBackground (color : bytes)
| KShowView
| KAddView
| KConnectFirstFrame
| KRealize
| KPlugins
| KFocus
| KShowWindow
| KWarning
| KActivate
| KProgramName
| KParentDispose.

(** [_MyApplication]: [None] is [nullptr].  [live] counts the argument vectors
    that are allocated and not freed. *)
Record my_application : Type := MyApplication {
  dart_entrypoint_arguments : option (list bytes);
  live : Z;
  k_events : list gtk_event
}.

Definition k_note (e : gtk_event) (app : my_application) : my_application :=
  MyApplication (dart_entrypoint_arguments app) (live app) (e :: k_events app).
Definition k_notes (l : list gtk_event) (app : my_application) : my_application := fold_left (fun app e => k_note e app) l app.

(** What GDK says of the screen: [None] when it is not one of X11, otherwise the
    name of the window manager, which may be [NULL]. *)
Definition screen : Type := option (option bytes).

(** * Callbacks *)

Definition first_frame_cb (app : my_application) : my_application := k_note KShowWindow app.

Definition use_header_bar (s : screen) : bool :=
  match s with
  | None => true
  | Some wm_name => bool_decide (wm_name = Some (str "GNOME Shell"))
  end.

Definition my_application_activate (s : screen) (app : my_application) : my_application :=
  let app := k_note KWindow app in
  let app := if use_header_bar s then k_note (KHeaderBar (str "Tund GUI")) app else k_note (KTitle (str "Tund GUI")) app in
  let app := k_note (KDefaultSize 1280 720) app in
  let app := k_note (KArguments (dart_entrypoint_arguments app)) app in
  k_notes [KView; KBackground (str "#000000"); KShowView; KAddView; KConnectFirstFrame; KRealize; KPlugins; KFocus] app.

(** [g_strdupv]: up to the [NULL] that ends the vector. *)
Fixpoint g_strdupv (v : list (option bytes)) : option (list bytes) :=
  match v with
  | [] => None
  | None :: _ => Some []
  | Some s :: v => let? l := g_strdupv v in Some (s :: l)
  end.

(** The exit status and the application; [registered] is the answer of
    [g_application_register].  The copy is made from [*arguments + 1]. *)
Definition my_application_local_command_line (arguments : list (option bytes)) (registered : bool) (s : screen)
    (app : my_application) : option (Z * my_application) :=
  let? copy := g_strdupv (drop 1 arguments) in
  let app := MyApplication (Some copy) (live app + 1) (k_events app) in
  if negb registered then Some (1, k_note KWarning app)
  else Some (0, my_application_activate s (k_note KActivate app)).

(** [g_clear_pointer] frees what is there and leaves [nullptr]. *)
Definition my_application_dispose (app : my_application) : my_application :=
  let app := match dart_entrypoint_arguments app with
             | Some _ => MyApplication None (live app - 1) (k_events app)
             | None => app
             end in
  k_note KParentDispose app.

Definition my_application_new : my_application := k_note KProgramName (MyApplication None 0 []).

(** [main]: the references to the object are dropped [disposals] times more than
    once, as [dispose] may run several times; [frames] tells whether the view
    renders. *)
Definition runner_main (argv : list (option bytes)) (registered frames : bool) (disposals : nat) (s : screen) :
    option (Z * my_application) :=
  let app := my_application_new in
  let? '(status, app) := my_application_local_command_line argv registered s app in
  let app := if registered && frames then first_frame_cb app else app in
  Some (status, Nat.iter (S disposals) my_application_dispose app).

(** * Properties *)

Lemma g_strdupv_spec args t : g_strdupv (map Some args ++ None :: t) = Some args.
Proof. induction args as [|a args IH]; cbn [map app g_strdupv]; [done|]. now rewrite IH. Qed.

Lemma dispose_again n app : dart_entrypoint_arguments app = None ->
  let app' := Nat.iter n my_application_dispose app in
  dart_entrypoint_arguments app' = None /\ live app' = live app /\
  k_events app' = replicate n KParentDispose ++ k_events app.
Proof.
  intros H. induction n as [|n (H1 & H2 & H3)]; [done|]. cbn zeta in *. rewrite Nat.iter_succ.
  set (app1 := Nat.iter n _ app) in *. unfold my_application_dispose. rewrite H1. cbn. rewrite H3. done.
Qed.

(** The last reference goes. *)
Lemma disposed n app : live app = 1 -> is_Some (dart_entrypoint_arguments app) ->
  let app' := Nat.iter (S n) my_application_dispose app in
  live app' = 0 /\ dart_entrypoint_arguments app' = None /\ k_events app' = replicate (S n) KParentDispose ++ k_events app.
Proof.
  intros Hl [l Ha]. cbn zeta. rewrite Nat.iter_succ_r.
  destruct (dispose_again n (my_application_dispose app)) as (H1 & H2 & H3);
    unfold my_application_dispose in *; rewrite Ha in *; cbn in *; [done|].
  split; [lia|]. split; [done|]. rewrite H3. change (KParentDispose :: replicate n KParentDispose ++ k_events app)
    with ((KParentDispose :: replicate n KParentDispose) ++ k_events app). now rewrite replicate_cons_app, <- app_assoc.
Qed.

Lemma filter_disposed f n l : f KParentDispose = false -> List.filter f (replicate n KParentDispose ++ l) = List.filter f l.
Proof. intros Hf. induction n as [|n IH]; cbn; [done|]. now rewrite Hf. Qed.

Lemma shown_disposed n l : In KShowWindow (replicate n KParentDispose ++ l) <-> In KShowWindow l.
Proof.
  induction n as [|n IH]; cbn [replicate app In]; [done|]. rewrite IH. split; [intros [H|H]; done|auto].
Qed.

(** The program of Linux ends with status 0 exactly when the application could
    be registered; then it opened one window, whose engine has the arguments of
    the program without its name; the vector it allocated is freed once, however
    often the object is disposed of. *)
Theorem linux_runner_runs (name : bytes) (args : list bytes) (registered frames : bool) (disposals : nat) (s : screen) :
  exists status app, runner_main (map Some (name :: args) ++ [None]) registered frames disposals s = Some (status, app) /\
    (status = 0 <-> registered = true) /\ (status = 0 \/ status = 1) /\
    live app = 0 /\ dart_entrypoint_arguments app = None /\
    List.filter (fun e => match e with KArguments _ => true | _ => false end) (k_events app) =
      (if registered then [KArguments (Some args)] else []) /\
    List.filter (fun e => match e with KWindow => true | _ => false end) (k_events app) = (if registered then [KWindow] else []) /\
    (In KShowWindow (k_events app) <-> registered = true /\ frames = true).
Proof.
  unfold runner_main, my_application_local_command_line.
  change (drop 1 (map Some (name :: args) ++ [None])) with (map Some args ++ [None]). rewrite g_strdupv_spec.
  destruct registered; cbn [negb andb]; eexists _, _; (split; [reflexivity|]).
  - match goal with |- context [Nat.iter (S disposals) _ ?a] => destruct (disposed disposals a) as (Hl & Ha & Hk) end;
      [unfold my_application_activate; destruct frames, (use_header_bar s); done
      |unfold my_application_activate; destruct frames, (use_header_bar s); now eexists|].
    rewrite Hk, Ha, Hl, !filter_disposed, shown_disposed by done. split; [done|]. split; [auto|]. split; [done|]. split; [done|].
    destruct frames; unfold my_application_activate; destruct (use_header_bar s); cbn;
      (split; [done|]); (split; [done|]); (split; [|intros []; auto 10; done]); intros Hin; split; try done; decompose [or] Hin; done.
  - match goal with |- context [Nat.iter (S disposals) _ ?a] => destruct (disposed disposals a) as (Hl & Ha & Hk) end; [done|now eexists|].
    rewrite Hk, Ha, Hl, !filter_disposed, shown_disposed by done. cbn. split; [done|]. split; [auto|]. repeat (split; [done|]).
    split; [intros Hin; decompose [or] Hin; done|intros []; done].
Qed.

(** Without a program name the copy starts behind the end of the vector. *)
Example linux_runner_no_name s : runner_main [None] true true 0 s = None.
Proof. reflexivity. Qed.
