(* ===== verification/ForgeOptions.v ===== *)
(** Command lines of the load generator ([tools/peerforge]): [options.c] for the
    simulated clients, the head of [server.c] for the server it can be pointed
    at.  The usage texts are left out. *)
From stdpp Require Import base list numbers option.
From S2P Require Import Prelude Prog World Consts Sequence Wire Events Cli.

(** How parsing ends: the program exits with code 0, is refused, or goes on. *)
Inductive parsed (A : Type) : Type := ParsedExit | ParsedRefused | ParsedOk (a : A).
Arguments ParsedExit {A}.
Arguments ParsedRefused {A}.
Arguments ParsedOk {A} a.

(** [TUND_IP_END - TUND_IP_START + 1] *)
Definition PEERFORGE_MAX_CLIENTS : Z := TUND_IP_END - TUND_IP_START + 1.

(** [*out], or [None] when the function returns [false]. *)
Definition parse_long (value : bytes) (min max : Z) : option (option Z) :=
  let? s := c_str value in
  let '(parsed, rest) := strtol s in
  Some (match rest with
        | Some [] => if (parsed <? min) || (max <? parsed) then None else Some parsed
        | _ => None
        end).

(** [if (!parse_long(...)) return false;] *)
Definition with_long {A} (value : bytes) (min max : Z) (k : Z -> option (parsed A)) : option (parsed A) :=
  let? v := parse_long value min max in
  match v with Some v => k v | None => Some ParsedRefused end.

Definition is_opt (s : bytes) (name : String.string) : bool := bool_decide (s = str name).
Arguments is_opt s name%_string_scope.

(** * The clients ([options.c]) *)

Record peerforge_options_t : Type := ForgeOptions {
  fo_server : option bytes;     (** a pointer into [argv], or [NULL] *)
  fo_key : option bytes;
  fo_port : Z;
  fo_clients : Z;
  fo_timeout_ms : Z;
  fo_keepalives : Z;
  fo_data_pairs : Z
}.

Definition set_defaults : peerforge_options_t := ForgeOptions None None TUND_PORT 32 3000 1 0.

Definition set_server (v : bytes) (o : peerforge_options_t) : peerforge_options_t :=
  ForgeOptions (Some v) (fo_key o) (fo_port o) (fo_clients o) (fo_timeout_ms o) (fo_keepalives o) (fo_data_pairs o).
Definition set_forge_key (v : bytes) (o : peerforge_options_t) : peerforge_options_t :=
  ForgeOptions (fo_server o) (Some v) (fo_port o) (fo_clients o) (fo_timeout_ms o) (fo_keepalives o) (fo_data_pairs o).
Definition set_forge_port (v : Z) (o : peerforge_options_t) : peerforge_options_t :=
  ForgeOptions (fo_server o) (fo_key o) v (fo_clients o) (fo_timeout_ms o) (fo_keepalives o) (fo_data_pairs o).
Definition set_clients (v : Z) (o : peerforge_options_t) : peerforge_options_t :=
  ForgeOptions (fo_server o) (fo_key o) (fo_port o) v (fo_timeout_ms o) (fo_keepalives o) (fo_data_pairs o).
Definition set_timeout_ms (v : Z) (o : peerforge_options_t) : peerforge_options_t :=
  ForgeOptions (fo_server o) (fo_key o) (fo_port o) (fo_clients o) v (fo_keepalives o) (fo_data_pairs o).
Definition set_keepalives (v : Z) (o : peerforge_options_t) : peerforge_options_t :=
  ForgeOptions (fo_server o) (fo_key o) (fo_port o) (fo_clients o) (fo_timeout_ms o) v (fo_data_pairs o).
Definition set_data_pairs (v : Z) (o : peerforge_options_t) : peerforge_options_t :=
  ForgeOptions (fo_server o) (fo_key o) (fo_port o) (fo_clients o) (fo_timeout_ms o) (fo_keepalives o) v.

(** The test after the loop: a server, and a key of at least 12 characters. *)
Definition options_complete (o : peerforge_options_t) : option (parsed peerforge_options_t) :=
  match fo_server o, fo_key o with
  | Some _, Some key => let? k := c_str key in Some (if zlen k <? 12 then ParsedRefused else ParsedOk o)
  | _, _ => Some ParsedRefused
  end.

(** [argv] without the program's name. *)
Fixpoint options_loop (argv : list bytes) (o : peerforge_options_t) : option (parsed peerforge_options_t) :=
  match argv with
  | [] => options_complete o
  | a :: rest =>
      let? s := c_str a in
      if is_opt s "-h" || is_opt s "--help" then Some ParsedExit
      else match rest with
      | [] => Some ParsedRefused
      | v :: rest =>
          if is_opt s "-s" then options_loop rest (set_server v o)
          else if is_opt s "-k" then options_loop rest (set_forge_key v o)
          else if is_opt s "-p" then with_long v 1 65535 (fun n => options_loop rest (set_forge_port (u16 n) o))
          else if is_opt s "-n" then with_long v 1 PEERFORGE_MAX_CLIENTS (fun n => options_loop rest (set_clients n o))
          else if is_opt s "-t" then with_long v 1 60000 (fun n => options_loop rest (set_timeout_ms n o))
          else if is_opt s "-K" then with_long v 0 1000 (fun n => options_loop rest (set_keepalives n o))
          else if is_opt s "-d" then with_long v 0 1000000 (fun n => options_loop rest (set_data_pairs n o))
          else Some ParsedRefused
      end
  end.

Definition peerforge_parse_options (argv : list bytes) : option (parsed peerforge_options_t) :=
  options_loop argv set_defaults.

(** * The server ([server.c]) *)

Record peerforge_server_options_t : Type := ForgeServerOptions {
  fs_port : Z;
  fs_key : option bytes;
  fs_duration_sec : Z
}.

Fixpoint server_options_loop (argv : list bytes) (o : peerforge_server_options_t) : option (parsed peerforge_server_options_t) :=
  match argv with
  | [] =>
      match fs_key o with
      | Some key => let? k := c_str key in Some (if zlen k <? 12 then ParsedRefused else ParsedOk o)
      | None => Some ParsedRefused
      end
  | a :: rest =>
      let? s := c_str a in
      if is_opt s "-h" || is_opt s "--help" then Some ParsedExit
      else match rest with
      | [] => Some ParsedRefused
      | v :: rest =>
          if is_opt s "-k" then server_options_loop rest (ForgeServerOptions (fs_port o) (Some v) (fs_duration_sec o))
          else if is_opt s "-p" then with_long v 1 65535 (fun n =>
            server_options_loop rest (ForgeServerOptions (u16 n) (fs_key o) (fs_duration_sec o)))
          else if is_opt s "-t" then with_long v 1 3600 (fun n =>
            server_options_loop rest (ForgeServerOptions (fs_port o) (fs_key o) n))
          else Some ParsedRefused
      end
  end.

Definition parse_options (argv : list bytes) : option (parsed peerforge_server_options_t) :=
  server_options_loop argv (ForgeServerOptions TUND_PORT None 20).

(** * What is accepted *)

(** [v] is an argument of the command line, a string of at least [n] bytes. *)
Definition an_argument (argv : list bytes) (n : Z) (v : option bytes) : Prop :=
  exists a s, v = Some a /\ In a argv /\ c_str a = Some s /\ n <= zlen s.

(** The numbers of the options are in range. *)
Record forge_ranges (o : peerforge_options_t) : Prop := {
  range_port : 1 <= fo_port o <= 65535;
  range_clients : 1 <= fo_clients o <= PEERFORGE_MAX_CLIENTS;
  range_timeout : 1 <= fo_timeout_ms o <= 60000;
  range_keepalives : 0 <= fo_keepalives o <= 1000;
  range_pairs : 0 <= fo_data_pairs o <= 1000000
}.

(** What the loop keeps: ranges, and pointers into [all]. *)
Record forge_partial (all : list bytes) (o : peerforge_options_t) : Prop := {
  partial_ranges : forge_ranges o;
  partial_server : fo_server o = None \/ an_argument all 0 (fo_server o);
  partial_key : fo_key o = None \/ an_argument all 0 (fo_key o)
}.

Definition forge_accepted (all : list bytes) (r : parsed peerforge_options_t) : Prop :=
  match r with
  | ParsedOk o => forge_ranges o /\ an_argument all 0 (fo_server o) /\ an_argument all 12 (fo_key o)
  | _ => True
  end.

Lemma parse_long_total v s min max : c_str v = Some s ->
  exists r, parse_long v min max = Some r /\ (forall n, r = Some n -> min <= n <= max).
Proof.
  intros Hs. unfold parse_long. rewrite Hs. destruct (strtol s) as [p rest]. eexists. split; [reflexivity|].
  intros n. destruct rest as [[|]|]; [|done..]. destruct (_ || _) eqn:E; [done|]. intros [= <-]. bools. lia.
Qed.

Lemma with_long_accepted {A} v s min max (k : Z -> option (parsed A)) (Q : parsed A -> Prop) :
  c_str v = Some s -> Q ParsedRefused -> (forall n, min <= n <= max -> exists r, k n = Some r /\ Q r) ->
  exists r, with_long v min max k = Some r /\ Q r.
Proof.
  intros Hs Hr Hk. unfold with_long. destruct (parse_long_total v s min max Hs) as ([n|] & -> & Hn); eauto.
Qed.

Lemma complete_accepted all o : forge_partial all o -> exists r, options_complete o = Some r /\ forge_accepted all r.
Proof.
  intros [Hr Hs Hk]. unfold options_complete. destruct (fo_server o) as [sv|] eqn:Es; [|eexists; split; [reflexivity|done]].
  destruct (fo_key o) as [key|] eqn:Ek; [|eexists; split; [reflexivity|done]].
  destruct Hs as [|Hs]; [done|]. destruct Hk as [|(a & z & [= <-] & Hin & Hz & _)]; [done|]. rewrite Hz.
  eexists. split; [reflexivity|]. destruct (Z.ltb_spec (zlen z) 12); [done|]. split; [done|]. rewrite Es, Ek.
  split; [done|]. now exists key, z.
Qed.

Lemma options_loop_accepted all : Forall (fun a => exists s, c_str a = Some s) all -> forall n argv o,
  (length argv <= n)%nat -> incl argv all -> forge_partial all o ->
  exists r, options_loop argv o = Some r /\ forge_accepted all r.
Proof.
  intros Hall. induction n as [|n IH]; intros argv o Hn Hincl Ho.
  { destruct argv; [|cbn in Hn; lia]. now apply complete_accepted. }
  assert (Hrefused : exists r, Some ParsedRefused = Some r /\ forge_accepted all r) by (eexists; split; [reflexivity|done]).
  destruct argv as [|a rest]; [now apply complete_accepted|]. cbn [options_loop].
  assert (Hstr : forall x, In x (a :: rest) -> exists s, c_str x = Some s).
  { intros x Hx. apply (proj1 (List.Forall_forall _ _) Hall). now apply Hincl. }
  destruct (Hstr a ltac:(now left)) as [s ->].
  destruct (is_opt s "-h" || is_opt s "--help"); [eexists; split; [reflexivity|done]|].
  destruct rest as [|v rest]; [exact Hrefused|].
  destruct (Hstr v ltac:(now right; left)) as [sv Hsv].
  assert (Hgo : forall o', forge_partial all o' -> exists r, options_loop rest o' = Some r /\ forge_accepted all r).
  { intros o' Ho'. apply IH; [cbn in Hn; lia| |done]. intros x Hx. apply Hincl. now do 2 right. }
  assert (Hv : an_argument all 0 (Some v)).
  { exists v, sv. split; [done|]. split; [apply Hincl; now right; left|]. split; [done|]. apply zlen_nonneg. }
  destruct Ho as [[R1 R2 R3 R4 R5] Hs Hk].
  destruct (is_opt s "-s"); [apply Hgo; split; [now split|now right|done]|].
  destruct (is_opt s "-k"); [apply Hgo; split; [now split|done|now right]|].
  repeat match goal with |- context [is_opt s ?x] => destruct (is_opt s x);
    [apply (with_long_accepted v sv); [done|done|]; intros m Hm; apply Hgo; split; [split; try done|done|done]|] end;
    [|exact Hrefused].
  cbn. unfold u16. rewrite Z.mod_small by lia. done.
Qed.

(** * Properties *)

Lemma defaults_partial all : forge_partial all set_defaults.
Proof. split; [split; cbn; unfold TUND_PORT, PEERFORGE_MAX_CLIENTS, TUND_IP_END, TUND_IP_START; lia|now left|now left]. Qed.

(** Whatever the command line of the load generator, it is parsed without
    reading outside of the arguments, and it is accepted only with a server, a
    key of at least 12 characters, both taken from the command line, and all
    numbers in the ranges the rest of the program relies on. *)
Theorem forge_options_accepted (argv : list bytes) (Hargv : Forall (fun a => exists s, c_str a = Some s) argv) :
  exists r, peerforge_parse_options argv = Some r /\ forge_accepted argv r.
Proof.
  apply (options_loop_accepted argv Hargv (length argv)); [done|apply incl_refl|apply defaults_partial].
Qed.

Definition forge_argv : list bytes :=
  [arg "-s"; arg "10.0.0.1"; arg "-k"; arg "a-long-random-key"; arg "-n"; arg "2"; arg "-t"; arg "50"; arg "-d"; arg "3"].

Example forge_argv_parsed : peerforge_parse_options forge_argv =
  Some (ParsedOk (ForgeOptions (Some (arg "10.0.0.1")) (Some (arg "a-long-random-key")) 9909 2 50 1 3)).
Proof. vm_compute. reflexivity. Qed.

Example forge_options_accepted_witness :
  exists r, peerforge_parse_options forge_argv = Some r /\ forge_accepted forge_argv r.
Proof. apply (forge_options_accepted forge_argv). repeat constructor; eexists; reflexivity. Defined.
