(* ===== verification/Forge.v ===== *)
(** The simulated clients of the load generator ([net.c], [client.c] and
    [main.c] of [tools/peerforge]): one process that registers many clients
    with a server, exchanges keepalives and sends probes between them. *)
From stdpp Require Import base list numbers option.
From S2P Require Import Prelude Prog World Consts Sequence Wire Ipv4 Crypto Events Replay Peer Net Messages Boot Cli ForgeOptions.

(** * State *)

(** The process, and two parts of the operating system it waits on: its
    monotonic clock, as milliseconds by number of the reading, and [select] on
    one socket, by number of the call, socket and time-out.  The process has one
    socket per client, so every [sendto] and [recvfrom] is recorded with the
    socket it used and its result. *)
Inductive forge_io : Type := IoSend (sock : Z) (pkt : bytes) (sent : Z) | IoRecv (sock : Z) (r : recv_result).

Record forge : Type := Forge {
  fg_world : world;
  fg_clock : nat -> Z;
  fg_select : nat -> Z -> Z -> Z;
  fg_now : nat;                  (** readings of the clock so far *)
  fg_sel : nat;                  (** calls of [select] so far *)
  fg_io : list forge_io          (** uses of sockets so far, newest first *)
}.

#[export] Instance forge_has_world : HasWorld forge := {|
  get_world := fg_world;
  set_world w s := Forge w (fg_clock s) (fg_select s) (fg_now s) (fg_sel s) (fg_io s);
  get_set_world _ _ := eq_refl;
  set_set_world _ _ _ := eq_refl;
  set_get_world s := match s with Forge _ _ _ _ _ _ => eq_refl end
|}.

Definition PEERFORGE_INVALID_SOCKET : Z := -1.
Definition FD_SETSIZE : Z := 1024.

Record peerforge_client_t : Type := ForgeClient { pc_sock : Z; pc_virt_ip : Z; pc_assigned : bool }.

Record peerforge_session_t : Type := ForgeSession { ps_server : sockaddr_in; ps_key : bytes; ps_timeout_ms : Z }.

(** * [net.c] *)

Definition peerforge_now_ms : prog forge Z :=
  atomic (fun s => Some (u64 (fg_clock s (fg_now s)), Forge (fg_world s) (fg_clock s) (fg_select s) (S (fg_now s)) (fg_sel s) (fg_io s))).

(** [FD_SET] needs a descriptor below [FD_SETSIZE]. *)
Definition peerforge_wait_readable (sock timeout_ms : Z) : prog forge Z :=
  if (0 <=? sock) && (sock <? FD_SETSIZE) then
    atomic (fun s => Some (fg_select s (fg_sel s) sock timeout_ms,
                           Forge (fg_world s) (fg_clock s) (fg_select s) (fg_now s) (S (fg_sel s)) (fg_io s)))
  else undef.

Definition peerforge_socket_open : prog forge Z := sys_open.

Definition peerforge_socket_close (sock : Z) : prog forge unit :=
  if sock =? PEERFORGE_INVALID_SOCKET then Ret tt else sys_close sock.

(** The socket of the [sendto] or [recvfrom] that was made. *)
Definition on_socket (io : forge_io) : prog forge unit :=
  atomic (fun s => Some (tt, Forge (fg_world s) (fg_clock s) (fg_select s) (fg_now s) (fg_sel s) (io :: fg_io s))).

(** [getaddrinfo] fills in the port it was given; the message on [stderr] is
    left out. *)
Definition peerforge_resolve_server (port : Z) (out : sockaddr_in) : prog forge (Z * sockaddr_in) :=
  let* res := on_world' (ask (fun e t => env_resolve e t)) in
  match res with
  | None => Ret (-1, out)
  | Some a => Ret (0, SockAddr (sin_family a) (htons port) (s_addr a))
  end.

(** * [client.c] *)

Definition peerforge_client_init : peerforge_client_t := ForgeClient PEERFORGE_INVALID_SOCKET 0 false.

Definition peerforge_client_open (c : peerforge_client_t) : prog forge (Z * peerforge_client_t) :=
  let* sock := peerforge_socket_open in
  Ret (if sock =? PEERFORGE_INVALID_SOCKET then -1 else 0, ForgeClient sock (pc_virt_ip c) (pc_assigned c)).

Definition peerforge_client_close (c : peerforge_client_t) : prog forge peerforge_client_t :=
  peerforge_socket_close (pc_sock c) ;; Ret peerforge_client_init.

(** [(int)] of a 64-bit number. *)
Definition to_int (n : Z) : Z := let m := u32 n in if m <? 2 ^ 31 then m else m - 2 ^ 32.

Section client.
Context `{M : Monocypher}.

Definition send_encrypted (sock : Z) (buf : bytes) (len : Z) (session : peerforge_session_t) : prog forge (Z * bytes) :=
  let* '(wire_len, buf) := proto_encrypt buf len (ps_key session) in
  if wire_len <? 0 then Ret (-1, buf)
  else
    let* pkt := local (mem_read buf 0 wire_len) in
    let* sent := sendto pkt (ps_server session) in
    on_socket (IoSend sock pkt sent) ;;
    Ret (if sent =? wire_len then 0 else -1, buf).

(** The code, the buffer and, when the code is positive, type and length. *)
Definition recv_message (sock : Z) (session : peerforge_session_t) (buf : bytes) (timeout_ms : Z) :
    prog forge (Z * bytes * Z * Z) :=
  let* ready := peerforge_wait_readable sock timeout_ms in
  if ready <=? 0 then Ret (ready, buf, 0, 0)
  else
    let* r := on_world' (ask (fun e t => env_recvfrom e t TUND_MAX_PKT)) in
    on_socket (IoRecv sock r) ;;
    let* '(len, buf) := local (match r with
                               | RecvData l _ => let? buf := mem_write buf 0 l in Some (zlen l, buf)
                               | _ => Some (-1, buf)
                               end) in
    let* '(len, buf) := local (proto_decrypt buf len (ps_key session)) in
    if len <? TUND_HDR_SIZE then Ret (-1, buf, 0, 0)
    else
      let* hdr := local (proto_read_hdr buf) in
      match hdr with
      | HdrErr _ => Ret (-1, buf, 0, 0)
      | HdrOk type payload_len =>
          if len <? TUND_HDR_SIZE + payload_len then Ret (-1, buf, type, payload_len)
          else Ret (len, buf, type, payload_len)
      end.

Definition handle_server_keepalive (sock : Z) (session : peerforge_session_t) (payload : bytes) (payload_len : Z) : prog forge unit :=
  let* buf := alloc TUND_MAX_PKT in
  let* ts := local (proto_read_keepalive_timestamp payload payload_len) in
  match ts with
  | None => Ret tt
  | Some timestamp =>
      let* '(len, buf) := proto_build_keepalive_ack buf timestamp in
      let* _ := send_encrypted sock buf len session in
      Ret tt
  end.

(** The loop goes on as long as messages are waiting. *)
Fixpoint peerforge_client_drain (fuel : nat) (c : peerforge_client_t) (session : peerforge_session_t) : prog forge unit :=
  let* buf := alloc TUND_MAX_PKT in
  let* '(len, buf, type, payload_len) := recv_message (pc_sock c) session buf 0 in
  if len <=? 0 then Ret tt
  else
    (if type =? MSG_KEEPALIVE then handle_server_keepalive (pc_sock c) session (ptr buf TUND_HDR_SIZE) payload_len else Ret tt) ;;
    match fuel with
    | O => undef
    | S fuel => peerforge_client_drain fuel c session
    end.

(** The loop of all three exchanges: until the deadline, keepalives of the
    server are answered and [accept] inspects the other messages; the result
    is what it accepted. *)
Fixpoint await {A} (fuel : nat) (deadline sock : Z) (session : peerforge_session_t) (buf : bytes)
    (accept : Z -> Z -> bytes -> option (option A)) : prog forge (option A * bytes) :=
  let* now := peerforge_now_ms in
  if negb (now <? deadline) then Ret (None, buf)
  else
    let* now := peerforge_now_ms in
    let remaining := to_int (u64 (deadline - now)) in
    let* '(len, buf, type, payload_len) :=
      recv_message sock session buf (if 0 <? remaining then remaining else 1) in
    let* res :=
      if len <=? 0 then Ret None
      else if type =? MSG_KEEPALIVE then
        handle_server_keepalive sock session (ptr buf TUND_HDR_SIZE) payload_len ;; Ret None
      else local (accept type payload_len (ptr buf TUND_HDR_SIZE)) in
    match res with
    | Some a => Ret (Some a, buf)
    | None => match fuel with O => undef | S fuel => await fuel deadline sock session buf accept end
    end.

(** [peerforge_now_ms() + (uint64_t)session->timeout_ms], then the loop. *)
Definition await_reply {A} (fuel : nat) (sock : Z) (session : peerforge_session_t) (buf : bytes)
    (accept : Z -> Z -> bytes -> option (option A)) : prog forge (option A * bytes) :=
  let* now := peerforge_now_ms in
  await fuel (u64 (now + u64 (ps_timeout_ms session))) sock session buf accept.

(** [snprintf(name, sizeof(name), "forge-%03d", index + 1)] *)
Definition forge_name (index : Z) : bytes :=
  let digits := dec (index + 1) in
  str "forge-" ++ replicate (3 - length digits) 48 ++ digits.

Definition accept_assign (type payload_len : Z) (payload : bytes) : option (option Z) :=
  if (type =? MSG_ASSIGN) && (10 <=? payload_len) then
    let? ip := mem_read payload 0 4 in Some (Some (le_combine ip))
  else Some None.

Definition peerforge_register_client (fuel : nat) (c : peerforge_client_t) (index : Z) (session : peerforge_session_t) :
    prog forge (Z * peerforge_client_t) :=
  let* buf := alloc TUND_MAX_PKT in
  let* '(len, buf) := proto_build_register buf (take 31 (forge_name index) ++ [0]) in
  let* '(r, buf) := send_encrypted (pc_sock c) buf len session in
  if r <? 0 then Ret (-1, c)
  else
    let* '(res, _) := await_reply fuel (pc_sock c) session buf accept_assign in
    Ret (match res with
         | Some ip => (0, ForgeClient (pc_sock c) ip true)
         | None => (-1, c)
         end).

Definition accept_echo (timestamp type payload_len : Z) (payload : bytes) : option (option unit) :=
  if type =? MSG_KEEPALIVE_ACK then
    let? ts := proto_read_keepalive_timestamp payload payload_len in
    Some (match ts with
          | Some echoed => if echoed =? timestamp then Some tt else None
          | None => None
          end)
  else Some None.

Fixpoint peerforge_keepalive_round (fuel : nat) (clients : list peerforge_client_t) (session : peerforge_session_t) (ok : Z) :
    prog forge Z :=
  match clients with
  | [] => Ret ok
  | c :: clients =>
      if negb (pc_assigned c) then peerforge_keepalive_round fuel clients session ok
      else
        let* buf := alloc TUND_MAX_PKT in
        let* timestamp := peerforge_now_ms in
        let* '(len, buf) := proto_build_keepalive buf timestamp in
        let* '(r, buf) := send_encrypted (pc_sock c) buf len session in
        if r <? 0 then peerforge_keepalive_round fuel clients session ok
        else
          let* '(res, _) := await_reply fuel (pc_sock c) session buf (accept_echo timestamp) in
          peerforge_keepalive_round fuel clients session (match res with Some _ => ok + 1 | None => ok end)
  end.

Definition build_ipv4_probe (pkt : bytes) (src dst : Z) : option bytes :=
  let? pkt := mem_write pkt 0 (replicate 20 0) in
  let? pkt := mem_write pkt 0 [0x45] in
  let? pkt := mem_write pkt 8 [64] in
  let? pkt := mem_write pkt 9 [253] in
  let? pkt := mem_write pkt 2 (le_split 2 (htons 20)) in
  let? pkt := mem_write pkt 12 (le_split 4 src) in
  mem_write pkt 16 (le_split 4 dst).

Definition accept_probe (src dst type payload_len : Z) (payload : bytes) : option (option unit) :=
  if (type =? MSG_DATA) && (20 <=? payload_len) then
    let? s := proto_get_src_ip payload payload_len in
    if s =? src then
      let? d := proto_get_dst_ip payload payload_len in
      Some (if d =? dst then Some tt else None)
    else Some None
  else Some None.

(** Probe [i] of [pairs] between the clients [active], which are not empty. *)
Fixpoint probe_loop (fuel : nat) (n : nat) (i : Z) (active : list peerforge_client_t) (session : peerforge_session_t) (ok : Z) :
    prog forge Z :=
  match n with
  | O => Ret ok
  | S n =>
      let* src := local (active !! Z.to_nat (i mod zlen active)) in
      let* dst := local (active !! Z.to_nat ((i + 1) mod zlen active)) in
      let* ip_pkt := alloc 20 in
      let* buf := alloc TUND_MAX_PKT in
      let* ip_pkt := local (build_ipv4_probe ip_pkt (pc_virt_ip src) (pc_virt_ip dst)) in
      let* '(len, buf) := proto_build_data buf ip_pkt 20 in
      let* '(r, buf) := send_encrypted (pc_sock src) buf len session in
      if r <? 0 then probe_loop fuel n (i + 1) active session ok
      else
        let* '(res, _) := await_reply fuel (pc_sock dst) session buf (accept_probe (pc_virt_ip src) (pc_virt_ip dst)) in
        probe_loop fuel n (i + 1) active session (match res with Some _ => ok + 1 | None => ok end)
  end.

(** The indices in [active] stand for the clients themselves, which do not
    change any more. *)
Definition peerforge_data_probe (fuel : nat) (clients : list peerforge_client_t) (pairs : Z) (session : peerforge_session_t) :
    prog forge Z :=
  let active := List.filter pc_assigned clients in
  if zlen active <? 2 then Ret 0 else probe_loop fuel (Z.to_nat pairs) 0 active session 0.

(** * [main.c] *)

Fixpoint close_clients (clients : list peerforge_client_t) : prog forge unit :=
  match clients with
  | [] => Ret tt
  | c :: clients => let* _ := peerforge_client_close c in close_clients clients
  end.

Fixpoint drain_clients (fuel : nat) (clients : list peerforge_client_t) (session : peerforge_session_t) : prog forge unit :=
  match clients with
  | [] => Ret tt
  | c :: clients =>
      (if negb (pc_sock c =? PEERFORGE_INVALID_SOCKET) then peerforge_client_drain fuel c session else Ret tt) ;;
      drain_clients fuel clients session
  end.

(** [done] are the clients before index [i], [todo] those from it. *)
Fixpoint register_clients (fuel : nat) (done todo : list peerforge_client_t) (i : Z) (session : peerforge_session_t)
    (registered : Z) : prog forge (list peerforge_client_t * Z) :=
  match todo with
  | [] => Ret (done, registered)
  | c :: todo =>
      let* '(r, c) := peerforge_client_open c in
      let* '(r, c) := if r =? 0 then peerforge_register_client fuel c i session else Ret (-1, c) in
      let registered := if r =? 0 then registered + 1 else registered in
      let done := done ++ [c] in
      drain_clients fuel done session ;;
      register_clients fuel done todo (i + 1) session registered
  end.

Fixpoint keepalive_rounds (fuel : nat) (n : nat) (clients : list peerforge_client_t) (session : peerforge_session_t) (ok : Z) :
    prog forge Z :=
  match n with
  | O => Ret ok
  | S n =>
      let* k := peerforge_keepalive_round fuel clients session 0 in
      keepalive_rounds fuel n clients session (ok + k)
  end.

(** What is printed at the end. *)
Definition forge_report (opts : peerforge_options_t) (registered ms keepalive_ok data_ok : Z) : prog forge unit :=
  puts (str "registered: " ++ dec registered ++ str "/" ++ dec (fo_clients opts) ++ str " in " ++ dec ms ++ str "ms" ++ [10]) ;;
  (if 0 <? fo_keepalives opts then
     puts (str "keepalive acks: " ++ dec keepalive_ok ++ str "/" ++ dec (registered * fo_keepalives opts) ++ [10])
   else Ret tt) ;;
  (if 0 <? fo_data_pairs opts then
     puts (str "data probes: " ++ dec data_ok ++ str "/" ++ dec (fo_data_pairs opts) ++ [10])
   else Ret tt).

Definition forge_exit_code (opts : peerforge_options_t) (registered keepalive_ok data_ok : Z) : Z :=
  if negb (registered =? fo_clients opts) then 1
  else if (0 <? fo_keepalives opts) && negb (keepalive_ok =? registered * fo_keepalives opts) then 1
  else if (0 <? fo_data_pairs opts) && negb (data_ok =? fo_data_pairs opts) then 1
  else 0.

(** From the first registration to the exit code. *)
Definition forge_session (fuel : nat) (opts : peerforge_options_t) (session : peerforge_session_t) : prog forge Z :=
  let clients := replicate (Z.to_nat (fo_clients opts)) peerforge_client_init in
  let* started := peerforge_now_ms in
  let* '(clients, registered) := register_clients fuel [] clients 0 session 0 in
  let* now := peerforge_now_ms in
  let registered_ms := u64 (now - started) in
  let* keepalive_ok := keepalive_rounds fuel (Z.to_nat (fo_keepalives opts)) clients session 0 in
  let* data_ok := peerforge_data_probe fuel clients (fo_data_pairs opts) session in
  forge_report opts registered registered_ms keepalive_ok data_ok ;;
  close_clients clients ;;
  Ret (forge_exit_code opts registered keepalive_ok data_ok).

(** [calloc] fails when the system says so. *)
Definition run_peerforge (fuel : nat) (opts : peerforge_options_t) : prog forge Z :=
  let* '(r, server) := peerforge_resolve_server (fo_port opts) zero_addr in
  if r <? 0 then Ret 1
  else
    let* key := local (let? k := fo_key opts in proto_key_from_passphrase k) in
    let session := ForgeSession server key (fo_timeout_ms opts) in
    let* mem := on_world' (ask (fun e t => env_sys e t)) in
    if mem <? 0 then Ret 1 else forge_session fuel opts session.

(** [main]: its exit code. *)
Definition forge_main (fuel : nat) (argv : list bytes) : prog forge Z :=
  let* r := local (peerforge_parse_options argv) in
  match r with
  | ParsedExit => Ret 0
  | ParsedRefused => Ret 2
  | ParsedOk opts => run_peerforge fuel opts
  end.
End client.
