(* ===== verification/ForgeSpec.v ===== *)
(** What the load generator does: every wait ends, every message it sends is
    one of four kinds, an address is taken over only from an authentic
    assignment, and every socket it opened is closed. *)
From stdpp Require Import base list numbers option.
From S2P Require Import Prelude Prog World Consts Sequence Wire Ipv4 Crypto Events Replay Peer Net Messages Boot Cli ForgeOptions Forge.

(** * The operating system it waits on *)

(** The clock never goes back and moves on by a minute within [n] readings,
    unless it is at its last value; a socket runs dry within [n] calls of
    [select]. *)
Record waits (n : nat) (clk : nat -> Z) (sel : nat -> Z -> Z -> Z) : Prop := {
  clk_range : forall i, is_u64 (clk i);
  clk_mono : forall i, clk i <= clk (S i);
  clk_advances : forall i, Z.min (clk i + 60000) (2 ^ 64 - 1) <= clk (i + n)%nat;
  sel_dry : forall i sock, exists j, (j <= n)%nat /\ sel (i + j)%nat sock 0 <= 0
}.

Lemma clk_later n clk sel i j : waits n clk sel -> (i <= j)%nat -> clk i <= clk j.
Proof.
  intros H. induction 1 as [|j _ IH]; [lia|]. pose proof (clk_mono _ _ _ H j). lia.
Qed.

(** How far the process is: readings of the clock, calls of [select], uses of
    sockets. *)
Record marks : Type := Marks { mk_now : nat; mk_sel : nat; mk_io : list forge_io }.

Definition marks_of (s : forge) : marks := Marks (fg_now s) (fg_sel s) (fg_io s).

Definition used (new : list forge_io) (m : marks) : marks := Marks (mk_now m) (mk_sel m) (new ++ mk_io m).
Definition read_clock (m : marks) : marks := Marks (S (mk_now m)) (mk_sel m) (mk_io m).
Definition selected (m : marks) : marks := Marks (mk_now m) (S (mk_sel m)) (mk_io m).

(** From [m] to [m'], only sockets in [P] were used. *)
Definition moved (P : forge_io -> Prop) (m m' : marks) : Prop :=
  (mk_now m <= mk_now m')%nat /\ exists new, mk_io m' = new ++ mk_io m /\ Forall P new.

#[export] Instance moved_refl P : Reflexive (moved P).
Proof. intros m. split; [done|]. now exists []. Qed.

#[export] Instance moved_trans P : Transitive (moved P).
Proof.
  intros m1 m2 m3 [H1 (n1 & E1 & F1)] [H2 (n2 & E2 & F2)]. split; [lia|].
  exists (n2 ++ n1). rewrite E2, E1, app_assoc, Forall_app. auto.
Qed.

Lemma moved_weaken (P Q : forge_io -> Prop) m m' : moved P m m' -> (forall io, P io -> Q io) -> moved Q m m'.
Proof. intros [H (new & E & F)] HPQ. split; [done|]. exists new. split; [done|]. eapply Forall_impl; [exact HPQ|exact F]. Qed.

Lemma moved_used P new m : Forall P new -> moved P m (used new m).
Proof. intros H. split; [done|]. now exists new. Qed.

Lemma moved_clock P m : moved P m (read_clock m).
Proof. split; [cbn; lia|]. now exists []. Qed.

Lemma moved_selected P m : moved P m (selected m).
Proof. split; [cbn; lia|]. now exists []. Qed.

(** * Exchanges *)

(** These steps happened one after the other: the log, newest first, has a part
    for each of them, the first step's the oldest. *)
Fixpoint in_order (steps : list (list forge_io -> Prop)) (log : list forge_io) : Prop :=
  match steps with
  | [] => True
  | step :: steps => exists later part before, log = later ++ part ++ before /\ step part /\ in_order steps later
  end.

Lemma in_order_older steps log before : in_order steps log -> in_order steps (log ++ before).
Proof.
  destruct steps as [|step steps]; [done|]. intros (later & part & b & -> & H1 & H2).
  exists later, part, (b ++ before). split; [now rewrite !app_assoc|done].
Qed.

Lemma in_order_newer steps log later : in_order steps log -> in_order steps (later ++ log).
Proof.
  revert log. induction steps as [|step steps IH]; [done|]. intros log (l & part & b & -> & H1 & H2).
  exists (later ++ l), part, b. split; [now rewrite !app_assoc|]. auto.
Qed.

Lemma in_order_app steps steps' log log' : in_order steps log -> in_order steps' log' -> in_order (steps ++ steps') (log' ++ log).
Proof.
  revert log. induction steps as [|step steps IH]; intros log H H'; [now apply in_order_older|].
  destruct H as (later & part & b & -> & H1 & H2). exists (log' ++ later), part, b. split; [now rewrite !app_assoc|]. auto.
Qed.

(** From [m] to [m'], these steps happened. *)
Definition did (steps : list (list forge_io -> Prop)) (m m' : marks) : Prop :=
  exists new, mk_io m' = new ++ mk_io m /\ in_order steps new.

Lemma did_nothing P m m' : moved P m m' -> did [] m m'.
Proof. intros [_ (new & E & _)]. now exists new. Qed.

Lemma did_trans steps steps' m1 m2 m3 : did steps m1 m2 -> did steps' m2 m3 -> did (steps ++ steps') m1 m3.
Proof.
  intros (n1 & E1 & H1) (n2 & E2 & H2). exists (n2 ++ n1). split; [rewrite E2, E1; apply app_assoc|]. now apply in_order_app.
Qed.

Lemma did_after P steps m1 m2 m3 : moved P m1 m2 -> did steps m2 m3 -> did steps m1 m3.
Proof. intros H1 H2. exact (did_trans [] steps _ _ _ (did_nothing _ _ _ H1) H2). Qed.

Lemma did_before P steps m1 m2 m3 : did steps m1 m2 -> moved P m2 m3 -> did steps m1 m3.
Proof. intros H1 H2. rewrite <- (app_nil_r steps). exact (did_trans steps [] _ _ _ H1 (did_nothing _ _ _ H2)). Qed.

Section exchange.
Context `{M : Monocypher} (key : bytes).

(** [sendto] took the whole of this message from this socket. *)
Definition said (sock type : Z) (payload : bytes) (io : forge_io) : Prop :=
  exists sequence nonce, 1 <= sequence < 2 ^ 64 /\ length nonce = 24%nat /\
    let wire := wire_bytes key type payload sequence nonce in io = IoSend sock wire (zlen wire).

(** [recvfrom] gave this message from this socket. *)
Definition told (sock type : Z) (payload : bytes) (io : forge_io) : Prop :=
  exists wire from, locked_as key type payload wire /\ io = IoRecv sock (RecvData wire from).

(** A message went out and, after it, an answer came in. *)
Definition exchange (out type : Z) (payload : bytes) (into : Z) (answer : Z -> bytes -> Prop) (log : list forge_io) : Prop :=
  exists i mid o type' payload', log = i :: mid ++ [o] /\ said out type payload o /\
    answer type' payload' /\ told into type' payload' i.
End exchange.

(** * Invariant *)

Section forged.
Context (clk : nat -> Z) (sel : nat -> Z -> Z -> Z) (W : world -> Prop).

(** [W] holds, the device events are [t], the process is at [m]. *)
Definition forged (m : marks) (t : list event) (s : forge) : Prop :=
  books W t (fg_world s) /\ fg_clock s = clk /\ fg_select s = sel /\ marks_of s = m.

Context {HQ : Quiet W}.

#[export] Instance forged_framed m t : Framed (forged m t).
Proof. intros w s (H1 & H2) Hq. split; [now apply (quiet_books W t (fg_world s))|done]. Qed.

#[export] Instance forged_accounts m (ok : event -> Prop) :
  (forall e, ok e -> Allows W e) -> Accounts (forged m) ok.
Proof.
  intros HA. split; [apply _|]. intros t e w s (H1 & H2) He Hok E1 E2 E3 E4. split; [|done].
  pose proof (HA e Hok). now apply (books_event W t e (fg_world s)).
Qed.

Lemma forged_permits m t wire dest res :
  Allows W (EvSent wire dest res) -> Permits (forged m t) (EvSent wire dest res).
Proof.
  intros HA w s (H1 & H2) E1 E2 E3 E4. split; [|done].
  exact (allows_books_sent W t wire dest res (fg_world s) w H1 E1 E2 E3 E4).
Qed.

(** Code that does not wait. *)
Lemma wp_forged {A} m t (p : prog forge A) Q s (K : A -> forge -> Prop) :
  safe (forged m t) p Q -> inv (forged m t) s -> (forall a s', inv (forged m t) s' -> Q a -> K a s') -> wp p K s.
Proof.
  intros Hp Hs HK. destruct (safe_run _ _ _ s Hp Hs) as (a & s' & Hr & Hi & _ & Ha). exists a, s'. auto.
Qed.

Lemma wp_read_clock m t s (K : Z -> forge -> Prop) :
  (forall i, is_u64 (clk i)) -> inv (forged m t) s ->
  (forall s', inv (forged (read_clock m) t) s' -> K (clk (mk_now m)) s') -> wp peerforge_now_ms K s.
Proof.
  intros Hclk [Hw (H1 & H2 & H3 & <-)] HK. eexists _, _. split; [reflexivity|]. cbn.
  rewrite H2. replace (u64 (clk (fg_now s))) with (clk (fg_now s)).
  - apply HK. now do 2 (split; [done|]).
  - symmetry. apply Z.mod_small, Hclk.
Qed.

Lemma wp_select m t sock timeout s (K : Z -> forge -> Prop) :
  0 <= sock < FD_SETSIZE -> inv (forged m t) s ->
  (forall s', inv (forged (selected m) t) s' -> K (sel (mk_sel m) sock timeout) s') ->
  wp (peerforge_wait_readable sock timeout) K s.
Proof.
  intros Hsock [Hw (H1 & H2 & H3 & <-)] HK. unfold peerforge_wait_readable.
  destruct (Z.leb_spec 0 sock); [|lia]. destruct (Z.ltb_spec sock FD_SETSIZE); [|lia].
  eexists _, _. split; [reflexivity|]. cbn. rewrite H3. apply HK. now do 2 (split; [done|]).
Qed.

Lemma wp_on_socket m t io s (K : unit -> forge -> Prop) :
  inv (forged m t) s -> (forall s', inv (forged (used [io] m) t) s' -> K tt s') -> wp (on_socket io) K s.
Proof.
  intros [Hw (H1 & H2 & H3 & <-)] HK. eexists _, _. split; [reflexivity|]. apply HK. now do 2 (split; [done|]).
Qed.
End forged.

(** * Messages *)

Section session.
Context `{M : Monocypher} {ML : MonocypherLaws M}.
Context (n : nat) (clk : nat -> Z) (sel : nat -> Z -> Z -> Z) (Hwaits : waits n clk sel).
Context (W : world -> Prop) {HQ : Quiet W} (ok says : Z -> bytes -> Prop).
Context (session : peerforge_session_t).
Hypothesis Htimeout : 1 <= ps_timeout_ms session <= 60000.
Hypothesis W_heard : forall w, W w -> authentic (ps_key session) ok (w_env w).
Hypothesis W_says : forall type payload sequence nonce res, says type payload ->
  1 <= sequence < 2 ^ 64 -> length nonce = 24%nat -> bytes_ok nonce ->
  Allows W (EvSent (wire_bytes (ps_key session) type payload sequence nonce) (ps_server session) res).
Hypothesis says_ack : forall payload, ok MSG_KEEPALIVE payload -> 8 <= zlen payload ->
  says MSG_KEEPALIVE_ACK (take 8 payload).
Notation state := (forged clk sel W).

(** A buffer of a function of [client.c]. *)
Definition msg_buf (buf : bytes) : Prop := pkt_buf buf /\ zlen buf = TUND_MAX_PKT.

Lemma msg_buf_same buf buf' : msg_buf buf -> length buf' = length buf -> bytes_ok buf' -> msg_buf buf'.
Proof.
  intros [[_ H1] H2] Hl Hb. assert (zlen buf' = zlen buf) by (unfold zlen; congruence).
  split; [split; [done|]|]; lia.
Qed.

(** A datagram was sent from this socket. *)
Definition sends_on (sock : Z) (io : forge_io) : Prop := exists pkt sent, io = IoSend sock pkt sent.

Lemma wp_send m t sock buf0 buf len type payload s K :
  built type payload buf0 len buf -> msg_buf buf0 -> is_u8 type -> says type payload -> inv (state m t) s ->
  (forall r buf' new s', msg_buf buf' -> Forall (sends_on sock) new ->
     (0 <= r -> exists io, new = [io] /\ said (ps_key session) sock type payload io) ->
     inv (state (used new m) t) s' -> K (r, buf') s') ->
  wp (send_encrypted sock buf len session) K s.
Proof.
  intros (Hlb & Hbb & Hbt) Hbuf Ht Hsay Hs HK. unfold send_encrypted.
  pose proof (msg_buf_same _ _ Hbuf Hlb Hbb) as [_ Hz].
  apply wp_bind. eapply wp_forged; [|exact Hs|].
  { apply (safe_encrypt _ (ps_key session) buf len Hbb). destruct Hbt as [->|(-> & ? & _)]; clia. }
  intros [r buf'] s1 Hs1 (Hl' & Hb' & HH). pose proof (msg_buf_same _ buf' Hbuf ltac:(congruence) Hb') as Hbuf'.
  destruct HH as [->|(ty & sq & nc & pl & rest & Hty & Hsq & Hn & Hnb & Hpb & Hpm & Hlen & Hhdr & Hp & Hr & ->)].
  { apply wp_ret. apply (HK _ _ []); [done|constructor|lia|now destruct m]. }
  pose proof (zlen_nonneg pl). destruct (Z.ltb_spec r 0); [clia|].
  destruct Hbt as [->|(Hlen' & Hm & Hmsg)]; [clia|].
  destruct (message_carries type payload buf len ty pl Hmsg Ht Hm Hlen') as [-> ->].
  { split; [exact Hhdr|]. now split. }
  rewrite (mem_read_at _ [] (wire_bytes (ps_key session) type payload sq nc) rest);
    [|done|done|rewrite zlen_wire; [clia|done]].
  cbn [local bind]. apply wp_bind. eapply wp_forged; [|exact Hs1|].
  { apply safe_sendto. intros res. apply forged_permits. now apply W_says. }
  intros sent s2 Hs2 _. apply wp_bind. eapply wp_on_socket; [exact Hs2|]. intros s3 Hs3.
  apply wp_ret. eapply HK; [done| | |exact Hs3]; [constructor; [eexists _, _; reflexivity|constructor]|].
  destruct (Z.eqb_spec sent r) as [->|]; [|lia]. intros _. eexists. split; [reflexivity|]. exists sq, nc. do 2 (split; [done|]).
  cbv zeta. f_equal. rewrite zlen_wire; [clia|done].
Qed.

(** The datagram [r] is this message, which satisfies [ok]. *)
Definition brings (r : recv_result) (type : Z) (payload : bytes) : Prop :=
  ok type payload /\ exists wire from, locked_as (ps_key session) type payload wire /\ r = RecvData wire from.

Lemma brings_told sock r type payload : brings r type payload -> told (ps_key session) sock type payload (IoRecv sock r).
Proof. intros [_ (wire & from & H & ->)]. now exists wire, from. Qed.

(** What a message that was received is. *)
Definition arrived (r : recv_result) (len : Z) (buf : bytes) (type plen : Z) : Prop :=
  exists sequence nonce payload rest, is_u8 type /\ zlen payload <= TUND_MAX_PLAINTEXT /\ brings r type payload /\
    length nonce = 24%nat /\ len = TUND_HDR_SIZE + zlen payload /\ plen = zlen payload /\
    bytes_ok payload /\ bytes_ok rest /\
    buf = hdr_bytes type (zlen payload) sequence nonce ++ payload ++ rest.

Lemma arrived_payload r len buf type plen :
  arrived r len buf type plen -> exists payload rest, ptr buf TUND_HDR_SIZE = payload ++ rest /\
    plen = zlen payload /\ brings r type payload /\ is_u8 type /\ bytes_ok (payload ++ rest) /\ bytes_ok payload.
Proof.
  intros (sq & nc & payload & rest & Ht & Hm & Hok & Hn & Hlen & -> & Hb & Hr & ->).
  exists payload, rest. rewrite ptr_app by now rewrite zlen_hdr. rewrite bytes_ok_app. auto 8.
Qed.

(** The call to [recvfrom] and the decryption. *)
Lemma wp_receive {A} m t sock buf s (k : Z -> bytes -> prog forge A) (K : A -> forge -> Prop) :
  msg_buf buf -> inv (state m t) s ->
  (forall r len buf' s', msg_buf buf' -> received_ok (brings r) len buf' -> inv (state (used [IoRecv sock r] m) t) s' -> wp (k len buf') K s') ->
  wp (let* r := on_world' (ask (fun e t => env_recvfrom e t TUND_MAX_PKT)) in
      on_socket (IoRecv sock r) ;;
      let* '(len, buf) := local (match r with
                                 | RecvData l _ => let? buf := mem_write buf 0 l in Some (zlen l, buf)
                                 | _ => Some (-1, buf)
                                 end) in
      let* '(len, buf) := local (proto_decrypt buf len (ps_key session)) in k len buf) K s.
Proof.
  intros Hbuf Hs HK. apply wp_bind.
  eapply (wp_forged _ _ _ _ _ _ (fun r => exists w t, world_ok w /\ W w /\ r = env_recvfrom (w_env w) t TUND_MAX_PKT));
    [|exact Hs|].
  { apply guar_atomic. intros s1 Hs1. eexists _, _. split; [reflexivity|]. cbn. destruct Hs1 as [Hw HJ].
    split; [|split].
    - split; [cbn; quiet|]. apply (forged_framed clk sel W m t _ s1 HJ). quiet.
    - apply world_quiet_step. cbn. quiet.
    - exists (fg_world s1), (w_tick (fg_world s1)). split; [done|]. split; [apply HJ|done]. }
  intros r s0 Hs0 (w & tk & Hw & HWw & Hr). apply wp_bind. eapply wp_on_socket; [exact Hs0|]. intros s1 Hs1.
  destruct Hbuf as [Hp Hz].
  assert (Hnone : forall b, bytes_ok b -> wp (local (proto_decrypt b (-1) (ps_key session)))
    (fun r s' => r = (-1, b) /\ s' = s1) s1).
  { intros b Hb. destruct (decrypt_exact (ps_key session) b (-1) Hb) as (r' & b' & Hd & HD);
      [pose proof (zlen_nonneg b); lia|].
    eapply wp_local; [exact Hd|]. destruct HD as [[-> ->]|(ty & sq & nc & pl & j & rest & _ & _ & _ & _ & _ & _ & -> & Hl & _)]; [done|].
    pose proof (zlen_nonneg pl). clia. }
  destruct r as [l a| |]; cbn [local bind]; [|apply wp_bind; eapply wp_mono; [apply Hnone, Hp|]; intros ? ? [-> ->];
    eapply HK; [done|left; lia|exact Hs1]..].
  destruct (ok_recv _ (proj1 Hw) tk TUND_MAX_PKT l a ltac:(clia) (eq_sym Hr)) as (Hll & Hlb & Ha).
  rewrite mem_write_some by (pose proof (zlen_nonneg l); lia). change (take (Z.to_nat 0) buf) with (@nil Z).
  cbn [local bind app]. set (tail := drop _ _).
  assert (Hb1 : bytes_ok (l ++ tail) /\ length (l ++ tail) = length buf).
  { unfold tail. rewrite bytes_ok_app, length_app, length_drop.
    split; [split; [done|apply bytes_ok_drop, Hp]|unfold zlen in *; lia]. }
  destruct Hb1 as [Hb1 Hl1].
  destruct (decrypt_exact (ps_key session) (l ++ tail) (zlen l) Hb1 ltac:(unfold zlen in *; lia)) as (r & buf' & Hd & HD).
  apply wp_bind. eapply wp_local; [exact Hd|]. destruct (decrypted_received _ _ _ _ _ a Hb1 HD Ha) as (Hl2 & Hb2 & _).
  eapply HK; [|eapply received_ok_mono, (decrypted_locked _ _ _ _ _ HD)|exact Hs1].
  - apply (msg_buf_same buf); [done|congruence|done].
  - intros ty pl Hlk. split; [exact (locked_ok _ ok _ tk TUND_MAX_PKT l a ty pl (W_heard w HWw) (eq_sym Hr) Hlk)|now exists l, a].
Qed.

Lemma wp_recv_message m t sock buf timeout s (K : Z * bytes * Z * Z -> forge -> Prop) :
  0 <= sock < FD_SETSIZE -> msg_buf buf -> inv (state m t) s ->
  (forall len s', sel (mk_sel m) sock timeout <= 0 -> len <= 0 -> inv (state (selected m) t) s' -> K (len, buf, 0, 0) s') ->
  (forall r len buf' type plen s', 0 < sel (mk_sel m) sock timeout -> msg_buf buf' -> len <= 0 \/ arrived r len buf' type plen ->
     inv (state (used [IoRecv sock r] (selected m)) t) s' -> K (len, buf', type, plen) s') ->
  wp (recv_message sock session buf timeout) K s.
Proof.
  intros Hsock Hbuf Hs H0 H1. unfold recv_message. apply wp_bind. eapply wp_select; [done|exact Hs|]. intros s1 Hs1.
  destruct (Z.leb_spec (sel (mk_sel m) sock timeout) 0); [now apply wp_ret, H0|].
  eapply (wp_receive _ _ sock buf); [done|exact Hs1|]. intros r len buf' s3 Hb' HR Hs3.
  destruct (Z.ltb_spec len TUND_HDR_SIZE); [apply wp_ret; eapply H1; [done|done|left; lia|exact Hs3]|].
  destruct HR as [Hn|(ty & sq & nc & pl & rest & Ht & Hsq & Hnl & Hpm & -> & Hok & ->)]; [clia|].
  pose proof (zlen_nonneg pl). rewrite read_hdr_at by (done || clia). cbn [local bind].
  destruct (Z.ltb_spec (TUND_HDR_SIZE + zlen pl) (TUND_HDR_SIZE + zlen pl)); [lia|].
  apply wp_ret. eapply H1; [done|done| |exact Hs3]. right. exists sq, nc, pl, rest.
  destruct Hb' as [[Hb' _] _]. apply bytes_ok_app in Hb' as [_ [Hb1 Hb2]%bytes_ok_app]. auto 10.
Qed.

(** Keepalives of the server are answered with their own timestamp. *)
Lemma wp_answer m t sock payload rest s (K : unit -> forge -> Prop) :
  ok MSG_KEEPALIVE payload -> bytes_ok (payload ++ rest) -> bytes_ok payload -> inv (state m t) s ->
  (forall new s', Forall (sends_on sock) new -> inv (state (used new m) t) s' -> K tt s') ->
  wp (handle_server_keepalive sock session (payload ++ rest) (zlen payload)) K s.
Proof.
  intros Hok Hb Hp Hs HK. unfold handle_server_keepalive. apply wp_bind.
  eapply wp_forged; [apply alloc_pkt; apply _|exact Hs|]. intros buf s1 Hs1 Hbuf.
  pose proof (zlen_nonneg rest). pose proof (zlen_app payload rest).
  destruct (read_timestamp (payload ++ rest) (zlen payload) Hb ltac:(lia)) as [Hts _]. rewrite Hts. cbn [local bind].
  destruct (Z.ltb_spec (zlen payload) 8); [apply wp_ret; apply (HK []); [constructor|now destruct m]|].
  rewrite take_app_le by (unfold zlen in *; lia).
  apply wp_bind. eapply wp_forged; [|exact Hs1|].
  { unfold proto_build_keepalive_ack. apply safe_build_timestamp; [apply _|apply Hbuf|words; unfold MSG_KEEPALIVE_ACK; lia]. }
  intros [len buf1] s2 Hs2 Hbt.
  assert (H8 : length (take 8 payload) = 8%nat) by (rewrite length_take; unfold zlen in *; lia).
  rewrite <- H8 in Hbt at 1. rewrite be_split_combine in Hbt by now apply bytes_ok_take.
  apply wp_bind. eapply wp_send; [exact Hbt|exact Hbuf|words; unfold MSG_KEEPALIVE_ACK; lia|now apply says_ack|exact Hs2|].
  intros r buf2 new s3 _ Hnew _ Hs3. apply wp_ret. eauto.
Qed.

(** * Loops *)

(** The sockets of one client. *)
Definition on_sock (sock : Z) (io : forge_io) : Prop :=
  match io with IoSend sock' _ _ | IoRecv sock' _ => sock' = sock end.

Lemma moved_sends sock new m : Forall (sends_on sock) new -> moved (on_sock sock) m (used new m).
Proof. intros H. apply moved_used. eapply Forall_impl; [|exact H]. now intros io (pkt & sent & ->). Qed.

Lemma moved_received sock r m : moved (on_sock sock) m (used [IoRecv sock r] (selected m)).
Proof. split; [done|]. exists [IoRecv sock r]. split; [done|]. now constructor. Qed.

(** What one message does to the loops: an answer if it is a keepalive. *)
Lemma wp_answer_if m t sock r len buf type plen s (K : unit -> forge -> Prop) :
  arrived r len buf type plen -> inv (state m t) s ->
  (forall new s', Forall (sends_on sock) new -> inv (state (used new m) t) s' -> K tt s') ->
  wp (if type =? MSG_KEEPALIVE then handle_server_keepalive sock session (ptr buf TUND_HDR_SIZE) plen else Ret tt) K s.
Proof.
  intros Ha Hs HK. destruct (arrived_payload _ _ _ _ _ Ha) as (payload & rest & -> & -> & [Hok _] & _ & Hb & Hp).
  destruct (Z.eqb_spec type MSG_KEEPALIVE) as [->|]; [now apply (wp_answer m t)|].
  apply wp_ret. apply (HK []); [constructor|now destruct m].
Qed.

Lemma drain_step fuel c :
  peerforge_client_drain fuel c session =
  let* buf := alloc TUND_MAX_PKT in
  let* '(len, buf, type, payload_len) := recv_message (pc_sock c) session buf 0 in
  if len <=? 0 then Ret tt
  else
    (if type =? MSG_KEEPALIVE then handle_server_keepalive (pc_sock c) session (ptr buf TUND_HDR_SIZE) payload_len else Ret tt) ;;
    match fuel with
    | O => undef
    | S fuel => peerforge_client_drain fuel c session
    end.
Proof. now destruct fuel. Qed.

(** Once the socket is dry the loop of [peerforge_client_drain] ends; [j] more
    calls of [select] until then. *)
Lemma wp_drain_until c : 0 <= pc_sock c < FD_SETSIZE -> forall j fuel m t s (K : unit -> forge -> Prop),
  sel (mk_sel m + j)%nat (pc_sock c) 0 <= 0 -> (j <= fuel)%nat -> inv (state m t) s ->
  (forall m' s', moved (on_sock (pc_sock c)) m m' -> inv (state m' t) s' -> K tt s') ->
  wp (peerforge_client_drain fuel c session) K s.
Proof.
  intros Hsock. induction j as [|j IH]; intros fuel m t s K Hj Hf Hs HK; rewrite drain_step.
  all: apply wp_bind; eapply wp_forged; [apply alloc_pkt; apply _|exact Hs|]; intros buf s1 Hs1 Hbuf.
  all: apply wp_bind; eapply wp_recv_message; [done|exact Hbuf|exact Hs1|..].
  all: try (intros len s2 _ Hlen Hs2; destruct (Z.leb_spec len 0); [|lia]; apply wp_ret; eapply HK; [apply moved_selected|exact Hs2]).
  - rewrite Nat.add_0_r in Hj. intros; lia.
  - intros rr len buf' ty pl s2 _ _ Ha Hs2. destruct (Z.leb_spec len 0); [apply wp_ret; eapply HK; [apply moved_received|exact Hs2]|].
    destruct Ha as [|Ha]; [lia|]. apply wp_bind. eapply wp_answer_if; [exact Ha|exact Hs2|]. intros new s3 Hnew Hs3.
    destruct fuel as [|fuel]; [lia|]. eapply IH; [|lia|exact Hs3|].
    + cbn. now rewrite Nat.add_succ_r in Hj.
    + intros m' s4 Hm Hs4. apply (HK m'); [|done].
      transitivity (used new (used [IoRecv (pc_sock c) rr] (selected m))); [|done].
      transitivity (used [IoRecv (pc_sock c) rr] (selected m)); [apply moved_received|now apply moved_sends].
Qed.

Lemma wp_drain c fuel m t s (K : unit -> forge -> Prop) :
  0 <= pc_sock c < FD_SETSIZE -> (n <= fuel)%nat -> inv (state m t) s ->
  (forall m' s', moved (on_sock (pc_sock c)) m m' -> inv (state m' t) s' -> K tt s') ->
  wp (peerforge_client_drain fuel c session) K s.
Proof.
  intros Hsock Hf Hs HK. destruct (sel_dry _ _ _ Hwaits (mk_sel m) (pc_sock c)) as (j & Hj & Hdry).
  eapply (wp_drain_until c Hsock j); [exact Hdry|lia|exact Hs|exact HK].
Qed.

Lemma await_step {A} fuel deadline sock buf (accept : Z -> Z -> bytes -> option (option A)) :
  await fuel deadline sock session buf accept =
  let* now := peerforge_now_ms in
  if negb (now <? deadline) then Ret (None, buf)
  else
    let* now := peerforge_now_ms in
    let remaining := to_int (u64 (deadline - now)) in
    let* '(len, buf, type, payload_len) :=
      recv_message sock session buf (if 0 <? remaining then remaining else 1) in
    let* res :=
      if len <=? 0 then Ret None
      else if type =? MSG_KEEPALIVE then
        handle_server_keepalive sock session (ptr buf TUND_HDR_SIZE) payload_len ;; Ret None
      else local (accept type payload_len (ptr buf TUND_HDR_SIZE)) in
    match res with
    | Some a => Ret (Some a, buf)
    | None => match fuel with O => undef | S fuel => await fuel deadline sock session buf accept end
    end.
Proof. now destruct fuel. Qed.

Section await.
Context {A : Type} (accept : Z -> Z -> bytes -> option (option A)) (good : A -> Z -> bytes -> Prop) (sock : Z).
Hypothesis Hsock : 0 <= sock < FD_SETSIZE.
Hypothesis accept_good : forall type payload rest, bytes_ok payload -> bytes_ok rest ->
  exists r, accept type (zlen payload) (payload ++ rest) = Some r /\ forall a, r = Some a -> good a type payload.

(** From [m] to [m'] messages went by, and the last one was a good one. *)
Definition answered (m m' : marks) (a : A) : Prop :=
  exists r new type payload, mk_io m' = IoRecv sock r :: new ++ mk_io m /\ good a type payload /\ brings r type payload.

Lemma answered_after m m1 m' a : moved (on_sock sock) m m1 -> answered m1 m' a -> answered m m' a.
Proof.
  intros [_ (n1 & E1 & _)] (r & new & type & payload & E & H). exists r, (new ++ n1), type, payload.
  now rewrite E, E1, app_assoc.
Qed.

(** One message in the loop. *)
Lemma wp_await_one m t rr len buf type plen s (K : option A -> forge -> Prop) :
  len <= 0 \/ arrived rr len buf type plen -> inv (state m t) s ->
  (forall r new s', (forall a, r = Some a -> new = [] /\ exists type payload, good a type payload /\ brings rr type payload) ->
     Forall (sends_on sock) new -> inv (state (used new m) t) s' -> K r s') ->
  wp (if len <=? 0 then Ret None
      else if type =? MSG_KEEPALIVE then
        handle_server_keepalive sock session (ptr buf TUND_HDR_SIZE) plen ;; Ret None
      else local (accept type plen (ptr buf TUND_HDR_SIZE))) K s.
Proof.
  intros Ha Hs HK. destruct (Z.leb_spec len 0); [apply wp_ret, (HK _ []); [done|constructor|now destruct m]|].
  destruct Ha as [|Ha]; [lia|]. pose proof Ha as Ha'.
  destruct (arrived_payload _ _ _ _ _ Ha) as (payload & rest & Hptr & Hpl & Hok & Hty & Hb & Hp).
  pose proof (wp_answer_if m t sock rr len buf type plen s) as Hans.
  destruct (Z.eqb_spec type MSG_KEEPALIVE).
  - apply wp_bind. apply Hans; [done|done|]. intros new s' Hnew Hs'. apply wp_ret. now apply (HK _ new).
  - rewrite Hptr, Hpl. apply bytes_ok_app in Hb as [_ Hr]. destruct (accept_good type payload rest Hp Hr) as (r & Hacc & Hg).
    eapply wp_local; [exact Hacc|]. apply (HK r []); [|constructor|now destruct m]. intros a Hra. split; [done|]. eauto.
Qed.

(** Readings from number [last] on are past the deadline. *)
Lemma wp_await deadline last : (forall i, (last <= i)%nat -> deadline <= clk i) ->
  forall fuel m t buf s (K : option A * bytes -> forge -> Prop),
  (last <= mk_now m + fuel)%nat -> msg_buf buf -> inv (state m t) s ->
  (forall r buf' m' s', (forall a, r = Some a -> answered m m' a) -> moved (on_sock sock) m m' ->
     inv (state m' t) s' -> K (r, buf') s') ->
  wp (await fuel deadline sock session buf accept) K s.
Proof.
  intros Hlast. induction fuel as [|fuel IH]; intros m t buf s K Hf Hbuf Hs HK; rewrite await_step.
  all: apply wp_bind; eapply wp_read_clock; [apply Hwaits|exact Hs|]; intros s1 Hs1.
  all: destruct (Z.ltb_spec (clk (mk_now m)) deadline) as [Hd|]; cbn [negb]; [|apply wp_ret; eapply HK; [done|apply moved_clock|exact Hs1]].
  - specialize (Hlast (mk_now m) ltac:(lia)). lia.
  - apply wp_bind. eapply wp_read_clock; [apply Hwaits|exact Hs1|]. intros s2 Hs2.
    set (m2 := read_clock (read_clock m)) in *.
    assert (Hgo : forall rr new len buf' ty pl s3, msg_buf buf' -> len <= 0 \/ arrived rr len buf' ty pl ->
      new = [IoRecv sock rr] \/ (new = [] /\ len <= 0) -> inv (state (used new (selected m2)) t) s3 ->
      wp (let* res :=
            if len <=? 0 then Ret None
            else if ty =? MSG_KEEPALIVE then
              handle_server_keepalive sock session (ptr buf' TUND_HDR_SIZE) pl ;; Ret None
            else local (accept ty pl (ptr buf' TUND_HDR_SIZE)) in
          match res with
          | Some a => Ret (Some a, buf')
          | None => await fuel deadline sock session buf' accept
          end) K s3).
    { intros rr new len buf' ty pl s3 Hb' Ha Hnew Hs3. apply wp_bind.
      assert (Hm3 : moved (on_sock sock) m (used new (selected m2))).
      { split; [unfold m2; cbn; lia|]. exists new. split; [done|]. destruct Hnew as [->|[-> _]]; repeat constructor. }
      destruct (Z.leb_spec len 0) as [Hle|Hpos].
      { apply wp_ret. apply (IH (used new (selected m2)) t buf'); [unfold m2; cbn; lia|exact Hb'|exact Hs3|].
        intros r buf'' m' s5 Hr' Hm' Hs5. eapply HK; [|etransitivity; [exact Hm3|exact Hm']|done].
        intros a Ha'. exact (answered_after _ _ _ _ Hm3 (Hr' a Ha')). }
      destruct Hnew as [->|[_ ?]]; [|lia].
      pose proof (wp_await_one (used [IoRecv sock rr] (selected m2)) t rr len buf' ty pl s3) as Hone.
      destruct (Z.leb_spec len 0) in Hone; [lia|]. apply Hone; [exact Ha|exact Hs3|]. clear Hone.
      intros r new s4 Hr Hnew Hs4. assert (Hm4 : moved (on_sock sock) m (used new (used [IoRecv sock rr] (selected m2)))).
      { etransitivity; [exact Hm3|]. now apply moved_sends. }
      destruct r as [a|].
      - apply wp_ret. destruct (Hr a eq_refl) as (-> & ty' & pl' & Hgood & Hbr).
        eapply HK; [|exact Hm4|exact Hs4]. intros ? [= <-]. exists rr, [], ty', pl'. done.
      - apply (IH (used new (used [IoRecv sock rr] (selected m2))) t buf'); [unfold m2; cbn; lia|exact Hb'|exact Hs4|]. intros r' buf'' m' s5 Hr' Hm' Hs5.
        eapply HK; [|etransitivity; [exact Hm4|exact Hm']|done]. intros a Ha'. exact (answered_after _ _ _ _ Hm4 (Hr' a Ha')). }
    apply wp_bind. eapply wp_recv_message; [done|exact Hbuf|exact Hs2|..].
    + intros len s3 _ Hlen Hs3. eapply (Hgo RecvAgain []); [exact Hbuf|now left|now right|exact Hs3].
    + intros rr len buf' ty pl s3 _ Hb' Ha Hs3. eapply (Hgo rr); [exact Hb'|exact Ha|now left|exact Hs3].
Qed.

(** The deadline is reached: [n] readings of the clock are enough. *)
Lemma wp_await_reply fuel m t buf s (K : option A * bytes -> forge -> Prop) :
  (n <= fuel)%nat -> msg_buf buf -> inv (state m t) s ->
  (forall r buf' m' s', (forall a, r = Some a -> answered m m' a) -> moved (on_sock sock) m m' ->
     inv (state m' t) s' -> K (r, buf') s') ->
  wp (await_reply fuel sock session buf accept) K s.
Proof.
  intros Hf Hbuf Hs HK. unfold await_reply. apply wp_bind. eapply wp_read_clock; [apply Hwaits|exact Hs|]. intros s1 Hs1.
  apply (wp_await _ (mk_now m + n)) with (m := read_clock m) (t := t); [|cbn; lia|exact Hbuf|exact Hs1|].
  - intros i Hi. pose proof (clk_later _ _ _ _ _ Hwaits Hi). pose proof (clk_later _ _ _ (mk_now m) i Hwaits ltac:(lia)).
    pose proof (clk_advances _ _ _ Hwaits (mk_now m)). pose proof (clk_range _ _ _ Hwaits (mk_now m)). words.
    rewrite (Z.mod_small (ps_timeout_ms session)) by lia.
    destruct (Z.lt_ge_cases (clk (mk_now m) + ps_timeout_ms session) (2 ^ 64)); [rewrite Z.mod_small by lia; lia|].
    rewrite (Z.mod_eq _ (2 ^ 64)) by lia.
    replace ((clk (mk_now m) + ps_timeout_ms session) / 2 ^ 64) with 1; [lia|].
    apply Z.div_unique with (clk (mk_now m) + ps_timeout_ms session - 2 ^ 64); lia.
  - intros r buf' m' s2 Hr Hm Hs2. eapply HK; [exact Hr| |exact Hs2]. etransitivity; [apply moved_clock|exact Hm].
Qed.

(** A message that was sent and its answer are an exchange. *)
Lemma answered_exchange out type payload m new m' a io :
  new = [io] -> said (ps_key session) out type payload io -> answered (used new m) m' a ->
  did [exchange (ps_key session) out type payload sock (good a)] m m'.
Proof.
  intros -> Hsaid (r & mid & ty & pl & E & Hgood & Hbr). exists (IoRecv sock r :: mid ++ [io]). split.
  - rewrite E. cbn. now rewrite <- app_assoc.
  - exists [], (IoRecv sock r :: mid ++ [io]), []. rewrite app_nil_r. split; [done|]. split; [|done].
    exists (IoRecv sock r), mid, io, ty, pl. split; [done|]. split; [done|]. split; [done|]. now apply brings_told.
Qed.
End await.

(** * What the loops wait for *)

(** An assignment of this address. *)
Definition assigns (ip : Z) (type : Z) (payload : bytes) : Prop :=
  type = MSG_ASSIGN /\ 10 <= zlen payload /\ ip = le_combine (take 4 payload).

(** An address that the server assigned. *)
Definition assigned_ip (ip : Z) : Prop :=
  exists payload, ok MSG_ASSIGN payload /\ 10 <= zlen payload /\ ip = le_combine (take 4 payload).

Lemma accept_assign_good type payload rest :
  exists r, accept_assign type (zlen payload) (payload ++ rest) = Some r /\ forall ip, r = Some ip -> assigns ip type payload.
Proof.
  unfold accept_assign. destruct (Z.eqb_spec type MSG_ASSIGN) as [->|]; [|now exists None].
  destruct (Z.leb_spec 10 (zlen payload)); [|now exists None]. cbn [andb].
  pose proof (zlen_nonneg rest). pose proof (zlen_app payload rest).
  rewrite mem_read_some by lia. eexists. split; [reflexivity|]. intros ip [= <-]. split; [done|].
  split; [done|]. change (Z.to_nat 0) with 0%nat. rewrite drop_0. change (Z.to_nat 4) with 4%nat.
  rewrite take_app_le by (unfold zlen in *; lia). done.
Qed.

(** An echo of this timestamp. *)
Definition echoes (ts : Z) (type : Z) (payload : bytes) : Prop :=
  type = MSG_KEEPALIVE_ACK /\ 8 <= zlen payload /\ ts = be_combine (take 8 payload).

Lemma accept_echo_good ts type payload rest :
  bytes_ok payload -> bytes_ok rest ->
  exists r, accept_echo ts type (zlen payload) (payload ++ rest) = Some r /\ forall a, r = Some a -> echoes ts type payload.
Proof.
  intros Hp Hr. unfold accept_echo. destruct (Z.eqb_spec type MSG_KEEPALIVE_ACK) as [->|]; [|now exists None].
  pose proof (zlen_nonneg rest). pose proof (zlen_app payload rest).
  destruct (read_timestamp (payload ++ rest) (zlen payload) ltac:(now apply bytes_ok_app) ltac:(lia)) as [-> _].
  destruct (Z.ltb_spec (zlen payload) 8); [now exists None|]. eexists. split; [reflexivity|]. intros a.
  rewrite take_app_le by (unfold zlen in *; lia). destruct (Z.eqb_spec (be_combine (take 8 payload)) ts) as [<-|]; [|done].
  intros _. now split.
Qed.

(** A packet between these addresses. *)
Definition relays (src dst : Z) (type : Z) (payload : bytes) : Prop :=
  type = MSG_DATA /\ 20 <= zlen payload /\
    le_combine (take 4 (drop 12 payload)) = src /\ le_combine (take 4 (drop 16 payload)) = dst.

Lemma field_app (payload rest : bytes) i :
  (i + 4 <= length payload)%nat -> take 4 (drop i (payload ++ rest)) = take 4 (drop i payload).
Proof. intros H. rewrite drop_app_le by lia. apply take_app_le. rewrite length_drop. lia. Qed.

Lemma accept_probe_good src dst type payload rest :
  exists r, accept_probe src dst type (zlen payload) (payload ++ rest) = Some r /\ forall a, r = Some a -> relays src dst type payload.
Proof.
  unfold accept_probe. destruct (Z.eqb_spec type MSG_DATA) as [->|]; [|now exists None].
  destruct (Z.leb_spec 20 (zlen payload)); [|now exists None]. cbn [andb].
  pose proof (zlen_nonneg rest). pose proof (zlen_app payload rest).
  destruct (get_src_spec (payload ++ rest) (zlen payload)) as (x & -> & Hx); [lia|].
  rewrite field_app in Hx by (unfold zlen in *; lia). destruct (Z.eqb_spec x src) as [->|]; [|now exists None].
  destruct (get_dst_spec (payload ++ rest) (zlen payload)) as (y & -> & Hy); [lia|].
  rewrite field_app in Hy by (unfold zlen in *; lia). eexists. split; [reflexivity|].
  destruct (Z.eqb_spec y dst) as [->|]; [|done]. intros a _. now split.
Qed.

(** The probe as bytes. *)
Definition probe_bytes (src dst : Z) : bytes :=
  [0x45; 0; 0; 20; 0; 0; 0; 0; 64; 253; 0; 0] ++ le_split 4 src ++ le_split 4 dst.

(** Client [i] registered and was assigned its address, over its socket. *)
Definition register_step (i : Z) (c : peerforge_client_t) : list forge_io -> Prop :=
  exchange (ps_key session) (pc_sock c) MSG_REGISTER (forge_name i) (pc_sock c) (assigns (pc_virt_ip c)).

(** A keepalive of the client was echoed, over its socket. *)
Definition echo_step (c : peerforge_client_t) (log : list forge_io) : Prop :=
  exists ts, is_u64 ts /\ exchange (ps_key session) (pc_sock c) MSG_KEEPALIVE (be_split 8 ts) (pc_sock c) (echoes ts) log.

(** A probe went out over the socket of the one and came in over that of the
    other. *)
Definition probe_step (src dst : peerforge_client_t) : list forge_io -> Prop :=
  exchange (ps_key session) (pc_sock src) MSG_DATA (probe_bytes (pc_virt_ip src) (pc_virt_ip dst)) (pc_sock dst)
    (relays (pc_virt_ip src) (pc_virt_ip dst)).

(** The clients from number [i] on register. *)
Fixpoint register_steps (i : Z) (clients : list peerforge_client_t) : list (list forge_io -> Prop) :=
  match clients with [] => [] | c :: clients => register_step i c :: register_steps (i + 1) clients end.

(** Probe [i]: from client [i] to the next one, round and round. *)
Definition probe_at (active : list peerforge_client_t) (i : nat) (log : list forge_io) : Prop :=
  exists src dst, active !! Z.to_nat (Z.of_nat i mod zlen active) = Some src /\
    active !! Z.to_nat ((Z.of_nat i + 1) mod zlen active) = Some dst /\ probe_step src dst log.

Lemma did_weaken (P Q : list forge_io -> Prop) m m' : (forall log, P log -> Q log) -> did [P] m m' -> did [Q] m m'.
Proof.
  intros H (new & E & later & part & before & -> & HP & _). exists (later ++ part ++ before). split; [done|].
  exists later, part, before. split; [done|]. split; [auto|done].
Qed.

(** * Operations *)

Lemma forge_name_ok i : 0 <= i < 1000 -> bytes_ok (forge_name i) /\ Forall (fun b => b <> 0) (forge_name i) /\
  (length (forge_name i) <= 13)%nat.
Proof.
  intros Hi. unfold forge_name, dec. pose proof (dec_digits 20 (i + 1) ltac:(lia)) as Hd.
  pose proof (dec_fuel_length 3 20 (i + 1) ltac:(lia)) as Hl.
  assert (Hdig : Forall (fun b => 48 <= b <= 57) (dec_fuel 20 (i + 1))).
  { eapply Forall_impl; [|exact Hd]. intros b Hb. cbn in Hb. unfold is_digit in Hb. bools. lia. }
  assert (Hall : Forall (fun b => 0 < b < 256) (str "forge-" ++ replicate (3 - length (dec_fuel 20 (i + 1))) 48 ++ dec_fuel 20 (i + 1))).
  { apply Forall_app. split; [repeat constructor; cbn; lia|]. apply Forall_app. split; [apply Forall_replicate; lia|].
    eapply Forall_impl; [|exact Hdig]. cbn. lia. }
  split; [|split].
  - eapply Forall_impl; [|exact Hall]. intros b Hb. words. cbn in Hb. lia.
  - eapply Forall_impl; [|exact Hall]. intros b Hb. cbn in Hb. lia.
  - rewrite !length_app, length_replicate. change (length (str "forge-")) with 6%nat. lia.
Qed.

Context (limit : Z) (Hlimit : limit <= 1000).
Hypothesis says_register : forall i, 0 <= i < limit -> says MSG_REGISTER (forge_name i).
Hypothesis says_keepalive : forall ts, is_u64 ts -> says MSG_KEEPALIVE (be_split 8 ts).

(** A client takes over an address that the server assigned, or it is as
    before. *)
Lemma wp_register fuel c i m t s (K : Z * peerforge_client_t -> forge -> Prop) :
  (n <= fuel)%nat -> 0 <= i < limit -> 0 <= pc_sock c < FD_SETSIZE -> inv (state m t) s ->
  (forall m' s', moved (on_sock (pc_sock c)) m m' -> inv (state m' t) s' -> K (-1, c) s') ->
  (forall ip m' s', assigned_ip ip -> did [register_step i (ForgeClient (pc_sock c) ip true)] m m' ->
     moved (on_sock (pc_sock c)) m m' -> inv (state m' t) s' -> K (0, ForgeClient (pc_sock c) ip true) s') ->
  wp (peerforge_register_client fuel c i session) K s.
Proof.
  intros Hf Hi Hsock Hs H1 H0. unfold peerforge_register_client. destruct (forge_name_ok i ltac:(lia)) as (Hb & Hnz & Hlen).
  apply wp_bind. eapply wp_forged; [apply alloc_pkt; apply _|exact Hs|]. intros buf s1 Hs1 Hbuf.
  rewrite take_ge by lia.
  apply wp_bind. eapply wp_forged; [|exact Hs1|].
  { apply (safe_build_register _ _ _ (forge_name i)); [apply Hbuf|done|now apply c_str_app|unfold zlen; lia]. }
  intros [len buf1] s2 Hs2 Hbt. rewrite take_ge in Hbt by lia.
  apply wp_bind. eapply wp_send; [exact Hbt|exact Hbuf|words; unfold MSG_REGISTER; lia|now apply says_register|exact Hs2|].
  intros r buf2 new s3 Hbuf2 Hnew Hsaid Hs3.
  destruct (Z.ltb_spec r 0) as [_|Hpos]; [apply wp_ret; eapply H1; [exact (moved_sends _ _ _ Hnew)|exact Hs3]|].
  apply wp_bind. eapply (wp_await_reply _ assigns); [done|intros; now apply accept_assign_good|done|exact Hbuf2|exact Hs3|].
  intros res buf3 m' s4 Hres Hm Hs4. apply wp_ret.
  assert (Hm' : moved (on_sock (pc_sock c)) m m') by (etransitivity; [exact (moved_sends _ _ _ Hnew)|exact Hm]).
  destruct res as [ip|]; [|eapply H1; eauto]. destruct (Hsaid Hpos) as (io & Hio & Hsay). pose proof (Hres ip eq_refl) as Hans.
  eapply H0; [|exact (answered_exchange _ _ _ _ _ _ _ _ _ _ Hio Hsay Hans)|exact Hm'|exact Hs4].
  destruct Hans as (? & ? & ty & payload & _ & (-> & Hl & ->) & Hok & _). now exists payload.
Qed.

(** What is true of a client between the operations: without a socket it has no
    address, and an address comes from the server. *)
Definition client_ok (c : peerforge_client_t) : Prop :=
  (pc_sock c = PEERFORGE_INVALID_SOCKET /\ pc_assigned c = false) \/
  (0 <= pc_sock c < FD_SETSIZE /\ (pc_assigned c = true -> assigned_ip (pc_virt_ip c))).

Lemma client_ok_assigned c : client_ok c -> pc_assigned c = true -> 0 <= pc_sock c < FD_SETSIZE /\ assigned_ip (pc_virt_ip c).
Proof. intros [[_ H]|[H1 H2]] Ha; [congruence|auto]. Qed.

Lemma client_ok_sock c : client_ok c -> pc_sock c <> PEERFORGE_INVALID_SOCKET -> 0 <= pc_sock c < FD_SETSIZE.
Proof. intros [[Hn _]|[Hs _]] H; done. Qed.

(** How many clients have an address. *)
Definition enrolled (clients : list peerforge_client_t) : Z := zlen (List.filter pc_assigned clients).

Lemma enrolled_app l l' : enrolled (l ++ l') = enrolled l + enrolled l'.
Proof. unfold enrolled. now rewrite List.filter_app, zlen_app. Qed.

Lemma enrolled_cons c l : enrolled (c :: l) = (if pc_assigned c then 1 else 0) + enrolled l.
Proof. unfold enrolled. cbn. destruct (pc_assigned c); [|done]. unfold zlen. cbn [length]. lia. Qed.

(** A use of the sockets of these clients. *)
Definition used_by (clients : list peerforge_client_t) (io : forge_io) : Prop :=
  exists c, In c clients /\ on_sock (pc_sock c) io.

Lemma moved_by c clients m m' : In c clients -> moved (on_sock (pc_sock c)) m m' -> moved (used_by clients) m m'.
Proof. intros Hc H. eapply moved_weaken; [exact H|]. intros io Hio. now exists c. Qed.

Lemma moved_incl l l' m m' : incl l l' -> moved (used_by l) m m' -> moved (used_by l') m m'.
Proof. intros Hl H. eapply moved_weaken; [exact H|]. intros io (c & Hc & Hio). exists c. auto. Qed.

Lemma wp_round fuel all : (n <= fuel)%nat -> forall clients ok0 m t s (K : Z -> forge -> Prop),
  Forall client_ok clients -> incl clients all -> inv (state m t) s ->
  (forall r m' s', ok0 <= r <= ok0 + enrolled clients ->
     (r = ok0 + enrolled clients -> did (map echo_step (List.filter pc_assigned clients)) m m') ->
     moved (used_by all) m m' -> inv (state m' t) s' -> K r s') ->
  wp (peerforge_keepalive_round fuel clients session ok0) K s.
Proof.
  intros Hf. induction clients as [|c clients IH]; intros ok0 m t s K Hc Hin Hs HK; cbn [peerforge_keepalive_round].
  { apply wp_ret, (HK _ m); [change (enrolled []) with 0; lia|now exists []|reflexivity|done]. }
  apply Forall_cons_iff in Hc as [Hc Hcs]. apply incl_cons_inv in Hin as [Hin Hins]. rewrite enrolled_cons in HK. cbn [List.filter] in HK.
  destruct (pc_assigned c) eqn:Ea; cbn [negb]; [|now apply (IH ok0 m t)].
  destruct (client_ok_assigned c Hc Ea) as [Hsock _].
  apply wp_bind. eapply wp_forged; [apply alloc_pkt; apply _|exact Hs|]. intros buf s1 Hs1 Hbuf.
  apply wp_bind. eapply wp_read_clock; [apply Hwaits|exact Hs1|]. intros s2 Hs2.
  apply wp_bind. eapply wp_forged; [|exact Hs2|].
  { apply safe_build_timestamp; [apply _|apply Hbuf|words; unfold MSG_KEEPALIVE; lia]. }
  intros [len buf1] s3 Hs3 Hbt.
  apply wp_bind. eapply wp_send; [exact Hbt|exact Hbuf|words; unfold MSG_KEEPALIVE; lia|apply says_keepalive, Hwaits|exact Hs3|].
  intros r buf2 new s4 Hbuf2 Hnew Hsaid Hs4.
  assert (Hm1 : moved (used_by all) m (used new (read_clock m))).
  { transitivity (read_clock m); [apply moved_clock|]. now apply (moved_by c), moved_sends. }
  destruct (Z.ltb_spec r 0) as [_|Hpos].
  - eapply IH; [done|done|exact Hs4|]. intros r' m' s5 Hr _ Hm Hs5. apply (HK r' m'); [lia|lia| |done].
    now transitivity (used new (read_clock m)).
  - apply wp_bind. eapply (wp_await_reply _ (fun _ => echoes (clk (mk_now m)))); [done|intros; now apply accept_echo_good|done|exact Hbuf2|exact Hs4|].
    intros res buf3 m2 s5 Hres Hm2 Hs5. eapply IH; [done|done|exact Hs5|].
    intros r' m' s6 Hr Hecho Hm Hs6. apply (HK r' m'); [destruct res; lia| |etransitivity; [exact Hm1|]|done].
    + intros Hall. destruct res as [u|]; [|lia]. destruct (Hsaid Hpos) as (io & Hio & Hsay).
      cbn [map]. apply (did_trans [echo_step c] _ _ m2); [|apply Hecho; lia].
      apply (did_after (used_by all) _ _ (read_clock m)); [apply moved_clock|].
      eapply did_weaken; [|exact (answered_exchange _ _ _ _ _ _ _ _ _ _ Hio Hsay (Hres u eq_refl))].
      intros log Hlog. exists (clk (mk_now m)). split; [apply Hwaits|exact Hlog].
    + transitivity m2; [now apply (moved_by c)|done].
Qed.

Lemma build_probe pkt src dst : length pkt = 20%nat -> build_ipv4_probe pkt src dst = Some (probe_bytes src dst).
Proof. intros H. do 21 (destruct pkt as [|? pkt]; try discriminate H). reflexivity. Qed.

Lemma probe_bytes_ok src dst : bytes_ok (probe_bytes src dst).
Proof.
  unfold probe_bytes. rewrite !bytes_ok_app. split; [repeat constructor; words; lia|]. split; apply le_split_ok.
Qed.

Lemma zlen_probe src dst : zlen (probe_bytes src dst) = 20.
Proof. reflexivity. Qed.

Hypothesis says_probe : forall src dst, assigned_ip src -> assigned_ip dst -> says MSG_DATA (probe_bytes src dst).

Lemma wp_probes fuel active : (n <= fuel)%nat -> active <> [] -> Forall client_ok active ->
  Forall (fun c => pc_assigned c = true) active -> forall k i ok0 m t s (K : Z -> forge -> Prop),
  inv (state m t) s ->
  (forall r m' s', ok0 <= r <= ok0 + Z.of_nat k -> (r = ok0 + Z.of_nat k -> did (map (probe_at active) (seq i k)) m m') ->
     moved (used_by active) m m' -> inv (state m' t) s' -> K r s') ->
  wp (probe_loop fuel k (Z.of_nat i) active session ok0) K s.
Proof.
  intros Hf Hne Hok Has. induction k as [|k IH]; intros i ok0 m t s K Hs HK; cbn [probe_loop].
  { apply wp_ret, (HK _ m); [lia|now exists []|reflexivity|done]. }
  assert (Hlook : forall j, 0 <= j -> exists c, active !! Z.to_nat (j mod zlen active) = Some c /\ In c active /\
    0 <= pc_sock c < FD_SETSIZE /\ assigned_ip (pc_virt_ip c)).
  { intros j Hj. assert (0 < zlen active) by (destruct active; [done|unfold zlen; cbn; lia]).
    pose proof (Z.mod_pos_bound j (zlen active) ltac:(lia)).
    destruct (lookup_lt_is_Some_2 active (Z.to_nat (j mod zlen active))) as [c Hc]; [unfold zlen in *; lia|].
    exists c. split; [done|]. split; [eapply list_elem_of_In, list_elem_of_lookup_2, Hc|].
    apply client_ok_assigned; [exact (proj1 (Forall_lookup _ _) Hok _ _ Hc)|exact (proj1 (Forall_lookup _ _) Has _ _ Hc)]. }
  destruct (Hlook (Z.of_nat i) ltac:(lia)) as (src & Esrc & Hsin & Hss & Hsip).
  destruct (Hlook (Z.of_nat i + 1) ltac:(lia)) as (dst & Edst & Hdin & Hds & Hdip).
  rewrite Esrc, Edst. cbn [local bind]. clear Hlook. replace (Z.of_nat i + 1) with (Z.of_nat (S i)) by lia.
  apply wp_bind. eapply wp_forged; [now apply safe_alloc; [apply _|]|exact Hs|]. intros pkt s1 Hs1 [Hpl _].
  apply wp_bind. eapply wp_forged; [apply alloc_pkt; apply _|exact Hs1|]. intros buf s2 Hs2 Hbuf.
  rewrite build_probe by (unfold zlen in Hpl; lia). cbn [local bind].
  apply wp_bind. eapply wp_forged; [|exact Hs2|].
  { apply safe_build_data; [apply _|apply Hbuf|apply probe_bytes_ok|rewrite zlen_probe; lia|words; lia]. }
  intros [len buf1] s3 Hs3 Hbt. rewrite take_ge in Hbt by done.
  apply wp_bind. eapply wp_send; [exact Hbt|exact Hbuf|words; unfold MSG_DATA; lia|now apply says_probe|exact Hs3|].
  intros r buf2 new s4 Hbuf2 Hnew Hsaid Hs4.
  assert (Hm1 : moved (used_by active) m (used new m)) by now apply (moved_by src), moved_sends.
  destruct (Z.ltb_spec r 0) as [_|Hpos].
  - apply (IH (S i) ok0 (used new m) t); [exact Hs4|]. intros r' m' s5 Hr _ Hm Hs5. apply (HK r' m'); [lia|lia| |done].
    now transitivity (used new m).
  - apply wp_bind. eapply (wp_await_reply _ (fun _ => relays (pc_virt_ip src) (pc_virt_ip dst)));
      [exact Hds|intros; now apply accept_probe_good|done|exact Hbuf2|exact Hs4|].
    intros res buf3 m2 s5 Hres Hm2 Hs5. apply (IH (S i) _ m2 t); [exact Hs5|].
    intros r' m' s6 Hr Hrel Hm Hs6. apply (HK r' m'); [destruct res; lia| |etransitivity; [exact Hm1|]|done].
    + intros Hall. destruct res as [u|]; [|lia]. destruct (Hsaid Hpos) as (io & Hio & Hsay).
      cbn [seq map]. apply (did_trans [probe_at active i] _ _ m2); [|apply Hrel; lia].
      eapply did_weaken; [|exact (answered_exchange _ _ _ _ _ _ _ _ _ _ Hio Hsay (Hres u eq_refl))].
      intros log Hlog. now exists src, dst.
    + transitivity m2; [now apply (moved_by dst)|done].
Qed.

(** * The whole run *)

Hypothesis W_devices : forall e, device_event e = true -> Allows W e.
Hypothesis W_few : forall w, W w -> forall t, env_sys (w_env w) t < FD_SETSIZE.

#[local] Instance state_accounts m : Accounts (state m) (fun e => device_event e = true).
Proof. apply forged_accounts; [apply _|exact W_devices]. Qed.

Lemma wp_open m t s (K : Z -> forge -> Prop) :
  inv (state m t) s -> (forall s', inv (state m t) s' -> K (-1) s') ->
  (forall fd s', 0 <= fd < FD_SETSIZE -> inv (state m (EvOpen fd :: t)) s' -> K fd s') -> wp peerforge_socket_open K s.
Proof.
  intros Hs H1 H2. assert (Hfew : forall tk, env_sys (w_env (fg_world s)) tk < FD_SETSIZE) by apply (W_few _ (proj1 (proj1 (proj2 Hs)))).
  unfold peerforge_socket_open. destruct (wp_sys_open (state m) (fun e => device_event e = true) ltac:(done) t s
    (fun fd s' => fd = -1 /\ inv (state m t) s' \/ 0 <= fd /\ inv (state m (EvOpen fd :: t)) s')) as (fd & s' & Hr & HR); [exact Hs|auto|auto|].
  exists fd, s'. split; [exact Hr|]. injection Hr as Hfd _. cbn in Hfd.
  destruct HR as [[-> Hs']|[H0 Hs']]; [auto|]. apply H2; [|done]. split; [done|]. rewrite <- Hfd. apply Hfew.
Qed.

(** The sockets that these clients could open. *)
Definition sockets (clients : list peerforge_client_t) : list Z :=
  List.filter (fun fd => negb (fd =? PEERFORGE_INVALID_SOCKET)) (map pc_sock clients).

Lemma wp_close_all clients : forall m t s (K : unit -> forge -> Prop), inv (state m t) s ->
  (forall s', inv (state m (rev (map EvClose (sockets clients)) ++ t)) s' -> K tt s') -> wp (close_clients clients) K s.
Proof.
  induction clients as [|c clients IH]; intros m t s K Hs HK; cbn [close_clients]; [now apply wp_ret, HK|].
  unfold peerforge_client_close, peerforge_socket_close. apply wp_bind, wp_bind.
  unfold sockets in HK. cbn [map List.filter] in HK. fold (sockets clients) in HK.
  destruct (Z.eqb_spec (pc_sock c) PEERFORGE_INVALID_SOCKET) as [Hi|Hi]; cbn [negb] in HK.
  - apply wp_ret, wp_ret. now apply (IH m t).
  - eapply (wp_sys_close (state m) (fun e => device_event e = true)); [done|exact Hs|]. intros s1 Hs1.
    apply wp_ret. eapply IH; [exact Hs1|]. intros s' Hs'. apply HK. cbn [map rev]. now rewrite <- app_assoc.
Qed.

(** How often [fd] is in the list. *)
Definition times (fd : Z) (l : list Z) : Z := zlen (List.filter (Z.eqb fd) l).

Lemma times_cons fd x l : times fd (x :: l) = (if fd =? x then 1 else 0) + times fd l.
Proof. unfold times. cbn [List.filter]. destruct (fd =? x); [unfold zlen; cbn [length]|]; lia. Qed.

Lemma balance_opened fd l t : balance fd (rev (map EvOpen l) ++ t) = balance fd t + times fd l.
Proof.
  revert t. induction l as [|x l IH]; intros t; [change (times fd []) with 0; cbn [map rev app]; lia|]. cbn [map rev]. rewrite <- app_assoc, IH, times_cons. cbn [app balance].
  rewrite (Z.eqb_sym x fd). lia.
Qed.

Lemma balance_closed fd l t : balance fd (rev (map EvClose l) ++ t) = balance fd t - times fd l.
Proof.
  revert t. induction l as [|x l IH]; intros t; [change (times fd []) with 0; cbn [map rev app]; lia|]. cbn [map rev]. rewrite <- app_assoc, IH, times_cons. cbn [app balance].
  rewrite (Z.eqb_sym x fd). lia.
Qed.

Lemma opened_closed l t : same_open (rev (map EvClose l) ++ rev (map EvOpen l) ++ t) t.
Proof. intros fd. rewrite balance_closed, balance_opened. lia. Qed.

Lemma wp_drain_all fuel all : (n <= fuel)%nat -> forall clients m t s (K : unit -> forge -> Prop),
  Forall client_ok clients -> incl clients all -> inv (state m t) s ->
  (forall m' s', moved (used_by all) m m' -> inv (state m' t) s' -> K tt s') ->
  wp (drain_clients fuel clients session) K s.
Proof.
  intros Hf. induction clients as [|c clients IH]; intros m t s K Hc Hin Hs HK; cbn [drain_clients].
  { apply wp_ret, (HK m); [reflexivity|done]. }
  apply Forall_cons_iff in Hc as [Hc Hcs]. apply incl_cons_inv in Hin as [Hin Hins]. apply wp_bind.
  destruct (Z.eqb_spec (pc_sock c) PEERFORGE_INVALID_SOCKET) as [|Hi]; cbn [negb].
  - apply wp_ret. now apply (IH m t).
  - eapply wp_drain; [now apply client_ok_sock|done|exact Hs|]. intros m1 s1 Hm1 Hs1.
    eapply IH; [done|done|exact Hs1|]. intros m' s' Hm' Hs'. apply (HK m'); [|done].
    transitivity m1; [now apply (moved_by c)|done].
Qed.

(** One client: opened, registered if it could be opened. *)
Lemma wp_enroll {A} fuel i m t s (k : Z -> peerforge_client_t -> prog forge A) (K : A -> forge -> Prop) :
  (n <= fuel)%nat -> 0 <= i < limit -> inv (state m t) s ->
  (forall r c m' s', client_ok c -> r = (if pc_assigned c then 0 else -1) ->
     (pc_assigned c = true -> did [register_step i c] m m') -> moved (on_sock (pc_sock c)) m m' ->
     inv (state m' (rev (map EvOpen (sockets [c])) ++ t)) s' -> wp (k r c) K s') ->
  wp (let* '(r, c) := peerforge_client_open peerforge_client_init in
      let* '(r, c) := if r =? 0 then peerforge_register_client fuel c i session else Ret (-1, c) in k r c) K s.
Proof.
  intros Hf Hi Hs HK. unfold peerforge_client_open. apply wp_bind, wp_bind. eapply wp_open; [exact Hs|..].
  - intros s1 Hs1. apply wp_ret. cbn [Z.eqb]. apply wp_bind, wp_ret, (HK _ _ m); [now left|done|done|reflexivity|done].
  - intros fd s1 Hfd Hs1. apply wp_ret. unfold PEERFORGE_INVALID_SOCKET. destruct (Z.eqb_spec fd (-1)); [lia|]. cbn [Z.eqb pc_virt_ip pc_assigned peerforge_client_init].
    assert (Hb : forall c, pc_sock c = fd -> rev (map EvOpen (sockets [c])) ++ t = EvOpen fd :: t).
    { intros c E. unfold sockets, PEERFORGE_INVALID_SOCKET. cbn [map List.filter]. rewrite E. destruct (Z.eqb_spec fd (-1)); [lia|done]. }
    apply wp_bind. eapply wp_register; [done|done|exact Hfd|exact Hs1|..].
    + intros m' s' Hm Hs'. eapply HK; [right; split; [exact Hfd|done]|done|done|exact Hm|now rewrite Hb].
    + intros ip m' s' Hip Hdid Hm Hs'. eapply HK; [right; split; [exact Hfd|done]|done|intros _; exact Hdid|exact Hm|now rewrite Hb].
Qed.

Lemma sockets_app l l' : sockets (l ++ l') = sockets l ++ sockets l'.
Proof. unfold sockets. now rewrite map_app, List.filter_app. Qed.

Lemma wp_register_all fuel : (n <= fuel)%nat -> forall k done m t s i registered (K : list peerforge_client_t * Z -> forge -> Prop),
  Forall client_ok done -> 0 <= i -> i + Z.of_nat k <= limit -> registered = enrolled done -> inv (state m t) s ->
  (forall rest m' s', Forall client_ok (done ++ rest) -> length rest = k ->
     (Forall (fun c => pc_assigned c = true) rest -> did (register_steps i rest) m m') -> moved (used_by (done ++ rest)) m m' ->
     inv (state m' (rev (map EvOpen (sockets rest)) ++ t)) s' -> K (done ++ rest, enrolled (done ++ rest)) s') ->
  wp (register_clients fuel done (replicate k peerforge_client_init) i session registered) K s.
Proof.
  intros Hf. induction k as [|k IH]; intros done m t s i registered K Hdone Hi Hk -> Hs HK; cbn [replicate register_clients].
  { apply wp_ret. specialize (HK [] m s). rewrite app_nil_r in HK. apply HK; [done|done|now exists []|reflexivity|done]. }
  eapply wp_enroll; [done|lia|exact Hs|]. intros r c m1 s1 Hc Hr Hreg Hm1 Hs1.
  assert (Hall : Forall client_ok (done ++ [c])) by (apply Forall_app; auto).
  apply wp_bind. eapply (wp_drain_all _ (done ++ [c])); [done|exact Hall|apply incl_refl|exact Hs1|]. intros m2 s2 Hm2 Hs2.
  eapply IH; [exact Hall|lia|lia| |exact Hs2|].
  { rewrite enrolled_app, enrolled_cons, Hr. change (enrolled []) with 0. destruct (pc_assigned c); cbn [Z.eqb]; lia. }
  intros rest m' s' Hrest Hlen Hdid Hm' Hs'. rewrite <- app_assoc in *. cbn [app] in *.
  apply (HK (c :: rest) m'); [done|cbn; lia| | |].
  - intros [Hca Hra]%Forall_cons_iff. cbn [register_steps]. apply (did_trans [register_step i c] _ _ m2); [|now apply Hdid].
    exact (did_before _ _ _ _ _ (Hreg Hca) Hm2).
  - transitivity m1; [apply (moved_by c); [apply in_app_iff; right; now left|done]|].
    transitivity m2; [|done]. eapply moved_incl; [|exact Hm2]. intros x. rewrite !in_app_iff. cbn. tauto.
  - change (c :: rest) with ([c] ++ rest). now rewrite sockets_app, map_app, rev_app_distr, <- app_assoc.
Qed.

Lemma wp_rounds fuel clients : (n <= fuel)%nat -> Forall client_ok clients -> forall k ok0 m t s (K : Z -> forge -> Prop),
  inv (state m t) s ->
  (forall r m' s', ok0 <= r <= ok0 + enrolled clients * Z.of_nat k ->
     (r = ok0 + enrolled clients * Z.of_nat k ->
        did (concat (replicate k (map echo_step (List.filter pc_assigned clients)))) m m') ->
     moved (used_by clients) m m' -> inv (state m' t) s' -> K r s') ->
  wp (keepalive_rounds fuel k clients session ok0) K s.
Proof.
  intros Hf Hc. induction k as [|k IH]; intros ok0 m t s K Hs HK; cbn [keepalive_rounds].
  { apply wp_ret, (HK _ m); [lia|now exists []|reflexivity|done]. }
  apply wp_bind. eapply (wp_round fuel clients); [done|exact Hc|apply incl_refl|exact Hs|].
  intros r m1 s1 Hr He Hm1 Hs1. eapply IH; [exact Hs1|]. intros r' m' s' Hr' He' Hm' Hs'.
  apply (HK r' m'); [lia| |now transitivity m1|done]. intros Hall. cbn [replicate concat].
  apply (did_trans _ _ _ m1); [apply He|apply He']; lia.
Qed.

Lemma wp_data_probe fuel clients pairs m t s (K : Z -> forge -> Prop) :
  (n <= fuel)%nat -> Forall client_ok clients -> 0 <= pairs -> inv (state m t) s ->
  (forall r m' s', 0 <= r <= pairs ->
     (r = pairs -> 0 < pairs -> 2 <= enrolled clients /\
        did (map (probe_at (List.filter pc_assigned clients)) (seq 0 (Z.to_nat pairs))) m m') ->
     moved (used_by clients) m m' -> inv (state m' t) s' -> K r s') ->
  wp (peerforge_data_probe fuel clients pairs session) K s.
Proof.
  intros Hf Hc Hp Hs HK. unfold peerforge_data_probe. unfold enrolled in HK. set (active := List.filter pc_assigned clients) in *.
  destruct (Z.ltb_spec (zlen active) 2); [apply wp_ret, (HK _ m); [lia|lia|reflexivity|done]|].
  assert (Hin : incl active clients) by (intros c; unfold active; rewrite filter_In; tauto).
  eapply (wp_probes fuel active Hf) with (i := 0%nat); [| | |exact Hs|].
  - intros E. apply (f_equal zlen) in E. change (zlen (@nil peerforge_client_t)) with 0 in E. lia.
  - apply List.Forall_forall. intros c Hca. now apply (proj1 (List.Forall_forall _ _) Hc), Hin.
  - apply List.Forall_forall. intros c Hca. unfold active in Hca. now apply filter_In in Hca.
  - intros r m' s' Hr Hrel Hm Hs'. apply (HK r m'); [lia| |now apply (moved_incl active)|done].
    intros -> _. split; [done|]. apply Hrel. lia.
Qed.

Lemma safe_forge_report (J : forge -> Prop) {F : Framed J} opts registered ms keepalive_ok data_ok :
  safe J (forge_report opts registered ms keepalive_ok data_ok) (fun _ => True).
Proof.
  unfold forge_report. eapply safe_bind; [apply safe_puts; apply _|]. intros _ _.
  eapply (safe_bind _ _ _ (fun _ => True)); [destruct (0 <? _); [apply safe_puts; apply _|done]|]. intros _ _.
  destruct (0 <? _); [apply safe_puts; apply _|done].
Qed.

(** What exit code 0 says, of the clients and of the log of their sockets: every
    client registered, then every client's keepalive was echoed in every round,
    then every probe came through, one after the other. *)
Definition forge_steps (opts : peerforge_options_t) (clients : list peerforge_client_t) : list (list forge_io -> Prop) :=
  register_steps 0 clients ++
  concat (replicate (Z.to_nat (fo_keepalives opts)) (map echo_step clients)) ++
  map (probe_at clients) (seq 0 (Z.to_nat (fo_data_pairs opts))).

Record forge_success (opts : peerforge_options_t) (clients : list peerforge_client_t) (log : list forge_io) : Prop := {
  success_clients : zlen clients = fo_clients opts;
  success_sockets : sockets clients = map pc_sock clients;
  success_assigned : Forall (fun c => pc_assigned c = true /\ assigned_ip (pc_virt_ip c)) clients;
  success_pairs : 0 < fo_data_pairs opts -> 2 <= zlen clients;
  success_steps : in_order (forge_steps opts clients) log
}.

Lemma enrolled_all clients : enrolled clients = zlen clients -> Forall (fun c => pc_assigned c = true) clients.
Proof.
  assert (Hle : forall l, enrolled l <= zlen l).
  { intros l. unfold enrolled, zlen. pose proof (List.filter_length_le pc_assigned l). lia. }
  induction clients as [|c clients IH]; [constructor|]. rewrite enrolled_cons. specialize (Hle clients).
  unfold zlen in *. cbn [length]. destruct (pc_assigned c) eqn:E; [|lia]. intros H. constructor; [done|]. apply IH. lia.
Qed.

Lemma assigned_all clients : Forall (fun c => pc_assigned c = true) clients -> List.filter pc_assigned clients = clients.
Proof. induction 1 as [|c clients H _ IH]; [done|]. cbn. now rewrite H, IH. Qed.

Lemma sockets_all clients : Forall client_ok clients -> Forall (fun c => pc_assigned c = true) clients -> sockets clients = map pc_sock clients.
Proof.
  intros Hc Ha. induction clients as [|c clients IH]; [done|]. apply Forall_cons_iff in Hc as [Hc Hcs]. apply Forall_cons_iff in Ha as [Ha Has].
  unfold sockets. cbn [map List.filter]. fold (sockets clients). rewrite (IH Hcs Has).
  destruct (client_ok_assigned c Hc Ha) as [Hs _]. unfold PEERFORGE_INVALID_SOCKET. destruct (Z.eqb_spec (pc_sock c) (-1)); [lia|done].
Qed.

(** The exit code is 0 when nothing was lost. *)
Lemma exit_code_zero opts registered keepalive_ok data_ok :
  forge_exit_code opts registered keepalive_ok data_ok = 0 ->
  registered = fo_clients opts /\ (0 < fo_keepalives opts -> keepalive_ok = registered * fo_keepalives opts) /\
  (0 < fo_data_pairs opts -> data_ok = fo_data_pairs opts).
Proof.
  unfold forge_exit_code. destruct (Z.eqb_spec registered (fo_clients opts)) as [Er|]; [|done].
  cbn [negb]. destruct (Z.ltb_spec 0 (fo_keepalives opts)); [destruct (Z.eqb_spec keepalive_ok (registered * fo_keepalives opts)); [|done]|];
    cbn [andb negb]; (destruct (Z.ltb_spec 0 (fo_data_pairs opts)); [destruct (Z.eqb_spec data_ok (fo_data_pairs opts)); [|done]|]);
    cbn [andb negb]; auto with lia.
Qed.

Lemma wp_forge_session fuel opts m t s (K : Z -> forge -> Prop) :
  (n <= fuel)%nat -> forge_ranges opts -> fo_clients opts <= limit -> inv (state m t) s ->
  (forall code clients log m' s', code = 0 \/ code = 1 -> (code = 0 -> forge_success opts clients log) ->
     mk_io m' = log ++ mk_io m -> Forall (used_by clients) log ->
     inv (state m' (rev (map EvClose (sockets clients)) ++ rev (map EvOpen (sockets clients)) ++ t)) s' -> K code s') ->
  wp (forge_session fuel opts session) K s.
Proof.
  intros Hf [_ Hrc _ Hrk Hrp] Hmax Hs HK. unfold forge_session.
  apply wp_bind. eapply wp_read_clock; [apply Hwaits|exact Hs|]. intros s1 Hs1.
  apply wp_bind. eapply (wp_register_all fuel Hf (Z.to_nat (fo_clients opts)) []); [constructor|lia|lia|done|exact Hs1|].
  intros clients m1 s2 Hc Hlen Hreg Hm1 Hs2. cbn [app] in *.
  apply wp_bind. eapply wp_read_clock; [apply Hwaits|exact Hs2|]. intros s3 Hs3.
  apply wp_bind. eapply (wp_rounds fuel clients Hf Hc); [exact Hs3|]. intros ka m2 s4 Hkar Hka Hm2 Hs4.
  apply wp_bind. eapply (wp_data_probe fuel clients); [done|exact Hc|lia|exact Hs4|]. intros dp m3 s5 Hdpr Hdp Hm3 Hs5.
  apply wp_bind. eapply wp_forged; [apply safe_forge_report; apply _|exact Hs5|]. intros _ s6 Hs6 _.
  apply wp_bind. eapply wp_close_all; [exact Hs6|]. intros s7 Hs7. apply wp_ret.
  assert (Hmoved : moved (used_by clients) m m3).
  { transitivity (read_clock m); [apply moved_clock|]. transitivity m1; [done|].
    transitivity (read_clock m1); [apply moved_clock|]. now transitivity m2. }
  destruct Hmoved as [_ (log & Elog & Hlog)].
  apply (HK _ clients log m3); [unfold forge_exit_code; repeat case_match; auto| |done|done|done].
  intros (Er & Ek & Ed)%exit_code_zero.
  pose proof (enrolled_all clients ltac:(unfold zlen; lia)) as Ha. pose proof (assigned_all _ Ha) as Hact. rewrite Hact in *.
  split; [unfold zlen; lia|now apply sockets_all| | |].
  - apply List.Forall_forall. intros c Hin. pose proof (proj1 (List.Forall_forall _ _) Ha c Hin) as Hca. split; [exact Hca|].
    now apply (client_ok_assigned c (proj1 (List.Forall_forall _ _) Hc c Hin)).
  - intros Hpos. destruct (Hdp (Ed Hpos) Hpos) as [H2 _]. unfold enrolled in H2. now rewrite Hact in H2.
  - enough (Hall : did (forge_steps opts clients) m m3).
    { destruct Hall as (log' & Elog' & Hord). rewrite Elog in Elog'. now apply app_inv_tail in Elog' as ->. }
    unfold forge_steps. apply (did_trans _ _ _ m1).
    { apply (did_after (used_by clients) _ _ (read_clock m)); [apply moved_clock|]. now apply Hreg. }
    apply (did_after (used_by clients) _ _ (read_clock m1)); [apply moved_clock|]. apply (did_trans _ _ _ m2).
    + apply Hka. destruct (Z.lt_ge_cases 0 (fo_keepalives opts)); [rewrite Ek by done; lia|]. lia.
    + destruct (Z.lt_ge_cases 0 (fo_data_pairs opts)); [now apply Hdp; [apply Ed|]|].
      replace (Z.to_nat (fo_data_pairs opts)) with 0%nat by lia. exact (did_nothing _ _ _ Hm3).
Qed.
End session.
