(* ===== verification/ForgeRun.v ===== *)
(** The load generator as a whole: its runs end, leave no socket open, say only
    what the protocol allows, and report success only on authentic answers. *)
From stdpp Require Import base list numbers option.
From S2P Require Import Prelude Prog World Consts Sequence Wire Ipv4 Crypto Events Replay Peer Net Messages Boot Cli ForgeOptions Forge ForgeSpec.

Section run.
Context `{M : Monocypher} {ML : MonocypherLaws M}.

(** The operating system delivers a datagram that was locked under [key] with
    this content. *)
Definition heard (key : bytes) (e : env) (type : Z) (payload : bytes) : Prop :=
  exists t n sequence nonce from, env_recvfrom e t n = RecvData (wire_bytes key type payload sequence nonce) from.

(** What [clients] simulated clients say, given what they hear. *)
Inductive forge_says (hears : Z -> bytes -> Prop) (clients : Z) : Z -> bytes -> Prop :=
| SaysRegister i : 0 <= i < clients -> forge_says hears clients MSG_REGISTER (forge_name i)
| SaysKeepalive ts : is_u64 ts -> forge_says hears clients MSG_KEEPALIVE (be_split 8 ts)
| SaysAck payload : hears MSG_KEEPALIVE payload -> 8 <= zlen payload ->
    forge_says hears clients MSG_KEEPALIVE_ACK (take 8 payload)
| SaysProbe src dst : assigned_ip hears src -> assigned_ip hears dst ->
    forge_says hears clients MSG_DATA (probe_bytes src dst).

(** Sockets are opened and closed; what is sent is one of these messages, to
    the server and under the session's key. *)
Definition forge_traffic (key : bytes) (server : sockaddr_in) (hears : Z -> bytes -> Prop) (clients : Z) (e : event) : Prop :=
  device_event e = true \/
  exists type payload, forge_says hears clients type payload /\ sent_message key type payload server e.

(** Few enough descriptors for [select]. *)
Definition few_sockets (e : env) : Prop := forall t, env_sys e t < FD_SETSIZE.

Section session.
Context (e : env) (gkey : bytes) (t0 : list event) (session : peerforge_session_t) (clients : Z).
Notation hears := (heard (ps_key session) e).

(** The condition on the process during a session. *)
Definition in_session (w : world) : Prop :=
  policy gkey t0 (forge_traffic (ps_key session) (ps_server session) hears clients) w /\
  (w_env w = e /\ few_sockets e).

#[local] Instance quiet_session : Quiet in_session.
Proof. apply quiet_and; [apply _|]. exact (quiet_fixed (fun e' _ => e' = e /\ few_sockets e)). Qed.

Lemma allows_session ev : forge_traffic (ps_key session) (ps_server session) hears clients ev -> Allows in_session ev.
Proof.
  intros H. pose proof (allows_policy gkey t0 _ ev H). apply allows_and; [done|].
  exact (allows_fixed (fun e' _ => e' = e /\ few_sockets e) ev).
Qed.

Lemma session_heard w : in_session w -> authentic (ps_key session) hears (w_env w).
Proof.
  intros [_ [-> _]] t n type payload sequence nonce from _ _ _ _ H. exists t, n, sequence, nonce, from. exact H.
Qed.

Lemma session_says type payload sequence nonce res :
  forge_says hears clients type payload -> 1 <= sequence < 2 ^ 64 -> length nonce = 24%nat -> bytes_ok nonce ->
  Allows in_session (EvSent (wire_bytes (ps_key session) type payload sequence nonce) (ps_server session) res).
Proof.
  intros H1 H2 H3 H4. apply allows_session. right. exists type, payload. split; [done|]. now exists sequence, nonce, res.
Qed.

(** The rules of the session, with every condition discharged. *)
Lemma wp_register_in_session n clk sel fuel c i m t s K :
  waits n clk sel -> 1 <= ps_timeout_ms session <= 60000 -> clients <= 1000 ->
  (n <= fuel)%nat -> 0 <= i < clients -> 0 <= pc_sock c < FD_SETSIZE -> inv (forged clk sel in_session m t) s ->
  (forall m' s', moved (on_sock (pc_sock c)) m m' -> inv (forged clk sel in_session m' t) s' -> K (-1, c) s') ->
  (forall ip m' s', assigned_ip hears ip -> moved (on_sock (pc_sock c)) m m' -> inv (forged clk sel in_session m' t) s' ->
     K (0, ForgeClient (pc_sock c) ip true) s') ->
  wp (peerforge_register_client fuel c i session) K s.
Proof.
  intros Hw Ht Hc Hf Hi Hsock Hs H1 H0. eapply (wp_register n clk sel Hw in_session hears (forge_says hears clients) session Ht session_heard session_says);
    [now constructor|exact Hc|now constructor|exact Hf|exact Hi|exact Hsock|exact Hs|exact H1|]. eauto.
Qed.

Lemma wp_session n clk sel fuel opts m t s K :
  waits n clk sel -> forge_ranges opts -> ps_timeout_ms session = fo_timeout_ms opts -> clients = fo_clients opts ->
  (n <= fuel)%nat -> inv (forged clk sel in_session m t) s ->
  (forall code cs log m' s', code = 0 \/ code = 1 -> (code = 0 -> forge_success hears session opts cs log) ->
     mk_io m' = log ++ mk_io m -> Forall (used_by cs) log ->
     inv (forged clk sel in_session m' (rev (map EvClose (sockets cs)) ++ rev (map EvOpen (sockets cs)) ++ t)) s' -> K code s') ->
  wp (forge_session fuel opts session) K s.
Proof.
  intros Hw Hr Ht Hcl Hf Hs HK. assert (Hmax : clients <= 1000).
  { pose proof (range_clients _ Hr). unfold PEERFORGE_MAX_CLIENTS, TUND_IP_END, TUND_IP_START in *. lia. }
  eapply (wp_forge_session n clk sel Hw in_session hears (forge_says hears clients) session) with (limit := clients);
    try exact Hs; try done; try (now constructor).
  - rewrite Ht. apply Hr.
  - exact session_heard.
  - exact session_says.
  - intros ev He. apply allows_session. now left.
  - intros w [_ [-> Hfew]]. exact Hfew.
  - lia.
Qed.
End session.

(** * Properties *)

Lemma wp_ask {A} (f : env -> nat -> A) s (K : A -> forge -> Prop) :
  K (f (w_env (fg_world s)) (w_tick (fg_world s))) (set_world (tick (fg_world s)) s) -> wp (on_world' (ask f)) K s.
Proof. intros H. eexists _, _. split; [reflexivity|exact H]. Qed.

(** Where a session starts. *)
Lemma session_start session clients s :
  world_ok (fg_world s) -> few_sockets (w_env (fg_world s)) ->
  inv (forged (fg_clock s) (fg_select s)
         (in_session (w_env (fg_world s)) (g_crypto_key (fg_world s)) (w_trace (fg_world s)) session clients)
         (marks_of s) (devices (fg_world s))) s.
Proof.
  intros Hw Hfew. split; [exact Hw|]. split; [|done]. split; [|done]. split; [apply policy_start|done].
Qed.

(** C24: registration of a simulated client always returns; it succeeds only on
    an authentic assignment of at least ten bytes, whose address the client
    takes over, and otherwise leaves the client as it was; no socket is opened
    or closed, and only the client's own socket is used. *)
Theorem forge_register_authentic (s : forge) (n fuel : nat) (c : peerforge_client_t) (i : Z) (session : peerforge_session_t)
    (Hw : world_ok (fg_world s)) (Hwaits : waits n (fg_clock s) (fg_select s)) (Hf : (n <= fuel)%nat)
    (Hfew : few_sockets (w_env (fg_world s))) (Ht : 1 <= ps_timeout_ms session <= 60000)
    (Hi : 0 <= i < PEERFORGE_MAX_CLIENTS) (Hc : 0 <= pc_sock c < FD_SETSIZE) :
  exists r c' s', run (peerforge_register_client fuel c i session) s = Some ((r, c'), s') /\
    ((r = -1 /\ c' = c) \/
     (r = 0 /\ exists payload, heard (ps_key session) (w_env (fg_world s)) MSG_ASSIGN payload /\ 10 <= zlen payload /\
        c' = ForgeClient (pc_sock c) (le_combine (take 4 payload)) true)) /\
    devices (fg_world s') = devices (fg_world s) /\
    exists new, fg_io s' = new ++ fg_io s /\ Forall (on_sock (pc_sock c)) new.
Proof.
  pose proof (session_start session PEERFORGE_MAX_CLIENTS s Hw Hfew) as Hs.
  destruct (wp_register_in_session _ _ _ session PEERFORGE_MAX_CLIENTS n _ _ fuel c i _ _ s
    (fun '(r, c') s' => ((r = -1 /\ c' = c) \/
       (r = 0 /\ exists payload, heard (ps_key session) (w_env (fg_world s)) MSG_ASSIGN payload /\ 10 <= zlen payload /\
          c' = ForgeClient (pc_sock c) (le_combine (take 4 payload)) true)) /\
      devices (fg_world s') = devices (fg_world s) /\
      exists new, fg_io s' = new ++ fg_io s /\ Forall (on_sock (pc_sock c)) new)
    Hwaits Ht ltac:(done) Hf Hi Hc Hs) as ([r c'] & s' & Hr & HQ).
  - intros m' s' [_ Hm] [_ ((_ & Hd) & _ & _ & <-)]. split; [now left|]. now split.
  - intros ip m' s' (payload & H1 & H2 & ->) [_ Hm] [_ ((_ & Hd) & _ & _ & <-)]. split; [right; split; [done|now exists payload]|]. now split.
  - now exists r, c', s'.
Qed.

(** Where the messages go: the address that was resolved, at the port of the
    options. *)
Definition forge_server_addr (opts : peerforge_options_t) (a : sockaddr_in) : sockaddr_in :=
  SockAddr (sin_family a) (htons (fo_port opts)) (s_addr a).

(** What a run reports and leaves behind, given the address that was resolved:
    [clients] are its clients, each with the socket it opened and closed or with
    none, and [log] is the use of these sockets. *)
Definition forge_outcome (opts : peerforge_options_t) (key : bytes) (s : forge) (resolved : option sockaddr_in) (code : Z) (s' : forge) : Prop :=
  let hears := heard key (w_env (fg_world s)) in
  (code = 0 \/ code = 1) /\
  same_open (w_trace (fg_world s')) (w_trace (fg_world s)) /\
  exists clients log new,
    devices (fg_world s') = rev (map EvClose (sockets clients)) ++ rev (map EvOpen (sockets clients)) ++ devices (fg_world s) /\
    fg_io s' = log ++ fg_io s /\ Forall (used_by clients) log /\
    w_trace (fg_world s') = new ++ w_trace (fg_world s) /\
    match resolved with
    | None => code = 1 /\ clients = [] /\ new = []
    | Some a =>
        let session := ForgeSession (forge_server_addr opts a) key (fo_timeout_ms opts) in
        Forall (fun e => outgoing e = true -> forge_traffic key (ps_server session) hears (fo_clients opts) e) new /\
        (code = 0 -> forge_success hears session opts clients log)
    end.

Lemma outcome_failed opts key s resolved w :
  w_trace w = w_trace (fg_world s) -> forge_outcome opts key s resolved 1 (set_world w s).
Proof.
  intros Ht. split; [now right|]. cbn. rewrite Ht. split; [reflexivity|]. exists [], [], [].
  unfold devices. rewrite Ht. do 4 (split; [done|]). destruct resolved; [|done]. split; [constructor|done].
Qed.

(** C23: the load generator ends, without undefined behaviour, with exit code 0
    or 1. It sends only REGISTER with the names of its clients, KEEPALIVE,
    acknowledgements of keepalives it heard, and probes between addresses it was
    assigned, all to the address that the resolver gave for the server and the
    port of its command line, under the key of its command line; the descriptors
    it opens are exactly the sockets of its clients, each of them closed, and
    only these are sent from and received on. Exit code 0 means that every
    client opened its socket; and that, one after the other, every client sent
    its REGISTER and received on its own socket the authentic assignment of the
    address it has, every client's keepalive was echoed on its own socket with
    its own timestamp in every round, and every probe left by the socket of one
    client and arrived authentic on that of the next.
    [waits] is assumed of the system: the clock advances, and a socket that is
    drained without waiting is empty within [n] calls, without which the loop of
    [peerforge_client_drain] need not end; descriptors are below [FD_SETSIZE]. *)
Theorem forge_run_sound (s : forge) (n fuel : nat) (opts : peerforge_options_t) (a k : bytes)
    (Hw : world_ok (fg_world s)) (Hwaits : waits n (fg_clock s) (fg_select s)) (Hf : (n <= fuel)%nat)
    (Hfew : few_sockets (w_env (fg_world s))) (Hr : forge_ranges opts)
    (Ha : fo_key opts = Some a) (Hk : c_str a = Some k) :
  exists code s', run (run_peerforge fuel opts) s = Some (code, s') /\
    forge_outcome opts (blake2b TUND_KEY_SIZE (key_context ++ k)) s
      (env_resolve (w_env (fg_world s)) (w_tick (fg_world s))) code s'.
Proof.
  set (resolved := env_resolve _ _).
  change (wp (run_peerforge fuel opts) (forge_outcome opts (blake2b TUND_KEY_SIZE (key_context ++ k)) s resolved) s).
  unfold run_peerforge, peerforge_resolve_server. apply wp_bind, wp_bind, wp_ask. fold resolved.
  destruct resolved as [server|]; apply wp_ret; cbn [Z.ltb Z.compare]; [|apply wp_ret, outcome_failed; done].
  unfold proto_key_from_passphrase. rewrite Ha, Hk. cbn [local bind]. set (key := blake2b _ _).
  apply wp_bind, wp_ask. rewrite set_set_world. destruct (_ <? 0); [apply wp_ret, outcome_failed; done|].
  set (session := ForgeSession _ _ _). set (s1 := set_world _ s).
  pose proof (session_start session (fo_clients opts) s1 ltac:(cbn; quiet) Hfew) as Hs.
  eapply wp_session; [exact Hwaits|exact Hr|done|reflexivity|exact Hf|exact Hs|].
  intros code cs log m' s' Hcode Hsucc Hlog Hused [_ (((Hpol & _) & Hd) & _ & _ & <-)].
  destruct Hpol as (_ & new & Htr & Hnew). split; [exact Hcode|]. split.
  - intros fd. rewrite <- !(balance_devices fd (w_trace _)). change (List.filter device_event (w_trace (fg_world s'))) with (devices (fg_world s')).
    rewrite Hd. apply opened_closed.
  - exists cs, log, new. split; [exact Hd|]. split; [exact Hlog|]. split; [done|]. split; [exact Htr|]. now split.
Qed.
End run.

(** * A concrete run *)

Definition forge_opts : peerforge_options_t :=
  ForgeOptions (Some (arg "10.0.0.1")) (Some (arg "a-long-random-key")) 9909 2 5000 1 1.

Definition forge_key : bytes := blake2b (Monocypher := SampleCipher.sample) TUND_KEY_SIZE (key_context ++ str "a-long-random-key").

(** The server assigns 10.9.0.2 to everybody, echoes the timestamp 0, and relays
    probes; which of the three is next depends on the call. *)
Definition forge_offer : bytes := assign_payload 0x0200090A 0x00FFFFFF 1400.

Definition forge_wire (type : Z) (payload : bytes) : bytes :=
  wire_bytes (M := SampleCipher.sample) forge_key type payload 9 (replicate 24 3).

Definition forge_answer (t : nat) : bytes :=
  match (t mod 3)%nat with
  | O => forge_wire MSG_ASSIGN forge_offer
  | S O => forge_wire MSG_KEEPALIVE_ACK (be_split 8 0)
  | _ => forge_wire MSG_DATA (probe_bytes 0x0200090A 0x0200090A)
  end.

Definition forge_env : env := {|
  env_open := env_open sample_env;
  env_read := env_read sample_env;
  env_eintr := 0;
  env_time := env_time sample_env;
  env_now_ms := env_now_ms sample_env;
  env_sendto := env_sendto sample_env;
  env_recvfrom t n := if n <? zlen (forge_answer t) then RecvAgain else RecvData (forge_answer t) (SockAddr 2 0 0x0101A8C0);
  env_poll := env_poll sample_env;
  env_poll_eintr := env_poll_eintr sample_env;
  env_tun_read := env_tun_read sample_env;
  env_tun_write := env_tun_write sample_env;
  env_stack := env_stack sample_env;
  env_sys t := 3 + Z.of_nat t mod 64;
  env_ifname := env_ifname sample_env;
  env_ifflags := env_ifflags sample_env;
  env_resolve := env_resolve sample_env
|}.

(** A clock that moves by a minute every hundred readings; a message is there
    whenever [select] may wait. *)
Definition forge_start : forge :=
  Forge (World forge_env 0 0 (-1) true (replicate 32 7) LOG_LEVEL_INFO false true [])
        (fun i => Z.min (60000 * (Z.of_nat i / 100)) (2 ^ 64 - 1)) (fun _ _ timeout => if 0 <? timeout then 1 else 0) 0 0 [].

Lemma forge_answer_bytes t : forallb (fun b => (0 <=? b) && (b <? 256)) (forge_answer t) = true.
Proof. unfold forge_answer. destruct (t mod 3)%nat as [|[|]]; vm_compute; reflexivity. Qed.

Lemma forge_start_ok : world_ok (fg_world forge_start).
Proof.
  split; [|split; [|split; [done|split; [done|apply Forall_replicate; words; lia]]]].
  - destruct sample_env_ok as [H1 H2 H3 H4 H5 H6 H7 H8 H9]. split; cbn [fg_world forge_start w_env forge_env env_read env_eintr env_time env_now_ms env_recvfrom env_tun_read env_ifname env_resolve env_sys]; try done.
    + intros t n l from Hn. destruct (Z.ltb_spec n (zlen (forge_answer t))); [done|]. intros [= <- <-]. split; [done|]. split.
      * apply List.Forall_forall. intros b Hb. pose proof (proj1 (forallb_forall _ _) (forge_answer_bytes t) b Hb) as Hx. cbn beta in Hx. bools. words. lia.
      * repeat split; cbn; words; lia.
    + intros t. pose proof (Z.mod_pos_bound (Z.of_nat t) 64). lia.
  - split; [words; cbn; lia|]. now left.
Qed.

Lemma forge_start_few : few_sockets (w_env (fg_world forge_start)).
Proof. intros t. cbn. pose proof (Z.mod_pos_bound (Z.of_nat t) 64). unfold FD_SETSIZE. lia. Qed.

Lemma forge_start_waits : waits 100 (fg_clock forge_start) (fg_select forge_start).
Proof.
  split; cbn [fg_clock fg_select forge_start].
  - intros i. pose proof (Z.div_pos (Z.of_nat i) 100 ltac:(lia) ltac:(lia)). words. lia.
  - intros i. pose proof (Z.div_le_mono (Z.of_nat i) (Z.of_nat (S i)) 100 ltac:(lia) ltac:(lia)). lia.
  - intros i. replace (Z.of_nat (i + 100)) with (Z.of_nat i + 1 * 100) by lia. rewrite Z.div_add by lia. lia.
  - intros i sock. exists 0%nat. split; [lia|done].
Qed.

(** Both clients register, their keepalives are echoed and the probe comes
    through, so the exit code is 0; two sockets were opened and closed. *)
Example forge_start_runs :
  option_map (fun '(code, s) => (code, devices (fg_world s))) (run (run_peerforge (M := SampleCipher.sample) 100 forge_opts) forge_start) =
  Some (0, [EvClose 14; EvClose 5; EvOpen 14; EvOpen 5]).
Proof. vm_compute. reflexivity. Qed.

Example forge_run_sound_witness :
  exists code s', run (run_peerforge (M := SampleCipher.sample) 100 forge_opts) forge_start = Some (code, s') /\
    forge_outcome (M := SampleCipher.sample) forge_opts forge_key forge_start (Some (SockAddr 2 0 0x0101A8C0)) code s'.
Proof.
  apply (forge_run_sound (M := SampleCipher.sample) forge_start 100 100 forge_opts (arg "a-long-random-key") (str "a-long-random-key"));
    [exact forge_start_ok|exact forge_start_waits|lia|exact forge_start_few| |reflexivity|reflexivity].
  split; cbn; unfold PEERFORGE_MAX_CLIENTS, TUND_IP_END, TUND_IP_START; lia.
Defined.

Example forge_register_authentic_witness :
  exists r c' s', run (peerforge_register_client (M := SampleCipher.sample) 100 (ForgeClient 5 0 false) 0
      (ForgeSession (SockAddr 2 0 0) forge_key 50)) forge_start = Some ((r, c'), s') /\
    ((r = -1 /\ c' = ForgeClient 5 0 false) \/
     (r = 0 /\ exists payload, heard (M := SampleCipher.sample) forge_key forge_env MSG_ASSIGN payload /\ 10 <= zlen payload /\
        c' = ForgeClient 5 (le_combine (take 4 payload)) true)) /\
    devices (fg_world s') = devices (fg_world forge_start) /\
    exists new, fg_io s' = new ++ fg_io forge_start /\ Forall (on_sock 5) new.
Proof.
  apply (forge_register_authentic (M := SampleCipher.sample) forge_start 100 100 (ForgeClient 5 0 false) 0 (ForgeSession (SockAddr 2 0 0) forge_key 50));
    [exact forge_start_ok|exact forge_start_waits|lia|exact forge_start_few|cbn; lia| |unfold FD_SETSIZE; cbn; lia].
  unfold PEERFORGE_MAX_CLIENTS, TUND_IP_END, TUND_IP_START. lia.
Defined.

(** * Probes *)

(** A probe between two hosts of the virtual LAN is a complete packet of
    it, so that the check both endpoints make accepts it, and the address test
    of the receiving simulated client recognises it. *)
Theorem forge_probe_is_lan_packet (pkt : bytes) (src dst : Z)
    (Hp : length pkt = 20%nat) (Hs : is_u32 src) (Hd : is_u32 dst)
    (Hsrc : TUND_SUBNET < ntohl src < TUND_BROADCAST) (Hdst : TUND_SUBNET < ntohl dst <= TUND_BROADCAST) :
  exists probe, build_ipv4_probe pkt src dst = Some probe /\ zlen probe = 20 /\
    proto_validate_ipv4_packet probe 20 = Some TUND_IPV4_OK /\
    accept_probe src dst MSG_DATA 20 probe = Some (Some tt).
Proof.
  exists (probe_bytes src dst). split; [now apply build_probe|]. split; [reflexivity|].
  assert (H12 : take 4 (drop 12 (probe_bytes src dst)) = le_split 4 src) by reflexivity.
  assert (H16 : take 4 (drop 16 (probe_bytes src dst)) = le_split 4 dst) by reflexivity.
  assert (Hle : forall x, is_u32 x -> le_combine (le_split 4 x) = x).
  { intros x Hx. rewrite le_combine_split. apply Z.mod_small, Hx. }
  split.
  - rewrite validate_verdict; [|apply probe_bytes_ok|done]. f_equal. apply verdict_ok.
    assert (Hbe : forall x, is_u32 x -> be_combine (le_split 4 x) = ntohl x).
    { intros x Hx. rewrite <- ntohl_le_combine; [now rewrite Hle|apply le_split_ok|apply length_le_split]. }
    split; unfold ip_src, ip_dst; rewrite ?H12, ?H16, ?Hbe by done; try done; cbn; lia.
  - unfold accept_probe. cbn [Z.eqb andb Z.leb Z.compare MSG_DATA].
    destruct (get_src_spec (probe_bytes src dst) 20) as (x & -> & ->); [rewrite zlen_probe; lia|]. rewrite H12, Hle, Z.eqb_refl by done.
    destruct (get_dst_spec (probe_bytes src dst) 20) as (y & -> & ->); [rewrite zlen_probe; lia|]. now rewrite H16, Hle, Z.eqb_refl by done.
Qed.

Example forge_probe_is_lan_packet_witness :
  exists probe, build_ipv4_probe (replicate 20 7) 0x0200090A 0x0300090A = Some probe /\ zlen probe = 20 /\
    proto_validate_ipv4_packet probe 20 = Some TUND_IPV4_OK /\
    accept_probe 0x0200090A 0x0300090A MSG_DATA 20 probe = Some (Some tt).
Proof.
  apply forge_probe_is_lan_packet; [reflexivity|words; lia|words; lia|..]; split; vm_compute; congruence.
Defined.
