(* ===== verification/ForgeServer.v ===== *)
(** The test server of the load generator ([server.c] of [tools/peerforge]): the
    handlers of TunD's server behind a loop that ends after a given time. *)
From stdpp Require Import base list numbers option.
From S2P Require Import Prelude Prog World Consts Sequence Wire Ipv4 Crypto Events Cli Replay Peer Net Messages Boot Frame Release ServerPeers Server ServerSpec ServerThreads ServerLifecycle Main ForgeOptions.

(** * Code *)

Section server.
Context `{M : Monocypher}.

(** The loop; [clk] are its readings of [now_ms], [i] their number so far.  The
    [tun_write] of this program delivers packets nowhere and reports success,
    one of the behaviours of the device. *)
Fixpoint serve_loop (clk : nat -> Z) (fuel i : nat) (deadline : Z) (buf : bytes) (from : sockaddr_in) : prog srv_state Z :=
  if negb (u64 (clk i) <? deadline) then Ret 0
  else
    let next buf from :=
      match fuel with O => undef | S fuel => serve_loop clk fuel (S i) deadline buf from end in
    let* '(ready, eintr) := on_world' (ask (fun e t => (env_poll e t, env_poll_eintr e t))) in
    if ready <? 0 then (if (eintr : bool) then next buf from else Ret 1)
    else if ready =? 0 then next buf from
    else
      let* '(n, buf, from) := net_recv buf TUND_MAX_PKT from in
      (if 0 <? n then server_handle_packet buf n from else Ret tt) ;;
      next buf from.

Definition run_server (clk : nat -> Z) (fuel : nat) (opts : peerforge_server_options_t) : prog srv_state Z :=
  store (fun _ => fresh_server (fs_port opts)) ;;
  let* fd := net_create_socket (fs_port opts) in
  store (set_sockfd fd) ;;
  if negb (sock_valid fd) then Ret 1
  else
    let* buf := alloc TUND_MAX_PKT in
    let deadline := u64 (u64 (clk 0%nat) + u64 (u64 (fs_duration_sec opts) * 1000)) in
    let* result := serve_loop clk fuel 1 deadline buf zero_addr in
    sys_close fd ;;
    Ret result.

(** [main]: its exit code. *)
Definition forge_server_main (clk : nat -> Z) (fuel : nat) (argv : list bytes) : prog srv_state Z :=
  let* r := local (parse_options argv) in
  match r with
  | ParsedExit => Ret 0
  | ParsedRefused => Ret 2
  | ParsedOk opts =>
      let* key := local (let? k := fs_key opts in proto_key_from_passphrase k) in
      on_world' (fun w => (tt, set_key key w)) ;;
      run_server clk fuel opts
  end.
End server.

(** * Options *)

Record server_ranges (o : peerforge_server_options_t) : Prop := {
  srange_port : 1 <= fs_port o <= 65535;
  srange_duration : 1 <= fs_duration_sec o <= 3600
}.

(** Numbers in range; the key is missing or an argument. *)
Definition server_partial (all : list bytes) (o : peerforge_server_options_t) : Prop :=
  server_ranges o /\ (fs_key o = None \/ an_argument all 0 (fs_key o)).

Definition server_accepted (all : list bytes) (r : parsed peerforge_server_options_t) : Prop :=
  match r with ParsedOk o => server_ranges o /\ an_argument all 12 (fs_key o) | _ => True end.

Lemma server_loop_accepted all : Forall (fun a => exists s, c_str a = Some s) all -> forall n argv o,
  (length argv <= n)%nat -> incl argv all -> server_partial all o ->
  exists r, server_options_loop argv o = Some r /\ server_accepted all r.
Proof.
  intros Hall. assert (Hend : forall o, server_partial all o ->
    exists r, server_options_loop [] o = Some r /\ server_accepted all r).
  { intros o [Hr Hk]. cbn. destruct (fs_key o) as [key|] eqn:Ek; [|eexists; split; [reflexivity|done]].
    destruct Hk as [|(a & z & [= <-] & Hin & Hz & _)]; [done|]. rewrite Hz. eexists. split; [reflexivity|].
    destruct (Z.ltb_spec (zlen z) 12); [done|]. split; [done|]. rewrite Ek. now exists key, z. }
  induction n as [|n IH]; intros argv o Hn Hincl Ho; (destruct argv as [|a rest]; [now apply Hend|]); [cbn in Hn; lia|].
  assert (Hrefused : exists r, Some ParsedRefused = Some r /\ server_accepted all r) by (eexists; split; [reflexivity|done]).
  cbn [server_options_loop].
  assert (Hstr : forall x, In x (a :: rest) -> exists s, c_str x = Some s).
  { intros x Hx. apply (proj1 (List.Forall_forall _ _) Hall). now apply Hincl. }
  destruct (Hstr a ltac:(now left)) as [s ->].
  destruct (is_opt s "-h" || is_opt s "--help"); [eexists; split; [reflexivity|done]|].
  destruct rest as [|v rest]; [exact Hrefused|]. destruct (Hstr v ltac:(now right; left)) as [sv Hsv].
  assert (Hgo : forall o', server_partial all o' -> exists r, server_options_loop rest o' = Some r /\ server_accepted all r).
  { intros o' Ho'. apply IH; [cbn in Hn; lia| |done]. intros x Hx. apply Hincl. now do 2 right. }
  destruct Ho as [[R1 R2] Hk].
  destruct (is_opt s "-k").
  { apply Hgo. split; [done|]. right. exists v, sv. split; [done|]. split; [apply Hincl; now right; left|]. split; [done|apply zlen_nonneg]. }
  repeat match goal with |- context [is_opt s ?x] => destruct (is_opt s x);
    [apply (with_long_accepted v sv); [done|done|]; intros m Hm; apply Hgo; split; [split; try done|done]|] end; [|exact Hrefused].
  cbn. unfold u16. rewrite Z.mod_small by lia. done.
Qed.

Lemma server_options_accepted argv : Forall (fun a => exists s, c_str a = Some s) argv ->
  exists r, parse_options argv = Some r /\ server_accepted argv r.
Proof.
  intros H. apply (server_loop_accepted argv H (length argv)); [done|apply incl_refl|].
  split; [split; cbn; unfold TUND_PORT; lia|now left].
Qed.

(** * The loop *)

(** The clock never goes back and moves on by an hour within [n] readings,
    unless it is at its last value. *)
Record hourly (n : nat) (clk : nat -> Z) : Prop := {
  hourly_range : forall i, is_u64 (clk i);
  hourly_mono : forall i, clk i <= clk (S i);
  hourly_advances : forall i, Z.min (clk i + 3600000) (2 ^ 64 - 1) <= clk (i + n)%nat
}.

Lemma hourly_later n clk i j : hourly n clk -> (i <= j)%nat -> clk i <= clk j.
Proof. intros H. induction 1 as [|j _ IH]; [lia|]. pose proof (hourly_mono _ _ H j). lia. Qed.

Section loop.
Context `{M : Monocypher} {ML : MonocypherLaws M} (clk : nat -> Z) (os : env).
Notation J := (served (fun _ => True) (fun w => w_env w = os)).

#[export] Instance quiet_os : Quiet (fun w => w_env w = os).
Proof. exact (quiet_fixed (fun e _ => e = os)). Qed.

#[export] Instance allows_os e : Allows (fun w => w_env w = os) e.
Proof. exact (allows_fixed (fun e' _ => e' = os) e). Qed.

(** Well formed, and since [s0] no descriptor was touched. *)
Definition serving (s0 s : srv_state) : Prop := inv J s /\ steady srv_parts s0 s.

Lemma serving_run {A} (p : prog srv_state A) Q s0 s (K : A -> srv_state -> Prop) :
  safe J p Q -> always (steady srv_parts) p -> serving s0 s ->
  (forall a s', serving s0 s' -> Q a -> K a s') -> wp p K s.
Proof.
  intros Hp Ha [Hi Hs] HK. destruct (safe_run _ _ _ s Hp Hi) as (a & s' & Hr & Hi' & _ & HQ).
  exists a, s'. split; [done|]. apply HK; [|done]. split; [done|].
  transitivity s; [done|]. exact (always_run _ p s a s' Ha Hr).
Qed.

Definition recv_buf (buf : bytes) : Prop := bytes_ok buf /\ zlen buf = TUND_MAX_PKT.

(** A poll failed, and not because it was interrupted. *)
Definition poll_failed : Prop := exists tk, env_poll os tk < 0 /\ env_poll_eintr os tk = false.

(** The loop made exactly [passes] passes that went on to a next one, all of
    them started before the deadline, and then read the clock once more: past
    the deadline, or before a poll that failed.  With fuel for fewer passes it
    has no result. *)
Record loop_ends (deadline : Z) (i passes : nat) (s0 : srv_state) (p : nat -> prog srv_state Z) (s : srv_state) (r : Z) (s' : srv_state) : Prop := {
  ends_run : forall fuel, run (p fuel) s = if (fuel <? passes)%nat then None else Some (r, s');
  ends_early : forall j, (i <= j < i + passes)%nat -> clk j < deadline;
  ends_cause : (r = 0 /\ deadline <= clk (i + passes)) \/ (r = 1 /\ clk (i + passes) < deadline /\ poll_failed);
  ends_served : serving s0 s'
}.

(** Nothing but another pass. *)
Lemma loop_ends_next deadline i passes s0 (p q : nat -> prog srv_state Z) s s1 r s' :
  clk i < deadline -> (forall fuel, run (p fuel) s = match fuel with O => None | S fuel => run (q fuel) s1 end) ->
  loop_ends deadline (S i) passes s0 q s1 r s' -> loop_ends deadline i (S passes) s0 p s r s'.
Proof.
  intros Hi Hp [H1 H2 H3 H4]. split; [|intros j Hj|now rewrite Nat.add_succ_r|done].
  - intros [|fuel]; rewrite Hp; [done|]. rewrite H1. done.
  - destruct (decide (j = i)) as [->|]; [done|]. apply H2. lia.
Qed.

(** Nothing after this reading of the clock. *)
Lemma loop_ends_now deadline i s0 (p : nat -> prog srv_state Z) s r s' :
  (forall fuel, run (p fuel) s = Some (r, s')) -> (r = 0 /\ deadline <= clk i) \/ (r = 1 /\ clk i < deadline /\ poll_failed) -> serving s0 s' ->
  loop_ends deadline i 0 s0 p s r s'.
Proof. intros H1 H2 H3. split; [exact H1|lia|now rewrite Nat.add_0_r|done]. Qed.

Lemma serve_loop_step fuel i deadline buf from :
  serve_loop clk fuel i deadline buf from =
  if negb (u64 (clk i) <? deadline) then Ret 0
  else
    let next buf from := match fuel with O => undef | S fuel => serve_loop clk fuel (S i) deadline buf from end in
    let* '(ready, eintr) := on_world' (ask (fun e t => (env_poll e t, env_poll_eintr e t))) in
    if ready <? 0 then (if (eintr : bool) then next buf from else Ret 1)
    else if ready =? 0 then next buf from
    else
      let* '(n, buf, from) := net_recv buf TUND_MAX_PKT from in
      (if 0 <? n then server_handle_packet buf n from else Ret tt) ;;
      next buf from.
Proof. now destruct fuel. Qed.

(** A datagram, handled if there was one. *)
Lemma wp_serve_one buf from s0 s (K : bytes * sockaddr_in -> srv_state -> Prop) :
  recv_buf buf -> addr_ok from -> serving s0 s ->
  (forall buf' from' s', recv_buf buf' -> addr_ok from' -> serving s0 s' -> K (buf', from') s') ->
  wp (let* '(n, buf, from) := net_recv buf TUND_MAX_PKT from in
      (if 0 <? n then server_handle_packet buf n from else Ret tt) ;; Ret (buf, from)) K s.
Proof.
  intros Hbuf Hfrom Hs HK. apply wp_bind. eapply serving_run; [|apply steady_net_recv; apply _|exact Hs|].
  { apply safe_net_recv; [apply _|apply Hbuf|destruct Hbuf as [_ ->]; clia|exact Hfrom]. }
  intros [[n buf'] from'] s2 Hs2 HR. apply wp_bind.
  eapply (serving_run _ (fun _ => True)); [| |exact Hs2|].
  - destruct (Z.ltb_spec 0 n); [|done]. apply (safe_handle_packet _ buf); auto; apply _.
  - destruct (0 <? n); [apply kept_handle_packet|done].
  - intros _ s3 Hs3 _. destruct HR as (Hl & Hb & Hfr & _). apply wp_ret. apply HK; [|done|done].
    split; [done|]. destruct Hbuf as [_ Hz]. unfold zlen in *. now rewrite Hl.
Qed.

(** The clock is past the deadline at reading [i + k] at the latest. *)
Lemma serve_loop_ends deadline : (forall i, is_u64 (clk i)) -> forall k i buf from s0 s,
  deadline <= clk (i + k) -> recv_buf buf -> addr_ok from -> serving s0 s ->
  exists passes r s', (passes <= k)%nat /\ loop_ends deadline i passes s0 (fun fuel => serve_loop clk fuel i deadline buf from) s r s'.
Proof.
  intros Hu. induction k as [|k IH]; intros i buf from s0 s Hk Hbuf Hfrom Hs;
    assert (Hui : u64 (clk i) = clk i) by (apply Z.mod_small, Hu); (destruct (Z.lt_ge_cases (clk i) deadline) as [Hlt|Hge];
      [|exists 0%nat, 0, s; split; [lia|]; apply loop_ends_now; [|now left|done]; intros fuel;
        rewrite serve_loop_step, Hui; now destruct (Z.ltb_spec (clk i) deadline); [lia|]]).
  { rewrite Nat.add_0_r in Hk. lia. }
  rewrite Nat.add_succ_r, <- Nat.add_succ_l in Hk.
  set (w := srv_world s). set (s1 := set_world (tick w) s).
  assert (Hos : w_env w = os) by apply Hs.
  assert (Hs1 : serving s0 s1).
  { destruct Hs as [[Hw HJ] HS]. split; [split|]; [cbn; quiet|apply (served_framed _ _ _ s HJ); quiet|].
    transitivity s; [done|]. split; [done|done|done]. }
  assert (Hstep : forall fuel, run (serve_loop clk fuel i deadline buf from) s =
    run (let next buf from := match fuel with O => undef | S fuel => serve_loop clk fuel (S i) deadline buf from end in
         if env_poll os (w_tick w) <? 0 then (if env_poll_eintr os (w_tick w) then next buf from else Ret 1)
         else if env_poll os (w_tick w) =? 0 then next buf from
         else
           let* '(n, buf, from) := net_recv buf TUND_MAX_PKT from in
           (if 0 <? n then server_handle_packet buf n from else Ret tt) ;;
           next buf from) s1).
  { intros fuel. rewrite serve_loop_step, Hui. destruct (Z.ltb_spec (clk i) deadline); [|lia]. cbn [negb]. cbv zeta.
    rewrite run_bind. cbn [on_world' on_world atomic run ask get_world srv_has_world]. fold w. rewrite Hos. reflexivity. }
  assert (Hnext : forall buf' from' s2, recv_buf buf' -> addr_ok from' -> serving s0 s2 ->
    (forall fuel, run (serve_loop clk fuel i deadline buf from) s = match fuel with O => None | S fuel => run (serve_loop clk fuel (S i) deadline buf' from') s2 end) ->
    exists passes r s', (passes <= S k)%nat /\ loop_ends deadline i passes s0 (fun fuel => serve_loop clk fuel i deadline buf from) s r s').
  { intros buf' from' s2 Hb' Hf' Hs2 Hrun. destruct (IH (S i) buf' from' s0 s2 Hk Hb' Hf' Hs2) as (passes & r & s' & Hp & HE).
    exists (S passes), r, s'. split; [lia|]. exact (loop_ends_next _ _ _ _ _ _ _ s2 _ _ Hlt Hrun HE). }
  destruct (Z.ltb_spec (env_poll os (w_tick w)) 0) as [Hneg|_].
  { destruct (env_poll_eintr os (w_tick w)) eqn:Ee.
    - apply (Hnext buf from s1); [done|done|done|]. intros fuel. rewrite Hstep. now destruct fuel.
    - exists 0%nat, 1, s1. split; [lia|]. apply loop_ends_now; [|right; split; [done|]; split; [done|now exists (w_tick w)]|done].
      intros fuel. now rewrite Hstep. }
  destruct (env_poll os (w_tick w) =? 0).
  { apply (Hnext buf from s1); [done|done|done|]. intros fuel. rewrite Hstep. now destruct fuel. }
  destruct (wp_serve_one buf from s0 s1 (fun '(buf', from') s' => recv_buf buf' /\ addr_ok from' /\ serving s0 s') Hbuf Hfrom Hs1 (fun _ _ _ H1 H2 H3 => conj H1 (conj H2 H3)))
    as ([buf' from'] & s2 & Hrun & Hb' & Hf' & Hs2).
  apply (Hnext buf' from' s2 Hb' Hf' Hs2). intros fuel. rewrite Hstep. clear -Hrun.
  cbv zeta. rewrite run_bind in Hrun. rewrite run_bind. destruct (run (net_recv _ _ _) s1) as [[[[n b] f] s3]|]; [|done].
  rewrite run_bind in Hrun. rewrite run_bind. destruct (run (if 0 <? n then _ else _) s3) as [[[] s4]|]; [|done].
  cbn in Hrun. injection Hrun as -> -> ->. now destruct fuel.
Qed.
End loop.

(** * Properties *)

Section claims.
Context `{M : Monocypher} {ML : MonocypherLaws M}.

Lemma fresh_server_ok fd port : srv_ok (set_sockfd fd (fresh_server port)).
Proof.
  pose proof empty_server_ok as [H1 H2 H3 _].
  split; [exact H1|exact H2|exact H3|]. now exists [].
Qed.

(** When the server is to end, in milliseconds. *)
Definition forge_deadline (clk : nat -> Z) (opts : peerforge_server_options_t) : Z :=
  u64 (clk 0%nat + fs_duration_sec opts * 1000).

Lemma deadline_is clk opts : is_u64 (clk 0%nat) -> server_ranges opts ->
  u64 (u64 (clk 0%nat) + u64 (u64 (fs_duration_sec opts) * 1000)) = forge_deadline clk opts.
Proof.
  intros Hc [_ Hd]. unfold forge_deadline. words.
  now rewrite (Z.mod_small (fs_duration_sec opts)), (Z.mod_small (clk 0%nat)), (Z.mod_small (fs_duration_sec opts * 1000)) by lia.
Qed.

(** Readings from number [n] on are past the deadline. *)
Lemma deadline_reached n clk opts i :
  hourly n clk -> server_ranges opts -> (n <= i)%nat -> forge_deadline clk opts <= clk i.
Proof.
  intros H [_ Hd] Hi. pose proof (hourly_advances _ _ H 0). pose proof (hourly_later _ _ _ _ H Hi).
  pose proof (hourly_later _ _ 0 i H ltac:(lia)). pose proof (hourly_range _ _ H 0%nat). cbn [Nat.add] in *.
  unfold forge_deadline. set (duration := fs_duration_sec opts) in *. words.
  destruct (Z.lt_ge_cases (clk 0%nat + duration * 1000) (2 ^ 64)); [rewrite Z.mod_small by lia; lia|].
  rewrite (Z.mod_eq _ (2 ^ 64)) by lia.
  replace ((clk 0%nat + duration * 1000) / 2 ^ 64) with 1; [lia|].
  apply Z.div_unique with (clk 0%nat + duration * 1000 - 2 ^ 64); lia.
Qed.

(** The events of a socket on this port that was opened and closed. *)
Definition listened (port : Z) (t t0 : list event) : Prop :=
  exists fd r r', 0 <= fd /\ 0 <= r' /\
    t = EvClose fd :: EvSys (Bind fd (htons port)) r' :: EvSys (SetReuseAddr fd) r :: EvOpen fd :: t0.

(** What the test server does after [passes] passes of its loop. *)
Record serves (clk : nat -> Z) (opts : peerforge_server_options_t) (passes : nat) (s : srv_state) (code : Z) (s' : srv_state) : Prop := {
  serves_in_time : forall j, (1 <= j <= passes)%nat -> clk j < forge_deadline clk opts;
  serves_cause :
    (code = 0 /\ forge_deadline clk opts <= clk (S passes) /\ listened (fs_port opts) (devices (srv_world s')) (devices (srv_world s))) \/
    (code = 1 /\ clk (S passes) < forge_deadline clk opts /\ poll_failed (w_env (srv_world s)) /\
     listened (fs_port opts) (devices (srv_world s')) (devices (srv_world s))) \/
    (code = 1 /\ passes = 0%nat /\ exists tk, env_sys (w_env (srv_world s)) tk < 0);
  serves_closed : same_open (w_trace (srv_world s')) (w_trace (srv_world s));
  serves_ok : srv_ok (srv s') /\ world_ok (srv_world s')
}.

(** The server's structure is [v], the system [os], and these are the device
    events. *)
Definition binding (v : server_t) (os : env) (t : list event) (s : srv_state) : Prop :=
  srv s = v /\ books (fun w => w_env w = os) t (srv_world s).

#[local] Instance binding_accounts v os : Accounts (binding v os) (fun _ => True).
Proof.
  pose proof (quiet_os os). split.
  - intros t w s [H1 H2] Hq. split; [done|]. exact (quiet_books _ t (srv_world s) w H2 Hq).
  - intros t e w s [H1 H2] He _ E1 E2 E3 E4. split; [done|]. pose proof (allows_os os e).
    exact (books_event _ t e (srv_world s) w H2 He E1 E2 E3 E4).
Qed.

(** The socket, or the failure to get one. *)
Lemma bind_runs opts s : world_ok (srv_world s) ->
  let os := w_env (srv_world s) in let t0 := devices (srv_world s) in
  exists fd s1,
    (forall clk fuel, run (run_server clk fuel opts) s =
       run (if negb (sock_valid fd) then Ret 1
            else
              let* buf := alloc TUND_MAX_PKT in
              let* result := serve_loop clk fuel 1 (u64 (u64 (clk 0%nat) + u64 (u64 (fs_duration_sec opts) * 1000))) buf zero_addr in
              sys_close fd ;;
              Ret result) s1) /\
    ((fd < 0 /\ (exists tk, env_sys os tk < 0) /\ world_ok (srv_world s1) /\ srv s1 = set_sockfd fd (fresh_server (fs_port opts)) /\
        exists t', same_open t' t0 /\ books (fun w => w_env w = os) t' (srv_world s1)) \/
     (0 <= fd /\ exists t1, world_ok (srv_world s1) /\ srv s1 = set_sockfd fd (fresh_server (fs_port opts)) /\
        books (fun w => w_env w = os) t1 (srv_world s1) /\
        exists r r', 0 <= r' /\ t1 = EvSys (Bind fd (htons (fs_port opts))) r' :: EvSys (SetReuseAddr fd) r :: EvOpen fd :: t0)).
Proof.
  intros Hw os t0. set (fresh := fresh_server (fs_port opts)). set (s0 := SrvState (srv_world s) fresh).
  assert (Hbad : forall t s tk, binding fresh os t s -> env_sys (w_env (get_world s)) tk < 0 -> exists tk, env_sys os tk < 0).
  { intros t s1 tk (_ & E & _) H. cbn in H. rewrite E in H. now exists tk. }
  destruct (wp_create_socket (binding fresh os) (fun _ => True) ltac:(done) ltac:(done) ltac:(done) (exists tk, env_sys os tk < 0) Hbad t0 (fs_port opts) s0
    (fun fd s1 => (fd < 0 /\ (exists tk, env_sys os tk < 0) /\ exists t', same_open t' t0 /\ inv (binding fresh os t') s1) \/
       (0 <= fd /\ exists r r', 0 <= r' /\
          inv (binding fresh os (EvSys (Bind fd (htons (fs_port opts))) r' :: EvSys (SetReuseAddr fd) r :: EvOpen fd :: t0)) s1)))
    as (fd & s1 & Hrun & HQ).
  - now split.
  - intros t' s1 Hno Ht Hs1. left. split; [lia|]. split; [done|]. now exists t'.
  - intros fd r r' s1 Hfd Hr' Hs1. right. split; [done|]. now exists r, r'.
  - exists fd, (SrvState (srv_world s1) (set_sockfd fd (srv s1))). split.
    + intros clk fuel. unfold run_server. rewrite run_bind. cbn [store atomic run]. fold fresh s0.
      rewrite run_bind, Hrun, run_bind. reflexivity.
    + destruct HQ as [(Hfd & Hno & t' & Ht' & Hw1 & Hv1 & Hb1)|(Hfd & r & r' & Hr' & Hw1 & Hv1 & Hb1)]; [left|right]; cbn [srv srv_world]; rewrite Hv1.
      * split; [done|]. split; [exact Hno|]. eauto 6.
      * split; [done|]. eauto 10.
Qed.

(** From the first reading of the clock to the end of the loop. *)
Lemma serve_from clk os opts n fd s0 s : hourly n clk -> server_ranges opts -> serving os s0 s ->
  exists code passes s', (passes <= n)%nat /\
    (forall fuel, run (let* buf := alloc TUND_MAX_PKT in
        let* result := serve_loop clk fuel 1 (u64 (u64 (clk 0%nat) + u64 (u64 (fs_duration_sec opts) * 1000))) buf zero_addr in
        sys_close fd ;; Ret result) s =
      if (fuel <? passes)%nat then None else Some (code, SrvState (emit (EvClose fd) (srv_world s')) (srv s'))) /\
    (forall j, (1 <= j <= passes)%nat -> clk j < forge_deadline clk opts) /\
    ((code = 0 /\ forge_deadline clk opts <= clk (S passes)) \/
     (code = 1 /\ clk (S passes) < forge_deadline clk opts /\ poll_failed os)) /\
    serving os s0 s'.
Proof.
  intros Hclk Hr Hs. rewrite deadline_is by (done || apply Hclk).
  destruct (serving_run os (alloc TUND_MAX_PKT) (fun buf => pkt_buf buf /\ zlen buf = TUND_MAX_PKT) s0 s
    (fun buf s1 => recv_buf buf /\ serving os s0 s1)) as (buf & s1 & Hrun & Hbuf & Hs1).
  { apply alloc_pkt. apply _. } { apply steady_alloc; apply _. } { exact Hs. } { intros buf s1 Hs1 [[Hb _] Hz]. now split; [split|]. }
  destruct (serve_loop_ends clk os (forge_deadline clk opts) ltac:(apply Hclk) n 1 buf zero_addr s0 s1)
    as (passes & code & s' & Hp & [H1 H2 H3 H4]); [apply deadline_reached with n; [done|done|lia]|done|repeat split; cbn; words; lia|done|].
  exists code, passes, s'. split; [done|]. split; [|split; [intros j Hj; apply H2; lia|now split]].
  intros fuel. rewrite run_bind, Hrun, run_bind, H1. now destruct (fuel <? passes)%nat.
Qed.

(** C25: the test server serves for the time of its option -t, without undefined
    behaviour and whatever arrives. Every pass of its loop starts before the
    deadline, which is that many seconds after the first reading of the clock;
    it returns 0 exactly because a reading is at or past the deadline, and 1
    only because a poll failed (and was not interrupted) or no socket could be
    had. It never fails to end: the number of passes is at most that of the
    readings in which the clock moves on by an hour. The socket it listened on
    is bound to its port and closed, and its peer table is well formed. *)
Theorem forge_server_sound (s : srv_state) (n : nat) (clk : nat -> Z) (opts : peerforge_server_options_t)
    (Hw : world_ok (srv_world s)) (Hclk : hourly n clk) (Hr : server_ranges opts) :
  exists code passes s', (passes <= n)%nat /\
    (forall fuel, run (run_server clk fuel opts) s = if (fuel <? passes)%nat then None else Some (code, s')) /\
    serves clk opts passes s code s'.
Proof.
  set (os := w_env (srv_world s)). set (t0 := devices (srv_world s)).
  assert (Hopen : forall s', same_open (devices (srv_world s')) t0 -> same_open (w_trace (srv_world s')) (w_trace (srv_world s))).
  { intros s' Ht fd. rewrite <- !(balance_devices fd (w_trace _)). apply Ht. }
  destruct (bind_runs opts s Hw) as (fd & s1 & Hprefix & [(Hfd & Hcause & Hs1)|(Hfd & t1 & Hs1)]).
  - exists 1, 0%nat, s1. split; [lia|]. destruct Hs1 as (Hw1 & Hv1 & t' & Ht' & [_ Hd1]). split.
    { intros fuel. rewrite Hprefix. unfold sock_valid. now destruct (Z.leb_spec 0 fd); [lia|]. }
    split; [lia|now do 2 right|apply Hopen; now rewrite Hd1|]. split; [rewrite Hv1; apply fresh_server_ok|done].
  - destruct Hs1 as (Hw1 & Hv1 & [He1 Hd1] & Ht1).
    assert (Hserve : serving os s1 s1).
    { split; [|reflexivity]. split; [done|]. split; [rewrite Hv1; apply fresh_server_ok|]. now split. }
    destruct (serve_from clk os opts n fd s1 s1 Hclk Hr Hserve) as (code & passes & s2 & Hp & Hloop & Hearly & Hends & [[Hw2 (Hok2 & _)] [_ Hd2 _]]).
    cbn [get_world srv_has_world] in Hd2. rewrite Hd1 in Hd2.
    set (s3 := SrvState (emit (EvClose fd) (srv_world s2)) (srv s2)).
    assert (Hlist : listened (fs_port opts) (devices (srv_world s3)) t0).
    { destruct Ht1 as (r & r' & Hr' & ->). exists fd, r, r'. split; [done|]. split; [done|]. change (EvClose fd :: devices (srv_world s2) = EvClose fd :: EvSys (Bind fd (htons (fs_port opts))) r' :: EvSys (SetReuseAddr fd) r :: EvOpen fd :: t0).
      now rewrite Hd2. }
    exists code, passes, s3. split; [done|]. split.
    { intros fuel. rewrite Hprefix. unfold sock_valid. destruct (Z.leb_spec 0 fd); [|lia]. cbn [negb]. rewrite Hloop. now destruct (fuel <? passes)%nat. }
    split; [exact Hearly| | |split; [done|cbn; quiet]].
    + destruct Hends as [[-> H]|(-> & H & Hpoll)]; [now left|right; left]. now repeat split.
    + apply Hopen. destruct Hlist as (f & r & r' & _ & _ & ->). intros x. cbn. lia.
Qed.
End claims.

(** * A concrete run *)

(** A clock that moves by five seconds per reading; the server is to run for
    twenty. *)
Definition five_seconds (i : nat) : Z := Z.min (5000 * Z.of_nat i) (2 ^ 64 - 1).

Definition twenty_seconds : peerforge_server_options_t := ForgeServerOptions 9909 (Some (arg "a-long-random-key")) 20.

(** Three passes, then the deadline: with fuel for two there is no result. *)
Example twenty_seconds_run :
  option_map fst (run (run_server (M := SampleCipher.sample) five_seconds 3 twenty_seconds) unborn) = Some 0 /\
  run (run_server (M := SampleCipher.sample) five_seconds 2 twenty_seconds) unborn = None.
Proof. split; vm_compute; reflexivity. Qed.

(** The same with a client that registers: each pass receives its REGISTER, the
    first one gives it a slot and the replays change nothing. *)
Definition visited : srv_state :=
  let wire := wire_bytes (M := SampleCipher.sample) (replicate 32 7) MSG_REGISTER (str "forge-001") 5 (replicate 24 1) in
  let e := w_env calm_world in
  SrvState (World (Env (env_open e) (env_read e) 0 (env_time e) (env_now_ms e) (env_sendto e)
    (fun _ n => if zlen wire <=? n then RecvData wire (SockAddr 2 0x3930 0x0101A8C0) else RecvAgain) (fun _ => 1) (fun _ => false)
    (env_tun_read e) (env_tun_write e) (env_stack e) (env_sys e) (env_ifname e) (env_ifflags e) (env_resolve e))
    0 0 (-1) true (replicate 32 7) LOG_LEVEL_INFO false true []) (fresh_server 0).

Example visited_run :
  option_map (fun '(code, s) => (code, peer_count (srv s), map virt_ip (List.filter active (peers (srv s)))))
    (run (run_server (M := SampleCipher.sample) five_seconds 3 twenty_seconds) visited) = Some (0, 1, [htonl TUND_IP_START]).
Proof. vm_compute. reflexivity. Qed.

Example forge_server_sound_witness :
  exists code passes s', (passes <= 720)%nat /\
    (forall fuel, run (run_server (M := SampleCipher.sample) five_seconds fuel twenty_seconds) unborn =
       if (fuel <? passes)%nat then None else Some (code, s')) /\
    serves five_seconds twenty_seconds passes unborn code s'.
Proof.
  apply (forge_server_sound (M := SampleCipher.sample) unborn 720 five_seconds twenty_seconds); [exact calm_world_ok| |split; cbn; lia].
  split; intros i; unfold five_seconds; [words|..]; lia.
Defined.
