(* ===== verification/WinTun.v ===== *)
(** The Windows TUN device ([tun/windows]): the loader of [wintun.dll], opening,
    closing, reading and writing the adapter, the commands and tables that
    configure it.  The answers of Windows and of the driver are an oracle;
    every handle and buffer taken or given back is an event. *)
From stdpp Require Import base list numbers option.
From S2P Require Import Prelude Prog World Consts Sequence Wire Events Peer Net Messages Boot.

(** * Windows *)

(** A row of the address table or of the route table. *)
Record ip_row : Type := IpRow { row_luid : Z; row_family : Z; row_addr : Z; row_prefix : Z }.

(** [WintunReceivePacket]: a packet, or [GetLastError] after [NULL]. *)
Inductive wintun_result : Type := Packet (l : bytes) | NoMoreItems | ReceiveError (err : Z).

(** Answers by number of the call; handles are 0 for [NULL]. *)
Record win_os : Type := WinOs {
  os_load : nat -> Z;                     (** [LoadLibraryW] *)
  os_proc : nat -> bytes -> bool;         (** [GetProcAddress] is not [NULL] *)
  os_open_adapter : nat -> Z;
  os_create_adapter : nat -> Z;
  os_start_session : nat -> Z;
  os_read_event : nat -> Z;
  os_luid : nat -> Z;
  os_luid_name : nat -> Z * bytes;        (** [ConvertInterfaceLuidToNameW]: status, and its buffer as UTF-8 *)
  os_receive : nat -> wintun_result;
  os_allocate : nat -> Z -> bool;         (** [WintunAllocateSendPacket] is not [NULL] *)
  os_addresses : nat -> option (list ip_row);  (** [GetUnicastIpAddressTable], [None] on failure *)
  os_routes : nat -> option (list ip_row);     (** [GetIpForwardTable2] *)
  os_add_route : nat -> Z;                (** status of [CreateIpForwardEntry2] *)
  os_mtu : nat -> option Z;               (** [NlMtu] of [GetIpInterfaceEntry] *)
  os_process : nat -> bool;               (** [CreateProcessA] succeeds *)
  os_wait : nat -> bool;                  (** [WaitForSingleObject] does not fail *)
  os_exit_code : nat -> option Z;         (** [GetExitCodeProcess] *)
  os_message : nat -> Z * bytes           (** [GetLastError], and the text [FormatMessageA] leaves for it *)
}.

Inductive win_event : Type :=
| WAdapter (h : Z)                        (** an adapter is opened or created *)
| WCloseAdapter (h : Z)
| WSession (h : Z)
| WEndSession (h : Z)
| WReceived (l : bytes)                   (** a packet of the ring is borrowed *)
| WReleased
| WSent (l : bytes)
| WTable                                  (** a table is allocated *)
| WFreeTable
| WRoute (luid network prefix metric : Z) (** an on-link route is requested *)
| WProcess (cmd : bytes)                  (** a process is started: two handles *)
| WCloseHandles
| WSleep (ms : Z).

(** The process: besides its world the handle of the library and the function
    pointers resolved so far. *)
Record win : Type := Win {
  wn_world : world;
  wn_os : win_os;
  wn_tick : nat;
  wn_dll : Z;                             (** [g_wintun_dll] *)
  wn_procs : list bytes;
  wn_trace : list win_event               (** newest first *)
}.

#[export] Instance win_has_world : HasWorld win := {|
  get_world := wn_world;
  set_world w s := Win w (wn_os s) (wn_tick s) (wn_dll s) (wn_procs s) (wn_trace s);
  get_set_world _ _ := eq_refl;
  set_set_world _ _ _ := eq_refl;
  set_get_world s := match s with Win _ _ _ _ _ _ => eq_refl end
|}.

(** One answer; [ev] is what it adds to the trace. *)
Definition win_ask {A} (f : win_os -> nat -> A) (ev : A -> list win_event) : prog win A :=
  atomic (fun s => let a := f (wn_os s) (wn_tick s) in
    Some (a, Win (wn_world s) (wn_os s) (S (wn_tick s)) (wn_dll s) (wn_procs s) (ev a ++ wn_trace s))).

(** A call without an answer. *)
Definition win_note (ev : win_event) : prog win unit :=
  atomic (fun s => Some (tt, Win (wn_world s) (wn_os s) (wn_tick s) (wn_dll s) (wn_procs s) (ev :: wn_trace s))).

(** A call through a function pointer of the library: undefined as long as the
    pointer is [NULL]. *)
Definition wintun_call {A} (symbol : bytes) (f : win_os -> nat -> A) (ev : A -> list win_event) : prog win A :=
  let* resolved := atomic (fun s => Some (bool_decide (symbol ∈ wn_procs s), s)) in
  if (resolved : bool) then win_ask f ev else undef.

Definition wintun_do (symbol : bytes) (ev : win_event) : prog win unit :=
  let* resolved := atomic (fun s => Some (bool_decide (symbol ∈ wn_procs s), s)) in
  if (resolved : bool) then win_note ev else undef.

Definition handle_event (ev : Z -> win_event) (h : Z) : list win_event := if h =? 0 then [] else [ev h].

(** * [wintun_loader.c] *)

Definition WintunCreateAdapter : bytes := str "WintunCreateAdapter".
Definition WintunCloseAdapter : bytes := str "WintunCloseAdapter".
Definition WintunOpenAdapter : bytes := str "WintunOpenAdapter".
Definition WintunGetAdapterLUID : bytes := str "WintunGetAdapterLUID".
Definition WintunStartSession : bytes := str "WintunStartSession".
Definition WintunEndSession : bytes := str "WintunEndSession".
Definition WintunGetReadWaitEvent : bytes := str "WintunGetReadWaitEvent".
Definition WintunReceivePacket : bytes := str "WintunReceivePacket".
Definition WintunReleaseReceivePacket : bytes := str "WintunReleaseReceivePacket".
Definition WintunAllocateSendPacket : bytes := str "WintunAllocateSendPacket".
Definition WintunSendPacket : bytes := str "WintunSendPacket".

Definition wintun_symbols : list bytes :=
  [WintunCreateAdapter; WintunCloseAdapter; WintunOpenAdapter; WintunGetAdapterLUID; WintunStartSession;
   WintunEndSession; WintunGetReadWaitEvent; WintunReceivePacket; WintunReleaseReceivePacket;
   WintunAllocateSendPacket; WintunSendPacket].

(** [WINTUN_LOAD] for each symbol in turn. *)
Fixpoint WINTUN_LOAD (symbols : list bytes) (k : prog win Z) : prog win Z :=
  match symbols with
  | [] => k
  | symbol :: symbols =>
      let* found := win_ask (fun o t => os_proc o t symbol) (fun _ => []) in
      if negb found then
        LOG LOG_LEVEL_ERROR [symbol ++ [0]] ;; Ret (-1)
      else
        atomic (fun s => Some (tt, Win (wn_world s) (wn_os s) (wn_tick s) (wn_dll s) (symbol :: wn_procs s) (wn_trace s))) ;;
        WINTUN_LOAD symbols k
  end.

Definition set_dll (h : Z) : prog win unit :=
  atomic (fun s => Some (tt, Win (wn_world s) (wn_os s) (wn_tick s) h (wn_procs s) (wn_trace s))).

Definition wintun_load : prog win Z :=
  let* dll := atomic (fun s => Some (wn_dll s, s)) in
  if negb (dll =? 0) then Ret 0
  else
    let* h := win_ask os_load (fun _ => []) in
    set_dll h ;;
    if h =? 0 then
      LOG LOG_LEVEL_ERROR [] ;; Ret (-1)
    else
      WINTUN_LOAD wintun_symbols (
        LOG LOG_LEVEL_INFO [] ;; Ret 0).

Definition wintun_open_adapter : prog win Z := wintun_call WintunOpenAdapter os_open_adapter (handle_event WAdapter).
Definition wintun_create_adapter : prog win Z := wintun_call WintunCreateAdapter os_create_adapter (handle_event WAdapter).
Definition wintun_close_adapter (adapter : Z) : prog win unit :=
  wintun_do WintunCloseAdapter (WCloseAdapter adapter).

(** Always [true]; the identifier. *)
Definition wintun_get_adapter_luid : prog win (bool * Z) :=
  let* luid := wintun_call WintunGetAdapterLUID os_luid (fun _ => []) in
  Ret (true, luid).

Definition wintun_start_session : prog win Z := wintun_call WintunStartSession os_start_session (handle_event WSession).
Definition wintun_end_session (session : Z) : prog win unit :=
  wintun_do WintunEndSession (WEndSession session).
Definition wintun_get_read_wait_event : prog win Z := wintun_call WintunGetReadWaitEvent os_read_event (fun _ => []).
Definition wintun_receive_packet : prog win wintun_result :=
  wintun_call WintunReceivePacket os_receive (fun r => match r with Packet l => [WReceived l] | _ => [] end).
Definition wintun_release_receive_packet : prog win unit :=
  wintun_do WintunReleaseReceivePacket WReleased.
Definition wintun_allocate_send_packet (len : Z) : prog win bool :=
  wintun_call WintunAllocateSendPacket (fun o t => os_allocate o t len) (fun _ => []).
Definition wintun_send_packet (packet : bytes) : prog win unit :=
  wintun_do WintunSendPacket (WSent packet).

(** * [process.c] *)

(** The loop at the end of [win32_errstr], on the string. *)
Definition trimmed (c : Z) : bool := (c =? 10) || (c =? 13) || (c =? 46).
Fixpoint drop_trimmed (l : bytes) : bytes :=
  match l with
  | [] => []
  | c :: l' => if trimmed c then drop_trimmed l' else l
  end.

(** The text for error [err], when [FormatMessageA] left the string [msg]. *)
Definition win32_errstr (msg : bytes) (err : Z) : bytes :=
  let buf := match msg with [] => str "Windows error " ++ dec err | _ => msg end in
  rev (drop_trimmed (rev buf)) ++ [0].

Definition strchr (s : bytes) (c : Z) : bool := existsb (Z.eqb c) s.

(** What [snprintf] leaves in a buffer of [n] bytes. *)
Definition printed (n : nat) (text : bytes) : bytes := take (n - 1) text ++ [0].

(** An error message of the system for a failed call, logged with the command. *)
Definition log_win_error (full : bytes) : prog win unit :=
  let* '(err, msg) := win_ask os_message (fun _ => []) in
  LOG LOG_LEVEL_ERROR [full; win32_errstr msg err].

(** [exe] and [args] are strings; the handles of a started process are closed
    on every path. *)
Definition run_cmd (exe args : bytes) : prog win Z :=
  let* '(e, a) := local (let? e := c_str exe in let? a := c_str args in Some (e, a)) in
  let text := if strchr e 32 || strchr e 9 then [34] ++ e ++ [34; 32] ++ a else e ++ [32] ++ a in
  if 4096 <=? zlen text then
    LOG LOG_LEVEL_ERROR [exe] ;; Ret (-1)
  else
    let full := printed 4096 text in
    LOG LOG_LEVEL_DEBUG [full] ;;
    let* started := win_ask os_process (fun ok => if (ok : bool) then [WProcess text] else []) in
    if negb started then
      log_win_error full ;; Ret (-1)
    else
      let* waited := win_ask os_wait (fun _ => []) in
      if negb waited then
        log_win_error full ;; win_note WCloseHandles ;; Ret (-1)
      else
        let* code := win_ask os_exit_code (fun _ => []) in
        match code with
        | None => log_win_error full ;; win_note WCloseHandles ;; Ret (-1)
        | Some code =>
            win_note WCloseHandles ;;
            if negb (code =? 0) then
              LOG LOG_LEVEL_ERROR [full] ;; Ret (-1)
            else
              LOG LOG_LEVEL_DEBUG [full] ;; Ret 0
        end.

(** * [tun.c] *)

(** [tun_device_t] of the Windows build. *)
Record win_device : Type := WinDevice {
  wd_adapter : Z; wd_session : Z; wd_read_event : Z;
  wd_luid : Z; wd_has_luid : bool;
  wd_ifname : bytes; wd_mtu : Z
}.

(** What is known of the adapter: the name for [ifname], the identifier. *)
Definition adapter_name : prog win (bytes * option Z) :=
  let* '(have, luid) := wintun_get_adapter_luid in
  if (have : bool) then
    let* '(status, text) := win_ask os_luid_name (fun _ => []) in
    let ifname_a := if negb (status =? 0) then take 255 text else [] in
    Ret (match ifname_a with [] => str "tund" | _ => ifname_a end, Some luid)
  else Ret (str "tund", None).

Definition win_tun_open (dev : win_device) : prog win (Z * win_device) :=
  let dev := WinDevice 0 0 0 (wd_luid dev) false (wd_ifname dev) (wd_mtu dev) in
  let* r := wintun_load in
  if r <? 0 then Ret (-1, dev)
  else
    let* adapter := wintun_open_adapter in
    let* adapter := if adapter =? 0 then wintun_create_adapter else Ret adapter in
    if adapter =? 0 then
      LOG LOG_LEVEL_ERROR [] ;; Ret (-1, dev)
    else
      let* session := wintun_start_session in
      if session =? 0 then
        LOG LOG_LEVEL_ERROR [] ;;
        wintun_close_adapter adapter ;;
        Ret (-1, dev)
      else
        let* read_event := wintun_get_read_wait_event in
        if read_event =? 0 then
          LOG LOG_LEVEL_ERROR [] ;;
          wintun_end_session session ;;
          wintun_close_adapter adapter ;;
          Ret (-1, dev)
        else
          let* '(nm, luid) := adapter_name in
          let nm := printed (Z.to_nat TUN_IFNAME_MAX) nm in
          let dev := WinDevice adapter session read_event
                       (match luid with Some l => l | None => wd_luid dev end)
                       (match luid with Some _ => true | None => false end)
                       nm TUND_TUN_MTU in
          LOG LOG_LEVEL_INFO [nm] ;; Ret (0, dev).

Definition win_tun_close (dev : win_device) : prog win unit :=
  (if negb (wd_session dev =? 0) then wintun_end_session (wd_session dev) else Ret tt) ;;
  (if negb (wd_adapter dev =? 0) then wintun_close_adapter (wd_adapter dev) else Ret tt) ;;
  LOG LOG_LEVEL_INFO [wd_ifname dev].

(** The loop of [tun_read], as long as there is nothing to read. *)
Fixpoint win_read_loop (fuel : nat) (buf : bytes) (bufsize : Z) : prog win (Z * bytes) :=
  let* r := wintun_receive_packet in
  match r with
  | Packet l =>
      let n := if zlen l <=? bufsize then zlen l else bufsize in
      let* buf := local (let? src := mem_read l 0 n in mem_write buf 0 src) in
      wintun_release_receive_packet ;;
      Ret (n, buf)
  | ReceiveError _ => LOG LOG_LEVEL_WARN [] ;; Ret (-1, buf)
  | NoMoreItems =>
      win_note (WSleep 500) ;;
      let* running := tund_is_running in
      if negb running then Ret (-1, buf)
      else match fuel with O => undef | S fuel => win_read_loop fuel buf bufsize end
  end.

Definition win_tun_read (fuel : nat) (dev : win_device) (buf : bytes) (bufsize : Z) : prog win (Z * bytes) :=
  if wd_session dev =? 0 then Ret (-1, buf) else win_read_loop fuel buf bufsize.

Definition win_tun_write (dev : win_device) (buf : bytes) (len : Z) : prog win Z :=
  if wd_session dev =? 0 then Ret (-1)
  else
    let* got := wintun_allocate_send_packet len in
    if negb got then Ret (-1)
    else
      let* packet := local (mem_read buf 0 len) in
      wintun_send_packet packet ;;
      Ret len.

(** * [config.c] *)

(** The [while] of [prefix_len_from_netmask]: a mask has at most 32 leading
    ones. *)
Fixpoint prefix_loop (fuel : nat) (mask prefix : Z) : Z :=
  match fuel with
  | O => prefix
  | S fuel => if negb (Z.land mask 0x80000000 =? 0) then prefix_loop fuel (u32 (Z.shiftl mask 1)) (u8 (prefix + 1)) else prefix
  end.

Definition prefix_len_from_netmask (netmask_nbo : Z) : Z := prefix_loop 33 (ntohl netmask_nbo) 0.

Definition same_luid (a b : Z) : bool := a =? b.

(** The test of both table loops. *)
Definition row_matches (dev : win_device) (addr prefix : Z) (r : ip_row) : bool :=
  same_luid (row_luid r) (wd_luid dev) && (row_family r =? AF_INET) && (row_addr r =? addr) && (row_prefix r =? prefix).

(** A table with a status, searched and freed. *)
Definition table_has (ask_table : win_os -> nat -> option (list ip_row)) (dev : win_device) (addr netmask : Z) : prog win bool :=
  if negb (wd_has_luid dev) then Ret false
  else
    let* table := win_ask ask_table (fun r => match r with Some _ => [WTable] | None => [] end) in
    match table with
    | None => LOG LOG_LEVEL_DEBUG [] ;; Ret false
    | Some rows =>
        let prefix := prefix_len_from_netmask netmask in
        let found := existsb (row_matches dev addr prefix) rows in
        win_note WFreeTable ;;
        Ret found
    end.

Definition windows_ip_config_applied (dev : win_device) (ip netmask : Z) : prog win bool := table_has os_addresses dev ip netmask.
Definition windows_route_applied (dev : win_device) (network netmask : Z) : prog win bool := table_has os_routes dev network netmask.

Definition ERROR_OBJECT_ALREADY_EXISTS : Z := 5010.

Definition windows_add_onlink_route (dev : win_device) (network netmask : Z) : prog win bool :=
  if negb (wd_has_luid dev) then Ret false
  else
    let* status := win_ask os_add_route
      (fun _ => [WRoute (wd_luid dev) network (prefix_len_from_netmask netmask) 2]) in
    if (status =? 0) || (status =? ERROR_OBJECT_ALREADY_EXISTS) then Ret true
    else LOG LOG_LEVEL_DEBUG [] ;; Ret false.

Definition windows_mtu_applied (dev : win_device) (mtu : Z) : prog win bool :=
  if negb (wd_has_luid dev) then Ret false
  else
    let* r := win_ask os_mtu (fun _ => []) in
    match r with
    | None => LOG LOG_LEVEL_DEBUG [] ;; Ret false
    | Some NlMtu => Ret (NlMtu =? u32 mtu)
    end.

(** [for (int i = 0; i < 20; i++)] of the three functions below. *)
Fixpoint wait_for (n : nat) (applied : prog win bool) : prog win bool :=
  match n with
  | O => Ret false
  | S n =>
      let* ok := applied in
      if (ok : bool) then Ret true
      else win_note (WSleep 100) ;; wait_for n applied
  end.

Definition wait_for_ip (dev : win_device) (ip mask : Z) : prog win bool := wait_for 20 (windows_ip_config_applied dev ip mask).
Definition wait_for_route (dev : win_device) (network mask : Z) : prog win bool := wait_for 20 (windows_route_applied dev network mask).
Definition wait_for_mtu (dev : win_device) (mtu : Z) : prog win bool := wait_for 20 (windows_mtu_applied dev mtu).

(** A step of the configuration that must succeed. *)
Definition netsh (n : nat) (text : bytes) : prog win Z := run_cmd (str "netsh" ++ [0]) (printed n text).

Definition win_tun_set_ip (dev : win_device) (ip netmask : Z) : prog win Z :=
  let* nm := local (c_str (wd_ifname dev)) in
  let text := str "interface ip set address name=" ++ q nm ++ str " static " ++ ip_to_str ip ++ str " " ++ ip_to_str netmask in
  let* r := netsh 2048 text in
  let* ok := if r <? 0 then Ret false else wait_for_ip dev ip netmask in
  if negb ok then
    LOG LOG_LEVEL_ERROR [wd_ifname dev] ;; Ret (-1)
  else
    let net := Z.land (ntohl ip) (ntohl netmask) in
    let net_a := htonl net in
    let* have := windows_route_applied dev net_a netmask in
    let* have := if (have : bool) then Ret true else windows_add_onlink_route dev net_a netmask in
    if negb have then
      LOG LOG_LEVEL_ERROR [ip_to_str_buf net_a] ;; Ret (-1)
    else
      let* reported := wait_for_route dev net_a netmask in
      if negb reported then
        LOG LOG_LEVEL_ERROR [ip_to_str_buf net_a; wd_ifname dev] ;; Ret (-1)
      else
        LOG LOG_LEVEL_INFO [wd_ifname dev; ip_to_str_buf ip; ip_to_str_buf netmask] ;; Ret 0.

(** The code and the device, whose [mtu] is set. *)
Definition win_tun_set_mtu (dev : win_device) (mtu : Z) : prog win (Z * win_device) :=
  let* nm := local (c_str (wd_ifname dev)) in
  let text := str "interface ipv4 set subinterface " ++ q nm ++ str " mtu=" ++ dec mtu ++ str " store=active" in
  let* r := netsh 512 text in
  let* ok := if r <? 0 then Ret false else wait_for_mtu dev mtu in
  if negb ok then
    LOG LOG_LEVEL_ERROR [wd_ifname dev] ;; Ret (-1, dev)
  else
    let dev := WinDevice (wd_adapter dev) (wd_session dev) (wd_read_event dev) (wd_luid dev) (wd_has_luid dev)
                 (wd_ifname dev) mtu in
    LOG LOG_LEVEL_INFO [wd_ifname dev] ;; Ret (0, dev).
