(* ===== verification/WinTunSpec.v ===== *)
(** What the Windows TUN device guarantees: handles are balanced on every path,
    success of the configuration means that Windows reported it, packets arrive
    whole. *)
From stdpp Require Import base list numbers option.
From S2P Require Import Prelude Prog World Consts Sequence Wire Events Peer Net Messages Boot WinTun.

(** * Rules *)

(** All pointers of the library are set. *)
Definition linked (procs : list bytes) : Prop := Forall (fun symbol => symbol ∈ procs) wintun_symbols.

Lemma linked_symbol procs symbol : linked procs -> symbol ∈ wintun_symbols -> symbol ∈ procs.
Proof. intros H Hs. apply (proj1 (Forall_forall _ _) H). now apply list_elem_of_In. Qed.

(** The pointer of one of the symbols. *)
Ltac resolved := eapply linked_symbol; [eassumption|apply list_elem_of_In; cbn [wintun_symbols In]; tauto].

Section rules.
Context (os : win_os).

(** The library's handle, the resolved pointers and the events so far. *)
Definition win_at (dll : Z) (procs : list bytes) (t : list win_event) (s : win) : Prop :=
  wn_os s = os /\ wn_dll s = dll /\ wn_procs s = procs /\ wn_trace s = t.

#[export] Instance win_at_framed dll procs t : Framed (win_at dll procs t).
Proof. intros w s H _. exact H. Qed.

Lemma wp_win_log {A} dll procs t level args (k : prog win A) s K :
  Forall (fun a => exists z, c_str a = Some z) args -> inv (win_at dll procs t) s ->
  (forall s', inv (win_at dll procs t) s' -> wp k K s') -> wp (LOG level args ;; k) K s.
Proof.
  intros Ha Hs HK. apply wp_bind.
  destruct (safe_run (win_at dll procs t) (LOG level args) (fun _ => True) s) as (a & s' & Hr & Hi & _); [apply safe_LOG; [apply _|exact Ha]|done|].
  exists a, s'. auto.
Qed.

Lemma wp_win_ask {A} dll procs t (f : win_os -> nat -> A) ev s (K : A -> win -> Prop) :
  inv (win_at dll procs t) s ->
  (forall tk s', inv (win_at dll procs (ev (f os tk) ++ t)) s' -> K (f os tk) s') -> wp (win_ask f ev) K s.
Proof.
  intros [Hw (<- & H2 & H3 & <-)] HK. eexists _, _. split; [reflexivity|]. apply HK. now split.
Qed.

Lemma wp_win_note dll procs t ev s (K : unit -> win -> Prop) :
  inv (win_at dll procs t) s -> (forall s', inv (win_at dll procs (ev :: t)) s' -> K tt s') -> wp (win_note ev) K s.
Proof.
  intros [Hw (H1 & H2 & H3 & <-)] HK. eexists _, _. split; [reflexivity|]. apply HK. now split.
Qed.

Lemma wp_resolved dll procs t symbol s (K : bool -> win -> Prop) :
  inv (win_at dll procs t) s -> symbol ∈ procs -> K true s ->
  wp (atomic (fun s => Some (bool_decide (symbol ∈ wn_procs s), s))) K s.
Proof.
  intros [_ (_ & _ & H3 & _)] Hin HK. eexists _, _. split; [reflexivity|]. rewrite H3. now rewrite bool_decide_eq_true_2.
Qed.

Lemma wp_wintun_call {A} dll procs t symbol (f : win_os -> nat -> A) ev s (K : A -> win -> Prop) :
  symbol ∈ procs -> inv (win_at dll procs t) s ->
  (forall tk s', inv (win_at dll procs (ev (f os tk) ++ t)) s' -> K (f os tk) s') -> wp (wintun_call symbol f ev) K s.
Proof.
  intros Hin Hs HK. apply wp_bind. eapply wp_resolved; [exact Hs|exact Hin|]. now apply (wp_win_ask dll procs t).
Qed.

Lemma wp_wintun_do dll procs t symbol ev s (K : unit -> win -> Prop) :
  symbol ∈ procs -> inv (win_at dll procs t) s ->
  (forall s', inv (win_at dll procs (ev :: t)) s' -> K tt s') -> wp (wintun_do symbol ev) K s.
Proof.
  intros Hin Hs HK. apply wp_bind. eapply wp_resolved; [exact Hs|exact Hin|]. now apply (wp_win_note dll procs t).
Qed.

(** * The loader *)

Lemma wp_load_symbols dll t (k : prog win Z) s K : forall symbols procs,
  inv (win_at dll procs t) s ->
  (forall procs' s', inv (win_at dll procs' t) s' -> K (-1) s') ->
  (forall s', inv (win_at dll (rev symbols ++ procs) t) s' -> wp k K s') -> wp (WINTUN_LOAD symbols k) K s.
Proof.
  intros symbols. revert s. induction symbols as [|symbol symbols IH]; intros s procs Hs H1 H0; cbn [WINTUN_LOAD]; [now apply H0|].
  apply wp_bind. eapply (wp_win_ask dll procs t); [exact Hs|]. intros tk s1 Hs1. destruct (os_proc os tk symbol); cbn [negb].
  - apply wp_bind. eexists tt, _. split; [reflexivity|].
    eapply (IH _ (symbol :: procs)).
    + destruct Hs1 as [Hw (E1 & E2 & E3 & E4)]. split; [exact Hw|]. cbn. now rewrite E3.
    + exact H1.
    + intros s2 Hs2. apply H0. cbn [rev]. now rewrite <- app_assoc.
  - eapply (wp_win_log dll procs t); [repeat constructor; apply terminated_app|exact Hs1|]. intros s2 Hs2. now apply wp_ret, (H1 procs).
Qed.

(** Success means that the library and all its symbols are there. *)
Lemma wp_wintun_load dll procs t s (K : Z -> win -> Prop) :
  dll = 0 \/ linked procs -> inv (win_at dll procs t) s ->
  (forall dll' procs' s', inv (win_at dll' procs' t) s' -> K (-1) s') ->
  (forall dll' procs' s', dll' <> 0 -> linked procs' -> inv (win_at dll' procs' t) s' -> K 0 s') ->
  wp wintun_load K s.
Proof.
  intros Hl Hs H1 H0. unfold wintun_load. apply wp_bind. eexists _, _. split; [reflexivity|].
  pose proof Hs as [_ (_ & -> & _)]. destruct (Z.eqb_spec dll 0) as [->|Hd]; cbn [negb].
  - apply wp_bind. eapply (wp_win_ask 0 procs t); [exact Hs|]. intros tk s1 Hs1.
    apply wp_bind. eexists tt, _. split; [reflexivity|].
    assert (Hs2 : inv (win_at (os_load os tk) procs t) (Win (wn_world s1) (wn_os s1) (wn_tick s1) (os_load os tk) (wn_procs s1) (wn_trace s1)))
      by (destruct Hs1 as [Hw (E1 & E2 & E3 & E4)]; now split).
    destruct (Z.eqb_spec (os_load os tk) 0).
    + eapply wp_win_log; [constructor|exact Hs2|]. intros s3 Hs3. eapply wp_ret, H1, Hs3.
    + eapply (wp_load_symbols (os_load os tk) t); [exact Hs2|intros procs' s3 Hs3; eapply H1, Hs3|].
      intros s3 Hs3. eapply wp_win_log; [constructor|exact Hs3|]. intros s4 Hs4. apply wp_ret. eapply H0; [done| |exact Hs4].
      apply Forall_forall. intros x Hx. apply list_elem_of_In. apply in_app_iff. left. rewrite <- in_rev. done.
  - destruct Hl as [|Hl]; [done|]. apply wp_ret. eapply H0; [exact Hd|exact Hl|exact Hs].
Qed.

(** * Handles *)

(** How many times a handle was taken and not given back. *)
Fixpoint adapters (h : Z) (t : list win_event) : Z :=
  match t with
  | [] => 0
  | WAdapter x :: t => adapters h t + (if x =? h then 1 else 0)
  | WCloseAdapter x :: t => adapters h t - (if x =? h then 1 else 0)
  | _ :: t => adapters h t
  end.

Fixpoint sessions (h : Z) (t : list win_event) : Z :=
  match t with
  | [] => 0
  | WSession x :: t => sessions h t + (if x =? h then 1 else 0)
  | WEndSession x :: t => sessions h t - (if x =? h then 1 else 0)
  | _ :: t => sessions h t
  end.

Definition same_handles (t t' : list win_event) : Prop :=
  forall h, adapters h t = adapters h t' /\ sessions h t = sessions h t'.

Definition win_dev_ok (dev : win_device) : Prop := exists z, c_str (wd_ifname dev) = Some z.

(** A device that owns an adapter and a session, the newest events. *)
Record opened (dev : win_device) (t0 t : list win_event) : Prop := {
  opened_adapter : wd_adapter dev <> 0;
  opened_session : wd_session dev <> 0;
  opened_event : wd_read_event dev <> 0;
  opened_luid : wd_has_luid dev = true;
  opened_name : exists nm, wd_ifname dev = nm ++ [0] /\ nm <> [] /\ (length nm <= 31)%nat;
  opened_mtu : wd_mtu dev = TUND_TUN_MTU;
  opened_trace : t = WSession (wd_session dev) :: WAdapter (wd_adapter dev) :: t0
}.

(** An adapter is found or created, or there is none. *)
Lemma wp_get_adapter {A} dll procs t (k : Z -> prog win A) s K :
  linked procs -> inv (win_at dll procs t) s ->
  (forall s', inv (win_at dll procs t) s' -> wp (k 0) K s') ->
  (forall h s', h <> 0 -> inv (win_at dll procs (WAdapter h :: t)) s' -> wp (k h) K s') ->
  wp (let* adapter := wintun_open_adapter in
      let* adapter := if adapter =? 0 then wintun_create_adapter else Ret adapter in k adapter) K s.
Proof.
  intros Hl Hs H0 H1. apply wp_bind. eapply wp_wintun_call; [resolved|exact Hs|].
  intros tk s1 Hs1. unfold handle_event in Hs1. destruct (Z.eqb_spec (os_open_adapter os tk) 0) as [Hz|Hn].
  - apply wp_bind. eapply wp_wintun_call; [resolved|exact Hs1|].
    intros tk2 s2 Hs2. unfold handle_event in Hs2. destruct (Z.eqb_spec (os_create_adapter os tk2) 0) as [Hz2|Hn]; [rewrite Hz2; now apply H0|now apply H1].
  - apply wp_bind, wp_ret. now apply H1.
Qed.

Lemma printed_short n text : (length text < n)%nat -> printed n text = text ++ [0].
Proof. intros H. unfold printed. now rewrite take_ge by lia. Qed.

Lemma wp_adapter_name dll procs t s (K : bytes * option Z -> win -> Prop) :
  linked procs -> inv (win_at dll procs t) s ->
  (forall nm luid s', nm <> [] -> (nm = str "tund" \/ exists tk, (os_luid_name os tk).1 <> 0) ->
     inv (win_at dll procs t) s' -> K (nm, Some luid) s') ->
  wp adapter_name K s.
Proof.
  intros Hl Hs HK. unfold adapter_name, wintun_get_adapter_luid. apply wp_bind, wp_bind.
  eapply wp_wintun_call; [resolved|exact Hs|]. intros tk s1 Hs1. apply wp_ret.
  apply wp_bind. eapply wp_win_ask; [exact Hs1|]. intros tk2 s2 Hs2.
  destruct (os_luid_name os tk2) as [status text] eqn:E. apply wp_ret.
  destruct (Z.eqb_spec status 0); cbn [negb]; [apply HK; [done|now left|exact Hs2]|].
  destruct (take 255 text) eqn:Et; [apply HK; [done|now left|exact Hs2]|].
  apply HK; [done| |exact Hs2]. right. exists tk2. now rewrite E.
Qed.

(** The device after a failure: nothing to close. *)
Definition unopened (dev : win_device) : win_device :=
  WinDevice 0 0 0 (wd_luid dev) false (wd_ifname dev) (wd_mtu dev).

Lemma printed_name nm : nm <> [] ->
  exists nm', printed (Z.to_nat TUN_IFNAME_MAX) nm = nm' ++ [0] /\ nm' <> [] /\ (length nm' <= 31)%nat.
Proof.
  intros H. eexists. split; [reflexivity|]. split; [|rewrite length_take; change (Z.to_nat TUN_IFNAME_MAX) with 32%nat; lia].
  destruct nm; [done|]. change (Z.to_nat TUN_IFNAME_MAX - 1)%nat with 31%nat. discriminate.
Qed.

Lemma wp_win_open dll procs dev t s (K : Z * win_device -> win -> Prop) :
  dll = 0 \/ linked procs -> inv (win_at dll procs t) s ->
  (forall dll' procs' t' s', same_handles t' t -> inv (win_at dll' procs' t') s' -> K (-1, unopened dev) s') ->
  (forall dll' procs' dev' t' s', dll' <> 0 -> linked procs' -> opened dev' t t' ->
     (wd_ifname dev' = str "tund" ++ [0] \/ exists tk, (os_luid_name os tk).1 <> 0) ->
     inv (win_at dll' procs' t') s' -> K (0, dev') s') ->
  wp (win_tun_open dev) K s.
Proof.
  intros Hl Hs H1 H0. unfold win_tun_open. cbv zeta.
  change (WinDevice 0 0 0 (wd_luid dev) false (wd_ifname dev) (wd_mtu dev)) with (unopened dev).
  apply wp_bind. eapply wp_wintun_load; [exact Hl|exact Hs| |]; clear dll procs s Hl Hs.
  { intros dll procs s Hs. cbn [Z.ltb Z.compare]. eapply wp_ret, H1; [|exact Hs]. now split. }
  intros dll procs s Hd Hl Hs. cbn [Z.ltb Z.compare].
  eapply wp_get_adapter; [exact Hl|exact Hs| |]; clear s Hs.
  { intros s Hs. cbn [Z.eqb]. eapply wp_win_log; [constructor|exact Hs|]. intros s' Hs'. eapply wp_ret, H1; [|exact Hs']. now split. }
  intros adapter s Ha Hs. destruct (Z.eqb_spec adapter 0); [done|].
  apply wp_bind. eapply wp_wintun_call; [resolved|exact Hs|]; clear s Hs. intros tk s Hs.
  unfold handle_event in Hs. destruct (Z.eqb_spec (os_start_session os tk) 0) as [Hz|Hss].
  { eapply wp_win_log; [constructor|exact Hs|]; clear s Hs. intros s Hs.
    apply wp_bind. eapply wp_wintun_do; [resolved|exact Hs|]. intros s' Hs'. eapply wp_ret, H1; [|exact Hs'].
    intros h. cbn. lia. }
  set (session := os_start_session os tk) in *.
  apply wp_bind. eapply wp_wintun_call; [resolved|exact Hs|]; clear s Hs. intros tk2 s Hs.
  destruct (Z.eqb_spec (os_read_event os tk2) 0) as [Hz|He].
  { eapply wp_win_log; [constructor|exact Hs|]; clear s Hs. intros s Hs.
    apply wp_bind. eapply wp_wintun_do; [resolved|exact Hs|]; clear s Hs. intros s Hs.
    apply wp_bind. eapply wp_wintun_do; [resolved|exact Hs|]. intros s' Hs'. eapply wp_ret, H1; [|exact Hs'].
    intros h. cbn. lia. }
  apply wp_bind. eapply wp_adapter_name; [exact Hl|exact Hs|]; clear s Hs. intros nm luid s Hnm Hsys Hs.
  destruct (printed_name nm Hnm) as (nm' & Hp & Hne & Hlen). rewrite Hp.
  eapply wp_win_log; [repeat constructor; apply terminated_app|exact Hs|]. intros s' Hs'. apply wp_ret.
  eapply H0; [exact Hd|exact Hl| | |exact Hs'].
  - split; cbn; try done. eauto.
  - cbn. destruct Hsys as [->|]; [left|now right]. now rewrite <- Hp.
Qed.

Lemma wp_win_close dll procs dev t s (K : unit -> win -> Prop) :
  linked procs -> win_dev_ok dev -> wd_session dev <> 0 -> wd_adapter dev <> 0 -> inv (win_at dll procs t) s ->
  (forall s', inv (win_at dll procs (WCloseAdapter (wd_adapter dev) :: WEndSession (wd_session dev) :: t)) s' -> K tt s') ->
  wp (win_tun_close dev) K s.
Proof.
  intros Hl Hd Hss Ha Hs HK. unfold win_tun_close. destruct (Z.eqb_spec (wd_session dev) 0); [done|]. destruct (Z.eqb_spec (wd_adapter dev) 0); [done|].
  cbn [negb]. apply wp_bind. eapply wp_wintun_do; [resolved|exact Hs|]. intros s1 Hs1.
  apply wp_bind. eapply wp_wintun_do; [resolved|exact Hs1|]. intros s2 Hs2.
  destruct (safe_run _ (LOG LOG_LEVEL_INFO [wd_ifname dev]) (fun _ => True) s2 ltac:(apply safe_LOG; [typeclasses eauto|repeat constructor; exact Hd]) Hs2)
    as ([] & s3 & Hr & Hi & _). exists tt, s3. auto.
Qed.

(** * Configuration *)

(** Tables and processes whose handles are still held; the time slept; the
    commands that were started, newest first. *)
Fixpoint held_tables (t : list win_event) : Z :=
  match t with
  | [] => 0
  | WTable :: t => held_tables t + 1
  | WFreeTable :: t => held_tables t - 1
  | _ :: t => held_tables t
  end.

Fixpoint held_processes (t : list win_event) : Z :=
  match t with
  | [] => 0
  | WProcess _ :: t => held_processes t + 1
  | WCloseHandles :: t => held_processes t - 1
  | _ :: t => held_processes t
  end.

Fixpoint slept (t : list win_event) : Z :=
  match t with
  | [] => 0
  | WSleep ms :: t => slept t + ms
  | _ :: t => slept t
  end.

Fixpoint commands (t : list win_event) : list bytes :=
  match t with
  | [] => []
  | WProcess cmd :: t => cmd :: commands t
  | _ :: t => commands t
  end.

(** Everything that was taken was given back. *)
Record tidy (new : list win_event) : Prop := {
  tidy_tables : held_tables new = 0;
  tidy_processes : held_processes new = 0;
  tidy_handles : same_handles new []
}.

Lemma tidy_nil : tidy [].
Proof. now split. Qed.

Lemma tidy_app t t' : tidy t -> tidy t' -> tidy (t ++ t').
Proof.
  assert (H : forall t t', held_tables (t ++ t') = held_tables t + held_tables t' /\
    held_processes (t ++ t') = held_processes t + held_processes t' /\
    forall h, adapters h (t ++ t') = adapters h t + adapters h t' /\ sessions h (t ++ t') = sessions h t + sessions h t').
  { clear. induction t as [|e t IH]; intros t'; [cbn; split; [lia|]; split; [lia|]; intros h; lia|].
    destruct (IH t') as (H1 & H2 & H3).
    destruct e; cbn; rewrite ?H1, ?H2; (split; [lia|split; [lia|]]); intros x; destruct (H3 x); lia. }
  intros [T1 P1 S1] [T2 P2 S2]. destruct (H t t') as (H1 & H2 & H3). split; [lia|lia|]. intros h.
  destruct (H3 h), (S1 h), (S2 h). cbn in *. lia.
Qed.

Lemma slept_app t t' : slept (t ++ t') = slept t + slept t'.
Proof. induction t as [|[] t IH]; cbn; rewrite ?IH; lia. Qed.

Lemma commands_app t t' : commands (t ++ t') = commands t ++ commands t'.
Proof. induction t as [|[] t IH]; cbn; rewrite ?IH; done. Qed.

Lemma errstr_terminated msg err : exists z, c_str (win32_errstr msg err) = Some z.
Proof. apply terminated_app. Qed.

Lemma printed_terminated n text : exists z, c_str (printed n text) = Some z.
Proof. apply terminated_app. Qed.

Lemma wp_log_win_error {A} dll procs t n text (k : prog win A) s K :
  inv (win_at dll procs t) s -> (forall s', inv (win_at dll procs t) s' -> wp k K s') ->
  wp (log_win_error (printed n text) ;; k) K s.
Proof.
  intros Hs HK. unfold log_win_error. apply wp_bind, wp_bind. eapply wp_win_ask; [exact Hs|]. intros tk s1 Hs1.
  destruct (os_message os tk) as [err msg].
  destruct (safe_run _ (LOG LOG_LEVEL_ERROR [printed n text; win32_errstr msg err]) (fun _ => True) s1
    ltac:(apply safe_LOG; [typeclasses eauto|repeat constructor; [apply printed_terminated|apply errstr_terminated]]) Hs1)
    as (u & s2 & Hr & Hi & _). exists u, s2. auto.
Qed.

(** A command was not started, or it was and its handles are closed. *)
Lemma wp_run_cmd dll procs t exe args e a s (K : Z -> win -> Prop) :
  c_str exe = Some e -> c_str args = Some a -> strchr e 32 || strchr e 9 = false -> inv (win_at dll procs t) s ->
  (forall s', inv (win_at dll procs t) s' -> K (-1) s') ->
  (forall r s', r = 0 \/ r = -1 -> inv (win_at dll procs (WCloseHandles :: WProcess (e ++ [32] ++ a) :: t)) s' -> K r s') ->
  wp (run_cmd exe args) K s.
Proof.
  intros He Ha Hsp Hs H1 H0. unfold run_cmd. rewrite He, Ha. cbn [local bind]. rewrite Hsp.
  set (text := e ++ [32] ++ a) in *. destruct (4096 <=? zlen text).
  { eapply wp_win_log; [repeat constructor; eauto|exact Hs|]. intros s' Hs'. now apply wp_ret, H1. }
  eapply wp_win_log; [repeat constructor; apply printed_terminated|exact Hs|]. clear s Hs. intros s Hs.
  apply wp_bind. eapply wp_win_ask; [exact Hs|]. clear s Hs. intros tk s Hs. destruct (os_process os tk); cbn [negb app] in *.
  2: { eapply wp_log_win_error; [exact Hs|]. intros s' Hs'. now apply wp_ret, H1. }
  apply wp_bind. eapply wp_win_ask; [exact Hs|]. clear s Hs. intros tk2 s Hs. cbn [app] in Hs.
  assert (Hfail : forall s, inv (win_at dll procs (WProcess text :: t)) s ->
    wp (log_win_error (printed 4096 text) ;; win_note WCloseHandles ;; Ret (-1)) K s).
  { intros s' Hs'. eapply wp_log_win_error; [exact Hs'|]. intros s2 Hs2. apply wp_bind. eapply wp_win_note; [exact Hs2|].
    intros s3 Hs3. apply wp_ret, H0; [now right|exact Hs3]. }
  destruct (os_wait os tk2); cbn [negb]; [|now apply Hfail].
  apply wp_bind. eapply wp_win_ask; [exact Hs|]. clear s Hs. intros tk3 s Hs. cbn [app] in Hs.
  destruct (os_exit_code os tk3) as [code|]; [|now apply Hfail].
  apply wp_bind. eapply wp_win_note; [exact Hs|]. clear s Hs. intros s Hs.
  destruct (code =? 0); cbn [negb]; (eapply wp_win_log; [repeat constructor; apply printed_terminated|exact Hs|]);
    intros s' Hs'; apply wp_ret, H0; auto.
Qed.

(** The system reported a matching row. *)
Definition reported (table : win_os -> nat -> option (list ip_row)) (dev : win_device) (addr netmask : Z) : Prop :=
  exists tk rows row, table os tk = Some rows /\ In row rows /\
    row = IpRow (wd_luid dev) AF_INET addr (prefix_len_from_netmask netmask).

Lemma row_matches_true dev addr prefix row :
  row_matches dev addr prefix row = true <-> row = IpRow (wd_luid dev) AF_INET addr prefix.
Proof.
  unfold row_matches, same_luid. destruct row as [a b c d]. cbn. split; [intros H; bools; now subst|].
  intros [= -> -> -> ->]. now rewrite !Z.eqb_refl.
Qed.

(** What a check of the configuration does: nothing is kept, no command runs,
    no time passes, and [true] is based on a report. *)
Definition checks (fact : Prop) (p : prog win bool) : Prop :=
  forall dll procs t s (K : bool -> win -> Prop), inv (win_at dll procs t) s ->
  (forall b new s', tidy new -> slept new = 0 -> commands new = [] -> (b = true -> fact) ->
     inv (win_at dll procs (new ++ t)) s' -> K b s') -> wp p K s.

Lemma checks_table table dev addr netmask : checks (reported table dev addr netmask) (table_has table dev addr netmask).
Proof.
  intros dll procs t s K Hs HK. unfold table_has. destruct (wd_has_luid dev); cbn [negb].
  2: { apply wp_ret. now apply (HK false []). }
  apply wp_bind. eapply wp_win_ask; [exact Hs|]. intros tk s1 Hs1. destruct (table os tk) as [rows|] eqn:E.
  - apply wp_bind. eapply wp_win_note; [exact Hs1|]. intros s2 Hs2. apply wp_ret.
    apply (HK _ [WFreeTable; WTable]); [now split|done|done| |exact Hs2].
    intros [row [Hin Hrow]]%existsb_exists. apply row_matches_true in Hrow. now exists tk, rows, row.
  - eapply wp_win_log; [constructor|exact Hs1|]. intros s2 Hs2. apply wp_ret. now apply (HK false []).
Qed.

Lemma checks_mtu dev mtu : checks (exists tk, os_mtu os tk = Some (u32 mtu)) (windows_mtu_applied dev mtu).
Proof.
  intros dll procs t s K Hs HK. unfold windows_mtu_applied. destruct (wd_has_luid dev); cbn [negb].
  2: { apply wp_ret. now apply (HK false []). }
  apply wp_bind. eapply wp_win_ask; [exact Hs|]. intros tk s1 Hs1. destruct (os_mtu os tk) as [m|] eqn:E.
  - apply wp_ret. apply (HK _ []); [apply tidy_nil|done|done| |exact Hs1]. intros ->%Z.eqb_eq. eauto.
  - eapply wp_win_log; [constructor|exact Hs1|]. intros s2 Hs2. apply wp_ret. now apply (HK false []).
Qed.

(** A wait polls at most [n] times. *)
Lemma wp_wait_for fact p : checks fact p -> forall n dll procs t s (K : bool -> win -> Prop), inv (win_at dll procs t) s ->
  (forall b new s', tidy new -> 0 <= slept new <= 100 * Z.of_nat n -> commands new = [] -> (b = true -> fact) ->
     inv (win_at dll procs (new ++ t)) s' -> K b s') -> wp (wait_for n p) K s.
Proof.
  intros Hp. induction n as [|n IH]; intros dll procs t s K Hs HK; cbn [wait_for].
  { apply wp_ret. apply (HK false []); [apply tidy_nil|cbn; lia|done|done|exact Hs]. }
  apply wp_bind. eapply Hp; [exact Hs|]. intros b new s1 Hn Hsl Hc Hb Hs1. destruct b.
  { apply wp_ret. apply (HK true new); [done|lia|done|done|done]. }
  apply wp_bind. eapply wp_win_note; [exact Hs1|]. intros s2 Hs2. eapply IH; [exact Hs2|].
  intros b new' s3 Hn' Hsl' Hc' Hb' Hs3. apply (HK b (new' ++ WSleep 100 :: new)).
  - apply tidy_app; [done|]. change (WSleep 100 :: new) with ([WSleep 100] ++ new). apply tidy_app; [now split|done].
  - rewrite slept_app. cbn [slept]. lia.
  - rewrite commands_app. cbn [commands]. now rewrite Hc, Hc'.
  - done.
  - now rewrite <- app_assoc.
Qed.

Lemma printed_c_str n text : Forall (fun b => b <> 0) text -> (length text < n)%nat -> c_str (printed n text) = Some text.
Proof. intros Hz Hl. rewrite printed_short by done. now apply c_str_app. Qed.

(** A command of [netsh]. *)
Definition netsh_line (text : bytes) : bytes := str "netsh" ++ [32] ++ text.

Lemma wp_netsh dll procs t n text s (K : Z -> win -> Prop) :
  Forall (fun b => b <> 0) text -> (length text < n)%nat -> inv (win_at dll procs t) s ->
  (forall s', inv (win_at dll procs t) s' -> K (-1) s') ->
  (forall r s', r = 0 \/ r = -1 -> inv (win_at dll procs ([WCloseHandles; WProcess (netsh_line text)] ++ t)) s' -> K r s') ->
  wp (netsh n text) K s.
Proof.
  intros Hz Hl. apply (wp_run_cmd dll procs t _ _ (str "netsh") text); [reflexivity|now apply printed_c_str|reflexivity].
Qed.

Lemma wp_add_route dev network netmask dll procs t s (K : bool -> win -> Prop) :
  inv (win_at dll procs t) s ->
  (forall b new s', tidy new -> slept new = 0 -> commands new = [] -> inv (win_at dll procs (new ++ t)) s' -> K b s') ->
  wp (windows_add_onlink_route dev network netmask) K s.
Proof.
  intros Hs HK. unfold windows_add_onlink_route. destruct (wd_has_luid dev); cbn [negb].
  2: { apply wp_ret. now apply (HK false []). }
  apply wp_bind. eapply wp_win_ask; [exact Hs|]. intros tk s1 Hs1. destruct (_ || _).
  - apply wp_ret. eapply (HK true [_]); [..|exact Hs1]; [now split|done|done].
  - eapply wp_win_log; [constructor|exact Hs1|]. intros s2 Hs2. apply wp_ret. eapply (HK false [_]); [..|exact Hs2]; [now split|done|done].
Qed.

(** The command that sets the address. *)
Definition ip_command (nm : bytes) (ip netmask : Z) : bytes :=
  str "interface ip set address name=" ++ q nm ++ str " static " ++ ip_to_str ip ++ str " " ++ ip_to_str netmask.

Lemma ip_command_fits nm ip netmask : Forall (fun b => b <> 0) nm -> (length nm <= 31)%nat ->
  Forall (fun b => b <> 0) (ip_command nm ip netmask) /\ (length (ip_command nm ip netmask) < 2048)%nat.
Proof.
  intros Hz Hl. destruct (ip_to_str_spec ip) as [L1 Z1]. destruct (ip_to_str_spec netmask) as [L2 Z2]. unfold ip_command, q. split.
  - rewrite !Forall_app. repeat split; try done; repeat constructor; cbn; lia.
  - rewrite !length_app. cbn [str map String.list_ascii_of_string length]. lia.
Qed.

(** What configuring the address did. *)
Definition ip_outcome (dev : win_device) (nm : bytes) (ip netmask : Z) (r : Z) (new : list win_event) : Prop :=
  tidy new /\ slept new <= 4000 /\ (commands new = [] \/ commands new = [netsh_line (ip_command nm ip netmask)]) /\
  (r = -1 \/ r = 0 /\ commands new = [netsh_line (ip_command nm ip netmask)] /\
     reported os_addresses dev ip netmask /\ reported os_routes dev (htonl (Z.land (ntohl ip) (ntohl netmask))) netmask).

Lemma outcome_failed_ip dev nm ip netmask new :
  tidy new -> slept new <= 4000 -> commands new = [] \/ commands new = [netsh_line (ip_command nm ip netmask)] ->
  ip_outcome dev nm ip netmask (-1) new.
Proof. intros H1 H2 H3. split; [done|]. split; [done|]. split; [done|]. now left. Qed.

(** The command and the wait for the address. *)
Lemma wp_apply_address {A} fact check n text (k : bool -> prog win A) dll procs t s K :
  checks fact check -> Forall (fun b => b <> 0) text -> (length text < n)%nat -> inv (win_at dll procs t) s ->
  (forall s', inv (win_at dll procs t) s' -> wp (k false) K s') ->
  (forall ok new s', tidy new -> slept new <= 2000 -> commands new = [netsh_line text] -> (ok = true -> fact) ->
     inv (win_at dll procs (new ++ t)) s' -> wp (k ok) K s') ->
  wp (let* r := netsh n text in
      let* ok := if r <? 0 then Ret false else wait_for 20 check in k ok) K s.
Proof.
  intros Hc Hz Hl Hs H1 H0. apply wp_bind. apply (wp_netsh dll procs t); [done|done|exact Hs| |]; clear s Hs.
  { intros s Hs. cbn [Z.ltb Z.compare]. apply wp_bind, wp_ret. now apply H1. }
  intros r s Hr Hs. set (n0 := [WCloseHandles; WProcess (netsh_line text)]) in *.
  assert (T0 : tidy n0) by now split. apply wp_bind. destruct (r <? 0).
  - apply wp_ret. apply (H0 false n0); [done|cbn; lia|done|done|exact Hs].
  - apply (wp_wait_for fact check Hc 20 dll procs (n0 ++ t)); [exact Hs|]. intros ok new s' T1 S1 C1 F1 Hs'.
    apply (H0 ok (new ++ n0)); [now apply tidy_app|rewrite slept_app; cbn; lia|now rewrite commands_app, C1|done|now rewrite <- app_assoc].
Qed.

(** The route: found, or added. *)
Lemma wp_apply_route {A} dev network netmask (k : bool -> prog win A) dll procs t s K :
  inv (win_at dll procs t) s ->
  (forall b new s', tidy new -> slept new = 0 -> commands new = [] -> inv (win_at dll procs (new ++ t)) s' -> wp (k b) K s') ->
  wp (let* have := windows_route_applied dev network netmask in
      let* have := if (have : bool) then Ret true else windows_add_onlink_route dev network netmask in k have) K s.
Proof.
  intros Hs HK. apply wp_bind. eapply (checks_table os_routes dev network netmask); [exact Hs|]. clear s Hs.
  intros b n1 s T1 S1 C1 _ Hs. apply wp_bind. destruct b; [apply wp_ret; now apply (HK true n1)|].
  eapply wp_add_route; [exact Hs|]. intros b' n2 s2 T2 S2 C2 Hs2.
  apply (HK b' (n2 ++ n1)); [now apply tidy_app|rewrite slept_app; lia|now rewrite commands_app, C1, C2|now rewrite <- app_assoc].
Qed.

Lemma wp_win_set_ip dev nm ip netmask dll procs t s (K : Z -> win -> Prop) :
  c_str (wd_ifname dev) = Some nm -> (length nm <= 31)%nat -> inv (win_at dll procs t) s ->
  (forall r new s', ip_outcome dev nm ip netmask r new -> inv (win_at dll procs (new ++ t)) s' -> K r s') ->
  wp (win_tun_set_ip dev ip netmask) K s.
Proof.
  intros Hnm Hl Hs HK. pose proof (proj1 (c_str_spec _ _) Hnm) as [Hz _].
  destruct (ip_command_fits nm ip netmask Hz Hl) as [Hcz Hcl].
  assert (Hdev : exists z, c_str (wd_ifname dev) = Some z) by eauto.
  assert (Hlog : forall args r new s1, Forall (fun a => exists z, c_str a = Some z) args -> ip_outcome dev nm ip netmask r new ->
    inv (win_at dll procs (new ++ t)) s1 -> forall level, wp (LOG level args ;; Ret r) K s1).
  { intros args r new s1 Ha Ho Hs1 level. eapply wp_win_log; [exact Ha|exact Hs1|]. intros s2 Hs2. eapply wp_ret, HK; [exact Ho|exact Hs2]. }
  unfold win_tun_set_ip. rewrite Hnm. cbn [local bind]. fold (ip_command nm ip netmask). cbv zeta.
  eapply (wp_apply_address _ _ _ _ _ dll procs t); [apply (checks_table os_addresses dev ip netmask)|done|done|exact Hs| |]; clear s Hs.
  { intros s Hs. cbn [negb]. apply (Hlog _ _ []); [repeat constructor; exact Hdev| |exact Hs].
    apply outcome_failed_ip; [apply tidy_nil|cbn; lia|now left]. }
  intros ok n1 s T1 S1 C1 F1 Hs. destruct ok; cbn [negb].
  2: { apply (Hlog _ _ n1); [repeat constructor; exact Hdev| |exact Hs]. apply outcome_failed_ip; [done|lia|now right]. }
  eapply wp_apply_route; [exact Hs|]. clear s Hs. intros have n2 s T2 S2 C2 Hs. rewrite app_assoc in Hs.
  pose proof (tidy_app _ _ T2 T1) as T. destruct have; cbn [negb].
  2: { apply (Hlog _ _ (n2 ++ n1)); [repeat constructor; apply ip_terminated| |exact Hs].
       apply outcome_failed_ip; [done|rewrite slept_app; lia|]. right. now rewrite commands_app, C2. }
  unfold wait_for_route. apply wp_bind.
  apply (wp_wait_for _ _ (checks_table os_routes dev (htonl (Z.land (ntohl ip) (ntohl netmask))) netmask) 20 dll procs ((n2 ++ n1) ++ t)); [exact Hs|]. clear s Hs.
  intros b n3 s T3 S3 C3 F3 Hs. rewrite app_assoc in Hs. pose proof (tidy_app _ _ T3 T) as T'.
  assert (S' : slept (n3 ++ n2 ++ n1) <= 4000) by (rewrite !slept_app; lia).
  assert (C' : commands (n3 ++ n2 ++ n1) = [netsh_line (ip_command nm ip netmask)]) by now rewrite !commands_app, C3, C2.
  destruct b; cbn [negb]; (apply (Hlog _ _ (n3 ++ n2 ++ n1)); [repeat constructor; auto using ip_terminated| |exact Hs]).
  - split; [done|]. split; [done|]. split; [now right|]. right. auto.
  - apply outcome_failed_ip; [done|done|now right].
Qed.

(** The command that sets the MTU. *)
Definition mtu_command (nm : bytes) (mtu : Z) : bytes :=
  str "interface ipv4 set subinterface " ++ q nm ++ str " mtu=" ++ dec mtu ++ str " store=active".

Lemma mtu_command_fits nm mtu : Forall (fun b => b <> 0) nm -> (length nm <= 31)%nat -> 0 <= mtu < 2 ^ 31 ->
  Forall (fun b => b <> 0) (mtu_command nm mtu) /\ (length (mtu_command nm mtu) < 512)%nat.
Proof.
  intros Hz Hl Hm. pose proof (dec_fuel_length 9 20 mtu ltac:(cbn; lia)) as L1. fold (dec mtu) in L1.
  pose proof (dec_nonzero 20 mtu ltac:(lia)) as Z1. fold (dec mtu) in Z1. unfold mtu_command, q. split.
  - rewrite !Forall_app. repeat split; try done; repeat constructor; cbn; lia.
  - rewrite !length_app. cbn [str map String.list_ascii_of_string length]. lia.
Qed.

(** The MTU of the device is changed when Windows reported it. *)
Lemma wp_win_set_mtu dev nm mtu dll procs t s (K : Z * win_device -> win -> Prop) :
  c_str (wd_ifname dev) = Some nm -> (length nm <= 31)%nat -> 0 <= mtu < 2 ^ 31 -> inv (win_at dll procs t) s ->
  (forall new s', tidy new -> slept new <= 2000 -> inv (win_at dll procs (new ++ t)) s' -> K (-1, dev) s') ->
  (forall new s', tidy new -> slept new <= 2000 -> commands new = [netsh_line (mtu_command nm mtu)] ->
     (exists tk, os_mtu os tk = Some mtu) -> inv (win_at dll procs (new ++ t)) s' ->
     K (0, WinDevice (wd_adapter dev) (wd_session dev) (wd_read_event dev) (wd_luid dev) (wd_has_luid dev) (wd_ifname dev) mtu) s') ->
  wp (win_tun_set_mtu dev mtu) K s.
Proof.
  intros Hnm Hl Hm Hs H1 H0. pose proof (proj1 (c_str_spec _ _) Hnm) as [Hz _].
  destruct (mtu_command_fits nm mtu Hz Hl Hm) as [Hcz Hcl].
  assert (Hdev : exists z, c_str (wd_ifname dev) = Some z) by eauto.
  unfold win_tun_set_mtu. rewrite Hnm. cbn [local bind]. fold (mtu_command nm mtu). cbv zeta.
  eapply (wp_apply_address _ _ _ _ _ dll procs t); [apply (checks_mtu dev mtu)|done|done|exact Hs| |]; clear s Hs.
  { intros s Hs. cbn [negb]. eapply wp_win_log; [repeat constructor; exact Hdev|exact Hs|]. intros s2 Hs2.
    apply wp_ret, (H1 []); [apply tidy_nil|cbn; lia|exact Hs2]. }
  intros ok n1 s T1 S1 C1 F1 Hs. destruct ok; cbn [negb]; (eapply wp_win_log; [repeat constructor; exact Hdev|exact Hs|]); intros s2 Hs2; apply wp_ret.
  - apply (H0 n1); [done|done|done| |done]. unfold u32 in F1. rewrite Z.mod_small in F1 by lia. auto.
  - now apply (H1 n1).
Qed.
End rules.

(** * Packets *)

Section packets.
Context (os : win_os) (dll : Z) (procs : list bytes) (Hlinked : linked procs).

(** At answer [k] of the system. *)
Definition at_tick (k : nat) (t : list win_event) (s : win) : Prop := win_at os dll procs t s /\ wn_tick s = k.

#[local] Instance at_tick_framed k t : Framed (at_tick k t).
Proof. intros w s H _. exact H. Qed.

(** Sleeps of half a second, newest first. *)
Definition naps (i : nat) : list win_event := replicate i (WSleep 500).

(** What [tun_read] left when the ring was first asked at answer [k]. It asked
    [i] times in vain, slept after each of them, and ended for one of three
    causes: it was told to stop during the first sleep; the ring's next answer
    was an error; or it was the packet [l], of which the buffer has what fits and
    which was given back. [running] is the flag while it reads. *)
Definition read_outcome (running : bool) (k : nat) (buf : bytes) (bufsize : Z) (r : Z) (buf' : bytes) (new : list win_event) : Prop :=
  exists i, (forall j, (j < i)%nat -> os_receive os (k + j) = NoMoreItems) /\
    ((running = false /\ i = 1%nat /\ r = -1 /\ buf' = buf /\ new = naps 1) \/
     ((running = true \/ i = 0%nat) /\
      ((exists err, os_receive os (k + i) = ReceiveError err /\ r = -1 /\ buf' = buf /\ new = naps i) \/
       (exists l, os_receive os (k + i) = Packet l /\ r = Z.min (zlen l) bufsize /\
          buf' = take (Z.to_nat r) l ++ drop (Z.to_nat r) buf /\ new = WReleased :: WReceived l :: naps i)))).

Lemma read_loop_step fuel buf bufsize :
  win_read_loop fuel buf bufsize =
  let* r := wintun_receive_packet in
  match r with
  | Packet l =>
      let n := if zlen l <=? bufsize then zlen l else bufsize in
      let* buf := local (let? src := mem_read l 0 n in mem_write buf 0 src) in
      wintun_release_receive_packet ;;
      Ret (n, buf)
  | ReceiveError _ => LOG LOG_LEVEL_WARN [] ;; Ret (-1, buf)
  | NoMoreItems =>
      win_note (WSleep 500) ;;
      let* running := tund_is_running in
      if negb running then Ret (-1, buf)
      else match fuel with O => undef | S fuel => win_read_loop fuel buf bufsize end
  end.
Proof. now destruct fuel. Qed.

Lemma copy_packet l buf n : 0 <= n -> n <= zlen l -> n <= zlen buf ->
  (let? src := mem_read l 0 n in mem_write buf 0 src) = Some (take (Z.to_nat n) l ++ drop (Z.to_nat n) buf).
Proof. intros H0 H1 H2. now apply copy_to_wire. Qed.

(** The ring has something to say at answer [k + i + j], and had nothing to say
    at the [i] answers from [k] on. *)
Lemma wp_read_loop running k buf bufsize t (K : Z * bytes -> win -> Prop) : 0 <= bufsize <= zlen buf ->
  (forall r buf' new s', read_outcome running k buf bufsize r buf' new -> inv (win_at os dll procs (new ++ t)) s' -> K (r, buf') s') ->
  forall j fuel i s, (running = true \/ i = 0%nat) -> (forall j, (j < i)%nat -> os_receive os (k + j) = NoMoreItems) ->
  os_receive os (k + i + j) <> NoMoreItems -> (j <= fuel)%nat -> inv (at_tick (k + i) (naps i ++ t)) s -> g_running (wn_world s) = running ->
  wp (win_read_loop fuel buf bufsize) K s.
Proof.
  intros Hsize HK. induction j as [|j IH]; intros fuel i s Hi Hempty Hj Hf Hs Hrun; rewrite read_loop_step; apply wp_bind;
    destruct Hs as [Hw [(E1 & E2 & E3 & E4) E5]]; unfold wintun_receive_packet, wintun_call; apply wp_bind;
    (eexists _, _; split; [reflexivity|]; rewrite bool_decide_eq_true_2 by (rewrite E3; resolved));
    (eexists _, _; split; [reflexivity|]); rewrite E1, E4, E5.
  all: set (s1 := Win _ _ _ _ _ _); assert (Hs1 : forall ev, wn_trace s1 = ev -> inv (at_tick (S (k + i)) ev) s1)
    by (intros ev <-; split; [exact Hw|]; split; [now repeat split|reflexivity]).
  all: destruct (os_receive os (k + i)) as [l| |err] eqn:Er.
  1,4: cbn [app] in s1; assert (Hn : (if zlen l <=? bufsize then zlen l else bufsize) = Z.min (zlen l) bufsize)
         by (destruct (Z.leb_spec (zlen l) bufsize); lia);
       pose proof (zlen_nonneg l); rewrite Hn; cbv zeta; rewrite copy_packet by lia; cbn [local bind];
       apply wp_bind; eapply wp_wintun_do; [resolved|exact (conj Hw (proj1 (proj2 (Hs1 _ eq_refl))))|]; intros s2 Hs2;
       apply wp_ret; apply (HK _ _ (WReleased :: WReceived l :: naps i)); [|exact Hs2]; exists i; split; [exact Hempty|];
       right; split; [exact Hi|]; right; exists l; now repeat split.
  2,4: eapply wp_win_log; [constructor|exact (conj Hw (proj1 (proj2 (Hs1 _ eq_refl))))|]; intros s2 Hs2; apply wp_ret;
       apply (HK _ _ (naps i)); [|exact Hs2]; exists i; split; [exact Hempty|]; right; split; [exact Hi|]; left; now exists err.
  - rewrite Nat.add_0_r in Hj. congruence.
  - assert (Hempty' : forall j', (j' < S i)%nat -> os_receive os (k + j') = NoMoreItems)
      by (intros j' Hj'; destruct (decide (j' = i)) as [->|]; [exact Er|apply Hempty; lia]).
    apply wp_bind. eexists tt, _. split; [reflexivity|].
    apply wp_bind. eexists _, _. split; [reflexivity|]. cbn [get_world win_has_world set_world]. subst s1. cbn [wn_world].
    rewrite Hrun. destruct running; cbn [negb].
    + destruct fuel as [|fuel]; [lia|]. apply (IH fuel (S i)); [now left|exact Hempty'| |lia| |exact Hrun].
      * now replace (k + S i + j)%nat with (k + i + S j)%nat by lia.
      * split; [exact Hw|]. split; [now repeat split|cbn; lia].
    + destruct Hi as [Hi|Hi]; [done|]. subst i. apply wp_ret. eapply (HK _ _ (naps 1)); [|split; [exact Hw|]; now repeat split].
      exists 1%nat. split; [exact Hempty'|]. now left.
Qed.
End packets.

(** * Prefix lengths *)

(** The [p] highest of 32 bits are set, and the next one is not. *)
Definition leading_ones (mask p : Z) : Prop :=
  0 <= p <= 32 /\ (forall i, 32 - p <= i < 32 -> Z.testbit mask i = true) /\ (p < 32 -> Z.testbit mask (31 - p) = false).

Lemma top_bit m : (Z.land m 0x80000000 =? 0) = negb (Z.testbit m 31).
Proof.
  change 0x80000000 with (2 ^ 31). destruct (Z.testbit m 31) eqn:E; cbn [negb].
  - apply Z.eqb_neq. intros H. apply (f_equal (fun z => Z.testbit z 31)) in H.
    rewrite Z.land_spec, Z.pow2_bits_true, E in H by lia. discriminate.
  - apply Z.eqb_eq, Z.bits_inj'. intros i Hi. rewrite Z.land_spec, Z.bits_0.
    destruct (Z.eq_dec i 31) as [->|Hn]; [now rewrite E|]. rewrite Z.pow2_bits_false by lia. apply andb_false_r.
Qed.

Lemma shifted_top mask k : 0 <= k -> k < 32 -> Z.testbit (u32 (Z.shiftl mask k)) 31 = Z.testbit mask (31 - k).
Proof. intros H0 H1. unfold u32. rewrite Z.mod_pow2_bits_low by lia. now rewrite Z.shiftl_spec by lia. Qed.

Lemma shift_again mask k : 0 <= k -> u32 (Z.shiftl (u32 (Z.shiftl mask k)) 1) = u32 (Z.shiftl mask (k + 1)).
Proof.
  intros H. unfold u32. rewrite !Z.shiftl_mul_pow2, Z.pow_add_r by lia.
  rewrite Z.mul_mod_idemp_l by lia. f_equal. lia.
Qed.

Lemma prefix_loop_spec mask : is_u32 mask -> forall fuel k, 0 <= k <= 32 -> 32 - k < Z.of_nat fuel ->
  (forall i, 32 - k <= i < 32 -> Z.testbit mask i = true) ->
  leading_ones mask (prefix_loop fuel (u32 (Z.shiftl mask k)) k).
Proof.
  intros Hm. induction fuel as [|fuel IH]; intros k Hk Hf Hones; [lia|]. cbn [prefix_loop]. rewrite top_bit, negb_involutive.
  destruct (Z.eq_dec k 32) as [->|Hn].
  - replace (Z.testbit (u32 (Z.shiftl mask 32)) 31) with false; [now split; [|split; [|lia]]|].
    symmetry. unfold u32. rewrite Z.mod_pow2_bits_low by lia. rewrite Z.shiftl_spec by lia. now apply Z.testbit_neg_r.
  - rewrite shifted_top by lia. destruct (Z.testbit mask (31 - k)) eqn:E; [|now split; [|split]].
    rewrite shift_again by lia. replace (u8 (k + 1)) with (k + 1) by (symmetry; apply Z.mod_small; lia).
    apply IH; [lia|lia|]. intros i Hi. destruct (Z.eq_dec i (31 - k)) as [->|]; [exact E|]. apply Hones. lia.
Qed.

(** Any netmask: the number of its leading ones. *)
Lemma prefix_len_leading netmask : leading_ones (ntohl netmask) (prefix_len_from_netmask netmask).
Proof.
  pose proof (ntohl_is_u32 netmask) as Hu. unfold prefix_len_from_netmask.
  replace (ntohl netmask) with (u32 (Z.shiftl (ntohl netmask) 0)) at 2.
  - apply prefix_loop_spec; [done|lia|lia|lia].
  - rewrite Z.shiftl_0_r. apply Z.mod_small, Hu.
Qed.

(** The netmask of a network with [p] bits. *)
Definition mask_bits (p : Z) : Z := 2 ^ 32 - 2 ^ (32 - p).

Lemma mask_bits_ones p i : 0 <= p <= 32 -> 0 <= i < 32 -> Z.testbit (mask_bits p) i = (32 - p <=? i).
Proof.
  intros Hp Hi. replace (mask_bits p) with (Z.shiftl (Z.ones p) (32 - p)).
  - rewrite Z.shiftl_spec by lia. destruct (Z.leb_spec (32 - p) i); [now apply Z.ones_spec_low; lia|].
    now apply Z.testbit_neg_r; lia.
  - unfold mask_bits. rewrite Z.shiftl_mul_pow2, Z.ones_equiv by lia. unfold Z.pred.
    replace (2 ^ 32) with (2 ^ p * 2 ^ (32 - p)) by (rewrite <- Z.pow_add_r by lia; f_equal; lia). lia.
Qed.

Lemma mask_bits_u32 p : 0 <= p <= 32 -> is_u32 (mask_bits p).
Proof.
  intros Hp. unfold mask_bits, is_u32. assert (0 < 2 ^ (32 - p)) by (apply Z.pow_pos_nonneg; lia).
  assert (2 ^ (32 - p) <= 2 ^ 32) by (apply Z.pow_le_mono_r; lia). lia.
Qed.

Lemma prefix_len_mask p : 0 <= p <= 32 -> prefix_len_from_netmask (htonl (mask_bits p)) = p.
Proof.
  intros Hp. pose proof (prefix_len_leading (htonl (mask_bits p))) as (Hr & Hones & Hzero).
  rewrite ntohl_htonl in * by now apply mask_bits_u32. set (r := prefix_len_from_netmask _) in *.
  destruct (Z.lt_trichotomy r p) as [Hlt|[Heq|Hgt]]; [|exact Heq|].
  - specialize (Hzero ltac:(lia)). rewrite mask_bits_ones in Hzero by lia. apply Z.leb_gt in Hzero. lia.
  - specialize (Hones (31 - p) ltac:(lia)). rewrite mask_bits_ones in Hones by lia. apply Z.leb_le in Hones. lia.
Qed.
