(* ===== verification/WinTunRun.v ===== *)
(** Properties of the Windows TUN device, and two behaviours of the code that
    its text does not intend. *)
From stdpp Require Import base list numbers option.
From S2P Require Import Prelude Prog World Consts Sequence Wire Events Peer Net Messages Boot WinTun WinTunSpec.

Lemma win_start (s : win) : world_ok (wn_world s) -> inv (win_at (wn_os s) (wn_dll s) (wn_procs s) (wn_trace s)) s.
Proof. intros Hw. split; [exact Hw|]. now repeat split. Qed.

(** C26: opening the Windows device is all or nothing, whatever the library and
    the driver answer: either it returns [-1], every adapter and session it
    took is given back and the device holds none, or it returns [0] and the
    device holds exactly one more adapter and one more session, with a
    terminated name; closing such a device gives both back. *)
Theorem win_open_all_or_nothing (s : win) (dev : win_device)
    (Hw : world_ok (wn_world s)) (Hl : wn_dll s = 0 \/ linked (wn_procs s)) :
  exists r dev' s', run (win_tun_open dev) s = Some ((r, dev'), s') /\
    ((r = -1 /\ dev' = unopened dev /\ same_handles (wn_trace s') (wn_trace s)) \/
     (r = 0 /\ opened dev' (wn_trace s) (wn_trace s') /\
      exists s2, run (win_tun_close dev') s' = Some (tt, s2) /\ same_handles (wn_trace s2) (wn_trace s))).
Proof.
  destruct (wp_win_open (wn_os s) (wn_dll s) (wn_procs s) dev (wn_trace s) s
    (fun '(r, dev') s' => (r = -1 /\ dev' = unopened dev /\ same_handles (wn_trace s') (wn_trace s)) \/
       (r = 0 /\ opened dev' (wn_trace s) (wn_trace s') /\
        exists s2, run (win_tun_close dev') s' = Some (tt, s2) /\ same_handles (wn_trace s2) (wn_trace s))) Hl (win_start s Hw))
    as ([r dev'] & s' & Hr & HQ).
  - intros dll procs t s' Ht [_ (_ & _ & _ & <-)]. now left.
  - intros dll procs dev' t s' _ Hl' Ho _ Hs'. right. split; [done|]. pose proof Hs' as [_ (_ & _ & _ & Et)].
    rewrite Et. split; [done|]. destruct Ho as [Ha Hs2 _ _ (nm & Hnm & _) _ ->].
    destruct (wp_win_close (wn_os s) dll procs dev' _ s' (fun _ s2 => same_handles (wn_trace s2) (wn_trace s)) Hl'
      ltac:(exists (match c_str (nm ++ [0]) with Some z => z | None => [] end); rewrite Hnm; now destruct (terminated_app nm) as [z ->]) Hs2 Ha Hs')
      as ([] & s2 & Hr2 & HQ2); [|now exists s2].
    intros s2 [_ (_ & _ & _ & ->)] h. cbn. lia.
  - now exists r, dev', s'.
Qed.

(** C27: setting the address of the Windows device gives back every table and
    process handle, sleeps at most four seconds and runs at most one command,
    the one that sets this address; it succeeds only if Windows then reported
    the address and the route of its network on this very interface, with the
    prefix length that the netmask stands for. *)
Theorem win_set_ip_effective (s : win) (dev : win_device) (nm : bytes) (ip p : Z)
    (Hw : world_ok (wn_world s)) (Hnm : c_str (wd_ifname dev) = Some nm) (Hl : (length nm <= 31)%nat) (Hp : 0 <= p <= 32) :
  let netmask := htonl (mask_bits p) in
  exists r s' new, run (win_tun_set_ip dev ip netmask) s = Some (r, s') /\ wn_trace s' = new ++ wn_trace s /\
    tidy new /\ slept new <= 4000 /\ (commands new = [] \/ commands new = [netsh_line (ip_command nm ip netmask)]) /\
    (r = -1 \/
     (r = 0 /\
      (exists tk rows, os_addresses (wn_os s) tk = Some rows /\ In (IpRow (wd_luid dev) AF_INET ip p) rows) /\
      (exists tk rows, os_routes (wn_os s) tk = Some rows /\
         In (IpRow (wd_luid dev) AF_INET (htonl (Z.land (ntohl ip) (mask_bits p))) p) rows))).
Proof.
  intros netmask. destruct (wp_win_set_ip (wn_os s) dev nm ip netmask (wn_dll s) (wn_procs s) (wn_trace s) s
    (fun r s' => exists new, ip_outcome (wn_os s) dev nm ip netmask r new /\ wn_trace s' = new ++ wn_trace s) Hnm Hl (win_start s Hw))
    as (r & s' & Hr & new & (H1 & H2 & H3 & H4) & Ht).
  { intros r new s' Ho [_ (_ & _ & _ & Ht)]. now exists new. }
  exists r, s', new. do 5 (split; [done|]). destruct H4 as [->|(-> & _ & A & B)]; [now left|right].
  pose proof (prefix_len_mask p Hp) as Hpl. fold netmask in Hpl. unfold reported in A, B. rewrite Hpl in A, B.
  unfold netmask in B at 1. rewrite ntohl_htonl in B by now apply mask_bits_u32. split; [done|].
  destruct A as (tk & rows & row & E & Hin & ->). destruct B as (tk2 & rows2 & row2 & E2 & Hin2 & ->). eauto 8.
Qed.

(** The ring of the driver has a packet or an error within [n] calls. *)
Definition ring_patient (n : nat) (os : win_os) : Prop :=
  forall t, exists j, (j <= n)%nat /\ os_receive os (t + j)%nat <> NoMoreItems.

(** C28: reading the Windows device asks the ring again after every sleep until
    the ring has something to say, and ends with that answer: a packet is
    delivered whole, or cut to the buffer, and given back to the ring, and -1 is
    returned only for an error of the ring or because the process was told to
    stop while the ring was empty. Writing hands exactly the given bytes to the
    driver when the ring has room for them, and returns -1 without any effect
    when it has not. The ring is assumed to have an answer within [n] calls,
    which bounds the loop. *)
Theorem win_packets_whole (s : win) (dev : win_device) (buf : bytes) (size n fuel : nat)
    (Hw : world_ok (wn_world s)) (Hl : linked (wn_procs s)) (Hr : ring_patient n (wn_os s)) (Hf : (n <= fuel)%nat)
    (Hs : wd_session dev <> 0) (Hb : Z.of_nat size <= zlen buf) :
  (exists r buf' s' new, run (win_tun_read fuel dev buf (Z.of_nat size)) s = Some ((r, buf'), s') /\
     wn_trace s' = new ++ wn_trace s /\
     read_outcome (wn_os s) (g_running (wn_world s)) (wn_tick s) buf (Z.of_nat size) r buf' new) /\
  exists r s', run (win_tun_write dev buf (Z.of_nat size)) s = Some (r, s') /\
    if os_allocate (wn_os s) (wn_tick s) (Z.of_nat size)
    then r = Z.of_nat size /\ wn_trace s' = WSent (take size buf) :: wn_trace s
    else r = -1 /\ wn_trace s' = wn_trace s.
Proof.
  unfold win_tun_read, win_tun_write. destruct (Z.eqb_spec (wd_session dev) 0); [done|]. split.
  - destruct (Hr (wn_tick s)) as (j & Hj & Hne).
    destruct (wp_read_loop (wn_os s) (wn_dll s) (wn_procs s) Hl (g_running (wn_world s)) (wn_tick s) buf (Z.of_nat size) (wn_trace s)
      (fun '(r, buf') s' => exists new, wn_trace s' = new ++ wn_trace s /\
         read_outcome (wn_os s) (g_running (wn_world s)) (wn_tick s) buf (Z.of_nat size) r buf' new)
      ltac:(lia)) with (j := j) (fuel := fuel) (i := 0%nat) (s := s) as ([r buf'] & s' & Hrun & new & Ht & HQ).
    + intros r buf' new s' Ho [_ (_ & _ & _ & Ht)]. now exists new.
    + now right.
    + lia.
    + now rewrite Nat.add_0_r.
    + lia.
    + split; [exact Hw|]. split; [now repeat split|lia].
    + done.
    + now exists r, buf', s', new.
  - change (wp (let* got := wintun_allocate_send_packet (Z.of_nat size) in
      if negb got then Ret (-1) else let* packet := local (mem_read buf 0 (Z.of_nat size)) in wintun_send_packet packet ;; Ret (Z.of_nat size))
      (fun r s' => if os_allocate (wn_os s) (wn_tick s) (Z.of_nat size)
         then r = Z.of_nat size /\ wn_trace s' = WSent (take size buf) :: wn_trace s else r = -1 /\ wn_trace s' = wn_trace s) s).
    unfold wintun_allocate_send_packet, wintun_call. do 2 apply wp_bind.
    eexists _, _. split; [reflexivity|]. rewrite bool_decide_eq_true_2 by resolved. eexists _, _. split; [reflexivity|].
    destruct (os_allocate (wn_os s) (wn_tick s) (Z.of_nat size)); cbn [negb].
    + rewrite mem_read_some by lia. rewrite drop_0, Nat2Z.id. cbn [local bind].
      apply wp_bind. eapply wp_wintun_do; [resolved|split; [exact Hw|now repeat split]|].
      intros s2 [_ (_ & _ & _ & Ht)]. apply wp_ret. now split.
    + now apply wp_ret.
Qed.

(** * A concrete system *)

(** The adapter exists, its interface carries the address and the route that are
    asked for, the ring has one packet. *)
Definition sample_os : win_os := {|
  os_load _ := 7; os_proc _ _ := true; os_open_adapter _ := 0; os_create_adapter _ := 11; os_start_session _ := 12;
  os_read_event _ := 13; os_luid _ := 99; os_luid_name _ := (0, str "ethernet_32770");
  os_receive _ := Packet [69; 0; 0; 20]; os_allocate _ _ := true;
  os_addresses _ := Some [IpRow 99 2 (htonl 0x0A090002) 24]; os_routes _ := Some [IpRow 99 2 (htonl 0x0A090000) 24];
  os_add_route _ := 0; os_mtu _ := Some 1400; os_process _ := true; os_wait _ := true; os_exit_code _ := Some 0;
  os_message _ := (0, [])
|}.

Definition fresh_win : win := Win sample_world sample_os 0 0 [] [].
Definition blank_device : win_device := WinDevice 0 0 0 0 false (replicate 32 0) 0.

Definition open_device : win_device := WinDevice 11 12 13 99 true (str "tund" ++ [0]) TUND_TUN_MTU.
Definition open_win : win := Win sample_world sample_os 20 7 wintun_symbols [].

Lemma wintun_symbols_linked : linked wintun_symbols.
Proof. apply List.Forall_forall. intros x Hx. now apply list_elem_of_In. Qed.

Example win_open_all_or_nothing_witness :
  exists r dev' s', run (win_tun_open blank_device) fresh_win = Some ((r, dev'), s') /\
    ((r = -1 /\ dev' = unopened blank_device /\ same_handles (wn_trace s') (wn_trace fresh_win)) \/
     (r = 0 /\ opened dev' (wn_trace fresh_win) (wn_trace s') /\
      exists s2, run (win_tun_close dev') s' = Some (tt, s2) /\ same_handles (wn_trace s2) (wn_trace fresh_win))).
Proof. apply (win_open_all_or_nothing fresh_win blank_device); [exact sample_world_ok|now left]. Defined.

(** Opening succeeds on this system. *)
Example fresh_win_opens : option_map fst (run (win_tun_open blank_device) fresh_win) = Some (0, open_device).
Proof. vm_compute. reflexivity. Qed.

Example win_set_ip_effective_witness :
  let netmask := htonl (mask_bits 24) in
  exists r s' new, run (win_tun_set_ip open_device (htonl 0x0A090002) netmask) open_win = Some (r, s') /\ wn_trace s' = new ++ wn_trace open_win /\
    tidy new /\ slept new <= 4000 /\ (commands new = [] \/ commands new = [netsh_line (ip_command (str "tund") (htonl 0x0A090002) netmask)]) /\
    (r = -1 \/
     (r = 0 /\
      (exists tk rows, os_addresses (wn_os open_win) tk = Some rows /\ In (IpRow (wd_luid open_device) AF_INET (htonl 0x0A090002) 24) rows) /\
      (exists tk rows, os_routes (wn_os open_win) tk = Some rows /\
         In (IpRow (wd_luid open_device) AF_INET (htonl (Z.land (ntohl (htonl 0x0A090002)) (mask_bits 24))) 24) rows))).
Proof. apply (win_set_ip_effective open_win open_device (str "tund") (htonl 0x0A090002) 24); [exact sample_world_ok|reflexivity|cbn; lia|lia]. Defined.

(** Setting the address succeeds on this system. *)
Example open_win_configured :
  option_map fst (run (win_tun_set_ip open_device (htonl 0x0A090002) (htonl (mask_bits 24))) open_win) = Some 0.
Proof. vm_compute. reflexivity. Qed.

(** The ring is empty for two calls, then has a packet. *)
Definition slow_os : win_os := {|
  os_load := os_load sample_os; os_proc := os_proc sample_os; os_open_adapter := os_open_adapter sample_os;
  os_create_adapter := os_create_adapter sample_os; os_start_session := os_start_session sample_os;
  os_read_event := os_read_event sample_os; os_luid := os_luid sample_os; os_luid_name := os_luid_name sample_os;
  os_receive tk := if (tk <? 22)%nat then NoMoreItems else Packet [69; 0; 0; 20]; os_allocate := os_allocate sample_os;
  os_addresses := os_addresses sample_os; os_routes := os_routes sample_os; os_add_route := os_add_route sample_os;
  os_mtu := os_mtu sample_os; os_process := os_process sample_os; os_wait := os_wait sample_os;
  os_exit_code := os_exit_code sample_os; os_message := os_message sample_os
|}.

Definition slow_win : win := Win sample_world slow_os 20 7 wintun_symbols [].

(** Two sleeps, then the two bytes of the packet that fit. *)
Example slow_win_reads :
  option_map (fun '(r, s) => (r, wn_trace s)) (run (win_tun_read 30 open_device (replicate 4 7) 2) slow_win) =
  Some ((2, [69; 0; 7; 7]), [WReleased; WReceived [69; 0; 0; 20]; WSleep 500; WSleep 500]).
Proof. vm_compute. reflexivity. Qed.

Example win_packets_whole_witness :
  (exists r buf' s' new, run (win_tun_read 30 open_device (replicate 4 7) 2) slow_win = Some ((r, buf'), s') /\
     wn_trace s' = new ++ wn_trace slow_win /\ read_outcome slow_os true 20 (replicate 4 7) 2 r buf' new) /\
  exists r s', run (win_tun_write open_device (replicate 4 7) 2) slow_win = Some (r, s') /\
    (r = 2 /\ wn_trace s' = WSent [7; 7] :: wn_trace slow_win).
Proof.
  apply (win_packets_whole slow_win open_device (replicate 4 7) 2 22 30);
    [exact sample_world_ok|exact wintun_symbols_linked| |lia|discriminate|unfold zlen; cbn; lia].
  intros t. exists 22%nat. split; [lia|]. cbn [slow_win slow_os wn_os os_receive].
  rewrite (proj2 (Nat.ltb_ge (t + 22) 22)) by lia. discriminate.
Defined.

(** * Two behaviours *)

(** [ConvertInterfaceLuidToNameW] reports success by 0, and the code takes the
    name over when the status is not 0: on a system where the call succeeds the
    device is always called [tund], whatever the interface is called. *)
Theorem win_open_ignores_system_name (s : win) (dev : win_device)
    (Hw : world_ok (wn_world s)) (Hl : wn_dll s = 0 \/ linked (wn_procs s)) (Hn : forall tk, (os_luid_name (wn_os s) tk).1 = 0) :
  exists r dev' s', run (win_tun_open dev) s = Some ((r, dev'), s') /\ (r = 0 -> wd_ifname dev' = str "tund" ++ [0]).
Proof.
  destruct (wp_win_open (wn_os s) (wn_dll s) (wn_procs s) dev (wn_trace s) s
    (fun '(r, dev') _ => r = 0 -> wd_ifname dev' = str "tund" ++ [0]) Hl (win_start s Hw)) as ([r dev'] & s' & Hr & HQ).
  - done.
  - intros dll procs dev' t s' _ _ _ [H|[tk Htk]] _ _; [exact H|]. now specialize (Hn tk).
  - now exists r, dev', s'.
Qed.

(** A library in which one of the symbols is missing: the first attempt to open
    the device fails, and a second one calls through a [NULL] pointer, because
    the library counts as loaded. *)
Definition partial_os : win_os := {|
  os_load _ := 7; os_proc _ symbol := negb (bool_decide (symbol = WintunOpenAdapter)); os_open_adapter _ := 0;
  os_create_adapter _ := 11; os_start_session _ := 12; os_read_event _ := 13; os_luid _ := 99; os_luid_name _ := (0, []);
  os_receive _ := NoMoreItems; os_allocate _ _ := true; os_addresses _ := None; os_routes _ := None;
  os_add_route _ := 0; os_mtu _ := None; os_process _ := true; os_wait _ := true; os_exit_code _ := Some 0;
  os_message _ := (0, [])
|}.

Theorem wintun_load_retry_undefined :
  exists dev s', run (win_tun_open blank_device) (Win sample_world partial_os 0 0 [] []) = Some ((-1, dev), s') /\
    run (win_tun_open dev) s' = None.
Proof.
  assert (H : match run (win_tun_open blank_device) (Win sample_world partial_os 0 0 [] []) with
              | Some ((r, dev), s') => (r =? -1) && match run (win_tun_open dev) s' with None => true | Some _ => false end
              | None => false
              end = true) by (vm_compute; reflexivity).
  destruct (run (win_tun_open blank_device) _) as [[[r dev] s']|]; [|discriminate H]. bools. subst r. exists dev, s'. split; [done|].
  now destruct (run (win_tun_open dev) s').
Qed.
