(* ===== verification/Darwin.v ===== *)
(** The macOS TUN device ([tun/darwin]): a kernel control socket whose packets
    carry a four-byte address family, configured by [ioctl] and by the [route]
    command. *)
From stdpp Require Import base list numbers option.
From S2P Require Import Prelude Prog World Consts Sequence Wire Ipv4 Events Peer Net Messages Boot.

(** * Code *)

Definition UTUN_CONTROL_NAME : bytes := str "com.apple.net.utun_control".

(** [sizeof(tmp)] of [tun_read] and [tun_write]. *)
Definition FRAME_ROOM : Z := TUND_MAX_PLAINTEXT + 4.

Section darwin.
Context {S : Type} `{HW : HasWorld S}.

(** After the [ioctl] the structure holds the identifier of the control. *)
Definition darwin_tun_open (dev : tun_device_t) : prog S (Z * tun_device_t) :=
  let* fd := sys_open in
  if fd <? 0 then
    LOG LOG_LEVEL_ERROR [] ;; Ret (-1, dev)
  else
    let* ctl_name := local (strncpy (UTUN_CONTROL_NAME ++ [0]) 96) in
    let* r := sys_call (CtlInfo fd ctl_name) in
    if r <? 0 then
      LOG LOG_LEVEL_ERROR [] ;;
      sys_close fd ;;
      Ret (-1, dev)
    else
      let* ctl_id := on_world' (ask (fun e t => env_ifflags e t)) in
      let* r := sys_call (CtlConnect fd ctl_id 0) in
      if r <? 0 then
        LOG LOG_LEVEL_ERROR [] ;;
        sys_close fd ;;
        Ret (-1, dev)
      else
        let* r := sys_call (GetIfName fd) in
        if r <? 0 then
          LOG LOG_LEVEL_ERROR [] ;;
          sys_close fd ;;
          Ret (-1, dev)
        else
          let* kernel_name := on_world' (ask (fun e t => env_ifname e t)) in
          let* nm := local (mem_write (ifname dev) 0 kernel_name) in
          let dev := TunDevice fd nm TUND_TUN_MTU in
          LOG LOG_LEVEL_INFO [nm] ;; Ret (0, dev).

(** The same code as on Linux. *)
Definition darwin_tun_close (dev : tun_device_t) : prog S tun_device_t := tun_close dev.

(** The code and the buffer. *)
Definition darwin_tun_read (buf : bytes) (bufsize : Z) : prog S (Z * bytes) :=
  let* tmp := alloc FRAME_ROOM in
  let maxread := if FRAME_ROOM <? bufsize + 4 then FRAME_ROOM else bufsize + 4 in
  let* ready := on_world' (ask (fun e t => env_poll e t)) in
  if ready <=? 0 then Ret (0, buf)
  else
    let* r := on_world' (ask (fun e t => env_tun_read e t maxread)) in
    let* '(n, tmp) := local (match r with
                             | ReadData l => let? tmp := mem_write tmp 0 l in Some (zlen l, tmp)
                             | _ => Some (-1, tmp)
                             end) in
    if n <=? 4 then Ret (-1, buf)
    else
      let payload := if bufsize <? n - 4 then bufsize else n - 4 in
      let* buf := local (let? src := mem_read tmp 4 payload in mem_write buf 0 src) in
      Ret (payload, buf).

Definition darwin_tun_write (buf : bytes) (len : Z) : prog S Z :=
  let* tmp := alloc FRAME_ROOM in
  if FRAME_ROOM <? len + 4 then Ret (-1)
  else
    let af := htonl AF_INET in
    let* frame := local (
      let? tmp := mem_write tmp 0 (le_split 4 af) in
      let? src := mem_read buf 0 len in
      let? tmp := mem_write tmp 4 src in
      mem_read tmp 0 (len + 4)) in
    let* n := tun_write frame in
    if n <=? 4 then Ret (-1) else Ret (n - 4).

(** [dst_addr], in network byte order. *)
Definition darwin_peer (ip netmask : Z) : Z :=
  let net := Z.land (ntohl ip) (ntohl netmask) in
  let dst := htonl (Z.lor net 1) in
  if ip =? dst then htonl (Z.lor net 2) else dst.

(** The arguments of [execl]. *)
Definition route_argv (net_str mask_str nm : bytes) : list bytes :=
  [str "route"; str "add"; str "-net"; net_str; str "-netmask"; mask_str; str "-interface"; nm].

(** The process identifier of the child, as the parent sees it, or [-1]. *)
Definition sys_fork : prog S Z :=
  on_world' (fun w =>
    let '(r, w) := ask (fun e t => env_sys e t) w in
    let pid := if r <? 0 then -1 else r + 1 in
    (pid, emit (EvSys Fork pid) w)).

(** The parent, and what its child does until it is gone: [execl] replaces it
    by the command, or fails and is followed by [_exit(127)].  Neither the
    status of the command nor the result of [waitpid] is looked at. *)
Definition run_route (argv : list bytes) : prog S unit :=
  let* pid := sys_fork in
  if 0 <? pid then
    let* _ := sys_call (Exec argv) in
    let* _ := sys_call (WaitPid pid) in
    Ret tt
  else LOG LOG_LEVEL_WARN [].

(** [strlcpy] into a zeroed field of [IFNAMSIZ] bytes. *)
Definition strlcpy (src : bytes) (n : nat) : option bytes :=
  let? s := c_str src in Some (pad_to n (take (n - 1) s)).

Definition darwin_tun_set_ip (dev : tun_device_t) (ip netmask : Z) : prog S Z :=
  let net := Z.land (ntohl ip) (ntohl netmask) in
  let dst_addr := darwin_peer ip netmask in
  let* sock := sys_open in
  if sock <? 0 then
    LOG LOG_LEVEL_ERROR [] ;; Ret (-1)
  else
    let* ifra_name := local (strlcpy (ifname dev) (Z.to_nat IFNAMSIZ)) in
    let* r := sys_call (AliasAddr sock ifra_name ip dst_addr netmask) in
    if r <? 0 then
      LOG LOG_LEVEL_ERROR [ifname dev] ;;
      sys_close sock ;;
      Ret (-1)
    else
      sys_close sock ;;
      let* nm := local (c_str (ifname dev)) in
      run_route (route_argv (ip_to_str (htonl net)) (ip_to_str netmask) nm) ;;
      LOG LOG_LEVEL_INFO [ifname dev; ip_to_str_buf ip; ip_to_str_buf dst_addr; ip_to_str_buf netmask] ;;
      Ret 0.

Definition darwin_tun_set_mtu (dev : tun_device_t) (mtu : Z) : prog S (Z * tun_device_t) :=
  let* sock := sys_open in
  if sock <? 0 then
    LOG LOG_LEVEL_ERROR [] ;; Ret (-1, dev)
  else
    let* ifr_name := local (strncpy (ifname dev) (Z.to_nat IFNAMSIZ)) in
    let* r := sys_call (SetIfMtu sock ifr_name mtu) in
    if r <? 0 then
      LOG LOG_LEVEL_ERROR [ifname dev] ;;
      sys_close sock ;;
      Ret (-1, dev)
    else
      sys_close sock ;;
      let dev := TunDevice (tun_fd dev) (ifname dev) mtu in
      LOG LOG_LEVEL_INFO [ifname dev] ;; Ret (0, dev).
End darwin.

(** * Descriptors *)

Section accounts.
Context {S : Type} `{HW : HasWorld S} (J : list event -> S -> Prop) (ok : event -> Prop).
Context {AJ : Accounts J ok}.
Hypothesis ok_open : forall fd, ok (EvOpen fd).
Hypothesis ok_sys : forall c r, ok (EvSys c r).
Hypothesis ok_close : forall fd, ok (EvClose fd).

(** The common error path. *)
Lemma wp_give_up {A} fd cs evs t args (v : A) s (K : A -> S -> Prop) :
  succeeded cs evs -> forall c r, Forall (fun a => exists z, c_str a = Some z) args -> inv (J (EvSys c r :: evs ++ EvOpen fd :: t)) s ->
  (forall t' s', same_open t' t -> inv (J t') s' -> K v s') ->
  wp (LOG LOG_LEVEL_ERROR args ;; sys_close fd ;; Ret v) K s.
Proof.
  intros Hc c r Ha Hs HK. eapply wp_log; [exact AJ|exact Ha|exact Hs|]. intros s1 Hs1. apply wp_bind.
  eapply wp_sys_close; [exact AJ|exact ok_close|exact Hs1|]. intros s2 Hs2. apply wp_ret. eapply HK; [|exact Hs2].
  rewrite <- (same_open_session fd cs evs t Hc) at 2. intros x. reflexivity.
Qed.

Lemma wp_ask_quiet {A} t (f : env -> nat -> A) s (K : A -> S -> Prop) :
  inv (J t) s -> (forall tk s', inv (J t) s' -> K (f (w_env (get_world s)) tk) s') -> wp (on_world' (ask f)) K s.
Proof.
  intros [Hw HJ] HK. eexists _, _. split; [reflexivity|]. apply HK. split; [rewrite get_set_world; quiet|].
  apply accounts_framed; [done|quiet].
Qed.

(** Either no descriptor more than before, or the control socket. *)
Lemma wp_darwin_open t dev s (K : Z * tun_device_t -> S -> Prop) :
  dev_ok dev -> inv (J t) s ->
  (forall t' s', same_open t' t -> inv (J t') s' -> K (-1, dev) s') ->
  (forall id evs dev' s', 0 <= tun_fd dev' -> dev_ok dev' -> tun_mtu dev' = TUND_TUN_MTU ->
     succeeded [GetIfName (tun_fd dev'); CtlConnect (tun_fd dev') id 0; CtlInfo (tun_fd dev') (pad_to 96 UTUN_CONTROL_NAME)] evs ->
     inv (J (evs ++ EvOpen (tun_fd dev') :: t)) s' -> K (0, dev') s') ->
  wp (darwin_tun_open dev) K s.
Proof.
  intros [Hl _] Hs H1 H0. unfold darwin_tun_open. apply wp_bind. eapply wp_sys_open; [exact AJ|exact ok_open|exact Hs| |]; clear s Hs.
  { intros s Hs. cbn [Z.ltb Z.compare]. eapply wp_log; [exact AJ|constructor|exact Hs|]. intros s' Hs'. eapply wp_ret, H1; [reflexivity|exact Hs']. }
  intros fd s Hfd Hs. destruct (Z.ltb_spec fd 0); [lia|].
  change (strncpy (UTUN_CONTROL_NAME ++ [0]) 96) with (Some (pad_to 96 UTUN_CONTROL_NAME)). cbn [local bind].
  apply wp_bind. eapply wp_sys_call; [exact AJ|exact ok_sys|exact Hs|]. clear s Hs. intros r s _ Hs. destruct (Z.ltb_spec r 0).
  { eapply (wp_give_up fd [] []); [constructor|constructor|exact Hs|exact H1]. }
  assert (S1 : succeeded [CtlInfo fd (pad_to 96 UTUN_CONTROL_NAME)] [EvSys (CtlInfo fd (pad_to 96 UTUN_CONTROL_NAME)) r])
    by (apply succeeded_cons; [done|constructor]).
  apply wp_bind. eapply wp_ask_quiet; [exact Hs|]. cbn beta. generalize (w_env (get_world s)). clear s Hs. intros e tk s Hs.
  generalize dependent (env_ifflags e tk). intros id. apply wp_bind. eapply wp_sys_call; [exact AJ|exact ok_sys|exact Hs|]. clear s Hs.
  intros r2 s _ Hs. destruct (Z.ltb_spec r2 0).
  { eapply (wp_give_up fd _ _ t); [exact S1|constructor|exact Hs|exact H1]. }
  apply (succeeded_cons (CtlConnect fd id 0) r2) in S1; [|done].
  apply wp_bind. eapply wp_sys_call; [exact AJ|exact ok_sys|exact Hs|]. clear s Hs. intros r3 s _ Hs. destruct (Z.ltb_spec r3 0).
  { eapply (wp_give_up fd _ _ t); [exact S1|constructor|exact Hs|exact H1]. }
  apply (succeeded_cons (GetIfName fd) r3) in S1; [|done].
  apply wp_bind. pose proof (ok_kernel_name _ (proj1 (proj1 Hs))) as Hk. eapply wp_ask_quiet; [exact Hs|].
  generalize dependent (w_env (get_world s)). clear s Hs. intros e2 Hk tk2 s Hs.
  destruct (Hk tk2) as [H16 [z Hz]]. set (kn := env_ifname e2 tk2) in *.
  rewrite mem_write_some by (unfold zlen; rewrite ?H16, ?Hl; lia). change (take (Z.to_nat 0) (ifname dev)) with (@nil Z). cbn [local bind app].
  set (nm := kn ++ _). assert (Hd : dev_ok (TunDevice fd nm TUND_TUN_MTU)).
  { split; cbn; unfold nm; [rewrite length_app, length_drop, H16, Hl; cbn; lia|].
    apply c_str_spec in Hz as [_ [rest Ekn]]. rewrite Ekn, <- app_assoc. apply c_str_in_range. apply in_app_iff. right. now left. }
  eapply wp_log; [exact AJ|repeat constructor; apply Hd|exact Hs|]. intros s' Hs'. apply wp_ret.
  eapply H0; [exact Hfd|exact Hd|reflexivity|exact S1|exact Hs'].
Qed.

(** The child was created, ran the command and was waited for, or there is no
    child; newest first. *)
Definition routed (argv : list bytes) (evs : list event) : Prop :=
  evs = [EvSys Fork (-1)] \/
  exists pid status waited, 0 < pid /\ evs = [EvSys (WaitPid pid) waited; EvSys (Exec argv) status; EvSys Fork pid].

Lemma routed_balance argv evs fd : routed argv evs -> balance fd evs = 0.
Proof. now intros [->|(pid & st & wt & _ & ->)]. Qed.

Lemma wp_run_route t argv s (K : unit -> S -> Prop) :
  inv (J t) s -> (forall evs s', routed argv evs -> inv (J (evs ++ t)) s' -> K tt s') -> wp (run_route argv) K s.
Proof.
  intros Hs HK. unfold run_route. apply wp_bind.
  eexists _, _. split; [reflexivity|]. cbn beta iota zeta delta [ask]. set (r := env_sys _ _).
  set (pid := if r <? 0 then -1 else r + 1). set (w' := emit _ _).
  assert (Hs' : inv (J (EvSys Fork pid :: t)) (set_world w' s)).
  { destruct Hs as [Hw HJ]. split; [rewrite get_set_world; quiet|]. now apply accounts_event. }
  assert (Hp : pid = -1 \/ 0 < pid) by (unfold pid; destruct (Z.ltb_spec r 0); lia).
  clearbody w' pid. clear r. generalize dependent (set_world w' s). clear s Hs w'. intros s Hs.
  destruct (Z.ltb_spec 0 pid).
  - apply wp_bind. eapply wp_sys_call; [exact AJ|exact ok_sys|exact Hs|]. clear s Hs. intros st s _ Hs.
    apply wp_bind. eapply wp_sys_call; [exact AJ|exact ok_sys|exact Hs|]. clear s Hs. intros wt s _ Hs.
    apply wp_ret. eapply (HK [_; _; _]); [|exact Hs]. right. now exists pid, st, wt.
  - assert (Ep : pid = -1) by lia. rewrite Ep in Hs.
    eapply (wp_quiet J _ _ (fun _ => True)); [apply safe_LOG; [apply _|constructor]|exact Hs|]. intros [] s' Hs' _.
    eapply (HK [_]); [now left|exact Hs'].
Qed.

(** Setting the address opens and closes one socket. *)
Lemma wp_darwin_set_ip t dev nm ip mask s (K : Z -> S -> Prop) :
  c_str (ifname dev) = Some nm -> inv (J t) s ->
  (forall t' s', same_open t' t -> inv (J t') s' -> K (-1) s') ->
  (forall sock r evs s', 0 <= r ->
     routed (route_argv (ip_to_str (htonl (Z.land (ntohl ip) (ntohl mask)))) (ip_to_str mask) nm) evs ->
     inv (J (evs ++ EvClose sock :: EvSys (AliasAddr sock (pad_to 16 (take 15 nm)) ip (darwin_peer ip mask) mask) r :: EvOpen sock :: t)) s' -> K 0 s') ->
  wp (darwin_tun_set_ip dev ip mask) K s.
Proof.
  intros Hnm Hs H1 H0. unfold darwin_tun_set_ip. cbv zeta. apply wp_bind. eapply wp_sys_open; [exact AJ|exact ok_open|exact Hs| |]; clear s Hs.
  { intros s Hs. cbn [Z.ltb Z.compare]. eapply wp_log; [exact AJ|constructor|exact Hs|]. intros s' Hs'. eapply wp_ret, H1; [reflexivity|exact Hs']. }
  intros sock s Hfd Hs. destruct (Z.ltb_spec sock 0); [lia|]. unfold strlcpy. rewrite Hnm. cbn [local bind].
  assert (Hd : exists z, c_str (ifname dev) = Some z) by eauto.
  apply wp_bind. eapply wp_sys_call; [exact AJ|exact ok_sys|exact Hs|]. clear s Hs. intros r s _ Hs. destruct (Z.ltb_spec r 0).
  { eapply (wp_give_up sock [] []); [constructor|repeat constructor; exact Hd|exact Hs|exact H1]. }
  apply wp_bind. eapply wp_sys_close; [exact AJ|exact ok_close|exact Hs|]. clear s Hs. intros s Hs.
  apply wp_bind. eapply wp_run_route; [exact Hs|]. clear s Hs. intros evs s Hev Hs.
  eapply wp_log; [exact AJ|repeat constructor; auto using ip_terminated|exact Hs|].
  intros s' Hs'. apply wp_ret. eapply H0; [| |exact Hs']; done.
Qed.

Lemma wp_darwin_set_mtu t dev mtu s (K : Z * tun_device_t -> S -> Prop) :
  dev_ok dev -> inv (J t) s ->
  (forall t' s', same_open t' t -> inv (J t') s' -> K (-1, dev) s') ->
  (forall sock nm r s', strncpy (ifname dev) 16 = Some nm -> 0 <= r ->
     inv (J (EvClose sock :: EvSys (SetIfMtu sock nm mtu) r :: EvOpen sock :: t)) s' ->
     K (0, TunDevice (tun_fd dev) (ifname dev) mtu) s') ->
  wp (darwin_tun_set_mtu dev mtu) K s.
Proof.
  intros [Hl Hd] Hs H1 H0. unfold darwin_tun_set_mtu. apply wp_bind. eapply wp_sys_open; [exact AJ|exact ok_open|exact Hs| |]; clear s Hs.
  { intros s Hs. cbn [Z.ltb Z.compare]. eapply wp_log; [exact AJ|constructor|exact Hs|]. intros s' Hs'. eapply wp_ret, H1; [reflexivity|exact Hs']. }
  intros sock s Hfd Hs. destruct (Z.ltb_spec sock 0); [lia|]. change (Z.to_nat IFNAMSIZ) with 16%nat.
  destruct (strncpy_full (ifname dev) 16) as [nm Hnm]; [lia|]. rewrite Hnm. cbn [local bind].
  apply wp_bind. eapply wp_sys_call; [exact AJ|exact ok_sys|exact Hs|]. clear s Hs. intros r s _ Hs. destruct (Z.ltb_spec r 0).
  { eapply (wp_give_up sock [] []); [constructor|repeat constructor; exact Hd|exact Hs|exact H1]. }
  apply wp_bind. eapply wp_sys_close; [exact AJ|exact ok_close|exact Hs|]. clear s Hs. intros s Hs.
  eapply wp_log; [exact AJ|repeat constructor; exact Hd|exact Hs|]. intros s' Hs'. apply wp_ret. eapply H0; [done| |exact Hs']. done.
Qed.
End accounts.

(** * The peer of the point-to-point link *)

Lemma land_le_r a b : 0 <= a -> 0 <= b -> Z.land a b <= b.
Proof.
  intros Ha Hb. rewrite <- (Z2N.id a), <- (Z2N.id b), <- N2Z.inj_land by done. apply N2Z.inj_le, N.land_le_r.
Qed.

Lemma lor_low m k : 0 <= m -> Z.land m 3 = 0 -> k = 1 \/ k = 2 -> Z.lor m k = m + k.
Proof.
  intros Hm H3 Hk. symmetry. rewrite <- Z.lxor_lor.
  - apply Z.add_nocarry_lxor. destruct Hk as [->| ->].
    + replace (Z.land m 1) with (Z.land (Z.land m 3) 1) by now rewrite <- Z.land_assoc. now rewrite H3.
    + replace (Z.land m 2) with (Z.land (Z.land m 3) 2) by now rewrite <- Z.land_assoc. now rewrite H3.
  - destruct Hk as [->| ->].
    + replace (Z.land m 1) with (Z.land (Z.land m 3) 1) by now rewrite <- Z.land_assoc. now rewrite H3.
    + replace (Z.land m 2) with (Z.land (Z.land m 3) 2) by now rewrite <- Z.land_assoc. now rewrite H3.
Qed.

(** Another host of the same network, the first or the second. *)
Lemma darwin_peer_spec ip mask :
  is_u32 ip -> Z.land (ntohl mask) 3 = 0 ->
  let net := Z.land (ntohl ip) (ntohl mask) in
  darwin_peer ip mask <> ip /\
  (ntohl (darwin_peer ip mask) = net + 1 \/ ntohl (darwin_peer ip mask) = net + 2) /\
  Z.land (ntohl (darwin_peer ip mask)) (ntohl mask) = net.
Proof.
  intros Hip H3 net. pose proof (ntohl_is_u32 mask) as Hm. pose proof (ntohl_is_u32 ip) as Hi.
  assert (Hnet : 0 <= net <= ntohl mask).
  { unfold net. words. split; [apply Z.land_nonneg; lia|]. apply land_le_r; lia. }
  assert (Hn3 : Z.land net 3 = 0) by (unfold net; rewrite <- Z.land_assoc, H3; apply Z.land_0_r).
  assert (Hlow : ntohl mask + 3 < 2 ^ 32).
  { words. assert (ntohl mask <= 2 ^ 32 - 4); [|lia]. destruct (Z.le_gt_cases (ntohl mask) (2 ^ 32 - 4)); [done|].
    assert (E : ntohl mask = 2 ^ 32 - 1 \/ ntohl mask = 2 ^ 32 - 2 \/ ntohl mask = 2 ^ 32 - 3) by lia.
    destruct E as [E|[E|E]]; rewrite E in H3; discriminate H3. }
  assert (Hu : forall k, k = 1 \/ k = 2 -> ntohl (htonl (Z.lor net k)) = net + k).
  { intros k Hk. rewrite lor_low by (done || lia). apply ntohl_htonl. words. lia. }
  assert (Hin : forall k, k = 1 \/ k = 2 -> Z.land (net + k) (ntohl mask) = net).
  { intros k Hk. rewrite <- lor_low by (done || lia). rewrite Z.land_lor_distr_l.
    assert (Z.land k (ntohl mask) = 0) as ->.
    { rewrite Z.land_comm. destruct Hk as [->| ->].
      - replace 1 with (Z.land 3 1) by done. now rewrite Z.land_assoc, H3.
      - replace 2 with (Z.land 3 2) by done. now rewrite Z.land_assoc, H3. }
    rewrite Z.lor_0_r. unfold net. now rewrite <- Z.land_assoc, Z.land_diag. }
  unfold darwin_peer. fold net. destruct (Z.eqb_spec ip (htonl (Z.lor net 1))) as [E|E].
  - rewrite (Hu 2) by auto. split; [|auto]. intros E2.
    assert (E3 : htonl (Z.lor net 2) = htonl (Z.lor net 1)) by congruence. apply (f_equal ntohl) in E3.
    rewrite (Hu 2), (Hu 1) in E3 by auto. lia.
  - rewrite (Hu 1) by auto. split; [congruence|auto].
Qed.

(** * Properties *)

(** The frame of a packet: its address family, in network byte order, before it. *)
Definition utun_frame (pkt : bytes) : bytes := [0; 0; 0; 2] ++ pkt.

Lemma zlen_frame pkt : zlen (utun_frame pkt) = 4 + zlen pkt.
Proof. unfold utun_frame. now rewrite zlen_app. Qed.

(** The bytes assembled in [tmp]. *)
Lemma frame_bytes tmp buf len :
  0 <= len <= zlen buf -> zlen tmp = FRAME_ROOM -> len + 4 <= FRAME_ROOM ->
  (let? tmp := mem_write tmp 0 (le_split 4 (htonl AF_INET)) in
   let? src := mem_read buf 0 len in
   let? tmp := mem_write tmp 4 src in
   mem_read tmp 0 (len + 4)) = Some (utun_frame (take (Z.to_nat len) buf)).
Proof.
  intros Hl Ht Hr. change (le_split 4 (htonl AF_INET)) with [0; 0; 0; 2].
  destruct (split_at 4 tmp) as (a & rest & -> & Ha); [unfold zlen in *; lia|]. rewrite zlen_app in Ht.
  rewrite (mem_write_at [] a rest); [|done|done|now rewrite Ha]. rewrite mem_read_some by lia. rewrite drop_0.
  assert (Hlen : length (take (Z.to_nat len) buf) = Z.to_nat len) by (rewrite length_take; unfold zlen in *; lia).
  destruct (split_at (Z.to_nat len) rest) as (b & rest' & -> & Hb); [unfold zlen in *; lia|]. cbn [app].
  rewrite (mem_write_at [0; 0; 0; 2] b rest'); [|done|done|congruence].
  rewrite (mem_read_at _ [] (utun_frame (take (Z.to_nat len) buf)) rest'); [done|unfold utun_frame; now rewrite <- !app_assoc|done|].
  rewrite zlen_frame. unfold zlen. lia.
Qed.

Lemma run_alloc n (w : world) : 0 <= n -> exists tmp, run (alloc n) w = Some (tmp, tick w) /\ zlen tmp = n.
Proof.
  intros Hn. eexists. split; [reflexivity|]. unfold zlen. rewrite length_map, length_seq. lia.
Qed.

(** C29: a packet written to the macOS device leaves as one frame with the
    IPv4 address family, and when the kernel delivers this frame, of which a
    read of [n] bytes returns the first [n], reading the device into a buffer
    with room for the packet returns exactly the packet, without the family and
    without a byte less or more. *)
Theorem darwin_frames_roundtrip (w w2 : world) (buf dst : bytes) (len size : Z)
    (Hl : 1 <= len <= zlen buf) (Hm : len <= TUND_MAX_PLAINTEXT) (Hs : len <= size <= zlen dst)
    (Hpoll : 0 < env_poll (w_env w2) (S (w_tick w2)))
    (Hread : forall n, env_tun_read (w_env w2) (S (S (w_tick w2))) n =
       ReadData (take (Z.to_nat n) (utun_frame (take (Z.to_nat len) buf)))) :
  (exists r w', run (darwin_tun_write buf len) w = Some (r, w') /\
     w_trace w' = EvTunWrite (utun_frame (take (Z.to_nat len) buf)) :: w_trace w) /\
  exists w3, run (darwin_tun_read dst size) w2 =
    Some ((len, take (Z.to_nat len) buf ++ drop (Z.to_nat len) dst), w3).
Proof.
  assert (Hroom : 0 <= FRAME_ROOM /\ len + 4 <= FRAME_ROOM) by (unfold FRAME_ROOM; clia). split.
  - unfold darwin_tun_write. destruct (run_alloc FRAME_ROOM w ltac:(lia)) as (tmp & Hr & Ht). rewrite run_bind, Hr.
    destruct (Z.ltb_spec FRAME_ROOM (len + 4)); [lia|]. cbv zeta. rewrite frame_bytes by lia. cbn [local bind].
    rewrite run_bind. cbn. destruct (_ <=? 4); eexists _, _; (split; [reflexivity|done]).
  - unfold darwin_tun_read. destruct (run_alloc FRAME_ROOM w2 ltac:(lia)) as (tmp & Hr & Ht). rewrite run_bind, Hr. cbv zeta.
    set (pkt := take (Z.to_nat len) buf) in *.
    assert (Hp : zlen pkt = len) by (unfold pkt, zlen in *; rewrite length_take; lia).
    cbn [run bind on_world' on_world atomic ask get_world set_world world_has_world tick w_env w_tick].
    destruct (Z.leb_spec (env_poll (w_env w2) (S (w_tick w2))) 0); [lia|].
    cbn [run bind on_world' on_world atomic ask get_world set_world world_has_world tick w_env w_tick]. rewrite Hread.
    pose proof (zlen_frame pkt). set (maxread := if FRAME_ROOM <? size + 4 then FRAME_ROOM else size + 4).
    assert (Hmax : len + 4 <= maxread) by (unfold maxread; destruct (Z.ltb_spec FRAME_ROOM (size + 4)); lia).
    rewrite (take_ge (utun_frame pkt)) by (unfold zlen in *; lia). destruct (split_at (length (utun_frame pkt)) tmp) as (a & rest & -> & Ha); [unfold zlen in *; lia|].
    rewrite (mem_write_at [] a rest); [|done|done|congruence]. cbn [local bind app].
    destruct (Z.leb_spec (zlen (utun_frame pkt)) 4); [lia|].
    replace (if size <? zlen (utun_frame pkt) - 4 then size else zlen (utun_frame pkt) - 4) with len
      by (destruct (Z.ltb_spec size (zlen (utun_frame pkt) - 4)); lia).
    rewrite (mem_read_at _ [0; 0; 0; 2] pkt rest); [|unfold utun_frame; now rewrite <- app_assoc|done|lia].
    destruct (split_at (Z.to_nat len) dst) as (d1 & d2 & -> & Hd1); [unfold zlen in *; lia|].
    rewrite (mem_write_at [] d1 d2); [|done|done|unfold zlen in Hp; lia]. cbn [local bind run app].
    rewrite drop_app_length' by done. now eexists.
Qed.

Example darwin_frames_roundtrip_witness :
  let e := Env (env_open sample_env) (env_read sample_env) 0 (env_time sample_env) (env_now_ms sample_env)
    (env_sendto sample_env) (env_recvfrom sample_env) (fun _ => 1) (env_poll_eintr sample_env)
    (fun _ n => ReadData (take (Z.to_nat n) (utun_frame (take 20 sample_packet)))) (env_tun_write sample_env) (env_stack sample_env) (env_sys sample_env)
    (env_ifname sample_env) (env_ifflags sample_env) (env_resolve sample_env) in
  let w2 := World e 0 0 (-1) true (replicate 32 7) LOG_LEVEL_INFO false true [] in
  (exists r w', run (darwin_tun_write sample_packet 20) sample_world = Some (r, w') /\
     w_trace w' = EvTunWrite (utun_frame (take 20 sample_packet)) :: w_trace sample_world) /\
  exists w3, run (darwin_tun_read (replicate 20 0) 20) w2 = Some ((20, take 20 sample_packet ++ []), w3).
Proof.
  intros e w2. apply (darwin_frames_roundtrip sample_world w2 sample_packet (replicate 20 0) 20 20);
    [split; [lia|unfold zlen; cbn; lia]|clia|unfold zlen; cbn; lia|reflexivity|reflexivity].
Defined.

(** The books of a bare process. *)
#[local] Instance world_accounts : Accounts (books (fun _ : world => True)) (fun _ => True).
Proof.
  split; [intros t w s H Hq; now apply (quiet_books (fun _ => True) t s)|].
  intros t e w s H He _ E1 E2 E3 E4. now apply (books_event (fun _ => True) t e s).
Qed.

(** C30: opening the macOS device and setting its address are all or nothing
    with respect to descriptors: opening fails with the same descriptors open,
    or leaves exactly the control socket open, after the control was found,
    connected and named; setting the address leaves the same descriptors open
    in any case, and when it succeeds the kernel accepted the address together
    with the peer, and either the [route] command for the network was run in a
    child that was waited for, or there was no child because [fork] failed.
    When the mask leaves at least two host bits free, the peer is another host
    of the same network. *)
Theorem darwin_device_configured (w : world) (dev : tun_device_t) (nm : bytes) (ip mask : Z)
    (Hw : world_ok w) (Hd : dev_ok dev) (Hnm : c_str (ifname dev) = Some nm) (Hip : is_u32 ip) :
  let net := Z.land (ntohl ip) (ntohl mask) in
  (exists r dev' w', run (darwin_tun_open dev) w = Some ((r, dev'), w') /\
     ((r = -1 /\ dev' = dev /\ same_open (w_trace w') (w_trace w)) \/
      (r = 0 /\ 0 <= tun_fd dev' /\ dev_ok dev' /\ tun_mtu dev' = TUND_TUN_MTU /\
       exists id evs, succeeded [GetIfName (tun_fd dev'); CtlConnect (tun_fd dev') id 0; CtlInfo (tun_fd dev') (pad_to 96 UTUN_CONTROL_NAME)] evs /\
         devices w' = evs ++ EvOpen (tun_fd dev') :: devices w))) /\
  (exists r w', run (darwin_tun_set_ip dev ip mask) w = Some (r, w') /\ same_open (w_trace w') (w_trace w) /\
    (r = -1 \/
     (r = 0 /\ exists sock status evs, 0 <= status /\
        routed (route_argv (ip_to_str (htonl net)) (ip_to_str mask) nm) evs /\
        devices w' = evs ++ [EvClose sock; EvSys (AliasAddr sock (pad_to 16 (take 15 nm)) ip (darwin_peer ip mask) mask) status; EvOpen sock] ++ devices w))) /\
  (Z.land (ntohl mask) 3 = 0 -> darwin_peer ip mask <> ip /\ Z.land (ntohl (darwin_peer ip mask)) (ntohl mask) = net).
Proof.
  intros net. assert (Hs : inv (books (fun _ : world => True) (devices w)) w) by (split; [exact Hw|now split]).
  assert (Hopen : forall t w', devices w' = t -> same_open t (devices w) -> same_open (w_trace w') (w_trace w)).
  { intros t w' <- Ht fd. rewrite <- (balance_devices fd (w_trace w')), <- (balance_devices fd (w_trace w)). apply Ht. }
  split; [|split; [|intros Hm; destruct (darwin_peer_spec ip mask Hip Hm) as (Hne & _ & Hnet); done]].
  - destruct (wp_darwin_open (books (fun _ : world => True)) (fun _ => True) ltac:(done) ltac:(done) ltac:(done) (devices w) dev w
      (fun '(r, dev') w' => (r = -1 /\ dev' = dev /\ same_open (w_trace w') (w_trace w)) \/
        (r = 0 /\ 0 <= tun_fd dev' /\ dev_ok dev' /\ tun_mtu dev' = TUND_TUN_MTU /\
         exists id evs, succeeded [GetIfName (tun_fd dev'); CtlConnect (tun_fd dev') id 0; CtlInfo (tun_fd dev') (pad_to 96 UTUN_CONTROL_NAME)] evs /\
           devices w' = evs ++ EvOpen (tun_fd dev') :: devices w)) Hd Hs)
      as ([r dev'] & w' & Hr & HQ); [| |now exists r, dev', w'].
    + intros t w' Ht [_ [_ Hdv]]. left. split; [done|]. split; [done|]. now apply (Hopen t).
    + intros id evs dev' w' Hf Hd' Hmtu Hev [_ [_ Hdv]]. right. do 4 (split; [done|]). now exists id, evs.
  - destruct (wp_darwin_set_ip (books (fun _ : world => True)) (fun _ => True) ltac:(done) ltac:(done) ltac:(done) (devices w) dev nm ip mask w
      (fun r w' => same_open (w_trace w') (w_trace w) /\ (r = -1 \/
        (r = 0 /\ exists sock status evs, 0 <= status /\
          routed (route_argv (ip_to_str (htonl net)) (ip_to_str mask) nm) evs /\
          devices w' = evs ++ [EvClose sock; EvSys (AliasAddr sock (pad_to 16 (take 15 nm)) ip (darwin_peer ip mask) mask) status; EvOpen sock] ++ devices w))) Hnm Hs)
      as (r & w' & Hr & HQ); [| |now exists r, w'].
    + intros t w' Ht [_ [_ Hdv]]. split; [now apply (Hopen t)|now left].
    + intros sock r evs w' Hr Hev [_ [_ Hdv]]. split; [|right; split; [done|]; now exists sock, r, evs].
      apply (Hopen _ _ Hdv). intros fd. rewrite balance_app, (routed_balance _ _ fd Hev). cbn [balance]. lia.
Qed.

Example darwin_device_configured_witness :
  let dev := TunDevice 3 (pad_to 32 (str "utun4")) 1400 in let ip := htonl 0x0A090001 in let mask := htonl TUND_NETMASK in
  option_map fst (run (darwin_tun_set_ip dev ip mask) sample_world) = Some 0 /\
  (exists r w', run (darwin_tun_set_ip dev ip mask) sample_world = Some (r, w') /\ same_open (w_trace w') (w_trace sample_world) /\
    (r = -1 \/
     (r = 0 /\ exists sock status evs, 0 <= status /\
        routed (route_argv (ip_to_str (htonl 0x0A090000)) (ip_to_str mask) (str "utun4")) evs /\
        devices w' = evs ++ [EvClose sock; EvSys (AliasAddr sock (pad_to 16 (str "utun4")) ip (htonl 0x0A090002) mask) status; EvOpen sock] ++ []))) /\
  darwin_peer ip mask <> ip.
Proof.
  intros dev ip mask. split; [vm_compute; reflexivity|].
  destruct (darwin_device_configured sample_world dev (str "utun4") ip mask) as (_ & H2 & H3);
    [exact sample_world_ok|split; [reflexivity|now exists (str "utun4")]|reflexivity|apply htonl_is_u32|].
  split; [exact H2|]. apply H3. reflexivity.
Defined.
